(* ===== verification/_CoqProject ===== *)
-Q . S2P
Prelude.v
PyStr.v
Enums.v
Errors.v
PyDecimal.v
PyTime.v
Json.v
Billing.v
Placement.v
PyFloat.v
ContractsBase.v
JsonText.v
CodecBase.v
Quote.v
CatalogRequest.v
Evidence.v
Lease.v
Row.v
PodBilling.v
Repository.v
World.v
Provider.v
ServiceCore.v
ServiceAcquire.v
ServiceWorkload.v
ServiceReconcile.v
Evolves.v
Logic.v
SafetyCore.v
SafetyAcquire.v
SafetyReconcile.v
Scenario.v
ServiceProperties.v
RepositoryProperties.v
WorkflowProperties.v
Custody.v
ContractProperties.v
ProviderProperties.v
Reconciler.v
Findings.v
ServerlessSpec.v
ServerlessQuote.v
ServerlessLifecycle.v
ServerlessCosts.v
ServerlessStored.v
Prog.v
ServerlessCatalog.v
ServerlessHours.v
ServerlessProvider.v
ServerlessCustody.v
ServerlessSettlement.v
ServerlessSelection.v
ServerlessProperties.v
SettlementProperties.v
OllamaContracts.v
OllamaLeases.v
OllamaRepository.v
OllamaRuntime.v
OllamaProvider.v
OllamaService.v
OllamaLogic.v
OllamaSafety.v
OllamaOperations.v
OllamaSelection.v
OllamaCapacity.v
OllamaTermination.v
OllamaHistory.v
OllamaProperties.v
OllamaProviderProperties.v
RestModels.v
RestClient.v
DirectProvider.v
RestSafety.v
RestProperties.v
CpuCatalog.v
CpuPlanning.v
CpuProperties.v
SignedReceipts.v
SignedProperties.v
DogfoodContracts.v
