(* ===== verification/Prelude.v ===== *)
(** * Kestrel cloud runpod: a verification library

    The package under [src/kestrel_cloud_runpod/] rents GPU capacity for an agent
    platform. Its core is money and custody: a resource is created only for a durable
    claim, torn down exactly once, billed to the exact cent and never lost. This library
    models that core and proves what it promises.

    ** The program and its model

    Three lanes share the lower layers.

    The Pod lane leases one GPU Pod per catalog attempt or training job.
    [pod_capacity_contracts.py] holds the records, [pod_capacity_repository.py] the lease
    table, [pod_capacity_provider.py] the boundary to the direct provider,
    [pod_capacity_service.py] the operations (acquire, submit, observe, acknowledge,
    release, reconcile) and [pod_capacity_reconciler.py] the periodic command. In the
    model: [Quote], [CatalogRequest], [Evidence], [Lease] (contracts), [Row] and
    [Repository] (the table and its transactions), [Provider], [World] (the
    monad and the host), [ServiceCore], [ServiceAcquire], [ServiceWorkload],
    [ServiceReconcile] (one definition per method of [PodCapacityLeaseService]) and
    [Reconciler].

    The Serverless lane quotes, creates, adopts, authorizes, deletes and settles planned
    endpoints: [serverless_capacity_contracts.py] is [ServerlessSpec], [ServerlessQuote],
    [ServerlessLifecycle] and [ServerlessCosts]; [serverless_capacity_provider.py] is
    [ServerlessCatalog], [ServerlessHours] (its pure parts) and
    [ServerlessProvider] (the methods of [RunpodServerlessCapacityProvider], as programs
    of calls over [Prog]).

    The Ollama lane leases a private model server to a chat session, on a Pod or a load
    balanced endpoint. [ollama_contracts.py] is [OllamaContracts] (request, plan, cost
    policy, the choice of a plan), [OllamaLeases] (the lease, its cost exposure and
    the redaction of errors); [ollama_repository.py] is
    [OllamaRepository]; [ollama_runtime.py] is [OllamaRuntime]; [ollama_service.py] is
    [OllamaService], one definition per method of [OllamaLeaseService];
    [ollama_provider.py] is [OllamaProvider]. [OllamaHistory] composes the last two: the
    provider calls of the service run the programs of the provider.

    The lanes reach the provider through the REST layer. [clients.py] is [RestClient]
    (requests with their retries, and one program of wire calls per method of the two
    clients) over the payload readers of [RestModels] ([models.py]); [providers.py] is
    [DirectProvider], which runs one method of the client for each effect of the Pod
    provider, and one for each call of the Ollama provider.

    The CPU lane plans a browser environment on a CPU Pod: [cpu_catalog.py] is [CpuCatalog]
    (offers, snapshots, the match of a request), [cpu_environment.py] and
    [cpu_realized.py] are [CpuPlanning] (profile, cost policy, plan with its price, the
    planner as a program of clock and catalog calls, run on the wire by the client, and
    the readiness check). The environment request and the field types of its SDK are the
    class [EnvironmentSdk].

    [signed_invocations.py], which imports nothing of the lanes, is [SignedReceipts]: the
    canonical JSON that is signed ([JsonText] reads texts back), requests, receipts,
    trusts and responses, the verifier and the signer. [dogfood_contracts.py], built on it,
    is [DogfoodContracts]: the plans, attempts, spend quotes and observations of a live
    run, and the content-free evidence made of them.

    Below them: [billing.py] is [Billing], [placement.py] and the catalog types of
    [models.py] are [Placement], [pod_billing.py] is [PodBilling]; Python's own types are
    [PyStr], [PyDecimal], [PyFloat] (with numbers that are [int] or [float]), [PyTime] and [Json]; [Enums] and [Errors] hold the
    enumerations and the exception classes; [ContractsBase] and [CodecBase] the field
    validators and readers, and the interface [Stored] of contracts that read back.
    Definitions keep the source's names, less a leading underscore.

    ** How state and effects are modelled

    An exception is a value ([Errors.result]); a class hierarchy is a family of boolean
    tests. A Pod operation runs in [World.M]: a world is the lease table, a count of
    effects and the trace of outside calls with the table they were made on. The [Host]
    answers every call, clock reading and cancellation by that count, so answers are
    unconstrained and independent; before every transaction it may also replace the table
    by what other processes committed. Theorems assume of it only [Logic.rely]: the other
    processes keep the table well formed and let rows evolve, as this very service does,
    and a billing receipt is a constructed one. A Serverless operation is a tree of calls
    ([Prog.prog]); [Prog.run] executes it against an arbitrary host and [Prog.wp] is its
    weakest precondition for a condition on recorded calls, so a theorem speaks of every
    execution. The Ollama service is such a tree too, run on a state ([Prog.exec]):
    its world ([OllamaLogic.OllamaWorld]) is the lease table, a count of calls and the
    log of the provider calls made; the [OllamaHost] answers by that count and may
    rewrite the table before every transaction, under [OllamaLogic.ollama_rely] only.
    [Prog.swp] is the weakest precondition there, with what each call is owed
    before it is made; [OllamaHistory] runs any sequence of operations.

    An integer is a [Z] (Python's are unbounded). A [Decimal] is a signed coefficient and
    exponent, an infinity or NaN, with contexts, division, quantization and rounding
    written out; negative zero is not distinguished from zero. A float is the decimal its
    [repr] denotes; rounding to binary64 is exact ([PyFloat]). An aware [datetime] is a
    number of microseconds since the epoch; an offset other than UTC is normalized when
    read. A string is a list of code points below 256. A JSON object is an association
    list in insertion order. SHA-256 over canonical text ([Digest]) and name-based UUIDs
    ([NameUuid]) are parameters: their only laws are the shape of a digest, and, where a
    theorem names it, that a witness instantiates. Field blocks the source repeats in
    several classes are one record here ([QuoteTerms], [RequestTerms], [CostAmounts]).

    A table maps a key to the lease its row was written from, and every read goes through
    the row: [Repository.load] and [OllamaRepository.ollama_load] write the columns
    ([Row.lease_to_row], [ollama_to_row]) and decode them as [_lease_from_row] does, and
    answer the lease only when the decoding does. A row can be refused: the readers are
    stricter than the constructors, so an operation that reads a table may fail
    on it, which the theorems on reconciliation say ([unreadable], [unreadable_row]).
    What is put in place of the attempt environment's values when a row is written
    ([Row.redact_lease]) does not show in the lease answered, and no operation reads them.

    ** Fuel

    [while True] compare-and-set loops of the service take fuel and end in [OutOfFuel],
    which is no manager error, so no handler catches it;
    [RepositoryProperties.transition_loop_ends] shows that two more attempts are enough
    once other writers pause. The hour loops ([ServerlessCosts.hour_loop],
    [ServerlessProvider.read_batches]) get the number of hours of their window, which is
    enough ([SettlementProperties.hour_starts_are_the_touched_hours],
    [SettlementProperties.complete_history_is_answered]). The readiness wait of the
    Ollama service polls until a deadline: [OllamaProperties.ollama_wait_ends] shows that
    the microseconds left are enough rounds on any host where calls take time. Other
    recursion is structural.

    ** What is proved

    - Histories of the lease service ([Evolves], [Logic], [SafetyCore] to
      [SafetyReconcile], stated in [ServiceProperties]): rows stay valid and unique,
      evidence accumulates, and every outside call is made on a table that justifies it.
    - Refinement ([Custody]): every history is a run of an abstract custody machine.
    - The table ([RepositoryProperties]): one winner per revision, idempotent
      reservation, the end of the loops. Single operations ([WorkflowProperties]), and
      the reconciliation pass: the failure of one lease is noted on it and the pass goes
      on, unless a row does not read ([blank_member_stops_reconciliation] shows one).
    - Contracts ([ContractProperties], [ServerlessStored]): round trips and invariants.
    - Money ([ContractProperties], [SettlementProperties]): exact costs, closed hours behind
      every receipt, the split of an ambiguous charge.
    - The provider boundaries ([ProviderProperties], [ServerlessProperties] on
      [ServerlessCustody]): what was observed before a create or delete call, and what a
      receipt stands for. The command ([Reconciler]).
    - Histories of the Ollama service ([OllamaLogic], [OllamaSafety],
      [OllamaOperations], stated in [OllamaProperties]): rows evolve along the allowed
      transitions, a create call follows a durable claim, termination follows the
      deletion, a route is answered only as observed, an update reads
      back from its row, and the reconciler isolates failures.
    - The Ollama provider ([OllamaSelection], [OllamaCapacity], stated in
      [OllamaProviderProperties]): the cheapest affordable plan, scoped creations, proved
      absence, private readiness, and the composition of service and provider.
    - The REST layer ([RestSafety], stated in [RestProperties]): only reads are repeated,
      a creation that failed for certain took no Pod, an absent name is absent from the
      whole inventory, nothing of an answer's credentials is kept, an identifier is one
      segment of a path; and service, Ollama provider and client compose: a terminated
      lease's resource was answered 404 on the wire.
    - CPU environments ([CpuProperties]): a match rests on known facts, a plan's request
      stays within the price ceilings for every admitted duration, the planner sends one
      catalog query and nothing else, a running Pod is exactly as planned, and a
      contradiction is final.
    - Signed receipts ([SignedProperties]): a verified receipt was signed by the pinned
      key over its own fields, a signed text binds one receipt, an issued receipt
      verifies, contracts read back, only the module's own error leaves it.
    - Live runs ([DogfoodContracts]): contracts read back, only the module's own error
      leaves it, and which texts keep a valid observation from becoming evidence.
    - [Scenario], [ServerlessScenario] and [OllamaScenario] execute one whole life of each
      lane; witnesses apply the theorems on them. [Findings], the end of
      [SettlementProperties], [OllamaLeases.quoted_secret_kept] and
      [OllamaProviderProperties.ProviderScenario.malformed_cuda_floor_stops_reconciliation]
      prove behaviours the code does not intend.

    ** What is not modelled

    Of the clients: server-sent events, the checks of the constructors
    and the length of a pause; an answer of [httpx] is a status, headers and what its body
    reads as. The managed provider. Elliptic curves: Ed25519 and the digest of raw bytes
    are parameters of [SignedReceipts]. The SQLite schema, connections and files: a repository is a
    finite map with its unique indexes; schema migration, paths and the Ollama
    configuration ([ollama.py], [ollama_reconciler.py]) are left out. Import of a factory, the file lock and the event
    loop of the reconciler. Task ownership of [effect_custody.py] beyond the order of an
    effect's outcome and a cancellation. Objects handed to the dogfood contracts that run
    code of their own inside a check. The private inference provider and the agent-facing
    tools ([feature.py], [core.py], [manager.py],
    [training.py]); re-export modules, TLS and scripts carry no logic of this kind. *)
From stdpp Require Export base tactics numbers list gmap strings option.
From Stdlib Require Export ZArith Lia.

(** ** Scopes and notations *)

Declare Scope kestrel_scope.
Delimit Scope kestrel_scope with kestrel.

(** ** Tactics *)

(** Split a conjunction of boolean tests in a hypothesis into its parts. *)
Ltac split_bools :=
  repeat match goal with
  | H : (_ && _)%bool = true |- _ => apply andb_prop in H; destruct H
  | H : (_ || _)%bool = false |- _ => apply orb_false_elim in H; destruct H
  | H : negb _ = true |- _ => apply negb_true_iff in H
  | H : negb _ = false |- _ => apply negb_false_iff in H
  | H : (_ <=? _)%Z = true |- _ => apply Z.leb_le in H
  | H : (_ <? _)%Z = true |- _ => apply Z.ltb_lt in H
  | H : (_ =? _)%Z = true |- _ => apply Z.eqb_eq in H
  | H : (_ <=? _)%Z = false |- _ => apply Z.leb_gt in H
  | H : (_ <? _)%Z = false |- _ => apply Z.ltb_ge in H
  | H : (_ =? _)%Z = false |- _ => apply Z.eqb_neq in H
  | H : bool_decide _ = true |- _ => apply bool_decide_eq_true_1 in H
  | H : bool_decide _ = false |- _ => apply bool_decide_eq_false_1 in H
  end.

(** Case analysis on the innermost scrutinee of a [match] or [if]. *)
Ltac inner_scrut t k :=
  lazymatch t with
  | context [match ?u with _ => _ end] => inner_scrut u k
  | _ => k t
  end.

Ltac destr_match_in H :=
  match type of H with
  | context [match ?u with _ => _ end] =>
      inner_scrut u ltac:(fun s => let E := fresh "E" in destruct s eqn:E)
  end.

Ltac destr_match :=
  match goal with
  | |- context [match ?u with _ => _ end] =>
      inner_scrut u ltac:(fun s => let E := fresh "E" in destruct s eqn:E)
  end.

Create HintDb kestrel.

(** ** Generic lemmas *)

Lemma bool_decide_true_eq (P : Prop) `{Decision P} : P -> bool_decide P = true.
Proof. apply bool_decide_eq_true_2. Qed.

Lemma bool_decide_false_eq (P : Prop) `{Decision P} : ~ P -> bool_decide P = false.
Proof. apply bool_decide_eq_false_2. Qed.


(** ** Options *)

Definition option_all {A} (f : A -> bool) (o : option A) : bool :=
  match o with Some a => f a | None => true end.

Definition is_some {A} (o : option A) : bool := match o with Some _ => true | None => false end.

Definition opt_prop {A} (P : A -> Prop) (o : option A) : Prop :=
  match o with Some a => P a | None => True end.

(** Ceiling of a quotient, as [decimal.ROUND_CEILING] needs it. *)
Definition cdiv (a b : Z) : Z := (- ((- a) / b))%Z.

Lemma cdiv_spec (a b : Z) :
  (0 < b)%Z -> (b * (cdiv a b - 1) < a <= b * cdiv a b)%Z.
Proof.
  intros Hb. unfold cdiv.
  pose proof (Z.div_mod (- a) b ltac:(lia)).
  pose proof (Z.mod_pos_bound (- a) b Hb). nia.
Qed.

Lemma cdiv_unique (a b q : Z) :
  (0 < b)%Z -> (b * (q - 1) < a <= b * q)%Z -> cdiv a b = q.
Proof. intros Hb Hq. pose proof (cdiv_spec a b Hb). nia. Qed.

Lemma cdiv_pos (a b : Z) : (0 < b)%Z -> (0 < a)%Z -> (0 < cdiv a b)%Z.
Proof. intros Hb Ha. pose proof (cdiv_spec a b Hb). nia. Qed.

Lemma cdiv_le (a a' b : Z) : (0 < b)%Z -> (a <= a')%Z -> (cdiv a b <= cdiv a' b)%Z.
Proof. intros Hb Ha. pose proof (cdiv_spec a b Hb). pose proof (cdiv_spec a' b Hb). nia. Qed.

(** Powers of ten. *)
Definition p10 (n : Z) : Z := (10 ^ n)%Z.

Lemma p10_pos (n : Z) : (0 <= n)%Z -> (0 < p10 n)%Z.
Proof. intros. unfold p10. apply Z.pow_pos_nonneg; lia. Qed.

Lemma p10_add (a b : Z) : (0 <= a)%Z -> (0 <= b)%Z -> p10 (a + b) = (p10 a * p10 b)%Z.
Proof. intros. unfold p10. by apply Z.pow_add_r. Qed.

Lemma p10_le (a b : Z) : (0 <= a <= b)%Z -> (p10 a <= p10 b)%Z.
Proof. intros. unfold p10. apply Z.pow_le_mono_r; lia. Qed.

Lemma p10_lt_inv (a b : Z) : (0 <= b)%Z -> (p10 a < p10 b)%Z -> (a < b)%Z.
Proof. intros Hb. unfold p10. apply Z.pow_lt_mono_r_iff; lia. Qed.

#[export] Hint Resolve p10_pos : kestrel.
