(* ===== verification/PyStr.v ===== *)
(** Python [str] operations used by the source, on Rocq strings.

    A string is a list of code points below 256 (one [ascii] each): identifiers,
    digests, enum values and provider names are ASCII in every contract of the
    source; wider code points are outside the model. *)
From S2P Require Import Prelude.
From Stdlib Require Import Ascii.

#[global] Open Scope string_scope.

Definition code (c : ascii) : Z := Z.of_N (N_of_ascii c).

Definition in_range (lo hi : Z) (c : ascii) : bool :=
  (lo <=? code c)%Z && (code c <=? hi)%Z.

Definition is_digit : ascii -> bool := in_range 48 57.
Definition is_upper : ascii -> bool := in_range 65 90.
Definition is_lower : ascii -> bool := in_range 97 122.
Definition is_alnum (c : ascii) : bool := is_digit c || is_upper c || is_lower c.
Definition is_hex (c : ascii) : bool := is_digit c || in_range 97 102 c.

(** [str.isspace] of a code point below 256: what [strip] removes and [\s] matches. *)
Definition is_space (c : ascii) : bool :=
  in_range 9 13 c || in_range 28 32 c || (code c =? 133)%Z || (code c =? 160)%Z.

Fixpoint chars (s : string) : list ascii :=
  match s with
  | EmptyString => []
  | String c r => c :: chars r
  end.

Fixpoint of_chars (l : list ascii) : string :=
  match l with
  | [] => EmptyString
  | c :: r => String c (of_chars r)
  end.

Definition len (s : string) : Z := Z.of_nat (length (chars s)).

Definition all_chars (p : ascii -> bool) (s : string) : bool := forallb p (chars s).

Fixpoint drop_while (p : ascii -> bool) (l : list ascii) : list ascii :=
  match l with
  | [] => []
  | c :: r => if p c then drop_while p r else l
  end.

(** [str.strip()], and [not value.strip()] as [blank]. *)
Definition strip (s : string) : string :=
  of_chars (rev (drop_while is_space (rev (drop_while is_space (chars s))))).

Definition blank (s : string) : bool := bool_decide (strip s = "").

(** [str.upper()] on ASCII letters; [str.lower()], Latin-1 letters included. *)
Definition upper_char (c : ascii) : ascii :=
  if is_lower c then ascii_of_N (N_of_ascii c - 32) else c.
Definition lower_char (c : ascii) : ascii :=
  if is_upper c || in_range 192 214 c || in_range 216 222 c then ascii_of_N (N_of_ascii c + 32) else c.
Definition upper (s : string) : string := of_chars (map upper_char (chars s)).
Definition lower (s : string) : string := of_chars (map lower_char (chars s)).

(** Decimal digits of a nonnegative integer, most significant first. *)
Definition digit_char (d : Z) : ascii := ascii_of_N (Z.to_N (48 + d)).

Fixpoint digits_fuel (fuel : nat) (n : Z) (acc : list ascii) : list ascii :=
  match fuel with
  | O => acc
  | S f =>
      let acc' := digit_char (n mod 10) :: acc in
      if (n <? 10)%Z then acc' else digits_fuel f (n / 10) acc'
  end.

Definition digits (n : Z) : list ascii :=
  digits_fuel (S (Z.to_nat (Z.log2 n))) n [].

(** [str(n)] of a Python integer. *)
Definition int_text (n : Z) : string :=
  if (n <? 0)%Z then String "-" (of_chars (digits (- n))) else of_chars (digits n).

(** Value of a list of decimal digits; [None] when a character is no digit. *)
Fixpoint parse_digits (acc : Z) (l : list ascii) : option Z :=
  match l with
  | [] => Some acc
  | c :: r => if is_digit c then parse_digits (acc * 10 + (code c - 48)) r else None
  end.

(** [str.encode()]: the UTF-8 bytes of code points below 256. *)
Definition utf8_char (c : ascii) : list ascii :=
  let n := code c in
  if (n <? 128)%Z then [c]
  else [ascii_of_N (Z.to_N (192 + n / 64)); ascii_of_N (Z.to_N (128 + n mod 64))].

Definition utf8_bytes (s : string) : list ascii := flat_map utf8_char (chars s).

(** ** Facts *)

Lemma of_chars_chars (s : string) : of_chars (chars s) = s.
Proof. induction s; simpl; congruence. Qed.

Lemma chars_of_chars (l : list ascii) : chars (of_chars l) = l.
Proof. induction l; simpl; congruence. Qed.

Lemma chars_app (s t : string) : chars (s ++ t) = (chars s ++ chars t)%list.
Proof. induction s as [|c s IH]; [done|]. change (String c s ++ t) with (String c (s ++ t)). simpl. by rewrite IH. Qed.

Lemma chars_inj (s t : string) : chars s = chars t -> s = t.
Proof. intros H. rewrite <- (of_chars_chars s), <- (of_chars_chars t). congruence. Qed.

Lemma of_chars_app (l k : list ascii) : of_chars (l ++ k) = of_chars l ++ of_chars k.
Proof. apply chars_inj. by rewrite chars_app, !chars_of_chars. Qed.

Lemma of_chars_inj (l k : list ascii) : of_chars l = of_chars k -> l = k.
Proof. intros H. rewrite <- (chars_of_chars l), <- (chars_of_chars k). congruence. Qed.

Lemma code_digit_char (d : Z) : (0 <= d < 10)%Z -> code (digit_char d) = (48 + d)%Z.
Proof.
  intros Hd. unfold code, digit_char. rewrite N_ascii_embedding by lia. lia.
Qed.

Lemma is_digit_digit_char (d : Z) : (0 <= d < 10)%Z -> is_digit (digit_char d) = true.
Proof.
  intros Hd. unfold is_digit, in_range. rewrite code_digit_char by done.
  apply andb_true_intro; split; apply Z.leb_le; lia.
Qed.

Lemma parse_digits_app (l k : list ascii) (acc v : Z) :
  parse_digits acc l = Some v -> parse_digits acc (l ++ k) = parse_digits v k.
Proof.
  revert acc. induction l as [|c l IH]; intros acc H; simpl in *.
  - congruence.
  - destruct (is_digit c); [by apply IH | done].
Qed.

(** Printing a number and reading the digits back yields the number. *)
Lemma parse_digits_fuel (fuel : nat) (n : Z) (acc : list ascii) (a : Z) :
  (0 <= n)%Z -> (Z.log2 n < Z.of_nat fuel)%Z ->
  exists k, (0 <= k)%Z /\
    parse_digits a (digits_fuel fuel n acc) = parse_digits (a * p10 k + n) acc.
Proof.
  revert n acc. induction fuel as [|f IH]; intros n acc Hn Hf.
  { pose proof (Z.log2_nonneg n). lia. }
  simpl. pose proof (Z.mod_pos_bound n 10 ltac:(lia)) as Hm.
  destruct (Z.ltb_spec n 10) as [Hlt|Hge].
  - exists 1%Z. split; [lia|]. simpl. rewrite is_digit_digit_char by lia.
    rewrite code_digit_char by lia. rewrite Z.mod_small by lia.
    f_equal. unfold p10. lia.
  - pose proof (Z.div_mod n 10 ltac:(lia)) as Hd.
    assert (Hlog : (Z.log2 (n / 10) < Z.of_nat f)%Z).
    { assert (Z.log2 (n / 10) <= Z.log2 (n / 2))%Z
        by (apply Z.log2_le_mono; apply Z.div_le_compat_l; lia).
      assert (Z.log2 (n / 2) = Z.log2 n - 1)%Z.
      { change 2%Z with (2 ^ 1)%Z at 1. rewrite <- Z.shiftr_div_pow2 by lia.
        rewrite Z.log2_shiftr by lia.
        assert (1 <= Z.log2 n)%Z by (apply Z.log2_le_pow2; lia). lia. }
      lia. }
    destruct (IH (n / 10)%Z (digit_char (n mod 10) :: acc)) as [k [Hk Hp]];
      [apply Z.div_pos; lia | done |].
    exists (k + 1)%Z. split; [lia|]. rewrite Hp. simpl.
    rewrite is_digit_digit_char by lia. rewrite code_digit_char by lia.
    f_equal. rewrite p10_add by lia. change (p10 1) with 10%Z. lia.
Qed.

Lemma parse_digits_digits (n : Z) :
  (0 <= n)%Z -> parse_digits 0 (digits n) = Some n.
Proof.
  intros Hn. unfold digits.
  destruct (parse_digits_fuel (S (Z.to_nat (Z.log2 n))) n [] 0 Hn) as [k [_ ->]].
  { pose proof (Z.log2_nonneg n). lia. }
  done.
Qed.
