(* ===== verification/Enums.v ===== *)
(** Enumerations of [models.py] and [pod_capacity_contracts.py], with the wire
    value of each member and the lookup by value that Python's [Enum(value)]
    performs. *)
From S2P Require Import Prelude PyStr.

(** ** [models.py] *)

Inductive CloudType := SECURE | COMMUNITY.
Inductive ComputeProduct := POD | SERVERLESS.
Inductive Availability := AVAIL_NONE | AVAIL_LOW | AVAIL_MEDIUM | AVAIL_HIGH.

(** ** [pod_capacity_contracts.py] *)

Inductive TrainingPodSource := CONFIGURED_PERSISTENT | STOPPED_REUSE | CREATED.

Inductive TrainingPodOwnership := PROVISIONAL | OWNED | PREEXISTING_RUNNING.

Inductive TrainingPodState :=
  | REQUESTED | STARTING | READY | JOB_SUBMITTED | JOB_COMPLETED
  | RESULT_RETRIEVED | CANCEL_REQUESTED | RECONCILE_REQUIRED | RELEASING | RELEASED.

Inductive TrainingPodCleanupState :=
  | CLEANUP_NOT_REQUESTED | CLEANUP_PENDING | CLEANUP_RETRYABLE_FAILURE
  | CLEANUP_COMPLETE | CLEANUP_NOT_OWNED.

Inductive PodCapacityBillingState :=
  | BILLING_NOT_APPLICABLE | BILLING_PENDING | BILLING_AUTHORITATIVE | BILLING_UNRESOLVED.

Inductive CatalogPodWorkloadState :=
  | W_NOT_SUBMITTED | W_IDLE | W_RUNNING | W_CANCEL_REQUESTED | W_SUCCEEDED
  | W_AWAITING_ACK | W_ACKNOWLEDGED | W_FAILED | W_CANCELLED.

#[export] Instance CloudType_dec : EqDecision CloudType.
Proof. solve_decision. Defined.
#[export] Instance ComputeProduct_dec : EqDecision ComputeProduct.
Proof. solve_decision. Defined.
#[export] Instance Availability_dec : EqDecision Availability.
Proof. solve_decision. Defined.
#[export] Instance TrainingPodSource_dec : EqDecision TrainingPodSource.
Proof. solve_decision. Defined.
#[export] Instance TrainingPodOwnership_dec : EqDecision TrainingPodOwnership.
Proof. solve_decision. Defined.
#[export] Instance TrainingPodState_dec : EqDecision TrainingPodState.
Proof. solve_decision. Defined.
#[export] Instance TrainingPodCleanupState_dec : EqDecision TrainingPodCleanupState.
Proof. solve_decision. Defined.
#[export] Instance PodCapacityBillingState_dec : EqDecision PodCapacityBillingState.
Proof. solve_decision. Defined.
#[export] Instance CatalogPodWorkloadState_dec : EqDecision CatalogPodWorkloadState.
Proof. solve_decision. Defined.

(** ** Wire values *)

(** A Python [str]-valued enumeration: its members and their values. [of_value]
    is the lookup [Enum(value)], [None] where Python raises [ValueError]. *)
Class PyEnum (A : Type) := {
  members : list A;
  enum_value : A -> string;
  of_value : string -> option A;
  of_value_enum_value : forall a, of_value (enum_value a) = Some a;
  enum_value_of_value : forall s a, of_value s = Some a -> enum_value a = s
}.

Definition lookup_value {A} (l : list A) (f : A -> string) (s : string) : option A :=
  List.find (fun a => bool_decide (f a = s)) l.

Lemma lookup_value_sound {A} (l : list A) (f : A -> string) s a :
  lookup_value l f s = Some a -> f a = s.
Proof.
  intros H. apply List.find_some in H as [_ H]. by apply bool_decide_eq_true_1 in H.
Qed.

Definition cloud_value (c : CloudType) : string :=
  match c with SECURE => "SECURE" | COMMUNITY => "COMMUNITY" end.

Definition product_value (p : ComputeProduct) : string :=
  match p with POD => "POD" | SERVERLESS => "SERVERLESS" end.

Definition availability_value (a : Availability) : string :=
  match a with
  | AVAIL_NONE => "NONE" | AVAIL_LOW => "LOW"
  | AVAIL_MEDIUM => "MEDIUM" | AVAIL_HIGH => "HIGH"
  end.

Definition source_value (s : TrainingPodSource) : string :=
  match s with
  | CONFIGURED_PERSISTENT => "configured_persistent"
  | STOPPED_REUSE => "stopped_reuse"
  | CREATED => "created"
  end.

Definition ownership_value (o : TrainingPodOwnership) : string :=
  match o with
  | PROVISIONAL => "provisional" | OWNED => "owned"
  | PREEXISTING_RUNNING => "preexisting_running"
  end.

Definition state_value (s : TrainingPodState) : string :=
  match s with
  | REQUESTED => "requested" | STARTING => "starting" | READY => "ready"
  | JOB_SUBMITTED => "job_submitted" | JOB_COMPLETED => "job_completed"
  | RESULT_RETRIEVED => "result_retrieved" | CANCEL_REQUESTED => "cancel_requested"
  | RECONCILE_REQUIRED => "reconcile_required" | RELEASING => "releasing"
  | RELEASED => "released"
  end.

Definition cleanup_value (c : TrainingPodCleanupState) : string :=
  match c with
  | CLEANUP_NOT_REQUESTED => "not_requested" | CLEANUP_PENDING => "pending"
  | CLEANUP_RETRYABLE_FAILURE => "retryable_failure"
  | CLEANUP_COMPLETE => "complete" | CLEANUP_NOT_OWNED => "not_owned"
  end.

Definition billing_value (b : PodCapacityBillingState) : string :=
  match b with
  | BILLING_NOT_APPLICABLE => "not_applicable" | BILLING_PENDING => "pending"
  | BILLING_AUTHORITATIVE => "authoritative" | BILLING_UNRESOLVED => "unresolved"
  end.

Definition workload_value (w : CatalogPodWorkloadState) : string :=
  match w with
  | W_NOT_SUBMITTED => "not_submitted" | W_IDLE => "idle" | W_RUNNING => "running"
  | W_CANCEL_REQUESTED => "cancel_requested" | W_SUCCEEDED => "succeeded"
  | W_AWAITING_ACK => "awaiting_ack" | W_ACKNOWLEDGED => "acknowledged"
  | W_FAILED => "failed" | W_CANCELLED => "cancelled"
  end.

Ltac enum_instance l f :=
  refine {| members := l; enum_value := f; of_value := lookup_value l f |};
  [ intros []; reflexivity | intros s a; apply lookup_value_sound ].

#[export] Instance CloudType_enum : PyEnum CloudType.
Proof. enum_instance [SECURE; COMMUNITY] cloud_value. Defined.
#[export] Instance ComputeProduct_enum : PyEnum ComputeProduct.
Proof. enum_instance [POD; SERVERLESS] product_value. Defined.
#[export] Instance Availability_enum : PyEnum Availability.
Proof. enum_instance [AVAIL_NONE; AVAIL_LOW; AVAIL_MEDIUM; AVAIL_HIGH] availability_value. Defined.
#[export] Instance CatalogPodWorkloadState_enum : PyEnum CatalogPodWorkloadState.
Proof.
  enum_instance [W_NOT_SUBMITTED; W_IDLE; W_RUNNING; W_CANCEL_REQUESTED; W_SUCCEEDED;
                 W_AWAITING_ACK; W_ACKNOWLEDGED; W_FAILED; W_CANCELLED] workload_value.
Defined.
#[export] Instance TrainingPodState_enum : PyEnum TrainingPodState.
Proof.
  enum_instance [REQUESTED; STARTING; READY; JOB_SUBMITTED; JOB_COMPLETED; RESULT_RETRIEVED;
                 CANCEL_REQUESTED; RECONCILE_REQUIRED; RELEASING; RELEASED] state_value.
Defined.

(** [CloudType.from_config]: operator configuration is stripped and upper-cased
    before the lookup. *)
Definition CloudType_from_config (value : string) : option CloudType :=
  of_value (upper (strip value)).
