(* ===== verification/Errors.v ===== *)
(** Exceptions of the source and the [result] type that carries them.

    Every class the modelled code raises or catches is a constructor; the class
    hierarchy is the family of [is_...] tests, each true on a class and its
    subclasses, as an [except] clause is. Message texts are not modelled, except
    the fields a handler reads. *)
From S2P Require Import Prelude PyStr Enums.

(** Fields of [TrainingPodLifecycleError]. *)
Record lifecycle_info := {
  le_operation : string;
  le_cleanup_token : string;
  le_pod_id : option string;
  le_cleanup_state : TrainingPodCleanupState;
  le_billing_risk : bool
}.

Inductive exn :=
  | ValueError
  | TypeError
  | InvalidOperation
  | RunPodManagerError
  | RunPodAPIError (status_code : option Z)
  | RunPodAmbiguousResultError
  | TrainingPodConflictError
  | TrainingPodLifecycleError (i : lifecycle_info)
  | TrainingPodCleanupError (i : lifecycle_info)
  | PodCapacityCreatedMismatchError (provider_pod_id : string)
  | CatalogPodTransportError
  | CatalogPodTransportConflictError
  | PodCapacityReconcilerConfigurationError
  | PodCapacityReconcilerBusyError
  | ServerlessEndpointActivationError (endpoint_name : string) (observed_endpoint_ids : list string)
  | ServerlessEndpointCleanupError (endpoint_name endpoint_id : string)
  | OllamaLeaseConflictError
  | OllamaLeaseAuthorizationError
  | OllamaLeaseReadinessError
  | OllamaLeaseTeardownError
  | HTTPError
  | SignedInvocationError
  | DogfoodSafetyError
  | ResourceUnsupported
  | ResourceOutcomeUnknown
  | CpuPodMismatch (pod_id : string)
  | CpuPodReadinessUnknown (pod_id : string)
  | KeyError
  | AttributeError
  | IndexError
  | OverflowError
  | RuntimeError
  | OSError
  | SqliteError
  | TimeoutError
  | CancelledError
  | OutOfFuel.

(** [type(error).__name__]: what [sanitize_training_error] persists. *)
Definition exn_name (e : exn) : string :=
  match e with
  | ValueError => "ValueError"
  | TypeError => "TypeError"
  | InvalidOperation => "InvalidOperation"
  | RunPodManagerError => "RunPodManagerError"
  | RunPodAPIError _ => "RunPodAPIError"
  | RunPodAmbiguousResultError => "RunPodAmbiguousResultError"
  | TrainingPodConflictError => "TrainingPodConflictError"
  | TrainingPodLifecycleError _ => "TrainingPodLifecycleError"
  | TrainingPodCleanupError _ => "TrainingPodCleanupError"
  | PodCapacityCreatedMismatchError _ => "PodCapacityCreatedMismatchError"
  | CatalogPodTransportError => "CatalogPodTransportError"
  | CatalogPodTransportConflictError => "CatalogPodTransportConflictError"
  | PodCapacityReconcilerConfigurationError => "PodCapacityReconcilerConfigurationError"
  | PodCapacityReconcilerBusyError => "PodCapacityReconcilerBusyError"
  | ServerlessEndpointActivationError _ _ => "ServerlessEndpointActivationError"
  | ServerlessEndpointCleanupError _ _ => "ServerlessEndpointCleanupError"
  | OllamaLeaseConflictError => "OllamaLeaseConflictError"
  | OllamaLeaseAuthorizationError => "OllamaLeaseAuthorizationError"
  | OllamaLeaseReadinessError => "OllamaLeaseReadinessError"
  | OllamaLeaseTeardownError => "OllamaLeaseTeardownError"
  | HTTPError => "HTTPError"
  | SignedInvocationError => "SignedInvocationError"
  | DogfoodSafetyError => "DogfoodSafetyError"
  | ResourceUnsupported => "ResourceUnsupported"
  | ResourceOutcomeUnknown => "ResourceOutcomeUnknown"
  | CpuPodMismatch _ => "CpuPodMismatch"
  | CpuPodReadinessUnknown _ => "CpuPodReadinessUnknown"
  | KeyError => "KeyError"
  | AttributeError => "AttributeError"
  | IndexError => "IndexError"
  | OverflowError => "OverflowError"
  | RuntimeError => "RuntimeError"
  | OSError => "OSError"
  | SqliteError => "Error"
  | TimeoutError => "TimeoutError"
  | CancelledError => "CancelledError"
  | OutOfFuel => "OutOfFuel"
  end.

Definition sanitize_training_error (e : exn) : string := exn_name e.

(** ** Class tests, one per [except] clause of the source *)

Definition is_cleanup_error (e : exn) : bool :=
  match e with TrainingPodCleanupError _ => true | _ => false end.

Definition is_lifecycle_error (e : exn) : bool :=
  match e with TrainingPodLifecycleError _ | TrainingPodCleanupError _ => true | _ => false end.

Definition is_conflict_error (e : exn) : bool :=
  match e with TrainingPodConflictError => true | _ => false end.

Definition is_transport_error (e : exn) : bool :=
  match e with
  | CatalogPodTransportError | CatalogPodTransportConflictError => true
  | _ => false
  end.

Definition is_ambiguous_error (e : exn) : bool :=
  match e with RunPodAmbiguousResultError => true | _ => false end.

Definition is_api_error (e : exn) : bool :=
  match e with RunPodAPIError _ | RunPodAmbiguousResultError => true | _ => false end.

Definition is_manager_error (e : exn) : bool :=
  match e with
  | RunPodManagerError | PodCapacityCreatedMismatchError _
  | PodCapacityReconcilerConfigurationError | PodCapacityReconcilerBusyError
  | ServerlessEndpointActivationError _ _ | ServerlessEndpointCleanupError _ _
  | OllamaLeaseConflictError | OllamaLeaseAuthorizationError
  | OllamaLeaseReadinessError | OllamaLeaseTeardownError => true
  | _ => is_api_error e || is_conflict_error e || is_lifecycle_error e || is_transport_error e
  end.

(** [exc.status_code == 404]. *)
Definition is_not_found (e : exn) : bool :=
  match e with RunPodAPIError (Some code) => (code =? 404)%Z | _ => false end.

Lemma cleanup_is_lifecycle e : is_cleanup_error e = true -> is_lifecycle_error e = true.
Proof. by destruct e. Qed.

Lemma lifecycle_is_manager e : is_lifecycle_error e = true -> is_manager_error e = true.
Proof. by destruct e. Qed.

Lemma conflict_is_manager e : is_conflict_error e = true -> is_manager_error e = true.
Proof. by destruct e. Qed.

Lemma ambiguous_is_manager e : is_ambiguous_error e = true -> is_manager_error e = true.
Proof. by destruct e. Qed.

(** [PodCapacityCreatedMismatchError(pod)]: its constructor refuses a blank Pod ID. *)
Definition created_mismatch (provider_pod_id : string) : exn :=
  if blank provider_pod_id then ValueError else PodCapacityCreatedMismatchError provider_pod_id.

(** ** Results of code that may raise *)

Inductive result (A : Type) := Ok (a : A) | Exc (e : exn).
Arguments Ok {A} a.
Arguments Exc {A} e.

Definition rbind {A B} (m : result A) (f : A -> result B) : result B :=
  match m with Ok a => f a | Exc e => Exc e end.

Definition is_ok {A} (r : result A) : bool :=
  match r with Ok _ => true | Exc _ => false end.

(** [if not test: raise e]. *)
Definition require (test : bool) (e : exn) : result unit :=
  if test then Ok tt else Exc e.

Definition of_option {A} (o : option A) (e : exn) : result A :=
  match o with Some a => Ok a | None => Exc e end.

Fixpoint rmap {A B} (f : A -> result B) (l : list A) : result (list B) :=
  match l with
  | [] => Ok []
  | a :: r => rbind (f a) (fun b => rbind (rmap f r) (fun bs => Ok (b :: bs)))
  end.

(** [f(x) if x is not None else None]. *)
Definition opt_result {A B} (f : A -> result B) (o : option A) : result (option B) :=
  match o with Some a => rbind (f a) (fun b => Ok (Some b)) | None => Ok None end.

Declare Scope result_scope.
Delimit Scope result_scope with result.

Notation "'let!' x ':=' m 'in' k" := (rbind m (fun x => k))
  (at level 10, x name, m at level 100, k at level 200,
   format "'[v' 'let!'  x  ':='  m  'in' '/' k ']'") : result_scope.
Notation "'let!' ' p ':=' m 'in' k" := (rbind m (fun x => match x with p => k end))
  (at level 10, p pattern, m at level 100, k at level 200) : result_scope.
Notation "'run!' m 'then' k" := (rbind m (fun _ => k))
  (at level 10, m at level 100, k at level 200,
   format "'[v' 'run!'  m  'then' '/' k ']'") : result_scope.

#[global] Open Scope result_scope.

(** ** Inversion of successful computations *)

Lemma rbind_ok {A B} (m : result A) (f : A -> result B) b :
  rbind m f = Ok b <-> exists a, m = Ok a /\ f a = Ok b.
Proof.
  split.
  - destruct m as [a|]; simpl; [by eauto | done].
  - intros (a & -> & H). done.
Qed.

Lemma require_ok t e u : require t e = Ok u <-> t = true.
Proof. unfold require. destruct t, u; split; congruence. Qed.

Lemma require_true t e : t = true -> require t e = Ok tt.
Proof. by intros ->. Qed.

Lemma require_exc t e e' : require t e = Exc e' <-> t = false /\ e' = e.
Proof. unfold require. destruct t; split; intros; simplify_eq; naive_solver. Qed.

Lemma of_option_ok {A} (o : option A) e a : of_option o e = Ok a <-> o = Some a.
Proof. destruct o; simpl; split; congruence. Qed.

Lemma rmap_ok_length {A B} (f : A -> result B) l bs :
  rmap f l = Ok bs -> length bs = length l.
Proof.
  revert bs. induction l as [|a l IH]; intros bs H; simpl in H; [by simplify_eq|].
  apply rbind_ok in H as (b & Hb & H). apply rbind_ok in H as (bs' & Hbs & H).
  simplify_eq. simpl. by rewrite (IH bs').
Qed.

Lemma rmap_Forall2 {A B} (f : A -> result B) l bs :
  rmap f l = Ok bs <-> Forall2 (fun a b => f a = Ok b) l bs.
Proof.
  split.
  - revert bs. induction l as [|a l IH]; intros bs H; simpl in H; [simplify_eq; constructor|].
    apply rbind_ok in H as (b & Hb & H). apply rbind_ok in H as (bs' & Hbs & H).
    simplify_eq. constructor; auto.
  - induction 1 as [|a b l bs Hab Hf IH]; [done|]. simpl. by rewrite Hab, IH.
Qed.

(** Break every successful bind and requirement among the hypotheses. *)
Ltac res_inv :=
  repeat match goal with
  | H : rbind _ _ = Ok _ |- _ => apply rbind_ok in H as (? & ? & H)
  | H : require _ _ = Ok _ |- _ => apply require_ok in H
  | H : of_option _ _ = Ok _ |- _ => apply of_option_ok in H
  | H : Ok _ = Ok _ |- _ => injection H as H; try subst
  | H : Exc _ = Ok _ |- _ => discriminate H
  end.
