(* ===== verification/PyDecimal.v ===== *)
(** Python's [decimal.Decimal] as the source uses it: exact signed coefficient and
    exponent, contexts with a precision, ROUND_HALF_EVEN by default, the division
    and quantization algorithms, comparison, and the text conversions.

    Negative zero is identified with zero, and the exponent limits (999999) of the
    default context are not reached by any amount of the source. *)
From S2P Require Import Prelude PyStr Errors.
From Stdlib Require Import Ascii.

#[local] Open Scope Z_scope.

(** A Decimal object: [Fin c e] is [c * 10^e]. *)
Inductive Decimal := Fin (c e : Z) | Inf (neg : bool) | NaN.

#[export] Instance Decimal_dec : EqDecision Decimal.
Proof. solve_decision. Defined.

Definition is_finite (d : Decimal) : bool :=
  match d with Fin _ _ => true | _ => false end.

(** Numeric order. Comparisons with NaN raise in Python; every caller tests
    [is_finite] first, so [dcompare] may return [None] there. *)
Definition dcompare (a b : Decimal) : option comparison :=
  match a, b with
  | Fin c1 e1, Fin c2 e2 =>
      let m := Z.min e1 e2 in Some (c1 * p10 (e1 - m) ?= c2 * p10 (e2 - m))
  | Fin _ _, Inf n | Inf n, Fin _ _ =>
      Some (match a, n with Fin _ _, false | Inf _, true => Lt | _, _ => Gt end)
  | Inf n, Inf k =>
      Some (match n, k with true, false => Lt | false, true => Gt | _, _ => Eq end)
  | _, _ => None
  end.

Definition dlt (a b : Decimal) : bool :=
  match dcompare a b with Some Lt => true | _ => false end.
Definition dle (a b : Decimal) : bool :=
  match dcompare a b with Some Lt | Some Eq => true | _ => false end.
Definition deqb (a b : Decimal) : bool :=
  match dcompare a b with Some Eq => true | _ => false end.

Definition dzero : Decimal := Fin 0 0.
Definition of_int (n : Z) : Decimal := Fin n 0.

(** ** Context rounding *)

(** Number of decimal digits of a coefficient ([len(str(abs(c)))]; one for zero). *)
Fixpoint ndigits_fuel (fuel : nat) (n : Z) : Z :=
  match fuel with
  | O => 1
  | S f => if n <? 10 then 1 else 1 + ndigits_fuel f (n / 10)
  end.

Definition ndigits (c : Z) : Z := ndigits_fuel (S (Z.to_nat (Z.log2 (Z.abs c)))) (Z.abs c).

(** Quotient rounded half to even, on nonnegative operands. *)
Definition round_half_even (n d : Z) : Z :=
  let q := n / d in
  let r := n mod d in
  if 2 * r <? d then q
  else if d <? 2 * r then q + 1
  else if Z.even q then q else q + 1.

(** [Decimal._fix]: round the coefficient to [prec] digits. *)
Definition fix_prec (prec : Z) (c e : Z) : Decimal :=
  let shift := ndigits c - prec in
  if shift <=? 0 then Fin c e
  else
    let q := round_half_even (Z.abs c) (p10 shift) in
    let s := if c <? 0 then -1 else 1 in
    if ndigits q <=? prec then Fin (s * q) (e + shift)
    else Fin (s * (q / 10)) (e + shift + 1).

Definition DEFAULT_PREC : Z := 28.

(** ** Arithmetic in a context *)

Definition dmul (prec : Z) (a b : Decimal) : Decimal :=
  match a, b with
  | Fin c1 e1, Fin c2 e2 => fix_prec prec (c1 * c2) (e1 + e2)
  | _, _ => NaN
  end.

Definition dadd (prec : Z) (a b : Decimal) : Decimal :=
  match a, b with
  | Fin c1 e1, Fin c2 e2 =>
      let m := Z.min e1 e2 in fix_prec prec (c1 * p10 (e1 - m) + c2 * p10 (e2 - m)) m
  | _, _ => NaN
  end.

(** Exact quotients lose trailing zeros down to the ideal exponent. *)
Fixpoint reduce_to (fuel : nat) (c e ideal : Z) : Z * Z :=
  match fuel with
  | O => (c, e)
  | S f => if (e <? ideal) && (c mod 10 =? 0) then reduce_to f (c / 10) (e + 1) ideal else (c, e)
  end.

(** [Decimal.__truediv__] for nonnegative finite operands and a nonzero divisor. *)
Definition ddiv (prec : Z) (a b : Decimal) : Decimal :=
  match a, b with
  | Fin c1 e1, Fin c2 e2 =>
      if c1 =? 0 then Fin 0 (e1 - e2)
      else
        let shift := ndigits c2 - ndigits c1 + prec + 1 in
        let e := e1 - e2 - shift in
        let n := if 0 <=? shift then c1 * p10 shift else c1 in
        let d := if 0 <=? shift then c2 else c2 * p10 (- shift) in
        let q := n / d in
        if n mod d =? 0 then
          let '(q', e') := reduce_to (Z.to_nat shift) q e (e1 - e2) in fix_prec prec q' e'
        else fix_prec prec (if q mod 5 =? 0 then q + 1 else q) e
  | _, _ => NaN
  end.

(** [value.quantize(Decimal((0, (1,), exp)), rounding=ROUND_CEILING)]: the
    InvalidOperation signal is raised when the coefficient does not fit. *)
Definition dquantize_ceiling (prec exp : Z) (d : Decimal) : result Decimal :=
  match d with
  | Fin c e =>
      let q := if exp <=? e then c * p10 (e - exp) else cdiv c (p10 (exp - e)) in
      if ndigits q <=? prec then Ok (Fin q exp) else Exc InvalidOperation
  | _ => Exc InvalidOperation
  end.

(** ** Text *)

(** Positional digits of [|c|] with [k >= 0] of them after the point. *)
Definition positional (c k : Z) : string :=
  let ds := digits (Z.abs c) in
  let sign := if c <? 0 then "-"%string else ""%string in
  if k =? 0 then (sign ++ of_chars ds)%string
  else
    let pad := (replicate (Z.to_nat (k + 1 - Z.of_nat (length ds))) "0"%char ++ ds)%list in
    let n := (length pad - Z.to_nat k)%nat in
    (sign ++ of_chars (firstn n pad) ++ "." ++ of_chars (skipn n pad))%string.

(** [format(value, "f")]. *)
Definition format_f (d : Decimal) : string :=
  match d with
  | Fin c e => if 0 <=? e then positional (c * p10 e) 0 else positional c (- e)
  | Inf n => if n then "-Infinity" else "Infinity"
  | NaN => "NaN"
  end.

Definition decimal_text (value : option Decimal) : option string :=
  match value with Some d => Some (format_f d) | None => None end.

(** Split at the first decimal point. *)
Fixpoint split_point (l : list ascii) : list ascii * option (list ascii) :=
  match l with
  | [] => ([], None)
  | c :: r =>
      if (code c =? 46)%Z then ([], Some r)
      else let '(a, b) := split_point r in (c :: a, b)
  end.

(** An optional leading minus sign. *)
Definition split_sign (l : list ascii) : bool * list ascii :=
  match l with
  | c :: r => if (code c =? 45)%Z then (true, r) else (false, l)
  | [] => (false, [])
  end.

(** [Decimal(text)] on the positional form [[-]digits[.digits]] that [format_f]
    writes; [None] is [InvalidOperation] (exponents, infinities and digit
    separators are outside the stored format). *)
Definition parse_decimal (s : string) : option Decimal :=
  let '(neg, body) := split_sign (chars s) in
  let '(a, b) := split_point body in
  let ds := (a ++ default [] b)%list in
  match ds with
  | [] => None
  | _ =>
      match parse_digits 0 ds with
      | Some n => Some (Fin (if neg then - n else n) (- Z.of_nat (length (default [] b))))
      | None => None
      end
  end.

(** ** Digits of a coefficient *)

Lemma ndigits_fuel_spec (fuel : nat) (n : Z) :
  0 < n -> Z.log2 n < Z.of_nat fuel ->
  1 <= ndigits_fuel fuel n /\ p10 (ndigits_fuel fuel n - 1) <= n < p10 (ndigits_fuel fuel n).
Proof.
  revert n. induction fuel as [|f IH]; intros n Hn Hf.
  { pose proof (Z.log2_nonneg n). lia. }
  simpl. destruct (Z.ltb_spec n 10) as [Hlt|Hge]; [change (p10 (1 - 1)) with 1; change (p10 1) with 10; lia|].
  assert (Z.log2 (n / 10) < Z.of_nat f) as Hlog.
  { assert (Z.log2 (n / 10) <= Z.log2 (n / 2)) by (apply Z.log2_le_mono; apply Z.div_le_compat_l; lia).
    assert (Z.log2 (n / 2) = Z.log2 n - 1).
    { change 2%Z with (2 ^ 1)%Z at 1. rewrite <- Z.shiftr_div_pow2 by lia.
      rewrite Z.log2_shiftr by lia.
      assert (1 <= Z.log2 n) by (apply Z.log2_le_pow2; lia). lia. }
    lia. }
  assert (0 < n / 10) as Hpos by (apply Z.div_str_pos; lia).
  destruct (IH (n / 10) Hpos Hlog) as (H1 & H2 & H3). split; [lia|].
  pose proof (Z.div_mod n 10 ltac:(lia)). pose proof (Z.mod_pos_bound n 10 ltac:(lia)).
  replace (1 + ndigits_fuel f (n / 10) - 1) with (1 + (ndigits_fuel f (n / 10) - 1)) by lia.
  rewrite !p10_add by lia. change (p10 1) with 10. lia.
Qed.

Lemma ndigits_pos (c : Z) : 1 <= ndigits c.
Proof.
  unfold ndigits. destruct (Z.eq_dec c 0) as [->|Hc]; [done|].
  pose proof (Z.log2_nonneg (Z.abs c)).
  apply ndigits_fuel_spec; lia.
Qed.

Lemma ndigits_spec (c : Z) :
  c <> 0 -> p10 (ndigits c - 1) <= Z.abs c < p10 (ndigits c).
Proof.
  intros Hc. unfold ndigits. pose proof (Z.log2_nonneg (Z.abs c)).
  apply ndigits_fuel_spec; lia.
Qed.

Lemma ndigits_upper (c : Z) : Z.abs c < p10 (ndigits c).
Proof.
  destruct (Z.eq_dec c 0) as [->|Hc]; [done|]. by apply ndigits_spec.
Qed.

Lemma ndigits_le (c n : Z) : 1 <= n -> Z.abs c < p10 n -> ndigits c <= n.
Proof.
  intros Hn Hc. destruct (Z.eq_dec c 0) as [->|Hne]; [done|].
  pose proof (ndigits_spec c Hne) as [Hlo _].
  pose proof (p10_lt_inv (ndigits c - 1) n ltac:(lia) ltac:(lia)). lia.
Qed.

Lemma ndigits_ge (c n : Z) : 0 <= n -> p10 n <= Z.abs c -> n < ndigits c.
Proof.
  intros Hn Hc. pose proof (ndigits_upper c). pose proof (ndigits_pos c).
  apply p10_lt_inv; lia.
Qed.

(** ** Rounding *)

Lemma round_half_even_bound (n d : Z) :
  0 <= n -> 0 < d -> 2 * Z.abs (round_half_even n d * d - n) <= d.
Proof.
  intros Hn Hd. unfold round_half_even.
  pose proof (Z.div_mod n d ltac:(lia)). pose proof (Z.mod_pos_bound n d Hd).
  destruct (Z.ltb_spec (2 * (n mod d)) d); [lia|].
  destruct (Z.ltb_spec d (2 * (n mod d))); [lia|].
  destruct (Z.even (n / d)); lia.
Qed.

Lemma round_half_even_exact (q d : Z) : 0 < d -> round_half_even (q * d) d = q.
Proof.
  intros Hd. unfold round_half_even. rewrite Z.div_mul, Z.mod_mul by lia.
  by destruct (Z.ltb_spec (2 * 0) d); [|lia].
Qed.

Lemma fix_prec_small (prec c e : Z) :
  1 <= prec -> Z.abs c < p10 prec -> fix_prec prec c e = Fin c e.
Proof.
  intros Hp Hc. unfold fix_prec. pose proof (ndigits_le c prec Hp Hc).
  by destruct (Z.leb_spec (ndigits c - prec) 0); [|lia].
Qed.

(** Rounding keeps a finite value, moves it by at most half a unit of the last
    kept digit, and keeps it exactly when enough trailing digits are zero. *)
Lemma fix_prec_bound (prec c e s : Z) :
  1 <= prec -> 0 <= s -> ndigits c - prec <= s ->
  exists c' e', fix_prec prec c e = Fin c' e' /\ e <= e' /\
    2 * Z.abs (c' * p10 (e' - e) - c) <= p10 s /\
    (forall j k, 0 <= j -> c = k * p10 j -> Z.abs k < p10 prec -> c' * p10 (e' - e) = c).
Proof.
  intros Hp Hs Hsh. unfold fix_prec.
  destruct (Z.leb_spec (ndigits c - prec) 0) as [Hle|Hgt].
  { exists c, e. rewrite Z.sub_diag. change (p10 0) with 1. pose proof (p10_pos s Hs).
    repeat split; [lia|lia|intros; lia]. }
  set (t := ndigits c - prec) in *.
  set (q := round_half_even (Z.abs c) (p10 t)).
  set (g := if c <? 0 then -1 else 1).
  pose proof (p10_pos t ltac:(lia)) as Ht.
  pose proof (round_half_even_bound (Z.abs c) (p10 t) ltac:(lia) Ht) as Hb. fold q in Hb.
  assert (Hg : g * Z.abs c = c) by (unfold g; destruct (Z.ltb_spec c 0); lia).
  assert (Hgg : forall z, Z.abs (g * z) = Z.abs z)
    by (intros; unfold g; destruct (Z.ltb_spec c 0); lia).
  assert (Hmain : 2 * Z.abs (g * q * p10 t - c) <= p10 s).
  { rewrite <- Hg at 1. replace (g * q * p10 t - g * Z.abs c) with (g * (q * p10 t - Z.abs c)) by ring.
    rewrite Hgg. pose proof (p10_le t s ltac:(lia)). lia. }
  assert (Hexact : forall j k, 0 <= j -> c = k * p10 j -> Z.abs k < p10 prec -> g * q * p10 t = c).
  { intros j k Hj Hck Hk. pose proof (p10_pos j Hj).
    assert (Hlt : t <= j).
    { assert (Z.abs c < p10 (prec + j)) by (rewrite p10_add by lia; nia).
      pose proof (ndigits_le c (prec + j) ltac:(lia) ltac:(lia)). lia. }
    assert (q = Z.abs k * p10 (j - t)) as ->.
    { unfold q. rewrite Hck, Z.abs_mul, (Z.abs_eq (p10 j)) by lia.
      replace j with ((j - t) + t) at 1 by lia. rewrite p10_add by lia.
      rewrite Z.mul_assoc. by apply round_half_even_exact. }
    transitivity (g * (Z.abs k * (p10 (j - t) * p10 t))); [ring|].
    rewrite <- p10_add by lia. replace (j - t + t) with j by lia.
    transitivity (g * Z.abs c); [|done]. rewrite Hck, Z.abs_mul, (Z.abs_eq (p10 j)); lia. }
  destruct (Z.leb_spec (ndigits q) prec) as [Hq|Hq].
  { exists (g * q), (e + t). replace (e + t - e) with t by lia. split; [done|].
    split; [lia|]. by split. }
  assert (Hq10 : q = p10 prec).
  { pose proof (ndigits_spec c) as Hc. assert (c <> 0).
    { intros ->. unfold t in Hgt. change (ndigits 0) with 1 in Hgt. lia. }
    destruct (Hc ltac:(done)) as [_ Hup].
    assert (Z.abs c < p10 prec * p10 t) by (rewrite <- p10_add by lia; unfold t; by replace (prec + (ndigits c - prec)) with (ndigits c) by lia).
    assert (p10 prec <= Z.abs q).
    { destruct (Z.le_gt_cases (p10 prec) (Z.abs q)) as [|Hlt]; [done|].
      pose proof (ndigits_le q prec Hp Hlt). lia. }
    nia. }
  exists (g * (q / 10)), (e + t + 1). replace (e + t + 1 - e) with (t + 1) by lia.
  assert (Hdiv : g * (q / 10) * p10 (t + 1) = g * q * p10 t).
  { rewrite p10_add by lia. change (p10 1) with 10. rewrite Hq10.
    replace prec with ((prec - 1) + 1) by lia. rewrite (p10_add (prec - 1) 1) by lia.
    change (p10 1) with 10. rewrite Z.div_mul by lia. ring. }
  rewrite Hdiv. split; [done|]. split; [lia|]. by split.
Qed.

(** ** Division *)

Lemma reduce_to_value (fuel : nat) (c e ideal : Z) :
  forall c' e', reduce_to fuel c e ideal = (c', e') -> e <= e' /\ c' * p10 (e' - e) = c.
Proof.
  revert c e. induction fuel as [|f IH]; intros c e c' e' H; simpl in H.
  { simplify_eq. rewrite Z.sub_diag. change (p10 0) with 1. lia. }
  destruct ((e <? ideal) && (c mod 10 =? 0)) eqn:Hc; split_bools.
  - apply IH in H as [Hle Hval]. split; [lia|].
    replace (e' - e) with ((e' - (e + 1)) + 1) by lia. rewrite p10_add by lia.
    rewrite Z.mul_assoc, Hval. change (p10 1) with 10.
    pose proof (Z.div_mod c 10 ltac:(lia)). lia.
  - simplify_eq. rewrite Z.sub_diag. change (p10 0) with 1. lia.
Qed.

(** Division of positive operands: the result, in units of the working exponent
    [u], is within 51 units of the exact quotient when the working quotient has
    at most [prec + 2] digits, and exact when the quotient is a short integer. *)
Lemma ddiv_bound (prec c1 e1 c2 e2 : Z) :
  1 <= prec -> 0 < c1 -> 0 < c2 ->
  let shift := ndigits c2 - ndigits c1 + prec + 1 in
  let u := e1 - e2 - shift in
  0 <= shift -> c1 * p10 shift < c2 * (p10 (prec + 2) - 1) ->
  exists c' e', ddiv prec (Fin c1 e1) (Fin c2 e2) = Fin c' e' /\ u <= e' /\
    Z.abs (c2 * (c' * p10 (e' - u)) - c1 * p10 shift) <= 51 * c2 /\
    (forall j k, 0 <= j -> c1 * p10 shift = c2 * (k * p10 j) -> Z.abs k < p10 prec ->
       c' * p10 (e' - u) = k * p10 j).
Proof.
  intros Hp H1 H2 shift u Hs Hn. unfold ddiv.
  destruct (Z.eqb_spec c1 0) as [|_]; [lia|]. fold shift.
  destruct (Z.leb_spec 0 shift) as [_|]; [|lia].
  set (n := c1 * p10 shift) in *.
  assert (Hn0 : 0 <= n) by (unfold n; pose proof (p10_pos shift Hs); nia).
  pose proof (Z.div_mod n c2 ltac:(lia)) as Hdm. pose proof (Z.mod_pos_bound n c2 H2) as Hm.
  assert (Hq0 : 0 <= n / c2) by (apply Z.div_pos; lia).
  assert (Hqlt : n / c2 < p10 (prec + 2) - 1) by (apply Z.div_lt_upper_bound; lia).
  destruct (Z.eqb_spec (n mod c2) 0) as [Hr|Hr].
  - destruct (reduce_to _ _ _ _) as [q' e''] eqn:Hred.
    apply reduce_to_value in Hred as [He Hq]. fold shift u in He, Hq.
    pose proof (p10_pos (e'' - u) ltac:(lia)) as Hpe.
    assert (Habs : Z.abs q' < p10 (prec + 2)) by nia.
    pose proof (ndigits_le q' (prec + 2) ltac:(lia) Habs) as Hnd.
    destruct (Z.leb_spec (ndigits q') prec) as [Hshort|Hlong].
    + unfold fix_prec. destruct (Z.leb_spec (ndigits q' - prec) 0); [|lia].
      exists q', e''. split; [done|]. split; [done|]. rewrite Hq. split; [lia|].
      intros j k Hj Heq _. nia.
    + assert (Hqne : q' <> 0) by (intros ->; change (ndigits 0) with 1 in Hlong; lia).
      pose proof (ndigits_spec q' Hqne) as [Hlo _].
      assert (Ha : ndigits q' - prec <= 2 - (e'' - u)).
      { assert (p10 (ndigits q' - 1 + (e'' - u)) < p10 (prec + 2))
          by (rewrite p10_add by lia; nia).
        pose proof (p10_lt_inv (ndigits q' - 1 + (e'' - u)) (prec + 2) ltac:(lia) ltac:(done)). lia. }
      destruct (fix_prec_bound prec q' e'' (2 - (e'' - u)) Hp ltac:(lia) Ha)
        as (c' & e' & -> & He' & Hb & Hx).
      exists c', e'. split; [done|]. split; [lia|].
      assert (Hsplit : p10 (e' - u) = p10 (e' - e'') * p10 (e'' - u))
        by (rewrite <- p10_add by lia; f_equal; lia).
      assert (H100 : p10 (2 - (e'' - u)) * p10 (e'' - u) = 100)
        by (rewrite <- p10_add by lia; by replace (2 - (e'' - u) + (e'' - u)) with 2 by lia).
      rewrite Hsplit. split.
      * set (v := c' * p10 (e' - e'')) in *. set (a := p10 (e'' - u)) in *.
        replace (c2 * (c' * (p10 (e' - e'') * a)) - n) with (c2 * ((v - q') * a))
          by (unfold v; nia).
        rewrite Z.abs_mul, (Z.abs_mul (v - q') a), (Z.abs_eq c2), (Z.abs_eq a) by lia.
        assert (2 * (Z.abs (v - q') * a) <= 100); [|nia].
        rewrite <- H100. rewrite Z.mul_assoc. apply Z.mul_le_mono_nonneg_r; lia.
      * intros j k Hj Heq Hk.
        assert (Hqk : q' * p10 (e'' - u) = k * p10 j) by nia.
        rewrite Z.mul_assoc. destruct (Z.le_gt_cases (e'' - u) j) as [Hle|Hgt].
        -- rewrite (Hx (j - (e'' - u)) k); [done|lia| |done].
           replace j with ((j - (e'' - u)) + (e'' - u)) in Hqk by lia.
           rewrite p10_add in Hqk by lia. nia.
        -- exfalso. replace (e'' - u) with ((e'' - u - j) + j) in Hqk by lia.
           rewrite p10_add in Hqk by lia. pose proof (p10_pos j Hj).
           pose proof (p10_pos (e'' - u - j) ltac:(lia)).
           assert (k = q' * p10 (e'' - u - j)) by nia.
           pose proof (p10_le prec (ndigits q' - 1) ltac:(lia)). nia.
  - fold u. set (q := if (n / c2) mod 5 =? 0 then _ else _).
    assert (Hq : n / c2 <= q <= n / c2 + 1) by (unfold q; destruct (_ =? 0); lia).
    destruct (fix_prec_bound prec q u 2 Hp ltac:(lia)) as (c' & e' & -> & He' & Hb & _).
    { pose proof (ndigits_le q (prec + 2) ltac:(lia) ltac:(lia)). lia. }
    exists c', e'. split; [done|]. split; [done|]. change (p10 2) with 100 in Hb. split.
    + set (v := c' * p10 (e' - u)) in *. nia.
    + intros j k Hj Heq _. exfalso. apply Hr. rewrite Heq, Z.mul_comm. by apply Z.mod_mul; lia.
Qed.

(** ** Quantization *)

(** In units of any exponent [u] not above both, quantizing up is a ceiling. *)
Lemma dquantize_ceiling_spec (prec exp c e u : Z) :
  1 <= prec -> u <= exp -> u <= e ->
  dquantize_ceiling prec exp (Fin c e) =
    (let q := cdiv (c * p10 (e - u)) (p10 (exp - u)) in
     if ndigits q <=? prec then Ok (Fin q exp) else Exc InvalidOperation).
Proof.
  intros Hp Hu1 Hu2. unfold dquantize_ceiling.
  pose proof (p10_pos (exp - u) ltac:(lia)) as Hpu.
  assert (Hq : (if exp <=? e then c * p10 (e - exp) else cdiv c (p10 (exp - e))) =
               cdiv (c * p10 (e - u)) (p10 (exp - u))); [|by rewrite Hq].
  destruct (Z.leb_spec exp e) as [Hle|Hgt]; symmetry; apply cdiv_unique; try done.
  - replace (e - u) with ((e - exp) + (exp - u)) by lia. rewrite p10_add by lia.
    pose proof (p10_pos (e - exp) ltac:(lia)). nia.
  - pose proof (cdiv_spec c (p10 (exp - e)) ltac:(apply p10_pos; lia)) as Hc.
    replace (exp - u) with ((exp - e) + (e - u)) by lia. rewrite p10_add by lia.
    pose proof (p10_pos (e - u) ltac:(lia)). nia.
Qed.

(** ** Text round trip *)

Lemma digits_fuel_all (fuel : nat) (n : Z) acc :
  0 <= n -> forallb is_digit acc = true -> forallb is_digit (digits_fuel fuel n acc) = true.
Proof.
  revert n acc. induction fuel as [|f IH]; intros n acc Hn Hacc; simpl; [done|].
  pose proof (Z.mod_pos_bound n 10 ltac:(lia)).
  assert (Hh : forallb is_digit (digit_char (n mod 10) :: acc) = true).
  { simpl. by rewrite is_digit_digit_char, Hacc by lia. }
  destruct (n <? 10); [done|]. apply IH; [apply Z.div_pos; lia | done].
Qed.

Lemma digits_all (n : Z) : 0 <= n -> forallb is_digit (digits n) = true.
Proof. intros. by apply digits_fuel_all. Qed.

Lemma digits_fuel_nonempty (fuel : nat) (n : Z) acc :
  acc <> [] -> digits_fuel fuel n acc <> [].
Proof.
  revert n acc. induction fuel as [|f IH]; intros n acc Hacc; simpl; [done|].
  destruct (n <? 10); [done|]. by apply IH.
Qed.

Lemma digits_nonempty (n : Z) : digits n <> [].
Proof. unfold digits. simpl. destruct (n <? 10); [done|]. by apply digits_fuel_nonempty. Qed.

Lemma is_digit_code (c : ascii) : is_digit c = true -> 48 <= code c <= 57.
Proof. unfold is_digit, in_range. intros H. split_bools. lia. Qed.

Lemma split_point_digits (l r : list ascii) :
  forallb is_digit l = true -> split_point (l ++ "."%char :: r) = (l, Some r).
Proof.
  induction l as [|c l IH]; intros H; [done|]. simpl in H. split_bools.
  cbn [app split_point]. rewrite IH by done.
  apply is_digit_code in H. by destruct (Z.eqb_spec (code c) 46); [lia|].
Qed.

Lemma split_point_none (l : list ascii) :
  forallb is_digit l = true -> split_point l = (l, None).
Proof.
  induction l as [|c l IH]; intros H; [done|]. simpl in H. split_bools.
  cbn [split_point]. rewrite IH by done.
  apply is_digit_code in H. by destruct (Z.eqb_spec (code c) 46); [lia|].
Qed.

Lemma parse_digits_zeros (k : nat) (l : list ascii) :
  parse_digits 0 (replicate k "0"%char ++ l) = parse_digits 0 l.
Proof. induction k as [|k IH]; simpl; done. Qed.

Lemma forallb_replicate_zero (k : nat) : forallb is_digit (replicate k "0"%char) = true.
Proof. by induction k. Qed.

(** The sign of a printed number, split off again by [parse_decimal]. *)
Lemma parse_signed (neg : bool) (body : list ascii) (d : ascii) (r : list ascii) :
  body = d :: r -> is_digit d = true ->
  parse_decimal ((if neg then "-" else "") ++ of_chars body) =
    let '(a, b) := split_point body in
    match parse_digits 0 (a ++ default [] b)%list with
    | Some n => Some (Fin (if neg then - n else n) (- Z.of_nat (length (default [] b))))
    | None => None
    end.
Proof.
  intros -> Hd. unfold parse_decimal. rewrite chars_app, chars_of_chars.
  pose proof (is_digit_code d Hd) as Hc.
  assert (Hne : exists x y, split_point (d :: r) = (d :: x, y)).
  { cbn [split_point]. destruct (Z.eqb_spec (code d) 46); [lia|].
    destruct (split_point r) as [x y]. eauto. }
  destruct Hne as (x & y & Hxy).
  assert (Hs : split_sign (chars (if neg then "-" else "") ++ d :: r) = (neg, d :: r)).
  { destruct neg; [done|]. cbn. by destruct (Z.eqb_spec (code d) 45); [lia|]. }
  rewrite Hs, Hxy. done.
Qed.

Lemma positional_integer (c : Z) :
  exists A, chars (positional c 0) = ((if (c <? 0)%Z then ["-"%char] else []) ++ A)%list /\
    A <> [] /\ forallb is_digit A = true /\ parse_digits 0 A = Some (Z.abs c).
Proof.
  exists (digits (Z.abs c)). unfold positional. cbn [Z.eqb].
  rewrite chars_app, chars_of_chars. split; [by destruct (c <? 0)|].
  split; [apply digits_nonempty|]. split; [apply digits_all; lia|].
  apply parse_digits_digits. lia.
Qed.

(** Shape of the text with [k] fraction digits. *)
Lemma positional_shape (c k : Z) :
  0 < k ->
  exists A B, chars (positional c k) =
      ((if (c <? 0)%Z then ["-"%char] else []) ++ A ++ "."%char :: B)%list /\
    A <> [] /\ forallb is_digit A = true /\ forallb is_digit B = true /\
    Z.of_nat (length B) = k /\ parse_digits 0 (A ++ B) = Some (Z.abs c).
Proof.
  intros Hk. unfold positional. destruct (Z.eqb_spec k 0); [lia|].
  set (ds := digits (Z.abs c)).
  set (pad := (replicate _ "0"%char ++ ds)%list). set (m := (length pad - Z.to_nat k)%nat).
  assert (Hlen : (Z.to_nat k < length pad)%nat).
  { unfold pad. rewrite length_app, length_replicate. lia. }
  assert (Hpad : forallb is_digit pad = true).
  { unfold pad. rewrite forallb_app, forallb_replicate_zero. apply digits_all. lia. }
  assert (Hsplit : (firstn m pad ++ skipn m pad)%list = pad) by apply firstn_skipn.
  exists (firstn m pad), (skipn m pad).
  rewrite !chars_app, !chars_of_chars. split; [by destruct (c <? 0)|].
  rewrite <- Hsplit, forallb_app in Hpad. apply andb_prop in Hpad as [HA HB].
  split; [|split; [done|split; [done|split]]].
  - intros Hnil. apply (f_equal length) in Hnil. rewrite length_firstn in Hnil.
    unfold m in Hnil. simpl in Hnil. lia.
  - rewrite length_skipn. unfold m. lia.
  - rewrite Hsplit. unfold pad. rewrite parse_digits_zeros. apply parse_digits_digits. lia.
Qed.

Lemma positional_parse (c k : Z) :
  0 <= k -> parse_decimal (positional c k) = Some (Fin c (- k)).
Proof.
  intros Hk.
  assert (Hsg : (if c <? 0 then - Z.abs c else Z.abs c) = c) by (destruct (Z.ltb_spec c 0); lia).
  assert (Hbody : forall A R, A <> [] -> forallb is_digit A = true ->
    chars (positional c k) = ((if (c <? 0)%Z then ["-"%char] else []) ++ A ++ R)%list ->
    positional c k = (if c <? 0 then "-" else "") ++ of_chars (A ++ R)).
  { intros A R _ _ H. apply chars_inj. rewrite chars_app, chars_of_chars, H. by destruct (c <? 0). }
  destruct (Z.eq_dec k 0) as [->|Hk0].
  - destruct (positional_integer c) as (A & HA & Hne & Hd & Hv).
    rewrite (Hbody A [] Hne Hd) by (by rewrite app_nil_r). rewrite app_nil_r.
    destruct A as [|d r]; [done|]. simpl in Hd. split_bools.
    rewrite (parse_signed (c <? 0) (d :: r) d r), split_point_none by (try done; simpl; by rewrite H, H0).
    cbn [from_option]; unfold id. rewrite app_nil_r, Hv. by rewrite Hsg.
  - destruct (positional_shape c k ltac:(lia)) as (A & B & HA & Hne & HdA & HdB & Hlen & Hv).
    rewrite (Hbody A ("."%char :: B) Hne HdA) by done.
    destruct A as [|d r]; [done|]. pose proof HdA as HdA'. simpl in HdA'. split_bools.
    rewrite (parse_signed (c <? 0) _ d (r ++ "."%char :: B)) by done.
    rewrite split_point_digits by done. cbn [from_option]; unfold id.
    rewrite Hv, Hsg, Hlen. done.
Qed.

(** Reading back the fixed-point text gives the same number: the same coefficient
    and exponent when the exponent was not positive, and the expanded integer
    otherwise. *)
Lemma parse_format_f (c e : Z) :
  parse_decimal (format_f (Fin c e)) = Some (Fin (c * p10 (Z.max e 0)) (Z.min e 0)).
Proof.
  unfold format_f. destruct (Z.leb_spec 0 e).
  - rewrite positional_parse by lia. rewrite Z.max_l, Z.min_r by lia. done.
  - rewrite positional_parse by lia. rewrite Z.max_r, Z.min_l by lia.
    change (p10 0) with 1. rewrite Z.mul_1_r, Z.opp_involutive. done.
Qed.

(** ** Numeric equality *)

(** Decimals that compare equal in Python. *)
Definition deq (a b : Decimal) : Prop := deqb a b = true.

Lemma deq_fin (c1 e1 c2 e2 : Z) :
  deq (Fin c1 e1) (Fin c2 e2) <->
  c1 * p10 (e1 - Z.min e1 e2) = c2 * p10 (e2 - Z.min e1 e2).
Proof.
  unfold deq, deqb, dcompare. destruct (Z.compare_spec (c1 * p10 (e1 - Z.min e1 e2))
    (c2 * p10 (e2 - Z.min e1 e2))); split; intros; try done; lia.
Qed.

(** Equality at any common scale. *)
Lemma deq_scale (c1 e1 c2 e2 u : Z) :
  u <= e1 -> u <= e2 ->
  deq (Fin c1 e1) (Fin c2 e2) <-> c1 * p10 (e1 - u) = c2 * p10 (e2 - u).
Proof.
  intros H1 H2. rewrite deq_fin. set (m := Z.min e1 e2).
  replace (e1 - u) with ((e1 - m) + (m - u)) by lia.
  replace (e2 - u) with ((e2 - m) + (m - u)) by lia.
  rewrite !p10_add by lia. pose proof (p10_pos (m - u) ltac:(lia)). nia.
Qed.

Lemma dle_scale (c1 e1 c2 e2 u : Z) :
  u <= e1 -> u <= e2 ->
  dle (Fin c1 e1) (Fin c2 e2) = true <-> c1 * p10 (e1 - u) <= c2 * p10 (e2 - u).
Proof.
  intros H1 H2. unfold dle, dcompare. set (m := Z.min e1 e2).
  replace (e1 - u) with ((e1 - m) + (m - u)) by lia.
  replace (e2 - u) with ((e2 - m) + (m - u)) by lia.
  rewrite !p10_add by lia. pose proof (p10_pos (m - u) ltac:(lia)).
  destruct (Z.compare_spec (c1 * p10 (e1 - m)) (c2 * p10 (e2 - m))); split; intros; try done; nia.
Qed.

Lemma dlt_scale (c1 e1 c2 e2 u : Z) :
  u <= e1 -> u <= e2 ->
  dlt (Fin c1 e1) (Fin c2 e2) = true <-> c1 * p10 (e1 - u) < c2 * p10 (e2 - u).
Proof.
  intros H1 H2. unfold dlt, dcompare. set (m := Z.min e1 e2).
  replace (e1 - u) with ((e1 - m) + (m - u)) by lia.
  replace (e2 - u) with ((e2 - m) + (m - u)) by lia.
  rewrite !p10_add by lia. pose proof (p10_pos (m - u) ltac:(lia)).
  destruct (Z.compare_spec (c1 * p10 (e1 - m)) (c2 * p10 (e2 - m))); split; intros; try done; nia.
Qed.

Lemma deqb_refl (d : Decimal) : d <> NaN -> deqb d d = true.
Proof.
  destruct d as [c e|[]|]; try done. intros _. apply deq_fin. done.
Qed.

Lemma deq_finite_sym a b : deq a b -> deq b a.
Proof.
  destruct a as [c1 e1|[]|], b as [c2 e2|[]|]; try done.
  rewrite !deq_fin, (Z.min_comm e2). done.
Qed.

Lemma deq_trans a b c : deq a b -> deq b c -> deq a c.
Proof.
  destruct a as [c1 e1|[]|], b as [c2 e2|[]|], c as [c3 e3|[]|]; try done.
  set (u := Z.min e1 (Z.min e2 e3)).
  rewrite !(deq_scale _ _ _ _ u) by lia. congruence.
Qed.

#[export] Instance deq_sym : Symmetric deq.
Proof. intros a b. apply deq_finite_sym. Qed.
#[export] Instance deq_transitive : Transitive deq.
Proof. intros a b c. apply deq_trans. Qed.

Lemma dle_deq_r a b c : dle a b = true -> deq c b -> dle a c = true.
Proof.
  destruct a as [c1 e1|[]|], b as [c2 e2|[]|], c as [c3 e3|[]|]; try done.
  set (u := Z.min e1 (Z.min e2 e3)). rewrite (deq_scale _ _ _ _ u), !(dle_scale _ _ _ _ u) by lia. lia.
Qed.

(** The stored text of a finite amount reads back as an equal amount. *)
Lemma parse_format_f_deq (d : Decimal) :
  is_finite d = true -> exists d', parse_decimal (format_f d) = Some d' /\ deq d d'.
Proof.
  destruct d as [c e| |]; try done. intros _. rewrite parse_format_f. eexists. split; [done|].
  apply (deq_scale _ _ _ _ (Z.min e 0)); [lia|lia|].
  rewrite Z.sub_diag. change (p10 0) with 1. rewrite Z.mul_1_r. f_equal. f_equal. lia.
Qed.
