(* ===== verification/PyTime.v ===== *)
(** Timezone-aware [datetime] values of the source, as UTC instants.

    An instant is a number of microseconds since 1970-01-01T00:00:00Z, so that
    comparison, subtraction and [timedelta] arithmetic are those of [Z]. The
    module gives the hour truncation of the billing code and the ISO-8601 text
    ([isoformat] of a UTC value, [fromisoformat]) that stored rows and digests use.
    A value without UTC offset is what [fromisoformat] returns with offset [None];
    the contracts reject it with [require_aware]. *)
From S2P Require Import Prelude PyStr Errors.
From Stdlib Require Import Ascii.

#[local] Open Scope Z_scope.

(** An aware datetime. *)
Abbreviation instant := Z (only parsing).

Definition US : Z := 1000000.
Definition seconds (n : Z) : Z := n * US.
Definition hours (n : Z) : Z := n * 3600 * US.
Definition DAY : Z := 86400 * US.

(** [value.replace(minute=0, second=0, microsecond=0)] of a UTC value. *)
Definition hour_floor (t : instant) : instant := t - t mod hours 1.

(** [int((b - a).total_seconds())]: truncation toward zero. *)
Definition interval_seconds (a b : instant) : Z := Z.quot (b - a) US.

(** ** Calendar *)

(** Day of a 400-year era (starting on March 1st) to year of era, month and day. *)
Definition era_day_to_ymd (doe : Z) : Z * Z * Z :=
  let yoe := (doe - doe / 1460 + doe / 36524 - doe / 146096) / 365 in
  let doy := doe - (365 * yoe + yoe / 4 - yoe / 100) in
  let mp := (5 * doy + 2) / 153 in
  let d := doy - (153 * mp + 2) / 5 + 1 in
  let m := if mp <? 10 then mp + 3 else mp - 9 in
  (yoe, m, d).

Definition ymd_to_era_day (yoe m d : Z) : Z :=
  let doy := (153 * (if 2 <? m then m - 3 else m + 9) + 2) / 5 + d - 1 in
  yoe * 365 + yoe / 4 - yoe / 100 + doy.

(** Days since the epoch to the proleptic Gregorian date and back. *)
Definition civil_from_days (days : Z) : Z * Z * Z :=
  let z := days + 719468 in
  let '(yoe, m, d) := era_day_to_ymd (z mod 146097) in
  (yoe + 400 * (z / 146097) + (if m <=? 2 then 1 else 0), m, d).

Definition days_from_civil (y m d : Z) : Z :=
  let y' := if m <=? 2 then y - 1 else y in
  (y' / 400) * 146097 + ymd_to_era_day (y' mod 400) m d - 719468.

Definition is_leap (y : Z) : bool :=
  (y mod 4 =? 0) && (negb (y mod 100 =? 0) || (y mod 400 =? 0)).

Definition days_in_month (y m : Z) : Z :=
  if m =? 2 then (if is_leap y then 29 else 28)
  else if (m =? 4) || (m =? 6) || (m =? 9) || (m =? 11) then 30 else 31.

(** ** Text *)

(** [n] decimal digits of [v]. *)
Fixpoint pad_digits (n : nat) (v : Z) : list ascii :=
  match n with
  | O => []
  | S k => (pad_digits k (v / 10) ++ [digit_char (v mod 10)])%list
  end.

Definition iso_with (suffix : list ascii) (t : instant) : list ascii :=
  let '(y, m, d) := civil_from_days (t / DAY) in
  let us := t mod DAY in
  let s := us / US in
  (pad_digits 4 y ++ "-"%char :: pad_digits 2 m ++ "-"%char :: pad_digits 2 d ++ "T"%char ::
   pad_digits 2 (s / 3600) ++ ":"%char :: pad_digits 2 (s / 60 mod 60) ++ ":"%char ::
   pad_digits 2 (s mod 60) ++
   (if us mod US =? 0 then [] else "."%char :: pad_digits 6 (us mod US)) ++
   suffix)%list.

Definition iso_chars (t : instant) : list ascii := iso_with ["+"; "0"; "0"; ":"; "0"; "0"]%char t.

(** [value.astimezone(UTC).isoformat()]. *)
Definition iso_datetime (t : instant) : string := of_chars (iso_chars t).

Definition take_num (n : nat) (l : list ascii) : option (Z * list ascii) :=
  if Nat.leb n (length l) then
    match parse_digits 0 (firstn n l) with
    | Some v => Some (v, skipn n l)
    | None => None
    end
  else None.

Definition expect (c : ascii) (l : list ascii) : option (list ascii) :=
  match l with
  | a :: r => if (code a =? code c)%Z then Some r else None
  | [] => None
  end.

(** UTC offset suffix: nothing (naive), [Z], or [(+|-)HH:MM]; in seconds. *)
Definition parse_offset (l : list ascii) : option (option Z) :=
  match l with
  | [] => Some None
  | c :: r =>
      if (code c =? 90)%Z then match r with [] => Some (Some 0) | _ => None end
      else if (code c =? 43)%Z || (code c =? 45)%Z then
        match take_num 2 r with
        | Some (h, r1) =>
            match expect ":" r1 with
            | Some r2 =>
                match take_num 2 r2 with
                | Some (m, []) =>
                    if (h <? 24) && (m <? 60) then
                      let o := h * 3600 + m * 60 in
                      Some (Some (if (code c =? 45)%Z then - o else o))
                    else None
                | _ => None
                end
            | None => None
            end
        | None => None
        end
      else None
  end.

(** [datetime.fromisoformat] on [YYYY-MM-DDTHH:MM:SS[.ffffff][offset]]: the local
    time in microseconds and the offset; [None] is [ValueError]. *)
Definition fromisoformat (s : string) : option (Z * option Z) :=
  match take_num 4 (chars s) with
  | Some (y, l1) =>
  match expect "-" l1 with
  | Some l2 =>
  match take_num 2 l2 with
  | Some (m, l3) =>
  match expect "-" l3 with
  | Some l4 =>
  match take_num 2 l4 with
  | Some (d, l5) =>
  match expect "T" l5 with
  | Some l6 =>
  match take_num 2 l6 with
  | Some (hh, l7) =>
  match expect ":" l7 with
  | Some l8 =>
  match take_num 2 l8 with
  | Some (mm, l9) =>
  match expect ":" l9 with
  | Some l10 =>
  match take_num 2 l10 with
  | Some (ss, l11) =>
      let '(us, l12) :=
        match expect "." l11 with
        | Some r => match take_num 6 r with Some (f, r') => (f, r') | None => (-1, r) end
        | None => (0, l11)
        end in
      match parse_offset l12 with
      | Some off =>
          if (1 <=? y) && (1 <=? m) && (m <=? 12) && (1 <=? d) && (d <=? days_in_month y m) &&
             (hh <? 24) && (mm <? 60) && (ss <? 60) && (0 <=? us) then
            Some (days_from_civil y m d * DAY + (hh * 3600 + mm * 60 + ss) * US + us, off)
          else None
      | None => None
      end
  | None => None end | None => None end | None => None end | None => None end
  | None => None end | None => None end | None => None end | None => None end
  | None => None end | None => None end | None => None end.

(** [_datetime]: a stored timestamp must parse and carry an offset; the result is
    the UTC instant. *)
Definition parse_aware (s : string) : option instant :=
  match fromisoformat s with
  | Some (local, Some off) => Some (local - off * US)
  | _ => None
  end.

(** ** Hours *)

Lemma hour_floor_spec (t : instant) :
  hour_floor t <= t < hour_floor t + hours 1 /\ hour_floor t mod hours 1 = 0.
Proof.
  unfold hour_floor. change (hours 1) with 3600000000.
  pose proof (Z.mod_pos_bound t 3600000000 ltac:(lia)).
  split; [lia|]. rewrite Zminus_mod_idemp_r, Z.sub_diag. done.
Qed.

Lemma hour_floor_aligned (t : instant) : t mod hours 1 = 0 -> hour_floor t = t.
Proof. unfold hour_floor. lia. Qed.

Lemma hour_floor_le (t u : instant) :
  u mod hours 1 = 0 -> u <= t -> u <= hour_floor t.
Proof.
  change (hours 1) with 3600000000. unfold hour_floor. change (hours 1) with 3600000000.
  intros Hu Hle. pose proof (Z.div_mod t 3600000000 ltac:(lia)).
  pose proof (Z.div_mod u 3600000000 ltac:(lia)).
  pose proof (Z.mod_pos_bound t 3600000000 ltac:(lia)). lia.
Qed.

(** ** Calendar round trip *)

(** Year of the era of a day: a monotone function, checked at the 400 year
    boundaries. *)
Definition year_of_era (doe : Z) : Z :=
  (doe - doe / 1460 + doe / 36524 - doe / 146096) / 365.

Definition year_start (yoe : Z) : Z := 365 * yoe + yoe / 4 - yoe / 100.

Definition year_end (yoe : Z) : Z :=
  if yoe =? 399 then 146097 else year_start (yoe + 1).

Definition year_check (yoe : Z) : bool :=
  (year_of_era (year_start yoe) =? yoe) && (year_of_era (year_end yoe - 1) =? yoe) &&
  (year_end yoe - year_start yoe =? if is_leap (yoe + 1) then 366 else 365).

(** Month and day of a day of the year starting on March 1st. *)
Definition month_check (doy : Z) : bool :=
  let mp := (5 * doy + 2) / 153 in
  let d := doy - (153 * mp + 2) / 5 + 1 in
  let m := if mp <? 10 then mp + 3 else mp - 9 in
  ((153 * (if 2 <? m then m - 3 else m + 9) + 2) / 5 + d - 1 =? doy) &&
  (1 <=? m) && (m <=? 12) && (1 <=? d) &&
  (if m =? 2 then d <=? (if doy =? 365 then 29 else 28)
   else if (m =? 4) || (m =? 6) || (m =? 9) || (m =? 11) then d <=? 30 else d <=? 31) &&
  (if doy =? 365 then m =? 2 else true).

Fixpoint check_below (p : Z -> bool) (n : nat) (k : Z) : bool :=
  match n with
  | O => true
  | S n' => if p k then check_below p n' (k + 1) else false
  end.

Lemma check_below_spec (p : Z -> bool) (n : nat) (k z : Z) :
  check_below p n k = true -> k <= z < k + Z.of_nat n -> p z = true.
Proof.
  revert k. induction n as [|n IH]; intros k H Hz; [lia|]. simpl in H.
  destruct (p k) eqn:Hk; [|done].
  destruct (Z.eq_dec z k) as [->|]; [done|]. apply (IH (k + 1)); [done|lia].
Qed.

Lemma year_check_all (y : Z) : 0 <= y < 400 -> year_check y = true.
Proof. apply (check_below_spec _ 400 0). vm_compute. reflexivity. Qed.

Lemma month_check_all (doy : Z) : 0 <= doy < 366 -> month_check doy = true.
Proof. apply (check_below_spec _ 366 0). vm_compute. reflexivity. Qed.

Lemma year_of_era_step (a : Z) : 0 <= a -> year_of_era a <= year_of_era (a + 1).
Proof.
  intros Ha. unfold year_of_era. apply Z.div_le_mono; [lia|].
  assert (H1 : (a + 1) / 1460 <= a / 1460 + 1).
  { rewrite <- Z.div_add by lia. apply Z.div_le_mono; lia. }
  assert (H2 : a / 36524 <= (a + 1) / 36524) by (apply Z.div_le_mono; lia).
  assert (H3 : (a + 1) / 146096 <= a / 146096 + 1).
  { rewrite <- Z.div_add by lia. apply Z.div_le_mono; lia. }
  destruct (Z.eq_dec ((a + 1) / 146096) (a / 146096)) as [->|Hne]; [lia|].
  assert (Hm : (a + 1) / 146096 = a / 146096 + 1).
  { assert (a / 146096 <= (a + 1) / 146096) by (apply Z.div_le_mono; lia). lia. }
  assert (a + 1 = 146096 * ((a + 1) / 146096)).
  { pose proof (Z.div_mod (a + 1) 146096 ltac:(lia)). pose proof (Z.div_mod a 146096 ltac:(lia)).
    pose proof (Z.mod_pos_bound (a + 1) 146096 ltac:(lia)).
    pose proof (Z.mod_pos_bound a 146096 ltac:(lia)). lia. }
  set (q := (a + 1) / 146096) in *.
  assert ((a + 1) / 36524 = 4 * q).
  { replace (a + 1) with (4 * q * 36524) by lia. by rewrite Z.div_mul. }
  assert (a / 36524 = 4 * q - 1).
  { symmetry. apply (Z.div_unique a 36524 (4 * q - 1) 36523); lia. }
  lia.
Qed.

Lemma year_of_era_mono (a b : Z) : 0 <= a <= b -> year_of_era a <= year_of_era b.
Proof.
  intros [Ha Hab]. replace b with (a + Z.of_nat (Z.to_nat (b - a))) by lia.
  induction (Z.to_nat (b - a)) as [|n IH]; [by rewrite Z.add_0_r|].
  etransitivity; [exact IH|].
  replace (a + Z.of_nat (S n)) with (a + Z.of_nat n + 1) by lia. apply year_of_era_step. lia.
Qed.

Lemma year_of_era_interval (doe : Z) :
  0 <= doe < 146097 ->
  let y := year_of_era doe in 0 <= y < 400 /\ year_start y <= doe < year_end y.
Proof.
  intros Hd y.
  assert (Hy : 0 <= y < 400).
  { change 0 with (year_of_era 0). change 400 with (year_of_era 146096 + 1).
    pose proof (year_of_era_mono 0 doe ltac:(lia)).
    pose proof (year_of_era_mono doe 146096 ltac:(lia)). unfold y. lia. }
  split; [done|]. split.
  - destruct (Z.le_gt_cases (year_start y) doe) as [|Hgt]; [done|exfalso].
    destruct (Z.eq_dec y 0) as [Hy0|]; [rewrite Hy0 in Hgt; change (year_start 0) with 0 in Hgt; lia|].
    pose proof (year_check_all (y - 1) ltac:(lia)) as Hc. unfold year_check in Hc. split_bools.
    assert (Hend : year_end (y - 1) = year_start y).
    { unfold year_end. destruct (Z.eqb_spec (y - 1) 399); [lia|]. f_equal. lia. }
    rewrite Hend in *.
    pose proof (year_of_era_mono doe (year_start y - 1) ltac:(lia)). unfold y in *. lia.
  - destruct (Z.le_gt_cases (year_end y) doe) as [Hge|]; [exfalso|done].
    unfold year_end in Hge. destruct (Z.eqb_spec y 399); [lia|].
    pose proof (year_check_all (y + 1) ltac:(lia)) as Hc. unfold year_check in Hc. split_bools.
    assert (0 <= year_start (y + 1)).
    { unfold year_start. pose proof (Z.div_pos (y + 1) 4 ltac:(lia) ltac:(lia)).
      pose proof (Z.div_le_upper_bound (y + 1) 100 (y + 1) ltac:(lia) ltac:(lia)). lia. }
    pose proof (year_of_era_mono (year_start (y + 1)) doe ltac:(lia)). unfold y in *. lia.
Qed.

Lemma era_day_ok (doe : Z) :
  0 <= doe < 146097 ->
  let '(yoe, m, d) := era_day_to_ymd doe in
  ymd_to_era_day yoe m d = doe /\ 0 <= yoe < 400 /\ 1 <= m <= 12 /\
  1 <= d <= days_in_month (yoe + (if m <=? 2 then 1 else 0)) m.
Proof.
  intros Hd. unfold era_day_to_ymd. fold (year_of_era doe).
  destruct (year_of_era_interval doe Hd) as [Hy Hint].
  set (y := year_of_era doe) in *.
  pose proof (year_check_all y Hy) as Hyc. unfold year_check in Hyc. split_bools.
  fold (year_start y). set (doy := doe - year_start y) in *.
  assert (Hdoy : 0 <= doy < 366) by (destruct (is_leap (y + 1)); lia).
  pose proof (month_check_all doy Hdoy) as Hmc. unfold month_check in Hmc.
  set (m := if (5 * doy + 2) / 153 <? 10 then _ else _) in *.
  set (d := doy - _ + 1) in *. split_bools.
  split; [|split; [done|]; split; [lia|]].
  - unfold ymd_to_era_day. unfold year_start in *. lia.
  - split; [lia|]. unfold days_in_month.
    destruct (Z.eqb_spec m 2) as [Hm2|Hm2]; [|by destruct (_ || _); split_bools].
    rewrite Hm2. change (2 <=? 2) with true. cbv iota.
    destruct (is_leap (y + 1)), (Z.eqb_spec doy 365); split_bools; lia.
Qed.

Lemma days_in_month_400 (y k m : Z) : days_in_month (y + 400 * k) m = days_in_month y m.
Proof.
  unfold days_in_month, is_leap.
  replace ((y + 400 * k) mod 4) with (y mod 4)
    by (rewrite <- (Z.mod_add y (100 * k) 4) by lia; f_equal; lia).
  replace ((y + 400 * k) mod 100) with (y mod 100)
    by (rewrite <- (Z.mod_add y (4 * k) 100) by lia; f_equal; lia).
  replace ((y + 400 * k) mod 400) with (y mod 400)
    by (rewrite <- (Z.mod_add y k 400) by lia; f_equal; lia).
  done.
Qed.

Lemma civil_round_trip (days : Z) :
  let '(y, m, d) := civil_from_days days in
  days_from_civil y m d = days /\ 1 <= m <= 12 /\ 1 <= d <= days_in_month y m.
Proof.
  unfold civil_from_days. set (z := days + 719468).
  pose proof (Z.mod_pos_bound z 146097 ltac:(lia)) as Hb.
  pose proof (era_day_ok (z mod 146097) Hb) as Hc.
  destruct (era_day_to_ymd (z mod 146097)) as [[yoe m] d].
  destruct Hc as (Hday & Hyoe & Hm & Hd).
  set (e := z / 146097). set (adj := if m <=? 2 then 1 else 0) in *.
  split.
  - unfold days_from_civil.
    assert (Hy : (if m <=? 2 then yoe + 400 * e + adj - 1 else yoe + 400 * e + adj) = yoe + 400 * e)
      by (unfold adj; destruct (m <=? 2); lia).
    rewrite Hy. replace (yoe + 400 * e) with (yoe + e * 400) by lia.
    rewrite Z.div_add, Z.mod_add, Z.div_small, Z.mod_small by lia.
    rewrite Hday. pose proof (Z.div_mod z 146097 ltac:(lia)) as Hz. fold e in Hz.
    unfold z in *. lia.
  - split; [lia|]. replace (yoe + 400 * e + adj) with (yoe + adj + 400 * e) by lia.
    rewrite days_in_month_400. lia.
Qed.

(** ** Text round trip *)

(** Python's [datetime] holds the years 1 to 9999. *)
Definition year_of (t : instant) : Z := let '(y, _, _) := civil_from_days (t / DAY) in y.

Definition representable (t : instant) : Prop := 1 <= year_of t <= 9999.

#[export] Instance representable_dec (t : instant) : Decision (representable t).
Proof. unfold representable. apply _. Defined.

Lemma length_pad_digits (n : nat) (v : Z) : length (pad_digits n v) = n.
Proof.
  revert v. induction n as [|n IH]; intros v; simpl; [done|].
  rewrite length_app, IH. simpl. lia.
Qed.

Lemma parse_pad_digits (n : nat) (v : Z) :
  0 <= v -> parse_digits 0 (pad_digits n v) = Some (v mod p10 (Z.of_nat n)).
Proof.
  revert v. induction n as [|n IH]; intros v Hv; simpl.
  { change (p10 0) with 1. by rewrite Z.mod_1_r. }
  pose proof (Z.mod_pos_bound v 10 ltac:(lia)) as Hm.
  rewrite (parse_digits_app _ _ _ _ (IH (v / 10) ltac:(apply Z.div_pos; lia))). simpl.
  rewrite is_digit_digit_char, code_digit_char by lia. f_equal.
  replace (Z.of_nat (S n)) with (1 + Z.of_nat n) by lia.
  rewrite p10_add by lia. change (p10 1) with 10.
  rewrite Z.rem_mul_r by (try lia; apply p10_pos; lia). lia.
Qed.

Lemma take_num_pad (n : nat) (v : Z) (r : list ascii) :
  0 <= v < p10 (Z.of_nat n) -> take_num n (pad_digits n v ++ r) = Some (v, r).
Proof.
  intros Hv. unfold take_num.
  destruct (Nat.leb_spec n (length (pad_digits n v ++ r))) as [_|Hlt].
  - rewrite firstn_app, length_pad_digits, Nat.sub_diag, firstn_O, app_nil_r.
    rewrite firstn_all2 by (rewrite length_pad_digits; lia).
    rewrite parse_pad_digits, Z.mod_small by lia.
    rewrite skipn_app, length_pad_digits, Nat.sub_diag.
    rewrite skipn_all2 by (rewrite length_pad_digits; lia). done.
  - rewrite length_app, length_pad_digits in Hlt. lia.
Qed.

Lemma expect_cons (c : ascii) (r : list ascii) : expect c (c :: r) = Some r.
Proof. unfold expect. by rewrite Z.eqb_refl. Qed.

Lemma expect_point_plus (r : list ascii) : expect "." ("+"%char :: r) = None.
Proof. reflexivity. Qed.

Lemma parse_offset_utc : parse_offset ["+"; "0"; "0"; ":"; "0"; "0"]%char = Some (Some 0).
Proof. reflexivity. Qed.

(** The text of an instant under a suffix for UTC reads back as that instant. *)
Lemma fromisoformat_iso_with (suffix : list ascii) (t : instant) :
  representable t -> expect "." suffix = None -> parse_offset suffix = Some (Some 0) ->
  fromisoformat (of_chars (iso_with suffix t)) = Some (t, Some 0).
Proof.
  unfold representable, year_of, fromisoformat, iso_with. intros Hrep Hpoint Hoff. revert Hrep.
  rewrite chars_of_chars. pose proof (civil_round_trip (t / DAY)) as Hciv.
  destruct (civil_from_days (t / DAY)) as [[y m] d]. destruct Hciv as (Hdays & Hm & Hd).
  intros Hy. set (us := t mod DAY). set (s := us / US).
  assert (Hus : 0 <= us < DAY) by (apply Z.mod_pos_bound; done).
  change DAY with 86400000000 in *. change US with 1000000 in *.
  assert (Hs : 0 <= s < 86400).
  { unfold s. split; [apply Z.div_pos; lia | apply Z.div_lt_upper_bound; lia]. }
  pose proof (Z.div_mod us 1000000 ltac:(lia)) as Hsus. fold s in Hsus.
  pose proof (Z.mod_pos_bound us 1000000 ltac:(lia)) as Hfrac.
  pose proof (Z.div_mod t 86400000000 ltac:(lia)) as Ht. fold us in Ht.
  pose proof (Z.mod_pos_bound s 60 ltac:(lia)).
  pose proof (Z.mod_pos_bound (s / 60) 60 ltac:(lia)).
  assert (Hh : 0 <= s / 3600 < 24)
    by (split; [apply Z.div_pos; lia | apply Z.div_lt_upper_bound; lia]).
  assert (Hd31 : d <= 31)
    by (revert Hd; unfold days_in_month; repeat case_match; lia).
  rewrite take_num_pad by (change (p10 (Z.of_nat 4)) with 10000; lia).
  rewrite expect_cons, take_num_pad by (change (p10 (Z.of_nat 2)) with 100; lia).
  rewrite expect_cons, take_num_pad by (change (p10 (Z.of_nat 2)) with 100; lia).
  rewrite expect_cons, take_num_pad by (change (p10 (Z.of_nat 2)) with 100; lia).
  rewrite expect_cons, take_num_pad by (change (p10 (Z.of_nat 2)) with 100; lia).
  rewrite expect_cons, take_num_pad by (change (p10 (Z.of_nat 2)) with 100; lia).
  assert (Hsec : s = s / 3600 * 3600 + (s / 60 mod 60) * 60 + s mod 60).
  { pose proof (Z.div_mod s 60 ltac:(lia)). pose proof (Z.div_mod (s / 60) 60 ltac:(lia)) as Hq.
    rewrite Z.div_div in Hq by lia. change (60 * 60) with 3600 in Hq. lia. }
  assert (Hval : (1 <=? y) && (1 <=? m) && (m <=? 12) && (1 <=? d) && (d <=? days_in_month y m) &&
    (s / 3600 <? 24) && (s / 60 mod 60 <? 60) && (s mod 60 <? 60) && (0 <=? us mod 1000000) = true).
  { repeat (apply andb_true_intro; split); (apply Z.leb_le || apply Z.ltb_lt); lia. }
  destruct (Z.eqb_spec (us mod 1000000) 0) as [Hz|Hz].
  - rewrite Hz in Hval. cbn [app]. rewrite Hpoint, Hoff, Hval.
    f_equal. f_equal. rewrite Hdays. lia.
  - cbn [app]. rewrite expect_cons, take_num_pad by (change (p10 (Z.of_nat 6)) with 1000000; lia).
    rewrite Hoff, Hval. f_equal. f_equal. rewrite Hdays. lia.
Qed.

(** The canonical text of an instant reads back as that instant. *)
Lemma parse_aware_iso_datetime (t : instant) :
  representable t -> parse_aware (iso_datetime t) = Some t.
Proof.
  intros Ht. unfold parse_aware, iso_datetime, iso_chars.
  rewrite fromisoformat_iso_with by done. f_equal. lia.
Qed.
