(* ===== verification/Json.v ===== *)
(** JSON documents as the source builds and reads them, with the mapping
    operations of the codecs and the canonical text that digests are taken over. *)
From S2P Require Import Prelude PyStr PyDecimal.
From Stdlib Require Import Ascii.

(** A Python float is represented by the [Decimal] its [repr] denotes
    ([Decimal(str(x))]): the shortest text identifies the float, and comparisons
    of floats agree with comparisons of those decimals. *)
Inductive json :=
  | JNull
  | JBool (b : bool)
  | JInt (z : Z)
  | JFloat (d : Decimal)
  | JStr (s : string)
  | JList (l : list json)
  | JObj (fields : list (string * json)).

(** ** Mappings *)

(** [value.get(key)], [JNull] standing for Python's [None]. *)
Fixpoint get_field (l : list (string * json)) (key : string) : json :=
  match l with
  | [] => JNull
  | (k, v) :: r => if String.eqb k key then v else get_field r key
  end.

Definition keys (l : list (string * json)) : list string := map fst l.

(** [set(actual) == set(expected)]. *)
Definition same_keys (actual expected : list string) : bool :=
  forallb (fun k => bool_decide (k ∈ expected)) actual &&
  forallb (fun k => bool_decide (k ∈ actual)) expected.

Lemma same_keys_spec (a e : list string) :
  same_keys a e = true <-> (forall k, k ∈ a <-> k ∈ e).
Proof.
  unfold same_keys. rewrite andb_true_iff, !forallb_forall.
  setoid_rewrite bool_decide_eq_true. setoid_rewrite <- list_elem_of_In. naive_solver.
Qed.

(** ** Python equality *)

(** The number a JSON scalar is, for [==]: [True == 1 == 1.0]. *)
Definition as_number (v : json) : option Decimal :=
  match v with
  | JBool b => Some (of_int (if b then 1 else 0))
  | JInt z => Some (of_int z)
  | JFloat d => Some d
  | _ => None
  end.

(** [a == b]: dicts compare without regard to the order of their keys. *)
Fixpoint py_eq (a b : json) {struct a} : bool :=
  match a, b with
  | JNull, JNull => true
  | JStr x, JStr y => bool_decide (x = y)
  | JList l, JList k =>
      (fix go l k := match l, k with
       | [], [] => true
       | x :: l', y :: k' => py_eq x y && go l' k'
       | _, _ => false
       end) l k
  | JObj l, JObj k =>
      same_keys (keys l) (keys k) &&
      (fix go l := match l with
       | [] => true
       | (n, x) :: l' => py_eq x (get_field k n) && go l'
       end) l
  | _, _ =>
      match as_number a, as_number b with
      | Some x, Some y => deqb x y
      | _, _ => false
      end
  end.

(** ** Canonical text: [json.dumps(value, sort_keys=True, separators=(",", ":"))] *)

Definition hex_char (d : Z) : ascii :=
  if (d <? 10)%Z then digit_char d else ascii_of_N (Z.to_N (87 + d)).

Definition quote_char : ascii := ascii_of_N 34.

(** [ensure_ascii] escapes. *)
Definition escape_char (c : ascii) : list ascii :=
  let n := code c in
  if (n =? 34)%Z then ["\"%char; quote_char]
  else if (n =? 92)%Z then ["\"; "\"]%char
  else if (n =? 10)%Z then ["\"; "n"]%char
  else if (n =? 13)%Z then ["\"; "r"]%char
  else if (n =? 9)%Z then ["\"; "t"]%char
  else if (n =? 12)%Z then ["\"; "f"]%char
  else if (n =? 8)%Z then ["\"; "b"]%char
  else if (32 <=? n)%Z && (n <=? 126)%Z then [c]
  else (["\"; "u"; "0"; "0"]%char ++ [hex_char (n / 16); hex_char (n mod 16)])%list.

Definition str_text (s : string) : list ascii :=
  (quote_char :: flat_map escape_char (chars s) ++ [quote_char])%list.

(** [float.__repr__] of the float whose shortest digits are [c * 10^e]. *)
Definition float_text (d : Decimal) : list ascii :=
  match d with
  | Fin c e =>
      let ds := digits (Z.abs c) in
      let n := Z.of_nat (length ds) in
      let point := (n + e)%Z in
      let sign := if (c <? 0)%Z then ["-"%char] else [] in
      if (-4 <? point)%Z && (point <=? 16)%Z then
        (sign ++ chars (if (0 <=? e)%Z then positional (Z.abs c * p10 e) 0 else positional (Z.abs c) (- e))
              ++ (if (0 <=? e)%Z then [".";"0"]%char else []))%list
      else
        let x := (point - 1)%Z in
        let xs := digits (Z.abs x) in
        (sign ++ firstn 1 ds ++ (if (n =? 1)%Z then [] else "."%char :: skipn 1 ds)
              ++ ["e"%char] ++ [if (x <? 0)%Z then "-"%char else "+"%char]
              ++ (if Nat.ltb (length xs) 2 then "0"%char :: xs else xs))%list
  | Inf n => chars (if n then "-Infinity" else "Infinity")
  | NaN => chars "NaN"
  end.

(** Code-point order of keys. *)
Fixpoint str_le (a b : list ascii) : bool :=
  match a, b with
  | [], _ => true
  | _ :: _, [] => false
  | x :: a', y :: b' =>
      if (code x <? code y)%Z then true
      else if (code y <? code x)%Z then false else str_le a' b'
  end.

Fixpoint insert_key {A} (k : string) (v : A) (l : list (string * A)) : list (string * A) :=
  match l with
  | [] => [(k, v)]
  | (k', v') :: r =>
      if str_le (chars k) (chars k') then (k, v) :: l else (k', v') :: insert_key k v r
  end.

Definition sort_keys {A} (l : list (string * A)) : list (string * A) :=
  fold_right (fun '(k, v) acc => insert_key k v acc) [] l.

Fixpoint join_comma (l : list (list ascii)) : list ascii :=
  match l with
  | [] => []
  | [x] => x
  | x :: r => (x ++ ","%char :: join_comma r)%list
  end.

Fixpoint dump_chars (v : json) : list ascii :=
  match v with
  | JNull => chars "null"
  | JBool b => chars (if b then "true" else "false")
  | JInt z => chars (int_text z)
  | JFloat d => float_text d
  | JStr s => str_text s
  | JList l => ("["%char :: join_comma (map dump_chars l) ++ ["]"%char])%list
  | JObj l =>
      let items := map (fun p => (fst p, dump_chars (snd p))) l in
      ("{"%char ::
       join_comma (map (fun p => (str_text (fst p) ++ ":"%char :: snd p)%list) (sort_keys items)) ++
       ["}"%char])%list
  end.

Definition dumps (v : json) : string := of_chars (dump_chars v).

Lemma str_le_total (a b : list ascii) : str_le a b = true \/ str_le b a = true.
Proof.
  revert b. induction a as [|x a IH]; intros [|y b]; simpl; auto.
  destruct (Z.ltb_spec (code x) (code y)), (Z.ltb_spec (code y) (code x)); auto.
Qed.

Lemma str_le_trans (a b c : list ascii) : str_le a b = true -> str_le b c = true -> str_le a c = true.
Proof.
  revert b c. induction a as [|x a IH]; intros [|y b] [|z c]; simpl; try done.
  destruct (Z.ltb_spec (code x) (code y)), (Z.ltb_spec (code y) (code x)),
    (Z.ltb_spec (code y) (code z)), (Z.ltb_spec (code z) (code y)),
    (Z.ltb_spec (code x) (code z)), (Z.ltb_spec (code z) (code x)); try done; try lia.
  apply IH.
Qed.

(** ** Sorted keys *)

(** [sorted(mapping)]. *)
Definition sorted_keys {A} (l : list (string * A)) : list string := map fst (sort_keys l).

Fixpoint keys_sorted (l : list string) : Prop :=
  match l with
  | [] => True
  | k :: r => Forall (fun k' => str_le (chars k) (chars k') = true) r /\ keys_sorted r
  end.

Lemma insert_key_perm {A} k (v : A) l : Permutation (insert_key k v l) ((k, v) :: l).
Proof.
  induction l as [|[k' v'] l IH]; simpl; [done|].
  destruct (str_le (chars k) (chars k')); [done|]. rewrite IH. apply Permutation_swap.
Qed.

Lemma sort_keys_perm {A} (l : list (string * A)) : Permutation (sort_keys l) l.
Proof.
  induction l as [|[k v] l IH]; [done|]. simpl. rewrite insert_key_perm. by apply Permutation_skip.
Qed.

Lemma insert_key_sorted {A} k (v : A) l :
  keys_sorted (map fst l) -> keys_sorted (map fst (insert_key k v l)).
Proof.
  induction l as [|[k' v'] l IH]; simpl; [by auto|]. intros [Hh Ht].
  destruct (str_le (chars k) (chars k')) eqn:E; simpl.
  - split; [|done]. constructor; [done|]. eapply List.Forall_impl; [|exact Hh].
    intros x Hx. eapply str_le_trans; eauto.
  - split; [|by apply IH].
    assert (Hp : Permutation (map fst (insert_key k v l)) (k :: map fst l))
      by (rewrite insert_key_perm; done).
    rewrite Hp. constructor; [|done].
    destruct (str_le_total (chars k) (chars k')); congruence.
Qed.

Lemma sorted_keys_sorted {A} (l : list (string * A)) : keys_sorted (sorted_keys l).
Proof.
  unfold sorted_keys. induction l as [|[k v] l IH]; simpl; [done|]. by apply insert_key_sorted.
Qed.

(** Sorting what is sorted changes nothing. *)
Lemma sort_keys_id {A} (f : string -> A) (ks : list string) :
  keys_sorted ks -> sort_keys (map (fun k => (k, f k)) ks) = map (fun k => (k, f k)) ks.
Proof.
  induction ks as [|k ks IH]; [done|]. intros [Hh Ht]. simpl. rewrite IH by done.
  destruct ks as [|k' ks]; [done|]. simpl. by rewrite (Forall_inv Hh).
Qed.

Lemma map_fst_pair {A} (f : string -> A) (ks : list string) :
  map fst (map (fun k => (k, f k)) ks) = ks.
Proof. rewrite map_map. apply map_id. Qed.

Lemma sorted_keys_map {A B} (f : string -> B) (l : list (string * A)) :
  sorted_keys (map (fun k => (k, f k)) (sorted_keys l)) = sorted_keys l.
Proof.
  unfold sorted_keys at 1. rewrite sort_keys_id by apply sorted_keys_sorted. apply map_fst_pair.
Qed.

Lemma sorted_keys_elem {A} (l : list (string * A)) k : k ∈ sorted_keys l <-> k ∈ map fst l.
Proof.
  assert (Hp : Permutation (map fst (sort_keys l)) (map fst l))
    by apply Permutation_map, sort_keys_perm.
  unfold sorted_keys. by rewrite Hp.
Qed.

(** ** Digests *)

(** [hashlib.sha256(text.encode()).hexdigest()]: 64 lowercase hexadecimal digits.
    Nothing else about the function is assumed. *)
Class Digest := {
  sha256_hex : string -> string;
  sha256_hex_length : forall s, len (sha256_hex s) = 64%Z;
  sha256_hex_digits : forall s, all_chars is_hex (sha256_hex s) = true
}.

(** [_json_sha256]. *)
Definition json_sha256 `{Digest} (v : json) : string := sha256_hex (dumps v).

(** [canonical_sha256] of [signed_invocations.py]. *)
Definition canonical_sha256 `{Digest} (v : json) : string := "sha256:" ++ json_sha256 v.
