(* ===== verification/Billing.v ===== *)
(** [billing.py]: UTC hour coverage and exact monetary arithmetic. *)
From S2P Require Import Prelude PyStr Errors PyDecimal PyTime Json.
From Stdlib Require Import Ascii Permutation.

#[local] Open Scope Z_scope.

Module Billing.

(** ** Operations *)

(** Whole UTC hours touched by a positive half-open lifecycle interval. The
    timezone checks hold of every instant. *)
Definition billing_hour_bounds (started_at coverage_until : instant) : result (instant * instant) :=
  if coverage_until <=? started_at then Exc ValueError
  else
    let first := hour_floor started_at in
    let until := hour_floor coverage_until in
    Ok (first, if until =? coverage_until then until else until + hours 1).

Definition dexponent (d : Decimal) : Z := match d with Fin _ e => e | _ => 0 end.
Definition dcoef (d : Decimal) : Z := match d with Fin c _ => c | _ => 0 end.

(** [sum(items, start=Decimal(0))] in a context of the given precision. *)
Definition dsum (prec : Z) (items : list Decimal) : Decimal :=
  fold_left (dadd prec) items dzero.

Definition list_min (d : Z) (l : list Z) : Z := fold_right Z.min d l.
Definition list_max (d : Z) (l : list Z) : Z := fold_right Z.max d l.

(** The exponent, digit count and working precision of [exact_decimal_sum]. *)
Definition sum_exponent (items : list Decimal) : Z :=
  match items with
  | [] => 0
  | d :: r => list_min (dexponent d) (map dexponent r)
  end.

Definition sum_digits (items : list Decimal) : Z :=
  match items with
  | [] => 0
  | d :: r =>
      let width x := ndigits (dcoef x) + dexponent x - sum_exponent items in
      list_max (width d) (map width r)
  end.

Definition sum_precision (ambient : Z) (items : list Decimal) : Z :=
  Z.max ambient (sum_digits items + ndigits (Z.of_nat (length items)) + 1).

(** Sum finite money without ambient precision silently rounding it. [ambient]
    is the precision of the context in force at the call. *)
Definition exact_decimal_sum (ambient : Z) (items : list Decimal) : result Decimal :=
  if forallb is_finite items then
    match items with
    | [] => Ok dzero
    | _ => Ok (dsum (sum_precision ambient items) items)
    end
  else Exc ValueError.

(** [text.rstrip("0").rstrip(".")] when the text has a point. *)
Definition rstrip (c : ascii) (l : list ascii) : list ascii :=
  rev (drop_while (fun a => code a =? code c) (rev l)).

Definition has_point (l : list ascii) : bool := existsb (fun a => code a =? 46) l.

(** Canonical numerical identity of a finite amount. *)
Definition billing_identity_amount (value : Decimal) : result string :=
  if is_finite value then
    if deqb value dzero then Ok "0"
    else
      let text := chars (format_f value) in
      Ok (of_chars (if has_point text then rstrip "." (rstrip "0" text) else text))
  else Exc ValueError.

(** A JSON number that is no boolean, as [Decimal(str(raw))]. *)
Definition number_decimal (raw : json) : option Decimal :=
  match raw with JInt z => Some (of_int z) | JFloat d => Some d | _ => None end.

(** One amount of [billing_amounts]. *)
Definition billing_amount (value : list (string * json)) (name : string)
  : result (string * Decimal) :=
  let! amount := of_option (number_decimal (get_field value name)) RunPodManagerError in
  run! require (is_finite amount && dle dzero amount) RunPodManagerError then
  let! text := billing_identity_amount amount in
  let! normal := of_option (parse_decimal text) InvalidOperation in
  Ok (name, normal).

Fixpoint amount_of (amounts : list (string * Decimal)) (name : string) : Decimal :=
  match amounts with
  | [] => NaN
  | (k, v) :: r => if bool_decide (k = name) then v else amount_of r name
  end.

(** Validate API numeric amounts and their exact component/total equality. *)
Definition billing_amounts (ambient : Z) (value : list (string * json)) (components : list string)
  : result (list (string * Decimal)) :=
  let! amounts := rmap (billing_amount value) ("totalAmount" :: components)%string in
  let! total := exact_decimal_sum ambient (map (amount_of amounts) components) in
  run! require (deqb (amount_of amounts "totalAmount") total) RunPodManagerError then
  Ok amounts.

(** ** Hour bounds *)

(** The bounds are whole hours that contain the interval, and no narrower pair of
    whole hours does. *)
Lemma hour_bounds_cover (s e f u : instant) :
  billing_hour_bounds s e = Ok (f, u) ->
  f mod hours 1 = 0 /\ u mod hours 1 = 0 /\ f <= s /\ s < e /\ e <= u /\ f < u /\
  (forall f' u', f' mod hours 1 = 0 -> u' mod hours 1 = 0 -> f' <= s -> e <= u' -> f' <= f /\ u <= u').
Proof.
  unfold billing_hour_bounds. destruct (Z.leb_spec e s) as [|Hlt]; [done|].
  intros [= <- <-].
  pose proof (hour_floor_spec s) as [Hs Hsm]. pose proof (hour_floor_spec e) as [He Hem].
  set (u := if hour_floor e =? e then _ else _).
  assert (Hu : u mod hours 1 = 0 /\ e <= u /\ u < e + hours 1).
  { unfold u. destruct (Z.eqb_spec (hour_floor e) e) as [Heq|Hne].
    - rewrite Hem. change (hours 1) with 3600000000. lia.
    - rewrite Zplus_mod, Hem, Z_mod_same_full. split; [done|]. lia. }
  destruct Hu as (Hum & Heu & Hue).
  split; [done|]. split; [done|]. split; [lia|]. split; [done|]. split; [done|]. split; [lia|].
  intros f' u' Hf' Hu' Hfs Heu'. split; [by apply hour_floor_le|].
  change (hours 1) with 3600000000 in *.
  pose proof (Z.div_mod u 3600000000 ltac:(lia)). pose proof (Z.div_mod u' 3600000000 ltac:(lia)).
  lia.
Qed.

(** ** Exact sums *)

(** Value of a finite decimal in units of [10^m]. *)
Definition units (m : Z) (d : Decimal) : Z := dcoef d * p10 (dexponent d - m).

Definition sum_units (m : Z) (items : list Decimal) : Z := fold_right (fun d s => units m d + s) 0 items.

Lemma list_min_le (d : Z) (l : list Z) : list_min d l <= d /\ Forall (fun x => list_min d l <= x) l.
Proof.
  induction l as [|x l [IH1 IH2]]; simpl; [split; [lia|constructor]|].
  split; [lia|]. constructor; [lia|]. eapply List.Forall_impl; [|exact IH2]. simpl. lia.
Qed.

Lemma list_max_ge (d : Z) (l : list Z) : d <= list_max d l /\ Forall (fun x => x <= list_max d l) l.
Proof.
  induction l as [|x l [IH1 IH2]]; simpl; [split; [lia|constructor]|].
  split; [lia|]. constructor; [lia|]. eapply List.Forall_impl; [|exact IH2]. simpl. lia.
Qed.

Lemma sum_exponent_le (items : list Decimal) :
  Forall (fun d => sum_exponent items <= dexponent d) items.
Proof.
  destruct items as [|d r]; [constructor|]. unfold sum_exponent.
  destruct (list_min_le (dexponent d) (map dexponent r)) as [H1 H2].
  constructor; [done|]. rewrite Forall_fmap in H2. exact H2.
Qed.

Lemma sum_digits_ge (items : list Decimal) :
  Forall (fun d => ndigits (dcoef d) + dexponent d - sum_exponent items <= sum_digits items) items.
Proof.
  destruct items as [|d r]; [constructor|]. unfold sum_digits.
  set (w := fun x => ndigits (dcoef x) + dexponent x - sum_exponent (d :: r)).
  destruct (list_max_ge (w d) (map w r)) as [H1 H2].
  constructor; [done|]. rewrite Forall_fmap in H2. exact H2.
Qed.

(** One addition at a precision that the aligned operands fit: the sum is exact. *)
Lemma dadd_units (prec c1 e1 c2 e2 m : Z) :
  1 <= prec -> m <= 0 -> m <= e1 -> m <= e2 ->
  forall j, 0 <= j ->
  Z.abs (units m (Fin c1 e1) + units m (Fin c2 e2)) < p10 prec * p10 j ->
  (exists k, units m (Fin c1 e1) + units m (Fin c2 e2) = k * p10 j) ->
  exists c e, dadd prec (Fin c1 e1) (Fin c2 e2) = Fin c e /\ Z.min e1 e2 <= e /\
    units m (Fin c e) = units m (Fin c1 e1) + units m (Fin c2 e2).
Proof.
  unfold units. cbn [dcoef dexponent]. intros Hp Hm H1 H2 j Hj Hlt [k Hk].
  unfold dadd. set (w := Z.min e1 e2). set (s := c1 * p10 (e1 - w) + c2 * p10 (e2 - w)).
  assert (Hs : s * p10 (w - m) = c1 * p10 (e1 - m) + c2 * p10 (e2 - m)).
  { unfold s. replace (e1 - m) with ((e1 - w) + (w - m)) by lia.
    replace (e2 - m) with ((e2 - w) + (w - m)) by lia. rewrite !p10_add by lia. ring. }
  pose proof (p10_pos (w - m) ltac:(lia)) as Hw. pose proof (p10_pos j Hj) as Hpj.
  pose proof (ndigits_pos s) as Hnd.
  destruct (fix_prec_bound prec s w (Z.max 0 (ndigits s - prec)) Hp ltac:(lia) ltac:(lia))
    as (c & e & -> & He & _ & Hx).
  exists c, e. split; [done|]. split; [done|].
  replace (e - m) with ((e - w) + (w - m)) by lia. rewrite p10_add by lia.
  rewrite Z.mul_assoc. rewrite <- Hs. f_equal.
  rewrite <- Hs in Hlt, Hk.
  destruct (Z.le_gt_cases (w - m) j) as [Hle|Hgt].
  - replace j with ((j - (w - m)) + (w - m)) in Hk, Hlt by lia.
    rewrite p10_add in Hk, Hlt by lia.
    pose proof (p10_pos (j - (w - m)) ltac:(lia)) as Hq.
    assert (Hsk : s = k * p10 (j - (w - m)))
      by (apply (Z.mul_reg_r _ _ (p10 (w - m))); [lia|]; rewrite Hk; ring).
    apply (Hx (j - (w - m)) k); [lia|done|].
    rewrite Hk in Hlt. rewrite !Z.abs_mul, !(Z.abs_eq (p10 _)) in Hlt by lia.
    apply (Z.mul_lt_mono_pos_r (p10 (j - (w - m)) * p10 (w - m))); [lia|]. lia.
  - apply (Hx 0 s); [lia|change (p10 0) with 1; lia|].
    assert (p10 j <= p10 (w - m)) by (apply p10_le; lia).
    rewrite Z.abs_mul, (Z.abs_eq (p10 _)) in Hlt by lia.
    apply (Z.mul_lt_mono_pos_r (p10 (w - m))); [lia|]. nia.
Qed.

(** Partial sums stay multiples of the smallest item unit and below the bound the
    working precision was chosen for. *)
Lemma dsum_from_exact (prec m j B : Z) :
  1 <= prec -> m <= 0 -> 0 <= j ->
  forall items c0 e0, m <= e0 ->
  Forall (fun d => exists c e, d = Fin c e /\ m <= e /\ Z.abs (units m d) < B * p10 j /\
            exists k, units m d = k * p10 j) items ->
  (exists k, units m (Fin c0 e0) = k * p10 j) ->
  Z.abs (units m (Fin c0 e0)) + Z.of_nat (length items) * (B * p10 j) < p10 prec * p10 j ->
  exists c e, fold_left (dadd prec) items (Fin c0 e0) = Fin c e /\ m <= e /\
    units m (Fin c e) = units m (Fin c0 e0) + sum_units m items.
Proof.
  intros Hp Hm Hj. induction items as [|d items IH]; intros c0 e0 He0 Hall Hk0 Hb.
  { exists c0, e0. simpl. split; [done|]. split; [done|]. lia. }
  inversion Hall as [|? ? (c & e & -> & He & Hd & kd & Hkd) Hrest]; subst.
  destruct Hk0 as [k0 Hk0]. pose proof (p10_pos j Hj).
  assert (HB : 0 <= B * p10 j) by lia.
  assert (Hlen : Z.of_nat (length (Fin c e :: items)) = 1 + Z.of_nat (length items)) by (simpl; lia).
  rewrite Hlen in Hb.
  destruct (dadd_units prec c0 e0 c e m Hp Hm He0 He j Hj) as (c1 & e1 & Hadd & He1 & Hu).
  { nia. }
  { exists (k0 + kd). lia. }
  cbn [fold_left]. rewrite Hadd.
  destruct (IH c1 e1 ltac:(lia) Hrest) as (c2 & e2 & Hf & He2 & Hu2).
  { exists (k0 + kd). lia. }
  { rewrite Hu. nia. }
  exists c2, e2. split; [done|]. split; [done|]. simpl. lia.
Qed.

Lemma sum_units_scale (m m' : Z) (items : list Decimal) :
  m' <= m -> Forall (fun d => m <= dexponent d) items ->
  sum_units m' items = sum_units m items * p10 (m - m').
Proof.
  intros Hm. induction 1 as [|d l Hd _ IH]; [done|]. simpl. rewrite IH.
  unfold units. replace (dexponent d - m') with ((dexponent d - m) + (m - m')) by lia.
  rewrite p10_add by lia. ring.
Qed.

(** The sum of finite amounts is the exact sum, whatever the ambient precision. *)
Lemma exact_decimal_sum_exact (ambient : Z) (items : list Decimal) :
  1 <= ambient -> forallb is_finite items = true ->
  exists c e, exact_decimal_sum ambient items = Ok (Fin c e) /\
    forall m, m <= 0 -> m <= e -> m <= sum_exponent items ->
    units m (Fin c e) = sum_units m items.
Proof.
  intros Ha Hfin. unfold exact_decimal_sum. rewrite Hfin.
  destruct items as [|d0 r] eqn:Hitems; [exists 0, 0; by split|].
  rewrite <- Hitems in *. assert (Hin : In d0 items) by (subst; by left).
  clear Hitems.
  set (E := sum_exponent items). set (D := sum_digits items).
  set (N := Z.of_nat (length items)). set (prec := sum_precision ambient items).
  set (m := Z.min 0 E).
  assert (HN : 0 <= N) by lia.
  pose proof (ndigits_pos N) as HdN. pose proof (ndigits_upper N) as HupN.
  assert (Hwidth : Forall (fun d => exists c e, d = Fin c e /\ E <= e /\
             Z.abs (units E d) < p10 (Z.max 1 D) /\ ndigits c + e - E <= D) items).
  { apply Forall_forall. intros d Hd.
    pose proof (proj1 (Forall_forall _ _) (sum_exponent_le items) d Hd) as He.
    pose proof (proj1 (Forall_forall _ _) (sum_digits_ge items) d Hd) as Hw.
    assert (Hdf : is_finite d = true)
      by (rewrite forallb_forall in Hfin; by apply Hfin).
    destruct d as [c e| |]; [|done|done]. exists c, e. cbn [dexponent dcoef] in *.
    split; [done|]. split; [done|]. split; [|done].
    unfold units. cbn [dcoef dexponent]. pose proof (ndigits_upper c). pose proof (ndigits_pos c).
    fold E in He, Hw. rewrite Z.abs_mul, (Z.abs_eq (p10 _)) by (pose proof (p10_pos (e - E)); lia).
    assert (p10 (ndigits c) * p10 (e - E) <= p10 (Z.max 1 D)).
    { rewrite <- p10_add by lia. apply p10_le. fold D in Hw. lia. }
    pose proof (p10_pos (e - E) ltac:(lia)). nia. }
  assert (HD : 1 <= D).
  { destruct (proj1 (Forall_forall _ _) Hwidth d0 Hin) as (c & e & _ & He & _ & Hw).
    pose proof (ndigits_pos c). lia. }
  destruct (dsum_from_exact prec m (E - m) (p10 (Z.max 1 D)) ltac:(unfold prec, sum_precision; lia)
              ltac:(unfold m; lia) ltac:(unfold m; lia) items 0 0) as (c & e & Hs & He & Hu).
  { unfold m; lia. }
  { eapply List.Forall_impl; [|exact Hwidth]. intros d (c & e & -> & He & Hb & _).
    exists c, e. split; [done|]. split; [unfold m; lia|].
    assert (Hun : units m (Fin c e) = units E (Fin c e) * p10 (E - m)).
    { unfold units. cbn [dcoef dexponent]. replace (e - m) with ((e - E) + (E - m)) by lia.
      rewrite p10_add by (unfold m; lia). ring. }
    pose proof (p10_pos (E - m) ltac:(unfold m; lia)). split; [|by eauto].
    rewrite Hun, Z.abs_mul, (Z.abs_eq (p10 _)) by lia. nia. }
  { exists 0. done. }
  { change (units m (Fin 0 0)) with 0. rewrite Z.abs_0, Z.add_0_l. fold N.
    pose proof (p10_pos (E - m) ltac:(unfold m; lia)) as HpE.
    assert (Hlt : N * p10 (Z.max 1 D) < p10 prec).
    { assert (p10 (ndigits N) * p10 (Z.max 1 D) <= p10 prec).
      { rewrite <- p10_add by lia. apply p10_le. unfold prec, sum_precision. fold D N. lia. }
      pose proof (p10_pos (Z.max 1 D) ltac:(lia)). nia. }
    nia. }
  exists c, e. split; [by f_equal|].
  intros m' Hm' Hme HmE. change (units m (Fin 0 0)) with 0 in Hu.
  assert (Hconv : forall c e, m <= e -> units m' (Fin c e) = units m (Fin c e) * p10 (m - m')).
  { intros c' e' He'. unfold units. cbn [dcoef dexponent].
    replace (e' - m') with ((e' - m) + (m - m')) by lia.
    rewrite p10_add by (unfold m; fold E in HmE; lia). ring. }
  rewrite (Hconv c e He), Hu, Z.add_0_l. symmetry. apply sum_units_scale.
  - unfold m. fold E in HmE. lia.
  - eapply List.Forall_impl; [|exact Hwidth]. intros d (c' & e' & -> & He' & _).
    cbn [dexponent]. unfold m. lia.
Qed.

(** Equal amounts have equal sums, whatever their order and their exponents. *)
Lemma units_deq (m : Z) (a b : Decimal) :
  is_finite a = true -> is_finite b = true -> m <= dexponent a -> m <= dexponent b ->
  deq a b <-> units m a = units m b.
Proof.
  destruct a as [c1 e1| |], b as [c2 e2| |]; try done. intros _ _ Ha Hb. cbn in Ha, Hb.
  by apply (deq_scale c1 e1 c2 e2 m).
Qed.

Lemma sum_units_permutation (m : Z) (l k : list Decimal) :
  Permutation l k -> sum_units m l = sum_units m k.
Proof. induction 1; simpl in *; lia. Qed.

Lemma sum_units_deq (m : Z) (l k : list Decimal) :
  Forall2 deq l k -> forallb is_finite l = true -> forallb is_finite k = true ->
  Forall (fun d => m <= dexponent d) l -> Forall (fun d => m <= dexponent d) k ->
  sum_units m l = sum_units m k.
Proof.
  induction 1 as [|a b l k Hab Hlk IH]; [done|]. cbn [forallb]. intros Hl Hk Hml Hmk. split_bools.
  inversion Hml; inversion Hmk; subst. simpl. f_equal; [by apply units_deq|auto].
Qed.

Lemma exact_sum_finite (ambient : Z) (l : list Decimal) (d : Decimal) :
  exact_decimal_sum ambient l = Ok d -> forallb is_finite l = true.
Proof. unfold exact_decimal_sum. by destruct (forallb is_finite l). Qed.

Lemma exact_sum_units (ambient : Z) (l : list Decimal) (d : Decimal) :
  1 <= ambient -> exact_decimal_sum ambient l = Ok d ->
  is_finite d = true /\ forall m, m <= 0 -> m <= dexponent d -> m <= sum_exponent l ->
  units m d = sum_units m l.
Proof.
  intros Ha Hs. destruct (exact_decimal_sum_exact ambient l Ha (exact_sum_finite _ _ _ Hs)) as (c & e & Hd & Hu).
  rewrite Hd in Hs. injection Hs as <-. done.
Qed.

Lemma exact_sum_deq (ambient : Z) (l l' k : list Decimal) (d d' : Decimal) :
  1 <= ambient -> Permutation l l' -> Forall2 deq l' k ->
  exact_decimal_sum ambient l = Ok d -> exact_decimal_sum ambient k = Ok d' -> deq d d'.
Proof.
  intros Ha Hp Hf Hd Hd'.
  destruct (exact_sum_units _ _ _ Ha Hd) as [Fd Ud]. destruct (exact_sum_units _ _ _ Ha Hd') as [Fd' Ud'].
  set (m := Z.min 0 (Z.min (Z.min (dexponent d) (sum_exponent l)) (Z.min (dexponent d') (sum_exponent k)))).
  assert (Hex : forall x : list Decimal, m <= sum_exponent x -> Forall (fun d => m <= dexponent d) x).
  { intros x Hx. eapply List.Forall_impl; [|apply sum_exponent_le]. simpl. lia. }
  apply (units_deq m); [done|done|lia|lia|]. rewrite Ud, Ud' by lia.
  rewrite (sum_units_permutation m l l' Hp).
  apply exact_sum_finite in Hd. apply exact_sum_finite in Hd'.
  apply sum_units_deq; [done| |done| |apply Hex; lia].
  - rewrite forallb_forall in Hd |- *. intros x Hx. apply Hd. by rewrite Hp.
  - rewrite List.Forall_forall. intros x Hx.
    assert (Forall (fun d => m <= dexponent d) l) as Hl by (apply Hex; lia).
    rewrite List.Forall_forall in Hl. apply Hl. by rewrite Hp.
Qed.

(** ** Identity text *)

Lemma rstrip_snoc_ne (c x : ascii) (l : list ascii) :
  code x <> code c -> rstrip c (l ++ [x]) = (l ++ [x])%list.
Proof.
  intros Hx. unfold rstrip. rewrite rev_app_distr. cbn [rev app drop_while].
  destruct (Z.eqb_spec (code x) (code c)); [done|]. cbn [rev]. by rewrite rev_involutive.
Qed.

Lemma rstrip_snoc_eq (c : ascii) (l : list ascii) : rstrip c (l ++ [c]) = rstrip c l.
Proof.
  unfold rstrip. rewrite rev_app_distr. cbn [rev app drop_while]. by rewrite Z.eqb_refl.
Qed.

Lemma rstrip_replicate (c : ascii) (j : nat) (l : list ascii) :
  rstrip c (l ++ replicate j c) = rstrip c l.
Proof.
  induction j as [|j IH]; [by rewrite app_nil_r|].
  rewrite replicate_S_end, app_assoc, rstrip_snoc_eq. exact IH.
Qed.

(** A digit string without its trailing zeros. *)
Lemma trailing_zeros (B : list ascii) :
  exists B' j, B = (B' ++ replicate j "0"%char)%list /\
    (B' = [] \/ exists B'' x, B' = (B'' ++ [x])%list /\ code x <> 48).
Proof.
  induction B as [|x B IH] using rev_ind; [exists [], 0%nat; auto|].
  destruct (Z.eq_dec (code x) 48) as [Hx|Hx].
  - destruct IH as (B' & j & -> & HB). exists B', (S j). split; [|done].
    rewrite replicate_S_end, app_assoc. do 2 f_equal.
    rewrite <- (ascii_N_embedding x). change "0"%char with (ascii_of_N 48). f_equal.
    unfold code in Hx. lia.
  - exists (B ++ [x])%list, 0%nat. rewrite app_nil_r. split; [done|]. right. eauto.
Qed.

Lemma parse_digits_replicate (j : nat) (v : Z) :
  parse_digits v (replicate j "0"%char) = Some (v * p10 (Z.of_nat j)).
Proof.
  revert v. induction j as [|j IH]; intros v.
  { change (Some v = Some (v * 1)). by rewrite Z.mul_1_r. }
  cbn [replicate parse_digits]. change (is_digit "0") with true. change (code "0" - 48) with 0.
  cbv iota. rewrite IH. replace (Z.of_nat (S j)) with (1 + Z.of_nat j) by lia.
  rewrite p10_add by lia. change (p10 1) with 10. f_equal. ring.
Qed.

Lemma parse_digits_app_inv (l k : list ascii) (a v : Z) :
  parse_digits a (l ++ k) = Some v -> exists w, parse_digits a l = Some w /\ parse_digits w k = Some v.
Proof.
  revert a. induction l as [|c l IH]; intros a H; simpl in *; [eauto|].
  destruct (is_digit c); [by apply IH|done].
Qed.

(** The identity text of an amount reads back as an equal amount. *)
Lemma billing_identity_amount_value (d : Decimal) (t : string) :
  billing_identity_amount d = Ok t -> exists d', parse_decimal t = Some d' /\ deq d d'.
Proof.
  unfold billing_identity_amount. destruct d as [c e| |]; try done. cbn [is_finite].
  destruct (deqb (Fin c e) dzero) eqn:Hz.
  { intros [= <-]. exists (Fin 0 0). split; [done|]. exact Hz. }
  unfold format_f. destruct (Z.leb_spec 0 e) as [He|He].
  - destruct (positional_integer (c * p10 e)) as (A & HA & _ & Hd & _).
    rewrite HA. assert (Hp : has_point ((if c * p10 e <? 0 then ["-"%char] else []) ++ A) = false).
    { unfold has_point. rewrite existsb_app. apply orb_false_intro.
      - by destruct (c * p10 e <? 0).
      - clear -Hd. induction A as [|x A IH]; [done|]. simpl in *. split_bools.
        rewrite IH by done. apply is_digit_code in H. by destruct (Z.eqb_spec (code x) 46); [lia|]. }
    rewrite Hp. intros [= <-].
    rewrite <- HA, of_chars_chars, positional_parse by lia.
    exists (Fin (c * p10 e) (- 0)). split; [done|].
    apply (deq_scale _ _ _ _ 0); [lia|lia|]. rewrite Z.sub_0_r. change (p10 (- 0 - 0)) with 1. lia.
  - destruct (positional_shape c (- e) ltac:(lia)) as (A & B & HAB & Hne & HdA & HdB & Hlen & Hv).
    set (sg := if c <? 0 then ["-"%char] else []) in *.
    rewrite HAB. assert (Hp : has_point (sg ++ A ++ "."%char :: B) = true).
    { unfold has_point. rewrite !existsb_app. cbn [existsb]. rewrite Z.eqb_refl. simpl.
      by rewrite !orb_true_r. }
    rewrite Hp. intros [= <-].
    destruct (trailing_zeros B) as (B' & j & HB & Hcase).
    rewrite HB, app_assoc in Hv. apply parse_digits_app_inv in Hv as (v & Hv & Hzero).
    rewrite parse_digits_replicate in Hzero. injection Hzero as Hzero.
    rewrite HB, length_app, length_replicate in Hlen.
    rewrite HB, forallb_app in HdB. apply andb_prop in HdB as [HdB' _].
    destruct A as [|a0 A0]; [done|]. simpl in HdA. split_bools.
    assert (Hsign : (sg ++ a0 :: A0)%list = chars ((if c <? 0 then "-" else "") ++ of_chars (a0 :: A0))).
    { rewrite chars_app, chars_of_chars. unfold sg. by destruct (c <? 0). }
    assert (Hdeq : forall n, n = length B' -> deq (Fin c e) (Fin (if c <? 0 then - v else v) (- Z.of_nat n))).
    { intros n ->. apply (deq_scale _ _ _ _ e); [lia|lia|].
      rewrite Z.sub_diag. change (p10 0) with 1.
      replace (- Z.of_nat (length B') - e) with (Z.of_nat j) by lia.
      destruct (Z.ltb_spec c 0); lia. }
    destruct Hcase as [->|(B'' & x & -> & Hx)].
    + assert (Hr : rstrip "." (rstrip "0" (sg ++ (a0 :: A0) ++ "."%char :: [] ++ replicate j "0"%char))
                   = (sg ++ a0 :: A0)%list).
      { cbn [app]. change (sg ++ a0 :: A0 ++ "."%char :: replicate j "0"%char)%list with
          (sg ++ (a0 :: A0) ++ ["."%char] ++ replicate j "0"%char)%list.
        rewrite !app_assoc, rstrip_replicate, rstrip_snoc_ne, rstrip_snoc_eq by done.
        assert (Hl : exists l y, (sg ++ a0 :: A0)%list = (l ++ [y])%list /\ is_digit y = true).
        { destruct (exists_last (l := a0 :: A0) ltac:(done)) as (l & y & Hl).
          exists (sg ++ l)%list, y. rewrite Hl, app_assoc. split; [done|].
          assert (Hall : forallb is_digit (l ++ [y]) = true) by (rewrite <- Hl; simpl; by rewrite H, H0).
          rewrite forallb_app in Hall. simpl in Hall. by split_bools. }
        destruct Hl as (l & y & -> & Hy). apply rstrip_snoc_ne. apply is_digit_code in Hy.
        change (code ".") with 46. lia. }
      rewrite HB. cbn [app] in Hr |- *. rewrite Hr, Hsign, of_chars_chars.
      rewrite (parse_signed (c <? 0) (a0 :: A0) a0 A0) by done.
      rewrite split_point_none by (simpl; by rewrite H, H0). cbn [from_option]. unfold id.
      rewrite Hv. eexists. split; [done|]. apply (Hdeq 0%nat). done.
    + assert (Hr : rstrip "." (rstrip "0" (sg ++ (a0 :: A0) ++ "."%char :: (B'' ++ [x]) ++ replicate j "0"%char))
                   = (sg ++ (a0 :: A0) ++ "."%char :: B'' ++ [x])%list).
      { set (L := (sg ++ (a0 :: A0) ++ "."%char :: B'')%list).
        assert (E1 : (sg ++ (a0 :: A0) ++ "."%char :: (B'' ++ [x]) ++ replicate j "0"%char)%list =
                     ((L ++ [x]) ++ replicate j "0"%char)%list).
        { unfold L. repeat (rewrite <- app_assoc; cbn [app]). done. }
        assert (E2 : (sg ++ (a0 :: A0) ++ "."%char :: B'' ++ [x])%list = (L ++ [x])%list).
        { unfold L. repeat (rewrite <- app_assoc; cbn [app]). done. }
        rewrite forallb_app in HdB'. simpl in HdB'. split_bools.
        assert (Hxd : is_digit x = true) by done. apply is_digit_code in Hxd.
        rewrite E1, E2, rstrip_replicate, rstrip_snoc_ne by done. apply rstrip_snoc_ne.
        change (code ".") with 46. lia. }
      rewrite HB, Hr.
      assert (Hbody : of_chars (sg ++ (a0 :: A0) ++ "."%char :: B'' ++ [x]) =
                (if c <? 0 then "-" else "") ++ of_chars ((a0 :: A0) ++ "."%char :: B'' ++ [x])).
      { rewrite of_chars_app. unfold sg. by destruct (c <? 0). }
      rewrite Hbody.
      rewrite (parse_signed (c <? 0) ((a0 :: A0) ++ "."%char :: B'' ++ [x]) a0
                 (A0 ++ "."%char :: B'' ++ [x])%list) by done.
      rewrite split_point_digits by (simpl; by rewrite H, H0). cbn [from_option]. unfold id.
      rewrite Hv. eexists. split; [done|]. by apply Hdeq.
Qed.

(** What [billing_amounts] answers for a name is the number the mapping holds for it. *)
Lemma billing_amount_read value name n d :
  billing_amount value name = Ok (n, d) ->
  n = name /\ exists total, number_decimal (get_field value name) = Some total /\ is_finite total = true /\ deq total d.
Proof.
  unfold billing_amount. intros H. apply rbind_ok in H as (total & Ht & H). apply rbind_ok in H as ([] & Hr & H).
  apply rbind_ok in H as (text & Hx & H). apply rbind_ok in H as (d' & Hd & [= <- <-]).
  apply of_option_ok in Ht, Hd. apply require_ok in Hr. split_bools. split; [done|]. exists total.
  destruct (billing_identity_amount_value _ _ Hx) as (d2 & Hd2 & Heq). split_and!; [done..|congruence].
Qed.

Lemma amounts_read value names amounts :
  rmap (billing_amount value) names = Ok amounts ->
  forall name, In name names -> exists total, number_decimal (get_field value name) = Some total /\
    is_finite total = true /\ deq total (amount_of amounts name).
Proof.
  revert amounts. induction names as [|n names IH]; intros amounts Hr name Hin; [done|].
  cbn [rmap] in Hr. apply rbind_ok in Hr as ([n' d] & Hn & Hr). apply rbind_ok in Hr as (rest & Hrest & [= <-]).
  destruct (billing_amount_read _ _ _ _ Hn) as (-> & Htotal). cbn [amount_of].
  destruct (bool_decide_reflect (n = name)) as [<-|Hne]; [done|].
  destruct Hin as [|Hin]; [done|]. by apply IH.
Qed.

Lemma billing_amounts_read ambient value components amounts :
  billing_amounts ambient value components = Ok amounts ->
  forall name, In name ("totalAmount" :: components)%string -> exists total,
    number_decimal (get_field value name) = Some total /\ is_finite total = true /\
    deq total (amount_of amounts name).
Proof.
  unfold billing_amounts. intros Hb. apply rbind_ok in Hb as (a & Ha & Hb). res_inv. by apply amounts_read.
Qed.

End Billing.
