(* ===== verification/Placement.v ===== *)
(** The catalog types of [models.py] used for placement, and [placement.py]. *)
From S2P Require Import Prelude PyStr Enums Errors PyDecimal PyTime Json.
From Stdlib Require Import Ascii.

#[local] Open Scope Z_scope.

(** ** [models.py] *)

(** [normalize_cuda_floor]: a CUDA floor [major[.minor]] as [int(major).int(minor)]. *)
Definition normalize_cuda_floor (value : option string) : result (option string) :=
  match value with
  | None => Ok None
  | Some v =>
      let '(major, minor) := split_point (chars v) in
      match major, minor with
      | [], _ | _, Some [] => Exc ValueError
      | _, _ =>
          match parse_digits 0 major, parse_digits 0 (default ["0"%char] minor) with
          | Some a, Some b => Ok (Some (int_text a ++ "." ++ int_text b)%string)
          | _, _ => Exc ValueError
          end
      end
  end.

Record PlacementRequirements := {
  pr_product : ComputeProduct;
  pr_min_vram_gb : Z;
  pr_gpu_count : Z;
  pr_cloud : CloudType;
  pr_min_cuda_version : option string;
  pr_max_cost_per_hr : option Decimal;
  pr_allowed_gpu_ids : list string;
  pr_allowed_gpu_pools : list string;
  pr_allowed_data_center_ids : list string;
  pr_minimum_availability : Availability;
  pr_benchmark_id : option string
}.

#[export] Instance PlacementRequirements_dec : EqDecision PlacementRequirements.
Proof. solve_decision. Defined.

(** [PlacementRequirements.__post_init__]. *)
Definition check_requirements (r : PlacementRequirements) : result unit :=
  run! require (1 <=? pr_min_vram_gb r) ValueError then
  run! require (1 <=? pr_gpu_count r) ValueError then
  run! require (match pr_max_cost_per_hr r with Some m => dlt dzero m | None => true end) ValueError then
  run! normalize_cuda_floor (pr_min_cuda_version r) then
  Ok tt.

Record GPUOffer := {
  go_id : string;
  go_name : string;
  go_pool : option string;
  go_manufacturer : string;
  go_memory_gb : Z;
  go_secure : bool;
  go_community : bool;
  go_secure_price_per_hr : Decimal;
  go_community_price_per_hr : Decimal;
  go_secure_max_count : Z;
  go_community_max_count : Z;
  go_availability : option Availability;
  go_data_centers : list (list (string * json));
  go_availability_min_cuda_version : option string;
  go_serverless_price_per_hr : option Decimal
}.

Definition price_for (o : GPUOffer) (cloud : CloudType) (product : ComputeProduct) : result Decimal :=
  match product with
  | SERVERLESS => of_option (go_serverless_price_per_hr o) RunPodManagerError
  | POD =>
      Ok (match cloud with
          | SECURE => go_secure_price_per_hr o
          | COMMUNITY => go_community_price_per_hr o
          end)
  end.

Definition max_count_for (o : GPUOffer) (cloud : CloudType) : Z :=
  match cloud with SECURE => go_secure_max_count o | COMMUNITY => go_community_max_count o end.

Definition supports_cloud (o : GPUOffer) (cloud : CloudType) : bool :=
  match cloud with SECURE => go_secure o | COMMUNITY => go_community o end.

Record PlacementDecision := {
  pd_gpu_id : string;
  pd_gpu_pool : option string;
  pd_gpu_name : string;
  pd_memory_gb : Z;
  pd_cloud : CloudType;
  pd_gpu_count : Z;
  pd_offered_cost_per_hr : Decimal;
  pd_availability : option Availability;
  pd_catalog_observed_at : instant;
  pd_requirements : PlacementRequirements
}.

#[export] Instance PlacementDecision_dec : EqDecision PlacementDecision.
Proof. solve_decision. Defined.

Module Placement.

(** ** [placement.py] *)

Definition availability_rank (a : Availability) : Z :=
  match a with AVAIL_NONE => 0 | AVAIL_LOW => 1 | AVAIL_MEDIUM => 2 | AVAIL_HIGH => 3 end.

(** [_AVAILABILITY_RANK.get(offer.availability or Availability.NONE, 0)]. *)
Definition offer_rank (o : GPUOffer) : Z :=
  availability_rank (default AVAIL_NONE (go_availability o)).

Definition truthy (s : option string) : bool :=
  match s with Some v => negb (bool_decide (v = "")) | None => false end.

Definition mem (s : string) (l : list string) : bool := bool_decide (s ∈ l).

Definition in_data_centers (o : GPUOffer) (allowed : list string) : bool :=
  existsb
    (fun item =>
       match get_field item "id" with JStr s => mem s allowed | _ => false end &&
       negb (py_eq (get_field item "availability") (JStr "NONE")))
    (go_data_centers o).

Definition is_compatible (o : GPUOffer) (r : PlacementRequirements) : bool :=
  (pr_min_vram_gb r <=? go_memory_gb o) &&
  match pr_min_cuda_version r with
  | Some _ => bool_decide (go_availability_min_cuda_version o = pr_min_cuda_version r)
  | None => true
  end &&
  supports_cloud o (pr_cloud r) &&
  match pr_product r with
  | POD => pr_gpu_count r <=? max_count_for o (pr_cloud r)
  | SERVERLESS => truthy (go_pool o) && bool_decide (go_serverless_price_per_hr o <> None)
  end &&
  (bool_decide (pr_allowed_gpu_ids r = []) || mem (go_id o) (pr_allowed_gpu_ids r)) &&
  (bool_decide (pr_allowed_gpu_pools r = []) ||
   match go_pool o with Some p => mem p (pr_allowed_gpu_pools r) | None => false end) &&
  match price_for o (pr_cloud r) (pr_product r) with
  | Ok price =>
      is_finite price && dle dzero price &&
      match pr_max_cost_per_hr r with Some m => dle price m | None => true end
  | Exc _ => false
  end &&
  (availability_rank (pr_minimum_availability r) <=? offer_rank o) &&
  (bool_decide (pr_allowed_data_center_ids r = []) ||
   in_data_centers o (pr_allowed_data_center_ids r)).

(** Price of an offer already found compatible. *)
Definition offer_price (r : PlacementRequirements) (o : GPUOffer) : Decimal :=
  match price_for o (pr_cloud r) (pr_product r) with Ok p => p | Exc _ => NaN end.

(** Lexicographic order of the sort key (-rank, price, memory, id). *)
Definition key_le (r : PlacementRequirements) (a b : GPUOffer) : bool :=
  if offer_rank b <? offer_rank a then true
  else if offer_rank a <? offer_rank b then false
  else if dlt (offer_price r a) (offer_price r b) then true
  else if dlt (offer_price r b) (offer_price r a) then false
  else if go_memory_gb a <? go_memory_gb b then true
  else if go_memory_gb b <? go_memory_gb a then false
  else str_le (chars (go_id a)) (chars (go_id b)).

(** [compatible.sort(key=...)]: stable insertion sort. *)
Fixpoint insert_offer (r : PlacementRequirements) (o : GPUOffer) (l : list GPUOffer) : list GPUOffer :=
  match l with
  | [] => [o]
  | x :: t => if key_le r o x then o :: l else x :: insert_offer r o t
  end.

Definition sort_offers (r : PlacementRequirements) (l : list GPUOffer) : list GPUOffer :=
  fold_right (insert_offer r) [] l.

(** [Counter(offer.pool for offer in catalog if offer.pool)[pool]]. *)
Definition pool_members (catalog : list GPUOffer) (pool : option string) : nat :=
  length (List.filter (fun o => truthy (go_pool o) && bool_decide (go_pool o = pool)) catalog).

(** The offers [select_gpu] sorts: compatible ones, for Serverless restricted to
    pools that identify one catalog GPU. *)
Definition candidates (offers : list GPUOffer) (r : PlacementRequirements) : result (list GPUOffer) :=
  let compatible := List.filter (fun o => is_compatible o r) offers in
  match compatible, pr_product r with
  | _ :: _, SERVERLESS =>
      let exact := List.filter (fun o => Nat.eqb (pool_members offers (go_pool o)) 1) compatible in
      match exact with [] => Exc RunPodManagerError | _ => Ok exact end
  | [], _ => Exc RunPodManagerError
  | _, _ => Ok compatible
  end.

Definition decision (r : PlacementRequirements) (o : GPUOffer) (observed_at : instant) : PlacementDecision := {|
  pd_gpu_id := go_id o;
  pd_gpu_pool := go_pool o;
  pd_gpu_name := go_name o;
  pd_memory_gb := go_memory_gb o;
  pd_cloud := pr_cloud r;
  pd_gpu_count := pr_gpu_count r;
  pd_offered_cost_per_hr := offer_price r o;
  pd_availability := go_availability o;
  pd_catalog_observed_at := observed_at;
  pd_requirements := r
|}.

(** Choose the highest-availability, lowest-cost compatible catalog offer. *)
Definition select_gpu (offers : list GPUOffer) (r : PlacementRequirements) (observed_at : instant)
  : result PlacementDecision :=
  let! compatible := candidates offers r in
  match sort_offers r compatible with
  | selected :: _ => Ok (decision r selected observed_at)
  | [] => Exc RunPodManagerError
  end.

(** ** Order of the sort key *)

(** Finite decimals are ordered through their values at a common scale. *)
Lemma dlt_false_fin (a b : Decimal) :
  is_finite a = true -> is_finite b = true -> dlt a b = false -> dle b a = true.
Proof.
  destruct a as [c1 e1| |], b as [c2 e2| |]; try done. intros _ _ H.
  apply (dle_scale _ _ _ _ (Z.min e1 e2)); [lia|lia|].
  destruct (Z.le_gt_cases (c2 * p10 (e2 - Z.min e1 e2)) (c1 * p10 (e1 - Z.min e1 e2))) as [|Hgt]; [done|].
  assert (dlt (Fin c1 e1) (Fin c2 e2) = true); [|congruence].
  apply (dlt_scale _ _ _ _ (Z.min e1 e2)); lia.
Qed.

(** A total preorder through an integer-valued scale for three prices. *)
Lemma finite_scaled (a b c : Decimal) :
  is_finite a = true -> is_finite b = true -> is_finite c = true ->
  exists f : Decimal -> Z, forall x y, x ∈ [a; b; c] -> y ∈ [a; b; c] ->
    (dlt x y = true <-> f x < f y).
Proof.
  intros Ha Hb Hc.
  set (ex := fun d => match d with Fin _ e => e | _ => 0 end).
  set (m := Z.min (ex a) (Z.min (ex b) (ex c))).
  exists (fun d => match d with Fin c e => c * p10 (e - m) | _ => 0 end).
  assert (Hall : forall x, x ∈ [a; b; c] -> exists c e, x = Fin c e /\ m <= e).
  { intros x Hx. set_unfold. destruct Hx as [-> |[-> |[-> | []]]].
    - destruct a as [k e| |]; try done. exists k, e. split; [done|]. unfold m, ex. lia.
    - destruct b as [k e| |]; try done. exists k, e. split; [done|]. unfold m, ex. lia.
    - destruct c as [k e| |]; try done. exists k, e. split; [done|]. unfold m, ex. lia. }
  intros x y Hx Hy. destruct (Hall x Hx) as (k1 & e1 & -> & ?). destruct (Hall y Hy) as (k2 & e2 & -> & ?).
  by apply dlt_scale.
Qed.

Lemma key_le_total r a b : key_le r a b = true \/ key_le r b a = true.
Proof.
  unfold key_le.
  destruct (Z.ltb_spec (offer_rank b) (offer_rank a)), (Z.ltb_spec (offer_rank a) (offer_rank b)); auto; try lia.
  destruct (dlt (offer_price r a) (offer_price r b)), (dlt (offer_price r b) (offer_price r a)); auto.
  destruct (Z.ltb_spec (go_memory_gb a) (go_memory_gb b)), (Z.ltb_spec (go_memory_gb b) (go_memory_gb a)); auto; try lia.
  apply str_le_total.
Qed.

Lemma key_le_trans r a b c :
  is_finite (offer_price r a) = true -> is_finite (offer_price r b) = true ->
  is_finite (offer_price r c) = true ->
  key_le r a b = true -> key_le r b c = true -> key_le r a c = true.
Proof.
  intros Ha Hb Hc. unfold key_le.
  destruct (finite_scaled _ _ _ Ha Hb Hc) as [f Hf].
  assert (Hd : forall x y, x ∈ [offer_price r a; offer_price r b; offer_price r c] ->
      y ∈ [offer_price r a; offer_price r b; offer_price r c] -> dlt x y = (f x <? f y)).
  { intros x y Hx Hy. apply eq_true_iff_eq. rewrite (Hf x y Hx Hy). symmetry. apply Z.ltb_lt. }
  rewrite !Hd by set_solver.
  set (pa := f (offer_price r a)). set (pb := f (offer_price r b)). set (pc := f (offer_price r c)).
  pose proof (str_le_trans (chars (go_id a)) (chars (go_id b)) (chars (go_id c))) as Hs.
  repeat match goal with |- context [?x <? ?y] => destruct (Z.ltb_spec x y) end; intros; try done; try lia.
  all: by apply Hs.
Qed.

(** ** Sorting *)

Lemma insert_offer_perm r o l : Permutation (insert_offer r o l) (o :: l).
Proof.
  induction l as [|x l IH]; simpl; [done|]. destruct (key_le r o x); [done|].
  rewrite IH. apply Permutation_swap.
Qed.

Lemma sort_offers_perm r l : Permutation (sort_offers r l) l.
Proof.
  induction l as [|x l IH]; [done|]. simpl. rewrite insert_offer_perm. by rewrite IH.
Qed.

Lemma insert_offer_head r o l :
  is_finite (offer_price r o) = true ->
  Forall (fun x => is_finite (offer_price r x) = true) l ->
  match l with [] => True | x :: t => Forall (fun y => key_le r x y = true) t end ->
  match insert_offer r o l with
  | [] => False
  | x :: t => Forall (fun y => key_le r x y = true) t
  end.
Proof.
  intros Ho Hl Hm. destruct l as [|x t]; simpl; [constructor|].
  inversion Hl as [|? ? Hx Ht]; subst.
  destruct (key_le r o x) eqn:E.
  - constructor; [done|]. rewrite Forall_forall in *. intros y Hy.
    apply (key_le_trans r o x y); auto.
  - rewrite Forall_forall in *. intros y Hy.
    apply (Permutation_in _ (insert_offer_perm r o t)) in Hy. destruct Hy as [<-|Hy]; [|by auto].
    destruct (key_le_total r o x); congruence.
Qed.

(** The head of the sorted list is below every element. *)
Lemma sort_offers_head r l :
  Forall (fun x => is_finite (offer_price r x) = true) l ->
  match sort_offers r l with
  | [] => l = []
  | x :: t => In x l /\ forall y, In y l -> y = x \/ key_le r x y = true
  end.
Proof.
  intros Hl.
  assert (Hs : match sort_offers r l with [] => True | x :: t => Forall (fun y => key_le r x y = true) t end).
  { induction Hl as [|x l Hx Hl IH]; [done|]. simpl.
    assert (Hfs : Forall (fun y => is_finite (offer_price r y) = true) (sort_offers r l)).
    { rewrite Forall_forall in *. intros y Hy.
      apply (Permutation_in _ (sort_offers_perm r l)) in Hy. auto. }
    pose proof (insert_offer_head r x (sort_offers r l) Hx Hfs IH) as H.
    by destruct (insert_offer r x (sort_offers r l)). }
  pose proof (sort_offers_perm r l) as Hp.
  destruct (sort_offers r l) as [|x t].
  - by apply Permutation_nil in Hp.
  - split; [apply (Permutation_in _ Hp); by left|].
    intros y Hy. symmetry in Hp. apply (Permutation_in _ Hp) in Hy.
    destruct Hy as [->|Hy]; [by left|]. right. rewrite Forall_forall in Hs. by apply Hs.
Qed.

Lemma compatible_price o r :
  is_compatible o r = true ->
  exists p, price_for o (pr_cloud r) (pr_product r) = Ok p /\ offer_price r o = p /\
    is_finite p = true /\ dle dzero p = true /\
    (forall m, pr_max_cost_per_hr r = Some m -> dle p m = true).
Proof.
  unfold is_compatible, offer_price. intros H. split_bools.
  destruct (price_for o (pr_cloud r) (pr_product r)) as [p|]; [|done]. split_bools.
  exists p. repeat (split; [done|]). intros m Hm. by rewrite Hm in *.
Qed.

Lemma candidates_incl offers r l :
  candidates offers r = Ok l -> l <> [] /\ forall o, In o l ->
    In o offers /\ is_compatible o r = true /\
    (pr_product r = SERVERLESS -> pool_members offers (go_pool o) = 1%nat).
Proof.
  unfold candidates. set (cs := List.filter _ offers).
  assert (Hcs : forall o, In o cs -> In o offers /\ is_compatible o r = true).
  { intros o Ho. by apply List.filter_In in Ho. }
  destruct cs as [|c cs0] eqn:Ecs; [done|]. destruct (pr_product r) eqn:Ep.
  - intros [= <-]. split; [done|]. intros o Ho. destruct (Hcs o Ho). done.
  - set (ex := List.filter _ (c :: cs0)). intros H.
    assert (Hex : forall o, In o ex -> In o (c :: cs0) /\ pool_members offers (go_pool o) = 1%nat).
    { intros o Ho. apply List.filter_In in Ho as [? ?]. split; [done|]. by apply Nat.eqb_eq. }
    destruct ex as [|e ex']; [done|]. injection H as <-. split; [done|].
    intros o Ho. destruct (Hex o Ho) as [Hi Hpool]. destruct (Hcs o Hi). done.
Qed.

Lemma candidates_complete offers r l :
  candidates offers r = Ok l -> forall o, In o offers -> is_compatible o r = true ->
  (pr_product r = SERVERLESS -> pool_members offers (go_pool o) = 1%nat) -> In o l.
Proof.
  unfold candidates. set (cs := List.filter _ offers). intros H o Ho Hc Hpool.
  assert (Hin : In o cs) by (by apply List.filter_In).
  destruct cs as [|c cs0] eqn:Ecs; [done|]. destruct (pr_product r) eqn:Ep.
  - by injection H as <-.
  - set (ex := List.filter _ (c :: cs0)) in *.
    assert (Hex : In o ex) by (apply List.filter_In; split; [done|]; apply Nat.eqb_eq; auto).
    destruct ex; [done|]. by injection H as <-.
Qed.

End Placement.
