(* ===== verification/PyFloat.v ===== *)
(** Python floats, and numbers that may be [int] or [float].

    A float is the [Decimal] its [repr] denotes: [float_of_decimal d] is
    [Decimal(str(float(d)))], that is, [d] is rounded to the nearest binary64 value (ties
    to even, overflow to an infinity) and that value is written with the fewest digits
    that read back as it. Addition, products and [math.isclose] work on the binary value
    behind that text: it is recovered, the exact result is formed, rounded once to
    binary64 and written back. *)
From S2P Require Import Prelude PyStr Errors PyDecimal PyTime Json.

#[local] Open Scope Z_scope.

(** Nearest multiple of [2^k] to [num/den], with [2^52 <= m < 2^53] when normal. *)
Definition scaled (num den k : Z) : Z :=
  if 0 <=? k then round_half_even num (den * 2 ^ k) else round_half_even (num * 2 ^ (- k)) den.

(** [floor (log2 (num / den))]. *)
Definition log2_ratio (num den : Z) : Z :=
  let g := Z.log2 num - Z.log2 den in
  if (if 0 <=? g then den * 2 ^ g <=? num else den <=? num * 2 ^ (- g)) then g else g - 1.

(** The binary64 number [m * 2^k] nearest to [num/den]; [None] on overflow. *)
Definition binary64 (num den : Z) : option (Z * Z) :=
  if num =? 0 then Some (0, -1074)
  else
    let k := Z.max (log2_ratio num den - 52) (-1074) in
    let m := scaled num den k in
    let '(m, k) := if m =? 2 ^ 53 then (2 ^ 52, k + 1) else (m, k) in
    if 971 <? k then None else Some (m, k).

Definition ratio (c e : Z) : Z * Z := if 0 <=? e then (c * p10 e, 1) else (c, p10 (- e)).

Definition binary64_of (c e : Z) : option (Z * Z) := let '(n, d) := ratio c e in binary64 n d.

(** The shortest digits [q * 10^x] that round to the binary64 value [m * 2^k]. *)
Fixpoint shortest (fuel : nat) (n : Z) (m k : Z) : Z * Z :=
  let '(num, den) := if 0 <=? k then (m * 2 ^ k, 1) else (m, 2 ^ (- k)) in
  let x := (if den <=? num then ndigits (num / den) else 1 - ndigits (den / num)) - n in
  let q := if 0 <=? x then round_half_even num (den * p10 x)
           else round_half_even (num * p10 (- x)) den in
  match fuel with
  | O => (q, x)
  | S f =>
      match binary64_of q x with
      | Some (m', k') => if (m' =? m) && (k' =? k) then (q, x) else shortest f (n + 1) m k
      | None => shortest f (n + 1) m k
      end
  end.

Fixpoint strip_zeros (fuel : nat) (q x : Z) : Z * Z :=
  match fuel with
  | O => (q, x)
  | S f => if (q mod 10 =? 0) && negb (q =? 0) then strip_zeros f (q / 10) (x + 1) else (q, x)
  end.

(** [Decimal(repr(x))] of the float [+/- m * 2^k]: integers below [1e16] are written
    with a final [.0], larger and smaller ones in exponent notation. *)
Definition float_repr (neg : bool) (m k : Z) : Decimal :=
  let s := if neg then -1 else 1 in
  if m =? 0 then Fin 0 (-1)
  else
    let '(q, x) := shortest 17 1 m k in
    let '(q, x) := strip_zeros 20 q x in
    if (0 <=? x) && (ndigits q + x <=? 16) then Fin (s * (q * p10 (x + 1))) (-1) else Fin (s * q) x.

Definition float_of_decimal (d : Decimal) : Decimal :=
  match d with
  | Fin c e =>
      match binary64_of (Z.abs c) e with
      | Some (m, k) => float_repr (c <? 0) m k
      | None => Inf (c <? 0)
      end
  | d => d
  end.

Example float_tenth : float_of_decimal (Fin 1 (-1)) = Fin 1 (-1).
Proof. reflexivity. Qed.

Example float_two : float_of_decimal (Fin 2 0) = Fin 20 (-1).
Proof. reflexivity. Qed.

Example float_long : float_of_decimal (Fin 12345678901234567890123 (-20)) = Fin 12345678901234568 (-14).
Proof. reflexivity. Qed.

(** ** [int | float] *)

Inductive number := NInt (z : Z) | NFloat (d : Decimal).

#[export] Instance number_dec : EqDecision number.
Proof. solve_decision. Defined.

(** [Decimal(str(value))]. *)
Definition num_decimal (n : number) : Decimal :=
  match n with NInt z => of_int z | NFloat d => d end.

(** [float(value)]: what a [REAL] column and a [float] annotation keep of it. *)
Definition num_float (n : number) : Decimal :=
  match n with NInt z => float_of_decimal (of_int z) | NFloat d => d end.

Definition num_json (n : number) : json :=
  match n with NInt z => JInt z | NFloat d => JFloat d end.

(** [math.isfinite(value) and value >= 0]; the same with [value > 0]. *)
Definition num_nonnegative (n : number) : bool := is_finite (num_decimal n) && dle dzero (num_decimal n).
Definition num_positive (n : number) : bool := is_finite (num_decimal n) && dlt dzero (num_decimal n).

(** ** The binary value of a float *)

(** [d = n * 2^k], [None] for an infinity or NaN. *)
Definition float_exact (d : Decimal) : option (Z * Z) :=
  match d with
  | Fin c e =>
      match binary64_of (Z.abs c) e with
      | Some (m, k) => Some (if c <? 0 then - m else m, k)
      | None => None
      end
  | _ => None
  end.

(** The float nearest to [num / den], written. *)
Definition float_ratio (num den : Z) : Decimal :=
  match binary64 (Z.abs num) den with
  | Some (m, k) => float_repr (num <? 0) m k
  | None => Inf (num <? 0)
  end.

(** The float nearest to [n * 2^k], written. *)
Definition float_scaled (n k : Z) : Decimal :=
  if 0 <=? k then float_ratio (n * 2 ^ k) 1 else float_ratio n (2 ^ (- k)).

Definition fneg (d : Decimal) : Decimal :=
  match d with Fin c e => Fin (- c) e | Inf n => Inf (negb n) | NaN => NaN end.

Definition fabs (d : Decimal) : Decimal :=
  match d with Fin c e => Fin (Z.abs c) e | Inf _ => Inf false | NaN => NaN end.

(** [a + b], [a * b] for finite floats. *)
Definition fadd (a b : Decimal) : Decimal :=
  match float_exact a, float_exact b with
  | Some (m, k), Some (n, l) =>
      let u := Z.min k l in float_scaled (m * 2 ^ (k - u) + n * 2 ^ (l - u)) u
  | _, _ => NaN
  end.

Definition fmul (a b : Decimal) : Decimal :=
  match float_exact a, float_exact b with
  | Some (m, k), Some (n, l) => float_scaled (m * n) (k + l)
  | _, _ => NaN
  end.

(** [math.isclose(a, b, rel_tol=1e-12, abs_tol=1e-12)]. *)
Definition TOLERANCE : Decimal := Fin 1 (-12).

Definition isclose (a b : Decimal) : bool :=
  deqb a b ||
  (is_finite a && is_finite b &&
   let diff := fabs (fadd b (fneg a)) in
   dle diff (fabs (fmul TOLERANCE b)) || dle diff (fabs (fmul TOLERANCE a)) || dle diff TOLERANCE).

Lemma isclose_refl a : is_finite a = true -> isclose a a = true.
Proof.
  intros H. unfold isclose. apply orb_true_iff. left.
  unfold deqb, dcompare. destruct a as [c e| |]; try done. by rewrite Z.compare_refl.
Qed.

(** ** Durations *)

(** [timedelta.total_seconds()] of a number of microseconds: the nearest float. *)
Definition total_seconds (us : Z) : Decimal := float_ratio us US.

(** [math.ceil] of a finite float. *)
Definition float_ceil (d : Decimal) : Z :=
  match float_exact d with
  | Some (m, k) => if 0 <=? k then m * 2 ^ k else cdiv m (2 ^ (- k))
  | None => 0
  end.

(** [max(0.0, value)]. *)
Definition float_max0 (d : Decimal) : Decimal := if dlt dzero d then d else Fin 0 (-1).

Example half_second : total_seconds 1500000 = Fin 15 (-1).
Proof. reflexivity. Qed.

Example ceil_seconds : float_ceil (total_seconds 1500001) = 2.
Proof. reflexivity. Qed.

Example tenths : fadd (Fin 1 (-1)) (Fin 2 (-1)) = Fin 30000000000000004 (-17).
Proof. reflexivity. Qed.

Example tenths_close : isclose (fadd (Fin 1 (-1)) (Fin 2 (-1))) (Fin 3 (-1)) = true.
Proof. reflexivity. Qed.
