(* ===== verification/ContractsBase.v ===== *)
(** Field validators and the cost bound of [pod_capacity_contracts.py]. *)
From S2P Require Import Prelude PyStr Errors PyDecimal PyTime Json.
From Stdlib Require Import Ascii.

#[local] Open Scope Z_scope.

(** ** Regular-expression validators *)

(** A character of [[A-Za-z0-9._:-]]. *)
Definition is_ident (c : ascii) : bool :=
  is_alnum c || (code c =? 46) || (code c =? 95) || (code c =? 58) || (code c =? 45).

Definition starts_with (p : ascii -> bool) (s : string) : bool :=
  match chars s with c :: _ => p c | [] => false end.

(** [[A-Za-z0-9][A-Za-z0-9._:-]{lo-1,127}]. *)
Definition identifier (lo : Z) (s : string) : bool :=
  (lo <=? len s) && (len s <=? 128) && starts_with is_alnum s && all_chars is_ident s.

(** [_safe_identifier], [_provider_identifier]. *)
Definition safe_identifier (s : string) : bool := identifier 8 s.
Definition provider_identifier (s : string) : bool := identifier 1 s.

(** [_sha256]. *)
Definition is_sha256 (s : string) : bool := (len s =? 64) && all_chars is_hex s.

(** Split off a fixed prefix. *)
Fixpoint strip_prefix (p l : list ascii) : option (list ascii) :=
  match p, l with
  | [], _ => Some l
  | a :: p', b :: l' => if bool_decide (a = b) then strip_prefix p' l' else None
  | _, [] => None
  end.

Lemma strip_prefix_spec p l r : strip_prefix p l = Some r -> l = (p ++ r)%list.
Proof.
  revert l. induction p as [|a p IH]; intros l; cbn [strip_prefix]; [by intros [= ->]|].
  destruct l as [|b l]; [done|]. destruct (bool_decide _) eqn:E; [|done]. apply bool_decide_eq_true in E as <-.
  intros Hr. cbn. f_equal. by apply IH.
Qed.

(** [\w]: letters, digits and underscore, Latin-1 included. *)
Definition is_word (c : ascii) : bool :=
  is_alnum c || (code c =? 95) || (code c =? 170) || (code c =? 181) || (code c =? 186) ||
  in_range 178 179 c || (code c =? 185) || in_range 188 190 c ||
  in_range 192 214 c || in_range 216 246 c || in_range 248 255 c.

(** [_image_digest]: [sha256:[0-9a-f]{64}]. *)
Definition is_image_digest (s : string) : bool :=
  match strip_prefix (chars "sha256:") (chars s) with
  | Some r => (Z.of_nat (length r) =? 64) && forallb is_hex r
  | None => false
  end.

(** [[^\s]+@sha256:[0-9a-f]{64}]: the last 72 characters are the digest part. *)
Definition is_image_reference (s : string) : bool :=
  let l := chars s in
  let n := (length l - 72)%nat in
  Nat.ltb 72 (length l) &&
  forallb (fun c => negb (is_space c)) (firstn n l) &&
  match skipn n l with
  | a :: r => (code a =? 64) && is_image_digest (of_chars r)
  | [] => false
  end.

(** [reference.rsplit("@", 1)[1]]. *)
Definition image_digest_of (reference : string) : string :=
  of_chars (rev ((fix upto l := match l with
                     | [] => []
                     | c :: r => if code c =? 64 then [] else c :: upto r
                     end) (rev (chars reference)))).

(** [_display_name]. *)
Definition is_display_name (s : string) : bool :=
  negb (blank s) && (len s <=? 128) && all_chars (fun c => 32 <=? code c) s.

(** ** Attempt environment *)

Definition FORBIDDEN_WORKLOAD_ENV : list string :=
  ["DATABASE_URL"; "CATALOG_DATABASE_URL"; "CLOUD_SQL_CONNECTION_NAME"; "PGPASSWORD";
   "RUNPOD_API_KEY"; "RUNPOD_CONTROL_PLANE_API_KEY"; "RUNPOD_SERVERLESS_API_KEY";
   "CATALOG_WORKER_MODE"; "CATALOG_POD_ATTEMPT_ID"; "CATALOG_POD_BEARER_TOKEN";
   "CATALOG_POD_BEARER_EXPIRES_AT"; "CATALOG_POD_IMAGE_DIGEST"; "CATALOG_POD_REQUEST_SHA256";
   "CONTAINER_DIGEST"]%string.

(** [[A-Z][A-Z0-9_]{1,127}]. *)
Definition env_key_ok (k : string) : bool :=
  (2 <=? len k) && (len k <=? 128) && starts_with is_upper k &&
  all_chars (fun c => is_upper c || is_digit c || (code c =? 95)) k.

Definition env_value_ok (v : string) : bool :=
  all_chars (fun c => negb ((code c =? 0) || (code c =? 13) || (code c =? 10))) v.

(** [_validate_attempt_environment]. *)
Definition validate_attempt_environment (environment : list (string * string)) : result unit :=
  require
    (forallb (fun p => env_key_ok (fst p) && env_value_ok (snd p)) environment &&
     forallb (fun p => bool_decide (fst p ∉ FORBIDDEN_WORKLOAD_ENV)) environment)
    ValueError.

Definition str_fields (l : list (string * string)) : list (string * json) :=
  map (fun p => (fst p, JStr (snd p))) l.

(** [attempt_environment_sha256]. *)
Definition attempt_environment_sha256 `{Digest} (environment : list (string * string)) : result string :=
  run! validate_attempt_environment environment then
  Ok (json_sha256 (JObj (str_fields environment))).

(** ** Cost *)

(** [pod_cost_usd]: the rate-derived cost in a context of precision [prec],
    rounded up to six decimal places. *)
Definition pod_cost_usd (prec : Z) (hourly : Decimal) (billed_seconds gpu_count : Z) : result Decimal :=
  if negb (is_finite hourly) || dle hourly dzero || (billed_seconds <? 0) || (gpu_count <? 1)
  then Exc ValueError
  else
    dquantize_ceiling prec (-6)
      (ddiv prec (dmul prec (dmul prec hourly (of_int billed_seconds)) (of_int gpu_count))
         (of_int 3600)).

(** *** The quotient in the working precision rounds up to the exact ceiling *)

Lemma pod_cost_quotient (P e : Z) :
  0 < P -> let m := Z.min e (-6) in P * p10 (e - m) < p10 24 ->
  exists c' e' u, ddiv 28 (Fin P e) (of_int 3600) = Fin c' e' /\ u <= e' /\ u <= m - 9 /\
    Z.abs (3600 * (c' * p10 (e' - u)) - P * p10 (e - m) * p10 (m - u)) <= 51 * 3600 /\
    (forall k, P * p10 (e - m) = 3600 * k -> c' * p10 (e' - u) = k * p10 (m - u)).
Proof.
  intros HP m HPm. pose proof (p10_pos (e - m) ltac:(lia)) as Hem.
  pose proof (ndigits_pos P) as Hnp. pose proof (ndigits_spec P ltac:(lia)) as [Hlo Hhi].
  assert (Hnd : ndigits P + (e - m) <= 24).
  { assert (p10 (ndigits P - 1 + (e - m)) < p10 24) by (rewrite p10_add by lia; nia).
    pose proof (p10_lt_inv (ndigits P - 1 + (e - m)) 24 ltac:(lia) ltac:(done)). lia. }
  set (shift := 33 - ndigits P). set (u := e - shift).
  assert (Hsh : ndigits 3600 - ndigits P + 28 + 1 = shift) by (change (ndigits 3600) with 4; unfold shift; lia).
  assert (Hbig : P * p10 shift < 3600 * (p10 (28 + 2) - 1)).
  { assert (P * p10 shift < p10 (ndigits P) * p10 shift)
      by (pose proof (p10_pos shift ltac:(unfold shift; lia)); nia).
    rewrite <- p10_add in H by (unfold shift; lia).
    replace (ndigits P + shift) with 33 in H by (unfold shift; lia).
    change (p10 33) with 1000000000000000000000000000000000 in H.
    change (p10 (28 + 2)) with 1000000000000000000000000000000. lia. }
  pose proof (ddiv_bound 28 P e 3600 0 ltac:(lia) HP ltac:(lia)) as Hdiv.
  cbv zeta in Hdiv. rewrite Hsh, Z.sub_0_r in Hdiv. fold u in Hdiv.
  destruct Hdiv as (c' & e' & Heq & Hu & Hb & Hx); [unfold shift; lia|done|].
  assert (Hscale : P * p10 shift = P * p10 (e - m) * p10 (m - u)).
  { rewrite <- Z.mul_assoc, <- p10_add by (unfold u, shift; lia). do 2 f_equal. unfold u. lia. }
  exists c', e', u. rewrite <- Hscale. split; [done|]. split; [done|].
  split; [unfold u, shift; lia|]. split; [lia|].
  intros k Hk. apply (Hx (m - u) k); [unfold u, shift; lia| |].
  - rewrite Hscale, Hk. ring.
  - assert (0 <= k) by nia. rewrite Z.abs_eq by lia.
    change (p10 24) with 1000000000000000000000000 in HPm.
    change (p10 28) with 10000000000000000000000000000. lia.
Qed.

Lemma cdiv_near (V P' k u : Z) :
  0 <= k -> 9 <= u ->
  Z.abs (3600 * V - P' * p10 u) <= 51 * 3600 ->
  (forall q, P' = 3600 * q -> V = q * p10 u) ->
  cdiv V (p10 (k + u)) = cdiv P' (3600 * p10 k).
Proof.
  intros Hk Hu Hb Hx. rewrite p10_add by lia.
  pose proof (p10_pos k Hk) as HK.
  assert (HU : 1000000000 <= p10 u) by (change 1000000000 with (p10 9); apply p10_le; lia).
  set (G := cdiv P' (3600 * p10 k)).
  pose proof (cdiv_spec P' (3600 * p10 k) ltac:(lia)) as HG. fold G in HG.
  set (K := p10 k) in *. set (U := p10 u) in *.
  apply cdiv_unique; [nia|].
  assert (HUp : P' = 3600 * K * G \/ P' <= 3600 * K * G - 1) by lia.
  assert (Hlow : (3600 * K * (G - 1) + 1) * U <= P' * U) by (apply Z.mul_le_mono_nonneg_r; lia).
  split.
  - assert (3600 * (K * U * (G - 1)) < 3600 * V) by lia. lia.
  - destruct HUp as [Heq|Hle].
    + rewrite (Hx (K * G)) by lia. lia.
    + assert (P' * U <= (3600 * K * G - 1) * U) by (apply Z.mul_le_mono_nonneg_r; lia). lia.
Qed.

(** Rounding to 28 digits is invisible: the result is the exact rate-derived cost
    rounded up to a millionth of a dollar. *)
Lemma pod_cost_ceiling (c e secs gpus : Z) :
  0 < c -> 0 <= secs -> 1 <= gpus ->
  let m := Z.min e (-6) in
  c * secs * gpus * p10 (e - m) < p10 24 ->
  pod_cost_usd 28 (Fin c e) secs gpus =
    Ok (Fin (cdiv (c * secs * gpus * p10 (e - m)) (3600 * p10 (-6 - m))) (-6)).
Proof.
  intros Hc Hs Hg m Hb. unfold pod_cost_usd.
  assert (Hpos : dle (Fin c e) dzero = false).
  { destruct (dle (Fin c e) dzero) eqn:E; [|done].
    apply (dle_scale _ _ _ _ (Z.min e 0)) in E; [|lia|lia].
    pose proof (p10_pos (e - Z.min e 0) ltac:(lia)). nia. }
  rewrite Hpos. destruct (Z.ltb_spec secs 0); [lia|]. destruct (Z.ltb_spec gpus 1); [lia|].
  cbn [is_finite negb orb]. pose proof (p10_pos (e - m) ltac:(lia)) as Hem.
  assert (Hcs : 0 <= c * secs) by nia.
  assert (Hcsg : c * secs <= c * secs * gpus) by nia.
  assert (Hall : c * secs * gpus <= c * secs * gpus * p10 (e - m)) by nia.
  assert (H28 : p10 24 < p10 28) by done.
  unfold of_int, dmul. rewrite fix_prec_small, !Z.add_0_r by lia.
  rewrite fix_prec_small by lia. fold (of_int 3600).
  set (P := c * secs * gpus) in *.
  destruct (Z.eq_dec P 0) as [HP0|HP0].
  - rewrite HP0. unfold ddiv, of_int. cbn [Z.eqb].
    rewrite (dquantize_ceiling_spec 28 (-6) 0 (e - 0) m) by lia.
    unfold cdiv. rewrite !Z.mul_0_l, !Z.opp_0, !Zdiv_0_l. done.
  - destruct (pod_cost_quotient P e ltac:(lia) Hb) as (c' & e' & u & -> & Hue & Hu9 & Hnear & Hex).
    fold m in Hu9, Hnear, Hex.
    rewrite (dquantize_ceiling_spec 28 (-6) c' e' u) by lia. cbv zeta.
    replace (-6 - u) with ((-6 - m) + (m - u)) by lia.
    rewrite (cdiv_near _ (P * p10 (e - m)) (-6 - m) (m - u)) by (try lia; done).
    destruct (Z.leb_spec (ndigits (cdiv (P * p10 (e - m)) (3600 * p10 (-6 - m)))) 28); [done|].
    exfalso. pose proof (p10_pos (-6 - m) ltac:(lia)).
    pose proof (cdiv_spec (P * p10 (e - m)) (3600 * p10 (-6 - m)) ltac:(lia)).
    pose proof (cdiv_pos (P * p10 (e - m)) (3600 * p10 (-6 - m)) ltac:(lia) ltac:(nia)).
    set (G := cdiv _ _) in *.
    pose proof (ndigits_le G 28 ltac:(lia)). assert (p10 24 + 1 < p10 28) by done. nia.
Qed.

(** ** Valid fields are not empty *)

Lemma blank_nonempty s : blank s = false -> s <> "".
Proof. intros H ->. done. Qed.

Lemma sha256_nonempty s : is_sha256 s = true -> s <> "".
Proof. intros H ->. done. Qed.

Lemma identifier_nonempty lo s : 1 <= lo -> identifier lo s = true -> s <> "".
Proof. intros Hlo H ->. unfold identifier in H. split_bools. change (len "") with 0 in *. lia. Qed.

Lemma safe_identifier_nonempty s : safe_identifier s = true -> s <> "".
Proof. apply identifier_nonempty. lia. Qed.

Lemma provider_identifier_nonempty s : provider_identifier s = true -> s <> "".
Proof. apply identifier_nonempty. lia. Qed.

#[export] Hint Resolve blank_nonempty sha256_nonempty safe_identifier_nonempty
  provider_identifier_nonempty : kestrel.
