(* ===== verification/JsonText.v ===== *)
(** JSON texts read back: [json.loads] on texts of code points below 256, and the
    canonical text [dumps] determines its value. *)
From S2P Require Import Prelude PyStr PyDecimal PyFloat PyTime Json ContractsBase.
From Stdlib Require Import Ascii.

#[local] Open Scope Z_scope.

(** ** Induction on documents *)

Section Induction.
Context (P : json -> Prop).
Context (Hnull : P JNull) (Hbool : forall b, P (JBool b)) (Hint : forall z, P (JInt z))
  (Hfloat : forall d, P (JFloat d)) (Hstr : forall s, P (JStr s))
  (Hlist : forall l, Forall P l -> P (JList l))
  (Hobj : forall fields, Forall (fun p => P (snd p)) fields -> P (JObj fields)).

Fixpoint json_nested_ind (v : json) : P v :=
  match v with
  | JNull => Hnull
  | JBool b => Hbool b
  | JInt z => Hint z
  | JFloat d => Hfloat d
  | JStr s => Hstr s
  | JList l =>
      Hlist l
        ((fix go (l : list json) : Forall P l :=
            match l with [] => Forall_nil _ | x :: r => Forall_cons _ _ _ (json_nested_ind x) (go r) end) l)
  | JObj fields =>
      Hobj fields
        ((fix go (l : list (string * json)) : Forall (fun p => P (snd p)) l :=
            match l with [] => Forall_nil _ | x :: r => Forall_cons _ _ _ (json_nested_ind (snd x)) (go r) end) fields)
  end.

End Induction.

(** ** Tokens *)

Definition is_ws (c : ascii) : bool := bool_decide (code c ∈ [32; 9; 10; 13]).

Definition hex_value (c : ascii) : option Z :=
  if is_digit c then Some (code c - 48)
  else if in_range 97 102 c then Some (code c - 87)
  else if in_range 65 70 c then Some (code c - 55)
  else None.

(** The character of a one-letter escape. *)
Definition unescape (c : ascii) : option ascii :=
  let n := code c in
  if n =? 34 then Some c
  else if n =? 92 then Some c
  else if n =? 47 then Some c
  else if n =? 98 then Some (ascii_of_N 8)
  else if n =? 102 then Some (ascii_of_N 12)
  else if n =? 110 then Some (ascii_of_N 10)
  else if n =? 114 then Some (ascii_of_N 13)
  else if n =? 116 then Some (ascii_of_N 9)
  else None.

(** [\uXXXX]; a code point above 255 is outside the model of strings. *)
Definition unicode_escape (a b c d : ascii) : option ascii :=
  match hex_value a, hex_value b, hex_value c, hex_value d with
  | Some 0, Some 0, Some x, Some y => Some (ascii_of_N (Z.to_N (16 * x + y)))
  | _, _, _, _ => None
  end.

Definition push {A} (c : ascii) (r : option (list ascii * A)) : option (list ascii * A) :=
  match r with Some (l, k) => Some (c :: l, k) | None => None end.

(** The characters of a string after its opening quote. *)
Fixpoint parse_str (l : list ascii) : option (list ascii * list ascii) :=
  match l with
  | [] => None
  | c :: r =>
      if code c =? 34 then Some ([], r)
      else if code c =? 92 then
        match r with
        | e :: r1 =>
            if code e =? 117 then
              match r1 with
              | x1 :: x2 :: x3 :: x4 :: r2 =>
                  match unicode_escape x1 x2 x3 x4 with Some x => push x (parse_str r2) | None => None end
              | _ => None
              end
            else match unescape e with Some x => push x (parse_str r1) | None => None end
        | [] => None
        end
      else if code c <? 32 then None
      else push c (parse_str r)
  end.

Fixpoint span_digits (l : list ascii) : list ascii * list ascii :=
  match l with
  | c :: r => if is_digit c then let '(ds, k) := span_digits r in (c :: ds, k) else ([], l)
  | [] => ([], [])
  end.

Definition digits_value (l : list ascii) : Z := default 0 (parse_digits 0 l).

(** The integer part of a number: a zero, or digits that start with another one. *)
Definition int_part (l : list ascii) : option (list ascii * list ascii) :=
  match l with
  | c :: r =>
      if code c =? 48 then Some ([c], r)
      else if is_digit c then Some (span_digits l)
      else None
  | [] => None
  end.

(** The fraction and the exponent, when they are there. *)
Definition frac_part (l : list ascii) : option (list ascii) * list ascii :=
  match l with
  | c :: r =>
      if code c =? 46 then match span_digits r with ([], _) => (None, l) | (ds, k) => (Some ds, k) end
      else (None, l)
  | [] => (None, l)
  end.

Definition exp_part (l : list ascii) : option Z * list ascii :=
  match l with
  | c :: r =>
      if (code c =? 101) || (code c =? 69) then
        let '(neg, body) :=
          match r with
          | s :: r' => if code s =? 45 then (true, r') else if code s =? 43 then (false, r') else (false, r)
          | [] => (false, r)
          end in
        match span_digits body with
        | ([], _) => (None, l)
        | (ds, k) => (Some (if neg then - digits_value ds else digits_value ds), k)
        end
      else (None, l)
  | [] => (None, l)
  end.

(** A number: an integer without fraction and exponent, else the nearest float. *)
Definition parse_number (l : list ascii) : option (json * list ascii) :=
  let '(neg, body) := match l with c :: r => if code c =? 45 then (true, r) else (false, l) | [] => (false, l) end in
  match int_part body with
  | Some (ds, r1) =>
      let signed z := if neg : bool then - z else z in
      let '(frac, r2) := frac_part r1 in
      let '(exp, r3) := exp_part r2 in
      match frac, exp with
      | None, None => Some (JInt (signed (digits_value ds)), r3)
      | _, _ =>
          let fs := default [] frac in
          let coefficient := digits_value (ds ++ fs)%list in
          Some (JFloat (float_of_decimal (Fin (signed coefficient) (default 0 exp - Z.of_nat (length fs)))), r3)
      end
  | None => None
  end.

(** ** Values *)

(** [d[key] = value] of a dict built from pairs: the first place, the last value. *)
Fixpoint set_field (l : list (string * json)) (key : string) (v : json) : list (string * json) :=
  match l with
  | [] => [(key, v)]
  | (k, w) :: r => if String.eqb k key then (key, v) :: r else (k, w) :: set_field r key v
  end.

Definition dict_of (pairs : list (string * json)) : list (string * json) :=
  fold_left (fun d p => set_field d (fst p) (snd p)) pairs [].

Definition skip_ws (l : list ascii) : list ascii := drop_while is_ws l.

Definition keywords : list (string * json) :=
  [("null", JNull); ("true", JBool true); ("false", JBool false); ("NaN", JFloat NaN);
   ("Infinity", JFloat (Inf false)); ("-Infinity", JFloat (Inf true))].

Fixpoint keyword (ws : list (string * json)) (l : list ascii) : option (json * list ascii) :=
  match ws with
  | [] => None
  | (w, v) :: rest => match strip_prefix (chars w) l with Some r => Some (v, r) | None => keyword rest l end
  end.

Fixpoint parse_value (fuel : nat) (l : list ascii) : option (json * list ascii) :=
  match fuel with
  | O => None
  | S f =>
      match l with
      | [] => None
      | c :: r =>
          if code c =? 34 then
            match parse_str r with Some (s, k) => Some (JStr (of_chars s), k) | None => None end
          else if code c =? 91 then
            match expect "]" (skip_ws r) with
            | Some k => Some (JList [], k)
            | None => match parse_items f (skip_ws r) with Some (vs, k) => Some (JList vs, k) | None => None end
            end
          else if code c =? 123 then
            match expect "}" (skip_ws r) with
            | Some k => Some (JObj [], k)
            | None =>
                match parse_fields f (skip_ws r) with Some (ps, k) => Some (JObj (dict_of ps), k) | None => None end
            end
          else match keyword keywords l with Some x => Some x | None => parse_number l end
      end
  end
(** The items of a nonempty array, and the members of a nonempty object. *)
with parse_items (fuel : nat) (l : list ascii) : option (list json * list ascii) :=
  match fuel with
  | O => None
  | S f =>
      match parse_value f l with
      | Some (v, r) =>
          match skip_ws r with
          | c :: r' =>
              if code c =? 44 then
                match parse_items f (skip_ws r') with Some (vs, k) => Some (v :: vs, k) | None => None end
              else if code c =? 93 then Some ([v], r')
              else None
          | [] => None
          end
      | None => None
      end
  end
with parse_fields (fuel : nat) (l : list ascii) : option (list (string * json) * list ascii) :=
  match fuel with
  | O => None
  | S f =>
      match (match expect quote_char l with Some r => parse_str r | None => None end) with
      | Some (key, r) =>
          match expect ":" (skip_ws r) with
          | Some r1 =>
              match parse_value f (skip_ws r1) with
              | Some (v, r2) =>
                  match skip_ws r2 with
                  | c :: r' =>
                      if code c =? 44 then
                        match parse_fields f (skip_ws r') with
                        | Some (ps, k) => Some ((of_chars key, v) :: ps, k)
                        | None => None
                        end
                      else if code c =? 125 then Some ([(of_chars key, v)], r')
                      else None
                  | [] => None
                  end
              | None => None
              end
          | None => None
          end
      | _ => None
      end
  end.

(** [json.loads(text)]; [None] where it raises [ValueError]. *)
Definition loads (text : string) : option json :=
  let l := skip_ws (chars text) in
  match parse_value (S (2 * length l)) l with
  | Some (v, r) => match skip_ws r with [] => Some v | _ => None end
  | None => None
  end.

(** ** The canonical text reads back *)

(** Documents without floats whose objects name no key twice. *)
Fixpoint plain_json (v : json) : Prop :=
  match v with
  | JFloat _ => False
  | JList l => (fix go l := match l with [] => True | x :: r => plain_json x /\ go r end) l
  | JObj fields =>
      NoDup (keys fields) /\
      (fix go (l : list (string * json)) := match l with [] => True | x :: r => plain_json (snd x) /\ go r end) fields
  | _ => True
  end.

Lemma plain_list l : plain_json (JList l) <-> Forall plain_json l.
Proof.
  cbn [plain_json]. induction l as [|x l IH]; [by split|]. rewrite Forall_cons_iff, <- IH. done.
Qed.

Lemma plain_obj fields :
  plain_json (JObj fields) <-> NoDup (keys fields) /\ Forall (fun p => plain_json (snd p)) fields.
Proof.
  cbn [plain_json]. apply and_iff_compat_l. induction fields as [|x l IH]; [by split|].
  rewrite Forall_cons_iff, <- IH. done.
Qed.

(** A document with the keys of every object sorted. *)
Fixpoint canon (v : json) : json :=
  match v with
  | JList l => JList (map canon l)
  | JObj fields => JObj (sort_keys (map (fun p => (fst p, canon (snd p))) fields))
  | v => v
  end.

Definition on_values {A B} (f : A -> B) (p : string * A) : string * B := (fst p, f (snd p)).

Lemma insert_key_map {A B} (f : A -> B) k v l :
  insert_key k (f v) (map (on_values f) l) = map (on_values f) (insert_key k v l).
Proof.
  induction l as [|[k' v'] l IH]; [done|]. cbn [map on_values insert_key fst snd].
  destruct (str_le (chars k) (chars k')); [done|]. cbn [map on_values fst snd]. by rewrite <- IH.
Qed.

Lemma sort_keys_map {A B} (f : A -> B) l : sort_keys (map (on_values f) l) = map (on_values f) (sort_keys l).
Proof.
  induction l as [|[k v] l IH]; [done|].
  cbn [map on_values fst snd sort_keys fold_right]. fold (sort_keys (map (on_values f) l)). fold (sort_keys l).
  by rewrite IH, insert_key_map.
Qed.

(** *** Tokens *)

Lemma parse_escape c k : parse_str (escape_char c ++ k)%list = push c (parse_str k).
Proof. by destruct c as [[] [] [] [] [] [] [] []]. Qed.

Lemma parse_str_escape (s rest : list ascii) :
  parse_str (flat_map escape_char s ++ quote_char :: rest)%list = Some (s, rest).
Proof.
  induction s as [|c s IH]; [done|]. cbn [flat_map]. by rewrite <- app_assoc, parse_escape, IH.
Qed.

(** What follows a value in a document: neither a digit nor the rest of a number. *)
Definition stops (l : list ascii) : Prop :=
  match l with
  | [] => True
  | c :: _ => is_digit c = false /\ (code c =? 46) = false /\ (code c =? 101) = false /\ (code c =? 69) = false
  end.

Lemma span_digits_app ds rest :
  Forall (fun c => is_digit c = true) ds -> stops rest -> span_digits (ds ++ rest)%list = (ds, rest).
Proof.
  intros Hds Hr. induction Hds as [|c ds Hc _ IH]; cbn [app span_digits].
  - destruct rest as [|c rest]; [done|]. destruct Hr as [Hc _]. cbn [span_digits]. by rewrite Hc.
  - by rewrite Hc, IH.
Qed.

Lemma parse_digits_all acc l v : parse_digits acc l = Some v -> Forall (fun c => is_digit c = true) l.
Proof.
  revert acc. induction l as [|c l IH]; intros acc; cbn [parse_digits]; [by constructor|].
  destruct (is_digit c) eqn:E; [|done]. intros H. constructor; [done|]. by eapply IH.
Qed.

Lemma digits_fuel_head fuel n acc :
  0 < n -> Z.log2 n < Z.of_nat fuel ->
  exists k r, 1 <= k <= 9 /\ digits_fuel fuel n acc = digit_char k :: r.
Proof.
  revert n acc. induction fuel as [|fuel IH]; intros n acc Hn Hf.
  { pose proof (Z.log2_nonneg n). lia. }
  cbn [digits_fuel]. destruct (Z.ltb_spec n 10).
  - exists n, acc. rewrite Z.mod_small by lia. split; [lia|done].
  - apply IH; [apply Z.div_str_pos; lia|].
    assert (Z.log2 (n / 10) <= Z.log2 (n / 2)) by (apply Z.log2_le_mono, Z.div_le_compat_l; lia).
    assert (Z.log2 (n / 2) = Z.log2 n - 1).
    { change 2 with (2 ^ 1) at 1. rewrite <- Z.shiftr_div_pow2, Z.log2_shiftr by lia.
      assert (1 <= Z.log2 n) by (apply Z.log2_le_pow2; lia). lia. }
    lia.
Qed.

Lemma digits_head n : 0 < n -> exists k r, 1 <= k <= 9 /\ digits n = digit_char k :: r.
Proof. intros Hn. apply digits_fuel_head; [done|]. pose proof (Z.log2_nonneg n). lia. Qed.

Lemma no_fraction rest : stops rest -> frac_part rest = (None, rest) /\ exp_part rest = (None, rest).
Proof.
  destruct rest as [|c rest]; [done|]. intros (Hd & Hp & He & HE). unfold frac_part, exp_part.
  by rewrite Hp, He, HE.
Qed.

(** The digits of a natural number read as its integer part. *)
Lemma int_part_digits n rest :
  0 <= n -> stops rest -> int_part (digits n ++ rest)%list = Some (digits n, rest) /\ digits_value (digits n) = n.
Proof.
  intros Hn Hr. pose proof (parse_digits_digits n Hn) as Hv. split; [|unfold digits_value; by rewrite Hv].
  destruct (Z.eq_dec n 0) as [->|Hne]; [done|].
  destruct (digits_head n) as (k & r & Hk & Hd); [lia|]. pose proof (parse_digits_all _ _ _ Hv) as Hall.
  rewrite Hd in *. cbn [app int_part]. rewrite code_digit_char by lia.
  destruct (Z.eqb_spec (48 + k) 48); [lia|]. rewrite is_digit_digit_char by lia.
  change (digit_char k :: r ++ rest)%list with ((digit_char k :: r) ++ rest)%list.
  by rewrite span_digits_app.
Qed.

Lemma parse_number_int z rest :
  stops rest -> parse_number (chars (int_text z) ++ rest)%list = Some (JInt z, rest).
Proof.
  intros Hr. unfold parse_number, int_text. destruct (no_fraction rest Hr) as [Hf He].
  destruct (Z.ltb_spec z 0) as [Hz|Hz]; cbn [chars]; rewrite chars_of_chars.
  - cbn [app]. change (code "-"%char =? 45) with true. cbv iota beta.
    destruct (int_part_digits (- z) rest ltac:(lia) Hr) as [-> ->]. rewrite Hf, He. by rewrite Z.opp_involutive.
  - destruct (int_part_digits z rest Hz Hr) as [Hp Hv].
    destruct (digits z ++ rest)%list as [|c r] eqn:E; [done|].
    assert (Hc : (code c =? 45) = false).
    { destruct (Z.eqb_spec (code c) 45) as [Hc|]; [|done]. unfold int_part in Hp. rewrite Hc in Hp.
      unfold is_digit, in_range in Hp. rewrite Hc in Hp. done. }
    rewrite Hc, Hp, Hv, Hf, He. done.
Qed.

(** *** Documents *)

(** The steps the reader takes on a document. *)
Fixpoint json_size (v : json) : nat :=
  match v with
  | JList l => S (list_sum (map (fun x => S (json_size x)) l))
  | JObj fields => S (list_sum (map (fun p => S (json_size (snd p))) fields))
  | _ => 1
  end.

(** What a document may begin with. *)
Definition opens (c : ascii) : Prop := is_ws c = false /\ (code c =? 93) = false /\ (code c =? 125) = false.

Lemma opens_digit k : 0 <= k <= 9 -> opens (digit_char k).
Proof.
  intros Hk. unfold opens, is_ws. rewrite code_digit_char by lia. split_and!; [|lia|lia].
  apply bool_decide_eq_false. set_unfold. lia.
Qed.

Lemma int_text_head z : exists c r, chars (int_text z) = c :: r /\
  (c = "-"%char /\ (exists k r', 1 <= k <= 9 /\ r = digit_char k :: r') \/ exists k, 0 <= k <= 9 /\ c = digit_char k).
Proof.
  unfold int_text. destruct (Z.ltb_spec z 0); cbn [chars]; rewrite chars_of_chars.
  - destruct (digits_head (- z)) as (k & r & Hk & ->); [lia|]. do 2 eexists. split; [done|]. left. eauto.
  - destruct (Z.eq_dec z 0) as [->|]; [by do 2 eexists; split; [done|right; exists 0]|].
    destruct (digits_head z) as (k & r & Hk & ->); [lia|]. do 2 eexists. split; [done|]. right. exists k. split; [lia|done].
Qed.

Lemma dump_head v : plain_json v -> exists c r, dump_chars v = c :: r /\ opens c.
Proof.
  destruct v as [|[]|z|d|s|l|fields]; cbn [dump_chars]; intros Hv;
    try (eexists _, _; split; [reflexivity|]; done).
  - destruct (int_text_head z) as (c & r & Hz & Hc). exists c, r. split; [exact Hz|].
    destruct Hc as [[-> _]|(k & Hk & ->)]; [done|by apply opens_digit].
  - destruct Hv.
Qed.

Lemma keyword_digit k r : 0 <= k <= 9 -> keyword keywords (digit_char k :: r) = None.
Proof.
  intros Hk. assert (H : k ∈ [0;1;2;3;4;5;6;7;8;9]) by (set_unfold; lia).
  repeat (apply elem_of_cons in H as [->|H]; [done|]). by apply elem_of_nil in H.
Qed.

Lemma keyword_minus k r : 1 <= k <= 9 -> keyword keywords ("-"%char :: digit_char k :: r) = None.
Proof.
  intros Hk. assert (H : k ∈ [1;2;3;4;5;6;7;8;9]) by (set_unfold; lia).
  repeat (apply elem_of_cons in H as [->|H]; [done|]). by apply elem_of_nil in H.
Qed.

(** A value that reads back whatever follows it. *)
Definition reads_back (v : json) : Prop :=
  forall f rest, (json_size v <= f)%nat -> stops rest ->
    parse_value f (dump_chars v ++ rest)%list = Some (canon v, rest).

Lemma reads_back_int z : reads_back (JInt z).
Proof.
  intros [|f] rest Hf Hr; [cbn in Hf; lia|]. cbn [dump_chars canon].
  pose proof (parse_number_int z rest Hr) as Hn.
  destruct (int_text_head z) as (c & r & Hz & Hc). rewrite Hz in *. cbn [app] in *. cbn [parse_value].
  assert (Hk : keyword keywords (c :: r ++ rest)%list = None).
  { destruct Hc as [[-> (k & r' & Hk & ->)]|(k & Hk & ->)]; [by apply keyword_minus|by apply keyword_digit]. }
  assert (Hcode : (code c =? 34) = false /\ (code c =? 91) = false /\ (code c =? 123) = false).
  { destruct Hc as [[-> _]|(k & Hk' & ->)]; [done|]. rewrite code_digit_char by lia. split_and!; lia. }
  destruct Hcode as (-> & -> & ->). by rewrite Hk, Hn.
Qed.

Lemma skip_opens c r : opens c -> skip_ws (c :: r) = c :: r.
Proof. intros (Hc & _). unfold skip_ws. cbn [drop_while]. by rewrite Hc. Qed.

Lemma join_cons {A} (f : A -> list ascii) x y l :
  join_comma (map f (x :: y :: l)) = (f x ++ ","%char :: join_comma (map f (y :: l)))%list.
Proof. done. Qed.

Lemma join_head {A} (f : A -> list ascii) x l k :
  exists k', (join_comma (map f (x :: l)) ++ k)%list = (f x ++ k')%list.
Proof. destruct l; [by eexists|]. rewrite join_cons, <- app_assoc. by eexists. Qed.

Lemma parse_items_dump l f rest :
  l <> [] -> Forall plain_json l -> Forall reads_back l ->
  (list_sum (map (fun x => S (json_size x)) l) <= f)%nat ->
  parse_items f (join_comma (map dump_chars l) ++ "]"%char :: rest)%list = Some (map canon l, rest).
Proof.
  intros Hne Hp Hl. revert f. induction l as [|x l IH]; [done|]. intros f Hf.
  apply Forall_cons_iff in Hp as [Hpx Hp]. apply Forall_cons_iff in Hl as [Hx Hl].
  change (list_sum (map (fun x => S (json_size x)) (x :: l)))
    with (S (json_size x) + list_sum (map (fun x => S (json_size x)) l))%nat in Hf.
  destruct f as [|f]; [lia|]. cbn [parse_items].
  destruct l as [|y l].
  - cbn [map join_comma]. rewrite Hx; [done|lia|done].
  - rewrite join_cons, <- app_assoc. cbn [app]. rewrite Hx; [|lia|done].
    rewrite skip_opens by done. change (code ","%char =? 44) with true. cbv iota.
    assert (Hskip : skip_ws (join_comma (map dump_chars (y :: l)) ++ "]"%char :: rest)%list =
              (join_comma (map dump_chars (y :: l)) ++ "]"%char :: rest)%list).
    { apply Forall_cons_iff in Hp as [Hpy _]. destruct (join_head dump_chars y l ("]"%char :: rest)) as (k & ->).
      destruct (dump_head y Hpy) as (c & r & -> & Hc). by apply skip_opens. }
    rewrite Hskip, IH; [done|done|done|done|lia].
Qed.

Definition member (p : string * json) : list ascii := (str_text (fst p) ++ ":"%char :: dump_chars (snd p))%list.

Lemma dump_obj fields :
  dump_chars (JObj fields) = ("{"%char :: join_comma (map member (sort_keys fields)) ++ ["}"%char])%list.
Proof.
  cbn [dump_chars]. change (map (fun p => (fst p, dump_chars (snd p))) fields) with (map (on_values dump_chars) fields).
  by rewrite sort_keys_map, map_map.
Qed.

Lemma member_head p r : exists r', (member p ++ r)%list = quote_char :: r'.
Proof. by eexists. Qed.

Lemma parse_member p r :
  match expect quote_char (member p ++ r)%list with Some k => parse_str k | None => None end =
    Some (chars (fst p), ":"%char :: dump_chars (snd p) ++ r)%list.
Proof.
  unfold member, str_text. cbn [app expect]. rewrite Z.eqb_refl.
  rewrite <- !app_assoc. cbn [app]. by rewrite parse_str_escape.
Qed.

Lemma parse_fields_dump l f rest :
  l <> [] -> Forall (fun p => plain_json (snd p)) l -> Forall (fun p => reads_back (snd p)) l ->
  (list_sum (map (fun p => S (json_size (snd p))) l) <= f)%nat ->
  parse_fields f (join_comma (map member l) ++ "}"%char :: rest)%list = Some (map (on_values canon) l, rest).
Proof.
  intros Hne Hp Hl. revert f. induction l as [|x l IH]; [done|]. intros f Hf.
  apply Forall_cons_iff in Hp as [Hpx Hp]. apply Forall_cons_iff in Hl as [Hx Hl].
  change (list_sum (map (fun p => S (json_size (snd p))) (x :: l)))
    with (S (json_size (snd x)) + list_sum (map (fun p => S (json_size (snd p))) l))%nat in Hf.
  destruct f as [|f]; [lia|]. cbn [parse_fields].
  assert (Hvalue : forall k, skip_ws (dump_chars (snd x) ++ k)%list = (dump_chars (snd x) ++ k)%list).
  { intros k. destruct (dump_head _ Hpx) as (c & r & -> & Hc). cbn [app]. by apply skip_opens. }
  destruct l as [|y l].
  - cbn [map join_comma]. rewrite parse_member, (skip_opens ":"%char) by done. cbn [expect].
    rewrite Z.eqb_refl. rewrite Hvalue, Hx by (done || lia).
    change (skip_ws ("}"%char :: rest)) with ("}"%char :: rest). change (code "}"%char =? 44) with false.
    change (code "}"%char =? 125) with true. cbv iota. by rewrite of_chars_chars.
  - rewrite join_cons, <- app_assoc, parse_member, (skip_opens ":"%char) by done. cbn [expect].
    rewrite Z.eqb_refl. cbn [app]. rewrite Hvalue, Hx by (done || lia).
    rewrite skip_opens by done. change (code ","%char =? 44) with true. cbv iota.
    assert (Hskip : skip_ws (join_comma (map member (y :: l)) ++ "}"%char :: rest)%list =
              (join_comma (map member (y :: l)) ++ "}"%char :: rest)%list).
    { destruct (join_head member y l ("}"%char :: rest)) as (k & ->).
      destruct (member_head y k) as (r' & ->). by apply skip_opens. }
    rewrite Hskip, IH; [|done|done|done|lia]. by rewrite of_chars_chars.
Qed.

Lemma set_field_new l k v : k ∉ keys l -> set_field l k v = (l ++ [(k, v)])%list.
Proof.
  induction l as [|[k' v'] l IH]; [done|]. intros Hk. unfold keys in Hk. cbn [map fst] in Hk.
  apply not_elem_of_cons in Hk as [Hne Hk]. cbn [set_field].
  destruct (String.eqb_spec k' k); [congruence|]. by rewrite IH.
Qed.

Lemma dict_of_distinct l : NoDup (keys l) -> dict_of l = l.
Proof.
  intros Hnd. unfold dict_of. change l with ([] ++ l)%list at 2.
  assert (Hd : NoDup (keys ([] ++ l)%list)) by done. clear Hnd. revert Hd. generalize (@nil (string * json)) as d.
  induction l as [|[k v] l IH]; intros d Hd; cbn [fold_left fst snd]; [by rewrite app_nil_r|].
  assert (Hk : k ∉ keys d).
  { unfold keys in *. rewrite map_app in Hd. apply stdpp.list_relations.list.NoDup_app in Hd as (_ & Hd & _).
    intros Hin. apply (Hd _ Hin). cbn. set_solver. }
  rewrite set_field_new by done.
  change ((k, v) :: l) with ([(k, v)] ++ l)%list. rewrite app_assoc. apply IH.
  by rewrite <- app_assoc.
Qed.

Lemma keys_sort {A} (l : list (string * A)) : Permutation (map fst (sort_keys l)) (map fst l).
Proof. apply Permutation_map, sort_keys_perm. Qed.

Lemma list_sum_perm (l k : list nat) : Permutation l k -> list_sum l = list_sum k.
Proof. induction 1; cbn in *; unfold list_sum in *; lia. Qed.

Lemma reads_back_list l : Forall plain_json l -> Forall reads_back l -> reads_back (JList l).
Proof.
  intros Hv Hl [|f] rest Hf Hr; [cbn in Hf; lia|]. cbn [dump_chars canon app parse_value].
  change (code "["%char =? 34) with false. change (code "["%char =? 91) with true. cbv iota.
  destruct l as [|x l]; [done|]. rewrite <- app_assoc.
  destruct (join_head dump_chars x l (["]"%char] ++ rest)%list) as (k & Hk).
  destruct (dump_head x) as (c & r & Hx & Ho); [by apply Forall_inv in Hv|].
  assert (He : expect "]" (c :: r ++ k)%list = None).
  { cbn [expect]. change (code "]"%char) with 93. by destruct Ho as (_ & -> & _). }
  rewrite Hk, Hx. cbn [app]. rewrite (skip_opens c) by done. rewrite He.
  change (c :: r ++ k)%list with ((c :: r) ++ k)%list. rewrite <- Hx, <- Hk. cbn [app].
  rewrite parse_items_dump; [done..|]. cbn in Hf |- *. lia.
Qed.

Lemma reads_back_obj fields :
  NoDup (keys fields) -> Forall (fun p => plain_json (snd p)) fields ->
  Forall (fun p => reads_back (snd p)) fields -> reads_back (JObj fields).
Proof.
  intros Hnd Hv Hl [|f] rest Hf Hr; [cbn in Hf; lia|]. rewrite dump_obj. cbn [canon app parse_value].
  change (code "{"%char =? 34) with false. change (code "{"%char =? 91) with false.
  change (code "{"%char =? 123) with true. cbv iota.
  change (map (fun p => (fst p, canon (snd p))) fields) with (map (on_values canon) fields). rewrite sort_keys_map.
  pose proof (sort_keys_perm fields) as Hperm. unfold keys in Hnd.
  rewrite <- (Permutation_map fst Hperm) in Hnd. rewrite <- Hperm in Hv, Hl.
  cbn [json_size] in Hf. rewrite <- (list_sum_perm _ _ (Permutation_map (fun p => S (json_size (snd p))) Hperm)) in Hf.
  clear Hperm. destruct (sort_keys fields) as [|p l]; [done|]. rewrite <- app_assoc.
  destruct (join_head member p l (["}"%char] ++ rest)%list) as (k & Hk). destruct (member_head p k) as (r & Hm).
  rewrite Hk, Hm, (skip_opens quote_char) by done.
  change (expect "}" (quote_char :: r)) with (@None (list ascii)). cbv iota. rewrite <- Hm, <- Hk. cbn [app].
  rewrite parse_fields_dump; [|done..|cbn in Hf |- *; lia]. rewrite dict_of_distinct; [done|].
  unfold keys. by rewrite map_map.
Qed.

(** Every plain document reads back with its keys sorted, whatever follows it. *)
Theorem plain_reads_back v : plain_json v -> reads_back v.
Proof.
  induction v as [|b|z|d|s|l IH|fields IH] using json_nested_ind; intros Hv.
  - intros [|f] rest Hf Hr; [cbn in Hf; lia|done].
  - intros [|f] rest Hf Hr; [cbn in Hf; lia|by destruct b].
  - apply reads_back_int.
  - destruct Hv.
  - intros [|f] rest Hf Hr; [cbn in Hf; lia|]. cbn [dump_chars canon]. unfold str_text. cbn [app parse_value].
    change (code quote_char =? 34) with true. cbv iota. rewrite <- app_assoc. cbn [app].
    by rewrite parse_str_escape, of_chars_chars.
  - apply plain_list in Hv. apply reads_back_list; [done|]. rewrite List.Forall_forall in IH, Hv |- *. auto.
  - apply plain_obj in Hv as [Hnd Hv]. apply reads_back_obj; [done..|].
    rewrite List.Forall_forall in IH, Hv |- *. auto.
Qed.

Lemma join_length (l : list (list ascii)) :
  (list_sum (map (fun x => S (length x)) l) <= S (length (join_comma l)))%nat.
Proof.
  induction l as [|x [|y l] IH]; [cbn; lia|cbn; lia|].
  change (join_comma (x :: y :: l)) with (x ++ ","%char :: join_comma (y :: l))%list.
  rewrite length_app. cbn [length]. change (list_sum (map (fun x => S (length x)) (x :: y :: l)))
    with (S (length x) + list_sum (map (fun x => S (length x)) (y :: l)))%nat. lia.
Qed.

Lemma list_sum_le {A} (f g : A -> nat) l :
  Forall (fun x => (f x <= 2 * g x)%nat) l -> (list_sum (map f l) <= 2 * list_sum (map g l))%nat.
Proof. induction 1; cbn in *; unfold list_sum in *; lia. Qed.

(** The text is long enough for the fuel of [loads]. *)
Lemma json_size_text v : plain_json v -> (json_size v <= 2 * length (dump_chars v))%nat.
Proof.
  induction v as [|b|z|d|s|l IH|fields IH] using json_nested_ind; intros Hv;
    try (destruct (dump_head _ Hv) as (c & r & -> & _); cbn; lia).
  - apply plain_list in Hv. cbn [json_size dump_chars length]. rewrite length_app.
    pose proof (join_length (map dump_chars l)) as Hj. rewrite map_map in Hj.
    assert (list_sum (map (fun x => S (json_size x)) l) <= 2 * list_sum (map (fun x => S (length (dump_chars x))) l))%nat.
    { apply list_sum_le. rewrite List.Forall_forall in IH, Hv |- *. intros x Hx. specialize (IH x Hx (Hv x Hx)). lia. }
    cbn [length]. lia.
  - apply plain_obj in Hv as [_ Hv]. rewrite dump_obj. cbn [json_size length]. rewrite length_app.
    pose proof (join_length (map member (sort_keys fields))) as Hj. rewrite map_map in Hj.
    rewrite (list_sum_perm _ _ (Permutation_map (fun p => S (length (member p))) (sort_keys_perm fields))) in Hj.
    assert (list_sum (map (fun p => S (json_size (snd p))) fields) <=
            2 * list_sum (map (fun p => S (length (member p))) fields))%nat.
    { apply list_sum_le. rewrite List.Forall_forall in IH, Hv |- *. intros p Hp. specialize (IH p Hp (Hv p Hp)).
      unfold member. rewrite length_app. cbn [length]. lia. }
    cbn [length]. lia.
Qed.

(** [json.loads(json.dumps(v, sort_keys=True, ...))]. *)
Theorem loads_dumps v : plain_json v -> loads (dumps v) = Some (canon v).
Proof.
  intros Hv. unfold loads, dumps. rewrite chars_of_chars.
  assert (Hskip : skip_ws (dump_chars v) = dump_chars v)
    by (destruct (dump_head v Hv) as (c & r & -> & Hc); by apply skip_opens).
  rewrite Hskip. pose proof (plain_reads_back v Hv (S (2 * length (dump_chars v))) []) as H.
  rewrite app_nil_r in H. rewrite H; [done| |done]. pose proof (json_size_text v Hv). lia.
Qed.

(** The canonical text determines the document up to the order of keys. *)
Theorem dumps_inj a b : plain_json a -> plain_json b -> dumps a = dumps b -> canon a = canon b.
Proof. intros Ha Hb H. apply (f_equal loads) in H. rewrite !loads_dumps in H by done. congruence. Qed.

(** *** Canonical documents *)

Lemma sort_sorted {A} (l : list (string * A)) : keys_sorted (map fst l) -> sort_keys l = l.
Proof.
  induction l as [|[k v] l IH]; [done|]. intros [Hh Ht]. cbn [sort_keys fold_right fst].
  fold (sort_keys l). rewrite IH by done. destruct l as [|[k' v'] l]; [done|]. cbn [insert_key map fst] in *.
  by rewrite (Forall_inv Hh).
Qed.

Lemma sort_twice {A} (l : list (string * A)) : sort_keys (sort_keys l) = sort_keys l.
Proof. apply sort_sorted. apply sorted_keys_sorted. Qed.

Lemma keys_canon fields :
  Permutation (keys (sort_keys (map (on_values canon) fields))) (keys fields).
Proof. unfold keys. rewrite keys_sort, map_map. done. Qed.

Lemma Forall_map_inv {A B} (f : A -> B) (P : B -> Prop) l : Forall (fun a => P (f a)) l -> Forall P (map f l).
Proof. induction 1; by constructor. Qed.

(** The canonical form of a plain document is plain, is its own canonical form and has
    the same text. *)
Lemma plain_canon v : plain_json v -> plain_json (canon v) /\ canon (canon v) = canon v /\ dump_chars (canon v) = dump_chars v.
Proof.
  induction v as [|b|z|d|s|l IH|fields IH] using json_nested_ind; intros Hv; try (by split_and!).
  - apply plain_list in Hv.
    assert (H : Forall (fun x => plain_json (canon x) /\ canon (canon x) = canon x /\ dump_chars (canon x) = dump_chars x) l)
      by (rewrite List.Forall_forall in IH, Hv |- *; auto).
    cbn [canon dump_chars]. rewrite !map_map. split_and!.
    + apply plain_list, Forall_map_inv. eapply List.Forall_impl; [|exact H]. by intros ? [? _].
    + f_equal. apply map_ext_in. rewrite List.Forall_forall in H. intros x Hx. by apply H.
    + do 3 f_equal. apply map_ext_in. rewrite List.Forall_forall in H. intros x Hx. by apply H.
  - apply plain_obj in Hv as [Hnd Hv].
    assert (H : Forall (fun p => plain_json (canon (snd p)) /\ canon (canon (snd p)) = canon (snd p) /\
              dump_chars (canon (snd p)) = dump_chars (snd p)) fields)
      by (rewrite List.Forall_forall in IH, Hv |- *; auto).
    cbn [canon]. change (map (fun p => (fst p, canon (snd p))) fields) with (map (on_values canon) fields).
    split_and!.
    + apply plain_obj. split; [by rewrite keys_canon|]. rewrite sort_keys_perm. apply Forall_map_inv.
      eapply List.Forall_impl; [|exact H]. by intros ? [? _].
    + f_equal. change (map (fun p => (fst p, canon (snd p)))) with (map (on_values canon)).
      rewrite <- sort_keys_map, sort_twice, sort_keys_map, <- sort_keys_map, map_map. f_equal.
      apply map_ext_in. rewrite List.Forall_forall in H. intros p Hp. unfold on_values. cbn. f_equal. by apply H.
    + rewrite !dump_obj, sort_twice, sort_keys_map, map_map. do 3 f_equal. apply map_ext_in.
      intros p Hp. unfold member, on_values. cbn [fst snd]. do 2 f_equal.
      rewrite List.Forall_forall in H. apply H. by rewrite <- (sort_keys_perm fields).
Qed.

(** *** Fields of a sorted object *)

Lemma get_field_values (f : json -> json) l k :
  f JNull = JNull -> get_field (map (on_values f) l) k = f (get_field l k).
Proof.
  intros Hf. induction l as [|[k' v] l IH]; [done|]. cbn [map on_values get_field fst snd].
  by destruct (String.eqb k' k).
Qed.

Lemma get_field_perm l l' k : Permutation l l' -> NoDup (keys l) -> get_field l k = get_field l' k.
Proof.
  induction 1 as [|[k1 v1] l l' Hp IH|[k1 v1] [k2 v2] l|l1 l2 l3 Hp1 IH1 Hp2 IH2]; intros Hnd; cbn [get_field].
  - done.
  - apply stdpp.list_relations.list.NoDup_cons in Hnd as [_ Hnd]. by rewrite IH.
  - apply stdpp.list_relations.list.NoDup_cons in Hnd as [Hn _]. cbn in Hn. apply not_elem_of_cons in Hn as [Hn _].
    destruct (String.eqb_spec k1 k) as [->|], (String.eqb_spec k2 k) as [->|]; congruence.
  - rewrite IH1 by done. apply IH2. unfold keys in *. by rewrite <- (Permutation_map fst Hp1).
Qed.

(** Documents with the same canonical text agree on every field. *)
Theorem same_text_same_fields l l' k :
  plain_json (JObj l) -> plain_json (JObj l') -> dumps (JObj l) = dumps (JObj l') ->
  canon (get_field l k) = canon (get_field l' k).
Proof.
  intros Hl Hl' H. pose proof (dumps_inj _ _ Hl Hl' H) as Hc. cbn [canon] in Hc. injection Hc as Hc.
  change (sort_keys (map (on_values canon) l) = sort_keys (map (on_values canon) l')) in Hc.
  apply plain_obj in Hl as [Hnd _], Hl' as [Hnd' _].
  assert (Hkeys : forall d, NoDup (keys d) -> NoDup (keys (map (on_values canon) d)))
    by (intros d Hd; unfold keys; by rewrite map_map).
  rewrite <- !(get_field_values canon) by done.
  rewrite (get_field_perm _ (sort_keys (map (on_values canon) l))); [|by symmetry; apply sort_keys_perm|by apply Hkeys].
  rewrite Hc. symmetry. apply get_field_perm; [by symmetry; apply sort_keys_perm|by apply Hkeys].
Qed.

Example reads_spaces :
  loads (of_chars (quote_char :: chars "a" ++ [quote_char])) = Some (JStr "a") /\
  loads " [1, -2.50,true , null] " = Some (JList [JInt 1; JFloat (Fin (-25) (-1)); JBool true; JNull]) /\
  loads "[1,]" = None /\ loads "01" = None /\ loads "1e3" = Some (JFloat (Fin 10000 (-1))).
Proof. by vm_compute. Qed.
