(* ===== verification/CodecBase.v ===== *)
(** Field readers of the stored documents ([pod_capacity_contracts.py],
    [serverless_capacity_contracts.py]), the rewriting that decodes a document the
    code has just encoded, and the interface [Stored] of contracts that read back. *)
From S2P Require Import Prelude PyStr Enums Errors PyDecimal PyTime Json ContractsBase.

#[local] Open Scope Z_scope.

(** ** Readers *)

Definition required_mapping (value : list (string * json)) (key : string) : result (list (string * json)) :=
  match get_field value key with JObj l => Ok l | _ => Exc RunPodManagerError end.

Definition exact_keys (value : list (string * json)) (expected : list string) : result unit :=
  require (same_keys (keys value) expected) RunPodManagerError.

Definition required_string (value : list (string * json)) (key : string) : result string :=
  match get_field value key with
  | JStr s => if bool_decide (s = "") then Exc RunPodManagerError else Ok s
  | _ => Exc RunPodManagerError
  end.

Definition optional_string (v : json) : result (option string) :=
  match v with
  | JNull => Ok None
  | JStr s => Ok (Some s)
  | _ => Exc RunPodManagerError
  end.

Definition required_int (value : list (string * json)) (key : string) : result Z :=
  match get_field value key with JInt z => Ok z | _ => Exc RunPodManagerError end.

Definition required_decimal (value : list (string * json)) (key : string) : result Decimal :=
  match get_field value key with
  | JStr s => of_option (parse_decimal s) RunPodManagerError
  | _ => Exc RunPodManagerError
  end.

Definition optional_decimal (v : json) : result (option Decimal) :=
  match v with
  | JNull => Ok None
  | JStr s => let! d := of_option (parse_decimal s) RunPodManagerError in Ok (Some d)
  | _ => Exc RunPodManagerError
  end.

(** A member of a string sequence: a non-empty string. *)
Definition string_item (v : json) : result string :=
  match v with
  | JStr s => if bool_decide (s = "") then Exc RunPodManagerError else Ok s
  | _ => Exc RunPodManagerError
  end.

(** [_string_tuple(value.get(key, ()))]: an absent key is the empty sequence. *)
Definition string_tuple (value : list (string * json)) (key : string) : result (list string) :=
  if bool_decide (key ∈ keys value) then
    match get_field value key with
    | JList l => rmap string_item l
    | _ => Exc RunPodManagerError
    end
  else Ok [].

(** [_datetime]: text that is no timestamp and a timestamp without an offset fail
    differently ([require_aware] raises [ValueError]). *)
Definition datetime_of (s : string) : result instant :=
  match fromisoformat s with
  | Some (local, Some off) => Ok (local - off * US)
  | Some (_, None) => Exc ValueError
  | None => Exc RunPodManagerError
  end.

Definition required_datetime (value : list (string * json)) (key : string) : result instant :=
  let! s := required_string value key in datetime_of s.

(** [Enum(_required_string(value, key))]. *)
Definition required_enum `{PyEnum A} (value : list (string * json)) (key : string) : result A :=
  let! s := required_string value key in of_option (of_value s) ValueError.

(** [item if item is not None] for a timestamp field: a non-string is refused. *)
Definition nullable_datetime (v : json) (e : exn) : result (option instant) :=
  match v with
  | JNull => Ok None
  | JStr s => let! t := datetime_of s in Ok (Some t)
  | _ => Exc e
  end.

(** *** Readers of the Serverless contracts *)

(** [_optional_string]: an empty string is refused. *)
Definition optional_nonempty (v : json) : result (option string) :=
  match v with
  | JNull => Ok None
  | JStr s => if bool_decide (s = "") then Exc RunPodManagerError else Ok (Some s)
  | _ => Exc RunPodManagerError
  end.

(** [isinstance(item, list) and all(isinstance(item, str) ...)]. *)
Definition text_item (v : json) : result string :=
  match v with JStr s => Ok s | _ => Exc RunPodManagerError end.
Definition text_list (v : json) : result (list string) :=
  match v with JList l => rmap text_item l | _ => Exc RunPodManagerError end.

(** [_optional_int]. *)
Definition optional_int (v : json) : result (option Z) :=
  match v with JNull => Ok None | JInt z => Ok (Some z) | _ => Exc RunPodManagerError end.

(** A flag that must be a JSON boolean. *)
Definition required_bool (value : list (string * json)) (key : string) : result bool :=
  match get_field value key with JBool b => Ok b | _ => Exc RunPodManagerError end.

(** A field that must hold the given text. *)
Definition field_is (l : list (string * json)) (name expected : string) : bool :=
  py_eq (get_field l name) (JStr expected).

(** ** Writers *)

Definition opt_json {A} (f : A -> json) (o : option A) : json :=
  match o with Some a => f a | None => JNull end.
Definition jdec (d : Decimal) : json := JStr (format_f d).
Definition jtime (t : instant) : json := JStr (iso_datetime t).
Definition jstrs (l : list string) : json := JList (map JStr l).

(** ** Reading back what was written *)

(** A plain decimal: finite, written without a positive exponent; [format(d, "f")]
    then reads back as the same coefficient and exponent. *)
Definition plain (d : Decimal) : Prop := match d with Fin _ e => e <= 0 | _ => False end.

#[export] Instance plain_dec (d : Decimal) : Decision (plain d).
Proof. destruct d; simpl; apply _. Defined.

Lemma get_field_hd l k v : get_field ((k, v) :: l) k = v.
Proof. simpl. by rewrite String.eqb_refl. Qed.

Lemma get_field_tl l k k' v : k' <> k -> get_field ((k', v) :: l) k = get_field l k.
Proof. intros H. simpl. by destruct (String.eqb_spec k' k). Qed.

Lemma parse_plain (d : Decimal) : plain d -> parse_decimal (format_f d) = Some d.
Proof.
  destruct d as [c e| |]; try done. intros He. rewrite parse_format_f. cbn [plain] in He.
  rewrite Z.max_r, Z.min_l by lia. change (p10 0) with 1. by rewrite Z.mul_1_r.
Qed.

Lemma required_string_of l k s : get_field l k = JStr s -> s <> "" -> required_string l k = Ok s.
Proof. intros H Hs. unfold required_string. rewrite H. by rewrite bool_decide_false_eq. Qed.

Lemma required_int_of l k z : get_field l k = JInt z -> required_int l k = Ok z.
Proof. intros H. unfold required_int. by rewrite H. Qed.

Lemma required_mapping_of l k m : get_field l k = JObj m -> required_mapping l k = Ok m.
Proof. intros H. unfold required_mapping. by rewrite H. Qed.

Lemma required_decimal_of l k d : get_field l k = jdec d -> plain d -> required_decimal l k = Ok d.
Proof. intros H Hd. unfold required_decimal. rewrite H. unfold jdec. by rewrite parse_plain. Qed.

Lemma optional_decimal_of o :
  (match o with Some d => plain d | None => True end) -> optional_decimal (opt_json jdec o) = Ok o.
Proof. destruct o; [|done]. intros H. simpl. by rewrite parse_plain. Qed.

Lemma optional_string_of o : optional_string (opt_json JStr o) = Ok o.
Proof. by destruct o. Qed.

Lemma iso_datetime_nonempty t : iso_datetime t <> "".
Proof.
  unfold iso_datetime, iso_chars. destruct (civil_from_days (t / DAY)) as [[y m] d].
  simpl. done.
Qed.

Lemma datetime_of_iso t : representable t -> datetime_of (iso_datetime t) = Ok t.
Proof. 
  intros H. apply parse_aware_iso_datetime in H. unfold parse_aware in H. unfold datetime_of.
  destruct (fromisoformat (iso_datetime t)) as [[local [off|]]|]; congruence.
Qed.

Lemma required_datetime_of l k t :
  get_field l k = jtime t -> representable t -> required_datetime l k = Ok t.
Proof.
  intros H Ht. unfold required_datetime.
  rewrite (required_string_of l k (iso_datetime t) H (iso_datetime_nonempty t)).
  by apply datetime_of_iso.
Qed.

Lemma nullable_datetime_of o e :
  (match o with Some t => representable t | None => True end) ->
  nullable_datetime (opt_json jtime o) e = Ok o.
Proof. destruct o; [|done]. intros H. simpl. by rewrite datetime_of_iso. Qed.

Lemma required_enum_of `{PyEnum A} l k (a : A) :
  get_field l k = JStr (enum_value a) -> enum_value a <> "" -> required_enum l k = Ok a.
Proof.
  intros Hf Hne. unfold required_enum. rewrite (required_string_of _ _ _ Hf Hne). simpl.
  by rewrite of_value_enum_value.
Qed.

Lemma rmap_string_items (l : list string) :
  Forall (fun s => s <> "") l -> rmap string_item (map JStr l) = Ok l.
Proof.
  induction 1 as [|s l Hs _ IH]; [done|]. simpl. rewrite bool_decide_false_eq by done. simpl.
  by rewrite IH.
Qed.

Lemma string_tuple_of l k xs :
  get_field l k = jstrs xs -> k ∈ keys l -> Forall (fun s => s <> "") xs -> string_tuple l k = Ok xs.
Proof.
  intros H Hk Hx. unfold string_tuple. rewrite bool_decide_true_eq by done. rewrite H.
  by apply rmap_string_items.
Qed.

Lemma exact_keys_of (value : list (string * json)) (expected : list string) :
  same_keys (keys value) expected = true -> exact_keys value expected = Ok tt.
Proof. apply require_true. Qed.

Lemma optional_nonempty_of o :
  opt_prop (fun s => s <> "") o -> optional_nonempty (opt_json JStr o) = Ok o.
Proof. destruct o; [|done]. intros H. simpl. by rewrite bool_decide_false_eq. Qed.

Lemma optional_int_of o : optional_int (opt_json JInt o) = Ok o.
Proof. by destruct o. Qed.

Lemma text_list_of l : text_list (jstrs l) = Ok l.
Proof. unfold jstrs. cbn [text_list]. induction l as [|s l IH]; [done|]. cbn [map rmap text_item]. by rewrite IH. Qed.

Lemma required_bool_of l k b : get_field l k = JBool b -> required_bool l k = Ok b.
Proof. intros H. unfold required_bool. by rewrite H. Qed.

(** Evaluate [get_field] on a document whose keys are written out. *)
Ltac read_field :=
  match goal with
  | H : get_field ?l ?k = _ |- context [get_field ?l ?k] => rewrite H
  | |- context [get_field ?l ?k] =>
      let v := eval cbn [get_field String.eqb Ascii.eqb Bool.eqb] in (get_field l k) in
      change (get_field l k) with v
  end.

(** The field read is written out in the document or known from a hypothesis. *)
Ltac read_hyp := first [eassumption | reflexivity].

Ltac key_in := repeat (first [ apply list_elem_of_here | apply list_elem_of_further ]).

Lemma rbind_to {A B} (m : result A) a (f : A -> result B) r :
  m = Ok a -> f a = r -> rbind m f = r.
Proof. intros -> H. exact H. Qed.

(** Decode one field of a just-encoded document; what remains to show about the
    field is left as a goal, before the rest of the decoding. *)
Ltac decode_field :=
  lazymatch goal with
  | |- required_mapping _ _ = _ => apply required_mapping_of; read_hyp
  | |- required_string _ _ = _ => apply required_string_of; [read_hyp|]
  | |- required_int _ _ = _ => apply required_int_of; read_hyp
  | |- required_decimal _ _ = _ => apply required_decimal_of; [read_hyp|]
  | |- required_datetime _ _ = _ => apply required_datetime_of; [read_hyp|]
  | |- required_enum _ _ = _ => apply required_enum_of; [read_hyp|]
  | |- string_tuple _ _ = _ => apply string_tuple_of; [read_hyp | cbn [keys map fst]; key_in | ]
  | |- optional_string _ = _ => read_field; apply optional_string_of
  | |- optional_decimal _ = _ => read_field; apply optional_decimal_of
  | |- nullable_datetime _ _ = _ => read_field; apply nullable_datetime_of
  | |- optional_nonempty _ = _ => read_field; apply optional_nonempty_of
  | |- optional_int _ = _ => read_field; apply optional_int_of
  | |- text_list _ = _ => read_field; apply text_list_of
  | |- required_bool _ _ = _ => apply required_bool_of; read_hyp
  | |- exact_keys _ _ = _ => apply exact_keys_of; read_hyp
  end.

Ltac decode_step :=
  lazymatch goal with
  | |- rbind _ _ = _ => eapply rbind_to; [try decode_field | cbv beta]
  end.
Ltac decode := repeat decode_step.

(** Decode a document whose reader also checks digests and flags, left as boolean
    goals. *)
Ltac decode_check :=
  lazymatch goal with
  | |- require _ _ = _ => apply require_true
  | |- _ => decode_field
  end.
Ltac decode_checked :=
  repeat lazymatch goal with
  | |- rbind _ _ = _ => eapply rbind_to; [try decode_check | cbv beta]
  end.

(** ** Stored values *)

(** What a stored contract promises its users: a value that satisfies [storable]
    reads back from its own document. *)
Class Stored (A : Type) := {
  encode : A -> list (string * json);
  decode_from : list (string * json) -> result A;
  storable : A -> Prop;
  decode_encode : forall a, storable a -> decode_from (encode a) = Ok a
}.

Section Stored.
Context `{Stored A}.

(** Distinct storable values have distinct documents. *)
Lemma encode_inj (a b : A) : storable a -> storable b -> encode a = encode b -> a = b.
Proof.
  intros Ha Hb He. apply (f_equal decode_from) in He. rewrite !decode_encode in He by done. congruence.
Qed.

(** A list of objects, each read by the contract's own reader. *)
Definition stored_item (v : json) : result A :=
  match v with JObj l => decode_from l | _ => Exc RunPodManagerError end.

Lemma stored_items (l : list A) :
  Forall storable l -> rmap stored_item (map (fun a => JObj (encode a)) l) = Ok l.
Proof.
  induction 1 as [|a l Ha _ IH]; [done|]. cbn [map rmap stored_item].
  by rewrite decode_encode, IH by done.
Qed.

End Stored.

(** ** What a stored document's reader can raise *)

(** The errors of the readers: a value of the wrong kind, text that is no enum value,
    amount or timestamp, and the contracts' own refusals. *)
Definition reader_error (e : exn) : bool :=
  match e with ValueError | TypeError | RunPodManagerError | InvalidOperation => true | _ => false end.

Lemma reader_no_conflict e : reader_error e = true -> is_conflict_error e = false.
Proof. by destruct e. Qed.

Definition refuses {A} (r : result A) : Prop := forall e, r = Exc e -> reader_error e = true.

Lemma refuses_bind {A B} (r : result A) (f : A -> result B) :
  refuses r -> (forall a, refuses (f a)) -> refuses (rbind r f).
Proof. intros Hr Hf e. destruct r as [a|e0]; cbn; [apply Hf|]. intros [= <-]. by apply Hr. Qed.

Lemma refuses_ok {A} (a : A) : refuses (Ok a).
Proof. by intros e. Qed.

Lemma refuses_exc {A} e : reader_error e = true -> refuses (Exc e : result A).
Proof. by intros H e' [= <-]. Qed.

Lemma refuses_require b e : reader_error e = true -> refuses (require b e).
Proof. intros H. unfold require. destruct b; [apply refuses_ok|by apply refuses_exc]. Qed.

Lemma refuses_of_option {A} (o : option A) e : reader_error e = true -> refuses (of_option o e).
Proof. intros H. destruct o; [apply refuses_ok|by apply refuses_exc]. Qed.

Lemma refuses_opt_result {A B} (f : A -> result B) o : (forall a, refuses (f a)) -> refuses (opt_result f o).
Proof. intros H. destruct o as [a|]; [|apply refuses_ok]. apply refuses_bind; [apply H|intros; apply refuses_ok]. Qed.

Lemma refuses_rmap {A B} (f : A -> result B) l : (forall a, refuses (f a)) -> refuses (rmap f l).
Proof.
  intros H. induction l as [|a l IH]; [apply refuses_ok|]. cbn. apply refuses_bind; [apply H|intros b].
  apply refuses_bind; [exact IH|intros; apply refuses_ok].
Qed.

Create HintDb refuses.

Ltac unfold_head t := match t with ?f ?x => unfold_head f | ?f => unfold f end.

(** Walks a reader, unfolding what it calls. *)
Ltac refuses :=
  repeat first
    [ progress intros
    | apply refuses_bind
    | apply refuses_ok
    | apply refuses_exc; reflexivity
    | apply refuses_require; reflexivity
    | apply refuses_of_option; reflexivity
    | apply refuses_opt_result
    | apply refuses_rmap
    | solve [eauto with refuses]
    | match goal with |- refuses (match ?x with _ => _ end) => destruct x end
    | match goal with |- refuses ?t => unfold_head t end ].
