(* ===== verification/Quote.v ===== *)
(** Pod capacity constraints and quotes ([pod_capacity_contracts.py]): the records,
    their [__post_init__] validation, and their stored form. *)
From S2P Require Import Prelude PyStr Enums Errors PyDecimal PyTime Json PyFloat.
From S2P Require Import Placement ContractsBase CodecBase.

#[local] Open Scope Z_scope.

(** ** [PodCapacityConstraints] *)

Record PodCapacityConstraints := {
  cc_min_vram_gb : Z;
  cc_gpu_count : Z;
  cc_cloud : CloudType;
  cc_min_cuda_version : option string;
  cc_allowed_gpu_ids : list string;
  cc_allowed_data_center_ids : list string;
  cc_max_hourly_rate_usd : option Decimal;
  cc_benchmark_id : string;
  cc_allowed_products : list ComputeProduct
}.

#[export] Instance PodCapacityConstraints_dec : EqDecision PodCapacityConstraints.
Proof. solve_decision. Defined.

Definition positive_amount (d : Decimal) : bool := is_finite d && negb (dle d dzero).

(** [PodCapacityConstraints.__post_init__]. *)
Definition check_constraints (c : PodCapacityConstraints) : result unit :=
  run! require (1 <=? cc_min_vram_gb c) ValueError then
  run! require (1 <=? cc_gpu_count c) ValueError then
  run! require (bool_decide (cc_allowed_products c = [POD])) ValueError then
  run! require (negb (blank (cc_benchmark_id c))) ValueError then
  require (match cc_max_hourly_rate_usd c with Some m => positive_amount m | None => true end) ValueError.

Definition mk_constraints (c : PodCapacityConstraints) : result PodCapacityConstraints :=
  run! check_constraints c then Ok c.

(** [placement_requirements]; the record [PlacementRequirements] is validated and
    its CUDA floor normalized as its own [__post_init__] does. *)
Definition placement_requirements (c : PodCapacityConstraints) : result PlacementRequirements :=
  let raw := {|
    pr_product := POD;
    pr_min_vram_gb := cc_min_vram_gb c;
    pr_gpu_count := cc_gpu_count c;
    pr_cloud := cc_cloud c;
    pr_min_cuda_version := cc_min_cuda_version c;
    pr_max_cost_per_hr := float_of_decimal <$> cc_max_hourly_rate_usd c;
    pr_allowed_gpu_ids := cc_allowed_gpu_ids c;
    pr_allowed_gpu_pools := [];
    pr_allowed_data_center_ids := cc_allowed_data_center_ids c;
    pr_minimum_availability := AVAIL_LOW;
    pr_benchmark_id := Some (cc_benchmark_id c)
  |} in
  run! check_requirements raw then Ok raw.

Definition constraints_to_dict (c : PodCapacityConstraints) : list (string * json) :=
  [("min_vram_gb", JInt (cc_min_vram_gb c));
   ("gpu_count", JInt (cc_gpu_count c));
   ("cloud", JStr (cloud_value (cc_cloud c)));
   ("min_cuda_version", opt_json JStr (cc_min_cuda_version c));
   ("allowed_gpu_ids", jstrs (cc_allowed_gpu_ids c));
   ("allowed_data_center_ids", jstrs (cc_allowed_data_center_ids c));
   ("max_hourly_rate_usd", opt_json jdec (cc_max_hourly_rate_usd c));
   ("benchmark_id", JStr (cc_benchmark_id c));
   ("allowed_products", jstrs (map product_value (cc_allowed_products c)))].

Definition constraints_from_dict (value : list (string * json)) : result PodCapacityConstraints :=
  let! min_vram_gb := required_int value "min_vram_gb" in
  let! gpu_count := required_int value "gpu_count" in
  let! cloud := required_enum value "cloud" in
  let! min_cuda := optional_string (get_field value "min_cuda_version") in
  let! gpu_ids := string_tuple value "allowed_gpu_ids" in
  let! data_centers := string_tuple value "allowed_data_center_ids" in
  let! max_rate := optional_decimal (get_field value "max_hourly_rate_usd") in
  let! benchmark := required_string value "benchmark_id" in
  let! product_names := string_tuple value "allowed_products" in
  let! products := rmap (fun item => of_option (of_value item) ValueError) product_names in
  mk_constraints {|
    cc_min_vram_gb := min_vram_gb;
    cc_gpu_count := gpu_count;
    cc_cloud := cloud;
    cc_min_cuda_version := min_cuda;
    cc_allowed_gpu_ids := gpu_ids;
    cc_allowed_data_center_ids := data_centers;
    cc_max_hourly_rate_usd := max_rate;
    cc_benchmark_id := benchmark;
    cc_allowed_products := products
  |}.

(** ** [PodCapacityQuoteRequest] *)

Record PodCapacityQuoteRequest := {
  qr_constraints : PodCapacityConstraints;
  qr_workload_kind : string;
  qr_parameters_sha256 : string;
  qr_estimated_startup_seconds : Z;
  qr_estimated_execution_seconds : Z;
  qr_maximum_runtime_seconds : Z;
  qr_quote_ttl_seconds : Z
}.

Definition check_quote_request (r : PodCapacityQuoteRequest) : result unit :=
  run! require (safe_identifier (qr_workload_kind r)) ValueError then
  run! require (is_sha256 (qr_parameters_sha256 r)) ValueError then
  run! require (0 <=? qr_estimated_startup_seconds r) ValueError then
  run! require (1 <=? qr_estimated_execution_seconds r) ValueError then
  run! require (1 <=? qr_maximum_runtime_seconds r) ValueError then
  run! require (1 <=? qr_quote_ttl_seconds r) ValueError then
  require (qr_estimated_startup_seconds r + qr_estimated_execution_seconds r
             <=? qr_maximum_runtime_seconds r) ValueError.

(** ** [PodCapacityQuote] *)

Record PodCapacityQuote := {
  q_schema_version : Z;
  q_capability_version : string;
  q_provider_quote_id : string;
  q_workload_kind : string;
  q_parameters_sha256 : string;
  q_constraints : PodCapacityConstraints;
  q_gpu_type_id : string;
  q_gpu_display_name : string;
  q_hourly_cost_usd : Decimal;
  q_estimated_cost_usd : Decimal;
  q_cost_ceiling_usd : Decimal;
  q_estimated_startup_seconds : Z;
  q_estimated_execution_seconds : Z;
  q_maximum_runtime_seconds : Z;
  q_observed_at : instant;
  q_expires_at : instant;
  q_placement : PlacementDecision
}.

#[export] Instance PodCapacityQuote_dec : EqDecision PodCapacityQuote.
Proof. solve_decision. Defined.

(** [PodCapacityQuote.__post_init__]. *)
Definition check_quote (q : PodCapacityQuote) : result unit :=
  run! require (q_schema_version q =? 3) ValueError then
  run! require
    (negb (blank (q_capability_version q)) && negb (blank (q_provider_quote_id q)) &&
     negb (blank (q_workload_kind q)) && negb (blank (q_gpu_type_id q)) &&
     negb (blank (q_gpu_display_name q))) ValueError then
  run! require (is_sha256 (q_parameters_sha256 q)) ValueError then
  run! require
    (positive_amount (q_hourly_cost_usd q) && positive_amount (q_estimated_cost_usd q) &&
     positive_amount (q_cost_ceiling_usd q)) ValueError then
  run! require (dle (q_estimated_cost_usd q) (q_cost_ceiling_usd q)) ValueError then
  run! require
    ((0 <=? q_estimated_startup_seconds q) && (1 <=? q_estimated_execution_seconds q) &&
     (1 <=? q_maximum_runtime_seconds q)) ValueError then
  let estimated_seconds := q_estimated_startup_seconds q + q_estimated_execution_seconds q in
  run! require (estimated_seconds <=? q_maximum_runtime_seconds q) ValueError then
  run! require (pd_gpu_count (q_placement q) =? cc_gpu_count (q_constraints q)) ValueError then
  let! expected_estimate :=
    pod_cost_usd DEFAULT_PREC (q_hourly_cost_usd q) estimated_seconds (pd_gpu_count (q_placement q)) in
  let! expected_ceiling :=
    pod_cost_usd DEFAULT_PREC (q_hourly_cost_usd q) (q_maximum_runtime_seconds q)
      (pd_gpu_count (q_placement q)) in
  run! require
    (deqb (q_estimated_cost_usd q) expected_estimate && deqb (q_cost_ceiling_usd q) expected_ceiling)
    ValueError then
  run! require (q_observed_at q <? q_expires_at q) ValueError then
  run! require (bool_decide (pd_gpu_id (q_placement q) = q_gpu_type_id q)) ValueError then
  require (deqb (pd_offered_cost_per_hr (q_placement q)) (q_hourly_cost_usd q)) ValueError.

Definition mk_quote (q : PodCapacityQuote) : result PodCapacityQuote :=
  run! check_quote q then Ok q.

Definition placement_to_dict (p : PlacementDecision) : list (string * json) :=
  [("gpu_id", JStr (pd_gpu_id p));
   ("gpu_pool", opt_json JStr (pd_gpu_pool p));
   ("gpu_name", JStr (pd_gpu_name p));
   ("memory_gb", JInt (pd_memory_gb p));
   ("cloud", JStr (cloud_value (pd_cloud p)));
   ("gpu_count", JInt (pd_gpu_count p));
   ("offered_cost_per_hr", JFloat (pd_offered_cost_per_hr p));
   ("availability", opt_json (fun a => JStr (availability_value a)) (pd_availability p));
   ("catalog_observed_at", jtime (pd_catalog_observed_at p))].

(** [Availability(str(raw))]: only a string can be a member's value. *)
Definition stored_availability (raw : json) : result (option Availability) :=
  match raw with
  | JNull => Ok None
  | JStr s => let! a := of_option (of_value s) ValueError in Ok (Some a)
  | _ => Exc ValueError
  end.

(** [float(raw_hourly_rate)] of a JSON number that is no boolean. *)
Definition stored_rate (raw : json) : result Decimal :=
  match raw with
  | JInt z => Ok (float_of_decimal (of_int z))
  | JFloat d => Ok d
  | _ => Exc RunPodManagerError
  end.

Definition placement_from_dict (value : list (string * json)) (constraints : PodCapacityConstraints)
  : result PlacementDecision :=
  let! rate := stored_rate (get_field value "offered_cost_per_hr") in
  let! gpu_id := required_string value "gpu_id" in
  let! gpu_pool := optional_string (get_field value "gpu_pool") in
  let! gpu_name := required_string value "gpu_name" in
  let! memory_gb := required_int value "memory_gb" in
  let! cloud := required_enum value "cloud" in
  let! gpu_count := required_int value "gpu_count" in
  let! availability := stored_availability (get_field value "availability") in
  let! observed := required_datetime value "catalog_observed_at" in
  let! requirements := placement_requirements constraints in
  Ok {|
    pd_gpu_id := gpu_id;
    pd_gpu_pool := gpu_pool;
    pd_gpu_name := gpu_name;
    pd_memory_gb := memory_gb;
    pd_cloud := cloud;
    pd_gpu_count := gpu_count;
    pd_offered_cost_per_hr := rate;
    pd_availability := availability;
    pd_catalog_observed_at := observed;
    pd_requirements := requirements
  |}.

Definition quote_to_dict (q : PodCapacityQuote) : list (string * json) :=
  [("schema_version", JInt (q_schema_version q));
   ("capability_version", JStr (q_capability_version q));
   ("provider_quote_id", JStr (q_provider_quote_id q));
   ("workload_kind", JStr (q_workload_kind q));
   ("parameters_sha256", JStr (q_parameters_sha256 q));
   ("constraints", JObj (constraints_to_dict (q_constraints q)));
   ("gpu_type_id", JStr (q_gpu_type_id q));
   ("gpu_display_name", JStr (q_gpu_display_name q));
   ("hourly_cost_usd", jdec (q_hourly_cost_usd q));
   ("estimated_cost_usd", jdec (q_estimated_cost_usd q));
   ("cost_ceiling_usd", jdec (q_cost_ceiling_usd q));
   ("estimated_startup_seconds", JInt (q_estimated_startup_seconds q));
   ("estimated_execution_seconds", JInt (q_estimated_execution_seconds q));
   ("maximum_runtime_seconds", JInt (q_maximum_runtime_seconds q));
   ("observed_at", jtime (q_observed_at q));
   ("expires_at", jtime (q_expires_at q));
   ("placement", JObj (placement_to_dict (q_placement q)))].

Definition quote_from_dict (value : list (string * json)) : result PodCapacityQuote :=
  let! raw_constraints := required_mapping value "constraints" in
  let! constraints := constraints_from_dict raw_constraints in
  let! schema_version := required_int value "schema_version" in
  let! capability_version := required_string value "capability_version" in
  let! provider_quote_id := required_string value "provider_quote_id" in
  let! workload_kind := required_string value "workload_kind" in
  let! parameters_sha256 := required_string value "parameters_sha256" in
  let! gpu_type_id := required_string value "gpu_type_id" in
  let! gpu_display_name := required_string value "gpu_display_name" in
  let! hourly := required_decimal value "hourly_cost_usd" in
  let! estimated := required_decimal value "estimated_cost_usd" in
  let! ceiling := required_decimal value "cost_ceiling_usd" in
  let! startup := required_int value "estimated_startup_seconds" in
  let! execution := required_int value "estimated_execution_seconds" in
  let! maximum := required_int value "maximum_runtime_seconds" in
  let! observed_at := required_datetime value "observed_at" in
  let! expires_at := required_datetime value "expires_at" in
  let! raw_placement := required_mapping value "placement" in
  let! placement := placement_from_dict raw_placement constraints in
  mk_quote {|
    q_schema_version := schema_version;
    q_capability_version := capability_version;
    q_provider_quote_id := provider_quote_id;
    q_workload_kind := workload_kind;
    q_parameters_sha256 := parameters_sha256;
    q_constraints := constraints;
    q_gpu_type_id := gpu_type_id;
    q_gpu_display_name := gpu_display_name;
    q_hourly_cost_usd := hourly;
    q_estimated_cost_usd := estimated;
    q_cost_ceiling_usd := ceiling;
    q_estimated_startup_seconds := startup;
    q_estimated_execution_seconds := execution;
    q_maximum_runtime_seconds := maximum;
    q_observed_at := observed_at;
    q_expires_at := expires_at;
    q_placement := placement
  |}.

(** ** Stored form *)

Definition nonempty (s : string) : Prop := s <> "".

(** What a constraint set needs beyond its own validation to be read back: the
    constructor accepts empty members of the allow-lists, the reader refuses them. *)
Record storable_constraints (c : PodCapacityConstraints) : Prop := {
  sc_valid : check_constraints c = Ok tt;
  sc_gpu_ids : Forall nonempty (cc_allowed_gpu_ids c);
  sc_data_centers : Forall nonempty (cc_allowed_data_center_ids c);
  sc_max_rate : match cc_max_hourly_rate_usd c with Some d => plain d | None => True end
}.

(** Likewise for a quote: the placement of a quote the provider built carries the
    requirements of the quote's own constraints. *)
Record storable_quote (q : PodCapacityQuote) : Prop := {
  sq_valid : check_quote q = Ok tt;
  sq_constraints : storable_constraints (q_constraints q);
  sq_requirements : placement_requirements (q_constraints q) = Ok (pd_requirements (q_placement q));
  sq_gpu_name : nonempty (pd_gpu_name (q_placement q));
  sq_hourly : plain (q_hourly_cost_usd q);
  sq_estimated : plain (q_estimated_cost_usd q);
  sq_ceiling : plain (q_cost_ceiling_usd q);
  sq_observed : representable (q_observed_at q);
  sq_expires : representable (q_expires_at q);
  sq_catalog : representable (pd_catalog_observed_at (q_placement q))
}.

Lemma rmap_products : rmap (fun item => of_option (of_value item) ValueError) ["POD"] = Ok [POD].
Proof. done. Qed.

(** A stored constraint set reads back as itself. *)
Lemma constraints_decode c :
  storable_constraints c -> constraints_from_dict (constraints_to_dict c) = Ok c.
Proof.
  intros [Hv Hg Hd Hm]. assert (Hv' := Hv). unfold check_constraints in Hv'. res_inv. split_bools.
  unfold constraints_from_dict. decode; unfold constraints_to_dict; eauto with kestrel.
  - by destruct (cc_cloud c).
  -
    match goal with H : cc_allowed_products c = _ |- _ => rewrite H end. by repeat constructor.
  - match goal with H : cc_allowed_products c = _ |- _ => rewrite H end. apply rmap_products.
  - unfold mk_constraints. destruct c; cbn in *; subst. by rewrite Hv.
Qed.

Lemma placement_decode c p :
  placement_requirements c = Ok (pd_requirements p) ->
  nonempty (pd_gpu_id p) -> nonempty (pd_gpu_name p) ->
  is_finite (pd_offered_cost_per_hr p) = true ->
  representable (pd_catalog_observed_at p) ->
  placement_from_dict (placement_to_dict p) c = Ok p.
Proof.
  intros Hr Hid Hname Hrate Hobs. unfold placement_from_dict.
  eapply rbind_to; [reflexivity|cbv beta].
  decode; unfold placement_to_dict; eauto with kestrel.
  - by destruct (pd_cloud p).
  - instantiate (1 := pd_availability p). by destruct (pd_availability p) as [[]|].
  - destruct p; done.
Qed.

Lemma deqb_finite a b : deqb a b = true -> is_finite b = true -> is_finite a = true.
Proof. destruct a as [| [] |], b as [| [] |]; done. Qed.

(** A stored quote reads back as itself. *)
Lemma quote_decode q : storable_quote q -> quote_from_dict (quote_to_dict q) = Ok q.
Proof.
  intros [Hv Hc Hr Hname Hh He Hl Ho Hx Hcat]. assert (Hv' := Hv). unfold check_quote in Hv'.
  cbv zeta in Hv'. res_inv. split_bools.
  assert (Hfin : is_finite (pd_offered_cost_per_hr (q_placement q)) = true).
  { eapply deqb_finite; [exact Hv'|]. by destruct (q_hourly_cost_usd q). }
  unfold quote_from_dict. decode; unfold quote_to_dict; eauto with kestrel.
  - by apply constraints_decode.
  - apply placement_decode; eauto.
    match goal with H : pd_gpu_id _ = _ |- _ => rewrite H end. unfold nonempty. eauto with kestrel.
  - unfold mk_quote. destruct q; cbn in *. by rewrite Hv.
Qed.
