(* ===== verification/CatalogRequest.v ===== *)
(** Catalog attempt requests, their scoped capability and the persisted capacity
    specification ([pod_capacity_contracts.py]). *)
From S2P Require Import Prelude PyStr Enums Errors PyDecimal PyTime Json ContractsBase.
From S2P Require Import CodecBase Quote.
From Stdlib Require Import Ascii.

#[local] Open Scope Z_scope.

(** ** [CatalogAttemptCapability] *)

Record CatalogAttemptCapability := {
  cap_secret_id : string;
  cap_bearer_token : string;
  cap_token_sha256 : string;
  cap_expires_at : instant
}.

(** [[A-Za-z0-9._~-]{32,4096}]. *)
Definition strong_token (s : string) : bool :=
  (32 <=? len s) && (len s <=? 4096) &&
  all_chars (fun c => is_alnum c || (code c =? 46) || (code c =? 95) || (code c =? 126) || (code c =? 45)) s.

Definition check_capability `{Digest} (c : CatalogAttemptCapability) : result unit :=
  run! require (safe_identifier (cap_secret_id c)) ValueError then
  run! require (strong_token (cap_bearer_token c)) ValueError then
  run! require (is_sha256 (cap_token_sha256 c)) ValueError then
  require (bool_decide (sha256_hex (cap_bearer_token c) = cap_token_sha256 c)) ValueError.

(** ** [CatalogPodCapacityRequest] *)

Record CatalogPodCapacityRequest := {
  rq_capacity_id : string;
  rq_cleanup_family_id : string;
  rq_owner_id : string;
  rq_workload_id : string;
  rq_attempt_id : string;
  rq_idempotency_key : string;
  rq_request_sha256 : string;
  rq_workload_kind : string;
  rq_parameters_sha256 : string;
  rq_image_reference : string;
  rq_profile_id : string;
  rq_quote : PodCapacityQuote;
  rq_accepted_max_cost_usd : Decimal;
  rq_created_at : instant;
  rq_readiness_deadline : instant;
  rq_hard_deadline : instant;
  rq_bearer_expires_at : instant;
  rq_idle_timeout_seconds : Z;
  rq_cleanup_grace_seconds : Z;
  rq_attempt_environment : list (string * string);
  rq_artifact_handoff_protocol_version : option Z
}.

#[export] Instance CatalogPodCapacityRequest_dec : EqDecision CatalogPodCapacityRequest.
Proof. solve_decision. Defined.

(** [CatalogPodCapacityRequest.__post_init__]. *)
Definition check_catalog_request (r : CatalogPodCapacityRequest) : result unit :=
  run! require (match rq_artifact_handoff_protocol_version r with Some v => v =? 1 | None => true end)
    ValueError then
  run! require
    (forallb safe_identifier
       [rq_capacity_id r; rq_cleanup_family_id r; rq_owner_id r; rq_workload_id r; rq_attempt_id r;
        rq_idempotency_key r; rq_workload_kind r; rq_profile_id r]) ValueError then
  run! require (is_sha256 (rq_request_sha256 r)) ValueError then
  run! require (is_sha256 (rq_parameters_sha256 r)) ValueError then
  run! require (bool_decide (rq_parameters_sha256 r = q_parameters_sha256 (rq_quote r))) ValueError then
  run! require (bool_decide (rq_workload_kind r = q_workload_kind (rq_quote r))) ValueError then
  run! require (deqb (rq_accepted_max_cost_usd r) (q_cost_ceiling_usd (rq_quote r))) ValueError then
  run! require (is_image_reference (rq_image_reference r)) ValueError then
  run! require (rq_created_at r <? q_expires_at (rq_quote r)) ValueError then
  run! require
    ((rq_created_at r <? rq_readiness_deadline r) &&
     (rq_readiness_deadline r <? rq_hard_deadline r) &&
     (rq_hard_deadline r <? rq_bearer_expires_at r)) ValueError then
  run! require (rq_bearer_expires_at r <=? rq_created_at r + hours 24) ValueError then
  run! require ((1 <=? rq_idle_timeout_seconds r) && (1 <=? rq_cleanup_grace_seconds r)) ValueError then
  run! require
    (rq_hard_deadline r + seconds (rq_cleanup_grace_seconds r) <=? rq_bearer_expires_at r) ValueError then
  run! require
    (rq_hard_deadline r <=? rq_created_at r + seconds (q_maximum_runtime_seconds (rq_quote r)))
    ValueError then
  validate_attempt_environment (rq_attempt_environment r).

Definition mk_catalog_request (r : CatalogPodCapacityRequest) : result CatalogPodCapacityRequest :=
  run! check_catalog_request r then Ok r.

(** [value[:n]]. *)
Definition take (n : nat) (s : string) : string := of_chars (firstn n (chars s)).

Section Identity.
Context `{Digest}.

Definition durable_training_name (cleanup_token : string) : string :=
  "kestrel-lora-" ++ take 20 (sha256_hex cleanup_token).

Definition durable_pod_capacity_name (capacity_id request_fingerprint : string) : result string :=
  run! require (safe_identifier capacity_id) ValueError then
  run! require (is_sha256 request_fingerprint) ValueError then
  Ok ("kestrel-cap-" ++ take 12 (sha256_hex capacity_id) ++ "-" ++ take 12 request_fingerprint).

(** The payload [CatalogPodCapacityRequest.fingerprint] digests. *)
Definition request_payload (r : CatalogPodCapacityRequest) : list (string * json) :=
  [("capacity_id", JStr (rq_capacity_id r));
   ("cleanup_family_id", JStr (rq_cleanup_family_id r));
   ("owner_id", JStr (rq_owner_id r));
   ("workload_id", JStr (rq_workload_id r));
   ("attempt_id", JStr (rq_attempt_id r));
   ("idempotency_key", JStr (rq_idempotency_key r));
   ("request_sha256", JStr (rq_request_sha256 r));
   ("workload_kind", JStr (rq_workload_kind r));
   ("parameters_sha256", JStr (rq_parameters_sha256 r));
   ("image_reference", JStr (rq_image_reference r));
   ("profile_id", JStr (rq_profile_id r));
   ("provider_quote_id", JStr (q_provider_quote_id (rq_quote r)));
   ("accepted_max_cost_usd", jdec (rq_accepted_max_cost_usd r));
   ("created_at", jtime (rq_created_at r));
   ("readiness_deadline", jtime (rq_readiness_deadline r));
   ("hard_deadline", jtime (rq_hard_deadline r));
   ("bearer_expires_at", jtime (rq_bearer_expires_at r));
   ("idle_timeout_seconds", JInt (rq_idle_timeout_seconds r));
   ("cleanup_grace_seconds", JInt (rq_cleanup_grace_seconds r));
   ("attempt_environment_keys", jstrs (sorted_keys (rq_attempt_environment r)))] ++
  match rq_artifact_handoff_protocol_version r with
  | Some v => [("artifact_handoff_protocol_version", JInt v)]
  | None => []
  end.

Definition request_fingerprint (r : CatalogPodCapacityRequest) : string :=
  json_sha256 (JObj (request_payload r)).

Definition request_resource_name (r : CatalogPodCapacityRequest) : result string :=
  durable_pod_capacity_name (rq_capacity_id r) (request_fingerprint r).

End Identity.

(** ** [PodCapacitySpec] *)

Record PodCapacitySpec := {
  sp_request : CatalogPodCapacityRequest;
  sp_capability_secret_id : string;
  sp_capability_token_sha256 : string;
  sp_capability_expires_at : instant;
  sp_attempt_environment_sha256 : string
}.

#[export] Instance PodCapacitySpec_dec : EqDecision PodCapacitySpec.
Proof. solve_decision. Defined.

Definition check_spec (s : PodCapacitySpec) : result unit :=
  run! require (safe_identifier (sp_capability_secret_id s)) ValueError then
  run! require (is_sha256 (sp_capability_token_sha256 s)) ValueError then
  run! require (is_sha256 (sp_attempt_environment_sha256 s)) ValueError then
  require (sp_capability_expires_at s =? rq_bearer_expires_at (sp_request s)) ValueError.

Definition mk_spec (s : PodCapacitySpec) : result PodCapacitySpec :=
  run! check_spec s then Ok s.

Definition REDACTED : string := "[REDACTED]".

(** The request part of [PodCapacitySpec.to_dict]: the environment's values are
    replaced, its keys sorted. *)
Definition spec_request_dict (r : CatalogPodCapacityRequest) : list (string * json) :=
  [("capacity_id", JStr (rq_capacity_id r));
   ("cleanup_family_id", JStr (rq_cleanup_family_id r));
   ("owner_id", JStr (rq_owner_id r));
   ("workload_id", JStr (rq_workload_id r));
   ("attempt_id", JStr (rq_attempt_id r));
   ("idempotency_key", JStr (rq_idempotency_key r));
   ("request_sha256", JStr (rq_request_sha256 r));
   ("workload_kind", JStr (rq_workload_kind r));
   ("parameters_sha256", JStr (rq_parameters_sha256 r));
   ("image_reference", JStr (rq_image_reference r));
   ("profile_id", JStr (rq_profile_id r));
   ("quote", JObj (quote_to_dict (rq_quote r)));
   ("accepted_max_cost_usd", jdec (rq_accepted_max_cost_usd r));
   ("created_at", jtime (rq_created_at r));
   ("readiness_deadline", jtime (rq_readiness_deadline r));
   ("hard_deadline", jtime (rq_hard_deadline r));
   ("bearer_expires_at", jtime (rq_bearer_expires_at r));
   ("idle_timeout_seconds", JInt (rq_idle_timeout_seconds r));
   ("cleanup_grace_seconds", JInt (rq_cleanup_grace_seconds r));
   ("attempt_environment",
     JObj (map (fun k => (k, JStr REDACTED)) (sorted_keys (rq_attempt_environment r))))] ++
  match rq_artifact_handoff_protocol_version r with
  | Some v => [("artifact_handoff_protocol_version", JInt v)]
  | None => []
  end.

Definition spec_to_dict (s : PodCapacitySpec) : list (string * json) :=
  [("request", JObj (spec_request_dict (sp_request s)));
   ("capability_secret_id", JStr (sp_capability_secret_id s));
   ("capability_token_sha256", JStr (sp_capability_token_sha256 s));
   ("capability_expires_at", jtime (sp_capability_expires_at s));
   ("attempt_environment_sha256", JStr (sp_attempt_environment_sha256 s))].

(** The stored protocol version: [None] when absent or null; the constructor
    refuses anything but the integer 1. *)
Definition stored_protocol (v : json) : result (option Z) :=
  match v with
  | JNull => Ok None
  | JInt z => Ok (Some z)
  | _ => Exc ValueError
  end.

Definition request_from_dict (value : list (string * json)) : result CatalogPodCapacityRequest :=
  let! capacity_id := required_string value "capacity_id" in
  let! cleanup_family_id := required_string value "cleanup_family_id" in
  let! owner_id := required_string value "owner_id" in
  let! workload_id := required_string value "workload_id" in
  let! attempt_id := required_string value "attempt_id" in
  let! idempotency_key := required_string value "idempotency_key" in
  let! request_sha256 := required_string value "request_sha256" in
  let! workload_kind := required_string value "workload_kind" in
  let! parameters_sha256 := required_string value "parameters_sha256" in
  let! image_reference := required_string value "image_reference" in
  let! profile_id := required_string value "profile_id" in
  let! raw_quote := required_mapping value "quote" in
  let! quote := quote_from_dict raw_quote in
  let! accepted := required_decimal value "accepted_max_cost_usd" in
  let! created_at := required_datetime value "created_at" in
  let! readiness_deadline := required_datetime value "readiness_deadline" in
  let! hard_deadline := required_datetime value "hard_deadline" in
  let! bearer_expires_at := required_datetime value "bearer_expires_at" in
  let! idle := required_int value "idle_timeout_seconds" in
  let! grace := required_int value "cleanup_grace_seconds" in
  let! environment := required_mapping value "attempt_environment" in
  run! require (forallb (fun k => negb (bool_decide (k = ""))) (keys environment))
    RunPodManagerError then
  let! protocol := stored_protocol (get_field value "artifact_handoff_protocol_version") in
  mk_catalog_request {|
    rq_capacity_id := capacity_id;
    rq_cleanup_family_id := cleanup_family_id;
    rq_owner_id := owner_id;
    rq_workload_id := workload_id;
    rq_attempt_id := attempt_id;
    rq_idempotency_key := idempotency_key;
    rq_request_sha256 := request_sha256;
    rq_workload_kind := workload_kind;
    rq_parameters_sha256 := parameters_sha256;
    rq_image_reference := image_reference;
    rq_profile_id := profile_id;
    rq_quote := quote;
    rq_accepted_max_cost_usd := accepted;
    rq_created_at := created_at;
    rq_readiness_deadline := readiness_deadline;
    rq_hard_deadline := hard_deadline;
    rq_bearer_expires_at := bearer_expires_at;
    rq_idle_timeout_seconds := idle;
    rq_cleanup_grace_seconds := grace;
    rq_attempt_environment := map (fun k => (k, REDACTED)) (keys environment);
    rq_artifact_handoff_protocol_version := protocol
  |}.

Definition spec_from_dict (value : list (string * json)) : result PodCapacitySpec :=
  let! raw_request := required_mapping value "request" in
  let! request := request_from_dict raw_request in
  let! secret_id := required_string value "capability_secret_id" in
  let! token := required_string value "capability_token_sha256" in
  let! expires := required_datetime value "capability_expires_at" in
  let! environment := required_string value "attempt_environment_sha256" in
  mk_spec {|
    sp_request := request;
    sp_capability_secret_id := secret_id;
    sp_capability_token_sha256 := token;
    sp_capability_expires_at := expires;
    sp_attempt_environment_sha256 := environment
  |}.

(** ** What storage keeps *)

(** A stored request keeps the environment's keys, sorted, and none of its values. *)
Definition redact_request (r : CatalogPodCapacityRequest) : CatalogPodCapacityRequest := {|
  rq_capacity_id := rq_capacity_id r;
  rq_cleanup_family_id := rq_cleanup_family_id r;
  rq_owner_id := rq_owner_id r;
  rq_workload_id := rq_workload_id r;
  rq_attempt_id := rq_attempt_id r;
  rq_idempotency_key := rq_idempotency_key r;
  rq_request_sha256 := rq_request_sha256 r;
  rq_workload_kind := rq_workload_kind r;
  rq_parameters_sha256 := rq_parameters_sha256 r;
  rq_image_reference := rq_image_reference r;
  rq_profile_id := rq_profile_id r;
  rq_quote := rq_quote r;
  rq_accepted_max_cost_usd := rq_accepted_max_cost_usd r;
  rq_created_at := rq_created_at r;
  rq_readiness_deadline := rq_readiness_deadline r;
  rq_hard_deadline := rq_hard_deadline r;
  rq_bearer_expires_at := rq_bearer_expires_at r;
  rq_idle_timeout_seconds := rq_idle_timeout_seconds r;
  rq_cleanup_grace_seconds := rq_cleanup_grace_seconds r;
  rq_attempt_environment := map (fun k => (k, REDACTED)) (sorted_keys (rq_attempt_environment r));
  rq_artifact_handoff_protocol_version := rq_artifact_handoff_protocol_version r
|}.

Definition redact_spec (s : PodCapacitySpec) : PodCapacitySpec := {|
  sp_request := redact_request (sp_request s);
  sp_capability_secret_id := sp_capability_secret_id s;
  sp_capability_token_sha256 := sp_capability_token_sha256 s;
  sp_capability_expires_at := sp_capability_expires_at s;
  sp_attempt_environment_sha256 := sp_attempt_environment_sha256 s
|}.

Record storable_request (r : CatalogPodCapacityRequest) : Prop := {
  sr_valid : check_catalog_request r = Ok tt;
  sr_quote : storable_quote (rq_quote r);
  sr_accepted : plain (rq_accepted_max_cost_usd r);
  sr_created : representable (rq_created_at r);
  sr_readiness : representable (rq_readiness_deadline r);
  sr_hard : representable (rq_hard_deadline r);
  sr_bearer : representable (rq_bearer_expires_at r)
}.

Record storable_spec (s : PodCapacitySpec) : Prop := {
  ss_valid : check_spec s = Ok tt;
  ss_request : storable_request (sp_request s)
}.

(** *** Redaction keeps validity and identity *)

Lemma env_key_nonempty k : env_key_ok k = true -> k <> "".
Proof. intros H ->. discriminate H. Qed.

Lemma redacted_environment env :
  validate_attempt_environment env = Ok tt ->
  validate_attempt_environment (map (fun k => (k, REDACTED)) (sorted_keys env)) = Ok tt /\
  Forall (fun k => k <> "") (sorted_keys env).
Proof.
  unfold validate_attempt_environment. intros H. res_inv. apply andb_prop in H as [H1 H2].
  rewrite forallb_forall in H1, H2.
  assert (Hin : forall k, In k (sorted_keys env) -> exists v, In (k, v) env).
  { intros k Hk. rewrite <- list_elem_of_In, sorted_keys_elem, list_elem_of_In, in_map_iff in Hk.
    destruct Hk as ([k' v] & <- & Hk). exists v. exact Hk. }
  split.
  - apply require_ok, andb_true_intro.
    split; apply forallb_forall; intros p Hp; apply in_map_iff in Hp as (k & <- & Hk);
      destruct (Hin k Hk) as [v Hv].
    + apply H1 in Hv. split_bools. cbn [fst snd] in *. apply andb_true_intro. split; [done|].
      reflexivity.
    + apply H2 in Hv. done.
  - apply List.Forall_forall. intros k Hk. destruct (Hin k Hk) as [v Hv].
    apply H1 in Hv. split_bools. by apply env_key_nonempty.
Qed.

Lemma check_redacted r : check_catalog_request r = Ok tt -> check_catalog_request (redact_request r) = Ok tt.
Proof.
  unfold check_catalog_request, redact_request. simpl. intros H. res_inv.
  apply redacted_environment in H as [H _].
  repeat match goal with x : unit |- _ => destruct x end.
  repeat match goal with E : _ = true |- context [require ?t _] => replace t with true by (symmetry; exact E); cbn [require rbind] end.
  exact H.
Qed.

(** Redaction does not change a request's fingerprint, hence not its resource name. *)
Lemma fingerprint_redacted `{Digest} r : request_fingerprint (redact_request r) = request_fingerprint r.
Proof.
  unfold request_fingerprint, request_payload, redact_request. cbn -[sorted_keys].
  by rewrite sorted_keys_map.
Qed.

Lemma resource_name_redacted `{Digest} r :
  request_resource_name (redact_request r) = request_resource_name r.
Proof. unfold request_resource_name. by rewrite fingerprint_redacted. Qed.

Lemma redact_request_idem r : redact_request (redact_request r) = redact_request r.
Proof. unfold redact_request. cbn -[sorted_keys]. by rewrite sorted_keys_map. Qed.

Lemma redact_spec_idem s : redact_spec (redact_spec s) = redact_spec s.
Proof. unfold redact_spec. cbn [sp_request]. by rewrite redact_request_idem. Qed.

(** A valid catalog request always has a resource name. *)
Lemma resource_name_total `{Digest} r :
  check_catalog_request r = Ok tt ->
  request_resource_name r =
    Ok ("kestrel-cap-" ++ take 12 (sha256_hex (rq_capacity_id r)) ++ "-" ++ take 12 (request_fingerprint r)).
Proof.
  unfold check_catalog_request. intros Hr. res_inv.
  unfold request_resource_name, durable_pod_capacity_name, request_fingerprint, json_sha256, is_sha256.
  rewrite sha256_hex_length, sha256_hex_digits.
  match goal with E : forallb safe_identifier _ = true |- _ => simpl in E end. split_bools.
  match goal with E : safe_identifier (rq_capacity_id r) = true |- _ => rewrite E end. done.
Qed.

(** *** The stored specification reads back redacted *)

Lemma stored_protocol_decode r :
  check_catalog_request r = Ok tt ->
  stored_protocol (get_field (spec_request_dict r) "artifact_handoff_protocol_version") =
    Ok (rq_artifact_handoff_protocol_version r).
Proof. intros _. unfold spec_request_dict. by destruct (rq_artifact_handoff_protocol_version r). Qed.

Lemma reference_nonempty s : is_image_reference s = true -> s <> "".
Proof. intros H ->. discriminate H. Qed.

#[local] Hint Resolve reference_nonempty : kestrel.

Lemma request_decode r :
  storable_request r -> request_from_dict (spec_request_dict r) = Ok (redact_request r).
Proof.
  intros [Hv Hq Ha Hc Hr Hh Hb]. assert (Hv' := Hv). unfold check_catalog_request in Hv'. res_inv.
  match goal with E : forallb safe_identifier _ = true |- _ => simpl in E end. split_bools.
  pose proof (redacted_environment _ Hv') as [_ Henv].
  unfold request_from_dict. decode; unfold spec_request_dict; eauto with kestrel.
  - by apply quote_decode.
  - apply require_true. unfold keys. rewrite map_fst_pair. apply forallb_forall. intros k Hk.
    rewrite bool_decide_false_eq; [done|]. rewrite List.Forall_forall in Henv. by apply Henv.
  - by apply stored_protocol_decode.
  - unfold mk_catalog_request, keys. rewrite map_fst_pair.
    apply check_redacted in Hv. unfold redact_request in *. by rewrite Hv.
Qed.

Lemma spec_decode s : storable_spec s -> spec_from_dict (spec_to_dict s) = Ok (redact_spec s).
Proof.
  intros [Hv Hr]. assert (Hv' := Hv). unfold check_spec in Hv'. res_inv. split_bools.
  unfold spec_from_dict. decode; unfold spec_to_dict; eauto with kestrel.
  - by apply request_decode.
  - match goal with E : sp_capability_expires_at s = _ |- _ => rewrite E end.
    destruct Hr. done.
  - unfold mk_spec. change (check_spec _) with (check_spec s). rewrite Hv. done.
Qed.
