(* ===== verification/Evidence.v ===== *)
(** Billing receipts, realized placements, worker telemetry and the versioned
    evidence of one Pod attempt ([pod_capacity_contracts.py]). *)
From S2P Require Import Prelude PyStr Enums Errors PyDecimal PyTime Json ContractsBase.
From S2P Require Import CodecBase Quote CatalogRequest.

#[local] Open Scope Z_scope.

Definition nonnegative_amount (d : Decimal) : bool := is_finite d && negb (dlt d dzero).

(** ** [PodBillingReceipt] *)

Record PodBillingReceipt := {
  rc_provider_billing_id : string;
  rc_provider_pod_id : option string;
  rc_billed_from : instant;
  rc_billed_until : instant;
  rc_billed_seconds : Z;
  rc_hourly_price_usd : Decimal;
  rc_actual_cost_usd : Decimal;
  rc_reconciled_at : instant
}.

#[export] Instance PodBillingReceipt_dec : EqDecision PodBillingReceipt.
Proof. solve_decision. Defined.

(** [PodBillingReceipt.__post_init__]. *)
Definition check_receipt (r : PodBillingReceipt) : result unit :=
  run! require (safe_identifier (rc_provider_billing_id r)) ValueError then
  run! require (match rc_provider_pod_id r with Some p => safe_identifier p | None => true end) ValueError then
  run! require ((0 <=? rc_billed_seconds r) && (rc_billed_from r <=? rc_billed_until r)) ValueError then
  run! require (rc_billed_seconds r =? interval_seconds (rc_billed_from r) (rc_billed_until r)) ValueError then
  run! require (rc_billed_until r <=? rc_reconciled_at r) ValueError then
  run! require
    (nonnegative_amount (rc_hourly_price_usd r) && nonnegative_amount (rc_actual_cost_usd r)) ValueError then
  run! require
    (negb (dlt dzero (rc_actual_cost_usd r) && bool_decide (rc_provider_pod_id r = None))) ValueError then
  require
    (match rc_provider_pod_id r with
     | Some _ => true
     | None =>
         (rc_billed_from r =? rc_billed_until r) && (rc_billed_seconds r =? 0) &&
         deqb (rc_actual_cost_usd r) dzero
     end) ValueError.

Definition mk_receipt (r : PodBillingReceipt) : result PodBillingReceipt :=
  run! check_receipt r then Ok r.

(** [a == b]: field by field, amounts compared as numbers. *)
Definition receipt_eqb (a b : PodBillingReceipt) : bool :=
  bool_decide (rc_provider_billing_id a = rc_provider_billing_id b) &&
  bool_decide (rc_provider_pod_id a = rc_provider_pod_id b) &&
  (rc_billed_from a =? rc_billed_from b) && (rc_billed_until a =? rc_billed_until b) &&
  (rc_billed_seconds a =? rc_billed_seconds b) &&
  deqb (rc_hourly_price_usd a) (rc_hourly_price_usd b) &&
  deqb (rc_actual_cost_usd a) (rc_actual_cost_usd b) &&
  (rc_reconciled_at a =? rc_reconciled_at b).

Definition receipt_to_dict (r : PodBillingReceipt) : list (string * json) :=
  [("provider_billing_id", JStr (rc_provider_billing_id r));
   ("provider_pod_id", opt_json JStr (rc_provider_pod_id r));
   ("billed_from", jtime (rc_billed_from r));
   ("billed_until", jtime (rc_billed_until r));
   ("billed_seconds", JInt (rc_billed_seconds r));
   ("hourly_price_usd", jdec (rc_hourly_price_usd r));
   ("actual_cost_usd", jdec (rc_actual_cost_usd r));
   ("reconciled_at", jtime (rc_reconciled_at r))].

Definition receipt_from_dict (value : list (string * json)) : result PodBillingReceipt :=
  let! billing_id := required_string value "provider_billing_id" in
  let! pod_id := optional_string (get_field value "provider_pod_id") in
  let! billed_from := required_datetime value "billed_from" in
  let! billed_until := required_datetime value "billed_until" in
  let! billed_seconds := required_int value "billed_seconds" in
  let! hourly := required_decimal value "hourly_price_usd" in
  let! actual := required_decimal value "actual_cost_usd" in
  let! reconciled_at := required_datetime value "reconciled_at" in
  mk_receipt {|
    rc_provider_billing_id := billing_id;
    rc_provider_pod_id := pod_id;
    rc_billed_from := billed_from;
    rc_billed_until := billed_until;
    rc_billed_seconds := billed_seconds;
    rc_hourly_price_usd := hourly;
    rc_actual_cost_usd := actual;
    rc_reconciled_at := reconciled_at
  |}.

(** ** [PodRealizedPlacement] *)

Record PodRealizedPlacement := {
  rp_provider_pod_id : string;
  rp_gpu_type_id : string;
  rp_gpu_display_name : string;
  rp_gpu_count : Z;
  rp_cloud : CloudType;
  rp_data_center_id : string;
  rp_hourly_rate_usd : Decimal;
  rp_observed_at : instant
}.

#[export] Instance PodRealizedPlacement_dec : EqDecision PodRealizedPlacement.
Proof. solve_decision. Defined.

Definition check_realized (p : PodRealizedPlacement) : result unit :=
  run! require (safe_identifier (rp_provider_pod_id p)) ValueError then
  run! require (provider_identifier (rp_data_center_id p)) ValueError then
  run! require (is_display_name (rp_gpu_type_id p)) ValueError then
  run! require (is_display_name (rp_gpu_display_name p)) ValueError then
  run! require (1 <=? rp_gpu_count p) ValueError then
  require (nonnegative_amount (rp_hourly_rate_usd p)) ValueError.

Definition mk_realized (p : PodRealizedPlacement) : result PodRealizedPlacement :=
  run! check_realized p then Ok p.

Definition realized_eqb (a b : PodRealizedPlacement) : bool :=
  bool_decide (rp_provider_pod_id a = rp_provider_pod_id b) &&
  bool_decide (rp_gpu_type_id a = rp_gpu_type_id b) &&
  bool_decide (rp_gpu_display_name a = rp_gpu_display_name b) &&
  (rp_gpu_count a =? rp_gpu_count b) && bool_decide (rp_cloud a = rp_cloud b) &&
  bool_decide (rp_data_center_id a = rp_data_center_id b) &&
  deqb (rp_hourly_rate_usd a) (rp_hourly_rate_usd b) && (rp_observed_at a =? rp_observed_at b).

(** The whole-Pod rate a quote authorizes: the per-GPU price times the GPU count. *)
Definition authorized_rate (q : PodCapacityQuote) : Decimal :=
  dmul DEFAULT_PREC (q_hourly_cost_usd q) (of_int (cc_gpu_count (q_constraints q))).

(** [validate_against]. *)
Definition realized_matches (p : PodRealizedPlacement) (q : PodCapacityQuote) : bool :=
  bool_decide (rp_gpu_type_id p = q_gpu_type_id q) &&
  bool_decide (rp_gpu_display_name p = q_gpu_display_name q) &&
  (rp_gpu_count p =? cc_gpu_count (q_constraints q)) &&
  bool_decide (rp_cloud p = cc_cloud (q_constraints q)) &&
  negb (dlt (authorized_rate q) (rp_hourly_rate_usd p)) &&
  (bool_decide (cc_allowed_data_center_ids (q_constraints q) = []) ||
   bool_decide (rp_data_center_id p ∈ cc_allowed_data_center_ids (q_constraints q))).

Definition validate_against (p : PodRealizedPlacement) (q : PodCapacityQuote) : result unit :=
  require (realized_matches p q) ValueError.

Definition realized_to_dict (p : PodRealizedPlacement) : list (string * json) :=
  [("provider_pod_id", JStr (rp_provider_pod_id p));
   ("gpu_type_id", JStr (rp_gpu_type_id p));
   ("gpu_display_name", JStr (rp_gpu_display_name p));
   ("gpu_count", JInt (rp_gpu_count p));
   ("cloud", JStr (cloud_value (rp_cloud p)));
   ("data_center_id", JStr (rp_data_center_id p));
   ("hourly_rate_usd", jdec (rp_hourly_rate_usd p));
   ("observed_at", jtime (rp_observed_at p))].

Definition realized_keys : list string :=
  ["provider_pod_id"; "gpu_type_id"; "gpu_display_name"; "gpu_count"; "cloud"; "data_center_id";
   "hourly_rate_usd"; "observed_at"].

Definition realized_from_dict (value : list (string * json)) : result PodRealizedPlacement :=
  run! exact_keys value realized_keys then
  let! pod_id := required_string value "provider_pod_id" in
  let! gpu_type_id := required_string value "gpu_type_id" in
  let! gpu_display_name := required_string value "gpu_display_name" in
  let! gpu_count := required_int value "gpu_count" in
  let! cloud := required_enum value "cloud" in
  let! data_center_id := required_string value "data_center_id" in
  let! hourly := required_decimal value "hourly_rate_usd" in
  let! observed_at := required_datetime value "observed_at" in
  mk_realized {|
    rp_provider_pod_id := pod_id;
    rp_gpu_type_id := gpu_type_id;
    rp_gpu_display_name := gpu_display_name;
    rp_gpu_count := gpu_count;
    rp_cloud := cloud;
    rp_data_center_id := data_center_id;
    rp_hourly_rate_usd := hourly;
    rp_observed_at := observed_at
  |}.

(** ** [CatalogWorkerEvidence] *)

Record CatalogWorkerEvidence := {
  we_schema_version : Z;
  we_attempt_id : string;
  we_request_sha256 : string;
  we_image_digest : string;
  we_container_process_started_at : option instant;
  we_image_pull_and_container_boot_seconds : option Decimal;
  we_image_pull_seconds : option Decimal;
  we_container_boot_seconds : option Decimal;
  we_model_load_seconds : option Decimal;
  we_execution_seconds : option Decimal;
  we_training_seconds : option Decimal;
  we_artifact_upload_seconds : option Decimal;
  we_peak_vram_bytes : option Z;
  we_peak_host_ram_bytes : option Z;
  we_gpu_seconds : option Decimal;
  we_idle_seconds : option Decimal
}.

#[export] Instance CatalogWorkerEvidence_dec : EqDecision CatalogWorkerEvidence.
Proof. solve_decision. Defined.

(** [CatalogWorkerEvidence.__post_init__]. *)
Definition check_worker (w : CatalogWorkerEvidence) : result unit :=
  run! require (we_schema_version w =? 1) ValueError then
  run! require (safe_identifier (we_attempt_id w)) ValueError then
  run! require (is_sha256 (we_request_sha256 w)) ValueError then
  run! require (is_image_digest (we_image_digest w)) ValueError then
  run! require
    (forallb (option_all nonnegative_amount)
       [we_image_pull_and_container_boot_seconds w; we_image_pull_seconds w;
        we_container_boot_seconds w; we_model_load_seconds w; we_execution_seconds w;
        we_training_seconds w; we_artifact_upload_seconds w]) ValueError then
  run! require
    (forallb (option_all (Z.leb 0)) [we_peak_vram_bytes w; we_peak_host_ram_bytes w]) ValueError then
  run! require
    (forallb (option_all nonnegative_amount) [we_gpu_seconds w; we_idle_seconds w]) ValueError then
  match we_image_pull_seconds w, we_container_boot_seconds w with
  | None, None => Ok tt
  | Some pull, Some boot =>
      match we_image_pull_and_container_boot_seconds w with
      | None => Exc ValueError
      | Some combined => require (deqb combined (dadd DEFAULT_PREC pull boot)) ValueError
      end
  | _, _ => Exc ValueError
  end.

Definition mk_worker (w : CatalogWorkerEvidence) : result CatalogWorkerEvidence :=
  run! check_worker w then Ok w.

Definition opt_eqb {A} (f : A -> A -> bool) (a b : option A) : bool :=
  match a, b with
  | Some x, Some y => f x y
  | None, None => true
  | _, _ => false
  end.

Definition worker_eqb (a b : CatalogWorkerEvidence) : bool :=
  (we_schema_version a =? we_schema_version b) &&
  bool_decide (we_attempt_id a = we_attempt_id b) &&
  bool_decide (we_request_sha256 a = we_request_sha256 b) &&
  bool_decide (we_image_digest a = we_image_digest b) &&
  opt_eqb Z.eqb (we_container_process_started_at a) (we_container_process_started_at b) &&
  opt_eqb deqb (we_image_pull_and_container_boot_seconds a) (we_image_pull_and_container_boot_seconds b) &&
  opt_eqb deqb (we_image_pull_seconds a) (we_image_pull_seconds b) &&
  opt_eqb deqb (we_container_boot_seconds a) (we_container_boot_seconds b) &&
  opt_eqb deqb (we_model_load_seconds a) (we_model_load_seconds b) &&
  opt_eqb deqb (we_execution_seconds a) (we_execution_seconds b) &&
  opt_eqb deqb (we_training_seconds a) (we_training_seconds b) &&
  opt_eqb deqb (we_artifact_upload_seconds a) (we_artifact_upload_seconds b) &&
  opt_eqb Z.eqb (we_peak_vram_bytes a) (we_peak_vram_bytes b) &&
  opt_eqb Z.eqb (we_peak_host_ram_bytes a) (we_peak_host_ram_bytes b) &&
  opt_eqb deqb (we_gpu_seconds a) (we_gpu_seconds b) &&
  opt_eqb deqb (we_idle_seconds a) (we_idle_seconds b).

Definition worker_timings_dict (w : CatalogWorkerEvidence) : list (string * json) :=
  [("artifact_upload_seconds", opt_json jdec (we_artifact_upload_seconds w));
   ("container_boot_seconds", opt_json jdec (we_container_boot_seconds w));
   ("execution_seconds", opt_json jdec (we_execution_seconds w));
   ("image_pull_and_container_boot_seconds", opt_json jdec (we_image_pull_and_container_boot_seconds w));
   ("image_pull_seconds", opt_json jdec (we_image_pull_seconds w));
   ("model_load_seconds", opt_json jdec (we_model_load_seconds w));
   ("training_seconds", opt_json jdec (we_training_seconds w))].

Definition worker_metrics_dict (w : CatalogWorkerEvidence) : list (string * json) :=
  [("peak_vram_bytes", opt_json JInt (we_peak_vram_bytes w));
   ("peak_host_ram_bytes", opt_json JInt (we_peak_host_ram_bytes w));
   ("gpu_seconds", opt_json jdec (we_gpu_seconds w));
   ("idle_seconds", opt_json jdec (we_idle_seconds w))].

Definition worker_to_dict (w : CatalogWorkerEvidence) : list (string * json) :=
  [("schema_version", JInt (we_schema_version w));
   ("attempt_id", JStr (we_attempt_id w));
   ("request_sha256", JStr (we_request_sha256 w));
   ("image_digest", JStr (we_image_digest w));
   ("container_process_started_at", opt_json jtime (we_container_process_started_at w));
   ("timings_seconds", JObj (worker_timings_dict w));
   ("metrics", JObj (worker_metrics_dict w))].

Definition WORKER_TIMING_FIELDS : list string :=
  ["image_pull_and_container_boot_seconds"; "image_pull_seconds"; "container_boot_seconds";
   "model_load_seconds"; "execution_seconds"; "training_seconds"; "artifact_upload_seconds"].
Definition WORKER_METRIC_FIELDS : list string :=
  ["peak_vram_bytes"; "peak_host_ram_bytes"; "gpu_seconds"; "idle_seconds"].
Definition worker_keys : list string :=
  ["schema_version"; "attempt_id"; "request_sha256"; "image_digest"; "container_process_started_at";
   "timings_seconds"; "metrics"].

(** [_envelope_optional_decimal]. *)
Definition envelope_optional_decimal (v : json) : result (option Decimal) :=
  let admit_value (d : Decimal) := run! require (nonnegative_amount d) ValueError then Ok (Some d) in
  match v with
  | JNull => Ok None
  | JInt z => admit_value (of_int z)
  | JFloat d => admit_value d
  | JStr s => let! d := of_option (parse_decimal s) ValueError in admit_value d
  | _ => Exc TypeError
  end.

(** [_optional_nonnegative_int]. *)
Definition optional_nonnegative_int (v : json) : result (option Z) :=
  match v with
  | JNull => Ok None
  | JInt z => run! require (0 <=? z) ValueError then Ok (Some z)
  | _ => Exc ValueError
  end.

(** [CatalogWorkerEvidence.from_envelope], also [from_dict]. *)
Definition worker_from_envelope (value : list (string * json)) : result CatalogWorkerEvidence :=
  run! exact_keys value worker_keys then
  let! timings := required_mapping value "timings_seconds" in
  let! metrics := required_mapping value "metrics" in
  run! exact_keys timings WORKER_TIMING_FIELDS then
  run! exact_keys metrics WORKER_METRIC_FIELDS then
  let! started := nullable_datetime (get_field value "container_process_started_at") ValueError in
  let! schema_version := required_int value "schema_version" in
  let! attempt_id := required_string value "attempt_id" in
  let! request_sha256 := required_string value "request_sha256" in
  let! image_digest := required_string value "image_digest" in
  let! combined := envelope_optional_decimal (get_field timings "image_pull_and_container_boot_seconds") in
  let! pull := envelope_optional_decimal (get_field timings "image_pull_seconds") in
  let! boot := envelope_optional_decimal (get_field timings "container_boot_seconds") in
  let! load := envelope_optional_decimal (get_field timings "model_load_seconds") in
  let! execution := envelope_optional_decimal (get_field timings "execution_seconds") in
  let! training := envelope_optional_decimal (get_field timings "training_seconds") in
  let! upload := envelope_optional_decimal (get_field timings "artifact_upload_seconds") in
  let! vram := optional_nonnegative_int (get_field metrics "peak_vram_bytes") in
  let! ram := optional_nonnegative_int (get_field metrics "peak_host_ram_bytes") in
  let! gpu := envelope_optional_decimal (get_field metrics "gpu_seconds") in
  let! idle := envelope_optional_decimal (get_field metrics "idle_seconds") in
  mk_worker {|
    we_schema_version := schema_version;
    we_attempt_id := attempt_id;
    we_request_sha256 := request_sha256;
    we_image_digest := image_digest;
    we_container_process_started_at := started;
    we_image_pull_and_container_boot_seconds := combined;
    we_image_pull_seconds := pull;
    we_container_boot_seconds := boot;
    we_model_load_seconds := load;
    we_execution_seconds := execution;
    we_training_seconds := training;
    we_artifact_upload_seconds := upload;
    we_peak_vram_bytes := vram;
    we_peak_host_ram_bytes := ram;
    we_gpu_seconds := gpu;
    we_idle_seconds := idle
  |}.

(** ** [PodCapacityLifecycleEvidence] *)

Record PodCapacityLifecycleEvidence := {
  lc_reservation_at : instant;
  lc_provider_create_accepted_at : option instant;
  lc_provider_adopted_at : option instant;
  lc_first_running_observed_at : option instant;
  lc_worker_ready_at : option instant;
  lc_workload_submitted_at : option instant;
  lc_workload_running_at : option instant;
  lc_workload_terminal_at : option instant;
  lc_stop_confirmed_at : option instant;
  lc_billing_reconciled_at : option instant
}.

#[export] Instance PodCapacityLifecycleEvidence_dec : EqDecision PodCapacityLifecycleEvidence.
Proof. solve_decision. Defined.

Definition new_lifecycle (reservation_at : instant) : PodCapacityLifecycleEvidence := {|
  lc_reservation_at := reservation_at;
  lc_provider_create_accepted_at := None;
  lc_provider_adopted_at := None;
  lc_first_running_observed_at := None;
  lc_worker_ready_at := None;
  lc_workload_submitted_at := None;
  lc_workload_running_at := None;
  lc_workload_terminal_at := None;
  lc_stop_confirmed_at := None;
  lc_billing_reconciled_at := None
|}.

(** The observations in the order [__post_init__] compares them. *)
Definition observed_instants (l : PodCapacityLifecycleEvidence) : list instant :=
  omap id
    [Some (lc_reservation_at l);
     match lc_provider_create_accepted_at l with Some t => Some t | None => lc_provider_adopted_at l end;
     lc_first_running_observed_at l; lc_worker_ready_at l; lc_workload_submitted_at l;
     lc_workload_running_at l; lc_workload_terminal_at l; lc_stop_confirmed_at l;
     lc_billing_reconciled_at l].

(** [not any(later < earlier for earlier, later in pairwise(observed))]. *)
Fixpoint monotone (l : list instant) : bool :=
  match l with
  | a :: ((b :: _) as r) => (a <=? b) && monotone r
  | _ => true
  end.

(** [PodCapacityLifecycleEvidence.__post_init__]. *)
Definition check_lifecycle (l : PodCapacityLifecycleEvidence) : result unit :=
  run! require (monotone (observed_instants l)) ValueError then
  require
    (negb (match lc_provider_create_accepted_at l, lc_provider_adopted_at l with
           | Some _, Some _ => true
           | _, _ => false
           end)) ValueError.

Definition mk_lifecycle (l : PodCapacityLifecycleEvidence) : result PodCapacityLifecycleEvidence :=
  run! check_lifecycle l then Ok l.

Definition lifecycle_to_dict (l : PodCapacityLifecycleEvidence) : list (string * json) :=
  [("reservation_at", jtime (lc_reservation_at l));
   ("provider_create_accepted_at", opt_json jtime (lc_provider_create_accepted_at l));
   ("provider_adopted_at", opt_json jtime (lc_provider_adopted_at l));
   ("first_running_observed_at", opt_json jtime (lc_first_running_observed_at l));
   ("worker_ready_at", opt_json jtime (lc_worker_ready_at l));
   ("workload_submitted_at", opt_json jtime (lc_workload_submitted_at l));
   ("workload_running_at", opt_json jtime (lc_workload_running_at l));
   ("workload_terminal_at", opt_json jtime (lc_workload_terminal_at l));
   ("stop_confirmed_at", opt_json jtime (lc_stop_confirmed_at l));
   ("billing_reconciled_at", opt_json jtime (lc_billing_reconciled_at l))].

Definition lifecycle_keys : list string :=
  ["reservation_at"; "provider_create_accepted_at"; "provider_adopted_at";
   "first_running_observed_at"; "worker_ready_at"; "workload_submitted_at"; "workload_running_at";
   "workload_terminal_at"; "stop_confirmed_at"; "billing_reconciled_at"].

Definition lifecycle_from_dict (value : list (string * json)) : result PodCapacityLifecycleEvidence :=
  run! exact_keys value lifecycle_keys then
  let! reservation := nullable_datetime (get_field value "reservation_at") RunPodManagerError in
  let! accepted := nullable_datetime (get_field value "provider_create_accepted_at") RunPodManagerError in
  let! adopted := nullable_datetime (get_field value "provider_adopted_at") RunPodManagerError in
  let! running := nullable_datetime (get_field value "first_running_observed_at") RunPodManagerError in
  let! ready := nullable_datetime (get_field value "worker_ready_at") RunPodManagerError in
  let! submitted := nullable_datetime (get_field value "workload_submitted_at") RunPodManagerError in
  let! work := nullable_datetime (get_field value "workload_running_at") RunPodManagerError in
  let! terminal := nullable_datetime (get_field value "workload_terminal_at") RunPodManagerError in
  let! stopped := nullable_datetime (get_field value "stop_confirmed_at") RunPodManagerError in
  let! reconciled := nullable_datetime (get_field value "billing_reconciled_at") RunPodManagerError in
  let! reservation_at := of_option reservation RunPodManagerError in
  mk_lifecycle {|
    lc_reservation_at := reservation_at;
    lc_provider_create_accepted_at := accepted;
    lc_provider_adopted_at := adopted;
    lc_first_running_observed_at := running;
    lc_worker_ready_at := ready;
    lc_workload_submitted_at := submitted;
    lc_workload_running_at := work;
    lc_workload_terminal_at := terminal;
    lc_stop_confirmed_at := stopped;
    lc_billing_reconciled_at := reconciled
  |}.

(** ** [PodCapacityEvidence] *)

Record PodCapacityEvidence := {
  ev_schema_version : Z;
  ev_capacity_id : string;
  ev_resource_name : string;
  ev_provider_quote_id : string;
  ev_catalog_observed_at : instant;
  ev_attempt_id : string;
  ev_request_sha256 : string;
  ev_image_digest : string;
  ev_accepted_gpu_type_id : string;
  ev_accepted_gpu_display_name : string;
  ev_accepted_gpu_count : Z;
  ev_accepted_cloud : CloudType;
  ev_accepted_hourly_rate_usd : Decimal;
  ev_lifecycle : PodCapacityLifecycleEvidence;
  ev_realized_placement : option PodRealizedPlacement;
  ev_worker : option CatalogWorkerEvidence;
  ev_billing : option PodBillingReceipt
}.

#[export] Instance PodCapacityEvidence_dec : EqDecision PodCapacityEvidence.
Proof. solve_decision. Defined.

(** [PodCapacityEvidence.__post_init__]. *)
Definition check_evidence (e : PodCapacityEvidence) : result unit :=
  run! require (ev_schema_version e =? 1) ValueError then
  run! require
    (forallb safe_identifier
       [ev_capacity_id e; ev_resource_name e; ev_provider_quote_id e; ev_attempt_id e]) ValueError then
  run! require (is_display_name (ev_accepted_gpu_type_id e)) ValueError then
  run! require (is_display_name (ev_accepted_gpu_display_name e)) ValueError then
  run! require (is_sha256 (ev_request_sha256 e)) ValueError then
  run! require (is_image_digest (ev_image_digest e)) ValueError then
  run! require (1 <=? ev_accepted_gpu_count e) ValueError then
  run! require (positive_amount (ev_accepted_hourly_rate_usd e)) ValueError then
  run! require (ev_catalog_observed_at e <=? lc_reservation_at (ev_lifecycle e)) ValueError then
  run! require
    (option_all
       (fun p =>
          bool_decide (rp_gpu_type_id p = ev_accepted_gpu_type_id e) &&
          bool_decide (rp_gpu_display_name p = ev_accepted_gpu_display_name e) &&
          (rp_gpu_count p =? ev_accepted_gpu_count e) &&
          bool_decide (rp_cloud p = ev_accepted_cloud e) &&
          negb (dlt (ev_accepted_hourly_rate_usd e) (rp_hourly_rate_usd p)))
       (ev_realized_placement e)) ValueError then
  run! require
    (option_all
       (fun w =>
          bool_decide (we_attempt_id w = ev_attempt_id e) &&
          bool_decide (we_request_sha256 w = ev_request_sha256 e) &&
          bool_decide (we_image_digest w = ev_image_digest e)) (ev_worker e)) ValueError then
  require
    (option_all
       (fun b =>
          option_all
            (fun p =>
               bool_decide (rc_provider_pod_id b = Some (rp_provider_pod_id p)) &&
               deqb (rc_hourly_price_usd b) (rp_hourly_rate_usd p)) (ev_realized_placement e) &&
          option_all (fun t => t =? rc_reconciled_at b) (lc_billing_reconciled_at (ev_lifecycle e)))
       (ev_billing e)) ValueError.

Definition mk_evidence (e : PodCapacityEvidence) : result PodCapacityEvidence :=
  run! check_evidence e then Ok e.

(** [PodCapacityEvidence.from_spec]. *)
Definition evidence_from_spec `{Digest} (spec : PodCapacitySpec) : result PodCapacityEvidence :=
  let request := sp_request spec in
  let quote := rq_quote request in
  let! resource_name := request_resource_name request in
  let! lifecycle := mk_lifecycle (new_lifecycle (rq_created_at request)) in
  mk_evidence {|
    ev_schema_version := 1;
    ev_capacity_id := rq_capacity_id request;
    ev_resource_name := resource_name;
    ev_provider_quote_id := q_provider_quote_id quote;
    ev_catalog_observed_at := q_observed_at quote;
    ev_attempt_id := rq_attempt_id request;
    ev_request_sha256 := rq_request_sha256 request;
    ev_image_digest := image_digest_of (rq_image_reference request);
    ev_accepted_gpu_type_id := q_gpu_type_id quote;
    ev_accepted_gpu_display_name := q_gpu_display_name quote;
    ev_accepted_gpu_count := cc_gpu_count (q_constraints quote);
    ev_accepted_cloud := cc_cloud (q_constraints quote);
    ev_accepted_hourly_rate_usd := authorized_rate quote;
    ev_lifecycle := lifecycle;
    ev_realized_placement := None;
    ev_worker := None;
    ev_billing := None
  |}.

(** [is_complete]. *)
Definition evidence_is_complete (e : PodCapacityEvidence) : bool :=
  let l := ev_lifecycle e in
  is_some (ev_realized_placement e) && is_some (ev_worker e) &&
  (is_some (lc_provider_create_accepted_at l) || is_some (lc_provider_adopted_at l)) &&
  is_some (lc_first_running_observed_at l) && is_some (lc_worker_ready_at l) &&
  is_some (lc_workload_submitted_at l) && is_some (lc_workload_running_at l) &&
  is_some (lc_workload_terminal_at l) && is_some (lc_billing_reconciled_at l) &&
  match ev_billing e, lc_stop_confirmed_at l with
  | Some b, Some stop => stop <=? rc_billed_until b
  | _, _ => false
  end.

Definition placement_provenance : json :=
  JObj [("gpu_id_cloud_data_center_rate", JStr "runpod_rest_v2_pod");
        ("gpu_display_name", JStr "accepted_catalog_name_after_exact_gpu_id_match");
        ("observed_at", JStr "pod_capacity_provider_clock")].

Definition worker_provenance : json :=
  JObj [("telemetry", JStr "bound_catalog_worker");
        ("container_process_started_at", JStr "bound_catalog_worker_clock")].

(** The fixed provenance of evidence with and without its optional parts. *)
Definition provenance (realized worker billing : bool) : list (string * json) :=
  [("identity", JStr "accepted_catalog_request");
   ("accepted_quote", JStr "runpod_rest_v2_catalog");
   ("realized_placement", if realized then placement_provenance else JNull);
   ("lifecycle", JStr "pod_capacity_lease_service_clock");
   ("worker", if worker then worker_provenance else JNull);
   ("billing", if billing then JStr "runpod_rest_v2_billing" else JNull)].

Definition evidence_identity_dict (e : PodCapacityEvidence) : list (string * json) :=
  [("capacity_id", JStr (ev_capacity_id e));
   ("resource_name", JStr (ev_resource_name e));
   ("attempt_id", JStr (ev_attempt_id e));
   ("request_sha256", JStr (ev_request_sha256 e));
   ("image_digest", JStr (ev_image_digest e))].

Definition evidence_quote_dict (e : PodCapacityEvidence) : list (string * json) :=
  [("provider_quote_id", JStr (ev_provider_quote_id e));
   ("catalog_observed_at", jtime (ev_catalog_observed_at e));
   ("gpu_type_id", JStr (ev_accepted_gpu_type_id e));
   ("gpu_display_name", JStr (ev_accepted_gpu_display_name e));
   ("gpu_count", JInt (ev_accepted_gpu_count e));
   ("cloud", JStr (cloud_value (ev_accepted_cloud e)));
   ("hourly_rate_usd", jdec (ev_accepted_hourly_rate_usd e))].

Definition evidence_to_dict (e : PodCapacityEvidence) : list (string * json) :=
  [("schema_version", JInt (ev_schema_version e));
   ("identity", JObj (evidence_identity_dict e));
   ("accepted_quote", JObj (evidence_quote_dict e));
   ("realized_placement", opt_json (fun p => JObj (realized_to_dict p)) (ev_realized_placement e));
   ("lifecycle", JObj (lifecycle_to_dict (ev_lifecycle e)));
   ("worker", opt_json (fun w => JObj (worker_to_dict w)) (ev_worker e));
   ("billing", opt_json (fun b => JObj (receipt_to_dict b)) (ev_billing e));
   ("provenance",
     JObj (provenance (is_some (ev_realized_placement e)) (is_some (ev_worker e)) (is_some (ev_billing e))))].

Definition evidence_keys : list string :=
  ["schema_version"; "identity"; "accepted_quote"; "realized_placement"; "lifecycle"; "worker";
   "billing"; "provenance"].
Definition identity_keys : list string :=
  ["capacity_id"; "resource_name"; "attempt_id"; "request_sha256"; "image_digest"].
Definition accepted_quote_keys : list string :=
  ["provider_quote_id"; "catalog_observed_at"; "gpu_type_id"; "gpu_display_name"; "gpu_count";
   "cloud"; "hourly_rate_usd"].
Definition provenance_keys : list string :=
  ["identity"; "accepted_quote"; "realized_placement"; "lifecycle"; "worker"; "billing"].
Definition receipt_keys : list string :=
  ["provider_billing_id"; "provider_pod_id"; "billed_from"; "billed_until"; "billed_seconds";
   "hourly_price_usd"; "actual_cost_usd"; "reconciled_at"].

(** A part that is an object or null. *)
Definition object_or_null (v : json) : result (option (list (string * json))) :=
  match v with
  | JNull => Ok None
  | JObj l => Ok (Some l)
  | _ => Exc RunPodManagerError
  end.

Definition evidence_from_dict (value : list (string * json)) : result PodCapacityEvidence :=
  run! exact_keys value evidence_keys then
  let! identity := required_mapping value "identity" in
  let! quote := required_mapping value "accepted_quote" in
  run! exact_keys identity identity_keys then
  run! exact_keys quote accepted_quote_keys then
  let! stored_provenance := required_mapping value "provenance" in
  run! exact_keys stored_provenance provenance_keys then
  let! realized := object_or_null (get_field value "realized_placement") in
  let! worker := object_or_null (get_field value "worker") in
  let! billing := object_or_null (get_field value "billing") in
  run! opt_result (fun b => exact_keys b receipt_keys) billing then
  run! require
    (py_eq (JObj stored_provenance) (JObj (provenance (is_some realized) (is_some worker) (is_some billing))))
    RunPodManagerError then
  let! schema_version := required_int value "schema_version" in
  let! capacity_id := required_string identity "capacity_id" in
  let! resource_name := required_string identity "resource_name" in
  let! provider_quote_id := required_string quote "provider_quote_id" in
  let! catalog_observed_at := required_datetime quote "catalog_observed_at" in
  let! attempt_id := required_string identity "attempt_id" in
  let! request_sha256 := required_string identity "request_sha256" in
  let! image_digest := required_string identity "image_digest" in
  let! gpu_type_id := required_string quote "gpu_type_id" in
  let! gpu_display_name := required_string quote "gpu_display_name" in
  let! gpu_count := required_int quote "gpu_count" in
  let! cloud := required_enum quote "cloud" in
  let! hourly := required_decimal quote "hourly_rate_usd" in
  let! raw_lifecycle := required_mapping value "lifecycle" in
  let! lifecycle := lifecycle_from_dict raw_lifecycle in
  let! realized_placement := opt_result realized_from_dict realized in
  let! worker_evidence := opt_result worker_from_envelope worker in
  let! receipt := opt_result receipt_from_dict billing in
  mk_evidence {|
    ev_schema_version := schema_version;
    ev_capacity_id := capacity_id;
    ev_resource_name := resource_name;
    ev_provider_quote_id := provider_quote_id;
    ev_catalog_observed_at := catalog_observed_at;
    ev_attempt_id := attempt_id;
    ev_request_sha256 := request_sha256;
    ev_image_digest := image_digest;
    ev_accepted_gpu_type_id := gpu_type_id;
    ev_accepted_gpu_display_name := gpu_display_name;
    ev_accepted_gpu_count := gpu_count;
    ev_accepted_cloud := cloud;
    ev_accepted_hourly_rate_usd := hourly;
    ev_lifecycle := lifecycle;
    ev_realized_placement := realized_placement;
    ev_worker := worker_evidence;
    ev_billing := receipt
  |}.

(** ** Stored form *)

Record storable_receipt (r : PodBillingReceipt) : Prop := {
  src_valid : check_receipt r = Ok tt;
  src_from : representable (rc_billed_from r);
  src_until : representable (rc_billed_until r);
  src_hourly : plain (rc_hourly_price_usd r);
  src_actual : plain (rc_actual_cost_usd r);
  src_reconciled : representable (rc_reconciled_at r)
}.

Record storable_realized (p : PodRealizedPlacement) : Prop := {
  srp_valid : check_realized p = Ok tt;
  srp_hourly : plain (rp_hourly_rate_usd p);
  srp_observed : representable (rp_observed_at p)
}.

Record storable_worker (w : CatalogWorkerEvidence) : Prop := {
  sw_valid : check_worker w = Ok tt;
  sw_started : opt_prop representable (we_container_process_started_at w);
  sw_amounts : Forall (opt_prop plain)
    [we_image_pull_and_container_boot_seconds w; we_image_pull_seconds w; we_container_boot_seconds w;
     we_model_load_seconds w; we_execution_seconds w; we_training_seconds w;
     we_artifact_upload_seconds w; we_gpu_seconds w; we_idle_seconds w]
}.

Record storable_lifecycle (l : PodCapacityLifecycleEvidence) : Prop := {
  slc_valid : check_lifecycle l = Ok tt;
  slc_reservation : representable (lc_reservation_at l);
  slc_observed : Forall (opt_prop representable)
    [lc_provider_create_accepted_at l; lc_provider_adopted_at l; lc_first_running_observed_at l;
     lc_worker_ready_at l; lc_workload_submitted_at l; lc_workload_running_at l;
     lc_workload_terminal_at l; lc_stop_confirmed_at l; lc_billing_reconciled_at l]
}.

Record storable_evidence (e : PodCapacityEvidence) : Prop := {
  se_valid : check_evidence e = Ok tt;
  se_catalog : representable (ev_catalog_observed_at e);
  se_rate : plain (ev_accepted_hourly_rate_usd e);
  se_lifecycle : storable_lifecycle (ev_lifecycle e);
  se_realized : opt_prop storable_realized (ev_realized_placement e);
  se_worker : opt_prop storable_worker (ev_worker e);
  se_billing : opt_prop storable_receipt (ev_billing e)
}.

Lemma receipt_decode r : storable_receipt r -> receipt_from_dict (receipt_to_dict r) = Ok r.
Proof.
  intros [Hv Hf Hu Hh Ha Hr]. assert (Hv' := Hv). unfold check_receipt in Hv'. res_inv. split_bools.
  unfold receipt_from_dict. decode; unfold receipt_to_dict; eauto with kestrel.
  unfold mk_receipt. destruct r; cbn in *. by rewrite Hv.
Qed.

Lemma display_nonempty s : is_display_name s = true -> s <> "".
Proof. intros H ->. discriminate H. Qed.

Lemma digest_nonempty s : is_image_digest s = true -> s <> "".
Proof. intros H ->. discriminate H. Qed.

Lemma cloud_nonempty (c : CloudType) : enum_value c <> "".
Proof. by destruct c. Qed.

#[export] Hint Resolve display_nonempty digest_nonempty cloud_nonempty : kestrel.

Lemma exact_keys_refl l k : keys l = k -> exact_keys l k = Ok tt.
Proof.
  intros <-. unfold exact_keys. apply require_true. apply same_keys_spec. done.
Qed.

Lemma realized_decode p : storable_realized p -> realized_from_dict (realized_to_dict p) = Ok p.
Proof.
  intros [Hv Hh Ho]. assert (Hv' := Hv). unfold check_realized in Hv'. res_inv.
  unfold realized_from_dict. decode; unfold realized_to_dict; eauto with kestrel.
  unfold mk_realized. destruct p; cbn in *. by rewrite Hv.
Qed.

Lemma envelope_decimal_of o :
  opt_prop plain o -> option_all nonnegative_amount o = true ->
  envelope_optional_decimal (opt_json jdec o) = Ok o.
Proof.
  destruct o as [d|]; [|done]. cbn [opt_prop option_all opt_json]. intros Hp Hn.
  unfold envelope_optional_decimal, jdec. rewrite parse_plain by done. cbn [of_option rbind].
  by rewrite require_true.
Qed.

Lemma nonnegative_int_of o :
  option_all (Z.leb 0) o = true -> optional_nonnegative_int (opt_json JInt o) = Ok o.
Proof. destruct o as [z|]; [|done]. cbn. intros ->. done. Qed.

Ltac decode_envelope :=
  lazymatch goal with
  | |- envelope_optional_decimal _ = _ => read_field; apply envelope_decimal_of; assumption
  | |- optional_nonnegative_int _ = _ => read_field; apply nonnegative_int_of; assumption
  | |- exact_keys _ _ = _ => apply exact_keys_refl; reflexivity
  end.

Lemma worker_decode w : storable_worker w -> worker_from_envelope (worker_to_dict w) = Ok w.
Proof.
  intros [Hv Hs Ha]. assert (Hv' := Hv). unfold check_worker in Hv'. res_inv. split_bools.
  repeat match goal with E : forallb _ _ = true |- _ => cbn [forallb] in E end. split_bools.
  repeat match goal with E : Forall _ (_ :: _) |- _ => apply Forall_cons_1 in E as [? E] end.
  unfold worker_from_envelope. decode; unfold worker_to_dict, worker_timings_dict, worker_metrics_dict;
    try decode_envelope; eauto with kestrel.
  unfold mk_worker. destruct w; cbn in *. by rewrite Hv.
Qed.

Lemma lifecycle_decode l : storable_lifecycle l -> lifecycle_from_dict (lifecycle_to_dict l) = Ok l.
Proof.
  intros [Hv Hr Ho].
  repeat match goal with E : Forall _ (_ :: _) |- _ => apply Forall_cons_1 in E as [? E] end.
  unfold lifecycle_from_dict. decode; unfold lifecycle_to_dict; try decode_envelope; eauto with kestrel.
  - apply (nullable_datetime_of (Some (lc_reservation_at l))). exact Hr.
  - reflexivity.
  - unfold mk_lifecycle. destruct l; cbn in *. by rewrite Hv.
Qed.

Lemma provenance_eq a b c : py_eq (JObj (provenance a b c)) (JObj (provenance a b c)) = true.
Proof. by destruct a, b, c. Qed.

Lemma object_or_null_of {A} (f : A -> list (string * json)) o :
  object_or_null (opt_json (fun a => JObj (f a)) o) = Ok (f <$> o).
Proof. by destruct o. Qed.

Lemma opt_result_decode {A} (P : A -> Prop) (f : A -> list (string * json)) g o :
  (forall a, P a -> g (f a) = Ok a) -> opt_prop P o -> opt_result g (f <$> o) = Ok o.
Proof. intros Hg. destruct o as [a|]; [|done]. cbn. intros Ha. by rewrite (Hg a Ha). Qed.

Lemma is_some_fmap {A B} (f : A -> B) o : is_some (f <$> o) = is_some o.
Proof. by destruct o. Qed.

(** Evidence reads back as itself. *)
Lemma evidence_decode e : storable_evidence e -> evidence_from_dict (evidence_to_dict e) = Ok e.
Proof.
  intros [Hv Hc Hr Hl Hp Hw Hb]. assert (Hv' := Hv). unfold check_evidence in Hv'. res_inv.
  match goal with E : forallb safe_identifier _ = true |- _ => cbn [forallb] in E end. split_bools.
  unfold evidence_from_dict.
  decode; unfold evidence_to_dict, evidence_identity_dict, evidence_quote_dict;
    try decode_envelope; try (read_field; apply object_or_null_of); eauto with kestrel.
  - instantiate (1 := (fun _ => tt) <$> ev_billing e). by destruct (ev_billing e).
  - apply require_true. rewrite !is_some_fmap. apply provenance_eq.
  - by apply lifecycle_decode.
  - apply (opt_result_decode storable_realized); [apply realized_decode|done].
  - apply (opt_result_decode storable_worker); [apply worker_decode|done].
  - apply (opt_result_decode storable_receipt); [apply receipt_decode|done].
  - unfold mk_evidence. destruct e; cbn in *. by rewrite Hv.
Qed.
