(* ===== verification/Lease.v ===== *)
(** Lease requests, the artifact handoff binding and the durable lease record
    ([pod_capacity_contracts.py]). *)
From S2P Require Import Prelude PyStr Enums Errors PyDecimal PyTime Json ContractsBase.
From S2P Require Import CodecBase Quote CatalogRequest Evidence.

#[local] Open Scope Z_scope.

(** ** [TrainingPodRequest] *)

(** [tr_root_cleanup_token] is the value after [__post_init__]: the given root, or
    the cleanup token itself. *)
Record TrainingPodRequest := {
  tr_cleanup_token : string;
  tr_companion_id : string;
  tr_profile_id : string;
  tr_source : TrainingPodSource;
  tr_resource_name : string;
  tr_provider_pod_id : option string;
  tr_created_at : instant;
  tr_readiness_deadline : instant;
  tr_hard_deadline : instant;
  tr_root_cleanup_token : string;
  tr_capacity_spec : option PodCapacitySpec
}.

Section TrainingRequest.
Context `{Digest}.

(** The identity of a catalog request agrees with its capacity specification. *)
Definition spec_identity_matches (r : TrainingPodRequest) (catalog : CatalogPodCapacityRequest)
  (name : string) : bool :=
  bool_decide (tr_cleanup_token r = rq_capacity_id catalog) &&
  bool_decide (tr_root_cleanup_token r = rq_cleanup_family_id catalog) &&
  bool_decide (tr_companion_id r = rq_owner_id catalog) &&
  bool_decide (tr_profile_id r = rq_profile_id catalog) &&
  bool_decide (tr_resource_name r = name) &&
  (tr_created_at r =? rq_created_at catalog) &&
  (tr_readiness_deadline r =? rq_readiness_deadline catalog) &&
  (tr_hard_deadline r =? rq_hard_deadline catalog).

(** [TrainingPodRequest.__post_init__]. *)
Definition check_training_request (r : TrainingPodRequest) : result unit :=
  run! require
    (forallb (fun s => negb (blank s))
       [tr_cleanup_token r; tr_root_cleanup_token r; tr_companion_id r; tr_profile_id r;
        tr_resource_name r]) ValueError then
  run! require (safe_identifier (tr_cleanup_token r) && safe_identifier (tr_root_cleanup_token r)) ValueError then
  run! require (option_all (fun p => negb (blank p)) (tr_provider_pod_id r)) ValueError then
  run! require (tr_created_at r <? tr_readiness_deadline r) ValueError then
  run! require (tr_readiness_deadline r <? tr_hard_deadline r) ValueError then
  run! require (negb (bool_decide (tr_source r = CREATED) && is_some (tr_provider_pod_id r))) ValueError then
  run! require (bool_decide (tr_source r = CREATED) || is_some (tr_provider_pod_id r)) ValueError then
  match tr_capacity_spec r with
  | None => Ok tt
  | Some spec =>
      run! require (bool_decide (tr_source r = CREATED)) ValueError then
      let! name := request_resource_name (sp_request spec) in
      require (spec_identity_matches r (sp_request spec) name) ValueError
  end.

Definition mk_training_request (r : TrainingPodRequest) : result TrainingPodRequest :=
  run! check_training_request r then Ok r.

(** [TrainingPodRequest.fingerprint]: the pre-family payload is kept for rows that
    are their own root. *)
Definition training_payload (r : TrainingPodRequest) : list (string * json) :=
  [("cleanup_token", JStr (tr_cleanup_token r));
   ("companion_id", JStr (tr_companion_id r));
   ("profile_id", JStr (tr_profile_id r));
   ("source", JStr (source_value (tr_source r)));
   ("resource_name", JStr (tr_resource_name r));
   ("provider_pod_id", opt_json JStr (tr_provider_pod_id r));
   ("readiness_deadline", jtime (tr_readiness_deadline r));
   ("hard_deadline", jtime (tr_hard_deadline r))] ++
  (if bool_decide (tr_root_cleanup_token r = tr_cleanup_token r) then []
   else [("root_cleanup_token", JStr (tr_root_cleanup_token r))]) ++
  match tr_capacity_spec r with
  | Some spec => [("capacity_spec", JObj (spec_to_dict spec))]
  | None => []
  end.

Definition training_fingerprint (r : TrainingPodRequest) : string :=
  json_sha256 (JObj (training_payload r)).

End TrainingRequest.

(** ** [CatalogArtifactHandoffEvidence] *)

Record CatalogArtifactHandoffEvidence := {
  ah_attempt_id : string;
  ah_request_sha256 : string;
  ah_result_sha256 : string;
  ah_receipt_sha256 : string;
  ah_acknowledgement_sha256 : option string;
  ah_acknowledgement_payload_sha256 : option string;
  ah_remote_ack_observed_at : option instant;
  ah_host_confirmation_declared_at : option instant
}.

#[export] Instance CatalogArtifactHandoffEvidence_dec : EqDecision CatalogArtifactHandoffEvidence.
Proof. solve_decision. Defined.

Definition opt_sha256 (o : option string) : bool :=
  match o with Some s => is_sha256 s | None => false end.

(** [CatalogArtifactHandoffEvidence.__post_init__]. *)
Definition check_handoff (h : CatalogArtifactHandoffEvidence) : result unit :=
  run! require (safe_identifier (ah_attempt_id h)) ValueError then
  run! require
    (is_sha256 (ah_request_sha256 h) && is_sha256 (ah_result_sha256 h) && is_sha256 (ah_receipt_sha256 h))
    ValueError then
  run! require
    (negb (is_some (ah_acknowledgement_sha256 h) || is_some (ah_acknowledgement_payload_sha256 h)) ||
     (opt_sha256 (ah_acknowledgement_sha256 h) && opt_sha256 (ah_acknowledgement_payload_sha256 h)))
    ValueError then
  run! require
    (negb (is_some (ah_remote_ack_observed_at h)) || is_some (ah_acknowledgement_sha256 h)) ValueError then
  require
    (negb (is_some (ah_host_confirmation_declared_at h)) || is_some (ah_remote_ack_observed_at h))
    ValueError.

Definition mk_handoff (h : CatalogArtifactHandoffEvidence) : result CatalogArtifactHandoffEvidence :=
  run! check_handoff h then Ok h.

(** A document [json.dumps(..., allow_nan=False)] accepts. *)
Fixpoint json_finite (v : json) : bool :=
  match v with
  | JFloat d => is_finite d
  | JList l => forallb json_finite l
  | JObj l => forallb (fun p => json_finite (snd p)) l
  | _ => true
  end.

(** [canonical_catalog_acknowledgement]. *)
Definition canonical_catalog_acknowledgement (payload : list (string * json)) : result string :=
  run! require (json_finite (JObj payload)) ValueError then Ok (dumps (JObj payload)).

Definition sha256_field (l : list (string * json)) (name : string) : result string :=
  match get_field l name with
  | JStr s => run! require (is_sha256 s) ValueError then Ok s
  | _ => Exc ValueError
  end.

(** [bind_acknowledgement]. *)
Definition bind_acknowledgement `{Digest} (h : CatalogArtifactHandoffEvidence)
  (payload : list (string * json)) : result CatalogArtifactHandoffEvidence :=
  run! require
    (field_is payload "attempt_id" (ah_attempt_id h) &&
     field_is payload "request_sha256" (ah_request_sha256 h) &&
     field_is payload "result_sha256" (ah_result_sha256 h) &&
     field_is payload "receipt_sha256" (ah_receipt_sha256 h)) ValueError then
  let! ack_sha := sha256_field payload "acknowledgement_sha256" in
  let! text := canonical_catalog_acknowledgement payload in
  let payload_sha := sha256_hex text in
  run! require
    (match ah_acknowledgement_sha256 h with
     | None => true
     | Some bound =>
         bool_decide (bound = ack_sha) &&
         bool_decide (ah_acknowledgement_payload_sha256 h = Some payload_sha)
     end) ValueError then
  mk_handoff {|
    ah_attempt_id := ah_attempt_id h;
    ah_request_sha256 := ah_request_sha256 h;
    ah_result_sha256 := ah_result_sha256 h;
    ah_receipt_sha256 := ah_receipt_sha256 h;
    ah_acknowledgement_sha256 := Some ack_sha;
    ah_acknowledgement_payload_sha256 := Some payload_sha;
    ah_remote_ack_observed_at := ah_remote_ack_observed_at h;
    ah_host_confirmation_declared_at := ah_host_confirmation_declared_at h
  |}.

Definition handoff_to_dict (h : CatalogArtifactHandoffEvidence) : list (string * json) :=
  [("attempt_id", JStr (ah_attempt_id h));
   ("request_sha256", JStr (ah_request_sha256 h));
   ("result_sha256", JStr (ah_result_sha256 h));
   ("receipt_sha256", JStr (ah_receipt_sha256 h));
   ("acknowledgement_sha256", opt_json JStr (ah_acknowledgement_sha256 h));
   ("acknowledgement_payload_sha256", opt_json JStr (ah_acknowledgement_payload_sha256 h));
   ("remote_ack_observed_at", opt_json jtime (ah_remote_ack_observed_at h));
   ("host_confirmation_declared_at", opt_json jtime (ah_host_confirmation_declared_at h))].

Definition handoff_keys : list string :=
  ["attempt_id"; "request_sha256"; "result_sha256"; "receipt_sha256"; "acknowledgement_sha256";
   "acknowledgement_payload_sha256"; "remote_ack_observed_at"; "host_confirmation_declared_at"].

(** A raw string argument of the constructor: another type fails its validation. *)
Definition raw_string (v : json) : result string :=
  match v with JStr s => Ok s | _ => Exc ValueError end.
Definition raw_optional_string (v : json) : result (option string) :=
  match v with JNull => Ok None | JStr s => Ok (Some s) | _ => Exc ValueError end.

(** [datetime.fromisoformat(value) if value is not None]: the constructor then
    refuses a naive timestamp. *)
Definition raw_datetime (v : json) : result (option instant) :=
  match v with
  | JNull => Ok None
  | JStr s => let! t := of_option (parse_aware s) ValueError in Ok (Some t)
  | _ => Exc TypeError
  end.

Definition handoff_from_dict (value : list (string * json)) : result CatalogArtifactHandoffEvidence :=
  run! exact_keys value handoff_keys then
  let! remote := raw_datetime (get_field value "remote_ack_observed_at") in
  let! host := raw_datetime (get_field value "host_confirmation_declared_at") in
  let! attempt_id := raw_string (get_field value "attempt_id") in
  let! request_sha256 := raw_string (get_field value "request_sha256") in
  let! result_sha256 := raw_string (get_field value "result_sha256") in
  let! receipt_sha256 := raw_string (get_field value "receipt_sha256") in
  let! ack := raw_optional_string (get_field value "acknowledgement_sha256") in
  let! ack_payload := raw_optional_string (get_field value "acknowledgement_payload_sha256") in
  mk_handoff {|
    ah_attempt_id := attempt_id;
    ah_request_sha256 := request_sha256;
    ah_result_sha256 := result_sha256;
    ah_receipt_sha256 := receipt_sha256;
    ah_acknowledgement_sha256 := ack;
    ah_acknowledgement_payload_sha256 := ack_payload;
    ah_remote_ack_observed_at := remote;
    ah_host_confirmation_declared_at := host
  |}.

(** [snapshot_catalog_handoff_recovery]: bind the public identities of an opaque
    recovery envelope. *)
Definition recovery_bound (receipt result_ ack : list (string * json)) (attempt_id request_sha256 : string)
  (image_digest : option string) : bool :=
  field_is receipt "attempt_id" attempt_id &&
  field_is receipt "request_sha256" request_sha256 &&
  field_is result_ "dispatch_attempt_id" attempt_id &&
  field_is result_ "request_sha256" request_sha256 &&
  field_is ack "attempt_id" attempt_id &&
  field_is ack "request_sha256" request_sha256 &&
  py_eq (get_field receipt "result_sha256") (get_field ack "result_sha256") &&
  py_eq (get_field receipt "receipt_sha256") (get_field ack "receipt_sha256") &&
  option_all (fun d => field_is receipt "image_digest" d) image_digest.

Definition snapshot_catalog_handoff_recovery (payload : list (string * json))
  (attempt_id request_sha256 : string) (image_digest : option string)
  : result (list (string * json)) :=
  run! canonical_catalog_acknowledgement payload then
  run! require (same_keys (keys payload) ["handoff"; "acknowledgement"]) ValueError then
  match get_field payload "handoff", get_field payload "acknowledgement" with
  | JObj handoff, JObj ack =>
      run! sha256_field ack "result_sha256" then
      run! sha256_field ack "receipt_sha256" then
      run! sha256_field ack "acknowledgement_sha256" then
      match get_field handoff "protocol_version", get_field handoff "receipt", get_field handoff "result" with
      | JInt 1, JObj receipt, JObj result_ =>
          run! require (recovery_bound receipt result_ ack attempt_id request_sha256 image_digest)
            ValueError then
          Ok payload
      | _, _, _ => Exc ValueError
      end
  | _, _ => Exc TypeError
  end.

(** ** [TrainingPodLease] *)

Record TrainingPodLease := {
  ls_cleanup_token : string;
  ls_root_cleanup_token : string;
  ls_request_fingerprint : string;
  ls_companion_id : string;
  ls_profile_id : string;
  ls_source : TrainingPodSource;
  ls_resource_name : string;
  ls_provider_pod_id : option string;
  ls_ownership : TrainingPodOwnership;
  ls_state : TrainingPodState;
  ls_cleanup_state : TrainingPodCleanupState;
  ls_family_release_requested : bool;
  ls_family_release_complete : bool;
  ls_creation_uncertain : bool;
  ls_backend_base_url : option string;
  ls_provider_job_id : option string;
  ls_created_at : instant;
  ls_updated_at : instant;
  ls_last_heartbeat_at : instant;
  ls_readiness_deadline : instant;
  ls_hard_deadline : instant;
  ls_last_provider_error : option string;
  ls_stop_attempts : Z;
  ls_revision : Z;
  ls_capacity_spec : option PodCapacitySpec;
  ls_workload_state : CatalogPodWorkloadState;
  ls_workload_error_type : option string;
  ls_billing_state : PodCapacityBillingState;
  ls_billing_receipt : option PodBillingReceipt;
  ls_terminated_at : option instant;
  ls_evidence : option PodCapacityEvidence;
  ls_artifact_handoff : option CatalogArtifactHandoffEvidence
}.

Definition protocol_of (l : TrainingPodLease) : option Z :=
  match ls_capacity_spec l with
  | Some s => rq_artifact_handoff_protocol_version (sp_request s)
  | None => None
  end.

(** [TrainingPodLease.__post_init__]. *)
Definition check_lease (l : TrainingPodLease) : result unit :=
  run!
    match ls_artifact_handoff l with
    | None => Ok tt
    | Some h =>
        match ls_capacity_spec l with
        | None => Exc ValueError
        | Some s =>
            let request := sp_request s in
            run! require (bool_decide (rq_artifact_handoff_protocol_version request = Some 1)) ValueError then
            require
              (bool_decide (ah_attempt_id h = rq_attempt_id request) &&
               bool_decide (ah_request_sha256 h = rq_request_sha256 request)) ValueError
        end
    end
  then
  match ls_workload_state l, ls_artifact_handoff l with
  | W_AWAITING_ACK, None => Exc ValueError
  | W_ACKNOWLEDGED, None => Exc ValueError
  | W_ACKNOWLEDGED, Some h => require (is_some (ah_remote_ack_observed_at h)) ValueError
  | _, _ => Ok tt
  end.

Definition is_terminal (l : TrainingPodLease) : bool := bool_decide (ls_state l = RELEASED).

Definition owns_billing_capacity (l : TrainingPodLease) : bool :=
  (bool_decide (ls_ownership l = PROVISIONAL) || bool_decide (ls_ownership l = OWNED)) &&
  negb (is_terminal l).

Definition is_catalog_attempt (l : TrainingPodLease) : bool := is_some (ls_capacity_spec l).

Definition settlement_ready (l : TrainingPodLease) : bool :=
  is_terminal l && bool_decide (ls_billing_state l = BILLING_AUTHORITATIVE) &&
  is_some (ls_billing_receipt l).

(** [terminal_success_evidence_complete]. *)
Definition terminal_success_evidence_complete (l : TrainingPodLease) : bool :=
  let success :=
    match protocol_of l with
    | None => bool_decide (ls_workload_state l = W_SUCCEEDED)
    | Some _ =>
        bool_decide (ls_workload_state l = W_ACKNOWLEDGED) &&
        match ls_artifact_handoff l with
        | Some h => is_some (ah_remote_ack_observed_at h) && is_some (ah_host_confirmation_declared_at h)
        | None => false
        end
    end in
  success && settlement_ready l &&
  match ls_evidence l with Some e => evidence_is_complete e | None => false end.

(** [to_public_dict]: operational state without the private route. *)
Definition lease_public_dict (l : TrainingPodLease) : list (string * json) :=
  [("cleanup_token", JStr (ls_cleanup_token l));
   ("root_cleanup_token", JStr (ls_root_cleanup_token l));
   ("companion_id", JStr (ls_companion_id l));
   ("profile_id", JStr (ls_profile_id l));
   ("source", JStr (source_value (ls_source l)));
   ("provider_pod_id", opt_json JStr (ls_provider_pod_id l));
   ("ownership", JStr (ownership_value (ls_ownership l)));
   ("state", JStr (state_value (ls_state l)));
   ("cleanup_state", JStr (cleanup_value (ls_cleanup_state l)));
   ("family_release_requested", JBool (ls_family_release_requested l));
   ("family_release_complete", JBool (ls_family_release_complete l));
   ("provider_job_id", opt_json JStr (ls_provider_job_id l));
   ("creation_uncertain", JBool (ls_creation_uncertain l));
   ("last_provider_error", opt_json JStr (ls_last_provider_error l));
   ("stop_attempts", JInt (ls_stop_attempts l));
   ("updated_at", jtime (ls_updated_at l));
   ("readiness_deadline", jtime (ls_readiness_deadline l));
   ("hard_deadline", jtime (ls_hard_deadline l));
   ("revision", JInt (ls_revision l));
   ("workload_state", JStr (workload_value (ls_workload_state l)));
   ("workload_error_type", opt_json JStr (ls_workload_error_type l));
   ("billing_state", JStr (billing_value (ls_billing_state l)));
   ("billing_receipt", opt_json (fun r => JObj (receipt_to_dict r)) (ls_billing_receipt l));
   ("terminated_at", opt_json jtime (ls_terminated_at l));
   ("evidence", opt_json (fun e => JObj (evidence_to_dict e)) (ls_evidence l));
   ("artifact_handoff", opt_json (fun h => JObj (handoff_to_dict h)) (ls_artifact_handoff l));
   ("terminal_success_evidence_complete", JBool (terminal_success_evidence_complete l));
   ("capacity",
     opt_json
       (fun s =>
          let r := sp_request s in
          JObj
            [("owner_id", JStr (rq_owner_id r));
             ("workload_id", JStr (rq_workload_id r));
             ("attempt_id", JStr (rq_attempt_id r));
             ("idempotency_key", JStr (rq_idempotency_key r));
             ("workload_kind", JStr (rq_workload_kind r));
             ("request_sha256", JStr (rq_request_sha256 r));
             ("parameters_sha256", JStr (rq_parameters_sha256 r));
             ("artifact_handoff_protocol_version",
               opt_json JInt (rq_artifact_handoff_protocol_version r));
             ("quote", JObj (quote_to_dict (rq_quote r)))])
       (ls_capacity_spec l))].

(** ** Stored handoff *)

Record storable_handoff (h : CatalogArtifactHandoffEvidence) : Prop := {
  sh_valid : check_handoff h = Ok tt;
  sh_remote : opt_prop representable (ah_remote_ack_observed_at h);
  sh_host : opt_prop representable (ah_host_confirmation_declared_at h)
}.

Lemma raw_datetime_of o : opt_prop representable o -> raw_datetime (opt_json jtime o) = Ok o.
Proof.
  destruct o as [t|]; [|done]. cbn [opt_prop opt_json]. intros H. unfold raw_datetime, jtime.
  by rewrite parse_aware_iso_datetime.
Qed.

Lemma raw_optional_string_of o : raw_optional_string (opt_json JStr o) = Ok o.
Proof. by destruct o. Qed.

Lemma handoff_decode h : storable_handoff h -> handoff_from_dict (handoff_to_dict h) = Ok h.
Proof.
  intros [Hv Hr Hh]. unfold handoff_from_dict.
  decode; unfold handoff_to_dict; try decode_envelope; try done.
  - read_field. by apply raw_datetime_of.
  - read_field. by apply raw_datetime_of.
  - read_field. apply raw_optional_string_of.
  - read_field. apply raw_optional_string_of.
  - unfold mk_handoff. destruct h; cbn in *. by rewrite Hv.
Qed.

(** ** Acknowledgement binding *)

Lemma bind_acknowledgement_inv `{Digest} h payload h' :
  bind_acknowledgement h payload = Ok h' ->
  exists ack, ah_acknowledgement_sha256 h' = Some ack /\ is_sha256 ack = true /\
    get_field payload "acknowledgement_sha256" = JStr ack /\
    ah_acknowledgement_payload_sha256 h' = Some (sha256_hex (dumps (JObj payload))) /\
    (forall bound, ah_acknowledgement_sha256 h = Some bound -> h' = h) /\
    ah_attempt_id h' = ah_attempt_id h /\ ah_request_sha256 h' = ah_request_sha256 h /\
    ah_result_sha256 h' = ah_result_sha256 h /\ ah_receipt_sha256 h' = ah_receipt_sha256 h /\
    ah_remote_ack_observed_at h' = ah_remote_ack_observed_at h /\
    ah_host_confirmation_declared_at h' = ah_host_confirmation_declared_at h.
Proof.
  unfold bind_acknowledgement, sha256_field, canonical_catalog_acknowledgement, mk_handoff.
  intros Hb. res_inv. destruct (get_field payload "acknowledgement_sha256") as [| | | |s| |] eqn:E; try done.
  res_inv. eexists. cbn. repeat split; try done; try eassumption.
  intros bound Hbound. destruct h; cbn in *. subst. split_bools. congruence.
Qed.
