(* ===== verification/Row.v ===== *)
(** The stored row of a lease: what [reserve] and [compare_and_set] write into the
    columns of [pod_capacity_leases], and [_lease_from_row] reading it back
    ([pod_capacity_repository.py]). A JSON text column is represented by the
    document it holds. *)
From S2P Require Import Prelude PyStr Enums Errors PyDecimal PyTime Json ContractsBase.
From S2P Require Import CodecBase Quote CatalogRequest Evidence Lease.

#[local] Open Scope Z_scope.

(** [_db_value] column by column. *)
Definition db_bool (b : bool) : json := JInt (if b then 1 else 0).

Definition lease_to_row (l : TrainingPodLease) : list (string * json) :=
  [("cleanup_token", JStr (ls_cleanup_token l));
   ("root_cleanup_token", JStr (ls_root_cleanup_token l));
   ("request_fingerprint", JStr (ls_request_fingerprint l));
   ("companion_id", JStr (ls_companion_id l));
   ("profile_id", JStr (ls_profile_id l));
   ("source", JStr (source_value (ls_source l)));
   ("resource_name", JStr (ls_resource_name l));
   ("provider_pod_id", opt_json JStr (ls_provider_pod_id l));
   ("ownership", JStr (ownership_value (ls_ownership l)));
   ("state", JStr (state_value (ls_state l)));
   ("cleanup_state", JStr (cleanup_value (ls_cleanup_state l)));
   ("family_release_requested", db_bool (ls_family_release_requested l));
   ("family_release_complete", db_bool (ls_family_release_complete l));
   ("creation_uncertain", db_bool (ls_creation_uncertain l));
   ("backend_base_url", opt_json JStr (ls_backend_base_url l));
   ("provider_job_id", opt_json JStr (ls_provider_job_id l));
   ("created_at", jtime (ls_created_at l));
   ("updated_at", jtime (ls_updated_at l));
   ("last_heartbeat_at", jtime (ls_last_heartbeat_at l));
   ("readiness_deadline", jtime (ls_readiness_deadline l));
   ("hard_deadline", jtime (ls_hard_deadline l));
   ("last_provider_error", opt_json JStr (ls_last_provider_error l));
   ("stop_attempts", JInt (ls_stop_attempts l));
   ("capacity_spec_json", opt_json (fun s => JObj (spec_to_dict s)) (ls_capacity_spec l));
   ("workload_state", JStr (workload_value (ls_workload_state l)));
   ("workload_error_type", opt_json JStr (ls_workload_error_type l));
   ("billing_state", JStr (billing_value (ls_billing_state l)));
   ("billing_receipt_json", opt_json (fun r => JObj (receipt_to_dict r)) (ls_billing_receipt l));
   ("terminated_at", opt_json jtime (ls_terminated_at l));
   ("evidence_json", opt_json (fun e => JObj (evidence_to_dict e)) (ls_evidence l));
   ("artifact_handoff_json", opt_json (fun h => JObj (handoff_to_dict h)) (ls_artifact_handoff l));
   ("revision", JInt (ls_revision l))].

(** ** Column readers *)

Definition column_text (row : list (string * json)) (name : string) : result string :=
  match get_field row name with JStr s => Ok s | _ => Exc TypeError end.
Definition column_optional_text (row : list (string * json)) (name : string) : result (option string) :=
  match get_field row name with JNull => Ok None | JStr s => Ok (Some s) | _ => Exc TypeError end.
Definition column_int (row : list (string * json)) (name : string) : result Z :=
  match get_field row name with JInt z => Ok z | _ => Exc TypeError end.
Definition column_bool (row : list (string * json)) (name : string) : result bool :=
  let! z := column_int row name in Ok (negb (z =? 0)).
Definition column_document (row : list (string * json)) (name : string)
  : result (option (list (string * json))) :=
  match get_field row name with JNull => Ok None | JObj l => Ok (Some l) | _ => Exc TypeError end.

(** The repository's own [_datetime]. *)
Definition row_datetime (s : string) : result instant :=
  match fromisoformat s with
  | Some (local, Some off) => Ok (local - off * US)
  | Some (_, None) => Exc RunPodManagerError
  | None => Exc ValueError
  end.
Definition column_datetime (row : list (string * json)) (name : string) : result instant :=
  let! s := column_text row name in row_datetime s.
Definition column_optional_datetime (row : list (string * json)) (name : string)
  : result (option instant) :=
  let! s := column_optional_text row name in opt_result row_datetime s.

(** [Enum(row[name])]. *)
Definition column_enum {A} (of_text : string -> option A) (row : list (string * json)) (name : string)
  : result A :=
  let! s := column_text row name in of_option (of_text s) ValueError.

Definition source_of : string -> option TrainingPodSource :=
  lookup_value [CONFIGURED_PERSISTENT; STOPPED_REUSE; CREATED] source_value.
Definition ownership_of : string -> option TrainingPodOwnership :=
  lookup_value [PROVISIONAL; OWNED; PREEXISTING_RUNNING] ownership_value.
Definition cleanup_of : string -> option TrainingPodCleanupState :=
  lookup_value
    [CLEANUP_NOT_REQUESTED; CLEANUP_PENDING; CLEANUP_RETRYABLE_FAILURE; CLEANUP_COMPLETE;
     CLEANUP_NOT_OWNED] cleanup_value.
Definition billing_of : string -> option PodCapacityBillingState :=
  lookup_value
    [BILLING_NOT_APPLICABLE; BILLING_PENDING; BILLING_AUTHORITATIVE; BILLING_UNRESOLVED] billing_value.

(** Evidence and the receipt column must hold the same receipt. *)
Definition receipts_consistent (evidence : option PodCapacityEvidence) (receipt : option PodBillingReceipt)
  : bool :=
  match evidence with
  | Some e => opt_eqb receipt_eqb (ev_billing e) receipt
  | None => true
  end.

(** [_lease_from_row]. *)
Definition lease_from_row (row : list (string * json)) : result TrainingPodLease :=
  let! raw_receipt := column_document row "billing_receipt_json" in
  let! billing_receipt := opt_result receipt_from_dict raw_receipt in
  let! raw_evidence := column_document row "evidence_json" in
  let! evidence := opt_result evidence_from_dict raw_evidence in
  run! require (receipts_consistent evidence billing_receipt) RunPodManagerError then
  let! cleanup_token := column_text row "cleanup_token" in
  let! root_cleanup_token := column_text row "root_cleanup_token" in
  let! request_fingerprint := column_text row "request_fingerprint" in
  let! companion_id := column_text row "companion_id" in
  let! profile_id := column_text row "profile_id" in
  let! source := column_enum source_of row "source" in
  let! resource_name := column_text row "resource_name" in
  let! provider_pod_id := column_optional_text row "provider_pod_id" in
  let! ownership := column_enum ownership_of row "ownership" in
  let! state := column_enum of_value row "state" in
  let! cleanup_state := column_enum cleanup_of row "cleanup_state" in
  let! release_requested := column_bool row "family_release_requested" in
  let! release_complete := column_bool row "family_release_complete" in
  let! creation_uncertain := column_bool row "creation_uncertain" in
  let! backend_base_url := column_optional_text row "backend_base_url" in
  let! provider_job_id := column_optional_text row "provider_job_id" in
  let! created_at := column_datetime row "created_at" in
  let! updated_at := column_datetime row "updated_at" in
  let! last_heartbeat_at := column_datetime row "last_heartbeat_at" in
  let! readiness_deadline := column_datetime row "readiness_deadline" in
  let! hard_deadline := column_datetime row "hard_deadline" in
  let! last_provider_error := column_optional_text row "last_provider_error" in
  let! stop_attempts := column_int row "stop_attempts" in
  let! revision := column_int row "revision" in
  let! raw_spec := column_document row "capacity_spec_json" in
  let! capacity_spec := opt_result spec_from_dict raw_spec in
  let! workload_state := column_enum of_value row "workload_state" in
  let! workload_error_type := column_optional_text row "workload_error_type" in
  let! billing_state := column_enum billing_of row "billing_state" in
  let! terminated_at := column_optional_datetime row "terminated_at" in
  let! raw_handoff := column_document row "artifact_handoff_json" in
  let! artifact_handoff := opt_result handoff_from_dict raw_handoff in
  let lease := {|
    ls_cleanup_token := cleanup_token;
    ls_root_cleanup_token := root_cleanup_token;
    ls_request_fingerprint := request_fingerprint;
    ls_companion_id := companion_id;
    ls_profile_id := profile_id;
    ls_source := source;
    ls_resource_name := resource_name;
    ls_provider_pod_id := provider_pod_id;
    ls_ownership := ownership;
    ls_state := state;
    ls_cleanup_state := cleanup_state;
    ls_family_release_requested := release_requested;
    ls_family_release_complete := release_complete;
    ls_creation_uncertain := creation_uncertain;
    ls_backend_base_url := backend_base_url;
    ls_provider_job_id := provider_job_id;
    ls_created_at := created_at;
    ls_updated_at := updated_at;
    ls_last_heartbeat_at := last_heartbeat_at;
    ls_readiness_deadline := readiness_deadline;
    ls_hard_deadline := hard_deadline;
    ls_last_provider_error := last_provider_error;
    ls_stop_attempts := stop_attempts;
    ls_revision := revision;
    ls_capacity_spec := capacity_spec;
    ls_workload_state := workload_state;
    ls_workload_error_type := workload_error_type;
    ls_billing_state := billing_state;
    ls_billing_receipt := billing_receipt;
    ls_terminated_at := terminated_at;
    ls_evidence := evidence;
    ls_artifact_handoff := artifact_handoff
  |} in
  run! check_lease lease then Ok lease.

(** ** Round trip *)

(** What a row keeps of a lease: all of it, but the attempt environment's values. *)
Definition redact_lease (l : TrainingPodLease) : TrainingPodLease := {|
  ls_cleanup_token := ls_cleanup_token l;
  ls_root_cleanup_token := ls_root_cleanup_token l;
  ls_request_fingerprint := ls_request_fingerprint l;
  ls_companion_id := ls_companion_id l;
  ls_profile_id := ls_profile_id l;
  ls_source := ls_source l;
  ls_resource_name := ls_resource_name l;
  ls_provider_pod_id := ls_provider_pod_id l;
  ls_ownership := ls_ownership l;
  ls_state := ls_state l;
  ls_cleanup_state := ls_cleanup_state l;
  ls_family_release_requested := ls_family_release_requested l;
  ls_family_release_complete := ls_family_release_complete l;
  ls_creation_uncertain := ls_creation_uncertain l;
  ls_backend_base_url := ls_backend_base_url l;
  ls_provider_job_id := ls_provider_job_id l;
  ls_created_at := ls_created_at l;
  ls_updated_at := ls_updated_at l;
  ls_last_heartbeat_at := ls_last_heartbeat_at l;
  ls_readiness_deadline := ls_readiness_deadline l;
  ls_hard_deadline := ls_hard_deadline l;
  ls_last_provider_error := ls_last_provider_error l;
  ls_stop_attempts := ls_stop_attempts l;
  ls_revision := ls_revision l;
  ls_capacity_spec := redact_spec <$> ls_capacity_spec l;
  ls_workload_state := ls_workload_state l;
  ls_workload_error_type := ls_workload_error_type l;
  ls_billing_state := ls_billing_state l;
  ls_billing_receipt := ls_billing_receipt l;
  ls_terminated_at := ls_terminated_at l;
  ls_evidence := ls_evidence l;
  ls_artifact_handoff := ls_artifact_handoff l
|}.

(** Contents a row keeps exactly: moments Python can write, no empty text where the
    readers refuse one, and amounts written without a positive exponent. *)
Record storable_contents (l : TrainingPodLease) : Prop := {
  sl_times : Forall representable
    [ls_created_at l; ls_updated_at l; ls_last_heartbeat_at l; ls_readiness_deadline l; ls_hard_deadline l];
  sl_terminated : opt_prop representable (ls_terminated_at l);
  sl_spec : opt_prop storable_spec (ls_capacity_spec l);
  sl_receipt : opt_prop storable_receipt (ls_billing_receipt l);
  sl_evidence : opt_prop storable_evidence (ls_evidence l);
  sl_handoff : opt_prop storable_handoff (ls_artifact_handoff l)
}.

(** A lease that reads back: valid, consistent and with such contents. *)
Record storable_lease (l : TrainingPodLease) : Prop := {
  sl_valid : check_lease l = Ok tt;
  sl_consistent : receipts_consistent (ls_evidence l) (ls_billing_receipt l) = true;
  sl_contents : storable_contents l
}.

Lemma row_datetime_iso t : representable t -> row_datetime (iso_datetime t) = Ok t.
Proof.
  intros H. apply parse_aware_iso_datetime in H. unfold parse_aware in H. unfold row_datetime.
  destruct (fromisoformat (iso_datetime t)) as [[local [off|]]|]; congruence.
Qed.

Lemma column_datetime_of row n t :
  get_field row n = jtime t -> representable t -> column_datetime row n = Ok t.
Proof. intros H Ht. unfold column_datetime, column_text. rewrite H. by apply row_datetime_iso. Qed.

Lemma column_optional_datetime_of row n o :
  get_field row n = opt_json jtime o -> opt_prop representable o ->
  column_optional_datetime row n = Ok o.
Proof.
  intros H Ho. unfold column_optional_datetime, column_optional_text. rewrite H.
  destruct o as [t|]; [|done]. cbn [opt_json jtime rbind opt_result].
  by rewrite row_datetime_iso.
Qed.

Lemma column_bool_of row n b : get_field row n = db_bool b -> column_bool row n = Ok b.
Proof. intros H. unfold column_bool, column_int. rewrite H. by destruct b. Qed.

Lemma column_optional_text_of row n o :
  get_field row n = opt_json JStr o -> column_optional_text row n = Ok o.
Proof. intros H. unfold column_optional_text. rewrite H. by destruct o. Qed.

Lemma column_document_of {A} row n (f : A -> list (string * json)) o :
  get_field row n = opt_json (fun a => JObj (f a)) o -> column_document row n = Ok (f <$> o).
Proof. intros H. unfold column_document. rewrite H. by destruct o. Qed.

Lemma column_enum_of {A} (of_text : string -> option A) row n v a :
  get_field row n = JStr v -> of_text v = Some a -> column_enum of_text row n = Ok a.
Proof. intros H Ha. unfold column_enum, column_text. rewrite H. cbn. by rewrite Ha. Qed.

Ltac decode_column :=
  lazymatch goal with
  | |- column_text _ _ = _ => reflexivity
  | |- column_int _ _ = _ => reflexivity
  | |- column_optional_text _ _ = _ => apply column_optional_text_of; reflexivity
  | |- column_bool _ _ = _ => apply column_bool_of; reflexivity
  | |- column_datetime _ _ = _ => apply column_datetime_of; [reflexivity|assumption]
  | |- column_optional_datetime _ _ = _ => apply column_optional_datetime_of; [reflexivity|assumption]
  | |- column_document _ _ = _ => eapply column_document_of; reflexivity
  end.

Lemma check_lease_redacted l : check_lease (redact_lease l) = check_lease l.
Proof.
  unfold check_lease. cbn [redact_lease ls_artifact_handoff ls_capacity_spec ls_workload_state].
  by destruct (ls_capacity_spec l).
Qed.

Lemma lease_decode l : storable_lease l -> lease_from_row (lease_to_row l) = Ok (redact_lease l).
Proof.
  intros [Hv Hc [Ht Hte Hs Hr He Hh]].
  repeat match goal with E : Forall _ (_ :: _) |- _ => apply Forall_cons_1 in E as [? E] end.
  unfold lease_from_row.
  decode; try decode_column; try (eapply column_enum_of; [reflexivity|]).
  - apply (opt_result_decode storable_receipt); [apply receipt_decode|done].
  - apply (opt_result_decode storable_evidence); [apply evidence_decode|done].
  - by apply require_true.
  - instantiate (1 := ls_source l). by destruct (ls_source l).
  - instantiate (1 := ls_ownership l). by destruct (ls_ownership l).
  - instantiate (1 := ls_state l). by destruct (ls_state l).
  - instantiate (1 := ls_cleanup_state l). by destruct (ls_cleanup_state l).
  - instantiate (1 := redact_spec <$> ls_capacity_spec l).
    destruct (ls_capacity_spec l) as [s|]; [|done]. cbn [fmap option_fmap option_map opt_result].
    by rewrite (spec_decode s Hs).
  - instantiate (1 := ls_workload_state l). by destruct (ls_workload_state l).
  - instantiate (1 := ls_billing_state l). by destruct (ls_billing_state l).
  - apply (opt_result_decode storable_handoff); [apply handoff_decode|done].
  - match goal with |- context [check_lease ?x] => change x with (redact_lease l) end.
    by rewrite check_lease_redacted, Hv.
  - reflexivity.
Qed.

(** *** What reading a row can raise *)

Lemma refuses_receipt v : refuses (receipt_from_dict v).
Proof. refuses. Qed.
Lemma refuses_evidence v : refuses (evidence_from_dict v).
Proof. refuses. Qed.
Lemma refuses_spec v : refuses (spec_from_dict v).
Proof. refuses. Qed.
Lemma refuses_handoff v : refuses (handoff_from_dict v).
Proof. refuses. Qed.

#[export] Hint Resolve refuses_receipt refuses_evidence refuses_spec refuses_handoff : refuses.

Lemma refuses_row row : refuses (lease_from_row row).
Proof. refuses. Qed.
