(* ===== verification/PodBilling.v ===== *)
(** [pod_billing.py]: the cost of one Pod from the provider's closed hourly records. *)
From Stdlib Require Import Permutation.
From S2P Require Import Prelude PyStr Enums Errors PyDecimal PyTime Json Billing.
From S2P Require Import ContractsBase CodecBase Quote CatalogRequest Evidence.
Import Billing.Billing.

#[local] Open Scope Z_scope.

Module PodBilling.

(** ** Billing pages ([models.py]) *)

Record BillingPage := {
  bp_records : list (list (string * json));
  bp_metadata : list (string * json)
}.

(** [_mapping_item]. *)
Definition mapping_item (v : json) : result (list (string * json)) :=
  match v with JObj l => Ok l | _ => Exc RunPodManagerError end.

(** [BillingPage.from_dict]. *)
Definition page_from_dict (value : list (string * json)) : result BillingPage :=
  run! exact_keys value ["records"; "metadata"] then
  match get_field value "records", get_field value "metadata" with
  | JList records, JObj metadata =>
      let! rows := rmap mapping_item records in
      Ok {| bp_records := rows; bp_metadata := metadata |}
  | _, _ => Exc RunPodManagerError
  end.

(** ** Reading the records *)

(** [_keys]: a mapping with exactly these fields. *)
Definition keys_of (value : json) (expected : list string) : result (list (string * json)) :=
  match value with
  | JObj l => run! exact_keys l expected then Ok l
  | _ => Exc RunPodManagerError
  end.

(** [_timestamp]. *)
Definition timestamp (value : json) : result instant :=
  match value with
  | JStr s => of_option (parse_aware s) RunPodManagerError
  | _ => Exc RunPodManagerError
  end.

Definition COMPONENTS : list string := ["gpuAmount"; "cpuAmount"; "diskAmount"].
Definition AMOUNT_KEYS : list string := "totalAmount" :: COMPONENTS.

(** The amounts of a record in the order of their names. *)
Definition SORTED_AMOUNTS : list string := ["cpuAmount"; "diskAmount"; "gpuAmount"; "totalAmount"].

Definition amounts := list (string * Decimal).

Record parsed_row := { pr_start : instant; pr_end : instant; pr_amounts : amounts }.

Section Hours.
Context (prec : Z).

Definition parse_row (pod_id : string) (row : list (string * json)) : result parsed_row :=
  run! exact_keys row (["podId"; "startTime"; "endTime"] ++ AMOUNT_KEYS) then
  run! require (py_eq (get_field row "podId") (JStr pod_id)) RunPodManagerError then
  let! start := timestamp (get_field row "startTime") in
  let! end_ := timestamp (get_field row "endTime") in
  let! values := billing_amounts prec row COMPONENTS in
  Ok {| pr_start := start; pr_end := end_; pr_amounts := values |}.

(** [sorted(parsed, key=start)], a stable sort. *)
Fixpoint insert_row (r : parsed_row) (l : list parsed_row) : list parsed_row :=
  match l with
  | [] => [r]
  | x :: l' => if pr_start r <=? pr_start x then r :: l else x :: insert_row r l'
  end.

Definition sort_rows (l : list parsed_row) : list parsed_row := fold_right insert_row [] l.

(** A normalized hour: its fields, all text. *)
Definition hour_row (pod_id : string) (r : parsed_row) : result (list (string * string)) :=
  let! texts := rmap (fun name =>
    let! text := billing_identity_amount (amount_of (pr_amounts r) name) in Ok (name, text)) SORTED_AMOUNTS in
  Ok ([("podId", pod_id); ("startTime", iso_datetime (pr_start r)); ("endTime", iso_datetime (pr_end r))] ++
      texts)%list.

(** The loop over the sorted records: whether coverage is incomplete, the end of the
    last record and the normalized hours. *)
Fixpoint walk_hours (pod_id : string) (first until cursor : instant) (rows : list parsed_row)
  : result (bool * instant * list (list (string * string))) :=
  match rows with
  | [] => Ok (false, cursor, [])
  | r :: rest =>
      let start := pr_start r in
      let end_ := pr_end r in
      run! require
        (negb ((start <? cursor) || (start <? first) || (end_ <=? start) || (until <? end_)))
        RunPodManagerError then
      run! require (start =? hour_floor start) RunPodManagerError then
      run! require (end_ <=? start + hours 1) RunPodManagerError then
      let! here := hour_row pod_id r in
      let! following := walk_hours pod_id first until end_ rest in
      let '(incomplete, cursor', there) := following in
      Ok ((cursor <? start) || (end_ <? start + hours 1) || incomplete, cursor', here :: there)
  end.

Definition is_int (v : json) (n : Z) : bool := match v with JInt z => z =? n | _ => false end.

(** The query echo and the record counts of the metadata. *)
Definition check_metadata (page : BillingPage) (pod_id : string) (first until : instant)
  : result (list (string * json)) :=
  let metadata := bp_metadata page in
  run! exact_keys metadata ["query"; "recordCount"; "uniquePodCount"; "totals"] then
  let! query := keys_of (get_field metadata "query") ["startTime"; "endTime"; "bucketSize"; "podId"] in
  let! totals := keys_of (get_field metadata "totals") AMOUNT_KEYS in
  run! require (py_eq (get_field query "podId") (JStr pod_id)) RunPodManagerError then
  run! require (py_eq (get_field query "bucketSize") (JStr "hour")) RunPodManagerError then
  let! start := timestamp (get_field query "startTime") in
  run! require (start =? first) RunPodManagerError then
  let! end_ := timestamp (get_field query "endTime") in
  run! require (end_ =? until) RunPodManagerError then
  let count := Z.of_nat (length (bp_records page)) in
  run! require (is_int (get_field metadata "recordCount") count) RunPodManagerError then
  run! require
    (is_int (get_field metadata "uniquePodCount")
       (match bp_records page with [] => 0 | _ => 1 end)) RunPodManagerError then
  Ok totals.

(** The totals are the exact sums of the records. *)
Definition totals_agree (expected : amounts) (rows : list parsed_row) : result bool :=
  let! agree := rmap (fun key =>
    let! sum := exact_decimal_sum prec (map (fun r => amount_of (pr_amounts r) key) rows) in
    Ok (deqb sum (amount_of expected key))) AMOUNT_KEYS in
  Ok (forallb id agree).

(** [_exact_hours]: [None] while an hour of the window is missing or partial. *)
Definition exact_hours (page : BillingPage) (pod_id : string) (first until : instant)
  : result (option (list (list (string * string)))) :=
  let! totals := check_metadata page pod_id first until in
  let! expected := billing_amounts prec totals COMPONENTS in
  let! parsed := rmap (parse_row pod_id) (bp_records page) in
  let! agree := totals_agree expected parsed in
  run! require agree RunPodManagerError then
  let! walked := walk_hours pod_id first until first (sort_rows parsed) in
  let '(incomplete, cursor, normalized) := walked in
  Ok (if match parsed with [] => true | _ => incomplete end || (cursor <? until) then None
      else Some normalized).

(** [row["totalAmount"]]. *)
Fixpoint row_field (row : list (string * string)) (name : string) : string :=
  match row with
  | [] => ""
  | (k, v) :: r => if String.eqb k name then v else row_field r name
  end.

Definition total_amount (row : list (string * string)) : result Decimal :=
  of_option (parse_decimal (row_field row "totalAmount")) InvalidOperation.

(** [read_exact_pod_billing]: [now] and [later] are the two readings of the clock,
    [pod_billing] the control plane's answer for a window, bucket size and Pod. *)
Definition read_exact_pod_billing `{Digest}
  (pod_billing : string -> string -> string -> string -> result BillingPage)
  (pod_id : string) (created_at terminated_at : instant) (rate : Decimal) (now later : instant)
  : result (option PodBillingReceipt) :=
  run! require (safe_identifier pod_id) ValueError then
  run! require (nonnegative_amount rate) ValueError then
  let! window := billing_hour_bounds created_at terminated_at in
  let '(window_from, window_until) := window in
  if now <? window_until then Ok None
  else
    let! page := pod_billing (iso_datetime window_from) (iso_datetime window_until) "hour" pod_id in
    let! hours := exact_hours page pod_id window_from window_until in
    match hours with
    | None => Ok None
    | Some rows =>
        let! price := billing_identity_amount rate in
        let identity :=
          JObj [("source", JStr "runpod-v2-pod-billing");
                ("pod_id", JStr pod_id);
                ("hourly_price_usd", JStr price);
                ("hours", JList (map (fun row => JObj (str_fields row)) rows))] in
        let! totals := rmap total_amount rows in
        let! cost := exact_decimal_sum prec totals in
        let! receipt := mk_receipt {|
          rc_provider_billing_id := "runpod-billing:" ++ json_sha256 identity;
          rc_provider_pod_id := Some pod_id;
          rc_billed_from := window_from;
          rc_billed_until := window_until;
          rc_billed_seconds := interval_seconds window_from window_until;
          rc_hourly_price_usd := rate;
          rc_actual_cost_usd := cost;
          rc_reconciled_at := later
        |} in
        Ok (Some receipt)
    end.

End Hours.

(** ** Complete hours *)

Lemma insert_row_permutation (r : parsed_row) (l : list parsed_row) : Permutation (r :: l) (insert_row r l).
Proof.
  induction l as [|x l IH]; [done|]. cbn [insert_row]. destruct (_ <=? _); [done|].
  transitivity (x :: r :: l); [constructor|]. by constructor.
Qed.

Lemma sort_rows_permutation (l : list parsed_row) : Permutation l (sort_rows l).
Proof.
  induction l as [|r l IH]; [done|]. cbn [sort_rows fold_right].
  transitivity (r :: sort_rows l); [by constructor|apply insert_row_permutation].
Qed.

(** Records that follow each other hour by hour from [t] to [u]. *)
Fixpoint tiles (t : instant) (rows : list parsed_row) (u : instant) : Prop :=
  match rows with
  | [] => t = u
  | r :: rest => pr_start r = t /\ pr_end r = t + hours 1 /\ tiles (pr_end r) rest u
  end.

Lemma tiles_length t rows u : tiles t rows u -> u = t + Z.of_nat (length rows) * hours 1.
Proof.
  revert t. induction rows as [|r rows IH]; intros t; cbn [tiles length]; [lia|].
  intros (_ & He & Ht). apply IH in Ht. lia.
Qed.

Lemma walk_hours_tiles pod first until cursor rows cursor' normalized :
  walk_hours pod first until cursor rows = Ok (false, cursor', normalized) ->
  tiles cursor rows cursor' /\ Forall2 (fun r row => hour_row pod r = Ok row) rows normalized /\
  (rows = [] \/ cursor' <= until).
Proof.
  revert cursor cursor' normalized. induction rows as [|r rows IH]; intros cursor cursor' normalized;
    cbn [walk_hours]; cbv zeta; intros Hw; [injection Hw as <- <-; split; [done|split; [constructor|by left]]|].
  apply rbind_ok in Hw as ([] & H1 & Hw). apply rbind_ok in Hw as ([] & _ & Hw).
  apply rbind_ok in Hw as ([] & H3 & Hw). apply rbind_ok in Hw as (here & Hh & Hw).
  apply rbind_ok in Hw as ([[inc c] there] & Hf & Hw). injection Hw as Hinc <- <-.
  apply require_ok in H1, H3. apply negb_true_iff in H1. split_bools. subst inc.
  destruct (IH _ _ _ Hf) as (Ht & Hrows & Hu). cbn [tiles].
  assert (pr_start r = cursor) by lia. assert (pr_end r = pr_start r + hours 1) by lia.
  split; [|split]; [split; [done|split; [lia|done]]|by constructor|].
  right. destruct Hu as [->|]; [|done]. cbn in Ht. lia.
Qed.

Section Exact.
Context (prec : Z).

(** What a complete page is. *)
Record complete_page (page : BillingPage) (pod_id : string) (first until : instant)
  (parsed : list parsed_row) (expected : amounts) (rows : list (list (string * string))) : Prop := {
  cp_parsed : rmap (parse_row prec pod_id) (bp_records page) = Ok parsed;
  cp_expected : exists totals, get_field (bp_metadata page) "totals" = JObj totals /\
    billing_amounts prec totals COMPONENTS = Ok expected;
  cp_agree : totals_agree prec expected parsed = Ok true;
  cp_tiles : tiles first (sort_rows parsed) until;
  cp_rows : Forall2 (fun r row => hour_row pod_id r = Ok row) (sort_rows parsed) rows
}.

Lemma check_metadata_totals page pod first until totals :
  check_metadata page pod first until = Ok totals -> get_field (bp_metadata page) "totals" = JObj totals.
Proof.
  unfold check_metadata, keys_of. intros Hc. res_inv.
  destruct (get_field (bp_metadata page) "totals"); try done. by res_inv.
Qed.

Lemma exact_hours_complete page pod first until rows :
  exact_hours prec page pod first until = Ok (Some rows) ->
  exists parsed expected, complete_page page pod first until parsed expected rows.
Proof.
  unfold exact_hours. intros He.
  apply rbind_ok in He as (totals & Hm & He). apply rbind_ok in He as (expected & Hx & He).
  apply rbind_ok in He as (parsed & Hp & He). apply rbind_ok in He as (agree & Ha & He).
  apply rbind_ok in He as ([] & Hr & He). apply rbind_ok in He as ([[inc cursor] normalized] & Hw & He).
  apply require_ok in Hr as ->. exists parsed, expected.
  destruct (_ || _) eqn:Hc; [done|]. injection He as He. subst normalized.
  apply orb_false_elim in Hc as [Hinc Hcur]. apply Z.ltb_ge in Hcur.
  destruct parsed as [|r0 parsed]; [done|]. subst inc.
  destruct (walk_hours_tiles _ _ _ _ _ _ _ Hw) as (Ht & Hrows & Hu).
  assert (cursor = until) as ->.
  { destruct Hu as [E|]; [|lia]. pose proof (sort_rows_permutation (r0 :: parsed)) as Hperm.
    rewrite E in Hperm. by apply Permutation_sym, Permutation_nil in Hperm. }
  split; try done. exists totals. split; [by eapply check_metadata_totals|done].
Qed.

Lemma hour_row_total pod r row :
  hour_row pod r = Ok row ->
  exists d, total_amount row = Ok d /\ deq (amount_of (pr_amounts r) "totalAmount") d.
Proof.
  unfold hour_row, SORTED_AMOUNTS. cbn [rmap]. intros Hh. res_inv.
  match goal with E : billing_identity_amount (amount_of _ "totalAmount") = Ok ?t |- _ =>
    destruct (billing_identity_amount_value _ _ E) as (d & Hd & Heq) end.
  exists d. split; [|done]. unfold total_amount. cbn [row_field app String.eqb Ascii.eqb Bool.eqb].
  by rewrite Hd.
Qed.

Lemma rows_total pod parsed rows totals :
  Forall2 (fun r row => hour_row pod r = Ok row) parsed rows -> rmap total_amount rows = Ok totals ->
  Forall2 deq (map (fun r => amount_of (pr_amounts r) "totalAmount") parsed) totals.
Proof.
  intros Hf Ht. apply rmap_Forall2 in Ht. revert totals Ht.
  induction Hf as [|r row parsed rows Hr Hf IH]; intros totals Ht; inversion Ht; subst; [constructor|].
  cbn [map]. constructor; [|auto]. destruct (hour_row_total _ _ _ Hr) as (d & Hd & Heq). congruence.
Qed.

(** The normalized hours cost what the page's totals say. *)
Lemma complete_page_cost page pod first until parsed expected rows totals cost :
  1 <= prec -> complete_page page pod first until parsed expected rows ->
  rmap total_amount rows = Ok totals -> exact_decimal_sum prec totals = Ok cost ->
  deq cost (amount_of expected "totalAmount").
Proof.
  intros Hprec [_ _ Ha _ Hr] Ht Hc. unfold totals_agree, AMOUNT_KEYS, COMPONENTS in Ha. cbn [rmap] in Ha.
  res_inv. unfold id in *. cbn in *. split_bools.
  match goal with E : exact_decimal_sum _ (map (fun r => amount_of _ "totalAmount") _) = Ok ?s,
                  D : deqb ?s _ = true |- _ => transitivity s; [|exact D]; symmetry; rename E into Hsum end.
  eapply exact_sum_deq; [exact Hprec| |by eapply rows_total|exact Hsum|exact Hc].
  apply Permutation_map, sort_rows_permutation.
Qed.

(** The totals' agreement, amount by amount. *)
Lemma totals_agree_each expected rows name :
  totals_agree prec expected rows = Ok true -> In name AMOUNT_KEYS ->
  exists sum, exact_decimal_sum prec (map (fun x => amount_of (pr_amounts x) name) rows) = Ok sum /\
    deq sum (amount_of expected name).
Proof.
  unfold totals_agree. intros Ha. apply rbind_ok in Ha as (agree & Hr & Ha). injection Ha as Ha.
  apply rmap_Forall2 in Hr. induction Hr as [|n b names bs Hb Hr IH]; [done|].
  cbn [forallb id] in Ha. apply andb_prop in Ha as [Hb' Ha]. intros [<-|Hin]; [|by apply IH].
  apply rbind_ok in Hb as (sum & Hs & [= <-]). by exists sum.
Qed.

(** A parsed record holds its record's numbers. *)
Lemma parsed_record pod records parsed x :
  rmap (parse_row prec pod) records = Ok parsed -> In x parsed ->
  exists record, In record records /\ forall name, In name AMOUNT_KEYS -> exists amount,
    number_decimal (get_field record name) = Some amount /\ deq amount (amount_of (pr_amounts x) name).
Proof.
  intros Hr. apply rmap_Forall2 in Hr. induction Hr as [|record y records parsed Hy Hr IH]; [done|].
  intros [<-|Hin].
  - exists record. split; [by left|]. unfold parse_row in Hy. intros name Hn. res_inv.
    match goal with E : billing_amounts _ _ _ = Ok _ |- _ =>
      destruct (billing_amounts_read _ _ _ _ E name Hn) as (a & Hnum & _ & Hd) end. by exists a.
  - destruct (IH Hin) as (record' & Hin' & Hnum). exists record'. split; [by right|done].
Qed.

End Exact.

(** ** The receipt *)

(** Everything an answered receipt stands for. *)
Record receipt_exact `{Digest} (prec : Z)
  (pod_billing : string -> string -> string -> string -> result BillingPage)
  (pod_id : string) (created_at terminated_at later : instant) (rate : Decimal)
  (r : PodBillingReceipt) : Prop := {
  re_valid : check_receipt r = Ok tt;
  re_pod : rc_provider_pod_id r = Some pod_id;
  re_rate : rc_hourly_price_usd r = rate;
  re_reconciled : rc_reconciled_at r = later;
  re_covers : rc_billed_from r <= created_at /\ terminated_at <= rc_billed_until r;
  re_page : exists page parsed expected rows,
    pod_billing (iso_datetime (rc_billed_from r)) (iso_datetime (rc_billed_until r)) "hour" pod_id = Ok page /\
    complete_page prec page pod_id (rc_billed_from r) (rc_billed_until r) parsed expected rows /\
    rc_billed_seconds r = 3600 * Z.of_nat (length (bp_records page)) /\
    deq (rc_actual_cost_usd r) (amount_of expected "totalAmount")
}.

Lemma read_receipt `{Digest} prec pod_billing pod created terminated rate now later r :
  1 <= prec ->
  read_exact_pod_billing prec pod_billing pod created terminated rate now later = Ok (Some r) ->
  receipt_exact prec pod_billing pod created terminated later rate r /\ rc_billed_until r <= now.
Proof.
  intros Hprec. unfold read_exact_pod_billing. intros Hr.
  apply rbind_ok in Hr as ([] & _ & Hr). apply rbind_ok in Hr as ([] & _ & Hr).
  apply rbind_ok in Hr as ([first until] & Hb & Hr). destruct (Z.ltb_spec now until); [done|].
  apply rbind_ok in Hr as (page & Hp & Hr). apply rbind_ok in Hr as ([rows|] & Hh & Hr); [|done].
  apply rbind_ok in Hr as (price & _ & Hr). apply rbind_ok in Hr as (totals & Ht & Hr).
  apply rbind_ok in Hr as (cost & Hc & Hr). apply rbind_ok in Hr as (receipt & Hm & Hr).
  injection Hr as ->. unfold mk_receipt in Hm. apply rbind_ok in Hm as ([] & Hv & Hm). injection Hm as <-.
  destruct (hour_bounds_cover _ _ _ _ Hb) as (_ & _ & Hf & _ & Hu & _).
  destruct (exact_hours_complete _ _ _ _ _ _ Hh) as (parsed & expected & Hcp).
  split; [|done]. split; try done. exists page, parsed, expected, rows.
  cbn [rc_billed_from rc_billed_until rc_billed_seconds rc_actual_cost_usd].
  split; [done|]. split; [done|]. split; [|by eapply complete_page_cost].
  pose proof (tiles_length _ _ _ (cp_tiles _ _ _ _ _ _ _ _ Hcp)) as Hlen.
  pose proof (Permutation_length (sort_rows_permutation parsed)) as Hpl.
  pose proof (cp_parsed _ _ _ _ _ _ _ _ Hcp) as Hpar. apply rmap_Forall2, Forall2_length in Hpar.
  unfold interval_seconds. rewrite Hlen, <- Hpl, <- Hpar. unfold hours, US.
  replace (first + Z.of_nat (length (bp_records page)) * (1 * 3600 * 1000000) - first)
    with (3600 * Z.of_nat (length (bp_records page)) * 1000000) by lia.
  by rewrite Z.quot_mul.
Qed.

End PodBilling.
