(* ===== verification/Repository.v ===== *)
(** [SQLitePodCapacityRepository]: the lease table, its unique indexes and its
    transactions ([pod_capacity_repository.py]).

    The table is a finite map from the primary key to the lease a row holds (the row
    codec is [Row.v]); each transaction is a function of the table, run atomically as
    [BEGIN IMMEDIATE] serializes writers. [now] is the wall clock that stamps
    [updated_at]. *)
From stdpp Require Import sorting.
From S2P Require Import Prelude PyStr Enums Errors PyDecimal PyTime Json ContractsBase.
From S2P Require Import CodecBase Quote CatalogRequest Evidence Lease Row.

#[local] Open Scope Z_scope.

Abbreviation database := (gmap string TrainingPodLease).

(** ** Columns a transition may write ([_COLUMNS]) *)

Inductive change :=
  | SetProviderPodId (v : option string)
  | SetOwnership (v : TrainingPodOwnership)
  | SetState (v : TrainingPodState)
  | SetCleanupState (v : TrainingPodCleanupState)
  | SetFamilyReleaseRequested (v : bool)
  | SetFamilyReleaseComplete (v : bool)
  | SetCreationUncertain (v : bool)
  | SetBackendBaseUrl (v : option string)
  | SetProviderJobId (v : option string)
  | SetUpdatedAt (v : instant)
  | SetLastHeartbeatAt (v : instant)
  | SetLastProviderError (v : option string)
  | SetStopAttempts (v : Z)
  | SetWorkloadState (v : CatalogPodWorkloadState)
  | SetWorkloadErrorType (v : option string)
  | SetBillingState (v : PodCapacityBillingState)
  | SetBillingReceipt (v : option PodBillingReceipt)
  | SetTerminatedAt (v : option instant)
  | SetEvidence (v : option PodCapacityEvidence)
  | SetArtifactHandoff (v : option CatalogArtifactHandoffEvidence).

(** One assignment of the [UPDATE]. *)
Definition apply_change (l : TrainingPodLease) (c : change) : TrainingPodLease := {|
  ls_cleanup_token := ls_cleanup_token l;
  ls_root_cleanup_token := ls_root_cleanup_token l;
  ls_request_fingerprint := ls_request_fingerprint l;
  ls_companion_id := ls_companion_id l;
  ls_profile_id := ls_profile_id l;
  ls_source := ls_source l;
  ls_resource_name := ls_resource_name l;
  ls_provider_pod_id := match c with SetProviderPodId v => v | _ => ls_provider_pod_id l end;
  ls_ownership := match c with SetOwnership v => v | _ => ls_ownership l end;
  ls_state := match c with SetState v => v | _ => ls_state l end;
  ls_cleanup_state := match c with SetCleanupState v => v | _ => ls_cleanup_state l end;
  ls_family_release_requested :=
    match c with SetFamilyReleaseRequested v => v | _ => ls_family_release_requested l end;
  ls_family_release_complete :=
    match c with SetFamilyReleaseComplete v => v | _ => ls_family_release_complete l end;
  ls_creation_uncertain := match c with SetCreationUncertain v => v | _ => ls_creation_uncertain l end;
  ls_backend_base_url := match c with SetBackendBaseUrl v => v | _ => ls_backend_base_url l end;
  ls_provider_job_id := match c with SetProviderJobId v => v | _ => ls_provider_job_id l end;
  ls_created_at := ls_created_at l;
  ls_updated_at := match c with SetUpdatedAt v => v | _ => ls_updated_at l end;
  ls_last_heartbeat_at := match c with SetLastHeartbeatAt v => v | _ => ls_last_heartbeat_at l end;
  ls_readiness_deadline := ls_readiness_deadline l;
  ls_hard_deadline := ls_hard_deadline l;
  ls_last_provider_error := match c with SetLastProviderError v => v | _ => ls_last_provider_error l end;
  ls_stop_attempts := match c with SetStopAttempts v => v | _ => ls_stop_attempts l end;
  ls_revision := ls_revision l;
  ls_capacity_spec := ls_capacity_spec l;
  ls_workload_state := match c with SetWorkloadState v => v | _ => ls_workload_state l end;
  ls_workload_error_type := match c with SetWorkloadErrorType v => v | _ => ls_workload_error_type l end;
  ls_billing_state := match c with SetBillingState v => v | _ => ls_billing_state l end;
  ls_billing_receipt := match c with SetBillingReceipt v => v | _ => ls_billing_receipt l end;
  ls_terminated_at := match c with SetTerminatedAt v => v | _ => ls_terminated_at l end;
  ls_evidence := match c with SetEvidence v => v | _ => ls_evidence l end;
  ls_artifact_handoff := match c with SetArtifactHandoff v => v | _ => ls_artifact_handoff l end
|}.

Definition apply_changes (l : TrainingPodLease) (cs : list change) : TrainingPodLease :=
  fold_left apply_change cs l.

(** [revision = revision + 1]. *)
Definition bump_revision (l : TrainingPodLease) : TrainingPodLease := {|
  ls_cleanup_token := ls_cleanup_token l;
  ls_root_cleanup_token := ls_root_cleanup_token l;
  ls_request_fingerprint := ls_request_fingerprint l;
  ls_companion_id := ls_companion_id l;
  ls_profile_id := ls_profile_id l;
  ls_source := ls_source l;
  ls_resource_name := ls_resource_name l;
  ls_provider_pod_id := ls_provider_pod_id l;
  ls_ownership := ls_ownership l;
  ls_state := ls_state l;
  ls_cleanup_state := ls_cleanup_state l;
  ls_family_release_requested := ls_family_release_requested l;
  ls_family_release_complete := ls_family_release_complete l;
  ls_creation_uncertain := ls_creation_uncertain l;
  ls_backend_base_url := ls_backend_base_url l;
  ls_provider_job_id := ls_provider_job_id l;
  ls_created_at := ls_created_at l;
  ls_updated_at := ls_updated_at l;
  ls_last_heartbeat_at := ls_last_heartbeat_at l;
  ls_readiness_deadline := ls_readiness_deadline l;
  ls_hard_deadline := ls_hard_deadline l;
  ls_last_provider_error := ls_last_provider_error l;
  ls_stop_attempts := ls_stop_attempts l;
  ls_revision := ls_revision l + 1;
  ls_capacity_spec := ls_capacity_spec l;
  ls_workload_state := ls_workload_state l;
  ls_workload_error_type := ls_workload_error_type l;
  ls_billing_state := ls_billing_state l;
  ls_billing_receipt := ls_billing_receipt l;
  ls_terminated_at := ls_terminated_at l;
  ls_evidence := ls_evidence l;
  ls_artifact_handoff := ls_artifact_handoff l
|}.

(** The updated row: [updated_at] is the wall clock unless the changes set it. *)
Definition updated_row (row : TrainingPodLease) (changes : list change) (now : instant) : TrainingPodLease :=
  bump_revision (apply_changes row (SetUpdatedAt now :: changes)).

(** ** Reading a row *)

(** [_lease_from_row] on the columns [l] was written to: every JSON document, enum and
    timestamp is decoded and the lease's own checks run, so a row that does not decode
    raises. The answer is the lease as written: what was decoded is that lease (C10),
    or differs from it in the exponent of an amount written with a positive one
    ([Decimal("1E+2")] reads as [Decimal("100")]), which Python's [==] does not see. *)
Definition load (l : TrainingPodLease) : result TrainingPodLease :=
  let! _ := lease_from_row (lease_to_row l) in Ok l.

(** ** Unique partial indexes: [state != 'released'] *)

Definition active (l : TrainingPodLease) : bool := negb (is_terminal l).

(** Two active rows that violate one of the three unique indexes. *)
Definition clash (a b : TrainingPodLease) : bool :=
  active a && active b &&
  (bool_decide (ls_resource_name a = ls_resource_name b) ||
   (is_some (ls_provider_pod_id a) && bool_decide (ls_provider_pod_id a = ls_provider_pod_id b)) ||
   bool_decide (ls_root_cleanup_token a = ls_root_cleanup_token b)).

(** Storing [l] under its key keeps the indexes unique. *)
Definition index_free (db : database) (l : TrainingPodLease) : bool :=
  forallb (fun p => bool_decide (fst p = ls_cleanup_token l) || negb (clash l (snd p))) (map_to_list db).

(** ** Transactions *)

(** [get]. *)
Definition db_get (db : database) (cleanup_token : string) : result (option TrainingPodLease) :=
  match db !! cleanup_token with
  | Some row => let! l := load row in Ok (Some l)
  | None => Ok None
  end.

(** [compare_and_set]: the row is updated when its revision is the caller's. *)
Definition compare_and_set (db : database) (now : instant) (lease : TrainingPodLease) (changes : list change)
  : result TrainingPodLease * database :=
  match db !! ls_cleanup_token lease with
  | Some row =>
      if ls_revision row =? ls_revision lease then
        let row' := updated_row row changes now in
        if index_free db row' then (load row', <[ls_cleanup_token lease := row']> db)
        else (Exc TrainingPodConflictError, db)
      else (Exc TrainingPodConflictError, db)
  | None => (Exc TrainingPodConflictError, db)
  end.

Section Reserve.
Context `{Digest}.

(** The values [reserve] inserts; raised before any transaction. *)
Definition reserved_row (request : TrainingPodRequest) : result TrainingPodLease :=
  let! evidence := opt_result evidence_from_spec (tr_capacity_spec request) in
  Ok {|
    ls_cleanup_token := tr_cleanup_token request;
    ls_root_cleanup_token := tr_root_cleanup_token request;
    ls_request_fingerprint := training_fingerprint request;
    ls_companion_id := tr_companion_id request;
    ls_profile_id := tr_profile_id request;
    ls_source := tr_source request;
    ls_resource_name := tr_resource_name request;
    ls_provider_pod_id := tr_provider_pod_id request;
    ls_ownership := PROVISIONAL;
    ls_state := REQUESTED;
    ls_cleanup_state := CLEANUP_NOT_REQUESTED;
    ls_family_release_requested := false;
    ls_family_release_complete := false;
    ls_creation_uncertain := false;
    ls_backend_base_url := None;
    ls_provider_job_id := None;
    ls_created_at := tr_created_at request;
    ls_updated_at := tr_created_at request;
    ls_last_heartbeat_at := tr_created_at request;
    ls_readiness_deadline := tr_readiness_deadline request;
    ls_hard_deadline := tr_hard_deadline request;
    ls_last_provider_error := None;
    ls_stop_attempts := 0;
    ls_revision := 0;
    ls_capacity_spec := redact_spec <$> tr_capacity_spec request;
    ls_workload_state := W_NOT_SUBMITTED;
    ls_workload_error_type := None;
    ls_billing_state := if is_some (tr_capacity_spec request) then BILLING_PENDING else BILLING_NOT_APPLICABLE;
    ls_billing_receipt := None;
    ls_terminated_at := None;
    ls_evidence := evidence;
    ls_artifact_handoff := None
  |}.

(** A child attempt needs its persisted root, not yet releasing. *)
Definition family_admits (db : database) (request : TrainingPodRequest) : bool :=
  bool_decide (tr_root_cleanup_token request = tr_cleanup_token request) ||
  match db !! tr_root_cleanup_token request with
  | Some root =>
      bool_decide (ls_root_cleanup_token root = ls_cleanup_token root) &&
      negb (ls_family_release_requested root)
  | None => false
  end.

(** [reserve]: the row, and whether this call inserted it. *)
Definition reserve (db : database) (request : TrainingPodRequest)
  : result (TrainingPodLease * bool) * database :=
  match reserved_row request with
  | Exc e => (Exc e, db)
  | Ok fresh =>
      if family_admits db request then
        let answer (row : TrainingPodLease) (inserted : bool) :=
          let! lease := load row in
          run! require (bool_decide (ls_request_fingerprint lease = training_fingerprint request))
            TrainingPodConflictError then
          Ok (lease, inserted) in
        match db !! tr_cleanup_token request with
        | Some row => (answer row false, db)
        | None =>
            if index_free db fresh
            then (answer fresh true, <[tr_cleanup_token request := fresh]> db)
            else (Exc TrainingPodConflictError, db)
        end
      else (Exc TrainingPodConflictError, db)
  end.

End Reserve.

(** ** Queries *)

(** [ORDER BY created_at, cleanup_token]; the order of [list_for_reconciliation] is
    by [created_at] alone, its ties taken in key order here. *)
Definition row_le (a b : TrainingPodLease) : Prop :=
  ls_created_at a < ls_created_at b \/
  (ls_created_at a = ls_created_at b /\
   str_le (chars (ls_cleanup_token a)) (chars (ls_cleanup_token b)) = true).

#[export] Instance row_le_dec : RelDecision row_le.
Proof. intros a b. unfold row_le. apply _. Defined.

Definition select (db : database) (p : TrainingPodLease -> bool) : result (list TrainingPodLease) :=
  rmap load (merge_sort row_le (filter (fun l => p l = true) (map snd (map_to_list db)))).

(** [list_cleanup_family]. *)
Definition list_cleanup_family (db : database) (root : string) (legacy : list string)
  : result (list TrainingPodLease) :=
  select db (fun l =>
    bool_decide (ls_root_cleanup_token l = root) || bool_decide (ls_cleanup_token l ∈ root :: legacy)).

(** [list_incomplete_family_releases]. *)
Definition list_incomplete_family_releases (db : database) : result (list TrainingPodLease) :=
  select db (fun l =>
    bool_decide (ls_cleanup_token l = ls_root_cleanup_token l) && ls_family_release_requested l &&
    negb (ls_family_release_complete l)).

(** Billing that a later pass can still settle. *)
Definition billing_open (l : TrainingPodLease) : bool :=
  bool_decide (ls_billing_state l = BILLING_PENDING) || bool_decide (ls_billing_state l = BILLING_UNRESOLVED).

(** [list_for_reconciliation]. *)
Definition list_for_reconciliation (db : database) : result (list TrainingPodLease) :=
  select db (fun l => negb (is_terminal l) || billing_open l).

(** ** Well-formed tables *)

Record db_ok (db : database) : Prop := {
  db_keys : forall k l, db !! k = Some l -> ls_cleanup_token l = k;
  db_unique : forall k k' l l',
    db !! k = Some l -> db !! k' = Some l' -> k <> k' -> clash l l' = false
}.

(** The columns no transition writes. *)
Record same_identity (a b : TrainingPodLease) : Prop := {
  si_token : ls_cleanup_token a = ls_cleanup_token b;
  si_root : ls_root_cleanup_token a = ls_root_cleanup_token b;
  si_fingerprint : ls_request_fingerprint a = ls_request_fingerprint b;
  si_companion : ls_companion_id a = ls_companion_id b;
  si_profile : ls_profile_id a = ls_profile_id b;
  si_source : ls_source a = ls_source b;
  si_resource : ls_resource_name a = ls_resource_name b;
  si_created : ls_created_at a = ls_created_at b;
  si_readiness : ls_readiness_deadline a = ls_readiness_deadline b;
  si_hard : ls_hard_deadline a = ls_hard_deadline b;
  si_spec : ls_capacity_spec a = ls_capacity_spec b
}.

#[export] Instance same_identity_preorder : PreOrder same_identity.
Proof.
  split.
  - intros a. by split.
  - intros a b c [] []. split; congruence.
Qed.

Lemma apply_change_identity l c : same_identity l (apply_change l c).
Proof. by split. Qed.

Lemma apply_changes_identity l cs : same_identity l (apply_changes l cs).
Proof.
  revert l. induction cs as [|c cs IH]; intros l; [done|].
  transitivity (apply_change l c); [apply apply_change_identity | apply IH].
Qed.

Lemma updated_row_identity row cs now : same_identity row (updated_row row cs now).
Proof.
  transitivity (apply_changes row (SetUpdatedAt now :: cs)); [apply apply_changes_identity|].
  by split.
Qed.

Lemma apply_changes_revision l cs : ls_revision (apply_changes l cs) = ls_revision l.
Proof. revert l. induction cs as [|c cs IH]; intros l; [done|]. exact (IH (apply_change l c)). Qed.

Lemma updated_row_revision row cs now : ls_revision (updated_row row cs now) = ls_revision row + 1.
Proof. unfold updated_row. cbn [bump_revision ls_revision]. by rewrite apply_changes_revision. Qed.

Lemma updated_row_token row cs now : ls_cleanup_token (updated_row row cs now) = ls_cleanup_token row.
Proof. destruct (updated_row_identity row cs now). congruence. Qed.

Lemma load_same l l' : load l = Ok l' -> l' = l.
Proof. unfold load. intros H. by res_inv. Qed.

Lemma load_storable l : storable_lease l -> load l = Ok l.
Proof. intros H. unfold load. by rewrite lease_decode. Qed.

(** Reading fails as a reader does, never as a conflicting writer. *)
Lemma load_errors l e : load l = Exc e -> reader_error e = true.
Proof. intros H. eapply (refuses_bind (lease_from_row (lease_to_row l))); [apply refuses_row| |exact H]. by intros. Qed.

Lemma clash_sym a b : clash a b = clash b a.
Proof.
  unfold clash. rewrite (andb_comm (active a)). f_equal.
  rewrite (bool_decide_ext (ls_resource_name a = _) (ls_resource_name b = ls_resource_name a)) by done.
  rewrite (bool_decide_ext (ls_root_cleanup_token a = _)
             (ls_root_cleanup_token b = ls_root_cleanup_token a)) by done.
  do 2 f_equal.
  destruct (decide (ls_provider_pod_id a = ls_provider_pod_id b)) as [E|E].
  - by rewrite E.
  - rewrite !bool_decide_false_eq by congruence. by rewrite !andb_false_r.
Qed.

Lemma index_free_spec db l :
  index_free db l = true <->
  forall k l', db !! k = Some l' -> k <> ls_cleanup_token l -> clash l l' = false.
Proof.
  unfold index_free. rewrite forallb_forall. split.
  - intros H k l' Hk Hne. specialize (H (k, l')). cbn in H.
    rewrite bool_decide_false_eq in H by done. cbn in H.
    apply negb_true_iff, H. apply list_elem_of_In. by apply elem_of_map_to_list.
  - intros H [k l'] Hin. cbn. apply list_elem_of_In, elem_of_map_to_list in Hin.
    destruct (bool_decide_reflect (k = ls_cleanup_token l)); [done|]. cbn.
    by rewrite (H k l').
Qed.

(** Storing a row that the indexes admit keeps the table well formed. *)
Lemma insert_ok db k l :
  db_ok db -> ls_cleanup_token l = k -> index_free db l = true -> db_ok (<[k := l]> db).
Proof.
  intros [Hk Hu] Ht Hf. rewrite index_free_spec, Ht in Hf. split.
  - intros k' l' Hl. destruct (decide (k = k')) as [<-|Hne].
    + rewrite lookup_insert_eq in Hl. congruence.
    + rewrite lookup_insert_ne in Hl by done. eauto.
  - intros k1 k2 l1 l2 H1 H2 Hne.
    destruct (decide (k = k1)) as [<-|N1]; destruct (decide (k = k2)) as [<-|N2]; [done| | |].
    + rewrite lookup_insert_eq in H1. rewrite lookup_insert_ne in H2 by done. simplify_eq.
      by apply (Hf k2).
    + rewrite lookup_insert_eq in H2. rewrite lookup_insert_ne in H1 by done. simplify_eq.
      rewrite clash_sym. by apply (Hf k1).
    + rewrite lookup_insert_ne in H1, H2 by done. by apply (Hu k1 k2).
Qed.

(** Every outcome of [compare_and_set]: a conflict that leaves the table alone, or
    the update of the one row at the caller's revision. *)
Lemma cas_cases db now lease cs r db' :
  compare_and_set db now lease cs = (r, db') ->
  (r = Exc TrainingPodConflictError /\ db' = db) \/
  (exists row, db !! ls_cleanup_token lease = Some row /\ ls_revision row = ls_revision lease /\
     index_free db (updated_row row cs now) = true /\
     r = load (updated_row row cs now) /\
     db' = <[ls_cleanup_token lease := updated_row row cs now]> db).
Proof.
  unfold compare_and_set. intros H.
  destruct (db !! ls_cleanup_token lease) as [row|]; [|left; by simplify_eq].
  destruct (Z.eqb_spec (ls_revision row) (ls_revision lease)); [|left; by simplify_eq].
  destruct (index_free db (updated_row row cs now)) eqn:E; [|left; by simplify_eq].
  right. simplify_eq. by exists row.
Qed.

Lemma cas_db_ok db now lease cs r db' :
  db_ok db -> compare_and_set db now lease cs = (r, db') -> db_ok db'.
Proof.
  intros Hok H. apply cas_cases in H as [[_ ->]|(row & Hrow & _ & Hf & _ & ->)]; [done|].
  apply insert_ok; [done| |done]. rewrite updated_row_token. by apply (db_keys db).
Qed.

Lemma reserved_row_token `{Digest} request fresh :
  reserved_row request = Ok fresh -> ls_cleanup_token fresh = tr_cleanup_token request.
Proof. unfold reserved_row. intros Hf. res_inv. done. Qed.

Lemma reserve_db_ok `{Digest} db request r db' :
  db_ok db -> reserve db request = (r, db') -> db_ok db'.
Proof.
  intros Hok. unfold reserve. destruct (reserved_row request) as [fresh|] eqn:E; [|by intros; simplify_eq].
  destruct (family_admits db request); [|by intros; simplify_eq].
  destruct (db !! tr_cleanup_token request) as [row|]; [by intros; simplify_eq|].
  destruct (index_free db fresh) eqn:Ef; [|by intros; simplify_eq].
  intros. simplify_eq. apply insert_ok; [done| |done]. by apply reserved_row_token.
Qed.

(** ** Queries answer rows of the table *)

Lemma select_rows db p ls :
  db_ok db -> select db p = Ok ls ->
  Forall (fun l => db !! ls_cleanup_token l = Some l /\ p l = true) ls.
Proof.
  intros [Hk _] Hs. unfold select in Hs. apply rmap_Forall2 in Hs.
  assert (Hall : Forall (fun l => db !! ls_cleanup_token l = Some l /\ p l = true)
    (merge_sort row_le (filter (fun l => p l = true) (map snd (map_to_list db))))).
  { apply List.Forall_forall. intros l Hl. apply list_elem_of_In in Hl.
    rewrite merge_sort_Permutation in Hl. apply list_elem_of_filter in Hl as [Hp Hl].
    apply list_elem_of_In, in_map_iff in Hl as ([k l'] & Heq & Hl). cbn in Heq. subst l'.
    apply list_elem_of_In, elem_of_map_to_list in Hl. by rewrite (Hk k l Hl). }
  induction Hs as [|a b la lb Hab Hs IH]; [constructor|].
  apply Forall_cons_1 in Hall as [Ha Hall]. apply load_same in Hab as ->.
  constructor; auto.
Qed.

(** Every row the condition selects is answered. *)
Lemma select_complete db p ls k l :
  select db p = Ok ls -> db !! k = Some l -> p l = true -> In l ls.
Proof.
  intros Hs Hl Hp. unfold select in Hs. apply rmap_Forall2 in Hs.
  assert (Hin : In l (merge_sort row_le (filter (fun l => p l = true) (map snd (map_to_list db))))).
  { apply list_elem_of_In. rewrite merge_sort_Permutation. apply list_elem_of_filter. split; [done|].
    apply list_elem_of_In, in_map_iff. exists (k, l). split; [done|].
    by apply list_elem_of_In, elem_of_map_to_list. }
  induction Hs as [|a b la lb Hab Hs IH]; [done|]. apply load_same in Hab as ->.
  destruct Hin as [->|Hin]; [by left|right; auto].
Qed.
