(* ===== verification/World.v ===== *)
(** The world the lease service runs in, and the monad of its operations.

    First the records exchanged with the Pod provider and the worker transport:
    [GPUProfile] ([models.py]), the provider's observations ([pod_capacity_provider.py])
    and the worker's status ([pod_transport.py]). An operation is a function from a world
    to a result and a world. The lease table is shared with other processes: before every
    transaction the host may apply their committed transactions ([h_interfere]).
    Provider, capability store, worker transport, clocks and task cancellation are
    answered by the [Host], indexed by the number of effects so far ([w_tick]), so each
    answer is independent of every other. Calls that reach outside are recorded with the
    table they were made on. *)
From S2P Require Import Prelude PyStr Enums Errors PyDecimal PyTime Json Placement ContractsBase Quote CatalogRequest Evidence Lease Row Repository.

#[local] Open Scope Z_scope.

(** ** [GPUProfile] *)

Record GPUProfile := {
  gp_id : string;
  gp_name : string;
  gp_task_type : string;
  gp_image_name : string;
  gp_container_disk_gb : Z;
  gp_volume_gb : Z;
  gp_ports : list string;
  gp_inference_port : Z;
  gp_inference_protocol : string;
  gp_inference_base_path : string;
  gp_image_invoke_path : option string;
  gp_default_model : option string;
  gp_pod_type : option string;
  gp_min_vram_gb : Z;
  gp_min_cuda_version : option string;
  gp_max_cost_per_hr : option Decimal;
  gp_gpu_count : Z;
  gp_cloud : CloudType;
  gp_allowed_gpu_ids : list string;
  gp_allowed_data_center_ids : list string;
  gp_max_context_window : option Z;
  gp_readiness_timeout_seconds : option Z;
  gp_registry_id : option string;
  gp_network_volume_id : option string;
  gp_volume_mount_path : option string;
  gp_persistent_pod_id : option string;
  gp_env : list (string * string)
}.

(** [GPUProfile.__post_init__]. *)
Definition check_profile (p : GPUProfile) : result unit :=
  run! require (1 <=? gp_container_disk_gb p) ValueError then
  run! require ((gp_volume_gb p =? 0) || (10 <=? gp_volume_gb p)) ValueError then
  run! require (1 <=? gp_min_vram_gb p) ValueError then
  run! require (1 <=? gp_gpu_count p) ValueError then
  require (option_all (fun m => dlt dzero m) (gp_max_cost_per_hr p)) ValueError.

(** ** Provider observations *)

Record TrainingPodObservation := {
  po_provider_pod_id : string;
  po_status : string;
  po_backend_base_url : option string
}.

Definition po_is_running (o : TrainingPodObservation) : bool :=
  bool_decide (upper (po_status o) = "RUNNING").
Definition po_is_stopped (o : TrainingPodObservation) : bool :=
  bool_decide (upper (po_status o) ∈ ["EXITED"; "STOPPED"; "TERMINATED"]).
Definition po_is_failed (o : TrainingPodObservation) : bool :=
  bool_decide (upper (po_status o) ∈ ["FAILED"; "ERROR"]).

Record CreatedTrainingPod := {
  cp_provider_pod_id : string;
  cp_placement : option PlacementDecision;
  cp_realized_placement : option PodRealizedPlacement
}.

(** ** Worker observations *)

Record CatalogPodWorkloadObservation := {
  wo_attempt_id : string;
  wo_request_sha256 : option string;
  wo_state : CatalogPodWorkloadState;
  wo_error_type : option string;
  wo_result_available : bool;
  wo_result_sha256 : option string;
  wo_receipt_sha256 : option string;
  wo_acknowledgement_sha256 : option string
}.

(** A status that carries a handoff. *)
Definition handoff_state (s : CatalogPodWorkloadState) : bool :=
  match s with W_AWAITING_ACK | W_ACKNOWLEDGED => true | _ => false end.

(** [CatalogPodWorkloadObservation.__post_init__]. *)
Definition check_observation (o : CatalogPodWorkloadObservation) : result unit :=
  run! require
    (forallb (option_all is_sha256)
       [wo_result_sha256 o; wo_receipt_sha256 o; wo_acknowledgement_sha256 o]) CatalogPodTransportError then
  run! require
    (negb (handoff_state (wo_state o)) ||
     (wo_result_available o && is_some (wo_request_sha256 o) && is_some (wo_result_sha256 o) &&
      is_some (wo_receipt_sha256 o))) CatalogPodTransportError then
  require
    (negb (bool_decide (wo_state o = W_ACKNOWLEDGED)) || is_some (wo_acknowledgement_sha256 o))
    CatalogPodTransportError.

(** ** The host's answers *)

(** [TrainingPodCapacityProvider]. *)
Record PodProvider := {
  pv_quote : nat -> PodCapacityQuoteRequest -> result PodCapacityQuote;
  pv_observe : nat -> string -> GPUProfile -> result TrainingPodObservation;
  pv_start : nat -> string -> Z -> result unit;
  pv_create : nat -> GPUProfile -> string -> string -> option (list (string * string)) ->
              option PodCapacitySpec -> result CreatedTrainingPod;
  pv_find_by_name : nat -> string -> result (option string);
  pv_find_exact : nat -> string -> PodCapacitySpec -> result (option CreatedTrainingPod);
  pv_stop : nat -> string -> result bool;
  pv_terminate : nat -> string -> result bool;
  pv_final_billing : nat -> string -> PodCapacitySpec -> instant -> instant -> Decimal ->
                     result (option PodBillingReceipt)
}.

(** [CatalogAttemptCapabilityStore]. *)
Record CapabilityStore := {
  cs_load_or_create : nat -> string -> instant -> result CatalogAttemptCapability;
  cs_load : nat -> string -> result (option CatalogAttemptCapability);
  cs_revoke : nat -> string -> result unit
}.

(** [CatalogPodWorkloadTransport]; the bearer is the capability's token. *)
Record WorkloadTransport := {
  wt_health : nat -> string -> result unit;
  wt_submit : nat -> string -> string -> string -> string -> list (string * json) ->
              result CatalogPodWorkloadObservation;
  wt_status : nat -> string -> string -> string -> string -> result CatalogPodWorkloadObservation;
  wt_result : nat -> string -> string -> string -> string -> option Z -> result (list (string * json));
  wt_acknowledge : nat -> string -> string -> string -> string -> list (string * json) ->
                   result CatalogPodWorkloadObservation;
  wt_recover_handoff : nat -> string -> string -> string -> string -> list (string * json) ->
                       result CatalogPodWorkloadObservation;
  wt_cancel : nat -> string -> string -> string -> string -> result unit
}.

(** [uuid.uuid5(NAMESPACE_URL, name)] as text. *)
Class NameUuid := { uuid5_url : string -> string }.

Record Host := {
  h_clock : nat -> instant;
  h_wall_clock : nat -> instant;
  h_interfere : nat -> database -> database;
  h_cancelled : nat -> bool;
  h_sleep : nat -> result unit;
  h_provider : PodProvider;
  h_capability_store : option CapabilityStore;
  h_workload_transport : option WorkloadTransport;
  h_status_observer : option (nat -> TrainingPodLease -> result (option string));
  h_profiles : list (string * GPUProfile);
  h_orphan_timeout : Z
}.

(** ** Worlds *)

(** An outside call. *)
Inductive call :=
  | CallQuote
  | CallObserve (pod_id : string)
  | CallStart (pod_id : string)
  | CallCreate (resource_name : string)
  | CallFind (resource_name : string)
  | CallStop (pod_id : string)
  | CallTerminate (pod_id : string)
  | CallBilling (pod_id : string)
  | CallCapability (attempt_id : string)
  | CallRevoke (attempt_id : string)
  | CallHealth (url : string)
  | CallSubmit (attempt_id request_sha256 : string)
  | CallStatus (attempt_id : string)
  | CallResult (attempt_id : string)
  | CallAcknowledge (attempt_id : string) (payload : list (string * json))
  | CallCancel (attempt_id : string)
  | CallObserver (cleanup_token : string)
  | CallSleep.

Record world := {
  w_db : database;
  w_tick : nat;
  w_trace : list (call * database)
}.

Definition M (A : Type) : Type := world -> result A * world.

Definition ret {A} (a : A) : M A := fun w => (Ok a, w).
Definition raise {A} (e : exn) : M A := fun w => (Exc e, w).
Definition lift {A} (r : result A) : M A := fun w => (r, w).

Definition bind {A B} (m : M A) (f : A -> M B) : M B := fun w =>
  match m w with
  | (Ok a, w') => f a w'
  | (Exc e, w') => (Exc e, w')
  end.

(** [try: m except ...]: [h] answers [None] for an exception it does not catch. *)
Definition catch {A} (m : M A) (h : exn -> option (M A)) : M A := fun w =>
  match m w with
  | (Exc e, w') => match h e with Some k => k w' | None => (Exc e, w') end
  | ok => ok
  end.

Declare Scope service_scope.
Delimit Scope service_scope with service.

Notation "'let*' x ':=' m 'in' k" := (bind m (fun x => k))
  (at level 10, x name, m at level 100, k at level 200,
   format "'[v' 'let*'  x  ':='  m  'in' '/' k ']'") : service_scope.
Notation "'run*' m 'then' k" := (bind m (fun _ => k))
  (at level 10, m at level 100, k at level 200,
   format "'[v' 'run*'  m  'then' '/' k ']'") : service_scope.

#[global] Open Scope service_scope.

Definition tick (w : world) : world := {| w_db := w_db w; w_tick := S (w_tick w); w_trace := w_trace w |}.

Section Primitives.
Context (H : Host).

(** [self._now()]. *)
Definition now : M instant := fun w => (Ok (h_clock H (w_tick w)), tick w).

(** An outside call: recorded, then answered. *)
Definition ask {A} (c : call) (f : nat -> result A) : M A := fun w =>
  (f (w_tick w),
   {| w_db := w_db w; w_tick := S (w_tick w); w_trace := (c, w_db w) :: w_trace w |}).

(** A transaction on the table the other processes left. *)
Definition transact {A} (f : instant -> database -> result A * database) : M A := fun w =>
  let '(r, db) := f (h_wall_clock H (w_tick w)) (h_interfere H (w_tick w) (w_db w)) in
  (r, {| w_db := db; w_tick := S (w_tick w); w_trace := w_trace w |}).

Definition query {A} (f : database -> result A) : M A := transact (fun _ db => (f db, db)).

(** [await_owned_effect]: the effect runs to its end; a cancellation that arrived
    meanwhile is raised after it, an error of the effect first. *)
Definition owned {A} (m : M A) : M A := fun w =>
  match m w with
  | (Ok a, w') => (if h_cancelled H (w_tick w') then Exc CancelledError else Ok a, tick w')
  | (Exc e, w') => (Exc e, w')
  end.

(** ** Repository operations *)

Definition repo_get (cleanup_token : string) : M (option TrainingPodLease) :=
  query (fun db => db_get db cleanup_token).

Definition repo_cas (lease : TrainingPodLease) (changes : list change) : M TrainingPodLease :=
  transact (fun wall db => compare_and_set db wall lease changes).

Definition repo_reserve `{Digest} (request : TrainingPodRequest) : M (TrainingPodLease * bool) :=
  transact (fun _ db => reserve db request).

End Primitives.
