(* ===== verification/Provider.v ===== *)
(** [RunpodPodCapacityProvider] ([pod_capacity_provider.py]): capacity operations over
    the direct v2 provider, and the live quote. *)
From Stdlib Require Import Ascii.
From S2P Require Import Prelude PyStr Enums Errors PyDecimal PyTime Json PyFloat.
From S2P Require Import Placement Billing ContractsBase CodecBase Quote CatalogRequest Evidence PodBilling.
From S2P Require Import Lease Row Repository World.
Import Placement.Placement.

#[local] Open Scope Z_scope.

Module Provider.

(** ** Python values in provider payloads *)

Abbreviation payload := (list (string * json)).

(** Truth value of a JSON value. *)
Definition truthy_json (v : json) : bool :=
  match v with
  | JNull => false
  | JBool b => b
  | JInt z => negb (z =? 0)
  | JFloat d => negb (deqb d dzero)
  | JStr s => negb (bool_decide (s = ""))
  | JList l => match l with [] => false | _ => true end
  | JObj l => match l with [] => false | _ => true end
  end.

(** [a.get(x) or a.get(y)]. *)
Definition field_or (p : payload) (first second : string) : json :=
  if truthy_json (get_field p first) then get_field p first else get_field p second.

(** Digits of [int(text)], single underscores between digits allowed. *)
Fixpoint int_digits (acc : Z) (l : list ascii) : option Z :=
  match l with
  | [] => Some acc
  | c :: r =>
      if is_digit c then int_digits (acc * 10 + (code c - 48)) r
      else if code c =? 95 then
        match r with
        | d :: r' => if is_digit d then int_digits (acc * 10 + (code d - 48)) r' else None
        | [] => None
        end
      else None
  end.

(** [int(text)] of ASCII text. *)
Definition py_int_text (s : string) : option Z :=
  let '(neg, body) := split_sign (chars (strip s)) in
  match body with
  | c :: _ =>
      if is_digit c then
        match int_digits 0 body with
        | Some z => Some (if neg then - z else z)
        | None => None
        end
      else None
  | [] => None
  end.

(** [int(value)] of a string or an integer that is no boolean; [None] where the
    source catches [TypeError] or [ValueError]. *)
Definition int_of (v : json) : option Z :=
  match v with JInt z => Some z | JStr s => py_int_text s | _ => None end.

(** ** The direct provider ([providers.py]) *)

(** Keyed by the profile and metadata it is given, [start_pod] answers the created
    Pod's payload and its placement: absent, an object of another type, or a
    decision. *)
Inductive placement_value :=
  | PlacementAbsent
  | PlacementInvalid
  | PlacementGiven (p : PlacementDecision).

Record start_metadata := {
  sm_name : string;
  sm_companion_id : string;
  sm_purpose : string;
  sm_env_overrides : option (list (string * string))
}.

Record DirectProvider := {
  dp_list_gpus : Z -> CloudType -> option string -> result (list GPUOffer);
  dp_get_status : string -> result payload;
  dp_resume_pod : string -> Z -> result unit;
  dp_start_pod : GPUProfile -> start_metadata -> result (payload * placement_value);
  dp_list_pods : result (list payload);
  dp_stop_pod : string -> result payload;
  dp_terminate_pod : string -> result payload;
  dp_pod_billing : string -> string -> string -> string -> result PodBilling.BillingPage
}.

(** ** Payload readers *)

(** One entry of the runtime ports: the route of the workload port. *)
Definition port_url (pod_id : string) (profile : GPUProfile) (item : payload) : result (option string) :=
  if bool_decide (int_of (field_or item "private" "privatePort") = Some (gp_inference_port profile)) then
    if match get_field item "type" with JStr t => bool_decide (lower t = "http") | _ => false end then
      Ok (Some ("https://" ++ pod_id ++ "-" ++ int_text (gp_inference_port profile) ++ ".proxy.runpod.net"))
    else
      let public := field_or item "public" "publicPort" in
      match get_field item "ip", public with
      | JStr ip, (JStr _ | JInt _) =>
          let protocol := lower (strip (gp_inference_protocol profile)) in
          run! require (bool_decide (protocol ∈ ["http"; "https"])) RunPodManagerError then
          let! port := of_option (int_of public) ValueError in
          Ok (Some (protocol ++ "://" ++ ip ++ ":" ++ int_text port))
      | _, _ => Ok None
      end
  else Ok None.

Fixpoint ports_url (pod_id : string) (profile : GPUProfile) (ports : list json) : result (option string) :=
  match ports with
  | [] => Ok None
  | JObj item :: rest =>
      let! url := port_url pod_id profile item in
      match url with
      | Some u => Ok (Some u)
      | None => ports_url pod_id profile rest
      end
  | _ :: rest => ports_url pod_id profile rest
  end.

(** [_pod_base_url]. *)
Definition pod_base_url (pod_id : string) (p : payload) (profile : GPUProfile) : result (option string) :=
  match get_field p "runtime" with
  | JObj runtime =>
      match get_field runtime "ports" with
      | JList ports => ports_url pod_id profile ports
      | _ => Ok None
      end
  | _ => Ok None
  end.

(** [_provider_decimal]. *)
Definition provider_decimal (v : json) : result Decimal :=
  let! d := of_option (Billing.number_decimal v) RunPodManagerError in
  run! require (nonnegative_amount d) RunPodManagerError then Ok d.

(** [_validate_realized_placement]. *)
Definition validate_realized_placement (placement : option PlacementDecision) (spec : PodCapacitySpec)
  : result unit :=
  let quote := rq_quote (sp_request spec) in
  match placement with
  | None => Exc RunPodAmbiguousResultError
  | Some p =>
      require
        (bool_decide (pd_gpu_id p = q_gpu_type_id quote) &&
         (pd_gpu_count p =? cc_gpu_count (q_constraints quote)) &&
         bool_decide (pd_cloud p = cc_cloud (q_constraints quote)) &&
         negb (dlt (q_hourly_cost_usd quote) (pd_offered_cost_per_hr p))) RunPodManagerError
  end.

(** [_validate_recovery_payload]: the Pod found under the deterministic name has the
    request's immutable shape. *)
Definition validate_recovery_payload (p : payload) (resource_name : string) (spec : PodCapacitySpec)
  : result unit :=
  let request := sp_request spec in
  match get_field p "gpu" with
  | JObj gpu =>
      let quote := rq_quote request in
      require
        (py_eq (get_field p "name") (JStr resource_name) &&
         py_eq (field_or p "image" "imageName") (JStr (rq_image_reference request)) &&
         py_eq (get_field gpu "id") (JStr (q_gpu_type_id quote)) &&
         (default 0 (int_of (get_field gpu "count")) =? cc_gpu_count (q_constraints quote)) &&
         py_eq (get_field p "cloud") (JStr (cloud_value (cc_cloud (q_constraints quote)))))
        RunPodManagerError
  | _ => Exc RunPodManagerError
  end.

(** A [ValueError] of the enclosed construction is a placement mismatch. *)
Definition as_mismatch {A} (r : result A) : result A :=
  match r with Exc ValueError => Exc RunPodManagerError | _ => r end.

(** [_realized_placement]. It runs after [_validate_recovery_payload], so the GPU's
    identifier is text. *)
Definition realized_placement (p : payload) (pod_id : string) (spec : PodCapacitySpec) (observed_at : instant)
  : result PodRealizedPlacement :=
  match get_field p "gpu" with
  | JObj gpu =>
      let! gpu_count := of_option (int_of (get_field gpu "count")) RunPodManagerError in
      match get_field p "dataCenterId", get_field p "cloud", get_field gpu "id" with
      | JStr data_center, JStr raw_cloud, JStr gpu_id =>
          run! require (negb (blank data_center)) RunPodManagerError then
          let! cloud := of_option (of_value (upper raw_cloud)) RunPodManagerError in
          let! rate := provider_decimal (get_field p "cost") in
          let quote := rq_quote (sp_request spec) in
          as_mismatch
            (let! realized := mk_realized {|
               rp_provider_pod_id := pod_id;
               rp_gpu_type_id := gpu_id;
               rp_gpu_display_name := q_gpu_display_name quote;
               rp_gpu_count := gpu_count;
               rp_cloud := cloud;
               rp_data_center_id := data_center;
               rp_hourly_rate_usd := rate;
               rp_observed_at := observed_at
             |} in
             run! validate_against realized quote then Ok realized)
      | _, _, _ => Exc RunPodManagerError
      end
  | _ => Exc RunPodManagerError
  end.

(** A non-empty text field. *)
Definition nonempty (v : json) : option string :=
  match v with JStr s => if bool_decide (s = "") then None else Some s | _ => None end.

(** ** Operations *)

Section Operations.
Context `{Digest}.
Context (dp : DirectProvider).

(** [quote]; [observed_at] is the clock after the catalog answered. *)
Definition quote (request : PodCapacityQuoteRequest) (observed_at : instant) : result PodCapacityQuote :=
  let! requirements := placement_requirements (qr_constraints request) in
  let! offers := dp_list_gpus dp (pr_gpu_count requirements) (pr_cloud requirements)
                   (pr_min_cuda_version requirements) in
  let! placement := select_gpu offers requirements observed_at in
  let hourly := pd_offered_cost_per_hr placement in
  let estimated_seconds := qr_estimated_startup_seconds request + qr_estimated_execution_seconds request in
  let! estimated := pod_cost_usd DEFAULT_PREC hourly estimated_seconds (pd_gpu_count placement) in
  let! ceiling := pod_cost_usd DEFAULT_PREC hourly (qr_maximum_runtime_seconds request) (pd_gpu_count placement) in
  let identity :=
    JObj [("capability_version", JStr "runpod-pod-capacity-v1");
          ("workload_kind", JStr (qr_workload_kind request));
          ("parameters_sha256", JStr (qr_parameters_sha256 request));
          ("gpu_type_id", JStr (pd_gpu_id placement));
          ("gpu_display_name", JStr (pd_gpu_name placement));
          ("hourly_cost_usd", jdec hourly);
          ("estimated_cost_usd", jdec estimated);
          ("cost_ceiling_usd", jdec ceiling);
          ("estimated_startup_seconds", JInt (qr_estimated_startup_seconds request));
          ("estimated_execution_seconds", JInt (qr_estimated_execution_seconds request));
          ("maximum_runtime_seconds", JInt (qr_maximum_runtime_seconds request));
          ("observed_at", jtime observed_at);
          ("constraints", JObj (constraints_to_dict (qr_constraints request)))] in
  mk_quote {|
    q_schema_version := 3;
    q_capability_version := "runpod-pod-capacity-v1";
    q_provider_quote_id := "runpod-pod:" ++ json_sha256 identity;
    q_workload_kind := qr_workload_kind request;
    q_parameters_sha256 := qr_parameters_sha256 request;
    q_constraints := qr_constraints request;
    q_gpu_type_id := pd_gpu_id placement;
    q_gpu_display_name := pd_gpu_name placement;
    q_hourly_cost_usd := hourly;
    q_estimated_cost_usd := estimated;
    q_cost_ceiling_usd := ceiling;
    q_estimated_startup_seconds := qr_estimated_startup_seconds request;
    q_estimated_execution_seconds := qr_estimated_execution_seconds request;
    q_maximum_runtime_seconds := qr_maximum_runtime_seconds request;
    q_observed_at := observed_at;
    q_expires_at := observed_at + seconds (qr_quote_ttl_seconds request);
    q_placement := placement
  |}.

(** [observe]. *)
Definition observe (pod_id : string) (profile : GPUProfile) : result TrainingPodObservation :=
  let! raw := dp_get_status dp pod_id in
  let! status := of_option (nonempty (field_or raw "status" "desiredStatus")) RunPodManagerError in
  let! url := pod_base_url pod_id raw profile in
  Ok {| po_provider_pod_id := pod_id; po_status := status; po_backend_base_url := url |}.

(** [start]. *)
Definition start (pod_id : string) (gpu_count : Z) : result unit := dp_resume_pod dp pod_id gpu_count.

(** [replace(profile, ...)] of a catalog attempt: exactly the accepted GPU at no more
    than the quoted rate. *)
Definition attempt_profile (profile : GPUProfile) (request : CatalogPodCapacityRequest) : result GPUProfile :=
  let quote := rq_quote request in
  let constraints := q_constraints quote in
  let p := {|
    gp_id := gp_id profile;
    gp_name := gp_name profile;
    gp_task_type := gp_task_type profile;
    gp_image_name := rq_image_reference request;
    gp_container_disk_gb := gp_container_disk_gb profile;
    gp_volume_gb := gp_volume_gb profile;
    gp_ports := gp_ports profile;
    gp_inference_port := gp_inference_port profile;
    gp_inference_protocol := gp_inference_protocol profile;
    gp_inference_base_path := gp_inference_base_path profile;
    gp_image_invoke_path := gp_image_invoke_path profile;
    gp_default_model := gp_default_model profile;
    gp_pod_type := gp_pod_type profile;
    gp_min_vram_gb := cc_min_vram_gb constraints;
    gp_min_cuda_version := cc_min_cuda_version constraints;
    gp_max_cost_per_hr := Some (float_of_decimal (q_hourly_cost_usd quote));
    gp_gpu_count := cc_gpu_count constraints;
    gp_cloud := cc_cloud constraints;
    gp_allowed_gpu_ids := [q_gpu_type_id quote];
    gp_allowed_data_center_ids := cc_allowed_data_center_ids constraints;
    gp_max_context_window := gp_max_context_window profile;
    gp_readiness_timeout_seconds := gp_readiness_timeout_seconds profile;
    gp_registry_id := gp_registry_id profile;
    gp_network_volume_id := gp_network_volume_id profile;
    gp_volume_mount_path := gp_volume_mount_path profile;
    gp_persistent_pod_id := gp_persistent_pod_id profile;
    gp_env := []
  |} in
  run! check_profile p then Ok p.

(** The profile and purpose [create] starts with. *)
Definition effective_profile (profile : GPUProfile) (spec : option PodCapacitySpec)
  : result (GPUProfile * string) :=
  match spec with
  | None => Ok (profile, "lora_training")
  | Some s =>
      let request := sp_request s in
      run! require (negb (truthy (gp_network_volume_id profile)) && (gp_volume_gb profile =? 0))
        RunPodManagerError then
      let! p := attempt_profile profile request in
      Ok (p, rq_workload_kind request)
  end.

(** The validation of a created catalog Pod: any manager error becomes the mismatch
    that carries the Pod's ID. *)
Definition validate_created (created : payload) (placement : option PlacementDecision)
  (pod_id resource_name : string) (spec : PodCapacitySpec) (observed_at : instant)
  : result PodRealizedPlacement :=
  match
    (run! validate_realized_placement placement spec then
     run! validate_recovery_payload created resource_name spec then
     realized_placement created pod_id spec observed_at)
  with
  | Exc e => Exc (if is_manager_error e then created_mismatch pod_id else e)
  | ok => ok
  end.

(** [create]; [observed_at] is the clock after the Pod was created. *)
Definition create (profile : GPUProfile) (resource_name companion_id : string)
  (environment : option (list (string * string))) (spec : option PodCapacitySpec) (observed_at : instant)
  : result CreatedTrainingPod :=
  let! effective := effective_profile profile spec in
  let! answer := dp_start_pod dp (fst effective)
    {| sm_name := resource_name; sm_companion_id := companion_id; sm_purpose := snd effective;
       sm_env_overrides := environment |} in
  let '(created, value) := answer in
  let! pod_id := of_option (nonempty (field_or created "id" "podId")) RunPodAmbiguousResultError in
  let! placement :=
    match value with
    | PlacementAbsent => Ok None
    | PlacementInvalid => Exc RunPodAmbiguousResultError
    | PlacementGiven p => Ok (Some p)
    end in
  let! realized := opt_result (fun s => validate_created created placement pod_id resource_name s observed_at) spec in
  Ok {| cp_provider_pod_id := pod_id; cp_placement := placement; cp_realized_placement := realized |}.

(** The Pods of the account under a name. *)
Definition named (resource_name : string) (pods : list payload) : list payload :=
  List.filter (fun p => py_eq (get_field p "name") (JStr resource_name)) pods.

(** [find_by_name]. *)
Definition find_by_name (resource_name : string) : result (option string) :=
  let! pods := dp_list_pods dp in
  match named resource_name pods with
  | [] => Ok None
  | [p] => let! pod_id := of_option (nonempty (get_field p "id")) RunPodManagerError in Ok (Some pod_id)
  | _ => Exc RunPodManagerError
  end.

(** [find_exact]. *)
Definition find_exact (resource_name : string) (spec : PodCapacitySpec) (observed_at : instant)
  : result (option CreatedTrainingPod) :=
  let! pods := dp_list_pods dp in
  match named resource_name pods with
  | [] => Ok None
  | [p] =>
      run! validate_recovery_payload p resource_name spec then
      let! pod_id := of_option (nonempty (get_field p "id")) RunPodManagerError in
      let! realized := realized_placement p pod_id spec observed_at in
      Ok (Some {| cp_provider_pod_id := pod_id; cp_placement := None; cp_realized_placement := Some realized |})
  | _ => Exc RunPodManagerError
  end.

(** A status among the given ones. *)
Definition status_in (v : json) (statuses : list string) : bool :=
  match v with JStr s => bool_decide (upper s ∈ statuses) | _ => false end.

(** [stop]: requested, then confirmed by the answer or by one status read. *)
Definition stop (pod_id : string) : result bool :=
  match dp_stop_pod dp pod_id with
  | Exc e => if is_not_found e then Ok true else Exc e
  | Ok result_ =>
      if status_in (field_or result_ "status" "desiredStatus") ["EXITED"; "STOPPED"; "TERMINATED"] then Ok true
      else
        match dp_get_status dp pod_id with
        | Exc e => if is_not_found e then Ok true else Exc e
        | Ok raw =>
            let! status := of_option (nonempty (field_or raw "status" "desiredStatus")) RunPodManagerError in
            Ok (bool_decide (upper status ∈ ["EXITED"; "STOPPED"; "TERMINATED"]))
        end
  end.

(** [terminate]. *)
Definition terminate (pod_id : string) : result bool :=
  match dp_terminate_pod dp pod_id with
  | Exc e => if is_not_found e then Ok true else Exc e
  | Ok result_ =>
      if status_in (field_or result_ "status" "desiredStatus") ["TERMINATED"] then Ok true
      else
        match dp_get_status dp pod_id with
        | Exc e => if is_not_found e then Ok true else Exc e
        | Ok observed => Ok (status_in (field_or observed "status" "desiredStatus") ["TERMINATED"; "EXITED"])
        end
  end.

(** [final_billing]. *)
Definition final_billing (pod_id : string) (created_at terminated_at : instant) (rate : Decimal)
  (now later : instant) : result (option PodBillingReceipt) :=
  PodBilling.read_exact_pod_billing DEFAULT_PREC (dp_pod_billing dp) pod_id created_at terminated_at rate now later.

End Operations.

(** The lease service's provider: at effect [n] the control plane answers as [dp n]
    and the provider's clock reads [clock n], then [later n]. *)
Definition capacity_provider `{Digest} (dp : nat -> DirectProvider) (clock later : nat -> instant)
  : PodProvider := {|
  pv_quote n := fun request => quote (dp n) request (clock n);
  pv_observe n := observe (dp n);
  pv_start n := start (dp n);
  pv_create n := fun profile name companion environment spec =>
    create (dp n) profile name companion environment spec (clock n);
  pv_find_by_name n := find_by_name (dp n);
  pv_find_exact n := fun name spec => find_exact (dp n) name spec (clock n);
  pv_stop n := stop (dp n);
  pv_terminate n := terminate (dp n);
  pv_final_billing n := fun pod _ created terminated rate =>
    final_billing (dp n) pod created terminated rate (clock n) (later n)
|}.

End Provider.
