(* ===== verification/ServiceCore.v ===== *)
(** [PodCapacityLeaseService]: lookups, evidence transitions, settlement and
    teardown ([pod_capacity_service.py]).

    Definitions keep the method's name, less the leading underscore. A [while True]
    loop around [compare_and_set] takes [fuel]; [RepositoryProperties] says when one
    iteration suffices and when no number does. *)
From S2P Require Import Prelude PyStr Enums Errors PyDecimal PyTime Json ContractsBase.
From S2P Require Import Quote CatalogRequest Evidence Lease Row Repository World.
From Stdlib Require Import Ascii.

#[local] Open Scope Z_scope.

(** ** Lifecycle fields *)

(** The optional timestamps of [PodCapacityLifecycleEvidence], as [replace] names them. *)
Inductive lifecycle_field :=
  | F_provider_create_accepted_at | F_provider_adopted_at | F_first_running_observed_at
  | F_worker_ready_at | F_workload_submitted_at | F_workload_running_at
  | F_workload_terminal_at | F_stop_confirmed_at | F_billing_reconciled_at.

#[export] Instance lifecycle_field_dec : EqDecision lifecycle_field.
Proof. solve_decision. Defined.

Definition lc_get (l : PodCapacityLifecycleEvidence) (f : lifecycle_field) : option instant :=
  match f with
  | F_provider_create_accepted_at => lc_provider_create_accepted_at l
  | F_provider_adopted_at => lc_provider_adopted_at l
  | F_first_running_observed_at => lc_first_running_observed_at l
  | F_worker_ready_at => lc_worker_ready_at l
  | F_workload_submitted_at => lc_workload_submitted_at l
  | F_workload_running_at => lc_workload_running_at l
  | F_workload_terminal_at => lc_workload_terminal_at l
  | F_stop_confirmed_at => lc_stop_confirmed_at l
  | F_billing_reconciled_at => lc_billing_reconciled_at l
  end.

Definition first_of (old new : option instant) : option instant :=
  match old with Some t => Some t | None => new end.

(** A field keeps its first observation. *)
Definition lc_first (l : PodCapacityLifecycleEvidence) (f : lifecycle_field) (v : instant)
  : PodCapacityLifecycleEvidence :=
  let pick (g : lifecycle_field) := if bool_decide (f = g) then first_of (lc_get l g) (Some v) else lc_get l g in
  {|
    lc_reservation_at := lc_reservation_at l;
    lc_provider_create_accepted_at := pick F_provider_create_accepted_at;
    lc_provider_adopted_at := pick F_provider_adopted_at;
    lc_first_running_observed_at := pick F_first_running_observed_at;
    lc_worker_ready_at := pick F_worker_ready_at;
    lc_workload_submitted_at := pick F_workload_submitted_at;
    lc_workload_running_at := pick F_workload_running_at;
    lc_workload_terminal_at := pick F_workload_terminal_at;
    lc_stop_confirmed_at := pick F_stop_confirmed_at;
    lc_billing_reconciled_at := pick F_billing_reconciled_at
  |}.

Definition lifecycle_values := list (lifecycle_field * instant).

(** [replace(lifecycle, **first_values)], validated when there are values. *)
Definition record_first (l : PodCapacityLifecycleEvidence) (values : lifecycle_values)
  : result PodCapacityLifecycleEvidence :=
  match values with
  | [] => Ok l
  | _ => mk_lifecycle (fold_left (fun acc p => lc_first acc (fst p) (snd p)) values l)
  end.

(** ** Evidence updates *)

(** [_EVIDENCE_UNSET] is [None]. *)
Record evidence_update := {
  eu_lifecycle : lifecycle_values;
  eu_realized_placement : option (option PodRealizedPlacement);
  eu_worker : option CatalogWorkerEvidence;
  eu_billing : option PodBillingReceipt
}.

Definition no_evidence : evidence_update :=
  {| eu_lifecycle := []; eu_realized_placement := None; eu_worker := None; eu_billing := None |}.
Definition with_lifecycle (values : lifecycle_values) : evidence_update :=
  {| eu_lifecycle := values; eu_realized_placement := None; eu_worker := None; eu_billing := None |}.

(** Keep what is recorded; refuse a different value. *)
Definition keep_first {A} (eqb : A -> A -> bool) (old : option A) (new : option A) : result (option A) :=
  match new with
  | None => Ok old
  | Some v =>
      match old with
      | Some o => if eqb o v then Ok (Some o) else Exc TrainingPodConflictError
      | None => Ok (Some v)
      end
  end.

Definition update_evidence (evidence : PodCapacityEvidence) (u : evidence_update)
  : result PodCapacityEvidence :=
  let! lifecycle := record_first (ev_lifecycle evidence) (eu_lifecycle u) in
  let! realized :=
    match eu_realized_placement u with
    | None => Ok (ev_realized_placement evidence)
    | Some None => Exc RunPodManagerError
    | Some (Some p) => keep_first realized_eqb (ev_realized_placement evidence) (Some p)
    end in
  let! worker := keep_first worker_eqb (ev_worker evidence) (eu_worker u) in
  let! billing := keep_first receipt_eqb (ev_billing evidence) (eu_billing u) in
  mk_evidence {|
    ev_schema_version := ev_schema_version evidence;
    ev_capacity_id := ev_capacity_id evidence;
    ev_resource_name := ev_resource_name evidence;
    ev_provider_quote_id := ev_provider_quote_id evidence;
    ev_catalog_observed_at := ev_catalog_observed_at evidence;
    ev_attempt_id := ev_attempt_id evidence;
    ev_request_sha256 := ev_request_sha256 evidence;
    ev_image_digest := ev_image_digest evidence;
    ev_accepted_gpu_type_id := ev_accepted_gpu_type_id evidence;
    ev_accepted_gpu_display_name := ev_accepted_gpu_display_name evidence;
    ev_accepted_gpu_count := ev_accepted_gpu_count evidence;
    ev_accepted_cloud := ev_accepted_cloud evidence;
    ev_accepted_hourly_rate_usd := ev_accepted_hourly_rate_usd evidence;
    ev_lifecycle := lifecycle;
    ev_realized_placement := realized;
    ev_worker := worker;
    ev_billing := billing
  |}.

(** The changes [_transition_with_evidence] persists on a row. *)
Definition evidence_changes (current : TrainingPodLease) (changes : list change) (u : evidence_update)
  : result (list change) :=
  match ls_evidence current with
  | None => Ok changes
  | Some evidence => let! updated := update_evidence evidence u in Ok (changes ++ [SetEvidence (Some updated)])%list
  end.

(** ** Errors *)

Definition lifecycle_fields (operation : string) (lease : TrainingPodLease) (billing_risk : bool)
  : lifecycle_info := {|
  le_operation := operation;
  le_cleanup_token := ls_cleanup_token lease;
  le_pod_id := ls_provider_pod_id lease;
  le_cleanup_state := ls_cleanup_state lease;
  le_billing_risk := billing_risk
|}.

Definition cleanup_error (reason : string) (lease : TrainingPodLease) : exn :=
  TrainingPodCleanupError (lifecycle_fields reason lease true).

Definition lifecycle_error (operation : string) (lease : TrainingPodLease) (billing_risk : bool) : exn :=
  TrainingPodLifecycleError (lifecycle_fields operation lease billing_risk).

(** ** Pure parts of the service *)

(** [_capacity_spec]. *)
Definition capacity_spec (lease : TrainingPodLease) : result PodCapacitySpec :=
  of_option (ls_capacity_spec lease) RunPodManagerError.

(** [_pod_id]: an empty identifier counts as missing. *)
Definition pod_id (lease : TrainingPodLease) : result string :=
  match ls_provider_pod_id lease with
  | Some p => if bool_decide (p = "") then Exc RunPodManagerError else Ok p
  | None => Exc RunPodManagerError
  end.

(** [_route]. *)
Definition route (lease : TrainingPodLease) : result string :=
  match ls_backend_base_url lease with
  | Some u => if bool_decide (u = "") then Exc RunPodManagerError else Ok u
  | None => Exc RunPodManagerError
  end.

(** [_catalog_result_ready]. *)
Definition catalog_result_ready (lease : TrainingPodLease) : result bool :=
  let! spec := capacity_spec lease in
  Ok (match rq_artifact_handoff_protocol_version (sp_request spec) with
      | None => bool_decide (ls_workload_state lease = W_SUCCEEDED)
      | Some _ => handoff_state (ls_workload_state lease)
      end).

(** [_require_legacy_training_mutation]. *)
Definition require_legacy_training_mutation (lease : TrainingPodLease) : result unit :=
  require (negb (bool_decide (protocol_of lease = Some 1))) RunPodManagerError.

(** [_validate_capability]. *)
Definition validate_capability (request : CatalogPodCapacityRequest) (capability : CatalogAttemptCapability)
  : result unit :=
  require (cap_expires_at capability =? rq_bearer_expires_at request) RunPodManagerError.

Definition NUL : string := String (ascii_of_N 0) EmptyString.

Section Service.
Context {dg : Digest} {nu : NameUuid}.
Context (H : Host) (fuel : nat).

Definition require_capability_store : result CapabilityStore :=
  of_option (h_capability_store H) RunPodManagerError.
Definition require_workload_transport : result WorkloadTransport :=
  of_option (h_workload_transport H) RunPodManagerError.

Fixpoint assoc {A} (l : list (string * A)) (k : string) : option A :=
  match l with
  | [] => None
  | (k', a) :: r => if bool_decide (k' = k) then Some a else assoc r k
  end.

(** [_profile]. *)
Definition profile (profile_id : string) : result GPUProfile :=
  of_option (assoc (h_profiles H) profile_id) RunPodManagerError.

(** [_required]. *)
Definition required (cleanup_token : string) : M TrainingPodLease :=
  let* found := repo_get H cleanup_token in lift (of_option found RunPodManagerError).

(** [_zero_cost_receipt]. *)
Definition zero_cost_receipt (lease : TrainingPodLease) (reason : string) : M PodBillingReceipt :=
  let* spec := lift (capacity_spec lease) in
  let* t := now H in
  let digest :=
    sha256_hex (ls_cleanup_token lease ++ NUL ++ reason ++ NUL ++ ls_request_fingerprint lease) in
  lift (mk_receipt {|
    rc_provider_billing_id := "runpod-no-pod:" ++ digest;
    rc_provider_pod_id := None;
    rc_billed_from := t;
    rc_billed_until := t;
    rc_billed_seconds := 0;
    rc_hourly_price_usd := authorized_rate (rq_quote (sp_request spec));
    rc_actual_cost_usd := of_int 0;
    rc_reconciled_at := t
  |}).

(** [_transition_nonterminal]. *)
Fixpoint transition_nonterminal (n : nat) (current : TrainingPodLease) (changes : list change)
  : M TrainingPodLease :=
  if is_terminal current then ret current
  else
    match n with
    | O => raise OutOfFuel
    | S n' =>
        catch (repo_cas H current changes) (fun e =>
          if is_conflict_error e then Some
            (let* again := required (ls_cleanup_token current) in
             transition_nonterminal n' again changes)
          else None)
    end.

(** [_transition_with_evidence]. *)
Fixpoint transition_with_evidence (n : nat) (current : TrainingPodLease) (changes : list change)
  (u : evidence_update) (expected_states : option (list TrainingPodState)) (retry_on_conflict : bool)
  : M TrainingPodLease :=
  if is_terminal current then ret current
  else
    if match expected_states with
       | Some states => negb (bool_decide (ls_state current ∈ states))
       | None => false
       end
    then ret current
    else
      match n with
      | O => raise OutOfFuel
      | S n' =>
          let* persisted := lift (evidence_changes current changes u) in
          catch (repo_cas H current persisted) (fun e =>
            if is_conflict_error e && retry_on_conflict then Some
              (let* again := required (ls_cleanup_token current) in
               transition_with_evidence n' again changes u expected_states retry_on_conflict)
            else None)
      end.

Definition transition (lease : TrainingPodLease) (changes : list change) (u : evidence_update)
  : M TrainingPodLease := transition_with_evidence fuel lease changes u None true.

Definition nonterminal (lease : TrainingPodLease) (changes : list change) : M TrainingPodLease :=
  transition_nonterminal fuel lease changes.

(** [_release_unowned_claim]. *)
Definition release_unowned_claim (lease : TrainingPodLease) (error : option exn) : M TrainingPodLease :=
  let* t := now H in
  nonterminal lease
    [SetOwnership PREEXISTING_RUNNING;
     SetState RELEASED;
     SetCleanupState CLEANUP_NOT_OWNED;
     SetBackendBaseUrl None;
     SetLastProviderError (sanitize_training_error <$> error);
     SetLastHeartbeatAt t].

(** [_record_retryable_failure]. *)
Definition record_retryable_failure (lease : TrainingPodLease) (error : exn)
  (creation_uncertain : option bool) : M TrainingPodLease :=
  let* current := required (ls_cleanup_token lease) in
  if is_terminal current then ret current
  else
    let* t := now H in
    nonterminal current
      ([SetState RECONCILE_REQUIRED;
        SetCleanupState CLEANUP_RETRYABLE_FAILURE;
        SetLastProviderError (Some (sanitize_training_error error));
        SetLastHeartbeatAt t] ++
       match creation_uncertain with Some b => [SetCreationUncertain b] | None => [] end)%list.

(** [_revoke_and_release]. *)
Definition revoke_and_release (lease : TrainingPodLease) : M TrainingPodLease :=
  run* lift (require (bool_decide (ls_billing_state lease = BILLING_AUTHORITATIVE)) RunPodManagerError) then
  let* store := lift require_capability_store in
  let* spec := lift (capacity_spec lease) in
  let attempt := rq_attempt_id (sp_request spec) in
  run* ask (CallRevoke attempt) (fun n => cs_revoke store n attempt) then
  let* current := required (ls_cleanup_token lease) in
  if is_terminal current then ret current
  else
    let* t := now H in
    repo_cas H current [SetState RELEASED; SetLastHeartbeatAt t].

(** The receipt [_reconcile_billing] settles with, or the lease it returns without
    settling. *)
Definition billing_receipt_for (lease : TrainingPodLease)
  : M (TrainingPodLease + PodBillingReceipt) :=
  let unresolved (text : string) :=
    let* l := repo_cas H lease [SetBillingState BILLING_UNRESOLVED; SetLastProviderError (Some text)] in
    ret (inl l) in
  match ls_provider_pod_id lease with
  | None =>
      if ls_creation_uncertain lease then unresolved "AmbiguousCreateBillingUnresolved"
      else
        let* r := zero_cost_receipt lease "no-provider-capacity" in ret (inr r)
  | Some pod =>
      match ls_terminated_at lease with
      | None => raise RunPodManagerError
      | Some terminated_at =>
          match ls_evidence lease ≫= ev_realized_placement with
          | None => unresolved "RealizedPlacementBillingUnresolved"
          | Some realized =>
              if negb (bool_decide (rp_provider_pod_id realized = pod))
              then unresolved "RealizedPlacementBillingUnresolved"
              else
                let* spec := lift (capacity_spec lease) in
                let* found := ask (CallBilling pod) (fun n =>
                  pv_final_billing (h_provider H) n pod spec (ls_created_at lease) terminated_at
                    (rp_hourly_rate_usd realized)) in
                match found with
                | None =>
                    if bool_decide (ls_billing_state lease = BILLING_PENDING) then ret (inl lease)
                    else
                      let* l := repo_cas H lease [SetBillingState BILLING_PENDING] in ret (inl l)
                | Some r =>
                    run* lift (require (bool_decide (rc_provider_pod_id r = Some pod)) RunPodManagerError) then
                    run* lift (require (terminated_at <=? rc_billed_until r) RunPodManagerError) then
                    run* lift (require (deqb (rc_hourly_price_usd r) (rp_hourly_rate_usd realized))
                                 RunPodManagerError) then
                    ret (inr r)
                end
          end
      end
  end.

(** [_reconcile_billing]. *)
Definition reconcile_billing (lease : TrainingPodLease) : M TrainingPodLease :=
  if negb (is_catalog_attempt lease) then ret lease
  else if bool_decide (ls_billing_state lease = BILLING_AUTHORITATIVE) then revoke_and_release lease
  else
    let* outcome := billing_receipt_for lease in
    match outcome with
    | inl l => ret l
    | inr receipt =>
        let reconciled_at := rc_reconciled_at receipt in
        let* reconciled := catch
          (transition lease
             [SetBillingState BILLING_AUTHORITATIVE;
              SetBillingReceipt (Some receipt);
              SetLastProviderError None;
              SetLastHeartbeatAt reconciled_at]
             {| eu_lifecycle := [(F_billing_reconciled_at, reconciled_at)];
                eu_realized_placement := None; eu_worker := None; eu_billing := Some receipt |})
          (fun e =>
             if is_conflict_error e then Some
               (let* current := required (ls_cleanup_token lease) in
                if bool_decide (ls_billing_state current = BILLING_AUTHORITATIVE)
                then ret current else raise e)
             else None) in
        revoke_and_release reconciled
    end.

(** [_resolve_uncertain_creation]. *)
Definition resolve_uncertain_creation (lease : TrainingPodLease) (reason : string) : M TrainingPodLease :=
  let settle (recovered : option (string * option (option PodRealizedPlacement))) : M TrainingPodLease :=
    match recovered with
    | Some (pod, realized) =>
        let* adopted_at := now H in
        transition lease
          [SetProviderPodId (Some pod);
           SetOwnership OWNED;
           SetCreationUncertain false;
           SetState RECONCILE_REQUIRED;
           SetCleanupState CLEANUP_PENDING;
           SetLastProviderError None]
          {| eu_lifecycle := if is_catalog_attempt lease then [(F_provider_adopted_at, adopted_at)] else [];
             eu_realized_placement := realized; eu_worker := None; eu_billing := None |}
    | None =>
        let* t := now H in
        if (t <? ls_readiness_deadline lease) || is_catalog_attempt lease then
          nonterminal lease
            [SetState RECONCILE_REQUIRED;
             SetCleanupState CLEANUP_RETRYABLE_FAILURE;
             SetBillingState (if is_catalog_attempt lease then BILLING_UNRESOLVED else ls_billing_state lease);
             SetLastProviderError (Some (reason ++ ":AwaitingCreateReconciliation"))]
        else
          nonterminal lease
            [SetState RELEASED;
             SetCleanupState CLEANUP_COMPLETE;
             SetCreationUncertain false;
             SetLastProviderError None]
    end in
  let find : M (option (string * option (option PodRealizedPlacement))) :=
    match ls_capacity_spec lease with
    | Some spec =>
        let* recovered := ask (CallFind (ls_resource_name lease))
          (fun n => pv_find_exact (h_provider H) n (ls_resource_name lease) spec) in
        ret ((fun c => (cp_provider_pod_id c, Some (cp_realized_placement c))) <$> recovered)
    | None =>
        let* pod := ask (CallFind (ls_resource_name lease))
          (fun n => pv_find_by_name (h_provider H) n (ls_resource_name lease)) in
        ret ((fun p => (p, None)) <$> pod)
    end in
  let* found := catch (let* r := find in ret (inr r)) (fun e =>
    if is_manager_error e then Some
      (let* l := record_retryable_failure lease e (Some true) in ret (inl l))
    else None) in
  match found with
  | inl l => ret l
  | inr r => settle r
  end.

(** ** Teardown *)

(** The transition of an attempt that never had a provider Pod; a catalog attempt is
    settled with a zero-cost receipt first. *)
Definition settle_without_pod (lease : TrainingPodLease) (reason : string) (t : instant)
  (changes : list change) : M TrainingPodLease :=
  if is_catalog_attempt lease then
    let* receipt := zero_cost_receipt lease reason in
    let* released := transition lease
      (changes ++
       [SetState RELEASING;
        SetBillingState BILLING_AUTHORITATIVE;
        SetBillingReceipt (Some receipt);
        SetTerminatedAt (Some t)])%list
      {| eu_lifecycle := [(F_billing_reconciled_at, t)];
         eu_realized_placement := None; eu_worker := None; eu_billing := Some receipt |} in
    if is_catalog_attempt released then revoke_and_release released else ret released
  else
    let* released := transition lease changes no_evidence in
    if is_catalog_attempt released then revoke_and_release released else ret released.

(** [while not lease.is_terminal: ... stop_attempts + 1]. *)
Fixpoint count_stop_attempt (n : nat) (lease : TrainingPodLease) : M TrainingPodLease :=
  if is_terminal lease then ret lease
  else
    match n with
    | O => raise OutOfFuel
    | S n' =>
        catch (repo_cas H lease [SetStopAttempts (ls_stop_attempts lease + 1)]) (fun e =>
          if is_conflict_error e then Some
            (let* again := required (ls_cleanup_token lease) in count_stop_attempt n' again)
          else None)
    end.

(** Stop or terminate the Pod; a manager failure is recorded and becomes a cleanup
    error, unless the lease became terminal meanwhile. *)
Definition stop_capacity (lease : TrainingPodLease) (reason : string) : M (TrainingPodLease + bool) :=
  catch
    (let* confirmed :=
       (if is_catalog_attempt lease then
          let* pod := lift (pod_id lease) in
          ask (CallTerminate pod) (fun n => pv_terminate (h_provider H) n pod)
        else
          let* pod := lift (pod_id lease) in
          ask (CallStop pod) (fun n => pv_stop (h_provider H) n pod)) in
     ret (inr confirmed))
    (fun e =>
       if is_manager_error e then Some
         (let* failed := record_retryable_failure lease e None in
          if is_terminal failed then ret (inl failed) else raise (cleanup_error reason failed))
       else None).

(** The tail of [_release_one] for an attempt with a provider Pod. *)
Definition release_pod (lease0 : TrainingPodLease) (reason : string) : M TrainingPodLease :=
  let* lease1 :=
    (if bool_decide (ls_state lease0 = RELEASING) then ret lease0
     else
       let* t := now H in
       nonterminal lease0
         [SetState RELEASING;
          SetCleanupState CLEANUP_PENDING;
          SetBackendBaseUrl None;
          SetLastHeartbeatAt t]) in
  let* lease := count_stop_attempt fuel lease1 in
  if is_terminal lease then ret lease
  else
    let* stopped := stop_capacity lease reason in
    match stopped with
    | inl failed => ret failed
    | inr false =>
        let* t := now H in
        let* pending := nonterminal lease
          [SetCleanupState CLEANUP_PENDING;
           SetLastProviderError (Some "StopPending");
           SetLastHeartbeatAt t] in
        if is_terminal pending then ret pending else raise (cleanup_error reason pending)
    | inr true =>
        let* completed_at := now H in
        let* released := transition lease
          ([SetState (if is_catalog_attempt lease then RELEASING else RELEASED);
            SetCleanupState CLEANUP_COMPLETE;
            SetCreationUncertain false;
            SetBackendBaseUrl None;
            SetLastProviderError None;
            SetLastHeartbeatAt completed_at] ++
           (if is_catalog_attempt lease
            then [SetBillingState BILLING_PENDING; SetTerminatedAt (Some completed_at)] else []))%list
          (with_lifecycle
             (if is_catalog_attempt lease then [(F_stop_confirmed_at, completed_at)] else [])) in
        if is_catalog_attempt released then reconcile_billing released else ret released
    end.

(** A catalog attempt stopped before, whose billing is still open. *)
Definition awaiting_billing (lease : TrainingPodLease) : bool :=
  is_catalog_attempt lease && bool_decide (ls_cleanup_state lease = CLEANUP_COMPLETE) &&
  is_some (ls_terminated_at lease) && billing_open lease.

(** [_release_one]. *)
Definition release_one (cleanup_token reason : string) : M TrainingPodLease :=
  let* found := required cleanup_token in
  if is_terminal found then ret found
  else if awaiting_billing found then reconcile_billing found
  else if bool_decide (ls_ownership found = PREEXISTING_RUNNING) then
    let* t := now H in
    nonterminal found
      [SetState RELEASED;
       SetCleanupState CLEANUP_NOT_OWNED;
       SetBackendBaseUrl None;
       SetLastProviderError None;
       SetLastHeartbeatAt t]
  else
    let uncertain (l : TrainingPodLease) :=
      negb (is_some (ls_provider_pod_id l)) && ls_creation_uncertain l in
    let* lease :=
      (if uncertain found then
         let* resolved := resolve_uncertain_creation found reason in
         if uncertain resolved then raise (cleanup_error reason resolved) else ret resolved
       else ret found) in
    match ls_provider_pod_id lease with
    | None =>
        let* terminal_at := now H in
        settle_without_pod lease "no-provider-capacity" terminal_at
          [SetState RELEASED;
           SetCleanupState CLEANUP_COMPLETE;
           SetBackendBaseUrl None;
           SetLastProviderError None;
           SetLastHeartbeatAt terminal_at]
    | Some _ => release_pod lease reason
    end.

(** ** Families *)

Definition TRAINING_PROFILE_IDS : list string := ["training"; "training-h100"; "training-flex"].

(** [fallback_training_cleanup_token]. *)
Definition fallback_training_cleanup_token (root profile_id : string) : string :=
  "training:" ++ uuid5_url ("kestrel-runpod-training" ++ NUL ++ root ++ NUL ++ profile_id).

(** [_cleanup_family]. *)
Definition cleanup_family (root : string) : M (list TrainingPodLease) :=
  let ids := remove_dups (TRAINING_PROFILE_IDS ++ map fst (h_profiles H))%list in
  query H (fun db => list_cleanup_family db root (map (fallback_training_cleanup_token root) ids)).

(** [_mark_family_release_requested]. *)
Fixpoint mark_requested (n : nat) (current : TrainingPodLease) : M TrainingPodLease :=
  if ls_family_release_requested current then ret current
  else
    match n with
    | O => raise OutOfFuel
    | S n' =>
        let* t := now H in
        catch
          (repo_cas H current
             [SetFamilyReleaseRequested true; SetFamilyReleaseComplete false; SetLastHeartbeatAt t])
          (fun e =>
             if is_conflict_error e then Some
               (let* again := required (ls_cleanup_token current) in mark_requested n' again)
             else None)
    end.

Definition mark_family_release_requested (root : TrainingPodLease) : M TrainingPodLease :=
  let* current := required (ls_cleanup_token root) in mark_requested fuel current.

(** [_mark_family_release_complete]. *)
Fixpoint mark_complete (n : nat) (current : TrainingPodLease) : M TrainingPodLease :=
  if ls_family_release_complete current then ret current
  else
    match n with
    | O => raise OutOfFuel
    | S n' =>
        let* t := now H in
        catch (repo_cas H current [SetFamilyReleaseComplete true; SetLastHeartbeatAt t]) (fun e =>
          if is_conflict_error e then Some
            (let* again := required (ls_cleanup_token current) in mark_complete n' again)
          else None)
    end.

Definition mark_family_release_complete (root : TrainingPodLease) : M TrainingPodLease :=
  let* current := required (ls_cleanup_token root) in mark_complete fuel current.

(** The loop of [release] over the family: the failures of its members. *)
Fixpoint release_members (members : list TrainingPodLease) (reason : string) : M (list lifecycle_info) :=
  match members with
  | [] => ret []
  | member :: rest =>
      let* failure :=
        (if is_terminal member then ret []
         else
           catch
             (run* release_one (ls_cleanup_token member) reason then ret [])
             (fun e =>
                match e with
                | TrainingPodCleanupError i => Some (ret [i])
                | _ =>
                    if is_manager_error e then Some
                      (let* current := required (ls_cleanup_token member) in
                       ret [lifecycle_fields reason current true])
                    else None
                end)) in
      let* failures := release_members rest reason in
      ret (failure ++ failures)%list
  end.

(** [release]: one exact attempt, or every attempt of a family root. *)
Definition release (cleanup_token reason : string) : M TrainingPodLease :=
  let* exact := required cleanup_token in
  if negb (bool_decide (ls_root_cleanup_token exact = cleanup_token)) then release_one cleanup_token reason
  else
    let* root := mark_family_release_requested exact in
    let* members := cleanup_family cleanup_token in
    let* failures := release_members members reason in
    match rev failures with
    | failure :: _ =>
        raise (TrainingPodCleanupError {|
          le_operation := reason;
          le_cleanup_token := cleanup_token;
          le_pod_id := le_pod_id failure;
          le_cleanup_state := le_cleanup_state failure;
          le_billing_risk := true
        |})
    | [] => mark_family_release_complete root
    end.

End Service.
