(* ===== verification/ServiceAcquire.v ===== *)
(** [PodCapacityLeaseService]: bound lookups, acquisition and readiness
    ([pod_capacity_service.py]). *)
From S2P Require Import Prelude PyStr Enums Errors PyDecimal PyTime Json ContractsBase.
From S2P Require Import Quote CatalogRequest Evidence Lease Row Repository World.
From S2P Require Import ServiceCore.

#[local] Open Scope Z_scope.

Section Acquire.
Context {dg : Digest} {nu : NameUuid}.
Context (H : Host) (fuel : nat).

#[local] Abbreviation required := (required H).
#[local] Abbreviation transition := (transition H fuel).
#[local] Abbreviation nonterminal := (nonterminal H fuel).
#[local] Abbreviation release_one := (release_one H fuel).

(** [quote]. *)
Definition quote (request : PodCapacityQuoteRequest) : M PodCapacityQuote :=
  ask CallQuote (fun n => pv_quote (h_provider H) n request).

(** [find_catalog_capacity]. *)
Definition find_catalog_capacity (capacity_id owner_id workload_id : string)
  : M (option TrainingPodLease) :=
  let* found := repo_get H capacity_id in
  match found with
  | None => ret None
  | Some lease =>
      let* spec := lift (capacity_spec lease) in
      run* lift (require
        (bool_decide (rq_owner_id (sp_request spec) = owner_id) &&
         bool_decide (rq_workload_id (sp_request spec) = workload_id)) TrainingPodConflictError) then
      ret (Some lease)
  end.

(** [get_catalog_capacity], also [_catalog_lease]. *)
Definition catalog_lease (capacity_id owner_id workload_id : string) : M TrainingPodLease :=
  let* found := find_catalog_capacity capacity_id owner_id workload_id in
  lift (of_option found RunPodManagerError).

(** [validate_catalog_reconciler_dependencies]. *)
Definition validate_catalog_reconciler_dependencies : M unit :=
  run* lift (require_capability_store H) then
  run* lift (require_workload_transport H) then
  run* lift (require (negb (bool_decide (map fst (h_profiles H) = []))) RunPodManagerError) then
  let* leases := query H list_for_reconciliation in
  lift (require
    (forallb (fun l => negb (is_catalog_attempt l) || is_some (assoc (h_profiles H) (ls_profile_id l))) leases)
    RunPodManagerError).

(** [heartbeat]. *)
Definition heartbeat (cleanup_token : string) : M TrainingPodLease :=
  let* lease := required cleanup_token in
  if is_terminal lease then raise (lifecycle_error "heartbeat" lease false)
  else
    let* t := now H in
    repo_cas H lease [SetLastHeartbeatAt t].

(** [_raise_after_cleanup]. *)
Definition raise_after_cleanup (lease : TrainingPodLease) (operation : string) : M TrainingPodLease :=
  let* released := release_one (ls_cleanup_token lease) operation in
  raise (lifecycle_error operation released false).

(** [_cleanup_cancelled_acquisition]. *)
Definition cleanup_cancelled_acquisition (lease : TrainingPodLease) (operation : string) : M unit :=
  run* owned H (release_one (ls_cleanup_token lease) operation) then ret tt.

(** [_acquire_existing]. *)
Definition acquire_existing (lease : TrainingPodLease) (prof : GPUProfile) : M TrainingPodLease :=
  let* pod := lift (pod_id lease) in
  let* observation := catch
    (ask (CallObserve pod) (fun n => pv_observe (h_provider H) n pod prof))
    (fun e =>
       match e with
       | CancelledError => Some (run* release_unowned_claim H fuel lease None then raise e)
       | _ =>
           if is_manager_error e then Some
             (let* released := release_unowned_claim H fuel lease (Some e) in
              raise (lifecycle_error "Pod discovery" released false))
           else None
       end) in
  if po_is_running observation then
    let* t := now H in
    repo_cas H lease
      [SetOwnership PREEXISTING_RUNNING;
       SetState STARTING;
       SetBackendBaseUrl (po_backend_base_url observation);
       SetLastHeartbeatAt t;
       SetLastProviderError None]
  else if po_is_stopped observation then
    let* t := now H in
    let* lease := repo_cas H lease
      [SetOwnership PROVISIONAL; SetState STARTING; SetLastHeartbeatAt t] in
    run* catch
      (ask (CallStart pod) (fun n => pv_start (h_provider H) n pod (gp_gpu_count prof)))
      (fun e =>
         match e with
         | CancelledError =>
             Some (run* cleanup_cancelled_acquisition lease "Pod start cancellation" then raise e)
         | _ =>
             if is_manager_error e then Some
               (let* failed := record_retryable_failure H fuel lease e None in
                run* release_one (ls_cleanup_token failed) "Pod start failure" then
                let* current := required (ls_cleanup_token failed) in
                raise (lifecycle_error "Pod start" current false))
             else None
         end) then
    let* current := required (ls_cleanup_token lease) in
    let* t := now H in
    repo_cas H current [SetOwnership OWNED; SetLastHeartbeatAt t; SetLastProviderError None]
  else
    let* released := release_unowned_claim H fuel lease (Some RunPodManagerError) in
    raise (lifecycle_error "Pod acquisition" released false).

(** The [except RunPodManagerError] branch of [_acquire_created]: v2 accepted no Pod. *)
Definition create_rejected (lease : TrainingPodLease) (e : exn) : M TrainingPodLease :=
  let* t := now H in
  let changes :=
    [SetState RELEASED;
     SetCleanupState CLEANUP_COMPLETE;
     SetCreationUncertain false;
     SetLastProviderError (Some (sanitize_training_error e));
     SetLastHeartbeatAt t] in
  let* released :=
    (if is_catalog_attempt lease then
       let* receipt := zero_cost_receipt H lease "create-rejected" in
       let* reconciled_at := now H in
       transition lease
         (changes ++
          [SetState RELEASING;
           SetBillingState BILLING_AUTHORITATIVE;
           SetBillingReceipt (Some receipt);
           SetTerminatedAt (Some reconciled_at)])%list
         {| eu_lifecycle := [(F_billing_reconciled_at, reconciled_at)];
            eu_realized_placement := None; eu_worker := None; eu_billing := Some receipt |}
     else transition lease changes no_evidence) in
  let* released := (if is_catalog_attempt released then revoke_and_release H released else ret released) in
  raise (lifecycle_error "Pod create" released false).

(** [_acquire_created]. *)
Definition acquire_created (lease0 : TrainingPodLease) (prof : GPUProfile)
  (environment : option (list (string * string))) : M TrainingPodLease :=
  let* t := now H in
  let* lease := repo_cas H lease0
    [SetState STARTING; SetOwnership PROVISIONAL; SetCreationUncertain true; SetLastHeartbeatAt t] in
  let create_environment :=
    if is_catalog_attempt lease then Some (default [] environment) else None in
  let* created := catch
    (let* created := ask (CallCreate (ls_resource_name lease)) (fun n =>
       pv_create (h_provider H) n prof (ls_resource_name lease) (ls_companion_id lease)
         create_environment (ls_capacity_spec lease)) in
     run* (if is_catalog_attempt lease && negb (is_some (cp_realized_placement created))
           then raise (created_mismatch (cp_provider_pod_id created)) else ret tt) then
     ret (inr created))
    (fun e =>
       match e with
       | CancelledError => Some
           (let* current := required (ls_cleanup_token lease) in
            run* cleanup_cancelled_acquisition current "Pod create cancellation" then
            raise e)
       | PodCapacityCreatedMismatchError pod => Some
           (let* accepted_at := now H in
            let* current := required (ls_cleanup_token lease) in
            let* bound := transition current
              [SetProviderPodId (Some pod);
               SetOwnership OWNED;
               SetCreationUncertain false;
               SetLastProviderError (Some (sanitize_training_error e));
               SetLastHeartbeatAt accepted_at]
              (with_lifecycle [(F_provider_create_accepted_at, accepted_at)]) in
            let* released := release_one (ls_cleanup_token bound) "created Pod validation failure" in
            raise (lifecycle_error "Pod create validation" released false))
       | RunPodAmbiguousResultError => Some
           (let* failed := record_retryable_failure H fuel lease e (Some true) in
            if is_catalog_attempt failed then raise (lifecycle_error "Pod create" failed true)
            else
              run* release_one (ls_cleanup_token failed) "ambiguous Pod create" then
              let* current := required (ls_cleanup_token failed) in
              raise (lifecycle_error "Pod create" current false))
       | _ =>
           if is_manager_error e then Some (let* l := create_rejected lease e in ret (inl l)) else None
       end) in
  match created with
  | inl l => ret l
  | inr pod =>
      let* accepted_at := now H in
      let* current := required (ls_cleanup_token lease) in
      transition current
        [SetProviderPodId (Some (cp_provider_pod_id pod));
         SetOwnership OWNED;
         SetCreationUncertain false;
         SetLastHeartbeatAt accepted_at;
         SetLastProviderError None]
        {| eu_lifecycle := [(F_provider_create_accepted_at, accepted_at)];
           eu_realized_placement := Some (cp_realized_placement pod);
           eu_worker := None; eu_billing := None |}
  end.

(** [_enforce_readiness_deadline]. *)
Definition enforce_readiness_deadline (lease : TrainingPodLease) : M TrainingPodLease :=
  let* t := now H in
  if t <? Z.min (ls_readiness_deadline lease) (ls_hard_deadline lease) then ret lease
  else raise_after_cleanup lease "readiness timeout".

Definition starting (l : TrainingPodLease) : bool := bool_decide (ls_state l = STARTING).

Definition transition_starting (lease : TrainingPodLease) (changes : list change) (u : evidence_update)
  : M TrainingPodLease :=
  transition_with_evidence H fuel lease changes u (Some [STARTING]) true.

(** The [try] body of [_observe_readiness]: [inl] is an early return. *)
Definition observe_readiness_body (lease : TrainingPodLease) (prof : GPUProfile)
  : M (TrainingPodLease + unit) :=
  let* pod := lift (pod_id lease) in
  let* observation := ask (CallObserve pod) (fun n => pv_observe (h_provider H) n pod prof) in
  let* current := required (ls_cleanup_token lease) in
  if negb (starting current) then ret (inl current)
  else
    let* observed_at := now H in
    let* lease := transition_starting current
      [SetBackendBaseUrl (po_backend_base_url observation);
       SetLastHeartbeatAt observed_at;
       SetLastProviderError None]
      (with_lifecycle
         (if po_is_running observation then [(F_first_running_observed_at, observed_at)] else [])) in
    if negb (starting lease) then ret (inl lease)
    else if po_is_failed observation || po_is_stopped observation then
      let* l := raise_after_cleanup lease "readiness" in ret (inl l)
    else
      match po_backend_base_url observation with
      | Some url =>
          if negb (po_is_running observation) || bool_decide (url = "") then ret (inl lease)
          else if is_catalog_attempt lease then
            let* transport := lift (require_workload_transport H) in
            catch
              (run* ask (CallHealth url) (fun n => wt_health transport n url) then ret (inr tt))
              (fun e =>
                 if is_transport_error e then Some
                   (let* current := required (ls_cleanup_token lease) in
                    if negb (starting current) then ret (inl current)
                    else
                      let* t := now H in
                      let* l := transition_starting current
                        [SetLastProviderError (Some (sanitize_training_error e)); SetLastHeartbeatAt t]
                        no_evidence in
                      ret (inl l))
                 else None)
          else ret (inr tt)
      | None => ret (inl lease)
      end.

(** [_observe_readiness]. *)
Definition observe_readiness (lease0 : TrainingPodLease) (prof : GPUProfile) : M TrainingPodLease :=
  let* lease1 := required (ls_cleanup_token lease0) in
  if negb (starting lease1) then ret lease1
  else
    let* lease := enforce_readiness_deadline lease1 in
    let* outcome := catch (observe_readiness_body lease prof) (fun e =>
      match e with
      | CancelledError =>
          Some (run* cleanup_cancelled_acquisition lease "readiness cancellation" then raise e)
      | _ =>
          if is_lifecycle_error e then None
          else if is_manager_error e then Some
            (let* current := required (ls_cleanup_token lease) in
             let* failed := record_retryable_failure H fuel current e None in
             let* l := raise_after_cleanup failed "readiness observation" in
             ret (inl l))
          else None
      end) in
    match outcome with
    | inl l => ret l
    | inr _ =>
        let* current := required (ls_cleanup_token lease) in
        if negb (starting current) then ret current
        else
          let* current := enforce_readiness_deadline current in
          let* ready_at := now H in
          transition_starting current [SetState READY; SetLastHeartbeatAt ready_at]
            (with_lifecycle [(F_worker_ready_at, ready_at)])
    end.

(** [_wait_ready]: [n] observations. *)
Fixpoint wait_ready (n : nat) (lease : TrainingPodLease) (prof : GPUProfile) : M TrainingPodLease :=
  match n with
  | O => raise OutOfFuel
  | S n' =>
      let* observed := observe_readiness lease prof in
      if negb (starting observed) then ret observed
      else
        run* catch (ask CallSleep (h_sleep H)) (fun e =>
          match e with
          | CancelledError =>
              Some (run* cleanup_cancelled_acquisition observed "readiness cancellation" then raise e)
          | _ => None
          end) then
        wait_ready n' observed prof
  end.

(** [_acquire]. *)
Definition acquire_request (request : TrainingPodRequest) (environment : option (list (string * string)))
  (wait_for_ready : bool) : M TrainingPodLease :=
  run* lift (require
    (option_all
       (fun s => bool_decide (rq_artifact_handoff_protocol_version (sp_request s) = Some 1))
       (tr_capacity_spec request)) RunPodManagerError) then
  let* reserved := repo_reserve H request in
  let lease := fst reserved in
  if negb (snd reserved) then
    if bool_decide (ls_state lease = READY) then heartbeat (ls_cleanup_token lease)
    else raise TrainingPodConflictError
  else
    let* prof := lift (profile H (ls_profile_id lease)) in
    let* acquired :=
      (if bool_decide (tr_source request = CREATED) then acquire_created lease prof environment
       else acquire_existing lease prof) in
    if wait_for_ready then wait_ready fuel acquired prof else ret acquired.

(** [acquire]. *)
Definition acquire (request : TrainingPodRequest) (environment : option (list (string * string)))
  : M TrainingPodLease :=
  acquire_request request environment true.

(** The environment of a catalog attempt: the request's own, then the binding of the
    worker to this attempt. *)
Definition attempt_environment (request : CatalogPodCapacityRequest) (capability : CatalogAttemptCapability)
  : list (string * string) :=
  let image_digest := image_digest_of (rq_image_reference request) in
  (rq_attempt_environment request ++
   [("CATALOG_WORKER_MODE", "pod");
    ("CATALOG_POD_ATTEMPT_ID", rq_attempt_id request);
    ("CATALOG_POD_BEARER_TOKEN", cap_bearer_token capability);
    ("CATALOG_POD_BEARER_EXPIRES_AT", iso_datetime (cap_expires_at capability));
    ("CONTAINER_DIGEST", image_digest);
    ("CATALOG_POD_IMAGE_DIGEST", image_digest);
    ("CATALOG_POD_REQUEST_SHA256", rq_request_sha256 request)])%list.

(** An existing lease answers an identical replay; anything else conflicts. *)
Definition replay_catalog (existing : TrainingPodLease) (request : CatalogPodCapacityRequest)
  (wait_for_ready : bool) : M TrainingPodLease :=
  let* spec := lift (capacity_spec existing) in
  run* (if negb (bool_decide (request_fingerprint (sp_request spec) = request_fingerprint request))
        then raise TrainingPodConflictError
        else
          let* environment := lift (attempt_environment_sha256 (rq_attempt_environment request)) in
          if bool_decide (sp_attempt_environment_sha256 spec = environment) then ret tt
          else raise TrainingPodConflictError) then
  if bool_decide (ls_state existing = READY) ||
     (negb wait_for_ready && starting existing && is_some (ls_provider_pod_id existing) &&
      negb (ls_creation_uncertain existing))
  then heartbeat (ls_cleanup_token existing)
  else raise TrainingPodConflictError.

(** [_acquire_catalog]. *)
Definition acquire_catalog_request (request : CatalogPodCapacityRequest) (wait_for_ready : bool)
  : M TrainingPodLease :=
  run* lift (require_workload_transport H) then
  run* lift (require (bool_decide (rq_artifact_handoff_protocol_version request = Some 1)) RunPodManagerError) then
  let* existing := repo_get H (rq_capacity_id request) in
  match existing with
  | Some existing => replay_catalog existing request wait_for_ready
  | None =>
      let quote := rq_quote request in
      let* t := now H in
      run* lift (require
        ((rq_created_at request <=? t) && (q_observed_at quote <=? rq_created_at request))
        RunPodManagerError) then
      run* lift (require (t <? q_expires_at quote) RunPodManagerError) then
      let* store := lift (require_capability_store H) in
      let* capability := ask (CallCapability (rq_attempt_id request)) (fun n =>
        cs_load_or_create store n (rq_attempt_id request) (rq_bearer_expires_at request)) in
      run* lift (validate_capability request capability) then
      let* t := now H in
      run* lift (require
        (t <? Z.min (q_expires_at quote)
                (Z.min (rq_readiness_deadline request) (rq_hard_deadline request))) RunPodManagerError) then
      let* environment_sha256 := lift (attempt_environment_sha256 (rq_attempt_environment request)) in
      let* spec := lift (mk_spec {|
        sp_request := request;
        sp_capability_secret_id := cap_secret_id capability;
        sp_capability_token_sha256 := cap_token_sha256 capability;
        sp_capability_expires_at := cap_expires_at capability;
        sp_attempt_environment_sha256 := environment_sha256
      |}) in
      let* name := lift (request_resource_name request) in
      let* internal := lift (mk_training_request {|
        tr_cleanup_token := rq_capacity_id request;
        tr_companion_id := rq_owner_id request;
        tr_profile_id := rq_profile_id request;
        tr_source := CREATED;
        tr_resource_name := name;
        tr_provider_pod_id := None;
        tr_created_at := rq_created_at request;
        tr_readiness_deadline := rq_readiness_deadline request;
        tr_hard_deadline := rq_hard_deadline request;
        tr_root_cleanup_token := rq_cleanup_family_id request;
        tr_capacity_spec := Some spec
      |}) in
      acquire_request internal (Some (attempt_environment request capability)) wait_for_ready
  end.

(** [acquire_catalog], [provision_catalog]. *)
Definition acquire_catalog (request : CatalogPodCapacityRequest) : M TrainingPodLease :=
  acquire_catalog_request request true.
Definition provision_catalog (request : CatalogPodCapacityRequest) : M TrainingPodLease :=
  acquire_catalog_request request false.

(** [poll_catalog_readiness]. *)
Definition poll_catalog_readiness (capacity_id owner_id workload_id : string) : M TrainingPodLease :=
  let* lease := catalog_lease capacity_id owner_id workload_id in
  if negb (starting lease) then ret lease
  else if negb (is_some (ls_provider_pod_id lease)) || ls_creation_uncertain lease
  then raise TrainingPodConflictError
  else
    let* lease := heartbeat capacity_id in
    let* prof := lift (profile H (ls_profile_id lease)) in
    observe_readiness lease prof.

End Acquire.
