(* ===== verification/ServiceWorkload.v ===== *)
(** [PodCapacityLeaseService]: recorded training outcomes, the authenticated catalog
    workload, its artifact handoff and cancellation ([pod_capacity_service.py]). *)
From S2P Require Import Prelude PyStr Enums Errors PyDecimal PyTime Json ContractsBase.
From S2P Require Import CodecBase Quote CatalogRequest Evidence Lease Row Repository World.
From S2P Require Import World ServiceCore ServiceAcquire.

#[local] Open Scope Z_scope.

(** ** The effect of one worker observation on a lease *)

(** The observation is bound to this attempt and admitted by its protocol. *)
Definition observation_admitted (request : CatalogPodCapacityRequest) (o : CatalogPodWorkloadObservation)
  : result unit :=
  run! require
    (bool_decide (wo_attempt_id o = rq_attempt_id request) &&
     bool_decide (wo_request_sha256 o = Some (rq_request_sha256 request))) TrainingPodConflictError then
  let protocol := rq_artifact_handoff_protocol_version request in
  run! require
    (negb (bool_decide (protocol = Some 1) && bool_decide (wo_state o = W_SUCCEEDED)))
    TrainingPodConflictError then
  require (negb (bool_decide (protocol = None) && handoff_state (wo_state o))) TrainingPodConflictError.

(** The handoff evidence after an observation: the first binding is kept, and the
    remote acknowledgement is recorded only for the persisted host intent. *)
Definition observed_handoff (request : CatalogPodCapacityRequest) (o : CatalogPodWorkloadObservation)
  (handoff : option CatalogArtifactHandoffEvidence) (observed_at : instant)
  : result (option CatalogArtifactHandoffEvidence) :=
  if handoff_state (wo_state o) then
    let! result_sha256 := of_option (wo_result_sha256 o) ValueError in
    let! receipt_sha256 := of_option (wo_receipt_sha256 o) ValueError in
    let! binding := mk_handoff {|
      ah_attempt_id := wo_attempt_id o;
      ah_request_sha256 := rq_request_sha256 request;
      ah_result_sha256 := result_sha256;
      ah_receipt_sha256 := receipt_sha256;
      ah_acknowledgement_sha256 := None;
      ah_acknowledgement_payload_sha256 := None;
      ah_remote_ack_observed_at := None;
      ah_host_confirmation_declared_at := None
    |} in
    run! require
      (option_all
         (fun h => bool_decide (ah_result_sha256 h = result_sha256) &&
                   bool_decide (ah_receipt_sha256 h = receipt_sha256)) handoff)
      TrainingPodConflictError then
    let kept := default binding handoff in
    if bool_decide (wo_state o = W_ACKNOWLEDGED) then
      run! require
        (is_some (ah_acknowledgement_sha256 kept) &&
         bool_decide (ah_acknowledgement_sha256 kept = wo_acknowledgement_sha256 o))
        TrainingPodConflictError then
      let! acknowledged := mk_handoff {|
        ah_attempt_id := ah_attempt_id kept;
        ah_request_sha256 := ah_request_sha256 kept;
        ah_result_sha256 := ah_result_sha256 kept;
        ah_receipt_sha256 := ah_receipt_sha256 kept;
        ah_acknowledgement_sha256 := ah_acknowledgement_sha256 kept;
        ah_acknowledgement_payload_sha256 := ah_acknowledgement_payload_sha256 kept;
        ah_remote_ack_observed_at := first_of (ah_remote_ack_observed_at kept) (Some observed_at);
        ah_host_confirmation_declared_at := ah_host_confirmation_declared_at kept
      |} in
      Ok (Some acknowledged)
    else Ok (Some kept)
  else Ok handoff.

(** Progress of a workload; a state outside the table ranks above it as a stored
    state and is never compared as an observed one. *)
Definition workload_rank (s : CatalogPodWorkloadState) : option Z :=
  match s with
  | W_NOT_SUBMITTED | W_IDLE => Some 0
  | W_RUNNING => Some 1
  | W_SUCCEEDED | W_AWAITING_ACK => Some 2
  | W_ACKNOWLEDGED => Some 3
  | _ => None
  end.

(** A delayed poll that would regress the recorded progress. *)
Definition regresses (recorded observed : CatalogPodWorkloadState) : bool :=
  match workload_rank observed with
  | Some r => r <? default 4 (workload_rank recorded)
  | None => false
  end.

(** The lease still takes workload progress. *)
Definition accepts_progress (lease : TrainingPodLease) : bool :=
  bool_decide (ls_state lease ∈ [READY; JOB_SUBMITTED; JOB_COMPLETED]) &&
  negb (bool_decide (ls_workload_state lease = W_CANCEL_REQUESTED)).

Definition state_changes (o : CatalogPodWorkloadObservation) : list change :=
  match wo_state o with
  | W_RUNNING => [SetState JOB_SUBMITTED; SetProviderJobId (Some (wo_attempt_id o))]
  | W_SUCCEEDED | W_AWAITING_ACK | W_ACKNOWLEDGED =>
      [SetState JOB_COMPLETED; SetProviderJobId (Some (wo_attempt_id o))]
  | W_FAILED | W_CANCELLED | W_CANCEL_REQUESTED => [SetState CANCEL_REQUESTED]
  | W_NOT_SUBMITTED | W_IDLE => []
  end.

Definition state_lifecycle (s : CatalogPodWorkloadState) (t : instant) : lifecycle_values :=
  match s with
  | W_RUNNING => [(F_workload_running_at, t)]
  | W_SUCCEEDED | W_AWAITING_ACK | W_ACKNOWLEDGED | W_FAILED | W_CANCELLED => [(F_workload_terminal_at, t)]
  | _ => []
  end.

(** [_catalog_observation_changes] at the time [observed_at]. *)
Definition catalog_observation_changes (lease : TrainingPodLease) (o : CatalogPodWorkloadObservation)
  (submitted : bool) (observed_at : instant) : result (list change * lifecycle_values) :=
  let! spec := capacity_spec lease in
  run! observation_admitted (sp_request spec) o then
  let! handoff := observed_handoff (sp_request spec) o (ls_artifact_handoff lease) observed_at in
  let proof_changes :=
    if bool_decide (handoff = ls_artifact_handoff lease) then [] else [SetArtifactHandoff handoff] in
  if negb (accepts_progress lease) then Ok (proof_changes, [])
  else if regresses (ls_workload_state lease) (wo_state o) then Ok (proof_changes, [])
  else
    Ok (proof_changes ++
        [SetWorkloadState (wo_state o);
         SetWorkloadErrorType (wo_error_type o);
         SetLastProviderError None;
         SetLastHeartbeatAt observed_at] ++ state_changes o,
        (if submitted then [(F_workload_submitted_at, observed_at)] else []) ++
        state_lifecycle (wo_state o) observed_at)%list.

Section Workload.
Context {dg : Digest} {nu : NameUuid}.
Context (H : Host) (fuel : nat).

#[local] Abbreviation required := (required H).
#[local] Abbreviation transition := (transition H fuel).
#[local] Abbreviation nonterminal := (nonterminal H fuel).
#[local] Abbreviation release := (release H fuel).
#[local] Abbreviation catalog_lease := (catalog_lease H).

(** ** Recorded training outcomes *)

(** [record_job]. *)
Definition record_job (cleanup_token provider_job_id : string) : M TrainingPodLease :=
  run* lift (require (negb (bool_decide (provider_job_id = ""))) ValueError) then
  let* lease := required cleanup_token in
  run* lift (require_legacy_training_mutation lease) then
  run* lift (require (bool_decide (ls_state lease ∈ [READY; JOB_SUBMITTED])) RunPodManagerError) then
  run* lift (require (bool_decide (ls_provider_job_id lease ∈ [None; Some provider_job_id]))
               TrainingPodConflictError) then
  let* t := now H in
  repo_cas H lease
    [SetState JOB_SUBMITTED;
     SetProviderJobId (Some provider_job_id);
     SetLastHeartbeatAt t;
     SetLastProviderError None].

(** [record_operation_error]. *)
Definition record_operation_error (cleanup_token : string) (error : exn) : M TrainingPodLease :=
  let* lease := required cleanup_token in
  if is_terminal lease then ret lease
  else
    let* t := now H in
    nonterminal lease
      [SetLastHeartbeatAt t; SetLastProviderError (Some (sanitize_training_error error))].

(** [record_status]. *)
Definition record_status (cleanup_token status : string) : M TrainingPodLease :=
  let* lease := required cleanup_token in
  run* lift (require_legacy_training_mutation lease) then
  if is_terminal lease then ret lease
  else
    let normalized := lower (strip status) in
    let* t := now H in
    nonterminal lease
      ([SetLastHeartbeatAt t; SetLastProviderError None] ++
       (if bool_decide (normalized ∈ ["completed"; "succeeded"]) then [SetState JOB_COMPLETED]
        else if bool_decide (normalized ∈ ["cancelled"; "canceled"; "failed"])
        then [SetState CANCEL_REQUESTED] else []))%list.

(** [record_result_retrieved]. *)
Definition record_result_retrieved (cleanup_token : string) : M TrainingPodLease :=
  let* lease := required cleanup_token in
  run* lift (require_legacy_training_mutation lease) then
  run* lift (require (bool_decide (ls_state lease ∈ [JOB_SUBMITTED; JOB_COMPLETED])) RunPodManagerError) then
  let* t := now H in
  repo_cas H lease
    [SetState RESULT_RETRIEVED; SetLastHeartbeatAt t; SetLastProviderError None].

(** [request_cancellation]. *)
Definition request_cancellation (cleanup_token : string) : M TrainingPodLease :=
  let* lease := required cleanup_token in
  if is_terminal lease then ret lease
  else
    let* t := now H in
    repo_cas H lease
      ([SetState CANCEL_REQUESTED; SetLastHeartbeatAt t] ++
       (if is_catalog_attempt lease then [SetWorkloadState W_CANCEL_REQUESTED] else []))%list.

(** ** The catalog workload *)

(** [_submission_lease]. *)
Definition submission_lease (capacity_id owner_id workload_id : string) : M TrainingPodLease :=
  let* lease := catalog_lease capacity_id owner_id workload_id in
  run* lift (require (bool_decide (protocol_of lease = Some 1)) RunPodManagerError) then
  run* lift (require (bool_decide (ls_state lease ∈ [READY; JOB_SUBMITTED])) RunPodManagerError) then
  let* t := now H in
  run* lift (require (t <? ls_hard_deadline lease) RunPodManagerError) then
  ret lease.

(** [_load_capability]. *)
Definition load_capability (spec : PodCapacitySpec) : M CatalogAttemptCapability :=
  let attempt := rq_attempt_id (sp_request spec) in
  let* store := lift (require_capability_store H) in
  let* found := ask (CallCapability attempt) (fun n => cs_load store n attempt) in
  let* capability := lift (of_option found RunPodManagerError) in
  run* lift (validate_capability (sp_request spec) capability) then
  run* lift (require
    (bool_decide (cap_secret_id capability = sp_capability_secret_id spec) &&
     bool_decide (cap_token_sha256 capability = sp_capability_token_sha256 spec)) RunPodManagerError) then
  let* t := now H in
  run* lift (require (t <? cap_expires_at capability) RunPodManagerError) then
  ret capability.

(** [_record_catalog_observation]. *)
Fixpoint record_catalog_observation (n : nat) (capacity_id : string)
  (o : CatalogPodWorkloadObservation) (submitted : bool) : M TrainingPodLease :=
  match n with
  | O => raise OutOfFuel
  | S n' =>
      let* lease := required capacity_id in
      let* observed_at := now H in
      let* update := lift (catalog_observation_changes lease o submitted observed_at) in
      match fst update with
      | [] => ret lease
      | changes =>
          catch
            (if is_terminal lease then repo_cas H lease changes
             else transition_with_evidence H fuel lease changes (with_lifecycle (snd update)) None false)
            (fun e =>
               if is_conflict_error e then Some (record_catalog_observation n' capacity_id o submitted)
               else None)
      end
  end.

Definition record_observation := record_catalog_observation fuel.

(** [submit_catalog_workload]. *)
Definition submit_catalog_workload (capacity_id owner_id workload_id : string)
  (payload : list (string * json)) : M CatalogPodWorkloadObservation :=
  let* before := submission_lease capacity_id owner_id workload_id in
  let* spec := lift (capacity_spec before) in
  let* capability := load_capability spec in
  let* lease := submission_lease capacity_id owner_id workload_id in
  let* transport := lift (require_workload_transport H) in
  let* url := lift (route lease) in
  let request := sp_request spec in
  let* observation :=
    ask (CallSubmit (rq_attempt_id request) (rq_request_sha256 request)) (fun n =>
      wt_submit transport n url (rq_attempt_id request) (rq_request_sha256 request)
        (cap_bearer_token capability) payload) in
  run* record_observation (ls_cleanup_token lease) observation true then
  ret observation.

(** [observe_catalog_workload]. *)
Definition observe_catalog_workload (capacity_id owner_id workload_id : string)
  : M CatalogPodWorkloadObservation :=
  let* lease := catalog_lease capacity_id owner_id workload_id in
  let* spec := lift (capacity_spec lease) in
  let* capability := load_capability spec in
  let* transport := lift (require_workload_transport H) in
  let* url := lift (route lease) in
  let request := sp_request spec in
  let* observation :=
    ask (CallStatus (rq_attempt_id request)) (fun n =>
      wt_status transport n url (rq_attempt_id request) (rq_request_sha256 request)
        (cap_bearer_token capability)) in
  let* updated := record_observation capacity_id observation false in
  match ls_workload_state updated with
  | W_CANCEL_REQUESTED =>
      run* release capacity_id "cancelled catalog attempt" then
      lift (let o := {|
        wo_attempt_id := wo_attempt_id observation;
        wo_request_sha256 := wo_request_sha256 observation;
        wo_state := W_CANCEL_REQUESTED;
        wo_error_type := None;
        wo_result_available := false;
        wo_result_sha256 := None;
        wo_receipt_sha256 := None;
        wo_acknowledgement_sha256 := None
      |} in run! check_observation o then Ok o)
  | W_FAILED | W_CANCELLED =>
      run* release capacity_id "terminal catalog workload" then ret observation
  | _ => ret observation
  end.

(** The protocol-1 result must carry the receipt of the observed handoff. *)
Definition receipt_matches (payload : list (string * json)) (handoff : option CatalogArtifactHandoffEvidence)
  : bool :=
  match get_field payload "receipt", handoff with
  | JObj receipt, Some h =>
      field_is receipt "result_sha256" (ah_result_sha256 h) &&
      field_is receipt "receipt_sha256" (ah_receipt_sha256 h)
  | _, _ => false
  end.

(** [retrieve_catalog_result]. *)
Definition retrieve_catalog_result (capacity_id owner_id workload_id : string)
  : M (list (string * json)) :=
  let* lease := catalog_lease capacity_id owner_id workload_id in
  let* ready := lift (catalog_result_ready lease) in
  run* lift (require ready RunPodManagerError) then
  let* spec := lift (capacity_spec lease) in
  let* capability := load_capability spec in
  let* lease := heartbeat H (ls_cleanup_token lease) in
  let* transport := lift (require_workload_transport H) in
  let* url := lift (route lease) in
  let request := sp_request spec in
  let* payload :=
    ask (CallResult (rq_attempt_id request)) (fun n =>
      wt_result transport n url (rq_attempt_id request) (rq_request_sha256 request)
        (cap_bearer_token capability) (rq_artifact_handoff_protocol_version request)) in
  let* current := required capacity_id in
  if bool_decide (ls_workload_state current = W_CANCEL_REQUESTED) then
    run* release capacity_id "late result after cancellation" then raise RunPodManagerError
  else
    run* lift (require
      (negb (bool_decide (rq_artifact_handoff_protocol_version request = Some 1)) ||
       receipt_matches payload (ls_artifact_handoff current)) TrainingPodConflictError) then
    ret payload.

(** [record_catalog_worker_evidence]. *)
Definition record_catalog_worker_evidence (capacity_id owner_id workload_id : string)
  (envelope : list (string * json)) : M TrainingPodLease :=
  let* lease := catalog_lease capacity_id owner_id workload_id in
  let* spec := lift (capacity_spec lease) in
  let* evidence := lift (of_option (ls_evidence lease) RunPodManagerError) in
  let* worker := lift (worker_from_envelope envelope) in
  let request := sp_request spec in
  run* lift (require
    (bool_decide (we_attempt_id worker = rq_attempt_id request) &&
     bool_decide (we_request_sha256 worker = rq_request_sha256 request) &&
     bool_decide (we_image_digest worker = image_digest_of (rq_image_reference request)))
    TrainingPodConflictError) then
  let* ready := lift (catalog_result_ready lease) in
  run* lift (require ready RunPodManagerError) then
  run* (match we_container_process_started_at worker with
        | Some started =>
            let* t := now H in lift (require (started <=? t) RunPodManagerError)
        | None => ret tt
        end) then
  match ev_worker evidence with
  | Some recorded =>
      run* lift (require (worker_eqb recorded worker) TrainingPodConflictError) then ret lease
  | None =>
      if is_terminal lease then raise RunPodManagerError
      else
        let* t := now H in
        transition lease [SetLastHeartbeatAt t]
          {| eu_lifecycle := []; eu_realized_placement := None; eu_worker := Some worker;
             eu_billing := None |}
  end.

(** ** Artifact handoff *)

(** [_require_catalog_ack_admission]. *)
Definition require_catalog_ack_admission (lease : TrainingPodLease) : M unit :=
  let* ready :=
    (if is_terminal lease || negb (bool_decide (ls_state lease = JOB_COMPLETED)) then ret false
     else lift (catalog_result_ready lease)) in
  run* lift (require ready RunPodManagerError) then
  let* t := now H in
  lift (require (t <? ls_hard_deadline lease) RunPodManagerError).

(** The loop of [_acknowledge_catalog_result] that persists the intent: [inl] is a
    lease whose remote acknowledgement was observed before. *)
Fixpoint persist_intent (n : nat) (capacity_id owner_id workload_id : string)
  (payload : list (string * json)) : M (TrainingPodLease + TrainingPodLease) :=
  match n with
  | O => raise OutOfFuel
  | S n' =>
      let* lease := catalog_lease capacity_id owner_id workload_id in
      let* evidence := lift (of_option (ls_artifact_handoff lease) RunPodManagerError) in
      let* intent := lift
        (match bind_acknowledgement evidence payload with
         | Exc ValueError => Exc TrainingPodConflictError
         | r => r
         end) in
      match ah_remote_ack_observed_at intent with
      | Some _ => ret (inl lease)
      | None =>
          run* require_catalog_ack_admission lease then
          catch
            (let* l := repo_cas H lease [SetArtifactHandoff (Some intent)] in ret (inr l))
            (fun e =>
               if is_conflict_error e then Some (persist_intent n' capacity_id owner_id workload_id payload)
               else None)
      end
  end.

(** [_acknowledge_catalog_result]. *)
Definition acknowledge_with (capacity_id owner_id workload_id : string)
  (payload : list (string * json)) (recovery_payload : option (list (string * json)))
  : M TrainingPodLease :=
  let* outcome := persist_intent fuel capacity_id owner_id workload_id payload in
  match outcome with
  | inl lease => ret lease
  | inr lease =>
      let* spec := lift (capacity_spec lease) in
      let* capability := load_capability spec in
      let* current := catalog_lease capacity_id owner_id workload_id in
      run* require_catalog_ack_admission current then
      let* transport := lift (require_workload_transport H) in
      let* url := lift (route current) in
      let request := sp_request spec in
      let* observation :=
        ask (CallAcknowledge (rq_attempt_id request) payload) (fun n =>
          match recovery_payload with
          | None =>
              wt_acknowledge transport n url (rq_attempt_id request) (rq_request_sha256 request)
                (cap_bearer_token capability) payload
          | Some recovery =>
              wt_recover_handoff transport n url (rq_attempt_id request) (rq_request_sha256 request)
                (cap_bearer_token capability) recovery
          end) in
      run* lift (require (bool_decide (wo_state observation = W_ACKNOWLEDGED)) TrainingPodConflictError) then
      record_observation capacity_id observation false
  end.

(** [release_catalog_result]. *)
Definition release_catalog_result (capacity_id owner_id workload_id : string)
  (host_confirmed : option string) : M TrainingPodLease :=
  let* lease := catalog_lease capacity_id owner_id workload_id in
  let* spec := lift (capacity_spec lease) in
  let protocol := rq_artifact_handoff_protocol_version (sp_request spec) in
  let confirmed (h : CatalogArtifactHandoffEvidence) :=
    is_some (ah_remote_ack_observed_at h) && bool_decide (host_confirmed = ah_acknowledgement_sha256 h) in
  let declared (o : option CatalogArtifactHandoffEvidence) :=
    match o with Some h => is_some (ah_host_confirmation_declared_at h) | None => false end in
  let handoff := if bool_decide (protocol = Some 1) then ls_artifact_handoff lease else None in
  run* lift
    (if bool_decide (protocol = Some 1) then
       require (match handoff with Some h => confirmed h | None => false end) TrainingPodConflictError
     else require (negb (is_some host_confirmed)) TrainingPodConflictError) then
  let* ready := lift (catalog_result_ready lease) in
  run* lift (require ready RunPodManagerError) then
  if is_terminal lease then
    run* lift (require (negb (bool_decide (protocol = Some 1)) || declared handoff)
                 TrainingPodConflictError) then
    ret lease
  else
    run*
      (if bool_decide (ls_state lease = JOB_COMPLETED) then
         let* confirmation :=
           (match handoff with
            | Some h =>
                let* declared_at :=
                  (match ah_host_confirmation_declared_at h with
                   | Some t => ret t
                   | None => now H
                   end) in
                let* h' := lift (mk_handoff {|
                  ah_attempt_id := ah_attempt_id h;
                  ah_request_sha256 := ah_request_sha256 h;
                  ah_result_sha256 := ah_result_sha256 h;
                  ah_receipt_sha256 := ah_receipt_sha256 h;
                  ah_acknowledgement_sha256 := ah_acknowledgement_sha256 h;
                  ah_acknowledgement_payload_sha256 := ah_acknowledgement_payload_sha256 h;
                  ah_remote_ack_observed_at := ah_remote_ack_observed_at h;
                  ah_host_confirmation_declared_at := Some declared_at
                |}) in
                ret [SetArtifactHandoff (Some h')]
            | None => ret []
            end) in
         let* t := now H in
         run* repo_cas H lease
           (confirmation ++
            [SetState RESULT_RETRIEVED; SetLastHeartbeatAt t; SetLastProviderError None])%list then
         ret tt
       else
         run* lift (require (bool_decide (ls_state lease ∈ [RESULT_RETRIEVED; RELEASING]))
                      RunPodManagerError) then
         lift (require (negb (bool_decide (protocol = Some 1)) || declared handoff)
                 TrainingPodConflictError)) then
    release capacity_id "catalog result durably confirmed by host".

(** [acknowledge_catalog_result]. *)
Definition acknowledge_catalog_result (capacity_id owner_id workload_id : string)
  (acknowledgement : option (list (string * json))) : M TrainingPodLease :=
  let* lease := catalog_lease capacity_id owner_id workload_id in
  let* spec := lift (capacity_spec lease) in
  match rq_artifact_handoff_protocol_version (sp_request spec) with
  | None =>
      run* lift (require (negb (is_some acknowledgement)) RunPodManagerError) then
      release_catalog_result capacity_id owner_id workload_id None
  | Some _ =>
      let* payload := lift (of_option acknowledgement RunPodManagerError) in
      run* lift (canonical_catalog_acknowledgement payload) then
      owned H (acknowledge_with capacity_id owner_id workload_id payload None)
  end.

(** [recover_catalog_result]. *)
Definition recover_catalog_result (capacity_id owner_id workload_id : string)
  (recovery : list (string * json)) : M TrainingPodLease :=
  let* lease := catalog_lease capacity_id owner_id workload_id in
  let* spec := lift (capacity_spec lease) in
  let request := sp_request spec in
  run* lift (require (bool_decide (rq_artifact_handoff_protocol_version request = Some 1)) RunPodManagerError) then
  let* payload := lift (snapshot_catalog_handoff_recovery recovery (rq_attempt_id request)
    (rq_request_sha256 request) (Some (image_digest_of (rq_image_reference request)))) in
  let* ack := lift (required_mapping payload "acknowledgement") in
  owned H (acknowledge_with capacity_id owner_id workload_id ack (Some payload)).

(** [cancel_catalog_workload]. *)
Definition cancel_catalog_workload (capacity_id owner_id workload_id : string) : M TrainingPodLease :=
  let* lease := catalog_lease capacity_id owner_id workload_id in
  if is_terminal lease then ret lease
  else
    let* t := now H in
    let* lease := repo_cas H lease
      [SetState CANCEL_REQUESTED; SetWorkloadState W_CANCEL_REQUESTED; SetLastHeartbeatAt t] in
    run*
      (match ls_backend_base_url lease with
       | None => ret tt
       | Some url =>
           catch
             (let* spec := lift (capacity_spec lease) in
              let* capability := load_capability spec in
              let* transport := lift (require_workload_transport H) in
              let request := sp_request spec in
              ask (CallCancel (rq_attempt_id request)) (fun n =>
                wt_cancel transport n url (rq_attempt_id request) (rq_request_sha256 request)
                  (cap_bearer_token capability)))
             (fun e =>
                if is_manager_error e then Some
                  (run* record_operation_error capacity_id e then ret tt)
                else None)
       end) then
    release capacity_id "catalog cancellation".

(** [get_active_family_attempt]. *)
Definition get_active_family_attempt (root_cleanup_token : string) : M (option TrainingPodLease) :=
  let* found := repo_get H root_cleanup_token in
  match found with
  | None => ret None
  | Some root =>
      run* lift (require (negb (ls_family_release_requested root)) TrainingPodConflictError) then
      let* family := cleanup_family H root_cleanup_token in
      match filter (fun l => is_terminal l = false) family with
      | [] => ret None
      | [l] => ret (Some l)
      | _ => raise TrainingPodConflictError
      end
  end.

End Workload.
