(* ===== verification/ServiceReconcile.v ===== *)
(** [PodCapacityLeaseService]: the reconciliation pass, and the service as one set of
    operations ([pod_capacity_service.py]). *)
From S2P Require Import Prelude PyStr Enums Errors PyDecimal PyTime Json ContractsBase.
From S2P Require Import Quote CatalogRequest Evidence Lease Row Repository World.
From S2P Require Import ServiceCore ServiceAcquire ServiceWorkload.

#[local] Open Scope Z_scope.

Section Reconcile.
Context {dg : Digest} {nu : NameUuid}.
Context (H : Host) (fuel : nat).

#[local] Abbreviation required := (required H).
#[local] Abbreviation transition := (transition H fuel).
#[local] Abbreviation release_one := (release_one H fuel).

(** [_record_reconcile_error]. *)
Definition record_reconcile_error (cleanup_token : string) (error : exn) : M (option TrainingPodLease) :=
  let* found := repo_get H cleanup_token in
  match found with
  | None => ret None
  | Some lease =>
      if is_terminal lease && negb (billing_open lease) then ret (Some lease)
      else
        catch
          (let* l := repo_cas H lease [SetLastProviderError (Some (sanitize_training_error error))] in
           ret (Some l))
          (fun e => if is_conflict_error e then Some (repo_get H cleanup_token) else None)
  end.

(** The last steps of [_reconcile_one]: a live acquisition is observed once. *)
Definition reconcile_observation (lease : TrainingPodLease) (now0 : instant) : M TrainingPodLease :=
  match ls_provider_pod_id lease with
  | Some pod =>
      if negb (bool_decide (pod = "")) && bool_decide (ls_state lease ∈ [STARTING; READY]) then
        if negb (is_some (assoc (h_profiles H) (ls_profile_id lease))) then ret lease
        else
          let* prof := lift (profile H (ls_profile_id lease)) in
          let* observation := ask (CallObserve pod) (fun n => pv_observe (h_provider H) n pod prof) in
          if po_is_stopped observation then
            let* stopped := transition lease
              ([SetState RELEASED;
                SetCleanupState CLEANUP_COMPLETE;
                SetBackendBaseUrl None;
                SetLastProviderError None] ++
               (if is_catalog_attempt lease
                then [SetState RELEASING; SetBillingState BILLING_PENDING; SetTerminatedAt (Some now0)]
                else []))%list
              (with_lifecycle (if is_catalog_attempt lease then [(F_stop_confirmed_at, now0)] else [])) in
            if is_catalog_attempt stopped then reconcile_billing H fuel stopped else ret stopped
          else
            repo_cas H lease
              [SetBackendBaseUrl (po_backend_base_url observation); SetLastProviderError None]
      else ret lease
  | None => ret lease
  end.

(** The workload observer of a training job that is not a catalog attempt: [None]
    when the pass goes on. *)
Definition reconcile_job (lease : TrainingPodLease) : M (option TrainingPodLease) :=
  match h_status_observer H with
  | Some observer =>
      if bool_decide (ls_state lease = JOB_SUBMITTED) then
        let token := ls_cleanup_token lease in
        let* status := catch
          (let* s := ask (CallObserver token) (fun n => observer n lease) in ret (inr s))
          (fun e =>
             if is_manager_error e then Some
               (let* l := record_operation_error H fuel token e in ret (inl l))
             else None) in
        match status with
        | inl l => ret (Some l)
        | inr None => ret None
        | inr (Some s) =>
            let* updated := record_status H fuel token s in
            if bool_decide (ls_state updated = CANCEL_REQUESTED)
            then let* l := release_one token "terminal training job" in ret (Some l)
            else ret (Some updated)
        end
      else ret None
  | None => ret None
  end.

(** [_reconcile_one]. *)
Definition reconcile_one (cleanup_token : string) : M (option TrainingPodLease) :=
  let some (m : M TrainingPodLease) : M (option TrainingPodLease) := let* l := m in ret (Some l) in
  let* found := repo_get H cleanup_token in
  match found with
  | None => ret None
  | Some lease =>
      if is_terminal lease then
        some (if billing_open lease then reconcile_billing H fuel lease else ret lease)
      else
        let* t := now H in
        let* idle_timeout :=
          (if is_catalog_attempt lease then
             let* spec := lift (capacity_spec lease) in
             ret (seconds (rq_idle_timeout_seconds (sp_request spec)))
           else ret (h_orphan_timeout H)) in
        let stale := ls_last_heartbeat_at lease + idle_timeout <=? t in
        if bool_decide (ls_state lease = REQUESTED) then
          if stale || (ls_readiness_deadline lease <=? t) then
            if negb (bool_decide (ls_source lease = CREATED)) then some (release_unowned_claim H fuel lease None)
            else
              some (settle_without_pod H fuel lease "before-create" t
                [SetState RELEASED; SetCleanupState CLEANUP_COMPLETE; SetLastProviderError None])
          else ret (Some lease)
        else if negb (is_some (ls_provider_pod_id lease)) && ls_creation_uncertain lease then
          if negb stale && (t <? ls_hard_deadline lease) then ret (Some lease)
          else
            let* resolved := resolve_uncertain_creation H fuel lease "reconcile" in
            if is_some (ls_provider_pod_id resolved) then some (release_one cleanup_token "recovered create")
            else ret (Some resolved)
        else if bool_decide (ls_state lease ∈ [RELEASING; CANCEL_REQUESTED; RECONCILE_REQUIRED; RESULT_RETRIEVED])
        then some (release_one cleanup_token "retry teardown")
        else if ls_hard_deadline lease <=? t then some (release_one cleanup_token "hard deadline")
        else if is_catalog_attempt lease && bool_decide (ls_state lease = JOB_SUBMITTED) then
          let* spec := lift (capacity_spec lease) in
          run* observe_catalog_workload H fuel (ls_cleanup_token lease)
                 (rq_owner_id (sp_request spec)) (rq_workload_id (sp_request spec)) then
          some (required cleanup_token)
        else
          let* job := reconcile_job lease in
          match job with
          | Some l => ret (Some l)
          | None =>
              if bool_decide (ls_state lease ∈ [STARTING; READY]) && stale
              then some (release_one cleanup_token "orphaned acquisition")
              else some (reconcile_observation lease t)
          end
  end.

(** One step of the pass: a manager failure is recorded on its lease only. *)
Definition reconcile_step (token : string) (step : M (option TrainingPodLease))
  : M (list TrainingPodLease) :=
  let* outcome := catch step (fun e =>
    if is_lifecycle_error e || is_manager_error e then Some (record_reconcile_error token e) else None) in
  ret (match outcome with Some l => [l] | None => [] end).

Fixpoint reconcile_each (step : string -> M (option TrainingPodLease)) (leases : list TrainingPodLease)
  : M (list TrainingPodLease) :=
  match leases with
  | [] => ret []
  | l :: rest =>
      let* here := reconcile_step (ls_cleanup_token l) (step (ls_cleanup_token l)) in
      let* there := reconcile_each step rest in
      ret (here ++ there)%list
  end.

(** [reconcile]. *)
Definition reconcile : M (list TrainingPodLease) :=
  let* roots := query H list_incomplete_family_releases in
  let* released :=
    reconcile_each (fun token => let* l := release H fuel token "restart family release" in ret (Some l))
      roots in
  let* initial := query H list_for_reconciliation in
  let* reconciled := reconcile_each reconcile_one initial in
  ret (released ++ reconciled)%list.

End Reconcile.

(** ** The service's public operations *)

Inductive operation :=
  | OpFind (capacity_id owner_id workload_id : string)
  | OpValidateDependencies
  | OpAcquireCatalog (request : CatalogPodCapacityRequest) (wait_for_ready : bool)
  | OpAcquire (request : TrainingPodRequest) (environment : option (list (string * string)))
  | OpPollReadiness (capacity_id owner_id workload_id : string)
  | OpHeartbeat (cleanup_token : string)
  | OpRecordJob (cleanup_token provider_job_id : string)
  | OpRecordError (cleanup_token : string) (error : exn)
  | OpRecordStatus (cleanup_token status : string)
  | OpRecordResult (cleanup_token : string)
  | OpRequestCancellation (cleanup_token : string)
  | OpSubmit (capacity_id owner_id workload_id : string) (payload : list (string * json))
  | OpObserve (capacity_id owner_id workload_id : string)
  | OpRetrieve (capacity_id owner_id workload_id : string)
  | OpWorkerEvidence (capacity_id owner_id workload_id : string) (envelope : list (string * json))
  | OpAcknowledge (capacity_id owner_id workload_id : string) (ack : option (list (string * json)))
  | OpRecover (capacity_id owner_id workload_id : string) (recovery : list (string * json))
  | OpReleaseResult (capacity_id owner_id workload_id : string) (confirmed : option string)
  | OpCancel (capacity_id owner_id workload_id : string)
  | OpActiveAttempt (root_cleanup_token : string)
  | OpRelease (cleanup_token reason : string)
  | OpReconcile.

Definition discard {A} (m : M A) : M unit := run* m then ret tt.

Definition run_operation {dg : Digest} {nu : NameUuid} (H : Host) (fuel : nat) (op : operation) : M unit :=
  match op with
  | OpFind c o w => discard (find_catalog_capacity H c o w)
  | OpValidateDependencies => validate_catalog_reconciler_dependencies H
  | OpAcquireCatalog r wait => discard (acquire_catalog_request H fuel r wait)
  | OpAcquire r env => discard (acquire H fuel r env)
  | OpPollReadiness c o w => discard (poll_catalog_readiness H fuel c o w)
  | OpHeartbeat t => discard (heartbeat H t)
  | OpRecordJob t j => discard (record_job H t j)
  | OpRecordError t e => discard (record_operation_error H fuel t e)
  | OpRecordStatus t s => discard (record_status H fuel t s)
  | OpRecordResult t => discard (record_result_retrieved H t)
  | OpRequestCancellation t => discard (request_cancellation H t)
  | OpSubmit c o w p => discard (submit_catalog_workload H fuel c o w p)
  | OpObserve c o w => discard (observe_catalog_workload H fuel c o w)
  | OpRetrieve c o w => discard (retrieve_catalog_result H fuel c o w)
  | OpWorkerEvidence c o w env => discard (record_catalog_worker_evidence H fuel c o w env)
  | OpAcknowledge c o w a => discard (acknowledge_catalog_result H fuel c o w a)
  | OpRecover c o w r => discard (recover_catalog_result H fuel c o w r)
  | OpReleaseResult c o w h => discard (release_catalog_result H fuel c o w h)
  | OpCancel c o w => discard (cancel_catalog_workload H fuel c o w)
  | OpActiveAttempt r => discard (get_active_family_attempt H r)
  | OpRelease t r => discard (release H fuel t r)
  | OpReconcile => discard (reconcile H fuel)
  end.

(** A history of the service: operations run one after another. *)
Fixpoint run_history {dg : Digest} {nu : NameUuid} (H : Host) (fuel : nat) (ops : list operation)
  (w : world) : world :=
  match ops with
  | [] => w
  | op :: rest => run_history H fuel rest (snd (run_operation H fuel op w))
  end.
