(* ===== verification/Evolves.v ===== *)
(** How a stored lease may change: the relation every transition of the service stays
    in, whatever other processes do between its steps. *)
From S2P Require Import Prelude PyStr Enums Errors PyDecimal PyTime Json ContractsBase.
From S2P Require Import Quote CatalogRequest Evidence Lease Row Repository World.
From S2P Require Import ServiceCore.

#[local] Open Scope Z_scope.

(** What is recorded stays recorded. *)
Definition kept {A} (a b : option A) : Prop := forall x, a = Some x -> b = Some x.

#[export] Instance kept_preorder {A} : PreOrder (@kept A).
Proof. split; unfold kept; naive_solver. Qed.

(** The artifact handoff: its binding is fixed, and the host intent, the observed
    remote acknowledgement and the declared confirmation are each set once. *)
Record handoff_kept (h h' : CatalogArtifactHandoffEvidence) : Prop := {
  hk_attempt : ah_attempt_id h' = ah_attempt_id h;
  hk_request : ah_request_sha256 h' = ah_request_sha256 h;
  hk_result : ah_result_sha256 h' = ah_result_sha256 h;
  hk_receipt : ah_receipt_sha256 h' = ah_receipt_sha256 h;
  hk_ack : kept (ah_acknowledgement_sha256 h) (ah_acknowledgement_sha256 h');
  hk_payload : is_some (ah_acknowledgement_sha256 h) = true ->
    ah_acknowledgement_payload_sha256 h' = ah_acknowledgement_payload_sha256 h;
  hk_remote : kept (ah_remote_ack_observed_at h) (ah_remote_ack_observed_at h');
  hk_host : kept (ah_host_confirmation_declared_at h) (ah_host_confirmation_declared_at h');
  hk_valid : check_handoff h = Ok tt -> check_handoff h' = Ok tt
}.

#[export] Instance handoff_kept_preorder : PreOrder handoff_kept.
Proof.
  split.
  - intros h. by split.
  - intros a b c [] []. split; try congruence; try by etransitivity; try by auto.
    intros Hs. destruct (ah_acknowledgement_sha256 a) as [x|] eqn:E; [|done].
    rewrite hk_payload1, hk_payload0; [done|done|]. by rewrite (hk_ack0 x eq_refl).
Qed.

Record lifecycle_kept (l l' : PodCapacityLifecycleEvidence) : Prop := {
  lk_reservation : lc_reservation_at l' = lc_reservation_at l;
  lk_fields : forall f, kept (lc_get l f) (lc_get l' f)
}.

#[export] Instance lifecycle_kept_preorder : PreOrder lifecycle_kept.
Proof.
  split.
  - intros l. by split.
  - intros a b c [] []. split; [congruence|]. intros f. transitivity (lc_get b f); auto.
Qed.

(** Evidence: identity and accepted quote are fixed; first observations, the realized
    placement, the worker's telemetry and the receipt are each set once. *)
Record evidence_kept (e e' : PodCapacityEvidence) : Prop := {
  ek_capacity : ev_capacity_id e' = ev_capacity_id e;
  ek_resource : ev_resource_name e' = ev_resource_name e;
  ek_quote : ev_provider_quote_id e' = ev_provider_quote_id e;
  ek_attempt : ev_attempt_id e' = ev_attempt_id e;
  ek_request : ev_request_sha256 e' = ev_request_sha256 e;
  ek_image : ev_image_digest e' = ev_image_digest e;
  ek_rate : ev_accepted_hourly_rate_usd e' = ev_accepted_hourly_rate_usd e;
  ek_lifecycle : lifecycle_kept (ev_lifecycle e) (ev_lifecycle e');
  ek_realized : kept (ev_realized_placement e) (ev_realized_placement e');
  ek_worker : kept (ev_worker e) (ev_worker e');
  ek_billing : kept (ev_billing e) (ev_billing e')
}.

#[export] Instance evidence_kept_preorder : PreOrder evidence_kept.
Proof.
  split.
  - intros e. by split.
  - intros a b c [] []. split; try congruence; by etransitivity.
Qed.

Definition option_evolves {A} (R : A -> A -> Prop) (a b : option A) : Prop :=
  forall x, a = Some x -> exists y, b = Some y /\ R x y.

Lemma option_evolves_refl {A} (R : A -> A -> Prop) `{Reflexive A R} a : option_evolves R a a.
Proof. intros x ->. by exists x. Qed.

Lemma option_evolves_trans {A} (R : A -> A -> Prop) `{Transitive A R} a b c :
  option_evolves R a b -> option_evolves R b c -> option_evolves R a c.
Proof. intros Hab Hbc x Hx. destruct (Hab x Hx) as (y & Hy & ?). destruct (Hbc y Hy) as (z & ? & ?). eauto. Qed.

(** A valid row, whose settlement is backed by a receipt, and which owns the capacity it created when it is a catalog attempt. *)
Record row_ok (l : TrainingPodLease) : Prop := {
  ro_consistent : receipts_consistent (ls_evidence l) (ls_billing_receipt l) = true;
  ro_valid : check_lease l = Ok tt;
  ro_settled : is_terminal l = true -> is_catalog_attempt l = true -> is_some (ls_billing_receipt l) = true;
  ro_authoritative : ls_billing_state l = BILLING_AUTHORITATIVE -> is_some (ls_billing_receipt l) = true;
  ro_source : is_catalog_attempt l = true -> ls_source l = CREATED;
  ro_owned : is_catalog_attempt l = true -> ls_ownership l <> PREEXISTING_RUNNING;
  ro_protocol : protocol_of l = None \/ protocol_of l = Some 1;
  ro_handoff : opt_prop (fun h => check_handoff h = Ok tt) (ls_artifact_handoff l)
}.

Record evolves (l l' : TrainingPodLease) : Prop := {
  ev_identity : same_identity l l';
  ev_revision : ls_revision l <= ls_revision l';
  ev_same : ls_revision l = ls_revision l' -> l' = l;
  ev_terminal : is_terminal l = true -> is_terminal l' = true;
  ev_handoff : option_evolves handoff_kept (ls_artifact_handoff l) (ls_artifact_handoff l');
  ev_evidence : option_evolves evidence_kept (ls_evidence l) (ls_evidence l');
  ev_receipt : is_some (ls_billing_receipt l) = true -> is_some (ls_billing_receipt l') = true;
  ev_row : row_ok l -> row_ok l'
}.

#[export] Instance evolves_preorder : PreOrder evolves.
Proof.
  split.
  - intros l. split; try done; try lia; apply option_evolves_refl; apply _.
  - intros a b c [] []. split; eauto; try lia.
    + by etransitivity.
    + intros Hr. assert (ls_revision a = ls_revision b) by lia. assert (ls_revision b = ls_revision c) by lia.
      naive_solver.
    + eapply option_evolves_trans; eauto. apply _.
    + eapply option_evolves_trans; eauto. apply _.
Qed.

Lemma evolves_token l l' : evolves l l' -> ls_cleanup_token l' = ls_cleanup_token l.
Proof. intros [[] _ _ _ _ _ _ _]. done. Qed.

Lemma evolves_spec l l' : evolves l l' -> ls_capacity_spec l' = ls_capacity_spec l.
Proof. intros [[] _ _ _ _ _ _ _]. done. Qed.

(** An update evolves a row when it keeps what must be kept. *)
Lemma evolves_updated l cs t :
  let l' := updated_row l cs t in
  (is_terminal l = true -> is_terminal l' = true) ->
  option_evolves handoff_kept (ls_artifact_handoff l) (ls_artifact_handoff l') ->
  option_evolves evidence_kept (ls_evidence l) (ls_evidence l') ->
  (is_some (ls_billing_receipt l) = true -> is_some (ls_billing_receipt l') = true) ->
  (row_ok l -> row_ok l') ->
  evolves l l'.
Proof.
  intros l' Ht Hh He Hr Hok. split; try done.
  - apply updated_row_identity.
  - unfold l'. rewrite updated_row_revision. lia.
  - unfold l'. rewrite updated_row_revision. lia.
Qed.

(** ** Evidence updates keep what is recorded *)

Lemma lc_get_first l f v g :
  lc_get (lc_first l f v) g = if bool_decide (f = g) then first_of (lc_get l g) (Some v) else lc_get l g.
Proof. by destruct g. Qed.

Lemma lc_first_kept l f v : lifecycle_kept l (lc_first l f v).
Proof.
  split; [done|]. intros g x Hx. rewrite lc_get_first, Hx. by destruct (bool_decide (f = g)).
Qed.

Lemma record_first_kept l values l' : record_first l values = Ok l' -> lifecycle_kept l l'.
Proof.
  intros H. assert (lifecycle_kept l (fold_left (fun acc p => lc_first acc (fst p) (snd p)) values l)) as Hk.
  { clear H. revert l. induction values as [|[f v] values IH]; intros l; [done|]. cbn.
    etransitivity; [apply lc_first_kept | apply IH]. }
  unfold record_first in H. destruct values as [|p values]; [by simplify_eq|].
  unfold mk_lifecycle in H. res_inv. done.
Qed.

Lemma keep_first_kept {A} (eqb : A -> A -> bool) old new r :
  keep_first eqb old new = Ok r -> kept old r.
Proof.
  intros H x ->. unfold keep_first in H. destruct new as [v|]; [|by simplify_eq].
  destruct (eqb x v); by simplify_eq.
Qed.

Lemma keep_first_new {A} (eqb : A -> A -> bool) old v r :
  keep_first eqb old (Some v) = Ok r -> exists o, r = Some o /\ (o = v \/ eqb o v = true).
Proof.
  unfold keep_first. destruct old as [o|].
  - destruct (eqb o v) eqn:E; intros; simplify_eq. eauto.
  - intros; simplify_eq. eauto.
Qed.

Lemma update_evidence_inv e u e' :
  update_evidence e u = Ok e' ->
  evidence_kept e e' /\ keep_first receipt_eqb (ev_billing e) (eu_billing u) = Ok (ev_billing e').
Proof.
  unfold update_evidence, mk_evidence. intros H. res_inv. split; [|done]. split; try done; cbn.
  - by eapply record_first_kept.
  - destruct (eu_realized_placement u) as [[p|]|]; [by eapply keep_first_kept|done|by simplify_eq].
  - by eapply keep_first_kept.
  - by eapply keep_first_kept.
Qed.

(** ** Receipts are equal to themselves *)

Lemma receipt_eqb_refl r : check_receipt r = Ok tt -> receipt_eqb r r = true.
Proof.
  unfold check_receipt. intros H. res_inv. split_bools.
  unfold nonnegative_amount in *. split_bools.
  unfold receipt_eqb. rewrite !bool_decide_true_eq by done. rewrite !Z.eqb_refl.
  rewrite !deqb_refl; [done| |]; intros E; rewrite E in *; done.
Qed.

(** ** When an update evolves its row *)

(** Changes that touch neither the handoff, the evidence nor the receipt, and set no
    handoff phase. *)
Definition plain_change (c : change) : bool :=
  match c with
  | SetBillingReceipt _ | SetEvidence _ | SetArtifactHandoff _ => false
  | SetWorkloadState s => negb (handoff_state s)
  | _ => true
  end.

(** Changes that may also set the receipt. *)
Definition core_change (c : change) : bool :=
  match c with SetBillingReceipt v => is_some v | _ => plain_change c end.

Lemma plain_is_core c : plain_change c = true -> core_change c = true.
Proof. by destruct c. Qed.

Lemma core_apply cs l :
  forallb core_change cs = true ->
  ls_artifact_handoff (apply_changes l cs) = ls_artifact_handoff l /\
  ls_evidence (apply_changes l cs) = ls_evidence l /\
  (ls_workload_state (apply_changes l cs) = ls_workload_state l \/
   handoff_state (ls_workload_state (apply_changes l cs)) = false) /\
  (is_some (ls_billing_receipt l) = true -> is_some (ls_billing_receipt (apply_changes l cs)) = true).
Proof.
  revert l. induction cs as [|c cs IH]; intros l Hc; [by auto|].
  cbn in Hc. split_bools. destruct (IH (apply_change l c)) as (Hh & He & Hw & Hr); [done|].
  change (apply_changes l (c :: cs)) with (apply_changes (apply_change l c) cs).
  rewrite Hh, He. destruct c; cbn [apply_change ls_artifact_handoff ls_evidence ls_workload_state
    ls_billing_receipt core_change plain_change] in *; try done; repeat split; auto.
  destruct Hw as [->|]; [right; by apply negb_true_iff | by right].
Qed.

Lemma plain_apply cs l :
  forallb plain_change cs = true ->
  ls_billing_receipt (apply_changes l cs) = ls_billing_receipt l.
Proof.
  revert l. induction cs as [|c cs IH]; intros l Hc; [done|].
  cbn in Hc. split_bools. etransitivity; [by apply IH|]. by destruct c.
Qed.

(** The fields an update computes, before the revision is bumped. *)
Definition assigned (l : TrainingPodLease) (cs : list change) (t : instant) : TrainingPodLease :=
  apply_changes l (SetUpdatedAt t :: cs).

Lemma check_lease_fields a b :
  ls_artifact_handoff a = ls_artifact_handoff b -> ls_capacity_spec a = ls_capacity_spec b ->
  (ls_workload_state a = ls_workload_state b \/ handoff_state (ls_workload_state a) = false) ->
  check_lease b = Ok tt -> check_lease a = Ok tt.
Proof.
  unfold check_lease. intros -> -> Hw Hb. destruct Hw as [->|Hw]; [done|].
  apply rbind_ok in Hb as ([] & -> & _). cbn [rbind]. by destruct (ls_workload_state a).
Qed.

Lemma assigned_spec l cs t : ls_capacity_spec (assigned l cs t) = ls_capacity_spec l.
Proof. unfold assigned. symmetry. apply si_spec, apply_changes_identity. Qed.

Lemma core_check l cs t :
  forallb core_change cs = true -> check_lease l = Ok tt -> check_lease (assigned l cs t) = Ok tt.
Proof.
  intros Hc Hl. destruct (core_apply (SetUpdatedAt t :: cs) l Hc) as (Hh & _ & Hw & _).
  unfold assigned. eapply check_lease_fields; eauto.
  symmetry. apply si_spec, apply_changes_identity.
Qed.

Lemma updated_snoc l cs c t :
  updated_row l (cs ++ [c]) t = bump_revision (apply_change (assigned l cs t) c).
Proof.
  unfold updated_row, assigned, apply_changes. rewrite (app_comm_cons cs), fold_left_app. done.
Qed.

(** A handoff stays valid when it is kept, and when a new one is. *)
Lemma handoff_valid h h' :
  option_evolves handoff_kept h h' -> (h = None -> opt_prop (fun x => check_handoff x = Ok tt) h') ->
  opt_prop (fun x => check_handoff x = Ok tt) h -> opt_prop (fun x => check_handoff x = Ok tt) h'.
Proof.
  intros Hk Hnew Hv. destruct h as [x|]; [|by apply Hnew]. destruct (Hk x eq_refl) as (y & -> & Hy).
  by apply (hk_valid _ _ Hy).
Qed.

(** The general rule: [assigned l cs t] is what the caller's changes do; the evidence
    update [u] comes on top. *)
Lemma evolves_transition l cs u persisted t :
  let l1 := assigned l cs t in
  evidence_changes l cs u = Ok persisted ->
  option_evolves handoff_kept (ls_artifact_handoff l) (ls_artifact_handoff l1) ->
  (ls_artifact_handoff l = None -> opt_prop (fun h => check_handoff h = Ok tt) (ls_artifact_handoff l1)) ->
  ls_evidence l1 = ls_evidence l ->
  (check_lease l = Ok tt -> check_lease l1 = Ok tt) ->
  match eu_billing u with
  | Some r => check_receipt r = Ok tt /\ ls_billing_receipt l1 = Some r
  | None => ls_billing_receipt l1 = ls_billing_receipt l
  end ->
  (is_terminal l = true -> is_terminal l1 = true) ->
  (ls_state l1 = RELEASED -> is_catalog_attempt l = true ->
   is_terminal l = true \/ is_some (ls_billing_receipt l1) = true) ->
  (ls_billing_state l1 = BILLING_AUTHORITATIVE ->
   ls_billing_state l = BILLING_AUTHORITATIVE \/ is_some (ls_billing_receipt l1) = true) ->
  (is_catalog_attempt l = true -> ls_ownership l <> PREEXISTING_RUNNING ->
   ls_ownership l1 <> PREEXISTING_RUNNING) ->
  evolves l (updated_row l persisted t).
Proof.
  intros l1 Hp Hh Hnew He Hc Hr Ht Hs Ha Ho. pose proof (handoff_valid _ _ Hh Hnew) as Hvalid.
  assert (Hrec : is_some (ls_billing_receipt l) = true -> is_some (ls_billing_receipt l1) = true)
    by (destruct (eu_billing u); [destruct Hr as [_ ->]; done | by rewrite Hr]).
  assert (Hspec : ls_capacity_spec l1 = ls_capacity_spec l) by apply assigned_spec.
  assert (Hsrc : ls_source l1 = ls_source l) by (symmetry; apply si_source, apply_changes_identity).
  assert (Hrow : forall l', ls_source l' = ls_source l1 -> ls_ownership l' = ls_ownership l1 ->
     ls_state l' = ls_state l1 -> ls_billing_state l' = ls_billing_state l1 ->
     ls_billing_receipt l' = ls_billing_receipt l1 -> ls_capacity_spec l' = ls_capacity_spec l1 ->
     ls_artifact_handoff l' = ls_artifact_handoff l1 -> ls_workload_state l' = ls_workload_state l1 ->
     (row_ok l -> receipts_consistent (ls_evidence l') (ls_billing_receipt l') = true) ->
     row_ok l -> row_ok l').
  { intros l' E7 E8 E1 E2 E3 E4 E5 E6 Hcons Hok. pose proof Hok as [Hlc Hll Hset Haut Hro Hown Hpr Hval].
    specialize (Hcons Hok). split.
    - done.
    - apply (check_lease_fields l' l1); [congruence|congruence|by left|by apply Hc].
    - unfold is_terminal, is_catalog_attempt. rewrite E1, E3, E4. intros T C.
      apply bool_decide_eq_true_1 in T. rewrite Hspec in C.
      destruct (Hs T C) as [T'|]; [|done]. apply Hrec, Hset; done.
    - rewrite E2, E3. intros A. destruct (Ha A) as [A'|]; [|done]. by apply Hrec, Haut.
    - unfold is_catalog_attempt. rewrite E4, E7, Hspec, Hsrc. exact Hro.
    - unfold is_catalog_attempt. rewrite E4, E8, Hspec. intros C. apply Ho; [exact C|by apply Hown].
    - unfold protocol_of in *. by rewrite E4, Hspec.
    - rewrite E5. by apply Hvalid. }
  unfold evidence_changes in Hp. destruct (ls_evidence l) as [e|] eqn:Ee.
  - res_inv. match goal with U : update_evidence e u = Ok ?x |- _ =>
      destruct (update_evidence_inv e u x U) as [Hk Hb]; set (e' := x) in * end.
    apply evolves_updated; rewrite updated_snoc; fold l1; clearbody l1; cbn; try done.
    + rewrite Ee. intros old [= <-]. by exists e'.
    + apply Hrow; try done. cbn. intros [Hcons _ _ _ _ _ _ _].
      rewrite Ee in Hcons. cbn in Hcons. destruct (eu_billing u) as [r|].
      * destruct Hr as [Hv ->]. apply keep_first_new in Hb as (o & -> & [->|Heq]); [by apply receipt_eqb_refl|done].
      * cbn in Hb. injection Hb as Hb. by rewrite <- Hb, Hr.
  - injection Hp as <-. unfold updated_row. fold (assigned l cs t). fold l1.
    change (evolves l (bump_revision l1)).
    assert (bump_revision l1 = updated_row l cs t) as -> by done.
    apply evolves_updated; unfold updated_row; fold (assigned l cs t); fold l1; clearbody l1; cbn; try done.
    + rewrite He, Ee. intros x [=].
    + apply Hrow; try done. cbn. intros _. by rewrite He.
Qed.

(** The rule without an evidence update. *)
Lemma evolves_direct l cs t :
  let l1 := assigned l cs t in
  option_evolves handoff_kept (ls_artifact_handoff l) (ls_artifact_handoff l1) ->
  (ls_artifact_handoff l = None -> opt_prop (fun h => check_handoff h = Ok tt) (ls_artifact_handoff l1)) ->
  ls_evidence l1 = ls_evidence l ->
  (check_lease l = Ok tt -> check_lease l1 = Ok tt) ->
  ls_billing_receipt l1 = ls_billing_receipt l ->
  (is_terminal l = true -> is_terminal l1 = true) ->
  (ls_state l1 = RELEASED -> is_catalog_attempt l = true ->
   is_terminal l = true \/ is_some (ls_billing_receipt l) = true) ->
  (ls_billing_state l1 = BILLING_AUTHORITATIVE ->
   ls_billing_state l = BILLING_AUTHORITATIVE \/ is_some (ls_billing_receipt l) = true) ->
  (is_catalog_attempt l = true -> ls_ownership l <> PREEXISTING_RUNNING ->
   ls_ownership l1 <> PREEXISTING_RUNNING) ->
  evolves l (updated_row l cs t).
Proof.
  intros l1 Hh Hnew He Hc Hr Ht Hs Ha Ho. pose proof (handoff_valid _ _ Hh Hnew) as Hvalid.
  assert (Hsrc : ls_source l1 = ls_source l) by (symmetry; apply si_source, apply_changes_identity).
  assert (Hspec : ls_capacity_spec l1 = ls_capacity_spec l) by apply assigned_spec.
  change (updated_row l cs t) with (bump_revision l1).
  assert (Hup : bump_revision l1 = updated_row l cs t) by done. rewrite Hup.
  apply evolves_updated; rewrite <- Hup; clear Hup; clearbody l1; cbn; try done.
  - rewrite He. apply option_evolves_refl, _.
  - by rewrite Hr.
  - intros [Hlc Hll Hset Haut Hro Hown Hpr Hval]. split.
    + cbn. by rewrite He, Hr.
    + apply (check_lease_fields _ l1); [done|done|by left|by apply Hc].
    + unfold is_terminal, is_catalog_attempt. cbn. rewrite Hr, Hspec. intros T C.
      apply bool_decide_eq_true_1 in T. destruct (Hs T C) as [T'|]; [by apply Hset|done].
    + cbn. rewrite Hr. intros A. destruct (Ha A) as [A'|]; [by apply Haut|done].
    + unfold is_catalog_attempt. cbn. rewrite Hspec, Hsrc. exact Hro.
    + unfold is_catalog_attempt. cbn. rewrite Hspec. intros C. apply Ho; [exact C|by apply Hown].
    + unfold protocol_of in *. cbn. by rewrite Hspec.
    + cbn. by apply Hvalid.
Qed.

Lemma core_handoff l cs t :
  forallb core_change cs = true ->
  option_evolves handoff_kept (ls_artifact_handoff l) (ls_artifact_handoff (assigned l cs t)).
Proof.
  intros Hc. unfold assigned. destruct (core_apply (SetUpdatedAt t :: cs) l Hc) as (-> & _).
  apply option_evolves_refl, _.
Qed.

Lemma core_no_handoff l cs t :
  forallb core_change cs = true -> ls_artifact_handoff l = None ->
  opt_prop (fun h => check_handoff h = Ok tt) (ls_artifact_handoff (assigned l cs t)).
Proof. intros Hc Hn. unfold assigned. destruct (core_apply (SetUpdatedAt t :: cs) l Hc) as (-> & _). by rewrite Hn. Qed.

Lemma core_evidence l cs t :
  forallb core_change cs = true -> ls_evidence (assigned l cs t) = ls_evidence l.
Proof. intros Hc. apply (core_apply (SetUpdatedAt t :: cs) l Hc). Qed.

Lemma plain_core cs : forallb plain_change cs = true -> forallb core_change cs = true.
Proof.
  intros Hc. rewrite forallb_forall in Hc |- *. intros c Hin. by apply plain_is_core, Hc.
Qed.

(** What a transition may do to the states: revive nothing, release a catalog attempt
    only with its receipt, claim authoritative billing only with a receipt, and disown
    no catalog attempt. *)
Definition states_allowed (l l1 : TrainingPodLease) : Prop :=
  (is_terminal l = true -> is_terminal l1 = true) /\
  (ls_state l1 = RELEASED -> is_catalog_attempt l = true ->
   is_terminal l = true \/ is_some (ls_billing_receipt l1) = true) /\
  (ls_billing_state l1 = BILLING_AUTHORITATIVE ->
   ls_billing_state l = BILLING_AUTHORITATIVE \/ is_some (ls_billing_receipt l1) = true) /\
  (is_catalog_attempt l = true -> ls_ownership l <> PREEXISTING_RUNNING ->
   ls_ownership l1 <> PREEXISTING_RUNNING).

Lemma evolves_plain l cs t :
  forallb plain_change cs = true -> states_allowed l (assigned l cs t) ->
  evolves l (updated_row l cs t).
Proof.
  intros Hp (Ht & Hs & Ha & Ho). pose proof (plain_core cs Hp) as Hc.
  pose proof (plain_apply (SetUpdatedAt t :: cs) l Hp) as Hr. fold (assigned l cs t) in Hr.
  rewrite Hr in Hs, Ha.
  apply evolves_direct; auto using core_handoff, core_no_handoff, core_evidence, core_check.
Qed.

Lemma evolves_core l cs u persisted t :
  evidence_changes l cs u = Ok persisted ->
  forallb core_change cs = true ->
  match eu_billing u with
  | Some r => check_receipt r = Ok tt /\ ls_billing_receipt (assigned l cs t) = Some r
  | None => forallb plain_change cs = true
  end ->
  states_allowed l (assigned l cs t) ->
  evolves l (updated_row l persisted t).
Proof.
  intros Hp Hc Hr (Ht & Hs & Ha & Ho).
  eapply evolves_transition; eauto using core_handoff, core_no_handoff, core_evidence, core_check.
  destruct (eu_billing u); [done|]. by apply (plain_apply (SetUpdatedAt t :: cs)).
Qed.

(** Compute the states a concrete list of changes assigns. *)
Ltac states :=
  unfold states_allowed, assigned, is_terminal in *;
  cbn [apply_changes fold_left apply_change app ls_state ls_billing_state ls_billing_receipt
       ls_ownership is_some];
  repeat split; intros; auto; try congruence; try discriminate;
  try (left; by apply bool_decide_eq_true_2).
