(* ===== verification/Logic.v ===== *)
(** A program logic for the service's operations.

    [spec K m R Q]: started on a well-formed table where every lease of [K] is the
    past of its row, [m] leaves a well-formed table whose rows evolved, records only
    admissible outside calls, and when it answers [a] the leases [R a] are again
    pasts of their rows and [Q a] holds. Other processes may commit between any two
    steps; they are assumed to let rows evolve the same way ([rely]). *)
From S2P Require Import Prelude PyStr Enums Errors PyDecimal PyTime Json ContractsBase.
From S2P Require Import Quote CatalogRequest Evidence Lease Row Repository World.
From S2P Require Import ServiceCore Evolves.

#[local] Open Scope Z_scope.

(** ** Tables *)

Record db_wf (db : database) : Prop := {
  wf_ok : db_ok db;
  wf_rows : forall k l, db !! k = Some l -> row_ok l
}.

Definition db_evolves (db db' : database) : Prop :=
  forall k l, db !! k = Some l -> exists l', db' !! k = Some l' /\ evolves l l'.

#[export] Instance db_evolves_preorder : PreOrder db_evolves.
Proof.
  split.
  - intros db k l Hk. by exists l.
  - intros a b c Hab Hbc k l Hk. destruct (Hab k l Hk) as (l1 & H1 & E1).
    destruct (Hbc k l1 H1) as (l2 & H2 & E2). exists l2. split; [done|]. by etransitivity.
Qed.

(** A lease some transaction read or wrote: its row has evolved from it since. *)
Definition known (db : database) (l : TrainingPodLease) : Prop :=
  exists cur, db !! ls_cleanup_token l = Some cur /\ evolves l cur.

Lemma known_stable db db' l : db_evolves db db' -> known db l -> known db' l.
Proof.
  intros He (cur & Hc & Hl). destruct (He _ _ Hc) as (cur' & Hc' & Hl').
  exists cur'. split; [done|]. by etransitivity.
Qed.

Lemma known_row_ok db l : db_wf db -> known db l -> exists cur,
  db !! ls_cleanup_token l = Some cur /\ evolves l cur /\ row_ok cur.
Proof. intros [_ Hr] (cur & Hc & Hl). eauto. Qed.

(** ** Admissible outside calls *)

(** What must be durable when an outside call is made. *)
Definition call_admitted `{Digest} (c : call) (db : database) : Prop :=
  match c with
  | CallCreate name =>
      exists k row, db !! k = Some row /\ ls_resource_name row = name /\ ls_state row = STARTING /\
        ls_creation_uncertain row = true
  | CallTerminate pod =>
      exists l, known db l /\ ls_provider_pod_id l = Some pod /\ is_catalog_attempt l = true /\
        is_terminal l = false
  | CallStop pod =>
      exists l, known db l /\ ls_provider_pod_id l = Some pod /\ is_catalog_attempt l = false /\
        is_terminal l = false
  | CallRevoke attempt =>
      exists k row spec, db !! k = Some row /\ ls_capacity_spec row = Some spec /\
        rq_attempt_id (sp_request spec) = attempt /\ is_some (ls_billing_receipt row) = true
  | CallAcknowledge attempt payload =>
      exists k row h ack, db !! k = Some row /\ ls_artifact_handoff row = Some h /\
        ah_attempt_id h = attempt /\
        ah_acknowledgement_sha256 h = Some ack /\
        get_field payload "acknowledgement_sha256" = JStr ack /\
        ah_acknowledgement_payload_sha256 h = Some (sha256_hex (dumps (JObj payload)))
  | _ => True
  end.

Definition trace_admitted `{Digest} (tr : list (call * database)) : Prop :=
  Forall (fun p => call_admitted (fst p) (snd p)) tr.

(** ** The environment's part *)

Record rely (H : Host) : Prop := {
  rely_wf : forall n db, db_wf db -> db_wf (h_interfere H n db);
  rely_evolves : forall n db, db_wf db -> db_evolves db (h_interfere H n db);
  rely_receipts : forall n p s c t r b,
    pv_final_billing (h_provider H) n p s c t r = Ok (Some b) -> check_receipt b = Ok tt
}.

Section Logic.
Context {dg : Digest} {nu : NameUuid}.
Context (H : Host).

Record world_wf (w : world) : Prop := {
  ww_db : db_wf (w_db w);
  ww_trace : trace_admitted (w_trace w)
}.

(** [m] started on [w]. *)
Definition spec_at {A} (w : world) (K : list TrainingPodLease) (m : M A) (R : A -> list TrainingPodLease)
  (Q : A -> Prop) : Prop :=
  world_wf w -> Forall (known (w_db w)) K ->
    let '(r, w') := m w in
    world_wf w' /\ db_evolves (w_db w) (w_db w') /\
    match r with
    | Ok a => Forall (known (w_db w')) (R a) /\ Q a
    | Exc _ => True
    end.

Definition spec {A} (K : list TrainingPodLease) (m : M A) (R : A -> list TrainingPodLease)
  (Q : A -> Prop) : Prop :=
  forall w, spec_at w K m R Q.

Lemma known_all_stable db db' K : db_evolves db db' -> Forall (known db) K -> Forall (known db') K.
Proof. intros He HK. eapply List.Forall_impl; [|exact HK]. intros l. by apply known_stable. Qed.

(** *** Structural rules *)

Lemma spec_ret {A} K (a : A) R Q : incl (R a) K -> Q a -> spec K (ret a) R Q.
Proof.
  intros HR HQ w Hw HK. split; [done|]. split; [done|]. split; [|done].
  rewrite List.Forall_forall in HK |- *. eauto.
Qed.

Lemma spec_raise {A} K e R (Q : A -> Prop) : spec K (raise e) R Q.
Proof. intros w Hw HK. split; [done|]. by split. Qed.

Lemma spec_lift {A} K (r : result A) R (Q : A -> Prop) :
  (forall a, r = Ok a -> incl (R a) K /\ Q a) -> spec K (lift r) R Q.
Proof.
  intros Hr w Hw HK. cbn. split; [done|]. split; [done|]. destruct r as [a|]; [|done].
  destruct (Hr a eq_refl) as [HR HQ]. split; [|done].
  rewrite List.Forall_forall in HK |- *. eauto.
Qed.

Lemma spec_at_bind {A B} w K (m : M A) (f : A -> M B) R Q R' Q' :
  spec_at w K m R Q ->
  (forall a, Q a -> spec (R a ++ K)%list (f a) R' Q') ->
  spec_at w K (bind m f) R' Q'.
Proof.
  intros Hm Hf Hw HK. specialize (Hm Hw HK). unfold bind. destruct (m w) as [[a|e] w1].
  - destruct Hm as (Hw1 & He1 & HR & HQ). specialize (Hf a HQ w1 Hw1).
    assert (Forall (known (w_db w1)) (R a ++ K)) as HK1
      by (apply Forall_app; split; [done|]; by eapply known_all_stable).
    specialize (Hf HK1). destruct (f a w1) as [r w2]. destruct Hf as (Hw2 & He2 & Hr).
    split; [done|]. split; [by etransitivity | done].
  - destruct Hm as (Hw1 & He1 & _). done.
Qed.

Lemma spec_bind {A B} K (m : M A) (f : A -> M B) R Q R' Q' :
  spec K m R Q ->
  (forall a, Q a -> spec (R a ++ K)%list (f a) R' Q') ->
  spec K (bind m f) R' Q'.
Proof. intros Hm Hf w. by eapply spec_at_bind. Qed.

Lemma spec_at_catch {A} w K (m : M A) h R Q :
  spec_at w K m R Q ->
  (forall e k, h e = Some k -> spec K k R Q) ->
  spec_at w K (catch m h) R Q.
Proof.
  intros Hm Hh Hw HK. specialize (Hm Hw HK). unfold catch. destruct (m w) as [[a|e] w1]; [done|].
  destruct Hm as (Hw1 & He1 & _). destruct (h e) as [k|] eqn:E; [|done].
  assert (Forall (known (w_db w1)) K) as HK1 by (by eapply known_all_stable).
  specialize (Hh e k E w1 Hw1 HK1). destruct (k w1) as [r w2]. destruct Hh as (Hw2 & He2 & Hr).
  split; [done|]. split; [by etransitivity | done].
Qed.

Lemma spec_catch {A} K (m : M A) h R Q :
  spec K m R Q ->
  (forall e k, h e = Some k -> spec K k R Q) ->
  spec K (catch m h) R Q.
Proof. intros Hm Hh w. by apply spec_at_catch. Qed.

Lemma spec_weaken {A} K K' (m : M A) R R' Q Q' :
  spec K' m R Q -> incl K' K ->
  (forall a, Q a -> incl (R' a) (R a ++ K) /\ Q' a) ->
  spec K m R' Q'.
Proof.
  intros Hm HK' HQ w Hw HK.
  assert (Forall (known (w_db w)) K') as HKK by (rewrite List.Forall_forall in HK |- *; eauto).
  specialize (Hm w Hw HKK). destruct (m w) as [[a|e] w1]; [|done].
  destruct Hm as (Hw1 & He1 & HR & HQa). destruct (HQ a HQa) as [Hi HQ'].
  split; [done|]. split; [done|]. split; [|done].
  assert (Forall (known (w_db w1)) (R a ++ K)) as Hall
    by (apply Forall_app; split; [done|]; by eapply known_all_stable).
  rewrite List.Forall_forall in Hall |- *. eauto.
Qed.

(** Strengthen an answer's fact; the leases stay. *)
Lemma spec_post {A} K (m : M A) R (Q Q' : A -> Prop) :
  spec K m R Q -> (forall a, Q a -> Q' a) -> spec K m R Q'.
Proof.
  intros Hm HQ. eapply spec_weaken; [exact Hm | apply incl_refl |].
  intros a Ha. split; [apply incl_appl, incl_refl | auto].
Qed.

(** *** Effects *)

Lemma spec_now K : spec K (now H) (fun _ => []) (fun _ => True).
Proof. intros w [] HK. split; [by split|]. split; [done|]. by split. Qed.

Lemma spec_at_ask {A} w K c (f : nat -> result A) R (Q : A -> Prop) :
  (db_wf (w_db w) -> Forall (known (w_db w)) K -> call_admitted c (w_db w)) ->
  (forall n a, f n = Ok a -> incl (R a) K /\ Q a) ->
  spec_at w K (ask c f) R Q.
Proof.
  intros Hc Hf [Hdb Htr] HK. cbn. split; [split; [done|]; constructor; [by apply Hc | done]|].
  split; [done|]. destruct (f (w_tick w)) as [a|] eqn:E; [|done].
  destruct (Hf _ _ E) as [HR HQ]. split; [|done].
  rewrite List.Forall_forall in HK |- *. eauto.
Qed.

Lemma spec_ask {A} K c (f : nat -> result A) R (Q : A -> Prop) :
  (forall db, db_wf db -> Forall (known db) K -> call_admitted c db) ->
  (forall n a, f n = Ok a -> incl (R a) K /\ Q a) ->
  spec K (ask c f) R Q.
Proof. intros Hc Hf w. by apply spec_at_ask; auto. Qed.

Lemma spec_owned {A} K (m : M A) R Q : spec K m R Q -> spec K (owned H m) R Q.
Proof.
  intros Hm w Hw HK. specialize (Hm w Hw HK). unfold owned. destruct (m w) as [[a|e] w1]; [|done].
  destruct Hm as ([] & He1 & HR & HQ). split; [by split|]. split; [done|].
  by destruct (h_cancelled H (w_tick w1)).
Qed.

(** A transaction, after what the other processes committed. *)
Lemma spec_transact {A} K (f : instant -> database -> result A * database) R (Q : A -> Prop) :
  rely H ->
  (forall t db, db_wf db -> Forall (known db) K ->
     let '(r, db') := f t db in
     db_wf db' /\ db_evolves db db' /\
     match r with Ok a => Forall (known db') (R a) /\ Q a | Exc _ => True end) ->
  spec K (transact H f) R Q.
Proof.
  intros [Hwf Hev _] Hf w [Hdb Htr] HK. unfold transact.
  specialize (Hf (h_wall_clock H (w_tick w)) (h_interfere H (w_tick w) (w_db w)) (Hwf _ _ Hdb)).
  specialize (Hf (known_all_stable _ _ _ (Hev (w_tick w) (w_db w) Hdb) HK)).
  destruct (f _ _) as [r db']. destruct Hf as (Hwf' & Hev' & Hr). cbn.
  split; [by split|]. split; [|done]. etransitivity; [by apply Hev | done].
Qed.

Lemma spec_query {A} K (f : database -> result A) R (Q : A -> Prop) :
  rely H ->
  (forall db a, db_wf db -> Forall (known db) K -> f db = Ok a -> Forall (known db) (R a) /\ Q a) ->
  spec K (query H f) R Q.
Proof.
  intros HH Hf. apply spec_transact; [done|]. intros t db Hdb HK. split; [done|]. split; [done|].
  destruct (f db) as [a|] eqn:E; [|done]. by apply (Hf db a).
Qed.

Lemma spec_bind_lift {A B} K (r : result A) (f : A -> M B) R Q :
  (forall a, r = Ok a -> spec K (f a) R Q) -> spec K (bind (lift r) f) R Q.
Proof.
  intros Hf. apply (spec_bind _ _ _ (fun _ => []) (fun a => r = Ok a)); [|exact Hf].
  apply spec_lift. intros a Ha. split; [apply incl_nil_l | done].
Qed.

Lemma spec_bind_now {B} K (f : instant -> M B) R Q :
  (forall t, spec K (f t) R Q) -> spec K (bind (now H) f) R Q.
Proof.
  intros Hf. apply (spec_bind _ _ _ (fun _ => []) (fun _ => True)); [apply spec_now|].
  intros t _. apply Hf.
Qed.

(** *** Repository *)

Lemma known_row db k l : db !! k = Some l -> ls_cleanup_token l = k -> known db l.
Proof. intros Hl <-. by exists l. Qed.

Lemma spec_repo_get K token :
  rely H ->
  spec K (repo_get H token) (fun o => match o with Some l => [l] | None => [] end)
    (fun o => forall l, o = Some l ->
       ls_cleanup_token l = token /\ row_ok l /\
       (forall k, In k K -> ls_cleanup_token k = token -> evolves k l)).
Proof.
  intros HH. apply spec_query; [done|]. intros db a Hdb HK. unfold db_get.
  destruct (db !! token) as [row|] eqn:E.
  - intros Hl. res_inv. apply load_same in H0 as ->.
    pose proof (db_keys _ (wf_ok _ Hdb) _ _ E) as Ht.
    split; [constructor; [|done]; by eapply known_row|].
    intros l [= <-]. split; [done|]. split; [by eapply wf_rows|].
    intros k Hin Hk. rewrite List.Forall_forall in HK. destruct (HK k Hin) as (cur & Hc & He).
    rewrite Hk in Hc. congruence.
  - intros [= <-]. split; [done|]. intros l [=].
Qed.

Lemma spec_required K token :
  rely H ->
  spec K (required H token) (fun l => [l])
    (fun l => ls_cleanup_token l = token /\ row_ok l /\
       (forall k, In k K -> ls_cleanup_token k = token -> evolves k l)).
Proof.
  intros HH. unfold required. eapply spec_bind; [by apply spec_repo_get|].
  intros o Ho. apply spec_lift. intros l Hl. apply of_option_ok in Hl as ->.
  split; [apply incl_appl, incl_refl | by apply Ho].
Qed.

Lemma spec_repo_cas K lease cs :
  rely H -> In lease K ->
  (forall t, evolves lease (updated_row lease cs t)) ->
  spec K (repo_cas H lease cs) (fun l => [l]) (fun l => exists t, l = updated_row lease cs t).
Proof.
  intros HH Hin Hev. apply spec_transact; [done|]. intros t db Hdb HK.
  destruct (compare_and_set db t lease cs) as [r db'] eqn:E.
  pose proof (cas_db_ok _ _ _ _ _ _ (wf_ok _ Hdb) E) as Hok.
  apply cas_cases in E as [[-> ->]|(row & Hrow & Hrev & Hf & -> & ->)]; [by split|].
  rewrite List.Forall_forall in HK. destruct (HK lease Hin) as (cur & Hc & He).
  assert (cur = lease) as -> by (apply (ev_same _ _ He); congruence).
  assert (row = lease) as -> by congruence.
  assert (row_ok (updated_row lease cs t)) as Hro
    by (apply (ev_row _ _ (Hev t)); by eapply wf_rows).
  split; [|split].
  - split; [done|]. intros k l Hk. destruct (decide (ls_cleanup_token lease = k)) as [<-|Hne].
    + rewrite lookup_insert_eq in Hk. by simplify_eq.
    + rewrite lookup_insert_ne in Hk by done. by eapply wf_rows.
  - intros k l Hk. destruct (decide (ls_cleanup_token lease = k)) as [<-|Hne].
    + rewrite lookup_insert_eq. eexists. split; [done|].
      assert (l = lease) as -> by congruence. apply Hev.
    + rewrite lookup_insert_ne by done. by exists l.
  - destruct (load _) as [l|] eqn:El; [|done]. apply load_same in El as ->.
    split; [|by exists t]. constructor; [|done]. exists (updated_row lease cs t). rewrite updated_row_token, lookup_insert_eq. done.
Qed.

(** The table right after a compare-and-set that succeeded. *)
Lemma repo_cas_row lease cs w l w' :
  repo_cas H lease cs w = (Ok l, w') -> w_db w' !! ls_cleanup_token lease = Some l.
Proof.
  unfold repo_cas, transact. destruct (compare_and_set _ _ _ _) as [r db'] eqn:E. intros [= -> <-]. cbn.
  apply cas_cases in E as [[Hl _]|(row & _ & _ & _ & Hl & ->)]; [done|].
  symmetry in Hl. apply load_same in Hl as ->. apply lookup_insert_eq.
Qed.

(** What follows a compare-and-set starts on a table that holds the row written. *)
Lemma spec_bind_cas {B} K lease cs (f : TrainingPodLease -> M B) R Q :
  rely H -> In lease K ->
  (forall t, evolves lease (updated_row lease cs t)) ->
  (forall t w, w_db w !! ls_cleanup_token lease = Some (updated_row lease cs t) ->
     spec_at w (updated_row lease cs t :: K) (f (updated_row lease cs t)) R Q) ->
  spec K (bind (repo_cas H lease cs) f) R Q.
Proof.
  intros HH Hin Hev Hf w Hw HK. pose proof (spec_repo_cas K lease cs HH Hin Hev w Hw HK) as Hs.
  unfold bind. destruct (repo_cas H lease cs w) as [[l|e] w1] eqn:Ec; destruct Hs as (Hw1 & He1 & Hs); [|done].
  destruct Hs as [Hl (t & ->)]. apply repo_cas_row in Ec.
  assert (HK1 : Forall (known (w_db w1)) (updated_row lease cs t :: K))
    by (apply Forall_cons_iff; split; [by apply Forall_cons_iff in Hl as []|by eapply known_all_stable]).
  specialize (Hf t w1 Ec Hw1 HK1). destruct (f _ w1) as [r w2]. destruct Hf as (Hw2 & He2 & Hr).
  split; [done|]. split; [by etransitivity | done].
Qed.

End Logic.
