(* ===== verification/SafetyCore.v ===== *)
(** Settlement and teardown ([ServiceCore]) stay within [evolves], whatever other
    processes do meanwhile. *)
From S2P Require Import Prelude PyStr Enums Errors PyDecimal PyTime Json ContractsBase.
From S2P Require Import Quote CatalogRequest Evidence Lease Row Repository World.
From S2P Require Import ServiceCore Evolves Logic.

#[local] Open Scope Z_scope.

(** The leases an answer carries. *)
Definition none {A} (_ : A) : list TrainingPodLease := [].
Definition one (l : TrainingPodLease) : list TrainingPodLease := [l].
Definition opt_one (o : option TrainingPodLease) : list TrainingPodLease :=
  match o with Some l => [l] | None => [] end.
Definition left_one {B} (s : TrainingPodLease + B) : list TrainingPodLease :=
  match s with inl l => [l] | inr _ => [] end.

Ltac in_known := cbn; auto 12.
Ltac incl_known := unfold incl; cbn; intuition.

Ltac bind_lift := apply spec_bind_lift; let a := fresh "v" in let E := fresh "Hv" in intros a E.
Ltac bind_now := apply spec_bind_now; let t := fresh "t" in intros t.

Section Core.
Context {dg : Digest} {nu : NameUuid}.
Context (H : Host) (HH : rely H) (fuel : nat).

Lemma handler_conflict {A} (k k' : M A) e :
  (if is_conflict_error e then Some k else None) = Some k' -> k' = k.
Proof. destruct (is_conflict_error e); congruence. Qed.

Lemma handler_manager {A} (k k' : M A) e :
  (if is_manager_error e then Some k else None) = Some k' -> k' = k.
Proof. destruct (is_manager_error e); congruence. Qed.

(** Reading the row of a known lease again. *)
Lemma spec_again K lease :
  In lease K -> spec K (required H (ls_cleanup_token lease)) one (fun l => evolves lease l /\ row_ok l).
Proof.
  intros Hin. eapply spec_post; [by apply spec_required|].
  intros l (Ht & Hr & Hk). split; [by apply Hk|done].
Qed.

Lemma spec_fresh K token :
  spec K (required H token) one (fun l => ls_cleanup_token l = token /\ row_ok l).
Proof.
  eapply spec_post; [by apply spec_required|].
  intros l (Ht & Hr & Hk). done.
Qed.

Lemma spec_cas K lease cs :
  In lease K -> (forall t, evolves lease (updated_row lease cs t)) ->
  spec K (repo_cas H lease cs) one (fun l => evolves lease l /\ exists t, l = updated_row lease cs t).
Proof.
  intros Hin Hev. eapply spec_post; [by apply spec_repo_cas|].
  intros l (t & ->). eauto.
Qed.

(** A compare-and-set loop over a row that other processes may change. *)
Lemma spec_transition_nonterminal n K lease cs :
  In lease K ->
  (forall cur t, evolves lease cur -> is_terminal cur = false -> evolves cur (updated_row cur cs t)) ->
  spec K (transition_nonterminal H n lease cs) one
    (fun l => evolves lease l /\
       (is_terminal l = true \/
        exists cur t, evolves lease cur /\ is_terminal cur = false /\ l = updated_row cur cs t)).
Proof.
  intros Hin Hev.
  assert (forall cur K, In cur K -> evolves lease cur ->
    spec K (transition_nonterminal H n cur cs) one
      (fun l => evolves lease l /\
       (is_terminal l = true \/
        exists cur t, evolves lease cur /\ is_terminal cur = false /\ l = updated_row cur cs t))) as Hall.
  { clear K Hin. induction n as [|n IH]; intros cur K Hin Hc; cbn [transition_nonterminal];
      destruct (is_terminal cur) eqn:Et.
    - apply spec_ret; [incl_known; subst; done|auto].
    - apply spec_raise.
    - apply spec_ret; [incl_known; subst; done|auto].
    - apply spec_catch.
      + eapply spec_post; [apply (spec_cas K cur cs Hin); auto|].
        intros l (Hl & t & Heq). split; [by etransitivity|].
        right. eauto.
      + intros e k Hk. apply handler_conflict in Hk as ->.
        eapply spec_bind; [by apply spec_again|]. intros again [Ha _].
        apply IH; [in_known|by etransitivity]. }
  by apply Hall.
Qed.

Definition expected (states : option (list TrainingPodState)) (l : TrainingPodLease) : bool :=
  match states with Some s => bool_decide (ls_state l ∈ s) | None => true end.

Lemma spec_transition_with_evidence n K lease cs u states retry :
  In lease K ->
  (forall cur persisted t, evolves lease cur -> is_terminal cur = false -> expected states cur = true ->
     evidence_changes cur cs u = Ok persisted -> evolves cur (updated_row cur persisted t)) ->
  spec K (transition_with_evidence H n lease cs u states retry) one
    (fun l => evolves lease l /\
       (is_terminal l = true \/ expected states l = false \/
        exists cur persisted t, evolves lease cur /\ is_terminal cur = false /\
          evidence_changes cur cs u = Ok persisted /\ l = updated_row cur persisted t)).
Proof.
  intros Hin Hev.
  assert (forall cur K, In cur K -> evolves lease cur ->
    spec K (transition_with_evidence H n cur cs u states retry) one
      (fun l => evolves lease l /\
       (is_terminal l = true \/ expected states l = false \/
        exists cur persisted t, evolves lease cur /\ is_terminal cur = false /\
          evidence_changes cur cs u = Ok persisted /\ l = updated_row cur persisted t))) as Hall.
  { clear K Hin. induction n as [|n IH]; intros cur K Hin Hc; cbn [transition_with_evidence];
      (destruct (is_terminal cur) eqn:Et; [apply spec_ret; [incl_known; subst; done|auto]|]);
      (destruct (expected states cur) eqn:Ee;
       [replace (match states with Some s => negb (bool_decide (ls_state cur ∈ s)) | None => false end) with false
          by (destruct states; cbn in Ee; [by rewrite Ee|done])
       |replace (match states with Some s => negb (bool_decide (ls_state cur ∈ s)) | None => false end) with true
          by (destruct states; cbn in Ee; [by rewrite Ee|done]);
        apply spec_ret; [incl_known; subst; done|auto]]).
    - apply spec_raise.
    - bind_lift. apply spec_catch.
      + eapply spec_post; [apply (spec_cas K cur v); [in_known|eauto]|].
        intros l (Hl & t & Heq). split; [by etransitivity|].
        right. right. eauto 8.
      + intros e k Hk. destruct (is_conflict_error e && retry); [|done]. injection Hk as <-.
        eapply spec_bind; [apply spec_again; in_known|]. intros again [Ha _].
        apply IH; [in_known|by etransitivity]. }
  by apply Hall.
Qed.

Lemma spec_plain K lease cs :
  In lease K -> forallb plain_change cs = true ->
  (forall cur t, evolves lease cur -> is_terminal cur = false -> states_allowed cur (assigned cur cs t)) ->
  spec K (nonterminal H fuel lease cs) one
    (fun l => evolves lease l /\
       (is_terminal l = true \/
        exists cur t, evolves lease cur /\ is_terminal cur = false /\ l = updated_row cur cs t)).
Proof.
  intros Hin Hp Hs. apply spec_transition_nonterminal; [done|].
  intros cur t Hc Ht. apply evolves_plain; auto.
Qed.

Lemma spec_core K lease cs u states :
  In lease K -> forallb core_change cs = true ->
  match eu_billing u with
  | Some r => check_receipt r = Ok tt /\
      (forall cur t, ls_billing_receipt (assigned cur cs t) = Some r)
  | None => forallb plain_change cs = true
  end ->
  (forall cur t, evolves lease cur -> is_terminal cur = false -> expected states cur = true ->
     states_allowed cur (assigned cur cs t)) ->
  spec K (transition_with_evidence H fuel lease cs u states true) one
    (fun l => evolves lease l /\
       (is_terminal l = true \/ expected states l = false \/
        exists cur persisted t, evolves lease cur /\ is_terminal cur = false /\
          evidence_changes cur cs u = Ok persisted /\ l = updated_row cur persisted t)).
Proof.
  intros Hin Hc Hb Hs. apply spec_transition_with_evidence; [done|].
  intros cur persisted t Hcur Ht He Hp. eapply evolves_core; eauto.
  destruct (eu_billing u); [|done]. destruct Hb. auto.
Qed.

Lemma spec_zero_cost K lease reason :
  spec K (zero_cost_receipt H lease reason) none (fun r => check_receipt r = Ok tt).
Proof.
  unfold zero_cost_receipt. bind_lift. bind_now. apply spec_lift. intros r Hr.
  split; [apply incl_nil_l|]. unfold mk_receipt in Hr. res_inv. by destruct x.
Qed.

Lemma spec_release_claim K lease error :
  In lease K -> row_ok lease -> is_catalog_attempt lease = false ->
  spec K (release_unowned_claim H fuel lease error) one (evolves lease).
Proof.
  intros Hin Hok Hcat. unfold release_unowned_claim. bind_now.
  eapply spec_post; [apply spec_plain; [done|reflexivity|]|by intros l []].
  intros cur t' Hc Ht. pose proof (evolves_spec _ _ Hc) as Hsp.
  assert (is_catalog_attempt cur = false) by (unfold is_catalog_attempt in *; congruence).
  states.
Qed.

Lemma spec_revoke_and_release K lease :
  In lease K -> row_ok lease -> spec K (revoke_and_release H lease) one (evolves lease).
Proof.
  intros Hin Hok. unfold revoke_and_release.
  bind_lift. apply require_ok, bool_decide_eq_true_1 in Hv. bind_lift. bind_lift.
  apply of_option_ok in Hv1.
  assert (Hrec : is_some (ls_billing_receipt lease) = true) by by apply ro_authoritative.
  eapply spec_bind; [apply (spec_ask _ _ _ none (fun _ => True))|].
  - intros db Hdb HK. rewrite List.Forall_forall in HK.
    destruct (HK lease Hin) as (cur & Hc & He). exists (ls_cleanup_token lease), cur, v1.
    rewrite (evolves_spec _ _ He). repeat split; try done. by apply (ev_receipt _ _ He).
  - intros n a _. split; [apply incl_nil_l|done].
  - intros [] _. eapply spec_bind; [apply spec_again; in_known|]. intros current [Hc Hcok].
    destruct (is_terminal current) eqn:Et; [apply spec_ret; [incl_known; subst; auto|done]|].
    bind_now. eapply spec_post; [apply spec_cas; [in_known|]|intros l [Hl _]; by etransitivity].
    intros t'. apply evolves_plain; [reflexivity|].
    assert (is_some (ls_billing_receipt current) = true) by by apply (ev_receipt _ _ Hc).
    states.
Qed.

(** The receipt of [billing_receipt_for] is valid; a lease it answers has evolved. *)
Lemma spec_billing_receipt_for K lease :
  In lease K -> row_ok lease ->
  spec K (billing_receipt_for H lease) left_one
    (fun s => match s with inl l => evolves lease l | inr r => check_receipt r = Ok tt end).
Proof.
  intros Hin Hok. unfold billing_receipt_for.
  assert (Hun : forall K text, In lease K -> spec K
    (let* l := repo_cas H lease [SetBillingState BILLING_UNRESOLVED; SetLastProviderError (Some text)] in
     ret (inl l : TrainingPodLease + PodBillingReceipt)) left_one
    (fun s => match s with inl l => evolves lease l | inr r => check_receipt r = Ok tt end)).
  { intros K' text Hin'. eapply spec_bind.
    - apply spec_cas; [done|]. intros t. apply evolves_plain; [reflexivity|states].
    - intros l [Hl _]. apply spec_ret; [incl_known|done]. }
  destruct (ls_provider_pod_id lease) as [pod|].
  - destruct (ls_terminated_at lease) as [term|]; [|apply spec_raise].
    destruct (ls_evidence lease ≫= ev_realized_placement) as [realized|]; [|by apply Hun].
    destruct (negb _); [by apply Hun|]. bind_lift.
    eapply spec_bind; [apply (spec_ask _ _ _ none
      (fun found => forall r, found = Some r -> check_receipt r = Ok tt))|].
    + done.
    + intros n a Ha. split; [apply incl_nil_l|]. intros r ->. by eapply rely_receipts.
    + intros [r|] Hr.
      * bind_lift. bind_lift. bind_lift. apply spec_ret; [incl_known|by apply Hr].
      * destruct (bool_decide _); [apply spec_ret; [incl_known; subst; auto|done]|].
        eapply spec_bind.
        -- apply spec_cas; [in_known|]. intros t. apply evolves_plain; [reflexivity|states].
        -- intros l [Hl _]. apply spec_ret; [incl_known|done].
  - destruct (ls_creation_uncertain lease); [by apply Hun|].
    eapply spec_bind; [apply spec_zero_cost|]. intros r Hr. apply spec_ret; [incl_known|done].
Qed.

Lemma spec_reconcile_billing K lease :
  In lease K -> row_ok lease -> spec K (reconcile_billing H fuel lease) one (evolves lease).
Proof.
  intros Hin Hok. unfold reconcile_billing.
  destruct (negb (is_catalog_attempt lease)); [apply spec_ret; [incl_known; subst; auto|done]|].
  destruct (bool_decide _); [by apply spec_revoke_and_release|].
  eapply spec_bind; [by apply spec_billing_receipt_for|]. intros [l|receipt] Hs.
  - apply spec_ret; [incl_known|done].
  - eapply spec_bind; [apply (spec_catch _ _ _ one (fun l => evolves lease l))|].
    + eapply spec_post; [apply (spec_core _ lease _ _ None); [in_known|reflexivity| |]|by intros l []].
      * split; [done|]. reflexivity.
      * intros cur t Hc Ht _. states.
    + intros e k Hk. apply handler_conflict in Hk as ->.
      eapply spec_bind; [apply spec_again; in_known|]. intros current [Hc Hcok].
      destruct (bool_decide _); [apply spec_ret; [incl_known|done]|apply spec_raise].
    + intros reconciled Hr. eapply spec_post; [apply spec_revoke_and_release; [in_known|by apply (ev_row _ _ Hr)]|].
      intros l Hl. by etransitivity.
Qed.

Lemma spec_record_retryable_failure K lease error uncertain :
  In lease K -> spec K (record_retryable_failure H fuel lease error uncertain) one (evolves lease).
Proof.
  intros Hin. unfold record_retryable_failure.
  eapply spec_bind; [by apply spec_again|]. intros current [Hc _].
  destruct (is_terminal current); [apply spec_ret; [incl_known|done]|].
  bind_now. eapply spec_post; [apply spec_plain; [in_known|by destruct uncertain|]|].
  - intros cur t' _ Ht. destruct uncertain; states.
  - intros l [Hl _]. by etransitivity.
Qed.

Lemma spec_resolve_uncertain_creation K lease reason :
  In lease K -> row_ok lease ->
  spec K (resolve_uncertain_creation H fuel lease reason) one (evolves lease).
Proof.
  intros Hin Hok. unfold resolve_uncertain_creation.
  assert (Hcat : forall cur, evolves lease cur -> is_catalog_attempt cur = is_catalog_attempt lease)
    by (intros cur Hc; unfold is_catalog_attempt; by rewrite (evolves_spec _ _ Hc)).
  eapply (spec_bind _ _ _ left_one (fun s => match s with inl l => evolves lease l | inr _ => True end)).
  - apply spec_catch.
    + eapply (spec_bind _ _ _ none (fun _ => True)).
      * destruct (ls_capacity_spec lease) as [sp|];
          (eapply (spec_bind _ _ _ none (fun _ => True));
           [apply spec_ask; [done|intros n a _; split; [apply incl_nil_l|done]]
           |intros r _; apply spec_ret; [apply incl_nil_l|done]]).
      * intros r _. apply spec_ret; [apply incl_nil_l|done].
    + intros e k Hk. apply handler_manager in Hk as ->.
      eapply spec_bind; [by apply spec_record_retryable_failure|].
      intros l Hl. apply spec_ret; [incl_known|done].
  - intros [l|[[pod realized]|]] Hs; [apply spec_ret; [incl_known|done]| |]; bind_now.
    + eapply spec_post; [apply (spec_core _ lease _ _ None); [in_known|reflexivity|reflexivity|]
                        |by intros l []].
      intros cur t' Hc Ht _. states.
    + destruct (_ || _) eqn:E.
      * eapply spec_post; [apply spec_plain; [in_known|reflexivity|]|by intros l []].
        intros cur t' Hc Ht. specialize (Hcat cur Hc). destruct (is_catalog_attempt lease); states.
        right. by apply (ev_receipt _ _ Hc), (ro_authoritative _ Hok).
      * apply orb_false_elim in E as [_ E].
        eapply spec_post; [apply spec_plain; [in_known|reflexivity|]|by intros l []].
        intros cur t' Hc Ht. specialize (Hcat cur Hc). states.
Qed.

Lemma spec_settle_without_pod K lease reason t cs :
  In lease K -> row_ok lease -> forallb plain_change cs = true ->
  (forall cur t', is_terminal cur = false -> is_catalog_attempt cur = false ->
     states_allowed cur (assigned cur cs t')) ->
  (forall cur t', ls_ownership (assigned cur cs t') = ls_ownership cur) ->
  spec K (settle_without_pod H fuel lease reason t cs) one (evolves lease).
Proof.
  intros Hin Hok Hp Hs Ho. unfold settle_without_pod.
  assert (Hcat : forall cur, evolves lease cur -> is_catalog_attempt cur = is_catalog_attempt lease)
    by (intros cur Hc; unfold is_catalog_attempt; by rewrite (evolves_spec _ _ Hc)).
  assert (Hrest : forall K released, In released K -> evolves lease released ->
    spec K (if is_catalog_attempt released then revoke_and_release H released else ret released) one
      (evolves lease)).
  { intros K' released Hin' He. destruct (is_catalog_attempt released).
    - eapply spec_post; [apply spec_revoke_and_release; [done|by apply (ev_row _ _ He)]|].
      intros l Hl. by etransitivity.
    - apply spec_ret; [incl_known; subst; auto|done]. }
  destruct (is_catalog_attempt lease) eqn:Ec.
  - eapply spec_bind; [apply spec_zero_cost|]. intros receipt Hr.
    assert (Hsnoc : forall cur t', assigned cur
        (cs ++ [SetState RELEASING; SetBillingState BILLING_AUTHORITATIVE;
                SetBillingReceipt (Some receipt); SetTerminatedAt (Some t)]) t' =
      apply_changes (assigned cur cs t')
        [SetState RELEASING; SetBillingState BILLING_AUTHORITATIVE;
         SetBillingReceipt (Some receipt); SetTerminatedAt (Some t)]).
    { intros. unfold assigned, apply_changes. by rewrite app_comm_cons, fold_left_app. }
    eapply spec_bind; [eapply spec_post; [apply (spec_core _ lease _ _ None); [in_known| | |]|by intros l []; eassumption]|].
    + rewrite forallb_app, (plain_core cs Hp). done.
    + split; [done|]. intros cur t'. by rewrite Hsnoc.
    + intros cur t' Hc Ht _. unfold states_allowed. rewrite Hsnoc. specialize (Ho cur t').
      cbn [apply_changes fold_left apply_change ls_state ls_billing_state ls_billing_receipt ls_ownership is_some].
      rewrite Ho. repeat split; intros; auto; congruence.
    + intros released He. apply Hrest; [in_known|done].
  - eapply spec_bind; [eapply spec_post; [apply (spec_core _ lease _ _ None); [done|by apply plain_core|done|]|by intros l []; eassumption]|].
    + intros cur t' Hc Ht _. apply Hs; [done|]. by rewrite Hcat.
    + intros released He. apply Hrest; [in_known|done].
Qed.

Lemma spec_count_stop_attempt n K lease :
  In lease K ->
  spec K (count_stop_attempt H n lease) one (evolves lease).
Proof.
  revert K lease. induction n as [|n IH]; intros K lease Hin; cbn [count_stop_attempt];
    destruct (is_terminal lease) eqn:Et.
  - apply spec_ret; [incl_known; subst; auto|done].
  - apply spec_raise.
  - apply spec_ret; [incl_known; subst; auto|done].
  - apply spec_catch.
    + eapply spec_post; [apply spec_cas; [done|]|by intros l []].
      intros t. apply evolves_plain; [reflexivity|states].
    + intros e k Hk. apply handler_conflict in Hk as ->.
      eapply spec_bind; [by apply spec_again|]. intros again [Ha _].
      eapply spec_post; [apply IH; in_known|]. intros l Hl. by etransitivity.
Qed.

Lemma pod_id_ok lease pod : pod_id lease = Ok pod -> ls_provider_pod_id lease = Some pod.
Proof. unfold pod_id. destruct (ls_provider_pod_id lease); [|done]. destruct (bool_decide _); congruence. Qed.

Lemma spec_stop_capacity K lease reason :
  In lease K -> is_terminal lease = false ->
  spec K (stop_capacity H fuel lease reason) left_one
    (fun s => match s with inl l => evolves lease l | inr _ => True end).
Proof.
  intros Hin Ht. unfold stop_capacity. apply spec_catch.
  - eapply (spec_bind _ _ _ none (fun _ => True)).
    + destruct (is_catalog_attempt lease) eqn:Ec; bind_lift; apply pod_id_ok in Hv;
        (apply spec_ask; [|intros n a _; split; [apply incl_nil_l|done]]);
        intros db _ HK; rewrite List.Forall_forall in HK; exists lease; auto.
    + intros b _. apply spec_ret; [apply incl_nil_l|done].
  - intros e k Hk. apply handler_manager in Hk as ->.
    eapply spec_bind; [by apply spec_record_retryable_failure|]. intros failed Hf.
    destruct (is_terminal failed); [apply spec_ret; [incl_known|done]|apply spec_raise].
Qed.

Lemma spec_release_pod K lease reason :
  In lease K -> row_ok lease -> spec K (release_pod H fuel lease reason) one (evolves lease).
Proof.
  intros Hin Hok. unfold release_pod.
  eapply (spec_bind _ _ _ one (evolves lease)).
  { destruct (bool_decide _); [apply spec_ret; [incl_known; subst; auto|done]|].
    bind_now. eapply spec_post; [apply spec_plain; [done|reflexivity|]|by intros l []].
    intros cur t' Hc Ht. states. }
  intros lease1 H1. eapply spec_bind; [apply spec_count_stop_attempt; in_known|].
  intros lease2 H2'. assert (H2 : evolves lease lease2) by (by etransitivity). clear H2'.
  assert (Hcat : forall cur, evolves lease2 cur -> is_catalog_attempt cur = is_catalog_attempt lease2)
    by (intros cur Hc; unfold is_catalog_attempt; by rewrite (evolves_spec _ _ Hc)).
  destruct (is_terminal lease2) eqn:Et; [apply spec_ret; [incl_known|done]|].
  eapply spec_bind; [apply spec_stop_capacity; [in_known|done]|].
  intros [failed|[]] Hs.
  - apply spec_ret; [incl_known|by etransitivity].
  - bind_now. eapply spec_bind.
    + eapply spec_post.
      * eapply (spec_core _ lease2 _ (with_lifecycle _) None); [in_known|by destruct (is_catalog_attempt lease2)|by destruct (is_catalog_attempt lease2)|].
        intros cur t' Hc Ht _. specialize (Hcat cur Hc). destruct (is_catalog_attempt lease2); states.
      * intros l [Hl _]. exact (transitivity H2 Hl).
    + intros released Hr. destruct (is_catalog_attempt released); [|apply spec_ret; [incl_known|done]].
      eapply spec_post; [apply spec_reconcile_billing; [in_known|by apply (ev_row _ _ Hr)]|].
      intros l Hl. by etransitivity.
  - bind_now. eapply spec_bind.
    + apply spec_plain; [in_known|reflexivity|]. intros cur t' Hc Ht. states.
    + intros pending [Hp _]. destruct (is_terminal pending); [|apply spec_raise].
      apply spec_ret; [incl_known|by etransitivity].
Qed.

Lemma spec_release_one K token reason :
  spec K (release_one H fuel token reason) one (fun l => ls_cleanup_token l = token /\ row_ok l).
Proof.
  unfold release_one. eapply spec_bind; [apply spec_fresh|]. intros found [Htok Hok].
  assert (Hdone : forall K (m : M TrainingPodLease), spec K m one (evolves found) ->
    spec K m one (fun l => ls_cleanup_token l = token /\ row_ok l)).
  { intros K' m Hm. eapply spec_post; [exact Hm|]. intros l Hl. split; [|by apply (ev_row _ _ Hl)].
    by rewrite (evolves_token _ _ Hl). }
  apply Hdone. clear Hdone. destruct (is_terminal found) eqn:Et; [apply spec_ret; [incl_known|done]|].
  destruct (awaiting_billing found); [apply spec_reconcile_billing; [in_known|done]|].
  destruct (bool_decide (ls_ownership found = PREEXISTING_RUNNING)) eqn:Eo.
  { apply bool_decide_eq_true_1 in Eo. bind_now.
    eapply spec_post; [apply spec_plain; [in_known|reflexivity|]|by intros l []].
    intros cur t' Hc Ht. assert (is_catalog_attempt cur = false).
    { unfold is_catalog_attempt. rewrite (evolves_spec _ _ Hc).
      destruct (is_some (ls_capacity_spec found)) eqn:Es; [|done]. by destruct (ro_owned _ Hok Es). }
    states. }
  eapply (spec_bind _ _ _ one (evolves found)).
  { match goal with |- context [if ?c then _ else _] => destruct c end;
      [|apply spec_ret; [incl_known; subst; auto|done]].
    eapply spec_bind; [apply spec_resolve_uncertain_creation; [in_known|done]|].
    intros resolved Hr. destruct (_ && _); [apply spec_raise|apply spec_ret; [incl_known|done]]. }
  intros lease Hl. assert (row_ok lease) by by apply (ev_row _ _ Hl).
  destruct (ls_provider_pod_id lease).
  - eapply spec_post; [apply spec_release_pod; [in_known|done]|]. intros l He. by etransitivity.
  - bind_now. eapply spec_post; [apply spec_settle_without_pod; [in_known|done|reflexivity| |done]|].
    + intros cur t' Ht Hc. states.
    + intros l He. by etransitivity.
Qed.

(** ** Families *)

Lemma spec_select K (p : TrainingPodLease -> bool) :
  spec K (query H (fun db => select db p)) id (Forall (fun l => row_ok l /\ p l = true)).
Proof.
  apply spec_query; [done|]. intros db ls Hdb HK Hs.
  pose proof (select_rows _ _ _ (wf_ok _ Hdb) Hs) as Hall.
  split; (eapply List.Forall_impl; [|exact Hall]); intros l [Hl Hp].
  - by exists l.
  - split; [by eapply wf_rows|done].
Qed.

Lemma spec_cleanup_family K root :
  spec K (cleanup_family H root) id (Forall row_ok).
Proof.
  eapply spec_post; [apply spec_select|]. intros ls Hls. eapply List.Forall_impl; [|exact Hls]. by intros l [].
Qed.

Lemma spec_mark_requested n K current :
  In current K -> spec K (mark_requested H n current) one (evolves current).
Proof.
  revert K current. induction n as [|n IH]; intros K current Hin; cbn [mark_requested];
    (destruct (ls_family_release_requested current); [apply spec_ret; [incl_known; subst; auto|done]|]).
  - apply spec_raise.
  - bind_now. apply spec_catch.
    + eapply spec_post; [apply spec_cas; [done|]|by intros l []].
      intros t'. apply evolves_plain; [reflexivity|states].
    + intros e k Hk. apply handler_conflict in Hk as ->.
      eapply spec_bind; [by apply spec_again|]. intros again [Ha _].
      eapply spec_post; [apply IH; in_known|]. intros l Hl. by etransitivity.
Qed.

Lemma spec_mark_complete n K current :
  In current K -> spec K (mark_complete H n current) one (evolves current).
Proof.
  revert K current. induction n as [|n IH]; intros K current Hin; cbn [mark_complete];
    (destruct (ls_family_release_complete current); [apply spec_ret; [incl_known; subst; auto|done]|]).
  - apply spec_raise.
  - bind_now. apply spec_catch.
    + eapply spec_post; [apply spec_cas; [done|]|by intros l []].
      intros t'. apply evolves_plain; [reflexivity|states].
    + intros e k Hk. apply handler_conflict in Hk as ->.
      eapply spec_bind; [by apply spec_again|]. intros again [Ha _].
      eapply spec_post; [apply IH; in_known|]. intros l Hl. by etransitivity.
Qed.

Lemma spec_release_members K members reason :
  spec K (release_members H fuel members reason) none (fun _ => True).
Proof.
  revert K. induction members as [|member rest IH]; intros K; cbn [release_members].
  - apply spec_ret; [apply incl_nil_l|done].
  - eapply (spec_bind _ _ _ none (fun _ => True)).
    + destruct (is_terminal member); [apply spec_ret; [apply incl_nil_l|done]|].
      apply spec_catch.
      * eapply spec_bind; [apply spec_release_one|]. intros l _. apply spec_ret; [apply incl_nil_l|done].
      * intros e k Hk.
        assert (Hfail : spec K
          (let* current := required H (ls_cleanup_token member) in ret [lifecycle_fields reason current true])
          none (fun _ => True)).
        { eapply spec_bind; [apply spec_fresh|]. intros l _. apply spec_ret; [apply incl_nil_l|done]. }
        destruct e; cbn in Hk; try discriminate; injection Hk as <-;
          first [exact Hfail | apply spec_ret; [apply incl_nil_l|done]].
    + intros failure _. eapply spec_bind; [apply IH|]. intros failures _.
      apply spec_ret; [apply incl_nil_l|done].
Qed.

Lemma spec_release K token reason :
  spec K (release H fuel token reason) one (fun l => ls_cleanup_token l = token /\ row_ok l).
Proof.
  unfold release. eapply spec_bind; [apply spec_fresh|]. intros exact [Htok Hok].
  destruct (negb _); [apply spec_release_one|].
  eapply (spec_bind _ _ _ one (evolves exact)).
  { unfold mark_family_release_requested. eapply spec_bind; [apply spec_again; in_known|].
    intros current [Hc _]. eapply spec_post; [apply spec_mark_requested; in_known|].
    intros l Hl. by etransitivity. }
  intros root Hroot. eapply spec_bind; [apply spec_cleanup_family|]. intros members _.
  eapply spec_bind; [apply spec_release_members|]. intros failures _.
  destruct (rev failures); [|apply spec_raise].
  unfold mark_family_release_complete.
  eapply spec_bind; [apply spec_again; cbn; apply in_or_app; right; in_known|].
  intros current [Hc _]. eapply spec_post; [apply spec_mark_complete; in_known|].
  intros l Hl. assert (He : evolves exact l) by (etransitivity; [exact Hroot|]; by etransitivity).
  split; [|by apply (ev_row _ _ He)]. by rewrite (evolves_token _ _ He).
Qed.

End Core.
