(* ===== verification/SafetyAcquire.v ===== *)
(** Acquisition and readiness ([ServiceAcquire]) stay within [evolves]. *)
From S2P Require Import Prelude PyStr Enums Errors PyDecimal PyTime Json ContractsBase.
From S2P Require Import Quote CatalogRequest Evidence Lease Row Repository World.
From S2P Require Import ServiceCore ServiceAcquire Evolves Logic SafetyCore.

#[local] Open Scope Z_scope.

(** A request [TrainingPodRequest] accepts describes a Pod to create when it carries a
    capacity specification. *)
Lemma training_request_source `{Digest} r :
  check_training_request r = Ok tt -> is_some (tr_capacity_spec r) = true -> tr_source r = CREATED.
Proof.
  unfold check_training_request. intros Hc Hs. res_inv.
  destruct (tr_capacity_spec r); [|done]. res_inv. split_bools. done.
Qed.

Lemma evidence_from_spec_billing `{Digest} s e : evidence_from_spec s = Ok e -> ev_billing e = None.
Proof. unfold evidence_from_spec, mk_evidence. intros He. res_inv. done. Qed.

Lemma reserved_row_ok `{Digest} request fresh :
  (is_some (tr_capacity_spec request) = true -> tr_source request = CREATED) ->
  opt_prop (fun s => rq_artifact_handoff_protocol_version (sp_request s) = Some 1) (tr_capacity_spec request) ->
  reserved_row request = Ok fresh -> row_ok fresh.
Proof.
  intros Hsrc Hpr Hf. unfold reserved_row in Hf. res_inv. split; cbn; try done.
  - destruct (tr_capacity_spec request); cbn in *; res_inv; [|done].
    match goal with E : evidence_from_spec ?s = Ok _ |- _ =>
      cbn; by rewrite (evidence_from_spec_billing _ _ E) end.
  - by destruct (is_some _).
  - unfold is_catalog_attempt. cbn. destruct (tr_capacity_spec request); naive_solver.
  - unfold protocol_of. cbn. destruct (tr_capacity_spec request); [by right|by left].
Qed.

(** Run a compare-and-set of plain changes. *)
Ltac plain_cas := apply spec_cas; [assumption|in_known|intros ?; apply evolves_plain; [reflexivity|states]].

(** Forget an answer. *)
Lemma spec_forget {A} `{Digest} K (m : M A) R Q : spec K m R Q -> spec K m none (fun _ => True).
Proof.
  intros Hm. eapply spec_weaken; [exact Hm|apply incl_refl|]. intros a _. split; [apply incl_nil_l|done].
Qed.

Section Acquire.
Context {dg : Digest} {nu : NameUuid}.
Context (H : Host) (HH : rely H) (fuel : nat).

Lemma spec_repo_reserve K request :
  (is_some (tr_capacity_spec request) = true -> tr_source request = CREATED) ->
  opt_prop (fun s => rq_artifact_handoff_protocol_version (sp_request s) = Some 1) (tr_capacity_spec request) ->
  spec K (repo_reserve H request) (fun p => [fst p])
    (fun p => row_ok (fst p) /\
       (snd p = true -> ls_state (fst p) = REQUESTED /\ ls_source (fst p) = tr_source request)).
Proof.
  intros Hsrc Hpr. apply spec_transact; [done|]. intros t db Hdb HK. unfold reserve.
  destruct (reserved_row request) as [fresh|] eqn:Ef; [|by split].
  pose proof (reserved_row_ok _ _ Hsrc Hpr Ef) as Hok.
  pose proof (reserved_row_token _ _ Ef) as Htok.
  destruct (family_admits db request); [|by split].
  destruct (db !! tr_cleanup_token request) as [row|] eqn:Er.
  - split; [done|]. split; [done|]. destruct (load row) as [l|] eqn:El; cbn; [|done].
    apply load_same in El as ->.
    destruct (require _ _); [|done]. cbn. split; [constructor; [|done]|].
    + eapply known_row; [exact Er|by apply (db_keys _ (wf_ok _ Hdb))].
    + split; [by eapply wf_rows|done].
  - destruct (index_free db fresh) eqn:Ei; [|by split].
    assert (db_evolves db (<[tr_cleanup_token request := fresh]> db)) as Hev.
    { intros k l Hk. exists l. split; [|done]. rewrite lookup_insert_ne; [done|congruence]. }
    split; [|split; [done|]].
    + split; [apply insert_ok; [apply wf_ok, Hdb|done|done]|]. intros k l Hk.
      destruct (decide (tr_cleanup_token request = k)) as [<-|Hne].
      * rewrite lookup_insert_eq in Hk. by simplify_eq.
      * rewrite lookup_insert_ne in Hk by done. by eapply wf_rows.
    + destruct (load fresh) as [l|] eqn:El; cbn; [|done]. apply load_same in El as ->.
      destruct (require _ _); [|done]. cbn.
      split; [constructor; [|done]|].
      * exists fresh. rewrite Htok, lookup_insert_eq. done.
      * split; [done|]. intros _. unfold reserved_row in Ef. by res_inv.
Qed.

(** *** Lookups *)

Lemma spec_find_catalog_capacity K c o w :
  spec K (find_catalog_capacity H c o w) opt_one
    (fun r => forall l, r = Some l -> ls_cleanup_token l = c /\ row_ok l /\ is_catalog_attempt l = true).
Proof.
  unfold find_catalog_capacity. eapply spec_bind; [by apply spec_repo_get|]. intros [l|] Hl.
  - destruct (Hl l eq_refl) as (Ht & Hok & _). bind_lift. bind_lift.
    apply spec_ret; [incl_known|]. intros l' [= <-]. split; [done|]. split; [done|].
    unfold is_catalog_attempt, capacity_spec in *. apply of_option_ok in Hv. by rewrite Hv.
  - apply spec_ret; [apply incl_nil_l|]. intros l' [=].
Qed.

Lemma spec_catalog_lease K c o w :
  spec K (catalog_lease H c o w) one
    (fun l => ls_cleanup_token l = c /\ row_ok l /\ is_catalog_attempt l = true).
Proof.
  unfold catalog_lease. eapply spec_bind; [apply spec_find_catalog_capacity|]. intros r Hr.
  apply spec_lift. intros l Hl. apply of_option_ok in Hl as ->. split; [incl_known|by apply Hr].
Qed.

Lemma spec_validate_dependencies K :
  spec K (validate_catalog_reconciler_dependencies H) none (fun _ => True).
Proof.
  unfold validate_catalog_reconciler_dependencies. bind_lift. bind_lift. bind_lift.
  eapply spec_bind; [by apply spec_select|]. intros ls _. apply spec_lift.
  intros [] _. split; [apply incl_nil_l|done].
Qed.

Lemma spec_heartbeat K token :
  spec K (heartbeat H token) one (fun l => ls_cleanup_token l = token /\ row_ok l).
Proof.
  unfold heartbeat. eapply spec_bind; [by apply spec_fresh|]. intros lease [Ht Hok].
  destruct (is_terminal lease) eqn:Et; [apply spec_raise|]. bind_now.
  eapply spec_post; [plain_cas|]. intros l [Hl _]. split; [|by apply (ev_row _ _ Hl)].
  by rewrite (evolves_token _ _ Hl).
Qed.

Lemma spec_raise_after_cleanup K lease reason R (Q : TrainingPodLease -> Prop) :
  spec K (raise_after_cleanup H fuel lease reason) R Q.
Proof.
  unfold raise_after_cleanup. eapply spec_bind; [by apply spec_release_one|]. intros l _. apply spec_raise.
Qed.

Lemma spec_cleanup_cancelled K lease reason :
  spec K (cleanup_cancelled_acquisition H fuel lease reason) none (fun _ => True).
Proof.
  unfold cleanup_cancelled_acquisition.
  eapply spec_bind; [by apply spec_owned, spec_release_one|]. intros l _.
  apply spec_ret; [apply incl_nil_l|done].
Qed.

(** Cleaning up, then raising the cancellation again. *)
Lemma spec_cancelled {A} K lease reason e R (Q : A -> Prop) :
  spec K (run* cleanup_cancelled_acquisition H fuel lease reason then raise e) R Q.
Proof. eapply spec_bind; [apply spec_cleanup_cancelled|]. intros [] _. apply spec_raise. Qed.

(** *** Existing Pods *)

Lemma spec_acquire_existing K lease prof :
  In lease K -> row_ok lease -> is_catalog_attempt lease = false -> ls_state lease = REQUESTED ->
  spec K (acquire_existing H fuel lease prof) one row_ok.
Proof.
  intros Hin Hok Hcat Hst. unfold acquire_existing. bind_lift.
  assert (Hnt : is_terminal lease = false) by (unfold is_terminal; by rewrite Hst).
  assert (Hrel : forall K err (k : TrainingPodLease -> M TrainingPodLease), In lease K ->
     (forall l K, spec K (k l) one row_ok) ->
     spec K (let* l := release_unowned_claim H fuel lease err in k l) one row_ok).
  { intros K' err k Hin' Hk. eapply spec_bind; [by apply spec_release_claim|]. auto. }
  eapply (spec_bind _ _ _ none (fun _ => True)).
  { apply spec_catch.
    - apply spec_ask; [done|]. intros n a _. split; [apply incl_nil_l|done].
    - intros e k Hk. destruct e; cbn in Hk; try discriminate; injection Hk as <-;
        (eapply spec_bind; [by apply spec_release_claim|]; intros; apply spec_raise). }
  intros observation _. destruct (po_is_running observation).
  - bind_now. eapply spec_post; [plain_cas|]. intros l [Hl _]. by apply (ev_row _ _ Hl).
  - destruct (po_is_stopped observation).
    + bind_now. eapply spec_bind; [plain_cas|]. intros lease1 [H1 _].
      eapply (spec_bind _ _ _ none (fun _ => True)).
      * apply spec_catch.
        -- apply spec_ask; [done|]. intros n a _. split; [apply incl_nil_l|done].
        -- intros e k Hk.
           assert (Hfail : spec (one lease1 ++ none observation ++ K)
             (let* failed := record_retryable_failure H fuel lease1 e None in
              run* release_one H fuel (ls_cleanup_token failed) "Pod start failure" then
              let* current := required H (ls_cleanup_token failed) in
              raise (lifecycle_error "Pod start" current false)) none (fun _ : unit => True)).
           { eapply spec_bind; [apply spec_record_retryable_failure; [done|in_known]|]. intros failed _.
             eapply spec_bind; [by apply spec_release_one|]. intros l _.
             eapply spec_bind; [by apply spec_fresh|]. intros; apply spec_raise. }
           destruct e; cbn in Hk; try discriminate; injection Hk as <-;
             first [apply spec_cancelled | exact Hfail].
      * intros [] _. eapply spec_bind; [apply spec_again; [done|in_known]|]. intros current [Hc Hcok].
        bind_now. eapply spec_post; [plain_cas|]. intros l [Hl _]. by apply (ev_row _ _ Hl).
    + apply Hrel; [in_known|]. intros. apply spec_raise.
Qed.

(** *** Created Pods *)

(** A transition that sets no receipt, over a row that is still live. *)
Lemma spec_transition K lease cs u states :
  In lease K -> forallb plain_change cs = true -> eu_billing u = None ->
  (forall cur t, evolves lease cur -> is_terminal cur = false -> expected states cur = true ->
     states_allowed cur (assigned cur cs t)) ->
  spec K (transition_with_evidence H fuel lease cs u states true) one (evolves lease).
Proof.
  intros Hin Hp Hb Hs. eapply spec_post; [apply spec_core; try done|by intros l []].
  - by apply plain_core.
  - by rewrite Hb.
Qed.

Lemma spec_create_rejected K lease e R (Q : TrainingPodLease -> Prop) :
  In lease K -> row_ok lease -> spec K (create_rejected H fuel lease e) R Q.
Proof.
  intros Hin Hok. unfold create_rejected. bind_now.
  eapply (spec_bind _ _ _ one (evolves lease)).
  - destruct (is_catalog_attempt lease) eqn:Ec.
    + eapply spec_bind; [by apply spec_zero_cost|]. intros receipt Hr. bind_now.
      eapply spec_post; [apply (spec_core _ HH _ _ lease _ _ None); [in_known|reflexivity|split; [done|reflexivity]|]|by intros l []].
      intros cur t1 Hc Ht _. states.
    + apply spec_transition; [in_known|reflexivity|reflexivity|].
      intros cur t1 Hc Ht _. assert (is_catalog_attempt cur = false)
        by (unfold is_catalog_attempt in *; by rewrite (evolves_spec _ _ Hc)). states.
  - intros released Hr. eapply (spec_bind _ _ _ none (fun _ => True)); [|intros; apply spec_raise].
    destruct (is_catalog_attempt released).
    + eapply spec_forget, spec_revoke_and_release; [done|in_known|by apply (ev_row _ _ Hr)].
    + apply spec_ret; [apply incl_nil_l|done].
Qed.

Lemma spec_acquire_created K lease prof environment :
  In lease K -> row_ok lease -> ls_state lease = REQUESTED ->
  spec K (acquire_created H fuel lease prof environment) one row_ok.
Proof.
  intros Hin Hok Hst. unfold acquire_created. bind_now.
  assert (Hnt : is_terminal lease = false) by (unfold is_terminal; by rewrite Hst).
  set (cs := [_; _; _; _]).
  assert (Hcs : forall t', evolves lease (updated_row lease cs t'))
    by (intros ?; apply evolves_plain; [reflexivity|states]).
  apply spec_bind_cas; [done|in_known|exact Hcs|]. intros t1 w1 Hrow.
  set (claim := updated_row lease cs t1) in *.
  assert (Hcok : row_ok claim) by by apply (ev_row _ _ (Hcs t1)).
  change (claim :: K) with (one claim ++ K)%list.
  eapply (spec_at_bind _ _ _ _ left_one (fun s => match s with inl l => row_ok l | inr _ => True end)).
  - apply spec_at_catch.
    + eapply (spec_at_bind _ _ _ _ none (fun _ => True)).
      * apply spec_at_ask; [|intros n a _; split; [apply incl_nil_l|done]].
        intros _ _. by exists (ls_cleanup_token lease), claim.
      * intros pod _. eapply (spec_bind _ _ _ none (fun _ => True)).
        -- destruct (_ && _); [apply spec_raise|apply spec_ret; [apply incl_nil_l|done]].
        -- intros [] _. apply spec_ret; [apply incl_nil_l|done].
    + intros e k Hk.
      assert (Hrejected : spec (one claim ++ K)
        (let* l := create_rejected H fuel claim e in ret (inl l : TrainingPodLease + CreatedTrainingPod)) left_one
        (fun s => match s with inl l => row_ok l | inr _ => True end)).
      { eapply (spec_bind _ _ _ one row_ok); [apply spec_create_rejected; [in_known|done]|].
        intros l Hl. apply spec_ret; [incl_known|done]. }
      destruct e; cbn in Hk; try discriminate; injection Hk as <-; try exact Hrejected.
      * eapply spec_bind; [apply spec_record_retryable_failure; [done|in_known]|]. intros failed _.
        destruct (is_catalog_attempt failed); [apply spec_raise|].
        eapply spec_bind; [by apply spec_release_one|]. intros l _.
        eapply spec_bind; [by apply spec_fresh|]. intros; apply spec_raise.
      * bind_now. eapply spec_bind; [by apply spec_fresh|]. intros current [_ Hcur].
        eapply spec_bind; [apply spec_transition; [in_known|reflexivity|reflexivity|]|].
        -- intros cur t3 He Ht _. states.
        -- intros bound Hb. eapply spec_bind; [by apply spec_release_one|]. intros; apply spec_raise.
      * eapply spec_bind; [by apply spec_fresh|]. intros current _. apply spec_cancelled.
  - intros [l|pod] Hl; [apply spec_ret; [incl_known|done]|].
    bind_now. eapply spec_bind; [by apply spec_fresh|]. intros current [_ Hcur].
    eapply spec_post; [apply spec_transition; [in_known|reflexivity|reflexivity|]|].
    + intros cur t3 He Ht _. states.
    + intros l He. by apply (ev_row _ _ He).
Qed.

(** *** Readiness *)

Lemma spec_enforce_readiness_deadline K lease :
  In lease K -> row_ok lease -> spec K (enforce_readiness_deadline H fuel lease) one (fun l => l = lease).
Proof.
  intros Hin Hok. unfold enforce_readiness_deadline. bind_now.
  destruct (_ <? _); [apply spec_ret; [incl_known; subst; auto|done]|apply spec_raise_after_cleanup].
Qed.

Lemma spec_transition_starting K lease cs u :
  In lease K -> row_ok lease -> forallb plain_change cs = true -> eu_billing u = None ->
  (forall cur t, is_terminal cur = false -> states_allowed cur (assigned cur cs t)) ->
  spec K (transition_starting H fuel lease cs u) one row_ok.
Proof.
  intros Hin Hok Hp Hb Hs. eapply spec_post; [by apply spec_transition; auto|].
  intros l He. by apply (ev_row _ _ He).
Qed.

Lemma spec_observe_readiness_body K lease prof :
  In lease K ->
  spec K (observe_readiness_body H fuel lease prof) left_one
    (fun s => match s with inl l => row_ok l | inr _ => True end).
Proof.
  intros Hin. unfold observe_readiness_body. bind_lift.
  eapply (spec_bind _ _ _ none (fun _ => True));
    [apply spec_ask; [done|intros n a _; split; [apply incl_nil_l|done]]|].
  intros observation _. eapply spec_bind; [by apply spec_fresh|]. intros current [_ Hcur].
  destruct (negb _); [apply spec_ret; [incl_known|done]|]. bind_now.
  eapply spec_bind; [apply spec_transition_starting; [in_known|done|reflexivity|reflexivity|]|].
  { intros cur t' Ht. states. }
  intros lease1 H1. destruct (negb _); [apply spec_ret; [incl_known|done]|].
  destruct (_ || _).
  { eapply (spec_bind _ _ _ none (fun _ => False)); [apply spec_raise_after_cleanup|]. intros ? []. }
  destruct (po_backend_base_url observation) as [url|]; [|apply spec_ret; [incl_known|done]].
  destruct (_ || _); [apply spec_ret; [incl_known|done]|].
  destruct (is_catalog_attempt lease1); [|apply spec_ret; [apply incl_nil_l|done]].
  bind_lift. apply spec_catch.
  - eapply (spec_bind _ _ _ none (fun _ => True));
      [apply spec_ask; [done|intros n a _; split; [apply incl_nil_l|done]]|].
    intros [] _. apply spec_ret; [apply incl_nil_l|done].
  - intros e k Hk. destruct (is_transport_error e); [|done]. injection Hk as <-.
    eapply spec_bind; [by apply spec_fresh|]. intros again [_ Ha].
    destruct (negb _); [apply spec_ret; [incl_known|done]|]. bind_now.
    eapply spec_bind; [apply spec_transition_starting; [in_known|done|reflexivity|reflexivity|]|].
    + intros cur t' Ht. states.
    + intros l Hl. apply spec_ret; [incl_known|done].
Qed.

Lemma spec_observe_readiness K lease prof :
  spec K (observe_readiness H fuel lease prof) one row_ok.
Proof.
  unfold observe_readiness. eapply spec_bind; [by apply spec_fresh|]. intros lease1 [_ Hok].
  destruct (negb _); [apply spec_ret; [incl_known|done]|].
  eapply spec_bind; [apply spec_enforce_readiness_deadline; [in_known|done]|]. intros lease2 ->.
  eapply (spec_bind _ _ _ left_one (fun s => match s with inl l => row_ok l | inr _ => True end)).
  - apply spec_catch; [apply spec_observe_readiness_body; in_known|]. intros e k Hk.
    assert (Hfail : spec (one lease1 ++ one lease1 ++ K)
      (let* current := required H (ls_cleanup_token lease1) in
       let* failed := record_retryable_failure H fuel current e None in
       let* l := raise_after_cleanup H fuel failed "readiness observation" in
       ret (inl l : TrainingPodLease + unit)) left_one
      (fun s => match s with inl l => row_ok l | inr _ => True end)).
    { eapply spec_bind; [by apply spec_fresh|]. intros current _.
      eapply spec_bind; [apply spec_record_retryable_failure; [done|in_known]|]. intros failed _.
      eapply (spec_bind _ _ _ none (fun _ => False)); [apply spec_raise_after_cleanup|]. intros ? []. }
    destruct e; cbn in Hk; try discriminate; injection Hk as <-;
      first [exact Hfail | apply spec_cancelled].
  - intros [l|[]] Hl; [apply spec_ret; [incl_known|done]|].
    eapply spec_bind; [by apply spec_fresh|]. intros current [_ Hcur].
    destruct (negb _); [apply spec_ret; [incl_known|done]|].
    eapply spec_bind; [apply spec_enforce_readiness_deadline; [in_known|done]|]. intros lease3 ->.
    bind_now. apply spec_transition_starting; [in_known|done|reflexivity|reflexivity|].
    intros cur t' Ht. states.
Qed.

Lemma spec_wait_ready n K lease prof :
  In lease K -> row_ok lease -> spec K (wait_ready H fuel n lease prof) one row_ok.
Proof.
  revert K lease. induction n as [|n IH]; intros K lease Hin Hok; cbn [wait_ready]; [apply spec_raise|].
  eapply spec_bind; [apply spec_observe_readiness|]. intros observed Ho.
  destruct (negb _); [apply spec_ret; [incl_known|done]|].
  eapply (spec_bind _ _ _ none (fun _ => True)).
  - apply spec_catch; [apply spec_ask; [done|intros m a _; split; [apply incl_nil_l|done]]|].
    intros e k Hk. destruct e; try discriminate. injection Hk as <-. apply spec_cancelled.
  - intros [] _. apply IH; [in_known|done].
Qed.

(** *** Acquisition *)

Lemma spec_acquire_request K request environment wait :
  check_training_request request = Ok tt ->
  spec K (acquire_request H fuel request environment wait) one row_ok.
Proof.
  intros Hv. unfold acquire_request. bind_lift.
  eapply spec_bind; [apply spec_repo_reserve; [apply training_request_source, Hv|]|].
  { apply require_ok in Hv0. destruct (tr_capacity_spec request); cbn in *; [by apply bool_decide_eq_true_1 in Hv0|done]. }
  intros [lease inserted] [Hok Hnew]. cbn [fst snd] in *. destruct inserted; cbn [negb].
  - destruct (Hnew eq_refl) as [Hst Hsrc]. bind_lift.
    eapply (spec_bind _ _ _ one row_ok).
    + destruct (bool_decide (tr_source request = CREATED)) eqn:Es.
      * apply spec_acquire_created; [in_known|done|done].
      * apply spec_acquire_existing; [in_known|done| |done].
        apply bool_decide_eq_false_1 in Es. destruct (is_catalog_attempt lease) eqn:Ec; [|done].
        apply (ro_source _ Hok) in Ec. congruence.
    + intros acquired Ha. destruct wait; [apply spec_wait_ready; [in_known|done]|].
      apply spec_ret; [incl_known|done].
  - destruct (bool_decide _); [|apply spec_raise].
    eapply spec_post; [apply spec_heartbeat|]. by intros l [].
Qed.

Lemma spec_replay_catalog K existing request wait :
  spec K (replay_catalog H existing request wait) one row_ok.
Proof.
  unfold replay_catalog. bind_lift. eapply (spec_bind _ _ _ none (fun _ => True)).
  - destruct (negb _); [apply spec_raise|]. bind_lift.
    destruct (bool_decide _); [apply spec_ret; [apply incl_nil_l|done]|apply spec_raise].
  - intros [] _. destruct (_ || _); [|apply spec_raise].
    eapply spec_post; [apply spec_heartbeat|]. by intros l [].
Qed.

Lemma spec_acquire_catalog_request K request wait :
  spec K (acquire_catalog_request H fuel request wait) one row_ok.
Proof.
  unfold acquire_catalog_request. bind_lift. bind_lift.
  eapply spec_bind; [by apply spec_repo_get|]. intros [existing|] _; [apply spec_replay_catalog|].
  bind_now. bind_lift. bind_lift. bind_lift.
  eapply (spec_bind _ _ _ none (fun _ => True));
    [apply spec_ask; [done|intros n a _; split; [apply incl_nil_l|done]]|].
  intros capability _. bind_lift. bind_now. bind_lift. bind_lift. bind_lift. bind_lift. bind_lift.
  apply spec_acquire_request. unfold mk_training_request in *. res_inv. by destruct x.
Qed.

Lemma spec_poll_catalog_readiness K c o w :
  spec K (poll_catalog_readiness H fuel c o w) one row_ok.
Proof.
  unfold poll_catalog_readiness. eapply spec_bind; [by apply spec_catalog_lease|]. intros lease (_ & Hok & _).
  destruct (negb _); [apply spec_ret; [incl_known|done]|].
  destruct (_ || _); [apply spec_raise|].
  eapply spec_bind; [apply spec_heartbeat|]. intros current _. bind_lift.
  apply spec_observe_readiness.
Qed.

End Acquire.
