(* ===== verification/SafetyReconcile.v ===== *)
(** The catalog workload, its artifact handoff and cancellation, the reconciliation pass
    and every operation of the service: whatever the provider, the worker, the clocks and
    other processes do, the lease table stays well formed, its rows only evolve
    ([evolves]), and every outside call is admissible. *)
From S2P Require Import Prelude PyStr Enums Errors PyDecimal PyTime Json ContractsBase CodecBase Quote CatalogRequest Evidence Lease Row Repository World ServiceCore ServiceAcquire ServiceWorkload Evolves Logic SafetyCore SafetyAcquire ServiceReconcile.

#[local] Open Scope Z_scope.

(** ** What makes a stored lease valid *)

Lemma check_lease_spec l :
  check_lease l = Ok tt <->
  (forall h, ls_artifact_handoff l = Some h -> exists s, ls_capacity_spec l = Some s /\
     rq_artifact_handoff_protocol_version (sp_request s) = Some 1 /\
     ah_attempt_id h = rq_attempt_id (sp_request s) /\
     ah_request_sha256 h = rq_request_sha256 (sp_request s)) /\
  (handoff_state (ls_workload_state l) = true -> exists h, ls_artifact_handoff l = Some h /\
     (ls_workload_state l = W_ACKNOWLEDGED -> is_some (ah_remote_ack_observed_at h) = true)).
Proof.
  unfold check_lease. split.
  - intros Hc. apply rbind_ok in Hc as ([] & Hb & Hp). split.
    + intros h Hh. rewrite Hh in Hb. destruct (ls_capacity_spec l) as [s|]; [|done].
      res_inv. split_bools. exists s. auto.
    + intros Hs. destruct (ls_artifact_handoff l) as [h|];
        destruct (ls_workload_state l); try done; exists h; split; try done.
      intros _. by apply require_ok in Hp.
  - intros [Hb Hp]. destruct (ls_artifact_handoff l) as [h|]; cbn [rbind].
    + destruct (Hb h eq_refl) as (s & -> & -> & -> & ->). rewrite !bool_decide_true_eq by done. cbn.
      destruct (ls_workload_state l); try done. destruct (Hp eq_refl) as (? & [= <-] & Hr).
      by rewrite Hr.
    + destruct (ls_workload_state l); try done; destruct (Hp eq_refl) as (? & [=] & _).
Qed.

(** ** One observation *)

(** How the handoff evidence moves. *)
Definition handoff_moves (request : CatalogPodCapacityRequest) (o : CatalogPodWorkloadObservation)
  (h h' : option CatalogArtifactHandoffEvidence) : Prop :=
  option_evolves handoff_kept h h' /\
  (handoff_state (wo_state o) = false -> h' = h) /\
  (handoff_state (wo_state o) = true -> exists x, h' = Some x /\
     (h = None -> ah_attempt_id x = wo_attempt_id o /\ ah_request_sha256 x = rq_request_sha256 request /\
        check_handoff x = Ok tt) /\
     (wo_state o = W_ACKNOWLEDGED -> is_some (ah_remote_ack_observed_at x) = true)).

Lemma observed_handoff_moves request o h t h' :
  observed_handoff request o h t = Ok h' -> handoff_moves request o h h'.
Proof.
  unfold observed_handoff, mk_handoff. intros Ho.
  destruct (handoff_state (wo_state o)) eqn:Es.
  - res_inv. destruct (bool_decide (wo_state o = W_ACKNOWLEDGED)) eqn:Ea; res_inv;
      repeat match goal with u : unit |- _ => destruct u end.
    + split; [|split; [by rewrite Es|]].
      * intros old ->. eexists. split; [done|]. split; try done.
        -- intros y Hy. cbn. by rewrite Hy.
      * intros _. eexists. split; [done|]. split; [intros ->; by split_and!|].
        intros _. cbn. by destruct (ah_remote_ack_observed_at _).
    + apply bool_decide_eq_false_1 in Ea. split; [|split; [by rewrite Es|]].
      * intros old ->. by exists old.
      * intros _. eexists. split; [done|]. split; [by intros ->|done].
  - injection Ho as <-. split; [apply option_evolves_refl, _|]. rewrite Es. done.
Qed.

(** What the changes of one observation assign. *)
Record observation_assigns (l l1 : TrainingPodLease) (o : CatalogPodWorkloadObservation) : Prop := {
  oa_spec : exists s, ls_capacity_spec l = Some s /\
    observation_admitted (sp_request s) o = Ok tt /\
    handoff_moves (sp_request s) o (ls_artifact_handoff l) (ls_artifact_handoff l1);
  oa_evidence : ls_evidence l1 = ls_evidence l;
  oa_receipt : ls_billing_receipt l1 = ls_billing_receipt l;
  oa_billing : ls_billing_state l1 = ls_billing_state l;
  oa_ownership : ls_ownership l1 = ls_ownership l;
  oa_state :
    (ls_workload_state l1 = ls_workload_state l /\ ls_state l1 = ls_state l) \/
    (ls_workload_state l1 = wo_state o /\ ls_state l1 <> RELEASED /\ is_terminal l = false)
}.

Lemma observation_changes_assign l o submitted t cs lf t' :
  catalog_observation_changes l o submitted t = Ok (cs, lf) ->
  observation_assigns l (assigned l cs t') o.
Proof.
  unfold catalog_observation_changes, capacity_spec. intros Hc.
  apply rbind_ok in Hc as (s & Hs & Hc). apply of_option_ok in Hs.
  apply rbind_ok in Hc as ([] & Ha & Hc). apply rbind_ok in Hc as (h' & Hh & Hc).
  apply observed_handoff_moves in Hh.
  set (proof := if bool_decide (h' = ls_artifact_handoff l) then [] else [SetArtifactHandoff h']) in *.
  assert (Hproof : observation_assigns l (assigned l proof t') o /\
    ls_state (assigned l proof t') = ls_state l).
  { subst proof. destruct (bool_decide_reflect (h' = ls_artifact_handoff l)) as [->|]; split; try done;
      (split; try done; [by exists s | by left]). }
  destruct Hproof as [Hproof Hst].
  destruct (accepts_progress l) eqn:Eacc; cbn [negb] in Hc; [|by simplify_eq].
  destruct (regresses (ls_workload_state l) (wo_state o)); [by simplify_eq|].
  injection Hc as <- _. destruct Hproof as [Hsp He Hr Hb Ho _].
  unfold assigned, apply_changes in *. rewrite app_comm_cons, fold_left_app.
  set (l2 := fold_left apply_change (SetUpdatedAt t' :: proof) l) in *. clearbody l2.
  assert (Hnt : ls_state l <> RELEASED).
  { unfold accepts_progress in Eacc. apply andb_prop in Eacc as [Hin _].
    intros E. by rewrite E in Hin. }
  assert (is_terminal l = false) by by apply bool_decide_eq_false_2.
  unfold state_changes. destruct o as [att rq st err av rs rc ack]; cbn in *.
  destruct st; (split; cbn; try done; right; split; [done|split; congruence]).
Qed.

(** The row an observation leaves is valid when the row before was. *)
Lemma observation_check l l1 o :
  row_ok l -> ls_capacity_spec l1 = ls_capacity_spec l -> observation_assigns l l1 o ->
  check_lease l1 = Ok tt.
Proof.
  intros Hok Hspec [(s & Hs & Ha & Hm) _ _ _ _ Hst].
  pose proof (ro_valid _ Hok) as Hl. apply check_lease_spec in Hl as [Hb Hp].
  destruct Hm as (Hk & Hsame & Hmove).
  assert (Hadm : wo_attempt_id o = rq_attempt_id (sp_request s) /\
    (handoff_state (wo_state o) = true -> rq_artifact_handoff_protocol_version (sp_request s) = Some 1)).
  { unfold observation_admitted in Ha. apply rbind_ok in Ha as ([] & Hid & Ha).
    apply rbind_ok in Ha as ([] & _ & Ha). apply require_ok in Hid, Ha. split_bools. split; [done|].
    intros Hhs. destruct (ro_protocol _ Hok) as [E|E]; unfold protocol_of in E; rewrite Hs in E; [|done].
    rewrite E, Hhs in Ha. done. }
  destruct Hadm as [Hid Hproto]. apply check_lease_spec. rewrite Hspec. split.
  - intros h Hh. destruct (ls_artifact_handoff l) as [h0|] eqn:E0.
    + destruct (Hk h0 eq_refl) as (h1 & Hh1 & Hkept). assert (h1 = h) as -> by congruence.
      destruct (Hb h0 eq_refl) as (s' & ? & ? & ? & ?). exists s'.
      rewrite (hk_attempt _ _ Hkept), (hk_request _ _ Hkept). done.
    + exists s. split; [done|]. destruct (handoff_state (wo_state o)).
      * destruct (Hmove eq_refl) as (x & Hx & Hnew & _). assert (x = h) as -> by congruence.
        destruct (Hnew eq_refl) as (-> & -> & _). auto.
      * rewrite Hsame in Hh; done.
  - destruct Hst as [[-> _]|[-> _]].
    + intros Hhs. destruct (Hp Hhs) as (h & Hh & Hr). destruct (Hk h Hh) as (h' & Hh' & Hkept).
      exists h'. split; [done|]. intros E. specialize (Hr E).
      destruct (ah_remote_ack_observed_at h) eqn:Er; [|done]. by rewrite (hk_remote _ _ Hkept _ Er).
    + intros Hhs. destruct (Hmove Hhs) as (x & Hx & _ & Hr). by exists x.
Qed.

Lemma observation_facts l l1 o :
  observation_assigns l l1 o ->
  option_evolves handoff_kept (ls_artifact_handoff l) (ls_artifact_handoff l1) /\
  (ls_artifact_handoff l = None -> opt_prop (fun h => check_handoff h = Ok tt) (ls_artifact_handoff l1)) /\
  (is_terminal l = true -> is_terminal l1 = true) /\
  (ls_state l1 = RELEASED -> is_terminal l = true).
Proof.
  intros [(s & _ & _ & Hk & Hsame & Hmove) _ _ _ _ Hst]. split; [done|]. split.
  { intros Hn. rewrite Hn in *. destruct (handoff_state (wo_state o)); [|by rewrite Hsame].
    destruct (Hmove eq_refl) as (x & -> & Hx & _). by apply Hx. }
  unfold is_terminal in *.
  destruct Hst as [[_ ->]|(_ & Hn & ->)]; split; auto; try done. apply bool_decide_eq_true_2.
Qed.

Lemma evolves_observation l o submitted t cs lf persisted t' :
  row_ok l -> catalog_observation_changes l o submitted t = Ok (cs, lf) ->
  evidence_changes l cs (with_lifecycle lf) = Ok persisted ->
  evolves l (updated_row l persisted t').
Proof.
  intros Hok Hc Hp. pose proof (observation_changes_assign _ _ _ _ _ _ t' Hc) as Ha.
  destruct (observation_facts _ _ _ Ha) as (Hh & Hn & Ht & Hr).
  pose proof (oa_billing _ _ _ Ha) as Hb. pose proof (oa_ownership _ _ _ Ha) as Ho.
  apply (evolves_transition l cs (with_lifecycle lf)); try done; try (by destruct Ha).
  - intros _. eapply observation_check; [done|apply assigned_spec|done].
  - intros E _. left. by apply Hr.
  - rewrite Hb. auto.
  - by rewrite Ho.
Qed.

Lemma evolves_observation_direct l o submitted t cs lf t' :
  row_ok l -> catalog_observation_changes l o submitted t = Ok (cs, lf) ->
  evolves l (updated_row l cs t').
Proof.
  intros Hok Hc. pose proof (observation_changes_assign _ _ _ _ _ _ t' Hc) as Ha.
  destruct (observation_facts _ _ _ Ha) as (Hh & Hn & Ht & Hr).
  pose proof (oa_billing _ _ _ Ha) as Hb. pose proof (oa_ownership _ _ _ Ha) as Ho.
  apply evolves_direct; try done; try (by destruct Ha).
  - intros _. eapply observation_check; [done|apply assigned_spec|done].
  - intros E _. left. by apply Hr.
  - rewrite Hb. auto.
  - by rewrite Ho.
Qed.

(** ** The handoff evidence of a lease *)

Lemma evolves_set_handoff l h h' rest t :
  ls_artifact_handoff l = Some h -> handoff_kept h h' -> forallb plain_change rest = true ->
  states_allowed l (assigned l (SetArtifactHandoff (Some h') :: rest) t) ->
  evolves l (updated_row l (SetArtifactHandoff (Some h') :: rest) t).
Proof.
  intros Hh Hk Hp (Ht & Hs & Ha & Ho).
  set (l2 := apply_change (apply_change l (SetUpdatedAt t)) (SetArtifactHandoff (Some h'))).
  assert (El : assigned l (SetArtifactHandoff (Some h') :: rest) t = apply_changes l2 rest) by done.
  destruct (core_apply rest l2 (plain_core _ Hp)) as (Hh1 & He1 & Hw1 & _).
  pose proof (plain_apply rest l2 Hp) as Hr1. rewrite <- El in Hh1, He1, Hw1, Hr1.
  change (ls_artifact_handoff l2) with (Some h') in Hh1.
  change (ls_billing_receipt l2) with (ls_billing_receipt l) in Hr1.
  change (ls_workload_state l2) with (ls_workload_state l) in Hw1.
  change (ls_evidence l2) with (ls_evidence l) in He1.
  rewrite Hr1 in Hs, Ha.
  apply evolves_direct; try done.
  - rewrite Hh1, Hh. intros x [= <-]. by exists h'.
  - by rewrite Hh.
  - intros Hl. apply check_lease_spec in Hl as [Hb Hph]. apply check_lease_spec. rewrite assigned_spec, Hh1. split.
    + intros x [= <-]. destruct (Hb h Hh) as (s & ? & ? & ? & ?). exists s.
      by rewrite (hk_attempt _ _ Hk), (hk_request _ _ Hk).
    + intros Hhs. exists h'. split; [done|]. intros E. destruct Hw1 as [Hw1|Hw1]; [|congruence].
      rewrite Hw1 in E. destruct Hph as (x & Hx & Hr); [by rewrite E|]. assert (x = h) as -> by congruence.
      specialize (Hr E). destruct (ah_remote_ack_observed_at h) eqn:Er; [|done].
      by rewrite (hk_remote _ _ Hk _ Er).
Qed.

(** The host's intent for this acknowledgement is on the lease. *)
Definition intent_bound `{Digest} (payload : list (string * json)) (l : TrainingPodLease) : Prop :=
  exists h ack, ls_artifact_handoff l = Some h /\ ah_acknowledgement_sha256 h = Some ack /\
    get_field payload "acknowledgement_sha256" = JStr ack /\
    ah_acknowledgement_payload_sha256 h = Some (sha256_hex (dumps (JObj payload))).

Lemma intent_evolves `{Digest} payload l l' : evolves l l' -> intent_bound payload l -> intent_bound payload l'.
Proof.
  intros He (h & ack & Hh & Hack & Hf & Hp). destruct (ev_handoff _ _ He h Hh) as (h' & Hh' & Hk).
  exists h', ack. split; [done|]. split; [by apply (hk_ack _ _ Hk)|]. split; [done|].
  rewrite (hk_payload _ _ Hk); [done|by rewrite Hack].
Qed.

Lemma bind_acknowledgement_valid `{Digest} h payload h' :
  bind_acknowledgement h payload = Ok h' -> check_handoff h' = Ok tt.
Proof.
  unfold bind_acknowledgement, mk_handoff. intros Hb. res_inv. by match goal with u : unit |- _ => destruct u end.
Qed.

Lemma bind_acknowledgement_kept `{Digest} h payload h' :
  bind_acknowledgement h payload = Ok h' -> handoff_kept h h'.
Proof.
  intros Hb. pose proof (bind_acknowledgement_valid _ _ _ Hb) as Hv. apply bind_acknowledgement_inv in Hb
    as (ack & Ha & _ & _ & Hp & Hsame & ? & ? & ? & ? & Hr & Hc).
  split; try done; try (by rewrite ?Hr, ?Hc).
  - intros x Hx. by rewrite (Hsame x Hx).
  - intros Hs. destruct (ah_acknowledgement_sha256 h) as [x|] eqn:E; [|done]. by rewrite (Hsame x eq_refl).
Qed.

Section Workload.
Context {dg : Digest} {nu : NameUuid}.
Context (H : Host) (HH : rely H) (fuel : nat).

(** ** Recorded outcomes *)

Lemma spec_record_job K token job : spec K (record_job H token job) one row_ok.
Proof.
  unfold record_job. bind_lift. eapply spec_bind; [by apply spec_fresh|]. intros lease [_ Hok].
  bind_lift. bind_lift. bind_lift. bind_now.
  assert (Hnt : ls_state lease <> RELEASED) by (intros E; rewrite E in Hv1; done).
  eapply spec_post; [plain_cas|]; try (apply bool_decide_eq_true_1 in H0; congruence).
  intros l [Hl _]. by apply (ev_row _ _ Hl).
Qed.

Lemma spec_record_operation_error K token e : spec K (record_operation_error H fuel token e) one row_ok.
Proof.
  unfold record_operation_error. eapply spec_bind; [by apply spec_fresh|]. intros lease [_ Hok].
  destruct (is_terminal lease) eqn:Et; [apply spec_ret; [incl_known|done]|]. bind_now.
  eapply spec_post; [apply spec_plain; [done|in_known|reflexivity|]|].
  - intros cur t' Hc Ht. states.
  - intros l [Hl _]. by apply (ev_row _ _ Hl).
Qed.

Lemma spec_record_status K token status : spec K (record_status H fuel token status) one row_ok.
Proof.
  unfold record_status. eapply spec_bind; [by apply spec_fresh|]. intros lease [_ Hok]. bind_lift.
  destruct (is_terminal lease) eqn:Et; [apply spec_ret; [incl_known|done]|]. bind_now.
  eapply spec_post; [apply spec_plain; [done|in_known| |]|].
  - by repeat case_match.
  - intros cur t' Hc Ht. repeat case_match; states.
  - intros l [Hl _]. by apply (ev_row _ _ Hl).
Qed.

Lemma spec_record_result_retrieved K token : spec K (record_result_retrieved H token) one row_ok.
Proof.
  unfold record_result_retrieved. eapply spec_bind; [by apply spec_fresh|]. intros lease [_ Hok].
  bind_lift. bind_lift. bind_now.
  assert (Hnt : is_terminal lease = false)
    by (apply bool_decide_eq_false_2; intros E; rewrite E in Hv0; done).
  eapply spec_post; [plain_cas|]. intros l [Hl _]. by apply (ev_row _ _ Hl).
Qed.

Lemma spec_request_cancellation K token : spec K (request_cancellation H token) one row_ok.
Proof.
  unfold request_cancellation. eapply spec_bind; [by apply spec_fresh|]. intros lease [_ Hok].
  destruct (is_terminal lease) eqn:Et; [apply spec_ret; [incl_known|done]|]. bind_now.
  destruct (is_catalog_attempt lease);
    (eapply spec_post; [plain_cas|]; intros l [Hl _]; by apply (ev_row _ _ Hl)).
Qed.

(** ** Observations *)

Lemma spec_submission_lease K c o w :
  spec K (submission_lease H c o w) one (fun l => ls_cleanup_token l = c /\ row_ok l).
Proof.
  unfold submission_lease. eapply spec_bind; [by apply spec_catalog_lease|]. intros lease (Ht & Hok & _).
  bind_lift. bind_lift. bind_now. bind_lift. apply spec_ret; [incl_known|done].
Qed.

Lemma spec_load_capability K s : spec K (load_capability H s) none (fun _ => True).
Proof.
  unfold load_capability. bind_lift.
  eapply (spec_bind _ _ _ none (fun _ => True));
    [apply spec_ask; [done|intros n a _; split; [apply incl_nil_l|done]]|].
  intros found _. bind_lift. bind_lift. bind_lift. bind_now. bind_lift.
  apply spec_ret; [apply incl_nil_l|done].
Qed.

(** A transition that is not retried. *)
Lemma spec_transition_once n K lease cs u :
  In lease K ->
  (forall persisted t, evidence_changes lease cs u = Ok persisted ->
     evolves lease (updated_row lease persisted t)) ->
  spec K (transition_with_evidence H n lease cs u None false) one (evolves lease).
Proof.
  intros Hin Hev. destruct n as [|n]; cbn [transition_with_evidence];
    (destruct (is_terminal lease); [apply spec_ret; [incl_known; subst; auto|done]|]).
  - apply spec_raise.
  - bind_lift. apply spec_catch.
    + eapply spec_post; [apply spec_cas; [done|in_known|auto]|]. by intros l [].
    + intros e k Hk. by rewrite andb_false_r in Hk.
Qed.

Lemma spec_record_catalog_observation n K c o submitted :
  spec K (record_catalog_observation H fuel n c o submitted) one
    (fun l => ls_cleanup_token l = c /\ row_ok l).
Proof.
  revert K. induction n as [|n IH]; intros K; cbn [record_catalog_observation]; [apply spec_raise|].
  eapply spec_bind; [by apply spec_fresh|]. intros lease [Htok Hok]. bind_now. bind_lift.
  destruct v as [cs lf]. cbn [fst snd].
  assert (Hdone : forall l, evolves lease l -> ls_cleanup_token l = c /\ row_ok l).
  { intros l Hl. split; [by rewrite (evolves_token _ _ Hl)|by apply (ev_row _ _ Hl)]. }
  destruct cs as [|x cs]; [apply spec_ret; [incl_known|done]|].
  apply spec_catch.
  - eapply spec_post; [|exact Hdone]. destruct (is_terminal lease).
    + eapply spec_post; [apply spec_cas; [done|in_known|]|by intros l []].
      intros t'. by eapply evolves_observation_direct.
    + apply spec_transition_once; [in_known|]. intros p t' Hp. by eapply evolves_observation.
  - intros e k Hk. destruct (is_conflict_error e); [|done]. injection Hk as <-. apply IH.
Qed.

Lemma spec_ask_done {A} K c (f : nat -> result A) :
  (forall db, db_wf db -> Forall (known db) K -> call_admitted c db) ->
  spec K (ask c f) none (fun _ => True).
Proof. intros Hc. apply spec_ask; [done|]. intros n a _. split; [apply incl_nil_l|done]. Qed.

Lemma spec_submit K c o w payload :
  spec K (submit_catalog_workload H fuel c o w payload) none (fun _ => True).
Proof.
  unfold submit_catalog_workload. eapply spec_bind; [apply spec_submission_lease|]. intros before _.
  bind_lift. eapply spec_bind; [apply spec_load_capability|]. intros capability _.
  eapply spec_bind; [apply spec_submission_lease|]. intros lease _. bind_lift. bind_lift.
  eapply spec_bind; [by apply spec_ask_done|]. intros observation _.
  eapply spec_bind; [apply spec_record_catalog_observation|]. intros l _.
  apply spec_ret; [apply incl_nil_l|done].
Qed.

Lemma spec_observe K c o w :
  spec K (observe_catalog_workload H fuel c o w) none (fun _ => True).
Proof.
  unfold observe_catalog_workload. eapply spec_bind; [by apply spec_catalog_lease|]. intros lease _.
  bind_lift. eapply spec_bind; [apply spec_load_capability|]. intros capability _. bind_lift. bind_lift.
  eapply spec_bind; [by apply spec_ask_done|]. intros observation _.
  eapply spec_bind; [apply spec_record_catalog_observation|]. intros l _.
  assert (Hret : forall K, spec K (ret observation) none (fun _ : CatalogPodWorkloadObservation => True))
    by (intros; apply spec_ret; [apply incl_nil_l|done]).
  destruct (ls_workload_state l); try apply Hret;
    (eapply spec_bind; [by apply spec_release|]; intros released _); try apply Hret.
Qed.

Lemma spec_retrieve K c o w :
  spec K (retrieve_catalog_result H fuel c o w) none (fun _ => True).
Proof.
  unfold retrieve_catalog_result. eapply spec_bind; [by apply spec_catalog_lease|]. intros lease _.
  bind_lift. bind_lift. bind_lift. eapply spec_bind; [apply spec_load_capability|]. intros capability _.
  eapply spec_bind; [by apply spec_heartbeat|]. intros lease1 _. bind_lift. bind_lift.
  eapply spec_bind; [by apply spec_ask_done|]. intros payload _.
  eapply spec_bind; [by apply spec_fresh|]. intros current _. destruct (bool_decide _).
  - eapply spec_bind; [by apply spec_release|]. intros; apply spec_raise.
  - bind_lift. apply spec_ret; [apply incl_nil_l|done].
Qed.

Lemma spec_worker_evidence K c o w envelope :
  spec K (record_catalog_worker_evidence H fuel c o w envelope) one row_ok.
Proof.
  unfold record_catalog_worker_evidence. eapply spec_bind; [by apply spec_catalog_lease|].
  intros lease (_ & Hok & _). bind_lift. bind_lift. bind_lift. bind_lift. bind_lift. bind_lift.
  eapply (spec_bind _ _ _ none (fun _ => True)).
  { destruct (we_container_process_started_at v1).
    - bind_now. apply spec_lift. intros a _. split; [apply incl_nil_l|done].
    - apply spec_ret; [apply incl_nil_l|done]. }
  intros [] _. destruct (ev_worker v0).
  - bind_lift. apply spec_ret; [incl_known|done].
  - destruct (is_terminal lease); [apply spec_raise|]. bind_now.
    eapply spec_post; [apply spec_transition; [done|in_known|reflexivity|reflexivity|]|].
    + intros cur t' Hc Ht _. states.
    + intros l Hl. by apply (ev_row _ _ Hl).
Qed.

(** ** Handoff *)

Lemma spec_ack_admission K l : spec K (require_catalog_ack_admission H l) none (fun _ => True).
Proof.
  unfold require_catalog_ack_admission. eapply (spec_bind _ _ _ none (fun _ => True)).
  - destruct (_ || _); [apply spec_ret; [apply incl_nil_l|done]|].
    apply spec_lift. intros a _. split; [apply incl_nil_l|done].
  - intros ready _. bind_lift. bind_now. apply spec_lift. intros a _. split; [apply incl_nil_l|done].
Qed.

Lemma bind_conflict h payload intent :
  match bind_acknowledgement h payload with Exc ValueError => Exc TrainingPodConflictError | r => r end =
    Ok intent -> bind_acknowledgement h payload = Ok intent.
Proof. destruct (bind_acknowledgement h payload) as [x|[]]; done. Qed.

Definition either_one (s : TrainingPodLease + TrainingPodLease) : list TrainingPodLease :=
  match s with inl l => [l] | inr l => [l] end.

Lemma spec_persist_intent n K c o w payload :
  spec K (persist_intent H n c o w payload) either_one
    (fun s => match s with inl l => row_ok l | inr l => row_ok l /\ intent_bound payload l end).
Proof.
  revert K. induction n as [|n IH]; intros K; cbn [persist_intent]; [apply spec_raise|].
  eapply spec_bind; [by apply spec_catalog_lease|]. intros lease (Htok & Hok & _). bind_lift. bind_lift.
  apply of_option_ok in Hv. apply bind_conflict in Hv0.
  destruct (ah_remote_ack_observed_at v0); [apply spec_ret; [incl_known|done]|].
  eapply spec_bind; [apply spec_ack_admission|]. intros [] _. apply spec_catch.
  - eapply spec_bind; [apply spec_cas; [done|in_known|]|].
    + intros t. eapply evolves_set_handoff; [done|by eapply bind_acknowledgement_kept|reflexivity|states].
    + intros l [Hl (t & ->)]. apply spec_ret; [incl_known|]. split; [by apply (ev_row _ _ Hl)|].
      apply bind_acknowledgement_inv in Hv0 as (ack & ? & _ & ? & ? & _).
      exists v0, ack. done.
  - intros e k Hk. destruct (is_conflict_error e); [|done]. injection Hk as <-. apply IH.
Qed.

Lemma spec_acknowledge_with K c o w payload recovery :
  spec K (acknowledge_with H fuel c o w payload recovery) one row_ok.
Proof.
  unfold acknowledge_with. eapply spec_bind; [apply spec_persist_intent|]. intros [lease|lease] Hl.
  - apply spec_ret; [incl_known|done].
  - destruct Hl as [Hok Hint]. bind_lift. eapply spec_bind; [apply spec_load_capability|]. intros capability _.
    eapply spec_bind; [by apply spec_catalog_lease|]. intros current _.
    eapply spec_bind; [apply spec_ack_admission|]. intros [] _. bind_lift. bind_lift.
    eapply spec_bind; [apply spec_ask_done|].
    + intros db _ HK. rewrite List.Forall_forall in HK.
      assert (Hin : In lease (none () ++ one current ++ none capability ++ either_one (inr lease) ++ K)%list)
        by in_known.
      destruct (HK lease Hin) as (cur & Hc & He).
      destruct (intent_evolves payload _ _ He Hint) as (h & ack & Hh & ? & ? & ?).
      exists (ls_cleanup_token lease), cur, h, ack. repeat (split; [done|]). split; [|done].
      pose proof (ro_valid _ (ev_row _ _ He Hok)) as Hck.
      apply check_lease_spec in Hck as [Hb _]. destruct (Hb h Hh) as (s & Hs & _ & -> & _).
      unfold capacity_spec in Hv. apply of_option_ok in Hv. rewrite (evolves_spec _ _ He) in Hs. congruence.
    + intros observation _. bind_lift.
      eapply spec_post; [apply spec_record_catalog_observation|]. by intros l [].
Qed.

Lemma spec_release_catalog_result K c o w confirmed :
  spec K (release_catalog_result H fuel c o w confirmed) one row_ok.
Proof.
  unfold release_catalog_result. eapply spec_bind; [by apply spec_catalog_lease|].
  intros lease (Htok & Hok & _). bind_lift. bind_lift. bind_lift. bind_lift.
  destruct (is_terminal lease) eqn:Et.
  { bind_lift. apply spec_ret; [incl_known|done]. }
  eapply (spec_bind _ _ _ none (fun _ => True)).
  - destruct (bool_decide (ls_state lease = JOB_COMPLETED)) eqn:Ej.
    + eapply (spec_bind _ _ _ none (fun cs => cs = [] \/ exists h h', cs = [SetArtifactHandoff (Some h')] /\
        ls_artifact_handoff lease = Some h /\ handoff_kept h h')).
      * destruct (bool_decide _); [|apply spec_ret; [apply incl_nil_l|by left]].
        destruct (ls_artifact_handoff lease) as [h|] eqn:Eh; [|apply spec_ret; [apply incl_nil_l|by left]].
        eapply (spec_bind _ _ _ none (fun t => forall x, ah_host_confirmation_declared_at h = Some x -> t = x)).
        -- destruct (ah_host_confirmation_declared_at h).
           ++ apply spec_ret; [apply incl_nil_l|congruence].
           ++ eapply spec_post; [apply spec_now|done].
        -- intros t Hd. bind_lift. apply spec_ret; [apply incl_nil_l|]. right. exists h, v3.
           split; [done|]. split; [done|]. unfold mk_handoff in Hv3. apply rbind_ok in Hv3 as ([] & Hcheck & [= <-]).
           split; cbn; try done. intros y Hy. by rewrite (Hd y Hy).
      * intros cs Hcs. bind_now.
        assert (Hev : forall t', evolves lease (updated_row lease (cs ++
          [SetState RESULT_RETRIEVED; SetLastHeartbeatAt t; SetLastProviderError None]) t')).
        { intros t'. destruct Hcs as [->|(h & h' & -> & Hh & Hk)].
          - apply evolves_plain; [reflexivity|states].
          - eapply evolves_set_handoff; [done|done|reflexivity|states]. }
        eapply spec_bind; [apply spec_cas; [done|in_known|exact Hev]|].
        intros l _. apply spec_ret; [apply incl_nil_l|done].
    + bind_lift. apply spec_lift. intros a _. split; [apply incl_nil_l|done].
  - intros [] _. eapply spec_post; [by apply spec_release|]. by intros l [].
Qed.

Lemma spec_acknowledge K c o w ack : spec K (acknowledge_catalog_result H fuel c o w ack) one row_ok.
Proof.
  unfold acknowledge_catalog_result. eapply spec_bind; [by apply spec_catalog_lease|]. intros lease _.
  bind_lift. destruct (rq_artifact_handoff_protocol_version _).
  - bind_lift. bind_lift. apply spec_owned, spec_acknowledge_with.
  - bind_lift. apply spec_release_catalog_result.
Qed.

Lemma spec_recover K c o w recovery : spec K (recover_catalog_result H fuel c o w recovery) one row_ok.
Proof.
  unfold recover_catalog_result. eapply spec_bind; [by apply spec_catalog_lease|]. intros lease _.
  bind_lift. bind_lift. bind_lift. bind_lift. apply spec_owned, spec_acknowledge_with.
Qed.

Lemma spec_cancel K c o w : spec K (cancel_catalog_workload H fuel c o w) one row_ok.
Proof.
  unfold cancel_catalog_workload. eapply spec_bind; [by apply spec_catalog_lease|].
  intros lease (_ & Hok & _). destruct (is_terminal lease) eqn:Et; [apply spec_ret; [incl_known|done]|].
  bind_now. eapply spec_bind; [plain_cas|]. intros lease1 _.
  eapply (spec_bind _ _ _ none (fun _ => True)).
  - destruct (ls_backend_base_url lease1); [|apply spec_ret; [apply incl_nil_l|done]].
    apply spec_catch.
    + bind_lift. eapply spec_bind; [apply spec_load_capability|]. intros capability _. bind_lift.
      by apply spec_ask_done.
    + intros e k Hk. apply handler_manager in Hk as ->.
      eapply spec_bind; [apply spec_record_operation_error|]. intros l _.
      apply spec_ret; [apply incl_nil_l|done].
  - intros [] _. eapply spec_post; [by apply spec_release|]. by intros l [].
Qed.

Lemma spec_active_attempt K root : spec K (get_active_family_attempt H root) none (fun _ => True).
Proof.
  unfold get_active_family_attempt. eapply spec_bind; [by apply spec_repo_get|]. intros [r|] _;
    [|apply spec_ret; [apply incl_nil_l|done]].
  bind_lift. eapply spec_bind; [by apply spec_cleanup_family|]. intros family _.
  destruct (filter _ family) as [|l [|l' ls]];
    [apply spec_ret|apply spec_ret|apply spec_raise]; done || apply incl_nil_l.
Qed.

End Workload.

Section Reconcile.
Context {dg : Digest} {nu : NameUuid}.
Context (H : Host) (HH : rely H) (fuel : nat).

Lemma spec_record_reconcile_error K token e :
  spec K (record_reconcile_error H token e) none (fun _ => True).
Proof.
  unfold record_reconcile_error. eapply spec_bind; [by apply spec_repo_get|]. intros [lease|] _;
    [|apply spec_ret; [apply incl_nil_l|done]].
  destruct (_ && _); [apply spec_ret; [apply incl_nil_l|done]|]. apply spec_catch.
  - eapply spec_bind; [plain_cas|]. intros l _. apply spec_ret; [apply incl_nil_l|done].
  - intros e' k Hk. destruct (is_conflict_error e'); [|done]. injection Hk as <-.
    eapply spec_forget, spec_repo_get, HH.
Qed.

Lemma spec_reconcile_observation K lease t :
  In lease K -> row_ok lease -> is_terminal lease = false ->
  spec K (reconcile_observation H fuel lease t) one (evolves lease).
Proof.
  intros Hin Hok Ht. unfold reconcile_observation.
  assert (Hret : spec K (ret lease) one (evolves lease))
    by (apply spec_ret; [incl_known; subst; auto|done]).
  destruct (ls_provider_pod_id lease) as [pod|]; [|done]. destruct (_ && _); [|done].
  destruct (negb _); [done|]. bind_lift. eapply spec_bind; [by apply spec_ask_done|].
  intros observation _. destruct (po_is_stopped observation).
  - eapply spec_bind.
    + destruct (is_catalog_attempt lease) eqn:Ec.
      * apply spec_transition; [done|in_known|reflexivity|reflexivity|]. intros cur t' Hc Hn _. states.
      * apply spec_transition; [done|in_known|reflexivity|reflexivity|].
        intros cur t' Hc Hn _. assert (is_catalog_attempt cur = false)
          by (unfold is_catalog_attempt in *; by rewrite (evolves_spec _ _ Hc)). states.
    + intros stopped Hs. destruct (is_catalog_attempt stopped); [|apply spec_ret; [incl_known|done]].
      eapply spec_post; [apply spec_reconcile_billing; [done|in_known|by apply (ev_row _ _ Hs)]|].
      intros l Hl. by etransitivity.
  - eapply spec_post; [plain_cas|]. by intros l [].
Qed.

Lemma spec_reconcile_job K lease : spec K (reconcile_job H fuel lease) none (fun _ => True).
Proof.
  unfold reconcile_job. destruct (h_status_observer H) as [observer|];
    [|apply spec_ret; [apply incl_nil_l|done]].
  destruct (bool_decide _); [|apply spec_ret; [apply incl_nil_l|done]].
  eapply (spec_bind _ _ _ none (fun _ => True)).
  - apply spec_catch.
    + eapply spec_bind; [by apply spec_ask_done|]. intros s _. apply spec_ret; [apply incl_nil_l|done].
    + intros e k Hk. apply handler_manager in Hk as ->.
      eapply spec_bind; [by apply spec_record_operation_error|]. intros l _.
      apply spec_ret; [apply incl_nil_l|done].
  - intros [l|[s|]] _; try (apply spec_ret; [apply incl_nil_l|done]).
    eapply spec_bind; [by apply spec_record_status|]. intros updated _.
    destruct (bool_decide _); [|apply spec_ret; [apply incl_nil_l|done]].
    eapply spec_bind; [by apply spec_release_one|]. intros l _. apply spec_ret; [apply incl_nil_l|done].
Qed.

Lemma spec_some K (m : M TrainingPodLease) R Q :
  spec K m R Q -> spec K (let* l := m in ret (Some l)) none (fun _ => True).
Proof.
  intros Hm. eapply spec_bind; [exact Hm|]. intros l _. apply spec_ret; [apply incl_nil_l|done].
Qed.

Lemma spec_reconcile_one K token : spec K (reconcile_one H fuel token) none (fun _ => True).
Proof.
  unfold reconcile_one. eapply spec_bind; [by apply spec_repo_get|]. intros [lease|] Hl;
    [|apply spec_ret; [apply incl_nil_l|done]].
  destruct (Hl lease eq_refl) as (Htok & Hok & _).
  assert (Hret : forall K, spec K (ret (Some lease)) none (fun _ : option TrainingPodLease => True))
    by (intros; apply spec_ret; [apply incl_nil_l|done]).
  destruct (is_terminal lease) eqn:Et.
  { destruct (billing_open lease); [eapply spec_some, spec_reconcile_billing; [done|in_known|done]|].
    apply (spec_some _ _ none (fun _ => True)), spec_ret; [apply incl_nil_l|done]. }
  bind_now. eapply (spec_bind _ _ _ none (fun _ => True)).
  { destruct (is_catalog_attempt lease); [bind_lift|]; (apply spec_ret; [apply incl_nil_l|done]). }
  intros idle _. destruct (bool_decide (ls_state lease = REQUESTED)).
  { destruct (_ || _); [|apply Hret]. destruct (bool_decide (ls_source lease = CREATED)) eqn:Es; cbn [negb].
    - eapply spec_some, spec_settle_without_pod; [done|in_known|done|reflexivity| |done].
      intros cur t' Hn Hc. states.
    - eapply spec_some, spec_release_claim; [done|in_known|done|].
      apply bool_decide_eq_false_1 in Es. destruct (is_catalog_attempt lease) eqn:Ec; [|done].
      apply (ro_source _ Hok) in Ec. congruence. }
  destruct (negb _ && _).
  { destruct (_ && _); [apply Hret|].
    eapply spec_bind; [apply spec_resolve_uncertain_creation; [done|in_known|done]|].
    intros resolved _. destruct (is_some _); [by eapply spec_some, spec_release_one|].
    apply spec_ret; [apply incl_nil_l|done]. }
  destruct (bool_decide _); [by eapply spec_some, spec_release_one|].
  destruct (_ <=? _); [by eapply spec_some, spec_release_one|].
  destruct (_ && _).
  { bind_lift. eapply spec_bind; [by apply spec_observe|]. intros o _. by eapply spec_some, spec_fresh. }
  eapply spec_bind; [apply spec_reconcile_job|]. intros [l|] _; [apply spec_ret; [apply incl_nil_l|done]|].
  destruct (_ && _); [by eapply spec_some, spec_release_one|].
  eapply spec_some, spec_reconcile_observation; [in_known|done|done].
Qed.

Lemma spec_reconcile_each K step leases :
  (forall K token, spec K (step token) none (fun _ => True)) ->
  spec K (reconcile_each H step leases) none (fun _ => True).
Proof.
  intros Hs. revert K. induction leases as [|l rest IH]; intros K; cbn [reconcile_each].
  - apply spec_ret; [apply incl_nil_l|done].
  - eapply (spec_bind _ _ _ none (fun _ => True)).
    + unfold reconcile_step. eapply (spec_bind _ _ _ none (fun _ => True)).
      * apply spec_catch; [apply Hs|]. intros e k Hk. destruct (_ || _); [|done].
        injection Hk as <-. apply spec_record_reconcile_error.
      * intros o _. apply spec_ret; [apply incl_nil_l|done].
    + intros here _. eapply spec_bind; [apply IH|]. intros there _.
      apply spec_ret; [apply incl_nil_l|done].
Qed.

Lemma spec_reconcile K : spec K (reconcile H fuel) none (fun _ => True).
Proof.
  unfold reconcile. eapply spec_bind; [by apply spec_select|]. intros roots _.
  eapply spec_bind; [apply spec_reconcile_each; intros; by eapply spec_some, spec_release|].
  intros released _. eapply spec_bind; [by apply spec_select|]. intros initial _.
  eapply spec_bind; [apply spec_reconcile_each; intros; apply spec_reconcile_one|].
  intros reconciled _. apply spec_ret; [apply incl_nil_l|done].
Qed.

(** ** Every operation *)

(** A request object exists only when [TrainingPodRequest] accepts it; catalog
    requests are checked on their way in. *)
Definition operation_valid (op : operation) : Prop :=
  match op with OpAcquire r _ => check_training_request r = Ok tt | _ => True end.

Lemma spec_discard {A} K (m : M A) R Q : spec K m R Q -> spec K (discard m) none (fun _ => True).
Proof.
  intros Hm. unfold discard. eapply spec_bind; [exact Hm|]. intros a _.
  apply spec_ret; [apply incl_nil_l|done].
Qed.

Lemma spec_operation K op : operation_valid op -> spec K (run_operation H fuel op) none (fun _ => True).
Proof.
  intros Hv. destruct op; cbn [run_operation].
  2: exact (spec_validate_dependencies H HH K).
  all: eapply spec_discard.
  - by apply spec_find_catalog_capacity.
  - by apply spec_acquire_catalog_request.
  - by apply spec_acquire_request.
  - by apply spec_poll_catalog_readiness.
  - by apply spec_heartbeat.
  - by apply spec_record_job.
  - by apply spec_record_operation_error.
  - by apply spec_record_status.
  - by apply spec_record_result_retrieved.
  - by apply spec_request_cancellation.
  - by apply spec_submit.
  - by apply spec_observe.
  - by apply spec_retrieve.
  - by apply spec_worker_evidence.
  - by apply spec_acknowledge.
  - by apply spec_recover.
  - by apply spec_release_catalog_result.
  - by apply spec_cancel.
  - by apply spec_active_attempt.
  - by apply spec_release.
  - by apply spec_reconcile.
Qed.

(** A history of operations leaves a well-formed table whose rows evolved. *)
Lemma history_safe ops w :
  Forall operation_valid ops -> world_wf w ->
  world_wf (run_history H fuel ops w) /\ db_evolves (w_db w) (w_db (run_history H fuel ops w)).
Proof.
  intros Hops. revert w. induction Hops as [|op ops Hop Hops IH]; intros w Hw; cbn [run_history]; [done|].
  pose proof (spec_operation [] op Hop w Hw (Forall_nil_2 _)) as Hs.
  destruct (run_operation H fuel op w) as [r w1]. destruct Hs as (Hw1 & He & _). cbn [snd].
  destruct (IH w1 Hw1) as [Hw2 He2]. split; [done|]. by etransitivity.
Qed.

End Reconcile.
