(* ===== verification/Scenario.v ===== *)
(** One catalog attempt from quote to settlement, run through the model: a concrete
    host, its provider, worker and clock. The theorems' hypotheses are shown to hold
    on it, and the whole life of the attempt is executed. *)
From Stdlib Require Import Ascii.
From S2P Require Import Prelude PyStr Enums Errors PyDecimal PyTime Json PyFloat.
From S2P Require Import Placement ContractsBase Quote CatalogRequest Evidence PodBilling Lease Row.
From S2P Require Import Repository World Provider ServiceCore ServiceAcquire ServiceWorkload ServiceReconcile.
From S2P Require Import Evolves Logic.

#[local] Open Scope Z_scope.

Module Scenario.

(** ** A digest and a name generator *)

Definition nibble (n : Z) : ascii := let d := n mod 16 in ascii_of_N (Z.to_N (if d <? 10 then 48 + d else 87 + d)).

Fixpoint nibbles (k : nat) (n : Z) : list ascii :=
  match k with O => [] | S k' => nibble n :: nibbles k' (n / 16) end.

Definition mix (s : string) : Z :=
  fold_left (fun h c => Z.land (33 * h + code c) 18446744073709551615) (chars s) 5381.

Lemma nibble_hex n : is_hex (nibble n) = true.
Proof.
  unfold nibble. pose proof (Z.mod_pos_bound n 16 ltac:(lia)).
  assert (n mod 16 = 0 \/ n mod 16 = 1 \/ n mod 16 = 2 \/ n mod 16 = 3 \/ n mod 16 = 4 \/ n mod 16 = 5 \/
    n mod 16 = 6 \/ n mod 16 = 7 \/ n mod 16 = 8 \/ n mod 16 = 9 \/ n mod 16 = 10 \/ n mod 16 = 11 \/
    n mod 16 = 12 \/ n mod 16 = 13 \/ n mod 16 = 14 \/ n mod 16 = 15) as Hc by lia.
  destruct_or! Hc; rewrite Hc; reflexivity.
Qed.

Lemma nibbles_spec k n : length (nibbles k n) = k /\ forallb is_hex (nibbles k n) = true.
Proof.
  revert n. induction k as [|k IH]; intros n; [done|]. cbn [nibbles length forallb].
  destruct (IH (n / 16)) as [-> ->]. by rewrite nibble_hex.
Qed.

#[export] Instance sample_digest : Digest.
Proof.
  refine {| sha256_hex := fun s => of_chars (nibbles 64 (mix s)) |}.
  - intros s. unfold len. rewrite chars_of_chars. by rewrite (proj1 (nibbles_spec _ _)).
  - intros s. unfold all_chars. rewrite chars_of_chars. apply nibbles_spec.
Defined.

#[export] Instance sample_uuid : NameUuid := {| uuid5_url := fun name => take 36 (sha256_hex name) |}.

(** ** The attempt *)

Definition T0 : instant := seconds 1760000400.
Definition at_ (s : Z) : instant := T0 + seconds s.

Definition constraints : PodCapacityConstraints := {|
  cc_min_vram_gb := 24; cc_gpu_count := 1; cc_cloud := SECURE; cc_min_cuda_version := None;
  cc_allowed_gpu_ids := []; cc_allowed_data_center_ids := []; cc_max_hourly_rate_usd := None;
  cc_benchmark_id := "bench-1"; cc_allowed_products := [POD]
|}.

Definition offer : GPUOffer := {|
  go_id := "NVIDIA L4"; go_name := "L4"; go_pool := None; go_manufacturer := "NVIDIA"; go_memory_gb := 24;
  go_secure := true; go_community := false; go_secure_price_per_hr := Fin 5 (-1);
  go_community_price_per_hr := Fin 4 (-1); go_secure_max_count := 8; go_community_max_count := 0;
  go_availability := Some AVAIL_HIGH; go_data_centers := []; go_availability_min_cuda_version := None;
  go_serverless_price_per_hr := None
|}.

Definition quote_request : PodCapacityQuoteRequest := {|
  qr_constraints := constraints; qr_workload_kind := "lora-training";
  qr_parameters_sha256 := sha256_hex "parameters"; qr_estimated_startup_seconds := 60;
  qr_estimated_execution_seconds := 600; qr_maximum_runtime_seconds := 3600; qr_quote_ttl_seconds := 900
|}.

Definition image : string := "registry.example/worker@sha256:" ++ sha256_hex "image".

(** ** The control plane *)

Definition pod : string := "pod-0001".

Definition pod_payload (name : string) : list (string * json) :=
  [("id", JStr pod); ("name", JStr name); ("image", JStr image); ("status", JStr "RUNNING");
   ("gpu", JObj [("id", JStr "NVIDIA L4"); ("count", JInt 1)]); ("cloud", JStr "SECURE");
   ("dataCenterId", JStr "EU-RO-1"); ("cost", JFloat (Fin 5 (-1)));
   ("runtime", JObj [("ports", JList [JObj [("private", JInt 8000); ("type", JStr "http")]])])].

(** The closed hour [T0, T0 + 1h) of the Pod. *)
Definition bill : PodBilling.BillingPage :=
  let row := [("totalAmount", JFloat (Fin 12 (-2))); ("gpuAmount", JFloat (Fin 1 (-1)));
              ("cpuAmount", JInt 0); ("diskAmount", JFloat (Fin 2 (-2)))] in
  {| PodBilling.bp_records :=
       [[("podId", JStr pod); ("startTime", JStr (iso_datetime T0)); ("endTime", JStr (iso_datetime (at_ 3600)))] ++ row]%list;
     PodBilling.bp_metadata :=
       [("query", JObj [("startTime", JStr (iso_datetime T0)); ("endTime", JStr (iso_datetime (at_ 3600)));
                        ("bucketSize", JStr "hour"); ("podId", JStr pod)]);
        ("recordCount", JInt 1); ("uniquePodCount", JInt 1); ("totals", JObj row)] |}.

Definition account : Provider.DirectProvider := {|
  Provider.dp_list_gpus := fun _ _ _ => Ok [offer];
  Provider.dp_get_status := fun _ => Ok (pod_payload "");
  Provider.dp_resume_pod := fun _ _ => Ok tt;
  Provider.dp_start_pod := fun p m =>
    Ok (pod_payload (Provider.sm_name m),
        match Placement.select_gpu [offer]
                {| pr_product := POD; pr_min_vram_gb := gp_min_vram_gb p; pr_gpu_count := gp_gpu_count p;
                   pr_cloud := gp_cloud p; pr_min_cuda_version := gp_min_cuda_version p;
                   pr_max_cost_per_hr := gp_max_cost_per_hr p; pr_allowed_gpu_ids := gp_allowed_gpu_ids p;
                   pr_allowed_gpu_pools := []; pr_allowed_data_center_ids := [];
                   pr_minimum_availability := AVAIL_LOW; pr_benchmark_id := None |} T0 with
        | Ok d => Provider.PlacementGiven d
        | Exc _ => Provider.PlacementAbsent
        end);
  Provider.dp_list_pods := Ok [];
  Provider.dp_stop_pod := fun _ => Ok [("status", JStr "EXITED")];
  Provider.dp_terminate_pod := fun _ => Ok [("status", JStr "TERMINATED")];
  Provider.dp_pod_billing := fun _ _ _ _ => Ok bill
|}.

(** One second per effect; the effects from the [jump]-th on happen two hours later. *)
Definition clock (jump n : nat) : instant :=
  at_ (100 + Z.of_nat n + (if Nat.ltb n jump then 0 else 7200)).

Definition accepted_quote : result PodCapacityQuote := Provider.quote account quote_request (at_ 50).

Definition the_quote : PodCapacityQuote.
Proof. let r := eval vm_compute in accepted_quote in match r with Ok ?q => exact q end. Defined.

Definition request : CatalogPodCapacityRequest := {|
  rq_capacity_id := "capacity-0001";
  rq_cleanup_family_id := "capacity-0001";
  rq_owner_id := "owner-0001";
  rq_workload_id := "workload-0001";
  rq_attempt_id := "attempt-0001";
  rq_idempotency_key := "idempotency-0001";
  rq_request_sha256 := sha256_hex "request";
  rq_workload_kind := "lora-training";
  rq_parameters_sha256 := sha256_hex "parameters";
  rq_image_reference := image;
  rq_profile_id := "training-h100";
  rq_quote := the_quote;
  rq_accepted_max_cost_usd := Fin 5 (-1);
  rq_created_at := at_ 60;
  rq_readiness_deadline := at_ 700;
  rq_hard_deadline := at_ 3000;
  rq_bearer_expires_at := at_ 3600;
  rq_idle_timeout_seconds := 600;
  rq_cleanup_grace_seconds := 300;
  rq_attempt_environment := [("EPOCHS", "3"); ("DATASET", "s3://bucket/data")];
  rq_artifact_handoff_protocol_version := Some 1
|}.

(** ** The host *)

Definition profile_h100 : GPUProfile := {|
  gp_id := "training-h100"; gp_name := "training"; gp_task_type := "lora"; gp_image_name := image;
  gp_container_disk_gb := 50; gp_volume_gb := 0; gp_ports := ["8000/http"]; gp_inference_port := 8000;
  gp_inference_protocol := "http"; gp_inference_base_path := "/"; gp_image_invoke_path := None;
  gp_default_model := None; gp_pod_type := None; gp_min_vram_gb := 24; gp_min_cuda_version := None;
  gp_max_cost_per_hr := None; gp_gpu_count := 1; gp_cloud := SECURE; gp_allowed_gpu_ids := [];
  gp_allowed_data_center_ids := []; gp_max_context_window := None; gp_readiness_timeout_seconds := None;
  gp_registry_id := None; gp_network_volume_id := None; gp_volume_mount_path := None;
  gp_persistent_pod_id := None; gp_env := []
|}.

Definition token : string := "scoped-bearer-token-0123456789abcdef".

Definition capability : CatalogAttemptCapability := {|
  cap_secret_id := "secret-0001"; cap_bearer_token := token; cap_token_sha256 := sha256_hex token;
  cap_expires_at := at_ 3600
|}.

Definition capabilities : CapabilityStore := {|
  cs_load_or_create := fun _ _ _ => Ok capability;
  cs_load := fun _ _ => Ok (Some capability);
  cs_revoke := fun _ _ => Ok tt
|}.

Definition acknowledgement : list (string * json) :=
  [("attempt_id", JStr "attempt-0001"); ("request_sha256", JStr (sha256_hex "request"));
   ("result_sha256", JStr (sha256_hex "result")); ("receipt_sha256", JStr (sha256_hex "receipt"));
   ("acknowledgement_sha256", JStr (sha256_hex "acknowledgement"))].

Definition report (state : CatalogPodWorkloadState) : CatalogPodWorkloadObservation := {|
  wo_attempt_id := "attempt-0001";
  wo_request_sha256 := Some (sha256_hex "request");
  wo_state := state;
  wo_error_type := None;
  wo_result_available := handoff_state state;
  wo_result_sha256 := if handoff_state state then Some (sha256_hex "result") else None;
  wo_receipt_sha256 := if handoff_state state then Some (sha256_hex "receipt") else None;
  wo_acknowledgement_sha256 :=
    if bool_decide (state = W_ACKNOWLEDGED) then Some (sha256_hex "acknowledgement") else None
|}.

Definition worker : WorkloadTransport := {|
  wt_health := fun _ _ => Ok tt;
  wt_submit := fun _ _ _ _ _ _ => Ok (report W_RUNNING);
  wt_status := fun _ _ _ _ _ => Ok (report W_AWAITING_ACK);
  wt_result := fun _ _ _ _ _ _ => Ok [("receipt", JObj [("result_sha256", JStr (sha256_hex "result"));
                                                         ("receipt_sha256", JStr (sha256_hex "receipt"))])];
  wt_acknowledge := fun _ _ _ _ _ _ => Ok (report W_ACKNOWLEDGED);
  wt_recover_handoff := fun _ _ _ _ _ _ => Ok (report W_ACKNOWLEDGED);
  wt_cancel := fun _ _ _ _ _ => Ok tt
|}.

(** The host: no other process writes, the provider is the modelled one. *)
Definition host (jump : nat) : Host := {|
  h_clock := clock jump;
  h_wall_clock := clock jump;
  h_interfere := fun _ db => db;
  h_cancelled := fun _ => false;
  h_sleep := fun _ => Ok tt;
  h_provider := Provider.capacity_provider (fun _ => account) (clock jump) (clock jump);
  h_capability_store := Some capabilities;
  h_workload_transport := Some worker;
  h_status_observer := None;
  h_profiles := [("training-h100", profile_h100)];
  h_orphan_timeout := seconds 900
|}.

Definition empty : world := {| w_db := ∅; w_tick := 0; w_trace := [] |}.

Definition telemetry : list (string * json) :=
  [("schema_version", JInt 1); ("attempt_id", JStr "attempt-0001");
   ("request_sha256", JStr (sha256_hex "request"));
   ("image_digest", JStr (image_digest_of image)); ("container_process_started_at", JStr (iso_datetime (at_ 105)));
   ("timings_seconds",
     JObj (map (fun k => (k, JNull)) WORKER_TIMING_FIELDS));
   ("metrics", JObj (map (fun k => (k, JNull)) WORKER_METRIC_FIELDS))].

(** Acquire, submit, poll, fetch, record telemetry, acknowledge, declare the host's
    confirmation. *)
Definition attempt_life : list operation :=
  [OpAcquireCatalog request true;
   OpSubmit "capacity-0001" "owner-0001" "workload-0001" [];
   OpObserve "capacity-0001" "owner-0001" "workload-0001";
   OpRetrieve "capacity-0001" "owner-0001" "workload-0001";
   OpWorkerEvidence "capacity-0001" "owner-0001" "workload-0001" telemetry;
   OpAcknowledge "capacity-0001" "owner-0001" "workload-0001" (Some acknowledgement);
   OpReleaseResult "capacity-0001" "owner-0001" "workload-0001" (Some (sha256_hex "acknowledgement"))].

Definition row_of (w : world) : option TrainingPodLease := w_db w !! "capacity-0001".

(** The settled attempt: the pass runs two hours later. *)
Definition settled : world :=
  run_history (host 0) 5 [OpReconcile] (run_history (host 1000) 5 attempt_life empty).

(** Its row, and the rows at two earlier points of its life. *)
Definition settled_row : TrainingPodLease.
Proof. let r := eval vm_compute in (row_of settled) in match r with Some ?l => exact l end. Defined.

Definition waiting_row : TrainingPodLease.
Proof.
  let r := eval vm_compute in (row_of (run_history (host 1000) 5 (firstn 3 attempt_life) empty)) in
  match r with Some ?l => exact l end.
Defined.

Definition acknowledged_row : TrainingPodLease.
Proof.
  let r := eval vm_compute in (row_of (run_history (host 1000) 5 (firstn 6 attempt_life) empty)) in
  match r with Some ?l => exact l end.
Defined.

(** The code can do what it is for: a catalog attempt that is acquired, submitted,
    polled, fetched, acknowledged and confirmed, then reconciled when its billed hour
    is over, ends released, its family with it, with an exact receipt and complete
    evidence. Every step is the modelled code, executed. *)
Theorem attempt_settles :
  row_of settled = Some settled_row /\
  (is_terminal settled_row && terminal_success_evidence_complete settled_row &&
   ls_family_release_complete settled_row) = true.
Proof. split; vm_compute; reflexivity. Qed.

(** ** The hypotheses of the service's theorems hold here *)

(** The modelled provider answers only valid receipts. *)
Lemma provider_receipts (dp : nat -> Provider.DirectProvider) (clock later : nat -> instant) n p s c t r b :
  pv_final_billing (Provider.capacity_provider dp clock later) n p s c t r = Ok (Some b) ->
  check_receipt b = Ok tt.
Proof. intros Hb. by apply PodBilling.read_receipt in Hb as [[]]. Qed.

Lemma host_relies (jump : nat) : rely (host jump).
Proof. split; [done|done|]. intros n p s c t r b. apply provider_receipts. Qed.

(** A table of one row. *)
Definition one_row (l : TrainingPodLease) : world :=
  {| w_db := {[ls_cleanup_token l := l]}; w_tick := 0; w_trace := [] |}.

Lemma one_row_wf (l : TrainingPodLease) : row_ok l -> world_wf (one_row l).
Proof.
  intros Hok. assert (Hone : forall k r, w_db (one_row l) !! k = Some r -> k = ls_cleanup_token l /\ r = l).
  { intros k r Hk. unfold one_row in Hk. cbn [w_db] in Hk. apply lookup_singleton_Some in Hk as [<- <-]. done. }
  split; [split; [split|]|constructor].
  - intros k r Hk. by destruct (Hone k r Hk) as [-> ->].
  - intros k k' r r' Hk Hk' Hne. destruct (Hone k r Hk) as [-> _]. by destruct (Hone k' r' Hk') as [-> _].
  - intros k r Hk. by destruct (Hone k r Hk) as [_ ->].
Qed.

Lemma one_row_row (l : TrainingPodLease) : w_db (one_row l) !! ls_cleanup_token l = Some l.
Proof. unfold one_row. cbn [w_db]. by apply lookup_singleton_Some. Qed.

Lemma settled_row_ok : row_ok settled_row.
Proof. split; try done. by right. Qed.
Lemma waiting_row_ok : row_ok waiting_row.
Proof. split; try done. by right. Qed.
Lemma acknowledged_row_ok : row_ok acknowledged_row.
Proof. split; try done. by right. Qed.

End Scenario.
