(* ===== verification/ServiceProperties.v ===== *)
(** What every history of the lease service guarantees, whatever the provider, the
    worker, the clocks, cancellation and other processes do: invariants of the lease
    table and conditions on every outside call. *)
From Stdlib Require Import Ascii.
From S2P Require Import Prelude PyStr Enums Errors PyDecimal PyTime Json ContractsBase.
From S2P Require Import Quote CatalogRequest Evidence Lease Row Repository World.
From S2P Require Import ServiceCore ServiceAcquire ServiceWorkload ServiceReconcile Evolves Logic SafetyCore SafetyAcquire.
From S2P Require Import SafetyReconcile Scenario.
Import Scenario.Scenario.

#[local] Open Scope Z_scope.

Section Histories.
Context {dg : Digest} {nu : NameUuid}.
Context (H : Host) (HH : rely H) (fuel : nat) (ops : list operation) (w : world).
Context (Hops : Forall operation_valid ops) (Hw : world_wf w).

Lemma after_rows k l :
  w_db w !! k = Some l -> exists l', w_db (run_history H fuel ops w) !! k = Some l' /\ evolves l l'.
Proof. intros Hk. by apply (history_safe H HH fuel ops w Hops Hw). Qed.

Lemma after_ok k l : w_db (run_history H fuel ops w) !! k = Some l -> row_ok l.
Proof. destruct (history_safe H HH fuel ops w Hops Hw) as [[[_ Hr] _] _]. apply Hr. Qed.

Lemma after_admitted c db : In (c, db) (w_trace (run_history H fuel ops w)) -> call_admitted c db.
Proof.
  destruct (history_safe H HH fuel ops w Hops Hw) as [[_ Ht] _].
  unfold trace_admitted in Ht. rewrite List.Forall_forall in Ht. apply (Ht (c, db)).
Qed.


(** C2. No lease is lost and none changes its identity: token, family, request
    fingerprint, resource name, deadlines and capacity specification stay; the
    revision never goes back, and a row at the same revision is the same row. *)
Theorem leases_kept k l :
  w_db w !! k = Some l ->
  exists l', w_db (run_history H fuel ops w) !! k = Some l' /\ same_identity l l' /\ ls_revision l <= ls_revision l' /\
    (ls_revision l = ls_revision l' -> l' = l).
Proof. intros Hk. destruct (after_rows k l Hk) as (l' & Hk' & []). exists l'. done. Qed.

(** A released lease stays released. *)
Theorem released_is_final k l :
  w_db w !! k = Some l -> ls_state l = RELEASED ->
  exists l', w_db (run_history H fuel ops w) !! k = Some l' /\ ls_state l' = RELEASED.
Proof.
  intros Hk Hs. destruct (after_rows k l Hk) as (l' & Hk' & He). exists l'. split; [done|].
  pose proof (ev_terminal _ _ He) as Ht. unfold is_terminal in Ht. rewrite Hs in Ht.
  assert (bool_decide (ls_state l' = RELEASED) = true) as Hb by by apply Ht.
  by apply bool_decide_eq_true_1 in Hb.
Qed.

(** C3. A catalog attempt is released, or its billing called authoritative, only
    with its billing receipt on the row. *)
Theorem settlement_has_receipt k l :
  w_db (run_history H fuel ops w) !! k = Some l -> is_catalog_attempt l = true ->
  ls_state l = RELEASED \/ ls_billing_state l = BILLING_AUTHORITATIVE ->
  exists r, ls_billing_receipt l = Some r.
Proof.
  intros Hk Hc Hs. pose proof (after_ok k l Hk) as Hok.
  assert (Hsome : is_some (ls_billing_receipt l) = true).
  { destruct Hs; [apply (ro_settled _ Hok); [by apply bool_decide_eq_true_2|done]|by apply ro_authoritative]. }
  destruct (ls_billing_receipt l); [eauto|done].
Qed.

(** C4. Evidence only accumulates: the accepted quote stays, every lifecycle
    timestamp keeps its first observation, and the realized placement, the worker's
    telemetry and the billing receipt are never replaced. *)
Theorem first_observations_final k l e :
  w_db w !! k = Some l -> ls_evidence l = Some e ->
  exists l' e', w_db (run_history H fuel ops w) !! k = Some l' /\ ls_evidence l' = Some e' /\
    ev_provider_quote_id e' = ev_provider_quote_id e /\
    ev_accepted_hourly_rate_usd e' = ev_accepted_hourly_rate_usd e /\
    (forall f t, lc_get (ev_lifecycle e) f = Some t -> lc_get (ev_lifecycle e') f = Some t) /\
    (forall p, ev_realized_placement e = Some p -> ev_realized_placement e' = Some p) /\
    (forall x, ev_worker e = Some x -> ev_worker e' = Some x) /\
    (forall r, ev_billing e = Some r -> ev_billing e' = Some r).
Proof.
  intros Hk He. destruct (after_rows k l Hk) as (l' & Hk' & Hev).
  destruct (ev_evidence _ _ Hev e He) as (e' & He' & [? ? ? ? ? ? ? [_ Hf] ? ? ?]). by exists l', e'.
Qed.

(** The artifact handoff of an attempt is bound once: the observed result and
    receipt digests, the host's acknowledgement intent, the remote acknowledgement
    and the host's declared confirmation are never replaced. *)
Theorem handoff_final k l h :
  w_db w !! k = Some l -> ls_artifact_handoff l = Some h ->
  exists l' h', w_db (run_history H fuel ops w) !! k = Some l' /\ ls_artifact_handoff l' = Some h' /\
    ah_result_sha256 h' = ah_result_sha256 h /\ ah_receipt_sha256 h' = ah_receipt_sha256 h /\
    (forall a, ah_acknowledgement_sha256 h = Some a ->
       ah_acknowledgement_sha256 h' = Some a /\
       ah_acknowledgement_payload_sha256 h' = ah_acknowledgement_payload_sha256 h) /\
    (forall t, ah_remote_ack_observed_at h = Some t -> ah_remote_ack_observed_at h' = Some t) /\
    (forall t, ah_host_confirmation_declared_at h = Some t -> ah_host_confirmation_declared_at h' = Some t).
Proof.
  intros Hk Hh. destruct (after_rows k l Hk) as (l' & Hk' & Hev).
  destruct (ev_handoff _ _ Hev h Hh) as (h' & Hh' & [? ? ? ? Hack Hpay ? ?]).
  exists l', h'. repeat (split; [done|]). split; [|by split].
  intros a Ha. split; [by apply Hack|]. apply Hpay. by rewrite Ha.
Qed.


(** C6. The worker is told to destroy its copy of the result only after the host's
    intent is durable: the table then holds, for that attempt, the digest of the
    acknowledgement and of the very payload that is sent. *)
Theorem acknowledge_follows_durable_intent attempt payload db :
  In (CallAcknowledge attempt payload, db) (w_trace (run_history H fuel ops w)) ->
  exists k row h, db !! k = Some row /\ ls_artifact_handoff row = Some h /\
    ah_attempt_id h = attempt /\
    (exists a, ah_acknowledgement_sha256 h = Some a /\ get_field payload "acknowledgement_sha256" = JStr a) /\
    ah_acknowledgement_payload_sha256 h = Some (sha256_hex (dumps (JObj payload))).
Proof.
  intros Hin. destruct (after_admitted _ _ Hin) as (k & row & h & a & ? & ? & ? & ? & ? & ?).
  exists k, row, h. repeat (split; [done|]). split; [by exists a|done].
Qed.

(** An attempt's credential is revoked only when its billing receipt is durable. *)
Theorem revoke_follows_receipt attempt db :
  In (CallRevoke attempt, db) (w_trace (run_history H fuel ops w)) ->
  exists k row spec r, db !! k = Some row /\ ls_capacity_spec row = Some spec /\
    rq_attempt_id (sp_request spec) = attempt /\ ls_billing_receipt row = Some r.
Proof.
  intros Hin. destruct (after_admitted _ _ Hin) as (k & row & spec & ? & ? & ? & Hs).
  destruct (ls_billing_receipt row) as [r|] eqn:E; [|done]. by exists k, row, spec, r.
Qed.

(** Only capacity of an unreleased lease is torn down, and by the means its kind
    calls for: a Pod is terminated for a catalog attempt that holds it, and stopped
    for a lease that is none. *)
Theorem teardown_of_held_capacity pod_ db :
  In (CallTerminate pod_, db) (w_trace (run_history H fuel ops w)) \/ In (CallStop pod_, db) (w_trace (run_history H fuel ops w)) ->
  exists l row, db !! ls_cleanup_token l = Some row /\ evolves l row /\
    ls_provider_pod_id l = Some pod_ /\ ls_state l <> RELEASED /\
    (In (CallTerminate pod_, db) (w_trace (run_history H fuel ops w)) \/ ls_capacity_spec l = None).
Proof.
  intros [Hin|Hin]; pose proof (after_admitted _ _ Hin) as (l & (row & Hr & He) & Hp & Hc & Ht);
    exists l, row; apply bool_decide_eq_false_1 in Ht; repeat (split; [done|]); [by left|right].
  unfold is_catalog_attempt in Hc. by destruct (ls_capacity_spec l).
Qed.

End Histories.

(** *** Witnesses *)


Lemma leases_kept_witness :
  exists l', w_db (run_history (host 0) 5 [OpHeartbeat "capacity-0001"; OpReconcile] (one_row waiting_row))
               !! "capacity-0001" = Some l' /\ same_identity waiting_row l'.
Proof.
  destruct (leases_kept (host 0) (host_relies 0) 5 [OpHeartbeat "capacity-0001"; OpReconcile]
    (one_row waiting_row) ltac:(repeat constructor) (one_row_wf _ waiting_row_ok) "capacity-0001" waiting_row
    (one_row_row waiting_row)) as (l' & H1 & H2 & _).
  exists l'. split; [exact H1 | exact H2].
Defined.

Lemma released_is_final_witness :
  exists l', w_db (run_history (host 0) 5 [OpReconcile; OpCancel "capacity-0001" "owner-0001" "workload-0001"]
               (one_row settled_row)) !! "capacity-0001" = Some l' /\ ls_state l' = RELEASED.
Proof.
  apply (released_is_final (host 0) (host_relies 0) 5 _ (one_row settled_row) ltac:(repeat constructor)
    (one_row_wf _ settled_row_ok) "capacity-0001" settled_row (one_row_row settled_row) eq_refl).
Defined.

Lemma settlement_has_receipt_witness : exists r, ls_billing_receipt settled_row = Some r.
Proof.
  apply (settlement_has_receipt (host 0) (host_relies 0) 5 [] (one_row settled_row) (Forall_nil_2 _)
    (one_row_wf _ settled_row_ok) "capacity-0001" settled_row (one_row_row settled_row) eq_refl).
  left. reflexivity.
Defined.

Definition waiting_evidence : PodCapacityEvidence.
Proof. let e := eval vm_compute in (ls_evidence waiting_row) in match e with Some ?x => exact x end. Defined.

Lemma first_observations_final_witness :
  exists l' e', w_db (run_history (host 0) 5 [OpReconcile] (one_row waiting_row)) !! "capacity-0001" = Some l' /\
    ls_evidence l' = Some e' /\
    lc_get (ev_lifecycle e') F_worker_ready_at = lc_get (ev_lifecycle waiting_evidence) F_worker_ready_at.
Proof.
  destruct (first_observations_final (host 0) (host_relies 0) 5 [OpReconcile] (one_row waiting_row)
    ltac:(repeat constructor) (one_row_wf _ waiting_row_ok) "capacity-0001" waiting_row waiting_evidence
    (one_row_row waiting_row) eq_refl) as (l' & e' & H1 & H2 & _ & _ & H3 & _).
  exists l', e'. split; [exact H1|]. split; [exact H2|]. apply (H3 F_worker_ready_at). reflexivity.
Defined.

Definition acknowledged_handoff : CatalogArtifactHandoffEvidence.
Proof. let h := eval vm_compute in (ls_artifact_handoff acknowledged_row) in match h with Some ?x => exact x end. Defined.

Lemma handoff_final_witness :
  exists l' h', w_db (run_history (host 0) 5 [OpReconcile] (one_row acknowledged_row)) !! "capacity-0001" = Some l' /\
    ls_artifact_handoff l' = Some h' /\
    ah_acknowledgement_sha256 h' = Some (sha256_hex "acknowledgement").
Proof.
  destruct (handoff_final (host 0) (host_relies 0) 5 [OpReconcile] (one_row acknowledged_row)
    ltac:(repeat constructor) (one_row_wf _ acknowledged_row_ok) "capacity-0001" acknowledged_row
    acknowledged_handoff (one_row_row acknowledged_row) eq_refl) as (l' & h' & H1 & H2 & _ & _ & H3 & _).
  exists l', h'. split; [exact H1|]. split; [exact H2|].
  apply (H3 (sha256_hex "acknowledgement")). vm_compute. reflexivity.
Defined.

(** A call of a trace was made on some table. *)
Lemma called_on (c : call) (w : world) :
  In c (map fst (w_trace w)) -> exists db, In (c, db) (w_trace w).
Proof. intros Hin. apply in_map_iff in Hin as ([c' db] & <- & Hin). by exists db. Qed.

Ltac called := vm_compute; repeat (first [left; reflexivity | right]).

(** A training request that is no catalog attempt. *)
Definition plain_request : TrainingPodRequest := {|
  tr_cleanup_token := "training-0001"; tr_companion_id := "companion-1"; tr_profile_id := "training-h100";
  tr_source := CREATED; tr_resource_name := "kestrel-lora-1"; tr_provider_pod_id := None;
  tr_created_at := at_ 60; tr_readiness_deadline := at_ 700; tr_hard_deadline := at_ 3000;
  tr_root_cleanup_token := "training-0001"; tr_capacity_spec := None
|}.

Lemma empty_wf : world_wf empty.
Proof. split; [split; [split|]|constructor]; intros *; by rewrite ?lookup_empty. Qed.


Lemma acknowledge_follows_durable_intent_witness :
  exists h, ah_attempt_id h = "attempt-0001" /\
    ah_acknowledgement_payload_sha256 h = Some (sha256_hex (dumps (JObj acknowledgement))).
Proof.
  set (op := OpAcknowledge "capacity-0001" "owner-0001" "workload-0001" (Some acknowledgement)).
  destruct (called_on (CallAcknowledge "attempt-0001" acknowledgement)
    (run_history (host 1000) 5 [op] (one_row waiting_row))) as [db Hin]; [called|].
  destruct (acknowledge_follows_durable_intent (host 1000) (host_relies 1000) 5 [op] (one_row waiting_row)
    ltac:(repeat constructor) (one_row_wf _ waiting_row_ok) _ _ db Hin) as (_ & _ & h & _ & _ & H1 & _ & H2).
  exists h. split; [exact H1 | exact H2].
Defined.

(** The row between a confirmed termination and its billing. *)
Definition stopped_row : TrainingPodLease.
Proof.
  let r := eval vm_compute in (row_of (run_history (host 1000) 5 attempt_life empty)) in
  match r with Some ?l => exact l end.
Defined.

Lemma stopped_row_ok : row_ok stopped_row.
Proof. split; try done. by right. Qed.

Lemma revoke_follows_receipt_witness : exists row r, ls_billing_receipt row = Some r.
Proof.
  destruct (called_on (CallRevoke "attempt-0001") (run_history (host 0) 5 [OpReconcile] (one_row stopped_row)))
    as [db Hin]; [called|].
  destruct (revoke_follows_receipt (host 0) (host_relies 0) 5 [OpReconcile] (one_row stopped_row)
    ltac:(repeat constructor) (one_row_wf _ stopped_row_ok) _ db Hin) as (_ & row & _ & r & _ & _ & _ & H1).
  exists row, r. exact H1.
Defined.

Lemma teardown_of_held_capacity_witness : exists l, ls_provider_pod_id l = Some pod.
Proof.
  set (op := OpCancel "capacity-0001" "owner-0001" "workload-0001").
  destruct (called_on (CallTerminate pod) (run_history (host 1000) 5 [op] (one_row waiting_row)))
    as [db Hin]; [called|].
  destruct (teardown_of_held_capacity (host 1000) (host_relies 1000) 5 [op] (one_row waiting_row)
    ltac:(repeat constructor) (one_row_wf _ waiting_row_ok) _ db (or_introl Hin)) as (l & _ & _ & _ & H1 & _).
  exists l. exact H1.
Defined.
