(* ===== verification/RepositoryProperties.v ===== *)
(** The lease table's transactions: one winner per revision, idempotent reservation,
    and when the service's compare-and-set loops end. *)
From S2P Require Import Prelude PyStr Enums Errors PyDecimal PyTime Json ContractsBase.
From S2P Require Import Quote CatalogRequest Evidence Lease Row Repository World.
From S2P Require Import ServiceCore ServiceAcquire Evolves Logic SafetyCore SafetyAcquire Scenario ServiceProperties.
Import Scenario.Scenario.

#[local] Open Scope Z_scope.

(** ** Transactions *)

(** C8. Optimistic concurrency has one winner: a compare-and-set that succeeds
    writes that row alone, one revision up, and from then on every other one from the
    same lease fails with a conflict and leaves the table as it is. *)
Theorem cas_single_winner db t lease cs l db' :
  compare_and_set db t lease cs = (Ok l, db') ->
  db' !! ls_cleanup_token lease = Some l /\ ls_revision l = ls_revision lease + 1 /\
  (forall k, k <> ls_cleanup_token lease -> db' !! k = db !! k) /\
  (forall t2 cs2, compare_and_set db' t2 lease cs2 = (Exc TrainingPodConflictError, db')).
Proof.
  intros Hc. apply cas_cases in Hc as [[Hc _]|(row & Hrow & Hrev & _ & Hl & ->)]; [done|].
  symmetry in Hl. apply load_same in Hl as ->. rewrite lookup_insert_eq, updated_row_revision, Hrev.
  split; [done|]. split; [done|]. split; [intros k Hne; by rewrite lookup_insert_ne|].
  intros t2 cs2. unfold compare_and_set. rewrite lookup_insert_eq, updated_row_revision, Hrev.
  destruct (Z.eqb_spec (ls_revision lease + 1) (ls_revision lease)); [lia|done].
Qed.

(** Reserving is idempotent: the same request reserved again answers the same
    lease, says it was there, and changes nothing. *)
Theorem reserve_replay `{Digest} db request l inserted db' :
  reserve db request = (Ok (l, inserted), db') ->
  reserve db' request = (Ok (l, false), db').
Proof.
  unfold reserve. destruct (reserved_row request) as [fresh|] eqn:Ef; [|done].
  destruct (family_admits db request) eqn:Ea; [|done].
  destruct (db !! tr_cleanup_token request) as [row|] eqn:Er.
  - intros Heq. injection Heq as Hans <-. rewrite Ea, Er.
    destruct (load row); cbn in *; [|done]. destruct (require _ _); cbn in *; [|done]. by simplify_eq.
  - destruct (index_free db fresh); [|done]. intros Heq. injection Heq as Hans <-.
    assert (family_admits (<[tr_cleanup_token request := fresh]> db) request = true) as ->.
    { unfold family_admits in *. destruct (bool_decide_reflect (tr_root_cleanup_token request = tr_cleanup_token request));
        [done|]. cbn [orb] in *. rewrite lookup_insert_ne by congruence. done. }
    rewrite lookup_insert_eq. destruct (load fresh); cbn in *; [|done].
    destruct (require _ _); cbn in *; [|done]. by simplify_eq.
Qed.

(** A cleanup token is never taken over and a family being released admits no
    new attempt: a request that differs from the stored one, or whose family root is
    missing or already releasing, is refused and leaves the table alone. *)
Theorem reserve_refuses `{Digest} db request :
  (exists row, db !! tr_cleanup_token request = Some row /\
     ls_request_fingerprint row <> training_fingerprint request) \/
  (tr_root_cleanup_token request <> tr_cleanup_token request /\
   forall root, db !! tr_root_cleanup_token request = Some root -> ls_family_release_requested root = true) ->
  exists e, reserve db request = (Exc e, db).
Proof.
  intros Hc. unfold reserve. destruct (reserved_row request) as [fresh|e]; [|by exists e].
  destruct (family_admits db request) eqn:Ea; [|by eexists].
  destruct Hc as [(row & Hrow & Hne)|[Hroot Hrel]].
  - rewrite Hrow. destruct (load row) as [l|e] eqn:El; cbn; [|by eexists].
    apply load_same in El as ->. rewrite bool_decide_false_eq by done. by eexists.
  - unfold family_admits in Ea. rewrite bool_decide_false_eq in Ea by done. cbn [orb] in Ea.
    destruct (db !! tr_root_cleanup_token request) as [root|]; [|done].
    by rewrite (Hrel root eq_refl), andb_false_r in Ea.
Qed.

(** ** Compare-and-set loops *)

Definition keeps_pod (c : change) : bool := match c with SetProviderPodId _ => false | _ => true end.

Lemma keeps_pod_apply l cs :
  forallb keeps_pod cs = true -> ls_provider_pod_id (apply_changes l cs) = ls_provider_pod_id l.
Proof.
  revert l. induction cs as [|c cs IH]; intros l Hc; [done|]. cbn in Hc. split_bools.
  etransitivity; [by apply IH|]. by destruct c.
Qed.

(** An update of a live row that binds no Pod violates no unique index. *)
Lemma index_free_update db l cs t :
  db_ok db -> db !! ls_cleanup_token l = Some l -> is_terminal l = false -> forallb keeps_pod cs = true ->
  index_free db (updated_row l cs t) = true.
Proof.
  intros [_ Hu] Hl Ht Hk. apply index_free_spec. rewrite updated_row_token. intros k l' Hk' Hne.
  specialize (Hu _ _ _ _ Hl Hk' ltac:(congruence)). unfold clash in *.
  assert (Hpod : ls_provider_pod_id (updated_row l cs t) = ls_provider_pod_id l)
    by (unfold updated_row; cbn [bump_revision ls_provider_pod_id]; by apply (keeps_pod_apply l (SetUpdatedAt t :: cs))).
  destruct (updated_row_identity l cs t) as [_ <- _ _ _ _ <- _ _ _ _]. rewrite Hpod.
  unfold active in Hu |- *. rewrite Ht in Hu. cbn [negb andb] in Hu.
  destruct (is_terminal l'); [by rewrite andb_false_r|]. cbn [negb andb] in *. rewrite Hu. apply andb_false_r.
Qed.

Section Loops.
Context {dg : Digest} {nu : NameUuid}.
Context (H : Host) (T : nat).
Context (Hok : forall n db, db_ok db -> db_ok (h_interfere H n db)).
Context (Hquiet : forall n db, (T <= n)%nat -> h_interfere H n db = db).

(** One attempt of a loop takes one effect; on a quiet table it conflicts only when
    the caller's lease is stale. *)
Lemma repo_cas_step lease cs w r w' :
  db_ok (w_db w) -> repo_cas H lease cs w = (r, w') ->
  db_ok (w_db w') /\ w_tick w' = S (w_tick w) /\ r <> Exc OutOfFuel /\
  (r = Exc TrainingPodConflictError -> (T <= w_tick w)%nat ->
   w_db w !! ls_cleanup_token lease = Some lease -> is_terminal lease = false ->
   forallb keeps_pod cs = true -> False).
Proof.
  intros Hdb. unfold repo_cas, transact.
  destruct (compare_and_set _ _ _ _) as [r0 db'] eqn:Ec. intros [= <- <-]. cbn.
  pose proof (cas_db_ok _ _ _ _ _ _ (Hok _ _ Hdb) Ec) as Hdb'. split; [done|]. split; [done|].
  pose proof Ec as Hcase. apply cas_cases in Hcase as [[-> ->]|(row & Hrow & Hrev & Hf & -> & ->)].
  - split; [done|]. intros _ Hq Hl Ht Hk. rewrite Hquiet in Ec by done.
    unfold compare_and_set in Ec. rewrite Hl, Z.eqb_refl, index_free_update in Ec by done.
    injection Ec as Ec _. by apply load_errors in Ec.
  - destruct (load _) as [l|e] eqn:El; [done|]. apply load_errors in El.
    split; intros [= ->]; done.
Qed.

Lemma required_step token w r w' :
  db_ok (w_db w) -> required H token w = (r, w') ->
  db_ok (w_db w') /\ w_tick w' = S (w_tick w) /\ r <> Exc OutOfFuel /\
  (forall l, r = Ok l -> w_db w' !! ls_cleanup_token l = Some l).
Proof.
  intros Hdb. unfold required, repo_get, query, transact, bind, lift. intros Hr.
  pose proof (Hok (w_tick w) _ Hdb) as Hdb'. unfold db_get in Hr.
  destruct (h_interfere H (w_tick w) (w_db w) !! token) as [row|] eqn:Erow.
  - destruct (load row) as [l|e] eqn:El; cbn in Hr; injection Hr as <- <-; cbn; repeat (split; [done|]).
    + intros l' [= <-]. apply load_same in El as ->. by rewrite (db_keys _ Hdb' _ _ Erow).
    + split; [intros [= ->]; by apply load_errors in El|done].
  - cbn in Hr. injection Hr as <- <-. done.
Qed.

Lemma nonterminal_ends n lease cs w :
  db_ok (w_db w) -> forallb keeps_pod cs = true ->
  (T - w_tick w + 2 <= n)%nat \/
    ((T <= w_tick w)%nat /\ w_db w !! ls_cleanup_token lease = Some lease /\ (1 <= n)%nat) ->
  fst (transition_nonterminal H n lease cs w) <> Exc OutOfFuel.
Proof.
  intros Hdb Hk. revert lease w Hdb. induction n as [|n IH]; intros lease w Hdb Hn; [lia|].
  cbn [transition_nonterminal]. destruct (is_terminal lease) eqn:Et; [done|]. unfold catch.
  destruct (repo_cas H lease cs w) as [r w1] eqn:Ec.
  destruct (repo_cas_step _ _ _ _ _ Hdb Ec) as (Hdb1 & Ht1 & Hf & Hfresh).
  destruct r as [l|e]; [done|]. destruct (is_conflict_error e) eqn:Ee; [|cbn; congruence].
  assert (e = TrainingPodConflictError) as -> by by destruct e. unfold bind.
  destruct (required H (ls_cleanup_token lease) w1) as [r2 w2] eqn:Er.
  destruct (required_step _ _ _ _ Hdb1 Er) as (Hdb2 & Ht2 & Hf2 & Hrow).
  destruct r2 as [again|e]; [|cbn; congruence].
  destruct Hn as [Hn|(Hq & Hl & _)]; [|exfalso; by apply Hfresh].
  apply IH; [done|]. destruct (Nat.le_gt_cases T (w_tick w2)) as [Hq|Hq]; [right|left; lia].
  split; [done|]. split; [by apply Hrow|lia].
Qed.

End Loops.

(** A compare-and-set loop ends: when the other writers pause from effect [T] on,
    two attempts beyond that point are enough for a transition that binds no Pod,
    however stale the lease it starts from. *)
Theorem transition_loop_ends {dg : Digest} {nu : NameUuid} (H : Host) (T : nat) n lease cs w :
  (forall k db, db_ok db -> db_ok (h_interfere H k db)) ->
  (forall k db, (T <= k)%nat -> h_interfere H k db = db) ->
  db_ok (w_db w) -> forallb keeps_pod cs = true -> (T - w_tick w + 2 <= n)%nat ->
  fst (transition_nonterminal H n lease cs w) <> Exc OutOfFuel.
Proof. intros Hok Hq Hdb Hk Hn. by apply (nonterminal_ends H T Hok Hq); auto. Qed.

(** A transition that binds a Pod already held by another unreleased lease never
    ends, even with no other writer: the unique-index violation is reported as a
    concurrency conflict, re-read and tried again, for every number of attempts. *)
Theorem claimed_pod_livelock {dg : Digest} {nu : NameUuid} (H : Host) n lease cs u persisted w :
  (forall k db, h_interfere H k db = db) ->
  w_db w !! ls_cleanup_token lease = Some lease -> load lease = Ok lease ->
  is_terminal lease = false -> evidence_changes lease cs u = Ok persisted ->
  (forall t, index_free (w_db w) (updated_row lease persisted t) = false) ->
  fst (transition_with_evidence H n lease cs u None true w) = Exc OutOfFuel.
Proof.
  intros Hq Hl Hload Ht Hp Hx. revert w Hl Hx. induction n as [|n IH]; intros w Hl Hx;
    cbn [transition_with_evidence]; rewrite Ht; [done|].
  unfold bind at 1, lift at 1. rewrite Hp. unfold catch, repo_cas, transact.
  rewrite Hq. unfold compare_and_set. rewrite Hl, Z.eqb_refl, Hx.
  cbn [is_conflict_error andb]. unfold required, repo_get, query, transact, bind, lift.
  cbn [w_db w_tick]. rewrite Hq. unfold db_get. rewrite Hl, Hload. cbn [rbind of_option].
  apply IH; done.
Qed.

(** *** Witnesses *)

Definition one_db : database := {["capacity-0001" := waiting_row]}.
Definition winner : TrainingPodLease := updated_row waiting_row [SetStopAttempts 1] T0.

Lemma cas_single_winner_witness :
  compare_and_set (<["capacity-0001" := winner]> one_db) T0 waiting_row [SetStopAttempts 2] =
    (Exc TrainingPodConflictError, <["capacity-0001" := winner]> one_db).
Proof.
  destruct (cas_single_winner one_db T0 waiting_row [SetStopAttempts 1] winner (<["capacity-0001" := winner]> one_db))
    as (_ & _ & _ & Hlater).
  - unfold compare_and_set, one_db. change (ls_cleanup_token waiting_row) with "capacity-0001".
    rewrite lookup_singleton_eq. reflexivity.
  - apply Hlater.
Defined.

Definition plain_row : TrainingPodLease.
Proof. let r := eval vm_compute in (reserved_row plain_request) in match r with Ok ?l => exact l end. Defined.

Lemma reserve_replay_witness :
  reserve {["training-0001" := plain_row]} plain_request = (Ok (plain_row, false), {["training-0001" := plain_row]}).
Proof. apply (reserve_replay ∅ plain_request plain_row true). vm_compute. reflexivity. Defined.

Definition child_request : TrainingPodRequest := {|
  tr_cleanup_token := "training-0002"; tr_companion_id := "companion-1"; tr_profile_id := "training-h100";
  tr_source := CREATED; tr_resource_name := "kestrel-lora-2"; tr_provider_pod_id := None;
  tr_created_at := at_ 60; tr_readiness_deadline := at_ 700; tr_hard_deadline := at_ 3000;
  tr_root_cleanup_token := "training-0001"; tr_capacity_spec := None
|}.

Definition releasing_root : TrainingPodLease := apply_change plain_row (SetFamilyReleaseRequested true).

Lemma reserve_refuses_witness : exists e, reserve {["training-0001" := releasing_root]} child_request =
  (Exc e, {["training-0001" := releasing_root]}).
Proof.
  apply reserve_refuses. right. split; [intros E; discriminate E|].
  intros root Hroot. apply lookup_singleton_Some in Hroot as [_ <-]. reflexivity.
Defined.

Lemma transition_loop_ends_witness :
  fst (transition_nonterminal (host 0) 2 waiting_row [SetStopAttempts 1] (one_row waiting_row)) <> Exc OutOfFuel.
Proof.
  apply (transition_loop_ends (host 0) 0).
  - intros k db Hdb. exact Hdb.
  - intros k db _. reflexivity.
  - apply (wf_ok _ (ww_db _ (one_row_wf _ waiting_row_ok))).
  - reflexivity.
  - apply Nat.le_refl.
Defined.

(** A claim whose create call answered a Pod that [waiting_row] holds. *)
Definition claim_row : TrainingPodLease := apply_changes plain_row [SetState STARTING; SetCreationUncertain true].
Definition binding : list change := [SetProviderPodId (Some pod); SetOwnership OWNED; SetCreationUncertain false].
Definition contended : world :=
  {| w_db := {["training-0001" := claim_row; "capacity-0001" := waiting_row]}; w_tick := 0; w_trace := [] |}.

Lemma claimed_pod_livelock_witness :
  fst (transition_with_evidence (host 0) 1000 claim_row binding no_evidence None true contended) = Exc OutOfFuel.
Proof.
  apply (claimed_pod_livelock (host 0) 1000 claim_row binding no_evidence binding contended);
    [intros k db; reflexivity|reflexivity|reflexivity|reflexivity|reflexivity|intros t; reflexivity].
Defined.
