(* ===== verification/WorkflowProperties.v ===== *)
(** Single operations of the service: replayed acquisition, worker observations, the
    artifact handoff, and the isolation of failures in a reconciliation pass. *)
From stdpp Require Import sorting.
From S2P Require Import Prelude PyStr Enums Errors PyDecimal PyTime Json ContractsBase.
From S2P Require Import CodecBase Placement Provider Quote CatalogRequest Evidence Lease Row Repository World.
From S2P Require Import ServiceCore ServiceAcquire ServiceWorkload ServiceReconcile Evolves Logic SafetyCore SafetyAcquire.
From S2P Require Import SafetyReconcile Scenario ServiceProperties RepositoryProperties.
Import Scenario.Scenario.

#[local] Open Scope Z_scope.

(** ** Operations that make no outside call *)

Definition silent {A} (m : M A) : Prop := forall w, w_trace (snd (m w)) = w_trace w.

Lemma silent_ret {A} (a : A) : silent (ret a).
Proof. done. Qed.
Lemma silent_raise {A} e : silent (raise e : M A).
Proof. done. Qed.
Lemma silent_lift {A} (r : result A) : silent (lift r).
Proof. done. Qed.
Lemma silent_bind {A B} (m : M A) (f : A -> M B) : silent m -> (forall a, silent (f a)) -> silent (bind m f).
Proof.
  intros Hm Hf w. unfold bind. specialize (Hm w). destruct (m w) as [[a|e] w1]; cbn in *; [|done].
  by rewrite (Hf a w1).
Qed.

Section Silent.
Context {dg : Digest} {nu : NameUuid} (H : Host).

Lemma silent_now : silent (now H).
Proof. done. Qed.
Lemma silent_transact {A} (f : instant -> database -> result A * database) : silent (transact H f).
Proof. intros w. unfold transact. by destruct (f _ _). Qed.

Lemma silent_heartbeat token : silent (heartbeat H token).
Proof.
  unfold heartbeat, required. apply silent_bind.
  - apply silent_bind; [apply silent_transact|intros; apply silent_lift].
  - intros l. destruct (is_terminal l); [apply silent_raise|].
    apply silent_bind; [apply silent_now|intros; apply silent_transact].
Qed.

Lemma silent_replay existing request wait : silent (replay_catalog H existing request wait).
Proof.
  unfold replay_catalog. apply silent_bind; [apply silent_lift|]. intros s. apply silent_bind.
  - destruct (negb _); [apply silent_raise|]. apply silent_bind; [apply silent_lift|]. intros env.
    destruct (bool_decide _); [apply silent_ret|apply silent_raise].
  - intros []. destruct (_ || _); [apply silent_heartbeat|apply silent_raise].
Qed.

End Silent.

(** Acquiring a capacity identity that has a lease never creates anything: the
    request is answered or refused from the table, with no call to the provider, to
    the capability store or to the worker. *)
Theorem replay_makes_no_call {dg : Digest} {nu : NameUuid} (H : Host) fuel request wait w row :
  h_interfere H (w_tick w) (w_db w) !! rq_capacity_id request = Some row ->
  w_trace (snd (acquire_catalog_request H fuel request wait w)) = w_trace w.
Proof.
  intros Hrow. unfold acquire_catalog_request, bind at 1, lift at 1.
  destruct (require_workload_transport H); [|done]. unfold bind at 1, lift at 1.
  destruct (require _ _); [|done]. unfold bind at 1, repo_get, query, transact. unfold db_get.
  rewrite Hrow. destruct (load row) as [l|]; cbn [rbind]; [|done].
  by rewrite (silent_replay H l request wait).
Qed.

(** ** Observations *)

Lemma observation_workload l o submitted t cs lf t' :
  catalog_observation_changes l o submitted t = Ok (cs, lf) ->
  ls_workload_state (assigned l cs t') = ls_workload_state l \/
  (ls_workload_state (assigned l cs t') = wo_state o /\
   regresses (ls_workload_state l) (wo_state o) = false).
Proof.
  intros Hc. pose proof (oa_state _ _ _ (observation_changes_assign _ _ _ _ _ _ t' Hc)) as Hst.
  unfold catalog_observation_changes in Hc.
  apply rbind_ok in Hc as (s & _ & Hc). apply rbind_ok in Hc as ([] & _ & Hc).
  apply rbind_ok in Hc as (h' & _ & Hc).
  assert (Hproof : forall t', ls_workload_state (assigned l
    (if bool_decide (h' = ls_artifact_handoff l) then [] else [SetArtifactHandoff h']) t') = ls_workload_state l)
    by (intros; by destruct (bool_decide _)).
  destruct (negb _); [injection Hc as <- _; left; apply Hproof|].
  destruct (regresses _ _); [injection Hc as <- _; left; apply Hproof|].
  destruct Hst as [[-> _]|[-> _]]; auto.
Qed.

(** Polling never takes progress back: whatever the worker reports, in whatever
    order, the recorded phase of the workload does not move to an earlier one, and a
    recorded cancellation or failure is not replaced by a running or finished phase. *)
Theorem progress_never_regresses l o submitted t cs lf t' :
  catalog_observation_changes l o submitted t = Ok (cs, lf) ->
  let l' := assigned l cs t' in
  forall r', workload_rank (ls_workload_state l') = Some r' ->
  exists r, workload_rank (ls_workload_state l) = Some r /\ r <= r'.
Proof.
  intros Hc l' r' Hr'. destruct (observation_workload _ _ _ _ _ _ t' Hc) as [Heq|[Heq Hreg]];
    subst l'; rewrite Heq in Hr'; [by exists r'|].
  unfold regresses in Hreg. rewrite Hr' in Hreg. apply Z.ltb_ge in Hreg.
  destruct (workload_rank (ls_workload_state l)) as [r|]; [by exists r|]. cbn in Hreg.
  assert (r' <= 3) by (destruct (wo_state o); cbn in Hr'; simplify_eq; lia). lia.
Qed.

(** A remote acknowledgement is believed only for the persisted intent: the
    worker must report the digest the host recorded before it was told anything, and
    the result and receipt digests it first reported. *)
Theorem acknowledgement_matches_intent request o handoff t h' :
  observed_handoff request o handoff t = Ok h' -> wo_state o = W_ACKNOWLEDGED ->
  exists h x, handoff = Some h /\ h' = Some x /\
    is_some (ah_acknowledgement_sha256 h) = true /\
    ah_acknowledgement_sha256 h = wo_acknowledgement_sha256 o /\
    wo_result_sha256 o = Some (ah_result_sha256 h) /\ wo_receipt_sha256 o = Some (ah_receipt_sha256 h) /\
    is_some (ah_remote_ack_observed_at x) = true.
Proof.
  unfold observed_handoff, mk_handoff. intros Ho Hs. rewrite Hs in Ho. cbn [handoff_state] in Ho.
  destruct handoff as [h|]; cbn in Ho; res_inv;
    rewrite (bool_decide_eq_true_2 (W_ACKNOWLEDGED = W_ACKNOWLEDGED)) in Ho by done; res_inv; [|done].
  split_bools. eexists _, _. split; [done|]. split; [done|].
  repeat match goal with E : of_option _ _ = Ok _ |- _ => apply of_option_ok in E end.
  cbn. split_and!; try congruence. by destruct (ah_remote_ack_observed_at h).
Qed.

(** ** The reconciliation pass *)

Section Isolation.
Context {dg : Digest} {nu : NameUuid}.
Context (H : Host) (HH : rely H) (fuel : nat).

(** A table with a row that does not read. *)
Definition unreadable (db : database) : Prop :=
  exists k row e, db !! k = Some row /\ load row = Exc e.

(** A computation that leaves a well-formed world and, when it fails, fails with an
    error [P] allows or on a row it cannot read. *)
Definition fails_only {A} (P : exn -> bool) (m : M A) : Prop :=
  forall w, world_wf w ->
    world_wf (snd (m w)) /\ forall e, fst (m w) = Exc e -> P e = true \/ unreadable (w_db (snd (m w))).

Lemma spec_wf {A} (m : M A) R Q w : spec [] m R Q -> world_wf w -> world_wf (snd (m w)).
Proof. intros Hm Hw. specialize (Hm w Hw (Forall_nil_2 _)). destruct (m w). tauto. Qed.

Lemma fails_bind {A B} P (m : M A) (f : A -> M B) :
  fails_only P m -> (forall a, fails_only P (f a)) -> fails_only P (bind m f).
Proof.
  intros Hm Hf w Hw. unfold bind. destruct (Hm w Hw) as [Hw1 He1]. destruct (m w) as [[a|e] w1]; [|split; [done|]].
  - by apply Hf.
  - cbn. intros e' [= <-]. by apply He1.
Qed.

Lemma fails_ret {A} P (a : A) : fails_only P (ret a).
Proof. by intros w Hw. Qed.

Lemma query_fails {A} P (f : database -> result A) :
  (forall db e, f db = Exc e -> unreadable db) -> fails_only P (query H f).
Proof.
  intros Hf w [Hdb Htr]. unfold query, transact. pose proof (rely_wf H HH (w_tick w) _ Hdb) as Hdb'.
  split; [by split|]. cbn. intros e He. right. by eapply Hf.
Qed.

Lemma select_fails p db e : select db p = Exc e -> unreadable db.
Proof.
  unfold select. set (rows := merge_sort _ _).
  assert (Hin : Forall (fun l => exists k, db !! k = Some l) rows).
  { subst rows. rewrite List.Forall_forall. intros l Hl. apply list_elem_of_In in Hl.
    rewrite merge_sort_Permutation in Hl. apply list_elem_of_filter in Hl as [_ Hl].
    apply list_elem_of_In, in_map_iff in Hl as ([k l'] & <- & Hl).
    apply list_elem_of_In, elem_of_map_to_list in Hl. by exists k. }
  induction Hin as [|l ls [k Hl] Hls IH]; cbn; [done|].
  destruct (load l) as [l'|e'] eqn:El; [|intros _; by exists k, l, e'].
  cbn. destruct (rmap load ls) as [ls'|e']; [done|]. exact IH.
Qed.

Lemma get_fails P token : fails_only P (repo_get H token).
Proof.
  apply query_fails. intros db e. unfold db_get. destruct (db !! token) as [row|] eqn:E; [|done].
  destruct (load row) as [l|e'] eqn:El; [done|]. intros _. by exists token, row, e'.
Qed.

(** Recording a failure on its lease fails only on a row that does not read. *)
Lemma record_reconcile_error_fails P token e : fails_only P (record_reconcile_error H token e).
Proof.
  unfold record_reconcile_error. apply fails_bind; [apply get_fails|]. intros [lease|]; [|apply fails_ret].
  destruct (_ && _); [apply fails_ret|]. intros w Hw. unfold catch, bind, repo_cas, transact.
  set (cs := [_]). destruct (compare_and_set _ _ _ _) as [r db'] eqn:Ec.
  pose proof (rely_wf H HH (w_tick w) _ (ww_db _ Hw)) as Hdb.
  pose proof (cas_db_ok _ _ _ _ _ _ (wf_ok _ Hdb) Ec) as Hok'.
  apply cas_cases in Ec as [[-> ->]|(row & Hrow & _ & _ & -> & ->)].
  - cbn [is_conflict_error]. apply get_fails. split; [done|apply Hw].
  - assert (Hro : row_ok (updated_row row cs (h_wall_clock H (w_tick w)))).
    { pose proof (wf_rows _ Hdb _ _ Hrow) as Hok.
      assert (He : evolves row (updated_row row cs (h_wall_clock H (w_tick w)))); [|by apply (ev_row _ _ He)].
      apply evolves_plain; [reflexivity|states]. }
    assert (Hwf : world_wf {| w_db := <[ls_cleanup_token lease := updated_row row cs (h_wall_clock H (w_tick w))]>
        (h_interfere H (w_tick w) (w_db w)); w_tick := S (w_tick w); w_trace := w_trace w |}).
    { split; [split; [done|]|apply Hw]. intros k l Hk.
      cbn in Hk. destruct (decide (ls_cleanup_token lease = k)) as [<-|Hne].
      + rewrite lookup_insert_eq in Hk. by simplify_eq.
      + rewrite lookup_insert_ne in Hk by done. by eapply wf_rows. }
    destruct (load _) as [l|e'] eqn:El; [by split|]. rewrite (reader_no_conflict _ (load_errors _ _ El)).
    split; [done|]. intros e0 _. right. eexists _, _, _. split; [apply lookup_insert_eq|exact El].
Qed.

(** The error a lease's own step ends with is recorded or leaves the pass as it is. *)
Definition not_manager (e : exn) : bool := negb (is_manager_error e).

Lemma reconcile_each_isolates step leases :
  (forall K token, spec K (step token) none (fun _ => True)) ->
  fails_only not_manager (reconcile_each H step leases).
Proof.
  intros Hs. induction leases as [|l rest IH]; cbn [reconcile_each]; [apply fails_ret|].
  apply fails_bind; [|intros here; apply fails_bind; [exact IH|intros; apply fails_ret]].
  unfold reconcile_step. apply fails_bind; [|intros; apply fails_ret]. intros w Hw. unfold catch.
  pose proof (spec_wf _ _ _ w (Hs [] (ls_cleanup_token l)) Hw) as Hw1.
  destruct (step (ls_cleanup_token l) w) as [[o|e] w1]; [done|]. cbn [snd] in Hw1.
  destruct (_ || _) eqn:Ee; [by apply record_reconcile_error_fails|]. split; [done|].
  cbn. intros e' [= <-]. left. unfold not_manager. by apply orb_false_elim in Ee as [_ ->].
Qed.

Lemma reconcile_isolates : fails_only not_manager (reconcile H fuel).
Proof.
  unfold reconcile. apply fails_bind; [apply query_fails; intros; by eapply select_fails|]. intros roots.
  apply fails_bind; [apply reconcile_each_isolates; intros; by eapply spec_some, spec_release|].
  intros released. apply fails_bind; [apply query_fails; intros; by eapply select_fails|]. intros initial.
  apply fails_bind; [apply reconcile_each_isolates; intros; by apply spec_reconcile_one|].
  intros; apply fails_ret.
Qed.

(** *** The pass, lease by lease *)

(** The table the next transaction finds. *)
Definition found_db (w : world) : database := h_interfere H (w_tick w) (w_db w).

(** What an error [e] of the lease [token] leaves: it is on the row, unless the row is
    gone or has nothing left to settle, or another process wrote the row in between. *)
Inductive noted (token : string) (e : exn) (w1 : world) : option TrainingPodLease -> world -> Prop :=
  | noted_on row w2 :
      w_db w2 !! token = Some row -> ls_last_provider_error row = Some (sanitize_training_error e) ->
      noted token e w1 (Some row) w2
  | noted_gone w2 : found_db w1 !! token = None -> noted token e w1 None w2
  | noted_done row w2 :
      found_db w1 !! token = Some row -> is_terminal row = true -> billing_open row = false ->
      noted token e w1 (Some row) w2
  | noted_raced row o w2 :
      found_db w1 !! token = Some row ->
      (forall row2, h_interfere H (S (w_tick w1)) (found_db w1) !! token = Some row2 ->
         ls_revision row2 <> ls_revision row) ->
      noted token e w1 o w2.

Definition shown (o : option TrainingPodLease) : list TrainingPodLease := match o with Some l => [l] | None => [] end.

(** [step] run for one lease after the other, each on the world the one before it left: a
    lease whose step ends with a manager error has it noted, and the next one is
    reconciled all the same. *)
Inductive pass (step : string -> M (option TrainingPodLease))
  : world -> list string -> list TrainingPodLease -> world -> Prop :=
  | pass_end w : pass step w [] [] w
  | pass_reconciled w token tokens o w1 ls w2 :
      step token w = (Ok o, w1) -> pass step w1 tokens ls w2 ->
      pass step w (token :: tokens) (shown o ++ ls)%list w2
  | pass_noted w token tokens e w1 o w2 ls w3 :
      step token w = (Exc e, w1) -> is_manager_error e = true ->
      record_reconcile_error H token e w1 = (Ok o, w2) -> noted token e w1 o w2 ->
      pass step w2 tokens ls w3 -> pass step w (token :: tokens) (shown o ++ ls)%list w3.

(** Noting an error violates no unique index. *)
Lemma note_index_free db l v t :
  db_ok db -> db !! ls_cleanup_token l = Some l ->
  index_free db (updated_row l [SetLastProviderError v] t) = true.
Proof.
  intros Hdb Hl. destruct (is_terminal l) eqn:Et; [|by apply index_free_update].
  apply index_free_spec. intros k l' _ _. unfold clash. replace (active (updated_row _ _ _)) with (active l) by done.
  by unfold active; rewrite Et.
Qed.

Lemma record_notes token e w1 o w2 :
  world_wf w1 -> record_reconcile_error H token e w1 = (Ok o, w2) -> noted token e w1 o w2.
Proof.
  intros Hw. pose proof (rely_wf H HH (w_tick w1) _ (ww_db _ Hw)) as Hdb. fold (found_db w1) in Hdb.
  unfold record_reconcile_error, bind, repo_get, query, transact. fold (found_db w1). unfold db_get.
  destruct (found_db w1 !! token) as [row|] eqn:Erow; [|intros [= <- <-]; by apply noted_gone].
  pose proof (db_keys _ (wf_ok _ Hdb) _ _ Erow) as Htok.
  destruct (load row) as [l|] eqn:El; cbn [rbind]; [|done]. apply load_same in El as ->.
  destruct (is_terminal row && negb (billing_open row)) eqn:Ed.
  { apply andb_prop in Ed as [Et Eb%negb_true_iff]. intros [= <- <-]. by eapply noted_done. }
  unfold catch, repo_cas, transact. cbn [w_db w_tick w_trace].
  pose proof (rely_wf H HH (S (w_tick w1)) _ Hdb) as Hdb2. set (db2 := h_interfere H _ (found_db w1)) in *.
  unfold compare_and_set. rewrite Htok.
  destruct (db2 !! token) as [row2|] eqn:E2; [destruct (Z.eqb_spec (ls_revision row2) (ls_revision row)) as [Hr|Hr]|].
  - rewrite note_index_free; [|apply Hdb2|by rewrite (db_keys _ (wf_ok _ Hdb2) _ _ E2)].
    destruct (load (updated_row _ _ _)) as [l|e2] eqn:El.
    + apply load_same in El as ->. intros [= <- <-]. apply noted_on; [apply lookup_insert_eq|done].
    + rewrite (reader_no_conflict _ (load_errors _ _ El)). done.
  - intros _. apply (noted_raced _ _ _ row); [done|]. intros row3 H3. fold db2 in H3. congruence.
  - intros _. apply (noted_raced _ _ _ row); [done|]. intros row3 H3. fold db2 in H3. congruence.
Qed.

Lemma reconcile_each_passes step leases w ls w' :
  (forall K token, spec K (step token) none (fun _ => True)) -> world_wf w ->
  reconcile_each H step leases w = (Ok ls, w') -> pass step w (map ls_cleanup_token leases) ls w'.
Proof.
  intros Hs. revert w ls. induction leases as [|l leases IH]; intros w ls Hw; cbn [reconcile_each map].
  { intros [= <- <-]. constructor. }
  set (token := ls_cleanup_token l). unfold bind at 1, reconcile_step, bind at 1, catch.
  pose proof (spec_wf _ _ _ w (Hs [] token) Hw) as Hw1.
  destruct (step token w) as [[o|e] w1] eqn:E1; cbn [snd] in Hw1.
  - cbn [ret]. unfold bind. destruct (reconcile_each H step leases w1) as [[rest|] w2] eqn:E2; [|done].
    intros [= <- <-]. eapply pass_reconciled; [exact E1|by eapply IH].
  - destruct (_ || _) eqn:Em; [|done].
    assert (is_manager_error e = true) as Hm
      by (apply orb_prop in Em as [Em|Em]; [by apply lifecycle_is_manager|done]).
    pose proof (spec_wf _ _ _ w1 (spec_record_reconcile_error H HH [] token e) Hw1) as Hw2.
    destruct (record_reconcile_error H token e w1) as [[o|] w2] eqn:E2; [|done]. cbn [snd] in Hw2.
    cbn [ret]. unfold bind. destruct (reconcile_each H step leases w2) as [[rest|] w3] eqn:E3; [|done].
    intros [= <- <-]. eapply pass_noted; [exact E1|done|exact E2|by eapply record_notes|by eapply IH].
Qed.

(** The world after a reading transaction. *)
Definition read_world (w : world) : world :=
  {| w_db := found_db w; w_tick := S (w_tick w); w_trace := w_trace w |}.

Lemma bind_answers {A B} (m : M A) (f : A -> M B) w b w' :
  bind m f w = (Ok b, w') -> exists a w1, m w = (Ok a, w1) /\ f a w1 = (Ok b, w').
Proof. unfold bind. destruct (m w) as [[a|e] w1]; [eauto|done]. Qed.

Lemma query_answers {A} (f : database -> result A) w a w' :
  query H f w = (Ok a, w') -> f (found_db w) = Ok a /\ w' = read_world w.
Proof. unfold query, transact. cbn. fold (found_db w). by intros [= -> <-]. Qed.

Lemma read_world_wf w : world_wf w -> world_wf (read_world w).
Proof. intros [Hdb Htr]. split; [by apply rely_wf|done]. Qed.

Lemma listed_in db p ls k row :
  db_wf db -> select db p = Ok ls -> db !! k = Some row -> p row = true -> In k (map ls_cleanup_token ls).
Proof.
  intros Hdb Hs Hk Hp. rewrite <- (db_keys _ (wf_ok _ Hdb) _ _ Hk). by eapply in_map, select_complete.
Qed.

End Isolation.

(** C9. A reconciliation pass isolates failures. A pass that answers finished, one after
    the other, every family release that was incomplete when it listed them, and then
    reconciled every lease that was not released or whose billing was open when it listed
    those, each lease on the world the one before left: a lease whose own step ends with
    a manager error has it written on its row (unless the row is gone, has nothing left
    to settle or is being written by another process), and the pass goes on to the next
    lease. A manager error escapes a pass only by reading a row of the table that does
    not read. *)
Theorem reconcile_isolates_failures {dg : Digest} {nu : NameUuid} (H : Host) fuel w :
  rely H -> world_wf w ->
  match reconcile H fuel w with
  | (Ok ls, w') => exists roots released w1 tokens settled,
      (forall k row, found_db H w !! k = Some row -> ls_cleanup_token row = ls_root_cleanup_token row ->
         ls_family_release_requested row = true -> ls_family_release_complete row = false -> In k roots) /\
      pass H (fun token => let* l := release H fuel token "restart family release" in ret (Some l))
        (read_world H w) roots released w1 /\
      (forall k row, found_db H w1 !! k = Some row -> is_terminal row = false \/ billing_open row = true ->
         In k tokens) /\
      pass H (reconcile_one H fuel) (read_world H w1) tokens settled w' /\
      ls = (released ++ settled)%list
  | (Exc e, w') => is_manager_error e = true -> unreadable (w_db w')
  end.
Proof.
  intros HH Hw. destruct (reconcile_isolates H HH fuel w Hw) as [_ Hf].
  destruct (reconcile H fuel w) as [[ls|e] w'] eqn:Er; cbn [fst snd] in Hf.
  2: { intros Hm. destruct (Hf e eq_refl) as [Hn|Hu]; [|done]. unfold not_manager in Hn. by rewrite Hm in Hn. }
  pose proof (read_world_wf H HH w Hw) as Hw0. unfold reconcile in Er.
  apply bind_answers in Er as (roots & ? & [E1 ->]%query_answers & Er).
  apply bind_answers in Er as (released & w1 & E2 & Er).
  apply bind_answers in Er as (initial & ? & [E3 ->]%query_answers & Er).
  apply bind_answers in Er as (settled & w2 & E4 & Er). injection Er as <- <-.
  set (step := fun token => bind _ _) in E2.
  assert (Hstep : forall K token, spec K (step token) none (fun _ => True)) by (intros; by eapply spec_some, spec_release).
  assert (Hw1 : world_wf w1).
  { replace w1 with (snd (reconcile_each H step roots (read_world H w))) by by rewrite E2.
    eapply spec_wf; [by apply spec_reconcile_each|done]. }
  exists (map ls_cleanup_token roots), released, w1, (map ls_cleanup_token initial), settled. split_and!; try done.
  - intros k row Hk Hroot Hreq Hcomp. eapply listed_in; [apply Hw0|exact E1|exact Hk|].
    cbn. rewrite bool_decide_eq_true_2, Hreq, Hcomp by done. done.
  - by eapply reconcile_each_passes.
  - intros k row Hk Hopen. eapply listed_in; [by apply (read_world_wf H HH w1)|exact E3|exact Hk|].
    cbn. destruct Hopen as [->| ->]; [done|apply orb_true_r].
  - eapply reconcile_each_passes; [done|intros; by apply spec_reconcile_one|by apply read_world_wf|exact E4].
Qed.

(** *** Witnesses *)

Lemma replay_makes_no_call_witness :
  w_trace (snd (acquire_catalog_request (host 1000) 5 request true (one_row waiting_row))) = [].
Proof.
  apply (replay_makes_no_call (host 1000) 5 request true (one_row waiting_row) waiting_row).
  exact (one_row_row waiting_row).
Defined.

(** A stale answer of the worker after it asked for the acknowledgement. *)
Definition stale_changes : list change * lifecycle_values.
Proof.
  let r := eval vm_compute in (catalog_observation_changes waiting_row (report W_RUNNING) false (at_ 300)) in
  match r with Ok ?x => exact x end.
Defined.

Lemma progress_never_regresses_witness :
  exists r, workload_rank (ls_workload_state waiting_row) = Some r /\
    r <= match workload_rank (ls_workload_state (assigned waiting_row (fst stale_changes) T0)) with
         | Some r' => r' | None => 0 end.
Proof.
  apply (progress_never_regresses waiting_row (report W_RUNNING) false (at_ 300) (fst stale_changes)
    (snd stale_changes) T0); vm_compute; reflexivity.
Defined.

Definition proven_handoff : option CatalogArtifactHandoffEvidence.
Proof.
  let r := eval vm_compute in
    (observed_handoff request (report W_ACKNOWLEDGED) (Some acknowledged_handoff) (at_ 300)) in
  match r with Ok ?x => exact x end.
Defined.

Lemma acknowledgement_matches_intent_witness :
  exists h, Some acknowledged_handoff = Some h /\
    ah_acknowledgement_sha256 h = Some (sha256_hex "acknowledgement").
Proof.
  destruct (acknowledgement_matches_intent request (report W_ACKNOWLEDGED) (Some acknowledged_handoff) (at_ 300)
    proven_handoff) as (h & x & H1 & _ & _ & H2 & _); [vm_compute; reflexivity|reflexivity|].
  exists h. split; [exact H1 | exact H2].
Defined.

(** ** A row that does not read *)

(** The attempt, its allow-list with an empty member before the GPU it is placed on:
    the contracts refuse an empty member only when they read one. *)
Definition blank_constraints : PodCapacityConstraints := {|
  cc_min_vram_gb := 24; cc_gpu_count := 1; cc_cloud := SECURE; cc_min_cuda_version := None;
  cc_allowed_gpu_ids := [EmptyString; "NVIDIA L4"]; cc_allowed_data_center_ids := [];
  cc_max_hourly_rate_usd := None; cc_benchmark_id := "bench-1"; cc_allowed_products := [POD]
|}.

Definition blank_quote_request : PodCapacityQuoteRequest := {|
  qr_constraints := blank_constraints; qr_workload_kind := qr_workload_kind quote_request;
  qr_parameters_sha256 := qr_parameters_sha256 quote_request;
  qr_estimated_startup_seconds := qr_estimated_startup_seconds quote_request;
  qr_estimated_execution_seconds := qr_estimated_execution_seconds quote_request;
  qr_maximum_runtime_seconds := qr_maximum_runtime_seconds quote_request;
  qr_quote_ttl_seconds := qr_quote_ttl_seconds quote_request
|}.

Definition blank_quote : PodCapacityQuote.
Proof. let r := eval vm_compute in (Provider.quote account blank_quote_request (at_ 50)) in match r with Ok ?q => exact q end. Defined.

Definition blank_request : CatalogPodCapacityRequest := {|
  rq_capacity_id := rq_capacity_id request; rq_cleanup_family_id := rq_cleanup_family_id request;
  rq_owner_id := rq_owner_id request; rq_workload_id := rq_workload_id request;
  rq_attempt_id := rq_attempt_id request; rq_idempotency_key := rq_idempotency_key request;
  rq_request_sha256 := rq_request_sha256 request; rq_workload_kind := rq_workload_kind request;
  rq_parameters_sha256 := rq_parameters_sha256 request; rq_image_reference := rq_image_reference request;
  rq_profile_id := rq_profile_id request; rq_quote := blank_quote;
  rq_accepted_max_cost_usd := rq_accepted_max_cost_usd request; rq_created_at := rq_created_at request;
  rq_readiness_deadline := rq_readiness_deadline request; rq_hard_deadline := rq_hard_deadline request;
  rq_bearer_expires_at := rq_bearer_expires_at request;
  rq_idle_timeout_seconds := rq_idle_timeout_seconds request;
  rq_cleanup_grace_seconds := rq_cleanup_grace_seconds request;
  rq_attempt_environment := rq_attempt_environment request;
  rq_artifact_handoff_protocol_version := rq_artifact_handoff_protocol_version request
|}.

(** The world its acquisition leaves. *)
Definition blanked : world := snd (acquire_catalog_request (host 1000) 5 blank_request true empty).

(** A valid request can leave a row nothing reads: [reserve] commits before it
    reads back, so the acquisition fails and the row stays, and from then on every
    reconciliation pass fails on it before it has settled a single lease. *)
Theorem blank_member_stops_reconciliation :
  check_catalog_request blank_request = Ok tt /\
  fst (acquire_catalog_request (host 1000) 5 blank_request true empty) = Exc RunPodManagerError /\
  ls_state <$> row_of blanked = Some REQUESTED /\
  fst (reconcile (host 0) 5 blanked) = Exc RunPodManagerError.
Proof. split_and!; vm_compute; reflexivity. Qed.

Definition blank_row : TrainingPodLease.
Proof. let r := eval vm_compute in (row_of blanked) in match r with Some ?l => exact l end. Defined.

Lemma blank_row_ok : row_ok blank_row.
Proof. split; try done. by right. Qed.

(** The pass that fails on it. *)
Lemma blank_row_unreadable : unreadable (w_db (snd (reconcile (host 0) 5 (one_row blank_row)))).
Proof.
  pose proof (reconcile_isolates (host 0) (host_relies 0) 5 (one_row blank_row) (one_row_wf _ blank_row_ok)) as [_ Hf].
  destruct (Hf RunPodManagerError) as [Hn|Hu]; [vm_compute; reflexivity|discriminate Hn|exact Hu].
Qed.

Lemma reconcile_isolates_failures_witness :
  match reconcile (host 0) 5 (one_row waiting_row) with
  | (Ok ls, w') => exists released w1 tokens settled,
      pass (host 0) (reconcile_one (host 0) 5) (read_world (host 0) w1) tokens settled w' /\
      ls = (released ++ settled)%list
  | (Exc e, w') => False
  end.
Proof.
  pose proof (reconcile_isolates_failures (host 0) 5 (one_row waiting_row) (host_relies 0)
    (one_row_wf _ waiting_row_ok)) as Hi.
  destruct (reconcile (host 0) 5 (one_row waiting_row)) as [[ls|e] w'] eqn:E.
  - destruct Hi as (roots & released & w1 & tokens & settled & _ & _ & _ & Hp & Hls).
    exists released, w1, tokens, settled. split; [exact Hp|exact Hls].
  - apply (f_equal fst) in E. vm_compute in E. discriminate E.
Defined.
