(* ===== verification/Custody.v ===== *)
(** An abstract machine for the custody of Pod leases, and the refinement: every
    history of the service is a run of the machine.

    The machine knows, of each lease, the name of its Pod, whether it is a catalog
    attempt, how far the handoff of its artifact went, and whether it is billed and
    released. Its steps are the commitments of the service: nothing is taken back, an
    attempt is released only when billed, and a worker's copy is destroyed only after
    the host's intent is on record. *)
From stdpp Require Import gmap relations.
From S2P Require Import Prelude PyStr Enums Errors PyDecimal PyTime Json ContractsBase Quote CatalogRequest Evidence Lease Row Repository World ServiceCore ServiceReconcile Evolves Logic SafetyReconcile ServiceAcquire ServiceWorkload SafetyCore SafetyAcquire Scenario ServiceProperties.

#[local] Open Scope Z_scope.

Module Custody.

(** ** The handoff of an artifact *)

Record digests := {
  dg_attempt : string;
  dg_request : string;
  dg_result : string;
  dg_receipt : string
}.

(** [Intended] to [Confirmed] carry the digests of the acknowledgement and of its
    payload. *)
Inductive handoff_stage :=
  | NoResult
  | Held (d : digests)
  | Intended (d : digests) (acknowledgement payload : string)
  | Acknowledged (d : digests) (acknowledgement payload : string)
  | Confirmed (d : digests) (acknowledgement payload : string).

Inductive stage_step : handoff_stage -> handoff_stage -> Prop :=
  | stage_observe d : stage_step NoResult (Held d)
  | stage_intend d a p : stage_step (Held d) (Intended d a p)
  | stage_acknowledge d a p : stage_step (Intended d a p) (Acknowledged d a p)
  | stage_confirm d a p : stage_step (Acknowledged d a p) (Confirmed d a p).

(** ** Leases *)

Record custody := {
  cu_name : string;
  cu_attempt : option string;
  cu_stage : handoff_stage;
  cu_billed : bool;
  cu_released : bool
}.

Definition set_stage (c : custody) (s : handoff_stage) : custody :=
  {| cu_name := cu_name c; cu_attempt := cu_attempt c; cu_stage := s;
     cu_billed := cu_billed c; cu_released := cu_released c |}.
Definition set_billed (c : custody) : custody :=
  {| cu_name := cu_name c; cu_attempt := cu_attempt c; cu_stage := cu_stage c;
     cu_billed := true; cu_released := cu_released c |}.
Definition set_released (c : custody) : custody :=
  {| cu_name := cu_name c; cu_attempt := cu_attempt c; cu_stage := cu_stage c;
     cu_billed := cu_billed c; cu_released := true |}.

Inductive cell_step : option custody -> option custody -> Prop :=
  | cell_reserve name attempt :
      cell_step None (Some {| cu_name := name; cu_attempt := attempt; cu_stage := NoResult;
                              cu_billed := false; cu_released := false |})
  | cell_handoff c s : stage_step (cu_stage c) s -> cell_step (Some c) (Some (set_stage c s))
  | cell_bill c : cu_billed c = false -> cell_step (Some c) (Some (set_billed c))
  | cell_release c :
      cu_released c = false -> (is_some (cu_attempt c) = true -> cu_billed c = true) ->
      cell_step (Some c) (Some (set_released c)).

(** ** Ledgers *)

Abbreviation ledger := (gmap string custody).

Inductive ledger_step : ledger -> ledger -> Prop :=
  | step_at m k c : cell_step (m !! k) (Some c) -> ledger_step m (<[k := c]> m).

(** The calls the machine allows on a ledger: an attempt's credential is revoked when it
    is billed, and its worker is told to destroy the result when the intent for that very
    payload is on record. *)
Definition call_enabled `{Digest} (c : call) (m : ledger) : Prop :=
  match c with
  | CallRevoke attempt =>
      exists k x, m !! k = Some x /\ cu_attempt x = Some attempt /\ cu_billed x = true
  | CallAcknowledge attempt payload =>
      exists k x d a, m !! k = Some x /\ dg_attempt d = attempt /\
        get_field payload "acknowledgement_sha256" = JStr a /\
        rtc stage_step (Intended d a (sha256_hex (dumps (JObj payload)))) (cu_stage x)
  | _ => True
  end.

(** ** The machine's own invariant *)

Definition cell_ok (c : custody) : Prop :=
  cu_released c = true -> is_some (cu_attempt c) = true -> cu_billed c = true.

Lemma cell_step_ok c c' : cell_step (Some c) (Some c') -> cell_ok c -> cell_ok c'.
Proof. unfold cell_ok. inversion 1; subst; cbn; naive_solver. Qed.

Lemma ledger_step_ok m m' :
  ledger_step m m' -> (forall k c, m !! k = Some c -> cell_ok c) -> forall k c, m' !! k = Some c -> cell_ok c.
Proof.
  intros [m0 k0 c0 Hc] Hm k c. destruct (decide (k0 = k)) as [->|Hne].
  - rewrite lookup_insert_eq. intros [= <-]. destruct (m0 !! k) as [x|] eqn:Hx.
    + eapply cell_step_ok; [exact Hc|]. by eapply Hm.
    + inversion Hc; subst. by intros [=].
  - rewrite lookup_insert_ne by done. apply Hm.
Qed.

(** ** Runs cell by cell *)

Lemma cell_run_some o o' : rtc cell_step o o' -> is_some o = true -> is_some o' = true.
Proof. induction 1 as [|? ? ? Hs _ IH]; [done|]. intros _. apply IH. by inversion Hs. Qed.

(** A run of one cell is a run of the ledger. *)
Lemma cell_run_ledger k o o' :
  rtc cell_step o o' -> forall m : ledger, m !! k = o -> rtc ledger_step m (partial_alter (fun _ => o') k m).
Proof.
  induction 1 as [o|o o1 o2 Hs _ IH]; intros m Hm.
  - subst o. by rewrite partial_alter_self.
  - assert (exists c, o1 = Some c) as [c ->] by (inversion Hs; eauto). subst o.
    eapply rtc_l; [exact (step_at m k c Hs)|].
    specialize (IH (<[k := c]> m) (lookup_insert_eq _ _ _)).
    replace (partial_alter (fun _ => o2) k m) with (partial_alter (fun _ => o2) k (<[k := c]> m)); [done|].
    apply map_eq. intros j. destruct (decide (j = k)) as [->|Hne].
    + by rewrite !lookup_partial_alter_eq.
    + by rewrite !lookup_partial_alter_ne, lookup_insert_ne by done.
Qed.

(** Runs of all cells are a run of the ledger. *)
Lemma cells_run_ledger (m m' : ledger) :
  (forall k, rtc cell_step (m !! k) (m' !! k)) -> rtc ledger_step m m'.
Proof.
  intros Hall.
  assert (Hl : forall (l : list string) (m : ledger), (forall k, rtc cell_step (m !! k) (m' !! k)) ->
    (forall k, k ∉ l -> m !! k = m' !! k) -> rtc ledger_step m m').
  { induction l as [|k l IH]; intros m0 Hm Hl.
    - replace m0 with m'; [done|]. apply map_eq. intros k. symmetry. apply Hl. set_solver.
    - etransitivity; [exact (cell_run_ledger k _ _ (Hm k) m0 eq_refl)|]. apply IH.
      + intros j. destruct (decide (j = k)) as [->|Hne].
        * by rewrite lookup_partial_alter_eq.
        * by rewrite lookup_partial_alter_ne by done.
      + intros j Hj. destruct (decide (j = k)) as [->|Hne].
        * by rewrite lookup_partial_alter_eq.
        * rewrite lookup_partial_alter_ne by done. apply Hl. set_solver. }
  apply (Hl (elements (dom m'))); [done|]. intros k Hk. rewrite elem_of_elements, not_elem_of_dom in Hk.
  rewrite Hk. specialize (Hall k). destruct (m !! k) as [c|] eqn:E; [|done].
  apply cell_run_some in Hall; [|done]. by rewrite Hk in Hall.
Qed.

(** ** The abstraction of the lease table *)

Definition digests_of (h : CatalogArtifactHandoffEvidence) : digests := {|
  dg_attempt := ah_attempt_id h;
  dg_request := ah_request_sha256 h;
  dg_result := ah_result_sha256 h;
  dg_receipt := ah_receipt_sha256 h
|}.

Definition stage_of (handoff : option CatalogArtifactHandoffEvidence) : handoff_stage :=
  match handoff with
  | None => NoResult
  | Some h =>
      match ah_acknowledgement_sha256 h, ah_acknowledgement_payload_sha256 h with
      | Some a, Some p =>
          match ah_remote_ack_observed_at h, ah_host_confirmation_declared_at h with
          | Some _, Some _ => Confirmed (digests_of h) a p
          | Some _, None => Acknowledged (digests_of h) a p
          | None, _ => Intended (digests_of h) a p
          end
      | _, _ => Held (digests_of h)
      end
  end.

Definition custody_of (l : TrainingPodLease) : custody := {|
  cu_name := ls_resource_name l;
  cu_attempt := (fun s => rq_attempt_id (sp_request s)) <$> ls_capacity_spec l;
  cu_stage := stage_of (ls_artifact_handoff l);
  cu_billed := is_some (ls_billing_receipt l);
  cu_released := is_terminal l
|}.

Definition ledger_of (db : database) : ledger := custody_of <$> db.

(** *** Handoffs *)

(** What the checks of a handoff leave open. *)
Lemma check_handoff_stages h :
  check_handoff h = Ok tt ->
  (is_some (ah_acknowledgement_sha256 h) = is_some (ah_acknowledgement_payload_sha256 h)) /\
  (is_some (ah_remote_ack_observed_at h) = true -> is_some (ah_acknowledgement_sha256 h) = true) /\
  (is_some (ah_host_confirmation_declared_at h) = true -> is_some (ah_remote_ack_observed_at h) = true).
Proof.
  unfold check_handoff, opt_sha256. intros Hc. res_inv.
  destruct h as [? ? ? ? [a|] [p|] [r|] [t|]]; cbn in *; rewrite ?andb_false_r in *; try done; by split_and!.
Qed.

(** Run the stages up to the one at hand. *)
Ltac stage_run := repeat (first [apply rtc_refl | eapply rtc_l; [constructor|]]).

(** The stages a handoff still has before it. *)
Lemma stage_first h :
  check_handoff h = Ok tt -> rtc stage_step (Held (digests_of h)) (stage_of (Some h)).
Proof.
  intros Hc. apply check_handoff_stages in Hc as (Hap & Hr & Hh). unfold stage_of.
  destruct (ah_acknowledgement_sha256 h) as [a|], (ah_acknowledgement_payload_sha256 h) as [p|];
    cbn in *; try done.
  destruct (ah_remote_ack_observed_at h), (ah_host_confirmation_declared_at h); cbn in *; try (by specialize (Hh eq_refl));
    stage_run.
Qed.

Lemma handoff_kept_stages h h' :
  handoff_kept h h' -> check_handoff h' = Ok tt -> rtc stage_step (stage_of (Some h)) (stage_of (Some h')).
Proof.
  intros [H1 H2 H3 H4 Hack Hpay Hrem Hhost _] Hc'.
  assert (Hd : digests_of h' = digests_of h) by (unfold digests_of; congruence).
  apply check_handoff_stages in Hc' as Hs'. pose proof (stage_first _ Hc') as Hf. revert Hf. unfold stage_of.
  rewrite Hd. destruct Hs' as (Hap' & Hr' & Hh'). unfold kept in *.
  destruct (ah_acknowledgement_sha256 h) as [a|]; [|done].
  rewrite (Hack a eq_refl) in *. rewrite (Hpay eq_refl) in *. intros Hf.
  destruct (ah_acknowledgement_payload_sha256 h) as [p|]; [|done].
  destruct (ah_remote_ack_observed_at h) as [r|]; [rewrite (Hrem r eq_refl) in *|];
    [destruct (ah_host_confirmation_declared_at h) as [t|]; [rewrite (Hhost t eq_refl) in *|]|].
  all: destruct (ah_remote_ack_observed_at h'), (ah_host_confirmation_declared_at h'); cbn in *; try (by specialize (Hh' eq_refl));
    stage_run.
Qed.

(** *** Leases *)

Lemma set_stage_same c : set_stage c (cu_stage c) = c.
Proof. by destruct c. Qed.

Lemma stages_cell c s : rtc stage_step (cu_stage c) s -> rtc cell_step (Some c) (Some (set_stage c s)).
Proof.
  remember (cu_stage c) as s0 eqn:E. intros Hs. revert c E.
  induction Hs as [s0|s0 s1 s2 Hs _ IH]; intros c ->; [by rewrite set_stage_same|].
  eapply rtc_l; [constructor; exact Hs|]. by apply (IH (set_stage c s1)).
Qed.

(** A cell that keeps its identity and takes nothing back runs to its later self. *)
Lemma cell_advance c c' :
  cu_name c' = cu_name c -> cu_attempt c' = cu_attempt c -> rtc stage_step (cu_stage c) (cu_stage c') ->
  (cu_billed c = true -> cu_billed c' = true) -> (cu_released c = true -> cu_released c' = true) ->
  cell_ok c' -> rtc cell_step (Some c) (Some c').
Proof.
  intros Hn Ha Hs Hb Hr Hok. etransitivity; [by apply stages_cell|].
  destruct c as [n a s b r], c' as [n' a' s' b' r']; unfold cell_ok, set_stage in *; cbn in *; subst n' a'.
  destruct b, b'; try (by specialize (Hb eq_refl)); destruct r, r'; try (by specialize (Hr eq_refl));
    try apply rtc_refl.
  - apply rtc_once. by apply cell_release.
  - apply rtc_once. by apply cell_bill.
  - eapply rtc_l; [by apply cell_bill|]. apply rtc_once. by apply cell_release.
  - apply rtc_once. by apply cell_bill.
  - apply rtc_once. apply cell_release; [done|]. exact (Hok eq_refl).
Qed.

Lemma custody_ok l : row_ok l -> cell_ok (custody_of l).
Proof.
  intros Hok Hr Ha. apply (ro_settled _ Hok Hr). unfold is_catalog_attempt, custody_of in *. cbn in Ha.
  by destruct (ls_capacity_spec l).
Qed.

Lemma evolves_custody l l' : evolves l l' -> row_ok l' -> rtc cell_step (Some (custody_of l)) (Some (custody_of l')).
Proof.
  intros He Hok. pose proof (ev_identity _ _ He) as Hi. apply cell_advance; cbn; [| | | | |by apply custody_ok].
  - symmetry. apply (si_resource _ _ Hi).
  - by rewrite (si_spec _ _ Hi).
  - pose proof (ro_handoff _ Hok) as Hv. destruct (ls_artifact_handoff l) as [h|] eqn:Eh.
    + destruct (ev_handoff _ _ He h Eh) as (h' & Eh' & Hk). rewrite Eh' in *. by apply handoff_kept_stages.
    + destruct (ls_artifact_handoff l') as [h'|]; [|done].
      eapply rtc_l; [apply stage_observe|]. by apply stage_first.
  - apply (ev_receipt _ _ He).
  - apply (ev_terminal _ _ He).
Qed.

(** A row nobody had before was reserved. *)
Lemma custody_new l : row_ok l -> rtc cell_step None (Some (custody_of l)).
Proof.
  intros Hok. eapply rtc_l; [apply (cell_reserve (ls_resource_name l) (cu_attempt (custody_of l)))|].
  apply cell_advance; cbn; try done; [|by apply custody_ok].
  pose proof (ro_handoff _ Hok) as Hv. destruct (ls_artifact_handoff l) as [h|]; [|done].
  eapply rtc_l; [apply stage_observe|]. by apply stage_first.
Qed.

(** ** Refinement *)

Lemma evolution_runs db db' :
  db_wf db' -> db_evolves db db' -> rtc ledger_step (ledger_of db) (ledger_of db').
Proof.
  intros Hwf He. apply cells_run_ledger. intros k. unfold ledger_of. rewrite !lookup_fmap.
  destruct (db !! k) as [l|] eqn:El; cbn.
  - destruct (He k l El) as (l' & El' & Hl). rewrite El'. cbn. apply evolves_custody; [done|].
    by eapply (wf_rows _ Hwf).
  - destruct (db' !! k) as [l'|] eqn:El'; cbn; [|done]. apply custody_new. by eapply (wf_rows _ Hwf).
Qed.

(** Every well-formed table is reached from the empty one. *)
Lemma ledger_reachable db : db_wf db -> rtc ledger_step ∅ (ledger_of db).
Proof. intros Hwf. replace ∅ with (ledger_of ∅) by apply fmap_empty. by apply evolution_runs. Qed.

Lemma admitted_enabled `{Digest} c db : call_admitted c db -> call_enabled c (ledger_of db).
Proof.
  destruct c; try done; cbn [call_admitted call_enabled]; unfold ledger_of.
  - intros (k & row & spec & Hk & Hs & Ha & Hr). exists k, (custody_of row). rewrite lookup_fmap, Hk.
    split; [done|]. cbn. by rewrite Hs, <- Ha.
  - intros (k & row & h & a & Hk & Hh & Hid & Ha & Hf & Hp). exists k, (custody_of row), (digests_of h), a.
    rewrite lookup_fmap, Hk. split_and!; try done. cbn. rewrite Hh. cbn. rewrite Ha, Hp.
    destruct (ah_remote_ack_observed_at h), (ah_host_confirmation_declared_at h);
      stage_run.
Qed.

End Custody.

Import Custody.Custody Scenario.Scenario.

#[local] Open Scope Z_scope.

(** C7. Every history of the service, with any provider, worker, clock, cancellation and
    other processes, is a run of the abstract machine: the ledger after it is reached
    from the ledger before it, and from no lease at all, by reservations, steps of the
    artifact handoff in their order, billings, and releases that a catalog attempt makes
    only when billed; and the machine enables every revocation and acknowledgement on the
    table it was made on. *)
Theorem service_refines_custody {dg : Digest} {nu : NameUuid} (H : Host) (Hrely : rely H) fuel ops w
  (Hops : Forall operation_valid ops) (Hw : world_wf w) :
  rtc ledger_step (ledger_of (w_db w)) (ledger_of (w_db (run_history H fuel ops w))) /\
  rtc ledger_step ∅ (ledger_of (w_db (run_history H fuel ops w))) /\
  forall c db, In (c, db) (w_trace (run_history H fuel ops w)) -> call_enabled c (ledger_of db).
Proof.
  destruct (history_safe H Hrely fuel ops w Hops Hw) as [[Hdb Htr] He]. split_and!.
  - by apply evolution_runs.
  - by apply ledger_reachable.
  - intros c db Hin. apply admitted_enabled. unfold trace_admitted in Htr.
    rewrite List.Forall_forall in Htr. apply (Htr (c, db) Hin).
Qed.

(** The machine keeps its promise, and so does the service: a released attempt is billed. *)
Lemma reachable_ok m : rtc ledger_step ∅ m -> forall k c, m !! k = Some c -> cell_ok c.
Proof.
  intros Hr. assert (Hall : forall m0, rtc ledger_step m0 m -> (forall k c, m0 !! k = Some c -> cell_ok c) ->
    forall k c, m !! k = Some c -> cell_ok c); [|by apply (Hall ∅ Hr)].
  clear Hr. induction 1 as [|m0 m1 m2 Hs _ IH]; [done|]. intros Hok. apply IH. by eapply ledger_step_ok.
Qed.

Lemma service_refines_custody_witness :
  rtc ledger_step (ledger_of (w_db (one_row stopped_row)))
    (ledger_of (w_db (run_history (host 0) 5 [OpReconcile] (one_row stopped_row)))) /\
  cu_billed (custody_of stopped_row) = false /\
  cu_billed <$> (ledger_of (w_db (run_history (host 0) 5 [OpReconcile] (one_row stopped_row))) !! "capacity-0001") =
    Some true.
Proof.
  split; [|split; by vm_compute].
  refine (proj1 (service_refines_custody (host 0) (host_relies 0) 5 [OpReconcile] (one_row stopped_row) _ _)).
  - repeat constructor.
  - exact (one_row_wf _ stopped_row_ok).
Defined.
