(* ===== verification/ContractProperties.v ===== *)
(** What is stored and what is bound: the lease row's round trip, what a stored request
    keeps of its environment, the order of the lifecycle's instants, and the binding of an
    acknowledgement. Then money: the cost of a Pod, the billed hours, exact sums, the
    canonical text of an amount, the billing receipt, and the choice of a GPU by price. *)
From Stdlib Require Import Ascii Permutation.
From S2P Require Import Prelude PyStr Enums Errors PyDecimal PyTime Json ContractsBase CodecBase Quote CatalogRequest Evidence Lease Row Repository World ServiceCore Scenario ServiceProperties Billing Placement PyFloat PodBilling.
Import Scenario.Scenario.

#[local] Open Scope Z_scope.

(** ** Stored leases *)


(** No environment value leaves the process through the stored request: two
    specifications that differ in environment values alone are stored alike, under the
    same fingerprint and resource name, and what is read back holds the marker for
    every key and nothing else. *)
Theorem environment_values_not_stored `{Digest} a b :
  redact_spec a = redact_spec b ->
  spec_to_dict a = spec_to_dict b /\
  request_fingerprint (sp_request a) = request_fingerprint (sp_request b) /\
  request_resource_name (sp_request a) = request_resource_name (sp_request b) /\
  (forall k v, In (k, v) (rq_attempt_environment (sp_request (redact_spec a))) ->
     v = "[REDACTED]" /\ k ∈ map fst (rq_attempt_environment (sp_request a))).
Proof.
  intros Hab. assert (Hr : redact_request (sp_request a) = redact_request (sp_request b)) by exact (f_equal sp_request Hab).
  rewrite <- (fingerprint_redacted (sp_request a)), <- (fingerprint_redacted (sp_request b)).
  rewrite <- (resource_name_redacted (sp_request a)), <- (resource_name_redacted (sp_request b)). rewrite Hr.
  split; [|split; [done|split; [done|]]].
  - assert (Hd : forall s, spec_to_dict s = spec_to_dict (redact_spec s)).
    { intros s. unfold spec_to_dict, spec_request_dict, redact_spec, redact_request. cbn -[sorted_keys].
      by rewrite sorted_keys_map. }
    rewrite (Hd a), (Hd b). by rewrite Hab.
  - intros k v Hin. unfold redact_spec, redact_request in Hin. cbn -[sorted_keys] in Hin.
    apply in_map_iff in Hin as (k' & [= <- <-] & Hk). split; [done|].
    by apply sorted_keys_elem, list_elem_of_In.
Qed.

(** ** The lifecycle *)

(** The order of the observations; adoption stands for an accepted creation. *)
Definition stage (f : lifecycle_field) : nat :=
  match f with
  | F_provider_create_accepted_at | F_provider_adopted_at => 1
  | F_first_running_observed_at => 2
  | F_worker_ready_at => 3
  | F_workload_submitted_at => 4
  | F_workload_running_at => 5
  | F_workload_terminal_at => 6
  | F_stop_confirmed_at => 7
  | F_billing_reconciled_at => 8
  end.

Lemma monotone_head a l : monotone (a :: l) = true -> Forall (fun x => a <= x) l /\ monotone l = true.
Proof.
  revert a. induction l as [|x l IH]; intros a Hm; [done|]. cbn [monotone] in Hm. split_bools.
  split; [|done]. constructor; [lia|]. destruct (IH x) as [Hl _]; [done|].
  eapply List.Forall_impl; [|exact Hl]. simpl. lia.
Qed.

(** Present entries of a monotone list of optional instants are ordered by place. *)
Lemma monotone_slots (slots : list (option instant)) i j a b :
  monotone (omap id slots) = true -> (i < j)%nat ->
  slots !! i = Some (Some a) -> slots !! j = Some (Some b) -> a <= b.
Proof.
  revert i j. induction slots as [|o slots IH]; intros i j Hm Hij Hi Hj; [done|].
  destruct j as [|j]; [lia|]. cbn [lookup list_lookup] in Hj. destruct i as [|i].
  - injection Hi as ->. cbn [omap list_omap id] in Hm. apply monotone_head in Hm as [Hm _].
    rewrite List.Forall_forall in Hm. apply Hm, list_elem_of_In, list_elem_of_omap.
    exists (Some b). split; [|done]. by apply list_elem_of_lookup_2 in Hj.
  - apply (IH i j); [|lia|done|done]. destruct o as [x|]; [|done].
    by apply (monotone_head x).
Qed.

Lemma lifecycle_stages l :
  check_lifecycle l = Ok tt ->
  (forall f g a b, lc_get l f = Some a -> lc_get l g = Some b -> (stage f < stage g)%nat -> a <= b) /\
  (forall f a, lc_get l f = Some a -> lc_reservation_at l <= a) /\
  (lc_provider_create_accepted_at l = None \/ lc_provider_adopted_at l = None).
Proof.
  unfold check_lifecycle, observed_instants. intros Hc. res_inv. set (slots := [_; _; _; _; _; _; _; _; _]) in *.
  assert (Hexcl : lc_provider_create_accepted_at l = None \/ lc_provider_adopted_at l = None)
    by (destruct (lc_provider_create_accepted_at l), (lc_provider_adopted_at l); auto; done).
  assert (Hslot : forall f a, lc_get l f = Some a -> slots !! stage f = Some (Some a)).
  { subst slots. intros f a Hf. destruct f; cbn in *; try by rewrite Hf.
    destruct Hexcl as [E|E]; [by rewrite E, Hf|congruence]. }
  split; [|split; [|done]].
  - intros f g a b Hf Hg Hlt. by eapply monotone_slots; eauto.
  - intros f a Hf. apply (monotone_slots slots 0 (stage f)); [done|by destruct f; cbn; lia|done|by apply Hslot].
Qed.

(** The evidence's clock runs forward: in a lifecycle the code accepts, any two
    recorded instants are ordered as the attempt's stages are, however many between
    them are missing, all of them after the reservation; and a Pod is created or
    adopted, not both. *)
Theorem lifecycle_ordered l :
  check_lifecycle l = Ok tt ->
  (forall f g a b, lc_get l f = Some a -> lc_get l g = Some b -> (stage f < stage g)%nat -> a <= b) /\
  (forall f a, lc_get l f = Some a -> lc_reservation_at l <= a) /\
  (lc_provider_create_accepted_at l = None \/ lc_provider_adopted_at l = None).
Proof. exact (lifecycle_stages l). Qed.

(** ** Acknowledgements *)

(** An acknowledgement binds to one payload: binding requires the attempt, the
    request and both digests the worker reported, records the digests of the very
    payload, and from then on no other payload binds. *)
Theorem acknowledgement_binds_once `{Digest} h payload h' :
  bind_acknowledgement h payload = Ok h' ->
  py_eq (get_field payload "attempt_id") (JStr (ah_attempt_id h)) = true /\
  py_eq (get_field payload "result_sha256") (JStr (ah_result_sha256 h)) = true /\
  py_eq (get_field payload "receipt_sha256") (JStr (ah_receipt_sha256 h)) = true /\
  bind_acknowledgement h' payload = Ok h' /\
  (forall other h2, bind_acknowledgement h' other = Ok h2 ->
     h2 = h' /\ sha256_hex (dumps (JObj other)) = sha256_hex (dumps (JObj payload))).
Proof.
  intros Hb. destruct (bind_acknowledgement_inv _ _ _ Hb) as
    (ack & Hack & _ & _ & Hpay & _ & H1 & H2 & H3 & H4 & H5 & H6).
  assert (Hm := Hb). unfold bind_acknowledgement, field_is in Hm. apply rbind_ok in Hm as ([] & Hm & _).
  apply require_ok in Hm.
  assert (Hagain : bind_acknowledgement h' payload = Ok h').
  { unfold bind_acknowledgement, field_is in Hb |- *. rewrite H1, H2, H3, H4, H5, H6. rewrite Hm in *.
    cbn [require rbind] in *. apply rbind_ok in Hb as (a & -> & Hb). apply rbind_ok in Hb as (text & -> & Hb).
    apply rbind_ok in Hb as ([] & _ & Hb). cbn [rbind].
    assert (Hh := Hb). unfold mk_handoff in Hh. apply rbind_ok in Hh as (u & _ & [= <-]). cbn.
    by rewrite !bool_decide_eq_true_2 by done. }
  split_bools. split; [done|]. split; [done|]. split; [done|]. split; [exact Hagain|].
  intros other h2 Ho. destruct (bind_acknowledgement_inv _ _ _ Ho) as (ack2 & _ & _ & _ & Hpay2 & Hsame & _).
  rewrite (Hsame _ Hack) in *. split; [done|congruence].
Qed.

(** *** Witnesses *)

(** Storability of a concrete lease, part by part. *)
Ltac storable :=
  match goal with
  | |- _ = _ => vm_compute; reflexivity
  | |- representable _ => vm_compute; split; intros E; discriminate E
  | |- plain _ => vm_compute; intros E; discriminate E
  | |- nonempty _ => vm_compute; intros E; discriminate E
  | |- Forall _ _ => constructor
  | |- opt_prop _ ?o => let v := eval vm_compute in o in change o with v; cbn [opt_prop]
  | |- match ?o with Some _ => _ | None => _ end => let v := eval vm_compute in o in change o with v; cbv iota
  | |- True => exact I
  | |- _ => split
  end.

Lemma settled_row_storable : storable_lease settled_row.
Proof. repeat storable. Qed.


(** The capacity specification of the attempt, before it was stored. *)
Definition secret_spec : PodCapacitySpec := {|
  sp_request := request;
  sp_capability_secret_id := "secret-0001";
  sp_capability_token_sha256 := sha256_hex token;
  sp_capability_expires_at := at_ 3600;
  sp_attempt_environment_sha256 := sha256_hex "environment"
|}.

Lemma environment_values_not_stored_witness :
  spec_to_dict secret_spec = spec_to_dict (redact_spec secret_spec).
Proof.
  destruct (environment_values_not_stored secret_spec (redact_spec secret_spec)
    (eq_sym (redact_spec_idem secret_spec))) as [H _].
  exact H.
Defined.

Definition settled_lifecycle : PodCapacityLifecycleEvidence.
Proof.
  let e := eval vm_compute in (ls_evidence settled_row) in
  match e with Some ?x => let l := eval vm_compute in (ev_lifecycle x) in exact l end.
Defined.

Lemma lifecycle_ordered_witness : lc_reservation_at settled_lifecycle <= at_ 7500.
Proof.
  destruct (lifecycle_ordered settled_lifecycle ltac:(vm_compute; reflexivity)) as (_ & H & _).
  etransitivity; [eapply (H F_worker_ready_at); vm_compute; reflexivity|vm_compute; discriminate].
Defined.

(** The handoff the host first observed. *)
Definition observed : CatalogArtifactHandoffEvidence.
Proof. let h := eval vm_compute in (ls_artifact_handoff waiting_row) in match h with Some ?x => exact x end. Defined.

Definition intended : CatalogArtifactHandoffEvidence.
Proof.
  let r := eval vm_compute in (@bind_acknowledgement sample_digest observed acknowledgement) in
  match r with Ok ?h => exact h end.
Defined.

Lemma acknowledgement_binds_once_witness : bind_acknowledgement intended acknowledgement = Ok intended.
Proof.
  destruct (@acknowledgement_binds_once sample_digest observed acknowledgement intended ltac:(vm_compute; reflexivity))
    as (_ & _ & _ & H & _).
  exact H.
Defined.

#[local] Open Scope Z_scope.

(** ** The text of an amount *)

Module AmountText.
Import Billing.Billing.

Lemma digits_fuel_app f n acc t : digits_fuel f n (acc ++ t) = (digits_fuel f n acc ++ t)%list.
Proof.
  revert n acc. induction f as [|f IH]; intros n acc; cbn [digits_fuel]; [done|].
  destruct (n <? 10); [done|]. by rewrite <- IH.
Qed.

Lemma log2_tenth n : 10 <= n -> Z.log2 (n / 10) < Z.log2 n.
Proof.
  intros Hn. assert (Z.log2 (n / 10) <= Z.log2 (n / 2)) by (apply Z.log2_le_mono, Z.div_le_compat_l; lia).
  assert (Z.log2 (n / 2) = Z.log2 n - 1); [|lia].
  change 2%Z with (2 ^ 1)%Z at 1. rewrite <- Z.shiftr_div_pow2, Z.log2_shiftr by lia.
  assert (1 <= Z.log2 n) by (apply Z.log2_le_pow2; lia). lia.
Qed.

Lemma digits_fuel_enough f g n acc :
  0 <= n -> Z.log2 n < Z.of_nat f -> Z.log2 n < Z.of_nat g -> digits_fuel f n acc = digits_fuel g n acc.
Proof.
  revert g n acc. induction f as [|f IH]; intros g n acc Hn Hf Hg; [pose proof (Z.log2_nonneg n); lia|].
  destruct g as [|g]; [pose proof (Z.log2_nonneg n); lia|]. cbn [digits_fuel].
  destruct (Z.ltb_spec n 10); [done|]. pose proof (log2_tenth n ltac:(lia)).
  apply IH; [apply Z.div_pos; lia|lia|lia].
Qed.

(** Ten times a number has one more digit, a zero. *)
Lemma digits_ten n : 0 < n -> digits (n * 10) = (digits n ++ ["0"%char])%list.
Proof.
  intros Hn. unfold digits at 1. cbn [digits_fuel]. destruct (Z.ltb_spec (n * 10) 10); [lia|].
  rewrite Z.mod_mul, Z.div_mul by lia. change (digit_char 0 :: []) with ([] ++ ["0"%char])%list.
  rewrite digits_fuel_app. f_equal. pose proof (Z.log2_nonneg n).
  assert (Z.log2 n < Z.log2 (n * 10)) by (pose proof (log2_tenth (n * 10)); rewrite Z.div_mul in *; lia).
  apply digits_fuel_enough; lia.
Qed.

(** Shifting the exponent by one appends a zero, after a point if there was none. *)
Lemma positional_ten c k :
  c <> 0 -> 0 < k -> chars (positional (c * 10) (k + 1)) = (chars (positional c k) ++ ["0"%char])%list.
Proof.
  intros Hc Hk. unfold positional. destruct (Z.eqb_spec k 0); [lia|]. destruct (Z.eqb_spec (k + 1) 0); [lia|].
  rewrite Z.abs_mul. change (Z.abs 10) with 10. rewrite digits_ten by lia.
  replace (c * 10 <? 0) with (c <? 0) by (destruct (Z.ltb_spec c 0), (Z.ltb_spec (c * 10) 0); lia).
  set (ds := digits (Z.abs c)).
  replace (k + 1 + 1 - Z.of_nat (length (ds ++ ["0"%char]))) with (k + 1 - Z.of_nat (length ds))
    by (rewrite length_app; cbn [length]; lia).
  rewrite app_assoc. set (pad := (replicate _ "0"%char ++ ds)%list).
  assert (Hlen : (Z.to_nat k < length pad)%nat).
  { unfold pad. rewrite length_app, length_replicate. lia. }
  replace (length (pad ++ ["0"%char]) - Z.to_nat (k + 1))%nat with (length pad - Z.to_nat k)%nat
    by (rewrite length_app; cbn [length]; lia).
  rewrite firstn_app, skipn_app. replace (length pad - Z.to_nat k - length pad)%nat with 0%nat by lia.
  cbn [firstn skipn]. rewrite app_nil_r, !chars_app, !chars_of_chars. by rewrite <- !app_assoc.
Qed.

Lemma positional_point c :
  c <> 0 -> chars (positional (c * 10) 1) = (chars (positional c 0) ++ ["."%char; "0"%char])%list.
Proof.
  intros Hc. unfold positional. cbn [Z.eqb]. rewrite Z.abs_mul. change (Z.abs 10) with 10.
  rewrite digits_ten by lia. set (ds := digits (Z.abs c)).
  assert (Hne : (1 <= length ds)%nat) by (pose proof (digits_nonempty (Z.abs c)); subst ds; destruct (digits _); cbn; [done|lia]).
  replace (c * 10 <? 0) with (c <? 0) by (destruct (Z.ltb_spec c 0), (Z.ltb_spec (c * 10) 0); lia).
  replace (Z.to_nat (1 + 1 - Z.of_nat (length (ds ++ ["0"%char])))) with 0%nat
    by (rewrite length_app; cbn [length]; lia).
  cbn [replicate app]. change (Z.to_nat 1) with 1%nat.
  replace (length (ds ++ ["0"%char]) - 1)%nat with (length ds) by (rewrite length_app; cbn [length]; lia).
  rewrite take_app_length, drop_app_length, !chars_app, !chars_of_chars. by rewrite <- !app_assoc.
Qed.

Lemma nonzero_amount c e : c <> 0 -> deqb (Fin c e) dzero = false.
Proof.
  intros Hc. destruct (deqb (Fin c e) dzero) eqn:E; [|done].
  apply (deq_scale _ _ _ _ (Z.min e 0)) in E; [|lia|lia].
  pose proof (p10_pos (e - Z.min e 0) ltac:(lia)). nia.
Qed.

Lemma has_point_digits l : forallb is_digit l = true -> has_point l = false.
Proof.
  unfold has_point. intros Hl. induction l as [|x l IH]; [done|]. cbn [forallb existsb] in Hl |- *. split_bools.
  rewrite IH by done. apply is_digit_code in H. by destruct (Z.eqb_spec (code x) 46); [lia|].
Qed.

(** The text of a whole amount has no point and ends in a digit. *)
Lemma whole_text c :
  has_point (chars (positional c 0)) = false /\
  rstrip "." (chars (positional c 0)) = chars (positional c 0).
Proof.
  destruct (positional_integer c) as (A & HA & Hne & Hd & _). rewrite HA.
  split; [unfold has_point; rewrite existsb_app; change (existsb _ A) with (has_point A);
    rewrite (has_point_digits A Hd); by destruct (c <? 0)|].
  destruct (exists_last Hne) as (B & x & ->). rewrite app_assoc. apply rstrip_snoc_ne.
  rewrite forallb_app in Hd. cbn in Hd. split_bools. pose proof (is_digit_code x ltac:(done)).
  change (code ".") with 46. lia.
Qed.

Lemma identity_ten c e :
  c <> 0 -> billing_identity_amount (Fin (c * 10) (e - 1)) = billing_identity_amount (Fin c e).
Proof.
  intros Hc. unfold billing_identity_amount. cbn [is_finite]. rewrite !nonzero_amount by lia. f_equal. f_equal.
  unfold format_f. destruct (Z.leb_spec 0 (e - 1)) as [He|He], (Z.leb_spec 0 e) as [He'|He']; try lia.
  - replace (c * 10 * p10 (e - 1)) with (c * p10 e); [done|].
    replace e with (1 + (e - 1)) at 1 by lia. rewrite p10_add by lia. change (p10 1) with 10. ring.
  - assert (e = 0) as -> by lia. change (- (0 - 1)) with 1. change (p10 0) with 1. rewrite Z.mul_1_r.
    rewrite positional_point by done. destruct (whole_text c) as [Hp Hr]. rewrite Hp.
    unfold has_point at 1. rewrite existsb_app. cbn [existsb]. change (code "." =? 46) with true.
    rewrite orb_true_r. change ["."%char; "0"%char] with (["."%char] ++ ["0"%char])%list.
    rewrite app_assoc, rstrip_snoc_eq, rstrip_snoc_ne by done. by rewrite rstrip_snoc_eq.
  - replace (- (e - 1)) with (- e + 1) by lia. rewrite positional_ten by lia.
    destruct (positional_shape c (- e) ltac:(lia)) as (A & B & HAB & _).
    assert (Hp : has_point (chars (positional c (- e))) = true).
    { rewrite HAB. unfold has_point. rewrite !existsb_app. cbn [existsb]. change (code "." =? 46) with true.
      by rewrite !orb_true_r. }
    unfold has_point at 1. rewrite existsb_app. fold (has_point (chars (positional c (- e)))).
    rewrite Hp. cbn [orb]. by rewrite rstrip_snoc_eq.
Qed.

Lemma identity_scale c e (j : nat) :
  c <> 0 ->
  billing_identity_amount (Fin (c * p10 (Z.of_nat j)) (e - Z.of_nat j)) = billing_identity_amount (Fin c e).
Proof.
  intros Hc. induction j as [|j IH]; [by rewrite Z.mul_1_r, Z.sub_0_r|].
  replace (Z.of_nat (S j)) with (Z.of_nat j + 1) by lia. rewrite p10_add by lia. change (p10 1) with 10.
  rewrite Z.mul_assoc. replace (e - (Z.of_nat j + 1)) with (e - Z.of_nat j - 1) by lia.
  rewrite identity_ten; [done|]. pose proof (p10_pos (Z.of_nat j) ltac:(lia)). nia.
Qed.

Lemma identity_deq a b : deq a b -> is_finite a = true -> is_finite b = true ->
  billing_identity_amount a = billing_identity_amount b.
Proof.
  destruct a as [c1 e1| |], b as [c2 e2| |]; try done. intros Hd _ _.
  set (u := Z.min e1 e2). assert (Hs := Hd). apply (deq_scale _ _ _ _ u) in Hs; [|lia|lia].
  pose proof (p10_pos (e1 - u) ltac:(lia)). pose proof (p10_pos (e2 - u) ltac:(lia)).
  destruct (Z.eq_dec c1 0) as [->|H1].
  - assert (c2 = 0) as -> by nia.
    assert (Hz : forall e, billing_identity_amount (Fin 0 e) = Ok "0").
    { intros e. unfold billing_identity_amount. cbn [is_finite].
      assert (deqb (Fin 0 e) dzero = true) as -> by (apply (deq_scale _ _ _ _ (Z.min e 0)); lia). done. }
    by rewrite !Hz.
  - assert (c2 <> 0) by nia.
    rewrite <- (identity_scale c1 e1 (Z.to_nat (e1 - u))) by done.
    rewrite <- (identity_scale c2 e2 (Z.to_nat (e2 - u))) by done.
    rewrite !Z2Nat.id by lia. rewrite Hs. do 2 f_equal. lia.
Qed.

End AmountText.

(** ** Cost and billing *)

(** C11. While rate * seconds * GPUs, counted in millionths of a dollar or in the rate's
    own last digit if that is finer, stays below 10^24, the cost of a Pod is the least
    number of millionths of a dollar not below rate * seconds * GPUs / 3600: the
    28-digit arithmetic in between does not show. *)
Theorem pod_cost_is_exact_ceiling c e secs gpus :
  0 < c -> 0 <= secs -> 1 <= gpus ->
  let unit := Z.min e (-6) in
  let product := c * secs * gpus * p10 (e - unit) in
  product < p10 24 ->
  exists k, pod_cost_usd 28 (Fin c e) secs gpus = Ok (Fin k (-6)) /\
    (k - 1) * (3600 * p10 (-6 - unit)) < product <= k * (3600 * p10 (-6 - unit)).
Proof.
  intros Hc Hs Hg unit product Hb. eexists. split; [by apply pod_cost_ceiling|].
  fold unit product. pose proof (p10_pos (-6 - unit) ltac:(lia)).
  pose proof (cdiv_spec product (3600 * p10 (-6 - unit)) ltac:(lia)). lia.
Qed.

(** The billed window is the tightest one of whole UTC hours around the Pod's
    life: it starts and ends on the hour, covers the life, and every other window of
    whole hours that covers it contains it. *)
Theorem billed_window_is_tight s e f u :
  Billing.billing_hour_bounds s e = Ok (f, u) ->
  f mod hours 1 = 0 /\ u mod hours 1 = 0 /\ f <= s /\ s < e /\ e <= u /\
  (forall f' u', f' mod hours 1 = 0 -> u' mod hours 1 = 0 -> f' <= s -> e <= u' -> f' <= f /\ u <= u').
Proof. intros Hb. destruct (Billing.hour_bounds_cover s e f u Hb) as (H1 & H2 & H3 & H4 & H5 & _ & H6). done. Qed.

(** Money is summed exactly: whatever precision the caller's context has, the
    sum of finite amounts is their sum in any common unit, reordering or rescaling
    the amounts does not change it, and a sum with a non-finite amount is refused. *)
Theorem decimal_sum_is_exact ambient items :
  1 <= ambient ->
  match Billing.exact_decimal_sum ambient items with
  | Ok d =>
      is_finite d = true /\
      (forall m, m <= 0 -> m <= Billing.dexponent d -> m <= Billing.sum_exponent items ->
         Billing.units m d = Billing.sum_units m items) /\
      (forall reordered rescaled d', Permutation items reordered -> Forall2 deq reordered rescaled ->
         Billing.exact_decimal_sum ambient rescaled = Ok d' -> deq d d')
  | Exc e => e = ValueError /\ forallb is_finite items = false
  end.
Proof.
  intros Ha. destruct (Billing.exact_decimal_sum ambient items) as [d|e] eqn:Es.
  - destruct (Billing.exact_sum_units _ _ _ Ha Es) as [Hf Hu]. split; [done|]. split; [done|].
    intros reordered rescaled d' Hp Hd. by apply (Billing.exact_sum_deq ambient items reordered).
  - unfold Billing.exact_decimal_sum in Es. destruct (forallb is_finite items); [|by injection Es as <-].
    by destruct items.
Qed.

(** C12. The identity text of an amount is canonical: two finite amounts have the same
    text exactly when they are equal numbers, and the text reads back as the amount. *)
Theorem amount_text_is_canonical a b :
  is_finite a = true -> is_finite b = true ->
  (Billing.billing_identity_amount a = Billing.billing_identity_amount b <-> deq a b) /\
  (exists t a', Billing.billing_identity_amount a = Ok t /\ parse_decimal t = Some a' /\ deq a a').
Proof.
  intros Ha Hb.
  assert (Htext : forall d, is_finite d = true -> exists t, Billing.billing_identity_amount d = Ok t).
  { intros d Hd. unfold Billing.billing_identity_amount. rewrite Hd. destruct (deqb d dzero); eauto. }
  destruct (Htext a Ha) as [ta Hta]. destruct (Htext b Hb) as [tb Htb].
  destruct (Billing.billing_identity_amount_value _ _ Hta) as (a' & Hpa & Hda).
  destruct (Billing.billing_identity_amount_value _ _ Htb) as (b' & Hpb & Hdb).
  split; [|by exists ta, a']. split; [|by intros; apply AmountText.identity_deq].
  rewrite Hta, Htb. intros [= ->]. assert (a' = b') as -> by congruence. etransitivity; [exact Hda|by symmetry].
Qed.

(** C13. A billing receipt is answered only for a complete, consistent page: the page
    was asked for the tightest window around the Pod's life, which is over; its
    records, in order, are consecutive whole hours from the window's start to its end;
    each amount of the page's own totals is the exact sum of that amount over the
    records; and the receipt's cost is the page's total amount, its seconds 3600 per
    record. *)
Theorem receipt_only_from_complete_page `{Digest} prec pod_billing pod created terminated rate now later r :
  1 <= prec ->
  PodBilling.read_exact_pod_billing prec pod_billing pod created terminated rate now later = Ok (Some r) ->
  check_receipt r = Ok tt /\ rc_provider_pod_id r = Some pod /\ rc_hourly_price_usd r = rate /\
  rc_billed_from r <= created /\ terminated <= rc_billed_until r /\ rc_billed_until r <= now /\
  exists page totals parsed,
    pod_billing (iso_datetime (rc_billed_from r)) (iso_datetime (rc_billed_until r)) "hour" pod = Ok page /\
    get_field (PodBilling.bp_metadata page) "totals" = JObj totals /\
    rmap (PodBilling.parse_row prec pod) (PodBilling.bp_records page) = Ok parsed /\
    PodBilling.tiles (rc_billed_from r) (PodBilling.sort_rows parsed) (rc_billed_until r) /\
    (forall name, In name PodBilling.AMOUNT_KEYS -> exists total sum,
       Billing.number_decimal (get_field totals name) = Some total /\ is_finite total = true /\
       Billing.exact_decimal_sum prec
         (map (fun x => Billing.amount_of (PodBilling.pr_amounts x) name) parsed) = Ok sum /\ deq sum total) /\
    (forall x, In x parsed -> exists record, In record (PodBilling.bp_records page) /\
       forall name, In name PodBilling.AMOUNT_KEYS -> exists amount,
         Billing.number_decimal (get_field record name) = Some amount /\
         deq amount (Billing.amount_of (PodBilling.pr_amounts x) name)) /\
    rc_billed_seconds r = 3600 * Z.of_nat (length (PodBilling.bp_records page)) /\
    exists total, Billing.number_decimal (get_field totals "totalAmount") = Some total /\
      deq (rc_actual_cost_usd r) total.
Proof.
  intros Hp Hr. destruct (PodBilling.read_receipt _ _ _ _ _ _ _ _ _ Hp Hr) as [[H1 H2 H3 _ [H4 H5] H6] H7].
  destruct H6 as (page & parsed & expected & rows & Hpage & [Hparsed Hexp Hagree Htiles _] & Hsecs & Hcost).
  destruct Hexp as (totals & Ht & Hamounts). repeat (split; [done|]). exists page, totals, parsed.
  assert (Hread : forall name, In name PodBilling.AMOUNT_KEYS -> exists total,
    Billing.number_decimal (get_field totals name) = Some total /\ is_finite total = true /\
    deq total (Billing.amount_of expected name)) by (by eapply Billing.billing_amounts_read).
  repeat (split; [done|]). split; [|split; [|split; [done|]]].
  - intros name Hn. destruct (Hread name Hn) as (total & Hnum & Hf & Hd).
    destruct (PodBilling.totals_agree_each _ _ _ name Hagree Hn) as (sum & Hsum & Hsd).
    exists total, sum. split_and!; try done. etransitivity; [exact Hsd|by symmetry].
  - intros x Hx. by eapply PodBilling.parsed_record.
  - destruct (Hread "totalAmount" ltac:(by left)) as (total & Hnum & _ & Hd). exists total.
    split; [done|]. etransitivity; [exact Hcost|by symmetry].
Qed.

(** ** Placement *)

(** The chosen GPU is the best compatible one: the decision is an offer of the
    catalog that satisfies every requirement, its price finite and within the cap,
    and no other eligible offer comes before it by availability, then price, then
    memory, then identifier; when no offer is compatible the choice is refused. *)
Theorem selected_gpu_is_best offers r t :
  match Placement.select_gpu offers r t with
  | Ok d =>
      exists o, In o offers /\ Placement.is_compatible o r = true /\ d = Placement.decision r o t /\
        is_finite (pd_offered_cost_per_hr d) = true /\
        (forall m, pr_max_cost_per_hr r = Some m -> dle (pd_offered_cost_per_hr d) m = true) /\
        (forall o', In o' offers -> Placement.is_compatible o' r = true ->
           (pr_product r = SERVERLESS -> Placement.pool_members offers (go_pool o') = 1%nat) ->
           o' = o \/ Placement.key_le r o o' = true)
  | Exc e =>
      e = RunPodManagerError /\
      (pr_product r = POD -> forall o, In o offers -> Placement.is_compatible o r = false)
  end.
Proof.
  unfold Placement.select_gpu. destruct (Placement.candidates offers r) as [l|e] eqn:Ec; cbn [rbind].
  - destruct (Placement.candidates_incl _ _ _ Ec) as [Hne Hin].
    assert (Hfin : Forall (fun x => is_finite (Placement.offer_price r x) = true) l).
    { rewrite List.Forall_forall. intros x Hx. destruct (Hin x Hx) as (_ & Hc & _).
      by destruct (Placement.compatible_price _ _ Hc) as (p & _ & -> & Hf & _). }
    pose proof (Placement.sort_offers_head r l Hfin) as Hhead.
    destruct (Placement.sort_offers r l) as [|o rest]; [done|]. destruct Hhead as [Ho Hbest].
    destruct (Hin o Ho) as (Hoff & Hc & _). destruct (Placement.compatible_price _ _ Hc) as (p & _ & Hp & Hf & _ & Hcap).
    exists o. cbn [Placement.decision pd_offered_cost_per_hr]. rewrite Hp. repeat (split; [done|]).
    intros o' Ho' Hc' Hpool. apply Hbest. by eapply Placement.candidates_complete.
  - unfold Placement.candidates in Ec. destruct (List.filter _ offers) as [|c cs] eqn:Ef.
    + split; [congruence|]. intros _ o Ho. destruct (Placement.is_compatible o r) eqn:E; [|done].
      assert (In o []) by (rewrite <- Ef; by apply filter_In). done.
    + destruct (pr_product r); [done|]. split; [|done]. destr_match_in Ec; congruence.
Qed.

(** *** Witnesses *)

Lemma pod_cost_is_exact_ceiling_witness :
  exists k, pod_cost_usd 28 (Fin 34 (-2)) 3601 2 = Ok (Fin k (-6)) /\
    (k - 1) * 3600 < 34 * 3601 * 2 * p10 4 <= k * 3600.
Proof. apply (pod_cost_is_exact_ceiling 34 (-2) 3601 2); vm_compute; congruence. Defined.

Lemma billed_window_is_tight_witness :
  T0 mod hours 1 = 0 /\ at_ 3600 mod hours 1 = 0.
Proof.
  destruct (billed_window_is_tight (at_ 100) (at_ 1000) T0 (at_ 3600) ltac:(vm_compute; reflexivity)) as (H1 & H2 & _).
  split; [exact H1 | exact H2].
Defined.

Lemma decimal_sum_is_exact_witness :
  Billing.exact_decimal_sum 1 [Fin 12345 (-3); Fin 9 2] = Ok (Fin 912345 (-3)) /\ is_finite (Fin 912345 (-3)) = true.
Proof.
  split; [vm_compute; reflexivity|].
  destruct (decimal_sum_is_exact 1 [Fin 12345 (-3); Fin 9 2] ltac:(lia)) as [H _]. exact H.
Defined.

Lemma amount_text_is_canonical_witness :
  Billing.billing_identity_amount (Fin 150 (-2)) = Billing.billing_identity_amount (Fin 15 (-1)).
Proof.
  destruct (amount_text_is_canonical (Fin 150 (-2)) (Fin 15 (-1)) eq_refl eq_refl) as [[_ H] _].
  apply H. vm_compute. reflexivity.
Defined.

Definition billed : PodBillingReceipt.
Proof.
  let r := eval vm_compute in
    (@PodBilling.read_exact_pod_billing DEFAULT_PREC sample_digest (fun _ _ _ _ => Ok bill) pod (at_ 100) (at_ 1000)
       (Fin 5 (-1)) (at_ 7200) (at_ 7201)) in
  match r with Ok (Some ?x) => exact x end.
Defined.

Lemma receipt_only_from_complete_page_witness : rc_billed_from billed <= at_ 100 /\ at_ 1000 <= rc_billed_until billed.
Proof.
  destruct (@receipt_only_from_complete_page sample_digest DEFAULT_PREC (fun _ _ _ _ => Ok bill) pod (at_ 100) (at_ 1000)
    (Fin 5 (-1)) (at_ 7200) (at_ 7201) billed ltac:(vm_compute; congruence) ltac:(vm_compute; reflexivity))
    as (_ & _ & _ & H1 & H2 & _).
  split; [exact H1 | exact H2].
Defined.
