(* ===== verification/ProviderProperties.v ===== *)
(** The provider boundary: what a quote promises, what a created or recovered Pod is
    checked against, that a created Pod is never forgotten, and which route to the
    worker is accepted. *)
From Stdlib Require Import Ascii.
From S2P Require Import Prelude PyStr Enums Errors PyDecimal PyTime Json Billing.
From S2P Require Import Placement PyFloat ContractsBase Quote CatalogRequest Evidence PodBilling Lease.
From S2P Require Import Repository World Provider Scenario ContractProperties.
Import Scenario.Scenario.

#[local] Open Scope Z_scope.

(** C14. A quote is a valid promise about a real offer: its GPU is an offer of the
    catalog that satisfies the constraints, at the offer's own price and within the
    rate cap; its estimate and its ceiling are the cost of the estimated and of the
    maximal runtime at that price; it expires after the requested time to live. *)
Theorem quote_prices_a_real_offer `{Digest} dp request t q :
  Provider.quote dp request t = Ok q ->
  check_quote q = Ok tt /\
  exists requirements offers o,
    placement_requirements (qr_constraints request) = Ok requirements /\
    Provider.dp_list_gpus dp (pr_gpu_count requirements) (pr_cloud requirements)
      (pr_min_cuda_version requirements) = Ok offers /\
    In o offers /\ Placement.is_compatible o requirements = true /\
    q_gpu_type_id q = go_id o /\
    Ok (q_hourly_cost_usd q) = price_for o (cc_cloud (qr_constraints request)) POD /\
    (forall m, cc_max_hourly_rate_usd (qr_constraints request) = Some m ->
       dle (q_hourly_cost_usd q) (float_of_decimal m) = true) /\
    pod_cost_usd DEFAULT_PREC (q_hourly_cost_usd q)
      (qr_estimated_startup_seconds request + qr_estimated_execution_seconds request)
      (cc_gpu_count (qr_constraints request)) = Ok (q_estimated_cost_usd q) /\
    pod_cost_usd DEFAULT_PREC (q_hourly_cost_usd q) (qr_maximum_runtime_seconds request)
      (cc_gpu_count (qr_constraints request)) = Ok (q_cost_ceiling_usd q) /\
    q_expires_at q = t + seconds (qr_quote_ttl_seconds request).
Proof.
  unfold Provider.quote. intros Hq.
  apply rbind_ok in Hq as (reqs & Hreqs & Hq). apply rbind_ok in Hq as (offers & Hoffers & Hq).
  apply rbind_ok in Hq as (d & Hsel & Hq). apply rbind_ok in Hq as (est & Hest & Hq).
  apply rbind_ok in Hq as (ceil & Hceil & Hq). unfold mk_quote in Hq.
  apply rbind_ok in Hq as ([] & Hv & Hq). injection Hq as <-. split; [exact Hv|].
  exists reqs, offers. unfold Placement.select_gpu in Hsel.
  apply rbind_ok in Hsel as (l & Hl & Hsel). destruct (Placement.candidates_incl _ _ _ Hl) as [_ Hin].
  pose proof (Placement.sort_offers_perm reqs l) as Hperm.
  destruct (Placement.sort_offers reqs l) as [|o rest]; [done|]. injection Hsel as <-.
  destruct (Hin o) as (Ho & Hc & _); [apply (Permutation.Permutation_in _ Hperm); by left|].
  destruct (Placement.compatible_price _ _ Hc) as (p & Hp & Hprice & _ & _ & Hcap).
  assert (Hreqs' := Hreqs). unfold placement_requirements in Hreqs'. apply rbind_ok in Hreqs' as (u & _ & [= <-]).
  exists o. split; [exact Hreqs|]. split; [exact Hoffers|]. clear Hreqs Hoffers. cbn in *. rewrite Hprice in *. split_and!; try done.
  intros m Hm. apply Hcap. by rewrite Hm.
Qed.

(** ** Creation *)

(** What the accepted quote authorizes, of a placement the provider chose. *)
Definition authorized (p : PlacementDecision) (q : PodCapacityQuote) : Prop :=
  pd_gpu_id p = q_gpu_type_id q /\ pd_gpu_count p = cc_gpu_count (q_constraints q) /\
  pd_cloud p = cc_cloud (q_constraints q) /\ dlt (q_hourly_cost_usd q) (pd_offered_cost_per_hr p) = false.

Lemma realized_matches_quote p pod_id spec t r :
  Provider.realized_placement p pod_id spec t = Ok r ->
  check_realized r = Ok tt /\ rp_provider_pod_id r = pod_id /\
  realized_matches r (rq_quote (sp_request spec)) = true.
Proof.
  unfold Provider.realized_placement. intros Hr.
  destruct (get_field p "gpu") as [| | | | | |gpu]; try done. apply rbind_ok in Hr as (count & _ & Hr).
  destruct (get_field p "dataCenterId"); try done. destruct (get_field p "cloud"); try done.
  destruct (get_field gpu "id"); try done. apply rbind_ok in Hr as ([] & _ & Hr).
  apply rbind_ok in Hr as (cloud & _ & Hr). apply rbind_ok in Hr as (rate & _ & Hr).
  unfold Provider.as_mismatch, mk_realized, validate_against in Hr.
  destruct (check_realized _) as [[]|e] eqn:Ec; cbn [rbind] in Hr; [|by destruct e].
  destruct (require _ _) as [u|e] eqn:Em; cbn [rbind] in Hr; [|by destruct e].
  injection Hr as <-. apply require_ok in Em. done.
Qed.

Lemma realized_value_error p q e :
  (let! r := mk_realized p in run! validate_against r q then Ok r) = Exc e -> e = ValueError.
Proof.
  unfold mk_realized, check_realized, validate_against, require. intros He.
  repeat (destr_match_in He; cbn [rbind] in He); congruence.
Qed.

(** The validation of a created Pod fails only with manager errors. *)
Lemma created_errors created placement pod_id name spec t e :
  Provider.validate_created created placement pod_id name spec t = Exc e -> e = created_mismatch pod_id.
Proof.
  unfold Provider.validate_created. destruct (rbind _ _) as [r|e'] eqn:E; [done|].
  assert (is_manager_error e' = true) as ->; [|by intros [= <-]].
  unfold Provider.validate_realized_placement, Provider.validate_recovery_payload, Provider.realized_placement,
    Provider.provider_decimal, require, of_option, Provider.as_mismatch in E.
  repeat (destr_match_in E; cbn [rbind] in E; simplify_eq; try done).
  all: match goal with H : rbind _ _ = Exc _ |- _ => by apply realized_value_error in H end.
Qed.

(** C15. A Pod is accepted only as the accepted quote's: a successful catalog creation
    was started with the quoted GPU as the only choice, the request's image and the
    quoted rate as the cap; the provider answered a placement the quote authorizes;
    and the realized placement recorded for the Pod is valid, is the Pod's and matches
    the quote. *)
Theorem created_pod_matches_quote `{Digest} dp profile name companion env spec t c :
  Provider.create dp profile name companion env (Some spec) t = Ok c ->
  let quote := rq_quote (sp_request spec) in
  exists started purpose answer placement realized,
    Provider.dp_start_pod dp started
      {| Provider.sm_name := name; Provider.sm_companion_id := companion; Provider.sm_purpose := purpose;
         Provider.sm_env_overrides := env |} = Ok (answer, Provider.PlacementGiven placement) /\
    gp_allowed_gpu_ids started = [q_gpu_type_id quote] /\
    gp_image_name started = rq_image_reference (sp_request spec) /\
    gp_max_cost_per_hr started = Some (float_of_decimal (q_hourly_cost_usd quote)) /\
    authorized placement quote /\
    cp_realized_placement c = Some realized /\ check_realized realized = Ok tt /\
    rp_provider_pod_id realized = cp_provider_pod_id c /\ realized_matches realized quote = true.
Proof.
  unfold Provider.create. intros Hc. apply rbind_ok in Hc as ([started purpose] & Heff & Hc).
  apply rbind_ok in Hc as ([answer value] & Hstart & Hc). apply rbind_ok in Hc as (pod_id & _ & Hc).
  apply rbind_ok in Hc as (placement & Hpl & Hc). apply rbind_ok in Hc as (realized & Hv & Hc).
  injection Hc as <-. cbn [opt_result] in Hv. apply rbind_ok in Hv as (r & Hv & Hr). injection Hr as <-.
  unfold Provider.effective_profile in Heff. apply rbind_ok in Heff as ([] & _ & Heff).
  apply rbind_ok in Heff as (p & Hp & Heff). injection Heff as <- <-.
  unfold Provider.attempt_profile in Hp. apply rbind_ok in Hp as (u & _ & Hp). injection Hp as <-.
  unfold Provider.validate_created in Hv. destruct (rbind _ _) as [r'|e] eqn:E; [|done]. injection Hv as ->.
  apply rbind_ok in E as (u1 & Hplace & E). apply rbind_ok in E as (u2 & _ & E).
  destruct (realized_matches_quote _ _ _ _ _ E) as (H1 & H2 & H3).
  unfold Provider.validate_realized_placement in Hplace. destruct placement as [placement|]; [|done].
  apply require_ok in Hplace. split_bools.
  destruct value as [| |given]; [done|done|]. injection Hpl as ->.
  do 5 eexists. split; [exact Hstart|]. cbn. repeat (split; [done|]). done.
Qed.

(** A created Pod is never forgotten: once the provider has answered a Pod, with
    a placement or without one, the creation either succeeds with that Pod or fails
    with the error that carries that Pod's identifier, so that the caller can bind it
    and tear it down. *)
Theorem created_pod_never_lost `{Digest} dp profile name companion env spec t started purpose answer value pod_id :
  Provider.effective_profile profile (Some spec) = Ok (started, purpose) ->
  Provider.dp_start_pod dp started
    {| Provider.sm_name := name; Provider.sm_companion_id := companion; Provider.sm_purpose := purpose;
       Provider.sm_env_overrides := env |} = Ok (answer, value) ->
  Provider.nonempty (Provider.field_or answer "id" "podId") = Some pod_id ->
  blank pod_id = false -> value <> Provider.PlacementInvalid ->
  match Provider.create dp profile name companion env (Some spec) t with
  | Ok c => cp_provider_pod_id c = pod_id
  | Exc e => e = PodCapacityCreatedMismatchError pod_id
  end.
Proof.
  intros Heff Hstart Hid Hblank Hvalue. unfold Provider.create. rewrite Heff. cbn [rbind fst snd].
  rewrite Hstart. cbn [rbind]. rewrite Hid. cbn [of_option rbind opt_result].
  destruct (match value with Provider.PlacementAbsent => _ | Provider.PlacementInvalid => _ | Provider.PlacementGiven p => _ end)
    as [placement|e] eqn:Ev; [|by destruct value]. cbn [rbind].
  destruct (Provider.validate_created _ _ _ _ _ _) as [r|e] eqn:E; cbn [rbind]; [done|].
  apply created_errors in E as ->. unfold created_mismatch. by rewrite Hblank.
Qed.

(** Recovery adopts only the one Pod it is sure of: the account has exactly one
    Pod of the deterministic name; it runs the request's image on the quoted GPU type
    and count in the quoted cloud; and its realized placement is valid, is the Pod's
    and matches the quote. Two Pods of that name are an error, never a choice. *)
Theorem recovered_pod_is_unique_and_exact `{Digest} dp name spec t :
  match Provider.find_exact dp name spec t with
  | Ok (Some c) =>
      exists pods p realized, Provider.dp_list_pods dp = Ok pods /\ Provider.named name pods = [p] /\
        get_field p "id" = JStr (cp_provider_pod_id c) /\
        py_eq (Provider.field_or p "image" "imageName") (JStr (rq_image_reference (sp_request spec))) = true /\
        cp_realized_placement c = Some realized /\ check_realized realized = Ok tt /\
        rp_provider_pod_id realized = cp_provider_pod_id c /\
        realized_matches realized (rq_quote (sp_request spec)) = true
  | Ok None => exists pods, Provider.dp_list_pods dp = Ok pods /\ Provider.named name pods = []
  | Exc e => Provider.dp_list_pods dp = Exc e \/
      exists pods, Provider.dp_list_pods dp = Ok pods /\ Provider.named name pods <> []
  end.
Proof.
  unfold Provider.find_exact. destruct (Provider.dp_list_pods dp) as [pods|e]; cbn [rbind]; [|by left].
  destruct (Provider.named name pods) as [|p [|p' rest]] eqn:En; [by exists pods| |right; exists pods; split; congruence].
  destruct (Provider.validate_recovery_payload p name spec) as [[]|e] eqn:Ev; cbn [rbind]; [|right; exists pods; split; congruence].
  destruct (of_option _ _) as [pod_id|e] eqn:Eid; cbn [rbind]; [|right; exists pods; split; congruence].
  destruct (Provider.realized_placement _ _ _ _) as [r|e] eqn:Er; cbn [rbind]; [|right; exists pods; split; congruence].
  destruct (realized_matches_quote _ _ _ _ _ Er) as (H1 & H2 & H3). exists pods, p, r. cbn.
  apply of_option_ok in Eid. unfold Provider.validate_recovery_payload in Ev.
  destruct (get_field p "gpu"); try done. apply require_ok in Ev. split_bools.
  unfold Provider.nonempty in Eid. destruct (get_field p "id") as [| | | |s| |]; try done.
  destruct (bool_decide (s = "")); [done|]. injection Eid as ->. done.
Qed.

(** A worker route leads to the Pod's own workload port: it is the provider's
    proxy address of that port, or an HTTP or HTTPS address built from the profile's
    protocol and the address and public port of an entry for that port. *)
Theorem route_is_the_workload_port pod_id payload profile url :
  Provider.pod_base_url pod_id payload profile = Ok (Some url) ->
  url = "https://" ++ pod_id ++ "-" ++ int_text (gp_inference_port profile) ++ ".proxy.runpod.net" \/
  (exists runtime ports item ip public protocol,
    get_field payload "runtime" = JObj runtime /\ get_field runtime "ports" = JList ports /\ In (JObj item) ports /\
    Provider.int_of (Provider.field_or item "private" "privatePort") = Some (gp_inference_port profile) /\
    get_field item "ip" = JStr ip /\ Provider.int_of (Provider.field_or item "public" "publicPort") = Some public /\
    protocol = lower (strip (gp_inference_protocol profile)) /\ protocol ∈ ["http"; "https"] /\
    url = protocol ++ "://" ++ ip ++ ":" ++ int_text public).
Proof.
  unfold Provider.pod_base_url. destruct (get_field payload "runtime") as [| | | | | |runtime]; try done.
  destruct (get_field runtime "ports") as [| | | | |ports|] eqn:Eports; try done. intros Hu.
  assert (Hall : exists item, In (JObj item) ports /\ Provider.port_url pod_id profile item = Ok (Some url)).
  { clear Eports. induction ports as [|v rest IH]; [done|].
    destruct v as [| | | | | |item]; try (destruct (IH Hu) as (i & Hi & Hp); exists i; split; [by right|done]).
    cbn [Provider.ports_url] in Hu. apply rbind_ok in Hu as ([u|] & Hp & Hu).
    - injection Hu as ->. exists item. split; [by left|done].
    - destruct (IH Hu) as (i & Hi & Hpi). exists i. split; [by right|done]. }
  destruct Hall as (item & Hin & Hp). unfold Provider.port_url in Hp.
  destruct (bool_decide (Provider.int_of _ = _)) eqn:Eport; [|done]. apply bool_decide_eq_true_1 in Eport.
  destruct (match get_field item "type" with JStr t => _ | _ => _ end); [injection Hp as <-; by left|right].
  destruct (get_field item "ip") as [| | | |ip| |] eqn:Eip; try done.
  assert (Hpub : exists port, Provider.int_of (Provider.field_or item "public" "publicPort") = Some port /\
    lower (strip (gp_inference_protocol profile)) ∈ ["http"; "https"] /\
    url = lower (strip (gp_inference_protocol profile)) ++ "://" ++ ip ++ ":" ++ int_text port).
  { destruct (Provider.field_or item "public" "publicPort") eqn:Ef; try done;
      apply rbind_ok in Hp as ([] & Hproto & Hp); apply rbind_ok in Hp as (port & Hport & Hp);
      apply require_ok, bool_decide_eq_true_1 in Hproto; apply of_option_ok in Hport; injection Hp as <-;
      by exists port. }
  destruct Hpub as (port & H1 & H2 & ->). by exists runtime, ports, item, ip, port, (lower (strip (gp_inference_protocol profile))).
Qed.

(** *** Witnesses *)

Lemma quote_prices_a_real_offer_witness : check_quote the_quote = Ok tt.
Proof.
  destruct (@quote_prices_a_real_offer sample_digest account quote_request (at_ 50) the_quote ltac:(vm_compute; reflexivity)) as [H _].
  exact H.
Defined.

Definition created : CreatedTrainingPod.
Proof.
  let r := eval vm_compute in
    (Provider.create account profile_h100 "pod-name" "owner-0001" None (Some secret_spec) (at_ 100)) in
  match r with Ok ?c => exact c end.
Defined.

Lemma created_pod_matches_quote_witness :
  exists realized, cp_realized_placement created = Some realized /\ rp_provider_pod_id realized = pod.
Proof.
  destruct (created_pod_matches_quote account profile_h100 "pod-name" "owner-0001" None secret_spec (at_ 100) created
    ltac:(vm_compute; reflexivity)) as (_ & _ & _ & _ & r & _ & _ & _ & _ & _ & H1 & _ & H2 & _).
  exists r. split; [exact H1 | exact H2].
Defined.

(** An account that answers Pods of another data center's price list: the placement is
    absent. *)
Definition careless : Provider.DirectProvider := {|
  Provider.dp_list_gpus := Provider.dp_list_gpus account;
  Provider.dp_get_status := Provider.dp_get_status account;
  Provider.dp_resume_pod := Provider.dp_resume_pod account;
  Provider.dp_start_pod := fun _ m => Ok (pod_payload (Provider.sm_name m), Provider.PlacementAbsent);
  Provider.dp_list_pods := Provider.dp_list_pods account;
  Provider.dp_stop_pod := Provider.dp_stop_pod account;
  Provider.dp_terminate_pod := Provider.dp_terminate_pod account;
  Provider.dp_pod_billing := Provider.dp_pod_billing account
|}.

Definition effective : GPUProfile * string.
Proof.
  let r := eval vm_compute in (Provider.effective_profile profile_h100 (Some secret_spec)) in
  match r with Ok ?c => exact c end.
Defined.

Lemma created_pod_never_lost_witness :
  match Provider.create careless profile_h100 "pod-name" "owner-0001" None (Some secret_spec) (at_ 100) with
  | Ok c => cp_provider_pod_id c = pod
  | Exc e => e = PodCapacityCreatedMismatchError pod
  end.
Proof.
  apply (created_pod_never_lost careless profile_h100 "pod-name" "owner-0001" None secret_spec (at_ 100)
    (fst effective) (snd effective) (pod_payload "pod-name") Provider.PlacementAbsent pod);
    [vm_compute; reflexivity|reflexivity|vm_compute; reflexivity|vm_compute; reflexivity|intros E; discriminate E].
Defined.

Lemma route_is_the_workload_port_witness :
  "https://pod-0001-8000.proxy.runpod.net" = "https://" ++ pod ++ "-" ++ int_text 8000 ++ ".proxy.runpod.net" \/
  exists runtime, get_field (pod_payload "pod-name") "runtime" = JObj runtime.
Proof.
  destruct (route_is_the_workload_port pod (pod_payload "pod-name") profile_h100
    "https://pod-0001-8000.proxy.runpod.net" ltac:(vm_compute; reflexivity)) as [H|(r & _ & _ & _ & _ & _ & H & _)].
  - left. exact H.
  - right. exists r. exact H.
Defined.
