(* ===== verification/Reconciler.v ===== *)
(** The one-shot reconciliation command ([pod_capacity_reconciler.py]): its summary, its
    exit statuses and what it writes; then its exit status and what its summary counts,
    as theorems. *)
From S2P Require Import Prelude PyStr Enums Errors PyDecimal PyTime Json ContractsBase Quote CatalogRequest Evidence Lease Scenario.

#[local] Open Scope Z_scope.

Module Reconciler.

Definition EXIT_OK : Z := 0.
Definition EXIT_RUNTIME_ERROR : Z := 70.
Definition EXIT_CONFIGURATION_ERROR : Z := 78.
Definition EXIT_RETRYABLE : Z := 75.

(** ** Summary *)

Record PodCapacityReconcileSummary := {
  su_reconciled_count : Z;
  su_catalog_count : Z;
  su_retryable_error_count : Z;
  su_unresolved_billing_count : Z;
  su_pending_billing_count : Z;
  su_states : list (string * Z)
}.

Definition requires_retry (s : PodCapacityReconcileSummary) : bool :=
  (0 <? su_retryable_error_count s) || (0 <? su_unresolved_billing_count s).

(** [dict] assignment: a key keeps its place, its value is replaced. *)
Fixpoint put {A} (key : string) (value : A) (l : list (string * A)) : list (string * A) :=
  match l with
  | [] => [(key, value)]
  | (k, v) :: r => if String.eqb k key then (key, value) :: r else (k, v) :: put key value r
  end.

(** [{lease.cleanup_token: lease for lease in leases}.values()]: one lease per token,
    the last reported. *)
Definition unique (leases : list TrainingPodLease) : list TrainingPodLease :=
  map snd (fold_left (fun d l => put (ls_cleanup_token l) l d) leases []).

Definition count {A} (p : A -> bool) (l : list A) : Z := Z.of_nat (length (List.filter p l)).

(** [Counter(...)]: each value with its number of occurrences. *)
Fixpoint tally (name : string) (l : list (string * Z)) : list (string * Z) :=
  match l with
  | [] => [(name, 1)]
  | (k, n) :: r => if String.eqb k name then (k, n + 1) :: r else (k, n) :: tally name r
  end.

Definition counter (names : list string) : list (string * Z) :=
  fold_left (fun c name => tally name c) names [].

(** A live lease whose last pass left an error. *)
Definition retryable (l : TrainingPodLease) : bool :=
  negb (bool_decide (ls_state l = RELEASED)) && is_some (ls_last_provider_error l).

(** [_summarize]. *)
Definition summarize (leases : list TrainingPodLease) : PodCapacityReconcileSummary :=
  let values := unique leases in
  let catalog := List.filter is_catalog_attempt values in
  {|
    su_reconciled_count := Z.of_nat (length values);
    su_catalog_count := Z.of_nat (length catalog);
    su_retryable_error_count := count retryable values;
    su_unresolved_billing_count := count (fun l => bool_decide (ls_billing_state l = BILLING_UNRESOLVED)) catalog;
    su_pending_billing_count := count (fun l => bool_decide (ls_billing_state l = BILLING_PENDING)) catalog;
    su_states := counter (map (fun l => state_value (ls_state l)) values)
  |}.

(** [to_dict]. *)
Definition summary_to_dict (s : PodCapacityReconcileSummary) : list (string * json) :=
  [("status", JStr (if requires_retry s then "retryable" else "ok"));
   ("reconciled_count", JInt (su_reconciled_count s));
   ("catalog_count", JInt (su_catalog_count s));
   ("retryable_error_count", JInt (su_retryable_error_count s));
   ("unresolved_billing_count", JInt (su_unresolved_billing_count s));
   ("pending_billing_count", JInt (su_pending_billing_count s));
   ("states", JObj (sort_keys (map (fun p => (fst p, JInt (snd p))) (su_states s))))].

(** ** The command *)

(** [_positive_timeout] of [float(value)]; [None] when the text is no number. *)
Definition positive_timeout (parsed : option Decimal) : result Decimal :=
  let! t := of_option parsed PodCapacityReconcilerConfigurationError in
  run! require (dlt dzero t && dle t (of_int 3600)) PodCapacityReconcilerConfigurationError then
  Ok t.

(** [_parse_arguments]: the factory reference and the timeout, from the command line
    or the environment. *)
Definition parse_arguments (service_factory : option string) (timeout : option Decimal)
  : result (string * Decimal) :=
  let! t := positive_timeout timeout in
  match service_factory with
  | Some f => if bool_decide (f = "") then Exc PodCapacityReconcilerConfigurationError else Ok (f, t)
  | None => Exc PodCapacityReconcilerConfigurationError
  end.

(** [except (RunPodManagerError, OSError, TypeError, ValueError)]. *)
Definition is_construction_error (e : exn) : bool :=
  match e with
  | OSError | TimeoutError | TypeError | ValueError => true
  | _ => is_manager_error e
  end.

Definition construct {A} (service : result A) : result A :=
  match service with
  | Exc e => Exc (if is_construction_error e then PodCapacityReconcilerConfigurationError else e)
  | ok => ok
  end.

Definition status_line (status : string) : list (string * json) := [("status", JStr status)].
Definition error_line (e : exn) : list (string * json) :=
  [("status", JStr "error"); ("error_type", JStr (exn_name e))].

(** The pass under the lock, and the summary of its leases. *)
Definition run_pass (leases : result (list TrainingPodLease)) : result (Z * list (string * json)) :=
  match leases with
  | Ok ls =>
      let summary := summarize ls in
      Ok (if requires_retry summary then EXIT_RETRYABLE else EXIT_OK, summary_to_dict summary)
  | Exc TimeoutError => Ok (EXIT_RETRYABLE, status_line "timeout")
  | Exc e =>
      if is_manager_error e then Ok (EXIT_RUNTIME_ERROR, error_line e)
      else
        match e with
        | OSError | SqliteError => Ok (EXIT_RUNTIME_ERROR, error_line e)
        | _ => Exc e
        end
  end.

(** What leaves the locked section or precedes it. *)
Definition exit_status (outcome : result (Z * list (string * json))) : result (Z * list (string * json)) :=
  match outcome with
  | Exc PodCapacityReconcilerBusyError => Ok (EXIT_RETRYABLE, status_line "busy")
  | Exc PodCapacityReconcilerConfigurationError => Ok (EXIT_CONFIGURATION_ERROR, status_line "configuration_error")
  | r => r
  end.

(** [run_cli]: [load] resolves the factory reference, [service] constructs it, [lock]
    takes the reconciliation lock and [pass_] is the timed pass over the service.
    The answer is the exit status and the line written. *)
Definition run_cli {F S} (service_factory : option string) (timeout : option Decimal)
  (load : string -> result F) (service : F -> result S) (lock : S -> result unit)
  (pass_ : S -> Decimal -> result (list TrainingPodLease)) : result (Z * list (string * json)) :=
  exit_status
    (let! arguments := parse_arguments service_factory timeout in
     let! factory := load (fst arguments) in
     let! built := construct (service factory) in
     run! lock built then
     run_pass (pass_ built (snd arguments))).

(** ** What the summary says *)

Lemma put_keys {A} key (value : A) l :
  List.NoDup (map fst l) -> List.NoDup (map fst (put key value l)) /\
  (forall k, In k (map fst (put key value l)) <-> k = key \/ In k (map fst l)).
Proof.
  induction l as [|[k v] r IH]; cbn [put map fst]; intros Hn.
  - split; [constructor; [by intros []|constructor]|]. intros k. cbn. naive_solver.
  - apply NoDup_cons_iff in Hn as [Hk Hr]. destruct (String.eqb_spec k key) as [->|Hne]; cbn [map fst].
    + split; [by constructor|]. intros k'. cbn. naive_solver.
    + destruct (IH Hr) as [IH1 IH2]. split; [constructor; [|done]|].
      * rewrite IH2. naive_solver.
      * intros k'. cbn. rewrite IH2. naive_solver.
Qed.

(** The lease a token was last reported with. *)
Definition last_report (token : string) (leases : list TrainingPodLease) : option TrainingPodLease :=
  fold_left (fun o l => if String.eqb (ls_cleanup_token l) token then Some l else o) leases None.

Fixpoint lookup_put {A} (d : list (string * A)) (k : string) : option A :=
  match d with [] => None | (k', v) :: r => if String.eqb k' k then Some v else lookup_put r k end.

Lemma lookup_put_put {A} key (value : A) l k :
  lookup_put (put key value l) k = if String.eqb key k then Some value else lookup_put l k.
Proof.
  induction l as [|[k' v] r IH]; cbn [put lookup_put]; [done|].
  destruct (String.eqb_spec k' key) as [->|Hne]; cbn [lookup_put].
  - by destruct (String.eqb key k).
  - rewrite IH. destruct (String.eqb_spec k' k) as [->|]; [|done].
    by destruct (String.eqb_spec key k) as [->|].
Qed.

Lemma lookup_put_in {A} (d : list (string * A)) k v :
  List.NoDup (map fst d) -> lookup_put d k = Some v <-> In (k, v) d.
Proof.
  induction d as [|[k' v'] r IH]; cbn [map fst lookup_put]; [done|]. intros Hn.
  apply NoDup_cons_iff in Hn as [Hk Hr].
  destruct (String.eqb_spec k' k) as [->|Hne]; cbn [In].
  - split; [intros [= ->]; by left|]. intros [[= ->]|Hin]; [done|].
    destruct Hk. apply in_map_iff. by exists (k, v).
  - rewrite (IH Hr). naive_solver.
Qed.

(** The dictionary comprehension: distinct tokens, each with its last report. *)
Lemma comprehension leases :
  let d := fold_left (fun d l => put (ls_cleanup_token l) l d) leases [] in
  List.NoDup (map fst d) /\
  (forall k v, In (k, v) d -> ls_cleanup_token v = k) /\
  (forall token, lookup_put d token = last_report token leases).
Proof.
  unfold last_report. induction leases as [|l leases IH] using rev_ind; cbn zeta in *.
  - split; [constructor|]. split; done.
  - rewrite !fold_left_app. cbn [fold_left]. destruct IH as (Hn & Hk & Hl).
    set (d := fold_left _ leases []) in *.
    destruct (put_keys (ls_cleanup_token l) l d Hn) as [Hn' _].
    assert (Hl' : forall token, lookup_put (put (ls_cleanup_token l) l d) token =
      fold_left (fun o l0 => if String.eqb (ls_cleanup_token l0) token then Some l0 else o) (leases ++ [l]) None).
    { intros token. rewrite lookup_put_put, fold_left_app. cbn [fold_left].
      destruct (String.eqb _ _); [done|apply Hl]. }
    split; [done|]. split.
    + intros k v Hin. apply lookup_put_in in Hin; [|done]. rewrite lookup_put_put in Hin.
      destruct (String.eqb_spec (ls_cleanup_token l) k) as [<-|]; [congruence|].
      apply Hk. by apply lookup_put_in.
    + intros token. rewrite Hl', fold_left_app. done.
Qed.

Lemma unique_spec leases v :
  In v (unique leases) <-> last_report (ls_cleanup_token v) leases = Some v.
Proof.
  unfold unique. destruct (comprehension leases) as (Hn & Hk & Hl). cbn zeta in *.
  rewrite <- Hl. rewrite lookup_put_in by done. rewrite in_map_iff. split.
  - intros ([k v'] & Heq & Hin). cbn in Heq. subst v'. by rewrite (Hk _ _ Hin).
  - intros Hin. by exists (ls_cleanup_token v, v).
Qed.

Lemma count_pos {A} (p : A -> bool) l : (0 <? count p l) = true <-> exists a, In a l /\ p a = true.
Proof.
  unfold count. rewrite Z.ltb_lt. split.
  - intros Hc. destruct (List.filter p l) as [|a r] eqn:E; [cbn in Hc; lia|].
    exists a. apply filter_In. rewrite E. by left.
  - intros (a & Ha). apply filter_In in Ha. destruct (List.filter p l); [done|]. cbn. lia.
Qed.

Lemma requires_retry_spec leases :
  requires_retry (summarize leases) = true <->
  exists l, last_report (ls_cleanup_token l) leases = Some l /\
    (retryable l = true \/ (is_catalog_attempt l = true /\ ls_billing_state l = BILLING_UNRESOLVED)).
Proof.
  unfold requires_retry, summarize. cbn. rewrite orb_true_iff, !count_pos. split.
  - intros [(l & Hin & Hp)|(l & Hin & Hp)].
    + exists l. rewrite <- unique_spec. auto.
    + apply filter_In in Hin as [Hin Hc]. exists l. rewrite <- unique_spec.
      apply bool_decide_eq_true_1 in Hp. auto.
  - intros (l & Hin & [Hp|[Hc Hp]]); rewrite <- unique_spec in Hin; [left; by exists l|right].
    exists l. split; [by apply filter_In|]. by apply bool_decide_eq_true_2.
Qed.

(** Every lease is in exactly one state count. *)
Definition total (c : list (string * Z)) : Z := fold_right (fun p s => snd p + s) 0 c.

Lemma total_tally name c : total (tally name c) = total c + 1.
Proof.
  induction c as [|[k n] r IH]; cbn [tally total fold_right snd]; [done|].
  destruct (String.eqb k name); cbn [fold_right snd]; fold (total r); [lia|].
  fold (total (tally name r)). lia.
Qed.

Lemma total_counter names : total (counter names) = Z.of_nat (length names).
Proof.
  unfold counter. induction names as [|x names IH] using rev_ind; [done|].
  rewrite fold_left_app, length_app. cbn [fold_left length]. rewrite total_tally. lia.
Qed.

End Reconciler.

Import Scenario.Scenario.

#[local] Open Scope Z_scope.

(** What a pass leaves for a later one: an error on an unreleased lease, or an
    attempt whose bill could not be resolved. *)
Definition unfinished (leases : list TrainingPodLease) : Prop :=
  exists l, Reconciler.last_report (ls_cleanup_token l) leases = Some l /\
    (Reconciler.retryable l = true \/
     (is_catalog_attempt l = true /\ ls_billing_state l = BILLING_UNRESOLVED)).

Section Command.
Context {F S : Type}.
Context (service_factory : option string) (timeout : option Decimal).
Context (load : string -> result F) (service : F -> result S) (lock : S -> result unit).
Context (pass_ : S -> Decimal -> result (list TrainingPodLease)).

#[local] Abbreviation outcome := (Reconciler.run_cli service_factory timeout load service lock pass_).

(** The pass ran, on valid arguments and under the lock, and answered these leases. *)
Definition answered (leases : list TrainingPodLease) : Prop :=
  exists f t factory built,
    service_factory = Some f /\ f <> "" /\ timeout = Some t /\ dlt dzero t = true /\ dle t (of_int 3600) = true /\
    load f = Ok factory /\ service factory = Ok built /\ lock built = Ok tt /\ pass_ built t = Ok leases.

Lemma answered_outcome leases :
  answered leases ->
  outcome = Ok (if Reconciler.requires_retry (Reconciler.summarize leases) then Reconciler.EXIT_RETRYABLE
                else Reconciler.EXIT_OK, Reconciler.summary_to_dict (Reconciler.summarize leases)).
Proof.
  intros (f & t & factory & built & -> & Hf & -> & H0 & H1 & Hload & Hservice & Hlock & Hpass).
  unfold Reconciler.run_cli, Reconciler.parse_arguments, Reconciler.positive_timeout. cbn [of_option rbind].
  rewrite H0, H1. cbn [andb require rbind]. rewrite bool_decide_false_eq by done. cbn [rbind fst snd].
  rewrite Hload. cbn [rbind]. rewrite Hservice. cbn [Reconciler.construct rbind]. rewrite Hlock. cbn [rbind].
  by rewrite Hpass.
Qed.

Lemma exit_ok_answered line :
  outcome = Ok (Reconciler.EXIT_OK, line) ->
  exists leases, answered leases /\ Reconciler.requires_retry (Reconciler.summarize leases) = false.
Proof.
  unfold Reconciler.run_cli, Reconciler.exit_status. destruct (rbind _ _) as [[status l]|e] eqn:E; [|by destruct e].
  intros [= -> _]. apply rbind_ok in E as ([f t] & Hargs & E). apply rbind_ok in E as (factory & Hload & E).
  apply rbind_ok in E as (built & Hservice & E). apply rbind_ok in E as ([] & Hlock & E). cbn [fst snd] in *.
  unfold Reconciler.parse_arguments, Reconciler.positive_timeout in Hargs. res_inv.
  destruct service_factory as [f'|] eqn:Efactory; [|done]. destruct (bool_decide (f' = "")) eqn:Ef; [done|]. res_inv. split_bools.
  unfold Reconciler.construct in Hservice. destruct (service factory) as [b|] eqn:Es; [|done]. injection Hservice as ->.
  unfold Reconciler.run_pass in E. destruct (pass_ built t) as [leases|e] eqn:Ep.
  - exists leases. destruct (Reconciler.requires_retry _) eqn:Er; [done|]. split; [|done].
    exists f, t, factory, built. by split_and!.
  - destruct e; cbn in E; first [discriminate E | injection E as E _; discriminate E].
Qed.

(** The exit status tells a scheduler the truth: the command exits 0 exactly when
    its arguments were valid, the service was built, the lock was free and the pass
    answered leases of which none is unfinished; an answered pass that leaves
    something unfinished exits 75 with its summary. *)
Theorem exit_status_is_honest :
  ((exists line, outcome = Ok (Reconciler.EXIT_OK, line)) <->
   (exists leases, answered leases /\ ~ unfinished leases)) /\
  (forall leases, answered leases -> unfinished leases ->
     outcome = Ok (Reconciler.EXIT_RETRYABLE, Reconciler.summary_to_dict (Reconciler.summarize leases))).
Proof.
  assert (Hretry : forall leases, Reconciler.requires_retry (Reconciler.summarize leases) = true <-> unfinished leases)
    by (intros; apply Reconciler.requires_retry_spec).
  split; [split|].
  - intros (line & Ho). apply exit_ok_answered in Ho as (leases & Ha & Hr). exists leases. split; [done|].
    rewrite <- Hretry. by rewrite Hr.
  - intros (leases & Ha & Hn). eexists. rewrite (answered_outcome _ Ha).
    destruct (Reconciler.requires_retry _) eqn:E; [|done]. by apply Hretry in E.
  - intros leases Ha Hu. rewrite (answered_outcome _ Ha). by apply Hretry in Hu as ->.
Qed.

End Command.

(** The summary counts each lease once, as last reported: the reconciled count is
    the number of distinct tokens, every one of them is in exactly one state count,
    and the catalog count does not exceed it. *)
Theorem summary_counts_leases_once leases :
  let s := Reconciler.summarize leases in
  exists tokens, List.NoDup tokens /\
    (forall token, In token tokens <-> exists l, In l leases /\ ls_cleanup_token l = token) /\
    Reconciler.su_reconciled_count s = Z.of_nat (length tokens) /\
    Reconciler.total (Reconciler.su_states s) = Reconciler.su_reconciled_count s /\
    0 <= Reconciler.su_catalog_count s <= Reconciler.su_reconciled_count s.
Proof.
  cbv zeta. unfold Reconciler.summarize. cbn -[Reconciler.unique Reconciler.counter Reconciler.count].
  destruct (Reconciler.comprehension leases) as (Hn & Hk & Hl). cbv zeta in *.
  set (d := fold_left _ leases []) in *. exists (map fst d). split; [done|].
  assert (Hlast : forall token, is_Some (Reconciler.last_report token leases) <->
    exists l, In l leases /\ ls_cleanup_token l = token).
  { intros token. unfold Reconciler.last_report. clear. induction leases as [|l leases IH] using rev_ind.
    - split; [intros [? [=]]|intros (? & [] & _)].
    - rewrite fold_left_app. cbn [fold_left]. destruct (String.eqb_spec (ls_cleanup_token l) token) as [Heq|Hne].
      + split; [|by eauto]. intros _. exists l. split; [apply in_or_app; right; by left|done].
      + rewrite IH. split; intros (l' & Hin & Ht); exists l'; (split; [|done]).
        * apply in_or_app. by left.
        * apply in_app_or in Hin as [|[->|[]]]; done. }
  split; [|split; [|split]].
  - intros token. rewrite <- Hlast, <- Hl. rewrite in_map_iff. split.
    + intros ([k v] & <- & Hin). exists v. by apply Reconciler.lookup_put_in.
    + intros [v Hv]. exists (token, v). split; [done|]. by apply Reconciler.lookup_put_in in Hv.
  - unfold Reconciler.unique. fold d. by rewrite !length_map.
  - rewrite Reconciler.total_counter. by rewrite length_map.
  - split; [lia|]. apply inj_le, filter_length_le.
Qed.
