(* ===== verification/Findings.v ===== *)
(** Behaviours of the code that its own comments and design do not intend, each as a
    theorem about the model or an execution of it. *)
From Stdlib Require Import Ascii.
From S2P Require Import Prelude PyStr Enums Errors PyDecimal PyTime Json ContractsBase.
From S2P Require Import Quote CatalogRequest Evidence Lease Row Repository World.
From S2P Require Import Provider ServiceCore ServiceAcquire ServiceWorkload ServiceReconcile Evolves Logic Scenario.
From S2P Require Import ServiceProperties ContractProperties.
Import Scenario.Scenario.

#[local] Open Scope Z_scope.

(** ** Two clock readings in a zero-cost settlement *)

Lemma record_first_errors l values e : record_first l values = Exc e -> e = ValueError.
Proof.
  unfold record_first, mk_lifecycle, check_lifecycle, require. intros He.
  repeat (destr_match_in He; cbn [rbind] in He); congruence.
Qed.

Lemma check_evidence_errors ev e : check_evidence ev = Exc e -> e = ValueError.
Proof.
  unfold check_evidence, require. intros He.
  repeat (destr_match_in He; cbn [rbind] in He); congruence.
Qed.

Lemma mk_receipt_errors r e : mk_receipt r = Exc e -> e = ValueError.
Proof.
  unfold mk_receipt, check_receipt, require. intros He.
  repeat (destr_match_in He; cbn [rbind] in He); congruence.
Qed.

(** Evidence never takes a receipt and a reconciliation instant that differ. *)
Lemma update_needs_equal_instants ev t r :
  ev_billing ev = None -> lc_billing_reconciled_at (ev_lifecycle ev) = None -> t <> rc_reconciled_at r ->
  update_evidence ev {| eu_lifecycle := [(F_billing_reconciled_at, t)]; eu_realized_placement := None;
                        eu_worker := None; eu_billing := Some r |} = Exc ValueError.
Proof.
  intros Hb Hl Hne. unfold update_evidence. cbn [eu_lifecycle eu_realized_placement eu_worker eu_billing].
  destruct (record_first _ _) as [l|e] eqn:El; cbn [rbind]; [|by apply record_first_errors in El as ->].
  assert (Hlc : lc_billing_reconciled_at l = Some t).
  { unfold record_first, mk_lifecycle in El. apply rbind_ok in El as (u & _ & [= <-]).
    cbn [fold_left fst snd]. unfold lc_first. cbn [lc_billing_reconciled_at lc_get].
    rewrite bool_decide_true_eq by done. by rewrite Hl. }
  rewrite Hb. cbn [keep_first rbind]. unfold mk_evidence.
  destruct (check_evidence _) as [u|e] eqn:Ec; cbn [rbind]; [|by apply check_evidence_errors in Ec as ->].
  exfalso. unfold check_evidence in Ec. cbn in Ec. res_inv. rewrite Hlc in *. cbn in *. split_bools. congruence.
Qed.

Lemma zero_cost_receipt_reads_clock {dg : Digest} (H : Host) lease reason w :
  is_catalog_attempt lease = true ->
  exists res, zero_cost_receipt H lease reason w = (res, tick w) /\
    match res with Ok r => rc_reconciled_at r = h_clock H (w_tick w) | Exc e => e = ValueError end.
Proof.
  unfold zero_cost_receipt, capacity_spec, is_catalog_attempt. destruct (ls_capacity_spec lease) as [spec|]; [|done].
  intros _. unfold bind, lift, now. cbn [of_option]. eexists. split; [reflexivity|].
  destruct (mk_receipt _) as [r|e] eqn:Er; [|by apply mk_receipt_errors in Er].
  unfold mk_receipt in Er. apply rbind_ok in Er as (u & _ & [= <-]). done.
Qed.

(** A claim without a Pod settles only by luck: the receipt of an attempt that
    never had a Pod is stamped by one reading of the clock and the transition by
    another, and evidence refuses the pair unless the two readings are equal. Every
    zero-cost settlement of such an attempt whose readings differ raises ValueError,
    with the table as it was, an error no handler of the service catches. *)
Theorem zero_cost_settlement_needs_equal_clocks {dg : Digest} (H : Host) n lease ev reason t changes w :
  is_catalog_attempt lease = true -> is_terminal lease = false ->
  ls_evidence lease = Some ev -> ev_billing ev = None -> lc_billing_reconciled_at (ev_lifecycle ev) = None ->
  h_clock H (w_tick w) <> t ->
  fst (settle_without_pod H (S n) lease reason t changes w) = Exc ValueError /\
  w_db (snd (settle_without_pod H (S n) lease reason t changes w)) = w_db w.
Proof.
  intros Hc Ht He Hb Hl Hne. unfold settle_without_pod. rewrite Hc. unfold bind at 1 3.
  destruct (zero_cost_receipt_reads_clock H lease reason w Hc) as (res & -> & Hres).
  destruct res as [r|e]; [|by subst]. unfold bind, transition. cbn [transition_with_evidence].
  rewrite Ht. unfold bind, lift, evidence_changes. rewrite He, update_needs_equal_instants by congruence. done.
Qed.

(** *** An expired reservation of a catalog attempt *)

Definition reserved_name : string.
Proof.
  let r := eval vm_compute in (@request_resource_name sample_digest request) in
  match r with Ok ?s => exact s end.
Defined.

Definition reservation : TrainingPodRequest := {|
  tr_cleanup_token := "capacity-0001"; tr_companion_id := "owner-0001"; tr_profile_id := "training-h100";
  tr_source := CREATED; tr_resource_name := reserved_name; tr_provider_pod_id := None;
  tr_created_at := at_ 60; tr_readiness_deadline := at_ 700; tr_hard_deadline := at_ 3000;
  tr_root_cleanup_token := "capacity-0001"; tr_capacity_spec := Some secret_spec
|}.

Definition requested_row : TrainingPodLease.
Proof.
  let r := eval vm_compute in (@reserved_row sample_digest reservation) in
  match r with Ok ?l => exact l end.
Defined.

Definition requested_evidence : PodCapacityEvidence.
Proof. let e := eval vm_compute in (ls_evidence requested_row) in match e with Some ?x => exact x end. Defined.

Lemma zero_cost_settlement_needs_equal_clocks_witness :
  fst (settle_without_pod (host 0) 5 requested_row "before-create" (at_ 7299)
         [SetState RELEASED; SetCleanupState CLEANUP_COMPLETE; SetLastProviderError None]
         (one_row requested_row)) = Exc ValueError.
Proof.
  apply (zero_cost_settlement_needs_equal_clocks (host 0) 4 requested_row requested_evidence);
    [reflexivity|reflexivity|reflexivity|reflexivity|reflexivity|vm_compute; intros E; discriminate E].
Defined.

(** The reconciliation pass that finds the reservation expired is aborted by it. *)
Example expired_reservation_aborts_pass :
  fst (reconcile (host 0) 5 (one_row requested_row)) = Exc ValueError /\
  w_db (snd (reconcile (host 0) 5 (one_row requested_row))) !! "capacity-0001" = Some requested_row.
Proof. split; vm_compute; reflexivity. Qed.

(** ** A failed revocation *)

(** A store that cannot revoke for the moment. *)
Definition revoking_later : CapabilityStore := {|
  cs_load_or_create := cs_load_or_create capabilities;
  cs_load := cs_load capabilities;
  cs_revoke := fun _ _ => Exc RunPodManagerError
|}.

Definition flaky_host : Host := {|
  h_clock := clock 0; h_wall_clock := clock 0; h_interfere := fun _ db => db; h_cancelled := fun _ => false;
  h_sleep := fun _ => Ok tt; h_provider := h_provider (host 0); h_capability_store := Some revoking_later;
  h_workload_transport := Some worker; h_status_observer := None;
  h_profiles := [("training-h100", profile_h100)]; h_orphan_timeout := seconds 900
|}.

(** The attempt, stopped and billed, whose credential could not be revoked. *)
Definition unrevoked_row : TrainingPodLease.
Proof.
  let r := eval vm_compute in (row_of (run_history flaky_host 5 [OpReconcile] (one_row stopped_row))) in
  match r with Some ?l => exact l end.
Defined.

Definition torn_down_again : world := snd (reconcile (host 0) 5 (one_row unrevoked_row)).

(** A billed attempt can be torn down again: when only the revocation of its
    credential failed, the next pass terminates the Pod once more, takes the billing
    state back from authoritative to pending and moves the termination time, while
    the receipt of the first settlement stays; the attempt is not released. *)
Theorem failed_revocation_repeats_teardown :
  (bool_decide (ls_billing_state unrevoked_row = BILLING_AUTHORITATIVE) &&
   bool_decide (ls_cleanup_state unrevoked_row = CLEANUP_COMPLETE)) = true /\
  In (CallTerminate pod) (map fst (w_trace torn_down_again)) /\
  match row_of torn_down_again with
  | Some l =>
      (bool_decide (ls_billing_state l = BILLING_PENDING) &&
       bool_decide (ls_billing_receipt l = ls_billing_receipt unrevoked_row) &&
       negb (bool_decide (ls_terminated_at l = ls_terminated_at unrevoked_row)) &&
       negb (is_terminal l)) = true
  | None => False
  end.
Proof. split; [vm_compute; reflexivity|]. split; [called|vm_compute; reflexivity]. Qed.

(** ** Other escapes *)

(** A submission replayed after the worker was first seen running: its instant is
    later than the recorded start, and evidence refuses it. *)
Lemma late_submission_refused ev t running :
  lc_workload_submitted_at (ev_lifecycle ev) = None -> lc_workload_running_at (ev_lifecycle ev) = Some running ->
  running < t -> update_evidence ev (with_lifecycle [(F_workload_submitted_at, t)]) = Exc ValueError.
Proof.
  intros Hs Hr Hlt. unfold update_evidence. cbn [eu_lifecycle with_lifecycle].
  destruct (record_first _ _) as [l|e] eqn:El; cbn [rbind]; [|by apply record_first_errors in El as ->].
  exfalso. unfold record_first, mk_lifecycle in El. apply rbind_ok in El as ([] & Hc & [= <-]).
  apply lifecycle_stages in Hc as (Ho & _ & _). cbn [fold_left fst snd] in Ho. unfold lc_first in Ho.
  specialize (Ho F_workload_submitted_at F_workload_running_at t running). cbn in Ho. rewrite Hs, Hr in Ho. cbn in Ho.
  specialize (Ho eq_refl eq_refl ltac:(lia)). lia.
Qed.

(** A public port that is no number raises an error that is no manager error. *)
Lemma malformed_public_port :
  Provider.pod_base_url pod
    [("runtime", JObj [("ports", JList [JObj [("private", JInt 8000); ("type", JStr "tcp"); ("ip", JStr "1.2.3.4");
                                              ("public", JStr "x")]])])] profile_h100 = Exc ValueError.
Proof. vm_compute. reflexivity. Qed.

(** A Pod identifier of blanks makes the error that should carry it another error. *)
Lemma blank_pod_identifier : created_mismatch "  " = ValueError.
Proof. reflexivity. Qed.
