(* ===== verification/ServerlessSpec.v ===== *)
(** Serverless endpoint contracts: constraints, the immutable endpoint specification
    and its create request, profiles, plans and quote requests
    ([serverless_capacity_contracts.py], [models.py]). *)
From S2P Require Import Prelude PyStr Enums Errors PyDecimal PyTime Json PyFloat.
From S2P Require Import Placement ContractsBase CodecBase.
From Stdlib Require Import Ascii.

#[local] Open Scope Z_scope.

(** ** Enumerations of [models.py] *)

Inductive FlashBoot := FLASHBOOT_OFF | FLASHBOOT | PRIORITY_FLASHBOOT.
Inductive EndpointResourceVersion := RESOURCE_LEGACY | RESOURCE_GA.

#[export] Instance FlashBoot_dec : EqDecision FlashBoot.
Proof. solve_decision. Defined.
#[export] Instance EndpointResourceVersion_dec : EqDecision EndpointResourceVersion.
Proof. solve_decision. Defined.

Definition flashboot_value (f : FlashBoot) : string :=
  match f with
  | FLASHBOOT_OFF => "OFF" | FLASHBOOT => "FLASHBOOT" | PRIORITY_FLASHBOOT => "PRIORITY_FLASHBOOT"
  end.

#[export] Instance FlashBoot_enum : PyEnum FlashBoot.
Proof. enum_instance [FLASHBOOT_OFF; FLASHBOOT; PRIORITY_FLASHBOOT] flashboot_value. Defined.

(** ** Field validators *)

(** [[A-Za-z0-9][A-Za-z0-9._:-]{0,254}]. *)
Definition serverless_identifier (s : string) : bool :=
  (len s <=? 255) && starts_with is_alnum s && all_chars is_ident s.

(** [needle in s]. *)
Fixpoint contains (needle s : list ascii) : bool :=
  is_some (strip_prefix needle s) ||
  match s with [] => false | _ :: r => contains needle r end.

(** [_safe_display_name]. *)
Definition serverless_display_name (s : string) : bool :=
  negb (blank s) && (len s <=? 255) && all_chars (fun c => 32 <=? code c) s &&
  negb (contains (chars "http://") (chars (lower s))) &&
  negb (contains (chars "https://") (chars (lower s))).

(** A worker reference pinned by digest that is no URL. *)
Definition worker_reference_ok (s : string) : bool :=
  is_image_reference s && negb (contains (chars "://") (chars s)).

(** [_positive_decimal], [_nonnegative_decimal]. *)
Definition positive_decimal (d : Decimal) : bool := is_finite d && negb (dle d dzero).
Definition nonnegative_decimal (d : Decimal) : bool := is_finite d && negb (dlt d dzero).

(** [_identifiers]. *)
Definition identifiers_ok (l : list string) : bool :=
  negb (bool_decide (l = [])) && bool_decide (NoDup l) && forallb serverless_identifier l.

Definition MAX_SERVERLESS_POLICY_MS : Z := 7 * 24 * 60 * 60 * 1000.
Definition MIN_EXECUTION_TIMEOUT_MS : Z := 5000.
Definition MIN_JOB_TTL_MS : Z := 10000.

(** ** [ServerlessCapacityConstraints] *)

Record ServerlessCapacityConstraints := {
  kc_min_vram_gb : Z;
  kc_gpu_count : Z;
  kc_cloud : CloudType;
  kc_min_cuda_version : option string;
  kc_allowed_gpu_pools : list string;
  kc_allowed_data_center_ids : list string;
  kc_max_hourly_worker_rate_usd : option Decimal;
  kc_minimum_availability : Availability;
  kc_benchmark_id : string
}.

#[export] Instance ServerlessCapacityConstraints_dec : EqDecision ServerlessCapacityConstraints.
Proof. solve_decision. Defined.

(** [__post_init__]. *)
Definition check_serverless_constraints (c : ServerlessCapacityConstraints) : result unit :=
  run! require (1 <=? kc_min_vram_gb c) ValueError then
  run! require (1 <=? kc_gpu_count c) ValueError then
  run! normalize_cuda_floor (kc_min_cuda_version c) then
  run! require (identifiers_ok (kc_allowed_gpu_pools c)) ValueError then
  run! require (identifiers_ok (kc_allowed_data_center_ids c)) ValueError then
  run! require (serverless_identifier (kc_benchmark_id c)) ValueError then
  require (option_all positive_decimal (kc_max_hourly_worker_rate_usd c)) ValueError.

Definition mk_serverless_constraints (c : ServerlessCapacityConstraints)
  : result ServerlessCapacityConstraints :=
  run! check_serverless_constraints c then Ok c.

(** [placement_requirements]: a rate limit beyond the floats is refused. *)
Definition serverless_requirements (c : ServerlessCapacityConstraints) : result PlacementRequirements :=
  let maximum_rate := float_of_decimal <$> kc_max_hourly_worker_rate_usd c in
  run! require (option_all is_finite maximum_rate) ValueError then
  let raw := {|
    pr_product := SERVERLESS;
    pr_min_vram_gb := kc_min_vram_gb c;
    pr_gpu_count := kc_gpu_count c;
    pr_cloud := kc_cloud c;
    pr_min_cuda_version := kc_min_cuda_version c;
    pr_max_cost_per_hr := maximum_rate;
    pr_allowed_gpu_ids := [];
    pr_allowed_gpu_pools := kc_allowed_gpu_pools c;
    pr_allowed_data_center_ids := kc_allowed_data_center_ids c;
    pr_minimum_availability := kc_minimum_availability c;
    pr_benchmark_id := Some (kc_benchmark_id c)
  |} in
  run! check_requirements raw then Ok raw.

(** [fingerprint_dict]. *)
Definition serverless_constraints_dict (c : ServerlessCapacityConstraints) : list (string * json) :=
  [("min_vram_gb", JInt (kc_min_vram_gb c));
   ("gpu_count", JInt (kc_gpu_count c));
   ("cloud", JStr (cloud_value (kc_cloud c)));
   ("min_cuda_version", opt_json JStr (kc_min_cuda_version c));
   ("allowed_gpu_pools", jstrs (kc_allowed_gpu_pools c));
   ("allowed_data_center_ids", jstrs (kc_allowed_data_center_ids c));
   ("max_hourly_worker_rate_usd", opt_json jdec (kc_max_hourly_worker_rate_usd c));
   ("minimum_availability", JStr (availability_value (kc_minimum_availability c)));
   ("benchmark_id", JStr (kc_benchmark_id c))].

Definition CONSTRAINT_FIELDS : list string :=
  ["min_vram_gb"; "gpu_count"; "cloud"; "min_cuda_version"; "allowed_gpu_pools";
   "allowed_data_center_ids"; "max_hourly_worker_rate_usd"; "minimum_availability"; "benchmark_id"].

Definition serverless_constraints_from_dict (value : list (string * json))
  : result ServerlessCapacityConstraints :=
  run! exact_keys value CONSTRAINT_FIELDS then
  let! pools := text_list (get_field value "allowed_gpu_pools") in
  let! data_centers := text_list (get_field value "allowed_data_center_ids") in
  run! optional_string (get_field value "max_hourly_worker_rate_usd") then
  let! min_vram_gb := required_int value "min_vram_gb" in
  let! gpu_count := required_int value "gpu_count" in
  let! cloud := required_enum value "cloud" in
  let! min_cuda := optional_nonempty (get_field value "min_cuda_version") in
  let! max_rate := optional_decimal (get_field value "max_hourly_worker_rate_usd") in
  let! minimum := required_enum value "minimum_availability" in
  let! benchmark := required_string value "benchmark_id" in
  mk_serverless_constraints {|
    kc_min_vram_gb := min_vram_gb;
    kc_gpu_count := gpu_count;
    kc_cloud := cloud;
    kc_min_cuda_version := min_cuda;
    kc_allowed_gpu_pools := pools;
    kc_allowed_data_center_ids := data_centers;
    kc_max_hourly_worker_rate_usd := max_rate;
    kc_minimum_availability := minimum;
    kc_benchmark_id := benchmark
  |}.

(** ** [EndpointCreateRequest] ([models.py]) *)

Record EndpointCreateRequest := {
  er_name : string;
  er_image : string;
  er_gpu_pools : list string;
  er_endpoint_type : string;
  er_scaling : list (string * json);
  er_gpu_count : Z;
  er_workers_min : Z;
  er_workers_max : Z;
  er_idle_timeout_seconds : option Z;
  er_disk_gb : Z;
  er_ports : list string;
  er_env : list (string * string);
  er_args : option string;
  er_registry_id : option string;
  er_data_center_ids : list string;
  er_network_volume_ids : list string;
  er_execution_timeout_ms : Z;
  er_flashboot : FlashBoot;
  er_min_cuda_version : option string;
  er_resource_schema_version : EndpointResourceVersion
}.

(** [__post_init__]. *)
Definition check_endpoint_create (r : EndpointCreateRequest) : result unit :=
  run! require
    (negb (bool_decide (er_name r = "")) && negb (bool_decide (er_image r = "")) &&
     negb (bool_decide (er_gpu_pools r = []))) ValueError then
  run! require
    (bool_decide (er_endpoint_type r = "QUEUE") || bool_decide (er_endpoint_type r = "LOAD_BALANCER"))
    ValueError then
  run! require
    (field_is (er_scaling r) "type" "QUEUE_DELAY" || field_is (er_scaling r) "type" "REQUEST_COUNT")
    ValueError then
  run! require
    (negb (bool_decide (er_endpoint_type r = "LOAD_BALANCER")) ||
     field_is (er_scaling r) "type" "REQUEST_COUNT") ValueError then
  run! require
    (negb (bool_decide (er_endpoint_type r = "QUEUE") && field_is (er_scaling r) "type" "REQUEST_COUNT" &&
           is_some (er_idle_timeout_seconds r))) ValueError then
  run! require
    ((1 <=? er_gpu_count r) && (0 <=? er_workers_min r) && (er_workers_min r <=? er_workers_max r))
    ValueError then
  run! normalize_cuda_floor (er_min_cuda_version r) then
  Ok tt.

(** [to_payload]: the JSON body of the create call. The floor is validated on
    construction, so its normal form exists. *)
Definition create_payload (r : EndpointCreateRequest) : list (string * json) :=
  let ga := bool_decide (er_resource_schema_version r = RESOURCE_GA) in
  let floor :=
    match er_min_cuda_version r, normalize_cuda_floor (er_min_cuda_version r) with
    | Some _, Ok (Some f) => if ga then [("minCudaVersion", JStr f)] else []
    | _, _ => []
    end in
  ([("name", JStr (er_name r));
    ("image", JStr (er_image r));
    ("type", JStr (er_endpoint_type r));
    ("gpu", JObj ([("pools", jstrs (er_gpu_pools r)); ("count", JInt (er_gpu_count r))] ++ floor));
    ("workers",
      JObj ([("min", JInt (er_workers_min r)); ("max", JInt (er_workers_max r))] ++
            match er_idle_timeout_seconds r with Some s => [("idleTimeout", JInt s)] | None => [] end));
    ("scaling", JObj (er_scaling r));
    ("disk", JInt (er_disk_gb r));
    ("ports", jstrs (er_ports r));
    ("env", JObj (str_fields (er_env r)));
    ("dataCenterIds", jstrs (er_data_center_ids r));
    ("networkVolumes", jstrs (er_network_volume_ids r));
    ("timeout", JInt (er_execution_timeout_ms r));
    ("flashboot", JStr (flashboot_value (er_flashboot r)))] ++
   match er_args r with Some a => [("args", JStr a)] | None => [] end ++
   match er_registry_id r with Some a => [("registry", JStr a)] | None => [] end ++
   if ga then
     [("mounts",
       JObj [("network", JList (map (fun v => JObj [("volumeId", JStr v)]) (er_network_volume_ids r)));
             ("global", JList [])])]
   else [])%list.

(** ** [ServerlessEndpointSpec] *)

Record ServerlessEndpointSpec := {
  es_worker_reference : string;
  es_constraints : ServerlessCapacityConstraints;
  es_workers_min : Z;
  es_workers_max : Z;
  es_idle_tail_seconds : Z;
  es_scaling_type : string;
  es_scaling_value : Decimal;
  es_execution_timeout_ms : Z;
  es_flashboot : FlashBoot;
  es_disk_gb : Z;
  es_registry_id : option string;
  es_network_volume_ids : list string;
  es_resource_schema_version : EndpointResourceVersion
}.

#[export] Instance ServerlessEndpointSpec_dec : EqDecision ServerlessEndpointSpec.
Proof. solve_decision. Defined.

(** [__post_init__]: a scale-to-zero endpoint of one worker with an observable idle
    tail and no network volume. *)
Definition check_endpoint_spec (s : ServerlessEndpointSpec) : result unit :=
  run! require (worker_reference_ok (es_worker_reference s)) ValueError then
  run! require (0 <=? es_workers_min s) ValueError then
  run! require (1 <=? es_workers_max s) ValueError then
  run! require ((es_workers_min s =? 0) && (es_workers_max s =? 1)) ValueError then
  run! require (1 <=? es_idle_tail_seconds s) ValueError then
  run! require (es_idle_tail_seconds s <=? 3600) ValueError then
  run! require (bool_decide (es_scaling_type s = "QUEUE_DELAY")) ValueError then
  run! require (positive_decimal (es_scaling_value s)) ValueError then
  run! require (dle (Fin 5 (-1)) (es_scaling_value s)) ValueError then
  run! require (1 <=? es_execution_timeout_ms s) ValueError then
  run! require
    ((MIN_EXECUTION_TIMEOUT_MS <=? es_execution_timeout_ms s) &&
     (es_execution_timeout_ms s <=? MAX_SERVERLESS_POLICY_MS)) ValueError then
  run! require (1 <=? es_disk_gb s) ValueError then
  run! require (option_all serverless_identifier (es_registry_id s)) ValueError then
  require (bool_decide (es_network_volume_ids s = [])) ValueError.

Definition mk_endpoint_spec (s : ServerlessEndpointSpec) : result ServerlessEndpointSpec :=
  run! check_endpoint_spec s then Ok s.

Definition version_field (v : EndpointResourceVersion) : list (string * json) :=
  match v with RESOURCE_GA => [("resource_schema_version", JInt 2)] | RESOURCE_LEGACY => [] end.

(** [spec_sha256]. *)
Definition spec_sha256 `{Digest} (s : ServerlessEndpointSpec) : string :=
  json_sha256 (JObj
    ([("worker_reference", JStr (es_worker_reference s))] ++
     version_field (es_resource_schema_version s) ++
     [("constraints", JObj (serverless_constraints_dict (es_constraints s)));
      ("workers", JObj [("min", JInt (es_workers_min s)); ("max", JInt (es_workers_max s))]);
      ("idle_tail_seconds", JInt (es_idle_tail_seconds s));
      ("scaling_type", JStr (es_scaling_type s));
      ("scaling_value", jdec (es_scaling_value s));
      ("execution_timeout_ms", JInt (es_execution_timeout_ms s));
      ("flashboot", JStr (flashboot_value (es_flashboot s)));
      ("disk_gb", JInt (es_disk_gb s));
      ("registry_id", opt_json JStr (es_registry_id s));
      ("network_volume_ids", jstrs (es_network_volume_ids s))])%list).

(** [create_request]. *)
Definition create_request (s : ServerlessEndpointSpec) (endpoint_name gpu_pool data_center_id : string)
  : result EndpointCreateRequest :=
  run! require (serverless_identifier endpoint_name) ValueError then
  run! require (bool_decide (gpu_pool ∈ kc_allowed_gpu_pools (es_constraints s))) ValueError then
  run! require (bool_decide (data_center_id ∈ kc_allowed_data_center_ids (es_constraints s))) ValueError then
  let request := {|
    er_name := endpoint_name;
    er_image := es_worker_reference s;
    er_gpu_pools := [gpu_pool];
    er_endpoint_type := "QUEUE";
    er_scaling := [("type", JStr (es_scaling_type s));
                   ("queueDelay", JFloat (float_of_decimal (es_scaling_value s)))];
    er_gpu_count := kc_gpu_count (es_constraints s);
    er_workers_min := es_workers_min s;
    er_workers_max := es_workers_max s;
    er_idle_timeout_seconds := Some (es_idle_tail_seconds s);
    er_disk_gb := es_disk_gb s;
    er_ports := [];
    er_env := [];
    er_args := None;
    er_registry_id := es_registry_id s;
    er_data_center_ids := [data_center_id];
    er_network_volume_ids := es_network_volume_ids s;
    er_execution_timeout_ms := es_execution_timeout_ms s;
    er_flashboot := es_flashboot s;
    er_min_cuda_version := kc_min_cuda_version (es_constraints s);
    er_resource_schema_version := es_resource_schema_version s
  |} in
  run! check_endpoint_create request then Ok request.

(** [operation_digest]: the digest of the exact body of the create call. *)
Definition operation_digest `{Digest} (s : ServerlessEndpointSpec)
  (endpoint_name gpu_pool data_center_id : string) : result string :=
  let! request := create_request s endpoint_name gpu_pool data_center_id in
  Ok (json_sha256 (JObj (create_payload request))).

(** [to_dict]. *)
Definition endpoint_spec_dict `{Digest} (s : ServerlessEndpointSpec) : list (string * json) :=
  ([("worker_reference", JStr (es_worker_reference s))] ++
   version_field (es_resource_schema_version s) ++
   [("constraints", JObj (serverless_constraints_dict (es_constraints s)));
    ("workers_min", JInt (es_workers_min s));
    ("workers_max", JInt (es_workers_max s));
    ("idle_tail_seconds", JInt (es_idle_tail_seconds s));
    ("scaling_type", JStr (es_scaling_type s));
    ("scaling_value", jdec (es_scaling_value s));
    ("execution_timeout_ms", JInt (es_execution_timeout_ms s));
    ("flashboot", JStr (flashboot_value (es_flashboot s)));
    ("disk_gb", JInt (es_disk_gb s));
    ("registry_id", opt_json JStr (es_registry_id s));
    ("network_volume_ids", jstrs (es_network_volume_ids s));
    ("spec_sha256", JStr (spec_sha256 s))])%list.

Definition ENDPOINT_SPEC_FIELDS : list string :=
  ["worker_reference"; "constraints"; "workers_min"; "workers_max"; "idle_tail_seconds"; "scaling_type";
   "scaling_value"; "execution_timeout_ms"; "flashboot"; "disk_gb"; "registry_id"; "network_volume_ids";
   "spec_sha256"].

(** The schema version a stored spec names: absent in the published v1 shape. *)
Definition stored_version (value : list (string * json)) : result EndpointResourceVersion :=
  if bool_decide ("resource_schema_version" ∈ keys value) then
    run! exact_keys value ("resource_schema_version" :: ENDPOINT_SPEC_FIELDS) then
    let! version := required_int value "resource_schema_version" in
    run! require (version =? 2) RunPodManagerError then
    Ok RESOURCE_GA
  else
    run! exact_keys value ENDPOINT_SPEC_FIELDS then
    Ok RESOURCE_LEGACY.

(** [from_dict]. *)
Definition endpoint_spec_from_dict `{Digest} (value : list (string * json)) : result ServerlessEndpointSpec :=
  let! version := stored_version value in
  let! raw_constraints := required_mapping value "constraints" in
  let! volumes := text_list (get_field value "network_volume_ids") in
  let! registry := optional_string (get_field value "registry_id") in
  let! worker_reference := required_string value "worker_reference" in
  let! constraints := serverless_constraints_from_dict raw_constraints in
  let! workers_min := required_int value "workers_min" in
  let! workers_max := required_int value "workers_max" in
  let! idle_tail := required_int value "idle_tail_seconds" in
  let! scaling_type := required_string value "scaling_type" in
  let! scaling_value := required_decimal value "scaling_value" in
  let! timeout := required_int value "execution_timeout_ms" in
  let! flashboot := required_enum value "flashboot" in
  let! disk := required_int value "disk_gb" in
  let! parsed := mk_endpoint_spec {|
    es_worker_reference := worker_reference;
    es_constraints := constraints;
    es_workers_min := workers_min;
    es_workers_max := workers_max;
    es_idle_tail_seconds := idle_tail;
    es_scaling_type := scaling_type;
    es_scaling_value := scaling_value;
    es_execution_timeout_ms := timeout;
    es_flashboot := flashboot;
    es_disk_gb := disk;
    es_registry_id := registry;
    es_network_volume_ids := volumes;
    es_resource_schema_version := version
  |} in
  let! stored_digest := required_string value "spec_sha256" in
  run! require (is_sha256 stored_digest) ValueError then
  run! require (bool_decide (stored_digest = spec_sha256 parsed)) RunPodManagerError then
  Ok parsed.

(** ** [ServerlessEndpointProfile] *)

Record ServerlessEndpointProfile := {
  ep_profile_id : string;
  ep_endpoint_id : string;
  ep_endpoint_name : string;
  ep_spec : ServerlessEndpointSpec
}.

(** [__post_init__]. *)
Definition check_endpoint_profile (p : ServerlessEndpointProfile) : result unit :=
  require
    (serverless_identifier (ep_profile_id p) && serverless_identifier (ep_endpoint_id p) &&
     serverless_identifier (ep_endpoint_name p)) ValueError.

(** [profile_sha256]. *)
Definition profile_sha256 `{Digest} (p : ServerlessEndpointProfile) : string :=
  json_sha256 (JObj
    [("profile_id", JStr (ep_profile_id p));
     ("endpoint_id", JStr (ep_endpoint_id p));
     ("endpoint_name", JStr (ep_endpoint_name p));
     ("endpoint_spec_sha256", JStr (spec_sha256 (ep_spec p)))]).

(** ** [PlannedServerlessEndpoint] *)

Record PlannedServerlessEndpoint := {
  pe_plan_id : string;
  pe_endpoint_name : string;
  pe_spec : ServerlessEndpointSpec
}.

#[export] Instance PlannedServerlessEndpoint_dec : EqDecision PlannedServerlessEndpoint.
Proof. solve_decision. Defined.

(** [__post_init__]. *)
Definition check_planned_endpoint (p : PlannedServerlessEndpoint) : result unit :=
  require (serverless_identifier (pe_plan_id p) && serverless_identifier (pe_endpoint_name p)) ValueError.

Definition mk_planned_endpoint (p : PlannedServerlessEndpoint) : result PlannedServerlessEndpoint :=
  run! check_planned_endpoint p then Ok p.

(** [plan_sha256]. *)
Definition plan_sha256 `{Digest} (p : PlannedServerlessEndpoint) : string :=
  json_sha256 (JObj
    [("plan_id", JStr (pe_plan_id p));
     ("endpoint_name", JStr (pe_endpoint_name p));
     ("endpoint_spec_sha256", JStr (spec_sha256 (pe_spec p)))]).

(** [to_dict], [from_dict]. *)
Definition planned_endpoint_dict `{Digest} (p : PlannedServerlessEndpoint) : list (string * json) :=
  [("plan_id", JStr (pe_plan_id p));
   ("endpoint_name", JStr (pe_endpoint_name p));
   ("spec", JObj (endpoint_spec_dict (pe_spec p)));
   ("plan_sha256", JStr (plan_sha256 p))].

Definition planned_endpoint_from_dict `{Digest} (value : list (string * json))
  : result PlannedServerlessEndpoint :=
  run! exact_keys value ["plan_id"; "endpoint_name"; "spec"; "plan_sha256"] then
  let! raw_spec := required_mapping value "spec" in
  let! plan_id := required_string value "plan_id" in
  let! endpoint_name := required_string value "endpoint_name" in
  let! spec := endpoint_spec_from_dict raw_spec in
  let! parsed := mk_planned_endpoint {|
    pe_plan_id := plan_id; pe_endpoint_name := endpoint_name; pe_spec := spec |} in
  let! stored_digest := required_string value "plan_sha256" in
  run! require (is_sha256 stored_digest) ValueError then
  run! require (bool_decide (stored_digest = plan_sha256 parsed)) RunPodManagerError then
  Ok parsed.

(** ** Stored form *)

Record storable_serverless_constraints (c : ServerlessCapacityConstraints) : Prop := {
  skc_valid : check_serverless_constraints c = Ok tt;
  skc_rate : opt_prop plain (kc_max_hourly_worker_rate_usd c)
}.

Record storable_endpoint_spec (s : ServerlessEndpointSpec) : Prop := {
  ses_valid : check_endpoint_spec s = Ok tt;
  ses_constraints : storable_serverless_constraints (es_constraints s);
  ses_scaling : plain (es_scaling_value s)
}.

Lemma serverless_identifier_nonempty s : serverless_identifier s = true -> s <> "".
Proof. intros H ->. done. Qed.

Lemma worker_reference_nonempty s : worker_reference_ok s = true -> s <> "".
Proof. intros H ->. done. Qed.

Lemma serverless_display_nonempty s : serverless_display_name s = true -> s <> "".
Proof. intros H ->. done. Qed.

Lemma json_sha256_nonempty `{Digest} v : json_sha256 v <> "".
Proof. intros Hs. pose proof (sha256_hex_length (dumps v)) as Hl. unfold json_sha256 in Hs. by rewrite Hs in Hl. Qed.

Lemma json_sha256_digest `{Digest} v : is_sha256 (json_sha256 v) = true.
Proof. unfold is_sha256, json_sha256. by rewrite sha256_hex_length, sha256_hex_digits. Qed.

Lemma cuda_floor_nonempty o r : normalize_cuda_floor o = Ok r -> opt_prop (fun s => s <> "") o.
Proof. destruct o as [s|]; [|done]. intros Hn ->. done. Qed.

Lemma serverless_cloud_nonempty (c : CloudType) : enum_value c <> "".
Proof. by destruct c. Qed.

Lemma availability_nonempty (a : Availability) : enum_value a <> "".
Proof. by destruct a. Qed.

Lemma flashboot_nonempty (f : FlashBoot) : enum_value f <> "".
Proof. by destruct f. Qed.

Lemma rate_text_of o : optional_string (opt_json jdec o) = Ok (format_f <$> o).
Proof. by destruct o. Qed.

#[export] Hint Resolve serverless_identifier_nonempty worker_reference_nonempty
  serverless_display_nonempty json_sha256_nonempty json_sha256_digest cuda_floor_nonempty
  serverless_cloud_nonempty availability_nonempty flashboot_nonempty : kestrel.
#[export] Hint Extern 1 (is_sha256 _ = true) => apply json_sha256_digest : kestrel.
#[export] Hint Extern 2 (_ <> ""%string) => apply json_sha256_nonempty : kestrel.
#[export] Hint Extern 2 (_ <> ""%string) => congruence : kestrel.
#[export] Hint Extern 1 (bool_decide (_ = _) = true) => apply bool_decide_true_eq; reflexivity : kestrel.

(** The record a constructor rebuilds from its own fields is the original. *)
Ltac rebuild r Hv :=
  match goal with |- _ ?x = Ok r => replace x with r by (destruct r; cbn in *; congruence) end;
  eapply rbind_to; [exact Hv | reflexivity].

Lemma serverless_constraints_decode c :
  storable_serverless_constraints c -> serverless_constraints_from_dict (serverless_constraints_dict c) = Ok c.
Proof.
  intros [Hv Hm]. assert (Hv' := Hv). unfold check_serverless_constraints in Hv'. res_inv. split_bools.
  unfold serverless_constraints_from_dict.
  decode; unfold serverless_constraints_dict; eauto with kestrel.
  - read_field. apply rate_text_of.
  - rebuild c Hv.
Qed.

Section Digests.
Context `{Digest}.

Lemma stored_version_of s : stored_version (endpoint_spec_dict s) = Ok (es_resource_schema_version s).
Proof. unfold stored_version, endpoint_spec_dict. by destruct (es_resource_schema_version s). Qed.

Lemma endpoint_spec_decode s :
  storable_endpoint_spec s -> endpoint_spec_from_dict (endpoint_spec_dict s) = Ok s.
Proof.
  intros [Hv Hc Hp]. assert (Hv' := Hv). unfold check_endpoint_spec in Hv'. res_inv. split_bools.
  unfold endpoint_spec_from_dict. eapply rbind_to; [apply stored_version_of|cbv beta].
  unfold endpoint_spec_dict. destruct (es_resource_schema_version s) eqn:Ev; cbn [version_field app].
  all: decode_checked; eauto using serverless_constraints_decode with kestrel.
  all: rebuild s Hv.
Qed.

Lemma planned_endpoint_decode p :
  check_planned_endpoint p = Ok tt -> storable_endpoint_spec (pe_spec p) ->
  planned_endpoint_from_dict (planned_endpoint_dict p) = Ok p.
Proof.
  intros Hv Hs. assert (Hv' := Hv). unfold check_planned_endpoint in Hv'. res_inv. split_bools.
  unfold planned_endpoint_from_dict. decode_checked; unfold planned_endpoint_dict;
    eauto using endpoint_spec_decode with kestrel; rebuild p Hv.
Qed.

End Digests.
