(* ===== verification/ServerlessQuote.v ===== *)
(** Serverless quote requests and quotes ([serverless_capacity_contracts.py]).

    The two request classes and the two quote classes of the source repeat one block of
    fields, and their [__post_init__] one block of checks; the block is a record of its
    own here ([RequestTerms], [QuoteTerms]) that both classes hold. *)
From S2P Require Import Prelude PyStr Enums Errors PyDecimal PyTime Json PyFloat.
From S2P Require Import Placement ContractsBase CodecBase ServerlessSpec.

#[local] Open Scope Z_scope.

Definition SERVERLESS_CAPACITY_SCHEMA_VERSION : Z := 1.
Definition SERVERLESS_CAPACITY_CONTRACT_VERSION : string := "serverless-capacity-v1".

(** ** Worker cost *)

(** [serverless_worker_cost_usd]: a six-decimal upper bound of per-second compute. *)
Definition serverless_worker_cost_usd (hourly : Decimal) (gpu_count seconds : Z) : result Decimal :=
  run! require (positive_decimal hourly) ValueError then
  run! require (1 <=? gpu_count) ValueError then
  run! require (1 <=? seconds) ValueError then
  dquantize_ceiling DEFAULT_PREC (-6)
    (ddiv DEFAULT_PREC
       (dmul DEFAULT_PREC (dmul DEFAULT_PREC hourly (of_int gpu_count)) (of_int seconds)) (of_int 3600)).

(** ** Quote requests *)

Record RequestTerms := {
  xr_workload_kind : string;
  xr_parameters_sha256 : string;
  xr_estimated_queue_delay_seconds : option Z;
  xr_estimated_worker_start_seconds : Z;
  xr_estimated_execution_seconds : Z;
  xr_maximum_queue_delay_seconds : Z;
  xr_maximum_worker_start_seconds : Z;
  xr_maximum_execution_seconds : Z;
  xr_maximum_billable_seconds : Z;
  xr_job_execution_timeout_ms : Z;
  xr_job_ttl_ms : Z;
  xr_estimated_non_worker_cost_usd : Decimal;
  xr_maximum_non_worker_cost_usd : Decimal;
  xr_quote_ttl_seconds : Z
}.

(** [ServerlessCapacityQuoteRequest], [PlannedServerlessCapacityQuoteRequest]. *)
Record ServerlessCapacityQuoteRequest := {
  kr_profile : ServerlessEndpointProfile;
  kr_terms : RequestTerms
}.

Record PlannedServerlessCapacityQuoteRequest := {
  kp_endpoint : PlannedServerlessEndpoint;
  kp_terms : RequestTerms
}.

Definition job_timeouts_ok (execution_timeout_ms ttl_ms : Z) : bool :=
  (MIN_EXECUTION_TIMEOUT_MS <=? execution_timeout_ms) && (execution_timeout_ms <=? MAX_SERVERLESS_POLICY_MS) &&
  (MIN_JOB_TTL_MS <=? ttl_ms) && (ttl_ms <=? MAX_SERVERLESS_POLICY_MS).

(** [_validate_capacity_request]. *)
Definition validate_capacity_request (r : RequestTerms) (spec : ServerlessEndpointSpec) : result unit :=
  run! require (serverless_identifier (xr_workload_kind r)) ValueError then
  run! require (is_sha256 (xr_parameters_sha256 r)) ValueError then
  run! require (option_all (fun s => 0 <=? s) (xr_estimated_queue_delay_seconds r)) ValueError then
  run! require
    ((0 <=? xr_estimated_worker_start_seconds r) && (1 <=? xr_estimated_execution_seconds r) &&
     (1 <=? xr_maximum_queue_delay_seconds r) && (1 <=? xr_maximum_worker_start_seconds r) &&
     (1 <=? xr_maximum_execution_seconds r) && (1 <=? xr_maximum_billable_seconds r) &&
     (1 <=? xr_job_execution_timeout_ms r) && (1 <=? xr_job_ttl_ms r)) ValueError then
  run! require (job_timeouts_ok (xr_job_execution_timeout_ms r) (xr_job_ttl_ms r)) ValueError then
  run! require (nonnegative_decimal (xr_estimated_non_worker_cost_usd r)) ValueError then
  run! require (positive_decimal (xr_maximum_non_worker_cost_usd r)) ValueError then
  run! require ((1 <=? xr_quote_ttl_seconds r) && (xr_quote_ttl_seconds r <=? 300)) ValueError then
  run! require
    (option_all (fun s => s <=? xr_maximum_queue_delay_seconds r) (xr_estimated_queue_delay_seconds r))
    ValueError then
  run! require (xr_estimated_worker_start_seconds r <=? xr_maximum_worker_start_seconds r) ValueError then
  run! require (xr_estimated_execution_seconds r <=? xr_maximum_execution_seconds r) ValueError then
  let estimated_billable :=
    xr_estimated_worker_start_seconds r + xr_estimated_execution_seconds r + es_idle_tail_seconds spec in
  let maximum_billable :=
    xr_maximum_worker_start_seconds r + xr_maximum_execution_seconds r + es_idle_tail_seconds spec in
  run! require (xr_maximum_billable_seconds r =? maximum_billable) ValueError then
  run! require (estimated_billable <=? maximum_billable) ValueError then
  run! require (xr_job_execution_timeout_ms r <=? es_execution_timeout_ms spec) ValueError then
  run! require (xr_maximum_execution_seconds r * 1000 <=? xr_job_execution_timeout_ms r) ValueError then
  run! require
    ((xr_maximum_queue_delay_seconds r + xr_maximum_worker_start_seconds r + xr_maximum_execution_seconds r)
       * 1000 <=? xr_job_ttl_ms r) ValueError then
  require (dle (xr_estimated_non_worker_cost_usd r) (xr_maximum_non_worker_cost_usd r)) ValueError.

Definition check_serverless_request (r : ServerlessCapacityQuoteRequest) : result unit :=
  validate_capacity_request (kr_terms r) (ep_spec (kr_profile r)).

Definition check_planned_request (r : PlannedServerlessCapacityQuoteRequest) : result unit :=
  validate_capacity_request (kp_terms r) (pe_spec (kp_endpoint r)).

(** ** Quotes *)

Record QuoteTerms := {
  qt_schema_version : Z;
  qt_contract_version : string;
  qt_provider_quote_id : string;
  qt_workload_kind : string;
  qt_parameters_sha256 : string;
  qt_catalog_observation_sha256 : string;
  qt_gpu_id : string;
  qt_gpu_pool : string;
  qt_gpu_name : string;
  qt_vram_gb : Z;
  qt_data_center_id : string;
  qt_cloud : CloudType;
  qt_gpu_count : Z;
  qt_min_cuda_version : option string;
  qt_availability : Availability;
  qt_benchmark_id : string;
  qt_hourly_worker_rate_usd : Decimal;
  qt_estimated_queue_delay_seconds : option Z;
  qt_estimated_worker_start_seconds : Z;
  qt_estimated_execution_seconds : Z;
  qt_idle_tail_seconds : Z;
  qt_maximum_queue_delay_seconds : Z;
  qt_maximum_worker_start_seconds : Z;
  qt_maximum_execution_seconds : Z;
  qt_job_execution_timeout_ms : Z;
  qt_job_ttl_ms : Z;
  qt_estimated_billable_seconds : Z;
  qt_maximum_billable_seconds : Z;
  qt_estimated_worker_cost_usd : Decimal;
  qt_maximum_worker_cost_usd : Decimal;
  qt_estimated_non_worker_cost_usd : Decimal;
  qt_maximum_non_worker_cost_usd : Decimal;
  qt_estimated_cost_usd : Decimal;
  qt_cost_ceiling_usd : Decimal;
  qt_catalog_observed_at : instant;
  qt_expires_at : instant
}.

#[export] Instance QuoteTerms_dec : EqDecision QuoteTerms.
Proof. solve_decision. Defined.

(** The checks both quote classes make. *)
Definition check_quote_terms (t : QuoteTerms) : result unit :=
  run! require (qt_schema_version t =? SERVERLESS_CAPACITY_SCHEMA_VERSION) ValueError then
  run! require (bool_decide (qt_contract_version t = SERVERLESS_CAPACITY_CONTRACT_VERSION)) ValueError then
  run! require
    (forallb serverless_identifier
       [qt_provider_quote_id t; qt_workload_kind t; qt_gpu_id t; qt_gpu_pool t; qt_data_center_id t;
        qt_benchmark_id t]) ValueError then
  run! require (serverless_display_name (qt_gpu_name t)) ValueError then
  run! require (forallb is_sha256 [qt_parameters_sha256 t; qt_catalog_observation_sha256 t]) ValueError then
  run! require (negb (bool_decide (qt_availability t = AVAIL_NONE))) ValueError then
  run! require ((1 <=? qt_gpu_count t) && (1 <=? qt_vram_gb t)) ValueError then
  run! normalize_cuda_floor (qt_min_cuda_version t) then
  run! require
    (forallb positive_decimal
       [qt_hourly_worker_rate_usd t; qt_estimated_worker_cost_usd t; qt_maximum_worker_cost_usd t;
        qt_estimated_cost_usd t; qt_cost_ceiling_usd t]) ValueError then
  run! require (nonnegative_decimal (qt_estimated_non_worker_cost_usd t)) ValueError then
  run! require (positive_decimal (qt_maximum_non_worker_cost_usd t)) ValueError then
  run! require (option_all (fun s => 0 <=? s) (qt_estimated_queue_delay_seconds t)) ValueError then
  run! require (0 <=? qt_estimated_worker_start_seconds t) ValueError then
  run! require
    (forallb (fun s => 1 <=? s)
       [qt_estimated_execution_seconds t; qt_idle_tail_seconds t; qt_maximum_queue_delay_seconds t;
        qt_maximum_worker_start_seconds t; qt_maximum_execution_seconds t; qt_job_execution_timeout_ms t;
        qt_job_ttl_ms t; qt_estimated_billable_seconds t; qt_maximum_billable_seconds t]) ValueError then
  run! require
    (qt_estimated_billable_seconds t =?
       qt_estimated_worker_start_seconds t + qt_estimated_execution_seconds t + qt_idle_tail_seconds t)
    ValueError then
  run! require
    (qt_maximum_billable_seconds t =?
       qt_maximum_worker_start_seconds t + qt_maximum_execution_seconds t + qt_idle_tail_seconds t)
    ValueError then
  run! require (qt_estimated_billable_seconds t <=? qt_maximum_billable_seconds t) ValueError then
  run! require (qt_estimated_worker_start_seconds t <=? qt_maximum_worker_start_seconds t) ValueError then
  run! require (qt_estimated_execution_seconds t <=? qt_maximum_execution_seconds t) ValueError then
  run! require
    (option_all (fun s => s <=? qt_maximum_queue_delay_seconds t) (qt_estimated_queue_delay_seconds t))
    ValueError then
  run! require (job_timeouts_ok (qt_job_execution_timeout_ms t) (qt_job_ttl_ms t)) ValueError then
  run! require (qt_maximum_execution_seconds t * 1000 <=? qt_job_execution_timeout_ms t) ValueError then
  run! require
    ((qt_maximum_queue_delay_seconds t + qt_maximum_worker_start_seconds t + qt_maximum_execution_seconds t)
       * 1000 <=? qt_job_ttl_ms t) ValueError then
  let! expected_worker :=
    serverless_worker_cost_usd (qt_hourly_worker_rate_usd t) (qt_gpu_count t) (qt_estimated_billable_seconds t) in
  let! maximum_worker :=
    serverless_worker_cost_usd (qt_hourly_worker_rate_usd t) (qt_gpu_count t) (qt_maximum_billable_seconds t) in
  run! require
    (deqb (qt_estimated_worker_cost_usd t) expected_worker &&
     deqb (qt_maximum_worker_cost_usd t) maximum_worker &&
     deqb (qt_estimated_cost_usd t)
       (dadd DEFAULT_PREC expected_worker (qt_estimated_non_worker_cost_usd t)) &&
     deqb (qt_cost_ceiling_usd t)
       (dadd DEFAULT_PREC maximum_worker (qt_maximum_non_worker_cost_usd t))) ValueError then
  run! require (dle (qt_estimated_cost_usd t) (qt_cost_ceiling_usd t)) ValueError then
  require (qt_catalog_observed_at t <? qt_expires_at t) ValueError.

(** [assert_fresh] of both quote classes. *)
Definition assert_fresh (t : QuoteTerms) (now : instant) (accepted_cost_ceiling_usd : Decimal) : result unit :=
  run! require (positive_decimal accepted_cost_ceiling_usd) ValueError then
  run! require ((qt_catalog_observed_at t <=? now) && (now <? qt_expires_at t)) RunPodManagerError then
  require (deqb accepted_cost_ceiling_usd (qt_cost_ceiling_usd t)) RunPodManagerError.

(** The stored fields both quote classes write and read. *)
Definition quote_terms_dict (t : QuoteTerms) : list (string * json) :=
  [("schema_version", JInt (qt_schema_version t));
   ("contract_version", JStr (qt_contract_version t));
   ("provider_quote_id", JStr (qt_provider_quote_id t));
   ("workload_kind", JStr (qt_workload_kind t));
   ("parameters_sha256", JStr (qt_parameters_sha256 t));
   ("catalog_observation_sha256", JStr (qt_catalog_observation_sha256 t));
   ("gpu_id", JStr (qt_gpu_id t));
   ("gpu_pool", JStr (qt_gpu_pool t));
   ("gpu_name", JStr (qt_gpu_name t));
   ("vram_gb", JInt (qt_vram_gb t));
   ("data_center_id", JStr (qt_data_center_id t));
   ("cloud", JStr (cloud_value (qt_cloud t)));
   ("gpu_count", JInt (qt_gpu_count t));
   ("min_cuda_version", opt_json JStr (qt_min_cuda_version t));
   ("availability", JStr (availability_value (qt_availability t)));
   ("benchmark_id", JStr (qt_benchmark_id t));
   ("hourly_worker_rate_usd", jdec (qt_hourly_worker_rate_usd t));
   ("estimated_queue_delay_seconds", opt_json JInt (qt_estimated_queue_delay_seconds t));
   ("estimated_worker_start_seconds", JInt (qt_estimated_worker_start_seconds t));
   ("estimated_execution_seconds", JInt (qt_estimated_execution_seconds t));
   ("idle_tail_seconds", JInt (qt_idle_tail_seconds t));
   ("maximum_queue_delay_seconds", JInt (qt_maximum_queue_delay_seconds t));
   ("maximum_worker_start_seconds", JInt (qt_maximum_worker_start_seconds t));
   ("maximum_execution_seconds", JInt (qt_maximum_execution_seconds t));
   ("job_execution_timeout_ms", JInt (qt_job_execution_timeout_ms t));
   ("job_ttl_ms", JInt (qt_job_ttl_ms t));
   ("estimated_billable_seconds", JInt (qt_estimated_billable_seconds t));
   ("maximum_billable_seconds", JInt (qt_maximum_billable_seconds t));
   ("estimated_worker_cost_usd", jdec (qt_estimated_worker_cost_usd t));
   ("maximum_worker_cost_usd", jdec (qt_maximum_worker_cost_usd t));
   ("estimated_non_worker_cost_usd", jdec (qt_estimated_non_worker_cost_usd t));
   ("maximum_non_worker_cost_usd", jdec (qt_maximum_non_worker_cost_usd t));
   ("estimated_cost_usd", jdec (qt_estimated_cost_usd t));
   ("cost_ceiling_usd", jdec (qt_cost_ceiling_usd t));
   ("catalog_observed_at", jtime (qt_catalog_observed_at t));
   ("expires_at", jtime (qt_expires_at t))].

Definition quote_terms_from_dict (value : list (string * json)) : result QuoteTerms :=
  let! schema_version := required_int value "schema_version" in
  let! contract_version := required_string value "contract_version" in
  let! provider_quote_id := required_string value "provider_quote_id" in
  let! workload_kind := required_string value "workload_kind" in
  let! parameters_sha256 := required_string value "parameters_sha256" in
  let! catalog_observation_sha256 := required_string value "catalog_observation_sha256" in
  let! gpu_id := required_string value "gpu_id" in
  let! gpu_pool := required_string value "gpu_pool" in
  let! gpu_name := required_string value "gpu_name" in
  let! vram_gb := required_int value "vram_gb" in
  let! data_center_id := required_string value "data_center_id" in
  let! cloud := required_enum value "cloud" in
  let! gpu_count := required_int value "gpu_count" in
  let! min_cuda_version := optional_nonempty (get_field value "min_cuda_version") in
  let! availability := required_enum value "availability" in
  let! benchmark_id := required_string value "benchmark_id" in
  let! hourly_worker_rate_usd := required_decimal value "hourly_worker_rate_usd" in
  let! estimated_queue_delay_seconds := optional_int (get_field value "estimated_queue_delay_seconds") in
  let! estimated_worker_start_seconds := required_int value "estimated_worker_start_seconds" in
  let! estimated_execution_seconds := required_int value "estimated_execution_seconds" in
  let! idle_tail_seconds := required_int value "idle_tail_seconds" in
  let! maximum_queue_delay_seconds := required_int value "maximum_queue_delay_seconds" in
  let! maximum_worker_start_seconds := required_int value "maximum_worker_start_seconds" in
  let! maximum_execution_seconds := required_int value "maximum_execution_seconds" in
  let! job_execution_timeout_ms := required_int value "job_execution_timeout_ms" in
  let! job_ttl_ms := required_int value "job_ttl_ms" in
  let! estimated_billable_seconds := required_int value "estimated_billable_seconds" in
  let! maximum_billable_seconds := required_int value "maximum_billable_seconds" in
  let! estimated_worker_cost_usd := required_decimal value "estimated_worker_cost_usd" in
  let! maximum_worker_cost_usd := required_decimal value "maximum_worker_cost_usd" in
  let! estimated_non_worker_cost_usd := required_decimal value "estimated_non_worker_cost_usd" in
  let! maximum_non_worker_cost_usd := required_decimal value "maximum_non_worker_cost_usd" in
  let! estimated_cost_usd := required_decimal value "estimated_cost_usd" in
  let! cost_ceiling_usd := required_decimal value "cost_ceiling_usd" in
  let! catalog_observed_at := required_datetime value "catalog_observed_at" in
  let! expires_at := required_datetime value "expires_at" in
  Ok {|
    qt_schema_version := schema_version;
    qt_contract_version := contract_version;
    qt_provider_quote_id := provider_quote_id;
    qt_workload_kind := workload_kind;
    qt_parameters_sha256 := parameters_sha256;
    qt_catalog_observation_sha256 := catalog_observation_sha256;
    qt_gpu_id := gpu_id;
    qt_gpu_pool := gpu_pool;
    qt_gpu_name := gpu_name;
    qt_vram_gb := vram_gb;
    qt_data_center_id := data_center_id;
    qt_cloud := cloud;
    qt_gpu_count := gpu_count;
    qt_min_cuda_version := min_cuda_version;
    qt_availability := availability;
    qt_benchmark_id := benchmark_id;
    qt_hourly_worker_rate_usd := hourly_worker_rate_usd;
    qt_estimated_queue_delay_seconds := estimated_queue_delay_seconds;
    qt_estimated_worker_start_seconds := estimated_worker_start_seconds;
    qt_estimated_execution_seconds := estimated_execution_seconds;
    qt_idle_tail_seconds := idle_tail_seconds;
    qt_maximum_queue_delay_seconds := maximum_queue_delay_seconds;
    qt_maximum_worker_start_seconds := maximum_worker_start_seconds;
    qt_maximum_execution_seconds := maximum_execution_seconds;
    qt_job_execution_timeout_ms := job_execution_timeout_ms;
    qt_job_ttl_ms := job_ttl_ms;
    qt_estimated_billable_seconds := estimated_billable_seconds;
    qt_maximum_billable_seconds := maximum_billable_seconds;
    qt_estimated_worker_cost_usd := estimated_worker_cost_usd;
    qt_maximum_worker_cost_usd := maximum_worker_cost_usd;
    qt_estimated_non_worker_cost_usd := estimated_non_worker_cost_usd;
    qt_maximum_non_worker_cost_usd := maximum_non_worker_cost_usd;
    qt_estimated_cost_usd := estimated_cost_usd;
    qt_cost_ceiling_usd := cost_ceiling_usd;
    qt_catalog_observed_at := catalog_observed_at;
    qt_expires_at := expires_at
  |}.

(** ** [PlannedServerlessCapacityQuote] *)

Record PlannedServerlessCapacityQuote := {
  pq_plan_id : string;
  pq_plan_sha256 : string;
  pq_endpoint_name : string;
  pq_endpoint_spec_sha256 : string;
  pq_operation_digest : string;
  pq_worker_reference : string;
  pq_terms : QuoteTerms
}.

#[export] Instance PlannedServerlessCapacityQuote_dec : EqDecision PlannedServerlessCapacityQuote.
Proof. solve_decision. Defined.

(** [__post_init__]. *)
Definition check_planned_quote (q : PlannedServerlessCapacityQuote) : result unit :=
  let t := pq_terms q in
  run! require (serverless_identifier (pq_plan_id q) && serverless_identifier (pq_endpoint_name q))
    ValueError then
  run! require
    (forallb is_sha256 [pq_plan_sha256 q; pq_endpoint_spec_sha256 q; pq_operation_digest q]) ValueError then
  run! require (worker_reference_ok (pq_worker_reference q)) ValueError then
  run! require (dle (qt_estimated_non_worker_cost_usd t) (qt_maximum_non_worker_cost_usd t)) ValueError then
  run! check_quote_terms t then
  require (qt_expires_at t - qt_catalog_observed_at t <=? 300 * US) ValueError.

Definition mk_planned_quote (q : PlannedServerlessCapacityQuote) : result PlannedServerlessCapacityQuote :=
  run! check_planned_quote q then Ok q.

(** [_evidence_dict], [quote_sha256], [to_dict]. *)
Definition planned_quote_evidence (q : PlannedServerlessCapacityQuote) : list (string * json) :=
  ([("plan_id", JStr (pq_plan_id q));
   ("plan_sha256", JStr (pq_plan_sha256 q));
   ("endpoint_name", JStr (pq_endpoint_name q));
   ("endpoint_spec_sha256", JStr (pq_endpoint_spec_sha256 q));
   ("operation_digest", JStr (pq_operation_digest q));
   ("worker_reference", JStr (pq_worker_reference q))] ++ quote_terms_dict (pq_terms q))%list.

Definition quote_sha256 `{Digest} (q : PlannedServerlessCapacityQuote) : string :=
  json_sha256 (JObj (planned_quote_evidence q)).

Definition planned_quote_dict `{Digest} (q : PlannedServerlessCapacityQuote) : list (string * json) :=
  (planned_quote_evidence q ++ [("quote_sha256", JStr (quote_sha256 q))])%list.

Definition QUOTE_TERM_FIELDS : list string :=
  ["schema_version"; "contract_version"; "provider_quote_id"; "workload_kind"; "parameters_sha256";
   "catalog_observation_sha256"; "gpu_id"; "gpu_pool"; "gpu_name"; "vram_gb"; "data_center_id";
   "cloud"; "gpu_count"; "min_cuda_version"; "availability"; "benchmark_id";
   "hourly_worker_rate_usd"; "estimated_queue_delay_seconds"; "estimated_worker_start_seconds";
   "estimated_execution_seconds"; "idle_tail_seconds"; "maximum_queue_delay_seconds";
   "maximum_worker_start_seconds"; "maximum_execution_seconds"; "job_execution_timeout_ms";
   "job_ttl_ms"; "estimated_billable_seconds"; "maximum_billable_seconds";
   "estimated_worker_cost_usd"; "maximum_worker_cost_usd"; "estimated_non_worker_cost_usd";
   "maximum_non_worker_cost_usd"; "estimated_cost_usd"; "cost_ceiling_usd"; "catalog_observed_at";
   "expires_at"].

Definition planned_quote_from_dict `{Digest} (value : list (string * json))
  : result PlannedServerlessCapacityQuote :=
  run! exact_keys value
    (["plan_id"; "plan_sha256"; "endpoint_name"; "endpoint_spec_sha256"; "operation_digest";
      "worker_reference"; "quote_sha256"] ++ QUOTE_TERM_FIELDS) then
  let! stored_digest := required_string value "quote_sha256" in
  let! plan_id := required_string value "plan_id" in
  let! plan_sha256 := required_string value "plan_sha256" in
  let! endpoint_name := required_string value "endpoint_name" in
  let! endpoint_spec_sha256 := required_string value "endpoint_spec_sha256" in
  let! operation_digest := required_string value "operation_digest" in
  let! worker_reference := required_string value "worker_reference" in
  let! terms := quote_terms_from_dict value in
  let! parsed := mk_planned_quote {|
    pq_plan_id := plan_id;
    pq_plan_sha256 := plan_sha256;
    pq_endpoint_name := endpoint_name;
    pq_endpoint_spec_sha256 := endpoint_spec_sha256;
    pq_operation_digest := operation_digest;
    pq_worker_reference := worker_reference;
    pq_terms := terms
  |} in
  run! require (is_sha256 stored_digest) ValueError then
  run! require (bool_decide (stored_digest = quote_sha256 parsed)) RunPodManagerError then
  Ok parsed.

(** ** [ServerlessCapacityQuote] *)

Record ServerlessCapacityQuote := {
  cq_profile_id : string;
  cq_endpoint_profile_sha256 : string;
  cq_endpoint_id : string;
  cq_terms : QuoteTerms
}.

#[export] Instance ServerlessCapacityQuote_dec : EqDecision ServerlessCapacityQuote.
Proof. solve_decision. Defined.

(** [__post_init__]. *)
Definition check_capacity_quote (q : ServerlessCapacityQuote) : result unit :=
  run! require (serverless_identifier (cq_profile_id q) && serverless_identifier (cq_endpoint_id q))
    ValueError then
  run! require (is_sha256 (cq_endpoint_profile_sha256 q)) ValueError then
  check_quote_terms (cq_terms q).

Definition mk_capacity_quote (q : ServerlessCapacityQuote) : result ServerlessCapacityQuote :=
  run! check_capacity_quote q then Ok q.

(** [to_dict], [from_dict]. *)
Definition capacity_quote_dict (q : ServerlessCapacityQuote) : list (string * json) :=
  ([("profile_id", JStr (cq_profile_id q));
   ("endpoint_profile_sha256", JStr (cq_endpoint_profile_sha256 q));
   ("endpoint_id", JStr (cq_endpoint_id q))] ++ quote_terms_dict (cq_terms q))%list.

Definition capacity_quote_from_dict (value : list (string * json)) : result ServerlessCapacityQuote :=
  run! exact_keys value (["profile_id"; "endpoint_profile_sha256"; "endpoint_id"] ++ QUOTE_TERM_FIELDS) then
  let! profile_id := required_string value "profile_id" in
  let! endpoint_profile_sha256 := required_string value "endpoint_profile_sha256" in
  let! endpoint_id := required_string value "endpoint_id" in
  let! terms := quote_terms_from_dict value in
  mk_capacity_quote {|
    cq_profile_id := profile_id;
    cq_endpoint_profile_sha256 := endpoint_profile_sha256;
    cq_endpoint_id := endpoint_id;
    cq_terms := terms
  |}.

(** ** Stored form *)

Record storable_terms (t : QuoteTerms) : Prop := {
  sqt_valid : check_quote_terms t = Ok tt;
  sqt_hourly : plain (qt_hourly_worker_rate_usd t);
  sqt_estimated_worker : plain (qt_estimated_worker_cost_usd t);
  sqt_maximum_worker : plain (qt_maximum_worker_cost_usd t);
  sqt_estimated_other : plain (qt_estimated_non_worker_cost_usd t);
  sqt_maximum_other : plain (qt_maximum_non_worker_cost_usd t);
  sqt_estimated : plain (qt_estimated_cost_usd t);
  sqt_ceiling : plain (qt_cost_ceiling_usd t);
  sqt_observed : representable (qt_catalog_observed_at t);
  sqt_expires : representable (qt_expires_at t)
}.

Record storable_planned_quote (q : PlannedServerlessCapacityQuote) : Prop := {
  spq_valid : check_planned_quote q = Ok tt;
  spq_terms : storable_terms (pq_terms q)
}.

Record storable_capacity_quote (q : ServerlessCapacityQuote) : Prop := {
  scq_valid : check_capacity_quote q = Ok tt;
  scq_terms : storable_terms (cq_terms q)
}.

(** A document that has the terms' fields among its own reads back as the terms. *)
Lemma quote_terms_decode t l :
  storable_terms t -> Forall (fun p => get_field l (fst p) = snd p) (quote_terms_dict t) ->
  quote_terms_from_dict l = Ok t.
Proof.
  intros [Hv] Hl. unfold check_quote_terms in Hv. cbv zeta in Hv. res_inv. cbn [forallb] in *. split_bools.
  unfold quote_terms_dict in Hl.
  repeat match goal with
  | H : Forall _ (_ :: _) |- _ => apply Forall_cons_1 in H; destruct H as [? H]; cbn [fst snd] in *
  end.
  unfold quote_terms_from_dict. decode; eauto with kestrel.
  - match goal with E : qt_contract_version t = _ |- _ => by rewrite E end.
  - by destruct t.
Qed.

Lemma planned_quote_decode `{Digest} q :
  storable_planned_quote q -> planned_quote_from_dict (planned_quote_dict q) = Ok q.
Proof.
  intros [Hv Ht]. assert (Hv' := Hv). unfold check_planned_quote in Hv'. cbv zeta in Hv'. res_inv.
  cbn [forallb] in *. split_bools. unfold planned_quote_from_dict.
  decode_checked; unfold planned_quote_dict, planned_quote_evidence; eauto with kestrel.
  - apply quote_terms_decode; [done|]. repeat constructor.
  - rebuild q Hv.
Qed.

Lemma capacity_quote_decode q :
  storable_capacity_quote q -> capacity_quote_from_dict (capacity_quote_dict q) = Ok q.
Proof.
  intros [Hv Ht]. assert (Hv' := Hv). unfold check_capacity_quote in Hv'. res_inv. split_bools.
  unfold capacity_quote_from_dict. decode; unfold capacity_quote_dict; eauto with kestrel.
  - apply quote_terms_decode; [done|]. repeat constructor.
  - rebuild q Hv.
Qed.
