(* ===== verification/ServerlessLifecycle.v ===== *)
(** Durable records of a planned endpoint's life: activation, cleanup intent, cleanup
    receipt and the submission token ([serverless_capacity_contracts.py]). *)
From S2P Require Import Prelude PyStr Enums Errors PyDecimal PyTime Json.
From S2P Require Import ContractsBase CodecBase ServerlessSpec ServerlessQuote.

#[local] Open Scope Z_scope.

Definition serverless_header_ok (schema : Z) (contract : string) : bool :=
  (schema =? SERVERLESS_CAPACITY_SCHEMA_VERSION) &&
  bool_decide (contract = SERVERLESS_CAPACITY_CONTRACT_VERSION).

(** ** [ServerlessEndpointActivationReceipt] *)

Record ServerlessEndpointActivationReceipt := {
  sa_schema_version : Z;
  sa_contract_version : string;
  sa_provider_activation_id : string;
  sa_provider_quote_id : string;
  sa_quote_sha256 : string;
  sa_plan_id : string;
  sa_plan_sha256 : string;
  sa_endpoint_name : string;
  sa_endpoint_id : string;
  sa_endpoint_spec_sha256 : string;
  sa_operation_digest : string;
  sa_endpoint_readback_sha256 : string;
  sa_create_started_at : instant;
  sa_activated_at : instant;
  sa_readback_at : instant;
  sa_reconciled_after_ambiguous_create : bool
}.

#[export] Instance ServerlessEndpointActivationReceipt_dec : EqDecision ServerlessEndpointActivationReceipt.
Proof. solve_decision. Defined.

(** [_activation_identity] and the identifier it determines. *)
Definition activation_identity (r : ServerlessEndpointActivationReceipt) : list (string * json) :=
  [("contract_version", JStr (sa_contract_version r));
   ("provider_quote_id", JStr (sa_provider_quote_id r));
   ("quote_sha256", JStr (sa_quote_sha256 r));
   ("plan_id", JStr (sa_plan_id r));
   ("plan_sha256", JStr (sa_plan_sha256 r));
   ("endpoint_name", JStr (sa_endpoint_name r));
   ("endpoint_id", JStr (sa_endpoint_id r));
   ("endpoint_spec_sha256", JStr (sa_endpoint_spec_sha256 r));
   ("operation_digest", JStr (sa_operation_digest r));
   ("endpoint_readback_sha256", JStr (sa_endpoint_readback_sha256 r));
   ("create_started_at", jtime (sa_create_started_at r));
   ("activated_at", jtime (sa_activated_at r));
   ("readback_at", jtime (sa_readback_at r));
   ("reconciled_after_ambiguous_create", JBool (sa_reconciled_after_ambiguous_create r))].

Definition activation_id `{Digest} (identity : list (string * json)) : string :=
  "runpod-serverless-activation:" ++ json_sha256 (JObj identity).

(** [__post_init__]. *)
Definition check_activation `{Digest} (r : ServerlessEndpointActivationReceipt) : result unit :=
  run! require (serverless_header_ok (sa_schema_version r) (sa_contract_version r)) ValueError then
  run! require
    (forallb serverless_identifier
       [sa_provider_activation_id r; sa_provider_quote_id r; sa_plan_id r; sa_endpoint_name r;
        sa_endpoint_id r]) ValueError then
  run! require
    (forallb is_sha256
       [sa_quote_sha256 r; sa_plan_sha256 r; sa_endpoint_spec_sha256 r; sa_operation_digest r;
        sa_endpoint_readback_sha256 r]) ValueError then
  run! require
    ((sa_create_started_at r <=? sa_activated_at r) && (sa_activated_at r <=? sa_readback_at r))
    ValueError then
  require (bool_decide (sa_provider_activation_id r = activation_id (activation_identity r))) ValueError.

Definition mk_activation `{Digest} (r : ServerlessEndpointActivationReceipt)
  : result ServerlessEndpointActivationReceipt :=
  run! check_activation r then Ok r.

(** [validate_quote]. *)
Definition validate_activation_quote `{Digest} (r : ServerlessEndpointActivationReceipt)
  (q : PlannedServerlessCapacityQuote) : result unit :=
  require
    (bool_decide (sa_provider_quote_id r = qt_provider_quote_id (pq_terms q)) &&
     bool_decide (sa_quote_sha256 r = quote_sha256 q) &&
     bool_decide (sa_plan_id r = pq_plan_id q) &&
     bool_decide (sa_plan_sha256 r = pq_plan_sha256 q) &&
     bool_decide (sa_endpoint_name r = pq_endpoint_name q) &&
     bool_decide (sa_endpoint_spec_sha256 r = pq_endpoint_spec_sha256 q) &&
     bool_decide (sa_operation_digest r = pq_operation_digest q)) RunPodManagerError.

(** [to_dict], [from_dict]. *)
Definition activation_dict (r : ServerlessEndpointActivationReceipt) : list (string * json) :=
  [("schema_version", JInt (sa_schema_version r));
   ("contract_version", JStr (sa_contract_version r));
   ("provider_activation_id", JStr (sa_provider_activation_id r));
   ("provider_quote_id", JStr (sa_provider_quote_id r));
   ("quote_sha256", JStr (sa_quote_sha256 r));
   ("plan_id", JStr (sa_plan_id r));
   ("plan_sha256", JStr (sa_plan_sha256 r));
   ("endpoint_name", JStr (sa_endpoint_name r));
   ("endpoint_id", JStr (sa_endpoint_id r));
   ("endpoint_spec_sha256", JStr (sa_endpoint_spec_sha256 r));
   ("operation_digest", JStr (sa_operation_digest r));
   ("endpoint_readback_sha256", JStr (sa_endpoint_readback_sha256 r));
   ("create_started_at", jtime (sa_create_started_at r));
   ("activated_at", jtime (sa_activated_at r));
   ("readback_at", jtime (sa_readback_at r));
   ("reconciled_after_ambiguous_create", JBool (sa_reconciled_after_ambiguous_create r))].

Definition ACTIVATION_RECEIPT_FIELDS : list string :=
  ["schema_version"; "contract_version"; "provider_activation_id"; "provider_quote_id";
   "quote_sha256"; "plan_id"; "plan_sha256"; "endpoint_name"; "endpoint_id"; "endpoint_spec_sha256";
   "operation_digest"; "endpoint_readback_sha256"; "create_started_at"; "activated_at";
   "readback_at"; "reconciled_after_ambiguous_create"].

Definition activation_from_dict `{Digest} (value : list (string * json))
  : result ServerlessEndpointActivationReceipt :=
  run! exact_keys value ACTIVATION_RECEIPT_FIELDS then
  let! reconciled_after_ambiguous_create := required_bool value "reconciled_after_ambiguous_create" in
  let! schema_version := required_int value "schema_version" in
  let! contract_version := required_string value "contract_version" in
  let! provider_activation_id := required_string value "provider_activation_id" in
  let! provider_quote_id := required_string value "provider_quote_id" in
  let! quote_sha256 := required_string value "quote_sha256" in
  let! plan_id := required_string value "plan_id" in
  let! plan_sha256 := required_string value "plan_sha256" in
  let! endpoint_name := required_string value "endpoint_name" in
  let! endpoint_id := required_string value "endpoint_id" in
  let! endpoint_spec_sha256 := required_string value "endpoint_spec_sha256" in
  let! operation_digest := required_string value "operation_digest" in
  let! endpoint_readback_sha256 := required_string value "endpoint_readback_sha256" in
  let! create_started_at := required_datetime value "create_started_at" in
  let! activated_at := required_datetime value "activated_at" in
  let! readback_at := required_datetime value "readback_at" in
  mk_activation {|
    sa_schema_version := schema_version;
    sa_contract_version := contract_version;
    sa_provider_activation_id := provider_activation_id;
    sa_provider_quote_id := provider_quote_id;
    sa_quote_sha256 := quote_sha256;
    sa_plan_id := plan_id;
    sa_plan_sha256 := plan_sha256;
    sa_endpoint_name := endpoint_name;
    sa_endpoint_id := endpoint_id;
    sa_endpoint_spec_sha256 := endpoint_spec_sha256;
    sa_operation_digest := operation_digest;
    sa_endpoint_readback_sha256 := endpoint_readback_sha256;
    sa_create_started_at := create_started_at;
    sa_activated_at := activated_at;
    sa_readback_at := readback_at;
    sa_reconciled_after_ambiguous_create := reconciled_after_ambiguous_create
  |}.

(** ** [ServerlessEndpointCleanupIntent] *)

Record ServerlessEndpointCleanupIntent := {
  ci_schema_version : Z;
  ci_contract_version : string;
  ci_activation : ServerlessEndpointActivationReceipt;
  ci_workers_zero_observed_at : instant;
  ci_delete_started_at : instant
}.

#[export] Instance ServerlessEndpointCleanupIntent_dec : EqDecision ServerlessEndpointCleanupIntent.
Proof. solve_decision. Defined.

(** [__post_init__]. *)
Definition check_cleanup_intent (i : ServerlessEndpointCleanupIntent) : result unit :=
  run! require (serverless_header_ok (ci_schema_version i) (ci_contract_version i)) ValueError then
  require
    ((sa_readback_at (ci_activation i) <=? ci_workers_zero_observed_at i) &&
     (ci_workers_zero_observed_at i <=? ci_delete_started_at i)) ValueError.

Definition mk_cleanup_intent (i : ServerlessEndpointCleanupIntent) : result ServerlessEndpointCleanupIntent :=
  run! check_cleanup_intent i then Ok i.

(** [_identity], [provider_cleanup_intent_id]. *)
Definition cleanup_intent_identity (i : ServerlessEndpointCleanupIntent) : list (string * json) :=
  [("schema_version", JInt (ci_schema_version i));
   ("contract_version", JStr (ci_contract_version i));
   ("activation", JObj (activation_dict (ci_activation i)));
   ("workers_zero_observed_at", jtime (ci_workers_zero_observed_at i));
   ("delete_started_at", jtime (ci_delete_started_at i))].

Definition provider_cleanup_intent_id `{Digest} (i : ServerlessEndpointCleanupIntent) : string :=
  "runpod-serverless-cleanup-intent:" ++ json_sha256 (JObj (cleanup_intent_identity i)).

(** [validate_activation]. *)
Definition validate_intent_activation (i : ServerlessEndpointCleanupIntent)
  (a : ServerlessEndpointActivationReceipt) : result unit :=
  require (bool_decide (ci_activation i = a)) RunPodManagerError.

(** [to_dict], [from_dict]. *)
Definition cleanup_intent_dict `{Digest} (i : ServerlessEndpointCleanupIntent) : list (string * json) :=
  (cleanup_intent_identity i ++
   [("provider_cleanup_intent_id", JStr (provider_cleanup_intent_id i))])%list.

Definition cleanup_intent_from_dict `{Digest} (value : list (string * json))
  : result ServerlessEndpointCleanupIntent :=
  run! exact_keys value
    ["schema_version"; "contract_version"; "activation"; "workers_zero_observed_at"; "delete_started_at";
     "provider_cleanup_intent_id"] then
  let! raw_activation := required_mapping value "activation" in
  let! schema_version := required_int value "schema_version" in
  let! contract_version := required_string value "contract_version" in
  let! activation := activation_from_dict raw_activation in
  let! workers_zero := required_datetime value "workers_zero_observed_at" in
  let! delete_started := required_datetime value "delete_started_at" in
  let! parsed := mk_cleanup_intent {|
    ci_schema_version := schema_version;
    ci_contract_version := contract_version;
    ci_activation := activation;
    ci_workers_zero_observed_at := workers_zero;
    ci_delete_started_at := delete_started
  |} in
  run! require (field_is value "provider_cleanup_intent_id" (provider_cleanup_intent_id parsed))
    RunPodManagerError then
  Ok parsed.

(** ** [ServerlessEndpointCleanupReceipt] *)

Record ServerlessEndpointCleanupReceipt := {
  cr_schema_version : Z;
  cr_contract_version : string;
  cr_provider_cleanup_id : string;
  cr_provider_quote_id : string;
  cr_quote_sha256 : string;
  cr_provider_activation_id : string;
  cr_endpoint_name : string;
  cr_endpoint_id : string;
  cr_endpoint_spec_sha256 : string;
  cr_operation_digest : string;
  cr_endpoint_readback_sha256 : string;
  cr_workers_zero_observed_at : instant;
  cr_delete_started_at : instant;
  cr_verified_absent_at : instant;
  cr_reconciled_after_delete_error : bool;
  cr_cleanup_evidence_version : Z;
  cr_cleanup_basis : option string
}.

#[export] Instance ServerlessEndpointCleanupReceipt_dec : EqDecision ServerlessEndpointCleanupReceipt.
Proof. solve_decision. Defined.

(** [_cleanup_identity] and the identifier it determines. *)
Definition cleanup_identity (r : ServerlessEndpointCleanupReceipt) : list (string * json) :=
  ([("contract_version", JStr (cr_contract_version r));
   ("provider_quote_id", JStr (cr_provider_quote_id r));
   ("quote_sha256", JStr (cr_quote_sha256 r));
   ("provider_activation_id", JStr (cr_provider_activation_id r));
   ("endpoint_name", JStr (cr_endpoint_name r));
   ("endpoint_id", JStr (cr_endpoint_id r));
   ("endpoint_spec_sha256", JStr (cr_endpoint_spec_sha256 r));
   ("operation_digest", JStr (cr_operation_digest r));
   ("endpoint_readback_sha256", JStr (cr_endpoint_readback_sha256 r));
   ("workers_zero_observed_at", jtime (cr_workers_zero_observed_at r));
   ("delete_started_at", jtime (cr_delete_started_at r));
   ("verified_absent_at", jtime (cr_verified_absent_at r));
   ("reconciled_after_delete_error", JBool (cr_reconciled_after_delete_error r))] ++
   if cr_cleanup_evidence_version r =? 2 then
     [("cleanup_evidence_version", JInt 2); ("cleanup_basis", opt_json JStr (cr_cleanup_basis r))]
   else [])%list.

Definition cleanup_id `{Digest} (identity : list (string * json)) : string :=
  "runpod-serverless-cleanup:" ++ json_sha256 (JObj identity).

(** The evidence bases of a version-2 receipt and their reconciliation flags. *)
Definition cleanup_basis_ok (basis : option string) (reconciled : bool) : bool :=
  bool_decide ((basis, reconciled) ∈
    [(Some "delete_acknowledged", false);
     (Some "ambiguous_delete_verified_absent", true);
     (Some "interrupted_intent_verified_absent", false)]).

(** [__post_init__]. *)
Definition check_cleanup `{Digest} (r : ServerlessEndpointCleanupReceipt) : result unit :=
  run! require (serverless_header_ok (cr_schema_version r) (cr_contract_version r)) ValueError then
  run! require
    (forallb serverless_identifier
       [cr_provider_cleanup_id r; cr_provider_quote_id r; cr_provider_activation_id r; cr_endpoint_name r;
        cr_endpoint_id r]) ValueError then
  run! require
    (forallb is_sha256
       [cr_quote_sha256 r; cr_endpoint_spec_sha256 r; cr_operation_digest r;
        cr_endpoint_readback_sha256 r]) ValueError then
  run! require
    ((cr_workers_zero_observed_at r <=? cr_delete_started_at r) &&
     (cr_delete_started_at r <=? cr_verified_absent_at r)) ValueError then
  run! require ((cr_cleanup_evidence_version r =? 1) || (cr_cleanup_evidence_version r =? 2)) ValueError then
  run! require
    (if cr_cleanup_evidence_version r =? 1 then negb (is_some (cr_cleanup_basis r))
     else cleanup_basis_ok (cr_cleanup_basis r) (cr_reconciled_after_delete_error r)) ValueError then
  require (bool_decide (cr_provider_cleanup_id r = cleanup_id (cleanup_identity r))) ValueError.

Definition mk_cleanup `{Digest} (r : ServerlessEndpointCleanupReceipt)
  : result ServerlessEndpointCleanupReceipt :=
  run! check_cleanup r then Ok r.

(** [validate_activation]. *)
Definition validate_cleanup_activation (r : ServerlessEndpointCleanupReceipt)
  (a : ServerlessEndpointActivationReceipt) : result unit :=
  require
    (bool_decide (cr_provider_quote_id r = sa_provider_quote_id a) &&
     bool_decide (cr_quote_sha256 r = sa_quote_sha256 a) &&
     bool_decide (cr_provider_activation_id r = sa_provider_activation_id a) &&
     bool_decide (cr_endpoint_name r = sa_endpoint_name a) &&
     bool_decide (cr_endpoint_id r = sa_endpoint_id a) &&
     bool_decide (cr_endpoint_spec_sha256 r = sa_endpoint_spec_sha256 a) &&
     bool_decide (cr_operation_digest r = sa_operation_digest a) &&
     bool_decide (cr_endpoint_readback_sha256 r = sa_endpoint_readback_sha256 a)) RunPodManagerError.

(** [to_dict], [from_dict]. *)
Definition cleanup_dict (r : ServerlessEndpointCleanupReceipt) : list (string * json) :=
  ([("schema_version", JInt (cr_schema_version r));
    ("provider_cleanup_id", JStr (cr_provider_cleanup_id r))] ++ cleanup_identity r)%list.

Definition CLEANUP_RECEIPT_FIELDS : list string :=
  ["schema_version"; "contract_version"; "provider_cleanup_id"; "provider_quote_id"; "quote_sha256";
   "provider_activation_id"; "endpoint_name"; "endpoint_id"; "endpoint_spec_sha256";
   "operation_digest"; "endpoint_readback_sha256"; "workers_zero_observed_at"; "delete_started_at";
   "verified_absent_at"; "reconciled_after_delete_error"].

Definition cleanup_from_dict `{Digest} (value : list (string * json))
  : result ServerlessEndpointCleanupReceipt :=
  let versioned := bool_decide ("cleanup_evidence_version" ∈ keys value) in
  run! exact_keys value
    (CLEANUP_RECEIPT_FIELDS ++
     if versioned then ["cleanup_evidence_version"; "cleanup_basis"] else [])%list then
  let! evidence_version := if versioned then required_int value "cleanup_evidence_version" else Ok 1 in
  run! require (negb versioned || (evidence_version =? 2)) RunPodManagerError then
  let! reconciled_after_delete_error := required_bool value "reconciled_after_delete_error" in
  let! schema_version := required_int value "schema_version" in
  let! contract_version := required_string value "contract_version" in
  let! provider_cleanup_id := required_string value "provider_cleanup_id" in
  let! provider_quote_id := required_string value "provider_quote_id" in
  let! quote_sha256 := required_string value "quote_sha256" in
  let! provider_activation_id := required_string value "provider_activation_id" in
  let! endpoint_name := required_string value "endpoint_name" in
  let! endpoint_id := required_string value "endpoint_id" in
  let! endpoint_spec_sha256 := required_string value "endpoint_spec_sha256" in
  let! operation_digest := required_string value "operation_digest" in
  let! endpoint_readback_sha256 := required_string value "endpoint_readback_sha256" in
  let! workers_zero_observed_at := required_datetime value "workers_zero_observed_at" in
  let! delete_started_at := required_datetime value "delete_started_at" in
  let! verified_absent_at := required_datetime value "verified_absent_at" in
  let! basis :=
    if versioned then let! b := required_string value "cleanup_basis" in Ok (Some b) else Ok None in
  mk_cleanup {|
    cr_schema_version := schema_version;
    cr_contract_version := contract_version;
    cr_provider_cleanup_id := provider_cleanup_id;
    cr_provider_quote_id := provider_quote_id;
    cr_quote_sha256 := quote_sha256;
    cr_provider_activation_id := provider_activation_id;
    cr_endpoint_name := endpoint_name;
    cr_endpoint_id := endpoint_id;
    cr_endpoint_spec_sha256 := endpoint_spec_sha256;
    cr_operation_digest := operation_digest;
    cr_endpoint_readback_sha256 := endpoint_readback_sha256;
    cr_workers_zero_observed_at := workers_zero_observed_at;
    cr_delete_started_at := delete_started_at;
    cr_verified_absent_at := verified_absent_at;
    cr_reconciled_after_delete_error := reconciled_after_delete_error;
    cr_cleanup_evidence_version := evidence_version;
    cr_cleanup_basis := basis
  |}.

(** ** [ServerlessActivatedSubmission] *)

Record ServerlessActivatedSubmission := {
  ss_provider_submission_id : string;
  ss_provider_quote_id : string;
  ss_quote_sha256 : string;
  ss_provider_activation_id : string;
  ss_endpoint_name : string;
  ss_endpoint_id : string;
  ss_endpoint_spec_sha256 : string;
  ss_operation_digest : string;
  ss_exclusive_window_sha256 : string;
  ss_authorized_at : instant;
  ss_expires_at : instant
}.

#[export] Instance ServerlessActivatedSubmission_dec : EqDecision ServerlessActivatedSubmission.
Proof. solve_decision. Defined.

Definition submission_identity (s : ServerlessActivatedSubmission) : list (string * json) :=
  [("provider_quote_id", JStr (ss_provider_quote_id s));
   ("quote_sha256", JStr (ss_quote_sha256 s));
   ("provider_activation_id", JStr (ss_provider_activation_id s));
   ("endpoint_name", JStr (ss_endpoint_name s));
   ("endpoint_id", JStr (ss_endpoint_id s));
   ("endpoint_spec_sha256", JStr (ss_endpoint_spec_sha256 s));
   ("operation_digest", JStr (ss_operation_digest s));
   ("exclusive_window_sha256", JStr (ss_exclusive_window_sha256 s));
   ("authorized_at", jtime (ss_authorized_at s));
   ("expires_at", jtime (ss_expires_at s))].

Definition submission_id `{Digest} (identity : list (string * json)) : string :=
  "runpod-serverless-submission:" ++ json_sha256 (JObj identity).

(** [__post_init__]. *)
Definition check_submission `{Digest} (s : ServerlessActivatedSubmission) : result unit :=
  run! require
    (forallb serverless_identifier
       [ss_provider_submission_id s; ss_provider_quote_id s; ss_provider_activation_id s;
        ss_endpoint_name s; ss_endpoint_id s]) ValueError then
  run! require
    (forallb is_sha256
       [ss_quote_sha256 s; ss_endpoint_spec_sha256 s; ss_operation_digest s;
        ss_exclusive_window_sha256 s]) ValueError then
  run! require (ss_authorized_at s <? ss_expires_at s) ValueError then
  require (bool_decide (ss_provider_submission_id s = submission_id (submission_identity s))) ValueError.

Definition mk_submission `{Digest} (s : ServerlessActivatedSubmission) : result ServerlessActivatedSubmission :=
  run! check_submission s then Ok s.

(** [validate]. *)
Definition validate_submission `{Digest} (s : ServerlessActivatedSubmission)
  (q : PlannedServerlessCapacityQuote) (a : ServerlessEndpointActivationReceipt) : result unit :=
  run! validate_activation_quote a q then
  require
    (bool_decide (ss_provider_quote_id s = qt_provider_quote_id (pq_terms q)) &&
     bool_decide (ss_quote_sha256 s = quote_sha256 q) &&
     bool_decide (ss_provider_activation_id s = sa_provider_activation_id a) &&
     bool_decide (ss_endpoint_name s = sa_endpoint_name a) &&
     bool_decide (ss_endpoint_id s = sa_endpoint_id a) &&
     bool_decide (ss_endpoint_spec_sha256 s = sa_endpoint_spec_sha256 a) &&
     bool_decide (ss_operation_digest s = sa_operation_digest a) &&
     (qt_catalog_observed_at (pq_terms q) <=? ss_authorized_at s) &&
     (ss_authorized_at s <? qt_expires_at (pq_terms q)) &&
     (ss_expires_at s =? qt_expires_at (pq_terms q))) RunPodManagerError.

(** [to_dict], [from_dict]. *)
Definition submission_dict (s : ServerlessActivatedSubmission) : list (string * json) :=
  (("provider_submission_id", JStr (ss_provider_submission_id s)) :: submission_identity s)%list.

Definition ACTIVATED_SUBMISSION_FIELDS : list string :=
  ["provider_submission_id"; "provider_quote_id"; "quote_sha256"; "provider_activation_id";
   "endpoint_name"; "endpoint_id"; "endpoint_spec_sha256"; "operation_digest";
   "exclusive_window_sha256"; "authorized_at"; "expires_at"].

Definition submission_from_dict `{Digest} (value : list (string * json))
  : result ServerlessActivatedSubmission :=
  run! exact_keys value ACTIVATED_SUBMISSION_FIELDS then
  let! provider_submission_id := required_string value "provider_submission_id" in
  let! provider_quote_id := required_string value "provider_quote_id" in
  let! quote_sha256 := required_string value "quote_sha256" in
  let! provider_activation_id := required_string value "provider_activation_id" in
  let! endpoint_name := required_string value "endpoint_name" in
  let! endpoint_id := required_string value "endpoint_id" in
  let! endpoint_spec_sha256 := required_string value "endpoint_spec_sha256" in
  let! operation_digest := required_string value "operation_digest" in
  let! exclusive_window_sha256 := required_string value "exclusive_window_sha256" in
  let! authorized_at := required_datetime value "authorized_at" in
  let! expires_at := required_datetime value "expires_at" in
  mk_submission {|
    ss_provider_submission_id := provider_submission_id;
    ss_provider_quote_id := provider_quote_id;
    ss_quote_sha256 := quote_sha256;
    ss_provider_activation_id := provider_activation_id;
    ss_endpoint_name := endpoint_name;
    ss_endpoint_id := endpoint_id;
    ss_endpoint_spec_sha256 := endpoint_spec_sha256;
    ss_operation_digest := operation_digest;
    ss_exclusive_window_sha256 := exclusive_window_sha256;
    ss_authorized_at := authorized_at;
    ss_expires_at := expires_at
  |}.

(** ** Stored form *)

Section Stored.
Context `{Digest}.

Record storable_activation (r : ServerlessEndpointActivationReceipt) : Prop := {
  ssa_valid : check_activation r = Ok tt;
  ssa_started : representable (sa_create_started_at r);
  ssa_activated : representable (sa_activated_at r);
  ssa_readback : representable (sa_readback_at r)
}.

Record storable_cleanup_intent (i : ServerlessEndpointCleanupIntent) : Prop := {
  sci_valid : check_cleanup_intent i = Ok tt;
  sci_activation : storable_activation (ci_activation i);
  sci_workers : representable (ci_workers_zero_observed_at i);
  sci_delete : representable (ci_delete_started_at i)
}.

Record storable_cleanup (r : ServerlessEndpointCleanupReceipt) : Prop := {
  scr_valid : check_cleanup r = Ok tt;
  scr_workers : representable (cr_workers_zero_observed_at r);
  scr_delete : representable (cr_delete_started_at r);
  scr_absent : representable (cr_verified_absent_at r)
}.

Record storable_submission (s : ServerlessActivatedSubmission) : Prop := {
  sss_valid : check_submission s = Ok tt;
  sss_authorized : representable (ss_authorized_at s);
  sss_expires : representable (ss_expires_at s)
}.

Lemma contract_nonempty schema contract : serverless_header_ok schema contract = true -> contract <> "".
Proof. unfold serverless_header_ok. intros Hh. split_bools. by subst. Qed.

Hint Resolve contract_nonempty : kestrel.

Lemma activation_decode r :
  storable_activation r -> activation_from_dict (activation_dict r) = Ok r.
Proof.
  intros [Hv]. assert (Hv' := Hv). unfold check_activation in Hv'. res_inv. cbn [forallb] in *. split_bools.
  unfold activation_from_dict. decode; unfold activation_dict; eauto with kestrel. rebuild r Hv.
Qed.

Lemma cleanup_intent_decode i :
  storable_cleanup_intent i -> cleanup_intent_from_dict (cleanup_intent_dict i) = Ok i.
Proof.
  intros [Hv]. assert (Hv' := Hv). unfold check_cleanup_intent in Hv'. res_inv. split_bools.
  unfold cleanup_intent_from_dict.
  decode_checked; unfold cleanup_intent_dict, cleanup_intent_identity; eauto using activation_decode with kestrel.
  - rebuild i Hv.
  - unfold field_is. cbn [get_field app String.eqb Ascii.eqb Bool.eqb py_eq]. by apply bool_decide_true_eq.
Qed.

Lemma submission_decode s :
  storable_submission s -> submission_from_dict (submission_dict s) = Ok s.
Proof.
  intros [Hv]. assert (Hv' := Hv). unfold check_submission in Hv'. res_inv. cbn [forallb] in *. split_bools.
  unfold submission_from_dict. decode; unfold submission_dict, submission_identity; eauto with kestrel.
  rebuild s Hv.
Qed.

(** A receipt of either evidence version reads back as itself. *)
Lemma cleanup_decode r : storable_cleanup r -> cleanup_from_dict (cleanup_dict r) = Ok r.
Proof.
  intros [Hv]. assert (Hv' := Hv). unfold check_cleanup in Hv'. res_inv. cbn [forallb] in *. split_bools.
  match goal with E : (_ =? 1) || _ = true |- _ => rename E into Hver end.
  match goal with E : (if _ then _ else _) = true |- _ => rename E into Hbasis end.
  unfold cleanup_from_dict, cleanup_dict, cleanup_identity.
  apply orb_true_iff in Hver as [Hver|Hver]; apply Z.eqb_eq in Hver; rewrite Hver in *;
    cbn [Z.eqb Pos.eqb app] in *.
  - assert (Hn : cr_cleanup_basis r = None) by by destruct (cr_cleanup_basis r).
    match goal with |- context [bool_decide ?P] => replace (bool_decide P) with false by reflexivity end.
    cbv zeta. cbn [negb orb app]. decode_checked; eauto with kestrel; try reflexivity. rebuild r Hv.
  - assert (Hs : exists b, cr_cleanup_basis r = Some b /\ b <> "").
    { destruct (cr_cleanup_basis r) as [b|]; [exists b; split; [done|intros ->]|];
        by destruct (cr_reconciled_after_delete_error r). }
    destruct Hs as (b & Hb & Hne). rewrite Hb in *.
    match goal with |- context [bool_decide ?P] => replace (bool_decide P) with true by reflexivity end.
    cbv zeta. cbn [negb orb app opt_json].
    decode_checked; eauto with kestrel; try reflexivity.
    rebuild r Hv.
Qed.

End Stored.
