(* ===== verification/ServerlessCosts.v ===== *)
(** Serverless billing contracts: exclusive hour allocations, billed attempts, ambiguous
    windows, endpoint-hour costs and the three receipts ([serverless_capacity_contracts.py]).

    The cost components that several classes repeat are one record, [CostAmounts]. *)
From S2P Require Import Prelude PyStr Enums Errors PyDecimal PyTime Json PyFloat Billing.
From S2P Require Import ContractsBase CodecBase ServerlessSpec ServerlessQuote ServerlessLifecycle.
From stdpp Require Import list.
Import Billing.Billing.

#[local] Open Scope Z_scope.

Definition MAX_BILLABLE_COVERAGE_SECONDS : Z := 7 * 24 * 60 * 60 + 3600.
Definition MAX_EXCLUSIVE_BILLING_HOURS : Z := cdiv (MAX_BILLABLE_COVERAGE_SECONDS + 300) 3600 + 1.

(** ** Hours *)

(** The loop of [serverless_billing_hour_starts]. *)
Fixpoint hour_loop (fuel : nat) (cursor window_until : instant) : result (list instant) :=
  if cursor <? window_until then
    match fuel with
    | O => Exc OutOfFuel
    | S n => let! rest := hour_loop n (cursor + hours 1) window_until in Ok (cursor :: rest)
    end
  else Ok [].

(** [serverless_billing_hour_starts]: every UTC hour a billable interval touches. The
    fuel is the number of hours between the bounds. *)
Definition serverless_billing_hour_starts (started_at coverage_until : instant) : result (list instant) :=
  let! window := billing_hour_bounds started_at coverage_until in
  let '(first, window_until) := window in
  run! require (coverage_until - started_at <=? MAX_BILLABLE_COVERAGE_SECONDS * US) ValueError then
  hour_loop (Z.to_nat ((window_until - first) / hours 1)) first window_until.

(** [_normalized_exclusive_hours]: contiguous UTC hour starts, within bounds. *)
Fixpoint contiguous_hours (previous : option instant) (values : list instant) : bool :=
  match values with
  | [] => true
  | v :: r =>
      (v mod hours 1 =? 0) &&
      match previous with Some p => v =? p + hours 1 | None => true end &&
      contiguous_hours (Some v) r
  end.

Definition normalized_exclusive_hours (values : list instant) : result (list instant) :=
  run! require (negb (bool_decide (values = []))) ValueError then
  run! require (Z.of_nat (length values) <=? MAX_EXCLUSIVE_BILLING_HOURS) ValueError then
  run! require (contiguous_hours None values) ValueError then
  Ok values.

(** [_ordered_hours_cover]. *)
Definition ordered_hours_cover (actual required : list instant) : bool :=
  match head actual, last actual, head required, last required with
  | Some a0, Some a1, Some r0, Some r1 => (a0 <=? r0) && (r1 <=? a1)
  | _, _, _, _ => false
  end.

(** The window an allocation of hours spans. *)
Definition allocation_window (values : list instant) : result (instant * instant) :=
  match head values, last values with
  | Some a, Some b => Ok (a, b + hours 1)
  | _, _ => Exc ValueError
  end.

(** ** Stored timestamps *)

Definition jtimes (l : list instant) : json := JList (map (fun t => jtime t) l).

Definition datetime_item (v : json) : result instant :=
  match v with JStr s => datetime_of s | _ => Exc RunPodManagerError end.

(** [_required_datetime_tuple]. *)
Definition required_datetimes (value : list (string * json)) (key : string) : result (list instant) :=
  match get_field value key with
  | JList (x :: l) => rmap datetime_item (x :: l)
  | _ => Exc RunPodManagerError
  end.

(** ** Cost components *)

Record CostAmounts := {
  ca_gpu_cost_usd : Decimal;
  ca_cpu_cost_usd : Decimal;
  ca_disk_cost_usd : Decimal;
  ca_fee_cost_usd : Decimal;
  ca_actual_cost_usd : Decimal
}.

#[export] Instance CostAmounts_dec : EqDecision CostAmounts.
Proof. solve_decision. Defined.

(** Finite nonnegative amounts whose components add up to the total exactly. *)
Definition check_amounts (a : CostAmounts) : result unit :=
  run! require
    (forallb nonnegative_decimal
       [ca_gpu_cost_usd a; ca_cpu_cost_usd a; ca_disk_cost_usd a; ca_fee_cost_usd a; ca_actual_cost_usd a])
    ValueError then
  let! total := exact_decimal_sum DEFAULT_PREC
    [ca_gpu_cost_usd a; ca_cpu_cost_usd a; ca_disk_cost_usd a; ca_fee_cost_usd a] in
  require (deqb (ca_actual_cost_usd a) total) ValueError.

Definition amounts_dict (a : CostAmounts) : list (string * json) :=
  [("gpu_cost_usd", jdec (ca_gpu_cost_usd a));
   ("cpu_cost_usd", jdec (ca_cpu_cost_usd a));
   ("disk_cost_usd", jdec (ca_disk_cost_usd a));
   ("fee_cost_usd", jdec (ca_fee_cost_usd a));
   ("actual_cost_usd", jdec (ca_actual_cost_usd a))].

Definition amounts_from_dict (value : list (string * json)) : result CostAmounts :=
  let! gpu_cost_usd := required_decimal value "gpu_cost_usd" in
  let! cpu_cost_usd := required_decimal value "cpu_cost_usd" in
  let! disk_cost_usd := required_decimal value "disk_cost_usd" in
  let! fee_cost_usd := required_decimal value "fee_cost_usd" in
  let! actual_cost_usd := required_decimal value "actual_cost_usd" in
  Ok {|
    ca_gpu_cost_usd := gpu_cost_usd;
    ca_cpu_cost_usd := cpu_cost_usd;
    ca_disk_cost_usd := disk_cost_usd;
    ca_fee_cost_usd := fee_cost_usd;
    ca_actual_cost_usd := actual_cost_usd
  |}.

(** Field by field numerical equality. *)
Definition amounts_eqb (a b : CostAmounts) : bool :=
  deqb (ca_gpu_cost_usd a) (ca_gpu_cost_usd b) && deqb (ca_cpu_cost_usd a) (ca_cpu_cost_usd b) &&
  deqb (ca_disk_cost_usd a) (ca_disk_cost_usd b) && deqb (ca_fee_cost_usd a) (ca_fee_cost_usd b) &&
  deqb (ca_actual_cost_usd a) (ca_actual_cost_usd b).

(** ** [ServerlessEndpointHourCost] *)

Record ServerlessEndpointHourCost := {
  hc_provider_observation_id : string;
  hc_endpoint_id : string;
  hc_utc_hour_start : instant;
  hc_utc_hour_end : instant;
  hc_amounts : CostAmounts
}.

#[export] Instance ServerlessEndpointHourCost_dec : EqDecision ServerlessEndpointHourCost.
Proof. solve_decision. Defined.

(** [__post_init__]. *)
Definition check_hour_cost (h : ServerlessEndpointHourCost) : result unit :=
  run! require
    (serverless_identifier (hc_provider_observation_id h) && serverless_identifier (hc_endpoint_id h))
    ValueError then
  run! require
    ((hc_utc_hour_start h mod hours 1 =? 0) && (hc_utc_hour_end h =? hc_utc_hour_start h + hours 1))
    ValueError then
  check_amounts (hc_amounts h).

Definition mk_hour_cost (h : ServerlessEndpointHourCost) : result ServerlessEndpointHourCost :=
  run! check_hour_cost h then Ok h.

(** [to_dict], [from_dict]. *)
Definition hour_cost_dict (h : ServerlessEndpointHourCost) : list (string * json) :=
  ([("provider_observation_id", JStr (hc_provider_observation_id h));
   ("endpoint_id", JStr (hc_endpoint_id h));
   ("utc_hour_start", jtime (hc_utc_hour_start h));
   ("utc_hour_end", jtime (hc_utc_hour_end h))] ++ amounts_dict (hc_amounts h))%list.

Definition hour_cost_from_dict (value : list (string * json)) : result ServerlessEndpointHourCost :=
  run! exact_keys value
    ["provider_observation_id"; "endpoint_id"; "utc_hour_start"; "utc_hour_end";
     "gpu_cost_usd"; "cpu_cost_usd"; "disk_cost_usd"; "fee_cost_usd"; "actual_cost_usd"] then
  let! provider_observation_id := required_string value "provider_observation_id" in
  let! endpoint_id := required_string value "endpoint_id" in
  let! utc_hour_start := required_datetime value "utc_hour_start" in
  let! utc_hour_end := required_datetime value "utc_hour_end" in
  let! amounts := amounts_from_dict value in
  mk_hour_cost {|
    hc_provider_observation_id := provider_observation_id;
    hc_endpoint_id := endpoint_id;
    hc_utc_hour_start := utc_hour_start;
    hc_utc_hour_end := utc_hour_end;
    hc_amounts := amounts
  |}.

(** [serverless_endpoint_hour_cost_totals]: exact sums of each component. *)
Definition component_total (f : CostAmounts -> Decimal) (costs : list ServerlessEndpointHourCost)
  : result Decimal :=
  exact_decimal_sum DEFAULT_PREC (map (fun h => f (hc_amounts h)) costs).

Definition hour_cost_totals (costs : list ServerlessEndpointHourCost) : result CostAmounts :=
  let! gpu := component_total ca_gpu_cost_usd costs in
  let! cpu := component_total ca_cpu_cost_usd costs in
  let! disk := component_total ca_disk_cost_usd costs in
  let! fee := component_total ca_fee_cost_usd costs in
  let! actual := component_total ca_actual_cost_usd costs in
  Ok {|
    ca_gpu_cost_usd := gpu;
    ca_cpu_cost_usd := cpu;
    ca_disk_cost_usd := disk;
    ca_fee_cost_usd := fee;
    ca_actual_cost_usd := actual
  |}.

(** ** [ServerlessBillingAttempt] *)

Record ServerlessBillingAttempt := {
  ba_attempt_id : string;
  ba_job_id : string;
  ba_endpoint_id : string;
  ba_provider_quote_id : string;
  ba_exclusive_window_sha256 : string;
  ba_exclusive_billing_hour_starts : list instant;
  ba_submitted_at : instant;
  ba_completed_at : instant
}.

(** [__post_init__]. *)
Definition check_billing_attempt (a : ServerlessBillingAttempt) : result unit :=
  run! require
    (forallb serverless_identifier [ba_attempt_id a; ba_job_id a; ba_endpoint_id a; ba_provider_quote_id a])
    ValueError then
  run! require (is_sha256 (ba_exclusive_window_sha256 a)) ValueError then
  run! normalized_exclusive_hours (ba_exclusive_billing_hour_starts a) then
  require (ba_submitted_at a <? ba_completed_at a) ValueError.

(** The longest a job may take under a quote, in seconds, and with its idle tail. *)
Definition maximum_elapsed (t : QuoteTerms) : Z :=
  qt_maximum_queue_delay_seconds t + qt_maximum_worker_start_seconds t + qt_maximum_execution_seconds t.

Definition seconds_later (t : instant) (n : Z) : instant := t + n * US.

(** [validate_quote]. *)
Definition validate_attempt_quote (a : ServerlessBillingAttempt) (q : ServerlessCapacityQuote) : result unit :=
  let t := cq_terms q in
  run! require (bool_decide (ba_endpoint_id a = cq_endpoint_id q)) RunPodManagerError then
  run! require (bool_decide (ba_provider_quote_id a = qt_provider_quote_id t)) RunPodManagerError then
  run! require
    ((qt_catalog_observed_at t <=? ba_submitted_at a) && (ba_submitted_at a <? qt_expires_at t))
    RunPodManagerError then
  run! require (ba_completed_at a - ba_submitted_at a <=? maximum_elapsed t * US) RunPodManagerError then
  let! expected := serverless_billing_hour_starts (ba_submitted_at a)
    (seconds_later (ba_completed_at a) (qt_idle_tail_seconds t)) in
  require (ordered_hours_cover (ba_exclusive_billing_hour_starts a) expected) RunPodManagerError.

(** ** [ServerlessBillingReceipt] *)

Record ServerlessBillingReceipt := {
  sb_schema_version : Z;
  sb_contract_version : string;
  sb_provider_billing_id : string;
  sb_provider_quote_id : string;
  sb_endpoint_profile_sha256 : string;
  sb_endpoint_id : string;
  sb_job_id : string;
  sb_attempt_id : string;
  sb_exclusive_window_sha256 : string;
  sb_exclusive_billing_hour_starts : list instant;
  sb_attempt_started_at : instant;
  sb_attempt_completed_at : instant;
  sb_billable_coverage_until : instant;
  sb_billing_window_from : instant;
  sb_billing_window_until : instant;
  sb_hourly_worker_rate_usd : Decimal;
  sb_pre_execution_delay_ms : option Z;
  sb_worker_startup_ms : option Z;
  sb_execution_ms : option Z;
  sb_accepted_idle_tail_ms : Z;
  sb_idle_tail_ms : option Z;
  sb_amounts : CostAmounts;
  sb_reconciled_at : instant
}.

#[export] Instance ServerlessBillingReceipt_dec : EqDecision ServerlessBillingReceipt.
Proof. solve_decision. Defined.

(** [int((b - a).total_seconds() * 1_000)]: the seconds are the float nearest to the
    interval, their product by 1000 is rounded again, and [int] truncates. *)
Definition float_trunc (m k : Z) : Z := if 0 <=? k then m * 2 ^ k else m / 2 ^ (- k).

Definition elapsed_ms (a b : instant) : Z :=
  match binary64 (b - a) US with
  | Some (m, k) =>
      match (if 0 <=? k then binary64 (m * 2 ^ k * 1000) 1 else binary64 (m * 1000) (2 ^ (- k))) with
      | Some (m', k') => float_trunc m' k'
      | None => 0
      end
  | None => 0
  end.

Definition observed_job_ms (r : ServerlessBillingReceipt) : Z :=
  default 0 (sb_pre_execution_delay_ms r) + default 0 (sb_execution_ms r).

(** [__post_init__]. *)
Definition check_serverless_receipt (r : ServerlessBillingReceipt) : result unit :=
  run! require (serverless_header_ok (sb_schema_version r) (sb_contract_version r)) ValueError then
  run! require
    (forallb serverless_identifier
       [sb_provider_billing_id r; sb_provider_quote_id r; sb_endpoint_id r; sb_job_id r; sb_attempt_id r])
    ValueError then
  run! require (forallb is_sha256 [sb_endpoint_profile_sha256 r; sb_exclusive_window_sha256 r]) ValueError then
  run! require
    ((sb_billing_window_from r <=? sb_attempt_started_at r) &&
     (sb_attempt_started_at r <? sb_attempt_completed_at r) &&
     (sb_attempt_completed_at r <? sb_billable_coverage_until r) &&
     (sb_billable_coverage_until r <=? sb_billing_window_until r) &&
     (sb_billing_window_until r <=? sb_reconciled_at r)) ValueError then
  run! require (1 <=? sb_accepted_idle_tail_ms r) ValueError then
  run! require
    (sb_billable_coverage_until r =? sb_attempt_completed_at r + sb_accepted_idle_tail_ms r * 1000)
    ValueError then
  let! required := serverless_billing_hour_starts (sb_attempt_started_at r) (sb_billable_coverage_until r) in
  let! actual := normalized_exclusive_hours (sb_exclusive_billing_hour_starts r) in
  run! require (ordered_hours_cover actual required) ValueError then
  let! window := allocation_window actual in
  run! require
    (bool_decide ((sb_billing_window_from r, sb_billing_window_until r) = window)) ValueError then
  run! require (positive_decimal (sb_hourly_worker_rate_usd r)) ValueError then
  run! require
    (forallb (option_all (fun v => 0 <=? v))
       [sb_pre_execution_delay_ms r; sb_worker_startup_ms r; sb_execution_ms r; sb_idle_tail_ms r])
    ValueError then
  run! check_amounts (sb_amounts r) then
  require (observed_job_ms r <=? elapsed_ms (sb_attempt_started_at r) (sb_attempt_completed_at r)) ValueError.

Definition mk_serverless_receipt (r : ServerlessBillingReceipt) : result ServerlessBillingReceipt :=
  run! check_serverless_receipt r then Ok r.

(** [to_dict], [from_dict]. *)
Definition serverless_receipt_dict (r : ServerlessBillingReceipt) : list (string * json) :=
  ([("schema_version", JInt (sb_schema_version r));
   ("contract_version", JStr (sb_contract_version r));
   ("provider_billing_id", JStr (sb_provider_billing_id r));
   ("provider_quote_id", JStr (sb_provider_quote_id r));
   ("endpoint_profile_sha256", JStr (sb_endpoint_profile_sha256 r));
   ("endpoint_id", JStr (sb_endpoint_id r));
   ("job_id", JStr (sb_job_id r));
   ("attempt_id", JStr (sb_attempt_id r));
   ("exclusive_window_sha256", JStr (sb_exclusive_window_sha256 r));
   ("exclusive_billing_hour_starts", jtimes (sb_exclusive_billing_hour_starts r));
   ("attempt_started_at", jtime (sb_attempt_started_at r));
   ("attempt_completed_at", jtime (sb_attempt_completed_at r));
   ("billable_coverage_until", jtime (sb_billable_coverage_until r));
   ("billing_window_from", jtime (sb_billing_window_from r));
   ("billing_window_until", jtime (sb_billing_window_until r));
   ("hourly_worker_rate_usd", jdec (sb_hourly_worker_rate_usd r));
   ("pre_execution_delay_ms", opt_json JInt (sb_pre_execution_delay_ms r));
   ("worker_startup_ms", opt_json JInt (sb_worker_startup_ms r));
   ("execution_ms", opt_json JInt (sb_execution_ms r));
   ("accepted_idle_tail_ms", JInt (sb_accepted_idle_tail_ms r));
   ("idle_tail_ms", opt_json JInt (sb_idle_tail_ms r))] ++
   amounts_dict (sb_amounts r) ++ [("reconciled_at", jtime (sb_reconciled_at r))])%list.

Definition RECEIPT_FIELDS : list string :=
  ["schema_version"; "contract_version"; "provider_billing_id"; "provider_quote_id";
   "endpoint_profile_sha256"; "endpoint_id"; "job_id"; "attempt_id"; "exclusive_window_sha256";
   "exclusive_billing_hour_starts"; "attempt_started_at"; "attempt_completed_at";
   "billable_coverage_until"; "billing_window_from"; "billing_window_until";
   "hourly_worker_rate_usd"; "pre_execution_delay_ms"; "worker_startup_ms"; "execution_ms";
   "accepted_idle_tail_ms"; "idle_tail_ms"; "gpu_cost_usd"; "cpu_cost_usd"; "disk_cost_usd";
   "fee_cost_usd"; "actual_cost_usd"; "reconciled_at"].

Definition serverless_receipt_from_dict (value : list (string * json)) : result ServerlessBillingReceipt :=
  run! exact_keys value RECEIPT_FIELDS then
  let! schema_version := required_int value "schema_version" in
  let! contract_version := required_string value "contract_version" in
  let! provider_billing_id := required_string value "provider_billing_id" in
  let! provider_quote_id := required_string value "provider_quote_id" in
  let! endpoint_profile_sha256 := required_string value "endpoint_profile_sha256" in
  let! endpoint_id := required_string value "endpoint_id" in
  let! job_id := required_string value "job_id" in
  let! attempt_id := required_string value "attempt_id" in
  let! exclusive_window_sha256 := required_string value "exclusive_window_sha256" in
  let! exclusive_billing_hour_starts := required_datetimes value "exclusive_billing_hour_starts" in
  let! attempt_started_at := required_datetime value "attempt_started_at" in
  let! attempt_completed_at := required_datetime value "attempt_completed_at" in
  let! billable_coverage_until := required_datetime value "billable_coverage_until" in
  let! billing_window_from := required_datetime value "billing_window_from" in
  let! billing_window_until := required_datetime value "billing_window_until" in
  let! hourly_worker_rate_usd := required_decimal value "hourly_worker_rate_usd" in
  let! pre_execution_delay_ms := optional_int (get_field value "pre_execution_delay_ms") in
  let! worker_startup_ms := optional_int (get_field value "worker_startup_ms") in
  let! execution_ms := optional_int (get_field value "execution_ms") in
  let! accepted_idle_tail_ms := required_int value "accepted_idle_tail_ms" in
  let! idle_tail_ms := optional_int (get_field value "idle_tail_ms") in
  let! amounts := amounts_from_dict value in
  let! reconciled_at := required_datetime value "reconciled_at" in
  mk_serverless_receipt {|
    sb_schema_version := schema_version;
    sb_contract_version := contract_version;
    sb_provider_billing_id := provider_billing_id;
    sb_provider_quote_id := provider_quote_id;
    sb_endpoint_profile_sha256 := endpoint_profile_sha256;
    sb_endpoint_id := endpoint_id;
    sb_job_id := job_id;
    sb_attempt_id := attempt_id;
    sb_exclusive_window_sha256 := exclusive_window_sha256;
    sb_exclusive_billing_hour_starts := exclusive_billing_hour_starts;
    sb_attempt_started_at := attempt_started_at;
    sb_attempt_completed_at := attempt_completed_at;
    sb_billable_coverage_until := billable_coverage_until;
    sb_billing_window_from := billing_window_from;
    sb_billing_window_until := billing_window_until;
    sb_hourly_worker_rate_usd := hourly_worker_rate_usd;
    sb_pre_execution_delay_ms := pre_execution_delay_ms;
    sb_worker_startup_ms := worker_startup_ms;
    sb_execution_ms := execution_ms;
    sb_accepted_idle_tail_ms := accepted_idle_tail_ms;
    sb_idle_tail_ms := idle_tail_ms;
    sb_amounts := amounts;
    sb_reconciled_at := reconciled_at
  |}.

(** ** [ServerlessAmbiguousBillingWindow] *)

Record ServerlessAmbiguousBillingWindow := {
  aw_attempt_id : string;
  aw_endpoint_id : string;
  aw_provider_quote_id : string;
  aw_exclusive_window_sha256 : string;
  aw_exclusive_billing_hour_starts : list instant;
  aw_attempted_at : instant;
  aw_billable_coverage_until : instant;
  aw_accepted_cost_ceiling_usd : Decimal
}.

#[export] Instance ServerlessAmbiguousBillingWindow_dec : EqDecision ServerlessAmbiguousBillingWindow.
Proof. solve_decision. Defined.

(** [__post_init__]. *)
Definition check_ambiguous_window (w : ServerlessAmbiguousBillingWindow) : result unit :=
  run! require
    (forallb serverless_identifier [aw_attempt_id w; aw_endpoint_id w; aw_provider_quote_id w]) ValueError then
  run! require (is_sha256 (aw_exclusive_window_sha256 w)) ValueError then
  let! required := serverless_billing_hour_starts (aw_attempted_at w) (aw_billable_coverage_until w) in
  let! actual := normalized_exclusive_hours (aw_exclusive_billing_hour_starts w) in
  run! require (ordered_hours_cover actual required) ValueError then
  require (positive_decimal (aw_accepted_cost_ceiling_usd w)) ValueError.

Definition mk_ambiguous_window (w : ServerlessAmbiguousBillingWindow) : result ServerlessAmbiguousBillingWindow :=
  run! check_ambiguous_window w then Ok w.

(** The worst-case coverage of a submission under a quote. *)
Definition worst_coverage (attempted_at : instant) (t : QuoteTerms) : instant :=
  seconds_later attempted_at (maximum_elapsed t + qt_idle_tail_seconds t).

(** [validate_quote]. *)
Definition validate_window_quote (w : ServerlessAmbiguousBillingWindow) (q : ServerlessCapacityQuote)
  : result unit :=
  let t := cq_terms q in
  run! require (bool_decide (aw_endpoint_id w = cq_endpoint_id q)) RunPodManagerError then
  run! require (bool_decide (aw_provider_quote_id w = qt_provider_quote_id t)) RunPodManagerError then
  run! require (deqb (aw_accepted_cost_ceiling_usd w) (qt_cost_ceiling_usd t)) RunPodManagerError then
  run! require
    ((qt_catalog_observed_at t <=? aw_attempted_at w) && (aw_attempted_at w <? qt_expires_at t))
    RunPodManagerError then
  require (aw_billable_coverage_until w =? worst_coverage (aw_attempted_at w) t) RunPodManagerError.

(** [validate_activated_submission]. *)
Definition validate_window_submission `{Digest} (w : ServerlessAmbiguousBillingWindow)
  (q : PlannedServerlessCapacityQuote) (a : ServerlessEndpointActivationReceipt)
  (s : ServerlessActivatedSubmission) : result unit :=
  let t := pq_terms q in
  run! validate_submission s q a then
  run! require
    (bool_decide (aw_endpoint_id w = sa_endpoint_id a) &&
     bool_decide (aw_provider_quote_id w = qt_provider_quote_id t) &&
     bool_decide (aw_exclusive_window_sha256 w = ss_exclusive_window_sha256 s)) RunPodManagerError then
  run! require (deqb (aw_accepted_cost_ceiling_usd w) (qt_cost_ceiling_usd t)) RunPodManagerError then
  run! require
    ((ss_authorized_at s <=? aw_attempted_at w) && (aw_attempted_at w <? ss_expires_at s))
    RunPodManagerError then
  require (aw_billable_coverage_until w =? worst_coverage (aw_attempted_at w) t) RunPodManagerError.

(** [to_dict], [from_dict]. *)
Definition ambiguous_window_dict (w : ServerlessAmbiguousBillingWindow) : list (string * json) :=
  [("attempt_id", JStr (aw_attempt_id w));
   ("endpoint_id", JStr (aw_endpoint_id w));
   ("provider_quote_id", JStr (aw_provider_quote_id w));
   ("exclusive_window_sha256", JStr (aw_exclusive_window_sha256 w));
   ("exclusive_billing_hour_starts", jtimes (aw_exclusive_billing_hour_starts w));
   ("attempted_at", jtime (aw_attempted_at w));
   ("billable_coverage_until", jtime (aw_billable_coverage_until w));
   ("accepted_cost_ceiling_usd", jdec (aw_accepted_cost_ceiling_usd w))].

Definition ambiguous_window_from_dict (value : list (string * json))
  : result ServerlessAmbiguousBillingWindow :=
  run! exact_keys value
    ["attempt_id"; "endpoint_id"; "provider_quote_id"; "exclusive_window_sha256"; "exclusive_billing_hour_starts";
     "attempted_at"; "billable_coverage_until"; "accepted_cost_ceiling_usd"] then
  let! attempt_id := required_string value "attempt_id" in
  let! endpoint_id := required_string value "endpoint_id" in
  let! provider_quote_id := required_string value "provider_quote_id" in
  let! exclusive_window_sha256 := required_string value "exclusive_window_sha256" in
  let! exclusive_billing_hour_starts := required_datetimes value "exclusive_billing_hour_starts" in
  let! attempted_at := required_datetime value "attempted_at" in
  let! billable_coverage_until := required_datetime value "billable_coverage_until" in
  let! accepted_cost_ceiling_usd := required_decimal value "accepted_cost_ceiling_usd" in
  mk_ambiguous_window {|
    aw_attempt_id := attempt_id;
    aw_endpoint_id := endpoint_id;
    aw_provider_quote_id := provider_quote_id;
    aw_exclusive_window_sha256 := exclusive_window_sha256;
    aw_exclusive_billing_hour_starts := exclusive_billing_hour_starts;
    aw_attempted_at := attempted_at;
    aw_billable_coverage_until := billable_coverage_until;
    aw_accepted_cost_ceiling_usd := accepted_cost_ceiling_usd
  |}.

(** ** [ServerlessRetiredEndpointBillingReceipt] *)

Record ServerlessRetiredEndpointBillingReceipt := {
  rt_schema_version : Z;
  rt_contract_version : string;
  rt_activation : ServerlessEndpointActivationReceipt;
  rt_cleanup : ServerlessEndpointCleanupReceipt;
  rt_endpoint_hour_costs : list ServerlessEndpointHourCost;
  rt_reconciled_at : instant
}.

#[export] Instance ServerlessRetiredEndpointBillingReceipt_dec :
  EqDecision ServerlessRetiredEndpointBillingReceipt.
Proof. solve_decision. Defined.

(** The loop over the hours: each belongs to the endpoint, starts where the previous one
    ended and is observed once; the answer is the end of the last hour. *)
Fixpoint walk_hour_costs (endpoint_id : string) (cursor : instant) (seen : list string)
  (costs : list ServerlessEndpointHourCost) : result instant :=
  match costs with
  | [] => Ok cursor
  | h :: rest =>
      run! require
        (bool_decide (hc_endpoint_id h = endpoint_id) && (hc_utc_hour_start h =? cursor) &&
         negb (bool_decide (hc_provider_observation_id h ∈ seen))) ValueError then
      walk_hour_costs endpoint_id (hc_utc_hour_end h) (hc_provider_observation_id h :: seen) rest
  end.

(** [billing_window]. *)
Definition retired_window (r : ServerlessRetiredEndpointBillingReceipt) : result (instant * instant) :=
  billing_hour_bounds (sa_create_started_at (rt_activation r)) (cr_verified_absent_at (rt_cleanup r)).

(** [__post_init__]. *)
Definition check_retired (r : ServerlessRetiredEndpointBillingReceipt) : result unit :=
  run! require (serverless_header_ok (rt_schema_version r) (rt_contract_version r)) ValueError then
  run! validate_cleanup_activation (rt_cleanup r) (rt_activation r) then
  run! require (sa_readback_at (rt_activation r) <=? cr_workers_zero_observed_at (rt_cleanup r)) ValueError then
  let! window := retired_window r in
  let '(start, end_) := window in
  run! require (end_ <=? rt_reconciled_at r) ValueError then
  run! require (negb (bool_decide (rt_endpoint_hour_costs r = []))) ValueError then
  let! cursor := walk_hour_costs (sa_endpoint_id (rt_activation r)) start [] (rt_endpoint_hour_costs r) in
  require (cursor =? end_) ValueError.

Definition mk_retired (r : ServerlessRetiredEndpointBillingReceipt)
  : result ServerlessRetiredEndpointBillingReceipt :=
  run! check_retired r then Ok r.

(** [_identity], [provider_billing_id], [to_dict]. The totals of a valid receipt exist;
    [totals] is their value. *)
Definition retired_identity (r : ServerlessRetiredEndpointBillingReceipt) (totals : CostAmounts)
  : list (string * json) :=
  [("schema_version", JInt (rt_schema_version r));
   ("contract_version", JStr (rt_contract_version r));
   ("cost_scope", JStr "endpoint_lifecycle");
   ("provider_finality_confirmed", JBool false);
   ("activation", JObj (activation_dict (rt_activation r)));
   ("cleanup", JObj (cleanup_dict (rt_cleanup r)));
   ("endpoint_hour_costs", JList (map (fun h => JObj (hour_cost_dict h)) (rt_endpoint_hour_costs r)));
   ("cost_totals", JObj (amounts_dict totals))].

Definition retired_billing_id `{Digest} (r : ServerlessRetiredEndpointBillingReceipt)
  (totals : CostAmounts) : string :=
  "runpod-retired-endpoint-billing:" ++ json_sha256 (JObj (retired_identity r totals)).

Definition retired_dict `{Digest} (r : ServerlessRetiredEndpointBillingReceipt)
  : result (list (string * json)) :=
  let! totals := hour_cost_totals (rt_endpoint_hour_costs r) in
  Ok (retired_identity r totals ++
      [("provider_billing_id", JStr (retired_billing_id r totals));
       ("reconciled_at", jtime (rt_reconciled_at r))])%list.

(** [_required_endpoint_hour_costs]. *)
Definition hour_cost_item (v : json) : result ServerlessEndpointHourCost :=
  match v with JObj l => hour_cost_from_dict l | _ => Exc RunPodManagerError end.

Definition required_hour_costs (value : list (string * json)) (key : string)
  : result (list ServerlessEndpointHourCost) :=
  match get_field value key with
  | JList (x :: l) => rmap hour_cost_item (x :: l)
  | _ => Exc RunPodManagerError
  end.

Definition is_false (v : json) : bool := match v with JBool b => negb b | _ => false end.

(** [from_dict]. *)
Definition retired_from_dict `{Digest} (value : list (string * json))
  : result ServerlessRetiredEndpointBillingReceipt :=
  run! exact_keys value
    ["schema_version"; "contract_version"; "cost_scope"; "provider_finality_confirmed"; "activation";
     "cleanup"; "endpoint_hour_costs"; "cost_totals"; "provider_billing_id"; "reconciled_at"] then
  run! require
    (field_is value "cost_scope" "endpoint_lifecycle" &&
     is_false (get_field value "provider_finality_confirmed")) RunPodManagerError then
  let! raw_activation := required_mapping value "activation" in
  let! raw_cleanup := required_mapping value "cleanup" in
  let! schema_version := required_int value "schema_version" in
  let! contract_version := required_string value "contract_version" in
  let! activation := activation_from_dict raw_activation in
  let! cleanup := cleanup_from_dict raw_cleanup in
  let! costs := required_hour_costs value "endpoint_hour_costs" in
  let! reconciled_at := required_datetime value "reconciled_at" in
  let! parsed := mk_retired {|
    rt_schema_version := schema_version;
    rt_contract_version := contract_version;
    rt_activation := activation;
    rt_cleanup := cleanup;
    rt_endpoint_hour_costs := costs;
    rt_reconciled_at := reconciled_at
  |} in
  let! totals := hour_cost_totals costs in
  run! require
    (field_is value "provider_billing_id" (retired_billing_id parsed totals) &&
     py_eq (get_field value "cost_totals") (JObj (amounts_dict totals))) RunPodManagerError then
  Ok parsed.

(** ** [ServerlessAmbiguousWindowBillingReceipt] *)

Record ServerlessAmbiguousWindowBillingReceipt := {
  ar_schema_version : Z;
  ar_contract_version : string;
  ar_provider_billing_id : string;
  ar_provider_quote_id : string;
  ar_endpoint_profile_sha256 : string;
  ar_endpoint_id : string;
  ar_attempt_id : string;
  ar_exclusive_window_sha256 : string;
  ar_exclusive_billing_hour_starts : list instant;
  ar_attempted_at : instant;
  ar_billable_coverage_until : instant;
  ar_billing_window_from : instant;
  ar_billing_window_until : instant;
  ar_accepted_cost_ceiling_usd : Decimal;
  ar_endpoint_hour_costs : list ServerlessEndpointHourCost;
  ar_amounts : CostAmounts;
  ar_capped_cost_usd : Decimal;
  ar_operator_loss_usd : Decimal;
  ar_reconciled_at : instant
}.

#[export] Instance ServerlessAmbiguousWindowBillingReceipt_dec :
  EqDecision ServerlessAmbiguousWindowBillingReceipt.
Proof. solve_decision. Defined.

(** [min(actual, ceiling)] and the exact difference. *)
Definition capped_cost (actual ceiling : Decimal) : Decimal := if dlt ceiling actual then ceiling else actual.

Definition copy_negate (d : Decimal) : Decimal :=
  match d with Fin c e => Fin (- c) e | Inf n => Inf (negb n) | NaN => NaN end.

Definition operator_loss (actual capped : Decimal) : result Decimal :=
  exact_decimal_sum DEFAULT_PREC [actual; copy_negate capped].

(** [__post_init__]. *)
Definition check_ambiguous_receipt (r : ServerlessAmbiguousWindowBillingReceipt) : result unit :=
  run! require (serverless_header_ok (ar_schema_version r) (ar_contract_version r)) ValueError then
  run! require
    (forallb serverless_identifier
       [ar_provider_billing_id r; ar_provider_quote_id r; ar_endpoint_id r; ar_attempt_id r])
    ValueError then
  run! require (forallb is_sha256 [ar_endpoint_profile_sha256 r; ar_exclusive_window_sha256 r]) ValueError then
  run! require
    ((ar_billing_window_from r <=? ar_attempted_at r) &&
     (ar_attempted_at r <? ar_billable_coverage_until r) &&
     (ar_billable_coverage_until r <=? ar_billing_window_until r) &&
     (ar_billing_window_until r <=? ar_reconciled_at r)) ValueError then
  let! required := serverless_billing_hour_starts (ar_attempted_at r) (ar_billable_coverage_until r) in
  let! actual := normalized_exclusive_hours (ar_exclusive_billing_hour_starts r) in
  run! require (ordered_hours_cover actual required) ValueError then
  let! window := allocation_window actual in
  run! require
    (bool_decide ((ar_billing_window_from r, ar_billing_window_until r) = window)) ValueError then
  run! require (negb (bool_decide (ar_endpoint_hour_costs r = []))) ValueError then
  run! require
    (forallb (fun h => bool_decide (hc_endpoint_id h = ar_endpoint_id r)) (ar_endpoint_hour_costs r) &&
     bool_decide (NoDup (map hc_provider_observation_id (ar_endpoint_hour_costs r)))) ValueError then
  run! require (bool_decide (map hc_utc_hour_start (ar_endpoint_hour_costs r) = actual)) ValueError then
  run! require (positive_decimal (ar_accepted_cost_ceiling_usd r)) ValueError then
  run! require
    (nonnegative_decimal (ar_capped_cost_usd r) && nonnegative_decimal (ar_operator_loss_usd r)) ValueError then
  run! check_amounts (ar_amounts r) then
  let! derived := hour_cost_totals (ar_endpoint_hour_costs r) in
  run! require (amounts_eqb (ar_amounts r) derived) ValueError then
  run! require
    (deqb (ar_capped_cost_usd r)
       (capped_cost (ca_actual_cost_usd (ar_amounts r)) (ar_accepted_cost_ceiling_usd r))) ValueError then
  let! loss := operator_loss (ca_actual_cost_usd (ar_amounts r)) (ar_capped_cost_usd r) in
  require (deqb (ar_operator_loss_usd r) loss) ValueError.

Definition mk_ambiguous_receipt (r : ServerlessAmbiguousWindowBillingReceipt)
  : result ServerlessAmbiguousWindowBillingReceipt :=
  run! check_ambiguous_receipt r then Ok r.

(** [to_dict], [from_dict]. *)
Definition ambiguous_receipt_dict (r : ServerlessAmbiguousWindowBillingReceipt) : list (string * json) :=
  ([("schema_version", JInt (ar_schema_version r));
   ("contract_version", JStr (ar_contract_version r));
   ("provider_billing_id", JStr (ar_provider_billing_id r));
   ("provider_quote_id", JStr (ar_provider_quote_id r));
   ("endpoint_profile_sha256", JStr (ar_endpoint_profile_sha256 r));
   ("endpoint_id", JStr (ar_endpoint_id r));
   ("attempt_id", JStr (ar_attempt_id r));
   ("exclusive_window_sha256", JStr (ar_exclusive_window_sha256 r));
   ("exclusive_billing_hour_starts", jtimes (ar_exclusive_billing_hour_starts r));
   ("attempted_at", jtime (ar_attempted_at r));
   ("billable_coverage_until", jtime (ar_billable_coverage_until r));
   ("billing_window_from", jtime (ar_billing_window_from r));
   ("billing_window_until", jtime (ar_billing_window_until r));
   ("accepted_cost_ceiling_usd", jdec (ar_accepted_cost_ceiling_usd r));
   ("endpoint_hour_costs", JList (map (fun h => JObj (hour_cost_dict h)) (ar_endpoint_hour_costs r)))] ++
   amounts_dict (ar_amounts r) ++
   [("capped_cost_usd", jdec (ar_capped_cost_usd r));
    ("operator_loss_usd", jdec (ar_operator_loss_usd r));
    ("reconciled_at", jtime (ar_reconciled_at r))])%list.

Definition AMBIGUOUS_RECEIPT_FIELDS : list string :=
  ["schema_version"; "contract_version"; "provider_billing_id"; "provider_quote_id";
   "endpoint_profile_sha256"; "endpoint_id"; "attempt_id"; "exclusive_window_sha256";
   "exclusive_billing_hour_starts"; "attempted_at"; "billable_coverage_until";
   "billing_window_from"; "billing_window_until"; "accepted_cost_ceiling_usd";
   "endpoint_hour_costs"; "gpu_cost_usd"; "cpu_cost_usd"; "disk_cost_usd"; "fee_cost_usd";
   "actual_cost_usd"; "capped_cost_usd"; "operator_loss_usd"; "reconciled_at"].

Definition ambiguous_receipt_from_dict (value : list (string * json))
  : result ServerlessAmbiguousWindowBillingReceipt :=
  run! exact_keys value AMBIGUOUS_RECEIPT_FIELDS then
  let! schema_version := required_int value "schema_version" in
  let! contract_version := required_string value "contract_version" in
  let! provider_billing_id := required_string value "provider_billing_id" in
  let! provider_quote_id := required_string value "provider_quote_id" in
  let! endpoint_profile_sha256 := required_string value "endpoint_profile_sha256" in
  let! endpoint_id := required_string value "endpoint_id" in
  let! attempt_id := required_string value "attempt_id" in
  let! exclusive_window_sha256 := required_string value "exclusive_window_sha256" in
  let! exclusive_billing_hour_starts := required_datetimes value "exclusive_billing_hour_starts" in
  let! attempted_at := required_datetime value "attempted_at" in
  let! billable_coverage_until := required_datetime value "billable_coverage_until" in
  let! billing_window_from := required_datetime value "billing_window_from" in
  let! billing_window_until := required_datetime value "billing_window_until" in
  let! accepted_cost_ceiling_usd := required_decimal value "accepted_cost_ceiling_usd" in
  let! costs := required_hour_costs value "endpoint_hour_costs" in
  let! amounts := amounts_from_dict value in
  let! capped := required_decimal value "capped_cost_usd" in
  let! loss := required_decimal value "operator_loss_usd" in
  let! reconciled_at := required_datetime value "reconciled_at" in
  mk_ambiguous_receipt {|
    ar_schema_version := schema_version;
    ar_contract_version := contract_version;
    ar_provider_billing_id := provider_billing_id;
    ar_provider_quote_id := provider_quote_id;
    ar_endpoint_profile_sha256 := endpoint_profile_sha256;
    ar_endpoint_id := endpoint_id;
    ar_attempt_id := attempt_id;
    ar_exclusive_window_sha256 := exclusive_window_sha256;
    ar_exclusive_billing_hour_starts := exclusive_billing_hour_starts;
    ar_attempted_at := attempted_at;
    ar_billable_coverage_until := billable_coverage_until;
    ar_billing_window_from := billing_window_from;
    ar_billing_window_until := billing_window_until;
    ar_accepted_cost_ceiling_usd := accepted_cost_ceiling_usd;
    ar_endpoint_hour_costs := costs;
    ar_amounts := amounts;
    ar_capped_cost_usd := capped;
    ar_operator_loss_usd := loss;
    ar_reconciled_at := reconciled_at
  |}.

(** ** Hours: the loop ends and lists every hour *)

Fixpoint hours_from (cursor : instant) (n : nat) : list instant :=
  match n with O => [] | S m => cursor :: hours_from (cursor + hours 1) m end.

Lemma hour_loop_hours n cursor window_until :
  window_until = cursor + Z.of_nat n * hours 1 -> hour_loop n cursor window_until = Ok (hours_from cursor n).
Proof.
  revert cursor. induction n as [|n IH]; intros cursor ->; cbn [hour_loop hours_from].
  - by rewrite (proj2 (Z.ltb_ge _ _)) by lia.
  - rewrite (proj2 (Z.ltb_lt _ _)) by (unfold hours, US; lia).
    rewrite (IH (cursor + hours 1)) by (unfold hours, US; lia). done.
Qed.

(** An interval between whole hours is a number of hours. *)
Lemma whole_hours f u :
  f mod hours 1 = 0 -> u mod hours 1 = 0 -> f <= u ->
  u = f + Z.of_nat (Z.to_nat ((u - f) / hours 1)) * hours 1.
Proof.
  intros Hf Hu Hle. assert (Hd : (u - f) mod hours 1 = 0) by (rewrite Zminus_mod, Hf, Hu; done).
  assert (0 < hours 1) by done. rewrite Z2Nat.id by (apply Z.div_pos; lia).
  pose proof (Z.div_mod (u - f) (hours 1) ltac:(lia)). lia.
Qed.

Lemma bounds_hours s e f u :
  billing_hour_bounds s e = Ok (f, u) ->
  exists n, u = f + Z.of_nat n * hours 1 /\ n = Z.to_nat ((u - f) / hours 1) /\ (0 < n)%nat.
Proof.
  intros Hb. destruct (hour_bounds_cover _ _ _ _ Hb) as (Hf & Hu & _ & _ & _ & Hlt & _).
  pose proof (whole_hours f u Hf Hu ltac:(lia)) as Hw. eexists. split; [exact Hw|]. split; [done|].
  unfold hours, US in *. lia.
Qed.

(** The fuel is enough: the hours of a window are exactly those between its bounds. *)
Lemma hour_starts_spec s e :
  serverless_billing_hour_starts s e =
    let! window := billing_hour_bounds s e in
    let '(f, u) := window in
    run! require (e - s <=? MAX_BILLABLE_COVERAGE_SECONDS * US) ValueError then
    Ok (hours_from f (Z.to_nat ((u - f) / hours 1))).
Proof.
  unfold serverless_billing_hour_starts. destruct (billing_hour_bounds s e) as [[f u]|] eqn:Hb; [|done].
  cbn [rbind]. destruct (require _ _); [|done]. cbn [rbind].
  destruct (bounds_hours _ _ _ _ Hb) as (n & Hu & -> & _). by apply hour_loop_hours.
Qed.

Lemma hours_from_length c n : length (hours_from c n) = n.
Proof. revert c. induction n as [|n IH]; intros c; [done|]. cbn. by rewrite IH. Qed.

Lemma hours_from_lookup c n i : (i < n)%nat -> hours_from c n !! i = Some (c + Z.of_nat i * hours 1).
Proof.
  revert c i. induction n as [|n IH]; intros c [|i] Hi; cbn [hours_from lookup list_lookup]; try lia.
  - f_equal. lia.
  - rewrite IH by lia. f_equal. unfold hours, US. lia.
Qed.

Lemma hours_from_last c n : last (hours_from c (S n)) = Some (c + Z.of_nat n * hours 1).
Proof. rewrite last_lookup, hours_from_length. cbn [pred]. apply hours_from_lookup. lia. Qed.

Lemma hours_from_elem c n x : x ∈ hours_from c n <-> exists i, (i < n)%nat /\ x = c + Z.of_nat i * hours 1.
Proof.
  rewrite list_elem_of_lookup. split.
  - intros (i & Hi). assert (Hlt : (i < n)%nat) by (rewrite <- (hours_from_length c n); by eapply lookup_lt_Some).
    exists i. split; [done|]. rewrite hours_from_lookup in Hi by done. by injection Hi.
  - intros (i & Hi & ->). exists i. by apply hours_from_lookup.
Qed.

(** The whole hours of a tight window are those the interval touches. *)
Lemma touched_hours s e f u x :
  billing_hour_bounds s e = Ok (f, u) -> x mod hours 1 = 0 ->
  (f <= x /\ x < u) <-> (x < e /\ s < x + hours 1).
Proof.
  intros Hb Hx. destruct (hour_bounds_cover _ _ _ _ Hb) as (Hf & Hu & Hfs & Hse & Heu & Hfu & Htight).
  set (w := hours 1) in *. assert (Hw : 0 < w) by done.
  assert (Hs : s < f + w).
  { destruct (Z.lt_ge_cases s (f + w)) as [|Hge]; [done|].
    destruct (Htight (f + w) u) as [Hc _]; [|done..|lia]. by rewrite Zplus_mod, Hf, Z_mod_same_full. }
  assert (He : u - w < e).
  { destruct (Z.lt_ge_cases (u - w) e) as [|Hge]; [done|].
    destruct (Htight f (u - w)) as [_ Hc]; [done| |done..|lia]. by rewrite Zminus_mod, Hu, Z_mod_same_full. }
  assert (Hgap : forall a b, a mod w = 0 -> b mod w = 0 -> a < b -> a + w <= b).
  { intros a b Ha Hb' Hlt. pose proof (Z.div_mod a w ltac:(lia)) as Hqa. pose proof (Z.div_mod b w ltac:(lia)) as Hqb.
    rewrite Ha in Hqa. rewrite Hb' in Hqb. assert (a / w < b / w) by nia. nia. }
  split.
  - intros [Hfx Hxu]. pose proof (Hgap x u Hx Hu Hxu). lia.
  - intros [Hxe Hsx]. split; [|lia]. destruct (Z.le_gt_cases f x) as [|Hlt]; [done|].
    pose proof (Hgap x f Hx Hf ltac:(lia)). lia.
Qed.

(** A contiguous allocation lists the hours from its first one. *)
Lemma contiguous_from c l :
  contiguous_hours (Some c) l = true -> l = hours_from (c + hours 1) (length l).
Proof.
  revert c. induction l as [|v l IH]; intros c Hc; [done|]. cbn [contiguous_hours] in Hc. split_bools. subst v.
  cbn [length hours_from]. f_equal. by apply IH.
Qed.

Lemma normalized_hours values l :
  normalized_exclusive_hours values = Ok l ->
  l = values /\ exists c n, values = hours_from c (S n) /\ c mod hours 1 = 0.
Proof.
  unfold normalized_exclusive_hours. intros Hn. res_inv. split; [done|].
  destruct l as [|c l]; [done|]. cbn [contiguous_hours] in *. split_bools.
  exists c, (length l). split; [|done]. cbn [hours_from]. f_equal. by apply contiguous_from.
Qed.

(** ** Chained hour costs *)

(** Hour costs of one endpoint that follow each other from [t] to [u]. *)
Fixpoint cost_tiles (endpoint_id : string) (t : instant) (costs : list ServerlessEndpointHourCost)
  (u : instant) : Prop :=
  match costs with
  | [] => t = u
  | h :: rest =>
      hc_endpoint_id h = endpoint_id /\ hc_utc_hour_start h = t /\ cost_tiles endpoint_id (hc_utc_hour_end h) rest u
  end.

Lemma walk_hour_costs_spec endpoint cursor seen costs u :
  walk_hour_costs endpoint cursor seen costs = Ok u <->
  cost_tiles endpoint cursor costs u /\ NoDup (map hc_provider_observation_id costs) /\
  (forall h, h ∈ costs -> hc_provider_observation_id h ∉ seen).
Proof.
  revert cursor seen. induction costs as [|h costs IH]; intros cursor seen; cbn [walk_hour_costs cost_tiles map].
  { split; [intros [= ->]|intros [-> _]; done]. split; [done|]. split; [constructor|]. set_solver. }
  rewrite rbind_ok. setoid_rewrite require_ok. setoid_rewrite IH. rewrite NoDup_cons. split.
  - intros (_ & Hr & Ht & Hnd & Hseen). split_bools. split_and!; try done.
    + intros Hin. apply list_elem_of_fmap in Hin as (h' & He & Hin). apply (Hseen h' Hin). rewrite <- He. set_solver.
    + set_solver.
  - intros ((He & Hc & Ht) & (Hni & Hnd) & Hseen). exists tt.
    assert (Hh : hc_provider_observation_id h ∉ seen) by (apply Hseen; set_solver).
    rewrite He, Hc, Z.eqb_refl, bool_decide_true_eq, bool_decide_false_eq by done.
    split; [done|]. split; [done|]. split; [done|]. intros h' Hh' Hin.
    apply elem_of_cons in Hin as [Heq|Hin]; [|apply (Hseen h'); set_solver].
    apply Hni. rewrite <- Heq. by apply list_elem_of_fmap_2.
Qed.
