(* ===== verification/ServerlessStored.v ===== *)
(** The stored Serverless contracts read back: each satisfies the interface [Stored]. *)
From S2P Require Import Prelude PyStr Enums Errors PyDecimal PyTime Json Billing.
From S2P Require Import ContractsBase CodecBase ServerlessSpec ServerlessQuote ServerlessLifecycle.
From S2P Require Import ServerlessCosts.
From stdpp Require Import list.
Import Billing.Billing.

#[local] Open Scope Z_scope.

(** ** What is plain enough to be written *)

Record storable_amounts (a : CostAmounts) : Prop := {
  sam_gpu : plain (ca_gpu_cost_usd a);
  sam_cpu : plain (ca_cpu_cost_usd a);
  sam_disk : plain (ca_disk_cost_usd a);
  sam_fee : plain (ca_fee_cost_usd a);
  sam_actual : plain (ca_actual_cost_usd a)
}.

Record storable_hour_cost (h : ServerlessEndpointHourCost) : Prop := {
  shc_valid : check_hour_cost h = Ok tt;
  shc_start : representable (hc_utc_hour_start h);
  shc_end : representable (hc_utc_hour_end h);
  shc_amounts : storable_amounts (hc_amounts h)
}.

Record storable_serverless_receipt (r : ServerlessBillingReceipt) : Prop := {
  ssr_valid : check_serverless_receipt r = Ok tt;
  ssr_hours : Forall representable (sb_exclusive_billing_hour_starts r);
  ssr_instants : Forall representable
    [sb_attempt_started_at r; sb_attempt_completed_at r; sb_billable_coverage_until r;
     sb_billing_window_from r; sb_billing_window_until r; sb_reconciled_at r];
  ssr_rate : plain (sb_hourly_worker_rate_usd r);
  ssr_amounts : storable_amounts (sb_amounts r)
}.

Record storable_window (w : ServerlessAmbiguousBillingWindow) : Prop := {
  saw_valid : check_ambiguous_window w = Ok tt;
  saw_hours : Forall representable (aw_exclusive_billing_hour_starts w);
  saw_attempted : representable (aw_attempted_at w);
  saw_coverage : representable (aw_billable_coverage_until w);
  saw_ceiling : plain (aw_accepted_cost_ceiling_usd w)
}.

Record storable_ambiguous (r : ServerlessAmbiguousWindowBillingReceipt) : Prop := {
  sar_valid : check_ambiguous_receipt r = Ok tt;
  sar_hours : Forall representable (ar_exclusive_billing_hour_starts r);
  sar_instants : Forall representable
    [ar_attempted_at r; ar_billable_coverage_until r; ar_billing_window_from r;
     ar_billing_window_until r; ar_reconciled_at r];
  sar_ceiling : plain (ar_accepted_cost_ceiling_usd r);
  sar_costs : Forall storable_hour_cost (ar_endpoint_hour_costs r);
  sar_amounts : storable_amounts (ar_amounts r);
  sar_capped : plain (ar_capped_cost_usd r);
  sar_loss : plain (ar_operator_loss_usd r)
}.

(** ** Reading lists back *)

Lemma datetime_items l : Forall representable l -> rmap datetime_item (map (fun t => jtime t) l) = Ok l.
Proof.
  induction 1 as [|t l Ht _ IH]; [done|]. cbn [map rmap datetime_item jtime].
  by rewrite datetime_of_iso, IH by done.
Qed.

Lemma required_datetimes_of l k ts :
  get_field l k = jtimes ts -> ts <> [] -> Forall representable ts -> required_datetimes l k = Ok ts.
Proof.
  intros H Hne Ht. unfold required_datetimes. rewrite H. destruct ts as [|t ts]; [done|].
  exact (datetime_items (t :: ts) Ht).
Qed.

Lemma normalized_nonempty values l : normalized_exclusive_hours values = Ok l -> values <> [].
Proof. intros H ->. done. Qed.

#[export] Hint Resolve contract_nonempty normalized_nonempty : kestrel.

Ltac decode_times :=
  match goal with |- required_datetimes _ _ = _ => apply required_datetimes_of; [reflexivity| |] end.

Lemma amounts_decode a l :
  storable_amounts a -> Forall (fun p => get_field l (fst p) = snd p) (amounts_dict a) ->
  amounts_from_dict l = Ok a.
Proof.
  intros [] Hl. unfold amounts_dict in Hl.
  repeat match goal with
  | H : Forall _ (_ :: _) |- _ => apply Forall_cons_1 in H; destruct H as [? H]; cbn [fst snd] in *
  end.
  unfold amounts_from_dict. decode; eauto. by destruct a.
Qed.

(** ** Hour costs *)

Lemma hour_cost_decode h : storable_hour_cost h -> hour_cost_from_dict (hour_cost_dict h) = Ok h.
Proof.
  intros [Hv]. assert (Hv' := Hv). unfold check_hour_cost in Hv'. res_inv. split_bools.
  unfold hour_cost_from_dict. decode; unfold hour_cost_dict; eauto with kestrel.
  - apply amounts_decode; [done|]. repeat constructor.
  - rebuild h Hv.
Qed.

#[export] Instance hour_cost_stored : Stored ServerlessEndpointHourCost := {
  encode := hour_cost_dict; decode_from := hour_cost_from_dict; storable := storable_hour_cost;
  decode_encode := hour_cost_decode
}.

Lemma required_hour_costs_of l k costs :
  get_field l k = JList (map (fun h => JObj (hour_cost_dict h)) costs) -> costs <> [] ->
  Forall storable_hour_cost costs -> required_hour_costs l k = Ok costs.
Proof.
  intros H Hne Hc. unfold required_hour_costs. rewrite H. destruct costs as [|h costs]; [done|].
  exact (stored_items (h :: costs) Hc).
Qed.

(** ** Receipts and windows *)

Ltac split_instants :=
  repeat match goal with
  | H : Forall representable (_ :: _) |- _ => apply Forall_cons_1 in H; destruct H as [? H]
  end.

Lemma serverless_receipt_decode r :
  storable_serverless_receipt r -> serverless_receipt_from_dict (serverless_receipt_dict r) = Ok r.
Proof.
  intros [Hv]. assert (Hv' := Hv). unfold check_serverless_receipt in Hv'. res_inv. cbn [forallb] in *.
  split_bools. split_instants.
  unfold serverless_receipt_from_dict. decode; unfold serverless_receipt_dict; cbn [app]; eauto with kestrel.
  - decode_times; eauto with kestrel.
  - apply amounts_decode; [done|]. repeat constructor.
  - rebuild r Hv.
Qed.

Lemma ambiguous_window_decode w :
  storable_window w -> ambiguous_window_from_dict (ambiguous_window_dict w) = Ok w.
Proof.
  intros [Hv]. assert (Hv' := Hv). unfold check_ambiguous_window in Hv'. res_inv. cbn [forallb] in *.
  split_bools. unfold ambiguous_window_from_dict. decode; unfold ambiguous_window_dict; eauto with kestrel.
  - decode_times; eauto with kestrel.
  - rebuild w Hv.
Qed.

Lemma ambiguous_receipt_decode r :
  storable_ambiguous r -> ambiguous_receipt_from_dict (ambiguous_receipt_dict r) = Ok r.
Proof.
  intros [Hv]. assert (Hv' := Hv). unfold check_ambiguous_receipt in Hv'. res_inv. cbn [forallb] in *.
  split_bools. split_instants. unfold ambiguous_receipt_from_dict.
  decode; unfold ambiguous_receipt_dict; cbn [app]; eauto with kestrel.
  - decode_times; eauto with kestrel.
  - apply required_hour_costs_of; [reflexivity| |done].
    match goal with H : bool_decide (_ = []) = _ |- _ => by apply bool_decide_eq_false_1 in H | H : _ <> [] |- _ => exact H end.
  - apply amounts_decode; [done|]. repeat constructor.
  - rebuild r Hv.
Qed.

(** ** The retired endpoint's receipt *)

Section Digests.
Context `{Digest}.

Record storable_retired (r : ServerlessRetiredEndpointBillingReceipt) : Prop := {
  srt_valid : check_retired r = Ok tt;
  srt_activation : storable_activation (rt_activation r);
  srt_cleanup : storable_cleanup (rt_cleanup r);
  srt_costs : Forall storable_hour_cost (rt_endpoint_hour_costs r);
  srt_reconciled : representable (rt_reconciled_at r)
}.

Lemma amounts_dict_refl a : py_eq (JObj (amounts_dict a)) (JObj (amounts_dict a)) = true.
Proof.
  cbn [py_eq]. apply andb_true_intro. split; [reflexivity|]. cbn. by rewrite !bool_decide_true_eq.
Qed.

Lemma retired_decode r d :
  storable_retired r -> retired_dict r = Ok d -> retired_from_dict d = Ok r.
Proof.
  intros [Hv] Hd. assert (Hv' := Hv). unfold check_retired in Hv'.
  unfold retired_dict in Hd. apply rbind_ok in Hd as (totals & Ht & [= <-]).
  apply rbind_ok in Hv' as ([] & Hh & Hv'). apply rbind_ok in Hv' as ([] & _ & Hv').
  apply rbind_ok in Hv' as ([] & _ & Hv'). apply rbind_ok in Hv' as ([start end_] & _ & Hv').
  apply rbind_ok in Hv' as ([] & _ & Hv'). apply rbind_ok in Hv' as ([] & Hne & _).
  apply require_ok in Hh, Hne. split_bools.
  unfold retired_from_dict. decode_checked; unfold retired_identity; cbn [app];
    lazymatch goal with
    | |- context[py_eq] => idtac
    | |- _ => eauto using activation_decode, cleanup_decode with kestrel
    end.
  - by apply required_hour_costs_of.
  - rebuild r Hv.
  - unfold field_is. cbn [get_field String.eqb Ascii.eqb Bool.eqb].
    rewrite amounts_dict_refl, andb_true_r. cbn [py_eq]. by apply bool_decide_true_eq.
Qed.

(** ** Instances *)

#[export] Instance endpoint_spec_stored : Stored ServerlessEndpointSpec := {
  encode := endpoint_spec_dict; decode_from := endpoint_spec_from_dict;
  storable := storable_endpoint_spec; decode_encode := endpoint_spec_decode
}.

#[export] Instance planned_quote_stored : Stored PlannedServerlessCapacityQuote := {
  encode := planned_quote_dict; decode_from := planned_quote_from_dict;
  storable := storable_planned_quote; decode_encode := planned_quote_decode
}.

#[export] Instance capacity_quote_stored : Stored ServerlessCapacityQuote := {
  encode := capacity_quote_dict; decode_from := capacity_quote_from_dict;
  storable := storable_capacity_quote; decode_encode := capacity_quote_decode
}.

#[export] Instance activation_stored : Stored ServerlessEndpointActivationReceipt := {
  encode := activation_dict; decode_from := activation_from_dict;
  storable := storable_activation; decode_encode := activation_decode
}.

#[export] Instance cleanup_intent_stored : Stored ServerlessEndpointCleanupIntent := {
  encode := cleanup_intent_dict; decode_from := cleanup_intent_from_dict;
  storable := storable_cleanup_intent; decode_encode := cleanup_intent_decode
}.

#[export] Instance cleanup_stored : Stored ServerlessEndpointCleanupReceipt := {
  encode := cleanup_dict; decode_from := cleanup_from_dict;
  storable := storable_cleanup; decode_encode := cleanup_decode
}.

#[export] Instance submission_stored : Stored ServerlessActivatedSubmission := {
  encode := submission_dict; decode_from := submission_from_dict;
  storable := storable_submission; decode_encode := submission_decode
}.

#[export] Instance serverless_receipt_stored : Stored ServerlessBillingReceipt := {
  encode := serverless_receipt_dict; decode_from := serverless_receipt_from_dict;
  storable := storable_serverless_receipt; decode_encode := serverless_receipt_decode
}.

#[export] Instance ambiguous_window_stored : Stored ServerlessAmbiguousBillingWindow := {
  encode := ambiguous_window_dict; decode_from := ambiguous_window_from_dict;
  storable := storable_window; decode_encode := ambiguous_window_decode
}.

#[export] Instance ambiguous_receipt_stored : Stored ServerlessAmbiguousWindowBillingReceipt := {
  encode := ambiguous_receipt_dict; decode_from := ambiguous_receipt_from_dict;
  storable := storable_ambiguous; decode_encode := ambiguous_receipt_decode
}.

End Digests.
