(* ===== verification/Prog.v ===== *)
(** Programs over an effect signature.

    A program is a tree of calls: it answers a result, or performs a call and goes on
    with whatever the call answered, an exception included. [run] executes a program
    against a host that answers the [n]-th call, and records the calls with their
    answers; since the host is arbitrary and indexed by position, its answers may
    depend on everything that happened before. [wp] is the weakest precondition of a
    program for a condition on the recorded calls: [wp_run] relates the two.

    [exec] interprets a tree of calls on a state: a machine answers each call and moves
    the state. [swp] is the weakest precondition for a relational view of the machine:
    [eff c s r s'] says that call [c] on state [s] may be answered [r] and leave [s'],
    and [pre c s] is what a program owes before it makes the call. [exec_sound] relates
    the two, and records that every call was owed. *)
From stdpp Require Import list.
From S2P Require Import Prelude PyStr Enums Errors.



Section Programs.
Context {C : Set} (answer : C -> Set).

Record event : Set := Event { ev_call : C; ev_answer : result (answer ev_call) }.

Inductive prog (A : Type) : Type :=
  | Done (r : result A)
  | Perform (c : C) (k : result (answer c) -> prog A).
Arguments Done {A} r.
Arguments Perform {A} c k.

(** ** Sequencing *)

Fixpoint pbind {A B} (p : prog A) (f : A -> prog B) : prog B :=
  match p with
  | Done (Ok a) => f a
  | Done (Exc e) => Done (Exc e)
  | Perform c k => Perform c (fun r => pbind (k r) f)
  end.

(** [try: p except ...]: [h] answers [None] for an exception it does not catch. *)
Fixpoint pcatch {A} (p : prog A) (h : exn -> option (prog A)) : prog A :=
  match p with
  | Done (Ok a) => Done (Ok a)
  | Done (Exc e) => match h e with Some q => q | None => Done (Exc e) end
  | Perform c k => Perform c (fun r => pcatch (k r) h)
  end.

Definition perform (c : C) : prog (answer c) := Perform c Done.

(** ** Execution *)

Definition oracle := forall (n : nat) (c : C), result (answer c).

Fixpoint run {A} (h : oracle) (n : nat) (p : prog A) : result A * list event :=
  match p with
  | Done r => (r, [])
  | Perform c k =>
      let '(r, tr) := run h (S n) (k (h n c)) in (r, Event c (h n c) :: tr)
  end.

(** ** Weakest preconditions *)

(** A condition on calls, given the events before them. *)
Definition monitor := list event -> C -> Prop.

Fixpoint wp {A} (ok : monitor) (p : prog A) (past : list event) (Q : result A -> list event -> Prop) : Prop :=
  match p with
  | Done r => Q r past
  | Perform c k => ok past c /\ forall r, wp ok (k r) (past ++ [Event c r])%list Q
  end.

Lemma wp_mono {A} ok (p : prog A) past (Q Q' : result A -> list event -> Prop) :
  wp ok p past Q -> (forall r tr, Q r tr -> Q' r tr) -> wp ok p past Q'.
Proof.
  intros Hp HQ. revert past Hp. induction p as [r|c k IH]; intros past; cbn; [by auto|].
  intros [Hok Hk]. split; [done|]. intros r. by apply IH.
Qed.

Lemma wp_bind {A B} ok (p : prog A) (f : A -> prog B) past Q :
  wp ok p past (fun r tr => match r with Ok a => wp ok (f a) tr Q | Exc e => Q (Exc e) tr end) ->
  wp ok (pbind p f) past Q.
Proof.
  revert past. induction p as [[a|e]|c k IH]; intros past; cbn; [done|done|].
  intros [Hok Hk]. split; [done|]. intros r. by apply IH.
Qed.

Lemma wp_catch {A} ok (p : prog A) h past Q :
  wp ok p past
    (fun r tr => match r with
       | Ok a => Q (Ok a) tr
       | Exc e => match h e with Some q => wp ok q tr Q | None => Q (Exc e) tr end
       end) ->
  wp ok (pcatch p h) past Q.
Proof.
  revert past. induction p as [[a|e]|c k IH]; intros past; cbn; [done| |].
  - by destruct (h e).
  - intros [Hok Hk]. split; [done|]. intros r. by apply IH.
Qed.

(** A result computed in advance. *)
Lemma wp_done {A} ok (r : result A) past (Q : result A -> list event -> Prop) :
  (forall a, r = Ok a -> Q (Ok a) past) -> (forall e, r = Exc e -> Q (Exc e) past) ->
  wp ok (Done r) past Q.
Proof. destruct r; cbn; eauto. Qed.

Lemma wp_perform ok (c : C) past (Q : result (answer c) -> list event -> Prop) :
  ok past c -> (forall r, Q r (past ++ [Event c r])%list) -> wp ok (perform c) past Q.
Proof. by split. Qed.

(** What [wp] proves of every execution. *)
Lemma wp_run {A} ok (p : prog A) past Q h n r tr :
  wp ok p past Q -> run h n p = (r, tr) ->
  Q r (past ++ tr)%list /\
  forall pre ev post, tr = (pre ++ ev :: post)%list -> ok (past ++ pre)%list (ev_call ev).
Proof.
  revert past n r tr. induction p as [r0|c k IH]; intros past n r tr; cbn [wp run].
  - intros HQ [= <- <-]. rewrite app_nil_r. split; [done|]. by intros [|? ?].
  - intros [Hok Hk]. destruct (run h (S n) (k (h n c))) as [r1 tr1] eqn:E. intros [= <- <-].
    destruct (IH (h n c) _ _ _ _ (Hk (h n c)) E) as [HQ Htr]. rewrite <- app_assoc in HQ.
    split; [done|]. intros [|ev' pre] ev post Heq; cbn in Heq.
    + injection Heq as <- _. by rewrite app_nil_r.
    + injection Heq as <- Heq. specialize (Htr pre ev post Heq). by rewrite <- app_assoc in Htr.
Qed.

(** A program that makes only calls the monitor allows: the events after it extend
    the events before it. *)
Lemma wp_extends {A} (p : prog A) past :
  wp (fun _ _ => True) p past (fun _ tr => exists new, tr = (past ++ new)%list).
Proof.
  revert past. induction p as [r|c k IH]; intros past; cbn; [exists []; by rewrite app_nil_r|].
  split; [done|]. intros r. eapply wp_mono; [apply IH|]. intros _ tr (new & ->).
  exists (Event c r :: new). by rewrite <- app_assoc.
Qed.

(** ** Programs with the same executions *)

Definition prog_equiv {A} (p q : prog A) : Prop := forall h n, run h n p = run h n q.

#[export] Instance prog_equiv_equivalence {A} : Equivalence (@prog_equiv A).
Proof.
  split; [done| |].
  - intros p q Hpq h n. by rewrite Hpq.
  - intros p q r Hpq Hqr h n. by rewrite Hpq.
Qed.

Lemma run_bind {A B} (p : prog A) (f : A -> prog B) h n :
  run h n (pbind p f) =
    let '(r, tr) := run h n p in
    match r with
    | Ok a => let '(r', tr') := run h (n + length tr) (f a) in (r', tr ++ tr')%list
    | Exc e => (Exc e, tr)
    end.
Proof.
  revert n. induction p as [[a|e]|c k IH]; intros n; cbn [pbind run length]; [|done|].
  - rewrite Nat.add_0_r. by destruct (run h n (f a)).
  - rewrite IH. destruct (run h (S n) (k (h n c))) as [[a|e] tr]; cbn [length]; [|done].
    replace (n + S (length tr)) with (S n + length tr) by lia. by destruct (run h _ (f a)).
Qed.

#[export] Instance pbind_proper {A B} :
  Proper (prog_equiv ==> pointwise_relation A prog_equiv ==> prog_equiv) (@pbind A B).
Proof.
  intros p q Hpq f g Hfg h n. rewrite !run_bind, Hpq. destruct (run h n q) as [[a|] tr]; [|done].
  by rewrite (Hfg a).
Qed.

Lemma perform_proper {A} c (k k' : result (answer c) -> prog A) :
  (forall r, prog_equiv (k r) (k' r)) -> prog_equiv (Perform c k) (Perform c k').
Proof. intros Hk h n. cbn [run]. by rewrite Hk. Qed.

Lemma bind_assoc {A B D} (p : prog A) (f : A -> prog B) (g : B -> prog D) :
  prog_equiv (pbind (pbind p f) g) (pbind p (fun a => pbind (f a) g)).
Proof.
  induction p as [[a|e]|c k IH]; cbn [pbind]; [done|done|]. by apply perform_proper.
Qed.

Lemma bind_done {A} (p : prog A) : prog_equiv (pbind p (fun a => Done (Ok a))) p.
Proof. induction p as [[a|e]|c k IH]; cbn [pbind]; [done|done|]. by apply perform_proper. Qed.

End Programs.

Arguments prog_equiv {C answer A} p q.
Arguments Event {C answer} ev_call ev_answer.
Arguments ev_call {C answer} _.
Arguments ev_answer {C answer} _.
Arguments Done {C answer A} r.
Arguments Perform {C answer A} c k.
Arguments pbind {C answer A B} p f.
Arguments pcatch {C answer A} p h.
Arguments perform {C answer} c.
Arguments run {C answer A} h n p.
Arguments wp {C answer A} ok p past Q.
Arguments wp_run {C answer A ok p past Q h n r tr} _ _.

Declare Scope prog_scope.
Delimit Scope prog_scope with prog.

Notation "'let+' x ':=' m 'in' k" := (pbind m (fun x => k))
  (at level 10, x name, m at level 100, k at level 200,
   format "'[v' 'let+'  x  ':='  m  'in' '/' k ']'") : prog_scope.
Notation "'run+' m 'then' k" := (pbind m (fun _ => k))
  (at level 10, m at level 100, k at level 200,
   format "'[v' 'run+'  m  'then' '/' k ']'") : prog_scope.

Section Stateful.
Context {C : Set} {answer : C -> Set} {S : Type}.

Abbreviation prog A := (@Prog.prog C answer A).

Definition machine := forall c : C, S -> result (answer c) * S.

(** The run also answers the calls made, each with the state it was made on. *)
Fixpoint exec {A} (h : machine) (p : prog A) (s : S) : result A * S * list (C * S) :=
  match p with
  | Done r => (r, s, [])
  | Perform c k =>
      let '(a, s1) := h c s in
      let '(r, s2, calls) := exec h (k a) s1 in (r, s2, (c, s) :: calls)
  end.

Lemma exec_bind {A B} (h : machine) (p : prog A) (f : A -> prog B) s :
  exec h (pbind p f) s =
    let '(r, s1, calls) := exec h p s in
    match r with
    | Ok a => let '(r', s2, calls') := exec h (f a) s1 in (r', s2, (calls ++ calls')%list)
    | Exc e => (Exc e, s1, calls)
    end.
Proof.
  revert s. induction p as [[a|e]|c k IH]; intros s; cbn [pbind exec]; [|done|].
  - by destruct (exec h (f a) s) as [[? ?] ?].
  - destruct (h c s) as [a s1]. rewrite IH. destruct (exec h (k a) s1) as [[[b|e] s2] calls]; [|done].
    by destruct (exec h (f b) s2) as [[? ?] ?].
Qed.

Lemma exec_catch {A} (h : machine) (p : prog A) handler s :
  exec h (pcatch p handler) s =
    let '(r, s1, calls) := exec h p s in
    match r with
    | Ok a => (Ok a, s1, calls)
    | Exc e =>
        match handler e with
        | Some q => let '(r', s2, calls') := exec h q s1 in (r', s2, (calls ++ calls')%list)
        | None => (Exc e, s1, calls)
        end
    end.
Proof.
  revert s. induction p as [[a|e]|c k IH]; intros s; cbn [pcatch exec]; [done| |].
  - destruct (handler e) as [q|]; [|done]. by destruct (exec h q s) as [[? ?] ?].
  - destruct (h c s) as [a s1]. rewrite IH. destruct (exec h (k a) s1) as [[[b|e] s2] calls]; [done|].
    destruct (handler e) as [q|]; [|done]. by destruct (exec h q s2) as [[? ?] ?].
Qed.

Context (pre : C -> S -> Prop) (eff : forall c : C, S -> result (answer c) -> S -> Prop).

Fixpoint swp {A} (p : prog A) (s : S) (Q : result A -> S -> Prop) : Prop :=
  match p with
  | Done r => Q r s
  | Perform c k => pre c s /\ forall a s', eff c s a s' -> swp (k a) s' Q
  end.

Lemma swp_mono {A} (p : prog A) s (Q Q' : result A -> S -> Prop) :
  swp p s Q -> (forall r s', Q r s' -> Q' r s') -> swp p s Q'.
Proof.
  intros Hp HQ. revert s Hp. induction p as [r|c k IH]; intros s; cbn [swp]; [by auto|].
  intros [Hpre Hk]. split; [done|]. intros a s' He. by apply IH, Hk.
Qed.

Lemma swp_bind {A B} (p : prog A) (f : A -> prog B) s Q :
  swp p s (fun r s' => match r with Ok a => swp (f a) s' Q | Exc e => Q (Exc e) s' end) ->
  swp (pbind p f) s Q.
Proof.
  revert s. induction p as [[a|e]|c k IH]; intros s; cbn [swp pbind]; [done|done|].
  intros [Hpre Hk]. split; [done|]. intros a s' He. by apply IH, Hk.
Qed.

Lemma swp_catch {A} (p : prog A) h s Q :
  swp p s
    (fun r s' => match r with
       | Ok a => Q (Ok a) s'
       | Exc e => match h e with Some q => swp q s' Q | None => Q (Exc e) s' end
       end) ->
  swp (pcatch p h) s Q.
Proof.
  revert s. induction p as [[a|e]|c k IH]; intros s; cbn [swp pcatch]; [done| |].
  - by destruct (h e).
  - intros [Hpre Hk]. split; [done|]. intros a s' He. by apply IH, Hk.
Qed.

Lemma swp_perform (c : C) s (Q : result (answer c) -> S -> Prop) :
  pre c s -> (forall a s', eff c s a s' -> Q a s') -> swp (perform c) s Q.
Proof. by split. Qed.

(** Two facts about every run hold together. *)
Lemma swp_and {A} (p : prog A) s (Q Q' : result A -> S -> Prop) :
  swp p s Q -> swp p s Q' -> swp p s (fun r s' => Q r s' /\ Q' r s').
Proof.
  revert s. induction p as [r|c k IH]; intros s; cbn [swp]; [done|].
  intros [Hpre Hk] [_ Hk']. split; [done|]. intros a s' He. apply IH; auto.
Qed.

(** A machine whose moves [eff] describes, from the states that [I] holds of. *)
Theorem exec_sound {A} (h : machine) (I : S -> Prop) (p : prog A) s Q :
  (forall c s, I s -> pre c s -> eff c s (fst (h c s)) (snd (h c s))) ->
  (forall c s a s', I s -> pre c s -> eff c s a s' -> I s') ->
  I s -> swp p s Q ->
  let '(r, s', calls) := exec h p s in
  Q r s' /\ I s' /\ Forall (fun x => pre (fst x) (snd x) /\ I (snd x)) calls.
Proof.
  intros Hh HI. revert s. induction p as [r|c k IH]; intros s Hs; cbn [swp exec]; [done|].
  intros [Hpre Hk]. specialize (Hh c s Hs Hpre) as He. destruct (h c s) as [a s1]. cbn [fst snd] in He.
  specialize (IH a s1 (HI _ _ _ _ Hs Hpre He) (Hk a s1 He)).
  destruct (exec h (k a) s1) as [[r s2] calls]. destruct IH as (HQ & HI2 & Hc).
  split; [done|]. split; [done|]. by constructor.
Qed.

End Stateful.

Arguments machine {C} answer S.
Arguments exec {C answer S A} h p s.
Arguments swp {C answer S} pre eff {A} p s Q.

(** ** Interpretation of the calls of one signature by programs of another *)

Section Interp.
Context {C D : Set} {answer : C -> Set} {danswer : D -> Set}.
Context (handle : forall c : C, @Prog.prog D danswer (answer c)).

Fixpoint join {A B} (p : @Prog.prog D danswer A) (k : result A -> @Prog.prog D danswer B)
  : @Prog.prog D danswer B :=
  match p with
  | Done r => k r
  | Perform d j => Perform d (fun a => join (j a) k)
  end.

(** Every call [c] of [p] becomes the program [handle c]. *)
Fixpoint interp {A} (p : @Prog.prog C answer A) : @Prog.prog D danswer A :=
  match p with
  | Done r => Done r
  | Perform c k => join (handle c) (fun a => interp (k a))
  end.

Lemma swp_join {S A B} pre eff (p : @Prog.prog D danswer A) (k : result A -> @Prog.prog D danswer B) (s : S) Q :
  swp pre eff p s (fun r s' => swp pre eff (k r) s' Q) -> swp pre eff (join p k) s Q.
Proof.
  revert s. induction p as [r|d j IH]; intros s; cbn [swp join]; [done|].
  intros [Hpre Hj]. split; [done|]. intros a s' He. by apply IH, Hj.
Qed.

(** A property of the program with abstract calls holds of the interpreted one, when
    the handler of each call keeps the promise made for it. *)
Theorem swp_interp {S A} pre eff preD effD (p : @Prog.prog C answer A) (s : S) Q :
  (forall c s, pre c s -> swp preD effD (handle c) s (fun a s' => eff c s a s')) ->
  swp pre eff p s Q -> swp preD effD (interp p) s Q.
Proof.
  intros Hh. revert s. induction p as [r|c k IH]; intros s; cbn [swp interp]; [done|].
  intros [Hpre Hk]. apply swp_join. eapply swp_mono; [by apply Hh|].
  intros a s' He. cbn beta. by apply IH, Hk.
Qed.

(** *** Executions *)

Lemma run_join {A B} (p : @Prog.prog D danswer A) (k : result A -> @Prog.prog D danswer B) h n :
  run h n (join p k) =
    let '(r, tr) := run h n p in
    let '(r', tr') := run h (n + length tr) (k r) in (r', tr ++ tr')%list.
Proof.
  revert n. induction p as [r|d j IH]; intros n; cbn [join run length].
  - rewrite Nat.add_0_r. by destruct (run h n (k r)).
  - rewrite IH. destruct (run h (S n) (j (h n d))) as [r tr]. cbn [length].
    replace (n + S (length tr)) with (S n + length tr) by lia. by destruct (run h _ (k r)).
Qed.

(** An execution depends on the answers from its first call on. *)
Lemma run_ext {E : Set} {eanswer : E -> Set} {A} (p : @Prog.prog E eanswer A) h h' n :
  (forall i c, n <= i -> h i c = h' i c) -> run h n p = run h' n p.
Proof.
  revert n. induction p as [r|c k IH]; intros n Hh; cbn [run]; [done|].
  rewrite <- (Hh n c) by lia. rewrite (IH (h n c) (S n)) by (intros; apply Hh; lia). done.
Qed.

(** The segment of an interpreted execution that a call of the program stands for. *)
Definition handled (h : @oracle D danswer) (ev : @Prog.event C answer) (segment : list (@Prog.event D danswer)) : Prop :=
  exists i, run h i (handle (ev_call ev)) = (ev_answer ev, segment).

(** Every execution of an interpreted program is an execution of the program against
    the host that answers each call by running its handler. *)
Theorem interp_run {A} (p : @Prog.prog C answer A) h n m r tr :
  run h n (interp p) = (r, tr) ->
  exists host evs segments,
    run host m p = (r, evs) /\ tr = concat segments /\ Forall2 (handled h) evs segments.
Proof.
  enough (H : forall n m r tr, run h n (interp p) = (r, tr) ->
    exists start evs segments,
      run (fun i c => fst (run h (start i) (handle c))) m p = (r, evs) /\
      tr = concat segments /\ Forall2 (handled h) evs segments).
  { intros Hr. destruct (H n m r tr Hr) as (start & evs & segments & He). by eexists _, evs, segments. }
  clear. induction p as [r0|c k IH]; intros n m r tr; cbn [interp run].
  { intros [= <- <-]. exists (fun _ => 0), [], []. by split_and!. }
  rewrite run_join. destruct (run h n (handle c)) as [a seg] eqn:Ea.
  destruct (run h (n + length seg) (interp (k a))) as [r1 tr1] eqn:Er. intros [= <- <-].
  destruct (IH a _ (S m) _ _ Er) as (start & evs & segments & He & -> & Hf).
  set (start' i := if Nat.eqb i m then n else start i).
  assert (Hm : fst (run h (start' m) (handle c)) = a).
  { subst start'. cbn beta. by rewrite Nat.eqb_refl, Ea. }
  exists start', (Event c a :: evs), (seg :: segments). split_and!.
  - rewrite Hm. erewrite run_ext, He; [done|]. intros i c' Hi. subst start'. cbn beta.
    destruct (Nat.eqb_spec i m); [lia|done].
  - done.
  - constructor; [|done]. by exists n.
Qed.

End Interp.

(** ** Two signatures side by side *)

Section Sum.
Context {C D : Set} {answer : C -> Set} {danswer : D -> Set}.

Definition sum_answer (c : C + D) : Set := match c with inl c => answer c | inr d => danswer d end.

Definition perform_left (c : C) : @Prog.prog (C + D) sum_answer (answer c) := @perform _ sum_answer (inl c).
Definition perform_right (d : D) : @Prog.prog (C + D) sum_answer (danswer d) := @perform _ sum_answer (inr d).

(** A program of the first signature among those of both. *)
Definition on_left {A} (p : @Prog.prog C answer A) : @Prog.prog (C + D) sum_answer A := interp perform_left p.

(** The events of the first signature. *)
Definition left_event (ev : @Prog.event (C + D) sum_answer) : option (@Prog.event C answer) :=
  match ev with
  | @Event _ _ (inl c) a => Some (@Event C answer c a)
  | _ => None
  end.

Definition left_events (tr : list (@Prog.event (C + D) sum_answer)) : list (@Prog.event C answer) :=
  omap left_event tr.

(** Its executions are those of the program against the first host. *)
Lemma run_on_left {A} (p : @Prog.prog C answer A) h n r tr :
  run h n (on_left p) = (r, tr) ->
  run (fun i c => h i (inl c)) n p = (r, left_events tr).
Proof.
  revert n r tr. induction p as [r0|c k IH]; intros n r tr; cbn [on_left interp run].
  { by intros [= <- <-]. }
  change (join (perform_left c) (fun a => interp perform_left (k a)))
    with (@Perform (C + D) sum_answer A (inl c) (fun a => on_left (k a))). cbn [run].
  destruct (run h (S n) (on_left (k (h n (inl c))))) as [r1 tr1] eqn:E. intros [= <- <-].
  by rewrite (IH _ _ _ _ E).
Qed.

End Sum.
