(* ===== verification/ServerlessCatalog.v ===== *)
(** Pure parts of [serverless_capacity_provider.py]: the choice of a catalog offer and
    data center, the amounts of a quote, the comparisons that bind a quote to its
    request, and the comparison of a live endpoint with its specification
    ([_validate_endpoint_config] and its callers, [validate_endpoint_mounts]). *)
From Stdlib Require Import Ascii.
From S2P Require Import Prelude PyStr Enums Errors PyDecimal PyTime Json PyFloat Billing Placement ContractsBase CodecBase ServerlessSpec ServerlessQuote.



Import Placement.Placement Billing.Billing.

#[local] Open Scope Z_scope.

(** ** Readers of provider payloads *)

(** [_mapping], [_string], [_integer], [_decimal], [_string_tuple], [_exact_keys]. *)
Definition payload_mapping (v : json) : result (list (string * json)) :=
  match v with JObj l => Ok l | _ => Exc RunPodManagerError end.

Definition payload_string (v : json) : result string :=
  match v with
  | JStr s => if bool_decide (s = "") then Exc RunPodManagerError else Ok s
  | _ => Exc RunPodManagerError
  end.

Definition payload_integer (v : json) : result Z :=
  match v with
  | JInt z => if z <? 0 then Exc RunPodManagerError else Ok z
  | _ => Exc RunPodManagerError
  end.

Definition payload_decimal (v : json) : result Decimal :=
  let! d := of_option (number_decimal v) RunPodManagerError in
  run! require (nonnegative_decimal d) RunPodManagerError then
  Ok d.

Definition payload_strings (v : json) : result (list string) :=
  match v with JList l => rmap payload_string l | _ => Exc RunPodManagerError end.

(** ** Catalog *)

(** [_validate_catalog_numbers]. *)
Definition safe_offer (o : GPUOffer) : bool :=
  forallb nonnegative_decimal
    ([go_secure_price_per_hr o; go_community_price_per_hr o] ++
     match go_serverless_price_per_hr o with Some p => [p] | None => [] end)%list &&
  (0 <=? go_memory_gb o) && (0 <=? go_secure_max_count o) && (0 <=? go_community_max_count o).

Definition validate_catalog_numbers (offers : list GPUOffer) : result unit :=
  require (forallb safe_offer offers) RunPodManagerError.

(** [_AVAILABILITY_RANK], by wire value. *)
Definition wire_rank (v : json) : option Z :=
  match v with JStr s => availability_rank <$> of_value s | _ => None end.

(** The loop of [_select_data_center]: the allowed data centers with enough stock and
    their ranks. An identifier that is no text is in no set of strings. *)
Fixpoint data_center_matches (allowed : list string) (minimum : Z) (items : list (list (string * json)))
  : result (list (string * Z)) :=
  match items with
  | [] => Ok []
  | item :: rest =>
      match get_field item "id" with
      | JStr data_center_id =>
          if mem data_center_id allowed then
            let! rank := of_option (wire_rank (get_field item "availability")) RunPodManagerError in
            let! more := data_center_matches allowed minimum rest in
            Ok (if minimum <=? rank then (data_center_id, rank) :: more else more)
          else data_center_matches allowed minimum rest
      | JList _ | JObj _ => Exc TypeError
      | _ => data_center_matches allowed minimum rest
      end
  end.

(** The order of the sort key [(-rank, id)]. *)
Definition match_le (a b : string * Z) : bool :=
  if snd b <? snd a then true
  else if snd a <? snd b then false else str_le (chars (fst a)) (chars (fst b)).

(** The head of the sorted matches: the first of the least ones. *)
Fixpoint best_match (best : string * Z) (l : list (string * Z)) : string * Z :=
  match l with
  | [] => best
  | m :: rest => best_match (if match_le best m then best else m) rest
  end.

(** [_select_data_center]. *)
Definition select_data_center (o : GPUOffer) (s : ServerlessEndpointSpec) : result string :=
  let! matches := data_center_matches (kc_allowed_data_center_ids (es_constraints s))
    (availability_rank (kc_minimum_availability (es_constraints s))) (go_data_centers o) in
  match matches with
  | [] => Exc RunPodManagerError
  | m :: rest => Ok (fst (best_match m rest))
  end.

(** [_catalog_observation_sha256]: [next] over no match ends the coroutine with a
    [RuntimeError]. *)
Definition catalog_observation_sha256 `{Digest} (o : GPUOffer) (s : ServerlessEndpointSpec)
  (data_center_id : string) : result string :=
  match List.find (fun item => py_eq (get_field item "id") (JStr data_center_id)) (go_data_centers o) with
  | None => Exc RuntimeError
  | Some selected =>
      let! price := price_for o (kc_cloud (es_constraints s)) SERVERLESS in
      Ok (json_sha256 (JObj
        [("product", JStr (product_value SERVERLESS));
         ("gpu_id", JStr (go_id o));
         ("gpu_pool", opt_json JStr (go_pool o));
         ("gpu_name", JStr (go_name o));
         ("manufacturer", JStr (go_manufacturer o));
         ("vram_gb", JInt (go_memory_gb o));
         ("cloud", JStr (cloud_value (kc_cloud (es_constraints s))));
         ("gpu_count", JInt (kc_gpu_count (es_constraints s)));
         ("hourly_worker_rate_usd", jdec price);
         ("availability", opt_json (fun a => JStr (availability_value a)) (go_availability o));
         ("data_center_id", JStr data_center_id);
         ("data_center_availability", get_field selected "availability");
         ("min_cuda_version", opt_json JStr (go_availability_min_cuda_version o))]))
  end.

(** [_CatalogSelection]. *)
Record CatalogSelection := {
  sl_offer : GPUOffer;
  sl_observed_at : instant;
  sl_gpu_id : string;
  sl_gpu_pool : string;
  sl_gpu_name : string;
  sl_vram_gb : Z;
  sl_data_center_id : string;
  sl_availability : Availability;
  sl_hourly_worker_rate_usd : Decimal;
  sl_observation_sha256 : string
}.

(** [_observe_catalog] after the catalog answered and the clock was read. *)
Definition catalog_selection `{Digest} (offers : list GPUOffer) (requirements : PlacementRequirements)
  (s : ServerlessEndpointSpec) (observed_at : instant) : result CatalogSelection :=
  let! placement := select_gpu offers requirements observed_at in
  match pd_gpu_pool placement, pd_availability placement with
  | Some gpu_pool, Some availability =>
      match List.filter (fun o => bool_decide (go_pool o = Some gpu_pool)) offers with
      | [] => Exc IndexError
      | offer :: _ =>
          let! data_center_id := select_data_center offer s in
          let! digest := catalog_observation_sha256 offer s data_center_id in
          Ok {|
            sl_offer := offer;
            sl_observed_at := observed_at;
            sl_gpu_id := pd_gpu_id placement;
            sl_gpu_pool := gpu_pool;
            sl_gpu_name := pd_gpu_name placement;
            sl_vram_gb := pd_memory_gb placement;
            sl_data_center_id := data_center_id;
            sl_availability := availability;
            sl_hourly_worker_rate_usd := pd_offered_cost_per_hr placement;
            sl_observation_sha256 := digest
          |}
      end
  | _, _ => Exc RunPodManagerError
  end.

(** ** Amounts and terms of a quote *)

(** [_quote_amounts]: estimated billable seconds, then the two worker costs and the two
    totals. *)
Record QuoteAmounts := {
  am_estimated_billable_seconds : Z;
  am_estimated_worker_cost_usd : Decimal;
  am_maximum_worker_cost_usd : Decimal;
  am_estimated_cost_usd : Decimal;
  am_cost_ceiling_usd : Decimal
}.

Definition quote_amounts (r : RequestTerms) (s : ServerlessEndpointSpec) (hourly : Decimal)
  : result QuoteAmounts :=
  let estimated_billable :=
    xr_estimated_worker_start_seconds r + xr_estimated_execution_seconds r + es_idle_tail_seconds s in
  let gpu_count := kc_gpu_count (es_constraints s) in
  let! estimated_worker := serverless_worker_cost_usd hourly gpu_count estimated_billable in
  let! maximum_worker := serverless_worker_cost_usd hourly gpu_count (xr_maximum_billable_seconds r) in
  Ok {|
    am_estimated_billable_seconds := estimated_billable;
    am_estimated_worker_cost_usd := estimated_worker;
    am_maximum_worker_cost_usd := maximum_worker;
    am_estimated_cost_usd := dadd DEFAULT_PREC estimated_worker (xr_estimated_non_worker_cost_usd r);
    am_cost_ceiling_usd := dadd DEFAULT_PREC maximum_worker (xr_maximum_non_worker_cost_usd r)
  |}.

(** [_quote_request_identity]. *)
Definition quote_request_identity (r : RequestTerms) (s : ServerlessEndpointSpec) : list (string * json) :=
  [("estimated_queue_delay_seconds", opt_json JInt (xr_estimated_queue_delay_seconds r));
   ("estimated_worker_start_seconds", JInt (xr_estimated_worker_start_seconds r));
   ("estimated_execution_seconds", JInt (xr_estimated_execution_seconds r));
   ("idle_tail_seconds", JInt (es_idle_tail_seconds s));
   ("maximum_queue_delay_seconds", JInt (xr_maximum_queue_delay_seconds r));
   ("maximum_worker_start_seconds", JInt (xr_maximum_worker_start_seconds r));
   ("maximum_execution_seconds", JInt (xr_maximum_execution_seconds r));
   ("job_execution_timeout_ms", JInt (xr_job_execution_timeout_ms r));
   ("job_ttl_ms", JInt (xr_job_ttl_ms r));
   ("maximum_billable_seconds", JInt (xr_maximum_billable_seconds r));
   ("estimated_non_worker_cost_usd", jdec (xr_estimated_non_worker_cost_usd r));
   ("maximum_non_worker_cost_usd", jdec (xr_maximum_non_worker_cost_usd r))].

(** The placement both quote identities describe. *)
Definition selection_identity (sel : CatalogSelection) (requirements : PlacementRequirements)
  (s : ServerlessEndpointSpec) (r : RequestTerms) (expires_at : instant) : list (string * json) :=
  ([("catalog_observation_sha256", JStr (sl_observation_sha256 sel));
    ("gpu_id", JStr (sl_gpu_id sel));
    ("gpu_pool", JStr (sl_gpu_pool sel));
    ("vram_gb", JInt (sl_vram_gb sel));
    ("data_center_id", JStr (sl_data_center_id sel));
    ("cloud", JStr (cloud_value (pr_cloud requirements)));
    ("gpu_count", JInt (pr_gpu_count requirements));
    ("min_cuda_version", opt_json JStr (pr_min_cuda_version requirements));
    ("availability", JStr (availability_value (sl_availability sel)));
    ("benchmark_id", JStr (kc_benchmark_id (es_constraints s)));
    ("hourly_worker_rate_usd", jdec (sl_hourly_worker_rate_usd sel))] ++
   quote_request_identity r s ++
   [("catalog_observed_at", jtime (sl_observed_at sel)); ("expires_at", jtime expires_at)])%list.

(** The terms both kinds of quote take from a selection and a request. *)
Definition terms_of (provider_quote_id : string) (sel : CatalogSelection) (requirements : PlacementRequirements)
  (s : ServerlessEndpointSpec) (r : RequestTerms) (a : QuoteAmounts) (expires_at : instant) : QuoteTerms := {|
  qt_schema_version := SERVERLESS_CAPACITY_SCHEMA_VERSION;
  qt_contract_version := SERVERLESS_CAPACITY_CONTRACT_VERSION;
  qt_provider_quote_id := provider_quote_id;
  qt_workload_kind := xr_workload_kind r;
  qt_parameters_sha256 := xr_parameters_sha256 r;
  qt_catalog_observation_sha256 := sl_observation_sha256 sel;
  qt_gpu_id := sl_gpu_id sel;
  qt_gpu_pool := sl_gpu_pool sel;
  qt_gpu_name := sl_gpu_name sel;
  qt_vram_gb := sl_vram_gb sel;
  qt_data_center_id := sl_data_center_id sel;
  qt_cloud := pr_cloud requirements;
  qt_gpu_count := pr_gpu_count requirements;
  qt_min_cuda_version := pr_min_cuda_version requirements;
  qt_availability := sl_availability sel;
  qt_benchmark_id := kc_benchmark_id (es_constraints s);
  qt_hourly_worker_rate_usd := sl_hourly_worker_rate_usd sel;
  qt_estimated_queue_delay_seconds := xr_estimated_queue_delay_seconds r;
  qt_estimated_worker_start_seconds := xr_estimated_worker_start_seconds r;
  qt_estimated_execution_seconds := xr_estimated_execution_seconds r;
  qt_idle_tail_seconds := es_idle_tail_seconds s;
  qt_maximum_queue_delay_seconds := xr_maximum_queue_delay_seconds r;
  qt_maximum_worker_start_seconds := xr_maximum_worker_start_seconds r;
  qt_maximum_execution_seconds := xr_maximum_execution_seconds r;
  qt_job_execution_timeout_ms := xr_job_execution_timeout_ms r;
  qt_job_ttl_ms := xr_job_ttl_ms r;
  qt_estimated_billable_seconds := am_estimated_billable_seconds a;
  qt_maximum_billable_seconds := xr_maximum_billable_seconds r;
  qt_estimated_worker_cost_usd := am_estimated_worker_cost_usd a;
  qt_maximum_worker_cost_usd := am_maximum_worker_cost_usd a;
  qt_estimated_non_worker_cost_usd := xr_estimated_non_worker_cost_usd r;
  qt_maximum_non_worker_cost_usd := xr_maximum_non_worker_cost_usd r;
  qt_estimated_cost_usd := am_estimated_cost_usd a;
  qt_cost_ceiling_usd := am_cost_ceiling_usd a;
  qt_catalog_observed_at := sl_observed_at sel;
  qt_expires_at := expires_at
|}.

Section Digests.
Context `{Digest}.

(** [_observe_planned_quote] after the catalog was observed. *)
Definition planned_quote_of (request : PlannedServerlessCapacityQuoteRequest)
  (requirements : PlacementRequirements) (sel : CatalogSelection) : result PlannedServerlessCapacityQuote :=
  let planned := kp_endpoint request in
  let s := pe_spec planned in
  let r := kp_terms request in
  let! digest := operation_digest s (pe_endpoint_name planned) (sl_gpu_pool sel) (sl_data_center_id sel) in
  let! amounts := quote_amounts r s (sl_hourly_worker_rate_usd sel) in
  let expires_at := sl_observed_at sel + seconds (xr_quote_ttl_seconds r) in
  let identity :=
    ([("contract_version", JStr SERVERLESS_CAPACITY_CONTRACT_VERSION);
      ("workload_kind", JStr (xr_workload_kind r));
      ("parameters_sha256", JStr (xr_parameters_sha256 r));
      ("plan_id", JStr (pe_plan_id planned));
      ("plan_sha256", JStr (plan_sha256 planned));
      ("endpoint_name", JStr (pe_endpoint_name planned));
      ("endpoint_spec_sha256", JStr (spec_sha256 s));
      ("operation_digest", JStr digest);
      ("worker_reference", JStr (es_worker_reference s))] ++
     selection_identity sel requirements s r expires_at)%list in
  mk_planned_quote {|
    pq_plan_id := pe_plan_id planned;
    pq_plan_sha256 := plan_sha256 planned;
    pq_endpoint_name := pe_endpoint_name planned;
    pq_endpoint_spec_sha256 := spec_sha256 s;
    pq_operation_digest := digest;
    pq_worker_reference := es_worker_reference s;
    pq_terms := terms_of ("runpod-serverless-plan:" ++ json_sha256 (JObj identity))
                  sel requirements s r amounts expires_at
  |}.

(** [_observe_quote] after the catalog and the endpoint were observed. *)
Definition capacity_quote_of (request : ServerlessCapacityQuoteRequest)
  (requirements : PlacementRequirements) (sel : CatalogSelection) : result ServerlessCapacityQuote :=
  let profile := kr_profile request in
  let s := ep_spec profile in
  let r := kr_terms request in
  let! amounts := quote_amounts r s (sl_hourly_worker_rate_usd sel) in
  let expires_at := sl_observed_at sel + seconds (xr_quote_ttl_seconds r) in
  let identity :=
    ([("contract_version", JStr SERVERLESS_CAPACITY_CONTRACT_VERSION);
      ("workload_kind", JStr (xr_workload_kind r));
      ("parameters_sha256", JStr (xr_parameters_sha256 r));
      ("profile_id", JStr (ep_profile_id profile));
      ("endpoint_profile_sha256", JStr (profile_sha256 profile));
      ("endpoint_id", JStr (ep_endpoint_id profile))] ++
     selection_identity sel requirements s r expires_at)%list in
  mk_capacity_quote {|
    cq_profile_id := ep_profile_id profile;
    cq_endpoint_profile_sha256 := profile_sha256 profile;
    cq_endpoint_id := ep_endpoint_id profile;
    cq_terms := terms_of ("runpod-serverless:" ++ json_sha256 (JObj identity))
                  sel requirements s r amounts expires_at
  |}.

(** ** Bindings of a quote *)

(** The fields both binding checks compare. *)
Definition terms_bind (r : RequestTerms) (s : ServerlessEndpointSpec) (t : QuoteTerms) : bool :=
  bool_decide (xr_workload_kind r = qt_workload_kind t) &&
  bool_decide (xr_parameters_sha256 r = qt_parameters_sha256 t) &&
  (kc_gpu_count (es_constraints s) =? qt_gpu_count t) &&
  bool_decide (kc_cloud (es_constraints s) = qt_cloud t) &&
  bool_decide (kc_min_cuda_version (es_constraints s) = qt_min_cuda_version t) &&
  bool_decide (qt_gpu_pool t ∈ kc_allowed_gpu_pools (es_constraints s)) &&
  bool_decide (qt_data_center_id t ∈ kc_allowed_data_center_ids (es_constraints s)) &&
  bool_decide (kc_benchmark_id (es_constraints s) = qt_benchmark_id t) &&
  bool_decide (xr_estimated_queue_delay_seconds r = qt_estimated_queue_delay_seconds t) &&
  (xr_estimated_worker_start_seconds r =? qt_estimated_worker_start_seconds t) &&
  (xr_estimated_execution_seconds r =? qt_estimated_execution_seconds t) &&
  (es_idle_tail_seconds s =? qt_idle_tail_seconds t) &&
  (xr_maximum_queue_delay_seconds r =? qt_maximum_queue_delay_seconds t) &&
  (xr_maximum_worker_start_seconds r =? qt_maximum_worker_start_seconds t) &&
  (xr_maximum_execution_seconds r =? qt_maximum_execution_seconds t) &&
  (xr_job_execution_timeout_ms r =? qt_job_execution_timeout_ms t) &&
  (xr_job_ttl_ms r =? qt_job_ttl_ms t) &&
  (xr_maximum_billable_seconds r =? qt_maximum_billable_seconds t) &&
  deqb (xr_estimated_non_worker_cost_usd r) (qt_estimated_non_worker_cost_usd t) &&
  deqb (xr_maximum_non_worker_cost_usd r) (qt_maximum_non_worker_cost_usd t).

(** [_validate_request_binding]. *)
Definition validate_request_binding (request : ServerlessCapacityQuoteRequest) (q : ServerlessCapacityQuote)
  : result unit :=
  let profile := kr_profile request in
  require
    (bool_decide (ep_profile_id profile = cq_profile_id q) &&
     bool_decide (profile_sha256 profile = cq_endpoint_profile_sha256 q) &&
     bool_decide (ep_endpoint_id profile = cq_endpoint_id q) &&
     terms_bind (kr_terms request) (ep_spec profile) (cq_terms q)) RunPodManagerError.

(** The conjuncts of [_validate_planned_request_binding] before the operation digest,
    whose computation refuses a pool or a data center the specification does not allow
    with [ValueError]. *)
Definition planned_identity_binds (request : PlannedServerlessCapacityQuoteRequest)
  (q : PlannedServerlessCapacityQuote) : bool :=
  let planned := kp_endpoint request in
  bool_decide (xr_workload_kind (kp_terms request) = qt_workload_kind (pq_terms q)) &&
  bool_decide (xr_parameters_sha256 (kp_terms request) = qt_parameters_sha256 (pq_terms q)) &&
  bool_decide (pe_plan_id planned = pq_plan_id q) &&
  bool_decide (plan_sha256 planned = pq_plan_sha256 q) &&
  bool_decide (pe_endpoint_name planned = pq_endpoint_name q) &&
  bool_decide (spec_sha256 (pe_spec planned) = pq_endpoint_spec_sha256 q) &&
  bool_decide (es_worker_reference (pe_spec planned) = pq_worker_reference q).

Definition validate_planned_request_binding (request : PlannedServerlessCapacityQuoteRequest)
  (q : PlannedServerlessCapacityQuote) : result unit :=
  let planned := kp_endpoint request in
  run! require (planned_identity_binds request q) RunPodManagerError then
  let! digest := operation_digest (pe_spec planned) (pe_endpoint_name planned)
    (qt_gpu_pool (pq_terms q)) (qt_data_center_id (pq_terms q)) in
  run! require (bool_decide (digest = pq_operation_digest q)) RunPodManagerError then
  require (terms_bind (kp_terms request) (pe_spec planned) (pq_terms q)) RunPodManagerError.

End Digests.

(** The placement a fresh quote must share with the accepted one. *)
Definition same_placement (current accepted : QuoteTerms) : bool :=
  bool_decide (qt_gpu_id current = qt_gpu_id accepted) &&
  bool_decide (qt_gpu_pool current = qt_gpu_pool accepted) &&
  (qt_vram_gb current =? qt_vram_gb accepted) &&
  bool_decide (qt_data_center_id current = qt_data_center_id accepted) &&
  bool_decide (qt_cloud current = qt_cloud accepted) &&
  (qt_gpu_count current =? qt_gpu_count accepted) &&
  bool_decide (qt_min_cuda_version current = qt_min_cuda_version accepted) &&
  bool_decide (qt_benchmark_id current = qt_benchmark_id accepted).

(** The price checks that follow. *)
Definition no_dearer (current accepted : QuoteTerms) (accepted_cost_ceiling_usd : Decimal) : result unit :=
  run! require (negb (dlt (qt_hourly_worker_rate_usd accepted) (qt_hourly_worker_rate_usd current)))
    RunPodManagerError then
  require (negb (dlt accepted_cost_ceiling_usd (qt_cost_ceiling_usd current))) RunPodManagerError.

(** [_validate_planned_quote_drift]. *)
Definition validate_planned_quote_drift (current accepted : PlannedServerlessCapacityQuote)
  (accepted_cost_ceiling_usd : Decimal) : result unit :=
  run! require
    (bool_decide (qt_workload_kind (pq_terms current) = qt_workload_kind (pq_terms accepted)) &&
     bool_decide (qt_parameters_sha256 (pq_terms current) = qt_parameters_sha256 (pq_terms accepted)) &&
     bool_decide (pq_plan_id current = pq_plan_id accepted) &&
     bool_decide (pq_plan_sha256 current = pq_plan_sha256 accepted) &&
     bool_decide (pq_endpoint_name current = pq_endpoint_name accepted) &&
     bool_decide (pq_endpoint_spec_sha256 current = pq_endpoint_spec_sha256 accepted) &&
     bool_decide (pq_operation_digest current = pq_operation_digest accepted) &&
     bool_decide (pq_worker_reference current = pq_worker_reference accepted) &&
     same_placement (pq_terms current) (pq_terms accepted) &&
     bool_decide (qt_availability (pq_terms current) = qt_availability (pq_terms accepted)))
    RunPodManagerError then
  no_dearer (pq_terms current) (pq_terms accepted) accepted_cost_ceiling_usd.

(** The drift checks of [validate_quote_for_submission]. *)
Definition validate_quote_drift (current accepted : ServerlessCapacityQuote)
  (accepted_cost_ceiling_usd : Decimal) : result unit :=
  run! require
    (bool_decide (cq_profile_id current = cq_profile_id accepted) &&
     bool_decide (cq_endpoint_profile_sha256 current = cq_endpoint_profile_sha256 accepted) &&
     bool_decide (cq_endpoint_id current = cq_endpoint_id accepted) &&
     same_placement (cq_terms current) (cq_terms accepted)) RunPodManagerError then
  no_dearer (cq_terms current) (cq_terms accepted) accepted_cost_ceiling_usd.

Import Placement.Placement.

#[local] Open Scope Z_scope.

(** [EndpointResource]; [raw] is whatever the client kept of the payload. *)
Record EndpointResource : Set := {
  en_id : string;
  en_name : string;
  en_endpoint_type : option string;
  en_raw : json
}.

(** [ServerlessJob], the fields settlement reads. *)
Record ServerlessJob : Set := {
  sj_id : string;
  sj_status : string;
  sj_delay_time_ms : option Z;
  sj_execution_time_ms : option Z
}.

(** [tuple(a) == tuple(b)] of strings. *)
Definition same_strings (a b : list string) : result unit :=
  require (bool_decide (a = b)) RunPodManagerError.

(** One network mount of [validate_endpoint_mounts]. *)
Definition mount_volume (mount : json) : result string :=
  match mount with
  | JObj l =>
      run! exact_keys l ["volumeId"] then
      payload_string (get_field l "volumeId")
  | _ => Exc RunPodManagerError
  end.

(** [validate_endpoint_mounts]. *)
Definition validate_endpoint_mounts (raw : list (string * json)) (expected_network_volume_ids : list string)
  : result unit :=
  let! mounts := payload_mapping (get_field raw "mounts") in
  run! exact_keys mounts ["network"; "global"] then
  match get_field mounts "network", get_field mounts "global" with
  | JList network, JList global_mounts =>
      run! require (match global_mounts with [] => true | _ => false end) RunPodManagerError then
      let! network_ids := rmap mount_volume network in
      same_strings network_ids expected_network_volume_ids
  | _, _ => Exc RunPodManagerError
  end.

(** [raw.get(name) == expected] for the scalars of the configuration. *)
Definition scalars_match (raw : list (string * json)) (s : ServerlessEndpointSpec) : bool :=
  py_eq (get_field raw "image") (JStr (es_worker_reference s)) &&
  py_eq (get_field raw "timeout") (JInt (es_execution_timeout_ms s)) &&
  py_eq (get_field raw "flashboot") (JStr (flashboot_value (es_flashboot s))) &&
  py_eq (get_field raw "disk") (JInt (es_disk_gb s)).

Definition is_ga (s : ServerlessEndpointSpec) : bool :=
  bool_decide (es_resource_schema_version s = RESOURCE_GA).

(** [normalize_cuda_floor(...) if ga_authority else None]. *)
Definition expected_cuda_floor (s : ServerlessEndpointSpec) : result (option string) :=
  if is_ga s then normalize_cuda_floor (kc_min_cuda_version (es_constraints s)) else Ok None.

(** The normalized configuration [_validate_endpoint_config] answers. *)
Definition normalized_config (e : EndpointResource) (s : ServerlessEndpointSpec)
  (floor : option string) (gpu_pool data_center_id : string) : list (string * json) :=
  ([("name", JStr (en_name e));
    ("image", JStr (es_worker_reference s));
    ("type", JStr "QUEUE");
    ("gpu",
      JObj ([("pools", jstrs [gpu_pool]); ("count", JInt (kc_gpu_count (es_constraints s)))] ++
            if is_ga s then
              [("minCudaVersion", opt_json JStr floor); ("allowedCudaVersions", JList [])]
            else []));
    ("workers",
      JObj [("min", JInt (es_workers_min s)); ("max", JInt (es_workers_max s));
            ("idleTimeout", JInt (es_idle_tail_seconds s))]);
    ("scaling",
      JObj [("type", JStr (es_scaling_type s)); ("queueDelay", jdec (es_scaling_value s))]);
    ("disk", JInt (es_disk_gb s));
    ("ports", JList []);
    ("env", JObj []);
    ("args", JNull);
    ("registry", opt_json JStr (es_registry_id s));
    ("dataCenterIds", jstrs [data_center_id]);
    ("networkVolumes", jstrs (es_network_volume_ids s))] ++
   (if is_ga s then
      [("mounts",
        JObj [("network", JList (map (fun v => JObj [("volumeId", JStr v)]) (es_network_volume_ids s)));
              ("global", JList [])])]
    else []) ++
   [("timeout", JInt (es_execution_timeout_ms s));
    ("flashboot", JStr (flashboot_value (es_flashboot s)))])%list.

(** [_validate_endpoint_config], check by check. *)
Definition validate_endpoint_config (e : EndpointResource) (s : ServerlessEndpointSpec)
  (gpu_pool data_center_id : string) : result (list (string * json)) :=
  let! raw := payload_mapping (en_raw e) in
  run! require (py_eq (get_field raw "type") (JStr "QUEUE")) RunPodManagerError then
  let! gpu := payload_mapping (get_field raw "gpu") in
  let! workers := payload_mapping (get_field raw "workers") in
  let! scaling := payload_mapping (get_field raw "scaling") in
  let! pools := payload_strings (get_field gpu "pools") in
  run! same_strings pools [gpu_pool] then
  let! count := payload_integer (get_field gpu "count") in
  run! require (count =? kc_gpu_count (es_constraints s)) RunPodManagerError then
  let! floor := expected_cuda_floor s in
  run! require (bool_decide ("minCudaVersion" ∈ keys gpu) && bool_decide ("allowedCudaVersions" ∈ keys gpu))
    RunPodManagerError then
  run! require (py_eq (get_field gpu "minCudaVersion") (opt_json JStr floor)) RunPodManagerError then
  let! allowed_versions := payload_strings (get_field gpu "allowedCudaVersions") in
  run! same_strings allowed_versions [] then
  run! validate_endpoint_mounts raw (es_network_volume_ids s) then
  let! workers_min := payload_integer (get_field workers "min") in
  run! require (workers_min =? es_workers_min s) RunPodManagerError then
  let! workers_max := payload_integer (get_field workers "max") in
  run! require (workers_max =? es_workers_max s) RunPodManagerError then
  let! idle_timeout := payload_integer (get_field workers "idleTimeout") in
  run! require (idle_timeout =? es_idle_tail_seconds s) RunPodManagerError then
  run! require (py_eq (get_field scaling "type") (JStr (es_scaling_type s))) RunPodManagerError then
  let! queue_delay := payload_decimal (get_field scaling "queueDelay") in
  run! require (deqb queue_delay (es_scaling_value s)) RunPodManagerError then
  let! data_centers := payload_strings (get_field raw "dataCenterIds") in
  run! same_strings data_centers [data_center_id] then
  let! volumes := payload_strings (get_field raw "networkVolumes") in
  run! same_strings volumes (es_network_volume_ids s) then
  run! require (scalars_match raw s) RunPodManagerError then
  let! ports := payload_strings (get_field raw "ports") in
  run! same_strings ports [] then
  let! env := payload_mapping (get_field raw "env") in
  run! require (match env with [] => true | _ => false end) RunPodManagerError then
  run! require (match get_field raw "args" with JNull => true | _ => false end) RunPodManagerError then
  run! require (py_eq (get_field raw "registry") (opt_json JStr (es_registry_id s))) RunPodManagerError then
  Ok (normalized_config e s floor gpu_pool data_center_id).

(** [_validate_endpoint_binding]. *)
Definition validate_endpoint_binding (e : EndpointResource) (p : ServerlessEndpointProfile)
  (gpu_pool data_center_id : string) : result unit :=
  run! require
    (bool_decide (en_id e = ep_endpoint_id p) && bool_decide (en_name e = ep_endpoint_name p) &&
     bool_decide (en_endpoint_type e = Some "QUEUE")) RunPodManagerError then
  run! validate_endpoint_config e (ep_spec p) gpu_pool data_center_id then
  Ok tt.

(** [_validate_planned_endpoint_binding]: the digest of the normalized readback. *)
Definition validate_planned_endpoint_binding `{Digest} (e : EndpointResource)
  (planned : PlannedServerlessEndpoint) (expected_endpoint_id gpu_pool data_center_id : string)
  : result string :=
  run! require
    (bool_decide (en_id e = expected_endpoint_id) && bool_decide (en_name e = pe_endpoint_name planned) &&
     bool_decide (en_endpoint_type e = Some "QUEUE")) RunPodManagerError then
  let! normalized := validate_endpoint_config e (pe_spec planned) gpu_pool data_center_id in
  Ok (json_sha256 (JObj
    [("endpoint_id", JStr (en_id e));
     ("endpoint_name", JStr (en_name e));
     ("immutable_config", JObj normalized)])).

(** A configuration that passes is the normalized form of its specification. *)
Lemma endpoint_config_normal e s pool dc c :
  validate_endpoint_config e s pool dc = Ok c ->
  exists floor, expected_cuda_floor s = Ok floor /\ c = normalized_config e s floor pool dc.
Proof. unfold validate_endpoint_config. intros Hv. res_inv. eauto. Qed.

(** What a binding endpoint is: named and placed as planned. *)
Lemma planned_binding_identity `{Digest} e planned id pool dc digest :
  validate_planned_endpoint_binding e planned id pool dc = Ok digest ->
  en_id e = id /\ en_name e = pe_endpoint_name planned.
Proof.
  unfold validate_planned_endpoint_binding. intros Hv. apply rbind_ok in Hv as ([] & Hr & _).
  apply require_ok in Hr. split_bools. by split.
Qed.

(** The digest depends on the endpoint only through its identity: two readbacks of one
    planned endpoint that both pass have the same digest. *)
Lemma planned_binding_digest `{Digest} e e' planned id pool dc digest digest' :
  validate_planned_endpoint_binding e planned id pool dc = Ok digest ->
  validate_planned_endpoint_binding e' planned id pool dc = Ok digest' -> digest = digest'.
Proof.
  intros H1 H2.
  destruct (planned_binding_identity _ _ _ _ _ _ H1) as [Hi Hn].
  destruct (planned_binding_identity _ _ _ _ _ _ H2) as [Hi' Hn'].
  unfold validate_planned_endpoint_binding in H1, H2.
  apply rbind_ok in H1 as ([] & _ & H1). apply rbind_ok in H2 as ([] & _ & H2).
  apply rbind_ok in H1 as (c & Hc & [= <-]). apply rbind_ok in H2 as (c' & Hc' & [= <-]).
  apply endpoint_config_normal in Hc as (f & Hf & ->). apply endpoint_config_normal in Hc' as (f' & Hf' & ->).
  assert (f = f') as -> by congruence. unfold normalized_config. by rewrite Hi, Hi', Hn, Hn'.
Qed.
