(* ===== verification/ServerlessHours.v ===== *)
(** Closed endpoint hours read from a billing page ([_authoritative_hour_costs],
    [_amounts_from_mapping] of [serverless_capacity_provider.py]): an answered list of
    costs tiles its window hour by hour and adds up to the page's totals. *)
From Stdlib Require Import Permutation.
From S2P Require Import Prelude PyStr Enums Errors PyDecimal PyTime Json Billing PodBilling.
From S2P Require Import ContractsBase CodecBase ServerlessSpec ServerlessCosts ServerlessCatalog.
Import Billing.Billing.

#[local] Open Scope Z_scope.

Abbreviation BillingPage := PodBilling.BillingPage.
Abbreviation bp_records := PodBilling.bp_records.
Abbreviation bp_metadata := PodBilling.bp_metadata.

Definition BILLING_RECORD_KEYS : list string :=
  ["startTime"; "endTime"; "serverlessId"; "totalAmount"; "gpuAmount"; "cpuAmount"; "diskAmount"; "feeAmount"].
Definition BILLING_METADATA_KEYS : list string := ["query"; "recordCount"; "uniqueServerlessCount"; "totals"].
Definition BILLING_QUERY_KEYS : list string := ["startTime"; "endTime"; "bucketSize"; "serverlessId"].
Definition BILLING_TOTAL_KEYS : list string :=
  ["totalAmount"; "gpuAmount"; "cpuAmount"; "diskAmount"; "feeAmount"].
Definition BILLING_COMPONENTS : list string := ["gpuAmount"; "cpuAmount"; "diskAmount"; "feeAmount"].

(** [_amounts_from_mapping]. *)
Definition amounts_from_mapping (value : list (string * json)) : result CostAmounts :=
  let! amounts := billing_amounts DEFAULT_PREC value BILLING_COMPONENTS in
  Ok {|
    ca_gpu_cost_usd := amount_of amounts "gpuAmount";
    ca_cpu_cost_usd := amount_of amounts "cpuAmount";
    ca_disk_cost_usd := amount_of amounts "diskAmount";
    ca_fee_cost_usd := amount_of amounts "feeAmount";
    ca_actual_cost_usd := amount_of amounts "totalAmount"
  |}.

(** [parse_datetime(_string(value))]. *)
Definition payload_datetime (v : json) : result instant :=
  let! s := payload_string v in datetime_of s.

(** One record: its interval and amounts. *)
Record billing_row := { br_from : instant; br_until : instant; br_amounts : CostAmounts }.

Definition parse_billing_row (endpoint_id : string) (record : list (string * json)) : result billing_row :=
  run! exact_keys record BILLING_RECORD_KEYS then
  run! require (field_is record "serverlessId" endpoint_id) RunPodManagerError then
  let! record_from := payload_datetime (get_field record "startTime") in
  let! record_until := payload_datetime (get_field record "endTime") in
  let! amounts := amounts_from_mapping record in
  Ok {| br_from := record_from; br_until := record_until; br_amounts := amounts |}.

(** [parsed.sort(key=start)], a stable sort. *)
Fixpoint insert_billing_row (r : billing_row) (l : list billing_row) : list billing_row :=
  match l with
  | [] => [r]
  | x :: l' => if br_from r <=? br_from x then r :: l else x :: insert_billing_row r l'
  end.

Definition sort_billing_rows (l : list billing_row) : list billing_row := fold_right insert_billing_row [] l.

Section Digests.
Context `{Digest}.

(** The cost of one closed hour; an invalid one is the provider's fault. *)
Definition observation_identity (endpoint_id : string) (r : billing_row) : list (string * json) :=
  [("source", JStr "runpod-v2-serverless-billing");
   ("startTime", jtime (br_from r));
   ("endTime", jtime (br_until r));
   ("serverlessId", JStr endpoint_id);
   ("totalAmount", jdec (ca_actual_cost_usd (br_amounts r)));
   ("gpuAmount", jdec (ca_gpu_cost_usd (br_amounts r)));
   ("cpuAmount", jdec (ca_cpu_cost_usd (br_amounts r)));
   ("diskAmount", jdec (ca_disk_cost_usd (br_amounts r)));
   ("feeAmount", jdec (ca_fee_cost_usd (br_amounts r)))].

Definition row_hour_cost (endpoint_id : string) (r : billing_row) : ServerlessEndpointHourCost := {|
  hc_provider_observation_id :=
    "runpod-serverless-hour:" ++ json_sha256 (JObj (observation_identity endpoint_id r));
  hc_endpoint_id := endpoint_id;
  hc_utc_hour_start := br_from r;
  hc_utc_hour_end := br_until r;
  hc_amounts := br_amounts r
|}.

Definition observed_hour (endpoint_id : string) (r : billing_row) : result ServerlessEndpointHourCost :=
  match mk_hour_cost (row_hour_cost endpoint_id r) with
  | Exc ValueError => Exc RunPodManagerError
  | other => other
  end.

(** The loop over the sorted records, then the coverage check: [None] as soon as an
    hour is missing or still open. *)
Fixpoint walk_billing_rows (endpoint_id : string) (cursor window_until : instant) (rows : list billing_row)
  : result (option (list ServerlessEndpointHourCost)) :=
  match rows with
  | [] => if cursor <? window_until then Ok None else Ok (Some [])
  | r :: rest =>
      run! require (br_from r <? br_until r) RunPodManagerError then
      if (cursor <? br_from r) && (br_from r <? window_until) then Ok None
      else
        run! require (br_from r =? cursor) RunPodManagerError then
        run! require (br_until r <=? window_until) RunPodManagerError then
        if br_until r <? br_from r + hours 1 then Ok None
        else
          run! require (br_until r =? br_from r + hours 1) RunPodManagerError then
          let! cost := observed_hour endpoint_id r in
          let! following := walk_billing_rows endpoint_id (br_until r) window_until rest in
          Ok (match following with Some costs => Some (cost :: costs) | None => None end)
  end.

(** The query echo of the metadata. *)
Definition check_query_echo (query : list (string * json)) (endpoint_id : string)
  (window_from window_until : instant) : result unit :=
  run! require (field_is query "serverlessId" endpoint_id) RunPodManagerError then
  run! require (field_is query "bucketSize" "hour") RunPodManagerError then
  let! start := payload_datetime (get_field query "startTime") in
  run! require (start =? window_from) RunPodManagerError then
  let! end_ := payload_datetime (get_field query "endTime") in
  require (end_ =? window_until) RunPodManagerError.

(** [_authoritative_hour_costs]. *)
Definition authoritative_hour_costs (page : BillingPage) (endpoint_id : string)
  (window_from window_until : instant) : result (option (list ServerlessEndpointHourCost)) :=
  let metadata := bp_metadata page in
  run! exact_keys metadata BILLING_METADATA_KEYS then
  let! query := payload_mapping (get_field metadata "query") in
  let! totals := payload_mapping (get_field metadata "totals") in
  run! exact_keys query BILLING_QUERY_KEYS then
  run! exact_keys totals BILLING_TOTAL_KEYS then
  run! check_query_echo query endpoint_id window_from window_until then
  let! record_count := payload_integer (get_field metadata "recordCount") in
  let! unique_count := payload_integer (get_field metadata "uniqueServerlessCount") in
  run! require (record_count =? Z.of_nat (length (bp_records page))) RunPodManagerError then
  match bp_records page with
  | [] => run! require (unique_count <=? 1) RunPodManagerError then Ok None
  | records =>
      run! require (unique_count =? 1) RunPodManagerError then
      let! parsed := rmap (parse_billing_row endpoint_id) records in
      let! walked := walk_billing_rows endpoint_id window_from window_until (sort_billing_rows parsed) in
      match walked with
      | None => Ok None
      | Some costs =>
          let! expected_totals := amounts_from_mapping totals in
          let! summed := hour_cost_totals costs in
          run! require (amounts_eqb summed expected_totals) RunPodManagerError then
          Ok (Some costs)
      end
  end.

(** ** Complete pages *)

(** Records that follow each other hour by hour. *)
Fixpoint rows_tile (t : instant) (rows : list billing_row) (u : instant) : Prop :=
  match rows with
  | [] => t = u
  | r :: rest => br_from r = t /\ br_until r = t + hours 1 /\ rows_tile (br_until r) rest u
  end.

Lemma rows_tile_length t rows u : rows_tile t rows u -> u = t + Z.of_nat (length rows) * hours 1.
Proof.
  revert t. induction rows as [|r rows IH]; intros t; cbn [rows_tile length]; [lia|].
  intros (_ & Hu & Hr). apply IH in Hr. lia.
Qed.

Lemma rows_tile_le t rows u : rows_tile t rows u -> t <= u.
Proof. intros Hr. apply rows_tile_length in Hr. unfold hours, US in Hr. lia. Qed.

Lemma observed_hour_ok endpoint r cost :
  observed_hour endpoint r = Ok cost <->
  cost = row_hour_cost endpoint r /\ check_hour_cost (row_hour_cost endpoint r) = Ok tt.
Proof.
  unfold observed_hour, mk_hour_cost. destruct (check_hour_cost _) as [[]|e]; cbn [rbind].
  - split; [by intros [= <-]|by intros [-> _]].
  - split; [by destruct e|by intros [_ ?]].
Qed.

Lemma walk_rows_tile endpoint cursor until rows costs :
  cursor <= until -> walk_billing_rows endpoint cursor until rows = Ok (Some costs) ->
  rows_tile cursor rows until /\ costs = map (row_hour_cost endpoint) rows /\
  Forall (fun h => check_hour_cost h = Ok tt) costs.
Proof.
  revert cursor costs. induction rows as [|r rows IH]; intros cursor costs Hle; cbn [walk_billing_rows rows_tile map].
  { destruct (Z.ltb_spec cursor until); [done|]. intros [= <-]. split; [lia|by split]. }
  intros Hw. apply rbind_ok in Hw as ([] & _ & Hw). destruct (_ && _); [done|].
  apply rbind_ok in Hw as ([] & Hf & Hw). apply rbind_ok in Hw as ([] & Hu & Hw).
  destruct (_ <? _); [done|]. apply rbind_ok in Hw as ([] & Hh & Hw).
  apply rbind_ok in Hw as (cost & Hc & Hw). apply rbind_ok in Hw as ([rest|] & Hr & Hw); [|done].
  injection Hw as <-. apply require_ok in Hf, Hu, Hh. split_bools.
  apply observed_hour_ok in Hc as [-> Hc]. destruct (IH _ _ Hu Hr) as (Ht & -> & Hv).
  split_and!; [done|lia|done|done|by constructor].
Qed.

Lemma tile_rows_walk endpoint cursor until rows :
  rows_tile cursor rows until ->
  Forall (fun h => check_hour_cost h = Ok tt) (map (row_hour_cost endpoint) rows) ->
  walk_billing_rows endpoint cursor until rows = Ok (Some (map (row_hour_cost endpoint) rows)).
Proof.
  revert cursor. induction rows as [|r rows IH]; intros cursor; cbn [walk_billing_rows rows_tile map].
  { intros -> _. by rewrite Z.ltb_irrefl. }
  intros (Hf & Hu & Ht) Hv. apply Forall_cons_1 in Hv as [Hc Hv].
  pose proof (rows_tile_le _ _ _ Ht) as Hle.
  assert (Hh : 0 < hours 1) by done.
  rewrite (proj2 (Z.ltb_lt (br_from r) (br_until r))), (proj2 (Z.ltb_ge cursor (br_from r))) by lia.
  cbn [rbind require andb]. rewrite (proj2 (Z.eqb_eq (br_from r) cursor)) by lia.
  rewrite (proj2 (Z.leb_le (br_until r) until)), (proj2 (Z.ltb_ge (br_until r) (br_from r + hours 1))) by lia.
  cbn [rbind require]. rewrite (proj2 (Z.eqb_eq (br_until r) (br_from r + hours 1))) by lia.
  cbn [rbind require]. rewrite (proj2 (observed_hour_ok endpoint r _) (conj eq_refl Hc)). cbn [rbind].
  by rewrite IH.
Qed.

Lemma tile_costs endpoint t rows u :
  rows_tile t rows u -> cost_tiles endpoint t (map (row_hour_cost endpoint) rows) u.
Proof.
  revert t. induction rows as [|r rows IH]; intros t; cbn [rows_tile cost_tiles map]; [done|].
  intros (Hf & _ & Hr). split_and!; [done|done|by apply IH].
Qed.

Lemma insert_billing_row_permutation r l : Permutation (r :: l) (insert_billing_row r l).
Proof.
  induction l as [|x l IH]; [done|]. cbn [insert_billing_row]. destruct (_ <=? _); [done|].
  transitivity (x :: r :: l); [constructor|]. by constructor.
Qed.

Lemma sort_billing_rows_permutation l : Permutation l (sort_billing_rows l).
Proof.
  induction l as [|r l IH]; [done|]. cbn [sort_billing_rows fold_right].
  transitivity (r :: sort_billing_rows l); [by constructor|apply insert_billing_row_permutation].
Qed.

(** What an answered list of costs stands for. *)
Record authoritative (page : BillingPage) (endpoint_id : string) (window_from window_until : instant)
  (costs : list ServerlessEndpointHourCost) : Prop := {
  au_tiles : cost_tiles endpoint_id window_from costs window_until;
  au_valid : Forall (fun h => check_hour_cost h = Ok tt) costs;
  au_records : exists rows, rmap (parse_billing_row endpoint_id) (bp_records page) = Ok rows /\
    Permutation rows (sort_billing_rows rows) /\
    costs = map (row_hour_cost endpoint_id) (sort_billing_rows rows);
  au_totals : exists totals reported summed,
    get_field (bp_metadata page) "totals" = JObj totals /\ amounts_from_mapping totals = Ok reported /\
    hour_cost_totals costs = Ok summed /\ amounts_eqb summed reported = true
}.

Lemma authoritative_spec page endpoint window_from window_until costs :
  window_from <= window_until ->
  authoritative_hour_costs page endpoint window_from window_until = Ok (Some costs) ->
  authoritative page endpoint window_from window_until costs.
Proof.
  intros Hle. unfold authoritative_hour_costs. cbv zeta. intros Ha.
  apply rbind_ok in Ha as ([] & _ & Ha). apply rbind_ok in Ha as (query & _ & Ha).
  apply rbind_ok in Ha as (totals & Htot & Ha). apply rbind_ok in Ha as ([] & _ & Ha).
  apply rbind_ok in Ha as ([] & _ & Ha). apply rbind_ok in Ha as ([] & _ & Ha).
  apply rbind_ok in Ha as (count & _ & Ha). apply rbind_ok in Ha as (unique & _ & Ha).
  apply rbind_ok in Ha as ([] & _ & Ha).
  destruct (bp_records page) as [|record records] eqn:Hrec; [by apply rbind_ok in Ha as ([] & _ & ?)|].
  apply rbind_ok in Ha as ([] & _ & Ha). apply rbind_ok in Ha as (rows & Hrows & Ha).
  apply rbind_ok in Ha as ([walked|] & Hw & Ha); [|done].
  apply rbind_ok in Ha as (reported & Hrep & Ha). apply rbind_ok in Ha as (summed & Hsum & Ha).
  apply rbind_ok in Ha as ([] & Heq & Ha). injection Ha as <-. apply require_ok in Heq.
  destruct (walk_rows_tile _ _ _ _ _ Hle Hw) as (Ht & Hc & Hv). split.
  - rewrite Hc. by apply tile_costs.
  - done.
  - exists rows. rewrite Hrec. split_and!; [done|apply sort_billing_rows_permutation|done].
  - exists totals, reported, summed. split_and!; try done.
    unfold payload_mapping in Htot. by destruct (get_field _ "totals"); simplify_eq.
Qed.

Lemma cost_tiles_le endpoint t costs u :
  Forall (fun h => check_hour_cost h = Ok tt) costs -> cost_tiles endpoint t costs u ->
  u = t + Z.of_nat (length costs) * hours 1.
Proof.
  intros Hv. revert t. induction Hv as [|h costs Hc Hv IH]; intros t; cbn [cost_tiles length]; [lia|].
  intros (_ & Hs & Ht). apply IH in Ht. unfold check_hour_cost in Hc. res_inv. split_bools. lia.
Qed.

Lemma cost_tiles_app endpoint t costs m costs' u :
  cost_tiles endpoint t costs m -> cost_tiles endpoint m costs' u -> cost_tiles endpoint t (costs ++ costs')%list u.
Proof.
  revert t. induction costs as [|h costs IH]; intros t; cbn [cost_tiles app]; [by intros ->|].
  intros (He & Hs & Ht) Hu. split_and!; [done|done|by apply IH].
Qed.

End Digests.
