(* ===== verification/ServerlessProvider.v ===== *)
(** [RunpodServerlessCapacityProvider] ([serverless_capacity_provider.py]): quotes,
    activation, adoption, authorization, cleanup and settlement of Serverless endpoints,
    as programs of calls to the control plane, the job client, the caller's intent
    callback, the clock and the canceller. *)
From S2P Require Import Prelude PyStr Enums Errors PyDecimal PyTime Json PyFloat Billing PodBilling.
From S2P Require Import Placement ContractsBase CodecBase Prog ServerlessSpec ServerlessQuote.
From S2P Require Import ServerlessLifecycle ServerlessCosts ServerlessCatalog ServerlessHours.
Import Billing.Billing.

#[local] Open Scope Z_scope.

(** ** Calls *)

(** [GetEndpoint] to [JobStatus] are the clients' operations, [PersistIntent] the
    caller's callback ([None] stands for an answer that is no cleanup intent), [Now] one
    reading of the clock (an exception for a naive one) and [Cancelled] whether the
    caller was cancelled while an owned effect ran. *)
Inductive provider_call : Set :=
  | ListGpus (count : Z) (cloud : CloudType) (min_cuda_version : option string)
  | GetEndpoint (endpoint_id : string)
  | ListEndpoints
  | CreateEndpoint (request : EndpointCreateRequest)
  | DeleteEndpoint (endpoint_id : string)
  | ListEndpointWorkers (endpoint_id : string)
  | GetServerlessBilling (start_time end_time bucket_size endpoint_id : string)
  | JobStatus (endpoint_id job_id : string)
  | PersistIntent (intent : ServerlessEndpointCleanupIntent)
  | Now
  | Cancelled.

Definition provider_answer (c : provider_call) : Set :=
  match c with
  | ListGpus _ _ _ => list GPUOffer
  | GetEndpoint _ => EndpointResource
  | ListEndpoints => list EndpointResource
  | CreateEndpoint _ => EndpointResource
  | DeleteEndpoint _ => unit
  | ListEndpointWorkers _ => list (string * json)
  | GetServerlessBilling _ _ _ _ => BillingPage
  | JobStatus _ _ => ServerlessJob
  | PersistIntent _ => option ServerlessEndpointCleanupIntent
  | Now => instant
  | Cancelled => bool
  end.

Abbreviation program := (prog provider_answer).
Abbreviation provider_event := (event provider_answer).

Module ServerlessProvider.

#[local] Open Scope prog_scope.

(** The constructor's settings. *)
Record Settings := {
  st_has_job_client : bool;
  st_billing_history_batch_hours : Z
}.

Definition check_settings (st : Settings) : result unit :=
  require (1 <=? st_billing_history_batch_hours st) ValueError.

(** The calls, typed. *)
Definition now : program instant := perform Now.
Definition list_gpus (r : PlacementRequirements) : program (list GPUOffer) :=
  perform (ListGpus (pr_gpu_count r) (pr_cloud r) (pr_min_cuda_version r)).
Definition get_endpoint (endpoint_id : string) : program EndpointResource := perform (GetEndpoint endpoint_id).
Definition list_endpoints : program (list EndpointResource) := perform ListEndpoints.
Definition create_endpoint (r : EndpointCreateRequest) : program EndpointResource := perform (CreateEndpoint r).
Definition delete_endpoint (endpoint_id : string) : program unit := perform (DeleteEndpoint endpoint_id).
Definition list_endpoint_workers (endpoint_id : string) : program (list (string * json)) :=
  perform (ListEndpointWorkers endpoint_id).
Definition serverless_billing (start end_ : instant) (endpoint_id : string) : program BillingPage :=
  perform (GetServerlessBilling (iso_datetime start) (iso_datetime end_) "hour" endpoint_id).
Definition job_status (endpoint_id job_id : string) : program ServerlessJob := perform (JobStatus endpoint_id job_id).
Definition persist (i : ServerlessEndpointCleanupIntent) : program (option ServerlessEndpointCleanupIntent) :=
  perform (PersistIntent i).

(** [await_owned_effect]: the effect runs to its end; its own error comes before a
    cancellation that arrived meanwhile. *)
Definition owned {A} (p : program A) : program A :=
  let+ a := p in
  Perform Cancelled (fun cancelled =>
    Done (match cancelled with Ok true => Exc CancelledError | _ => Ok a end)).

(** [item.name == name]. *)
Definition named (endpoint_name : string) (l : list EndpointResource) : list EndpointResource :=
  List.filter (fun e => bool_decide (en_name e = endpoint_name)) l.

Section Operations.
Context `{Digest}.

(** ** Quotes *)

(** [_observe_catalog]. *)
Definition observe_catalog (s : ServerlessEndpointSpec) : program CatalogSelection :=
  run+ Done (require (is_ga s) RunPodManagerError) then
  let+ requirements := Done (serverless_requirements (es_constraints s)) in
  let+ offers := list_gpus requirements in
  run+ Done (validate_catalog_numbers offers) then
  let+ observed_at := now in
  Done (catalog_selection offers requirements s observed_at).

(** [_observe_quote], [quote]. *)
Definition observe_quote (request : ServerlessCapacityQuoteRequest) : program ServerlessCapacityQuote :=
  let profile := kr_profile request in
  let+ selection := observe_catalog (ep_spec profile) in
  let+ requirements := Done (serverless_requirements (es_constraints (ep_spec profile))) in
  let+ endpoint := get_endpoint (ep_endpoint_id profile) in
  run+ Done (validate_endpoint_binding endpoint profile (sl_gpu_pool selection) (sl_data_center_id selection)) then
  Done (capacity_quote_of request requirements selection).

(** [_observe_planned_quote], [quote_planned_endpoint]. *)
Definition observe_planned_quote (request : PlannedServerlessCapacityQuoteRequest)
  : program PlannedServerlessCapacityQuote :=
  let s := pe_spec (kp_endpoint request) in
  let+ selection := observe_catalog s in
  let+ requirements := Done (serverless_requirements (es_constraints s)) in
  Done (planned_quote_of request requirements selection).

(** [validate_quote_for_submission]. *)
Definition validate_quote_for_submission (request : ServerlessCapacityQuoteRequest)
  (q : ServerlessCapacityQuote) (accepted_cost_ceiling_usd : Decimal) : program ServerlessCapacityQuote :=
  let+ at_ := now in
  run+ Done (assert_fresh (cq_terms q) at_ accepted_cost_ceiling_usd) then
  run+ Done (validate_request_binding request q) then
  let+ current := observe_quote request in
  run+ Done (validate_quote_drift current q accepted_cost_ceiling_usd) then
  Done (Ok q).

(** ** Activation *)

Definition activation_error (q : PlannedServerlessCapacityQuote) (ids : list string) : exn :=
  ServerlessEndpointActivationError (pq_endpoint_name q) ids.

(** [_planned_activation_receipt]. *)
Definition activation_draft (q : PlannedServerlessCapacityQuote) (endpoint_id readback_digest : string)
  (create_started_at activated_at readback_at : instant) (reconciled : bool) (provider_activation_id : string)
  : ServerlessEndpointActivationReceipt := {|
  sa_schema_version := SERVERLESS_CAPACITY_SCHEMA_VERSION;
  sa_contract_version := SERVERLESS_CAPACITY_CONTRACT_VERSION;
  sa_provider_activation_id := provider_activation_id;
  sa_provider_quote_id := qt_provider_quote_id (pq_terms q);
  sa_quote_sha256 := quote_sha256 q;
  sa_plan_id := pq_plan_id q;
  sa_plan_sha256 := pq_plan_sha256 q;
  sa_endpoint_name := pq_endpoint_name q;
  sa_endpoint_id := endpoint_id;
  sa_endpoint_spec_sha256 := pq_endpoint_spec_sha256 q;
  sa_operation_digest := pq_operation_digest q;
  sa_endpoint_readback_sha256 := readback_digest;
  sa_create_started_at := create_started_at;
  sa_activated_at := activated_at;
  sa_readback_at := readback_at;
  sa_reconciled_after_ambiguous_create := reconciled
|}.

Definition planned_activation_receipt (q : PlannedServerlessCapacityQuote)
  (endpoint_id readback_digest : string) (create_started_at activated_at readback_at : instant)
  (reconciled : bool) : result ServerlessEndpointActivationReceipt :=
  let draft := activation_draft q endpoint_id readback_digest create_started_at activated_at readback_at
                 reconciled in
  mk_activation (draft (activation_id (activation_identity (draft "")))).

(** The readback of one endpoint against the plan. *)
Definition readback (request : PlannedServerlessCapacityQuoteRequest) (q : PlannedServerlessCapacityQuote)
  (e : EndpointResource) (endpoint_id : string) : result string :=
  validate_planned_endpoint_binding e (kp_endpoint request) endpoint_id
    (qt_gpu_pool (pq_terms q)) (qt_data_center_id (pq_terms q)).

(** The replay of an activation whose receipt exists. *)
Definition replay_activation (request : PlannedServerlessCapacityQuoteRequest)
  (q : PlannedServerlessCapacityQuote) (prior : ServerlessEndpointActivationReceipt)
  : program ServerlessEndpointActivationReceipt :=
  run+ Done (validate_activation_quote prior q) then
  let+ endpoint := get_endpoint (sa_endpoint_id prior) in
  let+ digest := Done (readback request q endpoint (sa_endpoint_id prior)) in
  run+ Done (require (bool_decide (digest = sa_endpoint_readback_sha256 prior))
               (activation_error q [sa_endpoint_id prior])) then
  Done (Ok prior).

(** The create call and the reconciliation of an ambiguous one: the endpoint and
    whether it was found by name. *)
Definition create_or_reconcile (q : PlannedServerlessCapacityQuote) (create : EndpointCreateRequest)
  : program (EndpointResource * bool) :=
  pcatch
    (let+ created := owned (create_endpoint create) in
     Done (Ok (created, false)))
    (fun e =>
       if is_ambiguous_error e then
         Some
           (let+ after := list_endpoints in
            Done (match named (pq_endpoint_name q) after with
                  | [created] => Ok (created, true)
                  | several => Exc (activation_error q (map en_id several))
                  end))
       else if is_manager_error e then Some (Done (Exc (activation_error q [])))
       else None).

(** [activate_planned_endpoint]. *)
Definition activate_planned_endpoint (request : PlannedServerlessCapacityQuoteRequest)
  (q : PlannedServerlessCapacityQuote) (accepted_cost_ceiling_usd : Decimal)
  (prior_receipt : option ServerlessEndpointActivationReceipt)
  : program ServerlessEndpointActivationReceipt :=
  run+ Done (validate_planned_request_binding request q) then
  match prior_receipt with
  | Some prior => replay_activation request q prior
  | None =>
      let+ at_ := now in
      run+ Done (assert_fresh (pq_terms q) at_ accepted_cost_ceiling_usd) then
      let+ current := observe_planned_quote request in
      run+ Done (validate_planned_quote_drift current q accepted_cost_ceiling_usd) then
      let+ existing := list_endpoints in
      run+ Done (match named (pq_endpoint_name q) existing with
                 | [] => Ok tt
                 | taken => Exc (activation_error q (map en_id taken))
                 end) then
      let+ create := Done (create_request (pe_spec (kp_endpoint request)) (pq_endpoint_name q)
                             (qt_gpu_pool (pq_terms q)) (qt_data_center_id (pq_terms q))) in
      run+ Done (require (bool_decide (json_sha256 (JObj (create_payload create)) = pq_operation_digest q))
                   RunPodManagerError) then
      let+ create_started_at := now in
      let+ outcome := create_or_reconcile q create in
      let created := fst outcome in
      let+ activated_at := now in
      run+ Done (require (bool_decide (en_name created = pq_endpoint_name q))
                   (activation_error q [en_id created])) then
      let+ confirmed :=
        pcatch
          (let+ endpoint := get_endpoint (en_id created) in
           let+ digest := Done (readback request q endpoint (en_id created)) in
           Done (Ok (en_id endpoint, digest)))
          (fun e => if is_manager_error e then Some (Done (Exc (activation_error q [en_id created]))) else None) in
      let+ readback_at := now in
      Done (planned_activation_receipt q (fst confirmed) (snd confirmed)
              create_started_at activated_at readback_at (snd outcome))
  end.

(** [adopt_planned_endpoint]. *)
Definition adopt_planned_endpoint (request : PlannedServerlessCapacityQuoteRequest)
  (q : PlannedServerlessCapacityQuote) : program ServerlessEndpointActivationReceipt :=
  run+ Done (validate_planned_request_binding request q) then
  let+ existing := list_endpoints in
  let+ observed := Done (match named (pq_endpoint_name q) existing with
                         | [e] => Ok e
                         | other => Exc (activation_error q (map en_id other))
                         end) in
  let+ endpoint := get_endpoint (en_id observed) in
  let+ digest :=
    pcatch (Done (readback request q endpoint (en_id observed)))
      (fun e => if is_manager_error e then Some (Done (Exc (activation_error q [en_id observed]))) else None) in
  let+ adopted_at := now in
  Done (planned_activation_receipt q (en_id endpoint) digest adopted_at adopted_at adopted_at true).

(** ** Authorization *)

Definition submission_draft (q : PlannedServerlessCapacityQuote) (a : ServerlessEndpointActivationReceipt)
  (exclusive_window_sha256 : string) (authorized_at : instant) (provider_submission_id : string)
  : ServerlessActivatedSubmission := {|
  ss_provider_submission_id := provider_submission_id;
  ss_provider_quote_id := qt_provider_quote_id (pq_terms q);
  ss_quote_sha256 := quote_sha256 q;
  ss_provider_activation_id := sa_provider_activation_id a;
  ss_endpoint_name := sa_endpoint_name a;
  ss_endpoint_id := sa_endpoint_id a;
  ss_endpoint_spec_sha256 := sa_endpoint_spec_sha256 a;
  ss_operation_digest := sa_operation_digest a;
  ss_exclusive_window_sha256 := exclusive_window_sha256;
  ss_authorized_at := authorized_at;
  ss_expires_at := qt_expires_at (pq_terms q)
|}.

(** [authorize_planned_submission]. *)
Definition authorize_planned_submission (request : PlannedServerlessCapacityQuoteRequest)
  (q : PlannedServerlessCapacityQuote) (a : ServerlessEndpointActivationReceipt)
  (accepted_cost_ceiling_usd : Decimal) (exclusive_window_sha256 : string)
  : program ServerlessActivatedSubmission :=
  run+ Done (validate_planned_request_binding request q) then
  run+ Done (validate_activation_quote a q) then
  let+ at_ := now in
  run+ Done (assert_fresh (pq_terms q) at_ accepted_cost_ceiling_usd) then
  let+ current := observe_planned_quote request in
  run+ Done (validate_planned_quote_drift current q accepted_cost_ceiling_usd) then
  let+ endpoint := get_endpoint (sa_endpoint_id a) in
  let+ digest := Done (readback request q endpoint (sa_endpoint_id a)) in
  run+ Done (require (bool_decide (digest = sa_endpoint_readback_sha256 a)) RunPodManagerError) then
  let draft := submission_draft q a exclusive_window_sha256 at_ in
  Done (mk_submission (draft (submission_id (submission_identity (draft ""))))).

(** ** Cleanup *)

Definition cleanup_error (a : ServerlessEndpointActivationReceipt) : exn :=
  ServerlessEndpointCleanupError (sa_endpoint_name a) (sa_endpoint_id a).

(** [_cleanup_endpoint_resource]: only the typed 404 is a missing endpoint. *)
Definition cleanup_endpoint_resource (a : ServerlessEndpointActivationReceipt)
  : program (option EndpointResource) :=
  pcatch (let+ endpoint := get_endpoint (sa_endpoint_id a) in Done (Ok (Some endpoint)))
    (fun e => if is_not_found e then Some (Done (Ok None)) else None).

(** [_verify_cleanup_absence]. *)
Definition holds_endpoint (a : ServerlessEndpointActivationReceipt) (e : EndpointResource) : bool :=
  bool_decide (en_id e = sa_endpoint_id a) || bool_decide (en_name e = sa_endpoint_name a).

Definition verify_cleanup_absence (a : ServerlessEndpointActivationReceipt) : program instant :=
  let+ resource := cleanup_endpoint_resource a in
  run+ Done (require (negb (is_some resource)) (cleanup_error a)) then
  let+ resources := list_endpoints in
  run+ Done (require (negb (existsb (holds_endpoint a) resources)) (cleanup_error a)) then
  now.

(** [_cleanup_receipt]. *)
Definition cleanup_draft (i : ServerlessEndpointCleanupIntent) (verified_absent_at : instant)
  (basis provider_cleanup_id : string) : ServerlessEndpointCleanupReceipt :=
  let a := ci_activation i in {|
  cr_schema_version := SERVERLESS_CAPACITY_SCHEMA_VERSION;
  cr_contract_version := sa_contract_version a;
  cr_provider_cleanup_id := provider_cleanup_id;
  cr_provider_quote_id := sa_provider_quote_id a;
  cr_quote_sha256 := sa_quote_sha256 a;
  cr_provider_activation_id := sa_provider_activation_id a;
  cr_endpoint_name := sa_endpoint_name a;
  cr_endpoint_id := sa_endpoint_id a;
  cr_endpoint_spec_sha256 := sa_endpoint_spec_sha256 a;
  cr_operation_digest := sa_operation_digest a;
  cr_endpoint_readback_sha256 := sa_endpoint_readback_sha256 a;
  cr_workers_zero_observed_at := ci_workers_zero_observed_at i;
  cr_delete_started_at := ci_delete_started_at i;
  cr_verified_absent_at := verified_absent_at;
  cr_reconciled_after_delete_error := bool_decide (basis = "ambiguous_delete_verified_absent");
  cr_cleanup_evidence_version := 2;
  cr_cleanup_basis := Some basis
|}.

Definition cleanup_receipt (i : ServerlessEndpointCleanupIntent) (verified_absent_at : instant)
  (basis : string) : result ServerlessEndpointCleanupReceipt :=
  let draft := cleanup_draft i verified_absent_at basis in
  mk_cleanup (draft (cleanup_id (cleanup_identity (draft "")))).

Definition WORKER_SUMMARY_KEYS : list string :=
  ["running"; "idle"; "initializing"; "throttled"; "unhealthy"; "total"].

Definition is_zero (v : json) : bool := match v with JInt z => z =? 0 | _ => false end.

(** The worker inventory shows no worker: an empty list and a summary of zeros. *)
Definition workers_zero (page : list (string * json)) : bool :=
  match get_field page "workers", get_field page "summary" with
  | JList workers, JObj summary =>
      same_keys (keys summary) WORKER_SUMMARY_KEYS &&
      forallb (fun key => is_zero (get_field summary key)) WORKER_SUMMARY_KEYS &&
      match workers with [] => true | _ => false end
  | _, _ => false
  end.

(** [prior_intent or ServerlessEndpointCleanupIntent(...)]. *)
Definition new_intent (a : ServerlessEndpointActivationReceipt) : program ServerlessEndpointCleanupIntent :=
  let+ workers_zero_at := now in
  let+ delete_started_at := now in
  Done (mk_cleanup_intent {|
    ci_schema_version := SERVERLESS_CAPACITY_SCHEMA_VERSION;
    ci_contract_version := SERVERLESS_CAPACITY_CONTRACT_VERSION;
    ci_activation := a;
    ci_workers_zero_observed_at := workers_zero_at;
    ci_delete_started_at := delete_started_at
  |}).

(** [persist_intent(intent)] and its exact acknowledgement. *)
Definition acknowledge_intent (a : ServerlessEndpointActivationReceipt)
  (i : ServerlessEndpointCleanupIntent) (has_persist : bool) : program unit :=
  if has_persist then
    let+ acknowledged := persist i in
    Done (require (bool_decide (acknowledged = Some i)) (cleanup_error a))
  else Done (Ok tt).

(** The DELETE: its evidence basis. *)
Definition delete_basis (a : ServerlessEndpointActivationReceipt) : program string :=
  pcatch
    (run+ owned (delete_endpoint (sa_endpoint_id a)) then Done (Ok "delete_acknowledged"))
    (fun e =>
       if is_ambiguous_error e then Some (Done (Ok "ambiguous_delete_verified_absent"))
       else if is_manager_error e then Some (Done (Exc (cleanup_error a)))
       else None).

(** The checks of the prior intent. *)
Definition check_prior_intent (a : ServerlessEndpointActivationReceipt)
  (prior_intent : option ServerlessEndpointCleanupIntent) : program unit :=
  match prior_intent with
  | None => Done (Ok tt)
  | Some i =>
      run+ Done (validate_intent_activation i a) then
      let+ at_ := now in
      Done (require (ci_delete_started_at i <=? at_) (cleanup_error a))
  end.

(** The replay of a finished cleanup. *)
Definition replay_cleanup (a : ServerlessEndpointActivationReceipt)
  (prior_intent : option ServerlessEndpointCleanupIntent) (prior : ServerlessEndpointCleanupReceipt)
  : program ServerlessEndpointCleanupReceipt :=
  run+ Done (validate_cleanup_activation prior a) then
  run+ Done (require
    (option_all (fun i => (cr_workers_zero_observed_at prior =? ci_workers_zero_observed_at i) &&
                          (cr_delete_started_at prior =? ci_delete_started_at i)) prior_intent)
    (cleanup_error a)) then
  run+ verify_cleanup_absence a then
  Done (Ok prior).

(** The cleanup of a live endpoint. *)
Definition cleanup_live (request : PlannedServerlessCapacityQuoteRequest)
  (q : PlannedServerlessCapacityQuote) (a : ServerlessEndpointActivationReceipt)
  (prior_intent : option ServerlessEndpointCleanupIntent) (has_persist : bool)
  (endpoint : EndpointResource) : program ServerlessEndpointCleanupReceipt :=
  let+ digest := Done (readback request q endpoint (sa_endpoint_id a)) in
  run+ Done (require (bool_decide (digest = sa_endpoint_readback_sha256 a)) (cleanup_error a)) then
  let+ worker_page := list_endpoint_workers (sa_endpoint_id a) in
  run+ Done (require (workers_zero worker_page) (cleanup_error a)) then
  let+ intent := match prior_intent with Some i => Done (Ok i) | None => new_intent a end in
  run+ acknowledge_intent a intent has_persist then
  let+ basis := delete_basis a in
  let+ verified_absent_at := verify_cleanup_absence a in
  Done (cleanup_receipt intent verified_absent_at basis).

(** [_cleanup_planned_endpoint]. *)
Definition cleanup_planned (request : PlannedServerlessCapacityQuoteRequest)
  (q : PlannedServerlessCapacityQuote) (a : ServerlessEndpointActivationReceipt)
  (prior_receipt : option ServerlessEndpointCleanupReceipt)
  (prior_intent : option ServerlessEndpointCleanupIntent) (has_persist : bool)
  : program ServerlessEndpointCleanupReceipt :=
  run+ Done (validate_planned_request_binding request q) then
  run+ Done (validate_activation_quote a q) then
  run+ check_prior_intent a prior_intent then
  match prior_receipt with
  | Some prior => replay_cleanup a prior_intent prior
  | None =>
      let+ resource := cleanup_endpoint_resource a in
      match resource, prior_intent with
      | None, None => Done (Exc (cleanup_error a))
      | None, Some intent =>
          let+ verified_absent_at := verify_cleanup_absence a in
          Done (cleanup_receipt intent verified_absent_at "interrupted_intent_verified_absent")
      | Some endpoint, _ => cleanup_live request q a prior_intent has_persist endpoint
      end
  end.

(** [cleanup_planned_endpoint]: the whole cleanup is an owned effect. *)
Definition cleanup_planned_endpoint (request : PlannedServerlessCapacityQuoteRequest)
  (q : PlannedServerlessCapacityQuote) (a : ServerlessEndpointActivationReceipt)
  (prior_receipt : option ServerlessEndpointCleanupReceipt)
  (prior_intent : option ServerlessEndpointCleanupIntent) (has_persist : bool)
  : program ServerlessEndpointCleanupReceipt :=
  owned (cleanup_planned request q a prior_receipt prior_intent has_persist).

(** ** Settlement *)

(** One batch of the billing history, then the rest; the fuel is the number of hours
    left. *)
Fixpoint read_batches (fuel : nat) (endpoint_id : string) (batch_hours : Z) (cursor window_until : instant)
  : program (option (list ServerlessEndpointHourCost)) :=
  if cursor <? window_until then
    match fuel with
    | O => Done (Exc OutOfFuel)
    | S n =>
        let batch_until :=
          Z.min window_until (cursor + hours (Z.min batch_hours ((window_until - cursor) / hours 1))) in
        let+ page := owned (serverless_billing cursor batch_until endpoint_id) in
        let+ observed := Done (authoritative_hour_costs page endpoint_id cursor batch_until) in
        match observed with
        | None => Done (Ok None)
        | Some costs =>
            let+ rest := read_batches n endpoint_id batch_hours batch_until window_until in
            Done (Ok (match rest with Some more => Some (costs ++ more)%list | None => None end))
        end
    end
  else Done (Ok (Some [])).

(** [read_exact_serverless_billing]. *)
Definition read_exact_serverless_billing (endpoint_id : string) (created_at verified_absent_at : instant)
  (batch_hours : Z) : program (option (list ServerlessEndpointHourCost)) :=
  run+ Done (require (serverless_identifier endpoint_id) ValueError) then
  run+ Done (require (1 <=? batch_hours) ValueError) then
  let+ window := Done (billing_hour_bounds created_at verified_absent_at) in
  let+ at_ := now in
  if at_ <? snd window then Done (Ok None)
  else read_batches (Z.to_nat ((snd window - fst window) / hours 1)) endpoint_id batch_hours
         (fst window) (snd window).

(** [retired_endpoint_billing]. *)
Definition retired_endpoint_billing (st : Settings) (request : PlannedServerlessCapacityQuoteRequest)
  (q : PlannedServerlessCapacityQuote) (a : ServerlessEndpointActivationReceipt)
  (cleanup : ServerlessEndpointCleanupReceipt) : program (option ServerlessRetiredEndpointBillingReceipt) :=
  run+ Done (validate_planned_request_binding request q) then
  run+ Done (validate_activation_quote a q) then
  run+ Done (validate_cleanup_activation cleanup a) then
  run+ Done (require (sa_readback_at a <=? cr_workers_zero_observed_at cleanup) RunPodManagerError) then
  let+ costs := read_exact_serverless_billing (sa_endpoint_id a) (sa_create_started_at a)
    (cr_verified_absent_at cleanup) (st_billing_history_batch_hours st) in
  match costs with
  | None => Done (Ok None)
  | Some hour_costs =>
      let+ reconciled_at := now in
      Done (let! receipt := mk_retired {|
              rt_schema_version := SERVERLESS_CAPACITY_SCHEMA_VERSION;
              rt_contract_version := SERVERLESS_CAPACITY_CONTRACT_VERSION;
              rt_activation := a;
              rt_cleanup := cleanup;
              rt_endpoint_hour_costs := hour_costs;
              rt_reconciled_at := reconciled_at
            |} in Ok (Some receipt))
  end.

Definition TERMINAL_JOB_STATES : list string := ["COMPLETED"; "FAILED"; "CANCELLED"; "TIMED_OUT"].

(** [_validate_terminal_job]. *)
Definition validate_terminal_job (job : ServerlessJob) (attempt : ServerlessBillingAttempt) : result unit :=
  run! require (bool_decide (sj_id job = ba_job_id attempt)) RunPodManagerError then
  run! require (bool_decide (upper (sj_status job) ∈ TERMINAL_JOB_STATES)) RunPodManagerError then
  require
    (option_all (fun v => 0 <=? v) (sj_delay_time_ms job) &&
     option_all (fun v => 0 <=? v) (sj_execution_time_ms job)) RunPodManagerError.

(** The times of the job against the accepted maxima. *)
Definition job_within_quote (job : ServerlessJob) (t : QuoteTerms) : result unit :=
  run! require
    (option_all (fun v => v <=? (qt_maximum_queue_delay_seconds t + qt_maximum_worker_start_seconds t) * 1000)
       (sj_delay_time_ms job)) RunPodManagerError then
  require
    (option_all (fun v => v <=? qt_maximum_execution_seconds t * 1000) (sj_execution_time_ms job))
    RunPodManagerError.

(** The closed hours of a window, once it has ended. *)
Definition window_costs (endpoint_id : string) (window : instant * instant) (at_ : instant)
  : program (option (list ServerlessEndpointHourCost)) :=
  if at_ <? snd window then Done (Ok None)
  else
    let+ page := serverless_billing (fst window) (snd window) endpoint_id in
    Done (authoritative_hour_costs page endpoint_id (fst window) (snd window)).

(** The receipt [_final_billing_bound] builds. *)
Definition billing_receipt (attempt : ServerlessBillingAttempt) (t : QuoteTerms)
  (endpoint_profile_sha256 : string) (job : ServerlessJob) (window : instant * instant)
  (amounts : CostAmounts) (at_ : instant) : ServerlessBillingReceipt :=
  let hour_starts := ba_exclusive_billing_hour_starts attempt in
  let coverage_until := seconds_later (ba_completed_at attempt) (qt_idle_tail_seconds t) in
  let identity :=
    ([("contract_version", JStr SERVERLESS_CAPACITY_CONTRACT_VERSION);
      ("provider_quote_id", JStr (qt_provider_quote_id t));
      ("endpoint_profile_sha256", JStr endpoint_profile_sha256);
      ("endpoint_id", JStr (ba_endpoint_id attempt));
      ("job_id", JStr (ba_job_id attempt));
      ("attempt_id", JStr (ba_attempt_id attempt));
      ("exclusive_window_sha256", JStr (ba_exclusive_window_sha256 attempt));
      ("exclusive_billing_hour_starts", jtimes hour_starts);
      ("attempt_started_at", jtime (ba_submitted_at attempt));
      ("attempt_completed_at", jtime (ba_completed_at attempt));
      ("billable_coverage_until", jtime coverage_until);
      ("billing_window_from", jtime (fst window));
      ("billing_window_until", jtime (snd window));
      ("hourly_worker_rate_usd", jdec (qt_hourly_worker_rate_usd t));
      ("pre_execution_delay_ms", opt_json JInt (sj_delay_time_ms job));
      ("worker_startup_ms", JNull);
      ("execution_ms", opt_json JInt (sj_execution_time_ms job));
      ("accepted_idle_tail_ms", JInt (qt_idle_tail_seconds t * 1000));
      ("idle_tail_ms", JNull)] ++ amounts_dict amounts)%list in {|
  sb_schema_version := SERVERLESS_CAPACITY_SCHEMA_VERSION;
  sb_contract_version := SERVERLESS_CAPACITY_CONTRACT_VERSION;
  sb_provider_billing_id := "runpod-serverless-billing:" ++ json_sha256 (JObj identity);
  sb_provider_quote_id := qt_provider_quote_id t;
  sb_endpoint_profile_sha256 := endpoint_profile_sha256;
  sb_endpoint_id := ba_endpoint_id attempt;
  sb_job_id := ba_job_id attempt;
  sb_attempt_id := ba_attempt_id attempt;
  sb_exclusive_window_sha256 := ba_exclusive_window_sha256 attempt;
  sb_exclusive_billing_hour_starts := hour_starts;
  sb_attempt_started_at := ba_submitted_at attempt;
  sb_attempt_completed_at := ba_completed_at attempt;
  sb_billable_coverage_until := coverage_until;
  sb_billing_window_from := fst window;
  sb_billing_window_until := snd window;
  sb_hourly_worker_rate_usd := qt_hourly_worker_rate_usd t;
  sb_pre_execution_delay_ms := sj_delay_time_ms job;
  sb_worker_startup_ms := None;
  sb_execution_ms := sj_execution_time_ms job;
  sb_accepted_idle_tail_ms := qt_idle_tail_seconds t * 1000;
  sb_idle_tail_ms := None;
  sb_amounts := amounts;
  sb_reconciled_at := at_
|}.

(** [_final_billing_bound]. The allocation of an attempt is never empty. *)
Definition final_billing_bound (st : Settings) (attempt : ServerlessBillingAttempt) (t : QuoteTerms)
  (endpoint_profile_sha256 : string) : program (option ServerlessBillingReceipt) :=
  run+ Done (require (st_has_job_client st) RunPodManagerError) then
  let+ at_ := now in
  run+ Done (require (ba_completed_at attempt <=? at_) RunPodManagerError) then
  let+ job := job_status (ba_endpoint_id attempt) (ba_job_id attempt) in
  run+ Done (validate_terminal_job job attempt) then
  run+ Done (job_within_quote job t) then
  let+ window := Done (allocation_window (ba_exclusive_billing_hour_starts attempt)) in
  let+ costs := window_costs (ba_endpoint_id attempt) window at_ in
  Done (opt_result (fun hour_costs =>
    let! amounts := hour_cost_totals hour_costs in
    mk_serverless_receipt (billing_receipt attempt t endpoint_profile_sha256 job window amounts at_)) costs).

(** [final_billing]. *)
Definition final_billing (st : Settings) (attempt : ServerlessBillingAttempt) (q : ServerlessCapacityQuote)
  : program (option ServerlessBillingReceipt) :=
  run+ Done (validate_attempt_quote attempt q) then
  final_billing_bound st attempt (cq_terms q) (cq_endpoint_profile_sha256 q).

(** The checks of [final_activated_billing]. *)
Definition validate_activated_attempt (attempt : ServerlessBillingAttempt)
  (q : PlannedServerlessCapacityQuote) (a : ServerlessEndpointActivationReceipt)
  (s : ServerlessActivatedSubmission) : result unit :=
  let t := pq_terms q in
  run! validate_submission s q a then
  run! require
    (bool_decide (ba_endpoint_id attempt = sa_endpoint_id a) &&
     bool_decide (ba_provider_quote_id attempt = qt_provider_quote_id t) &&
     bool_decide (ba_exclusive_window_sha256 attempt = ss_exclusive_window_sha256 s)) RunPodManagerError then
  run! require
    ((ss_authorized_at s <=? ba_submitted_at attempt) && (ba_submitted_at attempt <? ss_expires_at s))
    RunPodManagerError then
  run! require (ba_completed_at attempt - ba_submitted_at attempt <=? maximum_elapsed t * US)
    RunPodManagerError then
  let! required_hours := serverless_billing_hour_starts (ba_submitted_at attempt)
    (seconds_later (ba_completed_at attempt) (qt_idle_tail_seconds t)) in
  require (ordered_hours_cover (ba_exclusive_billing_hour_starts attempt) required_hours) RunPodManagerError.

Definition final_activated_billing (st : Settings) (attempt : ServerlessBillingAttempt)
  (q : PlannedServerlessCapacityQuote) (a : ServerlessEndpointActivationReceipt)
  (s : ServerlessActivatedSubmission) : program (option ServerlessBillingReceipt) :=
  run+ Done (validate_activated_attempt attempt q a s) then
  final_billing_bound st attempt (pq_terms q) (pq_endpoint_spec_sha256 q).

(** The receipt [_final_ambiguous_window_billing_bound] builds. *)
Definition ambiguous_receipt (w : ServerlessAmbiguousBillingWindow) (t : QuoteTerms)
  (endpoint_profile_sha256 : string) (window : instant * instant)
  (costs : list ServerlessEndpointHourCost) (amounts : CostAmounts) (capped loss : Decimal) (at_ : instant)
  : ServerlessAmbiguousWindowBillingReceipt :=
  let hour_starts := aw_exclusive_billing_hour_starts w in
  let identity :=
    ([("contract_version", JStr SERVERLESS_CAPACITY_CONTRACT_VERSION);
      ("provider_quote_id", JStr (qt_provider_quote_id t));
      ("endpoint_profile_sha256", JStr endpoint_profile_sha256);
      ("endpoint_id", JStr (aw_endpoint_id w));
      ("attempt_id", JStr (aw_attempt_id w));
      ("exclusive_window_sha256", JStr (aw_exclusive_window_sha256 w));
      ("exclusive_billing_hour_starts", jtimes hour_starts);
      ("attempted_at", jtime (aw_attempted_at w));
      ("billable_coverage_until", jtime (aw_billable_coverage_until w));
      ("billing_window_from", jtime (fst window));
      ("billing_window_until", jtime (snd window));
      ("accepted_cost_ceiling_usd", jdec (aw_accepted_cost_ceiling_usd w));
      ("endpoint_hour_costs", JList (map (fun h => JObj (hour_cost_dict h)) costs))] ++
     amounts_dict amounts ++
     [("capped_cost_usd", jdec capped); ("operator_loss_usd", jdec loss)])%list in {|
  ar_schema_version := SERVERLESS_CAPACITY_SCHEMA_VERSION;
  ar_contract_version := SERVERLESS_CAPACITY_CONTRACT_VERSION;
  ar_provider_billing_id := "runpod-serverless-ambiguous-billing:" ++ json_sha256 (JObj identity);
  ar_provider_quote_id := qt_provider_quote_id t;
  ar_endpoint_profile_sha256 := endpoint_profile_sha256;
  ar_endpoint_id := aw_endpoint_id w;
  ar_attempt_id := aw_attempt_id w;
  ar_exclusive_window_sha256 := aw_exclusive_window_sha256 w;
  ar_exclusive_billing_hour_starts := hour_starts;
  ar_attempted_at := aw_attempted_at w;
  ar_billable_coverage_until := aw_billable_coverage_until w;
  ar_billing_window_from := fst window;
  ar_billing_window_until := snd window;
  ar_accepted_cost_ceiling_usd := aw_accepted_cost_ceiling_usd w;
  ar_endpoint_hour_costs := costs;
  ar_amounts := amounts;
  ar_capped_cost_usd := capped;
  ar_operator_loss_usd := loss;
  ar_reconciled_at := at_
|}.

Definition settle_window (w : ServerlessAmbiguousBillingWindow) (t : QuoteTerms)
  (endpoint_profile_sha256 : string) (window : instant * instant) (at_ : instant)
  (costs : list ServerlessEndpointHourCost) : result ServerlessAmbiguousWindowBillingReceipt :=
  let! amounts := hour_cost_totals costs in
  let capped := capped_cost (ca_actual_cost_usd amounts) (aw_accepted_cost_ceiling_usd w) in
  let! loss := operator_loss (ca_actual_cost_usd amounts) capped in
  mk_ambiguous_receipt (ambiguous_receipt w t endpoint_profile_sha256 window costs amounts capped loss at_).

(** [_final_ambiguous_window_billing_bound]. *)
Definition final_ambiguous_window_billing_bound (w : ServerlessAmbiguousBillingWindow) (t : QuoteTerms)
  (endpoint_profile_sha256 : string) : program (option ServerlessAmbiguousWindowBillingReceipt) :=
  let+ at_ := now in
  let+ window := Done (allocation_window (aw_exclusive_billing_hour_starts w)) in
  let+ costs := window_costs (aw_endpoint_id w) window at_ in
  Done (opt_result (settle_window w t endpoint_profile_sha256 window at_) costs).

(** [final_ambiguous_window_billing]. *)
Definition final_ambiguous_window_billing (w : ServerlessAmbiguousBillingWindow) (q : ServerlessCapacityQuote)
  : program (option ServerlessAmbiguousWindowBillingReceipt) :=
  run+ Done (validate_window_quote w q) then
  final_ambiguous_window_billing_bound w (cq_terms q) (cq_endpoint_profile_sha256 q).

(** [final_activated_ambiguous_window_billing]. *)
Definition final_activated_ambiguous_window_billing (w : ServerlessAmbiguousBillingWindow)
  (q : PlannedServerlessCapacityQuote) (a : ServerlessEndpointActivationReceipt)
  (s : ServerlessActivatedSubmission) : program (option ServerlessAmbiguousWindowBillingReceipt) :=
  run+ Done (validate_window_submission w q a s) then
  final_ambiguous_window_billing_bound w (pq_terms q) (pq_endpoint_spec_sha256 q).

End Operations.

End ServerlessProvider.
