(* ===== verification/ServerlessCustody.v ===== *)
(** Custody of Serverless endpoints: what every execution of activation, adoption,
    authorization and cleanup has observed before it mutates the account, and what the
    receipts they answer stand for. The programs are executed symbolically against an
    arbitrary host. *)
From S2P Require Import Prelude PyStr Enums Errors PyDecimal PyTime Json PyFloat.
From S2P Require Import Placement ContractsBase CodecBase Prog ServerlessSpec ServerlessQuote.
From S2P Require Import ServerlessLifecycle ServerlessCatalog ServerlessProvider.
Import ServerlessProvider.

#[local] Open Scope Z_scope.

(** ** Recorded calls *)

(** The call was made and answered so. *)
Definition answered (c : provider_call) (r : result (provider_answer c)) (tr : list provider_event) : Prop :=
  In (Event c r) tr.

Definition is_create (c : provider_call) : bool := match c with CreateEndpoint _ => true | _ => false end.
Definition is_delete (c : provider_call) : bool := match c with DeleteEndpoint _ => true | _ => false end.

(** Calls of a kind among the events. *)
Definition calls_of (kind : provider_call -> bool) (tr : list provider_event) : list provider_event :=
  List.filter (fun e => kind (ev_call e)) tr.

(** ** Symbolic execution *)

(** Unfold a program one call at a time, a case for each answer and each test. *)
Ltac prog_unfold :=
  unfold activate_planned_endpoint, adopt_planned_endpoint, authorize_planned_submission,
    cleanup_planned, cleanup_live, replay_cleanup, replay_activation,
    check_prior_intent, delete_basis, acknowledge_intent, new_intent,
    cleanup_endpoint_resource, create_or_reconcile, observe_planned_quote, observe_catalog, owned,
    now, list_gpus, get_endpoint, list_endpoints, create_endpoint, delete_endpoint,
    list_endpoint_workers, persist, perform.

(** The test a program is about to make. *)
Ltac prog_scrut p k :=
  lazymatch p with
  | pbind ?p' _ => prog_scrut p' k
  | pcatch ?p' _ => prog_scrut p' k
  | match ?x with _ => _ end => inner_scrut x k
  end.

Ltac prog_step :=
  first
    [ progress cbn [wp pbind pcatch app fst snd]
    | lazymatch goal with
      | |- _ /\ (forall r, _) =>
          split; [|let a := fresh "a" in let e := fresh "e" in intros [a|e]; [cbn [provider_answer] in a|]]
      | |- wp _ ?p _ _ => prog_scrut p ltac:(fun s => let E := fresh "E" in destruct s eqn:E)
      end ].

Ltac prog_exec := prog_unfold; repeat prog_step.

(** A cancellation is no ambiguous result. *)
Ltac no_ambiguous_cancel :=
  match goal with E : is_ambiguous_error CancelledError = true |- _ => discriminate E end.

(** Unit results are [tt]. *)
Ltac unit_answers := repeat match goal with u : unit |- _ => destruct u end.

(** Answers of the history at hand. *)
Ltac find_answer := unfold answered; cbn [app In]; tauto.

(** ** Activation *)

Section Custody.
Context `{Digest}.

(** What has been observed when the create call is made. *)
Record create_ready (request : PlannedServerlessCapacityQuoteRequest) (q : PlannedServerlessCapacityQuote)
  (ceiling : Decimal) (past : list provider_event) (create : EndpointCreateRequest) : Prop := {
  cr_bound : validate_planned_request_binding request q = Ok tt;
  cr_fresh : exists t, answered Now (Ok t) past /\ assert_fresh (pq_terms q) t ceiling = Ok tt;
  cr_current : exists requirements offers t selection current,
    answered (ListGpus (pr_gpu_count requirements) (pr_cloud requirements) (pr_min_cuda_version requirements))
      (Ok offers) past /\
    answered Now (Ok t) past /\
    catalog_selection offers requirements (pe_spec (kp_endpoint request)) t = Ok selection /\
    planned_quote_of request requirements selection = Ok current /\
    validate_planned_quote_drift current q ceiling = Ok tt;
  cr_free : exists l, answered ListEndpoints (Ok l) past /\ named (pq_endpoint_name q) l = [];
  cr_request : create_request (pe_spec (kp_endpoint request)) (pq_endpoint_name q)
    (qt_gpu_pool (pq_terms q)) (qt_data_center_id (pq_terms q)) = Ok create;
  cr_digest : json_sha256 (JObj (create_payload create)) = pq_operation_digest q;
  cr_first : calls_of is_create past = []
}.

(** The calls activation makes. *)
Definition activation_monitor (request : PlannedServerlessCapacityQuoteRequest)
  (q : PlannedServerlessCapacityQuote) (ceiling : Decimal)
  (prior : option ServerlessEndpointActivationReceipt) (past : list provider_event) (c : provider_call) : Prop :=
  match c with
  | CreateEndpoint create => prior = None /\ create_ready request q ceiling past create
  | DeleteEndpoint _ => False
  | _ => True
  end.

(** A receipt of the quote whose endpoint was read back as planned. *)
Record receipt_evidence (request : PlannedServerlessCapacityQuoteRequest)
  (q : PlannedServerlessCapacityQuote) (r : ServerlessEndpointActivationReceipt)
  (tr : list provider_event) : Prop := {
  ae_quote : validate_activation_quote r q = Ok tt;
  ae_readback : exists e, answered (GetEndpoint (sa_endpoint_id r)) (Ok e) tr /\
    readback request q e (sa_endpoint_id r) = Ok (sa_endpoint_readback_sha256 r)
}.

(** Where the endpoint of a new receipt comes from: the create call answered it, or the
    call's result was ambiguous and exactly one endpoint has the planned name. *)
Definition activation_origin (q : PlannedServerlessCapacityQuote) (r : ServerlessEndpointActivationReceipt)
  (tr : list provider_event) : Prop :=
  if sa_reconciled_after_ambiguous_create r then
    exists create e l created,
      answered (CreateEndpoint create) (Exc e) tr /\ is_ambiguous_error e = true /\
      answered ListEndpoints (Ok l) tr /\ named (pq_endpoint_name q) l = [created] /\
      en_id created = sa_endpoint_id r
  else
    exists create created,
      answered (CreateEndpoint create) (Ok created) tr /\ en_id created = sa_endpoint_id r.

Definition activation_post (request : PlannedServerlessCapacityQuoteRequest)
  (q : PlannedServerlessCapacityQuote) (prior : option ServerlessEndpointActivationReceipt)
  (r : result ServerlessEndpointActivationReceipt) (tr : list provider_event) : Prop :=
  match r with
  | Ok receipt =>
      receipt_evidence request q receipt tr /\
      match prior with
      | Some p => receipt = p
      | None => check_activation receipt = Ok tt /\ activation_origin q receipt tr
      end
  | Exc _ => True
  end.

Lemma planned_receipt_ok q id digest t1 t2 t3 b r :
  planned_activation_receipt q id digest t1 t2 t3 b = Ok r ->
  check_activation r = Ok tt /\ validate_activation_quote r q = Ok tt /\ sa_endpoint_id r = id /\
  sa_endpoint_readback_sha256 r = digest /\ sa_reconciled_after_ambiguous_create r = b.
Proof.
  unfold planned_activation_receipt, mk_activation. cbv zeta. intros Hr.
  apply rbind_ok in Hr as ([] & Hc & [= <-]). split_and!; try reflexivity; [done|].
  unfold validate_activation_quote, activation_draft. cbn [sa_provider_quote_id sa_quote_sha256 sa_plan_id
    sa_plan_sha256 sa_endpoint_name sa_endpoint_spec_sha256 sa_operation_digest].
  by rewrite !bool_decide_true_eq by done.
Qed.

(** An endpoint that was read back becomes the evidence of a receipt. *)
Lemma planned_receipt_evidence request q e id digest t1 t2 t3 b r tr :
  readback request q e id = Ok digest -> planned_activation_receipt q (en_id e) digest t1 t2 t3 b = Ok r ->
  answered (GetEndpoint id) (Ok e) tr ->
  receipt_evidence request q r tr /\ check_activation r = Ok tt /\ sa_endpoint_id r = id /\
  sa_reconciled_after_ambiguous_create r = b.
Proof.
  intros Hb Hr Ha. destruct (planned_binding_identity _ _ _ _ _ _ Hb) as [Hid _].
  apply planned_receipt_ok in Hr as (Hc & Hq & Hi & Hd & Hrec). rewrite Hid in Hi.
  split_and!; try done. split; [done|]. exists e. by rewrite Hi, Hd.
Qed.

Lemma new_receipt_post request q e id digest t1 t2 t3 b tr :
  readback request q e id = Ok digest -> answered (GetEndpoint id) (Ok e) tr ->
  (forall r, sa_endpoint_id r = id -> sa_reconciled_after_ambiguous_create r = b -> activation_origin q r tr) ->
  activation_post request q None (planned_activation_receipt q (en_id e) digest t1 t2 t3 b) tr.
Proof.
  intros Hb Ha Ho. destruct (planned_activation_receipt _ _ _ _ _ _ _) as [r|] eqn:Hr; [|done].
  destruct (planned_receipt_evidence _ _ _ _ _ _ _ _ _ _ _ Hb Hr Ha) as (He & Hc & Hi & Hrec).
  split; [done|]. split; [done|]. by apply Ho.
Qed.

Lemma wp_activate request q ceiling prior :
  wp (activation_monitor request q ceiling prior)
    (activate_planned_endpoint request q ceiling prior) [] (activation_post request q prior).
Proof.
  prog_exec; cbn [activation_monitor activation_post];
    lazymatch goal with |- True => exact I | |- _ => idtac end; res_inv; unit_answers; split_bools.
  - split; [|done]. split; [done|]. eexists. split; [find_answer|congruence].
  - split; [done|]. split; try done.
    + match goal with E : assert_fresh _ ?t _ = Ok _ |- _ => exists t; split; [find_answer|done] end.
    + match goal with
      | E : validate_catalog_numbers ?o = Ok _, S : catalog_selection ?o ?r _ ?t = Ok ?sel,
        C : planned_quote_of _ _ ?sel = Ok ?c |- _ => exists r, o, t, sel, c
      end. split_and!; try done; find_answer.
    + eexists. split; [find_answer|done].
  - no_ambiguous_cancel.
  - eapply new_receipt_post; [eassumption|find_answer|]. intros r Hi Hb. unfold activation_origin.
    rewrite Hb. do 2 eexists. split; [find_answer|done].
  - eapply new_receipt_post; [eassumption|find_answer|]. intros r Hi Hb. unfold activation_origin.
    rewrite Hb. do 2 eexists. split; [find_answer|done].
  - eapply new_receipt_post; [eassumption|find_answer|]. intros r Hi Hb. unfold activation_origin.
    rewrite Hb. match goal with
    | En : named _ ?l = [?c], Ea : is_ambiguous_error ?e = true |- _ => eexists _, e, l, c
    end. split_and!; try done; find_answer.
Qed.

(** ** Adoption *)

(** Calls that change nothing. *)
Definition read_only (past : list provider_event) (c : provider_call) : Prop :=
  is_create c = false /\ is_delete c = false.

(** The one endpoint of the planned name, read back as planned. *)
Definition adoption_post (request : PlannedServerlessCapacityQuoteRequest)
  (q : PlannedServerlessCapacityQuote) (r : result ServerlessEndpointActivationReceipt)
  (tr : list provider_event) : Prop :=
  match r with
  | Ok receipt =>
      receipt_evidence request q receipt tr /\ check_activation receipt = Ok tt /\
      sa_reconciled_after_ambiguous_create receipt = true /\
      exists l observed, answered ListEndpoints (Ok l) tr /\
        named (pq_endpoint_name q) l = [observed] /\ en_id observed = sa_endpoint_id receipt
  | Exc _ => True
  end.

Lemma wp_adopt request q :
  wp read_only (adopt_planned_endpoint request q) [] (adoption_post request q).
Proof.
  prog_exec; cbn [adoption_post];
    lazymatch goal with |- True => exact I | |- read_only _ _ => done | |- _ => idtac end.
  destruct (planned_activation_receipt _ _ _ _ _ _ _) as [r|] eqn:Hr; [|done].
  match goal with Hb : readback _ _ ?e ?id = Ok _ |- adoption_post _ _ _ ?tr =>
    destruct (planned_receipt_evidence _ _ _ _ _ _ _ _ _ _ tr Hb Hr) as (He & Hc & Hi & Hrec); [find_answer|]
  end.
  split_and!; try done. do 2 eexists. split; [find_answer|]. by split.
Qed.

(** ** Authorization *)

(** The accepted quote still held and the endpoint was still as activated. *)
Definition authorization_post (request : PlannedServerlessCapacityQuoteRequest)
  (q : PlannedServerlessCapacityQuote) (a : ServerlessEndpointActivationReceipt) (ceiling : Decimal)
  (window : string) (r : result ServerlessActivatedSubmission) (tr : list provider_event) : Prop :=
  match r with
  | Ok s =>
      check_submission s = Ok tt /\ validate_submission s q a = Ok tt /\
      ss_exclusive_window_sha256 s = window /\
      assert_fresh (pq_terms q) (ss_authorized_at s) ceiling = Ok tt /\
      receipt_evidence request q a tr
  | Exc _ => True
  end.

Lemma submission_binds q a window t id s ceiling :
  validate_activation_quote a q = Ok tt -> assert_fresh (pq_terms q) t ceiling = Ok tt ->
  mk_submission (submission_draft q a window t id) = Ok s ->
  check_submission s = Ok tt /\ validate_submission s q a = Ok tt /\
  ss_exclusive_window_sha256 s = window /\ ss_authorized_at s = t.
Proof.
  intros Hq Hf Hs. unfold mk_submission in Hs. apply rbind_ok in Hs as ([] & Hc & [= <-]).
  split_and!; try done. unfold validate_submission. rewrite Hq. cbn [rbind]. unfold submission_draft.
  cbn [ss_provider_quote_id ss_quote_sha256 ss_provider_activation_id ss_endpoint_name ss_endpoint_id
       ss_endpoint_spec_sha256 ss_operation_digest ss_authorized_at ss_expires_at].
  unfold assert_fresh in Hf. res_inv. split_bools. apply require_true.
  rewrite !bool_decide_true_eq, Z.eqb_refl by done. cbn [andb].
  rewrite (proj2 (Z.leb_le _ _)), (proj2 (Z.ltb_lt _ _)) by done. done.
Qed.

Lemma wp_authorize request q a ceiling window :
  wp read_only (authorize_planned_submission request q a ceiling window) []
    (authorization_post request q a ceiling window).
Proof.
  prog_exec; cbn [authorization_post];
    lazymatch goal with |- True => exact I | |- read_only _ _ => done | |- _ => idtac end.
  match goal with |- authorization_post _ _ _ _ _ ?m _ => destruct m as [s|] eqn:Hs end; [|done].
  res_inv; unit_answers; split_bools.
  match goal with
  | Hf : assert_fresh _ ?t _ = Ok _, Hq : validate_activation_quote _ _ = Ok _ |- _ =>
      destruct (submission_binds _ _ _ _ _ _ _ Hq Hf Hs) as (Hc & Hv & Hw & Ht)
  end.
  cbn [authorization_post]. rewrite Ht. split_and!; try done. split; [done|].
  eexists. split; [find_answer|congruence].
Qed.

(** ** Cleanup *)

(** An inventory without workers: the list is empty and every count is the integer zero. *)
Definition no_workers (page : list (string * json)) : Prop :=
  get_field page "workers" = JList [] /\
  exists summary, get_field page "summary" = JObj summary /\
    same_keys (keys summary) WORKER_SUMMARY_KEYS = true /\
    forall key, In key WORKER_SUMMARY_KEYS -> get_field summary key = JInt 0.

Lemma workers_zero_none page : workers_zero page = true -> no_workers page.
Proof.
  unfold workers_zero, no_workers. intros Hz.
  destruct (get_field page "workers") as [| | | | |workers|]; try discriminate.
  destruct (get_field page "summary") as [| | | | | |summary]; try discriminate.
  apply andb_true_iff in Hz as [Hz Hnone]. apply andb_true_iff in Hz as [Hkeys Hall].
  rewrite forallb_forall in Hall. destruct workers; [|discriminate].
  split; [done|]. exists summary. split_and!; [done..|]. intros key Hin. specialize (Hall key Hin).
  destruct (get_field summary key); try discriminate. cbn in Hall. f_equal. lia.
Qed.

(** What has been observed when the DELETE call is made. *)
Record delete_ready (request : PlannedServerlessCapacityQuoteRequest) (q : PlannedServerlessCapacityQuote)
  (a : ServerlessEndpointActivationReceipt) (prior_intent : option ServerlessEndpointCleanupIntent)
  (has_persist : bool) (past : list provider_event) : Prop := {
  dr_quote : validate_activation_quote a q = Ok tt;
  dr_readback : exists e, answered (GetEndpoint (sa_endpoint_id a)) (Ok e) past /\
    readback request q e (sa_endpoint_id a) = Ok (sa_endpoint_readback_sha256 a);
  dr_workers : exists page, answered (ListEndpointWorkers (sa_endpoint_id a)) (Ok page) past /\
    no_workers page;
  dr_intent : has_persist = true -> exists i, answered (PersistIntent i) (Ok (Some i)) past /\
    ci_activation i = a /\ (forall p, prior_intent = Some p -> i = p);
  dr_first : calls_of is_delete past = []
}.

Definition cleanup_monitor (request : PlannedServerlessCapacityQuoteRequest)
  (q : PlannedServerlessCapacityQuote) (a : ServerlessEndpointActivationReceipt)
  (prior_receipt : option ServerlessEndpointCleanupReceipt)
  (prior_intent : option ServerlessEndpointCleanupIntent) (has_persist : bool)
  (past : list provider_event) (c : provider_call) : Prop :=
  match c with
  | DeleteEndpoint id =>
      id = sa_endpoint_id a /\ prior_receipt = None /\ delete_ready request q a prior_intent has_persist past
  | CreateEndpoint _ => False
  | _ => True
  end.

(** The events after the last DELETE. *)
Definition since_delete (tr : list provider_event) : list provider_event :=
  fold_left (fun acc e => if is_delete (ev_call e) then [] else (acc ++ [e])%list) tr [].

(** The endpoint was seen to be gone: the typed not-found of its own identifier, and an
    inventory without its identifier and name, both after any DELETE. *)
Definition absence_verified (a : ServerlessEndpointActivationReceipt) (tr : list provider_event) : Prop :=
  exists e l,
    answered (GetEndpoint (sa_endpoint_id a)) (Exc e) (since_delete tr) /\ is_not_found e = true /\
    answered ListEndpoints (Ok l) (since_delete tr) /\ existsb (holds_endpoint a) l = false.

(** What the evidence basis of a new receipt says of the DELETE. *)
Definition basis_evidence (a : ServerlessEndpointActivationReceipt)
  (prior_intent : option ServerlessEndpointCleanupIntent) (r : ServerlessEndpointCleanupReceipt)
  (tr : list provider_event) : Prop :=
  (cr_cleanup_basis r = Some "delete_acknowledged" /\
   answered (DeleteEndpoint (sa_endpoint_id a)) (Ok tt) tr) \/
  (cr_cleanup_basis r = Some "ambiguous_delete_verified_absent" /\
   exists e, answered (DeleteEndpoint (sa_endpoint_id a)) (Exc e) tr /\ is_ambiguous_error e = true) \/
  (cr_cleanup_basis r = Some "interrupted_intent_verified_absent" /\
   calls_of is_delete tr = [] /\ is_some prior_intent = true).

Record cleanup_evidence (a : ServerlessEndpointActivationReceipt)
  (prior_intent : option ServerlessEndpointCleanupIntent) (r : ServerlessEndpointCleanupReceipt)
  (tr : list provider_event) : Prop := {
  ce_valid : check_cleanup r = Ok tt;
  ce_activation : validate_cleanup_activation r a = Ok tt;
  ce_absent_at : answered Now (Ok (cr_verified_absent_at r)) (since_delete tr);
  ce_basis : basis_evidence a prior_intent r tr;
  ce_intent : forall i, prior_intent = Some i ->
    cr_workers_zero_observed_at r = ci_workers_zero_observed_at i /\
    cr_delete_started_at r = ci_delete_started_at i
}.

Definition cleanup_post (a : ServerlessEndpointActivationReceipt)
  (prior_receipt : option ServerlessEndpointCleanupReceipt)
  (prior_intent : option ServerlessEndpointCleanupIntent)
  (r : result ServerlessEndpointCleanupReceipt) (tr : list provider_event) : Prop :=
  match r with
  | Ok receipt =>
      absence_verified a tr /\
      match prior_receipt with
      | Some p => receipt = p /\ validate_cleanup_activation p a = Ok tt /\ calls_of is_delete tr = []
      | None => cleanup_evidence a prior_intent receipt tr
      end
  | Exc _ => True
  end.

Lemma since_delete_app tr new :
  calls_of is_delete new = [] -> since_delete (tr ++ new) = (since_delete tr ++ new)%list.
Proof.
  unfold since_delete. rewrite fold_left_app. generalize (fold_left (fun acc e => if is_delete (ev_call e)
    then [] else (acc ++ [e])%list) tr []). induction new as [|e new IH]; intros acc; cbn [fold_left].
  - by rewrite app_nil_r.
  - unfold calls_of. cbn [List.filter]. destruct (is_delete (ev_call e)); [done|]. intros Hn.
    rewrite IH by done. by rewrite <- app_assoc.
Qed.

Lemma answered_app_l c r tr new : answered c r tr -> answered c r (tr ++ new)%list.
Proof. intros Ha. apply in_or_app. by left. Qed.

Lemma answered_app_r c r tr new : answered c r new -> answered c r (tr ++ new)%list.
Proof. intros Ha. apply in_or_app. by right. Qed.

Lemma calls_of_app kind tr new : calls_of kind (tr ++ new)%list = (calls_of kind tr ++ calls_of kind new)%list.
Proof. apply List.filter_app. Qed.

(** What a completed verification has seen: the endpoint's own not-found, an inventory
    without it, and the clock. *)
Definition absence_seen (a : ServerlessEndpointActivationReceipt) (t : instant) (new : list provider_event) : Prop :=
  calls_of is_delete new = [] /\ answered Now (Ok t) new /\
  exists e l,
    answered (GetEndpoint (sa_endpoint_id a)) (Exc e) new /\ is_not_found e = true /\
    answered ListEndpoints (Ok l) new /\ existsb (holds_endpoint a) l = false.

Lemma absence_seen_verified a t tr new :
  absence_seen a t new ->
  absence_verified a (tr ++ new)%list /\ answered Now (Ok t) (since_delete (tr ++ new)%list).
Proof.
  intros (Hd & Hn & e & l & Hg & He & Hl & Hx). rewrite since_delete_app by done.
  split; [|by apply answered_app_r]. exists e, l. rewrite since_delete_app by done.
  split_and!; try done; by apply answered_app_r.
Qed.

Lemma wp_verify_absence ok a past (Q : result instant -> list provider_event -> Prop) :
  (forall tr c, is_create c = false -> is_delete c = false -> ok tr c) ->
  (forall e tr, Q (Exc e) tr) ->
  (forall t new, absence_seen a t new -> Q (Ok t) (past ++ new)%list) ->
  wp ok (verify_cleanup_absence a) past Q.
Proof.
  intros Hok He HQ. unfold verify_cleanup_absence. prog_exec; try by apply Hok.
  all: try (by apply He).
  all: res_inv; split_bools; try done. rewrite <- !app_assoc. apply HQ.
  split; [done|]. split; [find_answer|]. do 2 eexists. split_and!; try eassumption; find_answer.
Qed.

(** Symbolic execution up to a verification of absence, which is one step. *)
Ltac cleanup_exec :=
  prog_exec;
  lazymatch goal with
  | |- wp _ (pbind (verify_cleanup_absence _) _) _ _ =>
      apply wp_bind; apply wp_verify_absence;
        [ intros ? [] ?; try done; exact I
        | intros; exact I
        | let t := fresh "t" in let new := fresh "new" in let Hn := fresh "Hn" in
          intros t new Hn; cbn [wp] ]
  | |- _ => idtac
  end.

Lemma cleanup_draft_binds i t basis id :
  validate_cleanup_activation (cleanup_draft i t basis id) (ci_activation i) = Ok tt.
Proof.
  unfold validate_cleanup_activation, cleanup_draft. cbn [cr_provider_quote_id cr_quote_sha256
    cr_provider_activation_id cr_endpoint_name cr_endpoint_id cr_endpoint_spec_sha256 cr_operation_digest
    cr_endpoint_readback_sha256]. by rewrite !bool_decide_true_eq.
Qed.

(** The receipt of a verified absence. *)
Lemma cleanup_receipt_post a prior_intent i t basis past new :
  absence_seen a t new -> ci_activation i = a -> (forall p, prior_intent = Some p -> i = p) ->
  (forall r, cr_cleanup_basis r = Some basis -> basis_evidence a prior_intent r (past ++ new)%list) ->
  cleanup_post a None prior_intent (cleanup_receipt i t basis) (past ++ new)%list.
Proof.
  intros Hs Ha Hp Hb. destruct (absence_seen_verified a t past new Hs) as [Hv Ht].
  unfold cleanup_receipt, mk_cleanup. cbv zeta.
  destruct (check_cleanup _) as [[]|] eqn:Hc; cbn [rbind cleanup_post]; [|done].
  split; [done|]. split; [done| |exact Ht|by apply Hb|].
  - rewrite <- Ha. apply cleanup_draft_binds.
  - intros p Hpi. by rewrite <- (Hp p Hpi).
Qed.

Lemma intent_activation i a u : validate_intent_activation i a = Ok u -> ci_activation i = a.
Proof. unfold validate_intent_activation. intros Hv. apply require_ok in Hv. by apply bool_decide_eq_true_1 in Hv. Qed.

Lemma new_intent_activation schema contract a t1 t2 i :
  mk_cleanup_intent {| ci_schema_version := schema; ci_contract_version := contract; ci_activation := a;
    ci_workers_zero_observed_at := t1; ci_delete_started_at := t2 |} = Ok i -> ci_activation i = a.
Proof. unfold mk_cleanup_intent. intros Hm. by apply rbind_ok in Hm as ([] & _ & [= <-]). Qed.

Hint Resolve intent_activation new_intent_activation : kestrel.

(** The three bases, from the answer of the DELETE. *)
Ltac basis_case :=
  intros ? ?; unfold basis_evidence;
  first
    [ left; split; [done|apply answered_app_l; find_answer]
    | right; left; split; [done|]; eexists; split; [apply answered_app_l; find_answer|eassumption]
    | right; right; split; [done|]; split; [|done];
      rewrite calls_of_app; cbn [calls_of List.filter is_delete ev_call app];
      match goal with Hn : absence_seen _ _ _ |- _ => apply (proj1 Hn) end ].

Ltac ready_case :=
  split; [done|]; split; [done|]; split;
  [ done
  | eexists; split; [find_answer|congruence]
  | eexists; split; [find_answer|by eauto using workers_zero_none]
  | first [ by intros ?
          | intros _; eexists; split_and!; [find_answer|eauto with kestrel|intros ?; congruence] ]
  | done ].

Lemma wp_cleanup request q a prior_receipt prior_intent has_persist :
  wp (cleanup_monitor request q a prior_receipt prior_intent has_persist)
    (cleanup_planned request q a prior_receipt prior_intent has_persist) []
    (cleanup_post a prior_receipt prior_intent).
Proof.
  cleanup_exec; cbn [cleanup_monitor cleanup_post];
    lazymatch goal with |- True => exact I | |- _ => idtac end; res_inv; unit_answers; split_bools; subst;
    try no_ambiguous_cancel;
    lazymatch goal with
    | |- cleanup_post _ _ _ _ _ =>
        apply cleanup_receipt_post; [done|eauto with kestrel|intros ?; congruence|basis_case]
    | |- _ = _ /\ _ => ready_case
    | Hn : absence_seen ?a ?t ?new |- absence_verified _ ?tr /\ _ =>
        split; [by apply (absence_seen_verified a t)|]; split_and!; try done;
        rewrite calls_of_app, (proj1 Hn); done
    end.
Qed.

(** ** The owned cleanup *)

Lemma wp_owned {A} ok (p : program A) past Q :
  wp ok p past (fun r tr => match r with
    | Ok a => ok tr Cancelled /\ forall cancelled,
        Q (match cancelled with Ok true => Exc CancelledError | _ => Ok a end)
          (tr ++ [Event Cancelled cancelled])%list
    | Exc e => Q (Exc e) tr
    end) ->
  wp ok (owned p) past Q.
Proof. intros Hp. unfold owned. apply wp_bind. eapply wp_mono; [apply Hp|]. by intros [a|e] tr. Qed.

Lemma cleanup_post_app a prior_receipt prior_intent r tr new :
  calls_of is_delete new = [] -> cleanup_post a prior_receipt prior_intent r tr ->
  cleanup_post a prior_receipt prior_intent r (tr ++ new)%list.
Proof.
  intros Hn. destruct r as [r|]; [|done]. cbn [cleanup_post]. intros [Hv Hr]. split.
  - destruct Hv as (e & l & Hg & He & Hl & Hx). exists e, l. rewrite since_delete_app by done.
    split_and!; try done; by apply answered_app_l.
  - destruct prior_receipt as [p|].
    + destruct Hr as (Hr & Hp & Hd). split_and!; try done. by rewrite calls_of_app, Hd, Hn.
    + destruct Hr as [Hc Ha Ht Hb Hi]. split; try done.
      * rewrite since_delete_app by done. by apply answered_app_l.
      * destruct Hb as [[Hb Hd]|[[Hb (e & Hd & He)]|(Hb & Hd & Hs)]].
        -- left. split; [done|by apply answered_app_l].
        -- right; left. split; [done|]. exists e. split; [by apply answered_app_l|done].
        -- right; right. split_and!; try done. by rewrite calls_of_app, Hd, Hn.
Qed.

Lemma wp_cleanup_endpoint request q a prior_receipt prior_intent has_persist :
  wp (cleanup_monitor request q a prior_receipt prior_intent has_persist)
    (cleanup_planned_endpoint request q a prior_receipt prior_intent has_persist) []
    (cleanup_post a prior_receipt prior_intent).
Proof.
  apply wp_owned. eapply wp_mono; [apply wp_cleanup|]. intros [r|e] tr Hr; [|done].
  split; [done|]. intros [[]|e]; [done| |]; by apply cleanup_post_app.
Qed.

(** ** Monitors and counts *)

(** A call whose monitor requires that it is the first of its kind is made at most once. *)
Lemma first_of_kind (kind : provider_call -> bool) (tr : list provider_event) :
  (forall pre ev post, tr = (pre ++ ev :: post)%list -> kind (ev_call ev) = true -> calls_of kind pre = []) ->
  (length (calls_of kind tr) <= 1)%nat.
Proof.
  induction tr as [|ev tr IH] using rev_ind; [cbn; lia|]. intros Hf. rewrite calls_of_app, length_app.
  destruct (kind (ev_call ev)) eqn:Hk.
  - rewrite (Hf tr ev []) by done. unfold calls_of. cbn [List.filter]. rewrite Hk. cbn. lia.
  - unfold calls_of at 2. cbn [List.filter]. rewrite Hk. cbn [length]. rewrite Nat.add_0_r. apply IH.
    intros pre ev' post Htr. apply (Hf pre ev' (post ++ [ev])%list). by rewrite Htr, <- app_assoc.
Qed.

(** No call of a kind the monitor never allows. *)
Lemma none_of_kind (kind : provider_call -> bool) (tr : list provider_event) :
  (forall pre ev post, tr = (pre ++ ev :: post)%list -> kind (ev_call ev) = false) -> calls_of kind tr = [].
Proof.
  induction tr as [|ev tr IH]; [done|]. intros Hf. unfold calls_of. cbn [List.filter].
  rewrite (Hf [] ev tr eq_refl). apply IH. intros pre ev' post Htr. apply (Hf (ev :: pre) ev' post).
  by rewrite Htr.
Qed.

End Custody.
