(* ===== verification/ServerlessSettlement.v ===== *)
(** Settlement of Serverless endpoints: what an answered cost list, retired-endpoint
    receipt, job receipt or ambiguous-window receipt has read from the provider. *)
From S2P Require Import Prelude PyStr Enums Errors PyDecimal PyTime Json PyFloat Billing PodBilling.
From S2P Require Import Placement ContractsBase CodecBase Prog ServerlessSpec ServerlessQuote.
From S2P Require Import ServerlessLifecycle ServerlessCosts ServerlessCatalog ServerlessHours.
From S2P Require Import ServerlessProvider ServerlessCustody.
Import Billing.Billing ServerlessProvider.

#[local] Open Scope Z_scope.

(** ** Batches *)

(** The end of a batch of a window of [m] hours. *)
Lemma batch_end batch cursor until m :
  1 <= batch -> until = cursor + Z.of_nat m * hours 1 -> cursor < until ->
  exists k, (0 < k)%nat /\ (k <= m)%nat /\ Z.of_nat k <= batch /\
    Z.min until (cursor + hours (Z.min batch ((until - cursor) / hours 1))) = cursor + Z.of_nat k * hours 1.
Proof.
  intros Hb Hu Hlt. assert (Hh : 0 < hours 1) by done.
  assert (Hd : (until - cursor) / hours 1 = Z.of_nat m).
  { rewrite Hu. replace (cursor + _ - cursor) with (Z.of_nat m * hours 1) by lia. apply Z.div_mul. lia. }
  rewrite Hd. assert (0 < Z.of_nat m) by nia. set (k := Z.min batch (Z.of_nat m)).
  exists (Z.to_nat k). split; [lia|]. split; [lia|]. split; [lia|]. rewrite Z2Nat.id by lia.
  replace (hours k) with (k * hours 1) by (unfold hours, US; lia). nia.
Qed.

(** The loop ends: the hours of the window are fuel enough, and more changes nothing. *)
Lemma read_batches_fuel `{Digest} endpoint batch m :
  1 <= batch ->
  forall n n' cursor until, until = cursor + Z.of_nat m * hours 1 -> (m <= n)%nat -> (m <= n')%nat ->
  prog_equiv (read_batches n endpoint batch cursor until) (read_batches n' endpoint batch cursor until).
Proof.
  intros Hb. induction m as [m IH] using lt_wf_ind. intros n n' cursor until Hu Hn Hn'.
  destruct (Z.ltb_spec cursor until) as [Hlt|Hge].
  - destruct (batch_end batch cursor until m Hb Hu Hlt) as (k & Hk & Hkm & _ & He).
    destruct n as [|n]; [lia|]. destruct n' as [|n']; [lia|]. cbn [read_batches].
    rewrite (proj2 (Z.ltb_lt cursor until) Hlt), He. apply pbind_proper; [done|]. intros page.
    apply pbind_proper; [done|]. intros [costs|]; [|done]. apply pbind_proper; [|done].
    apply (IH (m - k)%nat); [lia| |lia|lia]. rewrite Nat2Z.inj_sub by lia. lia.
  - assert (Hc : (cursor <? until) = false) by by apply Z.ltb_ge.
    by destruct n, n'; cbn [read_batches]; rewrite Hc.
Qed.

Section Settlement.
Context `{Digest}.

(** A host with a complete page for every batch of whole hours between two instants. *)
Definition complete_pages (h : oracle provider_answer) (endpoint_id : string) (batch cursor until : Z) : Prop :=
  forall k t j, (0 < j)%nat -> Z.of_nat j <= batch -> cursor <= t -> t + Z.of_nat j * hours 1 <= until ->
    (t - cursor) mod hours 1 = 0 ->
    exists page costs,
      h k (GetServerlessBilling (iso_datetime t) (iso_datetime (t + Z.of_nat j * hours 1)) "hour" endpoint_id) =
        Ok page /\
      authoritative_hour_costs page endpoint_id t (t + Z.of_nat j * hours 1) = Ok (Some costs).

Lemma complete_pages_later h endpoint batch cursor until n :
  complete_pages h endpoint batch cursor until ->
  complete_pages h endpoint batch (cursor + Z.of_nat n * hours 1) until.
Proof.
  intros Hp k t j Hj Hb Ht Hu Hm. apply Hp; try done; [unfold hours, US in *; lia|].
  replace (t - cursor) with (t - (cursor + Z.of_nat n * hours 1) + Z.of_nat n * hours 1) by lia.
  by rewrite Z.mod_add.
Qed.

(** Complete pages are read to the end of the window, with no cancellation. *)
Lemma read_batches_complete (h : oracle provider_answer) endpoint batch m :
  1 <= batch -> (forall k, h k Cancelled <> Ok true) ->
  forall n k cursor until, until = cursor + Z.of_nat m * hours 1 -> (m <= n)%nat ->
  complete_pages h endpoint batch cursor until ->
  exists costs, fst (run h k (read_batches n endpoint batch cursor until)) = Ok (Some costs).
Proof.
  intros Hb Hc. induction m as [m IH] using lt_wf_ind. intros n k cursor until Hu Hn Hp.
  destruct (Z.ltb_spec cursor until) as [Hlt|Hge].
  2: { assert (cursor = until) as -> by (unfold hours, US in Hu; lia). exists [].
       destruct n; cbn [read_batches]; by rewrite Z.ltb_irrefl. }
  destruct (batch_end batch cursor until m Hb Hu Hlt) as (j & Hj & Hjm & Hjb & He).
  destruct n as [|n]; [lia|]. cbn [read_batches]. rewrite (proj2 (Z.ltb_lt cursor until) Hlt), He.
  destruct (Hp k cursor j Hj Hjb ltac:(lia)) as (page & costs & Hpage & Hcosts);
    [subst until; unfold hours, US; lia|by rewrite Z.sub_diag|].
  unfold owned, serverless_billing, perform. cbn [pbind run]. rewrite Hpage. cbn [pbind run].
  destruct (IH (m - j)%nat ltac:(lia) n (S (S k)) (cursor + Z.of_nat j * hours 1) until) as (more & Hmore);
    [rewrite Nat2Z.inj_sub by lia; lia|lia|by apply complete_pages_later|].
  pose proof (Hc (S k)) as Hno. cbn [provider_answer] in *. destruct (h (S k) Cancelled) as [[]|]; [done|..].
  all: cbn [pbind]; rewrite Hcosts; cbn [pbind]; rewrite run_bind;
    destruct (run h (S (S k)) _) as [r tr]; cbn [fst] in Hmore; subst r; by eexists.
Qed.

(** Hour costs read page by page from [t] to [u]. *)
Inductive covered (endpoint_id : string) (tr : list provider_event)
  : instant -> list ServerlessEndpointHourCost -> instant -> Prop :=
  | covered_done t : covered endpoint_id tr t [] t
  | covered_page t m u page costs rest :
      answered (GetServerlessBilling (iso_datetime t) (iso_datetime m) "hour" endpoint_id) (Ok page) tr ->
      t < m -> authoritative page endpoint_id t m costs -> covered endpoint_id tr m rest u ->
      covered endpoint_id tr t (costs ++ rest)%list u.

Lemma covered_app_l endpoint tr new t costs u :
  covered endpoint tr t costs u -> covered endpoint (tr ++ new)%list t costs u.
Proof.
  induction 1 as [|t m u page costs rest Ha Hlt Hau _ IH]; [constructor|].
  econstructor; [apply answered_app_l, Ha|done..].
Qed.

(** Pages that follow each other tile their window, hour by hour. *)
Lemma covered_tiles endpoint tr t costs u :
  covered endpoint tr t costs u ->
  cost_tiles endpoint t costs u /\ Forall (fun h => check_hour_cost h = Ok tt) costs.
Proof.
  induction 1 as [|t m u page costs rest _ _ [Ht Hv] _ (IHt & IHv)]; [by split|].
  split; [by eapply cost_tiles_app|]. by apply Forall_app.
Qed.

(** Calls that only read. *)
Definition settlement_monitor (past : list provider_event) (c : provider_call) : Prop :=
  match c with
  | GetServerlessBilling _ _ _ _ | JobStatus _ _ | Now | Cancelled => True
  | _ => False
  end.

Lemma wp_read_batches endpoint batch m :
  1 <= batch ->
  forall n cursor until past, until = cursor + Z.of_nat m * hours 1 -> (m <= n)%nat ->
  wp settlement_monitor (read_batches n endpoint batch cursor until) past
    (fun r tr => (exists new, tr = past ++ new)%list /\
       forall costs, r = Ok (Some costs) -> covered endpoint tr cursor costs until).
Proof.
  intros Hb. induction m as [m IH] using lt_wf_ind. intros n cursor until past Hu Hn.
  destruct (Z.ltb_spec cursor until) as [Hlt|Hge].
  2: { assert (cursor = until) as -> by (unfold hours, US in Hu; lia).
       assert (Hc : (until <? until) = false) by apply Z.ltb_irrefl.
       destruct n; cbn [read_batches]; rewrite Hc; cbn [wp].
       all: split; [exists []; by rewrite app_nil_r|]; intros costs [= <-]; constructor. }
  destruct (batch_end batch cursor until m Hb Hu Hlt) as (k & Hk & Hkm & _ & He).
  destruct n as [|n]; [lia|]. cbn [read_batches]. rewrite (proj2 (Z.ltb_lt cursor until) Hlt), He.
  set (b := cursor + Z.of_nat k * hours 1) in *. assert (Hlb : cursor < b) by (unfold b, hours, US; lia).
  unfold owned, serverless_billing, perform. cbn [wp pbind].
  split; [done|]. intros [page|e]; cbn [wp pbind]; [|by split; [eexists|]].
  split; [done|]. intros c. destruct c as [[]|]; cbn [wp pbind].
  1: by split; [rewrite <- app_assoc; eexists|].
  all: destruct (authoritative_hour_costs page endpoint cursor b) as [[costs|]|] eqn:Ha; cbn [wp pbind].
  all: try by split; [rewrite <- app_assoc; eexists|].
  all: apply wp_bind; eapply wp_mono; [apply (IH (m - k)%nat)|]; try lia.
  all: try (rewrite Nat2Z.inj_sub by lia; unfold b; lia).
  all: intros [[more|]|?] tr [(new & ->) Hcov]; cbn [wp]; rewrite <- !app_assoc in *;
    (split; [by eexists|]); try done; intros ? [= <-].
  all: econstructor; [apply in_or_app; right; left; reflexivity|done|
    eapply authoritative_spec; [lia|exact Ha]|by apply Hcov].
Qed.

(** ** The whole lifecycle of an endpoint *)

(** [read_exact_serverless_billing]: an answer covers the closed hours of the interval. *)
Definition history_post (endpoint : string) (created_at absent_at : instant)
  (r : result (option (list ServerlessEndpointHourCost))) (tr : list provider_event) : Prop :=
  forall costs, r = Ok (Some costs) ->
    exists window_from window_until at_,
      billing_hour_bounds created_at absent_at = Ok (window_from, window_until) /\
      answered Now (Ok at_) tr /\ window_until <= at_ /\
      covered endpoint tr window_from costs window_until.

Lemma wp_read_exact endpoint created absent batch past :
  wp settlement_monitor (read_exact_serverless_billing endpoint created absent batch) past
    (fun r tr => (exists new, tr = past ++ new)%list /\ history_post endpoint created absent r tr).
Proof.
  unfold read_exact_serverless_billing, now, perform. cbn [pbind].
  destruct (require (serverless_identifier endpoint) _) as [[]|] eqn:Hi; cbn [wp pbind];
    [|split; [exists []; by rewrite app_nil_r|done]].
  destruct (require (1 <=? batch) _) as [[]|] eqn:Hb; cbn [wp pbind];
    [|split; [exists []; by rewrite app_nil_r|done]].
  destruct (billing_hour_bounds created absent) as [[f u]|] eqn:Hw; cbn [wp pbind fst snd];
    [|split; [exists []; by rewrite app_nil_r|done]].
  split; [done|]. intros [t|]; cbn [wp pbind]; [|by split; [eexists|]].
  destruct (Z.ltb_spec t u); cbn [wp]; [by split; [eexists|]|].
  apply require_ok, Z.leb_le in Hb. destruct (bounds_hours _ _ _ _ Hw) as (n & Hu & Hn & _).
  eapply wp_mono; [apply (wp_read_batches endpoint batch n Hb); [exact Hu|lia]|].
  intros r tr [(new & ->) Hcov]. rewrite <- app_assoc in *. split; [by eexists|].
  intros costs Hr. exists f, u, t. split_and!; try done; [|by apply Hcov].
  apply in_or_app. right. by left.
Qed.

(** A host with complete pages and a clock past the window answers the whole history. *)
Lemma read_exact_complete (h : oracle provider_answer) n endpoint created absent batch f u t :
  serverless_identifier endpoint = true -> 1 <= batch -> billing_hour_bounds created absent = Ok (f, u) ->
  h n Now = Ok t -> u <= t -> (forall k, h k Cancelled <> Ok true) -> complete_pages h endpoint batch f u ->
  exists costs, fst (run h n (read_exact_serverless_billing endpoint created absent batch)) = Ok (Some costs).
Proof.
  intros Hi Hb Hw Hn Hu Hc Hp. unfold read_exact_serverless_billing, now, perform.
  rewrite Hi, (proj2 (Z.leb_le 1 batch)), Hw by lia. cbn [require pbind run fst snd]. rewrite Hn.
  cbn [pbind]. rewrite (proj2 (Z.ltb_ge t u)) by lia.
  destruct (bounds_hours _ _ _ _ Hw) as (m & Hm & Hmf & _).
  destruct (read_batches_complete h endpoint batch m Hb Hc (Z.to_nat ((u - f) / hours 1)) (S n) f u) as (costs & Hr);
    [done|lia|done|].
  exists costs. by destruct (run h (S n) _).
Qed.

(** A retired endpoint's receipt covers the endpoint's life. *)
Definition retired_post (a : ServerlessEndpointActivationReceipt) (cleanup : ServerlessEndpointCleanupReceipt)
  (r : result (option ServerlessRetiredEndpointBillingReceipt)) (tr : list provider_event) : Prop :=
  forall receipt, r = Ok (Some receipt) ->
    check_retired receipt = Ok tt /\ rt_activation receipt = a /\ rt_cleanup receipt = cleanup /\
    validate_cleanup_activation cleanup a = Ok tt /\
    history_post (sa_endpoint_id a) (sa_create_started_at a) (cr_verified_absent_at cleanup)
      (Ok (Some (rt_endpoint_hour_costs receipt))) tr.

Lemma history_post_app endpoint created absent r tr new :
  history_post endpoint created absent r tr -> history_post endpoint created absent r (tr ++ new)%list.
Proof.
  intros Hh costs Hr. destruct (Hh costs Hr) as (f & u & t & Hb & Ht & Hu & Hc).
  exists f, u, t. split_and!; try done; [by apply answered_app_l|by apply covered_app_l].
Qed.

Lemma wp_retired st request q a cleanup :
  wp settlement_monitor (retired_endpoint_billing st request q a cleanup) [] (retired_post a cleanup).
Proof.
  unfold retired_endpoint_billing, now, perform.
  repeat (apply wp_bind; apply wp_done; [intros [] ?|by intros]).
  apply wp_bind. eapply wp_mono; [apply wp_read_exact|]. intros [[costs|]|e] tr [_ Hh]; [|done|done].
  cbn [wp pbind]. split; [done|]. intros [t|]; cbn [wp]; [|done].
  intros receipt Hr. apply rbind_ok in Hr as (r & Hm & [= ->]). unfold mk_retired in Hm.
  apply rbind_ok in Hm as ([] & Hc & [= <-]). split_and!; try done. by apply history_post_app.
Qed.

(** ** Exclusive windows *)

Lemma allocation_window_hours values l window :
  normalized_exclusive_hours values = Ok l -> allocation_window values = Ok window ->
  exists c n, values = hours_from c (S n) /\ c mod hours 1 = 0 /\
    window = (c, c + Z.of_nat (S n) * hours 1).
Proof.
  intros Hn Hw. apply normalized_hours in Hn as (_ & c & n & -> & Hc). exists c, n. split_and!; try done.
  unfold allocation_window in Hw. rewrite hours_from_last in Hw. cbn [hours_from head] in Hw.
  injection Hw as <-. f_equal. unfold hours, US. lia.
Qed.

(** The closed hours of a window, read after it ended. *)
Definition settled (endpoint_id : string) (window : instant * instant)
  (costs : list ServerlessEndpointHourCost) (tr : list provider_event) : Prop :=
  exists page at_,
    answered Now (Ok at_) tr /\ snd window <= at_ /\
    answered (GetServerlessBilling (iso_datetime (fst window)) (iso_datetime (snd window)) "hour" endpoint_id)
      (Ok page) tr /\
    authoritative page endpoint_id (fst window) (snd window) costs.

(** The receipt of a job: the terminal job, its closed hours and their totals. *)
Definition job_post (attempt : ServerlessBillingAttempt) (t : QuoteTerms) (profile : string)
  (r : result (option ServerlessBillingReceipt)) (tr : list provider_event) : Prop :=
  forall receipt, r = Ok (Some receipt) ->
    check_serverless_receipt receipt = Ok tt /\
    sb_job_id receipt = ba_job_id attempt /\ sb_endpoint_id receipt = ba_endpoint_id attempt /\
    sb_endpoint_profile_sha256 receipt = profile /\
    exists job costs,
      answered (JobStatus (ba_endpoint_id attempt) (ba_job_id attempt)) (Ok job) tr /\
      validate_terminal_job job attempt = Ok tt /\ job_within_quote job t = Ok tt /\
      settled (ba_endpoint_id attempt) (sb_billing_window_from receipt, sb_billing_window_until receipt) costs tr /\
      hour_cost_totals costs = Ok (sb_amounts receipt).

Ltac settle_exec :=
  unfold final_billing_bound, final_ambiguous_window_billing_bound, window_costs, job_status,
    serverless_billing, now, perform; repeat prog_step.

Lemma opt_result_some {A B} (f : A -> result B) o b :
  opt_result f o = Ok (Some b) -> exists a, o = Some a /\ f a = Ok b.
Proof. destruct o as [a|]; cbn; [|done]. intros Hr. apply rbind_ok in Hr as (b' & Hb & [= ->]). eauto. Qed.

Lemma wp_final_billing st attempt t profile :
  check_billing_attempt attempt = Ok tt ->
  wp settlement_monitor (final_billing_bound st attempt t profile) [] (job_post attempt t profile).
Proof.
  intros Hatt. unfold check_billing_attempt in Hatt. res_inv.
  match goal with E : normalized_exclusive_hours _ = Ok _ |- _ => rename E into Hnorm end.
  settle_exec; try done; intros receipt Hr; try done; res_inv; unit_answers.
  apply opt_result_some in Hr as (costs & -> & Hr). apply rbind_ok in Hr as (amounts & Ht & Hr).
  unfold mk_serverless_receipt in Hr. apply rbind_ok in Hr as ([] & Hc & [= <-]).
  match goal with E : allocation_window _ = Ok ?w |- _ =>
    destruct (allocation_window_hours _ _ _ Hnorm E) as (c & n & _ & _ & ->) end.
  cbn [fst snd] in *. split_bools. split_and!; try done.
  eexists _, costs. split_and!; try done; [find_answer|].
  eexists _, _. split_and!; [find_answer|done|find_answer|].
  apply authoritative_spec; [|done].
  unfold billing_receipt; cbn [fst snd sb_billing_window_from sb_billing_window_until].
  unfold hours, US. lia.
Qed.

(** The receipt of an ambiguous window: its closed hours, the charge capped at the
    accepted ceiling and the loss the operator bears. *)
Definition window_post (w : ServerlessAmbiguousBillingWindow) (profile : string)
  (r : result (option ServerlessAmbiguousWindowBillingReceipt)) (tr : list provider_event) : Prop :=
  forall receipt, r = Ok (Some receipt) ->
    check_ambiguous_receipt receipt = Ok tt /\
    ar_endpoint_id receipt = aw_endpoint_id w /\ ar_attempt_id receipt = aw_attempt_id w /\
    ar_endpoint_profile_sha256 receipt = profile /\
    settled (aw_endpoint_id w) (ar_billing_window_from receipt, ar_billing_window_until receipt)
      (ar_endpoint_hour_costs receipt) tr /\
    hour_cost_totals (ar_endpoint_hour_costs receipt) = Ok (ar_amounts receipt) /\
    ar_capped_cost_usd receipt =
      capped_cost (ca_actual_cost_usd (ar_amounts receipt)) (aw_accepted_cost_ceiling_usd w) /\
    operator_loss (ca_actual_cost_usd (ar_amounts receipt)) (ar_capped_cost_usd receipt) =
      Ok (ar_operator_loss_usd receipt).

Lemma wp_final_window w t profile :
  check_ambiguous_window w = Ok tt ->
  wp settlement_monitor (final_ambiguous_window_billing_bound w t profile) [] (window_post w profile).
Proof.
  intros Hw. unfold check_ambiguous_window in Hw. res_inv.
  match goal with E : normalized_exclusive_hours _ = Ok _ |- _ => rename E into Hnorm end.
  settle_exec; try done; intros receipt Hr; try done; res_inv; unit_answers.
  apply opt_result_some in Hr as (costs & -> & Hr). unfold settle_window in Hr. cbv zeta in Hr.
  apply rbind_ok in Hr as (amounts & Ht & Hr). apply rbind_ok in Hr as (loss & Hl & Hr).
  unfold mk_ambiguous_receipt in Hr. apply rbind_ok in Hr as ([] & Hc & [= <-]).
  match goal with E : allocation_window _ = Ok ?w |- _ =>
    destruct (allocation_window_hours _ _ _ Hnorm E) as (c & n & _ & _ & ->) end.
  cbn [fst snd] in *. split_bools. split_and!; try done.
  eexists _, _. split_and!; [find_answer|done|find_answer|].
  apply authoritative_spec; [|done].
  unfold ambiguous_receipt; cbn [fst snd ar_billing_window_from ar_billing_window_until].
  unfold hours, US. lia.
Qed.

(** ** The split of an ambiguous charge *)

Lemma capped_cost_finite actual ceiling :
  is_finite actual = true -> is_finite ceiling = true -> is_finite (capped_cost actual ceiling) = true.
Proof. unfold capped_cost. by destruct (dlt ceiling actual). Qed.

(** The charge exceeds neither the ceiling nor the actual cost. *)
Lemma capped_cost_le actual ceiling :
  is_finite actual = true -> is_finite ceiling = true ->
  dle (capped_cost actual ceiling) ceiling = true /\ dle (capped_cost actual ceiling) actual = true.
Proof.
  destruct actual as [c1 e1| |], ceiling as [c2 e2| |]; try done. intros _ _. unfold capped_cost.
  set (u := Z.min e1 e2). destruct (dlt (Fin c2 e2) (Fin c1 e1)) eqn:Hlt.
  - apply (dlt_scale _ _ _ _ u) in Hlt; [|lia|lia]. split; apply (dle_scale _ _ _ _ u); lia.
  - assert (Hn : ~ (c2 * p10 (e2 - u) < c1 * p10 (e1 - u))).
    { intros Hx. apply (dlt_scale c2 e2 c1 e1 u) in Hx; [congruence|lia|lia]. }
    split; apply (dle_scale _ _ _ _ u); lia.
Qed.

Lemma units_negate m d : is_finite d = true -> units m (copy_negate d) = - units m d.
Proof. destruct d as [c e| |]; [|done|done]. intros _. unfold units. cbn. lia. Qed.

(** The charge and the loss are the actual cost, to the last digit. *)
Lemma charge_and_loss actual ceiling loss total :
  is_finite actual = true -> is_finite ceiling = true ->
  operator_loss actual (capped_cost actual ceiling) = Ok loss ->
  exact_decimal_sum DEFAULT_PREC [capped_cost actual ceiling; loss] = Ok total -> deq total actual.
Proof.
  intros Ha Hc Hl Ht. pose proof (capped_cost_finite _ _ Ha Hc) as Hcap.
  set (capped := capped_cost actual ceiling) in *. unfold operator_loss in Hl.
  destruct (exact_sum_units DEFAULT_PREC _ _ ltac:(done) Hl) as [Hlf Hlu].
  destruct (exact_sum_units DEFAULT_PREC _ _ ltac:(done) Ht) as [Htf Htu].
  set (m := Z.min 0 (Z.min (Z.min (dexponent actual) (dexponent capped)) (Z.min (dexponent loss) (dexponent total)))).
  assert (He : dexponent (copy_negate capped) = dexponent capped) by by destruct capped.
  apply (units_deq m); [done|done|lia|lia|].
  rewrite (Htu m) by (unfold sum_exponent; cbn; lia). cbn [sum_units fold_right].
  rewrite (Hlu m) by (unfold sum_exponent; cbn; rewrite ?He; lia). cbn [sum_units fold_right].
  rewrite units_negate by done. lia.
Qed.

(** The split of an actual cost at a ceiling: the charge, the loss and their sum. *)
Lemma charge_split actual ceiling loss :
  is_finite ceiling = true -> operator_loss actual (capped_cost actual ceiling) = Ok loss ->
  dle (capped_cost actual ceiling) ceiling = true /\ dle (capped_cost actual ceiling) actual = true /\
  exists total, exact_decimal_sum DEFAULT_PREC [capped_cost actual ceiling; loss] = Ok total /\ deq total actual.
Proof.
  intros Hc Hl. assert (Ha : is_finite actual = true).
  { unfold operator_loss in Hl. apply exact_sum_finite in Hl. cbn [forallb] in Hl. by split_bools. }
  destruct (capped_cost_le actual ceiling Ha Hc) as [Hle Hle']. split; [done|]. split; [done|].
  destruct (exact_decimal_sum_exact DEFAULT_PREC [capped_cost actual ceiling; loss]) as (c & e & Ht & _); [done| |].
  - cbn [forallb]. rewrite capped_cost_finite by done.
    by rewrite (proj1 (exact_sum_units DEFAULT_PREC _ _ ltac:(done) Hl)).
  - eexists. split; [exact Ht|]. exact (charge_and_loss actual ceiling loss _ Ha Hc Hl Ht).
Qed.

End Settlement.
