(* ===== verification/ServerlessSelection.v ===== *)
(** The catalog selection behind a Serverless quote, and the quote's binding to its own
    request. *)
From S2P Require Import Prelude PyStr Enums Errors PyDecimal PyTime Json PyFloat Billing.
From S2P Require Import Placement ContractsBase CodecBase ServerlessSpec ServerlessQuote ServerlessCatalog.
Import Placement.Placement.

#[local] Open Scope Z_scope.

(** ** The data center *)

Lemma match_le_total a b : match_le a b = true \/ match_le b a = true.
Proof.
  unfold match_le. destruct (Z.ltb_spec (snd b) (snd a)), (Z.ltb_spec (snd a) (snd b)); auto; try lia.
  apply str_le_total.
Qed.

Lemma match_le_trans a b c : match_le a b = true -> match_le b c = true -> match_le a c = true.
Proof.
  unfold match_le. intros Hab Hbc.
  destruct (Z.ltb_spec (snd b) (snd a)), (Z.ltb_spec (snd a) (snd b)), (Z.ltb_spec (snd c) (snd b)),
    (Z.ltb_spec (snd b) (snd c)), (Z.ltb_spec (snd c) (snd a)), (Z.ltb_spec (snd a) (snd c)); try done; try lia.
  by eapply str_le_trans.
Qed.

Lemma match_le_refl a : match_le a a = true.
Proof. by destruct (match_le_total a a). Qed.

(** The head of the sorted matches is one of them and precedes them all. *)
Lemma best_match_least b l :
  In (best_match b l) (b :: l) /\ Forall (fun m => match_le (best_match b l) m = true) (b :: l).
Proof.
  revert b. induction l as [|m l IH]; intros b; cbn [best_match].
  { split; [by left|]. by repeat constructor; apply match_le_refl. }
  destruct (match_le b m) eqn:Hbm.
  - destruct (IH b) as [Hi Hl]. apply Forall_cons_1 in Hl as [Hb Hl]. split.
    + destruct Hi as [Hi|Hi]; [by left|right; by right].
    + constructor; [done|]. constructor; [by eapply match_le_trans|done].
  - destruct (IH m) as [Hi Hl]. apply Forall_cons_1 in Hl as [Hm Hl]. split; [by right|].
    constructor; [|by constructor]. apply (match_le_trans _ m); [done|].
    destruct (match_le_total b m); congruence.
Qed.

(** The matches are the allowed data centers with enough stock. *)
Lemma data_center_matches_spec allowed minimum items l :
  data_center_matches allowed minimum items = Ok l ->
  forall id rank, In (id, rank) l <->
    id ∈ allowed /\ minimum <= rank /\
    exists item, In item items /\ get_field item "id" = JStr id /\ wire_rank (get_field item "availability") = Some rank.
Proof.
  revert l. induction items as [|item items IH]; intros l; cbn [data_center_matches].
  { intros [= <-] id rank. split; [done|]. by intros (_ & _ & ? & [] & _). }
  intros Hd id rank.
  assert (Hskip : (forall s, get_field item "id" = JStr s -> mem s allowed = false) ->
    data_center_matches allowed minimum items = Ok l ->
    In (id, rank) l <-> id ∈ allowed /\ minimum <= rank /\ exists item', In item' (item :: items) /\
      get_field item' "id" = JStr id /\ wire_rank (get_field item' "availability") = Some rank).
  { intros Hno Hl. rewrite (IH l Hl). split; intros (Ha & Hm & x & Hx & Hi & Hr); split_and!; try done.
    - exists x. split; [by right|done].
    - destruct Hx as [->|Hx]; [|by exists x]. specialize (Hno _ Hi). unfold mem in Hno.
      by apply bool_decide_eq_false_1 in Hno. }
  destruct (get_field item "id") as [| | | |s| |] eqn:Hid; try done; try (by apply Hskip).
  destruct (mem s allowed) eqn:Hmem; [|apply Hskip; [by intros ? [= <-]|done]].
  apply rbind_ok in Hd as (rk & Hrk & Hd). apply rbind_ok in Hd as (more & Hmore & [= <-]).
  apply of_option_ok in Hrk. apply bool_decide_eq_true_1 in Hmem. specialize (IH _ Hmore id rank).
  assert (Hhead : In (id, rank) (if minimum <=? rk then (s, rk) :: more else more) <->
    (minimum <= rk /\ id = s /\ rank = rk) \/ In (id, rank) more).
  { destruct (Z.leb_spec minimum rk); cbn [In]; [|naive_solver lia]. naive_solver. }
  rewrite Hhead, IH. split.
  - intros [(Hm & -> & ->)|(Ha & Hm & x & Hx & Hrest)].
    + split_and!; try done. exists item. split; [by left|done].
    + split_and!; try done. exists x. split; [by right|done].
  - intros (Ha & Hm & x & [<-|Hx] & Hi & Hr); [left|right]; [|by eauto 10].
    rewrite Hid in Hi. injection Hi as ->. split_and!; congruence.
Qed.

(** The chosen data center: allowed, stocked, and first by stock then name. *)
Record best_data_center (o : GPUOffer) (s : ServerlessEndpointSpec) (id : string) : Prop := {
  bd_allowed : id ∈ kc_allowed_data_center_ids (es_constraints s);
  bd_best : exists item rank, In item (go_data_centers o) /\ get_field item "id" = JStr id /\
    wire_rank (get_field item "availability") = Some rank /\
    availability_rank (kc_minimum_availability (es_constraints s)) <= rank /\
    forall other id' rank', In other (go_data_centers o) -> get_field other "id" = JStr id' ->
      id' ∈ kc_allowed_data_center_ids (es_constraints s) ->
      wire_rank (get_field other "availability") = Some rank' -> rank' <= rank
}.

Lemma select_data_center_best o s id : select_data_center o s = Ok id -> best_data_center o s id.
Proof.
  unfold select_data_center. intros Hs. apply rbind_ok in Hs as (l & Hl & Hs).
  pose proof (data_center_matches_spec _ _ _ _ Hl) as Hspec.
  destruct l as [|m l]; [done|]. injection Hs as <-.
  destruct (best_match_least m l) as [Hin Hleast]. destruct (best_match m l) as [id rank].
  cbn [fst]. apply Hspec in Hin as Hd. destruct Hd as (Ha & Hm & item & Hi & Hid & Hr). split; [done|].
  exists item, rank. split_and!; try done. intros other id' rank' Ho Hid' Ha' Hr'.
  destruct (Z.le_gt_cases (availability_rank (kc_minimum_availability (es_constraints s))) rank'); [|lia].
  assert (Hother : In (id', rank') (m :: l)) by (apply Hspec; split_and!; [done|done|by exists other]).
  rewrite List.Forall_forall in Hleast. specialize (Hleast _ Hother). unfold match_le in Hleast. cbn in Hleast.
  destruct (Z.ltb_spec rank' rank); [lia|]. by destruct (Z.ltb_spec rank rank'); [|lia].
Qed.

(** ** The offer *)

Lemma unique_member {A} (f : A -> bool) (l : list A) (a : A) :
  length (List.filter f l) = 1%nat -> In a l -> f a = true -> List.filter f l = [a].
Proof.
  intros Hl Ha Hf. assert (Hin : In a (List.filter f l)) by (apply List.filter_In; by split).
  destruct (List.filter f l) as [|x [|y r]]; try done. by destruct Hin as [->|[]].
Qed.

Section Digests.
Context `{Digest}.

(** What a selection is: a compatible offer, alone in its pool, at its own Serverless
    price, in its best data center. *)
Record selected (offers : list GPUOffer) (r : PlacementRequirements) (s : ServerlessEndpointSpec)
  (t : instant) (sel : CatalogSelection) : Prop := {
  se_offer : In (sl_offer sel) offers /\ is_compatible (sl_offer sel) r = true;
  se_pool : go_pool (sl_offer sel) = Some (sl_gpu_pool sel) /\
    forall o, In o offers -> go_pool o = Some (sl_gpu_pool sel) -> o = sl_offer sel;
  se_gpu : sl_gpu_id sel = go_id (sl_offer sel) /\ sl_vram_gb sel = go_memory_gb (sl_offer sel);
  se_price : go_serverless_price_per_hr (sl_offer sel) = Some (sl_hourly_worker_rate_usd sel);
  se_center : best_data_center (sl_offer sel) s (sl_data_center_id sel);
  se_time : sl_observed_at sel = t
}.

Lemma catalog_selected offers r s t sel :
  pr_product r = SERVERLESS -> catalog_selection offers r s t = Ok sel -> selected offers r s t sel.
Proof.
  intros Hp. unfold catalog_selection. intros Hc. apply rbind_ok in Hc as (placement & Hs & Hc).
  unfold select_gpu in Hs. apply rbind_ok in Hs as (cs & Hcs & Hs).
  destruct (candidates_incl _ _ _ Hcs) as [_ Hin].
  pose proof (sort_offers_perm r cs) as Hperm. destruct (sort_offers r cs) as [|o rest]; [done|].
  injection Hs as <-. destruct (Hin o) as (Ho & Hcomp & Huniq);
    [apply (Permutation_in _ Hperm); by left|]. specialize (Huniq Hp).
  cbn [decision pd_gpu_pool pd_availability] in Hc.
  destruct (go_pool o) as [pool|] eqn:Hpool; [|done]. destruct (go_availability o) as [av|] eqn:Hav; [|done].
  assert (Htruthy : truthy (Some pool) = true).
  { unfold is_compatible in Hcomp. rewrite Hp, Hpool in Hcomp. split_bools. by cbn. }
  assert (Hone : List.filter (fun x => bool_decide (go_pool x = Some pool)) offers = [o]).
  { rewrite <- (unique_member _ offers o Huniq Ho).
    - apply List.filter_ext_in. intros x _. destruct (decide (go_pool x = Some pool)) as [Hx|Hx].
      + by rewrite Hx, Htruthy.
      + by rewrite (bool_decide_false_eq _ Hx), andb_false_r.
    - by rewrite Hpool, Htruthy, bool_decide_true_eq. }
  rewrite Hone in Hc. apply rbind_ok in Hc as (dc & Hdc & Hc). apply rbind_ok in Hc as (dg & _ & [= <-]).
  split; cbn [sl_offer sl_gpu_pool sl_gpu_id sl_vram_gb sl_hourly_worker_rate_usd sl_data_center_id sl_observed_at
              decision pd_gpu_id pd_memory_gb pd_offered_cost_per_hr]; try done.
  - split; [done|]. intros x Hx Hxp.
    assert (Hin' : In x (List.filter (fun x => bool_decide (go_pool x = Some pool)) offers))
      by (apply List.filter_In; split; [done|by rewrite bool_decide_true_eq]).
    rewrite Hone in Hin'. by destruct Hin' as [->|[]].
  - destruct (compatible_price _ _ Hcomp) as (p & Hpf & -> & _). rewrite Hp in Hpf. cbn in Hpf.
    by apply of_option_ok in Hpf.
  - by apply select_data_center_best.
Qed.

(** The pool is one the constraints allow. *)
Lemma selected_pool_allowed offers c r s t sel :
  c = es_constraints s -> kc_allowed_gpu_pools c <> [] -> serverless_requirements c = Ok r ->
  selected offers r s t sel -> sl_gpu_pool sel ∈ kc_allowed_gpu_pools c.
Proof.
  intros -> Hne Hr [[_ Hcomp] [Hpool _] _ _ _ _]. unfold serverless_requirements in Hr. res_inv.
  unfold is_compatible in Hcomp. cbn [pr_allowed_gpu_pools] in Hcomp. split_bools.
  rewrite Hpool in *. rewrite (bool_decide_false_eq (kc_allowed_gpu_pools (es_constraints s) = [])) in * by done.
  match goal with E : false || mem _ _ = true |- _ => apply bool_decide_eq_true_1 in E; exact E end.
Qed.

(** ** A quote binds to its request *)

Lemma terms_bind_own id sel requirements s r a expires_at :
  serverless_requirements (es_constraints s) = Ok requirements ->
  sl_gpu_pool sel ∈ kc_allowed_gpu_pools (es_constraints s) ->
  sl_data_center_id sel ∈ kc_allowed_data_center_ids (es_constraints s) ->
  check_quote_terms (terms_of id sel requirements s r a expires_at) = Ok tt ->
  terms_bind r s (terms_of id sel requirements s r a expires_at) = true.
Proof.
  intros Hr Hp Hd Hc. unfold serverless_requirements in Hr. res_inv.
  unfold check_quote_terms, terms_of in Hc. cbv zeta in Hc. res_inv.
  unfold terms_bind, terms_of. cbn [qt_workload_kind qt_parameters_sha256 qt_gpu_count qt_cloud
    qt_min_cuda_version qt_gpu_pool qt_data_center_id qt_benchmark_id qt_estimated_queue_delay_seconds
    qt_estimated_worker_start_seconds qt_estimated_execution_seconds qt_idle_tail_seconds
    qt_maximum_queue_delay_seconds qt_maximum_worker_start_seconds qt_maximum_execution_seconds
    qt_job_execution_timeout_ms qt_job_ttl_ms qt_maximum_billable_seconds qt_estimated_non_worker_cost_usd
    qt_maximum_non_worker_cost_usd pr_gpu_count pr_cloud pr_min_cuda_version] in *.
  rewrite !bool_decide_true_eq, !Z.eqb_refl by done. cbn [andb].
  unfold nonnegative_decimal, positive_decimal in *. cbn [forallb] in *. split_bools.
  by rewrite !deqb_refl by (intros Hn; rewrite Hn in *; done).
Qed.

Lemma create_request_allowed s name pool dc create :
  create_request s name pool dc = Ok create ->
  pool ∈ kc_allowed_gpu_pools (es_constraints s) /\ dc ∈ kc_allowed_data_center_ids (es_constraints s).
Proof.
  unfold create_request. intros Hc. apply rbind_ok in Hc as ([] & _ & Hc).
  apply rbind_ok in Hc as ([] & Hp & Hc). apply rbind_ok in Hc as ([] & Hd & _).
  apply require_ok in Hp, Hd. split_bools. by split.
Qed.

(** The quote observed for a planned endpoint passes the binding check of every later
    operation on the same request. *)
Lemma planned_quote_binds request requirements sel q :
  serverless_requirements (es_constraints (pe_spec (kp_endpoint request))) = Ok requirements ->
  planned_quote_of request requirements sel = Ok q -> validate_planned_request_binding request q = Ok tt.
Proof.
  intros Hr Hq. unfold planned_quote_of in Hq. cbv zeta in Hq.
  apply rbind_ok in Hq as (digest & Hd & Hq). apply rbind_ok in Hq as (amounts & _ & Hq).
  unfold mk_planned_quote in Hq. apply rbind_ok in Hq as ([] & Hc & [= <-]).
  unfold check_planned_quote in Hc. cbv zeta in Hc. cbn [pq_terms] in Hc.
  do 4 apply rbind_ok in Hc as ([] & _ & Hc). apply rbind_ok in Hc as ([] & Hc & _).
  unfold validate_planned_request_binding, planned_identity_binds. cbv zeta.
  cbn [pq_plan_id pq_plan_sha256 pq_endpoint_name pq_endpoint_spec_sha256 pq_worker_reference
       pq_operation_digest pq_terms].
  rewrite !bool_decide_true_eq by done. cbn [andb require rbind].
  unfold terms_of at 1 2. cbn [qt_gpu_pool qt_data_center_id]. rewrite Hd. cbn [rbind].
  rewrite bool_decide_true_eq by done. cbn [require rbind]. apply require_true.
  unfold operation_digest in Hd. apply rbind_ok in Hd as (create & Hcreate & _).
  apply create_request_allowed in Hcreate as [Hp Hdc]. by apply terms_bind_own.
Qed.

(** A planned quote is valid and has the terms of its selection. *)
Lemma planned_quote_terms request requirements sel q :
  planned_quote_of request requirements sel = Ok q ->
  check_planned_quote q = Ok tt /\ exists id amounts,
    quote_amounts (kp_terms request) (pe_spec (kp_endpoint request)) (sl_hourly_worker_rate_usd sel) = Ok amounts /\
    pq_terms q = terms_of id sel requirements (pe_spec (kp_endpoint request)) (kp_terms request) amounts
      (sl_observed_at sel + seconds (xr_quote_ttl_seconds (kp_terms request))).
Proof.
  intros Hq. unfold planned_quote_of in Hq. cbv zeta in Hq.
  apply rbind_ok in Hq as (digest & _ & Hq). apply rbind_ok in Hq as (amounts & Ha & Hq).
  unfold mk_planned_quote in Hq. apply rbind_ok in Hq as ([] & Hc & [= <-]). split; [done|].
  eexists _, amounts. by split.
Qed.

Lemma serverless_product c r : serverless_requirements c = Ok r -> pr_product r = SERVERLESS.
Proof. unfold serverless_requirements. intros Hr. by res_inv. Qed.

(** So does the quote of a configured endpoint. *)
Lemma capacity_quote_binds request requirements sel q :
  serverless_requirements (es_constraints (ep_spec (kr_profile request))) = Ok requirements ->
  sl_gpu_pool sel ∈ kc_allowed_gpu_pools (es_constraints (ep_spec (kr_profile request))) ->
  sl_data_center_id sel ∈ kc_allowed_data_center_ids (es_constraints (ep_spec (kr_profile request))) ->
  capacity_quote_of request requirements sel = Ok q -> validate_request_binding request q = Ok tt.
Proof.
  intros Hr Hp Hd Hq. unfold capacity_quote_of in Hq. cbv zeta in Hq.
  apply rbind_ok in Hq as (amounts & _ & Hq).
  unfold mk_capacity_quote in Hq. apply rbind_ok in Hq as ([] & Hc & [= <-]).
  unfold check_capacity_quote in Hc. cbn [cq_terms] in Hc. do 2 apply rbind_ok in Hc as ([] & _ & Hc).
  unfold validate_request_binding. cbv zeta. cbn [cq_profile_id cq_endpoint_profile_sha256 cq_endpoint_id cq_terms].
  rewrite !bool_decide_true_eq by done. cbn [andb]. apply require_true. by apply terms_bind_own.
Qed.

End Digests.

(** ** The worker cost *)

(** Per-worker seconds cost what the same product of seconds and GPUs costs a Pod. *)
Lemma worker_cost_pod hourly gpus secs cost :
  serverless_worker_cost_usd hourly gpus secs = Ok cost ->
  pod_cost_usd DEFAULT_PREC hourly gpus secs = Ok cost.
Proof.
  unfold serverless_worker_cost_usd, pod_cost_usd. intros Hc.
  apply rbind_ok in Hc as ([] & Hh & Hc). apply rbind_ok in Hc as ([] & Hg & Hc).
  apply rbind_ok in Hc as ([] & Hs & Hc). apply require_ok in Hh, Hg, Hs. unfold positive_decimal in Hh.
  split_bools. destruct (is_finite hourly); [|done]. destruct (dle hourly dzero); [done|]. cbn [negb orb].
  by rewrite (proj2 (Z.ltb_ge gpus 0)), (proj2 (Z.ltb_ge secs 1)) by lia.
Qed.

(** The worker cost is the exact one rounded up to a millionth of a dollar. *)
Lemma worker_cost_exact c e gpus secs :
  0 < c -> 1 <= gpus -> 1 <= secs ->
  let m := Z.min e (-6) in
  c * gpus * secs * p10 (e - m) < p10 24 ->
  serverless_worker_cost_usd (Fin c e) gpus secs =
    Ok (Fin (cdiv (c * gpus * secs * p10 (e - m)) (3600 * p10 (-6 - m))) (-6)).
Proof.
  intros Hc Hg Hs m Hb. pose proof (pod_cost_ceiling c e gpus secs Hc ltac:(lia) Hs Hb) as Hp.
  unfold pod_cost_usd in Hp. unfold serverless_worker_cost_usd, positive_decimal.
  destruct (negb (is_finite (Fin c e)) || dle (Fin c e) dzero || (gpus <? 0) || (secs <? 1)) eqn:Hx; [done|].
  apply orb_false_iff in Hx as [Hx _]. apply orb_false_iff in Hx as [Hx _]. apply orb_false_iff in Hx as [_ Hx].
  rewrite Hx, (proj2 (Z.leb_le 1 gpus)), (proj2 (Z.leb_le 1 secs)) by lia. exact Hp.
Qed.

Lemma positive_fin c e : positive_decimal (Fin c e) = true -> 0 < c.
Proof.
  unfold positive_decimal. intros Hp. split_bools. destruct (Z.lt_ge_cases 0 c) as [|Hle]; [done|].
  assert (Hd : dle (Fin c e) dzero = true); [|congruence].
  apply (dle_scale _ _ _ _ (Z.min e 0)); [lia|lia|]. pose proof (p10_pos (e - Z.min e 0) ltac:(lia)). nia.
Qed.

(** What a valid quote says of its worker cost. *)
Lemma quote_worker_cost t :
  check_quote_terms t = Ok tt ->
  positive_decimal (qt_hourly_worker_rate_usd t) = true /\ 1 <= qt_gpu_count t /\
  exists maximum,
    serverless_worker_cost_usd (qt_hourly_worker_rate_usd t) (qt_gpu_count t) (qt_maximum_billable_seconds t) =
      Ok maximum /\ deqb (qt_maximum_worker_cost_usd t) maximum = true.
Proof.
  unfold check_quote_terms. intros Hc. res_inv. split_bools. cbn [forallb] in *. split_bools.
  split; [done|]. split; [done|]. by eexists.
Qed.
