(* ===== verification/ServerlessProperties.v ===== *)
(** One planned Serverless endpoint from quote to settlement, run through the model
    (Module [ServerlessScenario]): a concrete plan, catalog, endpoint payload and billing
    pages, and the host that answers with them. Then what the Serverless lane guarantees
    of an endpoint: its quote, its creation, its adoption, the authorization of a
    submission and its cleanup, whatever the host of the program answers; each with a run
    of the scenario as its witness. *)
From S2P Require Import Prelude PyStr Enums Errors PyDecimal PyTime Json PyFloat Billing PodBilling Placement ContractsBase CodecBase Prog ServerlessSpec ServerlessQuote ServerlessLifecycle ServerlessCosts ServerlessCatalog ServerlessHours ServerlessProvider Scenario ServerlessCustody ServerlessSelection.



Import Scenario.Scenario ServerlessProvider.

#[local] Open Scope Z_scope.

Module ServerlessScenario.

(** ** The plan *)

Definition pool : string := "ADA_24".
Definition center : string := "EU-RO-1".
Definition endpoint_name : string := "plan-0001-endpoint".
Definition endpoint_id : string := "ep-0001".

Definition pool_constraints : ServerlessCapacityConstraints := {|
  kc_min_vram_gb := 24; kc_gpu_count := 1; kc_cloud := SECURE; kc_min_cuda_version := Some "12";
  kc_allowed_gpu_pools := [pool]; kc_allowed_data_center_ids := [center; "EU-SE-1"];
  kc_max_hourly_worker_rate_usd := Some (Fin 2 0); kc_minimum_availability := AVAIL_LOW;
  kc_benchmark_id := "bench-1"
|}.

Definition endpoint_spec : ServerlessEndpointSpec := {|
  es_worker_reference := image; es_constraints := pool_constraints; es_workers_min := 0; es_workers_max := 1;
  es_idle_tail_seconds := 5; es_scaling_type := "QUEUE_DELAY"; es_scaling_value := Fin 4 0;
  es_execution_timeout_ms := 600000; es_flashboot := FLASHBOOT; es_disk_gb := 20; es_registry_id := None;
  es_network_volume_ids := []; es_resource_schema_version := RESOURCE_GA
|}.

Definition plan : PlannedServerlessEndpoint := {|
  pe_plan_id := "plan-0001"; pe_endpoint_name := endpoint_name; pe_spec := endpoint_spec
|}.

Definition terms : RequestTerms := {|
  xr_workload_kind := "image-generation"; xr_parameters_sha256 := sha256_hex "parameters";
  xr_estimated_queue_delay_seconds := Some 2; xr_estimated_worker_start_seconds := 20;
  xr_estimated_execution_seconds := 60; xr_maximum_queue_delay_seconds := 60;
  xr_maximum_worker_start_seconds := 120; xr_maximum_execution_seconds := 300;
  xr_maximum_billable_seconds := 425; xr_job_execution_timeout_ms := 300000; xr_job_ttl_ms := 600000;
  xr_estimated_non_worker_cost_usd := Fin 1 (-2); xr_maximum_non_worker_cost_usd := Fin 5 (-2);
  xr_quote_ttl_seconds := 60
|}.

Definition planned_request : PlannedServerlessCapacityQuoteRequest := {|
  kp_endpoint := plan; kp_terms := terms
|}.

(** ** The provider's payloads *)

Definition pool_offer : GPUOffer := {|
  go_id := "NVIDIA-RTX-4090"; go_name := "RTX 4090"; go_pool := Some pool; go_manufacturer := "NVIDIA";
  go_memory_gb := 24; go_secure := true; go_community := false; go_secure_price_per_hr := Fin 7 (-1);
  go_community_price_per_hr := Fin 5 (-1); go_secure_max_count := 8; go_community_max_count := 0;
  go_availability := Some AVAIL_HIGH;
  go_data_centers := [[("id", JStr "EU-SE-1"); ("availability", JStr "LOW")];
                      [("id", JStr center); ("availability", JStr "HIGH")]];
  go_availability_min_cuda_version := Some "12"; go_serverless_price_per_hr := Some (Fin 12 (-1))
|}.

Definition endpoint_payload : list (string * json) :=
  [("id", JStr endpoint_id); ("name", JStr endpoint_name); ("type", JStr "QUEUE"); ("image", JStr image);
   ("gpu", JObj [("pools", JList [JStr pool]); ("count", JInt 1); ("minCudaVersion", JStr "12.0");
                 ("allowedCudaVersions", JList [])]);
   ("workers", JObj [("min", JInt 0); ("max", JInt 1); ("idleTimeout", JInt 5)]);
   ("scaling", JObj [("type", JStr "QUEUE_DELAY"); ("queueDelay", JFloat (Fin 40 (-1)))]);
   ("disk", JInt 20); ("ports", JList []); ("env", JObj []); ("registry", JNull);
   ("dataCenterIds", JList [JStr center]); ("networkVolumes", JList []);
   ("mounts", JObj [("network", JList []); ("global", JList [])]);
   ("timeout", JInt 600000); ("flashboot", JStr "FLASHBOOT")].

Definition endpoint : EndpointResource := {|
  en_id := endpoint_id; en_name := endpoint_name; en_endpoint_type := Some "QUEUE"; en_raw := JObj endpoint_payload
|}.

Definition idle_workers : list (string * json) :=
  [("workers", JList []);
   ("summary", JObj (map (fun k => (k, JInt 0)) WORKER_SUMMARY_KEYS))].

(** A page of one closed hour. *)
Definition hour_page (from until : instant) : BillingPage :=
  let row := [("totalAmount", JFloat (Fin 13 (-2))); ("gpuAmount", JFloat (Fin 1 (-1))); ("cpuAmount", JInt 0);
              ("diskAmount", JFloat (Fin 2 (-2))); ("feeAmount", JFloat (Fin 1 (-2)))] in
  let interval := [("startTime", JStr (iso_datetime from)); ("endTime", JStr (iso_datetime until))] in
  {| PodBilling.bp_records := [(interval ++ [("serverlessId", JStr endpoint_id)] ++ row)%list];
     PodBilling.bp_metadata :=
       [("query", JObj (interval ++ [("bucketSize", JStr "hour"); ("serverlessId", JStr endpoint_id)])%list);
        ("recordCount", JInt 1); ("uniqueServerlessCount", JInt 1); ("totals", JObj row)] |}.

Definition finished_job : ServerlessJob := {|
  sj_id := "job-0001"; sj_status := "completed"; sj_delay_time_ms := Some 4000; sj_execution_time_ms := Some 30000
|}.

(** ** Hosts *)

(** The clock starts at [start] and moves a second with every call; the endpoint exists
    at the calls [present]; every page of billing is one hour. *)
Definition host_from (start : instant) (present : nat -> bool) : oracle provider_answer := fun n c =>
  match c with
  | ListGpus _ _ _ => Ok [pool_offer]
  | GetEndpoint _ => if present n then Ok endpoint else Exc (RunPodAPIError (Some 404))
  | ListEndpoints => Ok (if present n then [endpoint] else [])
  | CreateEndpoint _ => Ok endpoint
  | DeleteEndpoint _ => Ok tt
  | ListEndpointWorkers _ => Ok idle_workers
  | GetServerlessBilling s e _ _ => Ok (hour_page (default 0 (parse_aware s)) (default 0 (parse_aware e)))
  | JobStatus _ _ => Ok finished_job
  | PersistIntent i => Ok (Some i)
  | Now => Ok (start + seconds (Z.of_nat n))
  | Cancelled => Ok false
  end.

(** ** The run, step by step *)

(** The value a computation ends with. *)
Ltac computed r :=
  let v := eval vm_compute in r in
  lazymatch v with
  | Ok (Some ?a) => exact a
  | Ok ?a => exact a
  | ?e => fail "the program raises" e
  end.

(** The quote, before the endpoint exists. *)
Definition absent : nat -> bool := fun _ => false.
Definition present : nat -> bool := fun _ => true.

Definition quote_run : result PlannedServerlessCapacityQuote * list provider_event :=
  run (host_from T0 absent) 0 (@observe_planned_quote sample_digest planned_request).

Definition quote : PlannedServerlessCapacityQuote := ltac:(computed (fst quote_run)).

Definition ceiling : Decimal := qt_cost_ceiling_usd (pq_terms quote).

(** Activation: the inventory is read at the fourth call and the endpoint is created at
    the sixth. *)
Definition activation_host : oracle provider_answer :=
  host_from (T0 + seconds 10) (fun n => (6 <=? n)%nat).

Definition activation_run : result ServerlessEndpointActivationReceipt * list provider_event :=
  run activation_host 0 (@activate_planned_endpoint sample_digest planned_request quote ceiling None).

Definition activation : ServerlessEndpointActivationReceipt := ltac:(computed (fst activation_run)).

Definition window_sha256 : string := sha256_hex "window".

Definition authorization_host : oracle provider_answer := host_from (T0 + seconds 30) present.

Definition authorization_run : result ServerlessActivatedSubmission * list provider_event :=
  run authorization_host 0
    (@authorize_planned_submission sample_digest planned_request quote activation ceiling window_sha256).

Definition submission : ServerlessActivatedSubmission := ltac:(computed (fst authorization_run)).

(** Cleanup an hour later: the endpoint is gone after the delete call. *)
Definition cleanup_host : oracle provider_answer :=
  host_from (T0 + seconds 3600) (fun n => (n <=? 5)%nat).

Definition cleanup_run : result ServerlessEndpointCleanupReceipt * list provider_event :=
  run cleanup_host 0 (@cleanup_planned_endpoint sample_digest planned_request quote activation None None true).

Definition cleanup : ServerlessEndpointCleanupReceipt := ltac:(computed (fst cleanup_run)).

(** Settlement, long after every hour is closed. *)
Definition settings : Settings := {| st_has_job_client := true; st_billing_history_batch_hours := 1 |}.

Definition settlement_host : oracle provider_answer := host_from (T0 + 9 * seconds 3600) absent.

Definition hour_of (t : instant) : instant := t - t mod seconds 3600.

Definition attempt : ServerlessBillingAttempt := {|
  ba_attempt_id := "attempt-0001"; ba_job_id := "job-0001"; ba_endpoint_id := endpoint_id;
  ba_provider_quote_id := qt_provider_quote_id (pq_terms quote); ba_exclusive_window_sha256 := window_sha256;
  ba_exclusive_billing_hour_starts := [hour_of T0]; ba_submitted_at := T0 + seconds 40;
  ba_completed_at := T0 + seconds 80
|}.

Definition ambiguous_window : ServerlessAmbiguousBillingWindow := {|
  aw_attempt_id := "attempt-0001"; aw_endpoint_id := endpoint_id;
  aw_provider_quote_id := qt_provider_quote_id (pq_terms quote); aw_exclusive_window_sha256 := window_sha256;
  aw_exclusive_billing_hour_starts := [hour_of T0]; aw_attempted_at := T0 + seconds 40;
  aw_billable_coverage_until := worst_coverage (T0 + seconds 40) (pq_terms quote);
  aw_accepted_cost_ceiling_usd := ceiling
|}.

Definition retired_run :=
  run settlement_host 0 (@retired_endpoint_billing sample_digest settings planned_request quote activation cleanup).

Definition retired : ServerlessRetiredEndpointBillingReceipt := ltac:(computed (fst retired_run)).

Definition job_run :=
  run settlement_host 0 (@final_activated_billing sample_digest settings attempt quote activation submission).

Definition job_receipt : ServerlessBillingReceipt := ltac:(computed (fst job_run)).

Definition window_run :=
  run settlement_host 0
    (@final_activated_ambiguous_window_billing sample_digest ambiguous_window quote activation submission).

Definition window_receipt : ServerlessAmbiguousWindowBillingReceipt := ltac:(computed (fst window_run)).

(** The hour of the attempt, as one page of billing. *)
Definition first_hour : BillingPage := hour_page T0 (T0 + hours 1).

Definition first_hour_costs : list ServerlessEndpointHourCost := ltac:(
  computed (@authoritative_hour_costs sample_digest first_hour endpoint_id T0 (T0 + hours 1))).

(** What is done again changes nothing: the calls and the answers of a second activation,
    an adoption and a second cleanup. *)
Definition replayed_activation_run :=
  run authorization_host 0 (@activate_planned_endpoint sample_digest planned_request quote ceiling (Some activation)).

Definition adoption_run :=
  run authorization_host 0 (@adopt_planned_endpoint sample_digest planned_request quote).

Definition replayed_cleanup_run :=
  run settlement_host 0
    (@cleanup_planned_endpoint sample_digest planned_request quote activation (Some cleanup) None true).

End ServerlessScenario.

Import Scenario.Scenario ServerlessProvider ServerlessScenario.

#[local] Open Scope Z_scope.

Section Custody.
Context `{Digest}.

(** C16. Activation makes at most one create call and no delete call; it creates only
    without a receipt, and only after this very call found the quote fresh and bound to
    the request, observed a current quote without drift, saw the planned name free in the
    inventory and rebuilt the request with the quoted digest. *)
Theorem activation_creates_once request q ceiling prior h n r tr
  (Hrun : run h n (activate_planned_endpoint request q ceiling prior) = (r, tr)) :
  (length (calls_of is_create tr) <= 1)%nat /\ calls_of is_delete tr = [] /\
  forall pre create answer post, tr = (pre ++ Event (CreateEndpoint create) answer :: post)%list ->
    prior = None /\ create_ready request q ceiling pre create.
Proof.
  destruct (wp_run (wp_activate request q ceiling prior) Hrun) as [_ Hm]. split_and!.
  - apply first_of_kind. intros pre ev post Htr Hk. specialize (Hm pre ev post Htr).
    destruct ev as [[] ?]; try done. exact (cr_first _ _ _ _ _ (proj2 Hm)).
  - apply none_of_kind. intros pre ev post Htr. specialize (Hm pre ev post Htr). by destruct ev as [[] ?].
  - intros pre create answer post Htr. exact (Hm pre _ post Htr).
Qed.

(** A receipt of activation is valid, names the accepted quote, and stands for an
    endpoint that was read back as planned during the call; a new one comes from the
    answer of the create call, or, when that answer was ambiguous, from the only
    inventory entry of the planned name. *)
Theorem activation_receipt_has_evidence request q ceiling prior h n receipt tr
  (Hrun : run h n (activate_planned_endpoint request q ceiling prior) = (Ok receipt, tr)) :
  receipt_evidence request q receipt tr /\
  match prior with
  | Some p => receipt = p
  | None => check_activation receipt = Ok tt /\ activation_origin q receipt tr
  end.
Proof. by destruct (wp_run (wp_activate request q ceiling prior) Hrun) as [? _]. Qed.

(** Adoption changes nothing at the provider, and answers a receipt only for the one
    endpoint of the planned name, read back as planned. *)
Theorem adoption_is_read_only_and_unique request q h n r tr
  (Hrun : run h n (adopt_planned_endpoint request q) = (r, tr)) :
  calls_of is_create tr = [] /\ calls_of is_delete tr = [] /\
  forall receipt, r = Ok receipt ->
    receipt_evidence request q receipt tr /\ check_activation receipt = Ok tt /\
    exists l observed, answered ListEndpoints (Ok l) tr /\
      named (pq_endpoint_name q) l = [observed] /\ en_id observed = sa_endpoint_id receipt.
Proof.
  destruct (wp_run (wp_adopt request q) Hrun) as [Hpost Hm].
  split_and!; try (apply none_of_kind; intros pre ev post Htr; by destruct (Hm pre ev post Htr)).
  intros receipt ->. by destruct Hpost as (He & Hc & _ & Ho).
Qed.

(** An authorization changes nothing at the provider; the submission is valid, binds
    the exact quote, activation and exclusive window, and is authorized while the quote
    is fresh and the endpoint reads back as activated. *)
Theorem authorization_is_fresh_and_bound request q a ceiling window h n s tr
  (Hrun : run h n (authorize_planned_submission request q a ceiling window) = (Ok s, tr)) :
  calls_of is_create tr = [] /\ calls_of is_delete tr = [] /\
  check_submission s = Ok tt /\ validate_submission s q a = Ok tt /\
  ss_exclusive_window_sha256 s = window /\ assert_fresh (pq_terms q) (ss_authorized_at s) ceiling = Ok tt /\
  receipt_evidence request q a tr.
Proof.
  destruct (wp_run (wp_authorize request q a ceiling window) Hrun) as [Hpost Hm].
  split; [|split]; [| |exact Hpost];
    apply none_of_kind; intros pre ev post Htr; by destruct (Hm pre ev post Htr).
Qed.

(** C17. Cleanup makes at most one delete call and no create call; it deletes only the
    activated endpoint, without a receipt of an earlier cleanup, after reading it back as
    activated, seeing no worker in its inventory and, when the caller persists intents,
    after the exact intent was acknowledged. *)
Theorem cleanup_deletes_safely request q a prior_receipt prior_intent has_persist h n r tr
  (Hrun : run h n (cleanup_planned_endpoint request q a prior_receipt prior_intent has_persist) = (r, tr)) :
  (length (calls_of is_delete tr) <= 1)%nat /\ calls_of is_create tr = [] /\
  forall pre id answer post, tr = (pre ++ Event (DeleteEndpoint id) answer :: post)%list ->
    id = sa_endpoint_id a /\ prior_receipt = None /\ delete_ready request q a prior_intent has_persist pre.
Proof.
  destruct (wp_run (wp_cleanup_endpoint request q a prior_receipt prior_intent has_persist) Hrun)
    as [_ Hm]. split_and!.
  - apply first_of_kind. intros pre ev post Htr Hk. specialize (Hm pre ev post Htr).
    destruct ev as [[] ?]; try done. exact (dr_first _ _ _ _ _ _ (proj2 (proj2 Hm))).
  - apply none_of_kind. intros pre ev post Htr. specialize (Hm pre ev post Htr). by destruct ev as [[] ?].
  - intros pre id answer post Htr. exact (Hm pre _ post Htr).
Qed.

(** A cleanup receipt is answered only when the endpoint was seen to be gone after
    the delete call, by its own not-found and by an inventory without its identifier and
    name. A new receipt is valid, binds the activation and any prior intent, and its
    evidence basis says what the delete call answered; a replay answers the old receipt
    and deletes nothing. *)
Theorem cleanup_receipt_has_evidence request q a prior_receipt prior_intent has_persist h n receipt tr
  (Hrun : run h n (cleanup_planned_endpoint request q a prior_receipt prior_intent has_persist) =
          (Ok receipt, tr)) :
  absence_verified a tr /\
  match prior_receipt with
  | Some p => receipt = p /\ validate_cleanup_activation p a = Ok tt /\ calls_of is_delete tr = []
  | None => cleanup_evidence a prior_intent receipt tr
  end.
Proof.
  by destruct (wp_run (wp_cleanup_endpoint request q a prior_receipt prior_intent has_persist) Hrun)
    as [? _].
Qed.

End Custody.

(** ** The scenario *)

Lemma activation_creates_once_witness :
  fst activation_run = Ok activation /\ (length (calls_of is_create (snd activation_run)) <= 1)%nat.
Proof.
  split; [by vm_compute|].
  refine (proj1 (@activation_creates_once sample_digest planned_request quote ceiling None activation_host 0
    (fst activation_run) (snd activation_run) _)).
  by vm_compute.
Defined.

Lemma activation_receipt_has_evidence_witness :
  @receipt_evidence sample_digest planned_request quote activation (snd activation_run).
Proof.
  refine (proj1 (@activation_receipt_has_evidence sample_digest planned_request quote ceiling None
    activation_host 0 activation (snd activation_run) _)).
  by vm_compute.
Defined.

Lemma adoption_is_read_only_and_unique_witness :
  is_ok (fst adoption_run) = true /\ calls_of is_create (snd adoption_run) = [].
Proof.
  split; [by vm_compute|].
  refine (proj1 (@adoption_is_read_only_and_unique sample_digest planned_request quote authorization_host 0
    (fst adoption_run) (snd adoption_run) _)).
  by vm_compute.
Defined.

Lemma authorization_is_fresh_and_bound_witness :
  @validate_submission sample_digest submission quote activation = Ok tt.
Proof.
  refine (proj1 (proj2 (proj2 (proj2 (@authorization_is_fresh_and_bound sample_digest planned_request quote
    activation ceiling window_sha256 authorization_host 0 submission (snd authorization_run) _))))).
  by vm_compute.
Defined.

Lemma cleanup_deletes_safely_witness :
  calls_of is_delete (snd cleanup_run) <> [] /\ (length (calls_of is_delete (snd cleanup_run)) <= 1)%nat.
Proof.
  split; [by vm_compute|].
  refine (proj1 (@cleanup_deletes_safely sample_digest planned_request quote activation None None true
    cleanup_host 0 (fst cleanup_run) (snd cleanup_run) _)).
  by vm_compute.
Defined.

Lemma cleanup_receipt_has_evidence_witness :
  @cleanup_evidence sample_digest activation None cleanup (snd cleanup_run).
Proof.
  refine (proj2 (@cleanup_receipt_has_evidence sample_digest planned_request quote activation None None true
    cleanup_host 0 cleanup (snd cleanup_run) _)).
  by vm_compute.
Defined.
