(* ===== verification/SettlementProperties.v ===== *)
(** What the Serverless lane guarantees of money: the quote's bound on worker time, the
    closed hours behind every receipt, the receipts themselves and the split of an
    ambiguous charge, and that the stored contracts read back. *)
From S2P Require Import Prelude PyStr Enums Errors PyDecimal PyTime Json PyFloat Billing PodBilling.
From S2P Require Import Placement ContractsBase CodecBase Prog ServerlessSpec ServerlessQuote ServerlessLifecycle.
From S2P Require Import ServerlessCosts ServerlessStored ServerlessCatalog ServerlessHours.
From S2P Require Import ServerlessProvider ServerlessCustody ServerlessSettlement ServerlessSelection.
From S2P Require Import Scenario ServerlessProperties.
Import Billing.Billing Scenario.Scenario ServerlessProvider ServerlessScenario.

#[local] Open Scope Z_scope.

(** ** Quotes *)

Section Quotes.
Context `{Digest}.

(** A quote of a planned endpoint is answered from the catalog alone: it reads the
    offers and the clock and nothing else, is valid and bound to its request, and prices
    a compatible offer, alone in its pool, at the offer's own Serverless rate, in the
    best stocked of the allowed data centers, from that instant until its time to live
    is over. *)
Theorem planned_quote_is_current request h n q tr
  (Hrun : run h n (observe_planned_quote request) = (Ok q, tr)) :
  check_planned_quote q = Ok tt /\ validate_planned_request_binding request q = Ok tt /\
  exists requirements offers t sel,
    tr = [Event (ListGpus (pr_gpu_count requirements) (pr_cloud requirements) (pr_min_cuda_version requirements))
            (Ok offers);
          Event Now (Ok t)] /\
    selected offers requirements (pe_spec (kp_endpoint request)) t sel /\
    qt_gpu_pool (pq_terms q) = sl_gpu_pool sel /\ qt_data_center_id (pq_terms q) = sl_data_center_id sel /\
    qt_hourly_worker_rate_usd (pq_terms q) = sl_hourly_worker_rate_usd sel /\
    qt_catalog_observed_at (pq_terms q) = t /\
    qt_expires_at (pq_terms q) = t + seconds (xr_quote_ttl_seconds (kp_terms request)).
Proof.
  assert (Hw : wp (fun _ _ => True) (observe_planned_quote request) [] (fun r tr => r = Ok q ->
    exists requirements offers t sel,
      tr = [Event (ListGpus (pr_gpu_count requirements) (pr_cloud requirements) (pr_min_cuda_version requirements))
              (Ok offers); Event Now (Ok t)] /\
      serverless_requirements (es_constraints (pe_spec (kp_endpoint request))) = Ok requirements /\
      catalog_selection offers requirements (pe_spec (kp_endpoint request)) t = Ok sel /\
      planned_quote_of request requirements sel = Ok q)).
  { prog_exec; try done. intros Hq. by eauto 10. }
  destruct (wp_run Hw Hrun) as [Hq _]. cbn [app] in Hq.
  destruct (Hq eq_refl) as (requirements & offers & t & sel & -> & Hr & Hs & Hp).
  destruct (planned_quote_terms _ _ _ _ Hp) as (Hc & id & amounts & _ & Ht).
  apply catalog_selected in Hs as Hsel; [|by eapply serverless_product].
  split; [done|]. split; [by eapply planned_quote_binds|].
  exists requirements, offers, t, sel. rewrite Ht. unfold terms_of.
  cbn [qt_gpu_pool qt_data_center_id qt_hourly_worker_rate_usd qt_catalog_observed_at qt_expires_at].
  destruct Hsel as [? ? ? ? ? <-]. by split_and!.
Qed.

(** No job of the accepted maximum of billable seconds, or of fewer, costs more in
    worker time than the quote's maximum, at any rate the 28-digit arithmetic holds. *)
Theorem worker_time_within_quote t c e secs :
  check_quote_terms t = Ok tt -> qt_hourly_worker_rate_usd t = Fin c e ->
  c * qt_gpu_count t * qt_maximum_billable_seconds t * p10 (e - Z.min e (-6)) < p10 24 ->
  1 <= secs <= qt_maximum_billable_seconds t ->
  exists cost, serverless_worker_cost_usd (qt_hourly_worker_rate_usd t) (qt_gpu_count t) secs = Ok cost /\
    dle cost (qt_maximum_worker_cost_usd t) = true.
Proof.
  intros Hq Hr Hb Hs. destruct (quote_worker_cost t Hq) as (Hp & Hg & maximum & Hm & Hd).
  rewrite Hr in *. assert (Hc : 0 < c) by by apply positive_fin in Hp.
  set (m := Z.min e (-6)) in *. pose proof (p10_pos (e - m) ltac:(lia)) as Hpm.
  assert (Hle : c * qt_gpu_count t * secs * p10 (e - m) <=
                c * qt_gpu_count t * qt_maximum_billable_seconds t * p10 (e - m)).
  { apply Z.mul_le_mono_nonneg_r; [lia|]. apply Z.mul_le_mono_nonneg_l; nia. }
  rewrite (worker_cost_exact c e) in Hm by (fold m; lia). injection Hm as <-.
  rewrite (worker_cost_exact c e) by (fold m; lia). eexists. split; [done|].
  eapply dle_deq_r; [|exact Hd]. apply (dle_scale _ _ _ _ (-6)); [lia|lia|]. fold m.
  apply Z.mul_le_mono_nonneg_r; [pose proof (p10_pos (-6 - -6) ltac:(lia)); lia|].
  pose proof (p10_pos (-6 - m) ltac:(lia)). apply cdiv_le; lia.
Qed.

End Quotes.

(** ** Closed hours *)

Section Settlement.
Context `{Digest}.

(** The hours of an interval are every whole UTC hour it touches and no other, in
    order, without a gap; the loop that lists them ends. *)
Theorem hour_starts_are_the_touched_hours started until l
  (Hl : serverless_billing_hour_starts started until = Ok l) :
  exists first, l = hours_from first (length l) /\ (0 < length l)%nat /\
    forall x, x mod hours 1 = 0 -> (x ∈ l <-> x < until /\ started < x + hours 1).
Proof.
  rewrite hour_starts_spec in Hl. apply rbind_ok in Hl as ([f u] & Hb & Hl).
  apply rbind_ok in Hl as ([] & _ & [= <-]). destruct (bounds_hours _ _ _ _ Hb) as (n & Hu & <- & Hn).
  exists f. rewrite hours_from_length. split_and!; [done|lia|]. intros x Hx.
  rewrite hours_from_elem, <- (touched_hours _ _ _ _ _ Hb Hx).
  destruct (hour_bounds_cover _ _ _ _ Hb) as (Hf & _). split; [intros (i & Hi & ->); unfold hours, US in *; lia|].
  intros [Hfx Hxu]. pose proof (whole_hours f x Hf Hx Hfx) as Hi. eexists. split; [|exact Hi].
  unfold hours, US in *. lia.
Qed.

(** An answered list of hour costs accounts for the whole window: one valid cost per
    hour, in order, for the one endpoint, each from a record of the page, whose totals
    are the page's. *)
Theorem hour_costs_only_from_complete_page page endpoint window_from window_until costs
  (Hle : window_from <= window_until)
  (Hcosts : authoritative_hour_costs page endpoint window_from window_until = Ok (Some costs)) :
  authoritative page endpoint window_from window_until costs /\
  window_until = window_from + Z.of_nat (length costs) * hours 1.
Proof.
  pose proof (authoritative_spec _ _ _ _ _ Hle Hcosts) as Ha. split; [done|].
  destruct Ha as [Ht Hv _ _]. by eapply cost_tiles_le.
Qed.

(** The history of an endpoint is read without changing anything, and an answered
    list tiles the closed hours around its life, hour by hour, from pages of the
    provider, read after the last of these hours ended. *)
Theorem history_covers_the_lifecycle endpoint created absent batch h n r tr
  (Hrun : run h n (read_exact_serverless_billing endpoint created absent batch) = (r, tr)) :
  calls_of is_create tr = [] /\ calls_of is_delete tr = [] /\
  forall costs, r = Ok (Some costs) ->
    exists f u at_, billing_hour_bounds created absent = Ok (f, u) /\
      answered Now (Ok at_) tr /\ u <= at_ /\ covered endpoint tr f costs u /\
      cost_tiles endpoint f costs u /\ Forall (fun c => check_hour_cost c = Ok tt) costs.
Proof.
  destruct (wp_run (wp_read_exact endpoint created absent batch []) Hrun) as [[_ Hh] Hm].
  split_and!; try (apply none_of_kind; intros pre ev post Htr; specialize (Hm pre ev post Htr);
    by destruct ev as [[] ?]).
  intros costs Hr. destruct (Hh costs Hr) as (f & u & t & Hb & Ht & Hu & Hc).
  exists f, u, t. destruct (covered_tiles _ _ _ _ _ Hc). by split_and!.
Qed.

(** The history of an endpoint is read to its end: once the clock is past the closed
    hours of its life, a provider with a complete page for every batch of hours is
    answered a list of costs, whatever the batch size; the loop's fuel, the number of
    hours, is enough, and more of it changes no execution. *)
Theorem complete_history_is_answered (h : oracle provider_answer) n endpoint created absent batch f u t
  (Hid : serverless_identifier endpoint = true) (Hbatch : 1 <= batch)
  (Hwindow : billing_hour_bounds created absent = Ok (f, u)) (Hnow : h n Now = Ok t) (Hpast : u <= t)
  (Hcancel : forall k, h k Cancelled <> Ok true) (Hpages : complete_pages h endpoint batch f u) :
  (exists costs, fst (run h n (read_exact_serverless_billing endpoint created absent batch)) = Ok (Some costs)) /\
  forall fuel, (Z.to_nat ((u - f) / hours 1) <= fuel)%nat ->
    prog_equiv (read_batches fuel endpoint batch f u)
      (read_batches (Z.to_nat ((u - f) / hours 1)) endpoint batch f u).
Proof.
  split; [by eapply read_exact_complete|]. intros fuel Hf.
  destruct (bounds_hours _ _ _ _ Hwindow) as (m & Hm & Hmf & _).
  apply (read_batches_fuel endpoint batch m Hbatch fuel); [done|lia|lia].
Qed.

(** The receipt of a retired endpoint is valid, binds its activation and its cleanup,
    and its hour costs are the provider's, for every hour from the create call to the
    verified absence. *)
Theorem retired_receipt_covers_the_life st request q a cleanup h n receipt tr
  (Hrun : run h n (retired_endpoint_billing st request q a cleanup) = (Ok (Some receipt), tr)) :
  calls_of is_create tr = [] /\ calls_of is_delete tr = [] /\
  check_retired receipt = Ok tt /\ rt_activation receipt = a /\ rt_cleanup receipt = cleanup /\
  validate_cleanup_activation cleanup a = Ok tt /\
  exists f u at_,
    billing_hour_bounds (sa_create_started_at a) (cr_verified_absent_at cleanup) = Ok (f, u) /\
    answered Now (Ok at_) tr /\ u <= at_ /\
    covered (sa_endpoint_id a) tr f (rt_endpoint_hour_costs receipt) u.
Proof.
  destruct (wp_run (wp_retired st request q a cleanup) Hrun) as [Hpost Hm].
  split; [|split]; try (apply none_of_kind; intros pre ev post Htr; specialize (Hm pre ev post Htr);
    by destruct ev as [[] ?]).
  destruct (Hpost receipt eq_refl) as (Hc & Ha & Hcl & Hv & Hh). split_and!; try done. by apply Hh.
Qed.

(** C18. The receipt of a job on an activated endpoint is valid and names the attempt's
    job; the submission authorized the attempt, the provider reported that job terminal
    and within the accepted times, and the amounts are the exact totals of the closed
    hours the provider billed for its exclusive window, read after it ended. *)
Theorem job_receipt_has_evidence st attempt q a s h n receipt tr
  (Hattempt : check_billing_attempt attempt = Ok tt)
  (Hrun : run h n (final_activated_billing st attempt q a s) = (Ok (Some receipt), tr)) :
  calls_of is_create tr = [] /\ calls_of is_delete tr = [] /\
  validate_activated_attempt attempt q a s = Ok tt /\
  job_post attempt (pq_terms q) (pq_endpoint_spec_sha256 q) (Ok (Some receipt)) tr.
Proof.
  assert (Hw : wp settlement_monitor (final_activated_billing st attempt q a s) []
    (fun r tr => forall x, r = Ok (Some x) -> validate_activated_attempt attempt q a s = Ok tt /\
       job_post attempt (pq_terms q) (pq_endpoint_spec_sha256 q) r tr)).
  { apply wp_bind, wp_done; [intros [] Hv|done].
    eapply wp_mono; [by apply wp_final_billing|]. by split. }
  destruct (wp_run Hw Hrun) as [Hpost Hm]. destruct (Hpost receipt eq_refl) as [Hv Hj].
  split_and!; try done; apply none_of_kind; intros pre ev post Htr; specialize (Hm pre ev post Htr);
    by destruct ev as [[] ?].
Qed.

(** C19. An ambiguous submission settles to the closed hours of its worst-case window:
    the charge is the lesser of the actual cost and the accepted ceiling, and the charge
    and the operator's loss add up to the actual cost exactly. *)
Theorem ambiguous_window_settles_exactly w q a s h n receipt tr
  (Hwindow : check_ambiguous_window w = Ok tt)
  (Hrun : run h n (final_activated_ambiguous_window_billing w q a s) = (Ok (Some receipt), tr)) :
  validate_window_submission w q a s = Ok tt /\
  window_post w (pq_endpoint_spec_sha256 q) (Ok (Some receipt)) tr /\
  dle (ar_capped_cost_usd receipt) (aw_accepted_cost_ceiling_usd w) = true /\
  dle (ar_capped_cost_usd receipt) (ca_actual_cost_usd (ar_amounts receipt)) = true /\
  exists total, exact_decimal_sum DEFAULT_PREC [ar_capped_cost_usd receipt; ar_operator_loss_usd receipt] = Ok total /\
    deq total (ca_actual_cost_usd (ar_amounts receipt)).
Proof.
  assert (Hw : wp settlement_monitor (final_activated_ambiguous_window_billing w q a s) []
    (fun r tr => forall x, r = Ok (Some x) -> validate_window_submission w q a s = Ok tt /\
       window_post w (pq_endpoint_spec_sha256 q) r tr)).
  { apply wp_bind, wp_done; [intros [] Hv|done].
    eapply wp_mono; [by apply wp_final_window|]. by split. }
  destruct (wp_run Hw Hrun) as [Hpost _]. destruct (Hpost receipt eq_refl) as [Hv Hp].
  split; [done|]. split; [done|].
  destruct (Hp receipt eq_refl) as (_ & _ & _ & _ & _ & _ & Hcap & Hloss). rewrite Hcap in *.
  apply charge_split; [|done]. unfold check_ambiguous_window, positive_decimal in Hwindow. res_inv.
  by split_bools.
Qed.

End Settlement.

(** ** Stored contracts *)

(** C20. Every stored Serverless contract reads back as itself, field by field. *)
Theorem serverless_contracts_read_back `{Digest} :
  (forall s, storable_endpoint_spec s -> endpoint_spec_from_dict (endpoint_spec_dict s) = Ok s) /\
  (forall q, storable_planned_quote q -> planned_quote_from_dict (planned_quote_dict q) = Ok q) /\
  (forall q, storable_capacity_quote q -> capacity_quote_from_dict (capacity_quote_dict q) = Ok q) /\
  (forall r, storable_activation r -> activation_from_dict (activation_dict r) = Ok r) /\
  (forall i, storable_cleanup_intent i -> cleanup_intent_from_dict (cleanup_intent_dict i) = Ok i) /\
  (forall r, storable_cleanup r -> cleanup_from_dict (cleanup_dict r) = Ok r) /\
  (forall s, storable_submission s -> submission_from_dict (submission_dict s) = Ok s) /\
  (forall r, storable_serverless_receipt r -> serverless_receipt_from_dict (serverless_receipt_dict r) = Ok r) /\
  (forall w, storable_window w -> ambiguous_window_from_dict (ambiguous_window_dict w) = Ok w) /\
  (forall r, storable_ambiguous r -> ambiguous_receipt_from_dict (ambiguous_receipt_dict r) = Ok r) /\
  (forall r d, storable_retired r -> retired_dict r = Ok d -> retired_from_dict d = Ok r).
Proof.
  split_and!; intros; by first
    [ apply endpoint_spec_decode | apply planned_quote_decode | apply capacity_quote_decode
    | apply activation_decode | apply cleanup_intent_decode | apply cleanup_decode | apply submission_decode
    | apply serverless_receipt_decode | apply ambiguous_window_decode | apply ambiguous_receipt_decode
    | eapply retired_decode ].
Qed.

(** ** A whole life *)

(** A planned endpoint, executed step by step through the modelled code: quoted,
    created once, activated again and adopted to the same endpoint without a change,
    authorized, deleted once, cleaned up again without a change, and settled to receipts
    of its life, of its job and of an ambiguous submission. *)
Theorem endpoint_lifecycle_settles :
  fst quote_run = Ok quote /\
  fst activation_run = Ok activation /\ length (calls_of is_create (snd activation_run)) = 1%nat /\
  fst replayed_activation_run = Ok activation /\ calls_of is_create (snd replayed_activation_run) = [] /\
  match fst adoption_run with Ok r => sa_endpoint_id r = sa_endpoint_id activation | Exc _ => False end /\
  fst authorization_run = Ok submission /\
  fst cleanup_run = Ok cleanup /\ length (calls_of is_delete (snd cleanup_run)) = 1%nat /\
  fst replayed_cleanup_run = Ok cleanup /\ calls_of is_delete (snd replayed_cleanup_run) = [] /\
  fst retired_run = Ok (Some retired) /\ fst job_run = Ok (Some job_receipt) /\
  fst window_run = Ok (Some window_receipt).
Proof. vm_compute. split_and!; reflexivity. Qed.

(** ** The scenario *)

Lemma planned_quote_is_current_witness :
  @validate_planned_request_binding sample_digest planned_request quote = Ok tt.
Proof.
  refine (proj1 (proj2 (@planned_quote_is_current sample_digest planned_request (host_from T0 absent) 0 quote
    (snd quote_run) _))).
  by vm_compute.
Defined.

Lemma worker_time_within_quote_witness :
  exists cost, serverless_worker_cost_usd (Fin 12 (-1)) 1 60 = Ok cost /\
    dle cost (qt_maximum_worker_cost_usd (pq_terms quote)) = true.
Proof. apply (@worker_time_within_quote (pq_terms quote) 12 (-1) 60); vm_compute; by split_and?. Defined.

Lemma hour_starts_are_the_touched_hours_witness :
  exists first, [T0; T0 + hours 1] = hours_from first 2.
Proof.
  destruct (hour_starts_are_the_touched_hours (T0 + 1) (T0 + hours 1 + 1) [T0; T0 + hours 1])
    as (first & Hl & _); [by vm_compute|]. by exists first.
Defined.

Lemma hour_costs_only_from_complete_page_witness :
  T0 + hours 1 = T0 + Z.of_nat (length first_hour_costs) * hours 1.
Proof.
  refine (proj2 (@hour_costs_only_from_complete_page sample_digest first_hour endpoint_id T0 (T0 + hours 1)
    first_hour_costs _ _)); by vm_compute.
Defined.

Definition history_run :=
  run settlement_host 0 (@read_exact_serverless_billing sample_digest endpoint_id T0 (T0 + 1) 1).

Lemma history_covers_the_lifecycle_witness :
  is_ok (fst history_run) = true /\ calls_of is_delete (snd history_run) = [].
Proof.
  split; [by vm_compute|].
  refine (proj1 (proj2 (@history_covers_the_lifecycle sample_digest endpoint_id T0 (T0 + 1) 1 settlement_host 0
    (fst history_run) (snd history_run) _))).
  by vm_compute.
Defined.

Lemma complete_history_is_answered_witness :
  exists costs, fst (run settlement_host 0
    (@read_exact_serverless_billing sample_digest endpoint_id T0 (T0 + 1) 1)) = Ok (Some costs).
Proof.
  refine (proj1 (@complete_history_is_answered sample_digest settlement_host 0 endpoint_id T0 (T0 + 1) 1 T0
    (T0 + hours 1) (T0 + 9 * seconds 3600) _ _ _ _ _ _ _)); [by vm_compute..|done|].
  intros k t j Hj Hb Ht Hu Hm. assert (j = 1%nat) as -> by lia.
  assert (t = T0) as -> by (unfold hours, US in *; lia).
  exists first_hour, first_hour_costs. by vm_compute.
Defined.

Lemma retired_receipt_covers_the_life_witness :
  check_retired retired = Ok tt.
Proof.
  refine (proj1 (proj2 (proj2 (@retired_receipt_covers_the_life sample_digest settings planned_request quote
    activation cleanup settlement_host 0 retired (snd retired_run) _)))).
  by vm_compute.
Defined.

Lemma job_receipt_has_evidence_witness :
  @validate_activated_attempt sample_digest attempt quote activation submission = Ok tt.
Proof.
  refine (proj1 (proj2 (proj2 (@job_receipt_has_evidence sample_digest settings attempt quote activation
    submission settlement_host 0 job_receipt (snd job_run) _ _)))); by vm_compute.
Defined.

Lemma ambiguous_window_settles_exactly_witness :
  @validate_window_submission sample_digest ambiguous_window quote activation submission = Ok tt.
Proof.
  refine (proj1 (@ambiguous_window_settles_exactly sample_digest ambiguous_window quote activation submission
    settlement_host 0 window_receipt (snd window_run) _ _)); by vm_compute.
Defined.

Lemma serverless_contracts_read_back_witness :
  @activation_from_dict sample_digest (activation_dict activation) = Ok activation.
Proof.
  refine (proj1 (proj2 (proj2 (proj2 (@serverless_contracts_read_back sample_digest)))) activation _).
  split; by vm_compute.
Defined.

(** ** The truncated interval *)

(** A job that filled its attempt to the millisecond: 1001 ms of work in 1.001 s. *)
Definition full_attempt : ServerlessBillingAttempt := {|
  ba_attempt_id := ba_attempt_id attempt; ba_job_id := ba_job_id attempt; ba_endpoint_id := ba_endpoint_id attempt;
  ba_provider_quote_id := ba_provider_quote_id attempt;
  ba_exclusive_window_sha256 := ba_exclusive_window_sha256 attempt;
  ba_exclusive_billing_hour_starts := ba_exclusive_billing_hour_starts attempt;
  ba_submitted_at := T0 + seconds 40; ba_completed_at := T0 + seconds 40 + 1001000
|}.

Definition full_job : ServerlessJob := {|
  sj_id := "job-0001"; sj_status := "COMPLETED"; sj_delay_time_ms := Some 1; sj_execution_time_ms := Some 1000
|}.

Definition full_job_host : oracle provider_answer := fun n c =>
  match c with JobStatus _ _ => Ok full_job | c => settlement_host n c end.

(** The float product of the interval's seconds by 1000 truncates to 1000 ms: the job is
    terminal, within its attempt and within the quote, and its billing raises a
    [ValueError], whatever the account says. *)
Lemma full_attempt_is_refused :
  elapsed_ms (ba_submitted_at full_attempt) (ba_completed_at full_attempt) = 1000 /\
  @validate_activated_attempt sample_digest full_attempt quote activation submission = Ok tt /\
  validate_terminal_job full_job full_attempt = Ok tt /\
  fst (run full_job_host 0
    (@final_activated_billing sample_digest settings full_attempt quote activation submission)) = Exc ValueError.
Proof. vm_compute. split_and!; reflexivity. Qed.
