(* ===== verification/OllamaContracts.v ===== *)
(** Contracts and cost policy of private-Ollama leases ([ollama_contracts.py]): the
    enumerations, the non-compute cost policy, constraints and request with their
    validation, the placement plan and its checks, and the choice among plans. *)
From S2P Require Import Prelude PyStr Enums Errors PyDecimal PyFloat PyTime Json ContractsBase CodecBase Placement.
From Stdlib Require Import Ascii.

#[local] Open Scope Z_scope.

(** ** Enumerations *)

Inductive OllamaLeaseMode := AUTO | SERVERLESS_LOAD_BALANCER | DEDICATED_POD.
Inductive OllamaResourceType := RES_SERVERLESS_ENDPOINT | RES_POD.

Inductive OllamaLeaseState :=
  | O_REQUESTED | O_PROVISIONING | O_RECONCILE_REQUIRED | O_WAITING_FOR_MODEL
  | O_READY | O_RELEASING | O_TERMINATED | O_FAILED.

Inductive OllamaTeardownState :=
  | TEARDOWN_NOT_REQUESTED | TEARDOWN_PENDING | TEARDOWN_RETRYABLE_FAILURE | TEARDOWN_COMPLETE.

Inductive OllamaNonComputeCostComponent :=
  | CONTAINER_DISK | NETWORK_VOLUME | MODEL_TRANSFER | RETRY_ALLOWANCE.

#[export] Instance OllamaLeaseMode_dec : EqDecision OllamaLeaseMode.
Proof. solve_decision. Defined.
#[export] Instance OllamaResourceType_dec : EqDecision OllamaResourceType.
Proof. solve_decision. Defined.
#[export] Instance OllamaLeaseState_dec : EqDecision OllamaLeaseState.
Proof. solve_decision. Defined.
#[export] Instance OllamaTeardownState_dec : EqDecision OllamaTeardownState.
Proof. solve_decision. Defined.
#[export] Instance OllamaNonComputeCostComponent_dec : EqDecision OllamaNonComputeCostComponent.
Proof. solve_decision. Defined.

Definition mode_value (m : OllamaLeaseMode) : string :=
  match m with
  | AUTO => "auto"
  | SERVERLESS_LOAD_BALANCER => "serverless_load_balancer"
  | DEDICATED_POD => "dedicated_pod"
  end.

Definition resource_type_value (t : OllamaResourceType) : string :=
  match t with RES_SERVERLESS_ENDPOINT => "serverless_endpoint" | RES_POD => "pod" end.

Definition lease_state_value (s : OllamaLeaseState) : string :=
  match s with
  | O_REQUESTED => "requested" | O_PROVISIONING => "provisioning"
  | O_RECONCILE_REQUIRED => "reconcile_required" | O_WAITING_FOR_MODEL => "waiting_for_model"
  | O_READY => "ready" | O_RELEASING => "releasing" | O_TERMINATED => "terminated"
  | O_FAILED => "failed"
  end.

Definition teardown_value (s : OllamaTeardownState) : string :=
  match s with
  | TEARDOWN_NOT_REQUESTED => "not_requested" | TEARDOWN_PENDING => "pending"
  | TEARDOWN_RETRYABLE_FAILURE => "retryable_failure" | TEARDOWN_COMPLETE => "complete"
  end.

Definition component_value (c : OllamaNonComputeCostComponent) : string :=
  match c with
  | CONTAINER_DISK => "container_disk" | NETWORK_VOLUME => "network_volume"
  | MODEL_TRANSFER => "model_transfer" | RETRY_ALLOWANCE => "retry_allowance"
  end.

#[export] Instance OllamaLeaseMode_enum : PyEnum OllamaLeaseMode.
Proof. enum_instance [AUTO; SERVERLESS_LOAD_BALANCER; DEDICATED_POD] mode_value. Defined.
#[export] Instance OllamaResourceType_enum : PyEnum OllamaResourceType.
Proof. enum_instance [RES_SERVERLESS_ENDPOINT; RES_POD] resource_type_value. Defined.
#[export] Instance OllamaLeaseState_enum : PyEnum OllamaLeaseState.
Proof.
  enum_instance [O_REQUESTED; O_PROVISIONING; O_RECONCILE_REQUIRED; O_WAITING_FOR_MODEL;
                 O_READY; O_RELEASING; O_TERMINATED; O_FAILED] lease_state_value.
Defined.
#[export] Instance OllamaTeardownState_enum : PyEnum OllamaTeardownState.
Proof.
  enum_instance [TEARDOWN_NOT_REQUESTED; TEARDOWN_PENDING; TEARDOWN_RETRYABLE_FAILURE;
                 TEARDOWN_COMPLETE] teardown_value.
Defined.
#[export] Instance OllamaNonComputeCostComponent_enum : PyEnum OllamaNonComputeCostComponent.
Proof.
  enum_instance [CONTAINER_DISK; NETWORK_VOLUME; MODEL_TRANSFER; RETRY_ALLOWANCE] component_value.
Defined.

(** ** Non-compute cost policy *)

Record OllamaNonComputeCostPolicy := {
  cp_estimated_cost_usd : number;
  cp_maximum_cost_usd : number;
  cp_covered_components : list OllamaNonComputeCostComponent
}.

(** [tuple(sorted(components, key=value)) == components]. *)
Fixpoint components_sorted (l : list OllamaNonComputeCostComponent) : bool :=
  match l with
  | a :: (b :: _) as r =>
      str_le (chars (component_value a)) (chars (component_value b)) && components_sorted r
  | _ => true
  end.

(** [OllamaNonComputeCostPolicy.__post_init__]. *)
Definition check_policy (p : OllamaNonComputeCostPolicy) : result unit :=
  run! require (num_nonnegative (cp_estimated_cost_usd p)) ValueError then
  run! require (num_nonnegative (cp_maximum_cost_usd p)) ValueError then
  run! require (dle (num_decimal (cp_estimated_cost_usd p)) (num_decimal (cp_maximum_cost_usd p)))
    ValueError then
  run! require
    (negb (bool_decide (cp_covered_components p = [])) && bool_decide (NoDup (cp_covered_components p)))
    ValueError then
  require (components_sorted (cp_covered_components p)) ValueError.

(** ** Placement constraints *)

Record OllamaResourceConstraints := {
  rc_min_vram_gb : Z;
  rc_gpu_count : Z;
  rc_cloud : CloudType;
  rc_min_cuda_version : option string;
  rc_allowed_gpu_ids : list string;
  rc_allowed_gpu_pools : list string;
  rc_allowed_data_center_ids : list string;
  rc_max_hourly_rate : option number
}.

#[export] Instance OllamaResourceConstraints_dec : EqDecision OllamaResourceConstraints.
Proof. solve_decision. Defined.

(** [OllamaResourceConstraints.__post_init__]. *)
Definition check_constraints (c : OllamaResourceConstraints) : result unit :=
  run! require ((1 <=? rc_min_vram_gb c) && (1 <=? rc_gpu_count c)) ValueError then
  require (match rc_max_hourly_rate c with Some r => num_positive r | None => true end) ValueError.

(** [requirements(product)]; the constructor validates what it is given. *)
Definition constraint_requirements (c : OllamaResourceConstraints) (product : ComputeProduct)
  : result PlacementRequirements :=
  let r := {|
    pr_product := product;
    pr_min_vram_gb := rc_min_vram_gb c;
    pr_gpu_count := rc_gpu_count c;
    pr_cloud := rc_cloud c;
    pr_min_cuda_version := rc_min_cuda_version c;
    pr_max_cost_per_hr := num_decimal <$> rc_max_hourly_rate c;
    pr_allowed_gpu_ids := rc_allowed_gpu_ids c;
    pr_allowed_gpu_pools := rc_allowed_gpu_pools c;
    pr_allowed_data_center_ids := rc_allowed_data_center_ids c;
    pr_minimum_availability := AVAIL_LOW;
    pr_benchmark_id := Some "ollama-interactive"
  |} in
  run! check_requirements r then Ok r.

(** [asdict(constraints)] with the cloud's value. *)
Definition constraints_dict (c : OllamaResourceConstraints) : list (string * json) :=
  [("min_vram_gb", JInt (rc_min_vram_gb c));
   ("gpu_count", JInt (rc_gpu_count c));
   ("cloud", JStr (cloud_value (rc_cloud c)));
   ("min_cuda_version", opt_json JStr (rc_min_cuda_version c));
   ("allowed_gpu_ids", jstrs (rc_allowed_gpu_ids c));
   ("allowed_gpu_pools", jstrs (rc_allowed_gpu_pools c));
   ("allowed_data_center_ids", jstrs (rc_allowed_data_center_ids c));
   ("max_hourly_rate", opt_json num_json (rc_max_hourly_rate c))].

(** ** Requests *)

Record OllamaLeaseRequest := {
  or_lease_id : string;
  or_owner_id : string;
  or_workload_id : string;
  or_model : string;
  or_constraints : OllamaResourceConstraints;
  or_expected_session_seconds : Z;
  or_expected_active_seconds : Z;
  or_serverless_initialization_seconds : Z;
  or_serverless_idle_tail_seconds : Z;
  or_idle_timeout_seconds : Z;
  or_readiness_timeout_seconds : Z;
  or_hard_deadline : instant;
  or_max_authorized_cost : number;
  or_mode : OllamaLeaseMode;
  or_requested_at : option instant
}.

(** [OllamaLeaseRequest.__post_init__]; the constraints are validated when made. *)
Definition check_ollama_request (r : OllamaLeaseRequest) : result unit :=
  run! require
    (forallb (fun s => negb (blank s)) [or_lease_id r; or_owner_id r; or_workload_id r; or_model r])
    ValueError then
  run! require
    (forallb (fun z => 0 <? z)
       [or_expected_session_seconds r; or_expected_active_seconds r; or_idle_timeout_seconds r;
        or_readiness_timeout_seconds r]) ValueError then
  run! require
    (forallb (fun z => 0 <=? z)
       [or_serverless_initialization_seconds r; or_serverless_idle_tail_seconds r]) ValueError then
  run! require (or_expected_active_seconds r <=? or_expected_session_seconds r) ValueError then
  run! require (num_positive (or_max_authorized_cost r)) ValueError then
  require (match or_requested_at r with Some t => t <? or_hard_deadline r | None => true end) ValueError.

(** [replace(request, mode=...)]: the constructor runs again. *)
Definition with_mode (r : OllamaLeaseRequest) (mode : OllamaLeaseMode) : OllamaLeaseRequest := {|
  or_lease_id := or_lease_id r;
  or_owner_id := or_owner_id r;
  or_workload_id := or_workload_id r;
  or_model := or_model r;
  or_constraints := or_constraints r;
  or_expected_session_seconds := or_expected_session_seconds r;
  or_expected_active_seconds := or_expected_active_seconds r;
  or_serverless_initialization_seconds := or_serverless_initialization_seconds r;
  or_serverless_idle_tail_seconds := or_serverless_idle_tail_seconds r;
  or_idle_timeout_seconds := or_idle_timeout_seconds r;
  or_readiness_timeout_seconds := or_readiness_timeout_seconds r;
  or_hard_deadline := or_hard_deadline r;
  or_max_authorized_cost := or_max_authorized_cost r;
  or_mode := mode;
  or_requested_at := or_requested_at r
|}.

Definition fingerprint_payload (r : OllamaLeaseRequest) : list (string * json) :=
  [("owner_id", JStr (or_owner_id r));
   ("workload_id", JStr (or_workload_id r));
   ("model", JStr (or_model r));
   ("constraints", JObj (constraints_dict (or_constraints r)));
   ("expected_session_seconds", JInt (or_expected_session_seconds r));
   ("expected_active_seconds", JInt (or_expected_active_seconds r));
   ("serverless_initialization_seconds", JInt (or_serverless_initialization_seconds r));
   ("serverless_idle_tail_seconds", JInt (or_serverless_idle_tail_seconds r));
   ("idle_timeout_seconds", JInt (or_idle_timeout_seconds r));
   ("readiness_timeout_seconds", JInt (or_readiness_timeout_seconds r));
   ("hard_deadline", jtime (or_hard_deadline r));
   ("max_authorized_cost", num_json (or_max_authorized_cost r));
   ("mode", JStr (mode_value (or_mode r)));
   ("requested_at", opt_json jtime (or_requested_at r))].

(** [fingerprint]. *)
Definition ollama_fingerprint `{Digest} (r : OllamaLeaseRequest) : string :=
  json_sha256 (JObj (fingerprint_payload r)).

(** [resource_name(lease_id)]: a stable name that does not show the identities. *)
Definition ollama_resource_name `{Digest} (lease_id : string) : string :=
  "kestrel-ollama-" ++ of_chars (firstn 20 (chars (sha256_hex lease_id))).

(** [provision_attempt_id(request)]. *)
Definition provision_attempt_id `{Digest} (r : OllamaLeaseRequest) : string :=
  "ollama-attempt-" ++
  of_chars (firstn 24 (chars (sha256_hex (or_lease_id r ++ ":" ++ ollama_fingerprint r)))).

(** [canonical_model_name]. *)
Definition canonical_model_name (value : string) : string :=
  let normalized := lower (strip value) in
  if existsb (fun c => code c =? 58) (chars normalized) then normalized
  else (normalized ++ ":latest")%string.

(** ** Cost *)

(** [_rated_cost]: catalog offers are priced per GPU. *)
Definition rated_cost (hourly_rate : Decimal) (secs gpu_count : Z) : Decimal :=
  float_of_decimal
    (ddiv DEFAULT_PREC
       (dmul DEFAULT_PREC (dmul DEFAULT_PREC hourly_rate (of_int secs)) (of_int gpu_count))
       (of_int 3600)).

(** [_cost_sum]: the sum starts from [Decimal(0)]. *)
Definition cost_sum (values : list number) : Decimal :=
  float_of_decimal (fold_left (fun acc v => dadd DEFAULT_PREC acc (num_decimal v)) values (of_int 0)).

(** [maximum_serverless_cold_starts]. *)
Definition maximum_serverless_cold_starts (expected_session_seconds idle_tail_seconds : Z) : option Z :=
  if idle_tail_seconds <=? 0 then None else Some (1 + expected_session_seconds / idle_tail_seconds).

(** ** Placement plans *)

Record OllamaPlacementPlan := {
  op_mode : OllamaLeaseMode;
  op_resource_type : OllamaResourceType;
  op_placement : PlacementDecision;
  op_estimated_compute_cost : number;
  op_maximum_compute_cost : number;
  op_estimated_non_compute_cost : number;
  op_maximum_non_compute_cost : number;
  op_estimated_cost : number;
  op_cost_ceiling : number;
  op_estimated_billable_seconds : Z;
  op_maximum_billable_seconds : Z;
  op_maximum_concurrent_workers : Z;
  op_non_compute_components : list OllamaNonComputeCostComponent;
  op_maximum_serverless_cold_starts : Z
}.

Definition num_le (a b : number) : bool := dle (num_decimal a) (num_decimal b).

(** The seven cost and time tests of [__post_init__] that compare fields. *)
Definition plan_costs_ordered (p : OllamaPlacementPlan) : bool :=
  num_le (op_estimated_compute_cost p) (op_maximum_compute_cost p) &&
  (op_estimated_billable_seconds p <=? op_maximum_billable_seconds p) &&
  num_le (op_estimated_non_compute_cost p) (op_maximum_non_compute_cost p).

Definition plan_rates_derived (p : OllamaPlacementPlan) : bool :=
  let rated secs := rated_cost (pd_offered_cost_per_hr (op_placement p)) secs (pd_gpu_count (op_placement p)) in
  isclose (num_float (op_estimated_compute_cost p)) (rated (op_estimated_billable_seconds p)) &&
  isclose (num_float (op_maximum_compute_cost p)) (rated (op_maximum_billable_seconds p)).

Definition num_close_sum (total a b : number) : bool :=
  isclose (num_float total) (fadd (num_float a) (num_float b)).

(** [OllamaPlacementPlan.__post_init__]. *)
Definition check_plan (p : OllamaPlacementPlan) : result unit :=
  let starts := op_maximum_serverless_cold_starts p in
  run! require (0 <=? starts) ValueError then
  run! require (negb (bool_decide (op_resource_type p = RES_SERVERLESS_ENDPOINT) && (starts <? 1)))
    ValueError then
  run! require (negb (bool_decide (op_resource_type p = RES_POD) && negb (starts =? 0))) ValueError then
  run! require
    (forallb num_nonnegative
       [op_estimated_compute_cost p; op_maximum_compute_cost p; op_estimated_non_compute_cost p;
        op_maximum_non_compute_cost p; op_estimated_cost p; op_cost_ceiling p]) ValueError then
  run! require
    (forallb (fun z => 1 <=? z)
       [op_estimated_billable_seconds p; op_maximum_billable_seconds p; op_maximum_concurrent_workers p])
    ValueError then
  run! require (plan_costs_ordered p) ValueError then
  run! require (plan_rates_derived p) ValueError then
  run! require
    (negb (bool_decide (op_resource_type p = RES_POD) && negb (op_maximum_concurrent_workers p =? 1)))
    ValueError then
  run! require
    (num_close_sum (op_estimated_cost p) (op_estimated_compute_cost p) (op_estimated_non_compute_cost p))
    ValueError then
  run! require
    (num_close_sum (op_cost_ceiling p) (op_maximum_compute_cost p) (op_maximum_non_compute_cost p))
    ValueError then
  run! require (num_le (op_estimated_cost p) (op_cost_ceiling p)) ValueError then
  check_policy {|
    cp_estimated_cost_usd := op_estimated_non_compute_cost p;
    cp_maximum_cost_usd := op_maximum_non_compute_cost p;
    cp_covered_components := op_non_compute_components p
  |}.

Definition mk_plan (p : OllamaPlacementPlan) : result OllamaPlacementPlan :=
  run! check_plan p then Ok p.

(** *** Choice among plans *)

Abbreviation cost_policies := (OllamaLeaseMode -> option OllamaNonComputeCostPolicy).

(** [_required_non_compute_cost_policy]. *)
Definition required_policy (policies : cost_policies) (mode : OllamaLeaseMode)
  : result OllamaNonComputeCostPolicy :=
  of_option (policies mode) RunPodManagerError.

(** The plan of one mode: rates and totals derived from the offer, [estimated] and
    [maximum] billable seconds. *)
Definition rated_plan (mode : OllamaLeaseMode) (t : OllamaResourceType) (d : PlacementDecision)
  (policy : OllamaNonComputeCostPolicy) (estimated maximum workers starts : Z) : OllamaPlacementPlan :=
  let rated secs := NFloat (rated_cost (pd_offered_cost_per_hr d) secs (pd_gpu_count d)) in
  {|
    op_mode := mode;
    op_resource_type := t;
    op_placement := d;
    op_estimated_compute_cost := rated estimated;
    op_maximum_compute_cost := rated maximum;
    op_estimated_non_compute_cost := cp_estimated_cost_usd policy;
    op_maximum_non_compute_cost := cp_maximum_cost_usd policy;
    op_estimated_cost := NFloat (cost_sum [rated estimated; cp_estimated_cost_usd policy]);
    op_cost_ceiling := NFloat (cost_sum [rated maximum; cp_maximum_cost_usd policy]);
    op_estimated_billable_seconds := estimated;
    op_maximum_billable_seconds := maximum;
    op_maximum_concurrent_workers := workers;
    op_non_compute_components := cp_covered_components policy;
    op_maximum_serverless_cold_starts := starts
  |}.

(** [request.mode in {AUTO, mode}]. *)
Definition mode_admits (request : OllamaLeaseRequest) (mode : OllamaLeaseMode) : bool :=
  bool_decide (or_mode request = AUTO) || bool_decide (or_mode request = mode).

Definition serverless_billable (request : OllamaLeaseRequest) (starts : Z) : Z :=
  or_expected_active_seconds request +
  starts * (or_serverless_initialization_seconds request + or_serverless_idle_tail_seconds request).

Definition serverless_candidate (request : OllamaLeaseRequest) (offer : option PlacementDecision)
  (policies : cost_policies) (remaining_seconds max_workers : Z) : result (list OllamaPlacementPlan) :=
  match offer with
  | Some d =>
      if mode_admits request SERVERLESS_LOAD_BALANCER then
        match maximum_serverless_cold_starts (or_expected_session_seconds request)
                (or_serverless_idle_tail_seconds request) with
        | Some starts =>
            let! policy := required_policy policies SERVERLESS_LOAD_BALANCER in
            let billable := serverless_billable request starts in
            let maximum := Z.max billable (remaining_seconds * max_workers) in
            let! p := mk_plan (rated_plan SERVERLESS_LOAD_BALANCER RES_SERVERLESS_ENDPOINT d policy
                                 billable maximum max_workers starts) in
            Ok [p]
        | None => Ok []
        end
      else Ok []
  | None => Ok []
  end.

(** A Pod bills until its hard deadline: with less time left than the session needs
    no honest plan exists, and none is offered. *)
Definition pod_candidate (request : OllamaLeaseRequest) (offer : option PlacementDecision)
  (policies : cost_policies) (remaining_seconds : Z) : result (list OllamaPlacementPlan) :=
  match offer with
  | Some d =>
      if (or_expected_session_seconds request <=? remaining_seconds) && mode_admits request DEDICATED_POD
      then
        let! policy := required_policy policies DEDICATED_POD in
        let! p := mk_plan (rated_plan DEDICATED_POD RES_POD d policy
                             (or_expected_session_seconds request) remaining_seconds 1 0) in
        Ok [p]
      else Ok []
  | None => Ok []
  end.

(** [min(affordable, key=estimated_cost)]: the first of the cheapest. *)
Definition cheapest (p : OllamaPlacementPlan) (l : list OllamaPlacementPlan) : OllamaPlacementPlan :=
  fold_left
    (fun best q => if dlt (num_decimal (op_estimated_cost q)) (num_decimal (op_estimated_cost best))
                   then q else best) l p.

Definition affordable (request : OllamaLeaseRequest) (p : OllamaPlacementPlan) : bool :=
  num_le (op_cost_ceiling p) (or_max_authorized_cost request).

(** [math.ceil((hard_deadline - planned_at).total_seconds())]. *)
Definition remaining_seconds (request : OllamaLeaseRequest) (planned_at : instant) : Z :=
  float_ceil (total_seconds (or_hard_deadline request - planned_at)).

(** [select_ollama_plan]; [failures] only words the error. *)
Definition select_ollama_plan (request : OllamaLeaseRequest)
  (decisions : ComputeProduct -> option PlacementDecision) (policies : cost_policies)
  (planned_at : instant) (serverless_max_workers : Z) : result OllamaPlacementPlan :=
  run! require (1 <=? serverless_max_workers) ValueError then
  let remaining := remaining_seconds request planned_at in
  run! require (1 <=? remaining) RunPodManagerError then
  let! serverless :=
    serverless_candidate request (decisions SERVERLESS) policies remaining serverless_max_workers in
  let! pod := pod_candidate request (decisions POD) policies remaining in
  match List.filter (affordable request) (serverless ++ pod)%list with
  | p :: rest => Ok (cheapest p rest)
  | [] => Exc RunPodManagerError
  end.
