(* ===== verification/OllamaLeases.v ===== *)
(** The lease record of the private-Ollama lane ([OllamaLease] of
    [ollama_contracts.py]): its public view, its cost exposure and its resource; and
    [sanitize_provider_error], which takes URLs and credentials out of an error's text
    before the text enters durable state.

    The three patterns of the redaction are deterministic: a matcher looks at the
    characters from one position on and answers the replacement and what follows the
    match; [re.sub] is the left-to-right scan over them. *)
From Stdlib Require Import Ascii.
From S2P Require Import Prelude PyStr Enums Errors PyDecimal PyFloat PyTime Json ContractsBase CodecBase Placement OllamaContracts.

#[local] Open Scope Z_scope.

Record ProvisionedOllamaResource := {
  rs_resource_type : OllamaResourceType;
  rs_provider_resource_id : string;
  rs_resource_name : string
}.

#[export] Instance ProvisionedOllamaResource_dec : EqDecision ProvisionedOllamaResource.
Proof. solve_decision. Defined.

Record OllamaReadinessObservation := {
  ro_provider_ready : bool;
  ro_route_url : option string;
  ro_provider_health_url : option string;
  ro_model_names : list string
}.

(** [has_model]. *)
Definition has_model (o : OllamaReadinessObservation) (requested_model : string) : bool :=
  existsb (fun name => bool_decide (canonical_model_name name = canonical_model_name requested_model))
    (ro_model_names o).

(** Money columns are [REAL]: floats, written by their [repr] ([PyFloat]). The
    constraints column holds its document, [None] when the text is no JSON. *)
Record OllamaLease := {
  ol_lease_id : string;
  ol_owner_id : string;
  ol_workload_id : string;
  ol_request_fingerprint : string;
  ol_model : string;
  ol_constraints_json : option json;
  ol_mode : option OllamaLeaseMode;
  ol_resource_type : option OllamaResourceType;
  ol_provider_resource_id : option string;
  ol_resource_name : option string;
  ol_creation_uncertain : bool;
  ol_provision_attempt_id : option string;
  ol_provision_attempts : Z;
  ol_route_url : option string;
  ol_provider_health_url : option string;
  ol_state : OllamaLeaseState;
  ol_teardown_state : OllamaTeardownState;
  ol_created_at : instant;
  ol_updated_at : instant;
  ol_provisioning_started_at : option instant;
  ol_ready_at : option instant;
  ol_last_used_at : instant;
  ol_idle_deadline : instant;
  ol_hard_deadline : instant;
  ol_readiness_deadline : instant;
  ol_model_pull_started_at : option instant;
  ol_model_pull_attempts : Z;
  ol_model_ready_at : option instant;
  ol_expected_session_seconds : Z;
  ol_expected_active_seconds : Z;
  ol_serverless_initialization_seconds : Z;
  ol_serverless_idle_tail_seconds : Z;
  ol_idle_timeout_seconds : Z;
  ol_offered_rate_per_hr : option Decimal;
  ol_estimated_cost : option Decimal;
  ol_estimated_compute_cost : option Decimal;
  ol_maximum_compute_cost : option Decimal;
  ol_estimated_non_compute_cost : option Decimal;
  ol_maximum_non_compute_cost : option Decimal;
  ol_cost_ceiling : option Decimal;
  ol_cost_policy_components : list OllamaNonComputeCostComponent;
  ol_maximum_concurrent_workers : option Z;
  ol_estimated_billable_seconds : option Z;
  ol_maximum_billable_seconds : option Z;
  ol_accrued_estimated_cost : Decimal;
  ol_max_authorized_cost : Decimal;
  ol_cold_start_seconds : option Decimal;
  ol_selected_gpu_id : option string;
  ol_selected_gpu_pool : option string;
  ol_selected_gpu_name : option string;
  ol_catalog_observed_at : option instant;
  ol_last_provider_error : option string;
  ol_termination_reason : option string;
  ol_teardown_attempts : Z;
  ol_revision : Z;
  ol_placement_gpu_count : Z
}.

(** [public_route_url]. *)
Definition public_route_url (l : OllamaLease) : option string :=
  if bool_decide (ol_state l = O_READY) then ol_route_url l else None.

(** [to_dict]: what a caller is shown of a lease. *)
Definition ollama_lease_dict (l : OllamaLease) : list (string * json) :=
  [("lease_id", JStr (ol_lease_id l));
   ("owner_id", JStr (ol_owner_id l));
   ("workload_id", JStr (ol_workload_id l));
   ("model", JStr (ol_model l));
   ("mode", opt_json (fun m => JStr (mode_value m)) (ol_mode l));
   ("resource_type", opt_json (fun t => JStr (resource_type_value t)) (ol_resource_type l));
   ("provider_resource_id", opt_json JStr (ol_provider_resource_id l));
   ("provision_attempt_id", opt_json JStr (ol_provision_attempt_id l));
   ("creation_uncertain", JBool (ol_creation_uncertain l));
   ("state", JStr (lease_state_value (ol_state l)));
   ("teardown_state", JStr (teardown_value (ol_teardown_state l)));
   ("created_at", jtime (ol_created_at l));
   ("provisioning_started_at", opt_json jtime (ol_provisioning_started_at l));
   ("ready_at", opt_json jtime (ol_ready_at l));
   ("readiness_deadline", jtime (ol_readiness_deadline l));
   ("last_used_at", jtime (ol_last_used_at l));
   ("idle_deadline", jtime (ol_idle_deadline l));
   ("hard_deadline", jtime (ol_hard_deadline l));
   ("offered_rate_per_hr", opt_json JFloat (ol_offered_rate_per_hr l));
   ("estimated_cost", opt_json JFloat (ol_estimated_cost l));
   ("estimated_compute_cost", opt_json JFloat (ol_estimated_compute_cost l));
   ("maximum_compute_cost", opt_json JFloat (ol_maximum_compute_cost l));
   ("estimated_non_compute_cost", opt_json JFloat (ol_estimated_non_compute_cost l));
   ("maximum_non_compute_cost", opt_json JFloat (ol_maximum_non_compute_cost l));
   ("cost_ceiling", opt_json JFloat (ol_cost_ceiling l));
   ("cost_policy_components", jstrs (map component_value (ol_cost_policy_components l)));
   ("maximum_concurrent_workers", opt_json JInt (ol_maximum_concurrent_workers l));
   ("estimated_billable_seconds", opt_json JInt (ol_estimated_billable_seconds l));
   ("maximum_billable_seconds", opt_json JInt (ol_maximum_billable_seconds l));
   ("expected_session_seconds", JInt (ol_expected_session_seconds l));
   ("expected_active_seconds", JInt (ol_expected_active_seconds l));
   ("serverless_initialization_seconds", JInt (ol_serverless_initialization_seconds l));
   ("serverless_idle_tail_seconds", JInt (ol_serverless_idle_tail_seconds l));
   ("accrued_estimated_cost", JFloat (ol_accrued_estimated_cost l));
   ("max_authorized_cost", JFloat (ol_max_authorized_cost l));
   ("cold_start_seconds", opt_json JFloat (ol_cold_start_seconds l));
   ("model_pull_started_at", opt_json jtime (ol_model_pull_started_at l));
   ("model_ready_at", opt_json jtime (ol_model_ready_at l));
   ("provision_attempts", JInt (ol_provision_attempts l));
   ("model_pull_attempts", JInt (ol_model_pull_attempts l));
   ("teardown_attempts", JInt (ol_teardown_attempts l));
   ("selected_gpu_id", opt_json JStr (ol_selected_gpu_id l));
   ("selected_gpu_pool", opt_json JStr (ol_selected_gpu_pool l));
   ("selected_gpu_name", opt_json JStr (ol_selected_gpu_name l));
   ("catalog_observed_at", opt_json jtime (ol_catalog_observed_at l));
   ("last_provider_error", opt_json JStr (ol_last_provider_error l));
   ("termination_reason", opt_json JStr (ol_termination_reason l))].

(** ** Cost exposure *)

(** [accrued_cost]: an upper bound from the wall clock since provisioning. *)
Definition accrued_cost (l : OllamaLease) (now : instant) : Decimal :=
  match ol_offered_rate_per_hr l, ol_provisioning_started_at l with
  | Some rate, Some started =>
      let elapsed := float_max0 (total_seconds (Z.min now (ol_hard_deadline l) - started)) in
      match ol_maximum_concurrent_workers l with
      | Some workers =>
          if workers <? 1 then ol_max_authorized_cost l
          else
            float_of_decimal
              (ddiv DEFAULT_PREC
                 (dmul DEFAULT_PREC
                    (dmul DEFAULT_PREC (dmul DEFAULT_PREC rate elapsed) (of_int workers))
                    (of_int (ol_placement_gpu_count l)))
                 (of_int 3600))
      | None => ol_max_authorized_cost l
      end
  | _, _ => ol_accrued_estimated_cost l
  end.

(** [authorized_cost_exposure]. *)
Definition authorized_cost_exposure (l : OllamaLease) (now : instant) : Decimal :=
  match ol_maximum_non_compute_cost l with
  | Some overhead => cost_sum [NFloat (accrued_cost l now); NFloat overhead]
  | None => ol_max_authorized_cost l
  end.

(** [over_authorized_cost]. *)
Definition over_authorized_cost (l : OllamaLease) (now : instant) : bool :=
  dle (ol_max_authorized_cost l) (authorized_cost_exposure l now).

(** ** The attributable resource *)

(** [resource_from_lease]: empty identifiers are absent ones. *)
Definition resource_from_lease (l : OllamaLease) : result ProvisionedOllamaResource :=
  match ol_resource_type l, ol_provider_resource_id l, ol_resource_name l with
  | Some t, Some id, Some name =>
      if bool_decide (id = "") || bool_decide (name = "") then Exc RunPodManagerError
      else Ok {| rs_resource_type := t; rs_provider_resource_id := id; rs_resource_name := name |}
  | _, _, _ => Exc RunPodManagerError
  end.

(** [if lease.provider_resource_id]. *)
Definition has_resource_id (l : OllamaLease) : bool :=
  match ol_provider_resource_id l with Some id => negb (bool_decide (id = "")) | None => false end.

(** The text of an exception, [str(error)]. *)
Class ErrorText := { error_text : exn -> string }.

(** [[^\s,;]]. *)
Definition is_token (c : ascii) : bool :=
  negb (is_space c || (code c =? 44) || (code c =? 59)).

(** The longest prefix of [p] characters, and the rest. *)
Fixpoint span (p : ascii -> bool) (l : list ascii) : list ascii * list ascii :=
  match l with
  | c :: r => if p c then let '(a, b) := span p r in (c :: a, b) else ([], l)
  | [] => ([], [])
  end.

(** A literal, letters in either case: what was matched, and the rest. *)
Fixpoint literal_ci (w l : list ascii) : option (list ascii * list ascii) :=
  match w, l with
  | [], _ => Some ([], l)
  | a :: w', c :: l' =>
      if bool_decide (lower_char c = a) then
        match literal_ci w' l' with Some (m, r) => Some (c :: m, r) | None => None end
      else None
  | _, [] => None
  end.

(** A pattern at one position: [boundary] says that a word may start here. *)
Definition matcher := bool -> list ascii -> option (list ascii * list ascii).

(** [re.sub] with a matcher of nonempty matches; [before] is the character before. *)
Fixpoint re_sub (fuel : nat) (m : matcher) (before : option ascii) (l : list ascii) : list ascii :=
  match fuel, l with
  | S f, c :: r =>
      let word_before := match before with Some b => is_word b | None => false end in
      match m (negb word_before && is_word c) l with
      | Some (replacement, rest) =>
          (replacement ++ re_sub f m (List.hd_error (rev (firstn (length l - length rest) l))) rest)%list
      | None => c :: re_sub f m (Some c) r
      end
  | _, _ => l
  end.

(** [https?://[^\s,;]+] to [[REDACTED_URL]]. *)
Definition match_url : matcher := fun _ l =>
  match literal_ci (chars "http") l with
  | Some (_, l1) =>
      let l2 := match literal_ci ["s"%char] l1 with Some (_, r) => r | None => l1 end in
      match literal_ci (chars "://") l2 with
      | Some (_, l3) =>
          match span is_token l3 with
          | (_ :: _, rest) => Some (chars "[REDACTED_URL]", rest)
          | ([], _) => None
          end
      | None => None
      end
  | None => None
  end.

(** [\bBearer\s+[^\s,;]+] to [Bearer [REDACTED]]. *)
Definition match_bearer : matcher := fun boundary l =>
  if boundary then
    match literal_ci (chars "bearer") l with
    | Some (_, l1) =>
        match span is_space l1 with
        | (_ :: _, l2) =>
            match span is_token l2 with
            | (_ :: _, rest) => Some (chars "Bearer [REDACTED]", rest)
            | ([], _) => None
            end
        | ([], _) => None
        end
    | None => None
    end
  else None.

(** [api[_-]?key|token|authorization]. *)
Definition secret_word (l : list ascii) : option (list ascii * list ascii) :=
  match literal_ci (chars "api") l with
  | Some (a, l1) =>
      let '(sep, l2) :=
        match l1 with
        | c :: r => if (code c =? 95) || (code c =? 45) then ([c], r) else ([], l1)
        | [] => ([], l1)
        end in
      match literal_ci (chars "key") l2 with
      | Some (k, l3) => Some ((a ++ sep ++ k)%list, l3)
      | None => None
      end
  | None =>
      match literal_ci (chars "token") l with
      | Some x => Some x
      | None => literal_ci (chars "authorization") l
      end
  end.

(** A secret word, [=] or [:] with spaces around it, and a token; the token is replaced. *)
Definition match_secret : matcher := fun boundary l =>
  if boundary then
    match secret_word l with
    | Some (w, l1) =>
        let '(s1, l2) := span is_space l1 in
        match l2 with
        | c :: l3 =>
            if (code c =? 61) || (code c =? 58) then
              let '(s2, l4) := span is_space l3 in
              match span is_token l4 with
              | (_ :: _, rest) => Some ((w ++ s1 ++ [c] ++ s2 ++ chars "[REDACTED]")%list, rest)
              | ([], _) => None
              end
            else None
        | [] => None
        end
    | None => None
    end
  else None.

Definition sub_all (m : matcher) (l : list ascii) : list ascii := re_sub (length l) m None l.

(** [sanitize_provider_error] on the error's text. *)
Definition sanitize_text (value : string) : string :=
  of_chars (firstn 1000 (sub_all match_secret (sub_all match_bearer (sub_all match_url (chars value))))).

Definition sanitize_provider_error `{ErrorText} (e : exn) : string := sanitize_text (error_text e).

Example redacted_url :
  sanitize_text "GET https://api.runpod.io/v2?key=1, retry" = "GET [REDACTED_URL], retry".
Proof. vm_compute. reflexivity. Qed.

Example redacted_bearer :
  sanitize_text "Authorization: Bearer abc.def; api_key = xyz" =
    "Authorization: [REDACTED] [REDACTED]; api_key = [REDACTED]".
Proof. vm_compute. reflexivity. Qed.

Example kept_words : sanitize_text "mytoken=1 tokens: 2 token:3" = "mytoken=1 tokens: 2 token:[REDACTED]".
Proof. vm_compute. reflexivity. Qed.

(** A name in JSON quotes is followed by its closing quote, not by [:], so the secret
    after it is kept. *)
Theorem quoted_secret_kept :
  sanitize_text ("token" ++ String "034" ": abc123") = ("token" ++ String "034" ": abc123")%string.
Proof. vm_compute. reflexivity. Qed.
