(* ===== verification/OllamaRepository.v ===== *)
(** The lease table of the private-Ollama lane ([ollama_repository.py]).

    The table is a finite map from the primary key to the lease its row was written
    from; a read goes through the row ([ollama_to_row], [ollama_from_row]) and may refuse
    it. Each transaction is a function of the table, run atomically as [BEGIN IMMEDIATE] serializes writers. [wall] is the wall clock that
    stamps [updated_at]. *)
From stdpp Require Import sorting.
From S2P Require Import Prelude PyStr Enums Errors PyDecimal PyFloat PyTime Json ContractsBase CodecBase Placement OllamaContracts OllamaLeases Row.

#[local] Open Scope Z_scope.

Abbreviation ollama_table := (gmap string OllamaLease).

(** ** Stored rows *)

(** The columns an update or an insertion writes ([_db_value]). The text of
    [constraints_json] is represented by the document it holds, in a list of one, and by
    null when it holds none. *)
Definition ollama_to_row (l : OllamaLease) : list (string * json) :=
  [("lease_id", JStr (ol_lease_id l));
   ("owner_id", JStr (ol_owner_id l));
   ("workload_id", JStr (ol_workload_id l));
   ("request_fingerprint", JStr (ol_request_fingerprint l));
   ("model", JStr (ol_model l));
   ("constraints_json", opt_json (fun d => JList [d]) (ol_constraints_json l));
   ("mode", opt_json (fun m => JStr (mode_value m)) (ol_mode l));
   ("resource_type", opt_json (fun t => JStr (resource_type_value t)) (ol_resource_type l));
   ("provider_resource_id", opt_json JStr (ol_provider_resource_id l));
   ("resource_name", opt_json JStr (ol_resource_name l));
   ("creation_uncertain", db_bool (ol_creation_uncertain l));
   ("provision_attempt_id", opt_json JStr (ol_provision_attempt_id l));
   ("provision_attempts", JInt (ol_provision_attempts l));
   ("route_url", opt_json JStr (ol_route_url l));
   ("provider_health_url", opt_json JStr (ol_provider_health_url l));
   ("state", JStr (lease_state_value (ol_state l)));
   ("teardown_state", JStr (teardown_value (ol_teardown_state l)));
   ("created_at", jtime (ol_created_at l));
   ("updated_at", jtime (ol_updated_at l));
   ("provisioning_started_at", opt_json jtime (ol_provisioning_started_at l));
   ("ready_at", opt_json jtime (ol_ready_at l));
   ("last_used_at", jtime (ol_last_used_at l));
   ("idle_deadline", jtime (ol_idle_deadline l));
   ("hard_deadline", jtime (ol_hard_deadline l));
   ("readiness_deadline", jtime (ol_readiness_deadline l));
   ("model_pull_started_at", opt_json jtime (ol_model_pull_started_at l));
   ("model_pull_attempts", JInt (ol_model_pull_attempts l));
   ("model_ready_at", opt_json jtime (ol_model_ready_at l));
   ("expected_session_seconds", JInt (ol_expected_session_seconds l));
   ("expected_active_seconds", JInt (ol_expected_active_seconds l));
   ("serverless_initialization_seconds", JInt (ol_serverless_initialization_seconds l));
   ("serverless_idle_tail_seconds", JInt (ol_serverless_idle_tail_seconds l));
   ("idle_timeout_seconds", JInt (ol_idle_timeout_seconds l));
   ("offered_rate_per_hr", opt_json JFloat (ol_offered_rate_per_hr l));
   ("placement_gpu_count", JInt (ol_placement_gpu_count l));
   ("estimated_cost", opt_json JFloat (ol_estimated_cost l));
   ("estimated_compute_cost", opt_json JFloat (ol_estimated_compute_cost l));
   ("maximum_compute_cost", opt_json JFloat (ol_maximum_compute_cost l));
   ("estimated_non_compute_cost", opt_json JFloat (ol_estimated_non_compute_cost l));
   ("maximum_non_compute_cost", opt_json JFloat (ol_maximum_non_compute_cost l));
   ("cost_ceiling", opt_json JFloat (ol_cost_ceiling l));
   ("cost_policy_components_json", jstrs (map component_value (ol_cost_policy_components l)));
   ("maximum_concurrent_workers", opt_json JInt (ol_maximum_concurrent_workers l));
   ("estimated_billable_seconds", opt_json JInt (ol_estimated_billable_seconds l));
   ("maximum_billable_seconds", opt_json JInt (ol_maximum_billable_seconds l));
   ("accrued_estimated_cost", JFloat (ol_accrued_estimated_cost l));
   ("max_authorized_cost", JFloat (ol_max_authorized_cost l));
   ("cold_start_seconds", opt_json JFloat (ol_cold_start_seconds l));
   ("selected_gpu_id", opt_json JStr (ol_selected_gpu_id l));
   ("selected_gpu_pool", opt_json JStr (ol_selected_gpu_pool l));
   ("selected_gpu_name", opt_json JStr (ol_selected_gpu_name l));
   ("catalog_observed_at", opt_json jtime (ol_catalog_observed_at l));
   ("last_provider_error", opt_json JStr (ol_last_provider_error l));
   ("termination_reason", opt_json JStr (ol_termination_reason l));
   ("teardown_attempts", JInt (ol_teardown_attempts l));
   ("revision", JInt (ol_revision l))].

(** *** Column readers *)

Definition optional_column {A} (read : list (string * json) -> string -> result A)
  (row : list (string * json)) (name : string) : result (option A) :=
  match get_field row name with JNull => Ok None | _ => let! a := read row name in Ok (Some a) end.

Definition column_float (row : list (string * json)) (name : string) : result Decimal :=
  match get_field row name with JFloat d => Ok d | _ => Exc TypeError end.

Definition column_constraints (row : list (string * json)) (name : string) : result (option json) :=
  match get_field row name with JList [d] => Ok (Some d) | JNull => Ok None | _ => Exc TypeError end.

(** [Enum(row[name]) if row[name] else None]. *)
Definition column_optional_enum `{PyEnum A} (row : list (string * json)) (name : string) : result (option A) :=
  let! text := column_optional_text row name in
  match text with
  | None => Ok None
  | Some s => if bool_decide (s = EmptyString) then Ok None else let! a := of_option (of_value s) ValueError in Ok (Some a)
  end.

(** [_datetime]: [require_aware] raises [ValueError], as [fromisoformat] does. *)
Definition ollama_datetime (row : list (string * json)) (name : string) : result instant :=
  let! s := column_text row name in of_option (parse_aware s) ValueError.

(** [_optional_datetime]. *)
Definition ollama_optional_datetime (row : list (string * json)) (name : string) : result (option instant) :=
  let! text := column_optional_text row name in
  match text with
  | None => Ok None
  | Some s => if bool_decide (s = EmptyString) then Ok None else let! t := of_option (parse_aware s) ValueError in Ok (Some t)
  end.

(** The GPU count of a row written before the column was is 1. *)
Definition column_gpu_count (row : list (string * json)) (name : string) : result Z :=
  match get_field row name with JNull => Ok 1 | _ => column_int row name end.

(** [_stored_cost_components]: the column is null, or the text of a list of distinct
    component values. *)
Definition cost_component (v : json) : result OllamaNonComputeCostComponent :=
  match v with JStr s => of_option (of_value s) RunPodManagerError | _ => Exc RunPodManagerError end.

Definition stored_cost_components (v : json) : result (list OllamaNonComputeCostComponent) :=
  match v with
  | JNull => Ok []
  | JList items =>
      let! components := rmap cost_component items in
      run! require (bool_decide (NoDup components)) RunPodManagerError then
      Ok components
  | _ => Exc RunPodManagerError
  end.

(** [_lease_from_row]. *)
Definition ollama_from_row (row : list (string * json)) : result OllamaLease :=
  let! lease_id := column_text row "lease_id" in
  let! owner_id := column_text row "owner_id" in
  let! workload_id := column_text row "workload_id" in
  let! request_fingerprint := column_text row "request_fingerprint" in
  let! model := column_text row "model" in
  let! constraints_json := column_constraints row "constraints_json" in
  let! mode := column_optional_enum row "mode" in
  let! resource_type := column_optional_enum row "resource_type" in
  let! provider_resource_id := column_optional_text row "provider_resource_id" in
  let! resource_name := column_optional_text row "resource_name" in
  let! creation_uncertain := column_bool row "creation_uncertain" in
  let! provision_attempt_id := column_optional_text row "provision_attempt_id" in
  let! provision_attempts := column_int row "provision_attempts" in
  let! route_url := column_optional_text row "route_url" in
  let! provider_health_url := column_optional_text row "provider_health_url" in
  let! state := column_enum of_value row "state" in
  let! teardown_state := column_enum of_value row "teardown_state" in
  let! created_at := ollama_datetime row "created_at" in
  let! updated_at := ollama_datetime row "updated_at" in
  let! provisioning_started_at := ollama_optional_datetime row "provisioning_started_at" in
  let! ready_at := ollama_optional_datetime row "ready_at" in
  let! last_used_at := ollama_datetime row "last_used_at" in
  let! idle_deadline := ollama_datetime row "idle_deadline" in
  let! hard_deadline := ollama_datetime row "hard_deadline" in
  let! readiness_deadline := ollama_datetime row "readiness_deadline" in
  let! model_pull_started_at := ollama_optional_datetime row "model_pull_started_at" in
  let! model_pull_attempts := column_int row "model_pull_attempts" in
  let! model_ready_at := ollama_optional_datetime row "model_ready_at" in
  let! expected_session_seconds := column_int row "expected_session_seconds" in
  let! expected_active_seconds := column_int row "expected_active_seconds" in
  let! serverless_initialization_seconds := column_int row "serverless_initialization_seconds" in
  let! serverless_idle_tail_seconds := column_int row "serverless_idle_tail_seconds" in
  let! idle_timeout_seconds := column_int row "idle_timeout_seconds" in
  let! offered_rate_per_hr := optional_column column_float row "offered_rate_per_hr" in
  let! placement_gpu_count := column_gpu_count row "placement_gpu_count" in
  let! estimated_cost := optional_column column_float row "estimated_cost" in
  let! estimated_compute_cost := optional_column column_float row "estimated_compute_cost" in
  let! maximum_compute_cost := optional_column column_float row "maximum_compute_cost" in
  let! estimated_non_compute_cost := optional_column column_float row "estimated_non_compute_cost" in
  let! maximum_non_compute_cost := optional_column column_float row "maximum_non_compute_cost" in
  let! cost_ceiling := optional_column column_float row "cost_ceiling" in
  let! cost_policy_components := stored_cost_components (get_field row "cost_policy_components_json") in
  let! maximum_concurrent_workers := optional_column column_int row "maximum_concurrent_workers" in
  let! estimated_billable_seconds := optional_column column_int row "estimated_billable_seconds" in
  let! maximum_billable_seconds := optional_column column_int row "maximum_billable_seconds" in
  let! accrued_estimated_cost := column_float row "accrued_estimated_cost" in
  let! max_authorized_cost := column_float row "max_authorized_cost" in
  let! cold_start_seconds := optional_column column_float row "cold_start_seconds" in
  let! selected_gpu_id := column_optional_text row "selected_gpu_id" in
  let! selected_gpu_pool := column_optional_text row "selected_gpu_pool" in
  let! selected_gpu_name := column_optional_text row "selected_gpu_name" in
  let! catalog_observed_at := ollama_optional_datetime row "catalog_observed_at" in
  let! last_provider_error := column_optional_text row "last_provider_error" in
  let! termination_reason := column_optional_text row "termination_reason" in
  let! teardown_attempts := column_int row "teardown_attempts" in
  let! revision := column_int row "revision" in
  Ok {|
    ol_lease_id := lease_id;
    ol_owner_id := owner_id;
    ol_workload_id := workload_id;
    ol_request_fingerprint := request_fingerprint;
    ol_model := model;
    ol_constraints_json := constraints_json;
    ol_mode := mode;
    ol_resource_type := resource_type;
    ol_provider_resource_id := provider_resource_id;
    ol_resource_name := resource_name;
    ol_creation_uncertain := creation_uncertain;
    ol_provision_attempt_id := provision_attempt_id;
    ol_provision_attempts := provision_attempts;
    ol_route_url := route_url;
    ol_provider_health_url := provider_health_url;
    ol_state := state;
    ol_teardown_state := teardown_state;
    ol_created_at := created_at;
    ol_updated_at := updated_at;
    ol_provisioning_started_at := provisioning_started_at;
    ol_ready_at := ready_at;
    ol_last_used_at := last_used_at;
    ol_idle_deadline := idle_deadline;
    ol_hard_deadline := hard_deadline;
    ol_readiness_deadline := readiness_deadline;
    ol_model_pull_started_at := model_pull_started_at;
    ol_model_pull_attempts := model_pull_attempts;
    ol_model_ready_at := model_ready_at;
    ol_expected_session_seconds := expected_session_seconds;
    ol_expected_active_seconds := expected_active_seconds;
    ol_serverless_initialization_seconds := serverless_initialization_seconds;
    ol_serverless_idle_tail_seconds := serverless_idle_tail_seconds;
    ol_idle_timeout_seconds := idle_timeout_seconds;
    ol_offered_rate_per_hr := offered_rate_per_hr;
    ol_estimated_cost := estimated_cost;
    ol_estimated_compute_cost := estimated_compute_cost;
    ol_maximum_compute_cost := maximum_compute_cost;
    ol_estimated_non_compute_cost := estimated_non_compute_cost;
    ol_maximum_non_compute_cost := maximum_non_compute_cost;
    ol_cost_ceiling := cost_ceiling;
    ol_cost_policy_components := cost_policy_components;
    ol_maximum_concurrent_workers := maximum_concurrent_workers;
    ol_estimated_billable_seconds := estimated_billable_seconds;
    ol_maximum_billable_seconds := maximum_billable_seconds;
    ol_accrued_estimated_cost := accrued_estimated_cost;
    ol_max_authorized_cost := max_authorized_cost;
    ol_cold_start_seconds := cold_start_seconds;
    ol_selected_gpu_id := selected_gpu_id;
    ol_selected_gpu_pool := selected_gpu_pool;
    ol_selected_gpu_name := selected_gpu_name;
    ol_catalog_observed_at := catalog_observed_at;
    ol_last_provider_error := last_provider_error;
    ol_termination_reason := termination_reason;
    ol_teardown_attempts := teardown_attempts;
    ol_revision := revision;
    ol_placement_gpu_count := placement_gpu_count
  |}.

(** A row read back: the lease it was written from, when it reads. *)
Definition ollama_load (l : OllamaLease) : result OllamaLease :=
  let! _ := ollama_from_row (ollama_to_row l) in Ok l.

Lemma ollama_load_same l l' : ollama_load l = Ok l' -> l' = l.
Proof. unfold ollama_load. intros H. by res_inv. Qed.

Lemma refuses_ollama_row row : refuses (ollama_from_row row).
Proof. refuses. Qed.

Lemma ollama_load_errors l e : ollama_load l = Exc e -> reader_error e = true.
Proof.
  intros H. eapply (refuses_bind (ollama_from_row (ollama_to_row l))); [apply refuses_ollama_row| |exact H]. by intros.
Qed.

(** *** What reads back *)

Record storable_ollama (l : OllamaLease) : Prop := {
  so_times : Forall representable
    [ol_created_at l; ol_updated_at l; ol_last_used_at l; ol_idle_deadline l; ol_hard_deadline l; ol_readiness_deadline l];
  so_optional : Forall (opt_prop representable)
    [ol_provisioning_started_at l; ol_ready_at l; ol_model_pull_started_at l; ol_model_ready_at l; ol_catalog_observed_at l];
  so_components : NoDup (ol_cost_policy_components l)
}.

#[export] Instance opt_prop_dec {A} (P : A -> Prop) `{forall a, Decision (P a)} o : Decision (opt_prop P o).
Proof. destruct o; cbn; apply _. Defined.

#[export] Instance storable_ollama_dec l : Decision (storable_ollama l).
Proof.
  destruct (decide (Forall representable
      [ol_created_at l; ol_updated_at l; ol_last_used_at l; ol_idle_deadline l; ol_hard_deadline l; ol_readiness_deadline l]))
    as [Ht|Ht]; [|right; by intros []].
  destruct (decide (Forall (opt_prop representable)
      [ol_provisioning_started_at l; ol_ready_at l; ol_model_pull_started_at l; ol_model_ready_at l; ol_catalog_observed_at l]))
    as [Ho|Ho]; [|right; by intros []].
  destruct (decide (NoDup (ol_cost_policy_components l))) as [Hc|Hc]; [left; by split|right; by intros []].
Defined.

Lemma ollama_datetime_of row n t :
  get_field row n = jtime t -> representable t -> ollama_datetime row n = Ok t.
Proof. intros H Ht. unfold ollama_datetime, column_text. rewrite H. cbn [jtime rbind]. by rewrite parse_aware_iso_datetime. Qed.

Lemma ollama_optional_datetime_of row n o :
  get_field row n = opt_json jtime o -> opt_prop representable o -> ollama_optional_datetime row n = Ok o.
Proof.
  intros H Ho. unfold ollama_optional_datetime, column_optional_text. rewrite H. destruct o as [t|]; [|done].
  cbn [opt_json jtime rbind]. rewrite bool_decide_eq_false_2 by apply iso_datetime_nonempty.
  by rewrite parse_aware_iso_datetime.
Qed.

Lemma optional_number_of row n o : get_field row n = opt_json JInt o -> optional_column column_int row n = Ok o.
Proof. intros H. unfold optional_column, column_int. destruct o; by rewrite H. Qed.

Lemma optional_float_of row n o : get_field row n = opt_json JFloat o -> optional_column column_float row n = Ok o.
Proof. intros H. unfold optional_column, column_float. destruct o; by rewrite H. Qed.

Lemma column_constraints_of row n o :
  get_field row n = opt_json (fun d => JList [d]) o -> column_constraints row n = Ok o.
Proof. intros H. unfold column_constraints. destruct o; by rewrite H. Qed.

Lemma column_optional_enum_of `{PyEnum A} row n (o : option A) :
  (forall a : A, enum_value a <> EmptyString) ->
  get_field row n = opt_json (fun a => JStr (enum_value a)) o -> column_optional_enum row n = Ok o.
Proof.
  intros Hne Hf. unfold column_optional_enum, column_optional_text. rewrite Hf. destruct o as [a|]; [|done].
  cbn [opt_json rbind]. rewrite bool_decide_eq_false_2 by done. by rewrite of_value_enum_value.
Qed.

Lemma cost_components_of cs : NoDup cs -> stored_cost_components (jstrs (map component_value cs)) = Ok cs.
Proof.
  intros Hd. unfold stored_cost_components, jstrs.
  assert (rmap cost_component (map JStr (map component_value cs)) = Ok cs) as ->.
  { clear Hd. induction cs as [|c cs IH]; [done|]. cbn [map rmap cost_component].
    change (component_value c) with (enum_value c). rewrite of_value_enum_value. cbn [of_option rbind].
    by rewrite IH. }
  cbn [rbind]. by rewrite bool_decide_eq_true_2.
Qed.

Lemma ollama_row_decode l : storable_ollama l -> ollama_from_row (ollama_to_row l) = Ok l.
Proof.
  intros [Ht Ho Hc].
  repeat match goal with E : Forall _ (_ :: _) |- _ => apply Forall_cons_1 in E as [? E] end.
  unfold ollama_from_row.
  decode; try decode_column; try reflexivity;
    first
      [ apply ollama_datetime_of; [reflexivity|assumption]
      | apply ollama_optional_datetime_of; [reflexivity|assumption]
      | apply optional_number_of; reflexivity
      | apply optional_float_of; reflexivity
      | apply column_constraints_of; reflexivity
      | apply column_optional_enum_of; [by intros []|reflexivity]
      | by apply cost_components_of
      | idtac ].
  - eapply column_enum_of; [reflexivity|]. instantiate (1 := ol_state l). by destruct (ol_state l).
  - eapply column_enum_of; [reflexivity|]. instantiate (1 := ol_teardown_state l). by destruct (ol_teardown_state l).
  - by destruct l.
Qed.

Lemma ollama_load_storable l : storable_ollama l -> ollama_load l = Ok l.
Proof. intros H. unfold ollama_load. by rewrite ollama_row_decode. Qed.

(** ** Columns an update may write ([_COLUMNS]) *)

Inductive column :=
  | PutMode (v : option OllamaLeaseMode)
  | PutResourceType (v : option OllamaResourceType)
  | PutProviderResourceId (v : option string)
  | PutResourceName (v : option string)
  | PutCreationUncertain (v : bool)
  | PutProvisionAttemptId (v : option string)
  | PutProvisionAttempts (v : Z)
  | PutRouteUrl (v : option string)
  | PutProviderHealthUrl (v : option string)
  | PutState (v : OllamaLeaseState)
  | PutTeardownState (v : OllamaTeardownState)
  | PutUpdatedAt (v : instant)
  | PutProvisioningStartedAt (v : option instant)
  | PutReadyAt (v : option instant)
  | PutLastUsedAt (v : instant)
  | PutIdleDeadline (v : instant)
  | PutModelPullStartedAt (v : option instant)
  | PutModelPullAttempts (v : Z)
  | PutModelReadyAt (v : option instant)
  | PutOfferedRatePerHr (v : option Decimal)
  | PutPlacementGpuCount (v : Z)
  | PutEstimatedCost (v : option Decimal)
  | PutEstimatedComputeCost (v : option Decimal)
  | PutMaximumComputeCost (v : option Decimal)
  | PutEstimatedNonComputeCost (v : option Decimal)
  | PutMaximumNonComputeCost (v : option Decimal)
  | PutCostCeiling (v : option Decimal)
  | PutCostPolicyComponents (v : list OllamaNonComputeCostComponent)
  | PutMaximumConcurrentWorkers (v : option Z)
  | PutEstimatedBillableSeconds (v : option Z)
  | PutMaximumBillableSeconds (v : option Z)
  | PutAccruedEstimatedCost (v : Decimal)
  | PutColdStartSeconds (v : option Decimal)
  | PutSelectedGpuId (v : option string)
  | PutSelectedGpuPool (v : option string)
  | PutSelectedGpuName (v : option string)
  | PutCatalogObservedAt (v : option instant)
  | PutLastProviderError (v : option string)
  | PutTerminationReason (v : option string)
  | PutTeardownAttempts (v : Z).

(** One assignment of the [UPDATE]. *)
Definition put (l : OllamaLease) (c : column) : OllamaLease := {|
  ol_lease_id := ol_lease_id l;
  ol_owner_id := ol_owner_id l;
  ol_workload_id := ol_workload_id l;
  ol_request_fingerprint := ol_request_fingerprint l;
  ol_model := ol_model l;
  ol_constraints_json := ol_constraints_json l;
  ol_mode := match c with PutMode v => v | _ => ol_mode l end;
  ol_resource_type := match c with PutResourceType v => v | _ => ol_resource_type l end;
  ol_provider_resource_id := match c with PutProviderResourceId v => v | _ => ol_provider_resource_id l end;
  ol_resource_name := match c with PutResourceName v => v | _ => ol_resource_name l end;
  ol_creation_uncertain := match c with PutCreationUncertain v => v | _ => ol_creation_uncertain l end;
  ol_provision_attempt_id := match c with PutProvisionAttemptId v => v | _ => ol_provision_attempt_id l end;
  ol_provision_attempts := match c with PutProvisionAttempts v => v | _ => ol_provision_attempts l end;
  ol_route_url := match c with PutRouteUrl v => v | _ => ol_route_url l end;
  ol_provider_health_url := match c with PutProviderHealthUrl v => v | _ => ol_provider_health_url l end;
  ol_state := match c with PutState v => v | _ => ol_state l end;
  ol_teardown_state := match c with PutTeardownState v => v | _ => ol_teardown_state l end;
  ol_created_at := ol_created_at l;
  ol_updated_at := match c with PutUpdatedAt v => v | _ => ol_updated_at l end;
  ol_provisioning_started_at := match c with PutProvisioningStartedAt v => v | _ => ol_provisioning_started_at l end;
  ol_ready_at := match c with PutReadyAt v => v | _ => ol_ready_at l end;
  ol_last_used_at := match c with PutLastUsedAt v => v | _ => ol_last_used_at l end;
  ol_idle_deadline := match c with PutIdleDeadline v => v | _ => ol_idle_deadline l end;
  ol_hard_deadline := ol_hard_deadline l;
  ol_readiness_deadline := ol_readiness_deadline l;
  ol_model_pull_started_at := match c with PutModelPullStartedAt v => v | _ => ol_model_pull_started_at l end;
  ol_model_pull_attempts := match c with PutModelPullAttempts v => v | _ => ol_model_pull_attempts l end;
  ol_model_ready_at := match c with PutModelReadyAt v => v | _ => ol_model_ready_at l end;
  ol_expected_session_seconds := ol_expected_session_seconds l;
  ol_expected_active_seconds := ol_expected_active_seconds l;
  ol_serverless_initialization_seconds := ol_serverless_initialization_seconds l;
  ol_serverless_idle_tail_seconds := ol_serverless_idle_tail_seconds l;
  ol_idle_timeout_seconds := ol_idle_timeout_seconds l;
  ol_offered_rate_per_hr := match c with PutOfferedRatePerHr v => v | _ => ol_offered_rate_per_hr l end;
  ol_estimated_cost := match c with PutEstimatedCost v => v | _ => ol_estimated_cost l end;
  ol_estimated_compute_cost := match c with PutEstimatedComputeCost v => v | _ => ol_estimated_compute_cost l end;
  ol_maximum_compute_cost := match c with PutMaximumComputeCost v => v | _ => ol_maximum_compute_cost l end;
  ol_estimated_non_compute_cost := match c with PutEstimatedNonComputeCost v => v | _ => ol_estimated_non_compute_cost l end;
  ol_maximum_non_compute_cost := match c with PutMaximumNonComputeCost v => v | _ => ol_maximum_non_compute_cost l end;
  ol_cost_ceiling := match c with PutCostCeiling v => v | _ => ol_cost_ceiling l end;
  ol_cost_policy_components := match c with PutCostPolicyComponents v => v | _ => ol_cost_policy_components l end;
  ol_maximum_concurrent_workers := match c with PutMaximumConcurrentWorkers v => v | _ => ol_maximum_concurrent_workers l end;
  ol_estimated_billable_seconds := match c with PutEstimatedBillableSeconds v => v | _ => ol_estimated_billable_seconds l end;
  ol_maximum_billable_seconds := match c with PutMaximumBillableSeconds v => v | _ => ol_maximum_billable_seconds l end;
  ol_accrued_estimated_cost := match c with PutAccruedEstimatedCost v => v | _ => ol_accrued_estimated_cost l end;
  ol_max_authorized_cost := ol_max_authorized_cost l;
  ol_cold_start_seconds := match c with PutColdStartSeconds v => v | _ => ol_cold_start_seconds l end;
  ol_selected_gpu_id := match c with PutSelectedGpuId v => v | _ => ol_selected_gpu_id l end;
  ol_selected_gpu_pool := match c with PutSelectedGpuPool v => v | _ => ol_selected_gpu_pool l end;
  ol_selected_gpu_name := match c with PutSelectedGpuName v => v | _ => ol_selected_gpu_name l end;
  ol_catalog_observed_at := match c with PutCatalogObservedAt v => v | _ => ol_catalog_observed_at l end;
  ol_last_provider_error := match c with PutLastProviderError v => v | _ => ol_last_provider_error l end;
  ol_termination_reason := match c with PutTerminationReason v => v | _ => ol_termination_reason l end;
  ol_teardown_attempts := match c with PutTeardownAttempts v => v | _ => ol_teardown_attempts l end;
  ol_revision := ol_revision l;
  ol_placement_gpu_count := match c with PutPlacementGpuCount v => v | _ => ol_placement_gpu_count l end
|}.

Definition put_all (l : OllamaLease) (cs : list column) : OllamaLease := fold_left put cs l.

(** [revision = revision + 1]. *)
Definition next_revision (l : OllamaLease) : OllamaLease := {|
  ol_lease_id := ol_lease_id l;
  ol_owner_id := ol_owner_id l;
  ol_workload_id := ol_workload_id l;
  ol_request_fingerprint := ol_request_fingerprint l;
  ol_model := ol_model l;
  ol_constraints_json := ol_constraints_json l;
  ol_mode := ol_mode l;
  ol_resource_type := ol_resource_type l;
  ol_provider_resource_id := ol_provider_resource_id l;
  ol_resource_name := ol_resource_name l;
  ol_creation_uncertain := ol_creation_uncertain l;
  ol_provision_attempt_id := ol_provision_attempt_id l;
  ol_provision_attempts := ol_provision_attempts l;
  ol_route_url := ol_route_url l;
  ol_provider_health_url := ol_provider_health_url l;
  ol_state := ol_state l;
  ol_teardown_state := ol_teardown_state l;
  ol_created_at := ol_created_at l;
  ol_updated_at := ol_updated_at l;
  ol_provisioning_started_at := ol_provisioning_started_at l;
  ol_ready_at := ol_ready_at l;
  ol_last_used_at := ol_last_used_at l;
  ol_idle_deadline := ol_idle_deadline l;
  ol_hard_deadline := ol_hard_deadline l;
  ol_readiness_deadline := ol_readiness_deadline l;
  ol_model_pull_started_at := ol_model_pull_started_at l;
  ol_model_pull_attempts := ol_model_pull_attempts l;
  ol_model_ready_at := ol_model_ready_at l;
  ol_expected_session_seconds := ol_expected_session_seconds l;
  ol_expected_active_seconds := ol_expected_active_seconds l;
  ol_serverless_initialization_seconds := ol_serverless_initialization_seconds l;
  ol_serverless_idle_tail_seconds := ol_serverless_idle_tail_seconds l;
  ol_idle_timeout_seconds := ol_idle_timeout_seconds l;
  ol_offered_rate_per_hr := ol_offered_rate_per_hr l;
  ol_estimated_cost := ol_estimated_cost l;
  ol_estimated_compute_cost := ol_estimated_compute_cost l;
  ol_maximum_compute_cost := ol_maximum_compute_cost l;
  ol_estimated_non_compute_cost := ol_estimated_non_compute_cost l;
  ol_maximum_non_compute_cost := ol_maximum_non_compute_cost l;
  ol_cost_ceiling := ol_cost_ceiling l;
  ol_cost_policy_components := ol_cost_policy_components l;
  ol_maximum_concurrent_workers := ol_maximum_concurrent_workers l;
  ol_estimated_billable_seconds := ol_estimated_billable_seconds l;
  ol_maximum_billable_seconds := ol_maximum_billable_seconds l;
  ol_accrued_estimated_cost := ol_accrued_estimated_cost l;
  ol_max_authorized_cost := ol_max_authorized_cost l;
  ol_cold_start_seconds := ol_cold_start_seconds l;
  ol_selected_gpu_id := ol_selected_gpu_id l;
  ol_selected_gpu_pool := ol_selected_gpu_pool l;
  ol_selected_gpu_name := ol_selected_gpu_name l;
  ol_catalog_observed_at := ol_catalog_observed_at l;
  ol_last_provider_error := ol_last_provider_error l;
  ol_termination_reason := ol_termination_reason l;
  ol_teardown_attempts := ol_teardown_attempts l;
  ol_revision := ol_revision l + 1;
  ol_placement_gpu_count := ol_placement_gpu_count l
|}.

(** The updated row: [updated_at] is the wall clock unless the changes set it. *)
Definition updated_lease (row : OllamaLease) (cs : list column) (wall : instant) : OllamaLease :=
  next_revision (put_all row (PutUpdatedAt wall :: cs)).

(** [replace(lease, route_url=..., provider_health_url=...)]. *)
Definition with_route (l : OllamaLease) (route health : option string) : OllamaLease :=
  put (put l (PutRouteUrl route)) (PutProviderHealthUrl health).

(** ** Transactions *)

Section Insert.
Context `{Digest}.

(** The row [insert_request] writes; the other columns take their defaults. *)
Definition requested_lease (r : OllamaLeaseRequest) (now : instant) : OllamaLease := {|
  ol_lease_id := or_lease_id r;
  ol_owner_id := or_owner_id r;
  ol_workload_id := or_workload_id r;
  ol_request_fingerprint := ollama_fingerprint r;
  ol_model := or_model r;
  ol_constraints_json := Some (JObj (sort_keys (constraints_dict (or_constraints r))));
  ol_mode := Some (or_mode r);
  ol_resource_type := None;
  ol_provider_resource_id := None;
  ol_resource_name := None;
  ol_creation_uncertain := false;
  ol_provision_attempt_id := None;
  ol_provision_attempts := 0;
  ol_route_url := None;
  ol_provider_health_url := None;
  ol_state := O_REQUESTED;
  ol_teardown_state := TEARDOWN_NOT_REQUESTED;
  ol_created_at := now;
  ol_updated_at := now;
  ol_provisioning_started_at := None;
  ol_ready_at := None;
  ol_last_used_at := now;
  ol_idle_deadline := Z.min (now + seconds (or_idle_timeout_seconds r)) (or_hard_deadline r);
  ol_hard_deadline := or_hard_deadline r;
  ol_readiness_deadline := Z.min (default now (or_requested_at r) + seconds (or_readiness_timeout_seconds r)) (or_hard_deadline r);
  ol_model_pull_started_at := None;
  ol_model_pull_attempts := 0;
  ol_model_ready_at := None;
  ol_expected_session_seconds := or_expected_session_seconds r;
  ol_expected_active_seconds := or_expected_active_seconds r;
  ol_serverless_initialization_seconds := or_serverless_initialization_seconds r;
  ol_serverless_idle_tail_seconds := or_serverless_idle_tail_seconds r;
  ol_idle_timeout_seconds := or_idle_timeout_seconds r;
  ol_offered_rate_per_hr := None;
  ol_estimated_cost := None;
  ol_estimated_compute_cost := None;
  ol_maximum_compute_cost := None;
  ol_estimated_non_compute_cost := None;
  ol_maximum_non_compute_cost := None;
  ol_cost_ceiling := None;
  ol_cost_policy_components := [];
  ol_maximum_concurrent_workers := None;
  ol_estimated_billable_seconds := None;
  ol_maximum_billable_seconds := None;
  ol_accrued_estimated_cost := Fin 0 (-1);
  ol_max_authorized_cost := num_float (or_max_authorized_cost r);
  ol_cold_start_seconds := None;
  ol_selected_gpu_id := None;
  ol_selected_gpu_pool := None;
  ol_selected_gpu_name := None;
  ol_catalog_observed_at := None;
  ol_last_provider_error := None;
  ol_termination_reason := None;
  ol_teardown_attempts := 0;
  ol_revision := 0;
  ol_placement_gpu_count := 1
|}.

(** [insert_request]: the lease, and whether this call inserted it. The insertion
    fails only on the primary key. *)
Definition insert_request (db : ollama_table) (r : OllamaLeaseRequest) (now : instant)
  : result (OllamaLease * bool) * ollama_table :=
  let answer (row : OllamaLease) (inserted : bool) :=
    let! lease := ollama_load row in
    run! require (bool_decide (ol_request_fingerprint lease = ollama_fingerprint r))
      OllamaLeaseConflictError then
    Ok (lease, inserted) in
  match db !! or_lease_id r with
  | Some row => (answer row false, db)
  | None =>
      let fresh := requested_lease r now in
      (answer fresh true, <[or_lease_id r := fresh]> db)
  end.

End Insert.

(** [get]. *)
Definition ollama_get (db : ollama_table) (lease_id : string) : result (option OllamaLease) :=
  match db !! lease_id with
  | Some row => let! lease := ollama_load row in Ok (Some lease)
  | None => Ok None
  end.

(** [compare_and_set]: the row is updated when its revision is the caller's. *)
Definition ollama_cas (db : ollama_table) (wall : instant) (lease : OllamaLease) (cs : list column)
  : result OllamaLease * ollama_table :=
  match db !! ol_lease_id lease with
  | Some row =>
      if ol_revision row =? ol_revision lease then
        let row' := updated_lease row cs wall in
        (ollama_load row', <[ol_lease_id lease := row']> db)
      else (Exc OllamaLeaseConflictError, db)
  | None => (Exc OllamaLeaseConflictError, db)
  end.

(** [ORDER BY created_at]; ties are taken in key order. *)
Definition created_le (a b : OllamaLease) : Prop :=
  ol_created_at a < ol_created_at b \/
  (ol_created_at a = ol_created_at b /\
   str_le (chars (ol_lease_id a)) (chars (ol_lease_id b)) = true).

#[export] Instance created_le_dec : RelDecision created_le.
Proof. intros a b. unfold created_le. apply _. Defined.

(** [list_for_reconciliation]. *)
Definition ollama_unfinished (db : ollama_table) : result (list OllamaLease) :=
  rmap ollama_load
    (merge_sort created_le
       (filter (fun l => ol_state l <> O_TERMINATED) (map snd (map_to_list db)))).

Lemma ollama_get_row db id l : ollama_get db id = Ok (Some l) -> db !! id = Some l.
Proof.
  unfold ollama_get. destruct (db !! id) as [row|]; [|done]. destruct (ollama_load row) as [l'|] eqn:E; [|done].
  apply ollama_load_same in E as ->. by intros [= ->].
Qed.
