(* ===== verification/OllamaRuntime.v ===== *)
(** The runtime contract of the Ollama workload ([ollama_runtime.py]) and the resolution
    of environment references ([_resolve_env_vars] of [providers.py]). *)
From S2P Require Import Prelude PyStr Enums Errors PyDecimal PyTime Json ContractsBase CodecBase Placement OllamaContracts OllamaLeases.
From Stdlib Require Import Ascii.

#[local] Open Scope Z_scope.

(** A string dict, in insertion order; keys do not repeat. *)
Abbreviation str_dict := (list (string * string)).

Definition get_str (d : str_dict) (key : string) : option string :=
  snd <$> List.find (fun kv => bool_decide (fst kv = key)) d.

(** ** Environment references *)

(** [_ENV_VAR_RE.sub(replace_var, value)]: a reference is a dollar sign and a nonempty
    name in braces; one that names no variable of the process is an error. *)
Fixpoint resolve_chars (environ : string -> option string) (fuel : nat) (l : list ascii) : result (list ascii) :=
  match fuel, l with
  | S f, c :: r =>
      match (if code c =? 36 then strip_prefix ["{"%char] r else None) with
      | Some body =>
          match span (fun x => negb (code x =? 125)) body with
          | (((_ :: _) as name), _ :: rest) =>
              let! value := of_option (environ (of_chars name)) RunPodManagerError in
              let! tail := resolve_chars environ f rest in
              Ok (chars value ++ tail)%list
          | _ => let! tail := resolve_chars environ f r in Ok (c :: tail)
          end
      | None => let! tail := resolve_chars environ f r in Ok (c :: tail)
      end
  | _, _ => Ok l
  end.

Definition resolve_text (environ : string -> option string) (value : string) : result string :=
  let! l := resolve_chars environ (length (chars value)) (chars value) in Ok (of_chars l).

(** [_resolve_env_vars]. *)
Definition resolve_env_vars (environ : string -> option string) (env : str_dict) : result str_dict :=
  rmap (fun kv => let! v := resolve_text environ (snd kv) in Ok (fst kv, v)) env.

(** ** The image *)

Definition OLLAMA_RUNTIME_IMAGE_REPOSITORY : string :=
  "ghcr.io/kestrelsovereignai/kestrel-cloud-runpod-ollama-runtime".
Definition OLLAMA_RUNTIME_PORT : Z := 11434.

(** [require_immutable_ollama_image]: the reviewed repository at a digest. *)
Definition require_immutable_ollama_image (image : string) : result string :=
  match span (fun c => negb (is_space c || (code c =? 64))) (chars image) with
  | ((_ :: _) as repository, rest) =>
      match strip_prefix (chars "@sha256:") rest with
      | Some hex =>
          run! require ((Z.of_nat (length hex) =? 64) && forallb is_hex hex) RunPodManagerError then
          run! require (bool_decide (of_chars repository = OLLAMA_RUNTIME_IMAGE_REPOSITORY)) RunPodManagerError then
          Ok image
      | None => Exc RunPodManagerError
      end
  | _ => Exc RunPodManagerError
  end.

(** ** The model allowlist *)

Definition is_model_char (c : ascii) : bool :=
  is_digit c || is_lower c || (code c =? 46) || (code c =? 95) || (code c =? 45).

(** [[a-z0-9][a-z0-9._/-]*] and [[a-z0-9][a-z0-9._-]*]. *)
Definition model_name_ok (l : list ascii) : bool :=
  match l with
  | c :: r => (is_digit c || is_lower c) && forallb (fun x => is_model_char x || (code x =? 47)) r
  | [] => false
  end.

Definition model_tag_ok (l : list ascii) : bool :=
  match l with
  | c :: r => (is_digit c || is_lower c) && forallb is_model_char r
  | [] => false
  end.

(** [_MODEL_PIN_RE]: [name:tag] and the digest, [None] when the text is no pin. *)
Definition model_pin (spec : list ascii) : option (string * string) :=
  match span (fun c => negb (code c =? 58)) spec with
  | (name, _ :: rest) =>
      match span (fun c => negb (code c =? 64)) rest with
      | (tag, at_digest) =>
          match strip_prefix (chars "@sha256:") at_digest with
          | Some hex =>
              if model_name_ok name && model_tag_ok tag && (Z.of_nat (length hex) =? 64) && forallb is_hex hex
              then Some (of_chars (name ++ ":"%char :: tag)%list, ("sha256:" ++ of_chars hex)%string)
              else None
          | None => None
          end
      end
  | (_, []) => None
  end.

(** [raw.split(",")]. *)
Fixpoint split_on (sep : Z) (current : list ascii) (l : list ascii) : list (list ascii) :=
  match l with
  | [] => [rev current]
  | c :: r => if code c =? sep then rev current :: split_on sep [] r else split_on sep (c :: current) r
  end.

Definition strip_chars (l : list ascii) : list ascii := chars (strip (of_chars l)).

(** One entry of the allowlist after the entries before it. *)
Definition add_pin (allowed : str_dict) (item : list ascii) : result str_dict :=
  match strip_chars item with
  | [] => Ok allowed
  | spec =>
      match model_pin spec with
      | Some (name, digest) =>
          run! require (negb (is_some (get_str allowed name))) RunPodManagerError then
          Ok (allowed ++ [(name, digest)])%list
      | None => Exc RunPodManagerError
      end
  end.

Fixpoint add_pins (allowed : str_dict) (items : list (list ascii)) : result str_dict :=
  match items with
  | [] => Ok allowed
  | item :: rest => let! allowed := add_pin allowed item in add_pins allowed rest
  end.

(** [parse_ollama_model_allowlist]. *)
Definition parse_ollama_model_allowlist (raw : string) : result str_dict :=
  let! allowed := add_pins [] (split_on 44 [] (chars raw)) in
  run! require (negb (bool_decide (allowed = []))) RunPodManagerError then
  Ok allowed.

(** ** The storage path *)

(** The components of a [PurePosixPath]: no empty ones, no single dots. *)
Definition path_parts (path : string) : list (list ascii) :=
  List.filter (fun l => negb (bool_decide (l = [])) && negb (bool_decide (l = ["."%char])))
    (split_on 47 [] (chars path)).

(** Its root: two leading slashes are kept, one or at least three are one. *)
Definition path_root (path : string) : list ascii :=
  match chars path with
  | a :: b :: c :: _ =>
      if code a =? 47 then if (code b =? 47) && negb (code c =? 47) then [a; b] else [a] else []
  | [a; b] => if code a =? 47 then if code b =? 47 then [a; b] else [a] else []
  | [a] => if code a =? 47 then [a] else []
  | [] => []
  end.

Fixpoint join_slash (parts : list (list ascii)) : list ascii :=
  match parts with
  | [] => []
  | [p] => p
  | p :: rest => (p ++ "/"%char :: join_slash rest)%list
  end.

(** [str(PurePosixPath(path))]. *)
Definition posix_text (path : string) : string :=
  match (path_root path ++ join_slash (path_parts path))%list with
  | [] => "."
  | l => of_chars l
  end.

(** [path == root or path.startswith(root + "/")]. *)
Definition under_root (path root : string) : bool :=
  bool_decide (path = root) || is_some (strip_prefix (chars (root ++ "/")) (chars path)).

(** [_model_storage_path]. *)
Definition model_storage_path (path : string) (mode : OllamaLeaseMode) : result string :=
  run! require
    (negb (bool_decide (path_root path = [])) && bool_decide (posix_text path = path) &&
     negb (bool_decide ([".";"."]%char ∈ path_parts path))) RunPodManagerError then
  run! require
    (existsb (under_root path)
       (if bool_decide (mode = SERVERLESS_LOAD_BALANCER) then ["/models"; "/runpod-volume"]
        else ["/models"; "/workspace"])) RunPodManagerError then
  Ok (posix_text path).

(** ** The environment *)

Definition RESERVED_ENV : list string :=
  ["HEALTH_CHECK_PATH"; "KESTREL_OLLAMA_BEARER_TOKEN"; "KESTREL_OLLAMA_BEARER_TOKEN_EXPIRES_AT";
   "KESTREL_OLLAMA_MODE"; "KESTREL_OLLAMA_MODEL_STORAGE_PATH"; "KESTREL_OLLAMA_PROVISION_REQUESTED_AT";
   "KESTREL_OLLAMA_REQUIRED_MODEL"; "OLLAMA_HOST"; "OLLAMA_MODELS"; "OLLAMA_MODELS_PULL"; "PORT";
   "PORT_HEALTH"].

(** [_rfc3339]: microseconds are always written. *)
Definition rfc3339 (t : instant) : string :=
  let '(y, m, d) := civil_from_days (t / DAY) in
  let us := t mod DAY in
  let s := us / US in
  of_chars
    (pad_digits 4 y ++ "-"%char :: pad_digits 2 m ++ "-"%char :: pad_digits 2 d ++ "T"%char ::
     pad_digits 2 (s / 3600) ++ ":"%char :: pad_digits 2 (s / 60 mod 60) ++ ":"%char ::
     pad_digits 2 (s mod 60) ++ "."%char :: pad_digits 6 (us mod US) ++ ["Z"%char])%list.

(** The scoped inference bearer. *)
Definition bearer_ok (token : string) : bool :=
  (32 <=? len token) && bool_decide (strip token = token) &&
  negb (existsb (fun c => (code c =? 13) || (code c =? 10)) (chars token)).

(** [build_ollama_runtime_environment]. *)
Definition build_ollama_runtime_environment (profile_environment : str_dict) (requested_model bearer_token : string)
  (bearer_token_expires_at : instant) (mode : OllamaLeaseMode) (storage : string)
  (provision_requested_at : instant) : result str_dict :=
  run! require (forallb (fun k => negb (is_some (get_str profile_environment k))) RESERVED_ENV)
    RunPodManagerError then
  run! require (negb (bool_decide (mode = AUTO))) RunPodManagerError then
  let! storage_path := model_storage_path storage mode in
  run! require (bearer_ok bearer_token) RunPodManagerError then
  run! require (provision_requested_at <? bearer_token_expires_at) RunPodManagerError then
  let! allowed_raw := of_option (get_str profile_environment "KESTREL_OLLAMA_ALLOWED_MODELS") RunPodManagerError in
  run! require (negb (blank allowed_raw)) RunPodManagerError then
  let! allowed := parse_ollama_model_allowlist allowed_raw in
  run! require (is_some (get_str allowed requested_model)) RunPodManagerError then
  Ok (profile_environment ++
      [("HEALTH_CHECK_PATH", "/ping");
       ("KESTREL_OLLAMA_BEARER_TOKEN", bearer_token);
       ("KESTREL_OLLAMA_BEARER_TOKEN_EXPIRES_AT", rfc3339 bearer_token_expires_at);
       ("KESTREL_OLLAMA_MODE", mode_value mode);
       ("KESTREL_OLLAMA_MODEL_STORAGE_PATH", storage_path);
       ("KESTREL_OLLAMA_PROVISION_REQUESTED_AT", rfc3339 provision_requested_at);
       ("KESTREL_OLLAMA_REQUIRED_MODEL", requested_model);
       ("PORT", int_text OLLAMA_RUNTIME_PORT);
       ("PORT_HEALTH", int_text OLLAMA_RUNTIME_PORT)])%list.

Example storage_default : model_storage_path "/models" SERVERLESS_LOAD_BALANCER = Ok "/models".
Proof. reflexivity. Qed.

Example storage_doubled : model_storage_path "/workspace//ollama" DEDICATED_POD = Exc RunPodManagerError.
Proof. reflexivity. Qed.

Example storage_escapes : model_storage_path "/models/../etc" DEDICATED_POD = Exc RunPodManagerError.
Proof. reflexivity. Qed.

Example resolved_reference :
  resolve_text (fun v => if bool_decide (v = "NAME") then Some "x" else None) "a-${NAME}-$}" = Ok "a-x-$}".
Proof. reflexivity. Qed.
