(* ===== verification/OllamaProvider.v ===== *)
(** [RunpodOllamaCapacityProvider] ([ollama_provider.py]): placement, creation,
    observation and deletion of the resources behind Ollama leases, as programs of calls
    to the control plane, to the workload's own HTTP routes and to the clocks. *)
From S2P Require Import Prelude PyStr Enums Errors PyDecimal PyFloat PyTime Json ContractsBase CodecBase Placement World ServerlessSpec ServerlessQuote ServerlessCatalog Provider OllamaContracts OllamaLeases Prog OllamaRuntime.
From Stdlib Require Import Ascii.

#[local] Open Scope Z_scope.
#[local] Open Scope prog_scope.

(** ** Requests and resources ([models.py]) *)

(** [PodCreateRequest]. *)
Record PodCreateRequest : Set := {
  pq_name : string;
  pq_image : string;
  pq_cloud : CloudType;
  pq_disk_gb : Z;
  pq_ports : list string;
  pq_env : str_dict;
  pq_args : option string;
  pq_registry_id : option string;
  pq_data_center_ids : list string;
  pq_mounts : option (list (string * json));
  pq_global_networking : bool;
  pq_gpu_id : string;
  pq_gpu_count : Z;
  pq_min_cuda_version : option string
}.

(** [__post_init__] of the request and of [_PodContainerRequest]. *)
Definition check_pod_create (r : PodCreateRequest) : result unit :=
  run! require (negb (bool_decide (pq_name r = "")) && negb (bool_decide (pq_image r = ""))) ValueError then
  run! require (1 <=? pq_disk_gb r) ValueError then
  run! require (negb (bool_decide (pq_gpu_id r = ""))) ValueError then
  run! require (1 <=? pq_gpu_count r) ValueError then
  run! normalize_cuda_floor (pq_min_cuda_version r) then
  Ok tt.

(** [to_payload]: the JSON body of the create call. *)
Definition pod_create_payload (r : PodCreateRequest) : list (string * json) :=
  let floor :=
    match normalize_cuda_floor (pq_min_cuda_version r) with
    | Ok (Some f) => [("minCudaVersion", JStr f)]
    | _ => []
    end in
  ([("name", JStr (pq_name r));
    ("image", JStr (pq_image r));
    ("cloud", JStr (cloud_value (pq_cloud r)));
    ("disk", JInt (pq_disk_gb r));
    ("ports", jstrs (pq_ports r));
    ("env", JObj (str_fields (pq_env r)));
    ("globalNetworking", JBool (pq_global_networking r))] ++
   match pq_args r with Some a => [("args", JStr a)] | None => [] end ++
   match pq_registry_id r with Some a => [("registry", JStr a)] | None => [] end ++
   match pq_data_center_ids r with [] => [] | ids => [("dataCenterIds", jstrs ids)] end ++
   match pq_mounts r with Some m => [("mounts", JObj m)] | None => [] end ++
   [("gpu", JObj ([("id", JStr (pq_gpu_id r)); ("count", JInt (pq_gpu_count r))] ++ floor))])%list.

(** [PodResource]. *)
Record PodResource : Set := {
  px_id : string;
  px_name : string;
  px_status : string;
  px_gpu_id : option string;
  px_gpu_count : Z;
  px_cost_per_hr : option Decimal;
  px_raw : list (string * json)
}.

(** An endpoint with its request URLs. *)
Record RoutedEndpoint : Set := {
  rt_endpoint : EndpointResource;
  rt_request_urls : str_dict
}.

(** A response of a workload route: its status, and its body when that is JSON. *)
Record http_response : Set := { hr_status : Z; hr_json : option json }.

(** ** The deployment *)

Record RunpodOllamaDeployment := {
  od_profile : GPUProfile;
  od_serverless_workers_max : Z;
  od_serverless_request_count : Z;
  od_serverless_execution_timeout_ms : Z;
  od_serverless_flashboot : FlashBoot;
  od_http_timeout_seconds : Decimal;
  od_serverless_non_compute_cost : OllamaNonComputeCostPolicy;
  od_pod_non_compute_cost : OllamaNonComputeCostPolicy
}.

(** [if s:] of an optional string. *)
Definition given (s : option string) : bool := is_some s && negb (bool_decide (s = Some "")).

(** The components a cost policy must cover: the shared volume only when one is attached. *)
Definition required_components (d : RunpodOllamaDeployment) : list OllamaNonComputeCostComponent :=
  [CONTAINER_DISK; MODEL_TRANSFER; RETRY_ALLOWANCE] ++
  (if given (gp_network_volume_id (od_profile d)) then [NETWORK_VOLUME] else []).

(** [set(covered) == required]. *)
Definition same_components (a b : list OllamaNonComputeCostComponent) : bool :=
  forallb (fun c => bool_decide (c ∈ b)) a && forallb (fun c => bool_decide (c ∈ a)) b.

(** [RunpodOllamaDeployment.__post_init__]. *)
Definition check_deployment (d : RunpodOllamaDeployment) : result unit :=
  run! require ((1 <=? od_serverless_workers_max d) && (1 <=? od_serverless_request_count d)) ValueError then
  run! require
    ((1 <=? od_serverless_execution_timeout_ms d) && negb (dle (od_http_timeout_seconds d) dzero)) ValueError then
  run! require
    (same_components (cp_covered_components (od_serverless_non_compute_cost d)) (required_components d)) ValueError then
  require
    (same_components (cp_covered_components (od_pod_non_compute_cost d)) (required_components d)) ValueError.

(** [non_compute_cost_policies]. *)
Definition non_compute_cost_policies (d : RunpodOllamaDeployment) : cost_policies := fun mode =>
  match mode with
  | SERVERLESS_LOAD_BALANCER => Some (od_serverless_non_compute_cost d)
  | DEDICATED_POD => Some (od_pod_non_compute_cost d)
  | AUTO => None
  end.

(** ** Calls *)

(** [CNow] is the injected clock, [CWall] the wall clock [select_gpu] stamps its decision
    with; [CHttpGet] carries the bearer of its Authorization header. *)
Inductive capacity_call : Set :=
  | CNow
  | CWall
  | CListGpus (product : ComputeProduct) (count : Z) (cloud : CloudType) (min_cuda_version : option string)
  | CCreateEndpoint (request : EndpointCreateRequest)
  | CCreatePod (request : PodCreateRequest)
  | CListEndpoints
  | CListPods
  | CGetEndpoint (endpoint_id : string)
  | CGetPod (pod_id : string)
  | CDeleteEndpoint (endpoint_id : string)
  | CPodAction (pod_id action : string)
  | CHttpGet (url : string) (bearer_token : option string).

Definition capacity_answer (c : capacity_call) : Set :=
  match c with
  | CNow | CWall => instant
  | CListGpus _ _ _ _ => list GPUOffer
  | CCreateEndpoint _ => EndpointResource
  | CCreatePod _ => PodResource
  | CListEndpoints => list EndpointResource
  | CListPods => list PodResource
  | CGetEndpoint _ => RoutedEndpoint
  | CGetPod _ => PodResource
  | CDeleteEndpoint _ => unit
  | CPodAction _ _ => unit
  | CHttpGet _ _ => http_response
  end.

Abbreviation cprog := (@Prog.prog capacity_call capacity_answer).

Definition ccall (c : capacity_call) : cprog (capacity_answer c) := perform c.

(** ** The provider *)

Record OllamaCapacity := {
  oc_deployment : RunpodOllamaDeployment;
  oc_serverless_api_key : option string;
  oc_pod_bearer_token : option string;
  oc_environ : string -> option string
}.

(** [RunpodOllamaCapacityProvider.__init__]: the credentials are there and distinct. *)
Definition check_credentials (serverless_api_key pod_bearer_token control_plane_api_key : option string)
  : result unit :=
  run! require (given serverless_api_key || given pod_bearer_token) RunPodManagerError then
  run! require
    (negb (given control_plane_api_key &&
           existsb (fun c => given c && bool_decide (c = control_plane_api_key))
             [serverless_api_key; pod_bearer_token])) RunPodManagerError then
  require
    (negb (given serverless_api_key && given pod_bearer_token &&
           bool_decide (serverless_api_key = pod_bearer_token))) RunPodManagerError.

(** [f"{base_url.rstrip('/')}/api/tags"] and the like. *)
Definition route_path (base path : string) : string :=
  let trimmed := rev (drop_while (fun c => code c =? 47) (rev (chars base))) in
  (of_chars trimmed ++ path)%string.

(** *** [_pod_base_url]: the workload port's route, HTTPS only *)

Definition ollama_port_url (pod_id : string) (inference_port : Z) (protocol : string) (item : list (string * json))
  : result (option (option string)) :=
  if bool_decide (Provider.int_of (Provider.field_or item "private" "privatePort") = Some inference_port) then
    if match get_field item "type" with JStr t => bool_decide (lower t = "http") | _ => false end then
      Ok (Some (Some ("https://" ++ pod_id ++ "-" ++ int_text inference_port ++ ".proxy.runpod.net")%string))
    else if negb (bool_decide (lower (strip protocol) = "https")) then Ok (Some None)
    else
      let public := Provider.field_or item "public" "publicPort" in
      match get_field item "ip", public with
      | JStr ip, (JStr _ | JInt _) =>
          let! port := of_option (Provider.int_of public) ValueError in
          Ok (Some (Some ("https://" ++ ip ++ ":" ++ int_text port)%string))
      | _, _ => Ok None
      end
  else Ok None.

(** [None] of an entry: go on with the next one. *)
Fixpoint ollama_ports_url (pod_id : string) (inference_port : Z) (protocol : string) (ports : list json)
  : result (option string) :=
  match ports with
  | [] => Ok None
  | JObj item :: rest =>
      let! url := ollama_port_url pod_id inference_port protocol item in
      match url with
      | Some u => Ok u
      | None => ollama_ports_url pod_id inference_port protocol rest
      end
  | _ :: rest => ollama_ports_url pod_id inference_port protocol rest
  end.

Definition ollama_pod_base_url (pod_id : string) (p : list (string * json)) (inference_port : Z) (protocol : string)
  : result (option string) :=
  match get_field p "runtime" with
  | JObj runtime =>
      match get_field runtime "ports" with
      | JList ports => ollama_ports_url pod_id inference_port protocol ports
      | _ => Ok None
      end
  | _ => Ok None
  end.

(** *** HTTP probes *)

(** [except httpx.HTTPError: return default]. *)
Definition except_http {A} (p : cprog A) (a : A) : cprog A :=
  pcatch p (fun e => match e with HTTPError => Some (Done (Ok a)) | _ => None end).

(** The credential a request carries: an empty one is none. *)
Definition header (bearer_token : option string) : option string :=
  if given bearer_token then bearer_token else None.

(** [_healthy]. *)
Definition healthy (url : string) (bearer_token : option string) : cprog bool :=
  except_http (let+ r := ccall (CHttpGet url (header bearer_token)) in Done (Ok (hr_status r =? 200))) false.

(** [_rejects_anonymous_requests]. *)
Definition rejects_anonymous_requests (base_url : string) : cprog bool :=
  except_http
    (let+ r := ccall (CHttpGet (route_path base_url "/api/tags") None) in
     Done (Ok ((hr_status r =? 401) || (hr_status r =? 403)))) false.

(** [item.get("name") or item.get("model")] when it is a nonempty string. *)
Definition model_name (item : json) : option string :=
  match item with
  | JObj l =>
      match Provider.field_or l "name" "model" with
      | JStr s => if bool_decide (s = "") then None else Some s
      | _ => None
      end
  | _ => None
  end.

Definition names_of (body : option json) : list string :=
  match body with
  | Some (JObj payload) =>
      match get_field payload "models" with JList models => omap model_name models | _ => [] end
  | _ => []
  end.

(** [_models]. *)
Definition models (base_url : string) (bearer_token : option string) : cprog (list string) :=
  except_http
    (let+ r := ccall (CHttpGet (route_path base_url "/api/tags") (header bearer_token)) in
     Done (Ok (if (hr_status r <? 200) || (300 <=? hr_status r) then [] else names_of (hr_json r)))) [].

Section Provider.
Context (oc : OllamaCapacity).

Definition deployment : RunpodOllamaDeployment := oc_deployment oc.
Definition profile : GPUProfile := od_profile deployment.

(** [bearer_token_for]. *)
Definition bearer_token_for (t : OllamaResourceType) : result string :=
  let token := match t with RES_SERVERLESS_ENDPOINT => oc_serverless_api_key oc | RES_POD => oc_pod_bearer_token oc end in
  if given token then of_option token RunPodManagerError else Exc RunPodManagerError.

(** *** [plan] *)

Definition RUNPOD_SERVERLESS_MAX_IDLE_TIMEOUT_SECONDS : Z := 3600.

(** The products a request's mode may use, in the order they are tried. *)
Definition products_of (mode : OllamaLeaseMode) : list ComputeProduct :=
  match mode with
  | SERVERLESS_LOAD_BALANCER => [SERVERLESS]
  | DEDICATED_POD => [POD]
  | AUTO => [SERVERLESS; POD]
  end.

(** A product with no credential, or whose endpoint cannot idle so long, is no choice. *)
Definition product_configured (request : OllamaLeaseRequest) (product : ComputeProduct) : bool :=
  match product with
  | SERVERLESS =>
      given (oc_serverless_api_key oc) &&
      (or_idle_timeout_seconds request <=? RUNPOD_SERVERLESS_MAX_IDLE_TIMEOUT_SECONDS)
  | POD => given (oc_pod_bearer_token oc)
  end.

(** The offers an endpoint can name: those with a pool. Availability without any pool
    is refused. *)
Definition pooled_offers (product : ComputeProduct) (offers : list GPUOffer) : result (list GPUOffer) :=
  match product with
  | POD => Ok offers
  | SERVERLESS =>
      let poolless_available :=
        existsb (fun o => bool_decide (go_pool o = None) &&
                          negb (bool_decide (go_availability o ∈ [None; Some AVAIL_NONE]))) offers in
      let pooled := List.filter (fun o => given (go_pool o)) offers in
      run! require (negb (poolless_available && bool_decide (length pooled = 0%nat))) RunPodManagerError then
      Ok pooled
  end.

(** The placement of one product: a manager error is a failure of that product only. *)
Definition place (requirements : PlacementRequirements) : cprog (option PlacementDecision) :=
  pcatch
    (let+ offers := ccall (CListGpus (pr_product requirements) (pr_gpu_count requirements) (pr_cloud requirements)
                             (pr_min_cuda_version requirements)) in
     let+ offers := Done (pooled_offers (pr_product requirements) offers) in
     let+ observed_at := ccall CWall in
     let+ d := Done (Placement.select_gpu offers requirements observed_at) in
     Done (Ok (Some d)))
    (fun e => if is_manager_error e then Some (Done (Ok None)) else None).

Fixpoint place_products (request : OllamaLeaseRequest) (products : list ComputeProduct)
  : cprog (ComputeProduct -> option PlacementDecision) :=
  match products with
  | [] => Done (Ok (fun _ => None))
  | product :: rest =>
      if product_configured request product then
        let+ requirements := Done (constraint_requirements (or_constraints request) product) in
        let+ d := place requirements in
        let+ others := place_products request rest in
        Done (Ok (fun q => if bool_decide (q = product) then d else others q))
      else place_products request rest
  end.

Definition plan (request : OllamaLeaseRequest) : cprog OllamaPlacementPlan :=
  let+ decisions := place_products request (products_of (or_mode request)) in
  let+ now := ccall CNow in
  Done (select_ollama_plan request decisions (non_compute_cost_policies deployment) now
          (od_serverless_workers_max deployment)).

(** *** The runtime environment *)

(** [profile.volume_mount_path or "/workspace"]. *)
Definition mount_path : string :=
  if given (gp_volume_mount_path profile) then default "" (gp_volume_mount_path profile) else "/workspace".

Definition image_reference : result string :=
  let! image := resolve_text (oc_environ oc) (gp_image_name profile) in
  require_immutable_ollama_image image.

(** Where the models are kept. *)
Definition storage_for (mode : OllamaLeaseMode) : result string :=
  match mode with
  | SERVERLESS_LOAD_BALANCER =>
      run! require
        (negb (given (gp_network_volume_id profile) && negb (od_serverless_workers_max deployment =? 1)))
        RunPodManagerError then
      Ok (if given (gp_network_volume_id profile) then "/runpod-volume/ollama" else "/models")
  | _ =>
      Ok (if given (gp_network_volume_id profile) || negb (gp_volume_gb profile =? 0)
          then route_path mount_path "/ollama" else "/models")
  end.

(** [_runtime_environment]. *)
Definition runtime_environment (request : OllamaLeaseRequest) (mode : OllamaLeaseMode) (provision_requested_at : instant)
  : result str_dict :=
  run! image_reference then
  let! token := bearer_token_for
    (if bool_decide (mode = SERVERLESS_LOAD_BALANCER) then RES_SERVERLESS_ENDPOINT else RES_POD) in
  let! storage := storage_for mode in
  let! env := resolve_env_vars (oc_environ oc) (gp_env profile) in
  build_ollama_runtime_environment env (or_model request) token (or_hard_deadline request) mode storage
    provision_requested_at.

(** [validate_runtime_request]. *)
Definition validate_runtime_request (request : OllamaLeaseRequest) : cprog unit :=
  if bool_decide (or_mode request = AUTO) then Done (Exc RunPodManagerError)
  else
    let+ now := ccall CNow in
    run+ Done (runtime_environment request (or_mode request) now) then
    Done (Ok tt).

(** *** [provision] *)

Definition volume_ids : list string :=
  if given (gp_network_volume_id profile) then [default "" (gp_network_volume_id profile)] else [].

Definition endpoint_request (request : OllamaLeaseRequest) (plan : OllamaPlacementPlan)
  (resource_name image pool : string) (env : str_dict) : EndpointCreateRequest := {|
  er_name := resource_name;
  er_image := image;
  er_gpu_pools := [pool];
  er_endpoint_type := "LOAD_BALANCER";
  er_scaling := [("type", JStr "REQUEST_COUNT"); ("requestCount", JInt (od_serverless_request_count deployment))];
  er_gpu_count := pd_gpu_count (op_placement plan);
  er_workers_min := 0;
  er_workers_max := od_serverless_workers_max deployment;
  er_idle_timeout_seconds := Some (or_idle_timeout_seconds request);
  er_disk_gb := gp_container_disk_gb profile;
  er_ports := gp_ports profile;
  er_env := env;
  er_args := None;
  er_registry_id := gp_registry_id profile;
  er_data_center_ids := rc_allowed_data_center_ids (or_constraints request);
  er_network_volume_ids := volume_ids;
  er_execution_timeout_ms := od_serverless_execution_timeout_ms deployment;
  er_flashboot := od_serverless_flashboot deployment;
  er_min_cuda_version := rc_min_cuda_version (or_constraints request);
  er_resource_schema_version := RESOURCE_GA
|}.

Definition pod_mounts : option (list (string * json)) :=
  if given (gp_network_volume_id profile) then
    Some [("network", JList [JObj [("volumeId", JStr (default "" (gp_network_volume_id profile)));
                                   ("path", JStr mount_path)]])]
  else if negb (gp_volume_gb profile =? 0) then
    Some [("persistent", JObj [("size", JInt (gp_volume_gb profile)); ("path", JStr mount_path)])]
  else None.

Definition pod_request (request : OllamaLeaseRequest) (plan : OllamaPlacementPlan)
  (resource_name image : string) (env : str_dict) : PodCreateRequest := {|
  pq_name := resource_name;
  pq_image := image;
  pq_cloud := rc_cloud (or_constraints request);
  pq_disk_gb := gp_container_disk_gb profile;
  pq_ports := gp_ports profile;
  pq_env := env;
  pq_args := None;
  pq_registry_id := gp_registry_id profile;
  pq_data_center_ids := rc_allowed_data_center_ids (or_constraints request);
  pq_mounts := pod_mounts;
  pq_global_networking := false;
  pq_gpu_id := pd_gpu_id (op_placement plan);
  pq_gpu_count := pd_gpu_count (op_placement plan);
  pq_min_cuda_version := rc_min_cuda_version (or_constraints request)
|}.

Definition provisioned (t : OllamaResourceType) (id name : string) : ProvisionedOllamaResource := {|
  rs_resource_type := t; rs_provider_resource_id := id; rs_resource_name := name
|}.

Definition provision (request : OllamaLeaseRequest) (plan : OllamaPlacementPlan) (resource_name : string)
  : cprog ProvisionedOllamaResource :=
  let+ image := Done image_reference in
  let+ requested_at := ccall CNow in
  match op_resource_type plan with
  | RES_SERVERLESS_ENDPOINT =>
      let+ env := Done (runtime_environment request SERVERLESS_LOAD_BALANCER requested_at) in
      let pool := pd_gpu_pool (op_placement plan) in
      run+ Done (require (given pool) RunPodManagerError) then
      let spec := endpoint_request request plan resource_name image (default "" pool) env in
      run+ Done (check_endpoint_create spec) then
      let+ endpoint := ccall (CCreateEndpoint spec) in
      Done (Ok (provisioned RES_SERVERLESS_ENDPOINT (en_id endpoint) resource_name))
  | RES_POD =>
      let+ env := Done (runtime_environment request DEDICATED_POD requested_at) in
      let spec := pod_request request plan resource_name image env in
      run+ Done (check_pod_create spec) then
      let+ pod := ccall (CCreatePod spec) in
      Done (Ok (provisioned RES_POD (px_id pod) resource_name))
  end.

(** *** [find_resource] *)

(** The one resource of the durable name; two are an error. *)
Definition unique_match (t : OllamaResourceType) (resource_name : string) (ids : list string)
  : result (option ProvisionedOllamaResource) :=
  match ids with
  | [] => Ok None
  | [id] => Ok (Some (provisioned t id resource_name))
  | _ => Exc RunPodManagerError
  end.

Definition find_resource (t : OllamaResourceType) (resource_name : string)
  : cprog (option ProvisionedOllamaResource) :=
  match t with
  | RES_SERVERLESS_ENDPOINT =>
      let+ items := ccall CListEndpoints in
      Done (unique_match t resource_name
              (map en_id (List.filter (fun e => bool_decide (en_name e = resource_name)) items)))
  | RES_POD =>
      let+ items := ccall CListPods in
      Done (unique_match t resource_name
              (map px_id (List.filter (fun p => bool_decide (px_name p = resource_name)) items)))
  end.

(** *** [observe] *)

(** [raw] of an endpoint is an object. *)
Definition raw_fields (raw : json) : list (string * json) := match raw with JObj l => l | _ => [] end.

Definition observe_endpoint (endpoint_id : string) : cprog OllamaReadinessObservation :=
  let+ e := ccall (CGetEndpoint endpoint_id) in
  run+ Done (validate_endpoint_mounts (raw_fields (en_raw (rt_endpoint e))) volume_ids) then
  let base_url := get_str (rt_request_urls e) "base" in
  let health_url := get_str (rt_request_urls e) "health" in
  let+ ready := (if given health_url then healthy (default "" health_url) (oc_serverless_api_key oc)
                 else Done (Ok false)) in
  let+ names := (if given base_url then models (default "" base_url) (oc_serverless_api_key oc)
                 else Done (Ok [])) in
  Done (Ok {| ro_provider_ready := ready; ro_route_url := base_url; ro_provider_health_url := health_url;
              ro_model_names := names |}).

Definition observe_pod (pod_id : string) : cprog OllamaReadinessObservation :=
  let+ pod := ccall (CGetPod pod_id) in
  let+ base_url := Done (ollama_pod_base_url pod_id (px_raw pod) (gp_inference_port profile)
                           (gp_inference_protocol profile)) in
  let url := default "" base_url in
  let+ private_route := (if given base_url then rejects_anonymous_requests url else Done (Ok false)) in
  let+ runtime_ready := (if given base_url && private_route
                         then healthy (route_path url "/ping") (oc_pod_bearer_token oc) else Done (Ok false)) in
  let ready := bool_decide (upper (px_status pod) = "RUNNING") && private_route && runtime_ready in
  let+ names := (if given base_url && ready then models url (oc_pod_bearer_token oc) else Done (Ok [])) in
  Done (Ok {| ro_provider_ready := ready; ro_route_url := base_url; ro_provider_health_url := None;
              ro_model_names := names |}).

Definition observe (resource : ProvisionedOllamaResource) : cprog OllamaReadinessObservation :=
  match rs_resource_type resource with
  | RES_SERVERLESS_ENDPOINT => observe_endpoint (rs_provider_resource_id resource)
  | RES_POD => observe_pod (rs_provider_resource_id resource)
  end.

(** *** [pull_model] and [teardown] *)

Definition pull_model (resource : ProvisionedOllamaResource) (route_url model : string) : cprog unit :=
  Done (Exc RunPodManagerError).

(** [except RunPodAPIError as exc: if exc.status_code != 404: raise]. *)
Definition except_absent (p : cprog unit) : cprog unit :=
  pcatch p (fun e => if is_not_found e then Some (Done (Ok tt)) else None).

Definition teardown (resource : ProvisionedOllamaResource) : cprog unit :=
  let id := rs_provider_resource_id resource in
  let serverless := bool_decide (rs_resource_type resource = RES_SERVERLESS_ENDPOINT) in
  run+ except_absent (if serverless then ccall (CDeleteEndpoint id) else ccall (CPodAction id "terminate")) then
  let+ present :=
    pcatch
      (if serverless then run+ ccall (CGetEndpoint id) then Done (Ok true)
       else run+ ccall (CGetPod id) then Done (Ok true))
      (fun e => if is_not_found e then Some (Done (Ok false)) else None) in
  Done (if present : bool then Exc RunPodManagerError else Ok tt).

End Provider.
