(* ===== verification/OllamaService.v ===== *)
(** [OllamaLeaseService] ([ollama_service.py]) and [request_from_lease]
    ([ollama_repository.py]), as programs of calls: transactions of the lease table,
    the capacity provider, the clock, sleep and the caller's cancellation. *)
From S2P Require Import Prelude PyStr Enums Errors PyDecimal PyFloat PyTime Json ContractsBase CodecBase Placement OllamaContracts OllamaLeases OllamaRepository Prog.

#[local] Open Scope Z_scope.
#[local] Open Scope prog_scope.

(** ** Calls *)

Inductive ollama_call : Set :=
  | ONow
  | OGet (lease_id : string)
  | OInsert (request : OllamaLeaseRequest) (now : instant)
  | OCas (lease : OllamaLease) (changes : list column)
  | OList
  | OPlan (request : OllamaLeaseRequest)
  | OValidate (request : OllamaLeaseRequest)
  | OProvision (request : OllamaLeaseRequest) (plan : OllamaPlacementPlan) (name : string)
  | OFind (t : OllamaResourceType) (name : string)
  | OObserve (resource : ProvisionedOllamaResource)
  | OPull (resource : ProvisionedOllamaResource) (route_url model : string)
  | OTeardown (resource : ProvisionedOllamaResource)
  | OSleep
  | OCancelled.

Definition ollama_answer (c : ollama_call) : Set :=
  match c with
  | ONow => instant
  | OGet _ => option OllamaLease
  | OInsert _ _ => OllamaLease * bool
  | OCas _ _ => OllamaLease
  | OList => list OllamaLease
  | OPlan _ => OllamaPlacementPlan
  | OValidate _ => unit
  | OProvision _ _ _ => ProvisionedOllamaResource
  | OFind _ _ => option ProvisionedOllamaResource
  | OObserve _ => OllamaReadinessObservation
  | OPull _ _ _ => unit
  | OTeardown _ => unit
  | OSleep => unit
  | OCancelled => bool
  end.

Abbreviation oprog := (@Prog.prog ollama_call ollama_answer).

Definition ocall (c : ollama_call) : oprog (ollama_answer c) := perform c.

(** [await_owned_effect]: the effect ends before a cancellation is raised, and an
    error of the effect comes first. *)
Definition owned_effect {A} (p : oprog A) : oprog A :=
  let+ a := p in
  let+ cancelled := ocall OCancelled in
  Done (if cancelled : bool then Exc CancelledError else Ok a).

(** ** State machine *)

(** [_ALLOWED_TRANSITIONS]. *)
Definition allowed_transitions (s : OllamaLeaseState) : list OllamaLeaseState :=
  match s with
  | O_REQUESTED => [O_PROVISIONING; O_FAILED; O_TERMINATED]
  | O_PROVISIONING => [O_RECONCILE_REQUIRED; O_WAITING_FOR_MODEL; O_RELEASING; O_FAILED]
  | O_RECONCILE_REQUIRED => [O_WAITING_FOR_MODEL; O_RELEASING; O_FAILED]
  | O_WAITING_FOR_MODEL => [O_READY; O_RELEASING; O_FAILED]
  | O_READY => [O_RELEASING]
  | O_RELEASING => [O_TERMINATED]
  | O_FAILED => [O_RELEASING; O_TERMINATED]
  | O_TERMINATED => []
  end.

Definition transition_allowed (s t : OllamaLeaseState) : bool :=
  bool_decide (t = s) || bool_decide (t ∈ allowed_transitions s).

(** ** Validation of a plan and recovery of a request *)

(** [validate_plan]. *)
Definition validate_plan (request : OllamaLeaseRequest) (plan : OllamaPlacementPlan) : result unit :=
  let serverless := bool_decide (op_mode plan = SERVERLESS_LOAD_BALANCER) in
  let rate := pd_offered_cost_per_hr (op_placement plan) in
  run! require
    (bool_decide
       (op_mode plan ∈
          (if bool_decide (or_mode request = AUTO)
           then [SERVERLESS_LOAD_BALANCER; DEDICATED_POD] else [or_mode request])))
    RunPodManagerError then
  run! require
    (bool_decide (op_resource_type plan = (if serverless then RES_SERVERLESS_ENDPOINT else RES_POD)))
    RunPodManagerError then
  run! require
    (bool_decide (pr_product (pd_requirements (op_placement plan)) = (if serverless then SERVERLESS else POD)))
    RunPodManagerError then
  run! require
    (num_nonnegative (op_estimated_cost plan) && is_finite (num_decimal (op_cost_ceiling plan)) &&
     negb (dlt (num_decimal (op_cost_ceiling plan)) (num_decimal (op_estimated_cost plan))) &&
     is_finite rate && dlt dzero rate && (0 <? op_estimated_billable_seconds plan))
    RunPodManagerError then
  run! require (negb (dlt (num_decimal (or_max_authorized_cost request)) (num_decimal (op_cost_ceiling plan))))
    RunPodManagerError then
  require
    (match rc_max_hourly_rate (or_constraints request) with
     | Some m => negb (dlt (num_decimal m) rate)
     | None => true
     end) RunPodManagerError.

(** [_string_tuple]: a missing key reads as a tuple, which is no list. *)
Definition stored_string_tuple (value : list (string * json)) (name : string) : result (list string) :=
  match get_field value name with
  | JList items =>
      let! texts := rmap (fun v => match v with JStr s => Ok s | _ => Exc TypeError end) items in
      run! require (forallb (fun s => negb (bool_decide (s = ""))) texts) ValueError then
      Ok texts
  | _ => Exc TypeError
  end.

Definition required_stored_int (value : list (string * json)) (name : string) : result Z :=
  match get_field value name with JInt z => Ok z | _ => Exc TypeError end.

Definition required_stored_string (value : list (string * json)) (name : string) : result string :=
  match get_field value name with
  | JStr s => run! require (negb (bool_decide (s = ""))) ValueError then Ok s
  | _ => Exc TypeError
  end.

Definition optional_stored_string (value : list (string * json)) (name : string) : result (option string) :=
  match get_field value name with JNull => Ok None | JStr s => Ok (Some s) | _ => Exc TypeError end.

Definition optional_stored_float (value : list (string * json)) (name : string) : result (option Decimal) :=
  match get_field value name with
  | JNull => Ok None
  | JInt z => Ok (Some (num_float (NInt z)))
  | JFloat d => run! require (is_finite d) ValueError then Ok (Some d)
  | _ => Exc TypeError
  end.

(** The constraints a row's document holds. *)
Definition stored_constraints (raw : list (string * json)) : result OllamaResourceConstraints :=
  let! min_vram_gb := required_stored_int raw "min_vram_gb" in
  let! gpu_count := required_stored_int raw "gpu_count" in
  let! cloud_text := required_stored_string raw "cloud" in
  let! cloud := of_option (of_value cloud_text) ValueError in
  let! min_cuda_version := optional_stored_string raw "min_cuda_version" in
  let! allowed_gpu_ids := stored_string_tuple raw "allowed_gpu_ids" in
  let! allowed_gpu_pools := stored_string_tuple raw "allowed_gpu_pools" in
  let! allowed_data_center_ids := stored_string_tuple raw "allowed_data_center_ids" in
  let! max_hourly_rate := optional_stored_float raw "max_hourly_rate" in
  let c := {|
    rc_min_vram_gb := min_vram_gb;
    rc_gpu_count := gpu_count;
    rc_cloud := cloud;
    rc_min_cuda_version := min_cuda_version;
    rc_allowed_gpu_ids := allowed_gpu_ids;
    rc_allowed_gpu_pools := allowed_gpu_pools;
    rc_allowed_data_center_ids := allowed_data_center_ids;
    rc_max_hourly_rate := NFloat <$> max_hourly_rate
  |} in
  run! check_constraints c then Ok c.

Definition corrupt (e : exn) : bool :=
  match e with TypeError | ValueError => true | _ => false end.

Section Service.
Context `{Digest} `{ErrorText}.

(** The request a REQUESTED row stands for: recovered after a crash before provisioning.
    [requested_at] is not stored. *)
Definition recovered_request (lease : OllamaLease) (mode : OllamaLeaseMode)
  (constraints : OllamaResourceConstraints) : OllamaLeaseRequest := {|
  or_lease_id := ol_lease_id lease;
  or_owner_id := ol_owner_id lease;
  or_workload_id := ol_workload_id lease;
  or_model := ol_model lease;
  or_constraints := constraints;
  or_expected_session_seconds := ol_expected_session_seconds lease;
  or_expected_active_seconds := ol_expected_active_seconds lease;
  or_serverless_initialization_seconds := ol_serverless_initialization_seconds lease;
  or_serverless_idle_tail_seconds := ol_serverless_idle_tail_seconds lease;
  or_idle_timeout_seconds := ol_idle_timeout_seconds lease;
  or_readiness_timeout_seconds :=
    Z.max 1 (float_ceil (total_seconds (ol_readiness_deadline lease - ol_created_at lease)));
  or_hard_deadline := ol_hard_deadline lease;
  or_max_authorized_cost := NFloat (ol_max_authorized_cost lease);
  or_mode := mode;
  or_requested_at := None
|}.

(** [request_from_lease]. *)
Definition request_from_lease (lease : OllamaLease) : result OllamaLeaseRequest :=
  match ol_mode lease with
  | Some mode =>
      if bool_decide (ol_state lease = O_REQUESTED) then
        match ol_constraints_json lease with
        | Some (JObj raw) =>
            match stored_constraints raw with
            | Ok constraints =>
                let request := recovered_request lease mode constraints in
                run! check_ollama_request request then Ok request
            | Exc e => Exc (if corrupt e then RunPodManagerError else e)
            end
        | _ => Exc RunPodManagerError
        end
      else Exc RunPodManagerError
  | None => Exc RunPodManagerError
  end.

(** ** Helpers *)

(** [_transition]. *)
Definition transition (lease : OllamaLease) (target : OllamaLeaseState) (changes : list column)
  : oprog OllamaLease :=
  if transition_allowed (ol_state lease) target
  then ocall (OCas lease (PutState target :: changes))
  else Done (Exc RunPodManagerError).

(** [_required]. *)
Definition required_lease (lease_id : string) : oprog OllamaLease :=
  let+ found := ocall (OGet lease_id) in
  Done (of_option found RunPodManagerError).

(** [_authorize]. *)
Definition authorize (lease : OllamaLease) (owner_id workload_id : string) : oprog unit :=
  Done (require (bool_decide (ol_owner_id lease = owner_id) && bool_decide (ol_workload_id lease = workload_id))
          OllamaLeaseAuthorizationError).

(** [lease.termination_reason or reason]. *)
Definition kept_reason (lease : OllamaLease) (reason : string) : option string :=
  match ol_termination_reason lease with
  | Some r => if bool_decide (r = "") then Some reason else Some r
  | None => Some reason
  end.

Definition reason_error (reason : string) (e : exn) : option string :=
  Some (reason ++ ": " ++ sanitize_provider_error e)%string.

(** Run [p]; a manager error goes to [h], any other exception passes. *)
Definition except_manager {A} (p : oprog A) (h : exn -> oprog A) : oprog A :=
  pcatch p (fun e => if is_manager_error e then Some (h e) else None).

Definition is_teardown_error (e : exn) : bool :=
  match e with OllamaLeaseTeardownError => true | _ => false end.

(** [try: p except OllamaLeaseTeardownError: return self._required(lease_id)]. *)
Definition teardown_retries (lease_id : string) (p : oprog OllamaLease) : oprog OllamaLease :=
  pcatch p (fun e => if is_teardown_error e then Some (required_lease lease_id) else None).

(** ** Teardown *)

(** [_resolve_uncertain_release]. *)
Definition resolve_uncertain_release (lease : OllamaLease) (reason : string) : oprog OllamaLease :=
  match ol_resource_type lease, ol_resource_name lease with
  | Some t, Some name =>
      let+ found :=
        except_manager
          (let+ r := ocall (OFind t name) in Done (Ok (inl r)))
          (fun e =>
             let+ l := ocall (OCas lease [PutTeardownState TEARDOWN_RETRYABLE_FAILURE;
                                          PutLastProviderError (reason_error reason e)]) in
             Done (Ok (inr l))) in
      match found with
      | inr l => Done (Ok l)
      | inl (Some resource) =>
          ocall (OCas lease
            [PutProviderResourceId (Some (rs_provider_resource_id resource));
             PutCreationUncertain false; PutTeardownState TEARDOWN_PENDING; PutLastProviderError None])
      | inl None =>
          ocall (OCas lease
            [PutTeardownState TEARDOWN_RETRYABLE_FAILURE;
             PutLastProviderError (Some (reason ++ ": awaiting ambiguous creation reconciliation")%string)])
      end
  | _, _ =>
      ocall (OCas lease
        [PutTeardownState TEARDOWN_RETRYABLE_FAILURE;
         PutLastProviderError (Some (reason ++ ": uncertain creation has no resource identity")%string)])
  end.

(** [_teardown_effect]. *)
Definition teardown_effect (lease : OllamaLease) (reason : string) : oprog OllamaLease :=
  run+ except_manager
    (let+ resource := Done (resource_from_lease lease) in ocall (OTeardown resource))
    (fun e =>
       let+ now := ocall ONow in
       run+ ocall (OCas lease
         [PutTeardownState TEARDOWN_RETRYABLE_FAILURE; PutLastProviderError (reason_error reason e);
          PutAccruedEstimatedCost (accrued_cost lease now)]) then
       Done (Exc OllamaLeaseTeardownError)) then
  let+ now := ocall ONow in
  transition lease O_TERMINATED
    [PutTeardownState TEARDOWN_COMPLETE; PutLastProviderError None;
     PutAccruedEstimatedCost (accrued_cost lease now); PutTerminationReason (kept_reason lease reason)].

(** The terminal write of a lease that has no resource. *)
Definition terminate_unprovisioned (lease : OllamaLease) (reason : string) : oprog OllamaLease :=
  transition lease O_TERMINATED
    [PutTeardownState TEARDOWN_COMPLETE; PutLastProviderError None;
     PutTerminationReason (kept_reason lease reason)].

(** The deletion of a recorded resource. *)
Definition teardown_recorded (lease : OllamaLease) (reason : string) : oprog OllamaLease :=
  let+ lease := ocall (OCas lease [PutTeardownAttempts (ol_teardown_attempts lease + 1)]) in
  owned_effect (teardown_effect lease reason).

(** What [_release] does of a RELEASING lease. *)
Definition release_releasing (lease : OllamaLease) (reason : string) : oprog OllamaLease :=
  if has_resource_id lease then teardown_recorded lease reason
  else if ol_creation_uncertain lease then
    let+ lease := resolve_uncertain_release lease reason in
    if ol_creation_uncertain lease then Done (Exc OllamaLeaseTeardownError)
    else if has_resource_id lease then teardown_recorded lease reason
    else terminate_unprovisioned lease reason
  else terminate_unprovisioned lease reason.

(** [_release]. *)
Definition release_lease (lease : OllamaLease) (reason : string) : oprog OllamaLease :=
  if bool_decide (ol_state lease = O_TERMINATED) then Done (Ok lease)
  else
    let+ now := ocall ONow in
    if bool_decide (ol_state lease = O_REQUESTED) && negb (has_resource_id lease) then
      transition lease O_TERMINATED
        [PutTeardownState TEARDOWN_COMPLETE; PutAccruedEstimatedCost (accrued_cost lease now);
         PutLastProviderError None; PutTerminationReason (kept_reason lease reason)]
    else
      let+ lease :=
        (if bool_decide (ol_state lease = O_RELEASING) then Done (Ok lease)
         else
           transition lease O_RELEASING
             [PutTeardownState TEARDOWN_PENDING; PutRouteUrl None;
              PutAccruedEstimatedCost (accrued_cost lease now); PutLastProviderError None;
              PutTerminationReason (kept_reason lease reason)]) in
      release_releasing lease reason.

(** ** Readiness *)

(** The deadline half and the cost half of a release gate. *)
Definition past_hard_or_cost (lease : OllamaLease) (now : instant) : bool :=
  (ol_hard_deadline lease <=? now) || over_authorized_cost lease now.

Definition past_idle (lease : OllamaLease) (now : instant) : instant :=
  Z.min (now + seconds (ol_idle_timeout_seconds lease)) (ol_hard_deadline lease).

(** [not observation.provider_ready or not observation.route_url], negated. *)
Definition routable (o : OllamaReadinessObservation) : bool :=
  ro_provider_ready o &&
  match ro_route_url o with Some u => negb (bool_decide (u = "")) | None => false end.

Definition attach_route (lease : OllamaLease) (o : OllamaReadinessObservation) : OllamaLease :=
  with_route lease (ro_route_url o) (ro_provider_health_url o).

(** [_ready_with_route]. *)
Definition ready_with_route (lease : OllamaLease) : oprog OllamaLease :=
  let+ now := ocall ONow in
  let accrued := accrued_cost lease now in
  if (ol_hard_deadline lease <=? now) || (ol_idle_deadline lease <=? now) || over_authorized_cost lease now
  then release_lease lease "deadline_or_cost_cap"
  else
    let+ observation :=
      except_manager
        (let+ resource := Done (resource_from_lease lease) in ocall (OObserve resource))
        (fun e =>
           run+ ocall (OCas lease [PutLastProviderError (Some (sanitize_provider_error e));
                                   PutAccruedEstimatedCost accrued]) then
           Done (Exc OllamaLeaseReadinessError)) in
    if routable observation && has_model observation (ol_model lease) then
      let+ durable := ocall (OCas lease [PutAccruedEstimatedCost accrued; PutLastProviderError None]) in
      Done (Ok (attach_route durable observation))
    else
      run+ ocall (OCas lease
        [PutLastProviderError (Some "ready route did not pass exact-model readiness");
         PutAccruedEstimatedCost accrued]) then
      Done (Exc OllamaLeaseReadinessError).

(** The readiness write of a routable lease whose model is present. *)
Definition mark_ready (lease : OllamaLease) (now : instant) (o : OllamaReadinessObservation)
  : oprog OllamaLease :=
  let started := default (ol_created_at lease) (ol_provisioning_started_at lease) in
  let+ ready := transition lease O_READY
    [PutReadyAt (Some now); PutModelReadyAt (Some now); PutLastUsedAt now;
     PutIdleDeadline (past_idle lease now);
     PutColdStartSeconds (Some (total_seconds (now - started))); PutLastProviderError None] in
  Done (Ok (attach_route ready o)).

(** The pull of a routable lease whose model is absent. *)
Definition request_pull (lease : OllamaLease) (resource : ProvisionedOllamaResource)
  (now : instant) (route_url : string) : oprog OllamaLease :=
  let+ lease := ocall (OCas lease
    [PutModelPullStartedAt (Some (default now (ol_model_pull_started_at lease)));
     PutModelPullAttempts (ol_model_pull_attempts lease + 1); PutLastProviderError None]) in
  except_manager
    (run+ ocall (OPull resource route_url (ol_model lease)) then Done (Ok lease))
    (fun e => ocall (OCas lease [PutLastProviderError (Some (sanitize_provider_error e))])).

(** [_check_readiness_once]. *)
Definition check_readiness_once (lease : OllamaLease) : oprog OllamaLease :=
  let+ resource := Done (resource_from_lease lease) in
  let+ now := ocall ONow in
  let accrued := accrued_cost lease now in
  let+ observed :=
    except_manager
      (let+ o := ocall (OObserve resource) in Done (Ok (inl o)))
      (fun e =>
         let+ l := ocall (OCas lease [PutLastProviderError (Some (sanitize_provider_error e));
                                      PutAccruedEstimatedCost accrued]) in
         Done (Ok (inr l))) in
  match observed with
  | inr l => Done (Ok l)
  | inl observation =>
      let+ lease := ocall (OCas lease [PutAccruedEstimatedCost accrued]) in
      if past_hard_or_cost lease now then release_lease lease "deadline_or_cost_cap"
      else if routable observation then
        if has_model observation (ol_model lease) then mark_ready lease now observation
        else request_pull lease resource now (default "" (ro_route_url observation))
      else Done (Ok lease)
  end.

(** [_wait_until_ready]: one turn of the loop per unit of fuel. *)
Fixpoint wait_until_ready (fuel : nat) (lease : OllamaLease) : oprog OllamaLease :=
  match fuel with
  | O => Done (Exc OutOfFuel)
  | S f =>
      if bool_decide (ol_state lease = O_WAITING_FOR_MODEL) then
        let+ lease := check_readiness_once lease in
        if bool_decide (ol_state lease = O_READY) then Done (Ok lease)
        else
          let+ now := ocall ONow in
          if bool_decide (ol_state lease = O_WAITING_FOR_MODEL) && past_hard_or_cost lease now
          then release_lease lease "deadline_or_cost_cap"
          else if ol_readiness_deadline lease <=? now then
            run+ pcatch (release_lease lease "readiness_timeout")
              (fun e => if is_teardown_error e then Some (Done (Ok lease)) else None) then
            Done (Exc OllamaLeaseReadinessError)
          else
            run+ ocall OSleep then wait_until_ready f lease
      else Done (Ok lease)
  end.

(** ** Creation *)

(** [_provision_effect]: the create call and its durable receipt. *)
Definition provision_effect (lease : OllamaLease) (request : OllamaLeaseRequest)
  (plan : OllamaPlacementPlan) (provider_name : string) : oprog OllamaLease :=
  let+ resource :=
    except_manager (ocall (OProvision request plan provider_name))
      (fun e =>
         run+ transition lease O_RECONCILE_REQUIRED
           [PutLastProviderError (Some (sanitize_provider_error e))] then
         Done (Exc e)) in
  transition lease O_WAITING_FOR_MODEL
    [PutProviderResourceId (Some (rs_provider_resource_id resource)); PutCreationUncertain false;
     PutLastProviderError None].

(** What the PROVISIONING write keeps of the plan. *)
Definition plan_columns (plan : OllamaPlacementPlan) : list column :=
  let d := op_placement plan in
  [PutOfferedRatePerHr (Some (float_of_decimal (pd_offered_cost_per_hr d))); PutPlacementGpuCount (pd_gpu_count d);
   PutEstimatedCost (Some (num_float (op_estimated_cost plan)));
   PutEstimatedComputeCost (Some (num_float (op_estimated_compute_cost plan)));
   PutMaximumComputeCost (Some (num_float (op_maximum_compute_cost plan)));
   PutEstimatedNonComputeCost (Some (num_float (op_estimated_non_compute_cost plan)));
   PutMaximumNonComputeCost (Some (num_float (op_maximum_non_compute_cost plan)));
   PutCostCeiling (Some (num_float (op_cost_ceiling plan)));
   PutCostPolicyComponents (op_non_compute_components plan);
   PutMaximumConcurrentWorkers (Some (op_maximum_concurrent_workers plan));
   PutEstimatedBillableSeconds (Some (op_estimated_billable_seconds plan));
   PutMaximumBillableSeconds (Some (op_maximum_billable_seconds plan));
   PutSelectedGpuId (Some (pd_gpu_id d)); PutSelectedGpuPool (pd_gpu_pool d);
   PutSelectedGpuName (Some (pd_gpu_name d)); PutCatalogObservedAt (Some (pd_catalog_observed_at d))].

(** The claim made before the create call. *)
Definition provisioning_columns (lease : OllamaLease) (request : OllamaLeaseRequest)
  (plan : OllamaPlacementPlan) (now : instant) : list column :=
  [PutMode (Some (op_mode plan)); PutResourceType (Some (op_resource_type plan));
   PutResourceName (Some (ollama_resource_name (or_lease_id request))); PutCreationUncertain true;
   PutProvisionAttemptId (Some (provision_attempt_id request));
   PutProvisionAttempts (ol_provision_attempts lease + 1); PutProvisioningStartedAt (Some now)] ++
  plan_columns plan.

(** The plan of a request, checked; nothing is claimed yet. *)
Definition plan_request (request : OllamaLeaseRequest) (plan : option OllamaPlacementPlan)
  : oprog OllamaPlacementPlan :=
  let+ plan := match plan with Some p => Done (Ok p) | None => ocall (OPlan request) end in
  run+ Done (validate_plan request plan) then
  let concrete := with_mode request (op_mode plan) in
  run+ Done (check_ollama_request concrete) then
  run+ ocall (OValidate concrete) then
  Done (Ok plan).

(** [_provision_requested]. *)
Definition provision_requested (lease : OllamaLease) (request : OllamaLeaseRequest)
  (plan : option OllamaPlacementPlan) : oprog OllamaLease :=
  if bool_decide (ol_state lease = O_REQUESTED) then
    let+ plan :=
      except_manager (plan_request request plan)
        (fun e =>
           run+ transition lease O_FAILED [PutLastProviderError (Some (sanitize_provider_error e))] then
           Done (Exc e)) in
    let+ now := ocall ONow in
    let+ lease := transition lease O_PROVISIONING (provisioning_columns lease request plan now) in
    owned_effect (provision_effect lease request plan (ollama_resource_name (or_lease_id request)))
  else Done (Exc RunPodManagerError).

(** [_reconcile_creation]. *)
Definition reconcile_creation (lease : OllamaLease) : oprog OllamaLease :=
  if has_resource_id lease then transition lease O_WAITING_FOR_MODEL [PutLastProviderError None]
  else
    match ol_resource_type lease, ol_resource_name lease with
    | Some t, Some name =>
        let+ found :=
          except_manager
            (let+ r := ocall (OFind t name) in Done (Ok (inl r)))
            (fun e =>
               let+ l := ocall (OCas lease [PutLastProviderError (Some (sanitize_provider_error e))]) in
               Done (Ok (inr l))) in
        match found with
        | inr l => Done (Ok l)
        | inl None => Done (Ok lease)
        | inl (Some resource) =>
            transition lease O_WAITING_FOR_MODEL
              [PutProviderResourceId (Some (rs_provider_resource_id resource)); PutCreationUncertain false;
               PutLastProviderError None]
        end
    | _, _ => Done (Ok lease)
    end.

(** ** Operations *)

Definition creating (s : OllamaLeaseState) : bool :=
  bool_decide (s = O_PROVISIONING) || bool_decide (s = O_RECONCILE_REQUIRED).

(** The tests [acquire] makes of a request it has not seen. *)
Definition admit_new (request : OllamaLeaseRequest) (now : instant) : result unit :=
  run! require (now <? or_hard_deadline request) ValueError then
  run! require
    (dle (of_int (or_expected_session_seconds request)) (total_seconds (or_hard_deadline request - now)))
    ValueError then
  require
    (now <? Z.min (default now (or_requested_at request) + seconds (or_readiness_timeout_seconds request))
              (or_hard_deadline request)) ValueError.

(** [acquire]. *)
Definition acquire (fuel : nat) (request : OllamaLeaseRequest) (wait : bool)
  (plan : option OllamaPlacementPlan) : oprog OllamaLease :=
  let+ now := ocall ONow in
  let+ existing := ocall (OGet (or_lease_id request)) in
  run+ Done (match existing : option OllamaLease with Some _ => Ok tt | None => admit_new request now end) then
  let+ found := ocall (OInsert request now) in
  let '(lease, inserted) := found : OllamaLease * bool in
  run+ (if inserted then Done (Ok tt) else authorize lease (or_owner_id request) (or_workload_id request)) then
  if bool_decide (ol_state lease = O_READY) then ready_with_route lease
  else if bool_decide (ol_state lease = O_REQUESTED) &&
          (Z.min (ol_readiness_deadline lease) (ol_hard_deadline lease) <=? now)
  then release_lease lease "expired"
  else
    let+ lease :=
      (if bool_decide (ol_state lease = O_REQUESTED) then provision_requested lease request plan
       else if creating (ol_state lease) then reconcile_creation lease
       else Done (Ok lease)) in
    if bool_decide (ol_state lease = O_WAITING_FOR_MODEL) && wait then wait_until_ready fuel lease
    else Done (Ok lease).

(** The lease of a caller that owns it. *)
Definition owned_lease (lease_id owner_id workload_id : string) : oprog OllamaLease :=
  let+ lease := required_lease lease_id in
  run+ authorize lease owner_id workload_id then
  Done (Ok lease).

(** [get]. *)
Definition get_lease (lease_id owner_id workload_id : string) : oprog OllamaLease :=
  let+ lease := owned_lease lease_id owner_id workload_id in
  if bool_decide (ol_state lease = O_READY) then ready_with_route lease else Done (Ok lease).

Definition route_less (s : OllamaLeaseState) : bool :=
  bool_decide (s = O_FAILED) || bool_decide (s = O_RELEASING) || bool_decide (s = O_TERMINATED).

(** [touch]. *)
Definition touch (lease_id owner_id workload_id : string) : oprog OllamaLease :=
  let+ lease := owned_lease lease_id owner_id workload_id in
  if route_less (ol_state lease) then Done (Ok lease)
  else if negb (bool_decide (ol_state lease = O_READY)) then Done (Exc RunPodManagerError)
  else
    let+ lease := ready_with_route lease in
    if negb (bool_decide (ol_state lease = O_READY)) then Done (Ok lease)
    else
      let+ now := ocall ONow in
      if past_hard_or_cost lease now then release_lease lease "deadline_or_cost_cap"
      else
        let+ touched := ocall (OCas lease
          [PutLastUsedAt now; PutIdleDeadline (past_idle lease now);
           PutAccruedEstimatedCost (accrued_cost lease now)]) in
        Done (Ok (with_route touched (ol_route_url lease) (ol_provider_health_url lease))).

(** [release]. *)
Definition release (lease_id owner_id workload_id : string) : oprog OllamaLease :=
  let+ lease := owned_lease lease_id owner_id workload_id in
  release_lease lease "caller_release".

(** [_reconcile_one], past its creation steps. *)
Definition reconcile_live (lease : OllamaLease) (now : instant) : oprog OllamaLease :=
  let hard_expired := ol_hard_deadline lease <=? now in
  let idle_expired := bool_decide (ol_state lease = O_READY) && (ol_idle_deadline lease <=? now) in
  let readiness_expired :=
    (creating (ol_state lease) || bool_decide (ol_state lease = O_WAITING_FOR_MODEL)) &&
    (ol_readiness_deadline lease <=? now) in
  if hard_expired || idle_expired || over_authorized_cost lease now || readiness_expired
  then teardown_retries (ol_lease_id lease) (release_lease lease "expired")
  else if bool_decide (ol_state lease = O_WAITING_FOR_MODEL) then check_readiness_once lease
  else if bool_decide (ol_state lease = O_READY) then ready_with_route lease
  else Done (Ok lease).

(** [_reconcile_one]. *)
Definition reconcile_one (lease_id : string) : oprog (option OllamaLease) :=
  let+ found := ocall (OGet lease_id) in
  match found : option OllamaLease with
  | None => Done (Ok None)
  | Some lease =>
      if bool_decide (ol_state lease = O_TERMINATED) then Done (Ok (Some lease))
      else
        let some_lease p := (let+ l := p in Done (Ok (Some l))) : oprog (option OllamaLease) in
        let+ now := ocall ONow in
        if bool_decide (ol_state lease = O_RELEASING) then
          some_lease (teardown_retries (ol_lease_id lease) (release_lease lease "retry_teardown"))
        else if bool_decide (ol_state lease = O_REQUESTED) &&
                (Z.min (ol_readiness_deadline lease) (ol_hard_deadline lease) <=? now)
        then some_lease (release_lease lease "expired")
        else
          let+ lease :=
            (if bool_decide (ol_state lease = O_REQUESTED) then
               let+ request := Done (request_from_lease lease) in provision_requested lease request None
             else Done (Ok lease)) in
          let+ lease :=
            (if creating (ol_state lease) then reconcile_creation lease else Done (Ok lease)) in
          some_lease (reconcile_live lease now)
  end.

Definition is_ollama_conflict (e : exn) : bool :=
  match e with OllamaLeaseConflictError => true | _ => false end.

(** [_record_reconcile_error]. *)
Definition record_reconcile_error (lease_id : string) (e : exn) : oprog (option OllamaLease) :=
  let+ found := ocall (OGet lease_id) in
  match found : option OllamaLease with
  | None => Done (Ok None)
  | Some lease =>
      if bool_decide (ol_state lease = O_TERMINATED) then Done (Ok (Some lease))
      else
        pcatch
          (let+ l := ocall (OCas lease
             [PutLastProviderError (Some ("reconcile: " ++ sanitize_provider_error e)%string)]) in
           Done (Ok (Some l)))
          (fun e' => if is_ollama_conflict e' then Some (ocall (OGet lease_id)) else None)
  end.

Fixpoint reconcile_each (leases : list OllamaLease) : oprog (list OllamaLease) :=
  match leases with
  | [] => Done (Ok [])
  | initial :: rest =>
      let+ lease :=
        except_manager (reconcile_one (ol_lease_id initial))
          (fun e => record_reconcile_error (ol_lease_id initial) e) in
      let+ results := reconcile_each rest in
      Done (Ok (match lease : option OllamaLease with Some l => l :: results | None => results end))
  end.

(** [reconcile]. *)
Definition reconcile : oprog (list OllamaLease) :=
  let+ leases := ocall OList in reconcile_each leases.

(** [reconcile_lease]. *)
Definition reconcile_lease (lease_id owner_id workload_id : string) : oprog OllamaLease :=
  run+ owned_lease lease_id owner_id workload_id then
  let+ found :=
    pcatch
      (let+ o := reconcile_one lease_id in Done (Ok o))
      (fun e =>
         if is_manager_error e then
           Some (let+ recorded := record_reconcile_error lease_id e in
                 Done (match recorded with Some l => Ok (Some l) | None => Exc e end))
         else None) in
  Done (of_option found RunPodManagerError).

End Service.
