(* ===== verification/OllamaLogic.v ===== *)
(** How rows of the private-Ollama lease table change, and a program logic for its
    service.

    [lease_evolves] relates a lease to any later state of its row. A world is the lease
    table, a count of calls and the log of the provider calls made, newest first.
    [ollama_step] answers a call: transactions run on the table that other processes left
    ([oh_interfere]), everything else is answered by the host. [holds p w Q] is the
    weakest precondition of program [p] on world [w]: every call is one [owed] before it
    is made, the world stays well formed, and [Q] holds of what [p] answers. *)
From S2P Require Import Prelude PyStr Enums Errors PyDecimal PyFloat PyTime Json ContractsBase CodecBase Placement OllamaContracts OllamaLeases OllamaRepository Prog OllamaService.

#[local] Open Scope Z_scope.

(** ** States *)

Definition lease_step (s t : OllamaLeaseState) : Prop := t ∈ allowed_transitions s.

(** A lifecycle the transition table allows. *)
Definition reaches : OllamaLeaseState -> OllamaLeaseState -> Prop := rtc lease_step.

Definition state_rank (s : OllamaLeaseState) : Z :=
  match s with
  | O_REQUESTED => 0 | O_PROVISIONING => 1 | O_RECONCILE_REQUIRED => 2 | O_WAITING_FOR_MODEL => 3
  | O_READY => 4 | O_FAILED => 5 | O_RELEASING => 6 | O_TERMINATED => 7
  end.

Lemma step_rank s t : lease_step s t -> state_rank s < state_rank t.
Proof.
  unfold lease_step. destruct s; cbn [allowed_transitions]; intros H;
    repeat (apply elem_of_cons in H as [->|H]; [done|]); by apply elem_of_nil in H.
Qed.

Lemma reaches_rank s t : reaches s t -> s = t \/ state_rank s < state_rank t.
Proof.
  induction 1 as [|s u t Hs _ IH]; [by left|]. right. apply step_rank in Hs.
  destruct IH as [->|?]; lia.
Qed.

Lemma reaches_terminated t : reaches O_TERMINATED t -> t = O_TERMINATED.
Proof. intros H. apply reaches_rank in H as [<-|H]; [done|]. destruct t; cbn in H; lia. Qed.

Lemma reaches_requested s : reaches s O_REQUESTED -> s = O_REQUESTED.
Proof. intros H. apply reaches_rank in H as [->|H]; [done|]. destruct s; cbn in H; lia. Qed.

Lemma allowed_reaches s t : transition_allowed s t = true -> reaches s t.
Proof.
  unfold transition_allowed. intros [->%bool_decide_eq_true|H%bool_decide_eq_true]%orb_true_iff.
  - constructor.
  - by apply rtc_once.
Qed.

(** ** Columns *)

(** The columns no update may write. *)
Record same_lease_request (a b : OllamaLease) : Prop := {
  sr_id : ol_lease_id a = ol_lease_id b;
  sr_owner : ol_owner_id a = ol_owner_id b;
  sr_workload : ol_workload_id a = ol_workload_id b;
  sr_fingerprint : ol_request_fingerprint a = ol_request_fingerprint b;
  sr_model : ol_model a = ol_model b;
  sr_constraints : ol_constraints_json a = ol_constraints_json b;
  sr_created : ol_created_at a = ol_created_at b;
  sr_hard : ol_hard_deadline a = ol_hard_deadline b;
  sr_readiness : ol_readiness_deadline a = ol_readiness_deadline b;
  sr_session : ol_expected_session_seconds a = ol_expected_session_seconds b;
  sr_authorized : ol_max_authorized_cost a = ol_max_authorized_cost b
}.

#[export] Instance same_lease_request_preorder : PreOrder same_lease_request.
Proof.
  split.
  - intros a. by split.
  - intros a b c [] []. split; congruence.
Qed.

(** The accepted plan: written once, with the claim. *)
Definition accepted_plan (l : OllamaLease) :=
  (ol_mode l, ol_offered_rate_per_hr l, ol_placement_gpu_count l, ol_provisioning_started_at l,
   (ol_estimated_cost l, ol_maximum_compute_cost l, ol_maximum_non_compute_cost l, ol_cost_ceiling l),
   (ol_maximum_concurrent_workers l, ol_maximum_billable_seconds l, ol_cost_policy_components l),
   (ol_selected_gpu_id l, ol_selected_gpu_pool l, ol_provision_attempts l, ol_provision_attempt_id l)).

(** Once written, an option column keeps its value. *)
Definition kept {A} (a b : option A) : Prop := forall v, a = Some v -> b = Some v.

Lemma kept_refl {A} (a : option A) : kept a a.
Proof. by intros v. Qed.

Record lease_evolves (a b : OllamaLease) : Prop := {
  le_request : same_lease_request a b;
  le_revision : ol_revision a <= ol_revision b;
  le_same : ol_revision a = ol_revision b -> a = b;
  le_state : reaches (ol_state a) (ol_state b);
  le_resource : kept (ol_provider_resource_id a) (ol_provider_resource_id b);
  le_name : kept (ol_resource_name a) (ol_resource_name b);
  le_type : kept (ol_resource_type a) (ol_resource_type b);
  le_plan : ol_state a <> O_REQUESTED -> accepted_plan a = accepted_plan b
}.

#[export] Instance lease_evolves_preorder : PreOrder lease_evolves.
Proof.
  split.
  - intros a. split; try done; apply kept_refl.
  - intros a b c [R1 V1 S1 T1 P1 N1 Y1 A1] [R2 V2 S2 T2 P2 N2 Y2 A2].
    split; try (intros v Hv; by auto).
    + by transitivity b.
    + lia.
    + intros E. assert (a = b) as -> by (apply S1; lia). apply S2. lia.
    + by transitivity (ol_state b).
    + intros Ha. rewrite A1 by done. apply A2. intros Hb. apply Ha.
      rewrite Hb in T1. by apply reaches_requested.
Qed.

(** ** Stored rows *)

Section Rows.
Context `{Digest}.

Definition live (s : OllamaLeaseState) : bool :=
  bool_decide (s = O_WAITING_FOR_MODEL) || bool_decide (s = O_READY).

(** [claimed]: the row names the resource its create call asked for. *)
Record lease_row_ok (l : OllamaLease) : Prop := {
  lr_route : ol_route_url l = None /\ ol_provider_health_url l = None;
  lr_resource : forall id, ol_provider_resource_id l = Some id ->
    id <> "" /\ ol_creation_uncertain l = false /\ is_some (ol_resource_name l) = true;
  lr_name : forall n, ol_resource_name l = Some n ->
    n = ollama_resource_name (ol_lease_id l) /\ is_some (ol_resource_type l) = true;
  lr_requested : ol_state l = O_REQUESTED ->
    ol_resource_name l = None /\ ol_resource_type l = None /\ ol_creation_uncertain l = false /\
    ol_provision_attempts l = 0;
  lr_creating : creating (ol_state l) = true ->
    ol_creation_uncertain l = true /\ is_some (ol_resource_name l) = true;
  lr_live : live (ol_state l) = true -> is_some (ol_provider_resource_id l) = true;
  lr_uncertain : ol_creation_uncertain l = true ->
    is_some (ol_resource_name l) = true /\ ol_state l <> O_TERMINATED;
  lr_terminated : ol_state l = O_TERMINATED -> ol_teardown_state l = TEARDOWN_COMPLETE;
  lr_attempts : 0 <= ol_provision_attempts l <= 1
}.

Lemma requested_row_ok r now : lease_row_ok (requested_lease r now).
Proof. by split. Qed.

(** A row without a claimed resource has none recorded. *)
Lemma row_no_name l : lease_row_ok l -> ol_resource_name l = None -> ol_provider_resource_id l = None.
Proof.
  intros [_ Hr _ _ _ _ _ _ _] Hn. destruct (ol_provider_resource_id l) as [id|]; [|done].
  destruct (Hr id eq_refl) as (_ & _ & Hs). by rewrite Hn in Hs.
Qed.

(** The resource of a row is the recorded one under the row's own name. *)
Lemma resource_of_row l res :
  lease_row_ok l -> resource_from_lease l = Ok res ->
  ol_provider_resource_id l = Some (rs_provider_resource_id res) /\
  ol_resource_type l = Some (rs_resource_type res) /\
  rs_resource_name res = ollama_resource_name (ol_lease_id l).
Proof.
  intros [_ _ Hn _ _ _ _ _ _] Hr. unfold resource_from_lease in Hr.
  destruct (ol_resource_type l), (ol_provider_resource_id l), (ol_resource_name l) as [n|]; try done.
  destruct (_ || _); [done|]. injection Hr as <-. cbn. by destruct (Hn n eq_refl) as [-> _].
Qed.

Lemma row_resource l id :
  lease_row_ok l -> ol_provider_resource_id l = Some id ->
  exists res, resource_from_lease l = Ok res /\ rs_provider_resource_id res = id.
Proof.
  intros [_ Hr Hn _ _ _ _ _ _] Hid. destruct (Hr id Hid) as (Hne & _ & Hs).
  destruct (ol_resource_name l) as [n|] eqn:En; [|done]. destruct (Hn n eq_refl) as [-> Ht].
  unfold resource_from_lease. rewrite Hid, En. destruct (ol_resource_type l) as [t|]; [|done].
  rewrite (bool_decide_eq_false_2 (id = "")), bool_decide_eq_false_2 by done. cbn [orb].
  eexists. by split.
Qed.

Lemma row_has_resource l :
  lease_row_ok l -> has_resource_id l = true <-> is_some (ol_provider_resource_id l) = true.
Proof.
  intros [_ Hr _ _ _ _ _ _ _]. unfold has_resource_id. destruct (ol_provider_resource_id l) as [id|]; [|done].
  destruct (Hr id eq_refl) as (Hne & _ & _). cbn. by rewrite bool_decide_eq_false_2.
Qed.

End Rows.

(** ** Worlds and hosts *)

Record OllamaWorld := {
  ow_table : ollama_table;
  ow_tick : nat;
  ow_log : list (event ollama_answer)
}.

Record OllamaHost := {
  oh_clock : nat -> instant;
  oh_wall : nat -> instant;
  oh_interfere : nat -> ollama_table -> ollama_table;
  oh_answer : nat -> forall c : ollama_call, result (ollama_answer c)
}.

Section Machine.
Context `{Digest} (H0 : OllamaHost).

Definition with_table (w : OllamaWorld) (t : ollama_table) : OllamaWorld :=
  {| ow_table := t; ow_tick := S (ow_tick w); ow_log := ow_log w |}.

(** The table a transaction finds. *)
Definition found_table (w : OllamaWorld) : ollama_table := oh_interfere H0 (ow_tick w) (ow_table w).

(** A provider call: answered, counted and logged with its answer. *)
Definition outside (w : OllamaWorld) (c : ollama_call) : result (ollama_answer c) * OllamaWorld :=
  let a := oh_answer H0 (ow_tick w) c in
  (a, {| ow_table := ow_table w; ow_tick := S (ow_tick w); ow_log := Event c a :: ow_log w |}).

Definition ollama_step (c : ollama_call) (w : OllamaWorld) : result (ollama_answer c) * OllamaWorld :=
  match c with
  | ONow => (Ok (oh_clock H0 (ow_tick w)), with_table w (ow_table w))
  | OGet id => (ollama_get (found_table w) id, with_table w (found_table w))
  | OInsert r now =>
      let '(a, t) := insert_request (found_table w) r now in (a, with_table w t)
  | OCas lease cs =>
      let '(a, t) := ollama_cas (found_table w) (oh_wall H0 (ow_tick w)) lease cs in (a, with_table w t)
  | OList => (ollama_unfinished (found_table w), with_table w (found_table w))
  | c => outside w c
  end.

End Machine.

(** ** Well-formed worlds *)

Section Worlds.
Context `{Digest}.

Record table_ok (t : ollama_table) : Prop := {
  tb_keys : forall k l, t !! k = Some l -> ol_lease_id l = k;
  tb_rows : forall k l, t !! k = Some l -> lease_row_ok l
}.

Definition table_evolves (t t' : ollama_table) : Prop :=
  forall k l, t !! k = Some l -> exists l', t' !! k = Some l' /\ lease_evolves l l'.

#[export] Instance table_evolves_preorder : PreOrder table_evolves.
Proof.
  split.
  - intros t k l Hk. by exists l.
  - intros a b c Hab Hbc k l Hk. destruct (Hab k l Hk) as (l1 & H1 & E1).
    destruct (Hbc k l1 H1) as (l2 & H2 & E2). exists l2. split; [done|]. by etransitivity.
Qed.

(** The leases whose create call was made, newest first. *)
Definition provisioned_ids (log : list (event ollama_answer)) : list string :=
  omap (fun e => match ev_call e with OProvision r _ _ => Some (or_lease_id r) | _ => None end) log.

(** A lease whose create call was made has left REQUESTED, and none was made twice. *)
Record world_ok (w : OllamaWorld) : Prop := {
  wo_table : table_ok (ow_table w);
  wo_claimed : forall id, id ∈ provisioned_ids (ow_log w) ->
    exists l, ow_table w !! id = Some l /\ ol_state l <> O_REQUESTED;
  wo_once : NoDup (provisioned_ids (ow_log w))
}.

Record world_le (w w' : OllamaWorld) : Prop := {
  wl_table : table_evolves (ow_table w) (ow_table w');
  wl_log : exists new, ow_log w' = (new ++ ow_log w)%list;
  wl_tick : (ow_tick w <= ow_tick w')%nat
}.

#[export] Instance world_le_preorder : PreOrder world_le.
Proof.
  split.
  - intros w. split; [done| |done]. by exists [].
  - intros a b c [T1 [n1 L1] K1] [T2 [n2 L2] K2]. split; [by etransitivity| |lia].
    exists (n2 ++ n1)%list. by rewrite L2, L1, app_assoc.
Qed.

(** A lease without the route the process attached to it. *)
Definition stored (l : OllamaLease) : OllamaLease := with_route l None None.

(** A lease that some transaction read or wrote: its row has evolved from it since. *)
Definition holds_lease (w : OllamaWorld) (l : OllamaLease) : Prop :=
  lease_row_ok (stored l) /\
  exists cur, ow_table w !! ol_lease_id l = Some cur /\ lease_evolves (stored l) cur.

Lemma holds_lease_stable w w' l : world_le w w' -> holds_lease w l -> holds_lease w' l.
Proof.
  intros [Ht _ _] (Hr & cur & Hc & He). split; [done|]. destruct (Ht _ _ Hc) as (cur' & Hc' & He').
  exists cur'. split; [done|]. by etransitivity.
Qed.

Lemma stored_row l : lease_row_ok l -> stored l = l.
Proof. intros [[Hr Hh] _ _ _ _ _ _ _ _]. destruct l. cbn in *. by subst. Qed.

Lemma stored_attached l u v : stored (with_route l u v) = stored l.
Proof. by destruct l. Qed.

Lemma row_held w k l : world_ok w -> ow_table w !! k = Some l -> holds_lease w l.
Proof.
  intros [[Hk Hr] _ _] Hl. pose proof (Hr k l Hl) as Ho. split; [by rewrite stored_row|].
  exists l. rewrite (Hk k l Hl). split; [done|]. by rewrite stored_row.
Qed.

Lemma held_attached w l u v : holds_lease w l -> holds_lease w (with_route l u v).
Proof. unfold holds_lease. by rewrite stored_attached. Qed.

(** ** Calls that are owed *)

Definition writes_state (cs : list column) : option OllamaLeaseState :=
  List.fold_left (fun s c => match c with PutState t => Some t | _ => s end) cs None.

(** What must hold when a call is made. A create call needs its durable claim, made by
    this very service and for the first time; a deletion a lease that is releasing; a
    terminal write the deletion, just answered, of what the row records. *)
Definition owed (c : ollama_call) (w : OllamaWorld) : Prop :=
  match c with
  | OProvision request plan name =>
      exists l, holds_lease w l /\ ol_lease_id l = or_lease_id request /\ ol_state l = O_PROVISIONING /\
        ol_creation_uncertain l = true /\ ol_resource_name l = Some name /\
        ol_resource_type l = Some (op_resource_type plan) /\
        ol_cost_ceiling l = Some (num_float (op_cost_ceiling plan)) /\
        validate_plan request plan = Ok tt /\
        ~ or_lease_id request ∈ provisioned_ids (ow_log w)
  | OTeardown resource =>
      exists l, holds_lease w l /\ ol_state l = O_RELEASING /\ resource_from_lease l = Ok resource
  | OObserve resource =>
      exists l, holds_lease w l /\ live (ol_state l) = true /\ resource_from_lease l = Ok resource
  | OCas lease cs =>
      match writes_state cs with
      | Some t =>
          transition_allowed (ol_state lease) t = true /\
          (t = O_TERMINATED -> ol_creation_uncertain lease = false /\
             (ol_provider_resource_id lease = None \/
              exists resource older, resource_from_lease lease = Ok resource /\
                ow_log w = Event (OTeardown resource) (Ok tt) :: older))
      | None => True
      end
  | _ => True
  end.

(** ** What is assumed of the host *)

(** Other processes keep the table well formed and let its rows evolve; a resource the
    provider names has an identifier. *)
Record ollama_rely (H0 : OllamaHost) : Prop := {
  orl_table : forall n t, table_ok t -> table_ok (oh_interfere H0 n t);
  orl_evolves : forall n t, table_ok t -> table_evolves t (oh_interfere H0 n t);
  orl_created : forall n r p name res,
    oh_answer H0 n (OProvision r p name) = Ok res -> rs_provider_resource_id res <> "";
  orl_found : forall n t name res,
    oh_answer H0 n (OFind t name) = Ok (Some res) -> rs_provider_resource_id res <> ""
}.

End Worlds.

Section Rules.
Context `{Digest} (H0 : OllamaHost) (Hrely : ollama_rely H0).

Definition moves (c : ollama_call) (w : OllamaWorld) (a : result (ollama_answer c)) (w' : OllamaWorld) : Prop :=
  ollama_step H0 c w = (a, w').

(** [safe p w P]: run on [w], [p] makes only owed calls and keeps worlds well formed,
    and [P] holds of what it answers and the world it leaves. *)
Definition safe {A} (p : oprog A) (w : OllamaWorld) (P : A -> OllamaWorld -> Prop) : Prop :=
  swp owed moves p w (fun r w' => world_ok w' /\ world_le w w' /\ forall a, r = Ok a -> P a w').

(** *** Structural rules *)

Lemma safe_done {A} (r : result A) w (P : A -> OllamaWorld -> Prop) :
  world_ok w -> (forall a, r = Ok a -> P a w) -> safe (Done r) w P.
Proof. intros Hw HP. by split. Qed.

Lemma safe_mono {A} (p : oprog A) w (P P' : A -> OllamaWorld -> Prop) :
  safe p w P -> (forall a w', world_ok w' -> world_le w w' -> P a w' -> P' a w') -> safe p w P'.
Proof.
  intros Hp HP. eapply swp_mono; [exact Hp|]. intros r w' (Hw & Hl & HQ).
  split; [done|]. split; [done|]. intros a ->. by apply HP, HQ.
Qed.

Lemma safe_bind {A B} (p : oprog A) (f : A -> oprog B) w P Q :
  safe p w P ->
  (forall a w', world_ok w' -> world_le w w' -> P a w' -> safe (f a) w' Q) ->
  safe (pbind p f) w Q.
Proof.
  intros Hp Hf. apply swp_bind. eapply swp_mono; [exact Hp|]. intros [a|e] w' (Hw & Hl & HP); cbn beta iota.
  - eapply swp_mono; [by apply (Hf a w'), HP|]. intros r w2 (Hw2 & Hl2 & HQ).
    split; [done|]. split; [by transitivity w' | done].
  - by split.
Qed.

Lemma safe_catch {A} (p : oprog A) h w (P : A -> OllamaWorld -> Prop) :
  safe p w P ->
  (forall e q w', h e = Some q -> world_ok w' -> world_le w w' -> safe q w' P) ->
  safe (pcatch p h) w P.
Proof.
  intros Hp Hh. apply swp_catch. eapply swp_mono; [exact Hp|]. intros [a|e] w' (Hw & Hl & HP); [by split|].
  destruct (h e) as [q|] eqn:E; [|by split].
  eapply swp_mono; [by apply (Hh e q w' E)|]. intros r w2 (Hw2 & Hl2 & HQ).
  split; [done|]. split; [by transitivity w' | done].
Qed.

Lemma safe_except {A} (p : oprog A) h w (P : A -> OllamaWorld -> Prop) :
  safe p w P ->
  (forall e w', is_manager_error e = true -> world_ok w' -> world_le w w' -> safe (h e) w' P) ->
  safe (except_manager p h) w P.
Proof.
  intros Hp Hh. apply safe_catch; [done|]. intros e q w' He Hw Hl.
  destruct (is_manager_error e) eqn:E; [|done]. injection He as <-. by apply Hh.
Qed.

(** *** Worlds after a call *)

Lemma found_world_ok w : world_ok w -> world_ok (with_table w (found_table H0 w)) /\
  world_le w (with_table w (found_table H0 w)).
Proof.
  intros [Ht Hc Ho]. pose proof (orl_evolves _ Hrely (ow_tick w) _ Ht) as He.
  split; [|split; [exact He | by exists [] | cbn; lia]].
  split; [by apply (orl_table _ Hrely)| |done].
  intros id Hid. destruct (Hc id Hid) as (l & Hl & Hs). destruct (He _ _ Hl) as (l' & Hl' & Hev).
  exists l'. split; [done|]. intros E. apply Hs. pose proof (le_state _ _ Hev) as Hst.
  rewrite E in Hst. by apply reaches_requested.
Qed.

Lemma same_world_ok w : world_ok w -> world_ok (with_table w (ow_table w)) /\
  world_le w (with_table w (ow_table w)).
Proof. intros [Ht Hc Ho]. split; [by split|]. split; [done | by exists [] | cbn; lia]. Qed.

(** A stored row replaces the one it evolved from. *)
Lemma stored_world_ok w k l l' :
  world_ok w -> ow_table w !! k = Some l -> lease_evolves l l' -> lease_row_ok l' ->
  world_ok (with_table w (<[k := l']> (ow_table w))) /\
  world_le w (with_table w (<[k := l']> (ow_table w))).
Proof.
  intros [[Hk Hr] Hc Ho] Hl He Hl'.
  assert (table_evolves (ow_table w) (<[k := l']> (ow_table w))) as Hev.
  { intros j m Hm. destruct (decide (k = j)) as [<-|Hne].
    - rewrite lookup_insert_eq. exists l'. split; [done|]. congruence.
    - rewrite lookup_insert_ne by done. by exists m. }
  split; [|split; [exact Hev | by exists [] | cbn; lia]].
  split; [split; cbn [with_table ow_table]| |done].
  - intros j m Hm. destruct (decide (k = j)) as [<-|Hne].
    + rewrite lookup_insert_eq in Hm. injection Hm as <-.
      rewrite <- (sr_id _ _ (le_request _ _ He)). by apply Hk.
    + rewrite lookup_insert_ne in Hm by done. by apply Hk.
  - intros j m Hm. destruct (decide (k = j)) as [<-|Hne].
    + rewrite lookup_insert_eq in Hm. congruence.
    + rewrite lookup_insert_ne in Hm by done. by eapply Hr.
  - intros id Hid. destruct (Hc id Hid) as (m & Hm & Hs). destruct (Hev _ _ Hm) as (m' & Hm' & Hevm).
    exists m'. split; [done|]. intros E. apply Hs. pose proof (le_state _ _ Hevm) as Hst.
    rewrite E in Hst. by apply reaches_requested.
Qed.

(** *** Calls *)

Lemma safe_now w P :
  world_ok w ->
  (forall t w', world_ok w' -> world_le w w' -> t = oh_clock H0 (ow_tick w) -> ow_log w' = ow_log w -> P t w') ->
  safe (ocall ONow) w P.
Proof.
  intros Hw HP. split; [done|]. intros a w' [= <- <-]. destruct (same_world_ok w Hw) as [Hw' Hl].
  split; [done|]. split; [done|]. intros t [= <-]. by apply HP.
Qed.

Lemma safe_get w id P :
  world_ok w ->
  (forall o w', world_ok w' -> world_le w w' -> ow_log w' = ow_log w ->
     (forall l, o = Some l -> holds_lease w' l /\ lease_row_ok l /\ ol_lease_id l = id) -> P o w') ->
  safe (ocall (OGet id)) w P.
Proof.
  intros Hw HP. split; [done|]. intros a w' [= <- <-]. destruct (found_world_ok w Hw) as [Hw' Hl].
  split; [done|]. split; [done|]. intros o Ho. apply HP; try done.
  intros l ->. apply ollama_get_row in Ho as Hl'. pose proof (row_held _ _ _ Hw' Hl') as Hh.
  destruct Hw' as [[Hk Hr] _ _]. split; [done|]. split; [by eapply Hr | by apply Hk].
Qed.

Lemma safe_list w P :
  world_ok w ->
  (forall ls w', world_ok w' -> world_le w w' -> ow_log w' = ow_log w -> P ls w') ->
  safe (ocall OList) w P.
Proof.
  intros Hw HP. split; [done|]. intros a w' [= <- <-]. destruct (found_world_ok w Hw) as [Hw' Hl].
  split; [done|]. split; [done|]. intros o Ho. by apply HP.
Qed.

Lemma safe_insert w r now P :
  world_ok w ->
  (forall l b w', world_ok w' -> world_le w w' -> ow_log w' = ow_log w ->
     holds_lease w' l -> lease_row_ok l -> ol_lease_id l = or_lease_id r -> P (l, b) w') ->
  safe (ocall (OInsert r now)) w P.
Proof.
  intros Hw HP. split; [done|]. intros a w'. unfold moves, ollama_step, insert_request.
  destruct (found_world_ok w Hw) as [Hf Hfl].
  destruct (found_table H0 w !! or_lease_id r) as [row|] eqn:E.
  - intros [= <- <-]. split; [done|]. split; [done|]. intros [l b] Ha. res_inv. simplify_eq.
    match goal with E' : ollama_load _ = Ok _ |- _ => apply ollama_load_same in E' as -> end.
    pose proof (row_held (with_table w (found_table H0 w)) _ _ Hf E) as Hh.
    destruct (Hf) as [[Hk Hr] _ _]. apply HP; try done; [by eapply Hr | by apply Hk].
  - intros [= <- <-].
    set (row := requested_lease r now) in *. set (t' := <[or_lease_id r := row]> (found_table H0 w)).
    assert (table_evolves (found_table H0 w) t') as Hev.
    { intros j m Hm. exists m. split; [|done]. unfold t'. rewrite lookup_insert_ne; [done|]. congruence. }
    assert (world_ok (with_table w t')) as Hw'.
    { destruct Hf as [[Hk Hr] Hc Ho]. split; [split| |done].
      - intros j m Hm. unfold t' in Hm. cbn in Hm. destruct (decide (or_lease_id r = j)) as [<-|Hne].
        + rewrite lookup_insert_eq in Hm. by injection Hm as <-.
        + rewrite lookup_insert_ne in Hm by done. by apply Hk.
      - intros j m Hm. unfold t' in Hm. cbn in Hm. destruct (decide (or_lease_id r = j)) as [<-|Hne].
        + rewrite lookup_insert_eq in Hm. injection Hm as <-. apply requested_row_ok.
        + rewrite lookup_insert_ne in Hm by done. by eapply Hr.
      - intros id Hid. destruct (Hc id Hid) as (m & Hm & Hs). destruct (Hev _ _ Hm) as (m' & Hm' & Hevm).
        exists m'. split; [done|]. intros E'. apply Hs. pose proof (le_state _ _ Hevm) as Hst.
        rewrite E' in Hst. by apply reaches_requested. }
    assert (world_le w (with_table w t')) as Hl.
    { split; [|by exists []|cbn; lia]. etransitivity; [apply (wl_table _ _ Hfl)|]. exact Hev. }
    split; [done|]. split; [done|]. intros [l b] Ha. res_inv. simplify_eq.
    match goal with E' : ollama_load _ = Ok _ |- _ => apply ollama_load_same in E' as -> end.
    apply HP; [done..| |apply requested_row_ok|done].
    apply (row_held _ (or_lease_id r)); [done|]. unfold t'. cbn. by rewrite lookup_insert_eq.
Qed.

(** A change of columns that keeps rows well formed. *)
Definition admissible (l : OllamaLease) (cs : list column) : Prop :=
  forall t, lease_evolves l (updated_lease l cs t) /\ lease_row_ok (updated_lease l cs t).

Lemma safe_cas w lease cs P :
  world_ok w -> holds_lease w lease -> owed (OCas lease cs) w -> admissible (stored lease) cs ->
  (forall t w', world_ok w' -> world_le w w' -> ow_log w' = ow_log w ->
     let l := updated_lease (stored lease) cs t in
     holds_lease w' l -> lease_row_ok l ->
     (ol_state lease = O_REQUESTED -> ~ ol_lease_id lease ∈ provisioned_ids (ow_log w)) ->
     P l w') ->
  safe (ocall (OCas lease cs)) w P.
Proof.
  intros Hw Hh Howed Had HP. split; [done|]. intros a w'. unfold moves, ollama_step, ollama_cas.
  destruct (found_world_ok w Hw) as [Hf Hfl].
  destruct (holds_lease_stable _ _ _ Hfl Hh) as (Hr & cur & Hcur & Hev). cbn [with_table ow_table] in Hcur.
  rewrite Hcur. destruct (ol_revision cur =? ol_revision lease) eqn:E; split_bools; intros [= <- <-]; [|by split].
  assert (stored lease = cur) as Heq by (apply (le_same _ _ Hev); by destruct lease).
  destruct (Had (oh_wall H0 (ow_tick w))) as [Hev' Hr']. rewrite Heq in Hev', Hr'.
  destruct (stored_world_ok _ _ _ _ Hf Hcur Hev' Hr') as [Hw' Hl'].
  cbn [with_table ow_table] in Hw', Hl'. set (row := updated_lease cur cs _) in *.
  assert (world_ok (with_table w (<[ol_lease_id lease := row]> (found_table H0 w)))) as Hok.
  { destruct Hw' as [A1 A2 A3]. by split. }
  assert (world_le w (with_table w (<[ol_lease_id lease := row]> (found_table H0 w)))) as Hle.
  { split; [|by exists []|cbn; lia]. etransitivity; [apply (wl_table _ _ Hfl) | apply (wl_table _ _ Hl')]. }
  split; [done|]. split; [done|]. intros l Hload. apply ollama_load_same in Hload as ->. subst row. rewrite <- Heq.
  specialize (HP (oh_wall H0 (ow_tick w)) _ Hok Hle eq_refl). cbv zeta in HP. rewrite Heq in HP |- *.
  apply HP.
  - apply (row_held _ (ol_lease_id lease)); [done|]. cbn. by rewrite lookup_insert_eq.
  - done.
  - intros Hreq Hin. destruct (wo_claimed _ Hf _ Hin) as (c & Hc & Hs). cbn in Hc. rewrite Hcur in Hc.
    injection Hc as <-. by rewrite <- Heq in Hs.
Qed.

(** A provider call other than a creation. *)
Lemma safe_outside w c P :
  world_ok w -> owed c w ->
  (forall s, ollama_step H0 c s = outside H0 s c) ->
  (forall r p n, c <> OProvision r p n) ->
  (forall n a w', oh_answer H0 n c = Ok a -> world_ok w' -> world_le w w' -> ow_table w' = ow_table w ->
     ow_log w' = Event c (Ok a) :: ow_log w -> P a w') ->
  safe (ocall c) w P.
Proof.
  intros Hw Howed Hstep Hc HP. split; [done|]. intros a w'. unfold moves. rewrite Hstep. intros [= <- <-].
  destruct Hw as [Ht Hcl Ho].
  assert (forall a, provisioned_ids (Event c a :: ow_log w) = provisioned_ids (ow_log w)) as Hp.
  { intros a. destruct c; try done. by destruct (Hc request plan name). }
  set (w' := {| ow_table := _ |}).
  assert (world_ok w') as Hw' by (split; unfold w'; cbn [ow_table ow_log]; rewrite ?Hp; done).
  assert (world_le w w') as Hl by (split; [done|by exists [Event c (oh_answer H0 (ow_tick w) c)]|cbn; lia]).
  split; [done|]. split; [done|]. intros a Ha. eapply HP; try done. subst w'. cbn [ow_log]. by rewrite Ha.
Qed.

(** The creation. *)
Lemma safe_provision w request plan name P :
  world_ok w -> owed (OProvision request plan name) w ->
  (forall n res w', oh_answer H0 n (OProvision request plan name) = Ok res ->
     world_ok w' -> world_le w w' -> ow_table w' = ow_table w -> P res w') ->
  safe (ocall (OProvision request plan name)) w P.
Proof.
  intros Hw Howed HP. split; [done|]. intros a w' [= <- <-].
  destruct Howed as (l & (Hr & cur & Hcur & Hev) & Hid & Hst & _ & _ & _ & _ & _ & Hnew).
  destruct Hw as [Ht Hcl Ho].
  set (w' := {| ow_table := _ |}). change (swp owed moves (Done (oh_answer H0 (ow_tick w) (OProvision request plan name))) w'
    (fun r w2 => world_ok w2 /\ world_le w w2 /\ forall a, r = Ok a -> P a w2)).
  assert (world_ok w') as Hw'.
  { split; [done| |by constructor]. intros id Hin. cbn in Hin. apply elem_of_cons in Hin as [->|Hin]; [|by apply Hcl].
    exists cur. cbn. rewrite <- Hid. split; [done|]. intros E. pose proof (le_state _ _ Hev) as Hs.
    rewrite E in Hs. apply reaches_requested in Hs. destruct l. cbn in *. congruence. }
  assert (world_le w w') as Hl by (split; [done|eexists [_]; reflexivity|cbn; lia]).
  split; [done|]. split; [done|]. intros res Ha. by eapply HP.
Qed.

(** *** Leases as rows hold them *)

Definition row_lease (w : OllamaWorld) (l : OllamaLease) : Prop := holds_lease w l /\ lease_row_ok l.

Lemma row_lease_stable w w' l : world_le w w' -> row_lease w l -> row_lease w' l.
Proof. intros Hl [Hh Hr]. split; [by eapply holds_lease_stable | done]. Qed.

Lemma safe_cas_row w l cs P :
  world_ok w -> row_lease w l -> owed (OCas l cs) w -> admissible l cs ->
  (forall t w', world_ok w' -> world_le w w' -> ow_log w' = ow_log w ->
     row_lease w' (updated_lease l cs t) -> P (updated_lease l cs t) w') ->
  safe (ocall (OCas l cs)) w P.
Proof.
  intros Hw [Hh Hr] Howed Had HP. apply safe_cas; try done; [by rewrite stored_row|].
  intros t w' Hw' Hl Hlog. rewrite stored_row by done. cbv zeta. intros Hh' Hr' _. by apply HP.
Qed.

(** A state change of a held lease, route or not. *)
Lemma safe_transition w l s cs P :
  world_ok w -> holds_lease w l ->
  (transition_allowed (ol_state l) s = true ->
     owed (OCas l (PutState s :: cs)) w /\ admissible (stored l) (PutState s :: cs)) ->
  (forall t w', world_ok w' -> world_le w w' -> ow_log w' = ow_log w ->
     transition_allowed (ol_state l) s = true ->
     row_lease w' (updated_lease (stored l) (PutState s :: cs) t) ->
     P (updated_lease (stored l) (PutState s :: cs) t) w') ->
  safe (transition l s cs) w P.
Proof.
  intros Hw Hh Had HP. unfold transition. destruct (transition_allowed _ _) eqn:E; [|by apply safe_done].
  destruct (Had eq_refl) as [Ho Ha]. apply safe_cas; try done. cbv zeta. intros t w' Hw' Hl Hlog Hh' Hr' _.
  by apply HP.
Qed.

Lemma owed_quiet lease cs w : writes_state cs = None -> owed (OCas lease cs) w.
Proof. intros E. cbn [owed]. by rewrite E. Qed.

End Rules.
