(* ===== verification/OllamaSafety.v ===== *)
(** Every operation of the private-Ollama lease service is safe ([OllamaLogic.safe]):
    the changes it writes keep rows well formed, and its calls are owed when made. *)
From S2P Require Import Prelude PyStr Enums Errors PyDecimal PyFloat PyTime Json ContractsBase CodecBase Placement OllamaContracts OllamaLeases OllamaRepository Prog OllamaService OllamaLogic.

#[local] Open Scope Z_scope.

(** ** Changes that keep rows well formed *)

Section Changes.
Context `{Digest}.

(** Columns that no invariant of a row speaks of, its teardown state apart; a stored
    route is none already. *)
Definition quiet (c : column) : bool :=
  match c with
  | PutTeardownState _ | PutUpdatedAt _ | PutReadyAt _ | PutLastUsedAt _ | PutIdleDeadline _
  | PutModelPullStartedAt _ | PutModelPullAttempts _ | PutModelReadyAt _ | PutAccruedEstimatedCost _
  | PutRouteUrl None | PutColdStartSeconds _ | PutLastProviderError _ | PutTerminationReason _ | PutTeardownAttempts _ => true
  | _ => false
  end.

(** What the invariants speak of. *)
Definition row_core (l : OllamaLease) :=
  ((ol_lease_id l, ol_owner_id l, ol_workload_id l, ol_request_fingerprint l, ol_model l, ol_constraints_json l),
   (ol_created_at l, ol_hard_deadline l, ol_readiness_deadline l, ol_expected_session_seconds l,
    ol_max_authorized_cost l),
   (ol_state l, ol_route_url l, ol_provider_health_url l, ol_creation_uncertain l),
   (ol_provider_resource_id l, ol_resource_name l, ol_resource_type l), accepted_plan l).

Lemma put_quiet l c : ol_route_url l = None -> quiet c = true -> row_core (put l c) = row_core l.
Proof. destruct l as [], c as [| | | | | | |[]| | | | | | | | | | | | | | | | | | | | | | | | | | | | | | | | ]; by cbn; intros ->. Qed.

Lemma put_all_quiet l cs :
  ol_route_url l = None -> forallb quiet cs = true -> row_core (put_all l cs) = row_core l.
Proof.
  revert l. induction cs as [|c cs IH]; intros l Hn; [done|]. cbn [forallb].
  intros [Hc Hcs]%andb_prop. unfold put_all. cbn [fold_left]. fold (put_all (put l c) cs).
  pose proof (put_quiet l c Hn Hc) as E. rewrite IH; [done| |done].
  unfold row_core in E. congruence.
Qed.

Lemma updated_quiet l cs t :
  ol_route_url l = None -> forallb quiet cs = true -> row_core (updated_lease l cs t) = row_core l.
Proof.
  intros Hn Hq. transitivity (row_core (put_all l (PutUpdatedAt t :: cs))); [done|]. by apply put_all_quiet.
Qed.

(** A state write among quiet ones. *)
Lemma updated_state l s cs t :
  ol_route_url l = None -> forallb quiet cs = true ->
  row_core (updated_lease l (PutState s :: cs) t) = row_core (put l (PutState s)).
Proof.
  intros Hn Hq. transitivity (row_core (put_all (put l (PutState s)) (PutUpdatedAt t :: cs))); [done|].
  by apply put_all_quiet.
Qed.

Lemma put_all_revision l cs : ol_revision (put_all l cs) = ol_revision l.
Proof.
  revert l. induction cs as [|c cs IH]; intros l; [done|]. exact (IH (put l c)).
Qed.

Lemma updated_revision l cs t : ol_revision (updated_lease l cs t) = ol_revision l + 1.
Proof. unfold updated_lease. cbn [next_revision ol_revision]. by rewrite put_all_revision. Qed.

(** A quiet change: the invariants cannot tell the rows apart. *)
Lemma admissible_quiet l cs :
  lease_row_ok l -> ol_state l <> O_TERMINATED -> forallb quiet cs = true -> admissible l cs.
Proof.
  intros Hr Hs Hq t. pose proof (updated_quiet l cs t (proj1 (lr_route _ Hr)) Hq) as Hc. pose proof (updated_revision l cs t) as Hv.
  set (l' := updated_lease l cs t) in *. clearbody l'. unfold row_core in Hc.
  injection Hc as E1 E2 E3 E4 E5 E6 E7 E8 E9 E10 E11 E12 E13 E14 E15 E16 E17 E18 E19.
  split.
  - split.
    + by split.
    + lia.
    + intros E. lia.
    + by rewrite E12.
    + rewrite E16. apply kept_refl.
    + rewrite E17. apply kept_refl.
    + rewrite E18. apply kept_refl.
    + intros _. unfold accepted_plan. congruence.
  - destruct Hr as [R1 R2 R3 R4 R5 R6 R7 R8 R9].
    assert (ol_provision_attempts l' = ol_provision_attempts l) as E by congruence.
    split; rewrite ?E12, ?E13, ?E14, ?E15, ?E16, ?E17, ?E18, ?E1, ?E; try done.
Qed.

(** A state change among quiet ones: what the new state asks of the row. *)
Lemma admissible_state l s cs :
  lease_row_ok l -> transition_allowed (ol_state l) s = true -> s <> ol_state l ->
  forallb quiet cs = true ->
  (creating s = true -> ol_creation_uncertain l = true /\ is_some (ol_resource_name l) = true) ->
  (live s = true -> is_some (ol_provider_resource_id l) = true) ->
  (s = O_TERMINATED -> ol_creation_uncertain l = false /\
     forall t, ol_teardown_state (updated_lease l (PutState s :: cs) t) = TEARDOWN_COMPLETE) ->
  admissible l (PutState s :: cs).
Proof.
  intros Hr Ht Hne Hq Hcre Hlive Hterm t.
  pose proof (updated_state l s cs t (proj1 (lr_route _ Hr)) Hq) as Hc.
  pose proof (updated_revision l (PutState s :: cs) t) as Hv.
  assert (s = O_TERMINATED -> ol_teardown_state (updated_lease l (PutState s :: cs) t) = TEARDOWN_COMPLETE)
    as Htd by (intros Es; by apply Hterm).
  assert (s <> O_REQUESTED) as Hnr.
  { intros ->. apply allowed_reaches, reaches_requested in Ht. congruence. }
  set (l' := updated_lease l (PutState s :: cs) t) in *. clearbody l'. unfold row_core in Hc.
  injection Hc as E1 E2 E3 E4 E5 E6 E7 E8 E9 E10 E11 E12 E13 E14 E15 E16 E17 E18 E19.
  cbn [put ol_lease_id ol_owner_id ol_workload_id ol_request_fingerprint ol_model ol_constraints_json
       ol_created_at ol_hard_deadline ol_readiness_deadline ol_expected_session_seconds
       ol_max_authorized_cost ol_state ol_route_url ol_provider_health_url ol_creation_uncertain
       ol_provider_resource_id ol_resource_name ol_resource_type ol_mode] in *.
  split.
  - split.
    + by split.
    + lia.
    + intros E. lia.
    + rewrite E12. by apply allowed_reaches.
    + rewrite E16. apply kept_refl.
    + rewrite E17. apply kept_refl.
    + rewrite E18. apply kept_refl.
    + intros _. unfold accepted_plan. cbn in *. congruence.
  - destruct Hr as [R1 R2 R3 R4 R5 R6 R7 R8 R9].
    assert (ol_provision_attempts l' = ol_provision_attempts l) as E by (cbn in *; congruence).
    split; rewrite ?E12, ?E13, ?E14, ?E15, ?E16, ?E17, ?E18, ?E1, ?E; try done.
    intros Hu. destruct (R7 Hu) as [Hn _]. split; [done|]. intros Es. destruct (Hterm Es). congruence.
Qed.

(** A resource recorded for a claimed row, in the state [s] it moves to or keeps. *)
Lemma admissible_resource l s id cs :
  lease_row_ok l -> transition_allowed (ol_state l) s = true -> id <> "" ->
  (creating (ol_state l) = true /\ s = O_WAITING_FOR_MODEL \/ ol_state l = O_RELEASING /\ s = O_RELEASING) ->
  ol_provider_resource_id l = None -> is_some (ol_resource_name l) = true -> forallb quiet cs = true ->
  admissible l (PutState s :: PutProviderResourceId (Some id) :: PutCreationUncertain false :: cs).
Proof.
  intros Hr Ht Hid Hs Hno Hname Hq t.
  assert (row_core (updated_lease l (PutState s :: PutProviderResourceId (Some id) :: PutCreationUncertain false :: cs) t) =
    row_core (put (put (put l (PutState s)) (PutProviderResourceId (Some id))) (PutCreationUncertain false))) as Hc.
  { transitivity (row_core (put_all (put (put (put l (PutState s)) (PutProviderResourceId (Some id)))
      (PutCreationUncertain false)) (PutUpdatedAt t :: cs))); [done|].
    apply put_all_quiet; [|done]. by destruct Hr as [[? ?] _ _ _ _ _ _ _ _]. }
  pose proof (updated_revision l (PutState s :: PutProviderResourceId (Some id) :: PutCreationUncertain false :: cs) t) as Hv.
  set (l' := updated_lease l _ t) in *. clearbody l'. unfold row_core in Hc.
  injection Hc as E1 E2 E3 E4 E5 E6 E7 E8 E9 E10 E11 E12 E13 E14 E15 E16 E17 E18 E19.
  cbn [put ol_lease_id ol_owner_id ol_workload_id ol_request_fingerprint ol_model ol_constraints_json
       ol_created_at ol_hard_deadline ol_readiness_deadline ol_expected_session_seconds
       ol_max_authorized_cost ol_state ol_route_url ol_provider_health_url ol_creation_uncertain
       ol_provider_resource_id ol_resource_name ol_resource_type ol_mode] in *.
  split.
  - split.
    + by split.
    + lia.
    + intros E. lia.
    + rewrite E12. by apply allowed_reaches.
    + rewrite Hno. by intros v.
    + rewrite E17. apply kept_refl.
    + rewrite E18. apply kept_refl.
    + intros _. unfold accepted_plan. cbn in *. congruence.
  - destruct Hr as [R1 R2 R3 R4 R5 R6 R7 R8 R9].
    assert (ol_provision_attempts l' = ol_provision_attempts l) as E by (cbn in *; congruence).
    split; rewrite ?E12, ?E13, ?E14, ?E15, ?E16, ?E17, ?E18, ?E1, ?E; try done.
    + by intros id' [= <-].
    + by destruct Hs as [[_ ->]|[_ ->]].
    + by destruct Hs as [[_ ->]|[_ ->]].
    + by destruct Hs as [[_ ->]|[_ ->]].
Qed.

(** The claim of a requested row. *)
Lemma admissible_claim l request plan now :
  lease_row_ok l -> ol_state l = O_REQUESTED -> or_lease_id request = ol_lease_id l ->
  admissible l (PutState O_PROVISIONING :: provisioning_columns l request plan now).
Proof.
  intros Hr Hs Hid t. destruct (lr_requested _ Hr Hs) as (Hn & Ht & Hu & Ha).
  pose proof (row_no_name _ Hr Hn) as Hno. destruct Hr as [[R1 R1'] R2 R3 R4 R5 R6 R7 R8 R9].
  split.
  - split; cbn -[Z.add].
    + by split.
    + lia.
    + intros E. lia.
    + rewrite Hs. apply rtc_once. by left.
    + rewrite Hno. by intros v.
    + rewrite Hn. by intros v.
    + rewrite Ht. by intros v.
    + done.
  - split; cbn -[ollama_resource_name Z.add]; try done.
    + intros id Hid'. congruence.
    + intros n [= <-]. by rewrite Hid.
    + by rewrite Ha.
Qed.

End Changes.

(** ** Operations *)

Section Operations.
Context `{Digest} `{ErrorText} (host : OllamaHost) (Hrely : ollama_rely host).

Abbreviation safe := (OllamaLogic.safe host).

Lemma safe_required w id P :
  world_ok w ->
  (forall l w', world_ok w' -> world_le w w' -> ow_log w' = ow_log w ->
     row_lease w' l -> ol_lease_id l = id -> P l w') ->
  safe (required_lease id) w P.
Proof.
  intros Hw HP. apply (safe_bind _ _ _ _ (fun o w' => ow_log w' = ow_log w /\
    forall l, o = Some l -> row_lease w' l /\ ol_lease_id l = id)).
  - apply safe_get; [done..|]. intros o w' Hw' Hl Hlog Ho. split; [done|]. intros l Hol.
    destruct (Ho l Hol) as (? & ? & ?). by split.
  - intros o w' Hw' Hl [Hlog Ho]. apply safe_done; [done|]. intros l Hol. apply of_option_ok in Hol as ->.
    destruct (Ho l eq_refl). by apply HP.
Qed.

(** Quiet columns write no state. *)
Lemma quiet_writes cs s :
  forallb quiet cs = true ->
  List.fold_left (fun s c => match c with PutState t => Some t | _ => s end) cs s = s.
Proof.
  revert s. induction cs as [|c cs IH]; intros s Hq; [done|]. cbn [forallb] in Hq.
  apply andb_prop in Hq as [Hc Hq]. cbn [fold_left]. destruct c; try done; by apply IH.
Qed.

(** A quiet update of a row's lease. *)
Lemma safe_quiet w l cs P :
  world_ok w -> row_lease w l -> ol_state l <> O_TERMINATED -> forallb quiet cs = true ->
  (forall t w', world_ok w' -> world_le w w' -> ow_log w' = ow_log w ->
     row_lease w' (updated_lease l cs t) -> P (updated_lease l cs t) w') ->
  safe (ocall (OCas l cs)) w P.
Proof.
  intros Hw [Hh Hr] Hs Hq HP. apply safe_cas_row; try done.
  - by apply owed_quiet, quiet_writes.
  - by apply admissible_quiet.
Qed.

Lemma quiet_terminal_write l s cs t :
  ol_state (updated_lease l (PutState s :: cs) t) = s \/ forallb quiet cs = false \/ ol_route_url l <> None.
Proof.
  destruct (forallb quiet cs) eqn:Hq; [|auto]. destruct (ol_route_url l) eqn:Hn; [auto|]. left.
  pose proof (updated_state l s cs t Hn Hq) as E. unfold row_core in E. cbn [put ol_state] in E. congruence.
Qed.

(** A result that is a row's lease in state [s]. *)
Definition still (s : OllamaLeaseState) (w : OllamaWorld) (l : OllamaLease) : Prop :=
  row_lease w l /\ ol_state l = s.

Lemma still_stable s w w' l : world_le w w' -> still s w l -> still s w' l.
Proof. intros Hl [Hr Hs]. split; [by eapply row_lease_stable | done]. Qed.

(** A state change other than the terminal one, among quiet columns. *)
Lemma safe_move w l s cs :
  world_ok w -> holds_lease w l -> s <> O_TERMINATED -> s <> ol_state l -> forallb quiet cs = true ->
  (creating s = true -> ol_creation_uncertain l = true /\ is_some (ol_resource_name l) = true) ->
  (live s = true -> is_some (ol_provider_resource_id l) = true) ->
  safe (transition l s cs) w (fun l' w' => still s w' l').
Proof.
  intros Hw Hh Ht Hne Hq Hc Hl. apply safe_transition; [done|done|done| |].
  - intros Ha. split.
    + cbn [owed writes_state List.fold_left]. rewrite quiet_writes by done. by split.
    + by apply admissible_state; [apply Hh| | | | | |].
  - intros t w' Hw' _ _ _ Hr. split; [exact Hr|].
    pose proof (updated_state (stored l) s cs t eq_refl Hq) as E. unfold row_core in E.
    injection E as _ _ _ _ _ _ _ _ _ _ _ E _. exact E.
Qed.

(** *** Teardown *)

Definition terminated (w : OllamaWorld) (l : OllamaLease) : Prop :=
  row_lease w l /\ ol_state l = O_TERMINATED.

(** The terminal write of a releasing lease, once its resource is gone or none exists. *)
Lemma safe_terminal w l cs P :
  world_ok w -> row_lease w l ->
  ol_creation_uncertain l = false ->
  (ol_provider_resource_id l = None \/
   exists resource older, resource_from_lease l = Ok resource /\
     ow_log w = Event (OTeardown resource) (Ok tt) :: older) ->
  forallb quiet cs = true -> ol_state l <> O_TERMINATED ->
  writes_state (PutState O_TERMINATED :: cs) = Some O_TERMINATED ->
  (forall t, ol_teardown_state (updated_lease l (PutState O_TERMINATED :: cs) t) = TEARDOWN_COMPLETE) ->
  (forall l' w', world_ok w' -> world_le w w' -> terminated w' l' -> P l' w') ->
  safe (transition l O_TERMINATED cs) w P.
Proof.
  intros Hw [Hh Hr] Hu Hgone Hq Hs Hws Htd HP. apply safe_transition; try done.
  - intros Ht. split.
    + cbn [owed]. rewrite Hws. by split.
    + rewrite stored_row by done. apply admissible_state; try done.
  - rewrite stored_row by done. intros t w' Hw' Hl _ _ Hrow. apply HP; try done. split; [done|].
    destruct (quiet_terminal_write l O_TERMINATED cs t) as [E|[E|E]]; [done|congruence|].
    by destruct (lr_route _ Hr).
Qed.

Lemma safe_teardown_effect w l reason P :
  world_ok w -> row_lease w l -> ol_state l = O_RELEASING ->
  (forall l' w', world_ok w' -> world_le w w' -> terminated w' l' -> P l' w') ->
  safe (teardown_effect l reason) w P.
Proof.
  intros Hw Hl Hs HP. unfold teardown_effect.
  apply (safe_bind _ _ _ _ (fun _ w' => exists resource older, resource_from_lease l = Ok resource /\
    ow_log w' = Event (OTeardown resource) (Ok tt) :: older)).
  - apply safe_except.
    + apply (safe_bind _ _ _ _ (fun resource w' => resource_from_lease l = Ok resource /\ row_lease w' l)).
      * apply safe_done; [done|]. by intros a Ha.
      * intros resource w1 Hw1 Hl1 [Hres Hrow1]. apply safe_outside; try done.
        -- exists l. destruct Hrow1. by split_and!.
        -- intros n [] w' _ _ _ _ Hlog. by exists resource, (ow_log w1).
    + intros e w1 _ Hw1 Hl1. apply (safe_bind _ _ _ _ (fun _ w' => row_lease w' l)).
      * apply safe_now; [done|]. intros t w' Hw' Hl' _ _.
        eapply row_lease_stable; [exact Hl'|]. by eapply row_lease_stable.
      * intros t w2 Hw2 _ Hrow2. apply (safe_bind _ _ _ _ (fun _ _ => True)).
        -- apply safe_quiet; try done. by rewrite Hs.
        -- intros _ w3 Hw3 _ _. by apply safe_done.
  - intros _ w1 Hw1 Hl1 (resource & older & Hres & Hlog).
    pose proof (row_lease_stable _ _ _ Hl1 Hl) as Hrow1.
    apply (safe_bind _ _ _ _ (fun _ w' => ow_log w' = ow_log w1)).
    + by apply safe_now.
    + intros now w2 Hw2 Hl2 Hlog2. pose proof (row_lease_stable _ _ _ Hl2 Hrow1) as Hrow2.
      apply safe_terminal; try done.
      * destruct (resource_of_row _ _ (proj2 Hrow2) Hres) as [Hid _].
        by destruct (lr_resource _ (proj2 Hrow2) _ Hid) as (_ & ? & _).
      * right. exists resource, older. split; [done|]. by rewrite Hlog2.
      * by rewrite Hs.
      * intros l' w' Hw' Hl' Ht. apply HP; try done. by do 2 (etransitivity; [eassumption|]).
Qed.

Lemma safe_owned {A} (p : oprog A) w (P : A -> OllamaWorld -> Prop) :
  (forall a w1 w2, world_ok w2 -> world_le w1 w2 -> P a w1 -> P a w2) ->
  safe p w P -> safe (owned_effect p) w P.
Proof.
  intros Hst Hp. unfold owned_effect. eapply safe_bind; [exact Hp|]. intros a w1 Hw1 Hl1 HP1.
  apply (safe_bind _ _ _ _ (fun _ w' => P a w')).
  - apply safe_outside; try done. intros n c w' _ Hw' Hl' _ _. by eapply Hst.
  - intros c w2 Hw2 Hl2 HP2. apply safe_done; [done|]. by destruct c; intros ? [= <-].
Qed.

Lemma terminated_stable w w' l : world_le w w' -> terminated w l -> terminated w' l.
Proof. intros Hl [Hr Hs]. split; [by eapply row_lease_stable | done]. Qed.

Lemma safe_teardown_recorded w l reason :
  world_ok w -> row_lease w l -> ol_state l = O_RELEASING ->
  safe (teardown_recorded l reason) w (fun l' w' => terminated w' l').
Proof.
  intros Hw Hl Hs. unfold teardown_recorded.
  apply (safe_bind _ _ _ _ (fun l' w' => row_lease w' l' /\ ol_state l' = O_RELEASING)).
  - apply safe_quiet; try done. by rewrite Hs.
  - intros l' w' Hw' Hl' [Hrow Hs']. apply safe_owned.
    + intros a w1 w2 _. apply terminated_stable.
    + by apply safe_teardown_effect.
Qed.

Lemma safe_terminate_unprovisioned w l reason :
  world_ok w -> row_lease w l -> ol_state l = O_RELEASING -> ol_creation_uncertain l = false ->
  ol_provider_resource_id l = None ->
  safe (terminate_unprovisioned l reason) w (fun l' w' => terminated w' l').
Proof.
  intros Hw Hl Hs Hu Hid. unfold terminate_unprovisioned. apply safe_terminal; try done.
  - by left.
  - by rewrite Hs.
Qed.

Lemma updated_same_state l cs t :
  updated_lease l (PutState (ol_state l) :: cs) t = updated_lease l cs t.
Proof. by destruct l. Qed.

Lemma admissible_same_state l cs : admissible l (PutState (ol_state l) :: cs) -> admissible l cs.
Proof. intros Ha t. specialize (Ha t). by rewrite updated_same_state in Ha. Qed.

Lemma safe_quiet_still s w l cs :
  world_ok w -> still s w l -> s <> O_TERMINATED -> forallb quiet cs = true ->
  safe (ocall (OCas l cs)) w (fun l' w' => still s w' l').
Proof.
  intros Hw [Hr Hs] Hne Hq. apply safe_quiet; try done; [by rewrite Hs|].
  intros t w' Hw' Hl' _ Hrow. split; [done|].
  pose proof (updated_quiet l cs t (proj1 (lr_route _ (proj2 Hr))) Hq) as E. unfold row_core in E. congruence.
Qed.

(** [OFind] under a handler that records the failure. *)
Lemma safe_find s w l t name h :
  world_ok w -> still s w l -> s <> O_TERMINATED ->
  (forall e w', world_ok w' -> still s w' l ->
     safe (h e) w' (fun r w2 => exists l', r = inr l' /\ still s w2 l')) ->
  safe (except_manager (let+ r := ocall (OFind t name) in Done (Ok (inl r)))%prog h) w
    (fun r w' => match r with
       | inl (Some res) => rs_provider_resource_id res <> ""
       | inl None => True
       | inr l' => still s w' l'
       end).
Proof.
  intros Hw Hl Hne Hh.
  apply (safe_mono _ _ _ (fun r w' => match r with
    | inl o => forall res, o = Some res -> rs_provider_resource_id res <> ""
    | inr l' => still s w' l' end)).
  - apply safe_except.
    + apply (safe_bind _ _ _ _ (fun o _ => forall res, o = Some res -> rs_provider_resource_id res <> "")).
      * apply safe_outside; try done. intros n o w' Ho Hw' _ _ _ res ->. by eapply (orl_found _ Hrely).
      * intros o w1 Hw1 _ Ho. apply safe_done; [done|]. by intros a [= <-].
    + intros e w' _ Hw' Hl'. eapply safe_mono; [apply Hh; [done|]; by eapply still_stable|].
      by intros r w2 _ _ (l' & -> & Hs).
  - intros [[res|]|l'] w' _ _ Hr; [by apply Hr | done | done].
Qed.

Lemma safe_record_failure s w l cs :
  world_ok w -> still s w l -> s <> O_TERMINATED -> forallb quiet cs = true ->
  safe (let+ l' := ocall (OCas l cs) in Done (Ok (inr l')))%prog w
    (fun (r : option ProvisionedOllamaResource + OllamaLease) w2 => exists l', r = inr l' /\ still s w2 l').
Proof.
  intros Hw Hl Hne Hq. eapply safe_bind; [by apply (safe_quiet_still s)|].
  intros l' w' Hw' _ Hs. apply safe_done; [done|]. intros a [= <-]. by exists l'.
Qed.

Lemma safe_resolve w l reason :
  world_ok w -> still O_RELEASING w l -> ol_provider_resource_id l = None ->
  safe (resolve_uncertain_release l reason) w (fun l' w' => still O_RELEASING w' l').
Proof.
  intros Hw [Hr Hs] Hno. unfold resolve_uncertain_release.
  destruct (ol_resource_type l) as [t|] eqn:Et; [destruct (ol_resource_name l) as [name|] eqn:En|];
    [|by apply (safe_quiet_still O_RELEASING)..].
  eapply safe_bind; [apply (safe_find O_RELEASING _ l); try done|].
  - intros e w1 Hw1 Hl1. by apply (safe_record_failure O_RELEASING).
  - intros [[res|]|l'] w1 Hw1 Hl1 Hf.
    + pose proof (row_lease_stable _ _ _ Hl1 Hr) as Hrow1.
      apply safe_cas_row; try done.
      apply admissible_same_state. rewrite Hs.
      apply admissible_resource; try done; rewrite ?Hs, ?En; try done; [apply Hr | by right].
    + apply (safe_quiet_still O_RELEASING); try done. eapply still_stable; [exact Hl1|]. by split.
    + by apply safe_done; [|intros ? [= <-]].
Qed.

Lemma safe_release_releasing w l reason :
  world_ok w -> still O_RELEASING w l ->
  safe (release_releasing l reason) w (fun l' w' => terminated w' l').
Proof.
  intros Hw [Hr Hs]. unfold release_releasing.
  assert (has_resource_id l = false -> ol_provider_resource_id l = None) as Hnone.
  { intros E. destruct (ol_provider_resource_id l) eqn:Eid; [|done].
    assert (has_resource_id l = true) by (apply row_has_resource; [apply Hr|]; by rewrite Eid). congruence. }
  destruct (has_resource_id l) eqn:E; [by apply safe_teardown_recorded|].
  destruct (ol_creation_uncertain l) eqn:Eu; [|by apply safe_terminate_unprovisioned; auto].
  eapply safe_bind; [apply safe_resolve; [done|by split|by apply Hnone]|].
  intros l' w' Hw' Hl' [Hr' Hs']. destruct (ol_creation_uncertain l') eqn:Eu'; [by apply safe_done|].
  destruct (has_resource_id l') eqn:E'; [by apply safe_teardown_recorded|].
  apply safe_terminate_unprovisioned; try done. destruct (ol_provider_resource_id l') eqn:Eid; [|done].
  assert (has_resource_id l' = true) by (apply row_has_resource; [apply Hr'|]; by rewrite Eid). congruence.
Qed.

(** A lease fit for release: as its row holds it, or ready with a route attached. *)
Definition releasable (w : OllamaWorld) (l : OllamaLease) : Prop :=
  holds_lease w l /\ (lease_row_ok l \/ ol_state l = O_READY).

Lemma releasable_stable w w' l : world_le w w' -> releasable w l -> releasable w' l.
Proof. intros Hl [Hh Ho]. split; [by eapply holds_lease_stable | done]. Qed.

Lemma row_releasable w l : row_lease w l -> releasable w l.
Proof. intros [Hh Hr]. split; [done | by left]. Qed.

Lemma safe_release_lease w l reason :
  world_ok w -> releasable w l ->
  safe (release_lease l reason) w (fun l' w' => terminated w' l').
Proof.
  intros Hw [Hh Ho]. unfold release_lease.
  assert (ol_state l <> O_READY -> lease_row_ok l) as Hrow by (destruct Ho; congruence).
  case_bool_decide as Et.
  { apply safe_done; [done|]. intros a [= <-]. split; [|done]. split; [done|]. apply Hrow. congruence. }
  apply (safe_bind _ _ _ _ (fun _ w' => releasable w' l)).
  { apply safe_now; [done|]. intros t w' _ Hl _ _. by apply (releasable_stable w). }
  intros now w1 Hw1 Hl1 [Hh1 Ho1].
  destruct (bool_decide (ol_state l = O_REQUESTED) && negb (has_resource_id l)) eqn:Ereq.
  - apply andb_prop in Ereq as [Es%bool_decide_eq_true _].
    assert (lease_row_ok l) as Hr by (apply Hrow; congruence).
    destruct (lr_requested _ Hr Es) as (Hn & _ & Hu & _).
    apply safe_terminal; try done.
    + left. by apply row_no_name.
  - apply (safe_bind _ _ _ _ (fun l' w' => still O_RELEASING w' l')).
    + clear Ereq. case_bool_decide as Erel.
      * apply safe_done; [done|]. intros a [= <-]. split; [|done]. split; [done|]. apply Hrow. congruence.
      * apply safe_move; [done|done|done|exact (not_eq_sym Erel)|done..].
    + intros l' w' Hw' _ Hs. by apply safe_release_releasing.
Qed.

End Operations.
