(* ===== verification/OllamaOperations.v ===== *)
(** Safety of the private-Ollama service, continued: readiness, creation, and the
    operations callers and the reconciler run. *)
From S2P Require Import Prelude PyStr Enums Errors PyDecimal PyFloat PyTime Json ContractsBase CodecBase Placement OllamaContracts OllamaLeases OllamaRepository Prog OllamaService OllamaLogic OllamaSafety.

#[local] Open Scope Z_scope.

Section Operations.
Context `{Digest} `{ErrorText} (host : OllamaHost) (Hrely : ollama_rely host).

Abbreviation safe := (OllamaLogic.safe host).

(** [routed w0 w l]: since world [w0] the lease's own resource was observed with this
    route, ready and with the requested model, and a clock reading found the lease
    before its hard deadline and within its authorized cost. *)
Definition routed (w0 w : OllamaWorld) (l : OllamaLease) : Prop :=
  exists resource o new n,
    ow_log w = (new ++ ow_log w0)%list /\ Event (OObserve resource) (Ok o) ∈ new /\
    resource_from_lease l = Ok resource /\ routable o = true /\ has_model o (ol_model l) = true /\
    ol_route_url l = ro_route_url o /\ ol_provider_health_url l = ro_provider_health_url o /\
    (ow_tick w0 <= n)%nat /\ past_hard_or_cost l (oh_clock host n) = false.

(** What an operation answers: a lease as its row holds it, or a ready one with a route
    observed since [w0]. *)
Definition answered (w0 : OllamaWorld) (l : OllamaLease) (w : OllamaWorld) : Prop :=
  holds_lease w l /\ (lease_row_ok l \/ ol_state l = O_READY /\ routed w0 w l).

Lemma routed_since w0 w1 w l : world_le w0 w1 -> routed w1 w l -> routed w0 w l.
Proof.
  intros [_ [n0 L0] T0] (resource & o & new & n & Hlog & Hin & Hrest).
  exists resource, o, (new ++ n0)%list, n. destruct Hrest as (? & ? & ? & ? & ? & ? & ?). split_and!; try done.
  - by rewrite Hlog, L0, app_assoc.
  - apply elem_of_app. by left.
  - lia.
Qed.

Lemma routed_until w0 w w' l : world_le w w' -> routed w0 w l -> routed w0 w' l.
Proof.
  intros [_ [n1 L1] _] (resource & o & new & n & Hlog & Hin & Hrest).
  exists resource, o, (n1 ++ new)%list, n. destruct Hrest as (? & ? & ? & ? & ? & ? & ?). split_and!; try done.
  - by rewrite L1, Hlog, app_assoc.
  - apply elem_of_app. by right.
Qed.

Lemma answered_since w0 w1 w l : world_le w0 w1 -> answered w1 l w -> answered w0 l w.
Proof. intros Hl [Hh [Hr|[Hs Hr]]]; split; auto. right. split; [done|]. by eapply routed_since. Qed.

Lemma answered_until w0 w w' l : world_le w w' -> answered w0 l w -> answered w0 l w'.
Proof.
  intros Hl [Hh Ho]. split; [by eapply holds_lease_stable|]. destruct Ho as [Hr|[Hs Hr]]; [by left|].
  right. split; [done|]. by eapply routed_until.
Qed.

Lemma answered_releasable w0 w l : answered w0 l w -> releasable w l.
Proof. intros [Hh [Hr|[Hs _]]]; split; auto. Qed.

Lemma row_answered w0 w l : row_lease w l -> answered w0 l w.
Proof. intros [Hh Hr]. split; [done | by left]. Qed.

Lemma still_answered s w0 w l : still s w l -> answered w0 l w.
Proof. intros [Hr _]. by apply row_answered. Qed.

(** Bind a lease-valued step whose answer is [answered]. *)
Lemma safe_bind_answered (p : oprog OllamaLease) (f : OllamaLease -> oprog OllamaLease) w :
  safe p w (answered w) ->
  (forall l w', world_ok w' -> world_le w w' -> answered w l w' -> safe (f l) w' (answered w)) ->
  safe (pbind p f) w (answered w).
Proof. intros Hp Hf. by eapply safe_bind. Qed.

Lemma safe_release_answered w0 w l reason :
  world_ok w -> releasable w l -> safe (release_lease l reason) w (answered w0).
Proof.
  intros Hw Hr. eapply safe_mono; [by apply safe_release_lease|]. intros l' w' _ _ Ht. by apply (still_answered O_TERMINATED).
Qed.

(** A clock reading, with the release gate decided on it. *)
Lemma safe_bind_now {A} (f : instant -> oprog A) w P :
  world_ok w ->
  (forall n w', world_ok w' -> world_le w w' -> (ow_tick w <= n)%nat -> ow_log w' = ow_log w ->
     safe (f (oh_clock host n)) w' P) ->
  safe (pbind (ocall ONow) f) w P.
Proof.
  intros Hw Hf. apply (safe_bind _ _ _ _ (fun t w' => ow_log w' = ow_log w /\
    exists n, (ow_tick w <= n)%nat /\ t = oh_clock host n)).
  - apply safe_now; [done|]. intros t w' Hw' Hl -> Hlog. split; [done|]. by exists (ow_tick w).
  - intros t w' Hw' Hl (Hlog & n & Hn & ->). by apply Hf.
Qed.

(** *** Readiness *)

(** An observation of a live row's resource, a failure going to [h]. *)
Lemma safe_observe {B} w l (inj : OllamaReadinessObservation -> B) h resource (P : B -> OllamaWorld -> Prop) :
  world_ok w -> row_lease w l -> live (ol_state l) = true -> resource_from_lease l = Ok resource ->
  (forall o w', world_ok w' -> world_le w w' -> row_lease w' l ->
     ow_log w' = Event (OObserve resource) (Ok o) :: ow_log w -> P (inj o) w') ->
  (forall e w', world_ok w' -> world_le w w' -> row_lease w' l -> safe (h e) w' P) ->
  safe (except_manager (let+ o := ocall (OObserve resource) in Done (Ok (inj o)))%prog h) w P.
Proof.
  intros Hw Hl Hlive Hres HP Hh. apply safe_except.
  - apply (safe_bind _ _ _ _ (fun o w' => row_lease w' l /\ ow_log w' = Event (OObserve resource) (Ok o) :: ow_log w)).
    + apply safe_outside; try done.
      * exists l. destruct Hl. by split_and!.
      * intros n o w' _ Hw' Hl' _ Hlog. split; [by eapply row_lease_stable | done].
    + intros o w' Hw' Hl' [Hrow Hlog]. apply safe_done; [done|]. intros a [= <-]. by apply HP.
  - intros e w' _ Hw' Hl'. apply Hh; try done. by eapply row_lease_stable.
Qed.

Lemma live_not_terminated s : live s = true -> s <> O_TERMINATED.
Proof. by intros H1 ->. Qed.

(** The release gate reads terms an accrual does not change. *)
Definition gate_terms (l : OllamaLease) :=
  (ol_hard_deadline l, ol_max_authorized_cost l, ol_maximum_non_compute_cost l, ol_offered_rate_per_hr l,
   (ol_provisioning_started_at l, ol_maximum_concurrent_workers l, ol_placement_gpu_count l)).

Lemma accrual_kept l l' now :
  gate_terms l' = gate_terms l ->
  ol_accrued_estimated_cost l' = accrued_cost l now \/ ol_accrued_estimated_cost l' = ol_accrued_estimated_cost l ->
  accrued_cost l' now = accrued_cost l now.
Proof.
  unfold gate_terms. intros [= E1 E2 E3 E4 E5 E6 E7] Ha. unfold accrued_cost in *.
  rewrite E1, E2, E4, E5, E6, E7. destruct (ol_offered_rate_per_hr l); [|by destruct Ha].
  destruct (ol_provisioning_started_at l); [done | by destruct Ha].
Qed.

Lemma gate_kept l l' now :
  gate_terms l' = gate_terms l ->
  ol_accrued_estimated_cost l' = accrued_cost l now \/ ol_accrued_estimated_cost l' = ol_accrued_estimated_cost l ->
  past_hard_or_cost l' now = past_hard_or_cost l now.
Proof.
  intros Hg Ha. pose proof (accrual_kept l l' now Hg Ha) as E.
  unfold gate_terms in Hg. injection Hg as E1 E2 E3 _ _ _ _.
  unfold past_hard_or_cost, over_authorized_cost, authorized_cost_exposure. by rewrite E, E1, E2, E3.
Qed.

(** A quiet update of a live row keeps its resource, its model and its state. *)
Lemma quiet_same l cs t :
  lease_row_ok l -> forallb quiet cs = true ->
  let l' := updated_lease l cs t in
  ol_state l' = ol_state l /\ ol_model l' = ol_model l /\ resource_from_lease l' = resource_from_lease l.
Proof.
  intros Hr Hq. pose proof (updated_quiet l cs t (proj1 (lr_route _ Hr)) Hq) as E. cbv zeta.
  set (l' := updated_lease l cs t) in *. clearbody l'. unfold row_core in E.
  assert (ol_state l' = ol_state l /\ ol_model l' = ol_model l /\ ol_resource_type l' = ol_resource_type l /\
    ol_provider_resource_id l' = ol_provider_resource_id l /\ ol_resource_name l' = ol_resource_name l)
    as (-> & -> & Et & Ei & En) by (split_and!; congruence).
  unfold resource_from_lease. by rewrite Et, Ei, En.
Qed.

(** A ready lease with a route observed since [w0]. *)
Definition ready_routed (w0 : OllamaWorld) (l : OllamaLease) (w : OllamaWorld) : Prop :=
  holds_lease w l /\ ol_state l = O_READY /\ routed w0 w l.

Lemma routed_answered w0 l w : ready_routed w0 l w -> answered w0 l w.
Proof. intros (Hh & Hs & Hr). split; auto. Qed.

(** A row's lease with the route just observed. *)
Lemma attach_answered w0 w l resource o new n :
  row_lease w l -> ol_state l = O_READY ->
  ow_log w = (new ++ ow_log w0)%list -> Event (OObserve resource) (Ok o) ∈ new ->
  resource_from_lease l = Ok resource -> routable o = true -> has_model o (ol_model l) = true ->
  (ow_tick w0 <= n)%nat -> past_hard_or_cost l (oh_clock host n) = false ->
  ready_routed w0 (attach_route l o) w.
Proof.
  intros [Hh Hr] Hs Hlog Hin Hres Hro Hm Hn Hg. split; [by apply held_attached|].
  split; [exact Hs|]. exists resource, o, new, n. split_and!; try done; by destruct l.
Qed.

Lemma ready_not_terminated l : ol_state l = O_READY -> ol_state l <> O_TERMINATED.
Proof. intros ->. done. Qed.

Lemma safe_ready_with_route w l :
  world_ok w -> row_lease w l -> ol_state l = O_READY ->
  safe (ready_with_route l) w (fun l' w' => terminated w' l' \/ ready_routed w l' w').
Proof.
  intros Hw Hl Hs. unfold ready_with_route. apply safe_bind_now; [done|]. intros n w1 Hw1 Hl1 Hn Hlog1.
  pose proof (row_lease_stable _ _ _ Hl1 Hl) as Hrow1. set (now := oh_clock host n). cbv zeta.
  destruct (_ || _ || _) eqn:Eg.
  { eapply safe_mono; [apply safe_release_lease; [done|done|by apply row_releasable]|]. by left. }
  assert (past_hard_or_cost l now = false) as Hgate.
  { unfold past_hard_or_cost. apply orb_false_iff in Eg as [[-> _]%orb_false_iff ->]. done. }
  apply (safe_bind _ _ _ _ (fun (o : OllamaReadinessObservation) w' => row_lease w' l /\ exists resource, resource_from_lease l = Ok resource /\
    ow_log w' = @Event _ ollama_answer (OObserve resource) (Ok o) :: ow_log w1)).
  { apply safe_except.
    - apply (safe_bind _ _ _ _ (fun resource w' => resource_from_lease l = Ok resource /\ row_lease w' l /\ ow_log w' = ow_log w1)).
      + apply safe_done; [done|]. by intros a Ha.
      + intros resource w' Hw' Hl' (Hres & Hrow' & Hlog'). apply safe_outside; try done.
        * exists l. destruct Hrow'. split_and!; try done. by rewrite Hs.
        * intros k o w2 _ _ Hl2 _ Hlog2. split; [by eapply row_lease_stable|]. exists resource.
          split; [done|]. by rewrite Hlog2, Hlog'.
    - intros e w' _ Hw' Hl'. pose proof (row_lease_stable _ _ _ Hl' Hrow1) as Hrow'.
      apply (safe_bind _ _ _ _ (fun _ _ => True)).
      + by apply safe_quiet; [done|done|exact Hrow'|apply ready_not_terminated| |].
      + intros _ w2 Hw2 _ _. by apply safe_done. }
  intros o w2 Hw2 Hl2 (Hrow2 & resource & Hres & Hlog2).
  destruct (routable o && has_model o (ol_model l)) eqn:Eo.
  - apply andb_prop in Eo as [Hro Hm].
    apply (safe_bind _ _ _ _ (fun l' w' => row_lease w' l' /\ ow_log w' = ow_log w2 /\
      exists t, l' = updated_lease l [PutAccruedEstimatedCost (accrued_cost l now); PutLastProviderError None] t)).
    + apply safe_quiet; [done|done|done|by apply ready_not_terminated|done|].
      intros t w' _ _ Hlog' Hrow'. split; [done|]. split; [done|]. by exists t.
    + intros l' w3 Hw3 _ (Hrow3 & Hlog3 & t & El'). apply safe_done; [done|]. intros a [= <-]. right.
      destruct (quiet_same l [PutAccruedEstimatedCost (accrued_cost l now); PutLastProviderError None] t
        (proj2 Hl) eq_refl) as (E1 & E2 & E3). rewrite <- El' in E1, E2, E3.
      eapply (attach_answered w w3 l' resource o [@Event _ ollama_answer (OObserve resource) (Ok o)] n); try done.
      * by rewrite E1.
      * by rewrite Hlog3, Hlog2, Hlog1.
      * by left.
      * by rewrite E3.
      * by rewrite E2.
      * rewrite <- Hgate. subst l'. apply gate_kept; [done | by left].
  - apply (safe_bind _ _ _ _ (fun _ _ => True)).
    + by apply safe_quiet; [done|done|exact Hrow2|apply ready_not_terminated| |].
    + intros _ w3 Hw3 _ _. by apply safe_done.
Qed.

Lemma safe_ready_answered w0 w l :
  world_le w0 w -> world_ok w -> row_lease w l -> ol_state l = O_READY ->
  safe (ready_with_route l) w (answered w0).
Proof.
  intros H0w Hw Hl Hs. eapply safe_mono; [by apply safe_ready_with_route|]. intros a w' _ _ [Ht|Hr].
  - by eapply still_answered.
  - by eapply answered_since, routed_answered.
Qed.

(** The readiness write of a waiting row. *)
Lemma safe_mark_ready w0 w l n resource o new :
  world_ok w -> still O_WAITING_FOR_MODEL w l ->
  ow_log w = (new ++ ow_log w0)%list -> Event (OObserve resource) (Ok o) ∈ new ->
  resource_from_lease l = Ok resource -> routable o = true -> has_model o (ol_model l) = true ->
  (ow_tick w0 <= n)%nat -> past_hard_or_cost l (oh_clock host n) = false ->
  safe (mark_ready l (oh_clock host n) o) w (answered w0).
Proof.
  intros Hw [Hrow Hs] Hlog Hin Hres Hro Hm Hn Hg. unfold mark_ready. cbv zeta.
  set (now := oh_clock host n) in *. set (cs := [PutReadyAt _; _; _; _; _; _]).
  apply (safe_bind _ _ _ _ (fun l' w' => row_lease w' l' /\ ow_log w' = ow_log w /\
    exists t, l' = updated_lease l (PutState O_READY :: cs) t)).
  - apply safe_transition; [done|done|apply Hrow| |].
    + intros Ha. split.
      * cbn [owed writes_state List.fold_left cs]. by split.
      * rewrite stored_row by apply Hrow. apply admissible_state; try done; [apply Hrow|by rewrite Hs|].
        intros _. apply (lr_live _ (proj2 Hrow)). by rewrite Hs.
    + rewrite stored_row by apply Hrow. intros t w' _ _ Hlog' _ Hrow'. split; [done|]. split; [done|].
      by exists t.
  - intros l' w' Hw' _ (Hrow' & Hlog' & t & ->). apply safe_done; [done|]. intros a [= <-].
    eapply routed_answered, (attach_answered w0 w' _ resource o new n); try done. by rewrite Hlog'.
Qed.

(** [check_readiness_once] of a waiting row. *)
Lemma safe_check_readiness w l :
  world_ok w -> still O_WAITING_FOR_MODEL w l -> safe (check_readiness_once l) w (answered w).
Proof.
  intros Hw [Hl Hs]. unfold check_readiness_once. eapply safe_bind; [by apply safe_done; [|intros a Ha; exact Ha]|].
  intros resource w0 Hw0 Hl0 Hres. cbn beta in Hres.
  pose proof (row_lease_stable _ _ _ Hl0 Hl) as Hrow0.
  apply safe_bind_now; [done|]. intros n w1 Hw1 Hl1 Hn Hlog1.
  pose proof (row_lease_stable _ _ _ Hl1 Hrow0) as Hrow1. set (now := oh_clock host n). cbv zeta.
  assert (ol_state l <> O_TERMINATED) as Hnt by by rewrite Hs.
  apply (safe_bind _ _ _ _ (fun r w' => match r with
    | inl o => row_lease w' l /\ ow_log w' = @Event _ ollama_answer (OObserve resource) (Ok o) :: ow_log w1
    | inr l' => row_lease w' l'
    end)).
  { apply (safe_observe w1 l inl _ resource); try done; [by rewrite Hs|].
    intros e w' Hw' Hl' Hrow'. eapply safe_bind; [by apply (safe_quiet_still host Hrely O_WAITING_FOR_MODEL)|].
    intros l' w2 Hw2 _ [Hrow2 _]. apply safe_done; [done|]. by intros a [= <-]. }
  intros [o|l'] w2 Hw2 Hl2.
  2: { intros Hrow. apply safe_done; [done|]. intros a [= <-]. by apply row_answered. }
  intros [Hrow2 Hlog2].
  apply (safe_bind _ _ _ _ (fun l' w' => row_lease w' l' /\ ow_log w' = ow_log w2 /\
    exists t, l' = updated_lease l [PutAccruedEstimatedCost (accrued_cost l now)] t)).
  { apply safe_quiet; [done|done|done|done|done|].
    intros t w' _ _ Hlog' Hrow'. split; [done|]. split; [done|]. by exists t. }
  intros l' w3 Hw3 Hl3 (Hrow3 & Hlog3 & t & El').
  destruct (quiet_same l [PutAccruedEstimatedCost (accrued_cost l now)] t (proj2 Hl) eq_refl) as (E1 & E2 & E3).
  rewrite <- El' in E1, E2, E3.
  destruct (past_hard_or_cost l' now) eqn:Eg; [by apply safe_release_answered; [|apply row_releasable]|].
  destruct (routable o) eqn:Ero.
  2: { apply safe_done; [done|]. intros a [= <-]. by apply row_answered. }
  destruct (has_model o (ol_model l')) eqn:Em.
  - destruct (wl_log _ _ Hl0) as [n0 L0].
    eapply (safe_mark_ready w w3 l' n resource o (@Event _ ollama_answer (OObserve resource) (Ok o) :: n0));
      [done|split; [done|congruence]| |by left|congruence|done|done| |done].
    + by rewrite Hlog3, Hlog2, Hlog1, L0.
    + pose proof (wl_tick _ _ Hl0). lia.
  - unfold request_pull.
    eapply safe_bind; [apply (safe_quiet_still host Hrely O_WAITING_FOR_MODEL); [done|split; [done|congruence]|done|done]|].
    intros l4 w4 Hw4 _ Hs4. apply safe_except.
    + apply (safe_bind _ _ _ _ (fun _ w' => still O_WAITING_FOR_MODEL w' l4)).
      * apply safe_outside; try done. intros k u w' _ _ Hl' _ _. by eapply still_stable.
      * intros _ w' Hw' _ Hs'. apply safe_done; [done|]. intros a [= <-]. by eapply still_answered.
    + intros e w' _ Hw' Hl'. apply (safe_mono _ _ _ (fun l5 w5 => still O_WAITING_FOR_MODEL w5 l5)).
      * apply (safe_quiet_still host Hrely); [done|by eapply still_stable|done|done].
      * intros l5 w5 _ _. apply still_answered.
Qed.

(** The loop: any amount of fuel. *)
Lemma safe_wait fuel w0 w l :
  world_le w0 w -> world_ok w -> still O_WAITING_FOR_MODEL w l \/ answered w0 l w ->
  safe (wait_until_ready fuel l) w (answered w0).
Proof.
  revert w l. induction fuel as [|fuel IH]; intros w l H0w Hw Hl; cbn [wait_until_ready]; [by apply safe_done|].
  assert (answered w0 l w) as Ha by (destruct Hl as [Hl|Hl]; [by eapply still_answered | done]).
  destruct (bool_decide (ol_state l = O_WAITING_FOR_MODEL)) eqn:Es.
  2: { apply safe_done; [done|]. by intros a [= <-]. }
  apply bool_decide_eq_true in Es.
  assert (still O_WAITING_FOR_MODEL w l) as Hstill.
  { split; [|done]. destruct Ha as [Hh [Hr|[Hr _]]]; [by split | congruence]. }
  eapply safe_bind; [by apply safe_check_readiness|]. intros l1 w1 Hw1 Hl1 Ha1.
  assert (answered w0 l1 w1) as Ha1' by (by eapply answered_since).
  assert (world_le w0 w1) as H01 by (by etransitivity).
  destruct (bool_decide (ol_state l1 = O_READY)); [apply safe_done; [done|]; by intros a [= <-]|].
  apply safe_bind_now; [done|]. intros n w2 Hw2 Hl2 _ _.
  pose proof (answered_until _ _ _ _ Hl2 Ha1') as Ha2.
  assert (world_le w0 w2) as H02 by (by etransitivity).
  destruct (_ && _); [by apply safe_release_answered; [|eapply answered_releasable]|].
  destruct (_ <=? _).
  - apply (safe_bind _ _ _ _ (fun _ _ => True)).
    + apply safe_catch.
      * eapply safe_mono; [apply safe_release_lease; [done|done|by eapply answered_releasable]|done].
      * intros e q w' Hq Hw' _. destruct (is_teardown_error e); [|done]. injection Hq as <-. by apply safe_done.
    + intros _ w3 Hw3 _ _. by apply safe_done.
  - apply (safe_bind _ _ _ _ (fun _ w' => answered w0 l1 w' /\ world_le w0 w')).
    + apply safe_outside; try done. intros k u w' _ _ Hl' _ _. split; [by eapply answered_until | by etransitivity].
    + intros _ w3 Hw3 _ [Ha3 H03]. apply IH; auto.
Qed.

(** *** Creation *)

Lemma safe_provision_effect w l request plan name :
  world_ok w -> row_lease w l -> owed (OProvision request plan name) w ->
  ol_state l = O_PROVISIONING -> ol_provider_resource_id l = None ->
  safe (provision_effect l request plan name) w (fun l' w' => row_lease w' l').
Proof.
  intros Hw Hl Howed Hs Hno. unfold provision_effect.
  destruct (lr_creating _ (proj2 Hl)) as [Hu Hname]; [by rewrite Hs|].
  apply (safe_bind _ _ _ _ (fun res w' => rs_provider_resource_id res <> "")).
  - apply safe_except.
    + apply safe_provision; [done|done|]. intros n res w' Ha _ _ _. by eapply (orl_created _ Hrely).
    + intros e w' _ Hw' Hl'. pose proof (row_lease_stable _ _ _ Hl' Hl) as Hrow'.
      apply (safe_bind _ _ _ _ (fun _ _ => True)).
      * eapply safe_mono; [apply safe_move; [done|done|apply Hrow'|done|by rewrite Hs|done|by split|done]|done].
      * intros _ w2 Hw2 _ _. by apply safe_done.
  - intros res w1 Hw1 Hl1 Hid. pose proof (row_lease_stable _ _ _ Hl1 Hl) as Hrow1.
    apply safe_transition; [done|done|apply Hrow1| |].
    + intros Ht. split; [by split|]. rewrite stored_row by apply Hrow1.
      apply admissible_resource; [apply Hrow1|done|done| |done|done|done]. left. by rewrite Hs.
    + by intros t w' _ _ _ _ Hrow'.
Qed.

Lemma safe_plan_request w request plan :
  world_ok w ->
  safe (plan_request request plan) w (fun p _ => validate_plan request p = Ok tt).
Proof.
  intros Hw. unfold plan_request. apply (safe_bind _ _ _ _ (fun _ _ => True)).
  - destruct plan; [by apply safe_done|]. by apply safe_outside.
  - intros p w1 Hw1 _ _. apply (safe_bind _ _ _ _ (fun _ _ => validate_plan request p = Ok tt)).
    + apply safe_done; [done|]. by intros [].
    + intros _ w2 Hw2 _ Hp. apply (safe_bind _ _ _ _ (fun _ _ => True)); [by apply safe_done|].
      intros _ w3 Hw3 _ _. apply (safe_bind _ _ _ _ (fun _ _ => True)); [by apply safe_outside|].
      intros _ w4 Hw4 _ _. apply safe_done; [done|]. by intros a [= <-].
Qed.

Lemma safe_provision_requested w l request plan :
  world_ok w -> row_lease w l -> or_lease_id request = ol_lease_id l ->
  safe (provision_requested l request plan) w (fun l' w' => row_lease w' l').
Proof.
  intros Hw Hl Hid. unfold provision_requested. destruct (bool_decide _) eqn:Es; [|by apply safe_done].
  apply bool_decide_eq_true in Es.
  apply (safe_bind _ _ _ _ (fun p w' => row_lease w' l /\ validate_plan request p = Ok tt)).
  { apply safe_except.
    - eapply safe_mono; [by apply safe_plan_request|]. intros p w' _ Hl' Hp.
      split; [by eapply row_lease_stable | done].
    - intros e w' _ Hw' Hl'. pose proof (row_lease_stable _ _ _ Hl' Hl) as Hrow'.
      apply (safe_bind _ _ _ _ (fun _ _ => True)).
      + eapply safe_mono; [apply safe_move; [done|done|apply Hrow'|done|by rewrite Es|done|done|done]|done].
      + intros _ w2 Hw2 _ _. by apply safe_done. }
  intros p w1 Hw1 _ [Hrow1 Hp]. apply safe_bind_now; [done|]. intros n w2 Hw2 Hl2 _ _.
  pose proof (row_lease_stable _ _ _ Hl2 Hrow1) as [Hh2 Hr2]. clear Hrow1.
  set (cs := provisioning_columns l request p (oh_clock host n)).
  destruct (lr_requested _ Hr2 Es) as (Hn & _). pose proof (row_no_name _ Hr2 Hn) as Hno.
  apply (safe_bind _ _ _ _ (fun l' w' => row_lease w' l' /\
    owed (OProvision request p (ollama_resource_name (or_lease_id request))) w' /\
    ol_state l' = O_PROVISIONING /\ ol_provider_resource_id l' = None)).
  - unfold transition. destruct (transition_allowed _ _) eqn:Ea; [|by apply safe_done].
    apply safe_cas; [done|done|done| | |].
    + cbn [owed]. replace (writes_state (PutState O_PROVISIONING :: cs)) with (Some O_PROVISIONING) by done.
      by split.
    + rewrite stored_row by done. by apply admissible_claim.
    + rewrite stored_row by done. intros t w' Hw' _ Hlog l' Hh' Hr' Hnew. split; [by split|].
      split; [|by split]. exists l'. split_and!; try done.
      rewrite Hid, Hlog. by apply Hnew.
  - intros l' w' Hw' _ (Hrow' & Howed & Hs' & Hno'). apply safe_owned; [|by apply safe_provision_effect].
    intros a x y _ Hxy. by apply row_lease_stable.
Qed.

Lemma safe_reconcile_creation w l :
  world_ok w -> row_lease w l -> creating (ol_state l) = true ->
  safe (reconcile_creation l) w (fun l' w' => row_lease w' l').
Proof.
  intros Hw Hl Hs. unfold reconcile_creation. destruct (lr_creating _ (proj2 Hl) Hs) as [Hu Hname].
  destruct (has_resource_id l) eqn:Ehas.
  { apply row_has_resource in Ehas; [|apply Hl]. destruct (ol_provider_resource_id l) eqn:Eid; [|done].
    destruct (lr_resource _ (proj2 Hl) _ Eid) as (_ & ? & _). congruence. }
  assert (ol_provider_resource_id l = None) as Hno.
  { destruct (ol_provider_resource_id l) eqn:Eid; [|done].
    destruct (lr_resource _ (proj2 Hl) _ Eid) as (_ & ? & _). congruence. }
  destruct (ol_resource_type l) as [t|]; [destruct (ol_resource_name l) as [name|] eqn:En|];
    [|apply safe_done; [done|]; by intros a [= <-]..].
  eapply safe_bind; [apply (safe_find host Hrely (ol_state l) _ l); [done|by split|by destruct (ol_state l)|]|].
  - intros e w1 Hw1 Hl1. apply (safe_record_failure host Hrely (ol_state l)); [done|done|by destruct (ol_state l)|done].
  - intros [[res|]|l'] w1 Hw1 Hl1 Hf; cbn beta iota in Hf.
    + pose proof (row_lease_stable _ _ _ Hl1 Hl) as Hrow1.
      apply safe_transition; [done|done|apply Hrow1| |].
      * intros Ht. split; [by split|]. rewrite stored_row by apply Hrow1.
        apply admissible_resource; [apply Hrow1|done|done| |done|by rewrite En|done]. by left.
      * by intros t1 w' _ _ _ _ Hrow'.
    + apply safe_done; [done|]. intros a [= <-]. by eapply row_lease_stable.
    + apply safe_done; [done|]. intros a [= <-]. apply Hf.
Qed.

(** *** Operations *)

Lemma safe_pure {A} (r : result A) w (P : A -> OllamaWorld -> Prop) :
  world_ok w -> (forall a, r = Ok a -> P a w) -> safe (Done r) w P.
Proof. apply safe_done. Qed.

(** A lease as its row holds it is what the operation answers. *)
Lemma safe_return w0 w l : world_ok w -> row_lease w l -> safe (Done (Ok l)) w (answered w0).
Proof. intros Hw Hl. apply safe_done; [done|]. intros a [= <-]. by apply row_answered. Qed.

Lemma safe_acquire fuel request wait plan w :
  world_ok w -> safe (acquire fuel request wait plan) w (answered w).
Proof.
  intros Hw. unfold acquire. apply safe_bind_now; [done|]. intros n w1 Hw1 Hl1 _ _.
  apply (safe_bind _ _ _ _ (fun _ _ => True)); [by apply safe_get|]. intros existing w2 Hw2 Hl2 _.
  apply (safe_bind _ _ _ _ (fun _ _ => True)); [by apply safe_done|]. intros _ w3 Hw3 Hl3 _.
  apply (safe_bind _ _ _ _ (fun x w' => row_lease w' (fst x) /\ ol_lease_id (fst x) = or_lease_id request)).
  { apply safe_insert; [done|done|]. intros l b w' _ _ _ Hh Hr Hid. by split. }
  intros [l inserted] w4 Hw4 Hl4 [Hrow Hid]. cbn [fst] in Hrow, Hid.
  apply (safe_bind _ _ _ _ (fun _ _ => True)); [by destruct inserted; apply safe_done|]. intros _ w5 Hw5 Hl5 _.
  pose proof (row_lease_stable _ _ _ Hl5 Hrow) as Hrow5.
  assert (world_le w w5) as Hle by (do 4 (etransitivity; [eassumption|]); done).
  destruct (bool_decide (ol_state l = O_READY)) eqn:Er.
  { apply bool_decide_eq_true in Er. by apply safe_ready_answered. }
  destruct (_ && _); [by apply safe_release_answered; [|apply row_releasable]|].
  apply (safe_bind _ _ _ _ (fun l' w' => row_lease w' l')).
  - destruct (bool_decide (ol_state l = O_REQUESTED)); [by apply safe_provision_requested|].
    destruct (creating (ol_state l)) eqn:Ec; [by apply safe_reconcile_creation|].
    apply safe_done; [done|]. by intros a [= <-].
  - intros l' w6 Hw6 Hl6 Hrow6. destruct (bool_decide _ && wait) eqn:Ew; [|by apply safe_return].
    apply andb_prop in Ew as [Es%bool_decide_eq_true _].
    apply safe_wait; [by transitivity w5|done|]. left. by split.
Qed.

Lemma safe_owned_lease id owner workload w :
  world_ok w ->
  safe (owned_lease id owner workload) w
    (fun l w' => row_lease w' l /\ ol_lease_id l = id /\ ol_owner_id l = owner /\ ol_workload_id l = workload).
Proof.
  intros Hw. unfold owned_lease.
  apply (safe_bind _ _ _ _ (fun l w' => row_lease w' l /\ ol_lease_id l = id)).
  { apply safe_required; [done|done|]. intros l w' _ _ _ Hr Hid. by split. }
  intros l w1 Hw1 _ [Hrow Hid].
  apply (safe_bind _ _ _ _ (fun _ w' => row_lease w' l /\ ol_owner_id l = owner /\ ol_workload_id l = workload)).
  { apply safe_done; [done|]. intros u Hu. apply require_ok in Hu. by split_bools. }
  intros _ w2 Hw2 _ (Hrow2 & Ho & Hwk). apply safe_done; [done|]. by intros a [= <-].
Qed.

Lemma safe_get_lease id owner workload w :
  world_ok w -> safe (get_lease id owner workload) w (answered w).
Proof.
  intros Hw. unfold get_lease. eapply safe_bind; [by apply safe_owned_lease|].
  intros l w1 Hw1 Hl1 (Hrow & _). destruct (bool_decide (ol_state l = O_READY)) eqn:Er; [|by apply safe_return].
  apply bool_decide_eq_true in Er. by apply safe_ready_answered.
Qed.

Lemma safe_touch id owner workload w :
  world_ok w -> safe (touch id owner workload) w (answered w).
Proof.
  intros Hw. unfold touch. eapply safe_bind; [by apply safe_owned_lease|].
  intros l w1 Hw1 Hl1 (Hrow & _). destruct (route_less (ol_state l)); [by apply safe_return|].
  destruct (negb _) eqn:Er; [by apply safe_done|]. apply negb_false_iff, bool_decide_eq_true in Er.
  eapply safe_bind; [by apply safe_ready_with_route|]. intros l2 w2 Hw2 Hl2 [Ht|Hr2]; cbn beta.
  { destruct (negb _) eqn:Er2.
    - apply safe_done; [done|]. intros a [= <-]. by eapply still_answered.
    - destruct Ht as [_ Ht]. rewrite Ht in Er2. done. }
  rewrite (bool_decide_eq_true_2 (ol_state l2 = O_READY)) by apply Hr2. cbn [negb].
  apply safe_bind_now; [done|]. intros n w3 Hw3 Hl3 Hn _. set (now := oh_clock host n).
  destruct Hr2 as (Hh2 & Hs2 & Hr2). pose proof (holds_lease_stable _ _ _ Hl3 Hh2) as Hh3.
  pose proof (routed_since _ _ _ _ Hl1 (routed_until _ _ _ _ Hl3 Hr2)) as Hr3.
  destruct (past_hard_or_cost l2 now) eqn:Eg; [apply safe_release_answered; [done|]; split; auto|].
  set (cs := [PutLastUsedAt _; _; _]).
  apply (safe_bind _ _ _ _ (fun l' w' => row_lease w' l' /\ world_le w3 w' /\
    exists t, l' = updated_lease (stored l2) cs t)).
  { apply safe_cas; [done|done|done|by apply owed_quiet| |].
    - apply admissible_quiet; [apply Hh3| |done]. cbn [stored with_route put ol_state]. by rewrite Hs2.
    - cbv zeta. intros t w' _ Hl' _ Hh' Hr' _. split; [by split|]. split; [done|]. by exists t. }
  intros l4 w4 Hw4 _ (Hrow4 & Hl4 & t & ->). apply safe_done; [done|]. intros a [= <-].
  split; [by apply held_attached, Hrow4|]. right. split; [exact Hs2|].
  pose proof (routed_until _ _ _ _ Hl4 Hr3) as (resource & o & new & k & Hlog & Hin & Hres & Hro & Hm & Hu & Hh & Hk & Hg).
  exists resource, o, new, n. split_and!; try done.
  - pose proof (wl_tick _ _ Hl1). pose proof (wl_tick _ _ Hl2). lia.
  - rewrite <- Eg. by apply gate_kept; [|left].
Qed.

Lemma safe_release id owner workload w :
  world_ok w -> safe (release id owner workload) w (fun l' w' => terminated w' l').
Proof.
  intros Hw. unfold release. eapply safe_bind; [by apply safe_owned_lease|].
  intros l w1 Hw1 _ (Hrow & _). apply safe_release_lease; [done|done|]. by apply row_releasable.
Qed.

(** A teardown that stays retryable leaves the row to be read again. *)
Lemma safe_teardown_retries w0 w id (p : oprog OllamaLease) :
  world_ok w -> safe p w (fun l' w' => terminated w' l') -> safe (teardown_retries id p) w (answered w0).
Proof.
  intros Hw Hp. apply safe_catch.
  - eapply safe_mono; [exact Hp|]. intros l' w' _ _. apply still_answered.
  - intros e q w' Hq Hw' _. destruct (is_teardown_error e); [|done]. injection Hq as <-.
    apply safe_required; [done|done|]. intros l' w2 _ _ _ Hr _. by apply row_answered.
Qed.

Lemma safe_reconcile_live w0 w l now :
  world_le w0 w -> world_ok w -> row_lease w l -> safe (reconcile_live l now) w (answered w0).
Proof.
  intros H0w Hw Hl. unfold reconcile_live. destruct (_ || _).
  { apply safe_teardown_retries; [done|]. apply safe_release_lease; [done|done|]. by apply row_releasable. }
  destruct (bool_decide (ol_state l = O_WAITING_FOR_MODEL)) eqn:Ew.
  { apply bool_decide_eq_true in Ew. eapply safe_mono; [by apply safe_check_readiness|].
    intros a w' _ _. by apply answered_since. }
  destruct (bool_decide (ol_state l = O_READY)) eqn:Er; [|by apply safe_return].
  apply bool_decide_eq_true in Er. by apply safe_ready_answered.
Qed.

Definition maybe_answered (w0 : OllamaWorld) (o : option OllamaLease) (w : OllamaWorld) : Prop :=
  forall l, o = Some l -> answered w0 l w.

Lemma safe_some w0 w (p : oprog OllamaLease) :
  safe p w (answered w0) -> safe (let+ l := p in Done (Ok (Some l)))%prog w (maybe_answered w0).
Proof.
  intros Hp. eapply safe_bind; [exact Hp|]. intros l w' Hw' _ Ha. apply safe_done; [done|].
  by intros a [= <-] l' [= <-].
Qed.

Lemma recovered_id l request : request_from_lease l = Ok request -> or_lease_id request = ol_lease_id l.
Proof.
  unfold request_from_lease. destruct (ol_mode l); [|done]. destruct (bool_decide _); [|done].
  destruct (ol_constraints_json l) as [[| | | | | |raw]|]; try done. destruct (stored_constraints raw); [|done].
  intros Hr. res_inv. done.
Qed.

Lemma safe_reconcile_one id w : world_ok w -> safe (reconcile_one id) w (maybe_answered w).
Proof.
  intros Hw. unfold reconcile_one.
  apply (safe_bind _ _ _ _ (fun o w' => forall l, o = Some l -> row_lease w' l)).
  { apply safe_get; [done|done|]. intros o w' _ _ _ Ho l El. destruct (Ho l El) as (? & ? & _). by split. }
  intros [l|] w1 Hw1 Hl1 Hrow; [|by apply safe_done; [|intros a [= <-] ? ?]]. specialize (Hrow l eq_refl).
  destruct (bool_decide (ol_state l = O_TERMINATED)).
  { apply safe_done; [done|]. intros a [= <-] l' [= <-]. by apply row_answered. }
  cbv zeta. apply safe_bind_now; [done|]. intros n w2 Hw2 Hl2 _ _. set (now := oh_clock host n).
  pose proof (row_lease_stable _ _ _ Hl2 Hrow) as Hrow2.
  assert (world_le w w2) as Hle by (by transitivity w1).
  destruct (bool_decide (ol_state l = O_RELEASING)).
  { apply safe_some, safe_teardown_retries; [done|]. apply safe_release_lease; [done|done|]. by apply row_releasable. }
  destruct (_ && _).
  { apply safe_some, safe_release_answered; [done|]. by apply row_releasable. }
  apply (safe_bind _ _ _ _ (fun l' w' => row_lease w' l')).
  { destruct (bool_decide (ol_state l = O_REQUESTED)).
    - eapply safe_bind; [by apply safe_done; [|intros a Ha; exact Ha]|]. intros request w3 Hw3 Hl3 Hreq.
      apply safe_provision_requested; [done|by eapply row_lease_stable|]. by apply recovered_id.
    - apply safe_done; [done|]. by intros a [= <-]. }
  intros l3 w3 Hw3 Hl3 Hrow3. apply (safe_bind _ _ _ _ (fun l' w' => row_lease w' l')).
  { destruct (creating (ol_state l3)) eqn:Ec; [by apply safe_reconcile_creation|].
    apply safe_done; [done|]. by intros a [= <-]. }
  intros l4 w4 Hw4 Hl4 Hrow4. apply safe_some, safe_reconcile_live; [|done|done].
  transitivity w2; [done|]. by transitivity w3.
Qed.

Lemma safe_record_error id e w : world_ok w -> safe (record_reconcile_error id e) w (maybe_answered w).
Proof.
  intros Hw. unfold record_reconcile_error.
  assert (forall w1 w2 o, (forall l, o = Some l -> holds_lease w2 l /\ lease_row_ok l /\ ol_lease_id l = id) ->
    maybe_answered w1 o w2) as Hrows.
  { intros w1 w2 o Ho l El. destruct (Ho l El) as (? & ? & _). by apply row_answered. }
  apply (safe_bind _ _ _ _ (fun o w' => forall l, o = Some l -> row_lease w' l)).
  { apply safe_get; [done|done|]. intros o w' _ _ _ Ho l El. destruct (Ho l El) as (? & ? & _). by split. }
  intros [l|] w1 Hw1 Hl1 Hrow; [|by apply safe_done; [|intros a [= <-] ? ?]]. specialize (Hrow l eq_refl).
  destruct (bool_decide (ol_state l = O_TERMINATED)) eqn:Et.
  { apply safe_done; [done|]. intros a [= <-] l' [= <-]. by apply row_answered. }
  apply bool_decide_eq_false in Et. apply safe_catch.
  - apply safe_some. eapply safe_mono; [by apply (safe_quiet_still host Hrely (ol_state l))|].
    intros l' w' _ _. apply still_answered.
  - intros e' q w' Hq Hw' _. destruct (is_ollama_conflict e'); [|done]. injection Hq as <-.
    apply safe_get; [done|done|]. intros o w2 _ _ _ Ho. by apply Hrows.
Qed.

Definition all_answered (w0 : OllamaWorld) (ls : list OllamaLease) (w : OllamaWorld) : Prop :=
  Forall (fun l => answered w0 l w) ls.

Lemma safe_reconcile_each ls w0 w :
  world_le w0 w -> world_ok w -> safe (reconcile_each ls) w (all_answered w0).
Proof.
  revert w. induction ls as [|l ls IH]; intros w H0w Hw; cbn [reconcile_each].
  { apply safe_done; [done|]. intros a [= <-]. constructor. }
  apply (safe_bind _ _ _ _ (fun o w' => maybe_answered w0 o w' /\ world_le w0 w')).
  { apply safe_except.
    - eapply safe_mono; [by apply safe_reconcile_one|]. intros o w' _ Hl Ho. split; [|by transitivity w].
      intros l' El. by eapply answered_since, Ho.
    - intros e w1 _ Hw1 Hl1. eapply safe_mono; [by apply safe_record_error|]. intros o w' _ Hl Ho.
      assert (world_le w0 w1) by (by transitivity w). split; [|by transitivity w1].
      intros l' El. by eapply answered_since, Ho. }
  intros o w1 Hw1 _ [Ho H01]. eapply safe_bind; [by apply IH|]. intros rs w2 Hw2 Hl2 Hrs.
  apply safe_done; [done|]. intros a [= <-]. destruct o as [l'|]; [|done]. constructor; [|done].
  eapply answered_until; [done|]. by apply Ho.
Qed.

Lemma safe_reconcile w : world_ok w -> safe reconcile w (all_answered w).
Proof.
  intros Hw. unfold reconcile. apply (safe_bind _ _ _ _ (fun _ _ => True)); [by apply safe_list|].
  intros ls w1 Hw1 Hl1 _. by apply safe_reconcile_each.
Qed.

Lemma safe_reconcile_lease id owner workload w :
  world_ok w -> safe (reconcile_lease id owner workload) w (answered w).
Proof.
  intros Hw. unfold reconcile_lease. eapply safe_bind; [by apply safe_owned_lease|]. intros _ w1 Hw1 Hl1 _.
  apply (safe_bind _ _ _ _ (fun o w' => maybe_answered w o w')).
  - apply safe_catch.
    + eapply safe_bind; [by apply safe_reconcile_one|]. intros o w2 Hw2 Hl2 Ho. apply safe_done; [done|].
      intros a [= <-] l El. by eapply answered_since, Ho.
    + intros e q w' Hq Hw' Hl'. destruct (is_manager_error e); [|done]. apply (inj Some) in Hq. subst q.
      eapply safe_bind; [by apply safe_record_error|]. intros o w3 Hw3 Hl3 Ho. apply safe_done; [done|].
      intros a Ha l El. destruct o as [l'|]; [|done]. injection Ha as <-. injection El as <-.
      eapply answered_since; [|by apply Ho]. by transitivity w1.
  - intros o w2 Hw2 _ Ho. apply safe_done; [done|]. intros l Hl. apply of_option_ok in Hl. by apply Ho.
Qed.

End Operations.
