(* ===== verification/OllamaSelection.v ===== *)
(** Lemmas on the choice of a plan ([select_ollama_plan]): what each candidate is, and
    that the first of the cheapest affordable ones is taken. *)
From S2P Require Import Prelude PyStr Enums Errors PyDecimal PyFloat PyTime Json ContractsBase CodecBase Placement OllamaContracts OllamaLeases OllamaRepository Prog OllamaService.

#[local] Open Scope Z_scope.

Lemma dle_not_dlt a b : dle a b = true -> dlt b a = false.
Proof.
  unfold dle, dlt, dcompare. destruct a as [c e|n|], b as [c' e'|n'|]; try done.
  - rewrite (Z.min_comm e' e). destruct (Z.compare_spec (c * p10 (e - Z.min e e')) (c' * p10 (e' - Z.min e e')));
      intros E; try done; destruct (Z.compare_spec (c' * p10 (e' - Z.min e e')) (c * p10 (e - Z.min e e'))); try done; lia.
  - by destruct n'.
  - by destruct n.
  - by destruct n, n'.
Qed.

(** Costs that compare: a finite estimate. *)
Definition estimate (p : OllamaPlacementPlan) : Decimal := num_decimal (op_estimated_cost p).

Lemma cheaper_trans x best q :
  is_finite (estimate x) = true -> is_finite (estimate best) = true -> is_finite (estimate q) = true ->
  dlt (estimate x) (estimate best) = false -> dlt (estimate q) (estimate best) = true ->
  dlt (estimate x) (estimate q) = false.
Proof.
  intros Hx Hb Hq H1 H2. destruct (Placement.finite_scaled _ _ _ Hx Hb Hq) as [f Hf].
  apply Hf in H2; [|set_solver..]. apply not_true_iff_false. intros H3. apply Hf in H3; [|set_solver..].
  assert (dlt (estimate x) (estimate best) = true); [|congruence]. apply Hf; [set_solver..|lia].
Qed.

Lemma dlt_irrefl a : dlt a a = false.
Proof. unfold dlt, dcompare. destruct a as [c e|[]|]; try done. by rewrite Z.compare_refl. Qed.

Lemma cheapest_spec (l : list OllamaPlacementPlan) p :
  Forall (fun q => is_finite (estimate q) = true) (p :: l) ->
  In (cheapest p l) (p :: l) /\ forall q, In q (p :: l) -> dlt (estimate q) (estimate (cheapest p l)) = false.
Proof.
  revert p. induction l as [|x l IH]; intros p Hf; cbn [cheapest fold_left].
  { split; [by left|]. intros q [<-|[]]. apply dlt_irrefl. }
  inversion Hf as [|? ? Hp Hf']; subst. inversion Hf' as [|? ? Hx Hl]; subst.
  change (fold_left _ l ?b) with (cheapest b l).
  destruct (dlt (num_decimal (op_estimated_cost x)) (num_decimal (op_estimated_cost p))) eqn:E.
  - destruct (IH x) as [Hin Hle]; [by constructor|]. split; [by right|].
    intros q [<-|Hq]; [|by apply Hle].
    assert (is_finite (estimate (cheapest x l)) = true) as Hc.
    { rewrite List.Forall_forall in Hf'. by apply Hf'. }
    pose proof (Hle x (or_introl eq_refl)) as H1. fold (estimate x) (estimate p) in E.
    apply not_true_iff_false. intros H2. assert (dlt (estimate x) (estimate (cheapest x l)) = true); [|congruence].
    destruct (Placement.finite_scaled _ _ _ Hp Hx Hc) as [f Hf2].
    apply Hf2 in E; [|set_solver..]. apply Hf2 in H2; [|set_solver..]. apply Hf2; [set_solver..|lia].
  - destruct (IH p) as [Hin Hle]; [by constructor|]. split; [destruct Hin; [by left | by right; right]|].
    intros q [<-|[<-|Hq]]; [apply Hle; by left| |apply Hle; by right].
    assert (is_finite (estimate (cheapest p l)) = true) as Hc.
    { rewrite List.Forall_forall in Hl. destruct Hin as [<-|Hin]; [done|]. by apply Hl. }
    pose proof (Hle p (or_introl eq_refl)) as H1. fold (estimate x) (estimate p) in E.
    apply not_true_iff_false. intros H2. destruct (Placement.finite_scaled _ _ _ Hp Hx Hc) as [f Hf2].
    assert (~ f (estimate x) < f (estimate p)) as N1 by (rewrite <- Hf2 by set_solver; by rewrite E).
    assert (~ f (estimate p) < f (estimate (cheapest p l))) as N2 by (rewrite <- Hf2 by set_solver; by rewrite H1).
    apply Hf2 in H2; [|set_solver..]. lia.
Qed.

(** ** Candidates *)

(** A plan of [request] for [offer]: admitted by the mode, rated from the offer and the
    mode's cost policy, and covering every second until the hard deadline. *)
Record derived_plan (request : OllamaLeaseRequest) (decisions : ComputeProduct -> option PlacementDecision)
  (policies : cost_policies) (remaining : Z) (p : OllamaPlacementPlan) : Prop := {
  dp_checked : check_plan p = Ok tt;
  dp_mode : mode_admits request (op_mode p) = true;
  dp_resource : op_resource_type p =
    (if bool_decide (op_mode p = SERVERLESS_LOAD_BALANCER) then RES_SERVERLESS_ENDPOINT else RES_POD);
  dp_concrete : op_mode p <> AUTO;
  dp_offer : decisions (if bool_decide (op_mode p = SERVERLESS_LOAD_BALANCER) then SERVERLESS else POD) =
    Some (op_placement p);
  dp_rated : exists policy starts, policies (op_mode p) = Some policy /\
    p = rated_plan (op_mode p) (op_resource_type p) (op_placement p) policy (op_estimated_billable_seconds p)
          (op_maximum_billable_seconds p) (op_maximum_concurrent_workers p) starts;
  dp_covers : remaining * op_maximum_concurrent_workers p <= op_maximum_billable_seconds p
}.

Lemma mk_plan_ok p q : mk_plan p = Ok q -> q = p /\ check_plan p = Ok tt.
Proof. unfold mk_plan. intros Hp. apply rbind_ok in Hp as ([] & Hc & Hq). by injection Hq as <-. Qed.

Lemma serverless_derived request decisions policies remaining workers ps p :
  serverless_candidate request (decisions SERVERLESS) policies remaining workers = Ok ps -> In p ps ->
  derived_plan request decisions policies remaining p.
Proof.
  unfold serverless_candidate. destruct (decisions SERVERLESS) as [d|] eqn:Ed; [|by intros [= <-]].
  destruct (mode_admits _ _) eqn:Em; [|by intros [= <-]].
  destruct (maximum_serverless_cold_starts _ _) as [starts|]; [|by intros [= <-]].
  intros Hs Hin. apply rbind_ok in Hs as (policy & Hp & Hs). apply of_option_ok in Hp.
  apply rbind_ok in Hs as (q & Hq & Hs). apply mk_plan_ok in Hq as [-> Hc]. injection Hs as <-.
  destruct Hin as [<-|[]]. split; try done; [by exists policy, starts|]. cbn. lia.
Qed.

Lemma pod_derived request decisions policies remaining ps p :
  pod_candidate request (decisions POD) policies remaining = Ok ps -> In p ps ->
  derived_plan request decisions policies remaining p.
Proof.
  unfold pod_candidate. destruct (decisions POD) as [d|] eqn:Ed; [|by intros [= <-]].
  destruct (_ && _) eqn:Em; [|by intros [= <-]]. split_bools.
  intros Hs Hin. apply rbind_ok in Hs as (policy & Hp & Hs). apply of_option_ok in Hp.
  apply rbind_ok in Hs as (q & Hq & Hs). apply mk_plan_ok in Hq as [-> Hc]. injection Hs as <-.
  destruct Hin as [<-|[]]. split; try done; [by exists policy, 0|]. cbn. lia.
Qed.

(** A checked plan has finite costs, in order, and at least one billable second. *)
Lemma checked_plan_costs p :
  check_plan p = Ok tt ->
  num_nonnegative (op_estimated_cost p) = true /\ num_nonnegative (op_cost_ceiling p) = true /\
  num_le (op_estimated_cost p) (op_cost_ceiling p) = true /\ 1 <= op_estimated_billable_seconds p.
Proof.
  unfold check_plan. intros Hc. do 11 (apply rbind_ok in Hc as ([] & ? & Hc)).
  repeat match goal with H : require _ _ = Ok _ |- _ => apply require_ok in H end.
  cbn [forallb] in *. by split_bools.
Qed.

Lemma derived_finite request decisions policies remaining p :
  derived_plan request decisions policies remaining p -> is_finite (estimate p) = true.
Proof.
  intros [Hc _ _ _ _ _ _]. apply checked_plan_costs in Hc as (Hn & _). unfold num_nonnegative in Hn.
  by split_bools.
Qed.

(** The plans offered for a request. *)
Definition offered_plans (request : OllamaLeaseRequest) (decisions : ComputeProduct -> option PlacementDecision)
  (policies : cost_policies) (planned_at : instant) (workers : Z) : result (list OllamaPlacementPlan) :=
  let remaining := remaining_seconds request planned_at in
  let! serverless := serverless_candidate request (decisions SERVERLESS) policies remaining workers in
  let! pod := pod_candidate request (decisions POD) policies remaining in
  Ok (serverless ++ pod)%list.

Lemma selected_spec request decisions policies planned_at workers p :
  select_ollama_plan request decisions policies planned_at workers = Ok p ->
  exists ps, offered_plans request decisions policies planned_at workers = Ok ps /\
    In p (List.filter (affordable request) ps) /\
    (forall q, In q (List.filter (affordable request) ps) -> dlt (estimate q) (estimate p) = false) /\
    forall q, In q ps -> derived_plan request decisions policies (remaining_seconds request planned_at) q.
Proof.
  unfold select_ollama_plan, offered_plans. intros Hs. cbv zeta in Hs |- *.
  apply rbind_ok in Hs as ([] & _ & Hs). apply rbind_ok in Hs as ([] & _ & Hs).
  apply rbind_ok in Hs as (ss & Es & Hs). apply rbind_ok in Hs as (ds & Ed & Hs).
  rewrite Es, Ed. cbn [rbind]. exists (ss ++ ds)%list. split; [done|].
  assert (forall q, In q (ss ++ ds)%list -> derived_plan request decisions policies (remaining_seconds request planned_at) q) as Hd.
  { intros q Hq. apply in_app_iff in Hq as [Hq|Hq]; [by eapply serverless_derived | by eapply pod_derived]. }
  destruct (List.filter (affordable request) (ss ++ ds)%list) as [|x l] eqn:Ef; [done|]. injection Hs as <-.
  destruct (cheapest_spec l x) as [Hin Hle]; [|by split_and!].
  rewrite List.Forall_forall, <- Ef. intros q Hq. apply List.filter_In in Hq as [Hq _]. by eapply derived_finite, Hd.
Qed.

(** ** The service accepts what was chosen *)

(** Every decision is the placement of the request's own constraints. *)
Definition placed (request : OllamaLeaseRequest) (decisions : ComputeProduct -> option PlacementDecision) : Prop :=
  forall product d, decisions product = Some d ->
    exists reqs offers observed_at, constraint_requirements (or_constraints request) product = Ok reqs /\
      Placement.select_gpu offers reqs observed_at = Ok d.

Lemma selected_offer offers reqs observed_at d :
  Placement.select_gpu offers reqs observed_at = Ok d ->
  pd_requirements d = reqs /\ is_finite (pd_offered_cost_per_hr d) = true /\
  (forall m, pr_max_cost_per_hr reqs = Some m -> dle (pd_offered_cost_per_hr d) m = true).
Proof.
  unfold Placement.select_gpu. intros Hs. apply rbind_ok in Hs as (l & Hl & Hs).
  apply Placement.candidates_incl in Hl as [_ Hl].
  destruct (Placement.sort_offers reqs l) as [|o t] eqn:Eo; [done|]. injection Hs as <-.
  assert (In o l) as Ho.
  { eapply Permutation_in; [apply Placement.sort_offers_perm|]. rewrite Eo. by left. }
  destruct (Hl o Ho) as (_ & Hc & _). destruct (Placement.compatible_price _ _ Hc) as (p & _ & Hp & Hf & _ & Hm).
  cbn. rewrite Hp. by split_and!.
Qed.

Lemma requirements_of c product reqs :
  constraint_requirements c product = Ok reqs ->
  pr_product reqs = product /\ pr_max_cost_per_hr reqs = num_decimal <$> rc_max_hourly_rate c.
Proof. unfold constraint_requirements. intros Hr. apply rbind_ok in Hr as (_ & _ & Hr). by injection Hr as <-. Qed.

Lemma derived_accepted request decisions policies remaining p :
  placed request decisions -> derived_plan request decisions policies remaining p ->
  affordable request p = true -> dlt dzero (pd_offered_cost_per_hr (op_placement p)) = true ->
  validate_plan request p = Ok tt.
Proof.
  intros Hpl [Hc Hm Hr Hne Ho _ _] Ha Hrate. apply checked_plan_costs in Hc as (He & Hcl & Hle & Hs).
  destruct (Hpl _ _ Ho) as (reqs & offers & t & Hreq & Hsel). apply requirements_of in Hreq as [Hprod Hmax].
  apply selected_offer in Hsel as (Hpr & Hfin & Hcap).
  unfold validate_plan. rewrite Hpr, Hprod, Hr, Hfin, Hrate, He.
  unfold num_nonnegative in Hcl. split_bools. unfold num_le, affordable, num_le in *.
  assert (op_mode p ∈ (if bool_decide (or_mode request = AUTO)
            then [SERVERLESS_LOAD_BALANCER; DEDICATED_POD] else [or_mode request])) as Hmode.
  { unfold mode_admits in Hm. apply orb_prop in Hm as [Hm|Hm]; apply bool_decide_eq_true in Hm.
    - rewrite Hm, bool_decide_eq_true_2 by done. destruct (op_mode p); [done|repeat constructor..].
    - rewrite <- Hm in *. rewrite bool_decide_eq_false_2 by done. constructor. }
  rewrite (bool_decide_eq_true_2 _ Hmode), !(bool_decide_eq_true_2 (_ = _)) by done.
  cbn [require rbind]. rewrite (dle_not_dlt _ _ Hle), (dle_not_dlt _ _ Ha).
  replace (is_finite (num_decimal (op_cost_ceiling p))) with true by done.
  rewrite (proj2 (Z.ltb_lt _ _)) by lia. cbn [negb andb require rbind].
  destruct (rc_max_hourly_rate (or_constraints request)) as [m|]; [|done].
  by rewrite (dle_not_dlt _ _ (Hcap _ Hmax)).
Qed.
