(* ===== verification/OllamaCapacity.v ===== *)
(** What the Ollama capacity provider does at the control plane: every call of a
    deletion, a creation, a search and an observation, and what their answers rest on. *)
From S2P Require Import Prelude PyStr Enums Errors PyDecimal PyFloat PyTime Json ContractsBase CodecBase Placement World ServerlessSpec ServerlessQuote ServerlessCatalog Provider OllamaContracts OllamaLeases OllamaRepository Prog OllamaRuntime OllamaProvider OllamaService OllamaSelection.
From Stdlib Require Import Ascii.

#[local] Open Scope Z_scope.

(** Step a program of calls through [wp], one answer after another. *)
Ltac cap_scrut p k :=
  lazymatch p with
  | pbind ?m _ => cap_scrut m k
  | pcatch ?m _ => cap_scrut m k
  | Done ?r => inner_scrut r k
  | match ?x with _ => _ end => inner_scrut x k
  end.

Ltac cap_step :=
  first
    [ progress cbn [wp pbind pcatch app]
    | lazymatch goal with
      | |- _ /\ (forall r, _) =>
          split; [|let a := fresh "a" in let e := fresh "e" in intros [a|e]]
      | |- wp _ ?p _ _ => cap_scrut p ltac:(fun s => let E := fresh "E" in destruct s eqn:E)
      end ].

Ltac cap_exec := unfold ccall, perform; repeat cap_step.

Abbreviation cevent := (event capacity_answer).

(** ** Deletion *)

Definition is_serverless (r : ProvisionedOllamaResource) : bool :=
  bool_decide (rs_resource_type r = RES_SERVERLESS_ENDPOINT).

(** The calls a deletion may make: those of the resource itself. *)
Definition own_deletion (r : ProvisionedOllamaResource) (c : capacity_call) : Prop :=
  let id := rs_provider_resource_id r in
  c = (if is_serverless r then CDeleteEndpoint id else CPodAction id "terminate") \/
  c = (if is_serverless r then CGetEndpoint id else CGetPod id).

(** The exact resource was read and not found. *)
Definition seen_absent (r : ProvisionedOllamaResource) (ev : cevent) : Prop :=
  let id := rs_provider_resource_id r in
  exists e, is_not_found e = true /\
    (if is_serverless r then ev = @Event _ capacity_answer (CGetEndpoint id) (Exc e)
     else ev = @Event _ capacity_answer (CGetPod id) (Exc e)).

Lemma teardown_wp r :
  wp (fun _ c => own_deletion r c) (teardown r) []
    (fun res tr => res = Ok tt -> exists pre ev, tr = (pre ++ [ev])%list /\ seen_absent r ev).
Proof.
  unfold teardown, except_absent, own_deletion, seen_absent, is_serverless. cbv zeta.
  destruct (bool_decide _); cap_exec; try (by left); try (by right); try done.
  all: intros _; eexists [_], _; (split; [reflexivity|]); by eexists.
Qed.

Lemma deleted_then_absent r h n res tr :
  run h n (teardown r) = (res, tr) ->
  (forall ev, In ev tr -> own_deletion r (ev_call ev)) /\
  (res = Ok tt -> exists pre ev, tr = (pre ++ [ev])%list /\ seen_absent r ev).
Proof.
  intros Hr. destruct (wp_run (teardown_wp r) Hr) as [HQ Hm]. split; [|exact HQ].
  intros ev Hev. apply in_split in Hev as (pre & post & ->). by apply (Hm pre ev post).
Qed.

(** ** Creation *)

Lemma span_app p l a b : span p l = (a, b) -> l = (a ++ b)%list.
Proof.
  revert a b. induction l as [|c l IH]; intros a b; cbn [span]; [by intros [= <- <-]|].
  destruct (p c); [|by intros [= <- <-]]. destruct (span p l) as [a' b'] eqn:E. intros [= <- <-].
  cbn. f_equal. by apply IH.
Qed.

(** An accepted image is the reviewed repository at a SHA-256 digest. *)
Definition reviewed_image (image : string) : Prop :=
  exists hex, chars image = (chars OLLAMA_RUNTIME_IMAGE_REPOSITORY ++ chars "@sha256:" ++ hex)%list /\
    length hex = 64%nat /\ forallb is_hex hex = true.

Lemma accepted_image image i : require_immutable_ollama_image image = Ok i -> i = image /\ reviewed_image image.
Proof.
  unfold require_immutable_ollama_image. destruct (span _ (chars image)) as [[|c repo] rest] eqn:Es; [done|].
  destruct (strip_prefix _ rest) as [hex|] eqn:Ep; [|done]. intros Hr. res_inv. split_bools.
  split; [done|]. exists hex. apply span_app in Es. apply strip_prefix_spec in Ep.
  split_and!; [|lia|done]. rewrite Es, Ep.
  match goal with E : of_chars _ = _ |- _ => apply (f_equal chars) in E; rewrite chars_of_chars in E; rewrite <- E end.
  done.
Qed.

Section Creation.
Context (oc : OllamaCapacity) (request : OllamaLeaseRequest) (plan : OllamaPlacementPlan) (name : string).

Lemma accepted_reference image : image_reference oc = Ok image -> reviewed_image image.
Proof. unfold image_reference. intros Hr. res_inv. by apply accepted_image in Hr as [-> ?]. Qed.

(** The environment of one mode, built at some clock reading. *)
Definition environment_of (mode : OllamaLeaseMode) (env : str_dict) : Prop :=
  exists requested_at, runtime_environment oc request mode requested_at = Ok env.

(** The one create call: of the planned kind, under the durable name, of the planned GPU
    and count, of the reviewed image, with the scoped environment. *)
Definition planned_creation (c : capacity_call) : Prop :=
  match c with
  | CCreateEndpoint spec =>
      op_resource_type plan = RES_SERVERLESS_ENDPOINT /\ check_endpoint_create spec = Ok tt /\
      exists image pool env, image_reference oc = Ok image /\ pd_gpu_pool (op_placement plan) = Some pool /\
        environment_of SERVERLESS_LOAD_BALANCER env /\
        spec = endpoint_request oc request plan name image pool env
  | CCreatePod spec =>
      op_resource_type plan = RES_POD /\ check_pod_create spec = Ok tt /\
      exists image env, image_reference oc = Ok image /\ environment_of DEDICATED_POD env /\
        spec = pod_request oc request plan name image env
  | CNow => True
  | _ => False
  end.

(** The resource a create call answered. *)
Definition created_as (r : ProvisionedOllamaResource) (ev : cevent) : Prop :=
  rs_resource_name r = name /\ rs_resource_type r = op_resource_type plan /\
  match ev_call ev as c return result (capacity_answer c) -> Prop with
  | CCreateEndpoint _ => fun a => exists e, a = Ok e /\ rs_provider_resource_id r = en_id e
  | CCreatePod _ => fun a => exists p, a = Ok p /\ rs_provider_resource_id r = px_id p
  | _ => fun _ => False
  end (ev_answer ev).

Definition is_creation (c : capacity_call) : bool :=
  match c with CCreateEndpoint _ | CCreatePod _ => true | _ => false end.

(** No second create call, and none before the clock was read. *)
Definition creation_monitor : monitor capacity_answer := fun past c =>
  planned_creation c /\ (is_creation c = true -> List.filter (fun e => is_creation (ev_call e)) past = []).

Lemma pool_given : given (pd_gpu_pool (op_placement plan)) = true ->
  pd_gpu_pool (op_placement plan) = Some (default "" (pd_gpu_pool (op_placement plan))).
Proof. by destruct (pd_gpu_pool (op_placement plan)). Qed.

Lemma provision_wp :
  wp creation_monitor (provision oc request plan name) []
    (fun res tr => forall r, res = Ok r -> exists t ev, tr = [@Event _ capacity_answer CNow (Ok t); ev] /\ created_as r ev).
Proof.
  unfold provision. cbv zeta. destruct (image_reference oc) as [image|] eqn:Ei; [|done]. cap_exec; try done.
  - destruct a1, a2. apply require_ok in E1. split; [|done]. split; [done|]. split; [done|].
    exists image, (default "" (pd_gpu_pool (op_placement plan))), a0. split_and!; try done; [|by exists a].
    by apply pool_given.
  - intros r [= <-]. eexists a, _. split; [reflexivity|]. split_and!; [done|done|]. by eexists.
  - destruct a1. split; [|done]. split; [done|]. split; [done|]. exists image, a0. split_and!; try done. by exists a.
  - intros r [= <-]. eexists a, _. split; [reflexivity|]. split_and!; [done|done|]. by eexists.
Qed.

End Creation.

(** *** The environment of a created workload *)

Lemma get_str_app d e key : get_str (d ++ e) key = match get_str d key with Some v => Some v | None => get_str e key end.
Proof.
  unfold get_str. induction d as [|[k v] d IH]; [done|]. cbn [app List.find fst].
  destruct (bool_decide (k = key)); [done|]. exact IH.
Qed.

(** What the runtime is told, whatever the operator's profile says. *)
Record scoped_environment (request : OllamaLeaseRequest) (token : string) (mode : OllamaLeaseMode)
  (requested_at : instant) (env : str_dict) : Prop := {
  sc_bearer : get_str env "KESTREL_OLLAMA_BEARER_TOKEN" = Some token /\ bearer_ok token = true;
  sc_expiry : get_str env "KESTREL_OLLAMA_BEARER_TOKEN_EXPIRES_AT" = Some (rfc3339 (or_hard_deadline request)) /\
    requested_at < or_hard_deadline request;
  sc_mode : get_str env "KESTREL_OLLAMA_MODE" = Some (mode_value mode) /\ mode <> AUTO;
  sc_model : get_str env "KESTREL_OLLAMA_REQUIRED_MODEL" = Some (or_model request);
  sc_pinned : exists raw allowed digest, get_str env "KESTREL_OLLAMA_ALLOWED_MODELS" = Some raw /\
    parse_ollama_model_allowlist raw = Ok allowed /\ get_str allowed (or_model request) = Some digest;
  sc_storage : exists path, get_str env "KESTREL_OLLAMA_MODEL_STORAGE_PATH" = Some path /\
    model_storage_path path mode = Ok path
}.

Lemma storage_is_its_text path mode p : model_storage_path path mode = Ok p -> p = path.
Proof. unfold model_storage_path. intros Hr. res_inv. by split_bools. Qed.

Lemma environment_is_scoped oc request mode requested_at env :
  runtime_environment oc request mode requested_at = Ok env ->
  exists token,
    bearer_token_for oc (if bool_decide (mode = SERVERLESS_LOAD_BALANCER) then RES_SERVERLESS_ENDPOINT else RES_POD) = Ok token /\
    scoped_environment request token mode requested_at env.
Proof.
  unfold runtime_environment. intros Hr. apply rbind_ok in Hr as (image & _ & Hr).
  apply rbind_ok in Hr as (token & Ht & Hr). apply rbind_ok in Hr as (storage & _ & Hr).
  apply rbind_ok in Hr as (penv & _ & Hr). exists token. split; [done|].
  unfold build_ollama_runtime_environment in Hr. apply rbind_ok in Hr as ([] & Hres & Hr). apply require_ok in Hres.
  apply rbind_ok in Hr as ([] & Hm & Hr). apply require_ok, negb_true_iff, bool_decide_eq_false in Hm.
  apply rbind_ok in Hr as (path & Hp & Hr). apply rbind_ok in Hr as ([] & Hb & Hr). apply require_ok in Hb.
  apply rbind_ok in Hr as ([] & Hx & Hr). apply require_ok in Hx. apply rbind_ok in Hr as (raw & Hraw & Hr).
  apply of_option_ok in Hraw. apply rbind_ok in Hr as ([] & _ & Hr). apply rbind_ok in Hr as (allowed & Ha & Hr).
  apply rbind_ok in Hr as ([] & Hin & Hr). apply require_ok in Hin. injection Hr as <-.
  pose proof (storage_is_its_text _ _ _ Hp) as ->.
  assert (forall k, In k RESERVED_ENV -> get_str penv k = None) as Hfree.
  { intros k Hk. rewrite forallb_forall in Hres. specialize (Hres k Hk). by destruct (get_str penv k). }
  split; rewrite ?get_str_app, ?Hfree by (cbn; tauto); try (split; [done|]; by split_bools); try done.
  - exists raw, allowed. destruct (get_str allowed (or_model request)) as [digest|] eqn:E; [|done].
    exists digest. by rewrite Hraw.
  - by exists storage.
Qed.

(** ** Search *)

(** The answer of a search, from the identifiers of the resources of the name. *)
Definition found_among (t : OllamaResourceType) (name : string) (ids : list string)
  (res : result (option ProvisionedOllamaResource)) : Prop :=
  match ids with
  | [] => res = Ok None
  | [id] => res = Ok (Some (provisioned t id name))
  | _ => res = Exc RunPodManagerError
  end.

Definition named_ids (t : OllamaResourceType) (name : string) (ev : cevent) : option (list string) :=
  match t, ev_call ev as c return result (capacity_answer c) -> option (list string) with
  | RES_SERVERLESS_ENDPOINT, CListEndpoints => fun a =>
      match a with
      | Ok items => Some (map en_id (List.filter (fun e => bool_decide (en_name e = name)) items))
      | Exc _ => None
      end
  | RES_POD, CListPods => fun a =>
      match a with
      | Ok items => Some (map px_id (List.filter (fun p => bool_decide (px_name p = name)) items))
      | Exc _ => None
      end
  | _, _ => fun _ => None
  end (ev_answer ev).

Lemma found_spec t name ids : found_among t name ids (unique_match t name ids).
Proof. by destruct ids as [|? []]. Qed.

Lemma find_wp t name :
  wp (fun _ _ => True) (find_resource t name) []
    (fun res tr => exists ev, tr = [ev] /\
       match named_ids t name ev with
       | Some ids => found_among t name ids res
       | None => exists e, res = Exc e
       end).
Proof.
  unfold find_resource. destruct t; unfold ccall, perform; cbn [wp pbind app]; (split; [done|]);
    intros [items|e]; cbn [wp pbind app]; (eexists; split; [reflexivity|]); cbn [named_ids ev_call ev_answer];
    try (by eexists); apply found_spec.
Qed.

(** ** Observation of a Pod *)

(** A Pod observed ready: running, its HTTPS route refusing anonymous requests and
    answering the scoped bearer. *)
Definition ready_pod (oc : OllamaCapacity) (pod_id : string) (o : OllamaReadinessObservation) (tr : list cevent) : Prop :=
  exists pod url anonymous ping,
    In (@Event _ capacity_answer (CGetPod pod_id) (Ok pod)) tr /\ upper (px_status pod) = "RUNNING" /\
    ro_route_url o = Some url /\
    ollama_pod_base_url pod_id (px_raw pod) (gp_inference_port (profile oc)) (gp_inference_protocol (profile oc)) = Ok (Some url) /\
    In (@Event _ capacity_answer (CHttpGet (route_path url "/api/tags") None) (Ok anonymous)) tr /\
    (hr_status anonymous = 401 \/ hr_status anonymous = 403) /\
    In (@Event _ capacity_answer (CHttpGet (route_path url "/ping") (header (oc_pod_bearer_token oc))) (Ok ping)) tr /\
    hr_status ping = 200.

Definition reads_only (c : capacity_call) : Prop :=
  match c with
  | CCreateEndpoint _ | CCreatePod _ | CDeleteEndpoint _ | CPodAction _ _ => False
  | _ => True
  end.

Lemma https_route pod_id raw port protocol url :
  ollama_pod_base_url pod_id raw port protocol = Ok (Some url) ->
  exists rest, chars url = (chars "https://" ++ rest)%list.
Proof.
  unfold ollama_pod_base_url. destruct (get_field raw "runtime") as [| | | | | |runtime]; try done.
  destruct (get_field runtime "ports") as [| | | | |ports|]; try done.
  induction ports as [|[| | | | | |item] ports IH]; cbn [ollama_ports_url]; try done.
  unfold ollama_port_url. destruct (bool_decide _); [|exact IH].
  destruct (match get_field item "type" with JStr t => _ | _ => _ end).
  { intros [= <-]. eexists. reflexivity. }
  destruct (negb _); [done|].
  destruct (get_field item "ip"); try exact IH. destruct (Provider.field_or item "public" "publicPort"); try exact IH;
    (destruct (of_option _ _) as [port'|e]; [|done]); intros [= <-]; eexists; reflexivity.
Qed.

Lemma observe_pod_wp oc pod_id :
  wp (fun _ c => reads_only c) (observe_pod oc pod_id) []
    (fun res tr => forall o, res = Ok o -> ro_provider_ready o = true -> ready_pod oc pod_id o tr).
Proof.
  unfold observe_pod, rejects_anonymous_requests, healthy, models, except_http. cbv zeta. cap_exec; try done.
  all: intros o [= <-]; cbn [ro_provider_ready ro_route_url]; intros Hready.
  all: apply andb_prop in Hready as [[Hrun Hanon]%andb_prop Hping]; try done.
  all: destruct a0 as [url|]; [|done]; apply bool_decide_eq_true in Hrun; apply Z.eqb_eq in Hping;
    apply orb_prop in Hanon as [Hanon|Hanon]; apply Z.eqb_eq in Hanon;
    eexists a, url, _, _; split_and!; try done; try (by left); try (by right); cbn [In]; tauto.
Qed.

(** ** Planning *)

(** A question to the catalog, and its answer. *)
Definition catalog_answer (ev : cevent) : option (ComputeProduct * result (list GPUOffer)) :=
  match ev with
  | Event c a =>
      match c return result (capacity_answer c) -> option (ComputeProduct * result (list GPUOffer)) with
      | CListGpus product _ _ _ => fun a => Some (product, a)
      | _ => fun _ => None
      end a
  end.

Definition wall_answer (ev : cevent) : option instant :=
  match ev with
  | Event c a =>
      match c return result (capacity_answer c) -> option instant with
      | CWall => fun a => match a with Ok t => Some t | Exc _ => None end
      | _ => fun _ => None
      end a
  end.

(** The placement of [offers], observed at the wall clock read right after them. *)
Definition placed_at (reqs : PlacementRequirements) (offers : list GPUOffer) (rest : list cevent)
  : option PlacementDecision :=
  match rest with
  | ev :: _ =>
      match wall_answer ev with
      | Some t =>
          match (let! offers := pooled_offers (pr_product reqs) offers in Placement.select_gpu offers reqs t) with
          | Ok d => Some d
          | Exc _ => None
          end
      | None => None
      end
  | [] => None
  end.

(** What the recorded answers of the catalog decide for a product: the placement of the
    request's constraints among the offers it listed, none when it listed none that
    fits, or did not answer. *)
Fixpoint decided (request : OllamaLeaseRequest) (tr : list cevent) (product : ComputeProduct)
  : option PlacementDecision :=
  match tr with
  | [] => None
  | ev :: rest =>
      match catalog_answer ev, constraint_requirements (or_constraints request) product with
      | Some (p, Ok offers), Ok reqs =>
          if bool_decide (p = product) then placed_at reqs offers rest else decided request rest product
      | _, _ => decided request rest product
      end
  end.

(** The catalog is asked about the request's own constraints. *)
Definition catalog_question (request : OllamaLeaseRequest) (product : ComputeProduct) (ev : cevent) : Prop :=
  exists reqs, constraint_requirements (or_constraints request) product = Ok reqs /\
    ev_call ev = CListGpus product (pr_gpu_count reqs) (pr_cloud reqs) (pr_min_cuda_version reqs).

Definition not_asked (product : ComputeProduct) (tr : list cevent) : Prop :=
  Forall (fun ev => forall p a, catalog_answer ev = Some (p, a) -> p <> product) tr.

Lemma decided_unasked request tr product : not_asked product tr -> decided request tr product = None.
Proof.
  induction 1 as [|ev tr He Ht IH]; [done|]. cbn [decided].
  destruct (catalog_answer ev) as [[p [offers|e]]|] eqn:E; [|done|done].
  destruct (constraint_requirements _ _); [|done]. rewrite bool_decide_eq_false_2; [done|]. by apply (He p (Ok offers)).
Qed.

Definition placements_of (oc : OllamaCapacity) (request : OllamaLeaseRequest) (products : list ComputeProduct)
  (new : list cevent) (decisions : ComputeProduct -> option PlacementDecision) : Prop :=
  (forall product, decisions product = decided request new product) /\
  (forall product, product ∉ products -> not_asked product new) /\
  (forall product, product ∈ products -> product_configured oc request product = true ->
     exists ev, ev ∈ new /\ catalog_question request product ev) /\
  placed request decisions.

Lemma wp_done_ok {A} ok (r : result A) past (Q : result A -> list cevent -> Prop) :
  (forall a, r = Ok a -> Q (Ok a) past) -> (forall e, r = Exc e -> Q (Exc e) past) ->
  wp (C := capacity_call) ok (Done r) past Q.
Proof. apply wp_done. Qed.

(** The calls of one product's placement: they decide that product and no other. *)
Record placement_calls (request : OllamaLeaseRequest) (product : ComputeProduct)
  (r : option PlacementDecision) (new : list cevent) : Prop := {
  pc_decides : forall rest, not_asked product rest -> decided request (new ++ rest) product = r;
  pc_leaves : forall q rest, q <> product -> decided request (new ++ rest) q = decided request rest q;
  pc_asks : exists ev, ev ∈ new /\ catalog_question request product ev;
  pc_only : forall q, q <> product -> not_asked q new
}.

(** A placement's calls, one question and at most one clock reading. *)
Lemma placement_calls_of request product reqs r a tail :
  constraint_requirements (or_constraints request) product = Ok reqs ->
  (tail = [] \/ exists t, tail = [@Event _ capacity_answer CWall t]) ->
  match a with
  | Ok offers => forall rest, placed_at reqs offers (tail ++ rest)%list = r
  | Exc _ => tail = [] /\ r = None
  end ->
  placement_calls request product r
    (@Event _ capacity_answer (CListGpus product (pr_gpu_count reqs) (pr_cloud reqs) (pr_min_cuda_version reqs)) a :: tail).
Proof.
  intros Hreqs Htail Ha. split.
  - intros rest Hrest. cbn [app decided catalog_answer]. rewrite Hreqs, bool_decide_eq_true_2 by done.
    destruct a as [offers|e]; [apply Ha|]. destruct Ha as [-> ->]. by apply decided_unasked.
  - intros q rest Hq. cbn [app decided catalog_answer].
    assert (decided request (tail ++ rest) q = decided request rest q) as Ht by (by destruct Htail as [->|[t ->]]).
    destruct a as [offers|e]; [|done]. destruct (constraint_requirements _ q); [|done].
    by rewrite bool_decide_eq_false_2.
  - eexists. split; [by left|]. by exists reqs.
  - intros q Hq. constructor; [intros p a' [= <- _]; congruence|].
    destruct Htail as [->|[t ->]]; repeat constructor. by intros p a'.
Qed.

Lemma place_wp request product reqs past :
  constraint_requirements (or_constraints request) product = Ok reqs -> pr_product reqs = product ->
  wp (fun _ c => reads_only c) (place reqs) past
    (fun res tr => forall r, res = Ok r -> exists new, tr = (past ++ new)%list /\ placement_calls request product r new).
Proof.
  intros Hreqs Hp. unfold place, ccall, perform. rewrite Hp. cbn [wp pbind pcatch]. split; [done|].
  intros [offers|e]; cbn [wp pbind pcatch].
  - destruct (pooled_offers product offers) as [pooled|e] eqn:Eo; cbn [wp pbind pcatch].
    + split; [done|]. intros [t|e]; cbn [wp pbind pcatch].
      * destruct (Placement.select_gpu pooled reqs t) as [d|e] eqn:Es; cbn [wp pbind pcatch].
        -- intros r [= <-]. eexists. split; [by rewrite <- app_assoc|]. apply placement_calls_of; [done|right; by eexists|].
           intros rest. cbn. rewrite Hp, Eo. cbn. by rewrite Es.
        -- destruct (is_manager_error e); cbn [wp]; [|done]. intros r [= <-]. eexists. split; [by rewrite <- app_assoc|].
           apply placement_calls_of; [done|right; by eexists|]. intros rest. cbn. rewrite Hp, Eo. cbn. by rewrite Es.
      * destruct (is_manager_error e); cbn [wp]; [|done]. intros r [= <-]. eexists. split; [by rewrite <- app_assoc|].
        apply placement_calls_of; [done|right; by eexists|]. by intros rest.
    + destruct (is_manager_error e); cbn [wp]; [|done]. intros r [= <-]. eexists. split; [done|].
      apply placement_calls_of; [done|by left|]. intros [|ev rest]; [done|]. cbn. destruct (wall_answer ev); [|done].
      by rewrite Hp, Eo.
  - destruct (is_manager_error e); cbn [wp]; [|done]. intros r [= <-]. eexists. split; [done|].
    apply placement_calls_of; [done|by left|done].
Qed.

Lemma not_asked_app product a b : not_asked product a -> not_asked product b -> not_asked product (a ++ b)%list.
Proof. intros Ha Hb. by apply Forall_app. Qed.

Lemma decided_placed request tr : placed request (decided request tr).
Proof.
  intros product d. induction tr as [|ev tr IH]; [done|]. cbn [decided].
  destruct (catalog_answer ev) as [[p [offers|e]]|]; [|done|done].
  destruct (constraint_requirements _ product) as [reqs|] eqn:Er; [|done].
  destruct (bool_decide_reflect (p = product)); [|done]. unfold placed_at.
  destruct tr as [|ev' tr]; [done|]. destruct (wall_answer ev') as [t|]; [|done].
  destruct (pooled_offers _ _) as [pooled|] eqn:Eo; [|done]. cbn [rbind].
  destruct (Placement.select_gpu pooled reqs t) as [d'|] eqn:Es; [|done]. intros [= ->]. by exists reqs, pooled, t.
Qed.

Lemma place_products_wp oc request products past :
  NoDup products ->
  wp (fun _ c => reads_only c) (place_products oc request products) past
    (fun res tr => forall decisions, res = Ok decisions ->
       exists new, tr = (past ++ new)%list /\ placements_of oc request products new decisions).
Proof.
  intros Hnd. revert past. induction products as [|product rest IH]; intros past; cbn [place_products].
  { intros decisions [= <-]. exists []. rewrite app_nil_r. split; [done|]. split; [done|]. split; [constructor|].
    split; [|by intros]. intros product Hin. by apply elem_of_nil in Hin. }
  inversion Hnd as [|? ? Hnew Hnd']; subst. specialize (IH Hnd').
  destruct (product_configured oc request product) eqn:Ec.
  2: { eapply wp_mono; [apply IH|]. intros res tr Hres decisions ->.
       destruct (Hres decisions eq_refl) as (new & -> & Hd & Hn & Ha & Hp). exists new. split; [done|].
       split; [done|]. split; [intros q Hq; apply Hn; set_solver|]. split; [|done].
       intros q Hq Hqc. apply Ha; [|done]. apply elem_of_cons in Hq as [->|]; [congruence|done]. }
  apply wp_bind. apply wp_done; [|done]. intros reqs Hreqs. apply wp_bind.
  pose proof (proj1 (requirements_of _ _ _ Hreqs)) as Hprod.
  eapply wp_mono; [by apply (place_wp request product)|]. intros [d|e] tr Hd; [|done].
  destruct (Hd d eq_refl) as (new & -> & [Hdec Hleave Hask Honly]). apply wp_bind.
  eapply wp_mono; [apply IH|]. intros [others|e] tr' Ho; [|done]. intros decisions [= <-].
  destruct (Ho others eq_refl) as (new' & -> & Hd' & Hn' & Ha' & _). exists (new ++ new')%list.
  split; [by rewrite app_assoc|].
  assert (Heq : forall q, (if bool_decide (q = product) then d else others q) = decided request (new ++ new') q).
  { intros q. destruct (bool_decide_reflect (q = product)) as [->|Hq]; [by rewrite Hdec by by apply Hn'|].
    rewrite Hleave by done. apply Hd'. }
  split; [exact Heq|]. split; [|split].
  - intros q Hq. apply not_elem_of_cons in Hq as [Hq1 Hq2]. apply not_asked_app; [by apply Honly | by apply Hn'].
  - intros q Hq Hqc. apply elem_of_cons in Hq as [->|Hq].
    + destruct Hask as (ev & Hin & Hev). exists ev. split; [|done]. apply elem_of_app. by left.
    + destruct (Ha' q Hq Hqc) as (ev & Hin & Hev). exists ev. split; [|done]. apply elem_of_app. by right.
  - intros q dq Hq. rewrite Heq in Hq. by apply (decided_placed request (new ++ new')).
Qed.

Lemma select_plan_ext request d1 d2 policies now workers :
  (forall product, d1 product = d2 product) ->
  select_ollama_plan request d1 policies now workers = select_ollama_plan request d2 policies now workers.
Proof. intros Hd. unfold select_ollama_plan. by rewrite (Hd SERVERLESS), (Hd POD). Qed.

(** The plan is chosen from what the recorded answers decide, at the clock read last. *)
Lemma plan_wp oc request :
  wp (fun _ c => reads_only c) (plan oc request) []
    (fun res tr => forall p, res = Ok p -> exists before now,
       tr = (before ++ [@Event _ capacity_answer CNow (Ok now)])%list /\
       (forall product, product ∈ products_of (or_mode request) -> product_configured oc request product = true ->
          exists ev, ev ∈ before /\ catalog_question request product ev) /\
       select_ollama_plan request (decided request before) (non_compute_cost_policies (deployment oc)) now
         (od_serverless_workers_max (deployment oc)) = Ok p).
Proof.
  assert (Hnd : NoDup (products_of (or_mode request))) by (destruct (or_mode request); by vm_compute; repeat constructor; set_solver).
  unfold plan. apply wp_bind. eapply wp_mono; [by apply place_products_wp|]. intros [decisions|e] tr Hd; [|done].
  destruct (Hd decisions eq_refl) as (new & -> & Heq & _ & Hask & _). unfold ccall, perform. cbn [wp pbind app].
  split; [done|]. intros [now|e]; [|done]. cbn [wp pbind]. intros p Hs. exists new, now. split; [done|].
  split; [exact Hask|]. rewrite <- Hs. by apply select_plan_ext.
Qed.
