(* ===== verification/OllamaTermination.v ===== *)
(** Recovery and termination in the private-Ollama lane: a request read back from the row
    that [insert_request] wrote ([request_from_lease]), and the end of the readiness wait
    ([_wait_until_ready]): with time passing between calls, fuel for the microseconds
    left until the readiness deadline is enough, whatever the provider answers and
    whoever else writes the table. *)
From S2P Require Import Prelude PyStr Enums Errors PyDecimal PyFloat PyTime Json ContractsBase CodecBase Placement OllamaContracts OllamaLeases OllamaRepository Prog OllamaService OllamaLogic.

#[local] Open Scope Z_scope.

(** The constraints a document keeps: the rate as a float. *)
Definition stored_rate (c : OllamaResourceConstraints) : OllamaResourceConstraints := {|
  rc_min_vram_gb := rc_min_vram_gb c;
  rc_gpu_count := rc_gpu_count c;
  rc_cloud := rc_cloud c;
  rc_min_cuda_version := rc_min_cuda_version c;
  rc_allowed_gpu_ids := rc_allowed_gpu_ids c;
  rc_allowed_gpu_pools := rc_allowed_gpu_pools c;
  rc_allowed_data_center_ids := rc_allowed_data_center_ids c;
  rc_max_hourly_rate := (fun n => NFloat (num_float n)) <$> rc_max_hourly_rate c
|}.

(** Constraints whose document can be read back: no empty identifier, and a rate that is
    a positive float. *)
Definition recoverable_constraints (c : OllamaResourceConstraints) : bool :=
  forallb (fun s => negb (bool_decide (s = "")))
    (rc_allowed_gpu_ids c ++ rc_allowed_gpu_pools c ++ rc_allowed_data_center_ids c) &&
  match rc_max_hourly_rate c with Some n => num_positive (NFloat (num_float n)) | None => true end.

Lemma strings_read_back raw name l :
  get_field raw name = jstrs l -> forallb (fun s => negb (bool_decide (s = ""))) l = true ->
  stored_string_tuple raw name = Ok l.
Proof.
  intros Hg Hl. unfold stored_string_tuple. rewrite Hg. unfold jstrs.
  assert (rmap (fun v => match v with JStr s => Ok s | _ => Exc TypeError end) (map JStr l) = Ok l) as ->.
  { clear. induction l as [|s l IH]; [done|]. cbn [map rmap rbind]. by rewrite IH. }
  cbn [rbind]. by rewrite Hl.
Qed.

Lemma rate_reads_back raw name o :
  get_field raw name = opt_json num_json o ->
  match o with Some n => num_positive (NFloat (num_float n)) | None => true end = true ->
  optional_stored_float raw name = Ok (num_float <$> o).
Proof.
  intros Hg Ho. unfold optional_stored_float. rewrite Hg. destruct o as [[z|d]|]; cbn; [done| |done].
  unfold num_positive in Ho. cbn in Ho. split_bools. unfold require.
  by replace (is_finite d) with true.
Qed.

Lemma constraints_read_back c :
  check_constraints c = Ok tt -> recoverable_constraints c = true ->
  stored_constraints (sort_keys (constraints_dict c)) = Ok (stored_rate c).
Proof.
  intros Hc Hr. unfold recoverable_constraints in Hr. apply andb_true_iff in Hr as [Hs Hr].
  rewrite !forallb_app in Hs. split_bools.
  set (raw := sort_keys (constraints_dict c)).
  assert (optional_stored_float raw "max_hourly_rate" = Ok (num_float <$> rc_max_hourly_rate c)) as Hf.
  { by apply rate_reads_back. }
  assert (stored_string_tuple raw "allowed_gpu_ids" = Ok (rc_allowed_gpu_ids c)) as Hids1 by by apply strings_read_back.
  assert (stored_string_tuple raw "allowed_gpu_pools" = Ok (rc_allowed_gpu_pools c)) as Hids2 by by apply strings_read_back.
  assert (stored_string_tuple raw "allowed_data_center_ids" = Ok (rc_allowed_data_center_ids c)) as Hids3
    by by apply strings_read_back.
  unfold stored_constraints.
  change (required_stored_int raw "min_vram_gb") with (Ok (rc_min_vram_gb c)).
  change (required_stored_int raw "gpu_count") with (Ok (rc_gpu_count c)).
  assert (required_stored_string raw "cloud" = Ok (cloud_value (rc_cloud c))) as -> by by destruct c as [? ? []].
  assert (optional_stored_string raw "min_cuda_version" = Ok (rc_min_cuda_version c)) as ->
    by by destruct c as [? ? ? []].
  cbn [rbind]. replace (of_option (of_value (cloud_value (rc_cloud c))) ValueError) with (Ok (rc_cloud c))
    by by destruct (rc_cloud c).
  cbn [rbind]. rewrite Hids1, Hids2, Hids3, Hf. cbn [rbind].
  unfold check_constraints in Hc. apply rbind_ok in Hc as (u & Hc & _).
  unfold check_constraints. cbn [rc_min_vram_gb rc_gpu_count]. rewrite Hc. cbn [rbind rc_max_hourly_rate].
  unfold stored_rate. destruct (rc_max_hourly_rate c) as [n|]; [|done]. cbn [fmap option_fmap option_map]. cbn in Hr.
  unfold require. by rewrite Hr.
Qed.

Section Recovery.
Context `{Digest}.

(** What the row of [request], inserted at [now], keeps of it. *)
Definition surviving_request (request : OllamaLeaseRequest) (now : instant) : OllamaLeaseRequest := {|
  or_lease_id := or_lease_id request;
  or_owner_id := or_owner_id request;
  or_workload_id := or_workload_id request;
  or_model := or_model request;
  or_constraints := stored_rate (or_constraints request);
  or_expected_session_seconds := or_expected_session_seconds request;
  or_expected_active_seconds := or_expected_active_seconds request;
  or_serverless_initialization_seconds := or_serverless_initialization_seconds request;
  or_serverless_idle_tail_seconds := or_serverless_idle_tail_seconds request;
  or_idle_timeout_seconds := or_idle_timeout_seconds request;
  or_readiness_timeout_seconds :=
    Z.max 1 (float_ceil (total_seconds
      (Z.min (default now (or_requested_at request) + seconds (or_readiness_timeout_seconds request))
         (or_hard_deadline request) - now)));
  or_hard_deadline := or_hard_deadline request;
  or_max_authorized_cost := NFloat (num_float (or_max_authorized_cost request));
  or_mode := or_mode request;
  or_requested_at := None
|}.

Lemma row_recovers request now :
  check_ollama_request request = Ok tt -> check_constraints (or_constraints request) = Ok tt ->
  recoverable_constraints (or_constraints request) = true ->
  num_positive (NFloat (num_float (or_max_authorized_cost request))) = true ->
  request_from_lease (requested_lease request now) = Ok (surviving_request request now).
Proof.
  intros Hq Hc Hr Hcost. unfold request_from_lease. cbn [requested_lease ol_mode ol_state ol_constraints_json].
  rewrite bool_decide_eq_true_2 by done. rewrite constraints_read_back by done.
  change (recovered_request (requested_lease request now) (or_mode request) (stored_rate (or_constraints request)))
    with (surviving_request request now).
  unfold check_ollama_request in Hq. do 5 (apply rbind_ok in Hq as ([] & ? & Hq)).
  repeat match goal with H : require _ _ = Ok _ |- _ => apply require_ok in H end.
  assert (check_ollama_request (surviving_request request now) = Ok tt) as ->; [|done].
  unfold check_ollama_request. cbn [forallb surviving_request or_lease_id or_owner_id or_workload_id or_model
    or_expected_session_seconds or_expected_active_seconds or_idle_timeout_seconds or_readiness_timeout_seconds
    or_serverless_initialization_seconds or_serverless_idle_tail_seconds or_max_authorized_cost or_requested_at] in *.
  split_bools. rewrite Hcost. repeat match goal with H : blank _ = false |- _ => rewrite H; clear H end.
  rewrite !(proj2 (Z.ltb_lt _ _)), !(proj2 (Z.leb_le _ _)) by lia. done.
Qed.

End Recovery.

(** Rows are found under their own key. *)
Definition keyed (t : ollama_table) : Prop := forall k l, t !! k = Some l -> ol_lease_id l = k.

(** Other processes do not rewrite a row's identity and deadlines; every call takes time;
    running out of fuel is no answer of the host. *)
Record timely (host : OllamaHost) : Prop := {
  tm_keyed : forall n t, keyed t -> keyed (oh_interfere host n t);
  tm_kept : forall n t k l, t !! k = Some l ->
    exists l', oh_interfere host n t !! k = Some l' /\ same_lease_request l l';
  tm_clock : forall n, oh_clock host n + 1 <= oh_clock host (S n);
  tm_answer : forall n c, oh_answer host n c <> Exc OutOfFuel
}.

Section Termination.
Context `{Digest} `{ErrorText} (host : OllamaHost) (Htime : timely host) (id : string) (D : instant).

(** The lease [id] as a process or its row holds it: its readiness deadline is [D]. *)
Definition kin (l : OllamaLease) : Prop := ol_lease_id l = id /\ ol_readiness_deadline l = D.

Definition anchored (w : OllamaWorld) : Prop :=
  keyed (ow_table w) /\ exists l, ow_table w !! id = Some l /\ kin l.

(** [good P p]: from an anchored world [p] keeps the anchor, answers [P], and does not
    run out of fuel. *)
Definition good {A} (P : A -> Prop) (p : oprog A) : Prop :=
  forall w, anchored w ->
    swp (fun _ _ => True) (moves host) p w (fun r w' =>
      anchored w' /\ (ow_tick w <= ow_tick w')%nat /\
      match r with Ok a => P a | Exc e => e <> OutOfFuel end).

Lemma good_ok {A} (P : A -> Prop) a : P a -> good P (Done (Ok a)).
Proof. intros Ha w Hw. split; [done|]. split; [lia|done]. Qed.

Lemma good_exc {A} (P : A -> Prop) e : e <> OutOfFuel -> good P (Done (Exc e)).
Proof. intros He w Hw. split; [done|]. split; [lia|done]. Qed.

Lemma good_bind {A B} (P : A -> Prop) (Q : B -> Prop) p f :
  good P p -> (forall a, P a -> good Q (f a)) -> good Q (pbind p f).
Proof.
  intros Hp Hf w Hw. apply swp_bind. eapply swp_mono; [by apply Hp|]. intros [a|e] w1 (Hw1 & Ht & Ha); [|done].
  eapply swp_mono; [by apply Hf|]. intros r w2 (Hw2 & Ht2 & Hr). split_and!; [done|lia|done].
Qed.

Lemma good_catch {A} (P : A -> Prop) p h :
  good P p -> (forall e q, h e = Some q -> good P q) -> good P (pcatch p h).
Proof.
  intros Hp Hh w Hw. apply swp_catch. eapply swp_mono; [by apply Hp|]. intros [a|e] w1 (Hw1 & Ht & Ha); [done|].
  destruct (h e) as [q|] eqn:E; [|done]. eapply swp_mono; [by apply (Hh e q E)|].
  intros r w2 (Hw2 & Ht2 & Hr). split_and!; [done|lia|done].
Qed.

Lemma good_except {A} (P : A -> Prop) p h :
  good P p -> (forall e, good P (h e)) -> good P (except_manager p h).
Proof. intros Hp Hh. apply good_catch; [done|]. intros e q He. destruct (is_manager_error e); [|done]. by injection He as <-. Qed.

Lemma good_weaken {A} (P Q : A -> Prop) p : good P p -> (forall a, P a -> Q a) -> good Q p.
Proof.
  intros Hp HQ w Hw. eapply swp_mono; [by apply Hp|]. intros [a|e] w' (? & ? & ?); [|done]. split_and!; auto.
Qed.

Lemma anchored_found w : anchored w -> keyed (found_table host w) /\
  exists l, found_table host w !! id = Some l /\ kin l.
Proof.
  intros [Hk (l & Hl & Hid & HD)]. split; [by apply (tm_keyed _ Htime)|].
  destruct (tm_kept _ Htime (ow_tick w) _ _ _ Hl) as (l' & Hl' & Hs). exists l'. split; [done|].
  split; [rewrite <- (sr_id _ _ Hs) | rewrite <- (sr_readiness _ _ Hs)]; done.
Qed.

Lemma put_all_kin l cs : kin l -> kin (put_all l cs).
Proof. revert l. induction cs as [|c cs IH]; intros l Hl; [done|]. by apply IH. Qed.

Lemma updated_kin l cs t : kin l -> kin (updated_lease l cs t).
Proof. intros Hl. unfold updated_lease. by apply (put_all_kin l (PutUpdatedAt t :: cs)). Qed.

Lemma good_cas l cs : kin l -> good kin (ocall (OCas l cs)).
Proof.
  intros [Hid HD] w Hw. split; [done|]. intros a w' Hm. unfold moves, ollama_step, ollama_cas in Hm.
  destruct (anchored_found w Hw) as [Hk (row & Hrow & Hkin)]. rewrite Hid, Hrow in Hm.
  destruct (ol_revision row =? ol_revision l); injection Hm as <- <-; cbn [ow_table ow_tick with_table].
  - pose proof (updated_kin row cs (oh_wall host (ow_tick w)) Hkin) as Hu.
    split; [|split; [cbn; lia|destruct (ollama_load _) as [l'|e] eqn:El;
      [by apply ollama_load_same in El as ->|intros ->; by apply ollama_load_errors in El]]]. split; cbn.
    + intros k m Hm. destruct (decide (id = k)) as [<-|Hne].
      * rewrite lookup_insert_eq in Hm. injection Hm as <-. apply Hu.
      * rewrite lookup_insert_ne in Hm by done. by apply Hk.
    + exists (updated_lease row cs (oh_wall host (ow_tick w))). by rewrite lookup_insert_eq.
  - split; [|split; [cbn; lia|done]]. split; [done|]. by exists row.
Qed.

(** Every provider call, sleep and cancellation point. *)
Lemma good_outside c :
  (forall s, ollama_step host c s = outside host s c) -> good (fun _ => True) (ocall c).
Proof.
  intros Hc w Hw. split; [done|]. intros a w' Hm. unfold moves in Hm. rewrite Hc in Hm. injection Hm as <- <-.
  split; [exact Hw|]. split; [cbn; lia|]. destruct (oh_answer host (ow_tick w) c) eqn:E; [done|].
  intros ->. by apply (tm_answer _ Htime (ow_tick w) c).
Qed.

Lemma good_now : good (fun _ => True) (ocall ONow).
Proof. intros w Hw. split; [done|]. intros a w' [= <- <-]. split; [exact Hw|]. split; [cbn; lia|done]. Qed.

Lemma good_resource l : good (fun _ => True) (Done (resource_from_lease l)).
Proof.
  unfold resource_from_lease. destruct (ol_resource_type l), (ol_provider_resource_id l), (ol_resource_name l);
    try (by apply good_exc). destruct (_ || _); [by apply good_exc | by apply good_ok].
Qed.

Lemma good_transition l s cs : kin l -> good kin (transition l s cs).
Proof. intros Hl. unfold transition. destruct (transition_allowed _ _); [by apply good_cas | by apply good_exc]. Qed.

Lemma good_owned (p : oprog OllamaLease) : good kin p -> good kin (owned_effect p).
Proof.
  intros Hp. apply (good_bind kin); [done|]. intros l Hl.
  apply (good_bind (fun _ => True)); [by apply good_outside|]. intros [] _; [by apply good_exc | by apply good_ok].
Qed.

(** ** The programs of the wait *)

Abbreviation either := (fun x => match x with inl _ => True | inr l => kin l end).

Lemma good_teardown_effect l reason : kin l -> good kin (teardown_effect l reason).
Proof.
  intros Hl. unfold teardown_effect. apply (good_bind (fun _ => True)).
  - apply good_except.
    + apply (good_bind (fun _ => True)); [apply good_resource|]. intros resource _. by apply good_outside.
    + intros e. apply (good_bind (fun _ => True)); [apply good_now|]. intros now _.
      apply (good_bind kin); [by apply good_cas|]. intros _ _. by apply good_exc.
  - intros _ _. apply (good_bind (fun _ => True)); [apply good_now|]. intros now _. by apply good_transition.
Qed.

Lemma good_teardown_recorded l reason : kin l -> good kin (teardown_recorded l reason).
Proof.
  intros Hl. unfold teardown_recorded. apply (good_bind kin); [by apply good_cas|]. intros l' Hl'.
  by apply good_owned, good_teardown_effect.
Qed.

Lemma good_resolve l reason : kin l -> good kin (resolve_uncertain_release l reason).
Proof.
  intros Hl. unfold resolve_uncertain_release.
  destruct (ol_resource_type l) as [t|]; [destruct (ol_resource_name l) as [name|]|]; try by apply good_cas.
  apply (good_bind either).
  - apply good_except.
    + apply (good_bind (fun _ => True)); [by apply good_outside|]. intros r _. by apply good_ok.
    + intros e. apply (good_bind kin); [by apply good_cas|]. intros l' Hl'. by apply good_ok.
  - intros [[resource|]|l'] Hl'; [by apply good_cas..|by apply good_ok].
Qed.

Lemma good_release_releasing l reason : kin l -> good kin (release_releasing l reason).
Proof.
  intros Hl. unfold release_releasing. destruct (has_resource_id l); [by apply good_teardown_recorded|].
  destruct (ol_creation_uncertain l); [|by apply good_transition].
  apply (good_bind kin); [by apply good_resolve|]. intros l' Hl'.
  destruct (ol_creation_uncertain l'); [by apply good_exc|].
  destruct (has_resource_id l'); [by apply good_teardown_recorded | by apply good_transition].
Qed.

Lemma good_release l reason : kin l -> good kin (release_lease l reason).
Proof.
  intros Hl. unfold release_lease. destruct (bool_decide _); [by apply good_ok|].
  apply (good_bind (fun _ => True)); [apply good_now|]. intros now _.
  destruct (_ && _); [by apply good_transition|]. apply (good_bind kin).
  - destruct (bool_decide _); [by apply good_ok | by apply good_transition].
  - intros l' Hl'. by apply good_release_releasing.
Qed.

Lemma good_check_readiness l : kin l -> good kin (check_readiness_once l).
Proof.
  intros Hl. unfold check_readiness_once. apply (good_bind (fun _ => True)); [apply good_resource|].
  intros resource _. apply (good_bind (fun _ => True)); [apply good_now|]. intros now _. cbv zeta.
  apply (good_bind either).
  - apply good_except.
    + apply (good_bind (fun _ => True)); [by apply good_outside|]. intros o _. by apply good_ok.
    + intros e. apply (good_bind kin); [by apply good_cas|]. intros l' Hl'. by apply good_ok.
  - intros [o|l'] Hl'; [|by apply good_ok]. apply (good_bind kin); [by apply good_cas|]. intros l1 Hl1.
    destruct (past_hard_or_cost l1 now); [by apply good_release|].
    destruct (routable o); [|by apply good_ok]. destruct (has_model o (ol_model l1)).
    + unfold mark_ready. apply (good_bind kin); [by apply good_transition|]. intros l2 Hl2.
      apply good_ok. by destruct l2.
    + unfold request_pull. apply (good_bind kin); [by apply good_cas|]. intros l2 Hl2. apply good_except.
      * apply (good_bind (fun _ => True)); [by apply good_outside|]. intros _ _. by apply good_ok.
      * intros e. by apply good_cas.
Qed.

Lemma clock_mono m n : (m <= n)%nat -> oh_clock host m + (Z.of_nat n - Z.of_nat m) <= oh_clock host n.
Proof.
  induction 1 as [|n Hmn IH]; [lia|]. pose proof (tm_clock _ Htime n). lia.
Qed.

(** One sleep, and what runs after it a microsecond later at least. *)
Lemma wait_never_runs_out fuel l w :
  anchored w -> kin l -> 0 < Z.of_nat fuel -> D - oh_clock host (ow_tick w) < Z.of_nat fuel ->
  swp (fun _ _ => True) (moves host) (wait_until_ready fuel l) w (fun r w' =>
    anchored w' /\ match r with Ok a => kin a | Exc e => e <> OutOfFuel end).
Proof.
  revert l w. induction fuel as [|fuel IH]; intros l w Hw Hl Hpos Hf; [lia|]. cbn [wait_until_ready].
  assert (forall A (P : A -> Prop) (p : oprog A) w', anchored w' -> good P p ->
    swp (fun _ _ => True) (moves host) p w' (fun r w2 => anchored w2 /\ match r with Ok a => P a | Exc e => e <> OutOfFuel end)) as Hgood.
  { intros A P p w' Hw' Hp. eapply swp_mono; [by apply Hp|]. intros r w2 (? & _ & ?). by split. }
  destruct (bool_decide _); [|by split]. apply swp_bind.
  eapply swp_mono; [by apply (good_check_readiness l Hl)|]. intros [l1|e] w1 (Hw1 & Ht1 & Hl1); [|by split].
  destruct (bool_decide _); [by split|]. apply swp_bind. split; [done|]. intros a w2 [= <- <-]. cbn [swp].
  set (w2 := with_table w1 (ow_table w1)). assert (anchored w2) as Hw2 by exact Hw1.
  destruct (_ && _); [by apply (Hgood _ kin), good_release|].
  destruct (ol_readiness_deadline l1 <=? oh_clock host (ow_tick w1)) eqn:Ed; split_bools.
  - apply (Hgood _ kin); [done|]. apply (good_bind kin).
    + apply good_catch; [by apply good_release|]. intros e q Hq. destruct (is_teardown_error e); [|done].
      injection Hq as <-. by apply good_ok.
    + intros _ _. by apply good_exc.
  - apply swp_bind. split; [done|]. intros a w3 [= <- <-]. cbn [swp].
    destruct (oh_answer host (S (ow_tick w1)) OSleep) as [u|e] eqn:Es.
    + apply IH; [exact Hw2|done|..]; pose proof (clock_mono (ow_tick w) (ow_tick w1) Ht1);
        pose proof (tm_clock _ Htime (ow_tick w1)); pose proof (tm_clock _ Htime (S (ow_tick w1)));
        destruct Hl1 as [_ HD]; cbn [ow_tick]; rewrite HD in *; lia.
    + split; [exact Hw2|]. intros ->. by apply (tm_answer _ Htime (S (ow_tick w1)) OSleep).
Qed.

End Termination.
