(* ===== verification/OllamaHistory.v ===== *)
(** Histories of the private-Ollama service: any sequence of the operations its callers
    and its reconciler run, on a table that other processes write as well; and
    [backend], the service over the capacity provider, whose calls are the programs of
    [OllamaProvider] run against the control plane. *)
From S2P Require Import Prelude PyStr Enums Errors PyDecimal PyFloat PyTime Json ContractsBase CodecBase Placement OllamaContracts OllamaLeases OllamaRepository Prog OllamaService OllamaLogic OllamaSafety OllamaOperations OllamaRuntime OllamaProvider OllamaSelection OllamaCapacity.

#[local] Open Scope Z_scope.
#[local] Open Scope prog_scope.

(** ** Operations *)

Inductive ollama_operation :=
  | DoAcquire (fuel : nat) (request : OllamaLeaseRequest) (wait : bool) (plan : option OllamaPlacementPlan)
  | DoGet (lease_id owner_id workload_id : string)
  | DoTouch (lease_id owner_id workload_id : string)
  | DoRelease (lease_id owner_id workload_id : string)
  | DoReconcile
  | DoReconcileLease (lease_id owner_id workload_id : string).

Section History.
Context `{Digest} `{ErrorText}.

Definition one_lease (p : oprog OllamaLease) : oprog (list OllamaLease) :=
  let+ l := p in Done (Ok [l]).

Definition operation_program (op : ollama_operation) : oprog (list OllamaLease) :=
  match op with
  | DoAcquire fuel request wait plan => one_lease (acquire fuel request wait plan)
  | DoGet id owner workload => one_lease (get_lease id owner workload)
  | DoTouch id owner workload => one_lease (touch id owner workload)
  | DoRelease id owner workload => one_lease (release id owner workload)
  | DoReconcile => reconcile
  | DoReconcileLease id owner workload => one_lease (reconcile_lease id owner workload)
  end.

Context (host : OllamaHost).

(** One operation as it ran: the worlds around it, what it answered, and the calls it
    made, each with the world it was made on. *)
Record operation_run := {
  run_before : OllamaWorld;
  run_answer : result (list OllamaLease);
  run_after : OllamaWorld;
  run_calls : list (ollama_call * OllamaWorld)
}.

Definition run_operation (op : ollama_operation) (w : OllamaWorld) : operation_run :=
  let '(r, w', calls) := exec (ollama_step host) (operation_program op) w in
  {| run_before := w; run_answer := r; run_after := w'; run_calls := calls |}.

Fixpoint history (ops : list ollama_operation) (w : OllamaWorld) : list operation_run :=
  match ops with
  | [] => []
  | op :: rest => let r := run_operation op w in r :: history rest (run_after r)
  end.

(** The world a history leaves. *)
Definition outcome (ops : list ollama_operation) (w : OllamaWorld) : OllamaWorld :=
  fold_left (fun w r => run_after r) (history ops w) w.

(** The first world: an empty table, nothing done. *)
Definition first_world : OllamaWorld := {| ow_table := ∅; ow_tick := 0; ow_log := [] |}.

Lemma first_world_ok : world_ok first_world.
Proof.
  split; [split|..]; cbn; try (intros ? ? E; by rewrite lookup_empty in E).
  - intros id E. by apply elem_of_nil in E.
  - constructor.
Qed.

Lemma outcome_cons op ops w : outcome (op :: ops) w = outcome ops (run_after (run_operation op w)).
Proof. done. Qed.

(** ** Every operation is safe *)

(** What holds of one operation that ran. *)
Record run_safe (r : operation_run) : Prop := {
  rn_before : world_ok (run_before r);
  rn_after : world_ok (run_after r);
  rn_le : world_le (run_before r) (run_after r);
  rn_answer : forall ls, run_answer r = Ok ls -> all_answered host (run_before r) ls (run_after r);
  rn_calls : Forall (fun x => owed (fst x) (snd x)) (run_calls r)
}.

Hypothesis Hrely : ollama_rely host.

Lemma safe_one (p : oprog OllamaLease) w :
  safe host p w (answered host w) -> safe host (one_lease p) w (all_answered host w).
Proof.
  intros Hp. eapply safe_bind; [exact Hp|]. intros l w' Hw' _ Ha. apply safe_done; [done|].
  intros a [= <-]. by constructor.
Qed.

Lemma safe_operation op w :
  world_ok w -> safe host (operation_program op) w (all_answered host w).
Proof.
  intros Hw. destruct op; cbn [operation_program]; try apply safe_one.
  - by apply safe_acquire.
  - by apply safe_get_lease.
  - by apply safe_touch.
  - eapply safe_mono; [by apply safe_release|]. intros l w' _ _. apply still_answered.
  - by apply safe_reconcile.
  - by apply safe_reconcile_lease.
Qed.

Lemma run_operation_safe op w : world_ok w -> run_safe (run_operation op w).
Proof.
  intros Hw. pose proof (safe_operation op w Hw) as Hs. unfold OllamaLogic.safe in Hs.
  pose proof (exec_sound owed (moves host) (ollama_step host) (fun _ => True) _ w _
    (fun c s _ _ => surjective_pairing _) (fun _ _ _ _ _ _ _ => I) I Hs) as Hx.
  unfold run_operation. destruct (exec _ _ _) as [[r w'] calls]. destruct Hx as ((Hw' & Hl & Ha) & _ & Hc).
  split; try done. rewrite Forall_forall in Hc |- *. intros x Hx. by apply Hc.
Qed.

Lemma ollama_history_safe ops w : world_ok w -> Forall run_safe (history ops w).
Proof.
  revert w. induction ops as [|op ops IH]; intros w Hw; cbn [history]; constructor.
  - by apply run_operation_safe.
  - apply IH. by apply rn_after, run_operation_safe.
Qed.

Lemma outcome_ok ops w : world_ok w -> world_ok (outcome ops w) /\ world_le w (outcome ops w).
Proof.
  revert w. induction ops as [|op ops IH]; intros w Hw; [by split|]. rewrite outcome_cons.
  destruct (run_operation_safe op w Hw) as [_ Hw' Hl _ _]. cbn [run_before] in Hl.
  destruct (IH _ Hw') as [Ho Hlo]. split; [done|]. etransitivity; [|exact Hlo].
  revert Hl. unfold run_operation. by destruct (exec _ _ _) as [[? ?] ?].
Qed.

(** Every call of a history was owed. *)
Lemma history_owed ops w r c s :
  world_ok w -> In r (history ops w) -> In (c, s) (run_calls r) -> owed c s.
Proof.
  intros Hw Hr Hc. pose proof (ollama_history_safe ops w Hw) as Hs. rewrite Forall_forall in Hs.
  destruct (Hs r Hr) as [_ _ _ _ Hcalls]. rewrite Forall_forall in Hcalls. by apply (Hcalls (c, s)).
Qed.

End History.

(** What the control plane and the workload's routes answer to the [n]-th effect. *)
Abbreviation control_planes := (nat -> oracle capacity_answer).

Definition effect_answer (oc : OllamaCapacity) (planes : control_planes) {A} (n : nat) (p : cprog A) : result A :=
  fst (run (planes n) 0 p).

(** The host of a service whose provider is [oc]; clocks, sleep and cancellation are
    those of [base]. *)
Definition backend (oc : OllamaCapacity) (base : OllamaHost) (planes : control_planes) : OllamaHost := {|
  oh_clock := oh_clock base;
  oh_wall := oh_wall base;
  oh_interfere := oh_interfere base;
  oh_answer := fun n c =>
    match c as c return result (ollama_answer c) with
    | OPlan request => effect_answer oc planes n (plan oc request)
    | OValidate request => effect_answer oc planes n (validate_runtime_request oc request)
    | OProvision request p name => effect_answer oc planes n (provision oc request p name)
    | OFind t name => effect_answer oc planes n (find_resource t name)
    | OObserve resource => effect_answer oc planes n (observe oc resource)
    | OPull resource route_url model => effect_answer oc planes n (pull_model resource route_url model)
    | OTeardown resource => effect_answer oc planes n (teardown resource)
    | c => oh_answer base n c
    end
|}.

(** ** Logged answers are the host's *)

Section Answers.
Context `{Digest} `{ErrorText} (host : OllamaHost).

Definition answered_by (w : OllamaWorld) : Prop :=
  Forall (fun e => exists n, e = Event (ev_call e) (oh_answer host n (ev_call e))) (ow_log w).

Lemma step_answered c w a w' : answered_by w -> moves host c w a w' -> answered_by w'.
Proof.
  unfold answered_by, moves, ollama_step, outside. intros Hw Hm.
  destruct c; cbn in Hm; repeat match type of Hm with
    | context [let '(_, _) := ?x in _] => destruct x
    end; injection Hm as <- <-; cbn [ow_log with_table]; try done; (constructor; [|done]); by exists (ow_tick w).
Qed.

Lemma run_answered op w :
  answered_by w ->
  answered_by (run_after (run_operation host op w)) /\
  Forall (fun x => answered_by (snd x)) (run_calls (run_operation host op w)).
Proof.
  intros Hw.
  assert (swp (fun _ _ => True) (moves host) (operation_program op) w (fun _ _ => True)) as Hs.
  { generalize (operation_program op). intros p. revert w Hw. induction p as [r|c k IH]; intros w Hw; cbn [swp]; [done|].
    split; [done|]. intros a w' Hm. apply IH. by eapply step_answered. }
  pose proof (exec_sound (fun _ _ => True) (moves host) (ollama_step host) answered_by _ w _
    (fun c s _ _ => surjective_pairing _) (fun c s a s' Hi _ Hm => step_answered c s a s' Hi Hm) Hw Hs) as Hx.
  unfold run_operation. destruct (exec _ _ _) as [[r w'] calls]. destruct Hx as (_ & Hw' & Hc). split; [done|].
  rewrite List.Forall_forall in Hc |- *. intros x Hx. by apply Hc.
Qed.

Lemma history_answered ops w r c s :
  answered_by w -> In r (history host ops w) -> In (c, s) (run_calls r) -> answered_by s.
Proof.
  revert w. induction ops as [|op ops IH]; intros w Hw; cbn [history]; [done|].
  destruct (run_answered op w Hw) as [Ha Hc]. intros [<-|Hr] Hin; [|by eapply IH].
  rewrite List.Forall_forall in Hc. by apply (Hc (c, s)).
Qed.

End Answers.

(** A logged deletion that succeeded was one the provider ran. *)
Lemma logged_teardown oc base planes w resource older :
  answered_by (backend oc base planes) w ->
  ow_log w = @Event _ ollama_answer (OTeardown resource) (Ok tt) :: older ->
  exists n, effect_answer oc planes n (teardown resource) = Ok tt.
Proof.
  unfold answered_by. intros Hw Hl. rewrite Hl in Hw. inversion Hw as [|? ? [n Hn] _]; subst.
  cbn [ev_call backend oh_answer] in Hn. exists n.
  apply (f_equal (fun e => match e with @Event _ _ c a =>
    match c as c return result (ollama_answer c) -> result unit with OTeardown _ => fun a => a | _ => fun _ => Exc RunPodManagerError end a end)) in Hn.
  cbn in Hn. by symmetry.
Qed.
