(* ===== verification/OllamaProperties.v ===== *)
(** One dedicated-Pod Ollama lease from its request to its termination, run through the
    model (Module [OllamaScenario]): a concrete host whose provider creates the Pod, serves
    the model after one pull and deletes the Pod. Then what the private-Ollama lease service
    guarantees: theorems about every history of its operations, about the reconciler, the
    recovery of a request and the readiness wait, each with the sample lease as its witness. *)
From stdpp Require Import sorting.
From S2P Require Import Prelude PyStr Enums Errors PyDecimal PyFloat PyTime Json ContractsBase CodecBase Placement Scenario OllamaContracts OllamaLeases OllamaRepository Prog OllamaService OllamaLogic OllamaSafety OllamaOperations OllamaHistory OllamaTermination.

#[local] Open Scope Z_scope.
#[local] Open Scope prog_scope.

Module OllamaScenario.

#[export] Existing Instance Scenario.sample_digest.
#[export] Instance sample_text : ErrorText := {| error_text := exn_name |}.

Definition at_ (s : Z) : instant := Scenario.T0 + seconds s.

Definition constraints : OllamaResourceConstraints := {|
  rc_min_vram_gb := 24; rc_gpu_count := 1; rc_cloud := SECURE; rc_min_cuda_version := None;
  rc_allowed_gpu_ids := []; rc_allowed_gpu_pools := []; rc_allowed_data_center_ids := [];
  rc_max_hourly_rate := Some (NFloat (Fin 1 0))
|}.

Definition request : OllamaLeaseRequest := {|
  or_lease_id := "chat-1"; or_owner_id := "tenant-1"; or_workload_id := "assistant"; or_model := "llama3";
  or_constraints := constraints; or_expected_session_seconds := 1800; or_expected_active_seconds := 600;
  or_serverless_initialization_seconds := 0; or_serverless_idle_tail_seconds := 0;
  or_idle_timeout_seconds := 600; or_readiness_timeout_seconds := 300; or_hard_deadline := at_ 3600;
  or_max_authorized_cost := NFloat (Fin 2 0); or_mode := DEDICATED_POD; or_requested_at := None
|}.

Definition policy : OllamaNonComputeCostPolicy := {|
  cp_estimated_cost_usd := NFloat (Fin 1 (-2)); cp_maximum_cost_usd := NFloat (Fin 5 (-2));
  cp_covered_components := [CONTAINER_DISK; MODEL_TRANSFER]
|}.

Definition policies : cost_policies := fun mode => if bool_decide (mode = AUTO) then None else Some policy.

(** The catalog's answer for Pods; no Serverless offer. *)
Definition decisions (product : ComputeProduct) : option PlacementDecision :=
  match product with
  | POD =>
      match constraint_requirements constraints POD with
      | Ok r => match Placement.select_gpu [Scenario.offer] r (at_ 0) with Ok d => Some d | Exc _ => None end
      | Exc _ => None
      end
  | SERVERLESS => None
  end.

Definition planned : result OllamaPlacementPlan := select_ollama_plan request decisions policies (at_ 0) 1.

Definition plan : OllamaPlacementPlan.
Proof. let p := eval vm_compute in planned in match p with Ok ?q => exact q end. Defined.

Definition resource : ProvisionedOllamaResource := {|
  rs_resource_type := RES_POD; rs_provider_resource_id := "pod-0001";
  rs_resource_name := ollama_resource_name "chat-1"
|}.

(** The model is listed from the given tick on. *)
Definition observation (tick : nat) : OllamaReadinessObservation := {|
  ro_provider_ready := true; ro_route_url := Some "https://pod-0001-11434.proxy.runpod.net";
  ro_provider_health_url := Some "https://pod-0001-11434.proxy.runpod.net/api/version";
  ro_model_names := if (tick <? 14)%nat then [] else ["llama3:latest"]
|}.

(** Ten seconds pass between calls; nobody else writes the table. *)
Definition host : OllamaHost := {|
  oh_clock := fun n => at_ (10 * Z.of_nat n);
  oh_wall := fun n => at_ (10 * Z.of_nat n);
  oh_interfere := fun _ t => t;
  oh_answer := fun n c =>
    match c as c return result (ollama_answer c) with
    | OPlan _ => Ok plan
    | OValidate _ => Ok tt
    | OProvision _ _ _ => Ok resource
    | OFind _ _ => Ok (Some resource)
    | OObserve _ => Ok (observation n)
    | OPull _ _ _ => Ok tt
    | OTeardown _ => Ok tt
    | OSleep => Ok tt
    | OCancelled => Ok false
    | ONow => Exc RunPodManagerError
    | OGet _ => Exc RunPodManagerError
    | OInsert _ _ => Exc RunPodManagerError
    | OCas _ _ => Exc RunPodManagerError
    | OList => Exc RunPodManagerError
    end
|}.

Lemma host_rely : ollama_rely host.
Proof.
  split; cbn; [done|done| |].
  - intros n r p name res [= <-]. done.
  - intros n t name res [= <-]. done.
Qed.

Definition life : list ollama_operation :=
  [DoAcquire 3 request true None; DoGet "chat-1" "tenant-1" "assistant";
   DoTouch "chat-1" "tenant-1" "assistant"; DoReconcile; DoRelease "chat-1" "tenant-1" "assistant"; DoReconcile].

End OllamaScenario.

(** ** Programs whose errors are handled *)

Section Handled.
Context `{Digest} `{ErrorText} (host : OllamaHost).

Abbreviation runs := (swp (fun _ _ => True) (moves host)).

Lemma runs_any {A} (p : oprog A) w : runs p w (fun _ _ => True).
Proof. revert w. induction p as [r|c k IH]; intros w; cbn [swp]; [done|]. split; auto. Qed.

(** A table with a row that does not read. *)
Definition unreadable_row (t : ollama_table) : Prop := exists k row e, t !! k = Some row /\ ollama_load row = Exc e.

(** [handled p]: a manager error that escapes [p] was raised by reading the table. *)
Definition escapes (e : exn) (w : OllamaWorld) : Prop := is_manager_error e = true -> unreadable_row (ow_table w).

Definition handled {A} (p : oprog A) : Prop :=
  forall w, runs p w (fun r w' => forall e, r = Exc e -> escapes e w').

Lemma handled_bind {A B} (p : oprog A) (f : A -> oprog B) :
  handled p -> (forall a, handled (f a)) -> handled (pbind p f).
Proof.
  intros Hp Hf w. apply swp_bind. eapply swp_mono; [apply Hp|]. intros [a|e] w' Hr; [by apply Hf|].
  intros e' [= <-]. by apply Hr.
Qed.

Lemma handled_except {A} (p : oprog A) h : (forall e, handled (h e)) -> handled (except_manager p h).
Proof.
  intros Hh w. apply swp_catch. eapply swp_mono; [apply runs_any|]. intros [a|e] w' _; [done|].
  destruct (is_manager_error e) eqn:E; [by apply Hh|]. intros e' [= <-] Hm. congruence.
Qed.

Lemma handled_done {A} (a : A) : handled (Done (Ok a) : oprog A).
Proof. by intros w e. Qed.

(** Reads of the table fail on a row that does not read. *)
Lemma handled_get id : handled (ocall (OGet id)).
Proof.
  intros w. split; [done|]. intros a w' [= <- <-] e Ha _. cbn. unfold ollama_get in Ha.
  destruct (found_table host w !! id) as [row|] eqn:E; [|done].
  destruct (ollama_load row) as [l|e'] eqn:El; [done|]. by exists id, row, e'.
Qed.

Lemma rmap_load_fails (P : OllamaLease -> Prop) rows e :
  Forall P rows -> rmap ollama_load rows = Exc e -> exists row e', P row /\ ollama_load row = Exc e'.
Proof.
  induction 1 as [|l ls Hl Hls IH]; [done|]. cbn. destruct (ollama_load l) as [l'|e'] eqn:El; [|intros _; by exists l, e'].
  cbn. destruct (rmap ollama_load ls) as [ls'|e'] eqn:E; [done|]. exact IH.
Qed.

Lemma unfinished_rows (t : ollama_table) :
  Forall (fun l => exists k, t !! k = Some l)
    (merge_sort created_le (filter (fun l => ol_state l <> O_TERMINATED) (map snd (map_to_list t)))).
Proof.
  rewrite List.Forall_forall. intros l Hl. apply list_elem_of_In in Hl. rewrite merge_sort_Permutation in Hl.
  apply list_elem_of_filter in Hl as [_ Hl]. apply list_elem_of_In, in_map_iff in Hl as ([k l'] & <- & Hl).
  apply list_elem_of_In, elem_of_map_to_list in Hl. by exists k.
Qed.

Lemma handled_list : handled (ocall OList).
Proof.
  intros w. split; [done|]. intros a w' [= <- <-] e Ha _. cbn. unfold ollama_unfinished in Ha.
  destruct (rmap_load_fails _ _ _ (unfinished_rows _) Ha) as (row & e' & (k & Hk) & He). by exists k, row, e'.
Qed.

Lemma handled_record id e : handled (record_reconcile_error id e).
Proof.
  unfold record_reconcile_error. apply handled_bind; [apply handled_get|]. intros [l|]; [|apply handled_done].
  destruct (bool_decide _); [apply handled_done|]. intros w. apply swp_catch, swp_bind. split; [done|].
  intros a w' Hm. unfold moves, ollama_step, ollama_cas in Hm.
  destruct (found_table host w !! ol_lease_id l) as [row|] eqn:E; [destruct (_ =? _)|]; injection Hm as <- <-;
    try (cbn [is_ollama_conflict]; by apply handled_get).
  set (row' := updated_lease row _ _). destruct (ollama_load row') as [l'|e'] eqn:El; [by intros e'|].
  cbn [swp]. assert (is_ollama_conflict e' = false) as -> by (apply ollama_load_errors in El; by destruct e').
  intros e0 _ _. cbn. exists (ol_lease_id l), row', e'. split; [apply lookup_insert_eq|exact El].
Qed.

Lemma handled_reconcile : handled reconcile.
Proof.
  apply handled_bind; [apply handled_list|]. intros ls. induction ls as [|l ls IH]; [apply handled_done|].
  cbn [reconcile_each]. apply handled_bind; [apply handled_except; intros e; apply handled_record|].
  intros o. apply handled_bind; [exact IH|]. intros rs. apply handled_done.
Qed.

(** *** The pass, lease by lease *)

(** What a manager error [e] of the lease [id] leaves: it is on the row, unless the row
    is gone or terminated, or another process wrote the row in between. *)
Inductive recorded (id : string) (e : exn) (w1 : OllamaWorld) : option OllamaLease -> OllamaWorld -> Prop :=
  | recorded_on row w2 :
      ow_table w2 !! id = Some row ->
      ol_last_provider_error row = Some ("reconcile: " ++ sanitize_provider_error e)%string ->
      recorded id e w1 (Some row) w2
  | recorded_gone w2 : found_table host w1 !! id = None -> recorded id e w1 None w2
  | recorded_done row w2 :
      found_table host w1 !! id = Some row -> ol_state row = O_TERMINATED -> recorded id e w1 (Some row) w2
  | recorded_raced row o w2 :
      found_table host w1 !! id = Some row ->
      (forall row2, found_table host (with_table w1 (found_table host w1)) !! id = Some row2 ->
         ol_revision row2 <> ol_revision row) ->
      recorded id e w1 o w2.

Definition shown (o : option OllamaLease) : list OllamaLease := match o with Some l => [l] | None => [] end.

(** The leases [ids] reconciled one after the other, each on the world the one before
    it left: a lease that ends with a manager error has it recorded, and the next lease
    is reconciled all the same. *)
Inductive pass : OllamaWorld -> list string -> list OllamaLease -> OllamaWorld -> Prop :=
  | pass_end w : pass w [] [] w
  | pass_reconciled w id ids o w1 ls w2 :
      fst (exec (ollama_step host) (reconcile_one id) w) = (Ok o, w1) ->
      pass w1 ids ls w2 -> pass w (id :: ids) (shown o ++ ls)%list w2
  | pass_recorded w id ids e w1 o w2 ls w3 :
      fst (exec (ollama_step host) (reconcile_one id) w) = (Exc e, w1) -> is_manager_error e = true ->
      fst (exec (ollama_step host) (record_reconcile_error id e) w1) = (Ok o, w2) -> recorded id e w1 o w2 ->
      pass w2 ids ls w3 -> pass w (id :: ids) (shown o ++ ls)%list w3.

Lemma record_records id e w1 o w2 calls :
  keyed (found_table host w1) ->
  exec (ollama_step host) (record_reconcile_error id e) w1 = (Ok o, w2, calls) -> recorded id e w1 o w2.
Proof.
  intros Hk. unfold record_reconcile_error. rewrite exec_bind. cbn [ocall perform exec ollama_step].
  destruct (ollama_get (found_table host w1) id) as [[row|]|e1] eqn:Eg; [| |done].
  - apply ollama_get_row in Eg as Erow. pose proof (Hk _ _ Erow) as Hid.
    destruct (bool_decide_reflect (ol_state row = O_TERMINATED)); [intros [= <- <- _]; by eapply recorded_done|].
    rewrite exec_catch, exec_bind. cbn [ocall perform exec ollama_step]. unfold ollama_cas. rewrite Hid.
    destruct (found_table host (with_table w1 (found_table host w1)) !! id) as [row2|] eqn:E2;
      [destruct (Z.eqb_spec (ol_revision row2) (ol_revision row)) as [Hr|Hr]|].
    + destruct (ollama_load _) as [l|e2] eqn:El.
      * apply ollama_load_same in El as ->. intros [= <- <- _]. apply recorded_on; [apply lookup_insert_eq|done].
      * apply ollama_load_errors in El. assert (is_ollama_conflict e2 = false) as -> by by destruct e2. done.
    + intros _. apply (recorded_raced _ _ _ row); [done|]. intros row3. congruence.
    + intros _. apply (recorded_raced _ _ _ row); [done|]. intros row3. congruence.
  - unfold ollama_get in Eg. destruct (found_table host w1 !! id) as [row|] eqn:E.
    + by destruct (ollama_load row).
    + intros [= <- <- _]. by apply recorded_gone.
Qed.

Lemma exec_safe {A} (p : oprog A) w P :
  safe host p w P -> world_ok (snd (fst (exec (ollama_step host) p w))).
Proof.
  intros Hs. pose proof (exec_sound owed (moves host) (ollama_step host) (fun _ => True) _ w _
    (fun c s _ _ => surjective_pairing _) (fun _ _ _ _ _ _ _ => I) I Hs) as Hx.
  destruct (exec _ _ _) as [[r w'] calls]. by destruct Hx as ((Hw & _) & _).
Qed.

Lemma reconcile_each_pass ids ls w w' calls :
  ollama_rely host -> world_ok w ->
  exec (ollama_step host) (reconcile_each ids) w = (Ok ls, w', calls) -> pass w (map ol_lease_id ids) ls w'.
Proof.
  intros Hrely. revert ls w calls. induction ids as [|l ids IH]; intros ls w calls Hw; cbn [reconcile_each map].
  { intros [= <- <- _]. constructor. }
  set (id := ol_lease_id l). rewrite exec_bind. unfold except_manager. rewrite exec_catch.
  pose proof (exec_safe _ _ _ (safe_reconcile_one host Hrely id w Hw)) as Hw1.
  destruct (exec (ollama_step host) (reconcile_one id) w) as [[[o|e] w1] calls1] eqn:E1; cbn [fst snd] in Hw1.
  - rewrite exec_bind. destruct (exec _ (reconcile_each ids) w1) as [[[rs|e] w2] calls2] eqn:E2; [|done].
    intros Heq. cbn [exec] in Heq. injection Heq as <- <- _.
    replace (match o with Some _ => _ | None => _ end) with (shown o ++ rs)%list by by destruct o.
    eapply pass_reconciled; [by rewrite E1|by eapply IH].
  - destruct (is_manager_error e) eqn:Em; [|done].
    pose proof (exec_safe _ _ _ (safe_record_error host Hrely id e w1 Hw1)) as Hw2.
    destruct (exec (ollama_step host) (record_reconcile_error id e) w1) as [[[o|e2] w2] calls2] eqn:E2; [|done].
    cbn [fst snd] in Hw2. rewrite exec_bind.
    destruct (exec _ (reconcile_each ids) w2) as [[[rs|e3] w3] calls3] eqn:E3; [|done].
    intros Heq. cbn [exec] in Heq. injection Heq as <- <- _.
    replace (match o with Some _ => _ | None => _ end) with (shown o ++ rs)%list by by destruct o.
    eapply pass_recorded; [by rewrite E1|done|by rewrite E2| |by eapply IH]. eapply record_records; [|exact E2].
    intros k row Hrow. destruct (found_world_ok host Hrely w1 Hw1) as [[[Hk _] _ _] _]. by apply Hk.
Qed.

Lemma unfinished_complete (t : ollama_table) listed id l :
  keyed t -> ollama_unfinished t = Ok listed -> t !! id = Some l -> ol_state l <> O_TERMINATED ->
  In id (map ol_lease_id listed).
Proof.
  intros Hk Hl Hid Hs. unfold ollama_unfinished in Hl. apply rmap_Forall2 in Hl.
  assert (Hin : In l (merge_sort created_le (filter (fun l => ol_state l <> O_TERMINATED) (map snd (map_to_list t))))).
  { apply list_elem_of_In. rewrite merge_sort_Permutation. apply list_elem_of_filter. split; [done|].
    apply list_elem_of_In, in_map_iff. exists (id, l). split; [done|]. by apply list_elem_of_In, elem_of_map_to_list. }
  rewrite <- (Hk _ _ Hid). induction Hl as [|a b la lb Hab Hl IH]; [done|]. apply ollama_load_same in Hab as ->.
  destruct Hin as [->|Hin]; [by left|right; auto].
Qed.

End Handled.

(** ** Every history *)

Section Histories.
Context `{Digest} `{ErrorText} (host : OllamaHost) (Hrely : ollama_rely host).

(** C21. Over any history of acquisitions, reads, touches, releases and reconciliations,
    interleaved with other processes, every row stays well formed (a live row has its
    resource, a row being created is marked uncertain and names its resource, no row was
    claimed twice), and every row evolves: its state moves only along
    [_ALLOWED_TRANSITIONS], the request, the recorded resource and the accepted plan
    never change once written, and TERMINATED is final. *)
Theorem ollama_rows_evolve ops w :
  world_ok w ->
  table_ok (ow_table (outcome host ops w)) /\
  forall id l, ow_table w !! id = Some l ->
    exists l', ow_table (outcome host ops w) !! id = Some l' /\ lease_evolves l l' /\
      (ol_state l = O_TERMINATED -> ol_state l' = O_TERMINATED).
Proof.
  intros Hw. destruct (outcome_ok host Hrely ops w Hw) as [Ho Hl]. split; [apply Ho|].
  intros id l Hi. destruct (wl_table _ _ Hl id l Hi) as (l' & Hl' & He). exists l'. split_and!; try done.
  intros Ht. pose proof (le_state _ _ He) as Hr. rewrite Ht in Hr. by apply reaches_terminated.
Qed.

(** C22. A billable create call is made only for a lease whose row durably claims it:
    PROVISIONING, marked uncertain, naming the very resource and the accepted ceiling;
    the plan has passed [validate_plan]; and over a whole history no lease is created
    twice. *)
Theorem ollama_create_is_claimed_once ops w :
  world_ok w ->
  NoDup (provisioned_ids (ow_log (outcome host ops w))) /\
  forall r request plan name s,
    In r (history host ops w) -> In (OProvision request plan name, s) (run_calls r) ->
    validate_plan request plan = Ok tt /\
    ~ or_lease_id request ∈ provisioned_ids (ow_log s) /\
    exists l, holds_lease s l /\ ol_lease_id l = or_lease_id request /\ ol_state l = O_PROVISIONING /\
      ol_creation_uncertain l = true /\ ol_resource_name l = Some name /\
      ol_cost_ceiling l = Some (num_float (op_cost_ceiling plan)).
Proof.
  intros Hw. split; [by apply wo_once, outcome_ok|]. intros r request plan name s Hr Hc.
  pose proof (history_owed host Hrely ops w r _ s Hw Hr Hc) as Ho.
  destruct Ho as (l & Hh & Hid & Hs & Hu & Hn & _ & Hcl & Hv & Hnew). split_and!; try done. by exists l.
Qed.

(** A lease's row is written TERMINATED only while its creation is not uncertain
    and, when it records a provider resource, right after the provider answered the
    deletion of that very resource; a deletion is asked only of a RELEASING lease's own
    resource. *)
Theorem ollama_termination_follows_teardown ops w r s :
  world_ok w -> In r (history host ops w) ->
  (forall lease cs, In (OCas lease cs, s) (run_calls r) -> writes_state cs = Some O_TERMINATED ->
     ol_creation_uncertain lease = false /\
     (ol_provider_resource_id lease = None \/
      exists resource older, resource_from_lease lease = Ok resource /\
        ow_log s = @Event _ ollama_answer (OTeardown resource) (Ok tt) :: older)) /\
  (forall resource, In (OTeardown resource, s) (run_calls r) ->
     exists l, holds_lease s l /\ ol_state l = O_RELEASING /\ resource_from_lease l = Ok resource).
Proof.
  intros Hw Hr. split.
  - intros lease cs Hc Hs. pose proof (history_owed host Hrely ops w r _ s Hw Hr Hc) as Ho.
    cbn [owed] in Ho. rewrite Hs in Ho. by apply Ho.
  - intros resource Hc. exact (history_owed host Hrely ops w r _ s Hw Hr Hc).
Qed.

(** C23. No operation answers a lease with a route unless the lease is READY and, during
    that very operation, its own resource was observed ready at that route with the
    exact requested model, and a clock reading found it before its hard deadline and
    within its authorized cost. *)
Theorem ollama_route_is_observed ops w r ls l route :
  world_ok w -> In r (history host ops w) -> run_answer r = Ok ls -> In l ls ->
  ol_route_url l = Some route ->
  ol_state l = O_READY /\ public_route_url l = Some route /\
  routed host (run_before r) (run_after r) l.
Proof.
  intros Hw Hr Ha Hl Hu. pose proof (ollama_history_safe host Hrely ops w Hw) as Hs.
  rewrite List.Forall_forall in Hs. pose proof (rn_answer _ _ (Hs r Hr) ls Ha) as Hans.
  unfold all_answered in Hans. rewrite List.Forall_forall in Hans. destruct (Hans l Hl) as [_ [Hrow|[Hst Hro]]].
  - destruct (lr_route _ Hrow) as [Hn _]. congruence.
  - split_and!; try done. unfold public_route_url. by rewrite Hst.
Qed.

End Histories.

(** C25. An updated Ollama lease reads back. When the row of a lease is still at the
    caller's revision and what the update writes has representable instants and distinct
    cost components, the update answers that lease one revision up, the columns it wrote
    decode to the same lease, field by field, so does every later read of it and of no
    other row, and another update from the revision the caller had conflicts and changes
    nothing. *)
Theorem ollama_update_reads_back (db : ollama_table) wall l row cs :
  db !! ol_lease_id l = Some row -> ol_revision row = ol_revision l ->
  forall l', l' = updated_lease row cs wall -> storable_ollama l' ->
  exists db', ollama_cas db wall l cs = (Ok l', db') /\ ol_revision l' = ol_revision l + 1 /\
    ollama_from_row (ollama_to_row l') = Ok l' /\ ollama_get db' (ol_lease_id l) = Ok (Some l') /\
    (forall id, id <> ol_lease_id l -> ollama_get db' id = ollama_get db id) /\
    forall wall' cs', ollama_cas db' wall' l cs' = (Exc OllamaLeaseConflictError, db').
Proof.
  intros Hrow Hr l' Heq Hl'. assert (ol_revision l' = ol_revision l + 1) as Hr'
    by (by rewrite Heq, updated_revision, Hr).
  exists (<[ol_lease_id l := l']> db). unfold ollama_cas, ollama_get.
  rewrite Hrow, Hr, Z.eqb_refl, lookup_insert_eq, <- Heq, ollama_load_storable by done.
  split_and!; try done; [by apply ollama_row_decode| |].
  - intros id Hid. by rewrite lookup_insert_ne.
  - intros wall' cs'. by rewrite (proj2 (Z.eqb_neq _ _)) by lia.
Qed.

(** C24. A reconciliation pass isolates every lease's failure. A pass that answers
    reconciled every lease that was not terminated when it listed them, one after the
    other, each on the world the one before left: a lease whose own step ends with a
    manager error has that error written on its row (unless the row is gone, terminated
    or being written by another process), and the pass goes on to the next lease. A
    manager error escapes a pass only by reading a row of the table that does not
    read. *)
Theorem ollama_reconcile_isolates `{Digest} `{ErrorText} (host : OllamaHost) w :
  ollama_rely host -> world_ok w ->
  match run_answer (run_operation host DoReconcile w) with
  | Ok ls => exists ids,
      (forall id l, found_table host w !! id = Some l -> ol_state l <> O_TERMINATED -> In id ids) /\
      pass host (with_table w (found_table host w)) ids ls (run_after (run_operation host DoReconcile w))
  | Exc e => is_manager_error e = true -> unreadable_row (ow_table (run_after (run_operation host DoReconcile w)))
  end.
Proof.
  intros Hrely Hw. pose proof (handled_reconcile host w) as Hh.
  pose proof (exec_sound (fun _ _ => True) (moves host) (ollama_step host) (fun _ => True) _ w _
    (fun c s _ _ => surjective_pairing _) (fun _ _ _ _ _ _ _ => I) I Hh) as Hx.
  unfold run_operation. cbn [operation_program]. destruct (exec _ reconcile w) as [[r w'] calls] eqn:Er.
  cbn [run_answer run_after]. destruct Hx as (Hr & _). destruct r as [ls|e]; [|by apply Hr].
  unfold reconcile in Er. rewrite exec_bind in Er. cbn [ocall perform exec ollama_step] in Er.
  destruct (ollama_unfinished (found_table host w)) as [listed|] eqn:El; [|done].
  destruct (found_world_ok host Hrely w Hw) as [Hf _].
  destruct (exec _ (reconcile_each listed) _) as [[r2 w2] calls2] eqn:E2.
  injection Er as -> -> _. exists (map ol_lease_id listed). split.
  - intros id l. apply unfinished_complete; [|done]. intros k row Hk. by apply (tb_keys _ (wo_table _ Hf)).
  - by eapply reconcile_each_pass.
Qed.

(** ** Requests *)

(** A request that was inserted and never provisioned is recovered from its row:
    identity, model, session, deadlines, mode and constraints as inserted, the money as
    the floats the row keeps; only [requested_at] is lost, its effect kept in the
    readiness deadline. *)
Theorem ollama_request_recovers `{Digest} request now :
  check_ollama_request request = Ok tt -> check_constraints (or_constraints request) = Ok tt ->
  recoverable_constraints (or_constraints request) = true ->
  num_positive (NFloat (num_float (or_max_authorized_cost request))) = true ->
  forall t lease, insert_request ∅ request now = (Ok (lease, true), t) ->
    request_from_lease lease = Ok (surviving_request request now).
Proof.
  intros Hq Hc Hr Hm t lease Hi. unfold insert_request in Hi. rewrite lookup_empty in Hi.
  destruct (ollama_load _) as [l|] eqn:El in Hi; [|done]. apply ollama_load_same in El as ->.
  cbn [rbind] in Hi. unfold require in Hi. rewrite bool_decide_eq_true_2 in Hi by done. cbn [rbind] in Hi.
  injection Hi as <- <-. by apply row_recovers.
Qed.

(** ** Termination *)

(** C26. The readiness wait ends: on any host where calls take time and rows keep their
    identity and deadlines, fuel for the microseconds left until the lease's readiness
    deadline is enough, whatever the provider answers. *)
Theorem ollama_wait_ends `{Digest} `{ErrorText} (host : OllamaHost) fuel l row w :
  timely host -> keyed (ow_table w) -> ow_table w !! ol_lease_id l = Some row ->
  ol_readiness_deadline row = ol_readiness_deadline l ->
  0 < Z.of_nat fuel -> ol_readiness_deadline l - oh_clock host (ow_tick w) < Z.of_nat fuel ->
  fst (fst (exec (ollama_step host) (wait_until_ready fuel l) w)) <> Exc OutOfFuel.
Proof.
  intros Ht Hk Hrow Hd Hpos Hf.
  assert (anchored (ol_lease_id l) (ol_readiness_deadline l) w) as Hw.
  { split; [done|]. exists row. split; [done|]. split; [by apply Hk | done]. }
  pose proof (wait_never_runs_out host Ht _ _ fuel l w Hw (conj eq_refl eq_refl) Hpos Hf) as Hs.
  pose proof (exec_sound (fun _ _ => True) (moves host) (ollama_step host) (fun _ => True) _ w _
    (fun c s _ _ => surjective_pairing _) (fun _ _ _ _ _ _ _ => I) I Hs) as Hx.
  destruct (exec _ _ _) as [[r w'] calls]. destruct Hx as ((_ & Hr) & _). cbn. intros ->. by apply Hr.
Qed.

(** ** The sample lease *)

Module Witnesses.
Import OllamaScenario.

(** The first operation of the life, and the world it leaves. *)
Definition acquired : operation_run := run_operation host (DoAcquire 3 request true None) first_world.
Definition ready_world : OllamaWorld := run_after acquired.
Definition released : operation_run :=
  run_operation host (DoRelease "chat-1" "tenant-1" "assistant") ready_world.

Definition ready_row : OllamaLease := match ow_table ready_world !! "chat-1" with Some l => l | None => requested_lease request 0 end.

Definition call_world (r : operation_run) (n : nat) : OllamaWorld :=
  match nth_error (run_calls r) n with Some (_, s) => s | None => first_world end.

Definition first_lease (r : operation_run) : OllamaLease :=
  match run_answer r with Ok (l :: _) => l | _ => ready_row end.

Lemma acquired_in : In acquired (history host [DoAcquire 3 request true None] first_world).
Proof. by left. Qed.

(** The calls that change something at the provider. *)
Definition effectful (c : ollama_call) : bool :=
  match c with OProvision _ _ _ | OPull _ _ _ | OTeardown _ => true | _ => false end.

(** One lease's whole life runs: one create call, under the lease's stable name; the
    model is pulled once and the lease answered READY with its route; reads and touches
    answer it; the release deletes that Pod and writes the row TERMINATED; nothing is
    left to reconcile. *)
Theorem ollama_life_completes :
  map (fun r => match run_answer r with
         | Ok ls => Some (map (fun l => (ol_state l, ol_route_url l)) ls)
         | Exc _ => None
         end) (history host life first_world) =
    (let ready := [(O_READY, ro_route_url (observation 20))] in
     [Some ready; Some ready; Some ready; Some ready; Some [(O_TERMINATED, None)]; Some []]) /\
  List.filter effectful (map ev_call (rev (ow_log (outcome host life first_world)))) =
    [OProvision request plan (ollama_resource_name "chat-1");
     OPull resource "https://pod-0001-11434.proxy.runpod.net" "llama3"; OTeardown resource] /\
  ol_state <$> (ow_table (outcome host life first_world) !! "chat-1") = Some O_TERMINATED.
Proof. split; [vm_compute; reflexivity|]. split; vm_compute; reflexivity. Qed.

Lemma ready_world_ok : world_ok ready_world.
Proof. exact (rn_after _ _ (run_operation_safe host host_rely _ _ first_world_ok)). Qed.

Lemma ollama_rows_evolve_witness :
  ol_state ready_row = O_READY /\
  exists l', ow_table (outcome host (drop 1 life) ready_world) !! "chat-1" = Some l' /\
    lease_evolves ready_row l' /\ (ol_state ready_row = O_TERMINATED -> ol_state l' = O_TERMINATED).
Proof.
  split; [vm_compute; reflexivity|].
  refine (proj2 (ollama_rows_evolve host host_rely (drop 1 life) ready_world ready_world_ok) "chat-1" ready_row _).
  vm_compute. reflexivity.
Defined.

Lemma ollama_create_is_claimed_once_witness :
  validate_plan request plan = Ok tt /\
  ~ or_lease_id request ∈ provisioned_ids (ow_log (call_world acquired 7)) /\
  exists l, holds_lease (call_world acquired 7) l /\ ol_lease_id l = or_lease_id request /\
    ol_state l = O_PROVISIONING /\ ol_creation_uncertain l = true /\
    ol_resource_name l = Some (ollama_resource_name "chat-1") /\
    ol_cost_ceiling l = Some (num_float (op_cost_ceiling plan)).
Proof.
  refine (proj2 (ollama_create_is_claimed_once host host_rely [DoAcquire 3 request true None] first_world
    first_world_ok) acquired request plan _ _ acquired_in _).
  apply (nth_error_In _ 7). vm_compute. reflexivity.
Defined.

Lemma released_in : In released (history host [DoRelease "chat-1" "tenant-1" "assistant"] ready_world).
Proof. by left. Qed.

Lemma ollama_termination_follows_teardown_witness :
  exists l, holds_lease (call_world released 4) l /\ ol_state l = O_RELEASING /\
    resource_from_lease l = Ok resource.
Proof.
  refine (proj2 (ollama_termination_follows_teardown host host_rely
    [DoRelease "chat-1" "tenant-1" "assistant"] ready_world released (call_world released 4)
    ready_world_ok released_in) resource _).
  apply (nth_error_In _ 4). vm_compute. reflexivity.
Defined.

Lemma ollama_route_is_observed_witness :
  ol_state (first_lease acquired) = O_READY /\
  public_route_url (first_lease acquired) = Some "https://pod-0001-11434.proxy.runpod.net" /\
  routed host (run_before acquired) (run_after acquired) (first_lease acquired).
Proof.
  refine (ollama_route_is_observed host host_rely [DoAcquire 3 request true None] first_world acquired
    [first_lease acquired] (first_lease acquired) "https://pod-0001-11434.proxy.runpod.net"
    first_world_ok acquired_in _ _ _).
  - vm_compute. reflexivity.
  - by left.
  - vm_compute. reflexivity.
Defined.

(** A planner that finds no placement. *)
Definition refusing_host : OllamaHost := {|
  oh_clock := oh_clock host; oh_wall := oh_wall host; oh_interfere := fun _ t => t;
  oh_answer := fun n c => match c with OPlan _ => Exc RunPodManagerError | c => oh_answer host n c end
|}.

Lemma refusing_rely : ollama_rely refusing_host.
Proof.
  split; cbn; [done|done| |].
  - intros n r p name res [= <-]. done.
  - intros n t name res [= <-]. done.
Qed.

Definition requested_world : OllamaWorld := {|
  ow_table := {[ "chat-1" := requested_lease request (at_ 0) ]}; ow_tick := 1; ow_log := []
|}.

Lemma requested_world_ok : world_ok requested_world.
Proof.
  split; [split|..]; cbn.
  - intros k l Hk. apply lookup_singleton_Some in Hk as [<- <-]. done.
  - intros k l Hk. apply lookup_singleton_Some in Hk as [<- <-]. apply requested_row_ok.
  - intros id Hid. by apply elem_of_nil in Hid.
  - constructor.
Qed.

Lemma ollama_reconcile_isolates_witness :
  match run_answer (run_operation refusing_host DoReconcile requested_world) with
  | Ok ls => exists ids, In "chat-1" ids
  | Exc e => False
  end.
Proof.
  pose proof (ollama_reconcile_isolates refusing_host requested_world refusing_rely requested_world_ok) as Hi.
  destruct (run_answer (run_operation refusing_host DoReconcile requested_world)) as [ls|e] eqn:E.
  - destruct Hi as (ids & Hi & _). exists ids. apply (Hi "chat-1" (requested_lease request (at_ 0)));
      [reflexivity|intros Hs; discriminate Hs].
  - vm_compute in E. discriminate E.
Defined.

Lemma ollama_update_reads_back_witness :
  ol_lease_id ready_row = "chat-1" /\
  exists db', ollama_get db' "chat-1" = Ok (Some (updated_lease ready_row [PutLastUsedAt (at_ 60)] (at_ 60))).
Proof.
  split; [vm_compute; reflexivity|].
  destruct (ollama_update_reads_back {["chat-1" := ready_row]} (at_ 60) ready_row ready_row [PutLastUsedAt (at_ 60)]
    ) with (l' := updated_lease ready_row [PutLastUsedAt (at_ 60)] (at_ 60)) as (db' & _ & _ & _ & Hget & _).
  - vm_compute. reflexivity.
  - reflexivity.
  - reflexivity.
  - apply (bool_decide_unpack _). vm_compute. exact I.
  - exists db'. exact Hget.
Defined.

Lemma ollama_request_recovers_witness :
  request_from_lease (requested_lease request (at_ 0)) = Ok (surviving_request request (at_ 0)).
Proof.
  refine (ollama_request_recovers request (at_ 0) _ _ _ _ _ _ _); vm_compute; reflexivity.
Defined.

(** The waiting row of the acquisition, on a clock that starts with it. *)
Definition waiting_row : OllamaLease :=
  match ow_table (call_world acquired 10) !! "chat-1" with Some l => l | None => ready_row end.

Lemma host_timely : timely host.
Proof.
  split; [done| | |].
  - intros n t k l Hl. exists l. by split.
  - intros n. cbn [host oh_clock]. unfold at_, seconds, US. lia.
  - intros n c. destruct c; cbn; done.
Qed.

Lemma ollama_wait_ends_witness :
  ol_state waiting_row = O_WAITING_FOR_MODEL /\
  fst (fst (exec (ollama_step host) (wait_until_ready (Z.to_nat (300 * US)) waiting_row) (call_world acquired 10)))
    <> Exc OutOfFuel.
Proof.
  split; [vm_compute; reflexivity|].
  assert (keyed (ow_table (call_world acquired 10))) as Hk.
  { replace (ow_table (call_world acquired 10)) with ({["chat-1" := waiting_row]} : ollama_table)
      by (vm_compute; reflexivity).
    intros k l Hl. apply lookup_singleton_Some in Hl as [<- <-]. vm_compute. reflexivity. }
  refine (ollama_wait_ends host _ waiting_row waiting_row _ host_timely Hk _ eq_refl _ _).
  - vm_compute. reflexivity.
  - rewrite Z2Nat.id; done.
  - rewrite Z2Nat.id by done. vm_compute. reflexivity.
Defined.

End Witnesses.
