(* ===== verification/OllamaProviderProperties.v ===== *)
(** What the Ollama capacity provider guarantees: theorems about every run of its
    operations against any control plane, and about the service running over it. *)
From S2P Require Import Prelude PyStr Enums Errors PyDecimal PyFloat PyTime Json ContractsBase CodecBase Placement Scenario World ServerlessSpec ServerlessQuote ServerlessCatalog OllamaContracts OllamaLeases OllamaRepository Prog OllamaRuntime OllamaProvider OllamaService OllamaLogic OllamaSafety OllamaOperations OllamaHistory OllamaSelection OllamaCapacity OllamaProperties.

#[local] Open Scope Z_scope.

(** A deletion answers only when the exact resource was read afterwards and not
    found: an accepted delete, or its own 404, is no proof of absence; and every call it
    makes names that resource only. *)
Theorem ollama_teardown_proves_absence resource h n res tr :
  run h n (teardown resource) = (res, tr) ->
  (forall ev, In ev tr -> own_deletion resource (ev_call ev)) /\
  (res = Ok tt -> exists before last, tr = (before ++ [last])%list /\ seen_absent resource last).
Proof. apply deleted_then_absent. Qed.

(** C27. A creation makes at most one create call: of the planned kind, under the
    durable name, for the planned GPU and count, of the reviewed image at a digest, with
    an environment that carries the scoped bearer until the lease's hard deadline and the
    digest-pinned requested model, none of which the operator's profile can override; the
    answer names the resource of that call. *)
Theorem ollama_creation_is_scoped oc request p name h n res tr :
  run h n (provision oc request p name) = (res, tr) ->
  (forall before ev after, tr = (before ++ ev :: after)%list -> is_creation (ev_call ev) = true ->
     planned_creation oc request p name (ev_call ev) /\
     List.filter (fun e => is_creation (ev_call e)) before = []) /\
  (forall r, res = Ok r -> exists t ev, tr = [@Event _ capacity_answer CNow (Ok t); ev] /\ created_as p name r ev) /\
  (forall image, image_reference oc = Ok image -> reviewed_image image) /\
  (forall mode env, environment_of oc request mode env -> exists token requested_at,
     bearer_token_for oc (if bool_decide (mode = SERVERLESS_LOAD_BALANCER) then RES_SERVERLESS_ENDPOINT else RES_POD) = Ok token /\
     scoped_environment request token mode requested_at env).
Proof.
  intros Hr. destruct (wp_run (provision_wp oc request p name) Hr) as [HQ Hm]. split_and!.
  - intros before ev after Htr Hc. destruct (Hm before ev after Htr) as [Hp Ho]. split; [done|]. by apply Ho.
  - intros r ->. by apply HQ.
  - intros image. apply accepted_reference.
  - intros mode env [t He]. apply environment_is_scoped in He as (token & Ht & Hs). by exists token, t.
Qed.

(** A search answers the one resource of the durable name: nothing when the
    provider lists none, an error when it lists several, so that a retried creation never
    adopts a resource it cannot tell apart. *)
Theorem ollama_search_is_exact t name h n res tr :
  run h n (find_resource t name) = (res, tr) ->
  exists ev, tr = [ev] /\
    match named_ids t name ev with
    | Some [] => res = Ok None
    | Some [id] => res = Ok (Some (provisioned t id name))
    | Some _ => res = Exc RunPodManagerError
    | None => exists e, res = Exc e
    end.
Proof.
  intros Hr. destruct (wp_run (find_wp t name) Hr) as [(ev & Htr & Ho) _]. exists ev. split; [done|].
  by destruct (named_ids t name ev) as [[|? []]|].
Qed.

(** A Pod is observed ready only when it runs, its route is HTTPS, the route refused
    an anonymous request for its models and answered the scoped bearer's health probe;
    observing changes nothing at the provider. *)
Theorem ollama_ready_pod_is_private oc pod_id h n res tr o :
  run h n (observe_pod oc pod_id) = (res, tr) -> res = Ok o -> ro_provider_ready o = true ->
  ready_pod oc pod_id o tr /\ Forall (fun ev => reads_only (ev_call ev)) tr /\
  forall url, ro_route_url o = Some url -> exists rest, chars url = (chars "https://" ++ rest)%list.
Proof.
  intros Hr Ho Hready. destruct (wp_run (observe_pod_wp oc pod_id) Hr) as [HQ Hm]. cbn [app] in *.
  pose proof (HQ o Ho Hready) as Hp. split_and!; [done| |].
  - apply List.Forall_forall. intros ev Hev. apply in_split in Hev as (pre & post & E). by apply (Hm pre ev post).
  - intros url Hu. destruct Hp as (pod & u & _ & _ & _ & _ & Hu' & Hbase & _). rewrite Hu in Hu'. injection Hu' as <-.
    by apply https_route in Hbase.
Qed.

(** C28. The plan answered for a request is the cheapest affordable one of those the
    catalog's recorded answers offer. Every product of the request's mode that is
    configured is asked about, with the request's own constraints; the placement of each
    product is decided among the offers it was answered ([decided]) and the time is the
    last clock reading. The plan is one of those offered: checked, admitted by the mode,
    rated from the offer it names, with a ceiling that pays for every second until the
    hard deadline on every worker; it is affordable, no affordable offered plan is
    cheaper, and at a positive rate [validate_plan] accepts it. Planning changes nothing
    at the provider. *)
Theorem ollama_plan_is_cheapest oc request h n tr p :
  run h n (plan oc request) = (Ok p, tr) ->
  Forall (fun ev => reads_only (ev_call ev)) tr /\
  exists before now ps,
    tr = (before ++ [@Event _ capacity_answer CNow (Ok now)])%list /\
    (forall product, product ∈ products_of (or_mode request) -> product_configured oc request product = true ->
       exists ev, ev ∈ before /\ catalog_question request product ev) /\
    offered_plans request (decided request before) (non_compute_cost_policies (deployment oc)) now
      (od_serverless_workers_max (deployment oc)) = Ok ps /\
    In p ps /\ affordable request p = true /\
    (forall q, In q ps -> affordable request q = true ->
       dlt (num_decimal (op_estimated_cost q)) (num_decimal (op_estimated_cost p)) = false) /\
    derived_plan request (decided request before) (non_compute_cost_policies (deployment oc))
      (remaining_seconds request now) p /\
    (dlt dzero (pd_offered_cost_per_hr (op_placement p)) = true -> validate_plan request p = Ok tt).
Proof.
  intros Hr. destruct (wp_run (plan_wp oc request) Hr) as [HQ Hm]. cbn [app] in *. split.
  { apply List.Forall_forall. intros ev Hev. apply in_split in Hev as (pre & post & E). by apply (Hm pre ev post). }
  destruct (HQ p eq_refl) as (before & now & Htr & Hask & Hs).
  apply selected_spec in Hs as (ps & Ho & Hp & Hmin & Hd). apply List.filter_In in Hp as [Hp Ha].
  exists before, now, ps. split_and!; try done.
  - intros q Hq Hqa. apply Hmin. by apply List.filter_In.
  - by apply Hd.
  - intros Hrate. eapply derived_accepted; [apply decided_placed|by apply Hd|done|done].
Qed.

(** Over the real provider, a lease that records a resource is written TERMINATED only
    after the control plane answered the read of that exact resource with 404: the
    service's ordering and the provider's proof of absence compose. *)
Lemma ollama_terminated_absent `{Digest} `{ErrorText} oc base planes ops r s lease cs :
  ollama_rely (backend oc base planes) ->
  In r (history (backend oc base planes) ops first_world) -> In (OCas lease cs, s) (run_calls r) ->
  writes_state cs = Some O_TERMINATED -> is_some (ol_provider_resource_id lease) = true ->
  exists resource k before last,
    resource_from_lease lease = Ok resource /\
    run (planes k) 0 (teardown resource) = (Ok tt, (before ++ [last])%list) /\ seen_absent resource last.
Proof.
  intros Hrely Hr Hc Hs Hid. set (host := backend oc base planes) in *.
  pose proof (history_owed host Hrely ops first_world r _ s first_world_ok Hr Hc) as Ho.
  cbn [owed] in Ho. rewrite Hs in Ho. destruct Ho as [_ Ho]. destruct (Ho eq_refl) as [_ [Hn|Hres]]; [by rewrite Hn in Hid|].
  destruct Hres as (resource & older & Hres & Hlog).
  assert (answered_by host s) as Ha 
    by (apply (history_answered host ops first_world r (OCas lease cs) s); [constructor|done|done]).
  destruct (logged_teardown oc base planes s resource older Ha Hlog) as [k Hk].
  unfold effect_answer in Hk. destruct (run (planes k) 0 (teardown resource)) as [res tr] eqn:E. cbn in Hk. subst res.
  destruct (deleted_then_absent _ _ _ _ _ E) as [_ Habs]. destruct (Habs eq_refl) as (before & last & -> & Hl).
  by exists resource, k, before, last.
Qed.

(** ** A sample control plane *)

Module ProviderScenario.
Import OllamaScenario.

Definition model_digest : string := sha256_hex "llama3".

Definition image : string := OLLAMA_RUNTIME_IMAGE_REPOSITORY ++ "@sha256:" ++ sha256_hex "runtime".

Definition profile : GPUProfile := {|
  gp_id := "ollama"; gp_name := "ollama"; gp_task_type := "ollama"; gp_image_name := "${OLLAMA_IMAGE}";
  gp_container_disk_gb := 50; gp_volume_gb := 0; gp_ports := ["11434/http"]; gp_inference_port := 11434;
  gp_inference_protocol := "http"; gp_inference_base_path := "/v1"; gp_image_invoke_path := None;
  gp_default_model := None; gp_pod_type := None; gp_min_vram_gb := 24; gp_min_cuda_version := None;
  gp_max_cost_per_hr := None; gp_gpu_count := 1; gp_cloud := SECURE; gp_allowed_gpu_ids := [];
  gp_allowed_data_center_ids := []; gp_max_context_window := None; gp_readiness_timeout_seconds := None;
  gp_registry_id := None; gp_network_volume_id := None; gp_volume_mount_path := None;
  gp_persistent_pod_id := None;
  gp_env := [("KESTREL_OLLAMA_ALLOWED_MODELS", "llama3:latest@sha256:" ++ model_digest)%string]
|}.

Definition costs : OllamaNonComputeCostPolicy := {|
  cp_estimated_cost_usd := NFloat (Fin 1 (-2)); cp_maximum_cost_usd := NFloat (Fin 5 (-2));
  cp_covered_components := [CONTAINER_DISK; MODEL_TRANSFER; RETRY_ALLOWANCE]
|}.

Definition provider : OllamaCapacity := {|
  oc_deployment := {|
    od_profile := profile; od_serverless_workers_max := 1; od_serverless_request_count := 4;
    od_serverless_execution_timeout_ms := 600000; od_serverless_flashboot := FLASHBOOT;
    od_http_timeout_seconds := Fin 10 0; od_serverless_non_compute_cost := costs; od_pod_non_compute_cost := costs
  |};
  oc_serverless_api_key := None;
  oc_pod_bearer_token := Some "pod-bearer-token-0123456789abcdef0123";
  oc_environ := fun v => if bool_decide (v = "OLLAMA_IMAGE") then Some image else None
|}.

Lemma provider_checks :
  check_deployment (oc_deployment provider) = Ok tt /\
  check_credentials None (oc_pod_bearer_token provider) (Some "control-plane-key") = Ok tt.
Proof. split; vm_compute; reflexivity. Qed.

Definition pod_raw : list (string * json) :=
  [("runtime", JObj [("ports", JList [JObj [("private", JInt 11434); ("type", JStr "http")]])])].

Definition pod : PodResource := {|
  px_id := "pod-0001"; px_name := ollama_resource_name "chat-1"; px_status := "RUNNING"; px_gpu_id := None;
  px_gpu_count := 0; px_cost_per_hr := None; px_raw := pod_raw
|}.

(** One Pod, read once and then gone; its model route refuses anonymous requests. *)
Definition plane : oracle capacity_answer := fun n c =>
  match c as c return result (capacity_answer c) with
  | CNow | CWall => Ok (at_ 0)
  | CListGpus _ _ _ _ => Ok [Scenario.offer]
  | CCreateEndpoint _ => Exc (RunPodAPIError (Some 500))
  | CCreatePod _ => Ok pod
  | CListEndpoints => Ok []
  | CListPods => Ok [pod]
  | CGetEndpoint _ => Exc (RunPodAPIError (Some 404))
  | CGetPod _ => match n with O => Ok pod | S _ => Exc (RunPodAPIError (Some 404)) end
  | CDeleteEndpoint _ => Exc (RunPodAPIError (Some 404))
  | CPodAction _ _ => Ok tt
  | CHttpGet url bearer =>
      Ok (match bearer with
          | None => {| hr_status := 401; hr_json := None |}
          | Some _ => {| hr_status := 200;
                         hr_json := Some (JObj [("models", JList [JObj [("name", JStr "llama3:latest")]])]) |}
          end)
  end.

Definition request : OllamaLeaseRequest := {|
  or_lease_id := "chat-1"; or_owner_id := "tenant-1"; or_workload_id := "assistant"; or_model := "llama3:latest";
  or_constraints := constraints; or_expected_session_seconds := 1800; or_expected_active_seconds := 600;
  or_serverless_initialization_seconds := 0; or_serverless_idle_tail_seconds := 0;
  or_idle_timeout_seconds := 600; or_readiness_timeout_seconds := 300; or_hard_deadline := at_ 3600;
  or_max_authorized_cost := NFloat (Fin 2 0); or_mode := DEDICATED_POD; or_requested_at := None
|}.

Definition host : OllamaHost := backend provider OllamaScenario.host (fun _ => plane).

Definition planned : result OllamaPlacementPlan := fst (run plane 0 (OllamaProvider.plan provider request)).

Definition the_plan : OllamaPlacementPlan := match planned with Ok p => p | Exc _ => OllamaScenario.plan end.

Definition name : string := ollama_resource_name "chat-1".

Definition created : result ProvisionedOllamaResource * list cevent := run plane 0 (provision provider request the_plan name).

Lemma provider_host_rely : ollama_rely host.
Proof.
  split; cbn; [done|done| |].
  - intros n r p nm res. unfold effect_answer, provision.
    destruct (image_reference provider) as [i|e]; [|done].
    cbn -[runtime_environment check_endpoint_create check_pod_create]. destruct (op_resource_type p);
      cbn -[runtime_environment check_endpoint_create check_pod_create];
      (destruct (runtime_environment provider r _ _) as [env|e]; [|done]);
      cbn -[check_endpoint_create check_pod_create].
    + destruct (require _ _) as [u|e]; [|done]. cbn -[check_endpoint_create].
      by destruct (check_endpoint_create _) as [v|e].
    + destruct (check_pod_create _) as [v|e]; [|done]. cbn. by intros [= <-].
  - intros n t nm res. unfold effect_answer. destruct t; cbn; [done|].
    destruct (bool_decide _); cbn; [|done]. by intros [= <-].
Qed.

(** ** Witnesses *)

Lemma ollama_teardown_proves_absence_witness :
  exists before last, snd (run plane 0 (teardown resource)) = (before ++ [last])%list /\ seen_absent resource last.
Proof.
  exact (proj2 (ollama_teardown_proves_absence resource plane 0 _ _ (surjective_pairing _)) eq_refl).
Defined.

Lemma ollama_creation_is_scoped_witness :
  exists t ev, snd created = [@Event _ capacity_answer CNow (Ok t); ev] /\ created_as the_plan name resource ev.
Proof.
  refine (proj1 (proj2 (ollama_creation_is_scoped provider request the_plan name plane 0 _ _ (surjective_pairing _))) resource _).
  vm_compute. reflexivity.
Defined.

Lemma ollama_search_is_exact_witness :
  fst (run plane 0 (find_resource RES_POD name)) = Ok (Some resource) /\
  exists ev, snd (run plane 0 (find_resource RES_POD name)) = [ev] /\
    match named_ids RES_POD name ev with
    | Some [] => fst (run plane 0 (find_resource RES_POD name)) = Ok None
    | Some [id] => fst (run plane 0 (find_resource RES_POD name)) = Ok (Some (provisioned RES_POD id name))
    | Some _ => fst (run plane 0 (find_resource RES_POD name)) = Exc RunPodManagerError
    | None => exists e, fst (run plane 0 (find_resource RES_POD name)) = Exc e
    end.
Proof.
  split; [vm_compute; reflexivity|].
  exact (ollama_search_is_exact RES_POD name plane 0 _ _ (surjective_pairing _)).
Defined.

Definition observed : result OllamaReadinessObservation * list cevent := run plane 0 (observe_pod provider "pod-0001").

Definition ready_observation : OllamaReadinessObservation :=
  match fst observed with Ok o => o | Exc _ => observation 0 end.

Lemma ollama_ready_pod_is_private_witness :
  ro_route_url ready_observation = Some "https://pod-0001-11434.proxy.runpod.net" /\
  ready_pod provider "pod-0001" ready_observation (snd observed).
Proof.
  split; [vm_compute; reflexivity|].
  refine (proj1 (ollama_ready_pod_is_private provider "pod-0001" plane 0 _ _ ready_observation (surjective_pairing _) _ _));
    vm_compute; reflexivity.
Defined.

Lemma ollama_plan_is_cheapest_witness :
  planned = Ok the_plan /\ affordable request the_plan = true /\
  Forall (fun ev => reads_only (ev_call ev)) (snd (run plane 0 (OllamaProvider.plan provider request))).
Proof.
  assert (Hrun : run plane 0 (OllamaProvider.plan provider request) =
    (Ok the_plan, snd (run plane 0 (OllamaProvider.plan provider request)))) by (vm_compute; reflexivity).
  destruct (ollama_plan_is_cheapest provider request plane 0 _ the_plan Hrun)
    as [Hreads (before & now & ps & _ & _ & _ & _ & Ha & _)].
  split; [vm_compute; reflexivity|]. split; [exact Ha|exact Hreads].
Defined.

(** The lease's life over this provider, ended by its owner. *)
Definition life : list ollama_operation :=
  [DoAcquire 3 request true None; DoRelease "chat-1" "tenant-1" "assistant"].

(** ** A CUDA floor that is no version *)

(** Accepted by the request's own validation: [OllamaResourceConstraints] does not look at
    [min_cuda_version]. *)
Definition cuda_constraints : OllamaResourceConstraints := {|
  rc_min_vram_gb := 24; rc_gpu_count := 1; rc_cloud := SECURE; rc_min_cuda_version := Some "12.x";
  rc_allowed_gpu_ids := []; rc_allowed_gpu_pools := []; rc_allowed_data_center_ids := [];
  rc_max_hourly_rate := None
|}.

Definition cuda_request : OllamaLeaseRequest := {|
  or_lease_id := "chat-0"; or_owner_id := "tenant-1"; or_workload_id := "assistant"; or_model := "llama3:latest";
  or_constraints := cuda_constraints; or_expected_session_seconds := 1800; or_expected_active_seconds := 600;
  or_serverless_initialization_seconds := 0; or_serverless_idle_tail_seconds := 0;
  or_idle_timeout_seconds := 600; or_readiness_timeout_seconds := 36000; or_hard_deadline := at_ 36000;
  or_max_authorized_cost := NFloat (Fin 2 0); or_mode := DEDICATED_POD; or_requested_at := None
|}.

(** A lease past its hard deadline, its billable Pod still there. *)
Definition overdue_row : OllamaLease :=
  put_all (requested_lease request (at_ (-9000)))
    [PutState O_RELEASING; PutProviderResourceId (Some "pod-0001"); PutResourceType (Some RES_POD);
     PutResourceName (Some (ollama_resource_name "chat-1"))].

Definition blocked_world : OllamaWorld := {|
  ow_table := <["chat-0" := requested_lease cuda_request (at_ (-9001))]> {["chat-1" := overdue_row]};
  ow_tick := 1; ow_log := []
|}.

Definition is_deletion (c : ollama_call) : bool := match c with OTeardown _ => true | _ => false end.

(** A lease whose CUDA floor is no version, accepted when it was requested, stops every
    reconciliation pass: planning it raises [ValueError], which neither
    [_provision_requested] nor [reconcile] catches, whatever the control plane answers;
    the leases after it, a Pod awaiting its deletion among them, are not reached. *)
Theorem malformed_cuda_floor_stops_reconciliation (planes : control_planes) :
  check_ollama_request cuda_request = Ok tt /\ check_constraints cuda_constraints = Ok tt /\
  let r := run_operation (backend provider OllamaScenario.host planes) DoReconcile blocked_world in
  run_answer r = Exc ValueError /\ ow_table (run_after r) = ow_table blocked_world /\
  List.filter (fun x => is_deletion (fst x)) (run_calls r) = [].
Proof. split; [reflexivity|]. split; [reflexivity|]. cbv zeta. split_and!; vm_compute; reflexivity. Qed.

(** Without that lease, the pass deletes the Pod. *)
Example unblocked_pass_deletes :
  List.filter is_deletion (map fst (run_calls (run_operation host DoReconcile
    {| ow_table := {["chat-1" := overdue_row]}; ow_tick := 1; ow_log := [] |}))) = [OTeardown resource].
Proof. vm_compute. reflexivity. Qed.

End ProviderScenario.
