(* ===== verification/RestModels.v ===== *)
(** The v2 payloads of [models.py]: what the control plane's answers are read into,
    with the removal of echoed credentials, and the bodies of the mutating calls. *)
From S2P Require Import Prelude PyStr Enums Errors PyDecimal PyFloat PyTime Json ContractsBase CodecBase Placement PodBilling ServerlessSpec ServerlessCatalog Provider OllamaProvider.
From Stdlib Require Import Ascii.

#[local] Open Scope Z_scope.

Module RestModels.

Abbreviation payload := (list (string * json)).

(** ** Readers *)

(** [_optional_string], [_integer], [_optional_integer], [_boolean]; [_string] and
    [_mapping] are [payload_string] and [payload_mapping]. *)
Definition model_optional_string (v : json) : result (option string) :=
  match v with
  | JNull => Ok None
  | JStr s => Ok (Some s)
  | _ => Exc RunPodManagerError
  end.

Definition model_integer (v : json) : result Z :=
  match v with JInt z => Ok z | _ => Exc RunPodManagerError end.

Definition model_optional_integer (v : json) : result (option Z) :=
  match v with
  | JNull => Ok None
  | JInt z => Ok (Some z)
  | _ => Exc RunPodManagerError
  end.

Definition model_boolean (v : json) : result bool :=
  match v with JBool b => Ok b | _ => Exc RunPodManagerError end.

(** [float(item)] of an integer or a float. *)
Definition float_of_int (z : Z) : result Decimal :=
  match float_of_decimal (of_int z) with
  | Inf _ => Exc OverflowError
  | d => Ok d
  end.

(** [_number], [_optional_number]. *)
Definition model_number (v : json) : result Decimal :=
  match v with
  | JInt z => float_of_int z
  | JFloat d => Ok d
  | _ => Exc RunPodManagerError
  end.

Definition model_optional_number (v : json) : result (option Decimal) :=
  match v with
  | JNull => Ok None
  | _ => let! d := model_number v in Ok (Some d)
  end.

(** ** [sanitize_resource_payload] *)

Definition REDACTED : json := JStr "[REDACTED]".

(** [re.sub(r"[^a-z0-9]", "", key.lower())]. *)
Definition normalized_key (key : string) : list ascii :=
  List.filter (fun c => is_digit c || is_lower c) (chars (lower key)).

Definition is_env_key (key : string) : bool := bool_decide (normalized_key key = chars "env").

Definition sensitive_key (key : string) : bool :=
  existsb (fun marker => contains (chars marker) (normalized_key key))
    ["apikey"; "authorization"; "password"; "secret"; "token"].

(** [_sanitize_resource_value]. *)
Fixpoint sanitize_value (key : string) (v : json) : json :=
  match v with
  | JObj fields =>
      if is_env_key key then JObj (map (fun p => (fst p, REDACTED)) fields)
      else if sensitive_key key then REDACTED
      else JObj (map (fun p => (fst p, sanitize_value (fst p) (snd p))) fields)
  | JList l => if sensitive_key key then REDACTED else JList (map (sanitize_value key) l)
  | _ => if sensitive_key key then REDACTED else v
  end.

Definition sanitize_resource_payload (value : payload) : payload :=
  map (fun p => (fst p, sanitize_value (fst p) (snd p))) value.

(** ** Resources *)

(** [value.get(name) or {}], which must be a mapping. *)
Definition mapping_or_empty (v : json) : result payload :=
  if Provider.truthy_json v then payload_mapping v else Ok [].

(** [PodResource.from_dict]. *)
Definition pod_cost (v : json) : result (option Decimal) :=
  let! cost :=
    match model_optional_number v with
    | Exc OverflowError => Exc RunPodManagerError
    | r => r
    end in
  run! require (option_all (fun c => is_finite c && dle dzero c) cost) RunPodManagerError then
  Ok cost.

Definition pod_from_dict (value : payload) : result PodResource :=
  let! gpu := mapping_or_empty (get_field value "gpu") in
  let! cost := pod_cost (get_field value "cost") in
  let! id := payload_string (get_field value "id") in
  let! name := payload_string (get_field value "name") in
  let! status := payload_string (get_field value "status") in
  let! gpu_id := model_optional_string (get_field gpu "id") in
  let! gpu_count := model_optional_integer (get_field gpu "count") in
  Ok {| px_id := id; px_name := name; px_status := status; px_gpu_id := gpu_id;
        px_gpu_count := default 0 gpu_count; px_cost_per_hr := cost;
        px_raw := sanitize_resource_payload value |}.

(** [EndpointResource.from_dict], with the request URLs. *)
Definition url_item (p : string * json) : result (string * string) :=
  match snd p with JStr s => Ok (fst p, s) | _ => Exc RunPodManagerError end.

Definition endpoint_from_dict (value : payload) : result RoutedEndpoint :=
  let! urls := mapping_or_empty (get_field value "requestUrls") in
  let! urls := rmap url_item urls in
  let! id := payload_string (get_field value "id") in
  let! name := payload_string (get_field value "name") in
  let! endpoint_type := model_optional_string (get_field value "type") in
  Ok {| rt_endpoint := {| en_id := id; en_name := name; en_endpoint_type := endpoint_type;
                          en_raw := JObj (sanitize_resource_payload value) |};
        rt_request_urls := urls |}.

(** [VolumeType] and [NetworkVolume]. *)
Inductive VolumeType := STANDARD | HIGH_PERFORMANCE.

Definition volume_type_value (t : VolumeType) : string :=
  match t with STANDARD => "STANDARD" | HIGH_PERFORMANCE => "HIGH_PERFORMANCE" end.

#[export] Instance VolumeType_dec : EqDecision VolumeType.
Proof. solve_decision. Defined.
#[export] Instance VolumeType_enum : PyEnum VolumeType.
Proof. enum_instance [STANDARD; HIGH_PERFORMANCE] volume_type_value. Defined.

Record NetworkVolume : Set := {
  nv_id : string;
  nv_name : string;
  nv_size_gb : Z;
  nv_data_center : string;
  nv_volume_type : VolumeType
}.

(** [NetworkVolume.from_dict]. *)
Definition volume_from_dict (value : payload) : result NetworkVolume :=
  let! raw_type := payload_string (get_field value "type") in
  let! volume_type := of_option (of_value raw_type) RunPodManagerError in
  let! size_gb := model_integer (get_field value "size") in
  run! require ((10 <=? size_gb) && (size_gb <=? 4096)) RunPodManagerError then
  let! id := payload_string (get_field value "id") in
  let! name := payload_string (get_field value "name") in
  let! data_center := payload_string (get_field value "dataCenter") in
  Ok {| nv_id := id; nv_name := name; nv_size_gb := size_gb; nv_data_center := data_center;
        nv_volume_type := volume_type |}.

(** [ServerlessJob.from_dict]; output, error text and raw payload are not kept. *)
Definition job_from_dict (value : payload) : result ServerlessJob :=
  let! id := payload_string (get_field value "id") in
  let! status := payload_string (get_field value "status") in
  run! model_optional_string (get_field value "error") then
  let! delay := model_optional_integer (get_field value "delayTime") in
  let! execution := model_optional_integer (get_field value "executionTime") in
  Ok {| sj_id := id; sj_status := status; sj_delay_time_ms := delay;
        sj_execution_time_ms := execution |}.

(** [value.get("dataCenters", ())], iterated. *)
Definition data_center_items (value : payload) : result (list json) :=
  if bool_decide ("dataCenters" ∈ keys value) then
    match get_field value "dataCenters" with
    | JList l => Ok l
    | JObj l => Ok (map (fun p => JStr (fst p)) l)
    | JStr s => Ok (map (fun c => JStr (String c EmptyString)) (chars s))
    | _ => Exc TypeError
    end
  else Ok [].

(** [Availability(availability) if availability is not None else None]; the
    [ValueError] of an unknown value is turned into a manager error. *)
Definition offer_availability (v : json) : result (option Availability) :=
  match v with
  | JNull => Ok None
  | JStr s => let! a := of_option (of_value s) RunPodManagerError in Ok (Some a)
  | _ => Exc RunPodManagerError
  end.

(** [GPUOffer.from_dict]. *)
Definition offer_from_dict (value : payload) (min_cuda_version : option string) : result GPUOffer :=
  let! price := payload_mapping (get_field value "price") in
  let! max_count := payload_mapping (get_field value "maxCount") in
  let! id := payload_string (get_field value "id") in
  let! name := payload_string (get_field value "name") in
  let! pool := model_optional_string (get_field value "pool") in
  let! manufacturer := payload_string (get_field value "manufacturer") in
  let! memory := model_integer (get_field value "memory") in
  let! secure := model_boolean (get_field value "secure") in
  let! community := model_boolean (get_field value "community") in
  let! secure_price := model_number (get_field price "secure") in
  let! community_price := model_number (get_field price "community") in
  let! serverless_price :=
    if bool_decide ("serverless" ∈ keys price) then
      let! p := model_number (get_field price "serverless") in Ok (Some p)
    else Ok None in
  let! secure_max := model_integer (get_field max_count "secure") in
  let! community_max := model_integer (get_field max_count "community") in
  let! availability := offer_availability (get_field value "availability") in
  let! centers := data_center_items value in
  let! centers := rmap PodBilling.mapping_item centers in
  Ok {| go_id := id; go_name := name; go_pool := pool; go_manufacturer := manufacturer;
        go_memory_gb := memory; go_secure := secure; go_community := community;
        go_secure_price_per_hr := secure_price; go_community_price_per_hr := community_price;
        go_secure_max_count := secure_max; go_community_max_count := community_max;
        go_availability := availability; go_data_centers := centers;
        go_availability_min_cuda_version := min_cuda_version;
        go_serverless_price_per_hr := serverless_price |}.

(** ** Request bodies *)

(** [CpuPodCreateRequest]: the container envelope and the CPU variant's fields. *)
Record CpuPodCreateRequest : Set := {
  uq_name : string;
  uq_image : string;
  uq_cloud : CloudType;
  uq_disk_gb : Z;
  uq_ports : list string;
  uq_env : list (string * string);
  uq_args : option string;
  uq_registry_id : option string;
  uq_data_center_ids : list string;
  uq_mounts : option payload;
  uq_global_networking : bool;
  uq_cpu_id : string;
  uq_vcpu_count : Z
}.

(** A network mount names a volume and a path. *)
Definition network_mount_ok (mount : json) : bool :=
  match mount with
  | JObj l =>
      same_keys (keys l) ["volumeId"; "path"] &&
      forallb (fun key => match get_field l key with JStr s => negb (bool_decide (s = "")) | _ => false end)
        ["volumeId"; "path"]
  | _ => false
  end.

Definition cpu_mounts_ok (mounts : payload) : bool :=
  forallb (fun key => bool_decide (key = "network")) (keys mounts) &&
  match (if bool_decide ("network" ∈ keys mounts) then get_field mounts "network" else JList []) with
  | JList network => (Z.of_nat (length network) <=? 1) && forallb network_mount_ok network
  | _ => false
  end.

(** [__post_init__] of the request and of [_PodContainerRequest]; [count & (count - 1)]
    is zero exactly at powers of two. *)
Definition check_cpu_pod_create (r : CpuPodCreateRequest) : result unit :=
  run! require (negb (bool_decide (uq_name r = "")) && negb (bool_decide (uq_image r = ""))) ValueError then
  run! require (1 <=? uq_disk_gb r) ValueError then
  run! require (negb (bool_decide (uq_cpu_id r = ""))) ValueError then
  run! require
    ((2 <=? uq_vcpu_count r) && (Z.land (uq_vcpu_count r) (uq_vcpu_count r - 1) =? 0)) ValueError then
  run! require (negb (uq_global_networking r)) ValueError then
  require (option_all cpu_mounts_ok (uq_mounts r)) ValueError.

(** [to_payload], of a request that is checked again. *)
Definition cpu_pod_create_payload (r : CpuPodCreateRequest) : result payload :=
  run! check_cpu_pod_create r then
  Ok ([("name", JStr (uq_name r));
       ("image", JStr (uq_image r));
       ("cloud", JStr (cloud_value (uq_cloud r)));
       ("disk", JInt (uq_disk_gb r));
       ("ports", jstrs (uq_ports r));
       ("env", JObj (str_fields (uq_env r)));
       ("globalNetworking", JBool (uq_global_networking r))] ++
      match uq_args r with Some a => [("args", JStr a)] | None => [] end ++
      match uq_registry_id r with Some a => [("registry", JStr a)] | None => [] end ++
      match uq_data_center_ids r with [] => [] | ids => [("dataCenterIds", jstrs ids)] end ++
      match uq_mounts r with Some m => [("mounts", JObj m)] | None => [] end ++
      [("cpu", JObj [("id", JStr (uq_cpu_id r)); ("vcpuCount", JInt (uq_vcpu_count r))])])%list.

(** [EndpointUpdateRequest]. *)
Record EndpointUpdateRequest : Set := {
  up_name : option string;
  up_image : option string;
  up_gpu_pools : option (list string);
  up_gpu_count : option Z;
  up_workers_min : option Z;
  up_workers_max : option Z;
  up_idle_timeout_seconds : option Z;
  up_scaling : option payload;
  up_data_center_ids : option (list string);
  up_network_volume_ids : option (list string);
  up_execution_timeout_ms : option Z;
  up_flashboot : option FlashBoot
}.

Definition opt_field {A} (key : string) (f : A -> json) (o : option A) : payload :=
  match o with Some a => [(key, f a)] | None => [] end.

(** [to_payload]. *)
Definition endpoint_update_payload (u : EndpointUpdateRequest) : result payload :=
  let! gpu :=
    match up_gpu_pools u, up_gpu_count u with
    | Some pools, count => Ok [("gpu", JObj (("pools", jstrs pools) :: opt_field "count" JInt count))]
    | None, Some _ => Exc ValueError
    | None, None => Ok []
    end in
  let workers := (opt_field "min" JInt (up_workers_min u) ++ opt_field "max" JInt (up_workers_max u) ++
                  opt_field "idleTimeout" JInt (up_idle_timeout_seconds u))%list in
  let body :=
    (opt_field "name" JStr (up_name u) ++ opt_field "image" JStr (up_image u) ++ gpu ++
     match workers with [] => [] | w => [("workers", JObj w)] end ++
     opt_field "scaling" JObj (up_scaling u) ++ opt_field "dataCenterIds" jstrs (up_data_center_ids u) ++
     opt_field "networkVolumes" jstrs (up_network_volume_ids u) ++
     opt_field "timeout" JInt (up_execution_timeout_ms u) ++
     opt_field "flashboot" (fun f => JStr (flashboot_value f)) (up_flashboot u))%list in
  run! require (match body with [] => false | _ => true end) ValueError then
  Ok body.

End RestModels.
