(* ===== verification/RestClient.v ===== *)
(** The REST clients ([clients.py]): one authenticated JSON request of [RunpodTransport],
    its retries and the classes of its failures, as programs of calls on the wire; one
    program per method of [RunpodControlPlaneClient] and [RunpodServerlessClient], and
    the complete walk of an inventory. *)
From Stdlib Require Import Ascii.
From S2P Require Import Prelude PyStr Enums Errors PyDecimal PyTime Json ContractsBase CodecBase ServerlessSpec OllamaProvider Prog RestModels Placement PodBilling ServerlessCatalog.

#[local] Open Scope Z_scope.
#[local] Open Scope prog_scope.

Import RestModels.RestModels.

(** ** The wire *)

(** [self._client.request(method, resource, params=..., json=...)]. *)
Record http_request : Set := {
  hq_method : string;
  hq_resource : string;
  hq_params : option payload;
  hq_body : option payload
}.

(** An answer: its status, headers, whether the body is empty, and what
    [response.json()] makes of it. *)
Record wire_response : Set := {
  wr_status : Z;
  wr_headers : list (string * string);
  wr_content : bool;
  wr_json : option json
}.

(** The pause before a retry: [_fallback_backoff(attempt)], or
    [_retry_delay(response.headers, attempt)], whose length is left to the host. *)
Inductive pause : Set :=
  | FallbackBackoff (attempt : Z)
  | RetryDelay (headers : list (string * string)) (attempt : Z).

(** [WNow] is [datetime.now(timezone.utc)]. *)
Inductive wire_call : Set :=
  | WSend (request : http_request)
  | WSleep (p : pause)
  | WNow.

Definition wire_answer (c : wire_call) : Set :=
  match c with
  | WSend _ => wire_response
  | WSleep _ => unit
  | WNow => instant
  end.

Abbreviation wprog := (@Prog.prog wire_call wire_answer).
Abbreviation wire_event := (@Prog.event wire_call wire_answer).

Definition wcall (c : wire_call) : wprog (wire_answer c) := perform c.

(** ** Failures *)

Definition SAFE_METHODS : list string := ["GET"; "HEAD"; "OPTIONS"].
Definition RETRYABLE_STATUSES : list Z := [429; 502; 503; 504].

(** [error_type(status_code=...)]. *)
Definition rest_error (ambiguous_on_failure : bool) (status : option Z) : exn :=
  if ambiguous_on_failure then RunPodAmbiguousResultError else RunPodAPIError status.

(** What an unexpected status is raised as: a mutating request answered with a success
    or a server error may have taken effect. *)
Definition status_error (ambiguous_on_failure : bool) (status : Z) : exn :=
  rest_error (ambiguous_on_failure && (((200 <=? status) && (status <? 300)) || (500 <=? status)))
    (Some status).

Definition is_http_error (e : exn) : bool := match e with HTTPError => true | _ => false end.

(** ** Requests *)

Section Transport.
Context (max_safe_retries : nat).

(** One request on the wire; [None] stands for a caught [httpx.HTTPError]. *)
Definition sent (q : http_request) : wprog (option wire_response) :=
  pcatch (let+ r := wcall (WSend q) in Done (Ok (Some r)))
    (fun e => if is_http_error e then Some (Done (Ok None)) else None).

(** The loop of [_request]: [left] retries are left after [attempt] of them. *)
Fixpoint request_loop (q : http_request) (expected_statuses : list Z) (ambiguous_on_failure : bool)
  (left : nat) (attempt : Z) : wprog wire_response :=
  let retry (worth : bool) (p : pause) (e : exn) : wprog wire_response :=
    match left with
    | S left' =>
        if worth && bool_decide (hq_method q ∈ SAFE_METHODS) then
          run+ wcall (WSleep p) then
          request_loop q expected_statuses ambiguous_on_failure left' (attempt + 1)
        else Done (Exc e)
    | O => Done (Exc e)
    end in
  let+ answer := sent q in
  match answer with
  | None => retry true (FallbackBackoff attempt) (rest_error ambiguous_on_failure None)
  | Some response =>
      if bool_decide (wr_status response ∈ expected_statuses) then Done (Ok response)
      else retry (bool_decide (wr_status response ∈ RETRYABLE_STATUSES))
             (RetryDelay (wr_headers response) attempt)
             (status_error ambiguous_on_failure (wr_status response))
  end.

(** [path.lstrip("/")]. *)
Definition resource_of (path : string) : string :=
  of_chars (drop_while (fun c => code c =? 47) (chars path)).

(** [_request]. *)
Definition request (method path : string) (params body : option payload) (expected_statuses : list Z)
  (ambiguous_on_failure : bool) : wprog wire_response :=
  request_loop {| hq_method := upper method; hq_resource := resource_of path; hq_params := params;
                  hq_body := body |} expected_statuses ambiguous_on_failure max_safe_retries 0.

(** What [request_json] makes of an accepted answer: [None] when it is empty. *)
Definition read_json (ambiguous_on_failure : bool) (response : wire_response) : result (option payload) :=
  if (wr_status response =? 204) || negb (wr_content response) then Ok None
  else
    match wr_json response with
    | Some (JObj fields) => Ok (Some fields)
    | _ => Exc (rest_error ambiguous_on_failure (Some (wr_status response)))
    end.

(** [request_json]. *)
Definition request_json (method path : string) (params body : option payload) (expected_statuses : list Z)
  (ambiguous_on_failure : bool) : wprog (option payload) :=
  let+ response := request method path params body expected_statuses ambiguous_on_failure in
  Done (read_json ambiguous_on_failure response).

End Transport.

(** ** Segments of a path *)

(** [urllib.parse.quote(value, safe="")]: unreserved characters stay, every other byte is
    written as a percent sign and two upper-case hexadecimal digits. *)
Definition unreserved (c : ascii) : bool :=
  is_alnum c || bool_decide (code c ∈ [95; 46; 45; 126]).

Definition upper_hex (d : Z) : ascii := upper_char (hex_char d).

Definition percent_byte (b : ascii) : list ascii :=
  ["%"%char; upper_hex (code b / 16); upper_hex (code b mod 16)].

Definition quote_chars (l : list ascii) : list ascii :=
  flat_map (fun c => if unreserved c then [c] else flat_map percent_byte (utf8_char c)) l.

(** [_segment]. *)
Definition segment (value : string) : result string :=
  if bool_decide (value = "") then Exc ValueError else Ok (of_chars (quote_chars (chars value))).

Import RestModels.RestModels.

(** A result computed without a call. *)
Definition pure {A} (r : result A) : wprog A := Done r.

(** ** Envelopes *)

(** [_required_payload]. *)
Definition required_payload (value : option payload) : result payload :=
  of_option value RunPodManagerError.

(** [_list_envelope]. *)
Definition list_envelope (value : payload) (key : string) : result (list payload) :=
  match get_field value key with
  | JList items => rmap payload_mapping items
  | _ => Exc RunPodManagerError
  end.

(** [_billing_params]. *)
Definition billing_params (start_time end_time bucket_size : option string) (last_n : option Z) : payload :=
  (opt_field "startTime" JStr start_time ++ opt_field "endTime" JStr end_time ++
   opt_field "bucketSize" JStr bucket_size ++ opt_field "lastN" JInt last_n)%list.

(** A query parameter or field that is left out when it is absent or empty. *)
Definition filter_param (key : string) (value : option string) : payload :=
  match value with Some s => if bool_decide (s = "") then [] else [(key, JStr s)] | None => [] end.

(** ** Pages of an inventory *)

(** The checks of one page: its items, and the cursor of the next page when it has one.
    A cursor is a text that is not blank and was not seen. *)
Record page := { pg_items : list payload; pg_next : option string }.

Definition read_page (value : payload) (key : string) (seen_cursors : list string) : result page :=
  let! items := list_envelope value key in
  let! pagination := payload_mapping (get_field value "pagination") in
  match get_field pagination "hasNextPage" with
  | JBool has_next =>
      run! require (bool_decide ("nextCursor" ∈ keys pagination)) RunPodManagerError then
      if has_next then
        match get_field pagination "nextCursor" with
        | JStr cursor =>
            run! require (negb (blank cursor) && negb (bool_decide (cursor ∈ seen_cursors)))
              RunPodManagerError then
            Ok {| pg_items := items; pg_next := Some cursor |}
        | _ => Exc RunPodManagerError
        end
      else
        match get_field pagination "nextCursor" with
        | JNull => Ok {| pg_items := items; pg_next := None |}
        | _ => Exc RunPodManagerError
        end
  | _ => Exc RunPodManagerError
  end.

(** [for item in items]: each identity is new, and the consumer reads the item before
    the next one is looked at. *)
Fixpoint read_items {A} (from_dict : payload -> result A) (seen_ids : list string) (items : list payload)
  : result (list A * list string) :=
  match items with
  | [] => Ok ([], seen_ids)
  | item :: rest =>
      match get_field item "id" with
      | JStr id =>
          run! require (negb (bool_decide (id = ""))) RunPodManagerError then
          run! require (negb (bool_decide (id ∈ seen_ids))) RunPodManagerError then
          let! a := from_dict item in
          let! '(l, seen) := read_items from_dict (id :: seen_ids) rest in
          Ok (a :: l, seen)
      | _ => Exc RunPodManagerError
      end
  end.

(** ** The control plane *)

Section Client.
Context (max_safe_retries max_inventory_pages : nat).

Definition json_call (method path : string) (params body : option payload) (expected_statuses : list Z)
  (ambiguous_on_failure : bool) : wprog (option payload) :=
  request_json max_safe_retries method path params body expected_statuses ambiguous_on_failure.

(** [_required_payload(self.transport.request_json("GET", path, params=params))]. *)
Definition get_json (path : string) (params : option payload) : wprog payload :=
  let+ value := json_call "GET" path params None [200] false in
  pure (required_payload value).

(** [self.transport.request_json("GET", f"{prefix}{_segment(id)}{suffix}")]. *)
Definition get_one (prefix id suffix : string) : wprog payload :=
  let+ s := pure (segment id) in get_json (prefix ++ s ++ suffix) None.

(** The loop of [_list_resources] as its caller consumes it: [left] pages may still be
    read, [cursor] is the cursor of the next one. *)
Fixpoint list_pages {A} (from_dict : payload -> result A) (path key : string) (query : payload)
  (left : nat) (cursor : option string) (seen_cursors seen_ids : list string) : wprog (list A) :=
  match left with
  | O => Done (Exc RunPodManagerError)
  | S left' =>
      let+ value := get_json path (Some (query ++ opt_field "cursor" JStr cursor)%list) in
      let+ p := pure (read_page value key seen_cursors) in
      let+ read := pure (read_items from_dict seen_ids (pg_items p)) in
      match pg_next p with
      | None => Done (Ok (fst read))
      | Some next =>
          let+ rest :=
            list_pages from_dict path key query left' (Some next) (next :: seen_cursors) (snd read) in
          Done (Ok (fst read ++ rest)%list)
      end
  end.

Definition list_resources {A} (from_dict : payload -> result A) (path key : string) (params : payload)
  : wprog (list A) :=
  list_pages from_dict path key params max_inventory_pages None [] [].

(** *** Catalog *)

(** [list_gpus]. *)
Definition gpu_params (product : ComputeProduct) (count : Z) (cloud : CloudType)
  (min_cuda_version : option string) : payload :=
  ([("include", JStr "AVAILABILITY"); ("product", JStr (product_value product));
    ("count", JInt count); ("cloud", JStr (cloud_value cloud))] ++
   filter_param "minCudaVersion" min_cuda_version)%list.

Definition list_gpus (include_availability : bool) (products : list ComputeProduct) (count : Z)
  (cloud : CloudType) (min_cuda_version : option string) : wprog (list GPUOffer) :=
  let+ params :=
    pure (if include_availability then
            match products with
            | [product] => Ok (gpu_params product count cloud min_cuda_version)
            | _ => Exc ValueError
            end
          else Ok []) in
  let+ value := get_json "/catalog/gpus" (Some params) in
  let+ items := pure (list_envelope value "gpus") in
  pure (rmap (fun item => offer_from_dict item (if include_availability then min_cuda_version else None)) items).

Definition get_gpu (gpu_id : string) : wprog GPUOffer :=
  let+ value := get_one "/catalog/gpus/" gpu_id "" in pure (offer_from_dict value None).

(** *** Pods *)

(** [create_pod]: an answer that cannot be read leaves the outcome unknown. *)
Definition created_pod (value : option payload) : result PodResource :=
  match (let! fields := required_payload value in pod_from_dict fields) with
  | Exc e => if is_manager_error e then Exc RunPodAmbiguousResultError else Exc e
  | r => r
  end.

Definition create_pod_body (body : result payload) : wprog PodResource :=
  let+ body := pure body in
  let+ value := json_call "POST" "/pods" None (Some body) [201] true in
  pure (created_pod value).

Definition create_pod (r : PodCreateRequest) : wprog PodResource :=
  create_pod_body (run! check_pod_create r then Ok (pod_create_payload r)).

Definition create_cpu_pod (r : CpuPodCreateRequest) : wprog PodResource :=
  create_pod_body (cpu_pod_create_payload r).

Definition get_pod (pod_id : string) : wprog PodResource :=
  let+ value := get_one "/pods/" pod_id "" in pure (pod_from_dict value).

Definition list_pods : wprog (list PodResource) :=
  list_resources pod_from_dict "/pods" "pods" [("includeClusterPods", JBool true)].

Definition list_network_volumes : wprog (list NetworkVolume) :=
  list_resources volume_from_dict "/network-volumes" "networkVolumes" [].

Definition pod_action (pod_id action : string) : wprog (option PodResource) :=
  run+ pure (require (bool_decide (action ∈ ["start"; "stop"; "restart"; "terminate"])) ValueError) then
  let+ s := pure (segment pod_id) in
  let+ value := json_call "POST" ("/pods/" ++ s ++ "/action") None (Some [("action", JStr action)])
                  [200; 204] true in
  pure (opt_result pod_from_dict value).

Definition delete_pod (pod_id : string) : wprog unit :=
  let+ s := pure (segment pod_id) in
  run+ json_call "DELETE" ("/pods/" ++ s) None None [204] false then Done (Ok tt).

(** *** Endpoints *)

Definition create_endpoint (r : EndpointCreateRequest) : wprog RoutedEndpoint :=
  run+ pure (require (bool_decide (er_resource_schema_version r = RESOURCE_GA)) RunPodManagerError) then
  let+ value := json_call "POST" "/serverless" None (Some (create_payload r)) [201] true in
  pure (let! fields := required_payload value in endpoint_from_dict fields).

Definition get_endpoint (endpoint_id : string) : wprog RoutedEndpoint :=
  let+ value := get_one "/serverless/" endpoint_id "" in pure (endpoint_from_dict value).

Definition list_endpoints : wprog (list RoutedEndpoint) :=
  list_resources endpoint_from_dict "/serverless" "endpoints" [].

Definition update_endpoint (endpoint_id : string) (changes : EndpointUpdateRequest) : wprog RoutedEndpoint :=
  let+ s := pure (segment endpoint_id) in
  let+ body := pure (endpoint_update_payload changes) in
  let+ value := json_call "PATCH" ("/serverless/" ++ s) None (Some body) [200] false in
  pure (let! fields := required_payload value in endpoint_from_dict fields).

Definition delete_endpoint (endpoint_id : string) : wprog unit :=
  let+ s := pure (segment endpoint_id) in
  run+ json_call "DELETE" ("/serverless/" ++ s) None None [204] true then Done (Ok tt).

Definition list_endpoint_workers (endpoint_id : string) : wprog payload :=
  let+ value := get_one "/serverless/" endpoint_id "/workers" in
  run+ pure (list_envelope value "workers") then
  run+ pure (payload_mapping (get_field value "summary")) then
  Done (Ok value).

(** *** Billing *)

Definition billing_page (path : string) (params : payload) : wprog PodBilling.BillingPage :=
  let+ value := get_json path (Some params) in pure (PodBilling.page_from_dict value).

Definition pod_billing (start_time end_time bucket_size : option string) (last_n : option Z)
  (pod_id : option string) : wprog PodBilling.BillingPage :=
  billing_page "/billing/pods"
    (billing_params start_time end_time bucket_size last_n ++ filter_param "podId" pod_id)%list.

Definition serverless_billing (start_time end_time bucket_size : option string) (last_n : option Z)
  (endpoint_id : option string) : wprog PodBilling.BillingPage :=
  billing_page "/billing/serverless"
    (billing_params start_time end_time bucket_size last_n ++ filter_param "serverlessId" endpoint_id)%list.

(** ** Queue jobs *)

(** [run]: the body carries the input, and a policy only when one is given. *)
Definition run_body (input_data : payload) (webhook_url : option string)
  (execution_timeout_ms ttl_ms : option Z) : payload :=
  let policy := (opt_field "executionTimeout" JInt execution_timeout_ms ++ opt_field "ttl" JInt ttl_ms)%list in
  ([("input", JObj input_data)] ++ filter_param "webhook" webhook_url ++
   match policy with [] => [] | p => [("policy", JObj p)] end)%list.

Definition read_job (value : option payload) : result ServerlessJob :=
  let! fields := required_payload value in job_from_dict fields.

Definition run_job (endpoint_id : string) (input_data : payload) (webhook_url : option string)
  (execution_timeout_ms ttl_ms : option Z) : wprog ServerlessJob :=
  let+ s := pure (segment endpoint_id) in
  let+ value := json_call "POST" ("/" ++ s ++ "/run") None
                  (Some (run_body input_data webhook_url execution_timeout_ms ttl_ms)) [200] true in
  pure (read_job value).

Definition job_status (endpoint_id job_id : string) (ttl_ms : option Z) : wprog ServerlessJob :=
  let+ e := pure (segment endpoint_id) in
  let+ j := pure (segment job_id) in
  let+ value := get_json ("/" ++ e ++ "/status/" ++ j)
                  (match ttl_ms with Some t => Some [("ttl", JInt t)] | None => None end) in
  pure (job_from_dict value).

(** [cancel] and [retry]. *)
Definition job_command (endpoint_id command job_id : string) : wprog ServerlessJob :=
  let+ e := pure (segment endpoint_id) in
  let+ j := pure (segment job_id) in
  let+ value := json_call "POST" ("/" ++ e ++ "/" ++ command ++ "/" ++ j) None None [200] false in
  pure (read_job value).

Definition cancel_job (endpoint_id job_id : string) : wprog ServerlessJob := job_command endpoint_id "cancel" job_id.
Definition retry_job (endpoint_id job_id : string) : wprog ServerlessJob := job_command endpoint_id "retry" job_id.

Definition health (endpoint_id : string) : wprog payload := get_one "/" endpoint_id "/health".

End Client.
