(* ===== verification/DirectProvider.v ===== *)
(** [DirectRunPodProvider] ([providers.py]): Pods started, read, stopped and terminated
    through the control-plane client, the same provider as the Pod lane sees it, and the
    client as the Ollama provider sees it. *)
From S2P Require Import Prelude PyStr Enums Errors PyDecimal PyTime Json ContractsBase CodecBase Placement PodBilling World ServerlessSpec ServerlessCatalog Provider OllamaRuntime OllamaProvider Prog RestModels RestClient.

#[local] Open Scope Z_scope.
#[local] Open Scope prog_scope.

Import RestModels.RestModels Placement.Placement.

(** ** Starting a Pod *)

(** The entries of [metadata] that [start_pod] reads. *)
Record start_options := {
  so_name : option string;
  so_env_overrides : str_dict;
  so_cloud_type : option string;
  so_docker_args : option string
}.

(** [d[key] = value], and [{**a, **b}]: a key keeps the place of its first entry. *)
Fixpoint dict_set (d : str_dict) (key value : string) : str_dict :=
  match d with
  | [] => [(key, value)]
  | (k, v) :: r => if bool_decide (k = key) then (key, value) :: r else (k, v) :: dict_set r key value
  end.

Definition dict_merge (a b : str_dict) : str_dict :=
  fold_left (fun d kv => dict_set d (fst kv) (snd kv)) b a.

(** The requirements of a profile in a cloud. *)
Definition profile_requirements (profile : GPUProfile) (cloud : CloudType) : PlacementRequirements := {|
  pr_product := POD;
  pr_min_vram_gb := gp_min_vram_gb profile;
  pr_gpu_count := gp_gpu_count profile;
  pr_cloud := cloud;
  pr_min_cuda_version := gp_min_cuda_version profile;
  pr_max_cost_per_hr := gp_max_cost_per_hr profile;
  pr_allowed_gpu_ids := gp_allowed_gpu_ids profile;
  pr_allowed_gpu_pools := [];
  pr_allowed_data_center_ids := gp_allowed_data_center_ids profile;
  pr_minimum_availability := AVAIL_LOW;
  pr_benchmark_id := Some (gp_task_type profile)
|}.

(** The storage of a profile: its network volume, or its own volume. *)
Definition nonempty_or (o : option string) (fallback : string) : string :=
  match o with Some s => if bool_decide (s = EmptyString) then fallback else s | None => fallback end.

Definition profile_mounts (profile : GPUProfile) : option payload :=
  if truthy (gp_network_volume_id profile) then
    Some [("network", JList [JObj [("volumeId", JStr (default EmptyString (gp_network_volume_id profile)));
                                   ("path", JStr (nonempty_or (gp_volume_mount_path profile) "/runpod-volume"))]])]
  else if gp_volume_gb profile =? 0 then None
  else Some [("persistent", JObj [("size", JInt (gp_volume_gb profile));
                                  ("path", JStr (nonempty_or (gp_volume_mount_path profile) "/workspace"))])].

(** The request for the selected offer. *)
Definition start_request (profile : GPUProfile) (options : start_options) (env : str_dict)
  (placement : PlacementDecision) : PodCreateRequest := {|
  pq_name := default ("kestrel-" ++ gp_id profile)%string (so_name options);
  pq_image := gp_image_name profile;
  pq_cloud := pd_cloud placement;
  pq_disk_gb := gp_container_disk_gb profile;
  pq_ports := gp_ports profile;
  pq_env := env;
  pq_args := so_docker_args options;
  pq_registry_id := gp_registry_id profile;
  pq_data_center_ids := gp_allowed_data_center_ids profile;
  pq_mounts := profile_mounts profile;
  pq_global_networking := false;
  pq_gpu_id := pd_gpu_id placement;
  pq_gpu_count := pd_gpu_count placement;
  pq_min_cuda_version := gp_min_cuda_version profile
|}.

Section Direct.
Context (max_safe_retries max_inventory_pages : nat) (environ : string -> option string).

(** The offer a profile is placed on; the wall clock stamps the decision. *)
Definition placed_profile (profile : GPUProfile) (options : start_options) : wprog PlacementDecision :=
  let+ cloud :=
    pure (match so_cloud_type options with
          | Some text => of_option (CloudType_from_config text) RunPodManagerError
          | None => Ok (gp_cloud profile)
          end) in
  let requirements := profile_requirements profile cloud in
  run+ pure (check_requirements requirements) then
  let+ offers := list_gpus max_safe_retries true [POD] (pr_gpu_count requirements) cloud
                   (pr_min_cuda_version requirements) in
  let+ observed_at := wcall WNow in
  pure (select_gpu offers requirements observed_at).

(** [start_pod]: the created Pod's payload and its placement. *)
Definition start_pod (profile : GPUProfile) (options : start_options)
  : wprog (payload * PlacementDecision) :=
  let+ env := pure (resolve_env_vars environ (dict_merge (gp_env profile) (so_env_overrides options))) in
  let+ placement := placed_profile profile options in
  let+ pod := create_pod max_safe_retries (start_request profile options env placement) in
  Done (Ok (px_raw pod, placement)).

(** ** Reading, stopping and terminating *)

Definition get_status (pod_id : string) : wprog payload :=
  let+ pod := get_pod max_safe_retries pod_id in Done (Ok (px_raw pod)).

(** The Pod's payload, or its identifier with the state the action leads to. *)
Definition action_status (pod_id action status : string) : wprog payload :=
  let+ pod := pod_action max_safe_retries pod_id action in
  Done (Ok (match pod with
            | Some p => px_raw p
            | None => [("id", JStr pod_id); ("status", JStr status)]
            end)).

Definition stop_pod (pod_id : string) : wprog payload := action_status pod_id "stop" "EXITED".
Definition resume_pod (pod_id : string) : wprog payload := action_status pod_id "start" "STARTING".
Definition terminate_pod (pod_id : string) : wprog payload := action_status pod_id "terminate" "TERMINATED".

Definition list_raw_pods : wprog (list payload) :=
  let+ pods := list_pods max_safe_retries max_inventory_pages in Done (Ok (map px_raw pods)).

(** [exec_command]. *)
Definition exec_command (pod_id command : string) : wprog string := Done (Exc RunPodManagerError).

(** ** The provider the Pod lane calls *)

(** One effect of the Pod provider runs one method against the wire. *)
Definition answered_by {A} (plane : oracle wire_answer) (p : wprog A) : result A := fst (run plane 0 p).

Definition options_of (m : Provider.start_metadata) : start_options := {|
  so_name := Some (Provider.sm_name m);
  so_env_overrides := default [] (Provider.sm_env_overrides m);
  so_cloud_type := None;
  so_docker_args := None
|}.

Definition direct_provider (plane : oracle wire_answer) : Provider.DirectProvider := {|
  Provider.dp_list_gpus count cloud floor :=
    answered_by plane (list_gpus max_safe_retries true [POD] count cloud floor);
  Provider.dp_get_status pod_id := answered_by plane (get_status pod_id);
  Provider.dp_resume_pod pod_id _ := let! _ := answered_by plane (resume_pod pod_id) in Ok tt;
  Provider.dp_start_pod profile m :=
    let! r := answered_by plane (start_pod profile (options_of m)) in
    Ok (fst r, Provider.PlacementGiven (snd r));
  Provider.dp_list_pods := answered_by plane list_raw_pods;
  Provider.dp_stop_pod pod_id := answered_by plane (stop_pod pod_id);
  Provider.dp_terminate_pod pod_id := answered_by plane (terminate_pod pod_id);
  Provider.dp_pod_billing start_time end_time bucket_size pod_id :=
    answered_by plane
      (pod_billing max_safe_retries (Some start_time) (Some end_time) (Some bucket_size) None (Some pod_id))
|}.

(** ** The plane the Ollama provider calls *)

(** The control-plane client answers the provider's calls, the [n]-th one over its own
    wire; clocks and the routes of a workload answer as the host does. *)
Definition client_plane (wires : nat -> oracle wire_answer) (rest : oracle capacity_answer)
  : oracle capacity_answer := fun n c =>
  match c as c return result (capacity_answer c) with
  | CListGpus product count cloud floor =>
      answered_by (wires n) (list_gpus max_safe_retries true [product] count cloud floor)
  | CCreateEndpoint request =>
      let! e := answered_by (wires n) (create_endpoint max_safe_retries request) in Ok (rt_endpoint e)
  | CCreatePod request => answered_by (wires n) (create_pod max_safe_retries request)
  | CListEndpoints =>
      let! l := answered_by (wires n) (list_endpoints max_safe_retries max_inventory_pages) in
      Ok (map rt_endpoint l)
  | CListPods => answered_by (wires n) (list_pods max_safe_retries max_inventory_pages)
  | CGetEndpoint id => answered_by (wires n) (get_endpoint max_safe_retries id)
  | CGetPod id => answered_by (wires n) (get_pod max_safe_retries id)
  | CDeleteEndpoint id => answered_by (wires n) (delete_endpoint max_safe_retries id)
  | CPodAction id action =>
      let! _ := answered_by (wires n) (pod_action max_safe_retries id action) in Ok tt
  | c => rest n c
  end.

End Direct.
