(* ===== verification/RestSafety.v ===== *)
(** What one exchange on the wire is: how often a request is sent, and what its outcome
    says about the last answer; the same for the methods of the clients. *)
From S2P Require Import Prelude PyStr Enums Errors PyDecimal PyFloat PyTime Json ContractsBase CodecBase Placement PodBilling ServerlessSpec ServerlessCatalog OllamaProvider Prog RestModels RestClient.

#[local] Open Scope Z_scope.

Import RestModels.RestModels.

(** ** Exchanges *)

Definition send_of (ev : wire_event) : option (http_request * result wire_response) :=
  match ev with
  | @Event _ _ (WSend q) a => Some (q, a)
  | _ => None
  end.

(** The requests sent, with their answers. *)
Definition sends (tr : list wire_event) : list (http_request * result wire_response) := omap send_of tr.

(** An answer after which a safe request is sent again. *)
Definition transient (a : result wire_response) : Prop :=
  match a with
  | Ok r => wr_status r ∈ RETRYABLE_STATUSES
  | Exc e => is_http_error e = true
  end.

(** What the last answer is raised or returned as. *)
Definition verdict (expected_statuses : list Z) (ambiguous : bool) (a : result wire_response)
  : result wire_response :=
  match a with
  | Ok r =>
      if bool_decide (wr_status r ∈ expected_statuses) then Ok r
      else Exc (status_error ambiguous (wr_status r))
  | Exc e => Exc (if is_http_error e then rest_error ambiguous None else e)
  end.

(** One request: sent at least once and at most [S left] times, once only unless its
    method is safe, each time but the last answered by a transient failure; the outcome
    is the last answer's, or the host interrupted the pause after it. *)
Record exchanged (q : http_request) (expected_statuses : list Z) (ambiguous : bool) (left : nat)
  (tr : list wire_event) (r : result wire_response) : Prop := {
  ex_count : (length (sends tr) <= S left)%nat;
  ex_same : Forall (fun s => fst s = q) (sends tr);
  ex_once : hq_method q ∉ SAFE_METHODS -> length (sends tr) = 1%nat;
  ex_outcome : exists earlier last,
    map snd (sends tr) = (earlier ++ [last])%list /\ Forall transient earlier /\
    (r = verdict expected_statuses ambiguous last \/
     exists e p, r = Exc e /\ hq_method q ∈ SAFE_METHODS /\ transient last /\
       In (@Event _ wire_answer (WSleep p) (Exc e)) tr)
}.

Lemma exchanged_once q expected ambiguous left a r :
  r = verdict expected ambiguous a ->
  exchanged q expected ambiguous left [@Event _ wire_answer (WSend q) a] r.
Proof.
  intros ->. split; cbn; [lia|by repeat constructor|done|]. exists [], a. split_and!; [done|constructor|by left].
Qed.

Lemma exchanged_slept q expected ambiguous left a p e :
  hq_method q ∈ SAFE_METHODS -> transient a ->
  exchanged q expected ambiguous left
    [@Event _ wire_answer (WSend q) a; @Event _ wire_answer (WSleep p) (Exc e)] (Exc e).
Proof.
  intros Hs Ht. split; cbn; [lia|by repeat constructor|done|].
  exists [], a. split_and!; [done|constructor|]. right. exists e, p. split_and!; [done..|]. auto.
Qed.

Lemma exchanged_again q expected ambiguous left a p tr r :
  hq_method q ∈ SAFE_METHODS -> transient a -> exchanged q expected ambiguous left tr r ->
  exchanged q expected ambiguous (S left)
    (@Event _ wire_answer (WSend q) a :: @Event _ wire_answer (WSleep p) (Ok tt) :: tr) r.
Proof.
  intros Hs Ht [Hc Hq Ho (earlier & last & Hm & He & Hr)]. unfold sends in *. split; cbn.
  - lia.
  - by constructor.
  - done.
  - exists (a :: earlier), last. split_and!; [by rewrite Hm|by constructor|].
    destruct Hr as [Hr|(e & p' & He' & Hs' & Ht' & Hin)]; [by left|]. right. exists e, p'. split_and!; [done..|]. cbn. auto.
Qed.

(** The loop of [_request] is such an exchange. *)
Theorem request_loop_exchanged q expected ambiguous left attempt h n r tr :
  run h n (request_loop q expected ambiguous left attempt) = (r, tr) ->
  exchanged q expected ambiguous left tr r.
Proof.
  revert attempt n r tr. induction left as [|left IH]; intros attempt n r tr; cbn [request_loop].
  - cbn. destruct (h n (WSend q)) as [resp|err] eqn:E; cbn.
    + destruct (bool_decide (wr_status resp ∈ expected)) eqn:Hexp; cbn; intros [= <- <-];
        apply exchanged_once; cbn; by rewrite Hexp.
    + destruct err; cbn; intros [= <- <-]; by apply exchanged_once.
  - assert (Hagain : forall a p n' r' tr',
      (if bool_decide (hq_method q ∈ SAFE_METHODS) then True else False) -> transient a ->
      run h n' (pbind (wcall (WSleep p))
                  (fun _ => request_loop q expected ambiguous left (attempt + 1))) = (r', tr') ->
      exchanged q expected ambiguous (S left) (@Event _ wire_answer (WSend q) a :: tr') r').
    { intros a p n' r' tr' Hs Ht. cbn. destruct (bool_decide_reflect (hq_method q ∈ SAFE_METHODS)) as [Hsafe|]; [|done].
      destruct (h n' (WSleep p)) as [[]|e]; cbn.
      - destruct (run h (S n') (request_loop q expected ambiguous left (attempt + 1))) as [r1 tr1] eqn:E1.
        intros [= <- <-]. apply exchanged_again; [done..|]. by eapply IH.
      - intros [= <- <-]. by apply exchanged_slept. }
    cbn [pbind sent wcall perform pcatch run].
    destruct (h n (WSend q)) as [resp|err] eqn:E; cbn [pbind pcatch run].
    + destruct (bool_decide (wr_status resp ∈ expected)) eqn:Hexp.
      { cbn. intros [= <- <-]. apply exchanged_once. cbn. by rewrite Hexp. }
      destruct (bool_decide (wr_status resp ∈ RETRYABLE_STATUSES)) eqn:Hretry; cbn [andb];
        [destruct (bool_decide (hq_method q ∈ SAFE_METHODS)) eqn:Hsafe|].
      * destruct (run h (S n) _) as [r1 tr1] eqn:E1. intros [= <- <-].
        eapply Hagain; [done| |exact E1]. cbn. by apply bool_decide_eq_true in Hretry.
      * cbn. intros [= <- <-]. apply exchanged_once. cbn. by rewrite Hexp.
      * cbn. intros [= <- <-]. apply exchanged_once. cbn. by rewrite Hexp.
    + destruct (is_http_error err) eqn:Hh; cbn [pbind run].
      * cbn [andb]. destruct (bool_decide (hq_method q ∈ SAFE_METHODS)) eqn:Hsafe.
        -- destruct (run h (S n) _) as [r1 tr1] eqn:E1. intros [= <- <-].
           eapply Hagain; [done|exact Hh|exact E1].
        -- cbn. intros [= <- <-]. apply exchanged_once. cbn. by rewrite Hh.
      * cbn. intros [= <- <-]. apply exchanged_once. cbn. by rewrite Hh.
Qed.

(** ** Methods that make one exchange *)

Lemma run_pure {A B} (m : wprog A) (f : A -> result B) h n r tr :
  run h n (pbind m (fun a => pure (f a))) = (r, tr) ->
  exists r0, run h n m = (r0, tr) /\ r = rbind r0 f.
Proof.
  rewrite run_bind. destruct (run h n m) as [[a|e] tr0]; cbn [pure run].
  - rewrite app_nil_r. intros [= <- <-]. by exists (Ok a).
  - intros [= <- <-]. by exists (Exc e).
Qed.

Lemma run_pure_first {A B} (m : result A) (f : A -> wprog B) h n r tr :
  run h n (pbind (pure m) f) = (r, tr) ->
  (exists e, m = Exc e /\ r = Exc e /\ tr = []) \/ (exists a, m = Ok a /\ run h n (f a) = (r, tr)).
Proof. destruct m as [a|e]; cbn; intros H; [right; by exists a|left; exists e; by simplify_eq]. Qed.

Section Methods.
Context (max_safe_retries : nat).

(** The request that a method sends. *)
Definition sent_request (method path : string) (params body : option payload) : http_request :=
  {| hq_method := upper method; hq_resource := resource_of path; hq_params := params; hq_body := body |}.

Lemma json_call_exchanged method path params body expected ambiguous h n r tr :
  run h n (json_call max_safe_retries method path params body expected ambiguous) = (r, tr) ->
  exists r0, exchanged (sent_request method path params body) expected ambiguous max_safe_retries tr r0 /\
    r = rbind r0 (read_json ambiguous).
Proof.
  intros Hr. apply run_pure in Hr as (r0 & Hr & ->). apply request_loop_exchanged in Hr. by exists r0.
Qed.

(** A mutating request is sent once; its outcome is that of its only answer. *)
Lemma mutation_exchanged method path body expected ambiguous h n r tr :
  upper method ∉ SAFE_METHODS ->
  run h n (json_call max_safe_retries method path None body expected ambiguous) = (r, tr) ->
  exists a, sends tr = [(sent_request method path None body, a)] /\
    r = rbind (verdict expected ambiguous a) (read_json ambiguous).
Proof.
  intros Hm Hr. apply json_call_exchanged in Hr as (r0 & [Hc Hq Ho (earlier & last & Hs & He & Hout)] & ->).
  specialize (Ho Hm). destruct (sends tr) as [|[q a] [|? ?]]; try done.
  apply Forall_inv in Hq. cbn in Hq, Hs. subst q.
  destruct earlier as [|? [|? ?]]; try done. injection Hs as ->. exists last. split; [done|].
  destruct Hout as [->|(e & p & -> & Hsafe & _)]; [done|]. by exfalso.
Qed.

End Methods.

(** ** Errors of the readers *)

(** A computation that raises manager errors only. *)
Definition guarded {A} (m : result A) : Prop := forall e, m = Exc e -> e = RunPodManagerError.

Lemma guarded_bind {A B} (m : result A) (f : A -> result B) :
  guarded m -> (forall a, guarded (f a)) -> guarded (rbind m f).
Proof. destruct m as [a|e]; cbn; [by intros _ Hf; apply Hf|]. intros Hm _ e' [= <-]. by apply Hm. Qed.

Lemma guarded_ok {A} (a : A) : guarded (Ok a).
Proof. done. Qed.

Lemma guarded_require b : guarded (require b RunPodManagerError).
Proof. destruct b; cbn; intros e; congruence. Qed.

Lemma guarded_string v : guarded (payload_string v).
Proof. destruct v; cbn; try case_bool_decide; intros e; congruence. Qed.

Lemma guarded_mapping v : guarded (payload_mapping v).
Proof. destruct v; cbn; intros e; congruence. Qed.

Lemma guarded_mapping_or_empty v : guarded (mapping_or_empty v).
Proof. unfold mapping_or_empty. destruct (Provider.Provider.truthy_json v); [apply guarded_mapping|apply guarded_ok]. Qed.

Lemma guarded_optional_string v : guarded (model_optional_string v).
Proof. destruct v; cbn; intros e; congruence. Qed.

Lemma guarded_optional_integer v : guarded (model_optional_integer v).
Proof. destruct v; cbn; intros e; congruence. Qed.

Lemma guarded_cost v : guarded (pod_cost v).
Proof.
  unfold pod_cost. apply guarded_bind; [|intros ?; apply guarded_bind; [apply guarded_require|done]].
  destruct v; cbn; try (intros e; congruence).
  unfold float_of_int. destruct (float_of_decimal (of_int z)); cbn; intros ?; congruence.
Qed.

Create HintDb guards.
#[export] Hint Resolve guarded_ok guarded_require guarded_string guarded_mapping guarded_mapping_or_empty
  guarded_optional_string guarded_optional_integer guarded_cost : guards.

Lemma guarded_pod v : guarded (pod_from_dict v).
Proof. unfold pod_from_dict. repeat (apply guarded_bind; [eauto with guards|intros ?]). auto with guards. Qed.

(** ** Creating a Pod *)

(** An answer by which the provider did not take the request: neither a success, nor a
    server error, nor a lost connection. *)
Definition refused (a : result wire_response) : Prop :=
  match a with
  | Ok r => (200 <=? wr_status r) && (wr_status r <? 300) = false /\ wr_status r < 500
  | Exc e => is_http_error e = false
  end.

(** An unexpected answer to a mutating request is refused or its outcome is ambiguous. *)
Lemma verdict_ambiguous expected a e :
  verdict expected true a = Exc e -> is_ambiguous_error e = false ->
  refused a \/ exists r, a = Ok r /\ wr_status r ∈ expected.
Proof.
  destruct a as [r|e0]; cbn.
  - case_bool_decide as Hexp; [intros _ _; right; eauto|]. unfold status_error, rest_error. cbn [andb].
    destruct ((200 <=? wr_status r) && (wr_status r <? 300)) eqn:E1; cbn [orb].
    { by intros [= <-]. }
    destruct (Z.leb_spec 500 (wr_status r)); [by intros [= <-]|]. intros _ _. left. split; [done|lia].
  - destruct (is_http_error e0) eqn:E; [by intros [= <-]|]. by left.
Qed.

(** The answer of a creation: 201 with a body that reads as a Pod, or an ambiguous
    outcome. *)
Lemma read_created r e :
  wr_status r ∈ [201] ->
  rbind (read_json true r) created_pod = Exc e -> is_ambiguous_error e = true.
Proof.
  intros Hs. unfold read_json. case_match; cbn; [by intros [= <-]|].
  destruct (wr_json r) as [[| | | | | |fields]|]; cbn; try (by intros [= <-]).
  unfold created_pod. cbn. destruct (pod_from_dict fields) as [p|e'] eqn:E; [done|].
  apply guarded_pod in E as ->. cbn. by intros [= <-].
Qed.

(** A Pod creation sends one request at most. A Pod is answered from its 201; when the
    failure raised is not ambiguous, the provider took no request. *)
Lemma create_pod_outcome max_safe_retries body h n res tr :
  run h n (create_pod_body max_safe_retries body) = (res, tr) ->
  (length (sends tr) <= 1)%nat /\
  match res with
  | Ok pod => exists b r fields,
      body = Ok b /\ sends tr = [(sent_request "POST" "/pods" None (Some b), Ok r)] /\ wr_status r = 201 /\
      wr_json r = Some (JObj fields) /\ pod_from_dict fields = Ok pod
  | Exc e => is_ambiguous_error e = false -> Forall (fun s => refused (snd s)) (sends tr)
  end.
Proof.
  intros Hr. apply run_pure_first in Hr as [(e & Hb & -> & ->)|(b & Hb & Hr)].
  { split; [cbn; lia|by constructor]. }
  apply run_pure in Hr as (r0 & Hr & ->). apply mutation_exchanged in Hr as (a & Hs & ->); [|by vm_compute; set_solver].
  rewrite Hs. split; [cbn; lia|].
  destruct (verdict [201] true a) as [r|e] eqn:Hv; cbn [rbind].
  - destruct a as [r'|e']; cbn in Hv; [|done]. case_bool_decide as Hst; [|done]. injection Hv as ->.
    destruct (rbind (read_json true r) created_pod) as [pod|e] eqn:Hc.
    + exists b, r. unfold read_json in Hc. case_match; [done|].
      destruct (wr_json r) as [[| | | | | |fields]|]; cbn in Hc; try done. exists fields.
      split_and!; [done..| |done|].
      * set_solver.
      * unfold created_pod in Hc. cbn in Hc. destruct (pod_from_dict fields) as [p|e] eqn:E; [congruence|].
        by destruct (is_manager_error e).
    + intros Ha. apply read_created in Hc; [congruence|done].
  - intros Ha. destruct (verdict_ambiguous _ _ _ Hv Ha) as [Href|(r & -> & Hst)].
    + by constructor.
    + cbn in Hv. by rewrite bool_decide_true_eq in Hv.
Qed.

(** ** Reading an inventory *)

(** A read answered by a 200 with a JSON object, after transient failures only. *)
Definition got (q : http_request) (tr : list wire_event) (value : payload) : Prop :=
  exists earlier r, sends tr = map (pair q) (earlier ++ [Ok r])%list /\ Forall transient earlier /\
    wr_status r = 200 /\ wr_json r = Some (JObj value).

Lemma sends_same q tr answers :
  Forall (fun s => fst s = q) (sends tr) -> map snd (sends tr) = answers -> sends tr = map (pair q) answers.
Proof.
  intros Hq <-. induction Hq as [|[q' a] l Hq' _ IH]; [done|]. cbn in *. subst q'. by rewrite <- IH.
Qed.

Lemma get_json_got max_safe_retries path params h n value tr :
  run h n (get_json max_safe_retries path params) = (Ok value, tr) ->
  (length (sends tr) <= S max_safe_retries)%nat /\ got (sent_request "GET" path params None) tr value.
Proof.
  intros Hr. apply run_pure in Hr as (r0 & Hr & Hv).
  apply json_call_exchanged in Hr as (r1 & [Hc Hq _ (earlier & last & Hs & He & Hout)] & ->). split; [done|].
  symmetry in Hv. apply rbind_ok in Hv as (o & Hv & Ho). apply rbind_ok in Hv as (r & -> & Hread).
  apply of_option_ok in Ho as ->. destruct Hout as [Hv|(e & p & He' & _)]; [|done].
  destruct last as [r'|e']; cbn in Hv; [|done]. case_bool_decide as Hst; [|done]. injection Hv as ->.
  exists earlier, r'. split_and!; [by apply sends_same|done|set_solver|].
  unfold read_json in Hread. case_match; [done|].
  destruct (wr_json r') as [[| | | | | |fields]|]; cbn in Hread; try done. congruence.
Qed.

(** A page as it was read: under which cursor, what was answered, and its reading. *)
Record fetched := { fe_cursor : option string; fe_value : payload; fe_page : page }.

(** What [read_page] accepts: the items are mappings, and the pagination says whether a
    page follows and under which cursor. *)
Definition page_says (key : string) (value : payload) (p : page) : Prop :=
  get_field value key = JList (map JObj (pg_items p)) /\
  exists pagination, get_field value "pagination" = JObj pagination /\
    get_field pagination "hasNextPage" = JBool (is_some (pg_next p)) /\
    get_field pagination "nextCursor" = opt_json JStr (pg_next p).

Lemma envelope_items value key items :
  list_envelope value key = Ok items -> get_field value key = JList (map JObj items).
Proof.
  unfold list_envelope. destruct (get_field value key) as [| | | | |l|]; try done. intros H. f_equal.
  apply rmap_Forall2 in H. induction H as [|v fields l items Hv _ IH]; [done|].
  destruct v; cbn in Hv; try done. injection Hv as <-. cbn. by rewrite IH.
Qed.

Lemma read_page_says value key seen p :
  read_page value key seen = Ok p ->
  page_says key value p /\ match pg_next p with Some c => c ∉ seen | None => True end.
Proof.
  unfold read_page. intros H. apply rbind_ok in H as (items & Hi & H). apply rbind_ok in H as (pagination & Hp & H).
  destruct (get_field value "pagination") as [| | | | | |pg] eqn:Hpg; try done. injection Hp as ->.
  destruct (get_field pagination "hasNextPage") as [|has_next| | | | |] eqn:Hn; try done.
  apply rbind_ok in H as (? & _ & H). apply envelope_items in Hi.
  destruct has_next, (get_field pagination "nextCursor") as [| | | |c| |] eqn:Hc; try done.
  - apply rbind_ok in H as (? & Hreq & H). apply require_ok in Hreq. apply andb_true_iff in Hreq as [_ Hnew].
    apply negb_true_iff, bool_decide_eq_false in Hnew. injection H as <-. cbn. split; [|done].
    split; [done|]. by exists pagination.
  - injection H as <-. cbn. split; [|done]. split; [done|]. by exists pagination.
Qed.

Definition identity (item : payload) : json := get_field item "id".

(** The items are read in order; their identities are new texts. *)
Lemma read_items_spec {A} (from_dict : payload -> result A) seen items l seen' :
  read_items from_dict seen items = Ok (l, seen') ->
  exists ids, map identity items = map JStr ids /\ rmap from_dict items = Ok l /\
    seen' = (rev ids ++ seen)%list /\ NoDup ids /\ (forall id, id ∈ ids -> id ∉ seen).
Proof.
  revert seen l seen'. induction items as [|item items IH]; intros seen l seen'; cbn [read_items].
  { intros [= <- <-]. exists []. split_and!; [done..|constructor|set_solver]. }
  destruct (get_field item "id") as [| | | |id| |] eqn:Hid; try done. intros H.
  apply rbind_ok in H as (? & _ & H). apply rbind_ok in H as (? & Hnew & H).
  apply require_ok, negb_true_iff, bool_decide_eq_false in Hnew.
  apply rbind_ok in H as (a & Ha & H). apply rbind_ok in H as ([l1 seen1] & Hr & H).
  injection H as <- <-. destruct (IH _ _ _ Hr) as (ids & Hids & Hl & -> & Hnd & Hout).
  exists (id :: ids). cbn [map]. rewrite Hids. unfold identity at 1. rewrite Hid. split_and!; [done| | | |].
  - cbn [rmap]. by rewrite Ha, Hl.
  - cbn [rev]. by rewrite <- app_assoc.
  - constructor; [|done]. intros Hin. apply Hout in Hin. set_solver.
  - intros y Hx. apply elem_of_cons in Hx as [->|Hx]; [done|]. apply Hout in Hx. set_solver.
Qed.

(** The pages follow each other: each is asked for under the cursor of the one before,
    and the last one says that none follows. *)
Fixpoint chained (cursor : option string) (pages : list fetched) : Prop :=
  match pages with
  | [] => False
  | p :: rest =>
      fe_cursor p = cursor /\
      match pg_next (fe_page p) with
      | None => rest = []
      | Some next => chained (Some next) rest
      end
  end.

Definition page_items (pages : list fetched) : list payload := concat (map (fun p => pg_items (fe_page p)) pages).

Definition page_cursors (pages : list fetched) : list string := omap (fun p => pg_next (fe_page p)) pages.

(** One page and the calls it was read by. *)
Definition page_read (max_safe_retries : nat) (path key : string) (query : payload) (p : fetched)
  (segment : list wire_event) : Prop :=
  (length (sends segment) <= S max_safe_retries)%nat /\
  got (sent_request "GET" path (Some (query ++ opt_field "cursor" JStr (fe_cursor p))%list) None)
    segment (fe_value p) /\
  page_says key (fe_value p) (fe_page p).

Lemma rmap_app {A B} (f : A -> result B) l1 l2 r1 r2 :
  rmap f l1 = Ok r1 -> rmap f l2 = Ok r2 -> rmap f (l1 ++ l2) = Ok (r1 ++ r2)%list.
Proof. rewrite !rmap_Forall2. apply Forall2_app. Qed.

Lemma not_seen (x : string) l k : x ∉ (rev l ++ k)%list -> x ∉ l /\ x ∉ k.
Proof.
  intros H. split; intros Hin; apply H, elem_of_app; [left|by right].
  apply list_elem_of_In. apply list_elem_of_In in Hin. by apply in_rev in Hin.
Qed.

Lemma not_seen_cons (x y : string) l : x ∉ y :: l -> x <> y /\ x ∉ l.
Proof. intros H. split; [intros ->; apply H, elem_of_cons; by left|intros Hin; apply H, elem_of_cons; by right]. Qed.

(** The walk of an inventory, from the page of a cursor on. *)
Lemma list_pages_walk {A} max_safe_retries (from_dict : payload -> result A) path key query left :
  forall cursor seen_cursors seen_ids h n l tr,
  run h n (list_pages max_safe_retries from_dict path key query left cursor seen_cursors seen_ids) = (Ok l, tr) ->
  exists pages segments ids,
    tr = concat segments /\ Forall2 (page_read max_safe_retries path key query) pages segments /\
    chained cursor pages /\ (length pages <= left)%nat /\
    rmap from_dict (page_items pages) = Ok l /\
    map identity (page_items pages) = map JStr ids /\ NoDup ids /\ (forall id, id ∈ ids -> id ∉ seen_ids) /\
    NoDup (page_cursors pages) /\ (forall c, c ∈ page_cursors pages -> c ∉ seen_cursors).
Proof.
  induction left as [|left IH]; intros cursor seen_cursors seen_ids h n l tr; cbn [list_pages]; [done|].
  rewrite run_bind. destruct (run h n (get_json _ _ _)) as [[value|e] tr1] eqn:Hget; [|done].
  apply get_json_got in Hget as [Hcount Hgot].
  destruct (read_page value key seen_cursors) as [p|e] eqn:Hp; [|done]. cbn [pure pbind].
  apply read_page_says in Hp as [Hsays Hnext].
  destruct (read_items from_dict seen_ids (pg_items p)) as [[items ids]|e] eqn:Hi; [|done]. cbn [pbind fst snd].
  apply read_items_spec in Hi as (new & Hids & Hl & -> & Hnd & Hnew).
  set (f := {| fe_cursor := cursor; fe_value := value; fe_page := p |}).
  assert (Hread : page_read max_safe_retries path key query f tr1) by (split_and!; done).
  destruct (pg_next p) as [next|] eqn:Hn.
  - rewrite run_bind. destruct (run h _ (list_pages _ _ _ _ _ _ _ _ _)) as [[rest|e] tr2] eqn:Hr; [|done].
    cbn [run]. intros [= <- <-]. rewrite app_nil_r.
    destruct (IH _ _ _ _ _ _ _ Hr) as (pages & segments & ids & -> & Hf & Hch & Hlen & Hl2 & Hids2 & Hnd2 & Hnew2 & Hc & Hc2).
    exists (f :: pages), (tr1 :: segments), (new ++ ids)%list. split_and!.
    + done.
    + by constructor.
    + cbn [chained fe_page f]. rewrite Hn. by split.
    + cbn. lia.
    + unfold page_items. cbn [map concat]. apply rmap_app; [exact Hl|exact Hl2].
    + unfold page_items. cbn [map concat]. rewrite !map_app. by f_equal.
    + apply stdpp.list_relations.list.NoDup_app. split_and!; [done| |done]. intros x Hx Hx2.
      by apply Hnew2, not_seen in Hx2 as [? _].
    + intros id Hid. apply elem_of_app in Hid as [Hid|Hid]; [by apply Hnew|].
      by apply Hnew2, not_seen in Hid as [_ ?].
    + unfold page_cursors. cbn [omap list_omap fe_page f]. rewrite Hn. constructor; [|done].
      intros Hin. by apply Hc2, not_seen_cons in Hin as [? _].
    + unfold page_cursors. cbn [omap list_omap fe_page f]. rewrite Hn. intros c Hin.
      apply elem_of_cons in Hin as [->|Hin]; [done|]. by apply Hc2, not_seen_cons in Hin as [_ ?].
  - cbn [run]. intros [= <- <-]. rewrite app_nil_r.
    exists [f], [tr1], new. unfold page_items, page_cursors. cbn [map concat omap list_omap chained fe_page f].
    rewrite Hn, !app_nil_r. split_and!; [done|constructor; [exact Hread|constructor]|done|done|cbn; lia|exact Hl|done|done|done|constructor|].
    intros c Hin. by apply elem_of_nil in Hin.
Qed.
