(* ===== verification/RestProperties.v ===== *)
(** What the REST layer promises its users: what a failed request can have changed, what
    an inventory proves, what of an answer is kept, and where an identifier goes. *)
From S2P Require Import Prelude PyStr Enums Errors PyDecimal PyFloat PyTime Json ContractsBase CodecBase CatalogRequest Placement PodBilling World ServerlessSpec ServerlessCatalog Provider OllamaRuntime OllamaProvider Prog JsonText RestModels RestClient DirectProvider RestSafety ContractProperties ProviderProperties Scenario OllamaContracts OllamaLeases OllamaRepository OllamaService OllamaLogic OllamaSafety OllamaOperations OllamaHistory OllamaSelection OllamaCapacity OllamaProperties OllamaProviderProperties.
From Stdlib Require Import Ascii.

#[local] Open Scope Z_scope.

Import RestModels.RestModels.

(** ** Requests *)

(** The requests sent that may change something, with their answers. *)
Definition mutations (tr : list wire_event) : list (http_request * result wire_response) :=
  List.filter (fun s => negb (bool_decide (hq_method (fst s) ∈ SAFE_METHODS))) (sends tr).

(** C32. Against any wire, a request is sent at least once and at most once more than
    the retries allow, always the same; again only when its method is safe and the
    answer before was a lost connection or a retryable status; and its outcome is that of
    the last answer, unless the host interrupted the pause before another attempt. *)
Theorem requests_repeat_only_reads max_safe_retries method path params body expected ambiguous h n r tr :
  run h n (request max_safe_retries method path params body expected ambiguous) = (r, tr) ->
  let q := sent_request method path params body in
  exists earlier last,
    sends tr = map (pair q) (earlier ++ [last])%list /\ (length earlier <= max_safe_retries)%nat /\
    Forall transient earlier /\ (earlier <> [] -> hq_method q ∈ SAFE_METHODS) /\
    (r = verdict expected ambiguous last \/
     exists e p, r = Exc e /\ hq_method q ∈ SAFE_METHODS /\ transient last /\
       In (@Event _ wire_answer (WSleep p) (Exc e)) tr).
Proof.
  intros Hr q. apply request_loop_exchanged in Hr as [Hc Hq Ho (earlier & last & Hs & He & Hout)].
  exists earlier, last. split_and!; [by apply sends_same| |done| |done].
  - rewrite <- (length_map snd), Hs, length_app in Hc. cbn in Hc. lia.
  - intros Hne. destruct (decide (hq_method q ∈ SAFE_METHODS)) as [|Hn]; [done|]. specialize (Ho Hn).
    rewrite <- (length_map snd), Hs, length_app in Ho. cbn in Ho. destruct earlier; [done|]. cbn in Ho. lia.
Qed.

(** ** Creating a Pod *)

Lemma sends_app a b : sends (a ++ b)%list = (sends a ++ sends b)%list.
Proof. apply omap_app. Qed.

Lemma mutations_app a b : mutations (a ++ b)%list = (mutations a ++ mutations b)%list.
Proof. unfold mutations. by rewrite sends_app, filter_app. Qed.

(** A read sends nothing that may change something. *)
Lemma read_sends_no_mutation max_safe_retries path params h n r tr :
  run h n (get_json max_safe_retries path params) = (r, tr) -> mutations tr = [].
Proof.
  intros Hr. apply run_pure in Hr as (r0 & Hr & _). apply json_call_exchanged in Hr as (r1 & [_ Hq _ _] & _).
  unfold mutations. induction Hq as [|s l Hs _ IH]; [done|]. cbn [List.filter]. by rewrite Hs.
Qed.

Section Direct.
Context (max_safe_retries max_inventory_pages : nat) (environ : string -> option string).

Lemma placing_sends_no_mutation profile options h n r tr :
  run h n (placed_profile max_safe_retries profile options) = (r, tr) -> mutations tr = [].
Proof.
  unfold placed_profile, list_gpus. intros Hr.
  apply run_pure_first in Hr as [(e & _ & _ & ->)|(cloud & _ & Hr)]; [done|].
  apply run_pure_first in Hr as [(e & _ & _ & ->)|(u & _ & Hr)]; [done|].
  rewrite run_bind in Hr. destruct (run h n (pbind _ _)) as [r1 tr1] eqn:E1.
  assert (H1 : mutations tr1 = []).
  { apply run_pure_first in E1 as [(e & _ & _ & ->)|(ps & _ & E1)]; [done|]. rewrite run_bind in E1.
    destruct (run h n (get_json _ _ _)) as [r2 tr2] eqn:E2. apply read_sends_no_mutation in E2.
    destruct r2 as [v|e]; [|by injection E1 as _ <-].
    destruct (list_envelope v "gpus"); cbn [pure pbind run] in E1; injection E1 as _ <-; rewrite ?app_nil_r; done. }
  destruct r1 as [offers|e]; [|by injection Hr as _ <-].
  cbn [wcall perform pbind run] in Hr. destruct (h (n + length tr1)%nat WNow) as [t|e]; cbn in Hr;
    injection Hr as _ <-; rewrite mutations_app, H1; done.
Qed.

(** What starting a Pod can have changed. *)
Lemma start_pod_outcome profile options h n res tr :
  run h n (start_pod max_safe_retries environ profile options) = (res, tr) ->
  (length (mutations tr) <= 1)%nat /\
  (forall e, res = Exc e -> is_ambiguous_error e = false -> Forall (fun s => refused (snd s)) (mutations tr)).
Proof.
  unfold start_pod. intros Hr.
  apply run_pure_first in Hr as [(e & _ & -> & ->)|(env & _ & Hr)]; [split; [cbn; lia|by constructor]|].
  rewrite run_bind in Hr. destruct (run h n (placed_profile _ _ _)) as [r1 tr1] eqn:E1.
  apply placing_sends_no_mutation in E1. destruct r1 as [placement|e1].
  2: { injection Hr as <- <-. rewrite E1. split; [cbn; lia|by constructor]. }
  destruct (run h (n + length tr1) _) as [r2 tr2] eqn:E2. injection Hr as <- <-.
  rewrite mutations_app, E1. cbn [app]. rewrite run_bind in E2.
  destruct (run h (n + length tr1) (create_pod _ _)) as [r3 tr3] eqn:E3.
  assert (Htr : r2 = rbind r3 (fun pod => Ok (px_raw pod, placement)) /\ tr2 = tr3).
  { destruct r3; cbn [pure run] in E2; injection E2 as <- <-; by rewrite ?app_nil_r. }
  destruct Htr as [-> ->]. apply create_pod_outcome in E3 as [Hl Hres].
  assert (Hm : forall l, (length (List.filter (fun s : http_request * result wire_response =>
    negb (bool_decide (hq_method (fst s) ∈ SAFE_METHODS))) l) <= length l)%nat)
    by (intros l; apply filter_length_le).
  split; [unfold mutations; specialize (Hm (sends tr3)); lia|].
  intros e He Ha. destruct r3 as [pod|e3]; cbn [rbind] in He; [done|]. injection He as ->.
  specialize (Hres Ha). unfold mutations. rewrite List.Forall_forall in Hres |- *. intros s Hs.
  apply filter_In in Hs as [Hs _]. by apply Hres.
Qed.

(** C30. When the creation of a Pod fails with a manager error that is neither ambiguous
    nor the mismatch that carries a Pod, the control plane took no Pod: over the whole
    creation one mutating request was sent at most, and its answer was neither a success
    nor a server error nor a lost connection. The lease service releases such an attempt
    at no cost on exactly this condition. *)
Theorem rejected_creation_took_no_pod `{Digest} plane profile name companion env spec t started purpose e :
  Provider.effective_profile profile spec = Ok (started, purpose) ->
  Provider.create (direct_provider max_safe_retries max_inventory_pages environ plane)
    profile name companion env spec t = Exc e ->
  is_manager_error e = true -> is_ambiguous_error e = false ->
  (forall pod_id, e <> PodCapacityCreatedMismatchError pod_id) ->
  let m := {| Provider.sm_name := name; Provider.sm_companion_id := companion; Provider.sm_purpose := purpose;
              Provider.sm_env_overrides := env |} in
  let calls := snd (run plane 0 (start_pod max_safe_retries environ started (options_of m))) in
  (length (mutations calls) <= 1)%nat /\ Forall (fun s => refused (snd s)) (mutations calls).
Proof.
  intros Heff Hc Hman Hamb Hmis m calls. unfold Provider.create in Hc. rewrite Heff in Hc. cbn [rbind fst snd] in Hc.
  cbn [Provider.dp_start_pod direct_provider] in Hc. unfold DirectProvider.answered_by in Hc. fold m in Hc. subst calls.
  destruct (run plane 0 (start_pod _ _ _ _)) as [res tr] eqn:Hr. cbn [fst snd] in Hc |- *.
  apply start_pod_outcome in Hr as [Hl Hres]. split; [done|].
  destruct res as [[created placement]|e0]; cbn [rbind] in Hc.
  - exfalso. destruct (of_option _ _) as [pod_id|e1] eqn:Hid; cbn [rbind] in Hc.
    2: { unfold of_option in Hid. case_match; [done|]. injection Hid as <-. injection Hc as <-. done. }
    cbn [fst snd] in Hc. destruct spec as [spec|]; cbn [opt_result rbind] in Hc; [|done].
    destruct (Provider.validate_created _ _ _ _ _ _) as [r|e1] eqn:Hv; cbn [rbind] in Hc; [done|].
    injection Hc as ->. apply created_errors in Hv as ->. unfold created_mismatch in *.
    destruct (blank pod_id); [done|]. by apply (Hmis pod_id).
  - injection Hc as ->. by apply (Hres e).
Qed.

(** ** Searching the account *)

Lemma get_sanitized l key : get_field (sanitize_resource_payload l) key =
  if bool_decide (key ∈ keys l) then sanitize_value key (get_field l key) else JNull.
Proof.
  induction l as [|[k v] l IH]; [done|]. cbn [sanitize_resource_payload map get_field fst snd keys].
  destruct (String.eqb_spec k key) as [->|Hk].
  - rewrite bool_decide_true; [done|]. by left.
  - fold (sanitize_resource_payload l). rewrite IH. case_bool_decide as Hin; case_bool_decide as Hin2; try done.
    + exfalso. apply Hin2. by right.
    + exfalso. apply Hin. apply elem_of_cons in Hin2 as [->|]; [done|]. done.
Qed.

Lemma pod_facts v p :
  pod_from_dict v = Ok p -> px_raw p = sanitize_resource_payload v /\
  get_field v "name" = JStr (px_name p) /\ get_field v "id" = JStr (px_id p).
Proof.
  unfold pod_from_dict. intros Hp.
  apply rbind_ok in Hp as (gpu & _ & Hp). apply rbind_ok in Hp as (cost & _ & Hp).
  apply rbind_ok in Hp as (id & Hid & Hp). apply rbind_ok in Hp as (nm & Hn & Hp).
  apply rbind_ok in Hp as (st & _ & Hp). apply rbind_ok in Hp as (g & _ & Hp). apply rbind_ok in Hp as (c & _ & Hp).
  injection Hp as <-. cbn. unfold payload_string in Hid, Hn.
  destruct (get_field v "id"); try done. destruct (get_field v "name"); try done.
  case_bool_decide; [done|]. case_bool_decide; [done|]. by simplify_eq.
Qed.

(** A name survives the removal of credentials. *)
Lemma sanitized_name v s : get_field v "name" = JStr s -> get_field (sanitize_resource_payload v) "name" = JStr s.
Proof.
  intros Hn. rewrite get_sanitized. case_bool_decide as Hin; [by rewrite Hn|].
  exfalso. apply Hin. clear Hin. induction v as [|[k w] v IH]; [done|]. cbn in Hn |- *.
  destruct (String.eqb_spec k "name") as [->|]; [by left|right; by apply IH].
Qed.

Lemma none_named name (pods : list PodResource) items :
  rmap pod_from_dict items = Ok pods ->
  Provider.named name (map px_raw pods) = [] -> Forall (fun v => get_field v "name" <> JStr name) items.
Proof.
  intros Hr. apply rmap_Forall2 in Hr. induction Hr as [|v p items pods Hp _ IH]; [by constructor|].
  cbn [map]. unfold Provider.named. cbn [List.filter]. apply pod_facts in Hp as (-> & Hn & _).
  rewrite (sanitized_name _ _ Hn). cbn [py_eq]. case_bool_decide as Hb; [done|]. intros Hf.
  constructor; [rewrite Hn; congruence|by apply IH].
Qed.

(** C31. The search for a Pod answers that there is none only after reading the account's
    whole inventory: pages that follow each other from the first to the one that says no
    other follows, each answered by a 200 under the cursor of the page before, with
    distinct cursors and distinct identities; and no listed Pod has the name. *)
Theorem absent_name_is_absent plane name :
  Provider.find_by_name (direct_provider max_safe_retries max_inventory_pages environ plane) name = Ok None ->
  exists pages segments ids,
    snd (run plane 0 (list_raw_pods max_safe_retries max_inventory_pages)) = concat segments /\
    Forall2 (page_read max_safe_retries "/pods" "pods" [("includeClusterPods", JBool true)]) pages segments /\
    chained None pages /\ (length pages <= max_inventory_pages)%nat /\ NoDup (page_cursors pages) /\
    map identity (page_items pages) = map JStr ids /\ NoDup ids /\
    Forall (fun item => get_field item "name" <> JStr name) (page_items pages).
Proof.
  unfold Provider.find_by_name. cbn [Provider.dp_list_pods direct_provider]. unfold DirectProvider.answered_by, list_raw_pods.
  rewrite run_bind. destruct (run plane 0 (list_pods _ _)) as [[pods|e] tr] eqn:Hr; [|done].
  cbn [run fst snd rbind]. rewrite app_nil_r. intros Hf.
  assert (Hnone : Provider.named name (map px_raw pods) = []).
  { destruct (Provider.named name (map px_raw pods)) as [|p [|? ?]]; [done| |done].
    apply rbind_ok in Hf as (? & _ & Hf). done. }
  unfold list_pods, list_resources in Hr.
  apply list_pages_walk in Hr as (pages & segments & ids & Htr & Hread & Hch & Hlen & Hl & Hids & Hnd & _ & Hc & _).
  exists pages, segments, ids. split_and!; try done. by eapply none_named.
Qed.

End Direct.

(** ** Credentials *)

(** Documents that differ in credentials only: anything under a sensitive name, and the
    values of an environment. *)
Inductive alike : string -> json -> json -> Prop :=
  | AlikeEnv key l k : is_env_key key = true -> keys l = keys k -> alike key (JObj l) (JObj k)
  | AlikeSecret key v w : is_env_key key = false -> sensitive_key key = true -> alike key v w
  | AlikeObj key l k :
      is_env_key key = false -> sensitive_key key = false ->
      Forall2 (fun p q => fst p = fst q /\ alike (fst p) (snd p) (snd q)) l k -> alike key (JObj l) (JObj k)
  | AlikeList key l k : Forall2 (alike key) l k -> alike key (JList l) (JList k)
  | AlikeSame key v : alike key v v.

Lemma hidden_secret key v : is_env_key key = false -> sensitive_key key = true -> sanitize_value key v = REDACTED.
Proof. intros He Hs. destruct v; cbn [sanitize_value]; by rewrite ?He, Hs. Qed.

Lemma hidden_env l k : keys l = keys k ->
  map (fun p : string * json => (fst p, REDACTED)) l = map (fun p : string * json => (fst p, REDACTED)) k.
Proof.
  intros Hk. assert (H : forall l : payload, map (fun p => (fst p, REDACTED)) l = map (fun key => (key, REDACTED)) (keys l))
    by (intros m; unfold keys; by rewrite map_map). by rewrite !H, Hk.
Qed.

Lemma alike_sanitized key v w : alike key v w -> sanitize_value key v = sanitize_value key w.
Proof.
  revert key w. induction v as [|b|z|d|s|l IH|fields IH] using json_nested_ind; intros key w Ha;
    inversion Ha as [? ? ? He Hk|? ? ? He Hs|? ? ? He Hs Hf|? ? ? Hf|]; subst; try done;
    try (by rewrite !hidden_secret).
  - cbn [sanitize_value]. destruct (sensitive_key key); [done|]. f_equal. clear Ha.
    induction Hf as [|x y l k Hxy Hf IHf]; [done|]. cbn [map]. apply Forall_cons_iff in IH as [Hx IH].
    f_equal; [by apply Hx|by apply IHf].
  - cbn [sanitize_value]. by rewrite He, (hidden_env _ _ Hk).
  - cbn [sanitize_value]. rewrite He, Hs. f_equal. clear Ha.
    induction Hf as [|[n x] [m y] l k [Hn Hxy] Hf IHf]; [done|]. cbn [map fst snd] in *. subst m.
    apply Forall_cons_iff in IH as [Hx IH]. f_equal; [f_equal; by apply Hx|by apply IHf].
Qed.

(** No name in a document is sensitive, nor names an environment. *)
Fixpoint harmless (key : string) (v : json) : bool :=
  negb (sensitive_key key) && negb (is_env_key key) &&
  match v with
  | JObj fields => forallb (fun p => harmless (fst p) (snd p)) fields
  | JList l => forallb (harmless key) l
  | _ => true
  end.

Lemma harmless_kept key v : harmless key v = true -> sanitize_value key v = v.
Proof.
  revert key. induction v as [|b|z|d|s|l IH|fields IH] using json_nested_ind; intros key Hh; cbn [harmless] in Hh;
    apply andb_true_iff in Hh as [Hk Hh]; apply andb_true_iff in Hk as [Hs He];
    apply negb_true_iff in Hs, He; cbn [sanitize_value]; rewrite ?Hs, ?He; try done.
  - f_equal. rewrite forallb_forall in Hh. rewrite List.Forall_forall in IH.
    rewrite <- (map_id l) at 2. apply map_ext_in. intros x Hx. by apply IH, Hh.
  - f_equal. rewrite forallb_forall in Hh. rewrite List.Forall_forall in IH.
    rewrite <- (map_id fields) at 2. apply map_ext_in. intros [k x] Hx. cbn. f_equal. apply (IH _ Hx), (Hh _ Hx).
Qed.

(** C33. What is kept of an answer does not depend on the credentials in it: documents
    that differ only under sensitive names and in environment values are kept as the
    same document; and a field under which no name is sensitive is kept as it is. *)
Theorem sanitized_hides_secrets v w :
  alike EmptyString (JObj v) (JObj w) ->
  sanitize_resource_payload v = sanitize_resource_payload w /\
  forall key, key ∈ keys v -> harmless key (get_field v key) = true ->
    get_field (sanitize_resource_payload v) key = get_field v key.
Proof.
  intros Ha. split.
  - apply alike_sanitized in Ha. cbn [sanitize_value] in Ha. change (is_env_key EmptyString) with false in Ha.
    change (sensitive_key EmptyString) with false in Ha. cbv iota in Ha. by injection Ha.
  - intros key Hin Hh. rewrite get_sanitized, bool_decide_true by done. by apply harmless_kept.
Qed.

(** ** Identifiers in paths *)

(** Read one quoted character. *)
Definition hex_digit (c : ascii) : Z := if is_digit c then code c - 48 else code c - 55.

Definition unquote_one (l : list ascii) : option (ascii * list ascii) :=
  match l with
  | c :: r =>
      if code c =? 37 then
        match r with
        | a :: b :: r1 =>
            let n := 16 * hex_digit a + hex_digit b in
            if n <? 128 then Some (ascii_of_N (Z.to_N n), r1)
            else
              match r1 with
              | _ :: a' :: b' :: r2 =>
                  Some (ascii_of_N (Z.to_N (64 * (n - 192) + (16 * hex_digit a' + hex_digit b' - 128))), r2)
              | _ => None
              end
        | _ => None
        end
      else Some (c, r)
  | [] => None
  end.

Definition quoted (c : ascii) : list ascii := if unreserved c then [c] else flat_map percent_byte (utf8_char c).

Lemma unquote_quoted c r : unquote_one (quoted c ++ r)%list = Some (c, r).
Proof. by destruct c as [[] [] [] [] [] [] [] []]. Qed.

Lemma quoted_chars c : Forall (fun x => unreserved x = true \/ x = "%"%char) (quoted c).
Proof.
  assert (H : forallb (fun x => unreserved x || Ascii.eqb x "%") (quoted c) = true)
    by by destruct c as [[] [] [] [] [] [] [] []].
  rewrite forallb_forall in H. apply List.Forall_forall. intros x Hx. specialize (H x Hx).
  apply orb_true_iff in H as [H|H]; [by left|right; by apply Ascii.eqb_eq].
Qed.

Lemma quote_cons c l : quote_chars (c :: l) = (quoted c ++ quote_chars l)%list.
Proof. done. Qed.

Lemma quote_inj l k : quote_chars l = quote_chars k -> l = k.
Proof.
  revert k. induction l as [|c l IH]; intros [|d k]; rewrite ?quote_cons; intros Hq; [done| | |].
  - pose proof (unquote_quoted d (quote_chars k)) as Hd. by rewrite <- Hq in Hd.
  - pose proof (unquote_quoted c (quote_chars l)) as Hc. by rewrite Hq in Hc.
  - pose proof (unquote_quoted c (quote_chars l)) as Hc. rewrite Hq, unquote_quoted in Hc.
    injection Hc as <- Hc. by rewrite (IH k).
Qed.

(** An identifier is one segment of a path, and no other identifier is the same
    segment: no separator, query or fragment character is left in it. *)
Theorem identifier_is_one_segment a b s :
  segment a = Ok s ->
  Forall (fun c => unreserved c = true \/ c = "%"%char) (chars s) /\ s <> "" /\ (segment b = Ok s -> a = b).
Proof.
  unfold segment. case_bool_decide as Ha; [done|]. intros [= <-]. rewrite chars_of_chars. split_and!.
  - unfold quote_chars. apply Forall_flat_map, List.Forall_forall. intros c _. apply quoted_chars.
  - destruct a as [|c a]; [done|]. intros Hs. apply (f_equal chars) in Hs. rewrite chars_of_chars in Hs.
    cbn [chars] in Hs. rewrite quote_cons in Hs. pose proof (unquote_quoted c (quote_chars (chars a))) as Hc.
    by rewrite Hs in Hc.
  - case_bool_decide; [done|]. intros [= Hq]. apply of_chars_inj, quote_inj in Hq. by apply chars_inj.
Qed.

(** Dots are unreserved: the identifiers [.] and [..] are segments that a URL may drop. *)
Example dots_are_kept : segment ".." = Ok ".."%string /\ segment "a/b?c" = Ok "a%2Fb%3Fc"%string.
Proof. done. Qed.

(** ** The Ollama provider over the wire *)

Section Wire.
Context (max_safe_retries max_inventory_pages : nat).

(** The recorded answers are the host's. *)
Lemma run_answers {C : Set} {answer : C -> Set} {A} (p : @Prog.prog C answer A) h n r tr :
  run h n p = (r, tr) -> Forall (fun ev => exists m, ev_answer ev = h m (ev_call ev)) tr.
Proof.
  revert n r tr. induction p as [r0|c k IH]; intros n r tr; cbn [run]; [by intros [= <- <-]; constructor|].
  destruct (run h (S n) (k (h n c))) as [r1 tr1] eqn:E. intros [= <- <-]. constructor; [by exists n|by eapply IH].
Qed.

(** A wire that does not raise the package's own errors. *)
Definition honest (h : oracle wire_answer) : Prop := forall n c e, h n c = Exc e -> is_manager_error e = false.

Lemma not_found_manager e : is_not_found e = true -> is_manager_error e = true.
Proof. by destruct e. Qed.

(** A read that fails with 404 was answered 404 on the wire. *)
Lemma read_not_found {A} (from_dict : payload -> result A) prefix id h n e tr :
  honest h -> (forall v e', from_dict v = Exc e' -> is_not_found e' = false) ->
  run h n (pbind (get_one max_safe_retries prefix id "") (fun v => pure (from_dict v))) = (Exc e, tr) ->
  is_not_found e = true ->
  exists s earlier resp, segment id = Ok s /\
    sends tr = map (pair (sent_request "GET" (prefix ++ s ++ "") None None)) (earlier ++ [Ok resp])%list /\
    wr_status resp = 404.
Proof.
  intros Hh Hfrom Hr He. apply run_pure in Hr as (r0 & Hr & Hr0). unfold get_one in Hr.
  apply run_pure_first in Hr as [(e0 & Hs & -> & _)|(s & Hs & Hr)].
  { cbn in Hr0. injection Hr0 as <-. unfold segment in Hs. case_bool_decide; [|done]. by injection Hs as <-. }
  pose proof (run_answers _ _ _ _ _ Hr) as Hans.
  apply run_pure in Hr as (r1 & Hr & ->). apply json_call_exchanged in Hr as (r2 & [_ Hq _ (earlier & last & Hm & _ & Hout)] & ->).
  symmetry in Hr0. destruct r2 as [resp|e2]; cbn [rbind] in Hr0.
  { exfalso. destruct Hout as [Hv|(e0 & p & He0 & _)]; [|done].
    destruct last as [r'|e']; cbn in Hv; [|done]. case_bool_decide as Hst; [|done]. injection Hv as ->.
    unfold read_json in Hr0. case_match; cbn [rbind required_payload of_option] in Hr0; [by injection Hr0 as <-|].
    assert (Hst' : wr_status r' = 200) by set_solver.
    destruct (wr_json r') as [[| | | | | |fields]|]; cbn in Hr0; rewrite ?Hst' in Hr0; try (by injection Hr0 as <-).
    apply Hfrom in Hr0. congruence. }
  injection Hr0 as ->. destruct Hout as [Hv|(e0 & p & He0 & _ & _ & Hin)].
  2: { exfalso. injection He0 as <-. rewrite List.Forall_forall in Hans. destruct (Hans _ Hin) as [m Hm']. cbn in Hm'.
       symmetry in Hm'. pose proof (Hh m (WSleep p) _ Hm') as Hman. by rewrite (not_found_manager _ He) in Hman. }
  destruct last as [resp|e']; cbn in Hv.
  - case_bool_decide; [done|]. injection Hv as ->. exists s, earlier, resp. split_and!; [done|by apply sends_same|].
    cbn in He. by apply Z.eqb_eq in He.
  - exfalso. injection Hv as ->. destruct (is_http_error e') eqn:Hhttp; [by cbn in He|].
    assert (Hin : In (Exc e') (map snd (sends tr))) by (rewrite Hm; apply in_or_app; right; by left).
    apply in_map_iff in Hin as ([q a] & Ha & Hin). cbn in Ha. subst a. unfold sends in Hin.
    apply list_elem_of_In, list_elem_of_omap in Hin as (ev & Hev & Hsend). apply list_elem_of_In in Hev.
    rewrite List.Forall_forall in Hans. destruct (Hans _ Hev) as [m Hm']. destruct ev as [[q'| |] a]; cbn in Hsend; try done.
    injection Hsend as -> ->. cbn in Hm'. symmetry in Hm'. pose proof (Hh m (WSend q) _ Hm') as Hman. by rewrite (not_found_manager _ He) in Hman.
Qed.

Lemma guarded_url p : guarded (url_item p).
Proof. unfold url_item. destruct (snd p); intros e; congruence. Qed.

Lemma guarded_rmap {A B} (f : A -> result B) l : (forall a, guarded (f a)) -> guarded (rmap f l).
Proof. intros Hf. induction l as [|a l IH]; [done|]. cbn [rmap]. apply guarded_bind; [done|]. intros b. by apply guarded_bind. Qed.

Lemma guarded_endpoint v : guarded (endpoint_from_dict v).
Proof.
  unfold endpoint_from_dict. apply guarded_bind; [auto with guards|intros urls].
  apply guarded_bind; [apply guarded_rmap, guarded_url|intros us].
  repeat (apply guarded_bind; [auto with guards|intros ?]). auto with guards.
Qed.

Lemma guarded_found {A} (f : payload -> result A) : (forall v, guarded (f v)) ->
  forall v e, f v = Exc e -> is_not_found e = false.
Proof. intros Hf v e He. by rewrite (Hf v e He). Qed.

(** *** Identifiers are not empty *)

Lemma payload_string_nonempty v s : payload_string v = Ok s -> s <> "".
Proof. destruct v; cbn; try done. case_bool_decide; [done|]. by intros [= <-]. Qed.

Lemma pod_id_nonempty v p : pod_from_dict v = Ok p -> px_id p <> "".
Proof.
  unfold pod_from_dict. intros Hp. res_inv. cbn.
  match goal with Hid : payload_string (get_field v "id") = Ok _ |- _ => by apply payload_string_nonempty in Hid end.
Qed.

Lemma endpoint_id_nonempty v p : endpoint_from_dict v = Ok p -> en_id (rt_endpoint p) <> "".
Proof.
  unfold endpoint_from_dict. intros Hp. res_inv. cbn.
  match goal with Hid : payload_string (get_field v "id") = Ok _ |- _ => by apply payload_string_nonempty in Hid end.
Qed.

Lemma listed_nonempty {A} (from_dict : payload -> result A) (id : A -> string) path key query h n l tr :
  (forall v a, from_dict v = Ok a -> id a <> "") ->
  run h n (list_resources max_safe_retries max_inventory_pages from_dict path key query) = (Ok l, tr) ->
  Forall (fun a => id a <> "") l.
Proof.
  intros Hid Hr. unfold list_resources in Hr.
  apply list_pages_walk in Hr as (pages & segments & ids & _ & _ & _ & _ & Hl & _).
  apply rmap_Forall2 in Hl. induction Hl; constructor; eauto.
Qed.

Context (wires : nat -> nat -> oracle wire_answer) (rest : nat -> oracle capacity_answer).

(** The planes of a service whose provider calls go through the client. *)
Definition client_planes : control_planes :=
  fun k => client_plane max_safe_retries max_inventory_pages (wires k) (rest k).

Lemma created_pod_nonempty k m r p : client_planes k m (CCreatePod r) = Ok p -> px_id p <> "".
Proof.
  cbn. unfold DirectProvider.answered_by, create_pod. destruct (run _ 0 _) as [res tr] eqn:E. cbn. intros ->.
  apply create_pod_outcome in E as [_ (b & resp & fields & _ & _ & _ & _ & Hp)]. by apply pod_id_nonempty in Hp.
Qed.

Lemma created_endpoint_nonempty k m r p : client_planes k m (CCreateEndpoint r) = Ok p -> en_id p <> "".
Proof.
  cbn. unfold DirectProvider.answered_by, create_endpoint. intros Hp. apply rbind_ok in Hp as (e & Hp & [= <-]).
  destruct (run _ 0 _) as [res tr] eqn:E. cbn in Hp. subst res.
  apply run_pure_first in E as [(e0 & _ & [=] & _)|(u & _ & E)]. apply run_pure in E as (r0 & _ & He).
  symmetry in He. apply rbind_ok in He as (o & _ & He). apply rbind_ok in He as (fields & _ & He).
  by apply endpoint_id_nonempty in He.
Qed.

Lemma listed_pods_nonempty k m l : client_planes k m CListPods = Ok l -> Forall (fun p => px_id p <> "") l.
Proof.
  cbn. unfold DirectProvider.answered_by. destruct (run _ 0 _) as [res tr] eqn:E. cbn. intros ->.
  unfold list_pods in E. by apply (listed_nonempty _ px_id _ _ _ _ _ _ _ pod_id_nonempty) in E.
Qed.

Lemma listed_endpoints_nonempty k m l : client_planes k m CListEndpoints = Ok l -> Forall (fun p => en_id p <> "") l.
Proof.
  cbn. unfold DirectProvider.answered_by. intros Hl. apply rbind_ok in Hl as (es & Hl & [= <-]).
  destruct (run _ 0 _) as [res tr] eqn:E. cbn in Hl. subst res. unfold list_endpoints in E.
  apply (listed_nonempty _ (fun e => en_id (rt_endpoint e)) _ _ _ _ _ _ _ endpoint_id_nonempty) in E.
  induction E; cbn [map]; by constructor.
Qed.

Lemma unique_nonempty t name ids r :
  Forall (fun id => id <> "") ids -> unique_match t name ids = Ok (Some r) -> rs_provider_resource_id r <> "".
Proof. intros Hids. destruct ids as [|id [|? ?]]; cbn; try done. intros [= <-]. by apply Forall_inv in Hids. Qed.

Lemma Forall_filter_map {A B} (P : B -> Prop) (f : A -> B) (g : A -> bool) l :
  Forall (fun a => P (f a)) l -> Forall P (map f (List.filter g l)).
Proof. induction 1 as [|a l Ha _ IH]; [by constructor|]. cbn [List.filter]. case_match; [by constructor|done]. Qed.

Lemma found_nonempty k t name r :
  fst (run (client_planes k) 0 (find_resource t name)) = Ok (Some r) -> rs_provider_resource_id r <> "".
Proof.
  destruct t; cbn [find_resource ccall perform pbind run fst snd].
  - destruct (client_planes k 0%nat CListEndpoints) as [l|e] eqn:E; cbn [pbind run fst]; [|done].
    apply listed_endpoints_nonempty in E. by apply unique_nonempty, Forall_filter_map.
  - destruct (client_planes k 0%nat CListPods) as [l|e] eqn:E; cbn [pbind run fst]; [|done].
    apply listed_pods_nonempty in E. by apply unique_nonempty, Forall_filter_map.
Qed.

(** Over the client, only the other processes must be relied on. *)
Lemma client_relies `{Digest} oc base :
  (forall n t, table_ok t -> table_ok (oh_interfere base n t)) ->
  (forall n t, table_ok t -> table_evolves t (oh_interfere base n t)) ->
  ollama_rely (backend oc base client_planes).
Proof.
  intros Ht He. split; [done|done| |].
  - intros n r p name res. cbn. unfold effect_answer. destruct (run _ 0 _) as [res0 tr] eqn:E. cbn. intros ->.
    pose proof (run_answers _ _ _ _ _ E) as Hans. destruct (wp_run (provision_wp oc r p name) E) as [Hc _]. cbn [app] in Hc.
    destruct (Hc res eq_refl) as (t & ev & -> & _ & _ & Hev). apply Forall_cons_iff in Hans as [_ Hans].
    apply Forall_cons_iff in Hans as [[m Hm] _]. destruct ev as [[] a]; cbn in Hev, Hm; try done.
    + destruct Hev as (x & -> & ->). symmetry in Hm. by apply (created_endpoint_nonempty n m) in Hm.
    + destruct Hev as (x & -> & ->). symmetry in Hm. by apply (created_pod_nonempty n m) in Hm.
  - intros n t name res. cbn. unfold effect_answer. apply found_nonempty.
Qed.

(** The read on the wire that found the resource of a lease absent. *)
Definition absent_on_the_wire (resource : ProvisionedOllamaResource) (wire : oracle wire_answer) : Prop :=
  exists s earlier resp e tr,
    segment (rs_provider_resource_id resource) = Ok s /\
    let prefix := if is_serverless resource then "/serverless/" else "/pods/" in
    (if is_serverless resource
     then run wire 0 (get_endpoint max_safe_retries (rs_provider_resource_id resource)) = (Exc e, tr)
     else run wire 0 (get_pod max_safe_retries (rs_provider_resource_id resource)) = (Exc e, tr)) /\
    sends tr = map (pair (sent_request "GET" (prefix ++ s ++ EmptyString)%string None None)) (earlier ++ [Ok resp])%list /\
    wr_status resp = 404.

Lemma seen_absent_on_the_wire k m resource last :
  honest (wires k m) -> seen_absent resource last -> ev_answer last = client_planes k m (ev_call last) ->
  absent_on_the_wire resource (wires k m).
Proof.
  intros Hh (e & He & Hl) Ha. unfold absent_on_the_wire. destruct (is_serverless resource); subst last; cbn in Ha;
    unfold DirectProvider.answered_by in Ha; destruct (run _ 0 _) as [res tr] eqn:E; cbn in Ha; subst res;
    pose proof E as E'; eapply read_not_found in E'; try done.
  1, 3: destruct E' as (s & earlier & resp & Hs & Hsend & Hst); by exists s, earlier, resp, e, tr.
  - apply guarded_found, guarded_endpoint.
  - apply guarded_found, guarded_pod.
Qed.

(** C29. Service, provider and REST client compose: over the real provider and the real
    client, a lease that records a resource is written TERMINATED only after a read of
    that exact resource was answered with status 404 on the wire. Of the outside it is
    assumed only that other processes keep the table well formed, and that the HTTP
    library raises none of the package's own errors. *)
Theorem ollama_terminated_was_absent_on_the_wire `{Digest} `{ErrorText} oc base ops r s lease cs :
  (forall n t, table_ok t -> table_ok (oh_interfere base n t)) ->
  (forall n t, table_ok t -> table_evolves t (oh_interfere base n t)) ->
  (forall k m, honest (wires k m)) ->
  In r (history (backend oc base client_planes) ops first_world) -> In (OCas lease cs, s) (run_calls r) ->
  writes_state cs = Some O_TERMINATED -> is_some (ol_provider_resource_id lease) = true ->
  exists resource k m, resource_from_lease lease = Ok resource /\ absent_on_the_wire resource (wires k m).
Proof.
  intros Ht He Hh Hr Hc Hs Hid. pose proof (client_relies oc base Ht He) as Hrely.
  destruct (ollama_terminated_absent oc base client_planes ops r s lease cs Hrely Hr Hc Hs Hid)
    as (resource & k & before & last & Hres & Hrun & Habs).
  pose proof (run_answers _ _ _ _ _ Hrun) as Hans. apply Forall_app in Hans as [_ Hans].
  apply Forall_inv in Hans as [m Hm]. exists resource, k, m. split; [done|].
  by eapply seen_absent_on_the_wire.
Qed.

End Wire.

(** ** A known failure that is not one *)

(** The body of a 201 that cannot be read as an endpoint. *)
Definition nameless : wire_response :=
  {| wr_status := 201; wr_headers := []; wr_content := true; wr_json := Some (JObj [("id", JStr "endpoint-1")]) |}.

Definition ga (request : EndpointCreateRequest) : Prop := er_resource_schema_version request = RESOURCE_GA.

(** A creation of an endpoint that the control plane answered 201 fails with a plain
    manager error when the body is no endpoint: the caller takes it for a creation that
    did not happen. The creation of a Pod calls the same answer ambiguous. *)
Theorem accepted_endpoint_reported_failed max_safe_retries request :
  ga request ->
  run (fun _ c => match c as c return result (wire_answer c) with
                  | WSend _ => Ok nameless | WSleep _ => Ok tt | WNow => Ok 0 end)
    0 (create_endpoint max_safe_retries request) =
    (Exc RunPodManagerError, [@Event _ wire_answer (WSend (sent_request "POST" "/serverless" None (Some (create_payload request)))) (Ok nameless)]) /\
  created_pod (Some [("id", JStr "pod-1")]) = Exc RunPodAmbiguousResultError.
Proof.
  intros Hga. split; [|done]. unfold create_endpoint. rewrite bool_decide_true by done. cbn [require pure pbind].
  destruct max_safe_retries; reflexivity.
Qed.

(** ** A sample wire *)

Module RestScenario.

Import Scenario.Scenario.
#[export] Existing Instance OllamaScenario.sample_text.

Definition json_answer (status : Z) (v : json) : wire_response :=
  {| wr_status := status; wr_headers := []; wr_content := true; wr_json := Some v |}.

Definition empty_answer (status : Z) : wire_response :=
  {| wr_status := status; wr_headers := []; wr_content := false; wr_json := None |}.

Definition offer_json : json := JObj
  [("id", JStr "NVIDIA L4"); ("name", JStr "L4"); ("manufacturer", JStr "NVIDIA"); ("memory", JInt 24);
   ("secure", JBool true); ("community", JBool false);
   ("price", JObj [("secure", JFloat (Fin 5 (-1))); ("community", JFloat (Fin 4 (-1)))]);
   ("maxCount", JObj [("secure", JInt 8); ("community", JInt 0)]); ("availability", JStr "HIGH")].

Definition chat_pod : string := ollama_resource_name "chat-1".

Definition pod_json (id name : string) : json := JObj
  [("id", JStr id); ("name", JStr name); ("status", JStr "RUNNING");
   ("env", JObj [("TOKEN", JStr "t-1")]);
   ("runtime", JObj [("ports", JList [JObj [("private", JInt 11434); ("type", JStr "http")]])])].

Definition page_json (items : list json) (next : option string) : json := JObj
  [("pods", JList items);
   ("pagination", JObj [("hasNextPage", JBool (is_some next)); ("nextCursor", opt_json JStr next)])].

(** The control plane: one Pod, gone after the first call of an effect; the account lists
    two pages. *)
Definition answer_to (late : bool) (create_status : Z) (q : http_request) : wire_response :=
  if bool_decide (hq_method q = "POST") then
    if bool_decide (hq_resource q = "pods") then
      if create_status =? 201 then json_answer 201 (pod_json "pod-0001" chat_pod) else empty_answer create_status
    else empty_answer 204
  else if bool_decide (hq_resource q = "catalog/gpus") then json_answer 200 (JObj [("gpus", JList [offer_json])])
  else if bool_decide (hq_resource q = "pods") then
    match hq_params q with
    | Some params =>
        match get_field params "cursor" with
        | JStr _ => json_answer 200 (page_json [pod_json "pod-0002" "other"] None)
        | _ => json_answer 200 (page_json [pod_json "pod-0001" chat_pod] (Some "page-2"))
        end
    | None => empty_answer 404
    end
  else if late then empty_answer 404
  else json_answer 200 (pod_json "pod-0001" chat_pod).

Definition wire (late : bool) (create_status : Z) : oracle wire_answer := fun _ c =>
  match c as c return result (wire_answer c) with
  | WSend q => Ok (answer_to late create_status q)
  | WSleep _ => Ok tt
  | WNow => Ok (at_ 0)
  end.

(** A first answer that says to try again. *)
Definition busy : oracle wire_answer := fun n c =>
  match c as c return result (wire_answer c) with
  | WSend q => Ok (match n with O => empty_answer 503 | S _ => answer_to false 201 q end)
  | WSleep _ => Ok tt
  | WNow => Ok (at_ 0)
  end.

Definition wires : nat -> nat -> oracle wire_answer := fun _ n => wire (match n with O => false | S _ => true end) 201.
Definition rest : nat -> oracle capacity_answer := fun _ => ProviderScenario.plane.

Lemma wires_honest k m : honest (wires k m).
Proof. intros n c e. by destruct c. Qed.

Definition host : OllamaHost := backend ProviderScenario.provider OllamaScenario.host (client_planes 2 10 wires rest).

Definition last_run : operation_run :=
  List.nth 1 (history host ProviderScenario.life first_world) (run_operation host DoReconcile first_world).

(** The terminal write of the release: the lease, the columns and the world. *)
Definition terminal_lease : OllamaLease :=
  match nth_error (run_calls last_run) 6 with Some (OCas l _, _) => l | _ => requested_lease ProviderScenario.request 0 end.
Definition terminal_columns : list column :=
  match nth_error (run_calls last_run) 6 with Some (OCas _ cs, _) => cs | _ => [] end.
Definition terminal_world : OllamaWorld :=
  match nth_error (run_calls last_run) 6 with Some (_, s) => s | _ => first_world end.

Lemma last_run_in : In last_run (history host ProviderScenario.life first_world).
Proof. right. by left. Qed.

Definition environ : string -> option string := fun _ => None.

(** The creation of the scenario's attempt, refused with 400. *)
Definition refusing : Provider.DirectProvider := direct_provider 2 10 environ (wire false 400).

Definition started : GPUProfile * string := effective.

End RestScenario.

Import Scenario.Scenario RestScenario.

Lemma ollama_terminated_was_absent_on_the_wire_witness :
  exists r k m, resource_from_lease terminal_lease = Ok r /\ absent_on_the_wire 2 r (RestScenario.wires k m).
Proof.
  refine (ollama_terminated_was_absent_on_the_wire 2 10 RestScenario.wires RestScenario.rest ProviderScenario.provider
    OllamaScenario.host ProviderScenario.life last_run terminal_world terminal_lease terminal_columns _ _ wires_honest last_run_in _ _ _).
  - done.
  - intros n t Ht. exact (orl_evolves _ OllamaScenario.host_rely n t Ht).
  - apply (nth_error_In _ 6). vm_compute. reflexivity.
  - vm_compute. reflexivity.
  - vm_compute. reflexivity.
Defined.

Lemma requests_repeat_only_reads_witness :
  exists earlier last, sends (snd (run busy 0 (RestClient.request 2 "GET" "/catalog/gpus" None None [200] false))) =
    map (pair (sent_request "GET" "/catalog/gpus" None None)) (earlier ++ [last])%list /\ (length earlier <= 2)%nat.
Proof.
  destruct (requests_repeat_only_reads 2 "GET" "/catalog/gpus" None None [200] false busy 0 _ _ (surjective_pairing _))
    as (earlier & last & Hs & Hl & _).
  by exists earlier, last.
Defined.

Lemma rejected_creation_took_no_pod_witness :
  Forall (fun s => refused (snd s))
    (mutations (snd (run (wire false 400) 0 (start_pod 2 environ (fst started)
       (options_of {| Provider.sm_name := "pod-name"; Provider.sm_companion_id := "owner-0001";
                      Provider.sm_purpose := snd started; Provider.sm_env_overrides := None |}))))).
Proof.
  refine (proj2 (@rejected_creation_took_no_pod 2 10 environ Scenario.sample_digest (wire false 400) profile_h100 "pod-name"
    "owner-0001" None (Some secret_spec) (at_ 100) (fst started) (snd started) (RunPodAPIError (Some 400)) _ _ _ _ _)).
  - vm_compute. reflexivity.
  - vm_compute. reflexivity.
  - reflexivity.
  - reflexivity.
  - intros id. discriminate.
Defined.

Lemma absent_name_is_absent_witness :
  exists pages segments,
    Forall2 (page_read 2 "/pods" "pods" [("includeClusterPods", JBool true)]) pages segments /\
    Forall (fun item => get_field item "name" <> JStr "pod-name") (page_items pages).
Proof.
  destruct (absent_name_is_absent 2 10 environ (wire false 201) "pod-name" ltac:(vm_compute; reflexivity))
    as (pages & segments & ids & _ & Hp & _ & _ & _ & _ & _ & Hn).
  by exists pages, segments.
Defined.

Lemma sanitized_hides_secrets_witness :
  let pod env secret := [("id", JStr "pod-1"); ("env", JObj [("TOKEN", JStr env)]); ("apiKey", JStr secret)] in
  sanitize_resource_payload (pod "a" "b") = sanitize_resource_payload (pod "c" "d").
Proof.
  intros pod. refine (proj1 (sanitized_hides_secrets (pod "a" "b") (pod "c" "d") _)).
  apply AlikeObj; [done|done|]. repeat constructor; done.
Defined.
