(* ===== verification/CpuCatalog.v ===== *)
(** CPU catalog facts and explicit Pod matching ([cpu_catalog.py]): the offers of one
    product and count as one answer of the catalog lists them, the client's [list_cpus]
    that binds them to the query and its time, and the match of one Pod request against
    them, which reserves nothing. *)
From stdpp Require Import gmap strings.
From S2P Require Import Prelude PyStr Enums Errors PyDecimal PyFloat PyTime Json ContractsBase CodecBase Billing Placement PodBilling Provider Prog RestModels RestClient.

#[local] Open Scope Z_scope.
#[local] Open Scope prog_scope.

Import Billing.Billing RestModels.RestModels.

Module CpuCatalog.

(** ** Readers *)

(** A vCPU count of the catalog: a power of two of at least two. *)
Definition vcpu_count_ok (count : Z) : bool := (2 <=? count) && (Z.land count (count - 1) =? 0).

(** [validate_cpu_query]. *)
Definition validate_cpu_query (vcpu_count : Z) : result unit := require (vcpu_count_ok vcpu_count) ValueError.

(** [_text], [_number] and [_availability]. *)
Definition catalog_text (v : json) : result string :=
  match v with
  | JStr s => run! require (negb (bool_decide (s = ""))) ValueError then Ok s
  | _ => Exc ValueError
  end.

Definition catalog_number (positive : bool) (v : json) : result (option Decimal) :=
  match v with
  | JNull => Ok None
  | _ =>
      let! number := of_option (number_decimal v) ValueError in
      run! require (is_finite number && dle dzero number && negb (positive && deqb number dzero)) ValueError then
      Ok (Some number)
  end.

Definition catalog_availability (v : json) : result (option Availability) :=
  match v with
  | JNull => Ok None
  | JStr s => let! a := of_option (of_value s) ValueError in Ok (Some a)
  | _ => Exc ValueError
  end.

(** [v[key]], and [value.get(key, other)]. *)
Definition subscript (v : json) (key : string) : result json :=
  match v with
  | JObj fields =>
      run! require (bool_decide (key ∈ keys fields)) KeyError then Ok (get_field fields key)
  | _ => Exc TypeError
  end.

Definition get_or (value : payload) (key : string) (other : json) : json :=
  if bool_decide (key ∈ keys value) then get_field value key else other.

(** ** Offers *)

Record CpuDataCenter : Set := {
  dc_id : string;
  dc_availability : option Availability
}.

(** Omitted prices or stock stay unknown. *)
Record CpuOffer : Set := {
  co_id : string;
  co_name : string;
  co_group : string;
  co_min_vcpu : Z;
  co_max_vcpu : Z;
  co_ram_gb_per_vcpu : Decimal;
  co_secure_price_per_vcpu : option Decimal;
  co_serverless_price_per_vcpu : option Decimal;
  co_availability : option Availability;
  co_data_centers : list CpuDataCenter
}.

Definition unique_ids (ids : list string) : bool := bool_decide (NoDup ids).

Definition read_data_center (item : json) : result CpuDataCenter :=
  match item with
  | JObj fields =>
      let! raw_id := subscript item "id" in
      let! id := catalog_text raw_id in
      let! availability := catalog_availability (get_field fields "availability") in
      Ok {| dc_id := id; dc_availability := availability |}
  | _ => Exc TypeError
  end.

(** The bounds [value["vcpu"]]: two integers that are not inverted, the lower at least two. *)
Definition read_bounds (value : payload) : result (Z * Z) :=
  let! bounds := subscript (JObj value) "vcpu" in
  let! minimum := subscript bounds "min" in
  let! maximum := subscript bounds "max" in
  match minimum, maximum with
  | JInt low, JInt high =>
      run! require ((2 <=? low) && (low <=? high)) ValueError then Ok (low, high)
  | _, _ => Exc ValueError
  end.

Definition read_text (value : payload) (key : string) : result string :=
  let! raw := subscript (JObj value) key in catalog_text raw.

(** The body of [CpuOffer.from_dict]. *)
Definition read_offer (value : payload) : result CpuOffer :=
  let! '(minimum, maximum) := read_bounds value in
  let! raw_ram := subscript (JObj value) "ramGbPerVcpu" in
  let! ram := catalog_number true raw_ram in
  let! ram := of_option ram ValueError in
  let! price := match get_or value "price" (JObj []) with JObj fields => Ok fields | _ => Exc TypeError end in
  let! raw_centers := match get_or value "dataCenters" (JList []) with JList l => Ok l | _ => Exc TypeError end in
  let! centers := rmap read_data_center raw_centers in
  run! require (unique_ids (map dc_id centers)) ValueError then
  let! id := read_text value "id" in
  let! name := read_text value "name" in
  let! group := read_text value "group" in
  let! secure := catalog_number false (get_field price "securePerVcpu") in
  let! serverless := catalog_number false (get_field price "serverlessPerVcpu") in
  let! availability := catalog_availability (get_field value "availability") in
  Ok {| co_id := id; co_name := name; co_group := group; co_min_vcpu := minimum; co_max_vcpu := maximum;
        co_ram_gb_per_vcpu := ram; co_secure_price_per_vcpu := secure;
        co_serverless_price_per_vcpu := serverless; co_availability := availability;
        co_data_centers := centers |}.

(** [except (KeyError, TypeError, ValueError, AttributeError)]. *)
Definition is_reading_error (e : exn) : bool :=
  match e with KeyError | TypeError | ValueError | AttributeError => true | _ => false end.

(** [CpuOffer.from_dict]. *)
Definition cpu_offer_from_dict (value : payload) : result CpuOffer :=
  match read_offer value with
  | Exc e => Exc (if is_reading_error e then RunPodManagerError else e)
  | r => r
  end.

(** ** Snapshots *)

(** One product, one count, and when they were asked about. *)
Record CpuCatalogSnapshot : Set := {
  cs_product : ComputeProduct;
  cs_vcpu_count : Z;
  cs_observed_at : instant;
  cs_offers : list CpuOffer
}.

(** [CpuCatalogSnapshot.from_response]. *)
Definition snapshot_from_response (value : payload) (product : ComputeProduct) (vcpu_count : Z)
  (observed_at : instant) : result CpuCatalogSnapshot :=
  run! validate_cpu_query vcpu_count then
  let! raw := list_envelope value "cpus" in
  let! offers := rmap cpu_offer_from_dict raw in
  run! require (unique_ids (map co_id offers)) RunPodManagerError then
  Ok {| cs_product := product; cs_vcpu_count := vcpu_count; cs_observed_at := observed_at;
        cs_offers := offers |}.

(** [RunpodControlPlaneClient.list_cpus]: the time is taken before the catalog is read. *)
Definition cpu_params (product : ComputeProduct) (vcpu_count : Z) : payload :=
  [("include", JStr "AVAILABILITY"); ("product", JStr (product_value product));
   ("vcpuCount", JInt vcpu_count)].

Definition list_cpus (max_safe_retries : nat) (product : ComputeProduct) (vcpu_count : Z)
  : wprog CpuCatalogSnapshot :=
  run+ pure (validate_cpu_query vcpu_count) then
  let+ observed_at := wcall WNow in
  let+ value := get_json max_safe_retries "/catalog/cpus" (Some (cpu_params product vcpu_count)) in
  pure (snapshot_from_response value product vcpu_count observed_at).

(** ** Matching *)

(** A match is no reservation and no accepted quote. *)
Record CpuPodCatalogMatch : Set := {
  cm_cpu_id : string;
  cm_vcpu_count : Z;
  cm_data_center_ids : list string;
  cm_ram_gb : Decimal;
  cm_compute_cost_per_hr : Decimal;
  cm_observed_at : instant
}.

(** [_scale]: a product in a context of its own, wide enough for both operands. *)
Definition scale (number : Decimal) (count : Z) : Decimal :=
  match number with
  | Fin c _ => dmul (Z.max 28 (ndigits c + ndigits count)) number (of_int count)
  | other => other
  end.

(** The [ranks] of [match_pod]. *)
Definition stock_rank (a : Availability) : Z :=
  match a with AVAIL_NONE => 0 | AVAIL_LOW => 1 | AVAIL_MEDIUM => 2 | AVAIL_HIGH => 3 end.

(** Known stock of at least the floor. *)
Definition stocked (floor : Availability) (a : option Availability) : bool :=
  match a with Some a => stock_rank floor <=? stock_rank a | None => false end.

(** The dictionary [centers]: of entries with one key the last one counts. *)
Definition center_stock (offer : CpuOffer) : gmap string (option Availability) :=
  list_to_map (reverse (map (fun c => (dc_id c, dc_availability c)) (co_data_centers offer))).

Definition find_offer (offers : list CpuOffer) (cpu_id : string) : option CpuOffer :=
  List.find (fun o => bool_decide (co_id o = cpu_id)) offers.

(** [CpuCatalogSnapshot.match_pod]. *)
Definition match_pod (s : CpuCatalogSnapshot) (r : CpuPodCreateRequest) (now max_age : Z)
  (minimum_availability : Availability) : result CpuPodCatalogMatch :=
  run! cpu_pod_create_payload r then
  run! require (0 <? max_age) ValueError then
  run! require (negb (bool_decide (minimum_availability = AVAIL_NONE))) ValueError then
  let age := now - cs_observed_at s in
  run! require ((0 <=? age) && (age <=? max_age)) RunPodManagerError then
  run! require (bool_decide (cs_product s = POD) && (cs_vcpu_count s =? uq_vcpu_count r)) RunPodManagerError then
  run! require (bool_decide (uq_cloud r = SECURE)) RunPodManagerError then
  let! offer := of_option (find_offer (cs_offers s) (uq_cpu_id r)) RunPodManagerError in
  run! require ((co_min_vcpu offer <=? uq_vcpu_count r) && (uq_vcpu_count r <=? co_max_vcpu offer))
    RunPodManagerError then
  run! require (stocked minimum_availability (co_availability offer)) RunPodManagerError then
  run! require
    (negb (bool_decide (uq_data_center_ids r = [])) &&
     forallb (fun id => stocked minimum_availability (mjoin (center_stock offer !! id))) (uq_data_center_ids r))
    RunPodManagerError then
  let! rate := of_option (co_secure_price_per_vcpu offer) RunPodManagerError in
  Ok {| cm_cpu_id := co_id offer; cm_vcpu_count := uq_vcpu_count r;
        cm_data_center_ids := uq_data_center_ids r;
        cm_ram_gb := scale (co_ram_gb_per_vcpu offer) (uq_vcpu_count r);
        cm_compute_cost_per_hr := scale rate (uq_vcpu_count r);
        cm_observed_at := cs_observed_at s |}.

End CpuCatalog.
