(* ===== verification/CpuPlanning.v ===== *)
(** CPU acquisition plans ([cpu_environment.py]): the configured profile, the operator's
    cost policy, the plan that binds a request to both and to one catalog match, the
    planner, and the readiness observations of an original Pod ([cpu_realized.py]).
    The environment request and the field types of its SDK are parameters. *)
From stdpp Require Import gmap strings.
From S2P Require Import Prelude PyStr Enums Errors PyDecimal PyFloat PyTime Json ContractsBase CodecBase CatalogRequest Billing OllamaProvider Prog RestModels RestClient CpuCatalog.

#[local] Open Scope Z_scope.
#[local] Open Scope prog_scope.

Import Billing.Billing RestModels.RestModels CpuCatalog.CpuCatalog.

(** ** The SDK *)

(** What the source reads of [kestrel_sdk]'s [EnvironmentRequest], with the validation and
    the digest it calls, and the field types of its contracts. *)
Class EnvironmentSdk := {
  EnvironmentRequest : Set;
  eq_provider_id : EnvironmentRequest -> string;
  eq_profile_id : EnvironmentRequest -> string;
  eq_image : EnvironmentRequest -> string;
  eq_region : EnvironmentRequest -> option string;
  eq_location : EnvironmentRequest -> string;
  eq_surface : EnvironmentRequest -> string;
  eq_required_capabilities : EnvironmentRequest -> list string;
  eq_requested_at : EnvironmentRequest -> instant;
  eq_expires_at : EnvironmentRequest -> instant;
  eq_ready_timeout_seconds : EnvironmentRequest -> Z;
  eq_max_hourly_cost_usd : EnvironmentRequest -> Decimal;
  eq_max_total_cost_usd : EnvironmentRequest -> Decimal;
  eq_digest : EnvironmentRequest -> string;
  request_model_validate : EnvironmentRequest -> result EnvironmentRequest;
  Identifier : string -> bool;
  PinnedImage : string -> bool;
  ImageDigest : string -> bool;
  PositiveInt : Z -> bool;
  USD : Decimal -> bool
}.

Module CpuPlanning.

(** ** Profiles and cost policies *)

(** The exact requested shape and image. *)
Record CpuEnvironmentProfile : Set := {
  ep_provider_id : string;
  ep_profile_id : string;
  ep_image : string;
  ep_cpu_id : string;
  ep_vcpu_count : Z;
  ep_data_center_id : string;
  ep_disk_gb : Z;
  ep_max_lifetime_seconds : Z;
  ep_cleanup_grace_seconds : Z
}.

(** An explicit estimate of what the compute price does not cover. *)
Record CpuNonComputeCostPolicy : Set := {
  np_policy_id : string;
  np_provider_id : string;
  np_profile_id : string;
  np_profile_sha256 : string;
  np_disk_gb : Z;
  np_data_center_id : string;
  np_covered_components : gset string;
  np_observed_at : instant;
  np_expires_at : instant;
  np_disk_transfer_cleanup_hourly_usd : Decimal;
  np_disk_transfer_cleanup_fixed_usd : Decimal
}.

(** [model_dump(mode="json")] of both. *)
Class ModelDump := {
  dump_profile : CpuEnvironmentProfile -> payload;
  dump_policy : CpuNonComputeCostPolicy -> payload
}.

(** [_utc_iso]. *)
Definition utc_iso (at_ : instant) : result string :=
  run! require (bool_decide (representable at_)) ValueError then Ok (iso_datetime at_).

(** [_digest]. *)
Definition cpu_digest `{Digest} (kind : string) (body : payload) : string :=
  json_sha256 (JObj [("kind", JStr kind); ("version", JInt 1); ("payload", JObj body)]).

(** [_require_catalog_age]. *)
Definition require_catalog_age (value : Z) : result unit :=
  require ((0 <? value) && (value <=? seconds 60)) ValueError.

(** [_require_bounded_decimal]. *)
Definition bounded_decimal (positive : bool) (value : Decimal) : bool :=
  match value with
  | Fin c e =>
      dle dzero value && negb (positive && deqb value dzero) &&
      (ndigits c <=? 36) && (-12 <=? e) && (ndigits c + e <=? 24)
  | _ => false
  end.

Definition require_bounded_decimal (positive : bool) (value : Decimal) : result unit :=
  require (bounded_decimal positive value) ValueError.

(** [payload[key] = value]. *)
Fixpoint override (key : string) (value : json) (body : payload) : payload :=
  match body with
  | [] => [(key, value)]
  | (k, v) :: rest => if bool_decide (k = key) then (k, value) :: rest else (k, v) :: override key value rest
  end.

Definition COVERED_COMPONENTS : list string := ["container_disk"; "transfer"; "cleanup"].

Definition CPU_CAPABILITIES : list string :=
  ["screenshot"; "click"; "type"; "key"; "scroll"; "wait"; "navigate"; "takeover"].

Section Planning.
Context {SDK : EnvironmentSdk} {DG : Digest} {MD : ModelDump} (ambient : Z).

(** The validation of [CpuEnvironmentProfile], [cpu_shape] included. *)
Definition profile_ok (p : CpuEnvironmentProfile) : bool :=
  forallb Identifier [ep_provider_id p; ep_profile_id p; ep_cpu_id p; ep_data_center_id p] &&
  PinnedImage (ep_image p) &&
  forallb PositiveInt [ep_vcpu_count p; ep_disk_gb p; ep_max_lifetime_seconds p; ep_cleanup_grace_seconds p] &&
  (ep_max_lifetime_seconds p <=? 7 * 86400) && (ep_cleanup_grace_seconds p <=? 86400) &&
  vcpu_count_ok (ep_vcpu_count p).

Definition profile_model_validate (p : CpuEnvironmentProfile) : result CpuEnvironmentProfile :=
  run! require (profile_ok p) ValueError then Ok p.

(** [CpuEnvironmentProfile.require_request]. *)
Definition require_request (p : CpuEnvironmentProfile) (r : EnvironmentRequest) (at_ : instant) : result unit :=
  run! require
    (bool_decide (eq_provider_id r = ep_provider_id p) && bool_decide (eq_profile_id r = ep_profile_id p) &&
     bool_decide (eq_image r = ep_image p) && bool_decide (eq_region r = Some (ep_data_center_id p)))
    ResourceUnsupported then
  run! require (bool_decide (eq_location r = "remote") && bool_decide (eq_surface r = "browser"))
    ResourceUnsupported then
  run! require (forallb (fun c => bool_decide (c ∈ CPU_CAPABILITIES)) (eq_required_capabilities r))
    ResourceUnsupported then
  run! require ((eq_requested_at r <=? at_) && (at_ <? eq_expires_at r)) ResourceUnsupported then
  run! require (eq_expires_at r - eq_requested_at r <=? seconds (ep_max_lifetime_seconds p))
    ResourceUnsupported then
  require (at_ <? eq_expires_at r - seconds (eq_ready_timeout_seconds r)) ResourceUnsupported.

(** [CpuEnvironmentProfile.digest]. *)
Definition profile_digest (p : CpuEnvironmentProfile) : string :=
  cpu_digest "runpod.cpu-environment-profile" (dump_profile p).

(** [name="kestrel-cpu-" + request.digest()[:32]]. *)
Definition cpu_pod_name (r : EnvironmentRequest) : string := "kestrel-cpu-" ++ CatalogRequest.take 32 (eq_digest r).

(** [CpuEnvironmentProfile._pod_request]. *)
Definition cpu_pod_intent (p : CpuEnvironmentProfile) (r : EnvironmentRequest) : CpuPodCreateRequest := {|
  uq_name := cpu_pod_name r; uq_image := ep_image p; uq_cloud := SECURE; uq_disk_gb := ep_disk_gb p;
  uq_ports := []; uq_env := []; uq_args := None; uq_registry_id := None;
  uq_data_center_ids := [ep_data_center_id p]; uq_mounts := None; uq_global_networking := false;
  uq_cpu_id := ep_cpu_id p; uq_vcpu_count := ep_vcpu_count p
|}.

Definition cpu_pod_request (p : CpuEnvironmentProfile) (r : EnvironmentRequest) : result CpuPodCreateRequest :=
  run! check_cpu_pod_create (cpu_pod_intent p r) then Ok (cpu_pod_intent p r).

(** The validation of [CpuNonComputeCostPolicy]: its fields, [bounded_amount] and
    [coverage_window]. *)
Definition policy_ok (n : CpuNonComputeCostPolicy) : bool :=
  forallb Identifier [np_policy_id n; np_provider_id n; np_profile_id n; np_data_center_id n] &&
  ImageDigest (np_profile_sha256 n) && PositiveInt (np_disk_gb n) &&
  forallb (fun a => USD a && bounded_decimal false a)
    [np_disk_transfer_cleanup_hourly_usd n; np_disk_transfer_cleanup_fixed_usd n] &&
  bool_decide (representable (np_observed_at n)) && bool_decide (representable (np_expires_at n)) &&
  (np_observed_at n <? np_expires_at n) &&
  bool_decide (np_covered_components n = list_to_set COVERED_COMPONENTS).

Definition policy_model_validate (n : CpuNonComputeCostPolicy) : result CpuNonComputeCostPolicy :=
  run! require (policy_ok n) ValueError then Ok n.

(** [CpuNonComputeCostPolicy.digest]. *)
Definition policy_digest (n : CpuNonComputeCostPolicy) : result string :=
  let! hourly := billing_identity_amount (np_disk_transfer_cleanup_hourly_usd n) in
  let! fixed := billing_identity_amount (np_disk_transfer_cleanup_fixed_usd n) in
  let! observed := utc_iso (np_observed_at n) in
  let! expires := utc_iso (np_expires_at n) in
  Ok (cpu_digest "runpod.cpu-noncompute-policy"
    (override "expires_at" (JStr expires)
      (override "observed_at" (JStr observed)
        (override "disk_transfer_cleanup_fixed_usd" (JStr fixed)
          (override "disk_transfer_cleanup_hourly_usd" (JStr hourly)
            (override "covered_components"
              (jstrs (map fst (sort_keys (map (fun c => (c, tt)) (elements (np_covered_components n))))))
              (dump_policy n))))))).

(** [CpuNonComputeCostPolicy.require_coverage]. *)
Definition require_coverage (n : CpuNonComputeCostPolicy) (r : EnvironmentRequest) (p : CpuEnvironmentProfile)
  (at_ : instant) : result unit :=
  run! require
    (bool_decide (np_provider_id n = ep_provider_id p) && bool_decide (np_profile_id n = ep_profile_id p) &&
     bool_decide (np_profile_sha256 n = profile_digest p) && (np_disk_gb n =? ep_disk_gb p) &&
     bool_decide (np_data_center_id n = ep_data_center_id p) &&
     bool_decide (np_covered_components n = list_to_set COVERED_COMPONENTS)) ResourceUnsupported then
  run! require ((np_observed_at n <=? at_) && (at_ <? np_expires_at n)) ResourceUnsupported then
  require (seconds (ep_cleanup_grace_seconds p) <=? np_expires_at n - eq_expires_at r) ResourceUnsupported.

(** ** Plans *)

(** [rate.as_integer_ratio()]: in lowest terms. *)
Definition as_integer_ratio (rate : Decimal) : Z * Z :=
  match rate with
  | Fin c e => let '(n, d) := ratio c e in (n / Z.gcd n d, d / Z.gcd n d)
  | _ => (0, 1)
  end.

(** [_duration_cost]: the ceiling at twelve decimals of the rate over a duration in
    microseconds. *)
Definition duration_cost (rate : Decimal) (micros : Z) : Decimal :=
  let '(numerator, denominator) := as_integer_ratio rate in
  let denominator := denominator * 3600000000 in
  let scaled := numerator * micros * p10 12 / denominator in
  let remainder := (numerator * micros * p10 12) mod denominator in
  Fin (scaled + (if remainder =? 0 then 0 else 1)) (-12).

Record CpuEnvironmentAcquisitionPlan : Set := {
  pl_request : EnvironmentRequest;
  pl_profile : CpuEnvironmentProfile;
  pl_noncompute : CpuNonComputeCostPolicy;
  pl_catalog : CpuPodCatalogMatch;
  pl_planned_at : instant;
  pl_expires_at : instant;
  pl_catalog_max_age : Z
}.

(** [ram_gb != ram_gb.to_integral_value()], negated. *)
Definition is_integral (d : Decimal) : bool :=
  match d with
  | Fin c e => (0 <=? e) || (c mod p10 (- e) =? 0)
  | _ => false
  end.

(** [__post_init__]: the retained facts are validated again, then compared. *)
Definition make_plan (r : EnvironmentRequest) (p : CpuEnvironmentProfile) (n : CpuNonComputeCostPolicy)
  (c : CpuPodCatalogMatch) (planned_at expires_at : instant) (catalog_max_age : Z)
  : result CpuEnvironmentAcquisitionPlan :=
  let! r := request_model_validate r in
  let! p := profile_model_validate p in
  let! n := policy_model_validate n in
  run! require_catalog_age catalog_max_age then
  run! require_request p r planned_at then
  run! require_coverage n r p planned_at then
  run! require
    (bool_decide (cm_cpu_id c = ep_cpu_id p) && (cm_vcpu_count c =? ep_vcpu_count p) &&
     bool_decide (cm_data_center_ids c = [ep_data_center_id p])) ValueError then
  run! require_bounded_decimal true (cm_ram_gb c) then
  run! require_bounded_decimal true (cm_compute_cost_per_hr c) then
  run! require (is_integral (cm_ram_gb c)) ValueError then
  run! require
    ((cm_observed_at c <=? planned_at) && (planned_at <? expires_at) &&
     (expires_at <=? Z.min (Z.min (eq_expires_at r) (np_expires_at n))
        (Z.min (cm_observed_at c + catalog_max_age)
           (eq_expires_at r - seconds (eq_ready_timeout_seconds r))))) ValueError then
  Ok {| pl_request := r; pl_profile := p; pl_noncompute := n; pl_catalog := c; pl_planned_at := planned_at;
        pl_expires_at := expires_at; pl_catalog_max_age := catalog_max_age |}.

(** [all_in_hourly_usd]. *)
Definition all_in_hourly_usd (pl : CpuEnvironmentAcquisitionPlan) : result Decimal :=
  exact_decimal_sum ambient
    [cm_compute_cost_per_hr (pl_catalog pl); np_disk_transfer_cleanup_hourly_usd (pl_noncompute pl)].

(** The admitted lifetime and the cleanup grace, in microseconds. *)
Definition priced_duration (pl : CpuEnvironmentAcquisitionPlan) : Z :=
  eq_expires_at (pl_request pl) - eq_requested_at (pl_request pl) +
  seconds (ep_cleanup_grace_seconds (pl_profile pl)).

(** [estimated_total_usd]. *)
Definition estimated_total_usd (pl : CpuEnvironmentAcquisitionPlan) : result Decimal :=
  let! hourly := all_in_hourly_usd pl in
  exact_decimal_sum ambient
    [duration_cost hourly (priced_duration pl); np_disk_transfer_cleanup_fixed_usd (pl_noncompute pl)].

(** [CpuEnvironmentAcquisitionPlan.digest]. *)
Definition plan_digest (pl : CpuEnvironmentAcquisitionPlan) : result string :=
  let! noncompute := policy_digest (pl_noncompute pl) in
  let! ram := billing_identity_amount (cm_ram_gb (pl_catalog pl)) in
  let! compute := billing_identity_amount (cm_compute_cost_per_hr (pl_catalog pl)) in
  let! hourly := all_in_hourly_usd pl in
  let! hourly := billing_identity_amount hourly in
  let! total := estimated_total_usd pl in
  let! total := billing_identity_amount total in
  let! planned := utc_iso (pl_planned_at pl) in
  let! expires := utc_iso (pl_expires_at pl) in
  let! observed := utc_iso (cm_observed_at (pl_catalog pl)) in
  Ok (cpu_digest "runpod.cpu-environment-plan"
    [("request_sha256", JStr (eq_digest (pl_request pl)));
     ("profile_sha256", JStr (profile_digest (pl_profile pl)));
     ("noncompute_sha256", JStr noncompute);
     ("cpu_id", JStr (cm_cpu_id (pl_catalog pl)));
     ("vcpu_count", JInt (cm_vcpu_count (pl_catalog pl)));
     ("data_center_ids", jstrs (cm_data_center_ids (pl_catalog pl)));
     ("ram_gb", JStr ram); ("compute_hourly_usd", JStr compute); ("all_in_hourly_usd", JStr hourly);
     ("estimated_total_usd", JStr total); ("planned_at", JStr planned); ("expires_at", JStr expires);
     ("catalog_observed_at", JStr observed); ("catalog_max_age_us", JInt (pl_catalog_max_age pl))]).

(** [CpuEnvironmentAcquisitionPlan.pod_request]. *)
Definition plan_pod_request (pl : CpuEnvironmentAcquisitionPlan) (r : EnvironmentRequest)
  (p : CpuEnvironmentProfile) (n : CpuNonComputeCostPolicy) (at_ : instant) : result CpuPodCreateRequest :=
  run! require (bool_decide (eq_digest r = eq_digest (pl_request pl)) &&
                bool_decide (profile_digest p = profile_digest (pl_profile pl))) ResourceUnsupported then
  let! given := policy_digest n in
  let! kept := policy_digest (pl_noncompute pl) in
  run! require (bool_decide (given = kept)) ResourceUnsupported then
  run! require_request (pl_profile pl) (pl_request pl) at_ then
  run! require_coverage (pl_noncompute pl) (pl_request pl) (pl_profile pl) at_ then
  run! require ((pl_planned_at pl <=? at_) && (at_ <? pl_expires_at pl)) ResourceUnsupported then
  let! hourly := all_in_hourly_usd pl in
  run! require (dle hourly (eq_max_hourly_cost_usd (pl_request pl))) ResourceUnsupported then
  let! total := estimated_total_usd pl in
  run! require (dle total (eq_max_total_cost_usd (pl_request pl))) ResourceUnsupported then
  cpu_pod_request (pl_profile pl) (pl_request pl).

(** ** The planner *)

(** [self.client.list_cpus(product=..., vcpu_count=...)] and [clock()]. *)
Inductive plan_call : Set :=
  | PClock
  | PListCpus (product : ComputeProduct) (vcpu_count : Z).

Definition plan_answer (c : plan_call) : Set :=
  match c with PClock => instant | PListCpus _ _ => CpuCatalogSnapshot end.

Abbreviation pprog := (@Prog.prog plan_call plan_answer).

Definition pcall (c : plan_call) : pprog (plan_answer c) := perform c.
Definition settled {A} (r : result A) : pprog A := Done r.

(** What [plan] makes of the snapshot and of the second clock sample. *)
Definition plan_of_snapshot (catalog_max_age : Z) (r : EnvironmentRequest) (p : CpuEnvironmentProfile)
  (n : CpuNonComputeCostPolicy) (initial : instant) (snapshot : CpuCatalogSnapshot) (now : instant)
  : result CpuEnvironmentAcquisitionPlan :=
  run! require_request p r now then
  run! require_coverage n r p now then
  run! require ((initial <=? cs_observed_at snapshot) && (cs_observed_at snapshot <=? now)) ResourceUnsupported then
  run! require (now <? cs_observed_at snapshot + catalog_max_age) ResourceUnsupported then
  let! intent := cpu_pod_request p r in
  let! found := match_pod snapshot intent now catalog_max_age AVAIL_LOW in
  run! require (is_finite (cm_compute_cost_per_hr found) && dlt dzero (cm_compute_cost_per_hr found))
    ResourceUnsupported then
  let! pl := make_plan r p n found now
    (Z.min (Z.min (eq_expires_at r - seconds (eq_ready_timeout_seconds r)) (np_expires_at n))
       (cs_observed_at snapshot + catalog_max_age)) catalog_max_age in
  run! plan_pod_request pl r p n now then
  Ok pl.

(** [CpuEnvironmentPlanner.plan] of a planner with the given freshness. *)
Definition plan (catalog_max_age : Z) (r : EnvironmentRequest) (p : CpuEnvironmentProfile)
  (n : CpuNonComputeCostPolicy) : pprog CpuEnvironmentAcquisitionPlan :=
  let+ r := settled (request_model_validate r) in
  let+ p := settled (profile_model_validate p) in
  let+ n := settled (policy_model_validate n) in
  let+ initial := pcall PClock in
  run+ settled (require_request p r initial) then
  run+ settled (require_coverage n r p initial) then
  let+ snapshot := pcall (PListCpus POD (ep_vcpu_count p)) in
  let+ now := pcall PClock in
  settled (plan_of_snapshot catalog_max_age r p n initial snapshot now).

(** The planner of the production client: [list_cpus] of [clients.py], and its clock. *)
Definition plan_handler (max_safe_retries : nat) (c : plan_call) : wprog (plan_answer c) :=
  match c with
  | PClock => wcall WNow
  | PListCpus product vcpu_count => list_cpus max_safe_retries product vcpu_count
  end.

(** [CpuEnvironmentPlanner(client, catalog_max_age=...).plan(...)]. *)
Definition planner_run (max_safe_retries : nat) (catalog_max_age : Z) (r : EnvironmentRequest)
  (p : CpuEnvironmentProfile) (n : CpuNonComputeCostPolicy) : wprog CpuEnvironmentAcquisitionPlan :=
  run+ pure (require_catalog_age catalog_max_age) then
  interp (plan_handler max_safe_retries) (plan catalog_max_age r p n).

(** ** Readiness *)

Inductive cpu_phase : Set :=
  | PendingPod
  | RunningPod (started_at : instant) (compute_hourly_usd : Decimal).

(** [CpuPodObservation]: the phase carries what only a running Pod has. *)
Record CpuPodObservation : Set := {
  cb_pod_id : string;
  cb_request_sha256 : string;
  cb_observed_at : instant;
  cb_phase : cpu_phase
}.

(** [require_same_incarnation]. *)
Definition started_of (o : CpuPodObservation) : option instant :=
  match cb_phase o with RunningPod started _ => Some started | PendingPod => None end.

Definition require_same_incarnation (o original : CpuPodObservation) : result unit :=
  require
    (bool_decide (cb_pod_id o = cb_pod_id original) &&
     bool_decide (cb_request_sha256 o = cb_request_sha256 original) &&
     bool_decide (started_of o = started_of original) &&
     is_some (started_of o) && is_some (started_of original))
    (CpuPodMismatch (cb_pod_id original)).

(** [type(a) is type(b)]. *)
Definition same_type (a b : json) : bool :=
  match a, b with
  | JNull, JNull | JBool _, JBool _ | JInt _, JInt _ | JFloat _, JFloat _
  | JStr _, JStr _ | JList _, JList _ | JObj _, JObj _ => true
  | _, _ => false
  end.

Definition is_json_int (v : json) : bool := match v with JInt _ => true | _ => false end.
Definition is_json_null (v : json) : bool := match v with JNull => true | _ => false end.

Section Readiness.
Context (pl : CpuEnvironmentAcquisitionPlan) (expected_pod_id : string).

Definition mismatch : exn := CpuPodMismatch expected_pod_id.
Definition unknown_readiness : exn := CpuPodReadinessUnknown expected_pod_id.

(** The dictionary [expected]. *)
Definition expected_fields : payload :=
  [("name", JStr (cpu_pod_name (pl_request pl)));
   ("image", JStr (ep_image (pl_profile pl)));
   ("cloud", JStr "SECURE");
   ("disk", JInt (ep_disk_gb (pl_profile pl)));
   ("dataCenterId", JStr (ep_data_center_id (pl_profile pl)))].

(** The dictionary [empty]. *)
Definition empty_fields : payload :=
  [("ports", JList []); ("env", JObj []); ("mounts", JObj []); ("args", JStr EmptyString); ("registry", JNull);
   ("locked", JBool false); ("template", JNull)].

(** What the Pod's [cpu] must say; [int(ram_gb)]. *)
Definition int_of (d : Decimal) : Z :=
  match d with Fin c e => if 0 <=? e then c * p10 e else Z.quot c (p10 (- e)) | _ => 0 end.

Definition cpu_fields : payload :=
  [("id", JStr (ep_cpu_id (pl_profile pl)));
   ("vcpuCount", JInt (ep_vcpu_count (pl_profile pl)));
   ("memory", JInt (int_of (cm_ram_gb (pl_catalog pl))))].

(** A check of some fields: a known contradiction raises, else whether a fact is missing. *)
Definition checked (contradicted missing : bool) : result bool :=
  run! require (negb contradicted) mismatch then Ok missing.

Definition expected_check (raw : payload) (field : string * json) : result bool :=
  let observed := get_field raw (fst field) in
  checked
    (negb (is_json_null observed) &&
     (negb (py_eq observed (snd field)) || (bool_decide (fst field = "disk") && negb (is_json_int observed))))
    (is_json_null observed).

Definition empty_check (raw : payload) (field : string * json) : result bool :=
  let observed := get_field raw (fst field) in
  if bool_decide (fst field ∈ keys raw) then
    checked (negb (py_eq observed (snd field)) || negb (same_type observed (snd field))) false
  else Ok true.

Definition command_check (raw : payload) (name : string) : result bool :=
  checked
    (bool_decide (name ∈ keys raw) &&
     negb (match get_field raw name with JList [] => true | _ => false end)) false.

Definition variant_check (raw : payload) : result bool :=
  checked (bool_decide ("gpu" ∈ keys raw) || bool_decide ("cluster" ∈ keys raw)) false.

Definition networking_check (observed : json) : result bool :=
  match observed with
  | JNull => Ok true
  | JObj networking =>
      run! require
        (negb (bool_decide ("ip" ∈ keys networking) || bool_decide ("internalDns" ∈ keys networking))) mismatch then
      if bool_decide ("enabled" ∈ keys networking) then
        checked (match get_field networking "enabled" with JBool false => false | _ => true end) false
      else Ok true
  | _ => Exc mismatch
  end.

Definition cpu_field_check (cpu : payload) (field : string * json) : result bool :=
  let observed := get_field cpu (fst field) in
  if is_json_null observed then Ok true
  else checked (negb (py_eq observed (snd field)) || negb (same_type observed (snd field))) false.

(** Checks in order; one missing fact is enough. *)
Fixpoint check_all {A} (check : A -> result bool) (l : list A) : result bool :=
  match l with
  | [] => Ok false
  | a :: rest => let! missing := check a in let! more := check_all check rest in Ok (missing || more)
  end.

Definition cpu_check (observed : json) : result bool :=
  match observed with
  | JNull => Ok true
  | JObj cpu => check_all (cpu_field_check cpu) cpu_fields
  | _ => Exc mismatch
  end.

Definition POD_STATUSES : list string := ["RUNNING"; "PROVISIONING"; "STARTING"].

Definition status_check (observed : json) : result bool :=
  match observed with
  | JNull => Ok true
  | JStr s => checked (negb (bool_decide (s ∈ POD_STATUSES))) false
  | _ => Exc mismatch
  end.

(** Everything up to [if unknown or status is None]: whether a required fact is missing. *)
Definition readback (raw : payload) : result bool :=
  check_all (fun check => check raw)
    [(fun raw => check_all (expected_check raw) expected_fields);
     (fun raw => check_all (empty_check raw) empty_fields);
     (fun raw => check_all (command_check raw) ["cmd"; "entrypoint"]);
     variant_check;
     (fun raw => networking_check (get_field raw "globalNetworking"));
     (fun raw => cpu_check (get_field raw "cpu"));
     (fun raw => status_check (get_field raw "status"))].

(** The rate and the start of a running Pod. *)
Definition running_rate (raw : payload) : result Decimal :=
  let! rate := of_option (number_decimal (get_field raw "cost")) unknown_readiness in
  run! require (is_finite rate && dlt dzero rate) unknown_readiness then
  run! require (dle rate (cm_compute_cost_per_hr (pl_catalog pl))) mismatch then
  Ok rate.

Definition running_start (raw : payload) (at_ : instant) : result instant :=
  match get_field raw "startedAt" with
  | JStr text =>
      let! started := of_option (parse_aware text) unknown_readiness in
      run! require ((pl_planned_at pl <=? started) && (started <=? at_)) unknown_readiness then
      Ok started
  | _ => Exc unknown_readiness
  end.

Definition ready_deadline : instant :=
  Z.min (eq_expires_at (pl_request pl)) (pl_planned_at pl + seconds (eq_ready_timeout_seconds (pl_request pl))).

Definition observation (at_ : instant) (phase : cpu_phase) : CpuPodObservation := {|
  cb_pod_id := expected_pod_id; cb_request_sha256 := eq_digest (pl_request pl); cb_observed_at := at_;
  cb_phase := phase
|}.

Definition is_running (raw : payload) : bool :=
  match get_field raw "status" with JStr s => bool_decide (s = "RUNNING") | _ => false end.

(** [inspect_cpu_readiness]. *)
Definition inspect_cpu_readiness (pod : PodResource) (at_ : instant) : result CpuPodObservation :=
  run! require (negb (bool_decide (expected_pod_id = ""))) ResourceUnsupported then
  let raw := px_raw pod in
  run! require
    (bool_decide (px_id pod = expected_pod_id) &&
     match get_field raw "id" with JStr id => bool_decide (id = expected_pod_id) | _ => false end)
    unknown_readiness then
  run! require (pl_planned_at pl <=? at_) unknown_readiness then
  run! require (at_ <? ready_deadline) mismatch then
  let! missing := readback raw in
  run! require (negb missing) unknown_readiness then
  if is_running raw then
    let! rate := running_rate raw in
    let! started := running_start raw at_ in
    Ok (observation at_ (RunningPod started rate))
  else Ok (observation at_ PendingPod).

End Readiness.

(** [reconcile_cpu_candidates]. *)
Definition reconcile_cpu_candidates (pods : list PodResource) (pl : CpuEnvironmentAcquisitionPlan)
  : result (option PodResource) :=
  match List.filter (fun pod => bool_decide (px_name pod = cpu_pod_name (pl_request pl))) pods with
  | [] => Ok None
  | [pod] => Ok (Some pod)
  | _ => Exc ResourceOutcomeUnknown
  end.

End Planning.

End CpuPlanning.
