(* ===== verification/CpuProperties.v ===== *)
(** What the CPU lane guarantees: a catalog match rests on known facts, a plan's Pod
    request stays within the price ceilings, the planner sends one catalog query and
    nothing else, and the readiness check of an original Pod admits exactly what was
    planned and never takes a contradiction back; each with the sample environment of
    [CpuScenario]. *)
From Stdlib Require Import Ascii.
From stdpp Require Import gmap strings.
From S2P Require Import Prelude PyStr Enums Errors PyDecimal PyFloat PyTime Json ContractsBase CodecBase CatalogRequest Billing OllamaProvider PodBilling Prog Scenario RestModels RestClient RestSafety RestProperties CpuCatalog CpuPlanning.

#[local] Open Scope Z_scope.

Import Billing.Billing RestModels.RestModels CpuCatalog.CpuCatalog CpuPlanning.CpuPlanning.

(** ** Catalog facts *)

(** The context of [_scale] never rounds. *)
Lemma scale_exact (c e count : Z) : scale (Fin c e) count = Fin (c * count) e.
Proof.
  unfold scale, of_int, dmul. rewrite Z.add_0_r.
  pose proof (ndigits_pos c). pose proof (ndigits_pos count). pose proof (ndigits_upper c). pose proof (ndigits_upper count).
  set (prec := Z.max 28 (ndigits c + ndigits count)).
  assert (p10 (ndigits c) * p10 (ndigits count) <= p10 prec).
  { rewrite <- p10_add by lia. apply p10_le. unfold prec. lia. }
  apply fix_prec_small; [unfold prec; lia|]. rewrite Z.abs_mul. nia.
Qed.

(** What a read offer promises. *)
Record offer_ok (o : CpuOffer) : Prop := {
  oo_texts : co_id o <> "" /\ co_name o <> "" /\ co_group o <> "";
  oo_bounds : 2 <= co_min_vcpu o <= co_max_vcpu o;
  oo_ram : exists c e, co_ram_gb_per_vcpu o = Fin c e /\ 0 < c;
  oo_prices : Forall (fun p => forall d, p = Some d -> exists c e, d = Fin c e /\ 0 <= c)
                [co_secure_price_per_vcpu o; co_serverless_price_per_vcpu o];
  oo_centers : NoDup (map dc_id (co_data_centers o))
}.

Lemma dzero_le c e : dle dzero (Fin c e) = true <-> 0 <= c.
Proof.
  unfold dle, dcompare, dzero. rewrite Z.mul_0_l. pose proof (p10_pos (e - Z.min 0 e) ltac:(lia)).
  destruct (Z.compare_spec 0 (c * p10 (e - Z.min 0 e))); split; intros; try done; nia.
Qed.

Lemma dzero_eq c e : deqb (Fin c e) dzero = true <-> c = 0.
Proof.
  unfold deqb, dcompare, dzero. rewrite Z.mul_0_l. pose proof (p10_pos (e - Z.min e 0) ltac:(lia)).
  destruct (Z.compare_spec (c * p10 (e - Z.min e 0)) 0); split; intros; try done; nia.
Qed.

Lemma catalog_number_some positive v d :
  catalog_number positive v = Ok (Some d) -> exists c e, d = Fin c e /\ 0 <= c /\ (positive = true -> 0 < c).
Proof.
  intros H. assert (Hd : is_finite d && dle dzero d && negb (positive && deqb d dzero) = true).
  { destruct v; cbn in H; try done; by apply rbind_ok in H as (u & Hr & [= <-]); apply require_ok in Hr. }
  destruct d as [c e| |]; try done. rewrite !andb_true_iff, negb_true_iff in Hd. destruct Hd as [[_ Hle] Hz].
  apply dzero_le in Hle. exists c, e. split_and!; [done..|]. intros ->. rewrite andb_true_l in Hz.
  destruct (decide (c = 0)) as [Hc|]; [|lia]. apply (dzero_eq c e) in Hc. congruence.
Qed.

Lemma read_text_nonempty v k s : read_text v k = Ok s -> s <> "".
Proof.
  intros H. apply rbind_ok in H as (raw & _ & H). destruct raw; cbn in H; try done.
  apply rbind_ok in H as (u & Hr & [= <-]). apply require_ok in Hr. by case_bool_decide.
Qed.

Lemma read_bounds_ok v low high : read_bounds v = Ok (low, high) -> 2 <= low <= high.
Proof.
  intros H. unfold read_bounds in H. apply rbind_ok in H as (b & _ & H). apply rbind_ok in H as (x & _ & H).
  apply rbind_ok in H as (y & _ & H). destruct x, y; try done.
  apply rbind_ok in H as (u & Hr & [= <- <-]). apply require_ok in Hr. lia.
Qed.

Lemma cpu_offer_ok v o : cpu_offer_from_dict v = Ok o -> offer_ok o.
Proof.
  unfold cpu_offer_from_dict. destruct (read_offer v) as [o'|e] eqn:H; [|done]. intros [= ->].
  unfold read_offer in H.
  apply rbind_ok in H as ([low high] & Hb & H). apply rbind_ok in H as (raw & _ & H).
  apply rbind_ok in H as (ram & Hram & H). apply rbind_ok in H as (ram' & Hr & H). apply of_option_ok in Hr as ->.
  apply rbind_ok in H as (price & _ & H). apply rbind_ok in H as (rc & _ & H).
  apply rbind_ok in H as (centers & _ & H). apply rbind_ok in H as (u & Hu & H). apply require_ok in Hu.
  apply rbind_ok in H as (id & Hid & H). apply rbind_ok in H as (nm & Hnm & H). apply rbind_ok in H as (gr & Hgr & H).
  apply rbind_ok in H as (sp & Hsp & H). apply rbind_ok in H as (vp & Hvp & H). apply rbind_ok in H as (av & _ & [= <-]).
  constructor; cbn.
  - split_and!; by eapply read_text_nonempty.
  - by eapply read_bounds_ok.
  - apply catalog_number_some in Hram as (c & e & -> & _ & Hpos). exists c, e. auto.
  - repeat constructor; intros d ->.
    + apply catalog_number_some in Hsp as (c & e & -> & ? & _). eauto.
    + apply catalog_number_some in Hvp as (c & e & -> & ? & _). eauto.
  - unfold unique_ids in Hu. by apply bool_decide_eq_true in Hu.
Qed.

Lemma snapshot_ok value product count observed s :
  snapshot_from_response value product count observed = Ok s ->
  cs_product s = product /\ cs_vcpu_count s = count /\ cs_observed_at s = observed /\
  vcpu_count_ok count = true /\ NoDup (map co_id (cs_offers s)) /\ Forall offer_ok (cs_offers s) /\
  exists items, list_envelope value "cpus" = Ok items /\
    Forall2 (fun item o => cpu_offer_from_dict item = Ok o) items (cs_offers s).
Proof.
  intros H. unfold snapshot_from_response in H.
  apply rbind_ok in H as (u & Hq & H). apply require_ok in Hq. apply rbind_ok in H as (items & Hi & H).
  apply rbind_ok in H as (offers & Ho & H). apply rbind_ok in H as (u2 & Hn & [= <-]).
  apply require_ok in Hn. unfold unique_ids in Hn. apply bool_decide_eq_true in Hn. cbn.
  apply rmap_Forall2 in Ho. split_and!; [done..| |by exists items].
  clear -Ho. induction Ho as [|x y l k Hx _ IH]; constructor; [by eapply cpu_offer_ok|done].
Qed.

(** ** Matching *)

(** A listed center of an offer with known stock of at least the floor. *)
Definition center_stocked (o : CpuOffer) (floor : Availability) (id : string) : Prop :=
  exists a, stock_rank floor <= stock_rank a /\ {| dc_id := id; dc_availability := Some a |} ∈ co_data_centers o.

Lemma stocked_some floor a : stocked floor a = true <-> exists b, a = Some b /\ stock_rank floor <= stock_rank b.
Proof. destruct a as [b|]; cbn; [|naive_solver]. rewrite Z.leb_le. naive_solver. Qed.

Lemma center_stock_in o id a :
  NoDup (map dc_id (co_data_centers o)) ->
  center_stock o !! id = Some a <-> {| dc_id := id; dc_availability := a |} ∈ co_data_centers o.
Proof.
  intros Hn. unfold center_stock. rewrite <- elem_of_list_to_map, elem_of_reverse, list_elem_of_fmap.
  - split; [intros ([i b] & [= -> ->] & H); exact H|]. intros H. eexists. split; [|exact H]. done.
  - rewrite fmap_reverse. rewrite reverse_Permutation. change (NoDup (map fst (map (fun c => (dc_id c, dc_availability c)) (co_data_centers o)))).
    by rewrite map_map.
Qed.

Lemma center_stocked_iff o floor id :
  NoDup (map dc_id (co_data_centers o)) ->
  stocked floor (mjoin (center_stock o !! id)) = true <-> center_stocked o floor id.
Proof.
  intros Hn. rewrite stocked_some. split.
  - intros (b & Hb & Hr). destruct (center_stock o !! id) as [[a|]|] eqn:E; cbn in Hb; try done.
    apply center_stock_in in E; [|done]. exists b. by simplify_eq.
  - intros (a & Hr & Hin). exists a. split; [|done]. by rewrite (proj2 (center_stock_in o id (Some a) Hn) Hin).
Qed.

Lemma find_offer_in offers id o :
  NoDup (map co_id offers) -> find_offer offers id = Some o <-> o ∈ offers /\ co_id o = id.
Proof.
  intros Hn. unfold find_offer. split.
  - intros H. apply find_some in H as [Hin Hid]. apply bool_decide_eq_true in Hid. by rewrite list_elem_of_In.
  - intros [Hin <-]. induction offers as [|x l IH]; [by apply not_elem_of_nil in Hin|]. cbn in Hn. inversion_clear Hn as [|? ? Hx Hn'].
    cbn. case_bool_decide as Hc.
    + f_equal. apply elem_of_cons in Hin as [->|Hin]; [done|]. exfalso. apply Hx. rewrite Hc.
      by apply list_elem_of_fmap_2.
    + apply IH; [done|]. by apply elem_of_cons in Hin as [->|Hin].
Qed.

Lemma run_require {B} t e (m : result B) b : (run! require t e then m) = Ok b <-> t = true /\ m = Ok b.
Proof. destruct t; cbn; naive_solver. Qed.

Lemma run_unit {A B} (u : result A) (m : result B) b : (run! u then m) = Ok b <-> is_ok u = true /\ m = Ok b.
Proof. destruct u; cbn; naive_solver. Qed.

Lemma listed_ok l o : Forall offer_ok l -> o ∈ l -> offer_ok o.
Proof. intros H Hin. apply list_elem_of_In in Hin. by eapply Forall_forall in Hin. Qed.

(** A request is offered: every fact of the match is known, current and sufficient. *)
Record offered (s : CpuCatalogSnapshot) (r : CpuPodCreateRequest) (now max_age : Z) (floor : Availability)
  (o : CpuOffer) : Prop := {
  of_request : check_cpu_pod_create r = Ok tt;
  of_query : cs_product s = POD /\ cs_vcpu_count s = uq_vcpu_count r /\ uq_cloud r = SECURE;
  of_fresh : 0 < max_age /\ cs_observed_at s <= now <= cs_observed_at s + max_age;
  of_floor : floor <> AVAIL_NONE;
  of_offer : o ∈ cs_offers s /\ co_id o = uq_cpu_id r;
  of_bounds : co_min_vcpu o <= uq_vcpu_count r <= co_max_vcpu o;
  of_stock : exists a, co_availability o = Some a /\ stock_rank floor <= stock_rank a;
  of_centers : uq_data_center_ids r <> [] /\ Forall (center_stocked o floor) (uq_data_center_ids r)
}.

Lemma match_pod_iff s r now max_age floor m :
  NoDup (map co_id (cs_offers s)) -> Forall offer_ok (cs_offers s) ->
  match_pod s r now max_age floor = Ok m <->
  exists o rate, offered s r now max_age floor o /\ co_secure_price_per_vcpu o = Some rate /\
    m = {| cm_cpu_id := co_id o; cm_vcpu_count := uq_vcpu_count r; cm_data_center_ids := uq_data_center_ids r;
           cm_ram_gb := scale (co_ram_gb_per_vcpu o) (uq_vcpu_count r);
           cm_compute_cost_per_hr := scale rate (uq_vcpu_count r); cm_observed_at := cs_observed_at s |}.
Proof.
  intros Hn Hok. unfold match_pod. rewrite run_unit, !run_require.
  assert (Hpay : is_ok (cpu_pod_create_payload r) = true <-> check_cpu_pod_create r = Ok tt).
  { unfold cpu_pod_create_payload. destruct (check_cpu_pod_create r) as [[]|]; cbn; naive_solver. }
  rewrite Hpay. clear Hpay. set (chk := check_cpu_pod_create r = Ok tt).
  setoid_rewrite rbind_ok. do 3 setoid_rewrite run_require. setoid_rewrite rbind_ok. setoid_rewrite of_option_ok.
  rewrite !andb_true_iff, negb_true_iff, bool_decide_eq_false, !bool_decide_eq_true, Z.eqb_eq.
  split.
  - intros (Hc & Ha & Hf & Ht & Hq & Hcl & o & Ho & Hb & Hs & Hd & rate & Hr & [= <-]).
    apply find_offer_in in Ho as [Hin Hid]; [|done].
    pose proof (listed_ok _ _ Hok Hin) as Hoo.
    exists o, rate. split_and!; [|done|by rewrite Hid].
    constructor; [done|tauto|lia|done|done|lia| |].
    + by apply stocked_some.
    + rewrite andb_true_iff, negb_true_iff, bool_decide_eq_false in Hd. destruct Hd as [Hne Hall]. split; [done|].
      rewrite forallb_forall in Hall. apply Forall_forall. intros id Hid'. apply center_stocked_iff; [by apply oo_centers|].
      by apply Hall.
  - intros (o & rate & [Hc Hq Ht Hf Ho Hb Hs Hd] & Hr & ->). destruct Ho as [Hin Hid].
    pose proof (listed_ok _ _ Hok Hin) as Hoo.
    split_and!; [done|lia|done|lia|lia|tauto|tauto|tauto|].
    exists o. split; [by apply find_offer_in|]. split; [lia|]. split; [by apply stocked_some|]. split; [|by exists rate].
    destruct Hd as [Hne Hall]. rewrite Forall_forall in Hall. apply andb_true_iff. split.
    + by apply negb_true_iff, bool_decide_eq_false.
    + apply forallb_forall. intros id Hid'. apply center_stocked_iff; [by apply oo_centers|by apply Hall].
Qed.

(** C40. A match of a Pod request against a snapshot read from the catalog rests on known
    facts only: the offer is the snapshot's one offer of that flavor, its count bounds,
    the snapshot's age and its query fit the request, the offer and every requested data
    center list known stock of at least the floor, and memory and hourly rate are the
    listed per-vCPU figures times the count, not rounded. And every such request is matched. *)
Theorem matched_pod_is_offered value product count observed s r now max_age floor :
  snapshot_from_response value product count observed = Ok s ->
  forall m,
  match_pod s r now max_age floor = Ok m <->
  exists o ram e rate e', offered s r now max_age floor o /\
    (forall o', o' ∈ cs_offers s -> co_id o' = co_id o -> o' = o) /\
    co_ram_gb_per_vcpu o = Fin ram e /\ 0 < ram /\ co_secure_price_per_vcpu o = Some (Fin rate e') /\ 0 <= rate /\
    m = {| cm_cpu_id := uq_cpu_id r; cm_vcpu_count := count; cm_data_center_ids := uq_data_center_ids r;
           cm_ram_gb := Fin (ram * count) e; cm_compute_cost_per_hr := Fin (rate * count) e';
           cm_observed_at := observed |}.
Proof.
  intros Hs m. apply snapshot_ok in Hs as (Hp & Hc & Hobs & _ & Hn & Hok & _). rewrite match_pod_iff by done.
  split.
  - intros (o & rate & Ho & Hr & ->). pose proof (of_query _ _ _ _ _ _ Ho) as (_ & Hq & _). pose proof (of_offer _ _ _ _ _ _ Ho) as [Hin Hid].
    pose proof (listed_ok _ _ Hok Hin) as [_ _ (ram & e & Hram & Hpos) Hprices _].
    apply Forall_inv in Hprices. destruct (Hprices rate Hr) as (c & e' & -> & Hc0).
    exists o, ram, e, c, e'. rewrite Hram, !scale_exact, Hid, <- Hq, Hc, Hobs. split_and!; try done.
    intros o' Hin' He. pose proof (proj2 (find_offer_in _ (co_id o) o Hn) (conj Hin eq_refl)).
    pose proof (proj2 (find_offer_in _ (co_id o) o' Hn) (conj Hin' (eq_trans He (eq_sym Hid)))). congruence.
  - intros (o & ram & e & rate & e' & Ho & _ & Hram & _ & Hrate & _ & ->). exists o, (Fin rate e').
    pose proof (of_query _ _ _ _ _ _ Ho) as (_ & Hq & _). pose proof (of_offer _ _ _ _ _ _ Ho) as [_ Hid]. split_and!; [done..|].
    by rewrite Hram, !scale_exact, Hid, <- Hq, Hc, Hobs.
Qed.

(** ** Prices *)

Lemma units_rescale m' m d : m' <= m <= dexponent d -> units m' d = units m d * p10 (m - m').
Proof.
  intros H. unfold units. replace (dexponent d - m') with ((dexponent d - m) + (m - m')) by lia.
  rewrite p10_add by lia. ring.
Qed.

(** The ceiling of a quotient, as [divmod] computes it. *)
Lemma divmod_ceiling a b : 0 < b -> a / b + (if a mod b =? 0 then 0 else 1) = cdiv a b.
Proof.
  intros Hb. symmetry. apply cdiv_unique; [done|]. pose proof (Z.div_mod a b ltac:(lia)).
  pose proof (Z.mod_pos_bound a b Hb). destruct (Z.eqb_spec (a mod b) 0); lia.
Qed.

Lemma ratio_gcd n d : 0 < d -> exists g, 0 < g /\ n = n / Z.gcd n d * g /\ d = d / Z.gcd n d * g /\ 0 < d / Z.gcd n d.
Proof.
  intros Hd. pose proof (Z.gcd_nonneg n d). assert (Z.gcd n d <> 0) by (intros Hg; apply Z.gcd_eq_0 in Hg; lia).
  destruct (Z.gcd_divide_l n d) as [a Ha]. destruct (Z.gcd_divide_r n d) as [b Hb].
  set (g := Z.gcd n d) in *. clearbody g.
  assert (n / g = a) as -> by (rewrite Ha; by apply Z.div_mul).
  assert (d / g = b) as -> by (rewrite Hb; by apply Z.div_mul).
  exists g. split_and!; [lia|done|done|nia].
Qed.

(** [_duration_cost] is the exact cost rounded up at the twelfth decimal. *)
Lemma duration_cost_ceiling m c e micros :
  m <= -12 -> m <= e ->
  exists q, duration_cost (Fin c e) micros = Fin q (-12) /\
    units m (Fin c e) * micros <= units m (Fin q (-12)) * 3600000000 <
      units m (Fin c e) * micros + p10 (-12 - m) * 3600000000.
Proof.
  intros Hm He. unfold duration_cost, as_integer_ratio. destruct (ratio c e) as [n d] eqn:Er.
  assert (Hr : 0 < d /\ c * p10 (e - m) * d = n * p10 (- m)).
  { unfold ratio in Er. destruct (Z.leb_spec 0 e); injection Er as <- <-.
    - split; [lia|]. replace (e - m) with (e + - m) by lia. rewrite p10_add by lia. lia.
    - split; [apply p10_pos; lia|]. replace (- m) with ((e - m) + - e) by lia. rewrite p10_add by lia. lia. }
  destruct Hr as [Hd Hr]. destruct (ratio_gcd n d Hd) as (g & Hg & Hn & Hdg & Hd').
  set (n' := n / Z.gcd n d) in *. set (d' := d / Z.gcd n d) in *.
  rewrite divmod_ceiling by lia. set (q := cdiv _ _). exists q. split; [done|].
  pose proof (cdiv_spec (n' * micros * p10 12) (d' * 3600000000) ltac:(lia)) as Hq. fold q in Hq.
  unfold units. cbn [dcoef dexponent].
  pose proof (p10_pos (-12 - m) ltac:(lia)) as Hp. set (P := p10 (-12 - m)) in *.
  assert (Hpm : p10 (- m) = p10 12 * P) by (unfold P; rewrite <- p10_add by lia; f_equal; lia).
  assert (Heq : c * p10 (e - m) * d' = n' * (p10 12 * P)).
  { rewrite <- Hpm. apply (Z.mul_reg_r _ _ g); [lia|]. rewrite <- (Z.mul_assoc _ d'), <- Hdg, Hr, Hn at 1. ring. }
  set (X := c * p10 (e - m)) in *. set (A := n' * micros * p10 12) in *.
  assert (HX : X * micros * d' = A * P) by (transitivity (X * d' * micros); [ring|rewrite Heq; unfold A; ring]).
  change (p10 (-12 - m)) with P. split.
  - apply (Z.mul_le_mono_pos_r _ _ d'); [done|]. rewrite HX. nia.
  - apply (Z.mul_lt_mono_pos_r d'); [done|]. rewrite Z.mul_add_distr_r, HX. nia.
Qed.

Lemma sum_of_two ambient a b s :
  1 <= ambient -> exact_decimal_sum ambient [a; b] = Ok s ->
  exists c e, s = Fin c e /\
    forall m, m <= 0 -> m <= e -> m <= dexponent a -> m <= dexponent b -> units m s = units m a + units m b.
Proof.
  intros Ha Hs. assert (forallb is_finite [a; b] = true) as Hf.
  { unfold exact_decimal_sum in Hs. by destruct (forallb is_finite [a; b]). }
  destruct (exact_decimal_sum_exact ambient [a; b] Ha Hf) as (c & e & He & Hu). rewrite He in Hs. injection Hs as <-.
  exists c, e. split; [done|]. intros m Hm Hme Hma Hmb. rewrite Hu; [cbn; lia|done|done|].
  cbn. lia.
Qed.

Lemma le_finite d c e : dle (Fin c e) d = true -> is_finite d = true ->
  forall m, m <= e -> m <= dexponent d -> units m (Fin c e) <= units m d.
Proof. intros Hle Hf m He Hd. destruct d as [c' e'| |]; try done. by apply (dle_scale c e c' e' m). Qed.

Section Planned.
Context {SDK : EnvironmentSdk} {DG : Digest} {MD : ModelDump} (ambient : Z).

(** What the constructor of a plan has checked. *)
Record plan_ok (pl : CpuEnvironmentAcquisitionPlan) : Prop := {
  po_profile : profile_ok (pl_profile pl) = true;
  po_policy : policy_ok (pl_noncompute pl) = true;
  po_request : require_request (pl_profile pl) (pl_request pl) (pl_planned_at pl) = Ok tt;
  po_coverage : require_coverage (pl_noncompute pl) (pl_request pl) (pl_profile pl) (pl_planned_at pl) = Ok tt;
  po_catalog : cm_cpu_id (pl_catalog pl) = ep_cpu_id (pl_profile pl) /\
    cm_vcpu_count (pl_catalog pl) = ep_vcpu_count (pl_profile pl) /\
    cm_data_center_ids (pl_catalog pl) = [ep_data_center_id (pl_profile pl)];
  po_ram : bounded_decimal true (cm_ram_gb (pl_catalog pl)) = true /\ is_integral (cm_ram_gb (pl_catalog pl)) = true;
  po_compute : bounded_decimal true (cm_compute_cost_per_hr (pl_catalog pl)) = true;
  po_fresh : cm_observed_at (pl_catalog pl) <= pl_planned_at pl < cm_observed_at (pl_catalog pl) + pl_catalog_max_age pl;
  po_age : 0 < pl_catalog_max_age pl <= seconds 60;
  po_window : pl_planned_at pl < pl_expires_at pl;
  po_expires : Forall (fun t => pl_expires_at pl <= t)
    [eq_expires_at (pl_request pl) - seconds (eq_ready_timeout_seconds (pl_request pl)); eq_expires_at (pl_request pl);
     np_expires_at (pl_noncompute pl); cm_observed_at (pl_catalog pl) + pl_catalog_max_age pl]
}.

Lemma make_plan_ok r p n c planned expires age pl :
  make_plan r p n c planned expires age = Ok pl ->
  plan_ok pl /\ request_model_validate r = Ok (pl_request pl) /\ pl_profile pl = p /\ pl_noncompute pl = n /\
  pl_catalog pl = c /\ pl_planned_at pl = planned /\ pl_expires_at pl = expires /\ pl_catalog_max_age pl = age.
Proof.
  intros H. unfold make_plan, profile_model_validate, policy_model_validate, require_catalog_age, require_bounded_decimal in H.
  res_inv. simplify_eq. split_bools. split_and!; try done.
  constructor; cbn; try done.
  - by destruct x3.
  - by destruct x4.
  - lia.
  - repeat constructor; lia.
Qed.

Lemma make_plan_is r p n c planned expires age :
  request_model_validate r = Ok r -> is_ok (make_plan r p n c planned expires age) = true ->
  make_plan r p n c planned expires age =
    Ok {| pl_request := r; pl_profile := p; pl_noncompute := n; pl_catalog := c; pl_planned_at := planned;
          pl_expires_at := expires; pl_catalog_max_age := age |}.
Proof.
  intros Hr. destruct (make_plan r p n c planned expires age) as [[]|] eqn:H; [|done]. intros _.
  apply make_plan_ok in H as (_ & Hr' & H). cbn in *. rewrite Hr in Hr'. naive_solver.
Qed.

Lemma coverage_says n r p t : require_coverage n r p t = Ok tt ->
  eq_expires_at r + seconds (ep_cleanup_grace_seconds p) <= np_expires_at n /\ np_observed_at n <= t < np_expires_at n.
Proof. unfold require_coverage. intros H. res_inv. split_bools. lia. Qed.

Lemma request_says p r t : require_request p r t = Ok tt ->
  eq_image r = ep_image p /\ eq_requested_at r <= t < eq_expires_at r /\
  eq_expires_at r - eq_requested_at r <= seconds (ep_max_lifetime_seconds p) /\
  t < eq_expires_at r - seconds (eq_ready_timeout_seconds r).
Proof. unfold require_request. intros H. res_inv. split_bools. split_and!; (done || lia). Qed.

Lemma bounded_finite positive d : bounded_decimal positive d = true ->
  exists c e, d = Fin c e /\ 0 <= c /\ (positive = true -> 0 < c) /\ -12 <= e.
Proof.
  destruct d as [c e| |]; try done. cbn [bounded_decimal]. intros H. rewrite !andb_true_iff, negb_true_iff in H.
  destruct H as ((((Hle & Hz) & _) & He) & _). apply dzero_le in Hle. exists c, e. split_and!; [done..| |lia].
  intros ->. rewrite andb_true_l in Hz. destruct (decide (c = 0)) as [Hc|]; [|lia].
  apply (dzero_eq c e) in Hc. congruence.
Qed.

Lemma policy_amounts n : policy_ok n = true ->
  bounded_decimal false (np_disk_transfer_cleanup_hourly_usd n) = true /\
  bounded_decimal false (np_disk_transfer_cleanup_fixed_usd n) = true.
Proof. unfold policy_ok. intros H. split_bools. cbn in *. split_bools. done. Qed.

(** What a plan's Pod request has checked. *)
Lemma plan_pod_request_ok pl r p n at_ intent :
  plan_pod_request ambient pl r p n at_ = Ok intent ->
  eq_digest r = eq_digest (pl_request pl) /\ profile_digest p = profile_digest (pl_profile pl) /\
  (exists d, policy_digest n = Ok d /\ policy_digest (pl_noncompute pl) = Ok d) /\
  require_request (pl_profile pl) (pl_request pl) at_ = Ok tt /\
  require_coverage (pl_noncompute pl) (pl_request pl) (pl_profile pl) at_ = Ok tt /\
  pl_planned_at pl <= at_ < pl_expires_at pl /\
  intent = cpu_pod_intent (pl_profile pl) (pl_request pl) /\ check_cpu_pod_create intent = Ok tt /\
  exists hourly total, all_in_hourly_usd ambient pl = Ok hourly /\ estimated_total_usd ambient pl = Ok total /\
    dle hourly (eq_max_hourly_cost_usd (pl_request pl)) = true /\
    dle total (eq_max_total_cost_usd (pl_request pl)) = true.
Proof.
  unfold plan_pod_request, cpu_pod_request. intros H. res_inv. split_bools. subst.
  repeat match goal with u : unit |- _ => destruct u end.
  split_and!; try done; try lia; [by eexists|]. by do 2 eexists.
Qed.

(** The all-in price of a plan covers the exact cost of every duration up to the admitted
    lifetime and the cleanup grace. *)
Lemma estimate_covers pl hourly total :
  1 <= ambient -> plan_ok pl ->
  all_in_hourly_usd ambient pl = Ok hourly -> estimated_total_usd ambient pl = Ok total ->
  let compute := cm_compute_cost_per_hr (pl_catalog pl) in
  let extra := np_disk_transfer_cleanup_hourly_usd (pl_noncompute pl) in
  let fixed := np_disk_transfer_cleanup_fixed_usd (pl_noncompute pl) in
  exists ch eh ct et, hourly = Fin ch eh /\ total = Fin ct et /\
    forall m micros, m <= -12 -> m <= eh -> m <= et ->
    Forall (fun d => m <= dexponent d) [compute; extra; fixed] -> 0 <= micros <= priced_duration pl ->
    let rate := units m compute + units m extra in
    rate = units m hourly /\ rate * micros + units m fixed * 3600000000 <= units m total * 3600000000.
Proof.
  intros Ha Hpl Hh Ht compute extra fixed.
  destruct (bounded_finite _ _ (po_compute _ Hpl)) as (cc & ce & Hc & Hc0 & _).
  destruct (policy_amounts _ (po_policy _ Hpl)) as [Hex Hfx].
  destruct (bounded_finite _ _ Hex) as (xc & xe & Hx & Hx0 & _). destruct (bounded_finite _ _ Hfx) as (fc & fe & Hf & Hf0 & _).
  destruct (sum_of_two _ _ _ _ Ha Hh) as (ch & eh & -> & Hsum).
  unfold estimated_total_usd in Ht. rewrite Hh in Ht. cbn [rbind] in Ht.
  destruct (sum_of_two _ _ _ _ Ha Ht) as (ct & et & -> & Hsum2). exists ch, eh, ct, et. split_and!; [done..|].
  intros m micros Hm He1 He2 Hexp Hmic rate.
  do 3 (apply Forall_cons_iff in Hexp as [? Hexp]). clear Hexp.
  assert (Hrate : rate = units m (Fin ch eh)) by (symmetry; apply Hsum; (done || lia)). split; [done|].
  destruct (duration_cost_ceiling m ch eh (priced_duration pl) Hm He1) as (q & Hq & Hcost).
  rewrite (Hsum2 m), Hq by (rewrite ?Hq; cbn; (done || lia)).
  assert (0 <= rate).
  { unfold rate, compute, extra. rewrite Hc, Hx. unfold units. cbn [dcoef dexponent].
    pose proof (p10_pos (ce - m)). pose proof (p10_pos (xe - m)). 
    assert (m <= ce) by (replace ce with (dexponent compute) by (unfold compute; by rewrite Hc); done).
    assert (m <= xe) by (replace xe with (dexponent extra) by (unfold extra; by rewrite Hx); done). nia. }
  rewrite <- Hrate in Hcost. fold fixed. nia.
Qed.

(** C37. Whenever a plan hands out its Pod request, the request is the exact configured
    shape of the original environment request, inside the plan's window, and the exact
    cost of running it for any duration up to the admitted lifetime plus the cleanup
    grace - compute and non-compute rate over that duration, and the fixed charge - stays
    within the request's total ceiling, as the hourly rate stays within its hourly one. *)
Theorem planned_pod_stays_within_ceilings r0 p0 n0 c planned expires age pl r p n at_ intent :
  1 <= ambient ->
  make_plan r0 p0 n0 c planned expires age = Ok pl ->
  plan_pod_request ambient pl r p n at_ = Ok intent ->
  let request := pl_request pl in
  is_finite (eq_max_hourly_cost_usd request) = true -> is_finite (eq_max_total_cost_usd request) = true ->
  intent = cpu_pod_intent p0 request /\ planned <= at_ < expires /\ at_ < eq_expires_at request /\
  eq_digest r = eq_digest request /\
  forall m micros,
  let compute := cm_compute_cost_per_hr c in
  let extra := np_disk_transfer_cleanup_hourly_usd n0 in
  let fixed := np_disk_transfer_cleanup_fixed_usd n0 in
  m <= -12 ->
  Forall (fun d => m <= dexponent d)
    [compute; extra; fixed; eq_max_hourly_cost_usd request; eq_max_total_cost_usd request] ->
  0 <= micros <= eq_expires_at request - eq_requested_at request + seconds (ep_cleanup_grace_seconds p0) ->
  units m compute + units m extra <= units m (eq_max_hourly_cost_usd request) /\
  (units m compute + units m extra) * micros + units m fixed * 3600000000 <=
    units m (eq_max_total_cost_usd request) * 3600000000.
Proof.
  intros Ha Hpl Hpod request Hfh Hft. subst request. apply make_plan_ok in Hpl as (Hpl & _ & <- & <- & <- & <- & <- & _).
  apply plan_pod_request_ok in Hpod as (Hd & _ & _ & Hr & _ & Hw & Hin & _ & hourly & total & Hh & Ht & Hlh & Hlt).
  split; [done|]. split; [done|]. split; [apply request_says in Hr; lia|]. split; [done|].
  intros m micros compute extra fixed Hm Hexp Hmic. subst compute extra fixed.
  destruct (estimate_covers _ _ _ Ha Hpl Hh Ht) as (ch & eh & ct & et & -> & -> & Hcov).
  do 5 (apply Forall_cons_iff in Hexp as [? Hexp]). clear Hexp.
  set (m' := Z.min m (Z.min eh et)).
  destruct (Hcov m' micros ltac:(lia) ltac:(lia) ltac:(lia)) as [Hrate Htot]; [repeat (apply Forall_cons_iff; split; [lia|]); done|done|].
  pose proof (le_finite _ _ _ Hlh Hfh m' ltac:(lia) ltac:(lia)) as Hlh'.
  pose proof (le_finite _ _ _ Hlt Hft m' ltac:(lia) ltac:(lia)) as Hlt'.
  rewrite <- Hrate in Hlh'.
  rewrite (units_rescale m' m (cm_compute_cost_per_hr _)), (units_rescale m' m (np_disk_transfer_cleanup_hourly_usd _)) in Hlh', Htot by lia.
  rewrite (units_rescale m' m (np_disk_transfer_cleanup_fixed_usd _)) in Htot by lia.
  rewrite (units_rescale m' m (eq_max_hourly_cost_usd _)) in Hlh' by lia.
  rewrite (units_rescale m' m (eq_max_total_cost_usd _)) in Hlt' by lia.
  pose proof (p10_pos (m - m') ltac:(lia)). set (K := p10 (m - m')) in *. split; nia.
Qed.

(** ** The planner on the wire *)

Definition catalog_read (vcpu_count : Z) : http_request :=
  sent_request "GET" "/catalog/cpus" (Some (cpu_params POD vcpu_count)) None.

(** The catalog is read once, after its observation time was taken. *)
Lemma list_cpus_run k count h i res tr :
  run h i (list_cpus k POD count) = (res, tr) ->
  (length (sends tr) <= S k)%nat /\ Forall (fun s => fst s = catalog_read count) (sends tr) /\
  forall s, res = Ok s -> exists value, got (catalog_read count) tr value /\
    snapshot_from_response value POD count (cs_observed_at s) = Ok s.
Proof.
  unfold list_cpus. intros Hr. apply run_pure_first in Hr as [(e & _ & -> & ->)|([] & _ & Hr)].
  { split_and!; [cbn; lia|constructor|done]. }
  rewrite run_bind in Hr. cbn [wcall perform run] in Hr. destruct (h i WNow) as [t|e] eqn:Hn; cbn [run] in Hr.
  2: { injection Hr as <- <-. split_and!; [cbn; lia|constructor|done]. }
  destruct (run h _ (pbind (get_json k _ _) _)) as [r1 tr1] eqn:Hg. injection Hr as <- <-. cbn [sends app omap list_omap send_of].
  apply run_pure in Hg as (r0 & Hg & ->).
  destruct (run h _ (get_json k _ _)) as [r2 tr2] eqn:Hg' in Hg. injection Hg as -> ->.
  pose proof Hg' as Hx. apply run_pure in Hx as (r3 & Hx & _). apply json_call_exchanged in Hx as (r4 & [Hc Hq _ _] & _).
  split; [exact Hc|]. split; [exact Hq|]. intros s Hs. apply rbind_ok in Hs as (value & -> & Hs).
  apply get_json_got in Hg' as [_ Hgot]. exists value. split; [exact Hgot|].
  apply snapshot_ok in Hs as Hok. destruct Hok as (_ & _ & -> & _). done.
Qed.

Lemma reads_no_mutation count tr : Forall (fun s => fst s = catalog_read count) (sends tr) -> mutations tr = [].
Proof. unfold mutations. induction 1 as [|s l Hs _ IH]; [done|]. cbn [List.filter]. by rewrite Hs. Qed.

(** What [plan_of_snapshot] has checked. *)
Lemma plan_of_snapshot_ok age r p n initial snapshot now pl :
  plan_of_snapshot ambient age r p n initial snapshot now = Ok pl ->
  initial <= cs_observed_at snapshot <= now /\ now < cs_observed_at snapshot + age /\
  match_pod snapshot (cpu_pod_intent p r) now age AVAIL_LOW = Ok (pl_catalog pl) /\
  plan_ok pl /\ request_model_validate r = Ok (pl_request pl) /\ pl_profile pl = p /\ pl_noncompute pl = n /\
  pl_planned_at pl = now /\ exists intent, plan_pod_request ambient pl r p n now = Ok intent.
Proof.
  unfold plan_of_snapshot, cpu_pod_request. intros H. res_inv. subst. split_bools.
  match goal with Hm : make_plan _ _ _ _ _ _ _ = Ok _ |- _ => apply make_plan_ok in Hm as (? & ? & ? & ? & ? & ? & _) end.
  subst. split_and!; try done; try lia. by eexists.
Qed.

Record planned_from (age : Z) (p : CpuEnvironmentProfile) (n : CpuNonComputeCostPolicy)
  (r : EnvironmentRequest) (initial : instant) (rest : list wire_event) (pl : CpuEnvironmentAcquisitionPlan) : Prop := {
  pf_plan : plan_ok pl /\ pl_profile pl = p /\ pl_noncompute pl = n /\ request_model_validate r = Ok (pl_request pl);
  pf_read : exists value snapshot,
    got (catalog_read (ep_vcpu_count p)) rest value /\
    snapshot_from_response value POD (ep_vcpu_count p) (cs_observed_at snapshot) = Ok snapshot /\
    initial <= cs_observed_at snapshot <= pl_planned_at pl /\ pl_planned_at pl < cs_observed_at snapshot + age /\
    match_pod snapshot (cpu_pod_intent p r) (pl_planned_at pl) age AVAIL_LOW = Ok (pl_catalog pl);
  pf_priced : exists intent, plan_pod_request ambient pl r p n (pl_planned_at pl) = Ok intent
}.

(** The calls of [plan] after its checks. *)
Definition plan_calls (age : Z) (r : EnvironmentRequest) (p : CpuEnvironmentProfile) (n : CpuNonComputeCostPolicy)
  (initial : instant) : @Prog.prog plan_call plan_answer CpuEnvironmentAcquisitionPlan :=
  pbind (pcall (PListCpus POD (ep_vcpu_count p))) (fun snapshot =>
  pbind (pcall PClock) (fun now => settled (plan_of_snapshot ambient age r p n initial snapshot now))).

(** A planner stops before the catalog read, or the request passed every check at the
    first clock sample. *)
Lemma planner_checks_first k age r p n h i res tr :
  run h i (planner_run ambient k age r p n) = (res, tr) ->
  (sends tr = [] /\ exists e, res = Exc e) \/
  exists r' initial rest,
    request_model_validate r = Ok r' /\ profile_ok p = true /\ policy_ok n = true /\
    require_request p r' initial = Ok tt /\ require_coverage n r' p initial = Ok tt /\
    tr = @Event _ wire_answer WNow (Ok initial) :: rest /\
    run h (S i) (interp (plan_handler k) (plan_calls age r' p n initial)) = (res, rest).
Proof.
  intros Hr. unfold planner_run, plan in Hr.
  apply run_pure_first in Hr as [(e & _ & -> & ->)|(u & _ & Hr)]; [left; by eauto|].
  destruct (request_model_validate r) as [r'|e] eqn:Hreq; cbn [settled pbind interp run] in Hr;
    [|injection Hr as <- <-; left; by eauto].
  unfold profile_model_validate, policy_model_validate in Hr.
  destruct (profile_ok p) eqn:Hp; cbn [require rbind settled pbind interp run] in Hr; [|injection Hr as <- <-; left; by eauto].
  destruct (policy_ok n) eqn:Hn; cbn [require rbind settled pbind interp run] in Hr; [|injection Hr as <- <-; left; by eauto].
  unfold pcall, perform in Hr. cbn [pbind interp plan_handler wcall perform join run] in Hr.
  destruct (h i WNow) as [initial|e] eqn:H0; cbn [settled pbind interp run] in Hr; [|injection Hr as <- <-; left; by eauto].
  destruct (require_request p r' initial) as [[]|e] eqn:Hrr; cbn [pbind interp run] in Hr; [|injection Hr as <- <-; left; by eauto].
  destruct (require_coverage n r' p initial) as [[]|e] eqn:Hrc; cbn [pbind interp run] in Hr; [|injection Hr as <- <-; left; by eauto].
  right. exists r', initial.
  match type of Hr with context [run h (S i) ?q] => destruct (run h (S i) q) as [r1 tr1] eqn:E end.
  injection Hr as <- <-. exists tr1. split_and!; (done || exact E).
Qed.

(** A planner sends nothing but one catalog query, repeated at most as often as the
    retries allow, and only after the request and its cost coverage passed every check at
    its first clock sample; a plan it returns rests on the one answer that was read, on an
    observation time between the two clock samples and younger than the freshness allows,
    and already passes the price ceilings. *)
Theorem planner_reads_one_catalog k age r p n h i res tr :
  run h i (planner_run ambient k age r p n) = (res, tr) ->
  (length (sends tr) <= S k)%nat /\ Forall (fun s => fst s = catalog_read (ep_vcpu_count p)) (sends tr) /\
  mutations tr = [] /\
  (sends tr = [] /\ (exists e, res = Exc e) \/
   exists r' initial rest,
     tr = @Event _ wire_answer WNow (Ok initial) :: rest /\ request_model_validate r = Ok r' /\
     profile_ok p = true /\ policy_ok n = true /\
     require_request p r' initial = Ok tt /\ require_coverage n r' p initial = Ok tt /\
     forall pl, res = Ok pl -> planned_from age p n r' initial rest pl).
Proof.
  intros Hr. apply planner_checks_first in Hr as [[Hs He]|(r' & initial & rest & Hv & Hp & Hn & Hrr & Hrc & -> & Hr)].
  { unfold mutations. rewrite Hs. split_and!; [cbn; lia|constructor|done|by left]. }
  unfold plan_calls, pcall, perform in Hr. cbn [pbind interp plan_handler] in Hr. rewrite run_join in Hr.
  cbn [plan_answer] in Hr. destruct (run h (S i) (list_cpus k POD (ep_vcpu_count p))) as [snap tr1] eqn:Hl.
  apply list_cpus_run in Hl as (Hc & Hq & Hgot).
  assert (Htail : sends rest = sends tr1 /\ forall pl, res = Ok pl -> exists snapshot now,
    snap = Ok snapshot /\ plan_of_snapshot ambient age r' p n initial snapshot now = Ok pl).
  { destruct snap as [snapshot|e]; cbn [pbind interp run] in Hr.
    2: { injection Hr as <- <-. rewrite app_nil_r. done. }
    cbn [plan_handler wcall perform join run] in Hr. destruct (h _ WNow) as [now|e]; cbn in Hr; injection Hr as <- <-.
    - rewrite sends_app. cbn. rewrite app_nil_r. split; [done|]. by eauto.
    - rewrite sends_app. cbn. rewrite app_nil_r. done. }
  destruct Htail as [Hs Hpl].
  assert (Hsame : sends (@Event _ wire_answer WNow (Ok initial) :: rest) = sends tr1) by exact Hs.
  rewrite Hsame. split_and!; [done|done|by eapply reads_no_mutation; rewrite Hsame|right].
  exists r', initial, rest. split_and!; try done. intros pl Hpl'. destruct (Hpl pl Hpl') as (snapshot & now & -> & Hok).
  destruct (Hgot _ eq_refl) as (value & Hg & Hsnap).
  apply plan_of_snapshot_ok in Hok as (Ht & Ha & Hm & Hplan & Hval & Hprof & Hpol & Hnow & Hpriced). subst.
  constructor; [done| |done]. exists value, snapshot. split_and!; try done; try lia.
  destruct Hg as (earlier & resp & Hg & Hrest). exists earlier, resp. by rewrite Hs.
Qed.

End Planned.

(** ** Known contradictions *)

(** A later payload that keeps every fact of an earlier one. *)
Definition extends (raw raw' : payload) : Prop :=
  forall k, k ∈ keys raw -> k ∈ keys raw' /\ get_field raw' k = get_field raw k.

Lemma get_field_key l k : get_field l k <> JNull -> k ∈ keys l.
Proof.
  induction l as [|[k' v] l IH]; cbn; [done|]. destruct (String.eqb_spec k' k) as [->|]; [intros _; by left|].
  intros H. right. by apply IH.
Qed.

Lemma extends_field raw raw' k : extends raw raw' -> get_field raw k <> JNull -> get_field raw' k = get_field raw k.
Proof. intros He Hn. by apply He, get_field_key. Qed.

(** A check that raises one exception only, keeps raising it on more facts, and once
    satisfied can only be contradicted by new ones. *)
Record steady (e : exn) (check : payload -> result bool) : Prop := {
  sy_raises : forall raw e', check raw = Exc e' -> e' = e;
  sy_raised : forall raw raw', extends raw raw' -> check raw = Exc e -> check raw' = Exc e;
  sy_known : forall raw raw', extends raw raw' -> check raw = Ok false -> check raw' = Ok false \/ check raw' = Exc e
}.

(** A check of one field, of which an absent one is missing. *)
Lemma steady_field e key (f : json -> result bool) :
  f JNull = Ok true -> (forall v e', f v = Exc e' -> e' = e) -> steady e (fun raw => f (get_field raw key)).
Proof.
  intros Hn Hr. constructor; [intros raw; apply Hr| |]; intros raw raw' He H.
  - rewrite (extends_field _ _ _ He); [done|]. intros Hk. rewrite Hk in H. congruence.
  - left. rewrite (extends_field _ _ _ He); [done|]. intros Hk. rewrite Hk in H. congruence.
Qed.

Lemma checked_raises id b m e : checked id b m = Exc e -> e = mismatch id.
Proof. unfold checked. destruct b; cbn; congruence. Qed.

Lemma checked_ok id b m x : checked id b m = Ok x <-> b = false /\ x = m.
Proof. unfold checked. destruct b; cbn; naive_solver. Qed.

(** A check of one key: absent, it is missing or it is as it should be. *)
Lemma steady_key id key (f : json -> bool) (missing : bool) :
  steady (mismatch id)
    (fun raw => if bool_decide (key ∈ keys raw) then checked id (f (get_field raw key)) false else Ok missing).
Proof.
  constructor.
  - intros raw e. case_bool_decide; [apply checked_raises|done].
  - intros raw raw' He. case_bool_decide as Hk; [|done]. destruct (He key Hk) as [Hk' ->].
    by rewrite bool_decide_true_eq.
  - intros raw raw' He. case_bool_decide as Hk.
    + destruct (He key Hk) as [Hk' ->]. rewrite bool_decide_true_eq by done. by left.
    + intros [= ->]. case_bool_decide; [|by left]. unfold checked. destruct (f _); [by right|by left].
Qed.

Lemma steady_ext e c c' : (forall raw, c raw = c' raw) -> steady e c -> steady e c'.
Proof.
  intros Hc [H1 H2 H3]. constructor; intros raw; [intros e'|intros raw' He|intros raw' He]; rewrite <- ?Hc; eauto.
Qed.

Lemma steady_and e c c' : steady e c -> steady e c' ->
  steady e (fun raw => let! missing := c raw in let! more := c' raw in Ok (missing || more)).
Proof.
  intros [H1 H2 H3] [K1 K2 K3]. constructor.
  - intros raw e'. destruct (c raw) eqn:E; cbn; [|naive_solver]. destruct (c' raw) eqn:E'; cbn; naive_solver.
  - intros raw raw' He. destruct (c raw) as [b|e1] eqn:E; cbn; [|intros [= ->]; by rewrite (H2 raw raw')].
    destruct (c' raw) as [b'|e2] eqn:E'; cbn; [done|]. intros [= ->].
    destruct (c raw') as [x|e2] eqn:E2; cbn; [|by rewrite (H1 _ _ E2)]. by rewrite (K2 raw raw').
  - intros raw raw' He. destruct (c raw) as [b|] eqn:E; cbn; [|done]. destruct (c' raw) as [b'|] eqn:E'; cbn; [|done].
    intros [= Hb]. apply orb_false_iff in Hb as [-> ->].
    destruct (H3 raw raw' He E) as [->| ->]; cbn; [|by right]. by destruct (K3 raw raw' He E') as [->| ->]; [left|right].
Qed.

Lemma steady_all {A} e (check : A -> payload -> result bool) l :
  (forall a, a ∈ l -> steady e (check a)) -> steady e (fun raw => check_all (fun a => check a raw) l).
Proof.
  induction l as [|a l IH]; intros Hl; cbn [check_all].
  - constructor; naive_solver.
  - apply steady_and; [apply Hl; by left|]. apply IH. intros b Hb. apply Hl. by right.
Qed.

Lemma check_all_raises {A} e (check : A -> result bool) l e' :
  (forall a e', check a = Exc e' -> e' = e) -> check_all check l = Exc e' -> e' = e.
Proof.
  intros Hc. induction l as [|a l IH]; cbn; [done|]. destruct (check a) eqn:E; cbn; [|intros [= <-]; by eapply Hc].
  destruct (check_all check l); cbn; [done|]. intros [= <-]. by apply IH.
Qed.

Section Ready.
Context {SDK : EnvironmentSdk} (pl : CpuEnvironmentAcquisitionPlan) (id : string).

Lemma steady_expected field : steady (mismatch id) (fun raw => expected_check id raw field).
Proof.
  apply (steady_field _ (fst field) (fun observed => checked id
    (negb (is_json_null observed) &&
     (negb (py_eq observed (snd field)) || (bool_decide (fst field = "disk") && negb (is_json_int observed)))) (is_json_null observed)));
    [done|]. intros v e. apply checked_raises.
Qed.

Lemma steady_empty field : steady (mismatch id) (fun raw => empty_check id raw field).
Proof. exact (steady_key id (fst field) (fun v => negb (py_eq v (snd field)) || negb (same_type v (snd field))) true). Qed.

Lemma steady_command name : steady (mismatch id) (fun raw => command_check id raw name).
Proof.
  eapply steady_ext, (steady_key _ name (fun v => negb (match v with JList [] => true | _ => false end)) false).
  intros raw. unfold command_check. by case_bool_decide.
Qed.

Lemma steady_variant : steady (mismatch id) (variant_check id).
Proof.
  eapply steady_ext, steady_and; [|apply (steady_key _ "gpu" (fun _ => true) false)|apply (steady_key _ "cluster" (fun _ => true) false)].
  intros raw. unfold variant_check. by do 2 case_bool_decide.
Qed.

Lemma steady_networking : steady (mismatch id) (fun raw => networking_check id (get_field raw "globalNetworking")).
Proof.
  apply steady_field; [done|]. intros [| | | | | |l] e; cbn; try congruence.
  destruct (_ || _); cbn; [congruence|]. case_bool_decide; [|done]. apply checked_raises.
Qed.

Lemma steady_cpu : steady (mismatch id) (fun raw => cpu_check pl id (get_field raw "cpu")).
Proof.
  apply steady_field; [done|]. intros [| | | | | |l] e; cbn [cpu_check]; try congruence.
  apply check_all_raises. intros field e'. unfold cpu_field_check. destruct (is_json_null _); [done|]. apply checked_raises.
Qed.

Lemma steady_status : steady (mismatch id) (fun raw => status_check id (get_field raw "status")).
Proof. apply steady_field; [done|]. intros [| | | | | |l] e; cbn; try congruence. apply checked_raises. Qed.

Lemma steady_readback : steady (mismatch id) (readback pl id).
Proof.
  apply (steady_all _ (fun (check : payload -> result bool) raw => check raw)). intros check Hc.
  repeat (apply elem_of_cons in Hc as [->|Hc]); [..|by apply not_elem_of_nil in Hc].
  - apply steady_all. intros. apply steady_expected.
  - apply steady_all. intros. apply steady_empty.
  - apply steady_all. intros. apply steady_command.
  - apply steady_variant.
  - apply steady_networking.
  - apply steady_cpu.
  - apply steady_status.
Qed.

(** C38. A contradiction is final: once the readiness check of an original Pod found it
    contradicted, or its deadline missed, the check answers the same at every later time
    and for every payload of the Pod that keeps the facts of that one, whatever it adds. *)
Theorem contradiction_is_final pod pod' at_ later :
  at_ <= later -> px_id pod' = px_id pod -> extends (px_raw pod) (px_raw pod') ->
  inspect_cpu_readiness pl id pod at_ = Exc (CpuPodMismatch id) ->
  inspect_cpu_readiness pl id pod' later = Exc (CpuPodMismatch id).
Proof.
  intros Hl Hid He. unfold inspect_cpu_readiness, mismatch. rewrite Hid.
  destruct (bool_decide (id = "")); cbn [negb require rbind]; [done|].
  destruct (bool_decide (px_id pod = id)); cbn [andb require rbind]; [|done].
  destruct (get_field (px_raw pod) "id") as [| | | |i| |] eqn:Hi; cbn [require rbind]; try done.
  rewrite (extends_field _ _ _ He) by (by rewrite Hi). rewrite Hi.
  destruct (bool_decide (i = id)); cbn [require rbind]; [|done].
  destruct (Z.leb_spec (pl_planned_at pl) at_); cbn [require rbind]; [|done].
  rewrite (proj2 (Z.leb_le (pl_planned_at pl) later)) by lia. cbn [require rbind].
  destruct (Z.ltb_spec later (ready_deadline pl)); cbn [require rbind]; [|done].
  rewrite (proj2 (Z.ltb_lt at_ (ready_deadline pl))) by lia. cbn [require rbind].
  destruct steady_readback as [Hraises Hraised Hknown].
  destruct (readback pl id (px_raw pod)) as [[]|e] eqn:Hb; cbn [rbind negb require]; [done| |].
  2: { intros [= ->]. by rewrite (Hraised _ _ He Hb). }
  destruct (Hknown _ _ He Hb) as [-> | ->]; cbn [rbind negb require]; [|done].
  destruct (is_running (px_raw pod)) eqn:Hrun; [|done].
  assert (is_running (px_raw pod') = true) as ->.
  { unfold is_running in *. rewrite (extends_field _ _ _ He); [done|]. intros Hn. by rewrite Hn in Hrun. }
  unfold running_rate. destruct (number_decimal (get_field (px_raw pod) "cost")) as [rate|] eqn:Hc; cbn [of_option rbind]; [|done].
  rewrite (extends_field _ _ _ He), Hc by (intros Hn; by rewrite Hn in Hc). cbn [of_option rbind].
  destruct (is_finite rate && dlt dzero rate); cbn [require rbind]; [|done].
  destruct (dle rate _); cbn [require rbind]; [|done].
  unfold running_start. destruct (get_field (px_raw pod) "startedAt"); cbn; try done.
  destruct (parse_aware s); cbn; [|done]. by destruct (_ && _).
Qed.

(** ** Admitted facts *)

Lemma check_all_ok {A} (check : A -> result bool) l :
  check_all check l = Ok false <-> (forall a, a ∈ l -> check a = Ok false).
Proof.
  induction l as [|a l IH]; cbn.
  - split; [intros _ a Ha; by apply not_elem_of_nil in Ha|done].
  - split.
    + destruct (check a) as [[]|] eqn:E; cbn; [by destruct (check_all check l)| |done].
      destruct (check_all check l) as [b|]; cbn; [|done]. intros [= ->] x Hx.
      apply elem_of_cons in Hx as [->|Hx]; [done|]. by apply IH.
    + intros H. rewrite (H a) by (by left). cbn. rewrite (proj2 IH); [done|]. intros x Hx. apply H. by right.
Qed.

(** The values that the check compares with. *)
Definition exact_value (v : json) : bool :=
  match v with JNull | JBool _ | JInt _ | JStr _ | JList [] | JObj [] => true | _ => false end.

Lemma of_int_eq a b : deqb (of_int a) (of_int b) = true <-> a = b.
Proof. unfold deqb, of_int, dcompare. cbn. rewrite !Z.mul_1_r. destruct (Z.compare_spec a b); split; intros; (done || lia). Qed.

Lemma exact_value_eq o v : exact_value v = true -> negb (py_eq o v) || negb (same_type o v) = false <-> o = v.
Proof.
  intros Hv. rewrite orb_false_iff, !negb_false_iff. split.
  - intros [Hq Ht]. destruct v as [|b|z|d|s|l|l]; destruct o as [|b'|z'|d'|s'|l'|l']; try done; cbn in Hq.
    + apply of_int_eq in Hq. by destruct b, b'.
    + apply of_int_eq in Hq. by subst.
    + by apply bool_decide_eq_true in Hq as ->.
    + destruct l; [|done]. by destruct l'.
    + destruct l; [|done]. by destruct l' as [|[k x] l'].
  - intros ->. destruct v as [|[]| | |s|[]|[]]; try done; cbn; split; try done.
    + by apply of_int_eq.
    + by apply bool_decide_eq_true.
Qed.

(** Everything that the check of a Pod requires of its payload. *)
Record admitted (raw : payload) : Prop := {
  ad_expected : forall field, field ∈ expected_fields pl -> get_field raw (fst field) = snd field;
  ad_empty : forall field, field ∈ empty_fields -> fst field ∈ keys raw /\ get_field raw (fst field) = snd field;
  ad_command : forall name, name ∈ ["cmd"; "entrypoint"] -> name ∈ keys raw -> get_field raw name = JList [];
  ad_variant : "gpu" ∉ keys raw /\ "cluster" ∉ keys raw;
  ad_networking : exists networking, get_field raw "globalNetworking" = JObj networking /\
    "ip" ∉ keys networking /\ "internalDns" ∉ keys networking /\ get_field networking "enabled" = JBool false;
  ad_cpu : exists cpu, get_field raw "cpu" = JObj cpu /\
    forall field, field ∈ cpu_fields pl -> get_field cpu (fst field) = snd field;
  ad_status : exists s, get_field raw "status" = JStr s /\ s ∈ POD_STATUSES
}.

Lemma expected_iff raw field : field ∈ expected_fields pl ->
  expected_check id raw field = Ok false <-> get_field raw (fst field) = snd field.
Proof.
  intros Hf. unfold expected_check. rewrite checked_ok.
  assert (Hv : match snd field with JStr _ => fst field <> "disk" | JInt _ => fst field = "disk" | _ => False end).
  { repeat (apply elem_of_cons in Hf as [->|Hf]; [done|]). by apply not_elem_of_nil in Hf. }
  destruct field as [k v]. cbn [fst snd] in *. destruct (get_field raw k) as [|b|z|d|s|l|l], v as [|b'|z'|d'|s'|l'|l']; cbn in *;
    try (split; [intros [? ?]; congruence|congruence]); subst; try done.
  - rewrite (bool_decide_true_eq ("disk" = "disk")), orb_true_r by done. naive_solver.
  - rewrite (bool_decide_true_eq ("disk" = "disk")), orb_false_r, negb_false_iff by done.
    split; [intros [Hq _]; apply of_int_eq in Hq; by subst|]. intros [= ->]. split; [by apply of_int_eq|done].
  - rewrite (bool_decide_true_eq ("disk" = "disk")), orb_true_r by done. naive_solver.
  - rewrite (bool_decide_false_eq (k = "disk")), orb_false_r, negb_false_iff, bool_decide_eq_true by done. naive_solver.
Qed.

Lemma empty_iff raw field : field ∈ empty_fields ->
  empty_check id raw field = Ok false <-> fst field ∈ keys raw /\ get_field raw (fst field) = snd field.
Proof.
  intros Hf. assert (Hv : exact_value (snd field) = true).
  { repeat (apply elem_of_cons in Hf as [->|Hf]; [done|]). by apply not_elem_of_nil in Hf. }
  unfold empty_check. case_bool_decide as Hk; [|naive_solver]. rewrite checked_ok, exact_value_eq by done. naive_solver.
Qed.

Lemma command_iff raw name :
  command_check id raw name = Ok false <-> (name ∈ keys raw -> get_field raw name = JList []).
Proof.
  unfold command_check. rewrite checked_ok. case_bool_decide; cbn; [|naive_solver].
  destruct (get_field raw name) as [| | | | |[]|]; cbn; naive_solver.
Qed.

Lemma variant_iff raw : variant_check id raw = Ok false <-> "gpu" ∉ keys raw /\ "cluster" ∉ keys raw.
Proof. unfold variant_check. rewrite checked_ok. do 2 case_bool_decide; cbn; naive_solver. Qed.

Lemma networking_iff v : networking_check id v = Ok false <-> exists networking, v = JObj networking /\
  "ip" ∉ keys networking /\ "internalDns" ∉ keys networking /\ get_field networking "enabled" = JBool false.
Proof.
  destruct v as [| | | | | |l]; cbn; try (split; [done|intros (? & ? & _); done]).
  split.
  - intros H. apply rbind_ok in H as (u & Hr & H). apply require_ok, negb_true_iff, orb_false_iff in Hr as [H1 H2].
    apply bool_decide_eq_false in H1, H2. exists l. split_and!; try done. case_bool_decide; [|done].
    apply checked_ok in H as [H _]. by destruct (get_field l "enabled") as [|[]| | | | |].
  - intros (k & [= <-] & H1 & H2 & H3). rewrite !bool_decide_false_eq by done. cbn [orb negb require rbind].
    rewrite bool_decide_true_eq by (apply get_field_key; by rewrite H3). by rewrite H3.
Qed.

Lemma cpu_iff v : cpu_check pl id v = Ok false <-> exists cpu, v = JObj cpu /\
  forall field, field ∈ cpu_fields pl -> get_field cpu (fst field) = snd field.
Proof.
  assert (Hf : forall cpu field, field ∈ cpu_fields pl ->
    cpu_field_check id cpu field = Ok false <-> get_field cpu (fst field) = snd field).
  { intros cpu field Hf. assert (Hv : exact_value (snd field) = true /\ snd field <> JNull).
    { repeat (apply elem_of_cons in Hf as [->|Hf]; [done|]). by apply not_elem_of_nil in Hf. }
    destruct Hv as [Hv Hn]. unfold cpu_field_check. destruct (get_field cpu (fst field)) eqn:E; cbn [is_json_null];
      [split; congruence|..]; by rewrite checked_ok, exact_value_eq; naive_solver. }
  destruct v as [| | | | | |l]; cbn [cpu_check]; try (split; [done|intros (? & ? & _); done]).
  rewrite check_all_ok. split.
  - intros H. exists l. split; [done|]. intros field Hin. apply Hf, H; done.
  - intros (k & [= <-] & H) field Hin. by apply Hf, H.
Qed.

Lemma status_iff v : status_check id v = Ok false <-> exists s, v = JStr s /\ s ∈ POD_STATUSES.
Proof.
  destruct v as [| | | |s| |]; cbn; try (split; [done|intros (? & ? & _); done]).
  rewrite checked_ok, negb_false_iff, bool_decide_eq_true. naive_solver.
Qed.

(** The read back facts are complete and agree exactly when the payload is admitted. *)
Lemma readback_admitted raw : readback pl id raw = Ok false <-> admitted raw.
Proof.
  unfold readback. rewrite check_all_ok.
  assert (Hl : forall (P : (payload -> result bool) -> Prop) a b c d e f g,
    (forall x, x ∈ [a; b; c; d; e; f; g] -> P x) <-> P a /\ P b /\ P c /\ P d /\ P e /\ P f /\ P g).
  { clear. intros. split; [intros H; split_and!; apply H; set_solver|]. intros H x Hx.
    repeat (apply elem_of_cons in Hx as [->|Hx]; [tauto|]). by apply not_elem_of_nil in Hx. }
  rewrite (Hl (fun check => check raw = Ok false)). cbn beta.
  rewrite !check_all_ok, variant_iff, networking_iff, cpu_iff, status_iff. split.
  - intros (H1 & H2 & H3 & H4 & H5 & H6 & H7). constructor; try done.
    + intros field Hf. by apply expected_iff, H1.
    + intros field Hf. by apply empty_iff, H2.
    + intros name Hn. by apply command_iff, H3.
  - intros [H1 H2 H3 H4 H5 H6 H7]. split; [|split; [|split; [|done]]].
    + intros field Hf. by apply expected_iff, H1.
    + intros field Hf. by apply empty_iff, H2.
    + intros name Hn. by apply command_iff, H3.
Qed.

Lemma is_running_iff raw : is_running raw = true <-> get_field raw "status" = JStr "RUNNING".
Proof.
  unfold is_running. destruct (get_field raw "status"); try (split; [done|congruence]).
  rewrite bool_decide_eq_true. split; congruence.
Qed.

Lemma running_rate_iff raw rate : running_rate pl id raw = Ok rate <->
  number_decimal (get_field raw "cost") = Some rate /\ is_finite rate = true /\ dlt dzero rate = true /\
  dle rate (cm_compute_cost_per_hr (pl_catalog pl)) = true.
Proof.
  unfold running_rate. rewrite rbind_ok. setoid_rewrite of_option_ok. setoid_rewrite run_require.
  setoid_rewrite run_require. setoid_rewrite andb_true_iff. naive_solver.
Qed.

Lemma running_start_iff raw at_ started : running_start pl id raw at_ = Ok started <->
  exists text, get_field raw "startedAt" = JStr text /\ parse_aware text = Some started /\
    pl_planned_at pl <= started <= at_.
Proof.
  unfold running_start. destruct (get_field raw "startedAt") as [| | | |s| |]; try (split; [done|intros (? & ? & _); done]).
  rewrite rbind_ok. setoid_rewrite of_option_ok. setoid_rewrite run_require. split.
  - intros (t & Ht & Hw & [= <-]). exists s. split_and!; try done; lia.
  - intros (text & [= <-] & Ht & Hw). exists started. split_and!; try done. lia.
Qed.

(** The readiness check observes an original Pod as running exactly inside the
    plan's ready window, on a payload whose every required fact is present and equal to
    what the plan's request asked for, with a known start inside the window and a known
    positive rate that is at most the planned one. *)
Theorem running_pod_is_as_planned pod at_ started rate :
  inspect_cpu_readiness pl id pod at_ = Ok (observation pl id at_ (RunningPod started rate)) <->
  id <> "" /\ px_id pod = id /\ get_field (px_raw pod) "id" = JStr id /\
  pl_planned_at pl <= at_ /\ at_ < eq_expires_at (pl_request pl) /\
  at_ < pl_planned_at pl + seconds (eq_ready_timeout_seconds (pl_request pl)) /\
  admitted (px_raw pod) /\ get_field (px_raw pod) "status" = JStr "RUNNING" /\
  (number_decimal (get_field (px_raw pod) "cost") = Some rate /\ is_finite rate = true /\
   dlt dzero rate = true /\ dle rate (cm_compute_cost_per_hr (pl_catalog pl)) = true) /\
  exists text, get_field (px_raw pod) "startedAt" = JStr text /\ parse_aware text = Some started /\
    pl_planned_at pl <= started <= at_.
Proof.
  unfold inspect_cpu_readiness. rewrite !run_require, rbind_ok. setoid_rewrite run_require.
  rewrite negb_true_iff, bool_decide_eq_false, andb_true_iff, bool_decide_eq_true, Z.leb_le, Z.ltb_lt.
  assert (Hid : match get_field (px_raw pod) "id" with JStr i => bool_decide (i = id) | _ => false end = true <->
    get_field (px_raw pod) "id" = JStr id).
  { destruct (get_field (px_raw pod) "id"); try (split; [done|congruence]). rewrite bool_decide_eq_true. split; congruence. }
  rewrite Hid, <- readback_admitted, <- is_running_iff, <- running_rate_iff, <- running_start_iff. unfold ready_deadline. split.
  - intros (H1 & [H2 H3] & H4 & H5 & missing & H6 & H7 & H8). apply negb_true_iff in H7 as ->.
    destruct (is_running (px_raw pod)) eqn:Hr; [|done]. res_inv. simplify_eq. split_and!; (done || lia).
  - intros (H1 & H2 & H3 & H4 & H5 & H6 & H7 & H8 & H9 & H10). split_and!; try done; [lia|].
    exists false. split_and!; try done. by rewrite H8, H9, H10.
Qed.

End Ready.

(** ** A sample CPU environment *)

Module CpuScenario.

Import Scenario.Scenario.

Record sample_request : Set := {
  sq_image : string;
  sq_expires_at : instant;
  sq_max_hourly : Decimal;
  sq_max_total : Decimal
}.

Definition image : string := "registry.example/browser@sha256:" ++ of_chars (replicate 64 "a"%char).
Definition nonempty (s : string) : bool := negb (bool_decide (s = "")).

(** A request of the environment, with the fixed fields of one browser in one region. *)
#[export] Instance sample_sdk : EnvironmentSdk := {|
  EnvironmentRequest := sample_request;
  eq_provider_id := fun _ => "runpod-cpu";
  eq_profile_id := fun _ => "cpu-browser";
  eq_image := sq_image;
  eq_region := fun _ => Some "US-TX-3";
  eq_location := fun _ => "remote";
  eq_surface := fun _ => "browser";
  eq_required_capabilities := fun _ => ["screenshot"; "click"];
  eq_requested_at := fun _ => at_ 0;
  eq_expires_at := sq_expires_at;
  eq_ready_timeout_seconds := fun _ => 60;
  eq_max_hourly_cost_usd := sq_max_hourly;
  eq_max_total_cost_usd := sq_max_total;
  eq_digest := fun r => sha256_hex (iso_datetime (sq_expires_at r));
  request_model_validate := Ok;
  Identifier := nonempty;
  PinnedImage := nonempty;
  ImageDigest := is_sha256;
  PositiveInt := fun z => 0 <? z;
  USD := fun d => dle dzero d
|}.

#[export] Instance sample_dump : ModelDump := {|
  dump_profile := fun p =>
    [("provider_id", JStr (ep_provider_id p)); ("profile_id", JStr (ep_profile_id p));
     ("image", JStr (ep_image p)); ("cpu_id", JStr (ep_cpu_id p)); ("vcpu_count", JInt (ep_vcpu_count p));
     ("data_center_id", JStr (ep_data_center_id p)); ("disk_gb", JInt (ep_disk_gb p));
     ("max_lifetime_seconds", JInt (ep_max_lifetime_seconds p));
     ("cleanup_grace_seconds", JInt (ep_cleanup_grace_seconds p))];
  dump_policy := fun n =>
    [("policy_id", JStr (np_policy_id n)); ("provider_id", JStr (np_provider_id n));
     ("profile_id", JStr (np_profile_id n)); ("profile_sha256", JStr (np_profile_sha256 n));
     ("disk_gb", JInt (np_disk_gb n)); ("data_center_id", JStr (np_data_center_id n))]
|}.

Definition profile : CpuEnvironmentProfile := {|
  ep_provider_id := "runpod-cpu"; ep_profile_id := "cpu-browser"; ep_image := image; ep_cpu_id := "cpu5c";
  ep_vcpu_count := 4; ep_data_center_id := "US-TX-3"; ep_disk_gb := 20; ep_max_lifetime_seconds := 3600;
  ep_cleanup_grace_seconds := 60
|}.

Definition policy : CpuNonComputeCostPolicy := {|
  np_policy_id := "explicit-estimate-v1"; np_provider_id := "runpod-cpu"; np_profile_id := "cpu-browser";
  np_profile_sha256 := profile_digest profile; np_disk_gb := 20; np_data_center_id := "US-TX-3";
  np_covered_components := list_to_set COVERED_COMPONENTS; np_observed_at := at_ (-60); np_expires_at := at_ 7200;
  np_disk_transfer_cleanup_hourly_usd := Fin 2 (-2); np_disk_transfer_cleanup_fixed_usd := Fin 1 (-2)
|}.

Definition request : EnvironmentRequest := {|
  sq_image := image; sq_expires_at := at_ 1800; sq_max_hourly := Fin 20 (-2); sq_max_total := Fin 11 (-2)
|}.

Definition cpu_json : payload :=
  [("id", JStr "cpu5c"); ("name", JStr "Compute"); ("group", JStr "Gen 5");
   ("vcpu", JObj [("min", JInt 2); ("max", JInt 32)]); ("ramGbPerVcpu", JFloat (Fin 25 (-1)));
   ("price", JObj [("securePerVcpu", JFloat (Fin 4 (-2))); ("serverlessPerVcpu", JFloat (Fin 3 (-2)))]);
   ("availability", JStr "HIGH");
   ("dataCenters", JList [JObj [("id", JStr "US-TX-3"); ("name", JStr "Texas"); ("availability", JStr "MEDIUM")]])].

Definition catalog_json : payload := [("cpus", JList [JObj cpu_json])].

(** The catalog answers at the second attempt; the clock does not move. *)
Definition wire : oracle wire_answer := fun n c =>
  match c as c return result (wire_answer c) with
  | WSend q => Ok (match n with
                   | 2%nat => RestScenario.empty_answer 503
                   | _ => RestScenario.json_answer 200 (JObj catalog_json)
                   end)
  | WSleep _ => Ok tt
  | WNow => Ok (at_ 0)
  end.

Definition planning : result CpuEnvironmentAcquisitionPlan * list wire_event :=
  run wire 0 (planner_run DEFAULT_PREC 2 (seconds 30) request profile policy).

Definition snapshot : CpuCatalogSnapshot := {|
  cs_product := POD; cs_vcpu_count := 4; cs_observed_at := at_ 0;
  cs_offers := [{| co_id := "cpu5c"; co_name := "Compute"; co_group := "Gen 5"; co_min_vcpu := 2; co_max_vcpu := 32;
                   co_ram_gb_per_vcpu := Fin 25 (-1); co_secure_price_per_vcpu := Some (Fin 4 (-2));
                   co_serverless_price_per_vcpu := Some (Fin 3 (-2)); co_availability := Some AVAIL_HIGH;
                   co_data_centers := [{| dc_id := "US-TX-3"; dc_availability := Some AVAIL_MEDIUM |}] |}]
|}.

Definition found : CpuPodCatalogMatch := {|
  cm_cpu_id := "cpu5c"; cm_vcpu_count := 4; cm_data_center_ids := ["US-TX-3"]; cm_ram_gb := Fin 100 (-1);
  cm_compute_cost_per_hr := Fin 16 (-2); cm_observed_at := at_ 0
|}.

Definition the_plan : CpuEnvironmentAcquisitionPlan := {|
  pl_request := request; pl_profile := profile; pl_noncompute := policy; pl_catalog := found;
  pl_planned_at := at_ 0; pl_expires_at := at_ 30; pl_catalog_max_age := seconds 30
|}.

Lemma plan_made : fst planning = Ok the_plan.
Proof. exact (@eq_refl _ (Ok the_plan) <: fst planning = Ok the_plan). Qed.

Example plan_prices :
  all_in_hourly_usd DEFAULT_PREC the_plan = Ok (Fin 18 (-2)) /\
  estimated_total_usd DEFAULT_PREC the_plan = Ok (Fin 103000000000 (-12)).
Proof. split; vm_compute; reflexivity. Qed.

Definition intent : CpuPodCreateRequest := cpu_pod_intent profile request.

(** The Pod as the provider reads it back. *)
Definition pod_json (status : string) (extra : payload) : payload :=
  ([("id", JStr "owned-cpu"); ("name", JStr (uq_name intent)); ("image", JStr image); ("cloud", JStr "SECURE");
    ("disk", JInt 20); ("dataCenterId", JStr "US-TX-3");
    ("cpu", JObj [("id", JStr "cpu5c"); ("vcpuCount", JInt 4); ("memory", JInt 10)]);
    ("globalNetworking", JObj [("enabled", JBool false)]); ("args", JStr EmptyString); ("cmd", JList []);
    ("entrypoint", JList []); ("ports", JList []); ("env", JObj []); ("mounts", JObj []); ("registry", JNull);
    ("locked", JBool false); ("template", JNull); ("status", JStr status)] ++ extra)%list.

Definition pod (status : string) (extra : payload) : PodResource := {|
  px_id := "owned-cpu"; px_name := uq_name intent; px_status := status; px_gpu_id := None; px_gpu_count := 0;
  px_cost_per_hr := None; px_raw := pod_json status extra
|}.

Definition running_facts : payload := [("cost", JFloat (Fin 16 (-2))); ("startedAt", JStr (iso_datetime (at_ 1)))].

Example observed_running :
  inspect_cpu_readiness the_plan "owned-cpu" (pod "RUNNING" running_facts) (at_ 2) =
  Ok (observation the_plan "owned-cpu" (at_ 2) (RunningPod (at_ 1) (Fin 16 (-2)))).
Proof. vm_compute. reflexivity. Qed.

Example observed_pending :
  inspect_cpu_readiness the_plan "owned-cpu" (pod "STARTING" []) (at_ 2) =
  Ok (observation the_plan "owned-cpu" (at_ 2) PendingPod).
Proof. vm_compute. reflexivity. Qed.

Lemma matched_pod_is_offered_witness :
  match_pod snapshot intent (at_ 5) (seconds 30) AVAIL_LOW = Ok found /\
  exists o, offered snapshot intent (at_ 5) (seconds 30) AVAIL_LOW o.
Proof.
  assert (Hs : snapshot_from_response catalog_json POD 4 (at_ 0) = Ok snapshot) by (vm_compute; reflexivity).
  assert (Hm : match_pod snapshot intent (at_ 5) (seconds 30) AVAIL_LOW = Ok found) by (vm_compute; reflexivity).
  destruct (proj1 (matched_pod_is_offered _ _ _ _ _ intent (at_ 5) (seconds 30) AVAIL_LOW Hs found) Hm)
    as (o & _ & _ & _ & _ & Ho & _). split; [exact Hm|by exists o].
Defined.

Lemma planned_pod_stays_within_ceilings_witness :
  plan_pod_request DEFAULT_PREC the_plan request profile policy (at_ 10) = Ok intent /\
  (units (-12) (Fin 16 (-2)) + units (-12) (Fin 2 (-2))) * seconds 1860 + units (-12) (Fin 1 (-2)) * 3600000000 <=
    units (-12) (Fin 11 (-2)) * 3600000000.
Proof.
  assert (Hp : plan_pod_request DEFAULT_PREC the_plan request profile policy (at_ 10) = Ok intent)
    by (vm_compute; reflexivity).
  split; [exact Hp|].
  destruct (planned_pod_stays_within_ceilings (SDK := sample_sdk) DEFAULT_PREC request profile policy found (at_ 0) (at_ 30)
    (seconds 30) the_plan request profile policy (at_ 10) intent) as (_ & _ & _ & _ & Hc).
  - done.
  - apply make_plan_is; vm_compute; reflexivity.
  - exact Hp.
  - reflexivity.
  - reflexivity.
  - apply (Hc (-12) (seconds 1860)); [done| |vm_compute; by split]. repeat (apply Forall_cons_iff; split; [done|]). done.
Defined.

Lemma planner_reads_one_catalog_witness :
  length (sends (snd planning)) = 2%nat /\ mutations (snd planning) = [].
Proof.
  split; [vm_compute; reflexivity|].
  assert (Hr : run wire 0 (planner_run DEFAULT_PREC 2 (seconds 30) request profile policy) =
               (fst planning, snd planning)) by apply surjective_pairing.
  by destruct (planner_reads_one_catalog _ _ _ _ _ _ _ _ _ _ Hr) as (_ & _ & Hm & _).
Defined.

Lemma extends_app raw more : extends raw (raw ++ more)%list.
Proof.
  intros k Hk. split; [unfold keys; rewrite map_app; apply elem_of_app; by left|].
  induction raw as [|[k' v] l IH]; [by apply not_elem_of_nil in Hk|]. cbn. destruct (String.eqb_spec k' k) as [|Hne]; [done|].
  apply IH. by apply elem_of_cons in Hk as [Hk|].
Qed.

Lemma contradiction_is_final_witness :
  inspect_cpu_readiness the_plan "owned-cpu" (pod "STARTING" ([("gpu", JObj [])] ++ running_facts)%list) (at_ 90) =
  Exc (CpuPodMismatch "owned-cpu").
Proof.
  apply (contradiction_is_final the_plan "owned-cpu" (pod "STARTING" [("gpu", JObj [])]) _ (at_ 2) (at_ 90)).
  - by vm_compute.
  - reflexivity.
  - exact (extends_app (pod_json "STARTING" [("gpu", JObj [])]) running_facts).
  - vm_compute. reflexivity.
Defined.

End CpuScenario.
