(* ===== verification/SignedReceipts.v ===== *)
(** Signed invocation receipts ([signed_invocations.py]): the canonical representation
    that is signed, the request, receipt and response contracts, the verifier and the
    signer. Ed25519 and the digest of raw bytes are parameters. *)
From S2P Require Import Prelude PyStr Errors PyDecimal PyFloat PyTime Json ContractsBase CodecBase ServerlessSpec JsonText.
From Stdlib Require Import Ascii.

#[local] Open Scope Z_scope.

Abbreviation fields := (list (string * json)).

(** [raise SignedInvocationError(...)] unless the test holds. *)
Definition must (test : bool) : result unit := require test SignedInvocationError.

(** [_contract_boundary]: whatever escapes leaves as the module's own error; the
    exceptions that are no [Exception] pass. A helper that raises nothing else is written
    without it. *)
Definition boundary {A} (m : result A) : result A :=
  match m with
  | Exc CancelledError => Exc CancelledError
  | Exc _ => Exc SignedInvocationError
  | Ok a => Ok a
  end.

(** ** Parameters *)

(** [hashlib.sha256(data).hexdigest()] of bytes; a text is hashed through its bytes. *)
Class ByteDigest `{Digest} := {
  bytes_sha256_hex : list ascii -> string;
  bytes_sha256_digits : forall b, is_image_digest ("sha256:" ++ bytes_sha256_hex b) = true;
  bytes_sha256_text : forall s, bytes_sha256_hex (utf8_bytes s) = sha256_hex s
}.

(** The [cryptography] package. Loading a DER blob may raise; a loaded key that is no
    Ed25519 key is [None]. *)
Class Ed25519 := {
  private_key : Type;
  public_key : Type;
  load_der_public_key : list ascii -> result (option public_key);
  load_der_private_key : list ascii -> result (option private_key);
  public_of : private_key -> public_key;
  public_der : private_key -> list ascii;
  key_sign : private_key -> list ascii -> list ascii;
  key_verify : public_key -> list ascii -> list ascii -> bool
}.

(** What the package documents: an exported key loads again, a signature has 64 bytes
    and is accepted by the public key of its signer. *)
Class Ed25519Laws `{Ed25519} := {
  load_exported : forall k, load_der_public_key (public_der k) = Ok (Some (public_of k));
  sign_length : forall k data, length (key_sign k data) = 64%nat;
  verify_signed : forall k data, key_verify (public_of k) (key_sign k data) data = true;
  exported_nonempty : forall k, public_der k <> []
}.

(** ** Canonical JSON *)

(** [sys.int_info.default_max_str_digits]. *)
Definition MAX_STR_DIGITS : Z := 4300.

(** What [json.dumps(..., allow_nan=False)] writes: finite floats, and integers within
    the interpreter's limit on digits. *)
Fixpoint encodable (v : json) : bool :=
  match v with
  | JInt z => ndigits (Z.abs z) <=? MAX_STR_DIGITS
  | JFloat d => is_finite d
  | JList l => forallb encodable l
  | JObj l => forallb (fun p => encodable (snd p)) l
  | _ => true
  end.

(** [canonical_json]; how deep the interpreter's stack lets [json.dumps] go is not
    modelled. *)
Definition canonical_json (value : json) : result string :=
  run! must (encodable value) then Ok (dumps value).

Section Signed.
Context {DG : Digest} {BD : ByteDigest}.

(** [canonical_sha256]. *)
Definition signed_sha256 (value : json) : result string :=
  let! text := canonical_json value in Ok ("sha256:" ++ sha256_hex text)%string.

(** [utf8_sha256]. *)
Definition utf8_sha256 (value : string) : string := "sha256:" ++ sha256_hex value.

(** [_SAFE_IDENTIFIER]. *)
Definition is_signed_ident (c : ascii) : bool :=
  is_alnum c || bool_decide (code c ∈ [46; 95; 58; 64; 43; 45]).

Definition signed_identifier (s : string) : bool :=
  starts_with is_alnum s && all_chars is_signed_ident s && (len s <=? 255).

(** [_optional_identifier], [_optional_sha256]; [_sha256] is [is_image_digest]. *)
Definition optional_identifier (o : option string) : bool := option_all signed_identifier o.
Definition optional_sha256 (o : option string) : bool := option_all is_image_digest o.

(** [_MAX_JSON_DEPTH]. *)
Definition MAX_JSON_DEPTH : Z := 64.

(** [_require_exact_json_values]. *)
Fixpoint exact_json_values (depth : Z) (v : json) : bool :=
  (depth <=? MAX_JSON_DEPTH) &&
  match v with
  | JList l => forallb (exact_json_values (depth + 1)) l
  | JObj l => forallb (fun p => exact_json_values (depth + 1) (snd p)) l
  | v => encodable v
  end.

(** [_canonical_json_object]. *)
Definition canonical_json_object (value : fields) : result fields :=
  boundary
    (run! must (exact_json_values 0 (JObj value)) then
     let! text := canonical_json (JObj value) in
     let! normalized := of_option (loads text) ValueError in
     match normalized with
     | JObj l => Ok l
     | _ => Exc SignedInvocationError
     end).

(** [phase_evidence_sha256]. *)
Definition phase_evidence_sha256 (phase : string) (evidence_payload : fields) : result string :=
  run! must (signed_identifier phase) then
  let! normalized := canonical_json_object evidence_payload in
  run! must (field_is normalized "phase" phase) then
  signed_sha256 (JObj normalized).

(** ** Unpadded base64url *)

Definition byte (n : Z) : ascii := ascii_of_N (Z.to_N n).

Definition b64_char (n : Z) : ascii :=
  if n <? 26 then byte (65 + n)
  else if n <? 52 then byte (71 + n)
  else if n <? 62 then byte (n - 4)
  else if n =? 62 then "-"%char else "_"%char.

Definition b64_value (c : ascii) : option Z :=
  if is_upper c then Some (code c - 65)
  else if is_lower c then Some (code c - 71)
  else if is_digit c then Some (code c + 4)
  else if code c =? 45 then Some 62
  else if code c =? 95 then Some 63
  else None.

Fixpoint b64_digits (l : list ascii) : list Z :=
  match l with
  | [] => []
  | [a] => let n := code a * 16 in [n / 64; n mod 64]
  | [a; b] => let n := code a * 1024 + code b * 4 in [n / 4096; n / 64 mod 64; n mod 64]
  | a :: b :: c :: r =>
      let n := code a * 65536 + code b * 256 + code c in
      n / 262144 :: n / 4096 mod 64 :: n / 64 mod 64 :: n mod 64 :: b64_digits r
  end.

(** The bytes of the digits; bits that fill no byte are dropped, and a single digit in
    the last group is an error. *)
Fixpoint b64_bytes (l : list Z) : option (list ascii) :=
  match l with
  | [] => Some []
  | [_] => None
  | [a; b] => Some [byte ((a * 64 + b) / 16)]
  | [a; b; c] => let n := a * 4096 + b * 64 + c in Some [byte (n / 1024); byte (n / 4 mod 256)]
  | a :: b :: c :: d :: r =>
      let n := a * 262144 + b * 4096 + c * 64 + d in
      match b64_bytes r with
      | Some k => Some (byte (n / 65536) :: byte (n / 256 mod 256) :: byte (n mod 256) :: k)
      | None => None
      end
  end.

(** [base64url_encode]. *)
Definition base64url_encode (value : list ascii) : string := of_chars (map b64_char (b64_digits value)).

(** [base64url_decode]. *)
Fixpoint all_values (l : list ascii) : option (list Z) :=
  match l with
  | [] => Some []
  | c :: r =>
      match b64_value c, all_values r with
      | Some n, Some k => Some (n :: k)
      | _, _ => None
      end
  end.

Definition base64url_decode (value : string) : result (list ascii) :=
  run! must (negb (bool_decide (value = ""))) then
  let! digits := of_option (all_values (chars value)) SignedInvocationError in
  of_option (b64_bytes digits) SignedInvocationError.

(** ** Fields *)

(** [_relative_route]: the characters of [_RELATIVE_ROUTE], and no empty, [.] or [..]
    segment. *)
Definition route_char (c : ascii) : bool :=
  is_alnum c ||
  bool_decide (code c ∈ [46; 95; 126; 33; 36; 38; 39; 40; 41; 42; 43; 44; 59; 61; 58; 64; 47; 45]).

Definition relative_route (value : string) : bool :=
  match chars value with
  | c :: rest =>
      (code c =? 47) && forallb route_char rest &&
      (1 <=? Z.of_nat (length rest)) && (Z.of_nat (length rest) <=? 511) &&
      negb (contains (chars "//") (chars value)) &&
      negb (contains (chars "/../") (chars (value ++ "/"))) &&
      negb (contains (chars "/./") (chars (value ++ "/")))
  | [] => false
  end.

(** [_iso]. *)
Definition signed_iso (t : instant) : result string :=
  run! must (bool_decide (representable t)) then Ok (of_chars (iso_with ["Z"%char] t)).

(** [_parse_time]. *)
Definition parse_time (v : json) : result instant :=
  match v with
  | JStr s =>
      match fromisoformat s with
      | Some (local, Some offset) =>
          let t := local - offset * US in
          run! must (bool_decide (representable t)) then Ok t
      | _ => Exc SignedInvocationError
      end
  | _ => Exc SignedInvocationError
  end.

(** [_required_payload_string], [_optional_payload_string], [_strict_int]. *)
Definition wire_string (v : json) : result string :=
  match v with JStr s => Ok s | _ => Exc SignedInvocationError end.

Definition wire_optional (v : json) : result (option string) :=
  match v with
  | JNull => Ok None
  | JStr s => Ok (Some s)
  | _ => Exc SignedInvocationError
  end.

Definition strict_int (v : json) : result Z :=
  match v with JInt z => Ok z | _ => Exc SignedInvocationError end.

(** [_optional_sha256] of a payload's field. *)
Definition wire_digest (v : json) : result (option string) :=
  let! o := wire_optional v in
  run! must (optional_sha256 o) then Ok o.

Definition opt_str (o : option string) : json := opt_json JStr o.

(** [isinstance(value, Mapping) and set(value) == expected]. *)
Definition exact_object (value : json) (expected : list string) : result fields :=
  match value with
  | JObj l => run! must (same_keys (keys l) expected) then Ok l
  | _ => Exc SignedInvocationError
  end.

(** ** [AttestedInvokeRequest] *)

Record AttestedInvokeRequest : Set := {
  vq_run_id : string;
  vq_phase : string;
  vq_request_id : string;
  vq_input : string;
  vq_model : option string;
  vq_provider : option string;
  vq_session_id : option string;
  vq_operation_digest : option string;
  vq_quote_digest : option string;
  vq_resource_plan_digest : option string
}.

(** [__post_init__]. *)
Definition check_invoke_request (r : AttestedInvokeRequest) : result unit :=
  run! must (forallb signed_identifier [vq_run_id r; vq_phase r; vq_request_id r]) then
  run! must (negb (bool_decide (vq_input r = ""))) then
  run! must (forallb optional_identifier [vq_model r; vq_provider r; vq_session_id r]) then
  must (forallb optional_sha256 [vq_operation_digest r; vq_quote_digest r; vq_resource_plan_digest r]).

(** [to_payload]. *)
Definition invoke_request_payload (r : AttestedInvokeRequest) : fields :=
  [("run_id", JStr (vq_run_id r)); ("phase", JStr (vq_phase r)); ("request_id", JStr (vq_request_id r));
   ("input", JStr (vq_input r)); ("model", opt_str (vq_model r)); ("provider", opt_str (vq_provider r));
   ("session_id", opt_str (vq_session_id r)); ("operation_digest", opt_str (vq_operation_digest r));
   ("quote_digest", opt_str (vq_quote_digest r));
   ("resource_plan_digest", opt_str (vq_resource_plan_digest r))].

(** [from_payload]. *)
Definition invoke_request_from_payload (value : json) : result AttestedInvokeRequest :=
  let! l := exact_object value
    ["run_id"; "phase"; "request_id"; "input"; "model"; "provider"; "session_id"; "operation_digest";
     "quote_digest"; "resource_plan_digest"] in
  let! run_id := wire_string (get_field l "run_id") in
  let! phase := wire_string (get_field l "phase") in
  let! request_id := wire_string (get_field l "request_id") in
  let! input := wire_string (get_field l "input") in
  let! model := wire_optional (get_field l "model") in
  let! provider := wire_optional (get_field l "provider") in
  let! session_id := wire_optional (get_field l "session_id") in
  let! operation_digest := wire_digest (get_field l "operation_digest") in
  let! quote_digest := wire_digest (get_field l "quote_digest") in
  let! resource_plan_digest := wire_digest (get_field l "resource_plan_digest") in
  let r := {| vq_run_id := run_id; vq_phase := phase; vq_request_id := request_id; vq_input := input;
              vq_model := model; vq_provider := provider; vq_session_id := session_id;
              vq_operation_digest := operation_digest; vq_quote_digest := quote_digest;
              vq_resource_plan_digest := resource_plan_digest |} in
  run! check_invoke_request r then Ok r.

(** ** [ServerInvokeReceipt] *)

Definition INVOCATION_RECEIPT_CONTRACT : string := "frinz-agent-invocation-receipt-v1".
Definition INVOCATION_RECEIPT_SIGNATURE_ALGORITHM : string := "Ed25519".
Definition FRINZ_AUTHENTICATED_HTTP_TRANSPORT : string := "frinz_authenticated_http".

Record ServerInvokeReceipt : Set := {
  vr_receipt_id : string;
  vr_run_id : string;
  vr_phase : string;
  vr_route : string;
  vr_request_id : string;
  vr_owner_binding_sha256 : string;
  vr_companion_id : string;
  vr_agent_id : string;
  vr_input_sha256 : string;
  vr_response_sha256 : string;
  vr_transport : string;
  vr_model : option string;
  vr_provider : option string;
  vr_session_id : option string;
  vr_operation_digest : option string;
  vr_quote_digest : option string;
  vr_resource_plan_digest : option string;
  vr_evidence_digest : string;
  vr_started_at : instant;
  vr_completed_at : instant;
  vr_elapsed_ms : Z;
  vr_issued_at : instant;
  vr_key_id : string;
  vr_public_key_sha256 : string;
  vr_signature_b64 : string;
  vr_contract : string;
  vr_signature_algorithm : string
}.

(** [round((b - a).total_seconds() * 1000)]: the float nearest to the seconds, the float
    nearest to its product by 1000, rounded half to even. *)
Definition float_round (m k : Z) : Z := if 0 <=? k then m * 2 ^ k else round_half_even m (2 ^ (- k)).

Definition expected_elapsed_ms (a b : instant) : Z :=
  match binary64 (b - a) US with
  | Some (m, k) =>
      match (if 0 <=? k then binary64 (m * 2 ^ k * 1000) 1 else binary64 (m * 1000) (2 ^ (- k))) with
      | Some (m', k') => float_round m' k'
      | None => 0
      end
  | None => 0
  end.

(** [__post_init__]. *)
Definition check_invoke_receipt (r : ServerInvokeReceipt) : result unit :=
  run! must (bool_decide (vr_contract r = INVOCATION_RECEIPT_CONTRACT)) then
  run! must (bool_decide (vr_signature_algorithm r = INVOCATION_RECEIPT_SIGNATURE_ALGORITHM)) then
  run! must
    (forallb signed_identifier
       [vr_receipt_id r; vr_run_id r; vr_phase r; vr_request_id r; vr_companion_id r; vr_agent_id r;
        vr_transport r; vr_key_id r]) then
  run! must (bool_decide (vr_transport r = FRINZ_AUTHENTICATED_HTTP_TRANSPORT)) then
  run! must (relative_route (vr_route r)) then
  run! must
    (forallb is_image_digest
       [vr_owner_binding_sha256 r; vr_input_sha256 r; vr_response_sha256 r; vr_evidence_digest r;
        vr_public_key_sha256 r]) then
  run! must (forallb optional_sha256 [vr_operation_digest r; vr_quote_digest r; vr_resource_plan_digest r]) then
  run! must (forallb optional_identifier [vr_model r; vr_provider r; vr_session_id r]) then
  run! signed_iso (vr_started_at r) then
  run! signed_iso (vr_completed_at r) then
  run! signed_iso (vr_issued_at r) then
  run! must ((vr_started_at r <=? vr_completed_at r) && (vr_completed_at r <=? vr_issued_at r)) then
  run! must (0 <=? vr_elapsed_ms r) then
  run! must (vr_elapsed_ms r =? expected_elapsed_ms (vr_started_at r) (vr_completed_at r)) then
  let! signature := base64url_decode (vr_signature_b64 r) in
  must (Nat.eqb (length signature) 64).

(** [signed_payload], of the three timestamps already written. *)
Definition payload_fields (r : ServerInvokeReceipt) (started completed issued : string) : fields :=
  [("run_id", JStr (vr_run_id r)); ("phase", JStr (vr_phase r)); ("route", JStr (vr_route r));
   ("request_id", JStr (vr_request_id r)); ("owner_binding_sha256", JStr (vr_owner_binding_sha256 r));
   ("companion_id", JStr (vr_companion_id r)); ("agent_id", JStr (vr_agent_id r));
   ("input_sha256", JStr (vr_input_sha256 r)); ("response_sha256", JStr (vr_response_sha256 r));
   ("transport", JStr (vr_transport r)); ("model", opt_str (vr_model r));
   ("provider", opt_str (vr_provider r)); ("session_id", opt_str (vr_session_id r));
   ("operation_digest", opt_str (vr_operation_digest r)); ("quote_digest", opt_str (vr_quote_digest r));
   ("resource_plan_digest", opt_str (vr_resource_plan_digest r));
   ("evidence_digest", JStr (vr_evidence_digest r)); ("started_at", JStr started);
   ("completed_at", JStr completed); ("elapsed_ms", JInt (vr_elapsed_ms r)); ("issued_at", JStr issued);
   ("receipt_id", JStr (vr_receipt_id r))].

Definition signed_payload (r : ServerInvokeReceipt) : result fields :=
  let! started := signed_iso (vr_started_at r) in
  let! completed := signed_iso (vr_completed_at r) in
  let! issued := signed_iso (vr_issued_at r) in
  Ok (payload_fields r started completed issued).

Definition envelope (contract : string) (payload : fields)
  (algorithm key_id public_key_sha256 value : string) : fields :=
  [("contract", JStr contract); ("payload", JObj payload);
   ("signature", JObj [("algorithm", JStr algorithm); ("key_id", JStr key_id);
                       ("public_key_sha256", JStr public_key_sha256); ("value", JStr value)])].

(** [to_payload]. *)
Definition receipt_payload (r : ServerInvokeReceipt) : result fields :=
  let! payload := signed_payload r in
  Ok (envelope (vr_contract r) payload (vr_signature_algorithm r) (vr_key_id r) (vr_public_key_sha256 r)
        (vr_signature_b64 r)).

Definition PAYLOAD_FIELDS : list string :=
  ["run_id"; "phase"; "route"; "request_id"; "owner_binding_sha256"; "companion_id"; "agent_id";
   "input_sha256"; "response_sha256"; "transport"; "model"; "provider"; "session_id"; "operation_digest";
   "quote_digest"; "resource_plan_digest"; "evidence_digest"; "started_at"; "completed_at"; "elapsed_ms";
   "issued_at"; "receipt_id"].

(** [from_payload]. *)
Definition receipt_from_payload (value : json) : result ServerInvokeReceipt :=
  let! e := exact_object value ["contract"; "payload"; "signature"] in
  let! p := exact_object (get_field e "payload") PAYLOAD_FIELDS in
  let! s := exact_object (get_field e "signature") ["algorithm"; "key_id"; "public_key_sha256"; "value"] in
  let! contract := wire_string (get_field e "contract") in
  let! receipt_id := wire_string (get_field p "receipt_id") in
  let! run_id := wire_string (get_field p "run_id") in
  let! phase := wire_string (get_field p "phase") in
  let! route := wire_string (get_field p "route") in
  let! request_id := wire_string (get_field p "request_id") in
  let! owner := wire_string (get_field p "owner_binding_sha256") in
  let! companion_id := wire_string (get_field p "companion_id") in
  let! agent_id := wire_string (get_field p "agent_id") in
  let! input_sha256 := wire_string (get_field p "input_sha256") in
  let! response_sha256 := wire_string (get_field p "response_sha256") in
  let! transport := wire_string (get_field p "transport") in
  let! model := wire_optional (get_field p "model") in
  let! provider := wire_optional (get_field p "provider") in
  let! session_id := wire_optional (get_field p "session_id") in
  let! operation_digest := wire_digest (get_field p "operation_digest") in
  let! quote_digest := wire_digest (get_field p "quote_digest") in
  let! resource_plan_digest := wire_digest (get_field p "resource_plan_digest") in
  let! evidence_digest := wire_string (get_field p "evidence_digest") in
  let! started_at := parse_time (get_field p "started_at") in
  let! completed_at := parse_time (get_field p "completed_at") in
  let! elapsed_ms := strict_int (get_field p "elapsed_ms") in
  let! issued_at := parse_time (get_field p "issued_at") in
  let! key_id := wire_string (get_field s "key_id") in
  let! public_key_sha256 := wire_string (get_field s "public_key_sha256") in
  let! signature_b64 := wire_string (get_field s "value") in
  let! algorithm := wire_string (get_field s "algorithm") in
  let r := {|
    vr_receipt_id := receipt_id; vr_run_id := run_id; vr_phase := phase; vr_route := route;
    vr_request_id := request_id; vr_owner_binding_sha256 := owner; vr_companion_id := companion_id;
    vr_agent_id := agent_id; vr_input_sha256 := input_sha256; vr_response_sha256 := response_sha256;
    vr_transport := transport; vr_model := model; vr_provider := provider; vr_session_id := session_id;
    vr_operation_digest := operation_digest; vr_quote_digest := quote_digest;
    vr_resource_plan_digest := resource_plan_digest; vr_evidence_digest := evidence_digest;
    vr_started_at := started_at; vr_completed_at := completed_at; vr_elapsed_ms := elapsed_ms;
    vr_issued_at := issued_at; vr_key_id := key_id; vr_public_key_sha256 := public_key_sha256;
    vr_signature_b64 := signature_b64; vr_contract := contract; vr_signature_algorithm := algorithm |} in
  run! check_invoke_receipt r then Ok r.

(** ** [AttestedInvokeResponse] *)

Record AttestedInvokeResponse := {
  vs_response : string;
  vs_model : option string;
  vs_provider : option string;
  vs_session_id : option string;
  vs_phase_evidence : fields;
  vs_invocation_receipt : ServerInvokeReceipt
}.

(** The constructor: the response it answers holds the normalized evidence. *)
Definition mk_response (r : AttestedInvokeResponse) : result AttestedInvokeResponse :=
  run! must (forallb optional_identifier [vs_model r; vs_provider r; vs_session_id r]) then
  let receipt := vs_invocation_receipt r in
  run! must
    (bool_decide (vr_response_sha256 receipt = utf8_sha256 (vs_response r)) &&
     bool_decide (vr_model receipt = vs_model r) && bool_decide (vr_provider receipt = vs_provider r) &&
     bool_decide (vr_session_id receipt = vs_session_id r)) then
  let! normalized := canonical_json_object (vs_phase_evidence r) in
  let! digest := phase_evidence_sha256 (vr_phase receipt) normalized in
  run! must (bool_decide (vr_evidence_digest receipt = digest)) then
  Ok {| vs_response := vs_response r; vs_model := vs_model r; vs_provider := vs_provider r;
        vs_session_id := vs_session_id r; vs_phase_evidence := normalized;
        vs_invocation_receipt := receipt |}.

(** [to_payload]. *)
Definition response_payload (r : AttestedInvokeResponse) : result fields :=
  let! receipt := receipt_payload (vs_invocation_receipt r) in
  Ok [("response", JStr (vs_response r)); ("model", opt_str (vs_model r));
      ("provider", opt_str (vs_provider r)); ("session_id", opt_str (vs_session_id r));
      ("phase_evidence", JObj (vs_phase_evidence r)); ("invocation_receipt", JObj receipt)].

(** [from_payload]. *)
Definition response_from_payload (value : json) : result AttestedInvokeResponse :=
  let! l := exact_object value
    ["response"; "model"; "provider"; "session_id"; "phase_evidence"; "invocation_receipt"] in
  let! evidence := match get_field l "phase_evidence" with JObj e => Ok e | _ => Exc SignedInvocationError end in
  let! response := wire_string (get_field l "response") in
  let! model := wire_optional (get_field l "model") in
  let! provider := wire_optional (get_field l "provider") in
  let! session_id := wire_optional (get_field l "session_id") in
  let! receipt := receipt_from_payload (get_field l "invocation_receipt") in
  mk_response {| vs_response := response; vs_model := model; vs_provider := provider;
                 vs_session_id := session_id; vs_phase_evidence := evidence;
                 vs_invocation_receipt := receipt |}.

(** ** [ReceiptTrust] *)

Context {ED : Ed25519}.

Record ReceiptTrust : Set := {
  vt_target : string;
  vt_route : string;
  vt_key_id : string;
  vt_public_key_spki_b64 : string;
  vt_public_key_sha256 : string;
  vt_owner_binding_sha256 : string;
  vt_companion_id : string;
  vt_agent_id : string
}.

#[export] Instance ReceiptTrust_dec : EqDecision ReceiptTrust.
Proof. solve_decision. Defined.

(** A key that must be an Ed25519 key. *)
Definition ed25519_key {A} (loaded : result (option A)) : result A :=
  let! o := loaded in of_option o SignedInvocationError.

(** [__post_init__]. *)
Definition check_trust (t : ReceiptTrust) : result unit :=
  boundary
    (run! must (signed_identifier (vt_target t)) then
     run! must (relative_route (vt_route t)) then
     run! must (forallb signed_identifier [vt_key_id t; vt_companion_id t; vt_agent_id t]) then
     run! must (forallb is_image_digest [vt_public_key_sha256 t; vt_owner_binding_sha256 t]) then
     let! encoded := base64url_decode (vt_public_key_spki_b64 t) in
     run! must (bool_decide ("sha256:" ++ bytes_sha256_hex encoded = vt_public_key_sha256 t)%string) then
     run! ed25519_key (load_der_public_key encoded) then
     Ok tt).

(** [to_payload], [from_payload]. *)
Definition trust_payload (t : ReceiptTrust) : fields :=
  [("target", JStr (vt_target t)); ("route", JStr (vt_route t)); ("key_id", JStr (vt_key_id t));
   ("public_key_spki_b64", JStr (vt_public_key_spki_b64 t));
   ("public_key_sha256", JStr (vt_public_key_sha256 t));
   ("owner_binding_sha256", JStr (vt_owner_binding_sha256 t)); ("companion_id", JStr (vt_companion_id t));
   ("agent_id", JStr (vt_agent_id t))].

Definition trust_from_payload (value : json) : result ReceiptTrust :=
  let! l := exact_object value
    ["target"; "route"; "key_id"; "public_key_spki_b64"; "public_key_sha256"; "owner_binding_sha256";
     "companion_id"; "agent_id"] in
  let! target := wire_string (get_field l "target") in
  let! route := wire_string (get_field l "route") in
  let! key_id := wire_string (get_field l "key_id") in
  let! spki := wire_string (get_field l "public_key_spki_b64") in
  let! sha := wire_string (get_field l "public_key_sha256") in
  let! owner := wire_string (get_field l "owner_binding_sha256") in
  let! companion_id := wire_string (get_field l "companion_id") in
  let! agent_id := wire_string (get_field l "agent_id") in
  let t := {| vt_target := target; vt_route := route; vt_key_id := key_id; vt_public_key_spki_b64 := spki;
              vt_public_key_sha256 := sha; vt_owner_binding_sha256 := owner;
              vt_companion_id := companion_id; vt_agent_id := agent_id |} in
  run! check_trust t then Ok t.

(** ** [InvokeReceiptVerifier] *)

(** [__init__], of trusts that were constructed. *)
Definition mk_verifier (trusts : list ReceiptTrust) : result (list ReceiptTrust) :=
  run! must (match trusts with [] => false | _ => true end) then
  run! must (bool_decide (NoDup (map vt_target trusts))) then
  Ok trusts.

(** What a verification expects of a receipt. *)
Record expectation : Set := {
  vx_run_id : string;
  vx_phase : string;
  vx_request_id : string;
  vx_input_text : string;
  vx_operation_digest : option string;
  vx_quote_digest : option string;
  vx_resource_plan_digest : option string
}.

(** The identity a trust pins. *)
Definition trusts_receipt (receipt : ServerInvokeReceipt) (t : ReceiptTrust) : bool :=
  bool_decide (vr_route receipt = vt_route t) &&
  bool_decide (vr_owner_binding_sha256 receipt = vt_owner_binding_sha256 t) &&
  bool_decide (vr_companion_id receipt = vt_companion_id t) &&
  bool_decide (vr_agent_id receipt = vt_agent_id t) &&
  bool_decide (vr_key_id receipt = vt_key_id t) &&
  bool_decide (vr_public_key_sha256 receipt = vt_public_key_sha256 t).

Definition bound_to (receipt : ServerInvokeReceipt) (x : expectation) : bool :=
  bool_decide (vr_run_id receipt = vx_run_id x) && bool_decide (vr_phase receipt = vx_phase x) &&
  bool_decide (vr_request_id receipt = vx_request_id x) &&
  bool_decide (vr_input_sha256 receipt = utf8_sha256 (vx_input_text x)) &&
  bool_decide (vr_operation_digest receipt = vx_operation_digest x) &&
  bool_decide (vr_quote_digest receipt = vx_quote_digest x) &&
  bool_decide (vr_resource_plan_digest receipt = vx_resource_plan_digest x).

(** [verify]. *)
Definition verify (trusts : list ReceiptTrust) (receipt : ServerInvokeReceipt) (x : expectation)
  : result string :=
  boundary
    match List.filter (trusts_receipt receipt) trusts with
    | [trust] =>
        run! must (forallb signed_identifier [vx_run_id x; vx_phase x; vx_request_id x]) then
        run! must (bound_to receipt x) then
        let! encoded_key := base64url_decode (vt_public_key_spki_b64 trust) in
        let! key := ed25519_key (load_der_public_key encoded_key) in
        let! signature := base64url_decode (vr_signature_b64 receipt) in
        let! payload := signed_payload receipt in
        let! text := canonical_json (JObj payload) in
        run! must (key_verify key signature (utf8_bytes text)) then
        Ok (vt_target trust)
    | _ => Exc SignedInvocationError
    end.

(** [verify_phase_evidence]. *)
Definition verify_phase_evidence (receipt : ServerInvokeReceipt) (evidence_payload : fields) : result unit :=
  let! digest := phase_evidence_sha256 (vr_phase receipt) evidence_payload in
  must (bool_decide (vr_evidence_digest receipt = digest)).

(** ** [InvokeReceiptSigner] *)

Record InvokeReceiptSigner := {
  sg_key : private_key;
  sg_key_id : string;
  sg_public_key_sha256 : string
}.

(** [__init__]. *)
Definition mk_signer (private_key_pkcs8_b64 key_id : string) : result InvokeReceiptSigner :=
  boundary
    (run! must (signed_identifier key_id) then
     let! encoded := base64url_decode private_key_pkcs8_b64 in
     let! key := ed25519_key (load_der_private_key encoded) in
     Ok {| sg_key := key; sg_key_id := key_id;
           sg_public_key_sha256 := "sha256:" ++ bytes_sha256_hex (public_der key) |}).

(** The envelope a signer puts around a payload. *)
Definition signer_envelope (s : InvokeReceiptSigner) (payload : fields) (signature : list ascii) : json :=
  JObj (envelope INVOCATION_RECEIPT_CONTRACT payload INVOCATION_RECEIPT_SIGNATURE_ALGORITHM (sg_key_id s)
          (sg_public_key_sha256 s) (base64url_encode signature)).

(** [sign]. *)
Definition sign (s : InvokeReceiptSigner) (payload : json) : result ServerInvokeReceipt :=
  match payload with
  | JObj p =>
      let! unsigned := receipt_from_payload (signer_envelope s p (repeat "000"%char 64)) in
      let! normalized := signed_payload unsigned in
      let! text := canonical_json (JObj normalized) in
      receipt_from_payload (signer_envelope s normalized (key_sign (sg_key s) (utf8_bytes text)))
  | _ => Exc SignedInvocationError
  end.

End Signed.
