(* ===== verification/SignedProperties.v ===== *)
(** What signed receipts promise ([signed_invocations.py]): a verified receipt was
    signed by the pinned key over its own fields, an issued receipt verifies, contracts
    read back, and no other exception leaves the module. *)
From S2P Require Import Prelude PyStr Errors PyDecimal PyFloat PyTime Json ContractsBase CodecBase ServerlessSpec JsonText SignedReceipts Scenario.
From Stdlib Require Import Ascii.

#[local] Open Scope Z_scope.

(** ** Helpers *)

Lemma boundary_ok {A} (m : result A) a : boundary m = Ok a -> m = Ok a.
Proof. destruct m as [|[]]; cbn; congruence. Qed.

Lemma must_ok b u : must b = Ok u -> b = true.
Proof. apply require_ok. Qed.

Lemma must_true b : b = true -> must b = Ok tt.
Proof. by intros ->. Qed.

(** Break the requirements among the hypotheses. *)
Ltac must_inv :=
  repeat match goal with
  | H : boundary _ = Ok _ |- _ => apply boundary_ok in H
  | H : must _ = Ok _ |- _ => apply must_ok in H
  | _ => progress res_inv
  end.

(** *** base64url *)

Lemma code_byte n : 0 <= n < 256 -> code (byte n) = n.
Proof. intros Hn. unfold code, byte. rewrite N_ascii_embedding by lia. lia. Qed.

Lemma byte_code c : byte (code c) = c.
Proof. unfold byte, code. rewrite N2Z.id. apply ascii_N_embedding. Qed.

Lemma code_bounds c : 0 <= code c < 256.
Proof. unfold code. pose proof (N_ascii_bounded c). lia. Qed.

Definition digit_reads (n : Z) : bool :=
  match b64_value (b64_char n) with Some k => k =? n | None => false end.

Lemma b64_value_char n : 0 <= n < 64 -> b64_value (b64_char n) = Some n.
Proof.
  intros Hn. assert (H : digit_reads n = true)
    by (apply (check_below_spec digit_reads 64 0); [by vm_compute|lia]).
  unfold digit_reads in H. destruct (b64_value (b64_char n)); [f_equal; lia|done].
Qed.

Lemma all_values_chars ds : Forall (fun n => 0 <= n < 64) ds -> all_values (map b64_char ds) = Some ds.
Proof. induction 1 as [|n ds Hn _ IH]; [done|]. cbn [map all_values]. by rewrite b64_value_char, IH. Qed.

(** Groups of three. *)
Lemma triples_ind {A} (P : list A -> Prop) :
  P [] -> (forall a, P [a]) -> (forall a b, P [a; b]) -> (forall a b c r, P r -> P (a :: b :: c :: r)) ->
  forall l, P l.
Proof.
  intros H0 H1 H2 H3. refine (fix go l := match l with
    | [] => H0 | [a] => H1 a | [a; b] => H2 a b | a :: b :: c :: r => H3 a b c r (go r) end).
Qed.

Ltac bytes_arith :=
  repeat match goal with a : ascii |- _ =>
    lazymatch goal with H : 0 <= code a < 256 |- _ => fail | _ => pose proof (code_bounds a) end end;
  Z.to_euclidean_division_equations; lia.

Lemma b64_digits_range l : Forall (fun n => 0 <= n < 64) (b64_digits l).
Proof.
  induction l as [|a|a b|a b c r IH] using triples_ind; cbn [b64_digits]; repeat constructor;
    try exact IH; bytes_arith.
Qed.

Lemma byte_of n c : n = code c -> byte n = c.
Proof. intros ->. apply byte_code. Qed.

Lemma b64_bytes_digits l : b64_bytes (b64_digits l) = Some l.
Proof.
  induction l as [|a|a b|a b c r IH] using triples_ind; cbn [b64_digits b64_bytes]; [done| | |].
  - do 2 f_equal. apply byte_of. bytes_arith.
  - do 2 f_equal; [|do 1 f_equal]; apply byte_of; bytes_arith.
  - rewrite IH. f_equal. f_equal; [apply byte_of; bytes_arith|].
    f_equal; [apply byte_of; bytes_arith|]. f_equal. apply byte_of. bytes_arith.
Qed.

Lemma b64_digits_nonempty l : l <> [] -> b64_digits l <> [].
Proof. by destruct l as [|a [|b [|c r]]]. Qed.

(** Encoded bytes decode to themselves; the empty string is the one that does not. *)
Lemma base64_round_trip bytes : bytes <> [] -> base64url_decode (base64url_encode bytes) = Ok bytes.
Proof.
  intros Hb. unfold base64url_decode, base64url_encode. pose proof (b64_digits_nonempty _ Hb) as Hd.
  rewrite must_true; cbn [rbind].
  - rewrite chars_of_chars, all_values_chars by apply b64_digits_range. cbn [of_option rbind].
    by rewrite b64_bytes_digits.
  - apply negb_true_iff, bool_decide_eq_false. destruct (b64_digits bytes); [done|]. done.
Qed.

(** *** Timestamps *)

Lemma signed_iso_ok t s :
  signed_iso t = Ok s -> representable t /\ s = of_chars (iso_with ["Z"%char] t).
Proof. unfold signed_iso. intros H. must_inv. by apply bool_decide_eq_true in H0 || (apply bool_decide_eq_true in H; done). Qed.

Lemma parse_signed_iso t s : signed_iso t = Ok s -> parse_time (JStr s) = Ok t.
Proof.
  intros H. apply signed_iso_ok in H as [Hr ->]. cbn [parse_time].
  rewrite fromisoformat_iso_with by done. rewrite Z.mul_0_l, Z.sub_0_r.
  by rewrite bool_decide_true.
Qed.

Lemma signed_iso_inj t u s : signed_iso t = Ok s -> signed_iso u = Ok s -> t = u.
Proof. intros Ht Hu. apply parse_signed_iso in Ht, Hu. congruence. Qed.

Lemma wire_optional_str o : wire_optional (opt_str o) = Ok o.
Proof. by destruct o. Qed.

Lemma wire_digest_str o : optional_sha256 o = true -> wire_digest (opt_str o) = Ok o.
Proof. intros H. unfold wire_digest. rewrite wire_optional_str. cbn [rbind]. by rewrite must_true. Qed.

(** *** Envelopes *)

(** The receipt under another signature. *)
Definition with_signature (r : ServerInvokeReceipt) (key_id public_key_sha256 value : string)
  : ServerInvokeReceipt := {|
  vr_receipt_id := vr_receipt_id r; vr_run_id := vr_run_id r; vr_phase := vr_phase r; vr_route := vr_route r;
  vr_request_id := vr_request_id r; vr_owner_binding_sha256 := vr_owner_binding_sha256 r;
  vr_companion_id := vr_companion_id r; vr_agent_id := vr_agent_id r; vr_input_sha256 := vr_input_sha256 r;
  vr_response_sha256 := vr_response_sha256 r; vr_transport := vr_transport r; vr_model := vr_model r;
  vr_provider := vr_provider r; vr_session_id := vr_session_id r;
  vr_operation_digest := vr_operation_digest r; vr_quote_digest := vr_quote_digest r;
  vr_resource_plan_digest := vr_resource_plan_digest r; vr_evidence_digest := vr_evidence_digest r;
  vr_started_at := vr_started_at r; vr_completed_at := vr_completed_at r; vr_elapsed_ms := vr_elapsed_ms r;
  vr_issued_at := vr_issued_at r; vr_key_id := key_id; vr_public_key_sha256 := public_key_sha256;
  vr_signature_b64 := value; vr_contract := INVOCATION_RECEIPT_CONTRACT;
  vr_signature_algorithm := INVOCATION_RECEIPT_SIGNATURE_ALGORITHM |}.

Lemma check_receipt_facts r u :
  check_invoke_receipt r = Ok u ->
  vr_contract r = INVOCATION_RECEIPT_CONTRACT /\ vr_signature_algorithm r = INVOCATION_RECEIPT_SIGNATURE_ALGORITHM /\
  forallb optional_sha256 [vr_operation_digest r; vr_quote_digest r; vr_resource_plan_digest r] = true /\
  forallb signed_identifier [vr_run_id r; vr_phase r; vr_request_id r] = true.
Proof.
  unfold check_invoke_receipt. intros H.
  apply rbind_ok in H as (? & H1 & H). apply rbind_ok in H as (? & H2 & H). apply rbind_ok in H as (? & H3 & H).
  apply rbind_ok in H as (? & H4 & H). apply rbind_ok in H as (? & H5 & H). apply rbind_ok in H as (? & H6 & H).
  apply rbind_ok in H as (? & H7 & H). clear H. must_inv.
  apply bool_decide_eq_true in H1, H2. split_and!; [done..|]. 
  cbn [forallb] in H3 |- *. rewrite !andb_true_iff in H3. rewrite !andb_true_iff. tauto.
Qed.

Lemma with_own_signature r u :
  check_invoke_receipt r = Ok u ->
  with_signature r (vr_key_id r) (vr_public_key_sha256 r) (vr_signature_b64 r) = r.
Proof. intros H. apply check_receipt_facts in H as (Hc & Ha & _). destruct r; cbn in *. by subst. Qed.

Lemma signed_payload_with r k h v : signed_payload (with_signature r k h v) = signed_payload r.
Proof. done. Qed.

(** What the reader makes of the envelope of a receipt's own payload. *)
Lemma read_envelope r u p k h v :
  check_invoke_receipt r = Ok u -> signed_payload r = Ok p ->
  receipt_from_payload
    (JObj (envelope INVOCATION_RECEIPT_CONTRACT p INVOCATION_RECEIPT_SIGNATURE_ALGORITHM k h v)) =
  let r' := with_signature r k h v in run! check_invoke_receipt r' then Ok r'.
Proof.
  intros Hc Hp. apply check_receipt_facts in Hc as (_ & _ & Hd & _).
  unfold signed_payload in Hp. must_inv. cbn [forallb] in Hd. split_bools.
  match goal with
  | Hs : signed_iso (vr_started_at r) = Ok ?s, Hc : signed_iso (vr_completed_at r) = Ok ?c,
    Hi : signed_iso (vr_issued_at r) = Ok ?i |- _ =>
      apply parse_signed_iso in Hs, Hc, Hi
  end.
  unfold receipt_from_payload, envelope, exact_object, payload_fields.
  cbn [get_field keys map fst String.eqb Ascii.eqb Bool.eqb].
  repeat (rewrite must_true by (by vm_compute)). cbn [rbind].
  cbn [get_field keys map fst String.eqb Ascii.eqb Bool.eqb].
  repeat (rewrite must_true by (by vm_compute)). cbn [rbind get_field String.eqb Ascii.eqb Bool.eqb wire_string strict_int].
  rewrite !wire_optional_str, !wire_digest_str by done.
  repeat match goal with H : parse_time _ = Ok _ |- _ => rewrite H; clear H end.
  cbn [rbind]. reflexivity.
Qed.

(** *** Canonical evidence *)

Lemma canonical_plain e n :
  plain_json (JObj e) -> canonical_json_object e = Ok n -> JObj n = canon (JObj e).
Proof.
  intros Hp H. unfold canonical_json_object, canonical_json in H. must_inv.
  match goal with H : loads (dumps _) = Some _ |- _ => rewrite loads_dumps in H by done; injection H as <- end.
  cbn [canon] in H |- *. congruence.
Qed.

Lemma dumps_canon v : plain_json v -> dumps (canon v) = dumps v.
Proof. intros Hv. unfold dumps. f_equal. by apply plain_canon. Qed.

(** Normalizing twice is normalizing once. *)
Lemma canonical_twice e n n' :
  plain_json (JObj e) -> canonical_json_object e = Ok n -> canonical_json_object n = Ok n' -> n' = n.
Proof.
  intros Hp Hn Hn'. apply canonical_plain in Hn; [|done]. pose proof (plain_canon _ Hp) as (Hpc & Hcc & _).
  rewrite <- Hn in Hpc, Hcc. apply canonical_plain in Hn'; [|done]. congruence.
Qed.

(** *** Signed texts *)

Lemma payload_plain r s c i : plain_json (JObj (payload_fields r s c i)).
Proof.
  apply plain_obj. split.
  - apply (bool_decide_unpack _). by vm_compute.
  - unfold payload_fields, opt_str, opt_json. repeat constructor; cbn [snd]; try done; by case_match.
Qed.

Lemma canon_str s : canon (JStr s) = JStr s.
Proof. done. Qed.

Lemma canon_opt o : canon (opt_str o) = opt_str o.
Proof. by destruct o. Qed.

Lemma opt_str_inj o o' : opt_str o = opt_str o' -> o = o'.
Proof. destruct o, o'; cbn; congruence. Qed.

(** The field of a payload under one of its names. *)
Ltac same_field H k :=
  let E := fresh "E" in
  pose proof (H k) as E;
  cbn [payload_fields get_field String.eqb Ascii.eqb Bool.eqb] in E;
  rewrite ?canon_opt in E; cbn [canon] in E;
  first [apply opt_str_inj in E | injection E as E].

(** The text determines every field that is signed. *)
Lemma same_text_same_receipt r1 r2 p1 p2 u1 u2 :
  check_invoke_receipt r1 = Ok u1 -> check_invoke_receipt r2 = Ok u2 ->
  signed_payload r1 = Ok p1 -> signed_payload r2 = Ok p2 -> dumps (JObj p1) = dumps (JObj p2) ->
  r1 = with_signature r2 (vr_key_id r1) (vr_public_key_sha256 r1) (vr_signature_b64 r1).
Proof.
  intros Hc1 Hc2 H1 H2 Ht. apply check_receipt_facts in Hc1 as (Hc & Ha & _). clear Hc2 u2.
  unfold signed_payload in H1, H2. must_inv.
  pose proof (fun k => same_text_same_fields _ _ k (payload_plain _ _ _ _) (payload_plain _ _ _ _) Ht) as Hall.
  clear Ht.
  same_field Hall "run_id"%string. same_field Hall "phase"%string. same_field Hall "route"%string.
  same_field Hall "request_id"%string. same_field Hall "owner_binding_sha256"%string.
  same_field Hall "companion_id"%string. same_field Hall "agent_id"%string. same_field Hall "input_sha256"%string.
  same_field Hall "response_sha256"%string. same_field Hall "transport"%string. same_field Hall "model"%string.
  same_field Hall "provider"%string. same_field Hall "session_id"%string. same_field Hall "operation_digest"%string.
  same_field Hall "quote_digest"%string. same_field Hall "resource_plan_digest"%string.
  same_field Hall "evidence_digest"%string. same_field Hall "started_at"%string. same_field Hall "completed_at"%string.
  same_field Hall "elapsed_ms"%string. same_field Hall "issued_at"%string. same_field Hall "receipt_id"%string.
  subst. repeat match goal with
  | Ht : signed_iso ?t = Ok ?s, Hu : signed_iso ?u = Ok ?s |- _ =>
      tryif constr_eq t u then clear Hu else (pose proof (signed_iso_inj _ _ _ Ht Hu); clear Hu)
  end.
  destruct r1, r2. unfold with_signature. cbn in *. subst. reflexivity.
Qed.

(** ** Verification *)

Section Receipts.
Context {DG : Digest} {BD : ByteDigest} {ED : Ed25519}.

Lemma filter_single {A} (f : A -> bool) l a :
  List.filter f l = [a] -> In a l /\ f a = true /\ forall b, In b l -> f b = true -> b = a.
Proof.
  intros H. assert (Ha : In a (List.filter f l)) by (rewrite H; by left). apply filter_In in Ha as [Hin Hf].
  split_and!; [done..|]. intros b Hb Hfb.
  assert (Hin' : In b (List.filter f l)) by by apply filter_In. rewrite H in Hin'. by destruct Hin' as [<-|[]].
Qed.

Lemma filter_alone {A} (f : A -> bool) l a :
  NoDup l -> In a l -> f a = true -> (forall b, In b l -> f b = true -> b = a) -> List.filter f l = [a].
Proof.
  intros Hnd Hin Ha Hone. induction Hnd as [|b l Hb Hnd IH]; [by destruct Hin|]. cbn [List.filter].
  destruct (f b) eqn:Hf.
  - rewrite (Hone b) by (by left || done). f_equal. destruct (List.filter f l) as [|c k] eqn:Hk; [done|].
    assert (Hc : In c (List.filter f l)) by (rewrite Hk; by left). apply filter_In in Hc as [Hc Hfc].
    exfalso. apply Hb, list_elem_of_In. rewrite (Hone b) by (by left || done). rewrite <- (Hone c); [done|by right|done].
  - destruct Hin as [->|Hin]; [congruence|]. apply IH; [done|]. intros c Hc. apply Hone. by right.
Qed.

(** The identity that a trust and a receipt share. *)
Definition pinned_by (r : ServerInvokeReceipt) (t : ReceiptTrust) : Prop :=
  vr_route r = vt_route t /\ vr_owner_binding_sha256 r = vt_owner_binding_sha256 t /\
  vr_companion_id r = vt_companion_id t /\ vr_agent_id r = vt_agent_id t /\ vr_key_id r = vt_key_id t /\
  vr_public_key_sha256 r = vt_public_key_sha256 t.

Lemma trusts_receipt_spec r t : trusts_receipt r t = true <-> pinned_by r t.
Proof. unfold trusts_receipt, pinned_by. rewrite !andb_true_iff, !bool_decide_eq_true. tauto. Qed.

(** What a verification asked for. *)
Definition answers (r : ServerInvokeReceipt) (x : expectation) : Prop :=
  vr_run_id r = vx_run_id x /\ vr_phase r = vx_phase x /\ vr_request_id r = vx_request_id x /\
  vr_input_sha256 r = utf8_sha256 (vx_input_text x) /\ vr_operation_digest r = vx_operation_digest x /\
  vr_quote_digest r = vx_quote_digest x /\ vr_resource_plan_digest r = vx_resource_plan_digest x.

Lemma bound_to_spec r x : bound_to r x = true <-> answers r x.
Proof. unfold bound_to, answers. rewrite !andb_true_iff, !bool_decide_eq_true. tauto. Qed.

Lemma check_trust_key t u :
  check_trust t = Ok u ->
  exists encoded, base64url_decode (vt_public_key_spki_b64 t) = Ok encoded /\
    ("sha256:" ++ bytes_sha256_hex encoded)%string = vt_public_key_sha256 t.
Proof.
  unfold check_trust. intros H. must_inv. eexists. split; [done|].
  match goal with H : bool_decide (_ = vt_public_key_sha256 t) = true |- _ => by apply bool_decide_eq_true in H end.
Qed.

(** C34. A target is answered only for the one pinned trust that shares the receipt's
    whole identity, whose key has the digest the receipt names and accepted the receipt's
    signature over the canonical text of the receipt's own fields; and the receipt is the
    one of the expected run, phase, request, input text and plan. *)
Theorem verified_receipt_is_signed given trusts receipt x target :
  Forall (fun t => check_trust t = Ok tt) given -> mk_verifier given = Ok trusts ->
  verify trusts receipt x = Ok target ->
  exists t encoded key signature payload,
    In t given /\ target = vt_target t /\ pinned_by receipt t /\
    (forall t', In t' given -> pinned_by receipt t' -> t' = t) /\
    base64url_decode (vt_public_key_spki_b64 t) = Ok encoded /\
    ("sha256:" ++ bytes_sha256_hex encoded)%string = vr_public_key_sha256 receipt /\
    load_der_public_key encoded = Ok (Some key) /\
    base64url_decode (vr_signature_b64 receipt) = Ok signature /\
    signed_payload receipt = Ok payload /\
    key_verify key signature (utf8_bytes (dumps (JObj payload))) = true /\
    answers receipt x.
Proof.
  intros Hchecked Hmk H. unfold mk_verifier in Hmk. must_inv. unfold verify in H. must_inv.
  destruct (List.filter (trusts_receipt receipt) trusts) as [|t [|? ?]] eqn:Hf; try done.
  apply filter_single in Hf as (Hin & Ht & Hone). unfold ed25519_key, canonical_json in H. must_inv.
  rewrite List.Forall_forall in Hchecked. destruct (check_trust_key _ _ (Hchecked _ Hin)) as (encoded & He & Hd).
  match goal with H : base64url_decode (vt_public_key_spki_b64 t) = Ok ?e |- _ => assert (e = encoded) as -> by congruence end.
  apply trusts_receipt_spec in Ht as Hp.
  eexists t, encoded, _, _, _. split_and!; try done.
  - intros t' Hin' Hp'. by apply Hone, trusts_receipt_spec.
  - rewrite Hd. symmetry. by destruct Hp as (_ & _ & _ & _ & _ & ?).
  - by apply bound_to_spec.
Qed.

(** C35. A signature speaks of one receipt only: two valid receipts whose signed texts
    are equal differ at most in key name, key digest and signature. *)
Theorem signed_text_binds_receipt r1 r2 p1 p2 text :
  check_invoke_receipt r1 = Ok tt -> check_invoke_receipt r2 = Ok tt ->
  signed_payload r1 = Ok p1 -> signed_payload r2 = Ok p2 ->
  canonical_json (JObj p1) = Ok text -> canonical_json (JObj p2) = Ok text ->
  r1 = with_signature r2 (vr_key_id r1) (vr_public_key_sha256 r1) (vr_signature_b64 r1).
Proof.
  intros Hc1 Hc2 H1 H2 Ht1 Ht2. unfold canonical_json in Ht1, Ht2.
  apply rbind_ok in Ht1 as (? & _ & Ht1). apply rbind_ok in Ht2 as (? & _ & Ht2).
  eapply same_text_same_receipt; [exact Hc1|exact Hc2|exact H1|exact H2|congruence].
Qed.

Lemma from_payload_checked v r : receipt_from_payload v = Ok r -> check_invoke_receipt r = Ok tt.
Proof. unfold receipt_from_payload. intros Hr. must_inv.
  match goal with Hc : check_invoke_receipt _ = Ok ?u |- _ => by destruct u end. Qed.

Lemma mk_verifier_nodup given trusts : mk_verifier given = Ok trusts -> NoDup trusts.
Proof.
  unfold mk_verifier. intros Hmk. must_inv.
  match goal with Hn : bool_decide (NoDup _) = true |- _ => apply bool_decide_eq_true in Hn; by apply NoDup_fmap_1 in Hn end.
Qed.

(** What a signer issues: a valid receipt of the normalized fields, under its own
    signature of their text. *)
Lemma sign_spec s payload r :
  sign s payload = Ok r ->
  exists u p text, check_invoke_receipt u = Ok tt /\ signed_payload u = Ok p /\ canonical_json (JObj p) = Ok text /\
    check_invoke_receipt r = Ok tt /\
    r = with_signature u (sg_key_id s) (sg_public_key_sha256 s)
          (base64url_encode (key_sign (sg_key s) (utf8_bytes text))).
Proof.
  unfold sign. destruct payload as [| | | | | |l]; try done. intros Hs.
  apply rbind_ok in Hs as (u & Hu & Hs). apply rbind_ok in Hs as (p & Hp & Hs). apply rbind_ok in Hs as (text & Ht & Hs).
  apply from_payload_checked in Hu. unfold signer_envelope in Hs.
  rewrite (read_envelope _ _ _ _ _ _ Hu Hp) in Hs. cbv zeta in Hs. apply rbind_ok in Hs as ([] & Hc & Hs).
  injection Hs as <-. by exists u, p, text.
Qed.

(** C36. A receipt that a signer issues verifies: with a verifier in which one trust alone
    pins the receipt's identity and holds the signer's public key, the target of that
    trust is answered for the run, phase, request and input the receipt names. *)
Theorem issued_receipt_verifies `{!Ed25519Laws} s payload r trusts t x :
  sign s payload = Ok r -> mk_verifier trusts = Ok trusts -> In t trusts -> pinned_by r t ->
  (forall t', In t' trusts -> pinned_by r t' -> t' = t) ->
  base64url_decode (vt_public_key_spki_b64 t) = Ok (public_der (sg_key s)) ->
  answers r x ->
  verify trusts r x = Ok (vt_target t).
Proof.
  intros Hsign Hmk Hin Hp Hone Hkey Hx. apply sign_spec in Hsign as (u & p & text & Hc & Hu & Ht & Hr & ->).
  set (data := utf8_bytes text) in *. set (r := with_signature u _ _ _) in *.
  assert (Hu' : signed_payload r = Ok p) by done.
  assert (Hsig : base64url_decode (vr_signature_b64 r) = Ok (key_sign (sg_key s) data)).
  { apply base64_round_trip. intros Hnil. pose proof (sign_length (sg_key s) data) as Hl. by rewrite Hnil in Hl. }
  unfold verify. rewrite (filter_alone _ trusts t); [|by eapply mk_verifier_nodup|done|by apply trusts_receipt_spec|].
  2: { intros b Hb Hfb. by apply Hone, trusts_receipt_spec. }
  assert (Hids : forallb signed_identifier [vx_run_id x; vx_phase x; vx_request_id x] = true).
  { destruct Hx as (<- & <- & <- & _). by apply check_receipt_facts in Hr as (_ & _ & _ & ?). }
  apply bound_to_spec in Hx. rewrite Hids, Hx, Hkey. cbn [must require rbind].
  unfold ed25519_key. rewrite load_exported. cbn [rbind of_option]. rewrite Hsig. cbn [rbind]. rewrite Hu'. cbn [rbind].
  rewrite Ht. cbn [rbind]. fold data. by rewrite verify_signed.
Qed.

End Receipts.

(** ** Contracts read back *)

(** The fields of a literal payload under the names that are read. *)
Ltac read_fields :=
  cbn [get_field keys map fst String.eqb Ascii.eqb Bool.eqb rbind wire_string strict_int].

Section Stored.
Context {DG : Digest} {BD : ByteDigest} {ED : Ed25519}.

Lemma request_reads_back r :
  check_invoke_request r = Ok tt -> invoke_request_from_payload (JObj (invoke_request_payload r)) = Ok r.
Proof.
  intros Hc. assert (Hd : forallb optional_sha256 [vq_operation_digest r; vq_quote_digest r; vq_resource_plan_digest r] = true)
    by (unfold check_invoke_request in Hc; must_inv; done).
  cbn [forallb] in Hd. split_bools.
  unfold invoke_request_from_payload, exact_object, invoke_request_payload. read_fields.
  rewrite must_true by (by vm_compute). read_fields. rewrite !wire_optional_str, !wire_digest_str by done.
  cbn [rbind]. destruct r. cbv zeta. unfold check_invoke_request in *. cbn in Hc |- *. by rewrite Hc.
Qed.

Lemma receipt_reads_back r :
  check_invoke_receipt r = Ok tt -> exists p, receipt_payload r = Ok p /\ receipt_from_payload (JObj p) = Ok r.
Proof.
  intros Hc. assert (Hp : exists p, signed_payload r = Ok p).
  { unfold check_invoke_receipt in Hc. unfold signed_payload. must_inv.
    repeat match goal with Hi : signed_iso _ = Ok _ |- _ => rewrite Hi; clear Hi end. cbn [rbind]. eauto. }
  destruct Hp as (p & Hp). apply check_receipt_facts in Hc as Hf. destruct Hf as (Hk & Ha & _).
  unfold receipt_payload. rewrite Hp. cbn [rbind]. eexists. split; [done|].
  rewrite Hk, Ha, (read_envelope _ _ _ _ _ _ Hc Hp). cbv zeta. rewrite (with_own_signature _ _ Hc), Hc. done.
Qed.

Lemma trust_reads_back t : check_trust t = Ok tt -> trust_from_payload (JObj (trust_payload t)) = Ok t.
Proof.
  intros Hc. unfold trust_from_payload, exact_object, trust_payload. read_fields.
  rewrite must_true by (by vm_compute). read_fields. cbv zeta.
  destruct t. cbn -[check_trust]. by rewrite Hc.
Qed.

(** What a constructed response holds. *)
Lemma mk_response_spec a r :
  plain_json (JObj (vs_phase_evidence a)) -> mk_response a = Ok r ->
  mk_response r = Ok r /\ vs_response r = vs_response a /\ vs_model r = vs_model a /\
  vs_provider r = vs_provider a /\ vs_session_id r = vs_session_id a /\
  vs_invocation_receipt r = vs_invocation_receipt a /\
  JObj (vs_phase_evidence r) = canon (JObj (vs_phase_evidence a)).
Proof.
  intros Hp Hm. unfold mk_response in Hm. must_inv. cbn [vs_response vs_model vs_provider vs_session_id
    vs_invocation_receipt vs_phase_evidence].
  match goal with
  | Hn : canonical_json_object _ = Ok ?n, Hd : phase_evidence_sha256 _ ?n = Ok _ |- _ =>
      pose proof Hd as Hd'; unfold phase_evidence_sha256 in Hd'; must_inv;
      match goal with Hn' : canonical_json_object n = Ok ?n' |- _ =>
        pose proof (canonical_twice _ _ _ Hp Hn Hn') as ->; split_and!; try done;
        [|by apply canonical_plain];
        unfold mk_response; cbn [vs_response vs_model vs_provider vs_session_id vs_invocation_receipt vs_phase_evidence];
        repeat (rewrite must_true by done; cbn [rbind]); rewrite Hn'; cbn [rbind]; rewrite Hd; cbn [rbind];
        by rewrite must_true
      end
  end.
Qed.

Lemma response_reads_back a r :
  plain_json (JObj (vs_phase_evidence a)) -> check_invoke_receipt (vs_invocation_receipt a) = Ok tt ->
  mk_response a = Ok r ->
  exists p, response_payload r = Ok p /\ response_from_payload (JObj p) = Ok r.
Proof.
  intros Hp Hc Hm. apply mk_response_spec in Hm as (Hm & _ & _ & _ & _ & Hr & _); [|done].
  rewrite <- Hr in Hc. apply receipt_reads_back in Hc as (p & Hpay & Hback).
  unfold response_payload. rewrite Hpay. cbn [rbind]. eexists. split; [done|].
  unfold response_from_payload, exact_object. read_fields. rewrite must_true by (by vm_compute). read_fields.
  rewrite !wire_optional_str. cbn [rbind]. rewrite Hback. cbn [rbind]. by destruct r.
Qed.

(** Requests, receipts, trusts and responses read back from their own payloads; a
    response with its evidence normalized. *)
Theorem signed_contracts_read_back q r t a a' :
  check_invoke_request q = Ok tt -> check_invoke_receipt r = Ok tt -> check_trust t = Ok tt ->
  plain_json (JObj (vs_phase_evidence a)) -> check_invoke_receipt (vs_invocation_receipt a) = Ok tt ->
  mk_response a = Ok a' ->
  invoke_request_from_payload (JObj (invoke_request_payload q)) = Ok q /\
  (exists p, receipt_payload r = Ok p /\ receipt_from_payload (JObj p) = Ok r) /\
  trust_from_payload (JObj (trust_payload t)) = Ok t /\
  (exists p, response_payload a' = Ok p /\ response_from_payload (JObj p) = Ok a').
Proof.
  intros. split_and!; eauto using request_reads_back, receipt_reads_back, trust_reads_back, response_reads_back.
Qed.

(** The digest of evidence is that of its text, and its phase is the one asked for. *)
Lemma phase_evidence_spec phase e d :
  plain_json (JObj e) -> phase_evidence_sha256 phase e = Ok d ->
  d = canonical_sha256 (JObj e) /\ exists n, JObj n = canon (JObj e) /\ field_is n "phase" phase = true.
Proof.
  intros Hp Hd. unfold phase_evidence_sha256 in Hd. apply rbind_ok in Hd as (? & _ & Hd).
  apply rbind_ok in Hd as (n & Hn & Hd). apply rbind_ok in Hd as (? & Hf & Hd). apply must_ok in Hf.
  apply canonical_plain in Hn; [|done]. unfold signed_sha256, canonical_json in Hd.
  apply rbind_ok in Hd as (text & Ht & Hd). apply rbind_ok in Ht as (? & _ & Ht).
  split; [|by exists n]. assert (text = dumps (JObj n)) as -> by congruence.
  assert (Hd' : d = ("sha256:" ++ sha256_hex (dumps (JObj n)))%string) by congruence.
  rewrite Hd', Hn, dumps_canon by done. done.
Qed.

(** A response is constructed only over a receipt that names the digest of its very
    text, its model, provider and session, and the digest of its evidence, whose phase is
    the receipt's; and evidence verifies against that receipt only with the same
    digest. *)
Theorem response_is_bound a r e :
  plain_json (JObj (vs_phase_evidence a)) -> mk_response a = Ok r ->
  plain_json (JObj e) -> verify_phase_evidence (vs_invocation_receipt r) e = Ok tt ->
  let receipt := vs_invocation_receipt a in
  vr_response_sha256 receipt = utf8_sha256 (vs_response r) /\ vr_model receipt = vs_model r /\
  vr_provider receipt = vs_provider r /\ vr_session_id receipt = vs_session_id r /\
  vr_evidence_digest receipt = canonical_sha256 (JObj (vs_phase_evidence a)) /\
  field_is (vs_phase_evidence r) "phase" (vr_phase receipt) = true /\
  canonical_sha256 (JObj e) = canonical_sha256 (JObj (vs_phase_evidence a)).
Proof.
  intros Hp Hm He Hv receipt. apply mk_response_spec in Hm as Hs; [|done].
  destruct Hs as (_ & Hr & Hmo & Hpr & Hse & Hrec & Hev).
  unfold mk_response in Hm. apply rbind_ok in Hm as (? & _ & Hm). apply rbind_ok in Hm as (? & Hb & Hm).
  apply rbind_ok in Hm as (n & Hn & Hm). apply rbind_ok in Hm as (d & Hd & Hm). apply rbind_ok in Hm as (? & Hdig & Hm).
  injection Hm as <-. cbn [vs_phase_evidence vs_invocation_receipt vs_response vs_model vs_provider vs_session_id] in *.
  apply must_ok in Hb, Hdig. apply bool_decide_eq_true in Hdig. rewrite !andb_true_iff, !bool_decide_eq_true in Hb.
  destruct Hb as (((? & ?) & ?) & ?).
  assert (Hpn : plain_json (JObj n)) by (rewrite Hev; by apply plain_canon).
  assert (Hdn : canonical_sha256 (JObj n) = canonical_sha256 (JObj (vs_phase_evidence a)))
    by (unfold canonical_sha256, json_sha256; by rewrite Hev, dumps_canon).
  apply phase_evidence_spec in Hd as (-> & n' & Hn' & Hf); [|done].
  assert (n' = n) as -> by (pose proof (plain_canon _ Hp) as (_ & Hcc & _); rewrite Hev, Hcc, <- Hev in Hn'; congruence).
  unfold verify_phase_evidence in Hv. apply rbind_ok in Hv as (d & Hd & Hv). apply must_ok in Hv.
  apply bool_decide_eq_true in Hv. apply phase_evidence_spec in Hd as (-> & _); [|done].
  fold receipt in Hdig, Hv, Hf. split_and!; try done; congruence.
Qed.

End Stored.

(** ** Errors *)

(** A computation that raises the module's own error only, and one that raises no
    [BaseException]. *)
Definition only_signed {A} (m : result A) : Prop := forall e, m = Exc e -> e = SignedInvocationError.
Definition ordinary {A} (m : result A) : Prop := forall e, m = Exc e -> e <> CancelledError.

Lemma only_ok {A} (a : A) : only_signed (Ok a).
Proof. done. Qed.

Lemma only_exc {A} : only_signed (@Exc A SignedInvocationError).
Proof. by intros e [= <-]. Qed.

Lemma only_bind {A B} (m : result A) (f : A -> result B) :
  only_signed m -> (forall a, only_signed (f a)) -> only_signed (rbind m f).
Proof. destruct m as [a|e]; cbn; [by intros _ Hf; apply Hf|]. intros Hm _ e' [= <-]. by apply Hm. Qed.

Lemma ordinary_bind {A B} (m : result A) (f : A -> result B) :
  ordinary m -> (forall a, ordinary (f a)) -> ordinary (rbind m f).
Proof. destruct m as [a|e]; cbn; [by intros _ Hf; apply Hf|]. intros Hm _ e' [= <-]. by apply Hm. Qed.

Lemma only_ordinary {A} (m : result A) : only_signed m -> ordinary m.
Proof. intros Hm e He. by rewrite (Hm e He). Qed.

Lemma only_boundary {A} (m : result A) : ordinary m -> only_signed (boundary m).
Proof. intros Hm. destruct m as [a|e]; cbn; [done|]. specialize (Hm e eq_refl). intros e' He'. by destruct e; simplify_eq. Qed.

Lemma only_must b : only_signed (must b).
Proof. destruct b; cbn; [apply only_ok|apply only_exc]. Qed.

Lemma only_option {A} (o : option A) : only_signed (of_option o SignedInvocationError).
Proof. destruct o; [apply only_ok|apply only_exc]. Qed.

Lemma only_wire_string v : only_signed (wire_string v).
Proof. destruct v; apply only_ok || apply only_exc. Qed.

Lemma only_wire_optional v : only_signed (wire_optional v).
Proof. destruct v; apply only_ok || apply only_exc. Qed.

Lemma only_strict_int v : only_signed (strict_int v).
Proof. destruct v; apply only_ok || apply only_exc. Qed.

Create HintDb signed.
#[export] Hint Resolve only_ok only_exc only_must only_option only_wire_string only_wire_optional
  only_strict_int : signed.

(** Walk down a chain of steps. *)
Ltac signed_steps :=
  repeat first
    [ progress auto with signed
    | apply only_bind; [|intros ?]
    | match goal with |- only_signed (match ?x with _ => _ end) => destruct x end ].

Lemma only_canonical v : only_signed (canonical_json v).
Proof. unfold canonical_json. signed_steps. Qed.

Lemma only_wire_digest v : only_signed (wire_digest v).
Proof. unfold wire_digest. signed_steps. Qed.

Lemma only_exact_object v l : only_signed (exact_object v l).
Proof. unfold exact_object. signed_steps. Qed.

Lemma only_decode s : only_signed (base64url_decode s).
Proof. unfold base64url_decode. signed_steps. Qed.

Lemma only_iso t : only_signed (signed_iso t).
Proof. unfold signed_iso. signed_steps. Qed.

Lemma only_parse_time v : only_signed (parse_time v).
Proof. unfold parse_time. destruct v; try apply only_exc. destruct (fromisoformat s) as [[? [?|]]|]; signed_steps. Qed.

#[export] Hint Resolve only_canonical only_wire_digest only_exact_object only_decode only_iso only_parse_time : signed.

Lemma only_check_receipt r : only_signed (check_invoke_receipt r).
Proof. unfold check_invoke_receipt. signed_steps. Qed.

Lemma only_payload r : only_signed (signed_payload r).
Proof. unfold signed_payload. signed_steps. Qed.

#[export] Hint Resolve only_check_receipt only_payload : signed.

Lemma only_receipt v : only_signed (receipt_from_payload v).
Proof. unfold receipt_from_payload. signed_steps. Qed.

#[export] Hint Resolve only_receipt : signed.

Lemma only_canonical_object e : only_signed (canonical_json_object e).
Proof.
  apply only_boundary. apply ordinary_bind; [apply only_ordinary; auto with signed|intros _].
  apply ordinary_bind; [apply only_ordinary; auto with signed|intros text].
  apply ordinary_bind; [intros e'; destruct (loads text); cbn; congruence|intros v].
  apply only_ordinary. destruct v; auto with signed.
Qed.

#[export] Hint Resolve only_canonical_object : signed.

Section Errors.
Context {DG : Digest} {BD : ByteDigest} {ED : Ed25519}.
Context (public_raises : forall b, ordinary (load_der_public_key b))
        (private_raises : forall b, ordinary (load_der_private_key b)).

Lemma only_phase_evidence phase e : only_signed (phase_evidence_sha256 phase e).
Proof. unfold phase_evidence_sha256, signed_sha256. signed_steps. Qed.

#[local] Hint Resolve only_phase_evidence : signed.

Lemma only_mk_response r : only_signed (mk_response r).
Proof. unfold mk_response. signed_steps. Qed.

#[local] Hint Resolve only_mk_response : signed.

Lemma ordinary_key {A} (m : result (option A)) : ordinary m -> ordinary (ed25519_key m).
Proof. intros Hm. apply ordinary_bind; [done|]. intros o. apply only_ordinary. auto with signed. Qed.

Lemma only_check_trust t : only_signed (check_trust t).
Proof.
  apply only_boundary. repeat (apply ordinary_bind; [first [by apply ordinary_key|apply only_ordinary; auto with signed]|intros ?]).
  by apply only_ordinary, only_ok.
Qed.

#[local] Hint Resolve only_check_trust : signed.

Lemma only_verify trusts r x : only_signed (verify trusts r x).
Proof.
  apply only_boundary. destruct (List.filter (trusts_receipt r) trusts) as [|t [|? ?]]; try (by apply only_ordinary, only_exc).
  repeat (apply ordinary_bind; [first [by apply ordinary_key|apply only_ordinary; auto with signed]|intros ?]).
  by apply only_ordinary, only_ok.
Qed.

Lemma only_signer blob key_id : only_signed (mk_signer blob key_id).
Proof.
  apply only_boundary. repeat (apply ordinary_bind; [first [by apply ordinary_key|apply only_ordinary; auto with signed]|intros ?]).
  by apply only_ordinary, only_ok.
Qed.

(** Whatever documents, texts and keys the module's public functions are given, they
    return or raise the module's own error. *)
Theorem signed_errors_only value text phase evidence given trusts receipt x s blob key_id :
  only_signed (invoke_request_from_payload value) /\ only_signed (receipt_from_payload value) /\
  only_signed (trust_from_payload value) /\ only_signed (response_from_payload value) /\
  only_signed (canonical_json value) /\ only_signed (base64url_decode text) /\
  only_signed (phase_evidence_sha256 phase evidence) /\ only_signed (mk_verifier given) /\
  only_signed (verify trusts receipt x) /\ only_signed (verify_phase_evidence receipt evidence) /\
  only_signed (mk_signer blob key_id) /\ only_signed (sign s value).
Proof.
  split_and!; auto using only_verify, only_signer with signed.
  - unfold invoke_request_from_payload, check_invoke_request. signed_steps.
  - unfold trust_from_payload. signed_steps.
  - unfold response_from_payload. signed_steps.
  - unfold mk_verifier. signed_steps.
  - unfold verify_phase_evidence. signed_steps.
  - unfold sign. signed_steps.
Qed.

End Errors.

(** ** A toy signature scheme, and one receipt through the module *)

Module SignedScenario.

Definition mixed (l : list ascii) : list ascii := Scenario.nibbles 64 (Scenario.mix (of_chars l)).

Lemma mixed_spec l : length (mixed l) = 64%nat /\ forallb is_hex (mixed l) = true.
Proof. apply Scenario.nibbles_spec. Qed.

Definition toy_hex (l : list ascii) : string := of_chars (mixed l).

Lemma toy_length l : len (toy_hex l) = 64.
Proof. unfold len, toy_hex. rewrite chars_of_chars. by rewrite (proj1 (mixed_spec l)). Qed.

Lemma toy_digits l : all_chars is_hex (toy_hex l) = true.
Proof. unfold all_chars, toy_hex. rewrite chars_of_chars. apply mixed_spec. Qed.

#[export] Instance toy_digest : Digest := {|
  sha256_hex s := toy_hex (utf8_bytes s);
  sha256_hex_length s := toy_length (utf8_bytes s);
  sha256_hex_digits s := toy_digits (utf8_bytes s)
|}.

Lemma toy_image l : is_image_digest ("sha256:" ++ toy_hex l) = true.
Proof.
  unfold is_image_digest, toy_hex. rewrite chars_app, chars_of_chars.
  assert (Hs : strip_prefix (chars "sha256:") (chars "sha256:" ++ mixed l)%list = Some (mixed l)) by done.
  rewrite Hs. destruct (mixed_spec l) as [-> ->]. done.
Qed.

#[export] Instance toy_bytes : ByteDigest := {|
  bytes_sha256_hex := toy_hex;
  bytes_sha256_digits := toy_image;
  bytes_sha256_text s := eq_refl
|}.

(** A key is a list of bytes, exported under a tag; a signature is a digest of key and
    data. *)
#[export] Instance toy_scheme : Ed25519 := {|
  private_key := list ascii;
  public_key := list ascii;
  load_der_public_key b :=
    match b with c :: k => if code c =? 75 then Ok (Some k) else Exc ValueError | [] => Exc ValueError end;
  load_der_private_key b := Ok (Some b);
  public_of k := k;
  public_der k := "K"%char :: k;
  key_sign k data := mixed (k ++ data);
  key_verify k signature data := bool_decide (signature = mixed (k ++ data))
|}.

#[export] Instance toy_laws : Ed25519Laws.
Proof.
  split; cbn; [done| |intros; by apply bool_decide_eq_true|done]. intros k data. apply (proj1 (mixed_spec (k ++ data))).
Defined.

Definition key : list ascii := chars "toy-key".

Definition trust : ReceiptTrust := {|
  vt_target := "cloud"; vt_route := "/v1/agents/a-1/invoke"; vt_key_id := "key-1";
  vt_public_key_spki_b64 := base64url_encode (public_der key);
  vt_public_key_sha256 := "sha256:" ++ bytes_sha256_hex (public_der key);
  vt_owner_binding_sha256 := utf8_sha256 "owner"; vt_companion_id := "companion-1"; vt_agent_id := "a-1"
|}.

(** Another target of the same agent, under another route. *)
Definition other_trust : ReceiptTrust := {|
  vt_target := "home"; vt_route := "/v2/invoke"; vt_key_id := "key-1";
  vt_public_key_spki_b64 := vt_public_key_spki_b64 trust; vt_public_key_sha256 := vt_public_key_sha256 trust;
  vt_owner_binding_sha256 := vt_owner_binding_sha256 trust; vt_companion_id := "companion-1"; vt_agent_id := "a-1"
|}.

Definition evidence : fields := [("phase", JStr "teardown"); ("pods", JList [JInt 0])].

Definition template : ServerInvokeReceipt := {|
  vr_receipt_id := "r-1"; vr_run_id := "run-1"; vr_phase := "teardown"; vr_route := "/v1/agents/a-1/invoke";
  vr_request_id := "q-1"; vr_owner_binding_sha256 := utf8_sha256 "owner"; vr_companion_id := "companion-1";
  vr_agent_id := "a-1"; vr_input_sha256 := utf8_sha256 "stop"; vr_response_sha256 := utf8_sha256 "done";
  vr_transport := FRINZ_AUTHENTICATED_HTTP_TRANSPORT; vr_model := Some "m:1"; vr_provider := None;
  vr_session_id := None; vr_operation_digest := None; vr_quote_digest := None; vr_resource_plan_digest := None;
  vr_evidence_digest := canonical_sha256 (JObj evidence); vr_started_at := seconds 1760000000;
  vr_completed_at := seconds 1760000000 + 1001000; vr_elapsed_ms := 1001; vr_issued_at := seconds 1760000002;
  vr_key_id := ""; vr_public_key_sha256 := ""; vr_signature_b64 := "";
  vr_contract := INVOCATION_RECEIPT_CONTRACT; vr_signature_algorithm := INVOCATION_RECEIPT_SIGNATURE_ALGORITHM
|}.

Definition answered {A} (default : A) (m : result A) : A := match m with Ok a => a | Exc _ => default end.

Definition signer : InvokeReceiptSigner :=
  {| sg_key := key; sg_key_id := "key-1"; sg_public_key_sha256 := vt_public_key_sha256 trust |}.

Definition signed : ServerInvokeReceipt :=
  answered template (sign signer (JObj (answered [] (signed_payload template)))).

Definition asked : expectation := {|
  vx_run_id := "run-1"; vx_phase := "teardown"; vx_request_id := "q-1"; vx_input_text := "stop";
  vx_operation_digest := None; vx_quote_digest := None; vx_resource_plan_digest := None
|}.

Definition given : AttestedInvokeResponse := {|
  vs_response := "done"; vs_model := Some "m:1"; vs_provider := None; vs_session_id := None;
  vs_phase_evidence := evidence; vs_invocation_receipt := signed
|}.

Definition request : AttestedInvokeRequest := {|
  vq_run_id := "run-1"; vq_phase := "teardown"; vq_request_id := "q-1"; vq_input := "stop";
  vq_model := Some "m:1"; vq_provider := None; vq_session_id := None; vq_operation_digest := None;
  vq_quote_digest := None; vq_resource_plan_digest := None
|}.

Example signs :
  (let! s := mk_signer (base64url_encode key) "key-1" in sign s (JObj (answered [] (signed_payload template)))) =
    Ok signed /\
  verify [trust; other_trust] signed asked = Ok "cloud"%string.
Proof. by vm_compute. Qed.

(** A changed field, a foreign input text and a padded or single-digit base64url text are
    refused. *)
Example refuses :
  verify [trust] (with_signature signed "key-1" (vt_public_key_sha256 trust) (base64url_encode (repeat "x"%char 64)))
    asked = Exc SignedInvocationError /\
  is_ok (verify [trust] signed {| vx_run_id := "run-1"; vx_phase := "teardown"; vx_request_id := "q-1";
    vx_input_text := "go"; vx_operation_digest := None; vx_quote_digest := None;
    vx_resource_plan_digest := None |}) = false /\
  base64url_decode "YQ==" = Exc SignedInvocationError /\ base64url_decode "Y" = Exc SignedInvocationError /\
  base64url_decode "YQ" = Ok ["a"%char] /\ base64url_decode "" = Exc SignedInvocationError.
Proof. by vm_compute. Qed.

End SignedScenario.

Import SignedScenario.

Lemma evidence_plain : plain_json (JObj evidence).
Proof. repeat split; try done. apply (bool_decide_unpack _). by vm_compute. Qed.

Lemma verified_receipt_is_signed_witness : exists t, In t [trust; other_trust] /\ pinned_by signed t.
Proof.
  destruct (verified_receipt_is_signed [trust; other_trust] [trust; other_trust] signed asked "cloud") as
    (t & ? & ? & ? & ? & Hin & _ & Hp & _).
  - repeat constructor; by vm_compute.
  - by vm_compute.
  - by vm_compute.
  - by exists t.
Defined.

Lemma signed_text_binds_receipt_witness :
  signed = with_signature signed (vr_key_id signed) (vr_public_key_sha256 signed) (vr_signature_b64 signed).
Proof.
  apply (signed_text_binds_receipt signed signed (answered [] (signed_payload signed)) (answered [] (signed_payload signed))
           (answered EmptyString (canonical_json (JObj (answered [] (signed_payload signed)))))); by vm_compute.
Defined.

Lemma issued_receipt_verifies_witness : verify [trust; other_trust] signed asked = Ok "cloud"%string.
Proof.
  apply (issued_receipt_verifies signer (JObj (answered [] (signed_payload template))) signed [trust; other_trust] trust asked).
  - by vm_compute.
  - by vm_compute.
  - by left.
  - apply trusts_receipt_spec. by vm_compute.
  - intros t' [<-|[<-|[]]] Hp; [done|]. destruct Hp as [Hp _]. by vm_compute in Hp.
  - by vm_compute.
  - apply bound_to_spec. by vm_compute.
Defined.

Lemma signed_contracts_read_back_witness :
  invoke_request_from_payload (JObj (invoke_request_payload request)) = Ok request.
Proof.
  refine (proj1 (signed_contracts_read_back request signed trust given (answered given (mk_response given)) _ _ _ _ _ _));
    try by vm_compute. exact evidence_plain.
Defined.

Lemma response_is_bound_witness :
  vr_evidence_digest signed = canonical_sha256 (JObj evidence).
Proof.
  destruct (response_is_bound given (answered given (mk_response given)) evidence) as (_ & _ & _ & _ & Hd & _);
    [exact evidence_plain|by vm_compute|exact evidence_plain|by vm_compute|exact Hd].
Defined.

Lemma signed_errors_only_witness : only_signed (receipt_from_payload JNull).
Proof.
  refine (proj1 (proj2 (signed_errors_only _ _ JNull EmptyString EmptyString [] [] [trust] signed asked signer EmptyString EmptyString))).
  - intros [|c b] e; cbn; [by intros [= <-]|]. case_match; congruence.
  - done.
Defined.
