(* ===== verification/DogfoodContracts.v ===== *)
(** Typed contracts of the live dogfood harness ([dogfood_contracts.py]): identities,
    resource plans, provider attempts, spend quotes and phase observations with their
    validation and stored forms, and the content-free evidence of an observation. The
    theorems: contracts read back, no other error leaves the module, and what exactly
    keeps a valid observation from becoming evidence. *)
From Stdlib Require Import Ascii.
From S2P Require Import Prelude PyStr Enums Errors PyDecimal PyFloat PyTime Json ContractsBase CodecBase ServerlessSpec SignedReceipts SignedProperties.

#[local] Open Scope Z_scope.

Module DogfoodContracts.

(** [raise DogfoodSafetyError(...)] unless the test holds. *)
Definition ensure (test : bool) : result unit := require test DogfoodSafetyError.

(** [_contract_boundary] around a call that may raise another error of the package; the
    other entry points raise nothing else and are written without it. *)
Definition contract_boundary {A} (m : result A) : result A :=
  match m with Exc _ => Exc DogfoodSafetyError | r => r end.

Definition DOGFOOD_CONTRACT : string := "runpod-kite-live-dogfood-v1".

(** ** Enumerations *)

Inductive ResourceType := RT_POD | RT_SERVERLESS_ENDPOINT | RT_NETWORK_VOLUME.
Inductive DogfoodLane := LANE_OLLAMA | LANE_LORA | LANE_SELFIE.
Inductive DogfoodPhase :=
  | PRE_LORA_SELFIE | OLLAMA_QUOTE | OLLAMA_ACQUIRE | OLLAMA_INFERENCE | OLLAMA_STREAM
  | OLLAMA_RESTART_RECONCILE | OLLAMA_REPLAY | OLLAMA_CROSS_OWNER | OLLAMA_RELEASE | LORA_QUOTE
  | LORA_SUBMIT | LORA_POLL | LORA_CANCEL_LATE_RESULT | LORA_UPLOAD_ACK_INTERRUPT | LORA_REPLAY
  | LORA_CROSS_OWNER | LORA_PROMOTE | SELFIE_QUOTE | EXPIRED_CAPABILITY | COST_CAP_REFUSAL
  | PRIVACY_CLOUD_REFUSAL | POST_LORA_SELFIE | BILLING_RECONCILE | DOGFOOD_CLEANUP.

#[export] Instance ResourceType_dec : EqDecision ResourceType.
Proof. solve_decision. Defined.
#[export] Instance DogfoodLane_dec : EqDecision DogfoodLane.
Proof. solve_decision. Defined.
#[export] Instance DogfoodPhase_dec : EqDecision DogfoodPhase.
Proof. solve_decision. Defined.

Definition resource_type_value (t : ResourceType) : string :=
  match t with
  | RT_POD => "pod" | RT_SERVERLESS_ENDPOINT => "serverless_endpoint" | RT_NETWORK_VOLUME => "network_volume"
  end.

Definition lane_value (l : DogfoodLane) : string :=
  match l with LANE_OLLAMA => "ollama" | LANE_LORA => "lora" | LANE_SELFIE => "selfie" end.

Definition phase_value (p : DogfoodPhase) : string :=
  match p with
  | PRE_LORA_SELFIE => "pre_lora_selfie"
  | OLLAMA_QUOTE => "ollama_quote"
  | OLLAMA_ACQUIRE => "ollama_acquire"
  | OLLAMA_INFERENCE => "ollama_inference"
  | OLLAMA_STREAM => "ollama_stream"
  | OLLAMA_RESTART_RECONCILE => "ollama_restart_reconcile"
  | OLLAMA_REPLAY => "ollama_replay"
  | OLLAMA_CROSS_OWNER => "ollama_cross_owner"
  | OLLAMA_RELEASE => "ollama_release"
  | LORA_QUOTE => "lora_quote"
  | LORA_SUBMIT => "lora_submit"
  | LORA_POLL => "lora_poll"
  | LORA_CANCEL_LATE_RESULT => "lora_cancel_late_result"
  | LORA_UPLOAD_ACK_INTERRUPT => "lora_upload_ack_interrupt"
  | LORA_REPLAY => "lora_replay"
  | LORA_CROSS_OWNER => "lora_cross_owner"
  | LORA_PROMOTE => "lora_promote"
  | SELFIE_QUOTE => "selfie_quote"
  | EXPIRED_CAPABILITY => "expired_capability"
  | COST_CAP_REFUSAL => "cost_cap_refusal"
  | PRIVACY_CLOUD_REFUSAL => "privacy_cloud_refusal"
  | POST_LORA_SELFIE => "post_lora_selfie"
  | BILLING_RECONCILE => "billing_reconcile"
  | DOGFOOD_CLEANUP => "cleanup"
  end.

Definition ALL_PHASES : list DogfoodPhase :=
  [PRE_LORA_SELFIE; OLLAMA_QUOTE; OLLAMA_ACQUIRE; OLLAMA_INFERENCE; OLLAMA_STREAM; OLLAMA_RESTART_RECONCILE;
   OLLAMA_REPLAY; OLLAMA_CROSS_OWNER; OLLAMA_RELEASE; LORA_QUOTE; LORA_SUBMIT; LORA_POLL;
   LORA_CANCEL_LATE_RESULT; LORA_UPLOAD_ACK_INTERRUPT; LORA_REPLAY; LORA_CROSS_OWNER; LORA_PROMOTE;
   SELFIE_QUOTE; EXPIRED_CAPABILITY; COST_CAP_REFUSAL; PRIVACY_CLOUD_REFUSAL; POST_LORA_SELFIE;
   BILLING_RECONCILE; DOGFOOD_CLEANUP].

#[export] Instance ResourceType_enum : PyEnum ResourceType.
Proof. enum_instance [RT_POD; RT_SERVERLESS_ENDPOINT; RT_NETWORK_VOLUME] resource_type_value. Defined.
#[export] Instance DogfoodLane_enum : PyEnum DogfoodLane.
Proof. enum_instance [LANE_OLLAMA; LANE_LORA; LANE_SELFIE] lane_value. Defined.
#[export] Instance DogfoodPhase_enum : PyEnum DogfoodPhase.
Proof. enum_instance ALL_PHASES phase_value. Defined.

(** [_RESOURCE_MUTATING_PHASES]. *)
Definition RESOURCE_MUTATING_PHASES : list DogfoodPhase :=
  [OLLAMA_ACQUIRE; LORA_SUBMIT; LORA_CANCEL_LATE_RESULT; LORA_UPLOAD_ACK_INTERRUPT; POST_LORA_SELFIE].

Definition mutating (p : DogfoodPhase) : bool := bool_decide (p ∈ RESOURCE_MUTATING_PHASES).

(** ** Fields *)

(** [_iso], [_parse_time], [_required_payload_string] and the lookup of an enumeration
    value; [_safe_identifier] and [_is_sha256] are [signed_identifier] and
    [is_image_digest]. *)
Definition dogfood_iso (t : instant) : result string := contract_boundary (signed_iso t).
Definition dogfood_time (v : json) : result instant := contract_boundary (parse_time v).
Definition dogfood_string (v : json) : result string := contract_boundary (wire_string v).

Definition dogfood_enum `{PyEnum A} (v : json) : result A :=
  let! s := dogfood_string v in of_option (of_value s) DogfoodSafetyError.

(** [isinstance(value, Mapping) and set(value) == expected]. *)
Definition dogfood_object (v : json) (expected : list string) : result fields :=
  contract_boundary (exact_object v expected).

Definition dogfood_list (v : json) : result (list json) :=
  match v with JList l => Ok l | _ => Exc DogfoodSafetyError end.

(** The characters of a decimal whose point stands [dot] places after the first digit. *)
Definition with_point (ds : list ascii) (dot : Z) : list ascii :=
  let n := Z.of_nat (length ds) in
  if dot <=? 0 then (chars "0." ++ replicate (Z.to_nat (- dot)) "0"%char ++ ds)%list
  else if n <=? dot then (ds ++ replicate (Z.to_nat (dot - n)) "0"%char)%list
  else (firstn (Z.to_nat dot) ds ++ "."%char :: skipn (Z.to_nat dot) ds)%list.

Definition exponent_text (e : Z) : list ascii :=
  if e =? 0 then [] else if 0 <? e then chars ("E+" ++ int_text e)%string else chars ("E" ++ int_text e)%string.

(** [str(value)] of a decimal: positional down to the sixth decimal, else with an
    exponent. *)
Definition decimal_str (d : Decimal) : string :=
  match d with
  | Fin c e =>
      let ds := digits (Z.abs c) in
      let left := e + Z.of_nat (length ds) in
      let dot := if (e <=? 0) && (-6 <? left) then left else 1 in
      of_chars ((if (c <? 0)%Z then chars "-" else []) ++ with_point ds dot ++ exponent_text (left - dot))%list
  | Inf n => if n then "-Infinity"%string else "Infinity"%string
  | NaN => "NaN"%string
  end.

(** ** Content-free evidence *)

(** [\s*[=:]]. *)
Definition assigns (l : list ascii) : bool :=
  match drop_while is_space l with
  | c :: _ => (code c =? 61) || (code c =? 58)
  | [] => false
  end.

Definition follows (p : string) (l : list ascii) (rest : list ascii -> bool) : bool :=
  match strip_prefix (chars p) l with Some r => rest r | None => false end.

(** [_SENSITIVE_VALUE] at one position of a lower-cased text, after the character [before]. *)
Definition sensitive_here (before : option ascii) (l : list ascii) : bool :=
  follows "http" l (fun r => follows "://" r (fun _ => true) || follows "s://" r (fun _ => true)) ||
  (negb (match before with Some c => is_word c | None => false end) &&
   follows "bearer" l (fun r => match r with c :: _ => is_space c | [] => false end)) ||
  follows "api" l (fun r =>
    let r := match r with c :: k => if (code c =? 95) || (code c =? 45) then k else r | [] => r end in
    follows "key" r assigns) ||
  existsb (fun word => follows word l assigns) ["token"; "password"; "secret"; "signature"].

Fixpoint sensitive_from (before : option ascii) (l : list ascii) : bool :=
  sensitive_here before l || match l with c :: r => sensitive_from (Some c) r | [] => false end.

(** [_SENSITIVE_VALUE.search(value)]; the pattern ignores case. *)
Definition sensitive_value (s : string) : bool := sensitive_from None (chars (lower s)).

Definition SENSITIVE_KEY_PARTS : list string :=
  ["api_key"; "authorization"; "bearer"; "credential"; "endpoint"; "prompt"; "response"; "secret";
   "signed_url"; "token"; "url"; "weight_bytes"].

Definition ends_with (suffix s : string) : bool :=
  is_some (strip_prefix (rev (chars suffix)) (rev (chars s))).

Definition sensitive_evidence_key (key : string) : bool :=
  let normalized := lower key in
  negb (ends_with "_digest" normalized || ends_with "_sha256" normalized) &&
  existsb (fun part => contains (chars part) (chars normalized)) SENSITIVE_KEY_PARTS.

Definition MAX_EVIDENCE_DEPTH : Z := 64.

(** [_assert_content_free]. *)
Fixpoint content_free (depth : Z) (v : json) : bool :=
  (depth <=? MAX_EVIDENCE_DEPTH) &&
  match v with
  | JObj l => forallb (fun p => negb (sensitive_evidence_key (fst p)) && content_free (depth + 1) (snd p)) l
  | JList l => forallb (content_free (depth + 1)) l
  | JStr s => negb (sensitive_value s)
  | _ => true
  end.

(** ** Resources *)

Record ResourceIdentity : Set := {
  ri_resource_type : ResourceType;
  ri_resource_id : string;
  ri_resource_name : string
}.

Record ExpectedResource : Set := {
  xr_resource_type : ResourceType;
  xr_resource_name : string;
  xr_lane : DogfoodLane
}.

#[export] Instance ResourceIdentity_dec : EqDecision ResourceIdentity.
Proof. solve_decision. Defined.
#[export] Instance ExpectedResource_dec : EqDecision ExpectedResource.
Proof. solve_decision. Defined.

Definition check_identity (r : ResourceIdentity) : result unit :=
  ensure (signed_identifier (ri_resource_id r) && signed_identifier (ri_resource_name r)).

Definition identity_payload (r : ResourceIdentity) : fields :=
  [("resource_type", JStr (enum_value (ri_resource_type r))); ("resource_id", JStr (ri_resource_id r));
   ("resource_name", JStr (ri_resource_name r))].

Definition identity_from_payload (v : json) : result ResourceIdentity :=
  let! l := dogfood_object v ["resource_type"; "resource_id"; "resource_name"] in
  let! resource_type := dogfood_enum (get_field l "resource_type") in
  let! resource_id := dogfood_string (get_field l "resource_id") in
  let! resource_name := dogfood_string (get_field l "resource_name") in
  let r := {| ri_resource_type := resource_type; ri_resource_id := resource_id;
              ri_resource_name := resource_name |} in
  run! check_identity r then Ok r.

Definition check_expected (r : ExpectedResource) : result unit :=
  ensure (signed_identifier (xr_resource_name r)).

Definition expected_payload (r : ExpectedResource) : fields :=
  [("resource_type", JStr (enum_value (xr_resource_type r))); ("resource_name", JStr (xr_resource_name r));
   ("lane", JStr (enum_value (xr_lane r)))].

Definition expected_from_payload (v : json) : result ExpectedResource :=
  let! l := dogfood_object v ["resource_type"; "resource_name"; "lane"] in
  let! resource_type := dogfood_enum (get_field l "resource_type") in
  let! resource_name := dogfood_string (get_field l "resource_name") in
  let! lane := dogfood_enum (get_field l "lane") in
  let r := {| xr_resource_type := resource_type; xr_resource_name := resource_name; xr_lane := lane |} in
  run! check_expected r then Ok r.

(** ** Plans *)

(** The stored plan: its initial resources are settled at construction. *)
Record ResourcePlan : Set := {
  rp_run_id : string;
  rp_phase : DogfoodPhase;
  rp_lane : DogfoodLane;
  rp_plan_id : string;
  rp_cleanup_family_id : string;
  rp_expected_resources : list ExpectedResource;
  rp_initial_resources : list ExpectedResource
}.

Definition resource_key (r : ExpectedResource) : ResourceType * string := (xr_resource_type r, xr_resource_name r).

(** [__post_init__]; [None] plans every expected resource at the start. *)
Definition mk_resource_plan (run_id : string) (phase : DogfoodPhase) (lane : DogfoodLane)
  (plan_id cleanup_family_id : string) (expected_resources : list ExpectedResource)
  (initial_resources : option (list ExpectedResource)) : result ResourcePlan :=
  run! ensure (signed_identifier run_id) then
  run! ensure (mutating phase) then
  run! ensure (signed_identifier plan_id && signed_identifier cleanup_family_id) then
  run! ensure (negb (bool_decide (expected_resources = [])) &&
               forallb (fun r => bool_decide (xr_lane r = lane)) expected_resources) then
  run! ensure (bool_decide (NoDup (map resource_key expected_resources))) then
  let initial := default expected_resources initial_resources in
  run! ensure (negb (bool_decide (initial = [])) &&
               forallb (fun r => bool_decide (r ∈ expected_resources)) initial) then
  Ok {| rp_run_id := run_id; rp_phase := phase; rp_lane := lane; rp_plan_id := plan_id;
        rp_cleanup_family_id := cleanup_family_id; rp_expected_resources := expected_resources;
        rp_initial_resources := initial |}.

Definition resource_plan_payload (p : ResourcePlan) : fields :=
  [("run_id", JStr (rp_run_id p)); ("phase", JStr (enum_value (rp_phase p)));
   ("lane", JStr (enum_value (rp_lane p))); ("plan_id", JStr (rp_plan_id p));
   ("cleanup_family_id", JStr (rp_cleanup_family_id p));
   ("expected_resources", JList (map (fun r => JObj (expected_payload r)) (rp_expected_resources p)));
   ("initial_resources", JList (map (fun r => JObj (expected_payload r)) (rp_initial_resources p)))].

Definition resource_plan_from_payload (v : json) : result ResourcePlan :=
  let! l := dogfood_object v
    ["run_id"; "phase"; "lane"; "plan_id"; "cleanup_family_id"; "expected_resources"; "initial_resources"] in
  let! expected := dogfood_list (get_field l "expected_resources") in
  let! initial := dogfood_list (get_field l "initial_resources") in
  let! run_id := dogfood_string (get_field l "run_id") in
  let! phase := dogfood_enum (get_field l "phase") in
  let! lane := dogfood_enum (get_field l "lane") in
  let! plan_id := dogfood_string (get_field l "plan_id") in
  let! cleanup_family_id := dogfood_string (get_field l "cleanup_family_id") in
  let! expected_resources := rmap expected_from_payload expected in
  let! initial_resources := rmap expected_from_payload initial in
  mk_resource_plan run_id phase lane plan_id cleanup_family_id expected_resources (Some initial_resources).

(** ** Attempts *)

Record ProviderAttemptIdentity : Set := {
  pa_run_id : string;
  pa_attempt_id : string;
  pa_phase : DogfoodPhase;
  pa_lane : DogfoodLane;
  pa_plan_digest : string;
  pa_quote_digest : string;
  pa_resource : ResourceIdentity;
  pa_provider_operation_id : string;
  pa_exclusive_window_sha256 : string;
  pa_started_at : instant;
  pa_completed_at : instant
}.

Definition check_attempt (a : ProviderAttemptIdentity) : result unit :=
  run! ensure (forallb signed_identifier [pa_run_id a; pa_attempt_id a; pa_provider_operation_id a]) then
  run! ensure (mutating (pa_phase a)) then
  run! ensure (forallb is_image_digest [pa_plan_digest a; pa_quote_digest a; pa_exclusive_window_sha256 a]) then
  run! ensure (pa_started_at a <=? pa_completed_at a) then
  run! dogfood_iso (pa_started_at a) then
  run! dogfood_iso (pa_completed_at a) then Ok tt.

Definition attempt_payload (a : ProviderAttemptIdentity) : result fields :=
  let! started := dogfood_iso (pa_started_at a) in
  let! completed := dogfood_iso (pa_completed_at a) in
  Ok [("run_id", JStr (pa_run_id a)); ("attempt_id", JStr (pa_attempt_id a));
      ("phase", JStr (enum_value (pa_phase a))); ("lane", JStr (enum_value (pa_lane a)));
      ("plan_digest", JStr (pa_plan_digest a)); ("quote_digest", JStr (pa_quote_digest a));
      ("resource", JObj (identity_payload (pa_resource a)));
      ("provider_operation_id", JStr (pa_provider_operation_id a));
      ("exclusive_window_sha256", JStr (pa_exclusive_window_sha256 a));
      ("started_at", JStr started); ("completed_at", JStr completed)].

Definition attempt_from_payload (v : json) : result ProviderAttemptIdentity :=
  let! l := dogfood_object v
    ["run_id"; "attempt_id"; "phase"; "lane"; "plan_digest"; "quote_digest"; "resource";
     "provider_operation_id"; "exclusive_window_sha256"; "started_at"; "completed_at"] in
  let! phase := dogfood_enum (get_field l "phase") in
  let! lane := dogfood_enum (get_field l "lane") in
  let! run_id := dogfood_string (get_field l "run_id") in
  let! attempt_id := dogfood_string (get_field l "attempt_id") in
  let! plan_digest := dogfood_string (get_field l "plan_digest") in
  let! quote_digest := dogfood_string (get_field l "quote_digest") in
  let! resource := identity_from_payload (get_field l "resource") in
  let! provider_operation_id := dogfood_string (get_field l "provider_operation_id") in
  let! exclusive_window_sha256 := dogfood_string (get_field l "exclusive_window_sha256") in
  let! started_at := dogfood_time (get_field l "started_at") in
  let! completed_at := dogfood_time (get_field l "completed_at") in
  let a := {| pa_run_id := run_id; pa_attempt_id := attempt_id; pa_phase := phase; pa_lane := lane;
              pa_plan_digest := plan_digest; pa_quote_digest := quote_digest; pa_resource := resource;
              pa_provider_operation_id := provider_operation_id;
              pa_exclusive_window_sha256 := exclusive_window_sha256; pa_started_at := started_at;
              pa_completed_at := completed_at |} in
  run! check_attempt a then Ok a.

(** ** Spend quotes *)

Record SpendQuote : Set := {
  sp_run_id : string;
  sp_lane : DogfoodLane;
  sp_quote_id : string;
  sp_estimated_cost_usd : Decimal;
  sp_hard_cap_usd : Decimal;
  sp_observed_at : instant;
  sp_expires_at : instant;
  sp_operation_digest : option string;
  sp_provider_quote_sha256 : option string;
  sp_endpoint_plan_sha256 : option string
}.

Definition check_spend_quote (q : SpendQuote) : result unit :=
  run! ensure (signed_identifier (sp_run_id q) && signed_identifier (sp_quote_id q)) then
  run! ensure (forallb (fun d => is_finite d && dlt dzero d) [sp_estimated_cost_usd q; sp_hard_cap_usd q]) then
  run! ensure (dle (sp_estimated_cost_usd q) (sp_hard_cap_usd q)) then
  run! ensure (forallb optional_sha256
    [sp_operation_digest q; sp_provider_quote_sha256 q; sp_endpoint_plan_sha256 q]) then
  let latest := sp_observed_at q + seconds 300 in
  run! ensure (bool_decide (representable latest)) then
  run! ensure ((sp_observed_at q <? sp_expires_at q) && (sp_expires_at q <=? latest)) then
  run! dogfood_iso (sp_observed_at q) then
  run! dogfood_iso (sp_expires_at q) then Ok tt.

Definition spend_quote_payload (q : SpendQuote) : result fields :=
  let! observed := dogfood_iso (sp_observed_at q) in
  let! expires := dogfood_iso (sp_expires_at q) in
  Ok [("run_id", JStr (sp_run_id q)); ("lane", JStr (enum_value (sp_lane q))); ("quote_id", JStr (sp_quote_id q));
      ("estimated_cost_usd", JStr (decimal_str (sp_estimated_cost_usd q)));
      ("hard_cap_usd", JStr (decimal_str (sp_hard_cap_usd q)));
      ("observed_at", JStr observed); ("expires_at", JStr expires);
      ("operation_digest", opt_str (sp_operation_digest q));
      ("provider_quote_sha256", opt_str (sp_provider_quote_sha256 q));
      ("endpoint_plan_sha256", opt_str (sp_endpoint_plan_sha256 q))].

(** [ResourcePlan.digest] and [SpendQuote.digest]. *)
Section Digests.
Context {DG : Digest}.

Definition resource_plan_digest (p : ResourcePlan) : result string :=
  contract_boundary (signed_sha256 (JObj (resource_plan_payload p))).

Definition spend_quote_digest (q : SpendQuote) : result string :=
  contract_boundary (let! body := spend_quote_payload q in signed_sha256 (JObj body)).

End Digests.

(** ** Observations *)

Record PhaseObservation : Set := {
  po_phase : DogfoodPhase;
  po_state_transitions : list string;
  po_timings_ms : list (string * Z);
  po_artifact_digests : list string;
  po_estimated_cost_usd : option Decimal;
  po_actual_cost_usd : option Decimal;
  po_billing_receipt_digest : option string;
  po_provider : option string;
  po_model : option string;
  po_product_consent_count : Z;
  po_trained_weight_digest : option string;
  po_promoted_weight_digest : option string;
  po_weight_digest_used : option string;
  po_output_image_digest : option string;
  po_uploaded_artifact_digest : option string;
  po_recovered_artifact_digest : option string;
  po_recovered_resource_plan_digest : option string;
  po_provider_ack_interruption_count : Z;
  po_recovery_count : Z;
  po_publication_count : Z;
  po_promotion_count : Z;
  po_provider_attempts : list ProviderAttemptIdentity
}.

Definition OPERATIONAL_TIMING_FIELDS : list string :=
  ["placement"; "image_pull"; "container_boot"; "queue_delay"; "model_load"; "input_fetch"; "inference";
   "training"; "upload"; "total"; "cleanup"; "billing_reconcile"].

Definition observation_digests (o : PhaseObservation) : list (option string) :=
  [po_billing_receipt_digest o; po_trained_weight_digest o; po_promoted_weight_digest o;
   po_weight_digest_used o; po_output_image_digest o; po_uploaded_artifact_digest o;
   po_recovered_artifact_digest o; po_recovered_resource_plan_digest o].

(** [__post_init__]; a mapping has one value per key. *)
Definition check_observation (o : PhaseObservation) : result unit :=
  run! ensure (negb (bool_decide (po_state_transitions o = [])) && forallb signed_identifier (po_state_transitions o)) then
  run! ensure (forallb (fun p => bool_decide (fst p ∈ OPERATIONAL_TIMING_FIELDS) && (0 <=? snd p)) (po_timings_ms o)) then
  run! ensure (forallb is_image_digest (po_artifact_digests o)) then
  run! ensure (forallb optional_sha256 (observation_digests o)) then
  run! ensure (forallb (option_all (fun d => is_finite d && dle dzero d)) [po_estimated_cost_usd o; po_actual_cost_usd o]) then
  run! ensure (forallb optional_identifier [po_provider o; po_model o]) then
  run! ensure (forallb (fun n => 0 <=? n)
    [po_product_consent_count o; po_provider_ack_interruption_count o; po_recovery_count o;
     po_publication_count o; po_promotion_count o]) then
  ensure (bool_decide (NoDup (map pa_attempt_id (po_provider_attempts o)))).

Definition opt_cost (o : option Decimal) : json := opt_json (fun d => JStr (decimal_str d)) o.

(** [binding_payload]. *)
Definition binding_payload (o : PhaseObservation) : result fields :=
  let! attempts := rmap (fun a => let! l := attempt_payload a in Ok (JObj l)) (po_provider_attempts o) in
  Ok [("phase", JStr (enum_value (po_phase o)));
      ("state_transitions", jstrs (po_state_transitions o));
      ("timings_ms", JObj (sort_keys (map (fun p => (fst p, JInt (snd p))) (po_timings_ms o))));
      ("artifact_digests", jstrs (po_artifact_digests o));
      ("estimated_cost_usd", opt_cost (po_estimated_cost_usd o));
      ("actual_cost_usd", opt_cost (po_actual_cost_usd o));
      ("billing_receipt_digest", opt_str (po_billing_receipt_digest o));
      ("provider", opt_str (po_provider o)); ("model", opt_str (po_model o));
      ("product_consent_count", JInt (po_product_consent_count o));
      ("trained_weight_digest", opt_str (po_trained_weight_digest o));
      ("promoted_weight_digest", opt_str (po_promoted_weight_digest o));
      ("weight_digest_used", opt_str (po_weight_digest_used o));
      ("output_image_digest", opt_str (po_output_image_digest o));
      ("uploaded_artifact_digest", opt_str (po_uploaded_artifact_digest o));
      ("recovered_artifact_digest", opt_str (po_recovered_artifact_digest o));
      ("recovered_resource_plan_digest", opt_str (po_recovered_resource_plan_digest o));
      ("provider_ack_interruption_count", JInt (po_provider_ack_interruption_count o));
      ("recovery_count", JInt (po_recovery_count o)); ("publication_count", JInt (po_publication_count o));
      ("promotion_count", JInt (po_promotion_count o)); ("provider_attempts", JList attempts)].

(** [to_evidence]. *)
Definition to_evidence (o : PhaseObservation) (run_id : string) (observed_at : instant) : result fields :=
  run! ensure (signed_identifier run_id) then
  let! observed := dogfood_iso observed_at in
  let! binding := binding_payload o in
  let evidence :=
    ([("contract", JStr DOGFOOD_CONTRACT); ("event", JStr "phase_observation"); ("run_id", JStr run_id);
      ("observed_at", JStr observed)] ++ binding)%list in
  run! ensure (content_free 0 (JObj evidence)) then Ok evidence.

(** ** Contracts read back *)

Lemma ensure_ok b u : ensure b = Ok u -> b = true.
Proof. apply require_ok. Qed.

Lemma contract_boundary_ok {A} (m : result A) a : contract_boundary m = Ok a -> m = Ok a.
Proof. by destruct m. Qed.

Lemma dogfood_string_of s : dogfood_string (JStr s) = Ok s.
Proof. done. Qed.

Lemma dogfood_enum_of `{PyEnum A} (a : A) : dogfood_enum (JStr (enum_value a)) = Ok a.
Proof. unfold dogfood_enum. rewrite dogfood_string_of. cbn [rbind]. by rewrite of_value_enum_value. Qed.

Lemma dogfood_object_of l expected : same_keys (keys l) expected = true -> dogfood_object (JObj l) expected = Ok l.
Proof. intros H. unfold dogfood_object, exact_object. by rewrite must_true. Qed.

Lemma dogfood_iso_ok t s :
  dogfood_iso t = Ok s -> representable t /\ s = of_chars (iso_with ["Z"%char] t).
Proof. intros H. apply contract_boundary_ok in H. by apply signed_iso_ok. Qed.

Lemma dogfood_iso_of t : representable t -> dogfood_iso t = Ok (of_chars (iso_with ["Z"%char] t)).
Proof. intros H. unfold dogfood_iso, signed_iso. by rewrite bool_decide_true. Qed.

Lemma dogfood_time_of t : representable t -> dogfood_time (JStr (of_chars (iso_with ["Z"%char] t))) = Ok t.
Proof.
  intros H. unfold dogfood_time. rewrite (parse_signed_iso t); [done|].
  unfold signed_iso. by rewrite bool_decide_true.
Qed.

(** Break the requirements among the hypotheses. *)
Ltac ensure_inv :=
  repeat match goal with
  | H : ensure _ = Ok _ |- _ => apply ensure_ok in H
  | H : dogfood_iso _ = Ok _ |- _ => apply dogfood_iso_ok in H as [? ->]
  | _ => progress res_inv
  end.

(** Read the fields of a document that are written out. *)
Ltac read_on :=
  repeat (first
    [ rewrite dogfood_string_of | rewrite dogfood_enum_of | rewrite dogfood_time_of by done
    | progress (cbn [rbind get_field String.eqb Ascii.eqb Bool.eqb dogfood_list]) ]).

Ltac read_contract := rewrite dogfood_object_of by (by vm_compute); cbn [rbind]; read_on.

Lemma identity_reads_back r :
  check_identity r = Ok tt -> identity_from_payload (JObj (identity_payload r)) = Ok r.
Proof.
  intros Hc. unfold identity_from_payload, identity_payload. read_contract.
  cbv zeta. destruct r. cbn [ri_resource_type ri_resource_id ri_resource_name]. by rewrite Hc.
Qed.

Lemma expected_reads_back r :
  check_expected r = Ok tt -> expected_from_payload (JObj (expected_payload r)) = Ok r.
Proof.
  intros Hc. unfold expected_from_payload, expected_payload. read_contract.
  cbv zeta. destruct r. cbn [xr_resource_type xr_resource_name xr_lane]. by rewrite Hc.
Qed.

Lemma all_expected_read_back l :
  Forall (fun r => check_expected r = Ok tt) l ->
  rmap expected_from_payload (map (fun r => JObj (expected_payload r)) l) = Ok l.
Proof.
  induction 1 as [|r l Hr _ IH]; [done|]. cbn [map rmap]. by rewrite expected_reads_back, IH.
Qed.

(** A plan is checked again with its own initial resources. *)
Lemma mk_plan_again run_id phase lane plan_id family expected initial p :
  mk_resource_plan run_id phase lane plan_id family expected initial = Ok p ->
  mk_resource_plan (rp_run_id p) (rp_phase p) (rp_lane p) (rp_plan_id p) (rp_cleanup_family_id p)
    (rp_expected_resources p) (Some (rp_initial_resources p)) = Ok p /\
  rp_expected_resources p = expected /\ incl (rp_initial_resources p) expected.
Proof.
  intros Hm. unfold mk_resource_plan in Hm. cbv zeta in Hm. ensure_inv.
  cbn [rp_run_id rp_phase rp_lane rp_plan_id rp_cleanup_family_id rp_expected_resources rp_initial_resources].
  split_and!; [|done|].
  - unfold mk_resource_plan. cbv zeta. change (default expected (Some ?x)) with x. unfold ensure, require.
    repeat match goal with Hi : _ = true |- _ => rewrite Hi; clear Hi; cbn [rbind] end. done.
  - intros r Hr.
    match goal with Hi : context [default expected initial] |- _ => apply andb_prop in Hi as [_ Hi];
      rewrite List.forallb_forall in Hi; apply Hi, bool_decide_eq_true in Hr end.
    by apply list_elem_of_In.
Qed.

Lemma plan_reads_back run_id phase lane plan_id family expected initial p :
  Forall (fun r => check_expected r = Ok tt) expected ->
  mk_resource_plan run_id phase lane plan_id family expected initial = Ok p ->
  resource_plan_from_payload (JObj (resource_plan_payload p)) = Ok p.
Proof.
  intros Hx Hm. apply mk_plan_again in Hm as (Hm & He & Hi).
  unfold resource_plan_from_payload, resource_plan_payload. read_contract.
  rewrite !all_expected_read_back.
  - exact Hm.
  - rewrite Forall_forall in Hx |- *. intros r Hr. apply Hx, Hi, Hr.
  - by rewrite He.
Qed.

Lemma check_attempt_facts a :
  check_attempt a = Ok tt ->
  forallb signed_identifier [pa_run_id a; pa_attempt_id a; pa_provider_operation_id a] = true /\
  forallb is_image_digest [pa_plan_digest a; pa_quote_digest a; pa_exclusive_window_sha256 a] = true /\
  representable (pa_started_at a) /\ representable (pa_completed_at a).
Proof. intros H. unfold check_attempt in H. ensure_inv. done. Qed.

(** The stored form of an attempt. *)
Definition zulu (t : instant) : json := JStr (of_chars (iso_with ["Z"%char] t)).

Definition stored_attempt (a : ProviderAttemptIdentity) : fields :=
  [("run_id", JStr (pa_run_id a)); ("attempt_id", JStr (pa_attempt_id a));
   ("phase", JStr (enum_value (pa_phase a))); ("lane", JStr (enum_value (pa_lane a)));
   ("plan_digest", JStr (pa_plan_digest a)); ("quote_digest", JStr (pa_quote_digest a));
   ("resource", JObj (identity_payload (pa_resource a)));
   ("provider_operation_id", JStr (pa_provider_operation_id a));
   ("exclusive_window_sha256", JStr (pa_exclusive_window_sha256 a));
   ("started_at", zulu (pa_started_at a)); ("completed_at", zulu (pa_completed_at a))].

Lemma attempt_payload_of a : check_attempt a = Ok tt -> attempt_payload a = Ok (stored_attempt a).
Proof.
  intros H. apply check_attempt_facts in H as (_ & _ & Hs & Hc).
  unfold attempt_payload. by rewrite !dogfood_iso_of.
Qed.

Lemma attempt_reads_back a :
  check_attempt a = Ok tt -> check_identity (pa_resource a) = Ok tt ->
  exists l, attempt_payload a = Ok l /\ attempt_from_payload (JObj l) = Ok a.
Proof.
  intros Hc Hr. exists (stored_attempt a). split; [by apply attempt_payload_of|].
  apply check_attempt_facts in Hc as Hf. destruct Hf as (_ & _ & Hs & Hd).
  unfold attempt_from_payload, stored_attempt. read_contract.
  rewrite identity_reads_back by done. unfold zulu. read_on. cbv zeta.
  destruct a. cbn -[check_attempt]. by rewrite Hc.
Qed.

(** Identities, expected resources, plans and attempts read back from their own
    payloads; a plan with the initial resources it settled on. *)
Theorem dogfood_contracts_read_back r x a run_id phase lane plan_id family expected initial p :
  check_identity r = Ok tt -> check_expected x = Ok tt ->
  check_attempt a = Ok tt -> check_identity (pa_resource a) = Ok tt ->
  Forall (fun y => check_expected y = Ok tt) expected ->
  mk_resource_plan run_id phase lane plan_id family expected initial = Ok p ->
  identity_from_payload (JObj (identity_payload r)) = Ok r /\
  expected_from_payload (JObj (expected_payload x)) = Ok x /\
  (exists l, attempt_payload a = Ok l /\ attempt_from_payload (JObj l) = Ok a) /\
  resource_plan_from_payload (JObj (resource_plan_payload p)) = Ok p.
Proof.
  intros. split_and!; eauto using identity_reads_back, expected_reads_back, attempt_reads_back, plan_reads_back.
Qed.

(** ** Evidence is content-free *)

(** The characters outside every credential pattern: each pattern has a p, an r or a k. *)
Definition tame (c : ascii) : bool :=
  negb (bool_decide (code (lower_char c) ∈ [112; 114; 107])).
Definition tame_text (s : string) : bool := all_chars tame s.

Lemma forallb_firstn {A} (f : A -> bool) n l : forallb f l = true -> forallb f (firstn n l) = true.
Proof. revert l. induction n; intros [|x l]; cbn; try done. rewrite !andb_true_iff. naive_solver. Qed.

Lemma forallb_skipn {A} (f : A -> bool) n l : forallb f l = true -> forallb f (skipn n l) = true.
Proof. revert l. induction n; intros [|x l]; cbn; try done. rewrite andb_true_iff. naive_solver. Qed.

Lemma follows_missing (f : ascii -> bool) p l rest :
  forallb f l = true -> forallb f (chars p) = false -> follows p l rest = false.
Proof.
  intros Hl Hp. unfold follows. destruct (strip_prefix (chars p) l) as [r|] eqn:E; [|done].
  apply strip_prefix_spec in E as ->. rewrite forallb_app, Hp in Hl. done.
Qed.

Definition lowered_tame (c : ascii) : bool := negb (bool_decide (code c ∈ [112; 114; 107])).

Lemma tame_here before l : forallb lowered_tame l = true -> sensitive_here before l = false.
Proof.
  intros Hl. unfold sensitive_here. cbn [existsb].
  rewrite (follows_missing _ "bearer" l), (follows_missing _ "api" l), (follows_missing _ "token" l),
    (follows_missing _ "password" l), (follows_missing _ "secret" l), (follows_missing _ "signature" l),
    (follows_missing lowered_tame "http" l) by (done || by vm_compute).
  by rewrite andb_false_r.
Qed.

Lemma tame_from before l : forallb lowered_tame l = true -> sensitive_from before l = false.
Proof.
  revert before. induction l as [|c l IH]; intros before Hl; cbn [sensitive_from];
    rewrite tame_here by done; [done|].
  cbn [forallb] in Hl. apply andb_prop in Hl as [_ Hl]. by apply IH.
Qed.

(** A text without those characters is never credential-like. *)
Lemma tame_not_sensitive s : tame_text s = true -> sensitive_value s = false.
Proof.
  intros Hs. apply tame_from. unfold lower. rewrite chars_of_chars.
  unfold tame_text, all_chars in Hs. induction (chars s) as [|c l IH]; [done|].
  cbn [map forallb] in *. apply andb_prop in Hs as [Hc Hl]. by rewrite IH, andb_true_r.
Qed.

Lemma forallb_weaken {A} (f g : A -> bool) l :
  (forall x, f x = true -> g x = true) -> forallb f l = true -> forallb g l = true.
Proof. intros Hfg. rewrite !List.forallb_forall. auto. Qed.

Lemma hex_tame c : is_hex c = true -> tame c = true.
Proof. destruct c as [[] [] [] [] [] [] [] []]; vm_compute; congruence. Qed.

Lemma digit_tame c : is_digit c = true -> tame c = true.
Proof. intros H. apply hex_tame. unfold is_hex. by rewrite H. Qed.

Lemma digits_tame n : 0 <= n -> forallb tame (digits n) = true.
Proof. intros. eapply forallb_weaken, digits_all; [apply digit_tame | done]. Qed.

Lemma int_text_tame n : forallb tame (chars (int_text n)) = true.
Proof.
  unfold int_text. destruct (Z.ltb_spec n 0); cbn [chars]; rewrite chars_of_chars.
  - cbn [forallb]. rewrite digits_tame by lia. done.
  - apply digits_tame. lia.
Qed.

Lemma replicate_zero_tame k : forallb tame (replicate k "0"%char) = true.
Proof. eapply forallb_weaken, forallb_replicate_zero. apply digit_tame. Qed.

Lemma pad_digits_tame n v : forallb tame (pad_digits n v) = true.
Proof.
  revert v. induction n as [|n IH]; intros v; [done|]. cbn [pad_digits]. rewrite forallb_app, IH.
  pose proof (Z.mod_pos_bound v 10 ltac:(lia)) as H. cbn [forallb]. rewrite andb_true_r. cbn [andb].
  assert (v mod 10 = 0 \/ v mod 10 = 1 \/ v mod 10 = 2 \/ v mod 10 = 3 \/ v mod 10 = 4 \/ v mod 10 = 5 \/
          v mod 10 = 6 \/ v mod 10 = 7 \/ v mod 10 = 8 \/ v mod 10 = 9) as Hv by lia.
  by repeat destruct Hv as [-> | Hv]; [..|rewrite Hv].
Qed.

Lemma zulu_tame t : tame_text (of_chars (iso_with ["Z"%char] t)) = true.
Proof.
  unfold tame_text, all_chars. rewrite chars_of_chars. unfold iso_with.
  destruct (civil_from_days (t / DAY)) as [[y m] d].
  repeat first [rewrite forallb_app | rewrite pad_digits_tame | progress cbn [forallb]].
  destruct (t mod DAY mod US =? 0); [done|]. cbn [forallb]. by rewrite pad_digits_tame.
Qed.

Lemma image_digest_tame s : is_image_digest s = true -> tame_text s = true.
Proof.
  unfold is_image_digest, tame_text, all_chars. intros H.
  destruct (strip_prefix (chars "sha256:") (chars s)) as [r|] eqn:E; [|done].
  apply strip_prefix_spec in E as ->. apply andb_prop in H as [_ H].
  rewrite forallb_app. eapply forallb_weaken in H; [by rewrite H | apply hex_tame].
Qed.

Lemma with_point_tame ds dot : forallb tame ds = true -> forallb tame (with_point ds dot) = true.
Proof.
  intros Hd. unfold with_point. repeat case_match.
  - by rewrite !forallb_app, replicate_zero_tame, Hd.
  - by rewrite forallb_app, replicate_zero_tame, Hd.
  - rewrite forallb_app. cbn [forallb]. by rewrite forallb_firstn, forallb_skipn.
Qed.

Lemma decimal_str_tame d : is_finite d = true -> tame_text (decimal_str d) = true.
Proof.
  destruct d as [c e| |]; [|done..]. intros _. unfold tame_text, all_chars. cbn [decimal_str]. cbv zeta.
  rewrite chars_of_chars, !forallb_app, with_point_tame by (apply digits_tame; lia).
  assert (forall k, forallb tame (exponent_text k) = true) as ->.
  { intros k. unfold exponent_text. repeat case_match; [done|..]; rewrite chars_app, forallb_app, int_text_tame; done. }
  by case_match.
Qed.

(** Every free text of an attempt and of an observation's evidence. *)
Definition attempt_identifiers (a : ProviderAttemptIdentity) : list string :=
  [pa_run_id a; pa_attempt_id a; ri_resource_id (pa_resource a); ri_resource_name (pa_resource a);
   pa_provider_operation_id a].

Definition option_list {A} (o : option A) : list A := match o with Some a => [a] | None => [] end.

Definition observation_identifiers (o : PhaseObservation) (run_id : string) : list string :=
  (run_id :: po_state_transitions o ++ option_list (po_provider o) ++ option_list (po_model o) ++
   concat (map attempt_identifiers (po_provider_attempts o)))%list.

Definition harmless (l : list string) : bool := forallb (fun s => negb (sensitive_value s)) l.

Lemma harmless_app l k : harmless (l ++ k) = harmless l && harmless k.
Proof. apply forallb_app. Qed.

Lemma free_text s depth : depth <= 64 -> content_free depth (JStr s) = negb (sensitive_value s).
Proof. intros H. cbn [content_free]. unfold MAX_EVIDENCE_DEPTH. by rewrite (proj2 (Z.leb_le _ _)). Qed.

Lemma free_object depth l :
  depth <= 64 ->
  content_free depth (JObj l) =
  forallb (fun p => negb (sensitive_evidence_key (fst p)) && content_free (depth + 1) (snd p)) l.
Proof. intros H. cbn [content_free]. unfold MAX_EVIDENCE_DEPTH. by rewrite (proj2 (Z.leb_le _ _)). Qed.

Lemma free_int z depth : depth <= 64 -> content_free depth (JInt z) = true.
Proof. intros H. cbn [content_free]. unfold MAX_EVIDENCE_DEPTH. by rewrite (proj2 (Z.leb_le _ _)). Qed.

Lemma free_tame s depth : depth <= 64 -> tame_text s = true -> content_free depth (JStr s) = true.
Proof. intros Hd Hs. rewrite free_text by done. by rewrite tame_not_sensitive. Qed.

Lemma free_digest o depth : depth <= 64 -> optional_sha256 o = true -> content_free depth (opt_str o) = true.
Proof.
  intros Hd Ho. destruct o as [s|]; cbn [opt_str opt_json].
  - apply free_tame; [done | by apply image_digest_tame].
  - cbn. unfold MAX_EVIDENCE_DEPTH. by rewrite (proj2 (Z.leb_le _ _)).
Qed.

Lemma free_cost o depth : depth <= 64 -> option_all (fun d => is_finite d && dle dzero d) o = true ->
  content_free depth (opt_cost o) = true.
Proof.
  intros Hd Ho. destruct o as [d|]; cbn [opt_cost opt_json].
  - apply free_tame; [done|]. apply decimal_str_tame. by apply andb_prop in Ho as [? _].
  - cbn. unfold MAX_EVIDENCE_DEPTH. by rewrite (proj2 (Z.leb_le _ _)).
Qed.

Lemma free_option o depth : depth <= 64 -> content_free depth (opt_str o) = harmless (option_list o).
Proof.
  intros Hd. destruct o as [s|]; cbn [opt_str opt_json option_list].
  - rewrite free_text by done. cbn. by rewrite andb_true_r.
  - cbn. unfold MAX_EVIDENCE_DEPTH. by rewrite (proj2 (Z.leb_le _ _)).
Qed.

Lemma free_texts l depth : depth < 64 -> content_free depth (jstrs l) = harmless l.
Proof.
  intros Hd. cbn [jstrs content_free]. unfold MAX_EVIDENCE_DEPTH. rewrite (proj2 (Z.leb_le _ _)) by lia. cbn [andb].
  induction l as [|s l IH]; [done|]. cbn [map forallb]. rewrite IH, free_text by lia. done.
Qed.

Lemma free_digests l depth : depth < 64 -> forallb is_image_digest l = true -> content_free depth (jstrs l) = true.
Proof.
  intros Hd Hl. rewrite free_texts by done. eapply forallb_weaken; [|exact Hl].
  intros s Hs. by rewrite tame_not_sensitive by (by apply image_digest_tame).
Qed.

Lemma free_phase (p : DogfoodPhase) depth : depth <= 64 -> content_free depth (JStr (enum_value p)) = true.
Proof. intros Hd. rewrite free_text by done. by destruct p; vm_compute. Qed.

Lemma free_timings (l : list (string * Z)) depth :
  depth < 64 -> forallb (fun p => bool_decide (fst p ∈ OPERATIONAL_TIMING_FIELDS) && (0 <=? snd p)) l = true ->
  content_free depth (JObj (sort_keys (map (fun p => (fst p, JInt (snd p))) l))) = true.
Proof.
  intros Hd Hl. rewrite free_object by lia.
  apply List.forallb_forall. intros [k v] Hin.
  eapply Permutation_in in Hin; [|apply sort_keys_perm]. apply in_map_iff in Hin as ([k' z] & [= <- <-] & Hin).
  rewrite List.forallb_forall in Hl. apply Hl, andb_prop in Hin as [Hk _]. cbn [fst] in Hk.
  apply bool_decide_eq_true in Hk. cbn [fst snd]. rewrite free_int, andb_true_r by lia.
  unfold OPERATIONAL_TIMING_FIELDS in Hk. repeat (apply elem_of_cons in Hk as [-> | Hk]; [by vm_compute|]).
  by apply elem_of_nil in Hk.
Qed.

(** The keys of a written-out document are not sensitive. *)
Ltac known_keys :=
  repeat match goal with
  | |- context [sensitive_evidence_key ?k] =>
      let v := eval vm_compute in (sensitive_evidence_key k) in change (sensitive_evidence_key k) with v
  end; cbn [negb andb].

Lemma free_attempt a depth :
  depth <= 60 -> check_attempt a = Ok tt ->
  content_free depth (JObj (stored_attempt a)) = harmless (attempt_identifiers a).
Proof.
  intros Hd Hc. apply check_attempt_facts in Hc as (_ & Hg & _ & _). cbn [forallb] in Hg. split_bools.
  rewrite free_object by lia. unfold stored_attempt, zulu. cbn [forallb fst snd].
  rewrite (free_object _ (identity_payload _)) by lia. unfold identity_payload. cbn [forallb fst snd]. known_keys.
  rewrite (free_tame (pa_plan_digest a)), (free_tame (pa_quote_digest a)), (free_tame (pa_exclusive_window_sha256 a))
    by (lia || by apply image_digest_tame).
  rewrite !(free_tame (of_chars _)) by (lia || apply zulu_tame). rewrite free_phase by lia.
  rewrite !free_text by lia. unfold attempt_identifiers, harmless. cbn [forallb].
  assert (negb (sensitive_value (enum_value (pa_lane a))) = true) as -> by (by destruct (pa_lane a); vm_compute).
  assert (negb (sensitive_value (enum_value (ri_resource_type (pa_resource a)))) = true) as ->
    by (by destruct (ri_resource_type (pa_resource a)); vm_compute).
  cbn [andb]. by rewrite ?andb_true_r, ?andb_assoc.
Qed.

Lemma free_attempts l depth :
  depth < 60 -> Forall (fun a => check_attempt a = Ok tt) l ->
  content_free depth (JList (map (fun a => JObj (stored_attempt a)) l)) =
  harmless (concat (map attempt_identifiers l)).
Proof.
  intros Hd Hl. cbn [content_free]. unfold MAX_EVIDENCE_DEPTH. rewrite (proj2 (Z.leb_le _ _)) by lia. cbn [andb].
  induction Hl as [|a l Ha _ IH]; [done|].
  cbn [map forallb concat]. by rewrite harmless_app, IH, free_attempt by (lia || done).
Qed.

Lemma attempts_payload_of l :
  Forall (fun a => check_attempt a = Ok tt) l ->
  rmap (fun a => let! x := attempt_payload a in Ok (JObj x)) l = Ok (map (fun a => JObj (stored_attempt a)) l).
Proof.
  induction 1 as [|a l Ha _ IH]; [done|]. cbn [rmap map]. rewrite attempt_payload_of by done. cbn [rbind]. by rewrite IH.
Qed.

Lemma binding_payload_of o :
  Forall (fun a => check_attempt a = Ok tt) (po_provider_attempts o) -> exists binding, binding_payload o = Ok binding.
Proof. intros Ha. unfold binding_payload. rewrite attempts_payload_of by done. cbn [rbind]. eauto. Qed.

(** The evidence document of an observation before its screening. *)
Definition evidence_document (o : PhaseObservation) (run_id : string) (t : instant) (binding : fields) : fields :=
  ([("contract", JStr DOGFOOD_CONTRACT); ("event", JStr "phase_observation"); ("run_id", JStr run_id);
    ("observed_at", zulu t)] ++ binding)%list.

Lemma free_evidence o run_id t binding :
  check_observation o = Ok tt -> Forall (fun a => check_attempt a = Ok tt) (po_provider_attempts o) ->
  binding_payload o = Ok binding ->
  content_free 0 (JObj (evidence_document o run_id t binding)) = harmless (observation_identifiers o run_id).
Proof.
  intros Hc Ha Hb. unfold binding_payload in Hb. rewrite attempts_payload_of in Hb by done.
  cbn [rbind] in Hb. injection Hb as <-.
  unfold check_observation in Hc. ensure_inv. cbn [forallb observation_digests] in *. split_bools.
  rewrite free_object by lia. unfold evidence_document, zulu. cbn [app forallb fst snd]. known_keys.
  assert (content_free (0 + 1) (JStr DOGFOOD_CONTRACT) = true) as -> by (by vm_compute).
  assert (content_free (0 + 1) (JStr "phase_observation") = true) as -> by (by vm_compute).
  rewrite (free_tame (of_chars _)) by (lia || apply zulu_tame).
  rewrite free_phase, free_timings, (free_digests (po_artifact_digests o)), !free_cost, !free_int by (lia || done).
  rewrite (free_digest (po_billing_receipt_digest o)), (free_digest (po_trained_weight_digest o)),
    (free_digest (po_promoted_weight_digest o)), (free_digest (po_weight_digest_used o)),
    (free_digest (po_output_image_digest o)), (free_digest (po_uploaded_artifact_digest o)),
    (free_digest (po_recovered_artifact_digest o)), (free_digest (po_recovered_resource_plan_digest o))
    by (lia || done).
  rewrite !free_option, free_texts, free_attempts, free_text by (lia || done).
  unfold observation_identifiers. change (harmless (run_id :: ?l)) with (negb (sensitive_value run_id) && harmless l).
  rewrite !harmless_app. cbn [andb]. by rewrite ?andb_true_r.
Qed.

(** C39. A valid observation with valid attempts becomes evidence exactly when the run ID
    is a safe identifier, the moment is representable and no free text of it, its run ID,
    transitions, provider, model and the identifiers of its attempts, looks like a
    credential or a URL; the evidence is then the fixed header followed by the very
    projection that receipts bind. Digests, amounts and moments never stand in the way. *)
Theorem observation_evidence_exact o run_id t evidence :
  check_observation o = Ok tt -> Forall (fun a => check_attempt a = Ok tt) (po_provider_attempts o) ->
  to_evidence o run_id t = Ok evidence <->
  signed_identifier run_id = true /\ representable t /\
  Forall (fun s => sensitive_value s = false) (observation_identifiers o run_id) /\
  exists binding, binding_payload o = Ok binding /\ evidence = evidence_document o run_id t binding.
Proof.
  intros Hc Ha.
  assert (Hf : harmless (observation_identifiers o run_id) = true <->
               Forall (fun s => sensitive_value s = false) (observation_identifiers o run_id)).
  { unfold harmless. rewrite List.forallb_forall, List.Forall_forall.
    split; intros H s Hs; specialize (H s Hs); [by apply negb_true_iff | by apply negb_true_iff]. }
  rewrite <- Hf. split.
  - intros H. unfold to_evidence in H. ensure_inv.
    match goal with Hx : binding_payload o = Ok ?b |- _ => rename Hx into Hb;
      match goal with Hy : content_free _ _ = true |- _ => rename Hy into Hs end;
      change (content_free 0 (JObj (evidence_document o run_id t b)) = true) in Hs;
      rewrite (free_evidence _ _ _ _ Hc Ha Hb) in Hs end.
    split_and!; eauto.
  - intros (Hr & Ht & Hs & b & Hb & ->). unfold to_evidence. rewrite Hr, dogfood_iso_of, Hb by done. cbn [ensure require rbind].
    fold (zulu t). fold (evidence_document o run_id t b). rewrite (free_evidence _ _ _ _ Hc Ha Hb), Hs. done.
Qed.

(** ** Identifiers that look like credentials *)

(** What is left of the patterns when a text has no space, slash or equals sign. *)
Definition CREDENTIAL_WORDS : list string :=
  ["apikey:"; "api_key:"; "api-key:"; "token:"; "password:"; "secret:"; "signature:"].

Definition names_credential (s : string) : bool :=
  existsb (fun word => contains (chars word) (chars (lower s))) CREDENTIAL_WORDS.

Definition ident_lower (c : ascii) : bool :=
  is_lower c || is_digit c || bool_decide (code c ∈ [46; 95; 58; 64; 43; 45]).

Lemma lower_ident c : is_signed_ident c = true -> ident_lower (lower_char c) = true.
Proof. destruct c as [[] [] [] [] [] [] [] []]; vm_compute; congruence. Qed.

Lemma ident_char c : ident_lower c = true ->
  is_space c = false /\ (code c =? 47) = false /\
  ((code c =? 61) || (code c =? 58)) = bool_decide (":"%char = c) /\
  ((code c =? 95) || (code c =? 45)) = bool_decide ("_"%char = c) || bool_decide ("-"%char = c).
Proof. destruct c as [[] [] [] [] [] [] [] []]; vm_compute; intuition congruence. Qed.

Lemma strip_prefix_app p q l :
  strip_prefix (p ++ q) l = match strip_prefix p l with Some r => strip_prefix q r | None => None end.
Proof. revert l. induction p as [|a p IH]; [done|]. intros [|b l]; [done|]. cbn. by case_match. Qed.

Lemma assigns_ident l : forallb ident_lower l = true -> assigns l = is_some (strip_prefix [":"%char] l).
Proof.
  destruct l as [|c r]; [done|]. cbn [forallb]. intros H. apply andb_prop in H as [Hc _].
  apply ident_char in Hc as (Hs & _ & Ha & _). unfold assigns. cbn [drop_while strip_prefix]. rewrite Hs, Ha.
  by destruct (bool_decide (":"%char = c)).
Qed.

Lemma follows_assigns w l :
  forallb ident_lower l = true -> follows w l assigns = is_some (strip_prefix (chars w ++ [":"%char]) l).
Proof.
  intros Hl. unfold follows. rewrite strip_prefix_app.
  destruct (strip_prefix (chars w) l) as [r|] eqn:E; [|done].
  apply strip_prefix_spec in E as ->. rewrite forallb_app in Hl. apply andb_prop in Hl as [_ Hr].
  by apply assigns_ident.
Qed.

Lemma follows_false w l rest : (forall r, l = (chars w ++ r)%list -> rest r = false) -> follows w l rest = false.
Proof.
  intros H. unfold follows. destruct (strip_prefix (chars w) l) as [r|] eqn:E; [|done].
  apply strip_prefix_spec in E. by apply H.
Qed.

Lemma ident_cons_inv c l :
  forallb ident_lower (c :: l) = true -> ident_lower c = true /\ forallb ident_lower l = true.
Proof. apply andb_prop. Qed.

Lemma strip_cons a p c l :
  strip_prefix (a :: p) (c :: l) = if bool_decide (a = c) then strip_prefix p l else None.
Proof. done. Qed.

Lemma follows_key l :
  forallb ident_lower l = true ->
  follows "key" (match l with c :: k => if (code c =? 95) || (code c =? 45) then k else l | [] => l end) assigns =
  is_some (strip_prefix (chars "key:") l) || is_some (strip_prefix (chars "_key:") l) ||
  is_some (strip_prefix (chars "-key:") l).
Proof.
  intros Hl. destruct l as [|c k]; [done|]. apply ident_cons_inv in Hl as Hk. destruct Hk as [Hc Hk].
  apply ident_char in Hc as (_ & _ & _ & ->).
  change (chars "_key:") with ("_"%char :: chars "key:"). change (chars "-key:") with ("-"%char :: chars "key:").
  rewrite (strip_cons "_"), (strip_cons "-").
  destruct (bool_decide_reflect ("_"%char = c)) as [<-|N1]; [|destruct (bool_decide_reflect ("-"%char = c)) as [<-|N2]];
    cbn [orb]; rewrite follows_assigns by done; change (chars "key" ++ [":"%char])%list with (chars "key:").
  - by rewrite bool_decide_eq_false_2, orb_false_r by done.
  - done.
  - by rewrite !orb_false_r.
Qed.

Lemma ident_here before l :
  forallb ident_lower l = true ->
  sensitive_here before l = existsb (fun w => is_some (strip_prefix (chars w) l)) CREDENTIAL_WORDS.
Proof.
  intros Hl. unfold sensitive_here, CREDENTIAL_WORDS. cbn [existsb].
  assert (Hr : forall w r, l = (chars w ++ r)%list -> forallb ident_lower r = true).
  { intros w r ->. rewrite forallb_app in Hl. by apply andb_prop in Hl as [_ ?]. }
  rewrite (follows_false "http").
  2:{ intros r Hx. apply Hr in Hx. apply orb_false_iff.
      split; apply (follows_missing ident_lower); [done | by vm_compute | done | by vm_compute]. }
  rewrite (follows_false "bearer"), andb_false_r, !follows_assigns; try exact Hl.
  2:{ intros [|c r] Hx; [done|]. apply Hr, ident_cons_inv in Hx as [Hc _]. by apply ident_char in Hc as (? & _). }
  assert (Ha : forall f, (forall r, l = (chars "api" ++ r)%list -> f r =
      is_some (strip_prefix (chars "key:") r) || is_some (strip_prefix (chars "_key:") r) ||
      is_some (strip_prefix (chars "-key:") r)) -> follows "api" l f =
    is_some (strip_prefix (chars "apikey:") l) || is_some (strip_prefix (chars "api_key:") l) ||
    is_some (strip_prefix (chars "api-key:") l)).
  { intros f Hf. unfold follows. change (chars "apikey:") with (chars "api" ++ chars "key:")%list.
    change (chars "api_key:") with (chars "api" ++ chars "_key:")%list.
    change (chars "api-key:") with (chars "api" ++ chars "-key:")%list. rewrite !strip_prefix_app.
    destruct (strip_prefix (chars "api") l) as [r|] eqn:E; [|done].
    apply strip_prefix_spec in E. by apply Hf. }
  rewrite Ha by (intros r Hx; apply follows_key; by apply (Hr "api")).
  cbn [orb]. by rewrite !orb_false_r, !orb_assoc.
Qed.

Lemma existsb_orb {A} (f g : A -> bool) l : existsb (fun x => f x || g x) l = existsb f l || existsb g l.
Proof. induction l as [|a l IH]; [done|]. cbn [existsb]. rewrite IH. by destruct (f a), (g a), (existsb f l). Qed.

Lemma ident_from before l :
  forallb ident_lower l = true ->
  sensitive_from before l = existsb (fun w => contains (chars w) l) CREDENTIAL_WORDS.
Proof.
  revert before. induction l as [|c l IH]; intros before Hl; cbn [sensitive_from]; rewrite ident_here by done; [done|].
  apply ident_cons_inv in Hl as [_ Hk]. rewrite IH, <- existsb_orb by done. done.
Qed.

(** A safe identifier looks like a credential exactly when, letter case apart, it names
    one before a colon. *)
Theorem safe_identifier_is_sensitive s :
  signed_identifier s = true -> sensitive_value s = names_credential s.
Proof.
  intros Hs. unfold signed_identifier in Hs. split_bools. apply ident_from. unfold lower. rewrite chars_of_chars.
  match goal with H : all_chars is_signed_ident s = true |- _ => unfold all_chars in H; revert H end.
  induction (chars s) as [|c l IH]; [done|]. cbn [map forallb]. rewrite !andb_true_iff. intros [Hc Hl].
  split; [by apply lower_ident | by apply IH].
Qed.

(** ** Errors *)

(** A value or the module's own error. *)
Definition only_dogfood {A} (m : result A) : Prop := match m with Exc e => e = DogfoodSafetyError | Ok _ => True end.

Lemma dogfood_bind {A B} (m : result A) (f : A -> result B) :
  only_dogfood m -> (forall a, only_dogfood (f a)) -> only_dogfood (rbind m f).
Proof. destruct m; cbn; auto. Qed.

Lemma dogfood_rmap {A B} (f : A -> result B) l : (forall a, only_dogfood (f a)) -> only_dogfood (rmap f l).
Proof.
  intros Hf. induction l as [|a l IH]; [done|]. cbn [rmap].
  apply dogfood_bind; [apply Hf|]. intros. by apply dogfood_bind.
Qed.

Lemma dogfood_ensure b : only_dogfood (ensure b).
Proof. by destruct b. Qed.

Lemma dogfood_boundary {A} (m : result A) : only_dogfood (contract_boundary m).
Proof. by destruct m. Qed.

Lemma dogfood_option {A} (o : option A) : only_dogfood (of_option o DogfoodSafetyError).
Proof. by destruct o. Qed.

Lemma dogfood_list_error v : only_dogfood (dogfood_list v).
Proof. by destruct v. Qed.

Ltac dogfood_steps :=
  repeat first
    [ apply dogfood_bind; [|intros ?] | apply dogfood_rmap; intros ? | apply dogfood_ensure
    | apply dogfood_boundary | apply dogfood_option | apply dogfood_list_error | exact I | progress cbv zeta ].

Lemma dogfood_enum_error `{PyEnum A} v : only_dogfood (dogfood_enum (A := A) v).
Proof. unfold dogfood_enum. dogfood_steps. Qed.

Lemma identity_error v : only_dogfood (identity_from_payload v).
Proof. unfold identity_from_payload, check_identity. dogfood_steps; apply dogfood_enum_error. Qed.

Lemma expected_error v : only_dogfood (expected_from_payload v).
Proof. unfold expected_from_payload, check_expected. dogfood_steps; apply dogfood_enum_error. Qed.

Lemma plan_error v : only_dogfood (resource_plan_from_payload v).
Proof.
  unfold resource_plan_from_payload, mk_resource_plan.
  dogfood_steps; first [apply dogfood_enum_error | apply expected_error].
Qed.

Lemma attempt_error v : only_dogfood (attempt_from_payload v).
Proof.
  unfold attempt_from_payload, check_attempt.
  dogfood_steps; first [apply dogfood_enum_error | apply identity_error].
Qed.

Lemma evidence_error o run_id t : only_dogfood (to_evidence o run_id t).
Proof. unfold to_evidence, binding_payload, attempt_payload. dogfood_steps. Qed.

(** Reading any stored document, checking any value and building any evidence or digest
    raises nothing but the module's own error. *)
Theorem dogfood_errors_only `{Digest} v q o p run_id t :
  only_dogfood (identity_from_payload v) /\ only_dogfood (expected_from_payload v) /\
  only_dogfood (resource_plan_from_payload v) /\ only_dogfood (attempt_from_payload v) /\
  only_dogfood (check_spend_quote q) /\ only_dogfood (spend_quote_digest q) /\
  only_dogfood (resource_plan_digest p) /\ only_dogfood (check_observation o) /\
  only_dogfood (to_evidence o run_id t).
Proof.
  split_and!; eauto using identity_error, expected_error, plan_error, attempt_error, evidence_error.
  - unfold check_spend_quote. dogfood_steps.
  - unfold spend_quote_digest. dogfood_steps.
  - unfold resource_plan_digest. dogfood_steps.
  - unfold check_observation. dogfood_steps.
Qed.

(** ** Spend quotes *)

(** A valid spend quote prices a positive amount within its cap, is open for at most five
    minutes, and can be written down. *)
Theorem spend_quote_is_bounded q :
  check_spend_quote q = Ok tt ->
  dlt dzero (sp_estimated_cost_usd q) = true /\ dle (sp_estimated_cost_usd q) (sp_hard_cap_usd q) = true /\
  sp_observed_at q < sp_expires_at q <= sp_observed_at q + seconds 300 /\
  exists body, spend_quote_payload q = Ok body.
Proof.
  intros H. unfold check_spend_quote in H. cbv zeta in H. ensure_inv. cbn [forallb] in *. split_bools.
  split_and!; [done..|]. unfold spend_quote_payload. rewrite !dogfood_iso_of by done. cbn [rbind]. eauto.
Qed.

(** ** One run *)

Module DogfoodScenario.

Definition hash : string := "sha256:" ++ of_chars (replicate 64 "a"%char).
Definition now : instant := 1790000000 * US.

Definition pod : ResourceIdentity :=
  {| ri_resource_type := RT_POD; ri_resource_id := "pod-1"; ri_resource_name := "kite-run-1" |}.

Definition planned : ExpectedResource :=
  {| xr_resource_type := RT_POD; xr_resource_name := "kite-run-1"; xr_lane := LANE_OLLAMA |}.

Definition plan : ResourcePlan :=
  {| rp_run_id := "run-1"; rp_phase := OLLAMA_ACQUIRE; rp_lane := LANE_OLLAMA; rp_plan_id := "plan-1";
     rp_cleanup_family_id := "family-1"; rp_expected_resources := [planned]; rp_initial_resources := [planned] |}.

Definition attempt : ProviderAttemptIdentity :=
  {| pa_run_id := "run-1"; pa_attempt_id := "attempt-1"; pa_phase := OLLAMA_ACQUIRE; pa_lane := LANE_OLLAMA;
     pa_plan_digest := hash; pa_quote_digest := hash; pa_resource := pod;
     pa_provider_operation_id := "operation-1"; pa_exclusive_window_sha256 := hash;
     pa_started_at := now; pa_completed_at := now + seconds 90 |}.

Definition quote : SpendQuote :=
  {| sp_run_id := "run-1"; sp_lane := LANE_OLLAMA; sp_quote_id := "quote-1"; sp_estimated_cost_usd := Fin 18 (-2);
     sp_hard_cap_usd := Fin 5 (-1); sp_observed_at := now; sp_expires_at := now + seconds 300;
     sp_operation_digest := None; sp_provider_quote_sha256 := Some hash; sp_endpoint_plan_sha256 := None |}.

Definition observation (transitions : list string) : PhaseObservation :=
  {| po_phase := OLLAMA_ACQUIRE; po_state_transitions := transitions;
     po_timings_ms := [("total", 90000); ("image_pull", 20000)]; po_artifact_digests := [hash];
     po_estimated_cost_usd := Some (Fin 18 (-2)); po_actual_cost_usd := Some (Fin 1 (-7));
     po_billing_receipt_digest := None; po_provider := Some "runpod"%string; po_model := Some "llama3:8b"%string;
     po_product_consent_count := 1; po_trained_weight_digest := None; po_promoted_weight_digest := None;
     po_weight_digest_used := None; po_output_image_digest := None; po_uploaded_artifact_digest := None;
     po_recovered_artifact_digest := None; po_recovered_resource_plan_digest := None;
     po_provider_ack_interruption_count := 0; po_recovery_count := 0; po_publication_count := 0;
     po_promotion_count := 0; po_provider_attempts := [attempt] |}.

Lemma attempts_valid : Forall (fun a => check_attempt a = Ok tt) [attempt].
Proof. constructor; [by vm_compute | constructor]. Qed.

Lemma observation_evidence_exact_witness :
  exists evidence, to_evidence (observation ["requested"; "ready"]) "run-1" now = Ok evidence.
Proof.
  destruct (binding_payload_of (observation ["requested"; "ready"]) attempts_valid) as [b Hb].
  exists (evidence_document (observation ["requested"; "ready"]) "run-1" now b).
  apply (observation_evidence_exact (observation ["requested"; "ready"]) "run-1" now); [by vm_compute | exact attempts_valid |].
  split.
  { by vm_compute. }
  split.
  { split; by vm_compute. }
  split.
  2:{ exists b. split; [exact Hb | exact eq_refl]. }
  apply List.Forall_forall. intros s Hs. apply negb_true_iff. revert s Hs. apply List.forallb_forall. by vm_compute.
Defined.

Lemma dogfood_contracts_read_back_witness :
  identity_from_payload (JObj (identity_payload pod)) = Ok pod /\
  expected_from_payload (JObj (expected_payload planned)) = Ok planned /\
  (exists l, attempt_payload attempt = Ok l /\ attempt_from_payload (JObj l) = Ok attempt) /\
  resource_plan_from_payload (JObj (resource_plan_payload plan)) = Ok plan.
Proof.
  apply (dogfood_contracts_read_back pod planned attempt "run-1" OLLAMA_ACQUIRE LANE_OLLAMA "plan-1" "family-1"
           [planned] None); [by vm_compute.. | | by vm_compute].
  constructor; [by vm_compute | constructor].
Defined.

Lemma spend_quote_is_bounded_witness : exists body, spend_quote_payload quote = Ok body.
Proof. apply (spend_quote_is_bounded quote). by vm_compute. Defined.

(** The projection of a valid observation, documented as content-free and bound by the
    receipt, can hold a text that the evidence of that same observation is refused for. *)
Theorem bound_projection_can_be_refused :
  check_observation (observation ["token:rotated"]) = Ok tt /\
  (exists binding, binding_payload (observation ["token:rotated"]) = Ok binding) /\
  to_evidence (observation ["token:rotated"]) "run-1" now = Exc DogfoodSafetyError.
Proof. split_and!; [by vm_compute | apply binding_payload_of, attempts_valid | by vm_compute]. Qed.

End DogfoodScenario.

End DogfoodContracts.
